(* ===== verification/_CoqProject ===== *)
-Q . S2P
Prelude.v
Arrays.v
Errors.v
Status.v
Config.v
Model.v
Versions.v
HostNames.v
Store.v
Resources.v
Providers.v
Fixtures.v
ClusterService.v
ClusterManager.v
ClusterLifecycle.v
ClusterRemoval.v
DataPlaneCluster.v
Placement.v
Scaling.v
ClusterSystem.v
KafkaService.v
QuotaList.v
Transitions.v
DataPlaneKafka.v
Workers.v
KafkaManager.v
Promotion.v
Scanner.v
StateMachine.v
QueryParser.v
Search.v
Listing.v
LeaderElection.v
Validation.v
KafkaHandlers.v
Lifecycle.v
Catalog.v
ClusterHandlers.v
AmsQuota.v
ConnectorModel.v
ConnectorStore.v
ConnectorNamespaces.v
ConnectorClusters.v
Connectors.v
ConnectorTypes.v
ConnectorWorkers.v
ConnectorSystem.v
ConnectorHandlers.v
Secrets.v
Middlewares.v
Routes.v
Certificates.v
ManagedKafkas.v
SignalBus.v
Reconciler.v
Keycloak.v
RedHatSso.v
ServiceAccounts.v
Vault.v
ConnectorSecrets.v
ConnectorResolution.v
