(* ===== verification/Prelude.v ===== *)
(** * The Kafka fleet manager: a model and its correctness

    kas-fleet-manager is the control plane of a managed Kafka service.  Users ask
    for Kafkas through a REST API; the control plane accepts a request when quota,
    the region's limit and (outside dynamic scaling) a data plane cluster admit
    it, stores it in PostgreSQL, and periodic workers move it through its life.
    An operator on each data plane cluster reports what became of its Kafkas and
    of the cluster, and other workers register, terraform, scale and deprovision
    whole clusters.  Replicas of the program elect a leader for each worker.
    The same binary holds the connector fleet manager, in which tenants run
    connectors in namespaces of connector clusters.  This library models both
    cores from [src/internal/kafka], [src/internal/connector] and [src/pkg], and
    proves what makes them correct.

    ** Parts, and the files that model them

    - [Prelude] (this file): results of fallible Go functions, machine-width
      integers, the zero values and string functions of Go, the tactics and the
      hint databases of the library.
    - [Arrays]: the slice and string helpers of [src/pkg/shared].
    - [Errors]: service errors, their registry and error lists
      ([src/pkg/errors/errors.go]).
    - [Status]: statuses of Kafkas and clusters, their order and groups
      ([src/internal/kafka/constants/kafka.go], [src/pkg/api/cluster_types.go]).
    - [Config]: instance types and sizes, region limits, the manual cluster list,
      scaling modes, and the validation of all these
      ([src/internal/kafka/internal/config]).
    - [Model]: the persisted structs [KafkaRequest] (module [KR]) and [Cluster]
      (module [CL]) with their methods.
    - [Versions]: semantic and Strimzi versions, the deep sort
      ([src/pkg/api/semverutil.go], [cluster_types.go]).
    - [HostNames]: DNS names of Kafkas ([services/util.go]).
    - [Store]: the tables, the statements that gorm executes on them as the class
      [Database], and the state and error monad [M] of the handlers.
    - [Fixtures]: the small deployment on which the witnesses run.
    - Clusters.  [Resources]: the objects applied to a cluster (the builders of
      [clusters_mgr.go] and [standalone_provider.go]); [Providers]: the providers
      of [internal/kafka/internal/clusters]; [ClusterService]:
      [services/clusters.go]; [ClusterManager]: the workers of
      [workers/cluster_mgrs] that follow a cluster from acceptance to removal,
      with the add-on of [services/kas_fleetshard_operator_addon.go];
      [DataPlaneCluster]: the reports of [services/data_plane_cluster.go];
      [ClusterLifecycle] and [ClusterRemoval]: what these do to the table of
      clusters, one pass at a time; [ClusterSystem]: these, the scaling workers,
      the reports and the registrations as one relation.
    - [Placement]: [services/cluster_placement_strategy.go]; [Scaling]:
      [workers/cluster_mgrs/dynamic_scale_up_mgr.go] and
      [dynamic_scale_down_mgr.go].
    - Kafkas.  [KafkaService]: [services/kafka.go]; [DataPlaneKafka]:
      [services/data_plane_kafka.go]; [Workers]: the seven reconcilers of
      [workers/kafka_mgrs]; [KafkaManager]: [kafkas_mgr.go] of that directory;
      [Promotion]: the promotion worker and its chain of actions.
    - [QuotaList]: the quota management list ([src/pkg/quota_management] and
      [services/quota/quota_management_list_service.go]); [AmsQuota]: the quota of
      the account management service ([services/quota/ams_quota_service.go] and
      the billing model resolvers of [services/quota/internal/utils]).
    - REST.  [Validation]: the frame of the handlers, the claims of a token and
      the validators ([src/pkg/handlers], [src/pkg/auth/kfm_claims.go],
      [handlers/validation.go]); [KafkaHandlers]: the handlers of Kafkas for users
      and administrators with their presenters; [Catalog]: cloud providers,
      regions and instance types; [ClusterHandlers]: enterprise clusters;
      [ManagedKafkas]: what the agents of the clusters are told and report
      ([handlers/data_plane_kafka.go], [data_plane_cluster.go], the custom
      resources of [services/kafka.go]).
    - Admission of requests.  [Middlewares]: claims, roles, issuers, terms, access
      lists and the audit log ([src/pkg/auth], [src/pkg/acl]); [Routes]: the route
      tables of both APIs, each route behind its middlewares.
    - [Certificates]: TLS certificates, their storages and revocation
      ([services/kafkatlscertmgmt]).
    - Single sign-on.  [Keycloak]: the client of Keycloak and the service on it
      ([src/pkg/client/keycloak], [src/pkg/services/sso/keycloak_service.go]);
      [RedHatSso]: the same for sso.redhat.com ([src/pkg/client/redhatsso],
      [redhatsso_service.go]); [ServiceAccounts]: the proxy over both, and the
      handlers of service accounts.
    - [Transitions]: what an operation may do to the rows of the Kafka table, the
      vocabulary shared by [DataPlaneKafka], [Workers] and [KafkaManager].
    - [Lifecycle]: registration, deprovisioning, updates and promotion by users
      and administrators, the reports, and every worker of Kafkas as the steps of
      one relation.
    - Searching and listing.  [Scanner] and [StateMachine]:
      [src/pkg/shared/utils/stringscanner] and [state_machine]; [QueryParser] and
      [Search]: [src/pkg/services/queryparser]; [Listing]: the arguments of a
      listing ([src/pkg/services/types.go]) and [kafkaService.List].
    - Workers.  [LeaderElection]: the leases of
      [src/pkg/workers/leader_election_mgr.go] and the workers they start and stop;
      [Reconciler]: the loop of a worker and the calls that wake it
      ([reconciler.go]); [SignalBus]: [src/pkg/services/signalbus].

    - Connectors ([src/internal/connector/internal]).  [ConnectorModel]: entities
      and phase machines; [ConnectorStore]: tables, transactions and the actions
      after a commit; [ConnectorNamespaces], [ConnectorClusters], [Connectors] and
      [ConnectorTypes]: the services; [ConnectorWorkers]: the passes of the
      workers; [ConnectorSystem]: the workers, the agents and the deletions of
      users as one relation; [ConnectorHandlers]: authorisation and the handlers
      of namespaces, clusters, agents and administrators.
    - Secrets of connectors.  [Vault]: the vault in memory and the one of AWS
      ([services/vault]); [Secrets]: the password fields of a schema and the change
      of a document at them ([src/pkg/shared/secrets]); [ConnectorSecrets]: moving
      secrets to the vault and hiding them, and the creation, reading and patching
      of connectors ([handlers/connector_secrets.go], [handlers/connectors.go],
      [presenters/connector.go]); [ConnectorResolution]: the secrets on their way to
      the agents ([services/connectors.go], [presenters/connector_deployment.go]).

    A service method [f] is the definition [f] in the file of its service; where
    two services have a method of one name, the service is a prefix
    ([ClusterService_UpdateStatus]).  A method that mutates the struct it is
    given returns the new struct.  A loop body or a query that has a meaning of
    its own is a definition of its own ([counts_in_region], [react]).

    ** Interfaces

    Code that is not in the repository is a class or a record of operations,
    whose laws state what that code documents; each has an instance ([Fixtures],
    or the end of the file that uses it) on which the witnesses run.
    - [Store.Database]: gorm over PostgreSQL.  A statement fails and changes
      nothing, or has the effect [stmt_sem] gives it; [Store.IdSource]:
      identifiers; [Listing.ListQueries]: search clauses, [ORDER BY], [LIMIT] and
      [OFFSET].
    - [Versions.SemverLib]: parsing and precedence of semantic versions.
    - [KafkaService.KafkaExternals], [Workers.QuotaDeletion],
      [Promotion.PromotionQuota], [ClusterManager.ClusterSso]: quota, single
      sign-on, certificates and Route 53.  They may answer anything; they do not
      write the tables.  [QuotaList.quota_list_externals] and
      [Promotion.quota_list_promotion] discharge the quota part with the list.
    - [Providers.OcmClient] and [Providers.KubeClient]: the clients of OCM and of
      Kubernetes, under the two implementations of [Providers.ClusterProvider].
    - [AmsQuota.AmsClient]: the account management service; [Validation.QuantityLib]:
      quantities of Kubernetes; [Catalog.GoCache]: a cache with expiry.
    - [Certificates.CertMagic] and [Certificates.SecretManager]: certmagic and the
      secrets manager of AWS; [Keycloak.GoCloak], [Keycloak.TokenCache] and
      [RedHatSso.ServiceAccountsApi]: the two identity providers; a call that fails
      may have been carried out.  [Certificates.StorageSpec] and the record
      [ServiceAccounts.keycloakServiceInternal] are interfaces of the program.
    - [ConnectorStore.ConnectorDB]: gorm over the tables of the connectors;
      [ConnectorModel.StateMachineLibrary]: the library of state machines;
      [ConnectorClusters.ConnectorAccounts]: service accounts;
      [ConnectorHandlers.NamespaceQueries]: the search clauses of namespaces.
    - [Secrets.JsonLibrary] and [ConnectorSecrets.PatchLibrary]: documents, paths,
      schemas and patches; [ConnectorSecrets.KeyIds]: fresh identifiers;
      [Vault.SecretsManager]: the secrets manager of AWS.  [Vault.VaultService] is an
      interface of the program: what the handlers rely on of a vault, proved of
      both vaults.
    - [ClusterService.ClusterLookup]: what placement, scaling and the Kafka service
      use of the cluster service.  It is proved of the cluster service, so that
      the clients rest on its laws only.

    ** What the theorems show

    - Safety of deletion: [Lifecycle.deletion_is_final] for Kafkas and
      [ClusterSystem.cleanup_is_final] for clusters, by induction on the runs,
      from what each handler does to the rows; the exact effect of the deleting
      pass, of the deprovisioning and cleanup passes of clusters, and of the
      reconciliation of the manual cluster list.
    - Status machines: which status changes the reports of the data plane, the
      workers of the creation pipeline, the general worker, the promotion worker
      and the cluster manager can make.
    - Admission: a registered Kafka respects the limit of its region, the quota of
      its organisation or account and the number of developer instances; one row
      is inserted, and a failure inserts none.
    - Placement: the cluster returned is the oldest that qualifies, and none is
      returned only if none qualifies, for dynamic and manual scaling; an
      enterprise Kafka goes to its own cluster, within its capacity.
    - Scaling: a cluster is removed only when ready, managed and empty; the
      scale-up decision is characterised; a scale up in progress is not repeated;
      the bounds of the machine pools.
    - Resources: namespaces are declared before what is put in them, and an
      enterprise cluster gets neither access objects nor credentials of others.
    - Searches: the accepted texts are exactly those of the search language, the
      clause holds only known columns, fixed words and one placeholder for each
      value, quoted values come back, and the loop over the tokens ends.
      Listings: the pages hold each visible row once, and only accepted clauses
      reach [ORDER BY].
    - Leader election refines a lock over interleaved queries and transactions,
      provided that no other acquisition of the same type comes between the query
      and the transaction of one; an expired lease is taken; and without that
      proviso two leaders can run ([stale_read_two_leaders]).
    - Authorisation of deprovisioning, exactness of the counts on which placement
      and metrics rest, the order of Strimzi versions, validity of host names,
      and consequences of a validated configuration.
    - Requests: an accepted creation inserts one Kafka of the caller whose name
      was free, and a refused one inserts none; what updates, promotions and the
      administration of Kafkas and enterprise clusters change, and for whom; a
      reservation at the account management service asks for what it should; the
      capacity shown for a region is available.
    - Admission of requests: which tokens reach the handlers of the user, agent,
      admin, enterprise and connector APIs; with the service behind them, the body
      of the answer to a reading of an instance is the view of an instance of the
      caller's organisation ([shown_kafka_is_own]).
    - Agents: they are told of the instances they must run and of the reserved
      ones, and of no others ([managed_kafkas_exact]); what they report of the reserved ones is counted as it was meant
      ([reserved_kafkas_round_trip]).
    - Service accounts (of Keycloak): their number stays within the limit of the organisation,
      the owner or an administrator deletes them and nobody else, a created one is
      found again, tokens are used while they are valid, and the search for an
      internal account ends.
    - Certificates: what is read, stored, locked and revoked, for each storage.
    - Workers: a wake-up that waits returns after a later run is over; subscriptions do not disturb a
      notification in progress.
    - Connectors: the phase machines are characterised and deletion is final; what
      each operation of a namespace changes; only empty namespaces and clusters are
      removed, no namespace is removed under a connector
      ([connectors_keep_their_namespace]), and one that no agent has reported on and
      nothing refers to is removed after its deletion;
      connectors are assigned only to namespaces of their tenants; the record of
      the latest shard metadata stays true, and a pass over the catalogue opens
      the service; tenants and administrators change only what is theirs.
    - Secrets: those of an accepted creation are in the vault and nowhere in the
      row, no answer of a creation or a reading shows one or a reference to it, a
      patch removes the secrets that the connector no longer refers to and no
      others, and the agents decode what the users gave ([secrets_come_back]).
    - Theorems that state where the code falls short of what it means to do:
      [manual_placement_hides_query_error], [update_status_leaves_deleting],
      [host_identifier_not_unique], [malformed_strimzi_version_refused],
      [ready_cluster_instance_type_reverts], [stale_copy_undoes_deprovisioning],
      [stale_read_two_leaders], [promotion_counts_twice],
      [half_promotion_is_never_finished], and those of the handlers and of the
      connectors, among them [retention_guard_void_for_inexact_sizes],
      [creation_cluster_id_not_validated], [region_cache_key_mismatch],
      [lost_subscription_never_expires], [personal_connector_never_assigned],
      [failed_connector_update_is_forgotten], [namespace_search_escapes_tenancy],
      [creation_annotations_not_validated], [readded_type_blocks_startup],
      [agent_lookup_failure_goes_on], [revocation_skipped_when_storage_fails],
      [memory_store_drops_the_lock], [no_ready_strimzi_withholds_all],
      [notification_can_be_lost], [wakeup_of_a_stopped_reconciler_blocks],
      [failed_internal_deletion_is_success],
      [overlapping_call_carries_another_token], [agent_account_is_left_behind],
      [patched_connector_leaves_its_namespace], [unchanged_patch_shows_references],
      [failed_creation_leaves_secrets], [ready_condition_panics],
      [empty_secret_reaches_the_agent].

    ** Conventions and bounds

    - [int] and [int64] counters, sums of capacities ([total_capacity]) and limits
      are unbounded integers, which they are as long as they stay below 2^63; [int32]
      counters, the product of a life span by the nanoseconds of a second and the
      offset of a page wrap ([int32], [int64]).  [float64] appears only in life
      spans in days and in published capacities, where the model computes exactly
      on integers.
    - Recursion is structural, but for three loops with fuel.  The query parser
      over the tokens ([Scanner.drain]): [Parse] gives it one round more than there
      are tokens, and [token_loop_terminates] shows that the length of the text is
      enough.  The search for an internal account
      ([RedHatSso.delete_internal]): one page more than the accounts fill is
      enough ([internal_deletion_ends]).  The relay of notifications
      ([SignalBus.run]): one round for each event it is given.
    - [sort.Slice] is the insertion sort that Go runs on at most 12 elements; the
      lists of Strimzi, Kafka and IBP versions of a cluster are shorter.  Above
      that length Go's order of versions that compare equal may differ.
    - Case folding is that of the ASCII letters.  The texts of searches are lists
      of runes, with the number of bytes of each.
    - A nil dereference that the code can reach is an error outcome.
    - A handler or a pass of a worker is one uninterrupted computation: the
      workers of a deployment run on an elected leader, each in one loop.  Each
      pass works on the rows it listed when it began.  [LeaderElection], which is
      about what happens otherwise, interleaves the replicas statement by
      statement, and [stale_copy_undoes_deprovisioning] interleaves two handlers.
      [Reconciler], [SignalBus] and [RedHatSso.getConfiguration_step] interleave
      the goroutines that share a structure.
    - The reason of an error is its format string.  Logging and metrics are left
      out, except the figures the metrics of capacity and of reserved Kafkas
      publish.

    ** Not modelled

    The matching of paths by the mux library, migrations, metrics and the reading
    of files and flags; the HTTP clients of OCM, AWS and Kubernetes, which the
    repository takes from libraries.  Of the connectors, the queries that list
    connectors, types and deployments, the views of deployments for
    administrators, and the stream of events. *)
From stdpp Require Export base gmap sets list strings pretty.
From Stdlib Require Export ZArith Lia Ascii.

Declare Scope fleet_scope.
Delimit Scope fleet_scope with fleet.
Open Scope fleet_scope.
Open Scope string_scope.
Open Scope list_scope.
Open Scope Z_scope.

(** ** Results of fallible Go functions

    A Go function returning [(T, error)] or [(T, *errors.ServiceError)] is a
    function into [result E T]: [Err e] when the error is not nil. *)
Inductive result (E A : Type) : Type :=
| Ok (a : A)
| Err (e : E).
Arguments Ok {E A} a.
Arguments Err {E A} e.

Definition rbind {E A B} (m : result E A) (k : A -> result E B) : result E B :=
  match m with
  | Ok a => k a
  | Err e => Err e
  end.

Notation "x <-! m ;; k" := (rbind m (fun x => k))
  (at level 100, m at next level, right associativity) : fleet_scope.

(** [map_err f m] is the code's [if err != nil { return f(err) }]. *)
Definition map_err {E E' A} (f : E -> E') (m : result E A) : result E' A :=
  match m with
  | Ok a => Ok a
  | Err e => Err (f e)
  end.

Definition is_ok {E A} (m : result E A) : bool :=
  match m with Ok _ => true | Err _ => false end.

(** [first_error f l] runs [f] over [l] and stops at the first failure, as a
    Go loop that returns the error of its body does. *)
Fixpoint first_error {E A} (f : A -> result E unit) (l : list A) : result E unit :=
  match l with
  | [] => Ok tt
  | a :: l' => _ <-! f a ;; first_error f l'
  end.

(** ** Functional update of the records that model Go structs *)
Class Setter {R T} (proj : R -> T) := set : (T -> T) -> R -> R.
Arguments set {R T} proj {_} _ _.

Notation "r <| proj := v |>" := (set proj (fun _ => v) r)
  (at level 1, left associativity, format "r  <| proj  :=  v |>") : fleet_scope.

(** Builds a setter from the eta expansion of the record. *)
Ltac build_setter eta :=
  match goal with
  | |- Setter ?proj =>
      let e := eval cbv beta delta [eta] in eta in
      lazymatch eval pattern proj in e with
      | ?F proj => let s := constr:(fun f => F (fun r => f (proj r))) in
                   let s := eval cbv beta in s in
                   exact s
      end
  end.

(** ** Machine integers: the wrap-around of Go's fixed-width conversions *)
Definition wrap (w z : Z) : Z := (z + 2 ^ (w - 1)) mod 2 ^ w - 2 ^ (w - 1).
Definition int32 (z : Z) : Z := wrap 32 z.
Definition int64 (z : Z) : Z := wrap 64 z.

Definition in_int32 (z : Z) : Prop := - 2 ^ 31 <= z < 2 ^ 31.
Definition in_int64 (z : Z) : Prop := - 2 ^ 63 <= z < 2 ^ 63.

Lemma wrap_id w z : 0 < w -> - 2 ^ (w - 1) <= z < 2 ^ (w - 1) -> wrap w z = z.
Proof.
  intros Hw Hz. unfold wrap.
  assert (2 ^ w = 2 * 2 ^ (w - 1)) as E.
  { rewrite <- Z.pow_succ_r by lia. f_equal. lia. }
  rewrite Z.mod_small by lia. lia.
Qed.

Lemma int32_id z : in_int32 z -> int32 z = z.
Proof. intros H. apply wrap_id; [lia | exact H]. Qed.

Lemma int64_id z : in_int64 z -> int64 z = z.
Proof. intros H. apply wrap_id; [lia | exact H]. Qed.

Lemma wrap_range w z : 0 < w -> - 2 ^ (w - 1) <= wrap w z < 2 ^ (w - 1).
Proof.
  intros Hw. unfold wrap.
  assert (2 ^ w = 2 * 2 ^ (w - 1)) as E.
  { rewrite <- Z.pow_succ_r by lia. f_equal. lia. }
  pose proof (Z.mod_pos_bound (z + 2 ^ (w - 1)) (2 ^ w)). lia.
Qed.

Lemma int32_range z : in_int32 (int32 z).
Proof. apply (wrap_range 32). lia. Qed.

Lemma int64_range z : in_int64 (int64 z).
Proof. apply (wrap_range 64). lia. Qed.

(** Wrapping respects sums and products. *)
Lemma wrap_congr w a b : 0 < w -> a mod 2 ^ w = b mod 2 ^ w -> wrap w a = wrap w b.
Proof.
  intros Hw Hab. unfold wrap. f_equal.
  rewrite <- (Zplus_mod_idemp_l a), <- (Zplus_mod_idemp_l b). by rewrite Hab.
Qed.

Lemma wrap_mod w a : 0 < w -> wrap w a mod 2 ^ w = a mod 2 ^ w.
Proof.
  intros Hw. unfold wrap. rewrite Zminus_mod_idemp_l. f_equal. lia.
Qed.

Lemma int32_add_l a b : int32 (int32 a + b) = int32 (a + b).
Proof.
  apply wrap_congr; [lia|]. unfold int32.
  by rewrite <- Zplus_mod_idemp_l, wrap_mod, Zplus_mod_idemp_l.
Qed.

Lemma int32_add_r a b : int32 (a + int32 b) = int32 (a + b).
Proof. by rewrite Z.add_comm, int32_add_l, Z.add_comm. Qed.

Lemma int32_mul_l a b : int32 (int32 a * b) = int32 (a * b).
Proof.
  apply wrap_congr; [lia|]. unfold int32.
  by rewrite <- Zmult_mod_idemp_l, wrap_mod, Zmult_mod_idemp_l.
Qed.

(** ** Zero values

    Go initialises every variable; [zero] is the value a declaration
    [var x T] gives. *)
Class Zero (T : Type) := zero : T.
#[export] Instance zero_string : Zero string := "".
#[export] Instance zero_Z : Zero Z := 0.
#[export] Instance zero_bool : Zero bool := false.
#[export] Instance zero_option {A} : Zero (option A) := None.
#[export] Instance zero_list {A} : Zero (list A) := [].

(** ** The functions of Go's [strings] package the sources call

    Go strings are byte sequences, and so are Rocq's; case folding is modelled
    on the ASCII letters. *)
Notation "a =?s b" := (String.eqb a b) (at level 70, no associativity) : fleet_scope.

Definition lower_byte (c : ascii) : ascii :=
  let n := N_of_ascii c in
  if ((65 <=? n) && (n <=? 90))%N then ascii_of_N (n + 32) else c.

Fixpoint ToLower (s : string) : string :=
  match s with
  | EmptyString => EmptyString
  | String c s' => String (lower_byte c) (ToLower s')
  end.

Definition EqualFold (a b : string) : bool := ToLower a =?s ToLower b.

Definition HasPrefix (s prefix : string) : bool := String.prefix prefix s.

Definition HasSuffix (s suffix : string) : bool :=
  (String.length suffix <=? String.length s)%nat &&
  (String.substring (String.length s - String.length suffix) (String.length suffix) s =?s suffix).

Definition TrimPrefix (s prefix : string) : string :=
  if HasPrefix s prefix
  then String.substring (String.length prefix) (String.length s - String.length prefix) s
  else s.

(** [strings.Split] with a one-byte separator. *)
Fixpoint Split (s : string) (sep : ascii) : list string :=
  match s with
  | EmptyString => [""]
  | String c s' =>
      if Ascii.eqb c sep then "" :: Split s' sep
      else match Split s' sep with
           | [] => [String c ""]
           | w :: ws => String c w :: ws
           end
  end.

(** [strings.Join]. *)
Fixpoint Join (l : list string) (sep : string) : string :=
  match l with
  | [] => ""
  | [x] => x
  | x :: l' => x +:+ sep +:+ Join l' sep
  end.

(** [strings.Contains]. *)
Fixpoint StrContains (s sub : string) : bool :=
  String.prefix sub s ||
  match s with
  | EmptyString => false
  | String _ s' => StrContains s' sub
  end.

(** Whether [c] is a white-space byte for [strings.TrimSpace]. *)
Definition is_space (c : ascii) : bool :=
  let n := N_of_ascii c in
  ((n =? 32) || ((9 <=? n) && (n <=? 13)))%N.

Fixpoint trim_left (s : string) : string :=
  match s with
  | String c s' => if is_space c then trim_left s' else s
  | EmptyString => EmptyString
  end.

Fixpoint trim_right (s : string) : string :=
  match s with
  | EmptyString => EmptyString
  | String c s' =>
      match trim_right s' with
      | EmptyString => if is_space c then EmptyString else String c EmptyString
      | s'' => String c s''
      end
  end.

Definition TrimSpace (s : string) : string := trim_right (trim_left s).

(** ** Facts and automation shared by the components *)
Create HintDb fleet.
Create Rewrite HintDb fleet.

(** Reflects the string tests of the context and of the goal. *)
Ltac reflect_strings :=
  repeat match goal with
  | H : (_ =?s _) = true |- _ => apply String.eqb_eq in H
  | H : (_ =?s _) = false |- _ => apply String.eqb_neq in H
  end.

(** Case analysis on a string test of the goal or of a hypothesis. *)
Ltac case_str :=
  match goal with
  | |- context [?a =?s ?b] => destruct (String.eqb_spec a b)
  | H : context [?a =?s ?b] |- _ => destruct (String.eqb_spec a b)
  end.

(** Splits boolean conjunctions, disjunctions and negations. *)
Ltac split_bools :=
  repeat match goal with
  | H : (_ && _) = true |- _ => apply andb_true_iff in H; destruct H
  | H : (_ && _) = false |- _ => apply andb_false_iff in H
  | H : (_ || _) = true |- _ => apply orb_true_iff in H
  | H : (_ || _) = false |- _ => apply orb_false_iff in H; destruct H
  | H : negb _ = true |- _ => apply negb_true_iff in H
  | H : negb _ = false |- _ => apply negb_false_iff in H
  end.

(** Destructs the scrutinee of a [match] or [if] that blocks the goal. *)
Ltac case_goal :=
  match goal with
  | |- context [match ?x with _ => _ end] =>
      lazymatch x with
      | context [match _ with _ => _ end] => fail
      | _ => destruct x eqn:?
      end
  end.

Ltac case_hyp H :=
  match type of H with
  | context [match ?x with _ => _ end] =>
      lazymatch x with
      | context [match _ with _ => _ end] => fail
      | _ => destruct x eqn:?
      end
  end.

(** Case analysis on the first test of a premise [body = outcome -> _], where
    [body] is a sequence of early returns. *)
Ltac case_top :=
  match goal with
  | |- rbind (map_err _ ?m) _ = _ -> _ => destruct m eqn:?; simpl
  | |- rbind ?m _ = _ -> _ => destruct m eqn:?; simpl
  | |- (if ?b then _ else _) = _ -> _ => destruct b eqn:?
  | |- match ?x with _ => _ end = _ -> _ => destruct x eqn:?
  end; try (intros; discriminate).

Lemma Split_not_nil s sep : Split s sep <> [].
Proof. induction s as [|c s IH]; simpl; [done|]. repeat case_match; done. Qed.

(** [Join] undoes [Split] on the same separator. *)
Lemma Join_Split s sep : Join (Split s sep) (String sep "") = s.
Proof.
  induction s as [|c s IH]; [done|]. simpl.
  destruct (Ascii.eqb_spec c sep) as [->|Hne].
  - destruct (Split s sep) as [|w ws] eqn:E; [by destruct (Split_not_nil s sep)|].
    simpl in *. by rewrite IH.
  - destruct (Split s sep) as [|w ws] eqn:E; [by destruct (Split_not_nil s sep)|].
    rewrite <- IH. by destruct ws.
Qed.

Lemma EqualFold_refl s : EqualFold s s = true.
Proof. unfold EqualFold. by rewrite String.eqb_refl. Qed.

Lemma EqualFold_sym a b : EqualFold a b = EqualFold b a.
Proof. unfold EqualFold. apply String.eqb_sym. Qed.

Lemma first_error_ok {E A} (f : A -> result E unit) l :
  first_error f l = Ok tt <-> Forall (fun a => f a = Ok tt) l.
Proof.
  induction l as [|a l IH]; simpl; [by split; constructor|].
  rewrite Forall_cons, <- IH. destruct (f a) as [[]|e]; simpl; naive_solver.
Qed.
#[export] Hint Rewrite @first_error_ok : fleet.
