(* ===== verification/Arrays.v ===== *)
(** * Slice and string helpers: [src/pkg/shared]

    [src/pkg/shared/utils/arrays/generic_array_utils.go] and
    [common_predicates.go], and the string helpers of [src/pkg/shared/util.go],
    which the rest of the program calls.  A Go slice is a list; a generic
    function that returns the zero value of its type parameter takes it from
    the [Zero] class.  The generic helpers over [string | *string] are modelled
    at [string], the type every modelled caller uses. *)
From S2P Require Import Prelude.

Definition ElementNotFound : Z := -1.

Section Generic.
Context {T U : Type}.

Fixpoint FindFirst_from `{Zero T} (i : Z) (values : list T) (predicate : T -> bool) : Z * T :=
  match values with
  | [] => (ElementNotFound, zero)
  | val :: rest => if predicate val then (i, val) else FindFirst_from (i + 1) rest predicate
  end.

Definition FindFirst `{Zero T} (values : list T) (predicate : T -> bool) : Z * T :=
  FindFirst_from 0 values predicate.

Fixpoint Filter (values : list T) (predicate : T -> bool) : list T :=
  match values with
  | [] => []
  | val :: rest => if predicate val then val :: Filter rest predicate else Filter rest predicate
  end.

Fixpoint Map (values : list T) (mapper : T -> U) : list U :=
  match values with
  | [] => []
  | val :: rest => mapper val :: Map rest mapper
  end.

Definition AnyMatch `{Zero T} (values : list T) (predicate : T -> bool) : bool :=
  let '(idx, _) := FindFirst values predicate in negb (idx =? -1).

Definition NoneMatch `{Zero T} (values : list T) (predicate : T -> bool) : bool :=
  negb (AnyMatch values predicate).

Fixpoint AllMatch (values : list T) (predicate : T -> bool) : bool :=
  match values with
  | [] => true
  | val :: rest => if negb (predicate val) then false else AllMatch rest predicate
  end.

Fixpoint Reduce (values : list T) (reducer : U -> T -> U) (initialValue : U) : U :=
  match values with
  | [] => initialValue
  | val :: rest => Reduce rest reducer (reducer initialValue val)
  end.

Definition IsEmpty (values : list T) : bool := (length values =? 0)%nat.
End Generic.

Definition Contains (values : list string) (s : string) : bool :=
  AnyMatch values (fun x => x =?s s).

(** [shared.StringEmpty] without the optional [trim] argument. *)
Definition StringEmpty (x : string) : bool := x =?s "".

(** [shared.SafeString], and [shared.StringEmpty] of a pointer. *)
Definition SafeString (ptr : option string) : string := default "" ptr.
Definition StringEmptyPtr (x : option string) : bool :=
  match x with None => true | Some s => s =?s "" end.

(** [(value, nil)] is [Some value]. *)
Definition FirstNonEmpty (values : list string) : option string :=
  let '(idx, _) := FindFirst values (fun s => negb (s =?s "")) in
  if idx =? -1 then None else values !! Z.to_nat idx.

Definition FirstNonEmptyOrDefault (defaultValue : string) (values : list string) : string :=
  let '(idx, _) := FindFirst values (fun s => negb (s =?s "")) in
  if idx =? -1 then defaultValue else default "" (values !! Z.to_nat idx).

Definition StringEqualsIgnoreCase (s1 s2 : string) : bool := EqualFold s1 s2.

Definition StringHasPrefixIgnoreCase (s prefix : string) : bool :=
  HasPrefix (ToLower s) (ToLower prefix).

Definition StringHasSuffixIgnoreCase (s suffix : string) : bool :=
  HasSuffix (ToLower s) (ToLower suffix).

Definition StringEqualsIgnoreCasePredicate (value : string) : string -> bool :=
  fun x => StringEqualsIgnoreCase x value.

(** The closure's argument is the prefix that is looked for in [value]. *)
Definition StringHasPrefixIgnoreCasePredicate (value : string) : string -> bool :=
  fun prefix => StringHasPrefixIgnoreCase value prefix.

Definition CompositePredicateAll {T} (predicates : list (T -> bool)) : T -> bool :=
  fun x => AllMatch predicates (fun predicate => predicate x).

Definition CompositePredicateAny {T} (predicates : list (T -> bool)) : T -> bool :=
  fun x => existsb (fun predicate => predicate x) predicates.

(** ** Lemmas *)
Section GenericLemmas.
Context {T : Type} `{Zero T}.
Implicit Types (values : list T) (p : T -> bool).

(** [FindFirst] stops at the first match and reports its index. *)
Lemma FindFirst_from_spec i values p :
  0 <= i ->
  (exists pre v post, values = pre ++ v :: post /\ Forall (fun x => p x = false) pre /\
      p v = true /\ FindFirst_from i values p = (i + Z.of_nat (length pre), v)) \/
  (Forall (fun x => p x = false) values /\ FindFirst_from i values p = (-1, zero)).
Proof.
  revert i. induction values as [|v values IH]; intros i Hi; simpl; [by right|].
  destruct (p v) eqn:Hv.
  - left. exists [], v, values. repeat split; auto. by rewrite Z.add_0_r.
  - destruct (IH (i + 1) ltac:(lia)) as [(pre & w & post & -> & Hpre & Hw & ->)|(Hall & ->)].
    + left. exists (v :: pre), w, post. repeat split; auto. f_equal. simpl. lia.
    + right. auto.
Qed.

Lemma AnyMatch_existsb values p : AnyMatch values p = existsb p values.
Proof.
  unfold AnyMatch, FindFirst.
  destruct (FindFirst_from_spec 0 values p ltac:(lia))
    as [(pre & v & post & -> & Hpre & Hv & ->)|(Hall & ->)].
  - rewrite existsb_app. simpl. rewrite Hv, orb_true_r.
    destruct (Z.eqb_spec (0 + Z.of_nat (length pre)) (-1)); [lia|done].
  - simpl. symmetry. apply not_true_is_false. rewrite existsb_exists.
    rewrite List.Forall_forall in Hall. intros (x & Hx & Hp). by rewrite Hall in Hp.
Qed.

Lemma AnyMatch_true values p :
  AnyMatch values p = true <-> exists x, x ∈ values /\ p x = true.
Proof.
  rewrite AnyMatch_existsb, existsb_exists.
  by setoid_rewrite list_elem_of_In.
Qed.

Lemma AllMatch_true values p :
  AllMatch values p = true <-> Forall (fun x => p x = true) values.
Proof.
  induction values as [|v values IH]; simpl; [by split|].
  rewrite Forall_cons. destruct (p v); simpl; rewrite ?IH; naive_solver.
Qed.
End GenericLemmas.

Lemma Filter_filter {T} (values : list T) p : Filter values p = List.filter p values.
Proof. induction values as [|v values IH]; simpl; [done|]. by rewrite IH. Qed.

Lemma elem_of_Filter {T} (values : list T) p x :
  x ∈ Filter values p <-> x ∈ values /\ p x = true.
Proof. rewrite Filter_filter, !list_elem_of_In. apply filter_In. Qed.

Lemma Map_map {T U} (values : list T) (f : T -> U) : Map values f = map f values.
Proof. induction values as [|v values IH]; simpl; [done|]. by rewrite IH. Qed.

Lemma Reduce_fold_left {T U} (values : list T) (f : U -> T -> U) u :
  Reduce values f u = fold_left f values u.
Proof. revert u. by induction values as [|v values IH]; simpl. Qed.

Lemma Contains_true values s : Contains values s = true <-> s ∈ values.
Proof.
  unfold Contains. rewrite AnyMatch_true. split.
  - intros (x & Hx & Heq). apply String.eqb_eq in Heq. by subst.
  - intros Hs. exists s. by rewrite String.eqb_refl.
Qed.

Lemma Contains_false values s : Contains values s = false <-> s ∉ values.
Proof. rewrite <- Contains_true. by destruct (Contains values s). Qed.

Lemma StringEmpty_true s : StringEmpty s = true <-> s = "".
Proof. apply String.eqb_eq. Qed.

#[export] Hint Rewrite @AnyMatch_true @AllMatch_true Contains_true Contains_false
  StringEmpty_true : fleet.
