(* ===== verification/Errors.v ===== *)
(** * Service errors: [src/pkg/errors/errors.go]

    The error codes, the registry [Errors], the constructors, the predicates
    and the error lists.  Every error the services return is built by
    [NewWithCause] from an entry of the registry.

    A [Reason] is kept as the format string the source writes, without the
    values [fmt.Sprintf] substitutes into it, so that an error still tells
    which return statement produced it.  Stack traces are not modelled. *)
From S2P Require Import Prelude Arrays.

(** ** Error codes, with their default reasons *)
Definition ErrorForbidden : Z := 4.
Definition ErrorMaxAllowedInstanceReached : Z := 5.
Definition ErrorConflict : Z := 6.
Definition ErrorNotFound : Z := 7.
Definition ErrorValidation : Z := 8.
Definition ErrorGeneral : Z := 9.
Definition ErrorNotImplemented : Z := 10.
Definition ErrorUnauthorized : Z := 11.
Definition ErrorTermsNotAccepted : Z := 12.
Definition ErrorUnauthenticated : Z := 15.
Definition ErrorMalformedRequest : Z := 17.
Definition ErrorServiceIsUnderMaintenance : Z := 18.
Definition ErrorBadRequest : Z := 21.
Definition ErrorFailedToParseSearch : Z := 23.
Definition ErrorTooManyKafkaInstancesReached : Z := 24.
Definition ErrorGone : Z := 25.
Definition ErrorSyncActionNotSupported : Z := 103.
Definition ErrorFailedToCreateSSOClient : Z := 106.
Definition ErrorFailedToGetSSOClientSecret : Z := 107.
Definition ErrorFailedToGetSSOClient : Z := 108.
Definition ErrorFailedToDeleteSSOClient : Z := 109.
Definition ErrorFailedToCreateServiceAccount : Z := 110.
Definition ErrorFailedToGetServiceAccount : Z := 111.
Definition ErrorFailedToDeleteServiceAccount : Z := 112.
Definition ErrorServiceAccountNotFound : Z := 113.
Definition ErrorMaxLimitForServiceAccountsReached : Z := 115.
Definition ErrorInsufficientQuota : Z := 120.
Definition ErrorFailedToCheckQuota : Z := 121.
Definition ErrorProviderNotSupported : Z := 30.
Definition ErrorRegionNotSupported : Z := 31.
Definition ErrorMalformedKafkaClusterName : Z := 32.
Definition ErrorMinimumFieldLength : Z := 33.
Definition ErrorMaximumFieldLength : Z := 34.
Definition ErrorDuplicateKafkaClusterName : Z := 36.
Definition ErrorFieldValidationError : Z := 37.
Definition ErrorUnableToSendErrorResponse : Z := 1000.
Definition ErrorMalformedServiceAccountName : Z := 38.
Definition ErrorMalformedServiceAccountDesc : Z := 39.
Definition ErrorMalformedServiceAccountId : Z := 40.
Definition ErrorInstanceTypeNotSupported : Z := 41.
Definition ErrorInstancePlanNotSupported : Z := 42.
Definition ErrorBillingAccountInvalid : Z := 43.
Definition ErrorDuplicateClusterId : Z := 44.
Definition ErrorInvalidClusterId : Z := 45.
Definition ErrorInvalidExternalClusterId : Z := 46.
Definition ErrorInvalidDnsName : Z := 47.
Definition ErrorTooManyRequests : Z := 429.

Definition ErrorForbiddenReason : string := "Forbidden to perform this action".
Definition ErrorMaxAllowedInstanceReachedReason : string := "Forbidden to create more instances than the maximum allowed".
Definition ErrorConflictReason : string := "An entity with the specified unique values already exists".
Definition ErrorNotFoundReason : string := "Resource not found".
Definition ErrorValidationReason : string := "General validation failure".
Definition ErrorGeneralReason : string := "Unspecified error".
Definition ErrorNotImplementedReason : string := "HTTP Method not implemented for this endpoint".
Definition ErrorUnauthorizedReason : string := "Account is unauthorized to perform this action".
Definition ErrorTermsNotAcceptedReason : string := "Required terms have not been accepted".
Definition ErrorUnauthenticatedReason : string := "Account authentication could not be verified".
Definition ErrorMalformedRequestReason : string := "Unable to read request body".
Definition ErrorServiceIsUnderMaintenanceReason : string := "Unable to perform this action, as the service is currently under maintenance".
Definition ErrorBadRequestReason : string := "Bad request".
Definition ErrorFailedToParseSearchReason : string := "Failed to parse search query".
Definition ErrorTooManyKafkaInstancesReachedReason : string := "The maximum number of allowed kafka instances has been reached".
Definition ErrorGoneReason : string := "Resource gone".
Definition ErrorSyncActionNotSupportedReason : string := "Synchronous action is not supported, use async=true parameter".
Definition ErrorFailedToCreateSSOClientReason : string := "Failed to create kafka client in the mas sso".
Definition ErrorFailedToGetSSOClientSecretReason : string := "Failed to get kafka client secret from the mas sso".
Definition ErrorFailedToGetSSOClientReason : string := "Failed to get kafka client from the mas sso".
Definition ErrorFailedToDeleteSSOClientReason : string := "Failed to delete kafka client from the mas sso".
Definition ErrorFailedToCreateServiceAccountReason : string := "Failed to create service account".
Definition ErrorFailedToGetServiceAccountReason : string := "Failed to get service account".
Definition ErrorFailedToDeleteServiceAccountReason : string := "Failed to delete service account".
Definition ErrorServiceAccountNotFoundReason : string := "Failed to find service account".
Definition ErrorMaxLimitForServiceAccountsReachedReason : string := "Max limit for the service account creation has reached".
Definition ErrorInsufficientQuotaReason : string := "Insufficient quota".
Definition ErrorFailedToCheckQuotaReason : string := "Failed to check quota".
Definition ErrorProviderNotSupportedReason : string := "Provider not supported".
Definition ErrorRegionNotSupportedReason : string := "Region not supported".
Definition ErrorMalformedKafkaClusterNameReason : string := "Kafka cluster name is invalid".
Definition ErrorMinimumFieldLengthReason : string := "Minimum field length not reached".
Definition ErrorMaximumFieldLengthReason : string := "Maximum field length has been depassed".
Definition ErrorDuplicateKafkaClusterNameReason : string := "Kafka cluster name is already used".
Definition ErrorFieldValidationErrorReason : string := "Field validation failed".
Definition ErrorUnableToSendErrorResponseReason : string := "An unexpected error happened, please check the log of the service for details".
Definition ErrorMalformedServiceAccountNameReason : string := "Service account name is invalid".
Definition ErrorMalformedServiceAccountDescReason : string := "Service account desc is invalid".
Definition ErrorMalformedServiceAccountIdReason : string := "Service account id is invalid".
Definition ErrorInstanceTypeNotSupportedReason : string := "Instance Type not supported".
Definition ErrorInstancePlanNotSupportedReason : string := "Instance plan not supported".
Definition ErrorBillingAccountInvalidReason : string := "Billing account id missing or invalid".
Definition ErrorDuplicateClusterIdReason : string := "Enterprise cluster ID is already used".
Definition ErrorInvalidClusterIdReason : string := "Enterprise cluster ID is invalid".
Definition ErrorInvalidExternalClusterIdReason : string := "Enterprise external cluster ID is invalid".
Definition ErrorInvalidDnsNameReason : string := "Dns name is invalid".
Definition ErrorTooManyRequestsReason : string := "Too many requests".

(** The constants of [net/http] the registry uses. *)
Definition StatusBadRequest : Z := 400.
Definition StatusUnauthorized : Z := 401.
Definition StatusForbidden : Z := 403.
Definition StatusNotFound : Z := 404.
Definition StatusMethodNotAllowed : Z := 405.
Definition StatusConflict : Z := 409.
Definition StatusGone : Z := 410.
Definition StatusTooManyRequests : Z := 429.
Definition StatusInternalServerError : Z := 500.

(** ** The error type

    [error] is Go's interface, with the implementations the program uses: a
    plain message, a wrapped error, a [*ServiceError] and an [ErrorList]. *)
Record ServiceErrorF (E : Type) : Type := mkServiceError {
  Code : Z;
  Reason : string;
  HttpCode : Z;
  cause : option E;
  recoverable : bool
}.
Arguments mkServiceError {E}.
Arguments Code {E}.
Arguments Reason {E}.
Arguments HttpCode {E}.
Arguments cause {E}.
Arguments recoverable {E}.

Inductive error : Type :=
| EPlain (msg : string)
| EWrap (msg : string) (e : error)
| EService (e : ServiceErrorF error)
| EList (l : list error).

Definition ServiceError : Type := ServiceErrorF error.
Definition ErrorList : Type := list error.

Definition Errors : list ServiceError :=
  [
    mkServiceError ErrorForbidden ErrorForbiddenReason StatusForbidden None false;
    mkServiceError ErrorMaxAllowedInstanceReached ErrorMaxAllowedInstanceReachedReason StatusForbidden None false;
    mkServiceError ErrorTooManyKafkaInstancesReached ErrorTooManyKafkaInstancesReachedReason StatusForbidden None false;
    mkServiceError ErrorTooManyRequests ErrorTooManyRequestsReason StatusTooManyRequests None false;
    mkServiceError ErrorConflict ErrorConflictReason StatusConflict None false;
    mkServiceError ErrorNotFound ErrorNotFoundReason StatusNotFound None false;
    mkServiceError ErrorGone ErrorGoneReason StatusGone None false;
    mkServiceError ErrorValidation ErrorValidationReason StatusBadRequest None false;
    mkServiceError ErrorGeneral ErrorGeneralReason StatusInternalServerError None false;
    mkServiceError ErrorNotImplemented ErrorNotImplementedReason StatusMethodNotAllowed None false;
    mkServiceError ErrorUnauthorized ErrorUnauthorizedReason StatusForbidden None false;
    mkServiceError ErrorTermsNotAccepted ErrorTermsNotAcceptedReason StatusForbidden None false;
    mkServiceError ErrorUnauthenticated ErrorUnauthenticatedReason StatusUnauthorized None false;
    mkServiceError ErrorMalformedRequest ErrorMalformedRequestReason StatusBadRequest None false;
    mkServiceError ErrorServiceIsUnderMaintenance ErrorServiceIsUnderMaintenanceReason StatusForbidden None false;
    mkServiceError ErrorBadRequest ErrorBadRequestReason StatusBadRequest None false;
    mkServiceError ErrorFailedToParseSearch ErrorFailedToParseSearchReason StatusBadRequest None false;
    mkServiceError ErrorSyncActionNotSupported ErrorSyncActionNotSupportedReason StatusBadRequest None false;
    mkServiceError ErrorFailedToCreateSSOClient ErrorFailedToCreateSSOClientReason StatusInternalServerError None false;
    mkServiceError ErrorFailedToGetSSOClientSecret ErrorFailedToGetSSOClientSecretReason StatusInternalServerError None false;
    mkServiceError ErrorFailedToGetSSOClient ErrorFailedToGetSSOClientReason StatusInternalServerError None false;
    mkServiceError ErrorFailedToDeleteSSOClient ErrorFailedToDeleteSSOClientReason StatusInternalServerError None false;
    mkServiceError ErrorFailedToCreateServiceAccount ErrorFailedToCreateServiceAccountReason StatusInternalServerError None false;
    mkServiceError ErrorFailedToGetServiceAccount ErrorFailedToGetServiceAccountReason StatusInternalServerError None false;
    mkServiceError ErrorServiceAccountNotFound ErrorServiceAccountNotFoundReason StatusNotFound None false;
    mkServiceError ErrorFailedToDeleteServiceAccount ErrorFailedToDeleteServiceAccountReason StatusInternalServerError None false;
    mkServiceError ErrorProviderNotSupported ErrorProviderNotSupportedReason StatusBadRequest None false;
    mkServiceError ErrorRegionNotSupported ErrorRegionNotSupportedReason StatusBadRequest None false;
    mkServiceError ErrorInstanceTypeNotSupported ErrorInstanceTypeNotSupportedReason StatusBadRequest None false;
    mkServiceError ErrorMalformedKafkaClusterName ErrorMalformedKafkaClusterNameReason StatusBadRequest None false;
    mkServiceError ErrorMinimumFieldLength ErrorMinimumFieldLengthReason StatusBadRequest None false;
    mkServiceError ErrorMaximumFieldLength ErrorMaximumFieldLengthReason StatusBadRequest None false;
    mkServiceError ErrorDuplicateKafkaClusterName ErrorDuplicateKafkaClusterNameReason StatusConflict None false;
    mkServiceError ErrorUnableToSendErrorResponse ErrorUnableToSendErrorResponseReason StatusInternalServerError None false;
    mkServiceError ErrorFieldValidationError ErrorFieldValidationErrorReason StatusBadRequest None false;
    mkServiceError ErrorInsufficientQuota ErrorInsufficientQuotaReason StatusForbidden None false;
    mkServiceError ErrorFailedToCheckQuota ErrorFailedToCheckQuotaReason StatusInternalServerError None false;
    mkServiceError ErrorMalformedServiceAccountName ErrorMalformedServiceAccountNameReason StatusBadRequest None false;
    mkServiceError ErrorMalformedServiceAccountDesc ErrorMalformedServiceAccountDescReason StatusBadRequest None false;
    mkServiceError ErrorMalformedServiceAccountId ErrorMalformedServiceAccountIdReason StatusBadRequest None false;
    mkServiceError ErrorMaxLimitForServiceAccountsReached ErrorMaxLimitForServiceAccountsReachedReason StatusForbidden None false;
    mkServiceError ErrorInstancePlanNotSupported ErrorInstancePlanNotSupportedReason StatusBadRequest None false;
    mkServiceError ErrorBillingAccountInvalid ErrorBillingAccountInvalidReason StatusBadRequest None false;
    mkServiceError ErrorDuplicateClusterId ErrorDuplicateClusterIdReason StatusConflict None false;
    mkServiceError ErrorInvalidClusterId ErrorInvalidClusterIdReason StatusBadRequest None false;
    mkServiceError ErrorInvalidExternalClusterId ErrorInvalidExternalClusterIdReason StatusBadRequest None false;
    mkServiceError ErrorInvalidDnsName ErrorInvalidDnsNameReason StatusBadRequest None false
  ].

Fixpoint find_code (code : Z) (l : list ServiceError) : option ServiceError :=
  match l with
  | [] => None
  | err :: l' => if Code err =? code then Some err else find_code code l'
  end.

(** [(true, &err)] is [Some err], [(false, nil)] is [None]. *)
Definition Find (code : Z) : option ServiceError := find_code code Errors.

Definition NewWithCause (code : Z) (c : option error) (reason : string) : ServiceError :=
  let err := match Find code with
             | Some err => err
             | None => mkServiceError ErrorGeneral "unspecified error" StatusInternalServerError None false
             end in
  mkServiceError (Code err)
    (if negb (reason =?s "") then reason else Reason err)
    (HttpCode err) c (recoverable err).

Definition New (code : Z) (reason : string) : ServiceError := NewWithCause code None reason.

(** ** The constructors *)
Definition NotFound (reason : string) : ServiceError := New ErrorNotFound reason.
Definition GeneralError (reason : string) : ServiceError := New ErrorGeneral reason.
Definition Unauthorized (reason : string) : ServiceError := New ErrorUnauthorized reason.
Definition TermsNotAccepted (reason : string) : ServiceError := New ErrorTermsNotAccepted reason.
Definition Unauthenticated (reason : string) : ServiceError := New ErrorUnauthenticated reason.
Definition Forbidden (reason : string) : ServiceError := New ErrorForbidden reason.
Definition Maintenance (reason : string) : ServiceError := New ErrorServiceIsUnderMaintenance reason.
Definition MaximumAllowedInstanceReached (reason : string) : ServiceError := New ErrorMaxAllowedInstanceReached reason.
Definition TooManyKafkaInstancesReached (reason : string) : ServiceError := New ErrorTooManyKafkaInstancesReached reason.
Definition NotImplemented (reason : string) : ServiceError := New ErrorNotImplemented reason.
Definition Conflict (reason : string) : ServiceError := New ErrorConflict reason.
Definition Validation (reason : string) : ServiceError := New ErrorValidation reason.
Definition MalformedRequest (reason : string) : ServiceError := New ErrorMalformedRequest reason.
Definition BadRequest (reason : string) : ServiceError := New ErrorBadRequest reason.
Definition FailedToParseSearch (reason : string) : ServiceError := New ErrorFailedToParseSearch (ErrorFailedToParseSearchReason +:+ ": " +:+ reason).
Definition SyncActionNotSupported : ServiceError := New ErrorSyncActionNotSupported (ErrorSyncActionNotSupportedReason).
Definition FailedToCreateSSOClient (reason : string) : ServiceError := New ErrorFailedToCreateSSOClient reason.
Definition FailedToGetSSOClientSecret (reason : string) : ServiceError := New ErrorFailedToGetSSOClientSecret reason.
Definition FailedToGetSSOClient (reason : string) : ServiceError := New ErrorFailedToGetSSOClient reason.
Definition FailedToDeleteSSOClient (reason : string) : ServiceError := New ErrorFailedToDeleteSSOClient reason.
Definition FailedToCreateServiceAccount (reason : string) : ServiceError := New ErrorFailedToCreateServiceAccount reason.
Definition FailedToDeleteServiceAccount (reason : string) : ServiceError := New ErrorFailedToDeleteServiceAccount reason.
Definition MaxLimitForServiceAccountReached (reason : string) : ServiceError := New ErrorMaxLimitForServiceAccountsReached reason.
Definition FailedToGetServiceAccount (reason : string) : ServiceError := New ErrorFailedToGetServiceAccount reason.
Definition ServiceAccountNotFound (reason : string) : ServiceError := New ErrorServiceAccountNotFound reason.
Definition RegionNotSupported (reason : string) : ServiceError := New ErrorRegionNotSupported reason.
Definition InstanceTypeNotSupported (reason : string) : ServiceError := New ErrorInstanceTypeNotSupported reason.
Definition ProviderNotSupported (reason : string) : ServiceError := New ErrorProviderNotSupported reason.
Definition InstancePlanNotSupported (reason : string) : ServiceError := New ErrorInstancePlanNotSupported reason.
Definition MalformedKafkaClusterName (reason : string) : ServiceError := New ErrorMalformedKafkaClusterName reason.
Definition MalformedServiceAccountName (reason : string) : ServiceError := New ErrorMalformedServiceAccountName reason.
Definition MalformedServiceAccountDesc (reason : string) : ServiceError := New ErrorMalformedServiceAccountDesc reason.
Definition MalformedServiceAccountId (reason : string) : ServiceError := New ErrorMalformedServiceAccountId reason.
Definition InvalidExternalClusterId (reason : string) : ServiceError := New ErrorInvalidExternalClusterId reason.
Definition InvalidClusterId (reason : string) : ServiceError := New ErrorInvalidClusterId reason.
Definition InvalidDnsName (reason : string) : ServiceError := New ErrorInvalidDnsName reason.
Definition DuplicateKafkaClusterName : ServiceError := New ErrorDuplicateKafkaClusterName (ErrorDuplicateKafkaClusterNameReason).
Definition DuplicateClusterId : ServiceError := New ErrorDuplicateClusterId (ErrorDuplicateClusterIdReason).
Definition MinimumFieldLengthNotReached (reason : string) : ServiceError := New ErrorMinimumFieldLength reason.
Definition MaximumFieldLengthExceeded (reason : string) : ServiceError := New ErrorMaximumFieldLength reason.
Definition UnableToSendErrorResponse : ServiceError := New ErrorUnableToSendErrorResponse (ErrorUnableToSendErrorResponseReason).
Definition FailedToParseQueryParms (reason : string) : ServiceError := New ErrorBadRequest reason.
Definition FieldValidationError (reason : string) : ServiceError := New ErrorFieldValidationError (ErrorFieldValidationErrorReason +:+ ": " +:+ reason).
Definition InsufficientQuotaError (reason : string) : ServiceError := New ErrorInsufficientQuota (ErrorInsufficientQuotaReason +:+ ": " +:+ reason).
Definition FailedToCheckQuota (reason : string) : ServiceError := New ErrorFailedToCheckQuota (ErrorFailedToCheckQuotaReason +:+ ": " +:+ reason).
Definition InvalidBillingAccount (reason : string) : ServiceError := New ErrorBillingAccountInvalid (ErrorBillingAccountInvalidReason +:+ ": " +:+ reason).

Definition NewErrorFromHTTPStatusCode (httpCode : Z) (reason : string) : ServiceError :=
  if (StatusBadRequest <=? httpCode) && (httpCode <? StatusInternalServerError) then
    if httpCode =? StatusUnauthorized then Unauthorized reason
    else if httpCode =? StatusForbidden then Forbidden reason
    else if httpCode =? StatusNotFound then NotFound reason
    else if httpCode =? StatusMethodNotAllowed then NotImplemented reason
    else if httpCode =? StatusConflict then Conflict reason
    else BadRequest reason
  else if StatusInternalServerError <=? httpCode then GeneralError reason
  else GeneralError reason.

(** ** Predicates *)
Definition IsClientErrorClass (e : ServiceError) : bool :=
  (StatusBadRequest <=? HttpCode e) && (HttpCode e <? StatusInternalServerError).

Definition IsServerErrorClass (e : ServiceError) : bool :=
  StatusInternalServerError <=? HttpCode e.

Definition Is404 (e : ServiceError) : bool := Code e =? Code (NotFound "").
Definition IsConflict (e : ServiceError) : bool := Code e =? Code (Conflict "").
Definition IsForbidden (e : ServiceError) : bool := Code e =? Code (Forbidden "").
Definition IsBadRequest (e : ServiceError) : bool := Code e =? Code (BadRequest "").
Definition IsServiceAccountNotFound (e : ServiceError) : bool :=
  Code e =? Code (ServiceAccountNotFound "").
Definition InSufficientQuota (e : ServiceError) : bool :=
  Code e =? Code (InsufficientQuotaError "").
Definition IsFailedToCheckQuota (e : ServiceError) : bool :=
  Code e =? Code (FailedToCheckQuota "").
Definition IsInstanceTypeNotSupported (e : ServiceError) : bool :=
  Code e =? ErrorInstanceTypeNotSupported.

(** ** Error texts *)
Definition ERROR_CODE_PREFIX : string := "KAFKAS-MGMT".

Definition CodeStr (code : Z) : string := ERROR_CODE_PREFIX +:+ "-" +:+ pretty code.

(** The [Error()] method of each implementation of [error]. *)
Fixpoint error_text (e : error) : string :=
  match e with
  | EPlain msg => msg
  | EWrap msg c => msg +:+ ": " +:+ error_text c
  | EService s =>
      match cause s with
      | Some c => CodeStr (Code s) +:+ ": " +:+ Reason s +:+ String "010" " caused by: " +:+ error_text c
      | None => CodeStr (Code s) +:+ ": " +:+ Reason s
      end
  | EList l => "[" +:+ Join (map error_text l) ";" +:+ "]"
  end.

Definition Error (e : ServiceError) : string := error_text (EService e).

Definition ToServiceError (e : error) : ServiceError :=
  match e with
  | EService s => s
  | _ => GeneralError (error_text e)
  end.

(** ** The builder

    [serviceErrorBuilder] embeds a [ServiceError] that the [With...] methods
    fill. *)
Definition serviceErrorBuilder : Type := ServiceError.

Definition NewServiceErrorBuilder : serviceErrorBuilder := mkServiceError 0 "" 0 None false.

Definition WithCode (code : Z) (seb : serviceErrorBuilder) : serviceErrorBuilder :=
  mkServiceError code (Reason seb) (HttpCode seb) (cause seb) (recoverable seb).

Definition WithReason (reason : string) (seb : serviceErrorBuilder) : serviceErrorBuilder :=
  mkServiceError (Code seb) reason (HttpCode seb) (cause seb) (recoverable seb).

Definition WithHttpCode (httpCode : Z) (seb : serviceErrorBuilder) : serviceErrorBuilder :=
  mkServiceError (Code seb) (Reason seb) httpCode (cause seb) (recoverable seb).

Definition WithCause (c : error) (seb : serviceErrorBuilder) : serviceErrorBuilder :=
  mkServiceError (Code seb) (Reason seb) (HttpCode seb) (Some c) (recoverable seb).

Definition Recoverable (seb : serviceErrorBuilder) : serviceErrorBuilder :=
  mkServiceError (Code seb) (Reason seb) (HttpCode seb) (cause seb) true.

Definition Wrap (e : ServiceError) (seb : serviceErrorBuilder) : serviceErrorBuilder :=
  WithCause (EService e) (WithCode (Code e) (WithReason (Reason e) seb)).

(** [Build] passes the builder's own text as the format of the new reason. *)
Definition Build (seb : serviceErrorBuilder) : ServiceError :=
  let err := NewWithCause (Code seb) (cause seb) (Error seb) in
  mkServiceError (Code err) (Reason err) (HttpCode err) (cause err) (recoverable seb).

(** ** Error lists

    [unroll e] is what [errors.As(err, &errList)] finds in the chain of [e]: the
    first [ErrorList], itself unrolled recursively. *)
Fixpoint unroll (e : error) : option (list error) :=
  match e with
  | EPlain _ => None
  | EWrap _ e' => unroll e'
  | EService s => match cause s with Some c => unroll c | None => None end
  | EList l => Some (flat_map (fun x => match unroll x with Some l' => l' | None => [x] end) l)
  end.

Definition AddErrors (el : ErrorList) (errs : list error) : ErrorList :=
  el ++ flat_map (fun x => match unroll x with Some l => l | None => [x] end) errs.

Definition ErrorList_IsEmpty (e : ErrorList) : bool := (length e =? 0)%nat.

(** ** Lemmas on the registry *)
Lemma find_code_some code l err :
  find_code code l = Some err -> err ∈ l /\ Code err = code.
Proof.
  induction l as [|e l IH]; simpl; [done|].
  destruct (Z.eqb_spec (Code e) code) as [Hc|Hc].
  - intros [= <-]. split; [apply list_elem_of_here | done].
  - intros H. destruct (IH H) as [Hin ?]. split; [by apply list_elem_of_further | done].
Qed.

Lemma find_code_none code l : find_code code l = None -> code ∉ map Code l.
Proof.
  induction l as [|e l IH]; simpl; [by intros _ ?%elem_of_nil|].
  destruct (Z.eqb_spec (Code e) code) as [Hc|Hc]; [done|].
  intros H. rewrite not_elem_of_cons. naive_solver.
Qed.

(** Every entry of the registry has a 4xx or a 5xx status, and not both. *)
Lemma Errors_class : Forall (fun e => xorb (IsClientErrorClass e) (IsServerErrorClass e) = true) Errors.
Proof. repeat constructor. Qed.

Lemma Errors_nodup : NoDup (map Code Errors).
Proof. by apply (bool_decide_unpack _). Qed.

Lemma NewWithCause_class code c reason :
  xorb (IsClientErrorClass (NewWithCause code c reason))
       (IsServerErrorClass (NewWithCause code c reason)) = true.
Proof.
  unfold NewWithCause. destruct (Find code) as [err|] eqn:E; [|done].
  apply find_code_some in E as [Hin _].
  pose proof Errors_class as H. rewrite Forall_forall in H. exact (H err Hin).
Qed.

Lemma NewWithCause_Code code c reason :
  code ∈ map Code Errors -> Code (NewWithCause code c reason) = code.
Proof.
  intros Hin. unfold NewWithCause. destruct (Find code) as [err|] eqn:E.
  - by apply find_code_some in E as [_ <-].
  - by apply find_code_none in E.
Qed.

(** ** Lemmas on error lists *)
Lemma unroll_flat e l : unroll e = Some l -> Forall (fun x => unroll x = None) l.
Proof.
  revert e l. fix IH 1. intros [msg|msg e|[code r h [c|] rec]|xs] l; simpl; try done.
  - apply IH.
  - apply IH.
  - intros [= <-]. induction xs as [|x xs IHxs]; simpl; [constructor|].
    apply Forall_app. split; [|exact IHxs].
    destruct (unroll x) as [l'|] eqn:E; [by apply (IH x)|by repeat constructor].
Qed.

(** ** Properties *)

(** Every service error is of exactly one class, client or server, whatever
    its code and cause; an error made from an HTTP status is a client error
    exactly when that status is a 4xx. *)
Theorem service_error_one_class code c reason httpCode :
  xorb (IsClientErrorClass (NewWithCause code c reason)) (IsServerErrorClass (NewWithCause code c reason)) = true /\
  IsClientErrorClass (NewErrorFromHTTPStatusCode httpCode reason) =
    (StatusBadRequest <=? httpCode) && (httpCode <? StatusInternalServerError).
Proof.
  split; [apply NewWithCause_class|]. unfold NewErrorFromHTTPStatusCode.
  destruct (_ && _) eqn:E; [|by case_match]. repeat case_match; done.
Qed.

(** Adding errors to a list keeps the errors that were in it, in front, and
    nests no list of errors in another. *)
Theorem added_errors_are_flat (el : ErrorList) errs :
  Forall (fun x => unroll x = None) el ->
  Forall (fun x => unroll x = None) (AddErrors el errs) /\ el `prefix_of` AddErrors el errs.
Proof.
  intros Hel. split; [|by eexists]. unfold AddErrors. apply Forall_app. split; [done|].
  induction errs as [|x errs IH]; simpl; [constructor|]. apply Forall_app. split; [|exact IH].
  destruct (unroll x) as [l|] eqn:E; [by apply unroll_flat in E | by repeat constructor].
Qed.

Lemma added_errors_are_flat_witness :
  let el := [EPlain "a"] in
  let errs := [EWrap "w" (EList [EPlain "b"; EList [EPlain "c"]])] in
  AddErrors el errs = [EPlain "a"; EPlain "b"; EPlain "c"] /\ Forall (fun x => unroll x = None) (AddErrors el errs).
Proof.
  split; [reflexivity|].
  refine (proj1 (added_errors_are_flat [EPlain "a"] [EWrap "w" (EList [EPlain "b"; EList [EPlain "c"]])] _)). repeat constructor.
Defined.
