(* ===== verification/Status.v ===== *)
(** * Statuses, instance types and billing models

    [src/internal/kafka/constants/kafka.go], the status part of
    [src/pkg/api/cluster_types.go] and [src/internal/kafka/internal/kafkas/types].
    A Go string type is [string]; the constants are the strings that are stored
    in the database and exchanged with the data plane. *)
From S2P Require Import Prelude Arrays.

(** ** Kafka requests *)
Definition KafkaRequestStatusAccepted : string := "accepted".
Definition KafkaRequestStatusPreparing : string := "preparing".
Definition KafkaRequestStatusProvisioning : string := "provisioning".
Definition KafkaRequestStatusReady : string := "ready".
Definition KafkaRequestStatusFailed : string := "failed".
Definition KafkaRequestStatusDeprovision : string := "deprovision".
Definition KafkaRequestStatusDeleting : string := "deleting".
Definition KafkaRequestStatusSuspending : string := "suspending".
Definition KafkaRequestStatusSuspended : string := "suspended".
Definition KafkaRequestStatusResuming : string := "resuming".

(** Durations are in nanoseconds, as [time.Duration] is. *)
Definition Second : Z := 1000000000.
Definition Minute : Z := 60 * Second.
Definition Hour : Z := 60 * Minute.

Definition KafkaMaxDurationWithProvisioningErrs : Z := 5 * Minute.
Definition AcceptedKafkaMaxRetryDurationWhileWaitingForStrimziVersion : Z := 5 * Minute.
Definition AcceptedKafkaMaxRetryDurationWhileWaitingForClusterAssignment : Z := 1 * Hour.
Definition TrialKafkasDomainShard : string := "trial".

(** A Go map lookup returns the zero value for an absent key. *)
Fixpoint map_lookup {V} (m : list (string * V)) (k : string) : option V :=
  match m with
  | [] => None
  | (k', v) :: m' => if k' =?s k then Some v else map_lookup m' k
  end.

Definition map_get {V} `{Zero V} (m : list (string * V)) (k : string) : V :=
  match map_lookup m k with Some v => v | None => zero end.

Module Kafka.
Definition ordinals : list (string * Z) :=
  [ (KafkaRequestStatusAccepted, 0);
    (KafkaRequestStatusPreparing, 10);
    (KafkaRequestStatusProvisioning, 20);
    (KafkaRequestStatusResuming, 20);
    (KafkaRequestStatusReady, 30);
    (KafkaRequestStatusDeprovision, 40);
    (KafkaRequestStatusDeleting, 50);
    (KafkaRequestStatusSuspending, 60);
    (KafkaRequestStatusSuspended, 70);
    (KafkaRequestStatusFailed, 500) ].

Definition KafkaStatus_CompareTo (k k1 : string) : Z :=
  let ordinalK := map_get ordinals k in
  let ordinalK1 := map_get ordinals k1 in
  if ordinalK =? ordinalK1 then 0
  else if ordinalK1 <? ordinalK then 1
  else -1.
End Kafka.

Definition GetUpdateableStatuses : list string :=
  [ KafkaRequestStatusPreparing; KafkaRequestStatusProvisioning; KafkaRequestStatusFailed;
    KafkaRequestStatusReady; KafkaRequestStatusDeprovision; KafkaRequestStatusSuspending;
    KafkaRequestStatusSuspended; KafkaRequestStatusResuming ].

Definition GetAllStatuses : list string :=
  [ KafkaRequestStatusAccepted; KafkaRequestStatusPreparing; KafkaRequestStatusProvisioning;
    KafkaRequestStatusResuming; KafkaRequestStatusReady; KafkaRequestStatusDeprovision;
    KafkaRequestStatusDeleting; KafkaRequestStatusSuspending; KafkaRequestStatusSuspended;
    KafkaRequestStatusFailed ].

Definition GetSuspendedStatuses : list string :=
  [ KafkaRequestStatusSuspending; KafkaRequestStatusSuspended ].

Definition GetDeletingStatuses : list string :=
  [ KafkaRequestStatusDeprovision; KafkaRequestStatusDeleting ].

Definition BillingModelEnterprise : string := "enterprise".

(** ** Instance types *)
Definition DEVELOPER : string := "developer".
Definition STANDARD : string := "standard".
Definition ValidKafkaInstanceTypes : list string := [ DEVELOPER; STANDARD ].

(** ** Data plane clusters *)
Definition ClusterAccepted : string := "cluster_accepted".
Definition ClusterProvisioning : string := "cluster_provisioning".
Definition ClusterProvisioned : string := "cluster_provisioned".
Definition ClusterFailed : string := "failed".
Definition ClusterReady : string := "ready".
Definition ClusterDeprovisioning : string := "deprovisioning".
Definition ClusterCleanup : string := "cleanup".
Definition ClusterWaitingForKasFleetShardOperator : string := "waiting_for_kas_fleetshard_operator".
Definition ClusterFull : string := "full".

Definition ClusterProviderOCM : string := "ocm".
Definition ClusterProviderAwsEKS : string := "aws_eks".
Definition ClusterProviderStandalone : string := "standalone".

Definition EnterpriseDataPlaneClusterType : string := "enterprise".
Definition ManagedDataPlaneClusterType : string := "managed".

Definition DeveloperTypeSupport : string := "developer".
Definition StandardTypeSupport : string := "standard".
Definition AllInstanceTypeSupport : string := "standard,developer".

Module ClusterStatus.
Definition ordinals : list (string * Z) :=
  [ (ClusterAccepted, 0);
    (ClusterProvisioning, 10);
    (ClusterProvisioned, 20);
    (ClusterWaitingForKasFleetShardOperator, 30);
    (ClusterReady, 40);
    (ClusterDeprovisioning, 50);
    (ClusterCleanup, 60);
    (ClusterFailed, 70) ].

Definition ClusterStatus_CompareTo (k k1 : string) : Z :=
  let ordinalK := map_get ordinals k in
  let ordinalK1 := map_get ordinals k1 in
  if ordinalK =? ordinalK1 then 0
  else if ordinalK1 <? ordinalK then 1
  else -1.
End ClusterStatus.

Definition StatusForValidCluster : list string :=
  [ ClusterProvisioning; ClusterProvisioned; ClusterReady; ClusterAccepted;
    ClusterWaitingForKasFleetShardOperator ].

Definition ClusterDeletionStatuses : list string := [ ClusterCleanup; ClusterDeprovisioning ].

(** ** Lemmas *)
Lemma map_lookup_elem {V} (m : list (string * V)) k v :
  map_lookup m k = Some v -> (k, v) ∈ m.
Proof.
  induction m as [|[k' v'] m IH]; simpl; [done|].
  case_str; subst; [intros [= ->]; left | intros ?; right; auto].
Qed.

(** A comparison by ordinals is a total preorder, whatever the table. *)
Section CompareTo.
Context (cmp : string -> string -> Z) (ord : string -> Z).
Hypothesis cmp_ord : forall a b,
  cmp a b = (if ord a =? ord b then 0 else if ord b <? ord a then 1 else -1).

Lemma compare_to_spec a b :
  (cmp a b = -1 <-> ord a < ord b) /\ (cmp a b = 0 <-> ord a = ord b) /\ (cmp a b = 1 <-> ord b < ord a).
Proof. rewrite cmp_ord. destruct (Z.eqb_spec (ord a) (ord b)), (Z.ltb_spec (ord b) (ord a)); lia. Qed.

Lemma compare_to_opp a b : cmp a b = - cmp b a.
Proof.
  rewrite !cmp_ord.
  destruct (Z.eqb_spec (ord a) (ord b)), (Z.eqb_spec (ord b) (ord a)),
    (Z.ltb_spec (ord b) (ord a)), (Z.ltb_spec (ord a) (ord b)); lia.
Qed.
End CompareTo.
