(* ===== verification/Config.v ===== *)
(** * Configuration of instance types, providers and data plane clusters

    [src/internal/kafka/internal/config]: the supported instance types and
    their sizes ([kafka_supported_instance_types.go], [kafka.go]), the cloud
    providers and region limits ([providers.go]), the manual cluster list and
    the scaling mode ([dataplane_cluster_config.go]) and the node prewarming
    configuration.

    A [*int] is an [option Z].  A slice whose nilness is tested is an
    [option (list _)].  Kubernetes quantities, ISO 8601 periods and the
    struct-tag validator are third-party code and are parameters of
    [Validation]. *)
From S2P Require Import Prelude Arrays Errors Status.

(** ** Billing models *)
Record KafkaBillingModel := mkKafkaBillingModel {
  BM_ID : string;
  AMSResource : string;
  AMSProduct : string;
  AMSBillingModels : list string;
  GracePeriodDays : Z
}.

#[export] Instance zero_KafkaBillingModel : Zero KafkaBillingModel :=
  mkKafkaBillingModel "" "" "" [] 0.

Definition HasSupportForAMSBillingModel (kbm : KafkaBillingModel) (amsBillingModel : string) : bool :=
  AnyMatch (AMSBillingModels kbm) (StringEqualsIgnoreCasePredicate amsBillingModel).

Definition HasSupportForMarketplace (kbm : KafkaBillingModel) : bool :=
  AnyMatch (AMSBillingModels kbm)
    (CompositePredicateAny
       [ StringHasPrefixIgnoreCasePredicate "marketplace-";
         StringEqualsIgnoreCasePredicate "marketplace" ]).

Definition HasSupportForStandard (kbm : KafkaBillingModel) : bool :=
  AnyMatch (AMSBillingModels kbm) (StringEqualsIgnoreCasePredicate "standard").

(** ** Instance sizes and types *)
Definition MaturityStatusTechPreview : string := "preview".
Definition MaturityStatusStable : string := "stable".
Definition getValidMaturityStates : list string :=
  [ MaturityStatusStable; MaturityStatusTechPreview ].

Record KafkaInstanceSize := mkKafkaInstanceSize {
  Size_Id : string;
  Size_DisplayName : string;
  IngressThroughputPerSec : string;
  EgressThroughputPerSec : string;
  TotalMaxConnections : Z;
  MaxDataRetentionSize : string;
  MaxPartitions : Z;
  MaxDataRetentionPeriod : string;
  MaxConnectionAttemptsPerSec : Z;
  MaxMessageSize : string;
  QuotaConsumed : Z;
  DeprecatedQuotaType : string;
  CapacityConsumed : Z;
  SupportedAZModes : option (list string);
  MinInSyncReplicas : Z;
  ReplicationFactor : Z;
  LifespanSeconds : option Z;
  MaturityStatus : string
}.

Record KafkaInstanceType := mkKafkaInstanceType {
  Type_Id : string;
  Type_DisplayName : string;
  Sizes : list KafkaInstanceSize;
  SupportedBillingModels : list KafkaBillingModel
}.

Definition GetKafkaInstanceSizeByID (kp : KafkaInstanceType) (sizeId : string) : result error KafkaInstanceSize :=
  match List.find (fun size => Size_Id size =?s sizeId) (Sizes kp) with
  | Some size => Ok size
  | None => Err (EPlain "kafka instance size id: '%s' not found for '%s' instance type")
  end.

Definition GetKafkaSupportedBillingModelByID (kp : KafkaInstanceType) (kafkaBillingModelID : string)
  : result error KafkaBillingModel :=
  let '(idx, billingModel) :=
    FindFirst (SupportedBillingModels kp)
      (fun x => StringEqualsIgnoreCase (BM_ID x) kafkaBillingModelID) in
  if negb (idx =? -1) then Ok billingModel
  else Err (EPlain "kafka supported billing model id: '%s' not found for '%s' instance type").

(** The loop state is [(maxSizeConsumption, res)]. *)
Definition biggest_step (acc : Z * option KafkaInstanceSize) (kafkaSize : KafkaInstanceSize)
  : Z * option KafkaInstanceSize :=
  let '(maxSizeConsumption, _) := acc in
  if maxSizeConsumption <? CapacityConsumed kafkaSize
  then (CapacityConsumed kafkaSize, Some kafkaSize) else acc.

Definition GetBiggestCapacityConsumedSize (kp : KafkaInstanceType) : option KafkaInstanceSize :=
  snd (fold_left biggest_step (Sizes kp) (-1, None)).

Definition HasAnInstanceSizeWithLifespan (kp : KafkaInstanceType) : bool :=
  existsb (fun kafkaSize => match LifespanSeconds kafkaSize with Some _ => true | None => false end)
    (Sizes kp).

(** [Quantity.IsEmpty] tests its receiver's address, which is the address of
    a struct field in every call: it is never nil. *)
Definition Quantity_IsEmpty (q : string) : bool := false.

Record SupportedKafkaInstanceTypesConfig := mkSupportedKafkaInstanceTypesConfig {
  SupportedKafkaInstanceTypes : list KafkaInstanceType
}.

Definition GetKafkaInstanceTypeByID (s : SupportedKafkaInstanceTypesConfig) (instanceType : string)
  : result error KafkaInstanceType :=
  match List.find (fun t => Type_Id t =?s instanceType) (SupportedKafkaInstanceTypes s) with
  | Some t => Ok t
  | None => Err (EPlain "unable to find kafka instance type for '%s'")
  end.

(** ** Validation of the instance types *)
Section Validation.
(** [k8s.io/apimachinery/pkg/api/resource]: the value of a quantity. *)
Context (ParseQuantity : string -> result error Z).
(** [github.com/senseyeio/duration]: whether a parsed period is zero. *)
Context (ParseISO8601_IsZero : string -> result error bool).
(** [github.com/go-playground/validator]: the struct-tag validation. *)
Context (validate_Struct : KafkaInstanceType -> result error unit).

Definition size_validate (k : KafkaInstanceSize) (instanceTypeId : string) : result error unit :=
  if Quantity_IsEmpty (EgressThroughputPerSec k) || Quantity_IsEmpty (IngressThroughputPerSec k)
     || (MaxDataRetentionPeriod k =?s "") || Quantity_IsEmpty (MaxDataRetentionSize k)
     || (Size_Id k =?s "") || (DeprecatedQuotaType k =?s "") || (Size_DisplayName k =?s "")
     || Quantity_IsEmpty (MaxMessageSize k)
     || match SupportedAZModes k with None => true | Some _ => false end
  then Err (EPlain "kafka instance size '%s' for instance type '%s' is missing required parameters")
  else
    egressThroughputQuantity <-! map_err (fun _ => EPlain "egressThroughputPerSec for Kafka instance type '%s', size '%s' is invalid: %s")
      (ParseQuantity (EgressThroughputPerSec k)) ;;
    ingressThroughputQuantity <-! map_err (fun _ => EPlain "ingressThroughputPerSec for Kafka instance type '%s', size '%s' is invalid: %s")
      (ParseQuantity (IngressThroughputPerSec k)) ;;
    maxDataRetentionSize <-! map_err (fun _ => EPlain "maxDataRetentionSize for Kafka instance type '%s', size '%s' is invalid: %s")
      (ParseQuantity (MaxDataRetentionSize k)) ;;
    maxDataRetentionPeriodIsZero <-! map_err (fun _ => EPlain "maxDataRetentionPeriod for Kafka instance type '%s', size '%s' is invalid: %s")
      (ParseISO8601_IsZero (MaxDataRetentionPeriod k)) ;;
    maxMessageSize <-! map_err (fun _ => EPlain "maxMessageSize for Kafka instance type '%s', size '%s' is invalid: %s")
      (ParseQuantity (MaxMessageSize k)) ;;
    let modes := default [] (SupportedAZModes k) in
    if existsb (fun m => negb ((m =?s "single") || (m =?s "multi"))) modes
    then Err (EPlain "value '%s' in supportedAZModes for Kafka instance type '%s', size '%s' is invalid")
    else if match LifespanSeconds k with Some s => s <=? 0 | None => false end
    then Err (EPlain "kafka instance size '%s' for instance type '%s' specifies a lifespanSeconds seconds value less than or equals to Zero")
    else if negb (existsb (fun status => MaturityStatus k =?s status) getValidMaturityStates)
    then Err (EPlain "maturityStatus for Kafka instance type '%s', size '%s' is unknown: '%s'")
    else if maxDataRetentionPeriodIsZero || (egressThroughputQuantity <? 1)
       || (ingressThroughputQuantity <? 1) || (maxDataRetentionSize <? 1)
       || (TotalMaxConnections k <=? 0) || (MaxPartitions k <=? 0)
       || (MaxConnectionAttemptsPerSec k <=? 0) || (QuotaConsumed k <? 1)
       || (CapacityConsumed k <? 1) || (MinInSyncReplicas k <? 1)
       || (ReplicationFactor k <? 1) || (maxMessageSize <? 0) || (length modes =? 0)%nat
    then Err (EPlain "kafka instance size '%s' for instance type '%s' specifies a property value less than or equals to Zero")
    else Ok tt.

(** The loop over the sizes, with the identifiers already seen. *)
Fixpoint sizes_validate (instanceTypeId : string) (existingSizes : list string)
    (l : list KafkaInstanceSize) : result error unit :=
  match l with
  | [] => Ok tt
  | size :: l' =>
      if Contains existingSizes (Size_Id size)
      then Err (EPlain "kafka instance size '%s' for instance type '%s' was defined more than once")
      else
        _ <-! size_validate size instanceTypeId ;;
        sizes_validate instanceTypeId (Size_Id size :: existingSizes) l'
  end.

Definition type_validate (kp : KafkaInstanceType) : result error unit :=
  if (Type_Id kp =?s "") || (Type_DisplayName kp =?s "") || (length (Sizes kp) =? 0)%nat
  then Err (EPlain "kafka instance type '%s' is missing required parameters")
  else if negb (Contains ValidKafkaInstanceTypes (Type_Id kp))
  then Err (EPlain "kafka instance type id '%s' is not valid. Valid kafka instance types are: '%v'")
  else
    _ <-! sizes_validate (Type_Id kp) [] (Sizes kp) ;;
    validate_Struct kp.

Fixpoint types_validate (existingInstanceTypes : list string) (l : list KafkaInstanceType)
  : result error unit :=
  match l with
  | [] => Ok tt
  | t :: l' =>
      if Contains existingInstanceTypes (Type_Id t)
      then Err (EPlain "kafka instance type id '%s' was defined more than once")
      else
        _ <-! type_validate t ;;
        types_validate (Type_Id t :: existingInstanceTypes) l'
  end.

Definition config_validate (s : SupportedKafkaInstanceTypesConfig) : result error unit :=
  types_validate [] (SupportedKafkaInstanceTypes s).
End Validation.

(** ** [KafkaConfig] *)
Record KafkaQuotaConfig := mkKafkaQuotaConfig {
  Quota_Type : string;
  AllowDeveloperInstance : bool;
  MaxAllowedDeveloperInstances : Z
}.

Record KafkaConfig := mkKafkaConfig {
  EnableKafkaCNAMERegistration : bool;
  KafkaDomainName : string;
  BrowserUrl : string;
  Quota : KafkaQuotaConfig;
  SupportedInstanceTypes : SupportedKafkaInstanceTypesConfig;
  EnableKafkaOwnerConfig : bool;
  KafkaOwnerList : list string
}.

Definition GetFirstAvailableSize (c : KafkaConfig) (instanceType : string) : result error KafkaInstanceSize :=
  kafkaInstanceType <-! GetKafkaInstanceTypeByID (SupportedInstanceTypes c) instanceType ;;
  match Sizes kafkaInstanceType with
  | size :: _ =>
      if Size_Id size =?s ""
      then Err (EService (New ErrorGeneral "unable to get size for instance type: '%s'"))
      else Ok size
  | [] => Err (EService (New ErrorGeneral "unable to get size for instance type: '%s'"))
  end.

Definition GetKafkaInstanceSize (c : KafkaConfig) (instanceType sizeId : string)
  : result error KafkaInstanceSize :=
  kafkaInstanceType <-! GetKafkaInstanceTypeByID (SupportedInstanceTypes c) instanceType ;;
  GetKafkaInstanceSizeByID kafkaInstanceType sizeId.

Definition GetBillingModels (c : KafkaConfig) (instanceType : string) : result error (list KafkaBillingModel) :=
  kafkaInstanceType <-! GetKafkaInstanceTypeByID (SupportedInstanceTypes c) instanceType ;;
  Ok (SupportedBillingModels kafkaInstanceType).

Definition GetBillingModelByID (c : KafkaConfig) (instanceType billingModelID : string)
  : result error KafkaBillingModel :=
  kafkaInstanceType <-! GetKafkaInstanceTypeByID (SupportedInstanceTypes c) instanceType ;;
  GetKafkaSupportedBillingModelByID kafkaInstanceType billingModelID.

(** ** Plans: an instance type and a size separated by a dot *)
Definition numComponentsInPlanFormat : nat := 2.

Definition Plan_GetInstanceType (p : string) : result ServiceError string :=
  match Split (TrimSpace p) "." with
  | [t; _] => Ok t
  | _ => Err (New ErrorGeneral "Unsupported plan provided: '%s'")
  end.

Definition Plan_GetSizeID (p : string) : result ServiceError string :=
  match Split (TrimSpace p) "." with
  | [_; s] => Ok s
  | _ => Err (New ErrorGeneral "Unsupported plan provided: '%s'")
  end.

(** ** Cloud providers and regions

    [InstanceTypeMap] is a Go map: an association list whose keys are distinct;
    the iteration order of a [range] over it is the order of the list. *)
Record InstanceTypeConfig := mkInstanceTypeConfig {
  Limit : option Z;
  MinAvailableCapacitySlackStreamingUnits : Z
}.

Definition InstanceTypeMap : Type := list (string * InstanceTypeConfig).

Record Region := mkRegion {
  Region_Name : string;
  Region_Default : bool;
  SupportedInstanceTypesInRegion : InstanceTypeMap
}.

Record Provider := mkProvider {
  Provider_Name : string;
  Provider_Default : bool;
  Regions : list Region
}.

Record ProviderConfig := mkProviderConfig { SupportedProviders : list Provider }.

Definition IsInstanceTypeSupported (r : Region) (instanceType : string) : bool :=
  existsb (fun '(k, _) => k =?s instanceType) (SupportedInstanceTypesInRegion r).

Definition getLimitSetForInstanceTypeInRegion (r : Region) (t : string) : result ServiceError (option Z) :=
  match map_lookup (SupportedInstanceTypesInRegion r) t with
  | Some it => Ok (Limit it)
  | None => Err (InstanceTypeNotSupported "instance type: %s is not supported")
  end.

Definition RegionList_GetByName (rl : list Region) (regionName : string) : option Region :=
  List.find (fun r => Region_Name r =?s regionName) rl.

Definition ProviderList_GetByName (pl : list Provider) (providerName : string) : option Provider :=
  List.find (fun p => Provider_Name p =?s providerName) pl.

Definition GetInstanceLimit (c : ProviderConfig) (region providerName instanceType : string)
  : result ServiceError (option Z) :=
  match ProviderList_GetByName (SupportedProviders c) providerName with
  | None => Err (ProviderNotSupported "cloud provider '%s' is unsupported")
  | Some provider =>
      match RegionList_GetByName (Regions provider) region with
      | None => Err (RegionNotSupported "'%s' region in '%s' cloud provider is unsupported")
      | Some reg => getLimitSetForInstanceTypeInRegion reg instanceType
      end
  end.

Definition RegionHasZeroOrNoLimitInstanceType (r : Region) : bool :=
  existsb (fun '(_, it) => match Limit it with None => true | Some l => l =? 0 end)
    (SupportedInstanceTypesInRegion r).

Definition GetDefault (c : list Provider) : result error Provider :=
  match List.find Provider_Default c with
  | Some p => Ok p
  | None => Err (EPlain "no default provider found in list of supported providers")
  end.

Definition GetDefaultRegion (provider : Provider) : result error Region :=
  match List.find Region_Default (Regions provider) with
  | Some r => Ok r
  | None => Err (EPlain "no default region found for provider %s")
  end.

Definition IsRegionSupported (provider : Provider) (regionName : string) : bool :=
  match RegionList_GetByName (Regions provider) regionName with Some _ => true | None => false end.

(** ** Data plane clusters of the configuration file *)
Definition ManualScaling : string := "manual".
Definition AutoScaling : string := "auto".
Definition NoScaling : string := "none".

Record ManualCluster := mkManualCluster {
  MC_Name : string;
  MC_ClusterId : string;
  MC_CloudProvider : string;
  MC_Region : string;
  MC_MultiAZ : bool;
  Schedulable : bool;
  KafkaInstanceLimit : Z;
  MC_Status : string;
  MC_ProviderType : string;
  MC_ClusterDNS : string;
  MC_SupportedInstanceType : string
}.

(** [clusterConfigMap] is a Go map keyed by the cluster identifier. *)
Record ClusterConfig := mkClusterConfig {
  clusterList : list ManualCluster;
  clusterConfigMap : gmap string ManualCluster
}.

Definition NewClusterConfig (clusters : list ManualCluster) : ClusterConfig :=
  Reduce clusters
    (fun clusterConfig c =>
       mkClusterConfig (clusterList clusterConfig)
         (<[MC_ClusterId c := c]> (clusterConfigMap clusterConfig)))
    (mkClusterConfig clusters ∅).

(** What [UnmarshalYAML] checks and defaults once the YAML library has decoded
    the fields. *)
Definition ManualCluster_normalise (c : ManualCluster) : result error ManualCluster :=
  if MC_ClusterId c =?s "" then Err (EPlain "cluster_id is empty")
  else if (MC_ProviderType c =?s ClusterProviderStandalone) && (MC_ClusterDNS c =?s "")
  then Err (EPlain "standalone cluster with id %s does not have the cluster dns field provided")
  else if (MC_ProviderType c =?s ClusterProviderStandalone) && (MC_Name c =?s "")
  then Err (EPlain "standalone cluster with id %s does not have the name field provided")
  else
    let status :=
      if (MC_ProviderType c =?s ClusterProviderStandalone) && (MC_Status c =?s ClusterAccepted)
      then ClusterProvisioning else MC_Status c in
    let sit :=
      if MC_SupportedInstanceType c =?s "" then AllInstanceTypeSupport
      else MC_SupportedInstanceType c in
    Ok (mkManualCluster (MC_Name c) (MC_ClusterId c) (MC_CloudProvider c) (MC_Region c)
          (MC_MultiAZ c) (Schedulable c) (KafkaInstanceLimit c) status (MC_ProviderType c)
          (MC_ClusterDNS c) sit).

Definition GetCapacityForRegion (conf : ClusterConfig) (region : string) : Z :=
  fold_left
    (fun capacity cluster =>
       if (MC_Region cluster =?s region) && Schedulable cluster
       then capacity + KafkaInstanceLimit cluster else capacity)
    (clusterList conf) 0.

Definition GetCapacityForRegionAndInstanceType (conf : ClusterConfig) (region instanceType : string)
    (isolatedClustersOnly : bool) : Z :=
  fold_left
    (fun capacity cluster =>
       if (MC_Region cluster =?s region) && Schedulable cluster then
         if isolatedClustersOnly then
           if MC_SupportedInstanceType cluster =?s instanceType
           then capacity + KafkaInstanceLimit cluster else capacity
         else if StrContains (MC_SupportedInstanceType cluster) instanceType
         then capacity + KafkaInstanceLimit cluster else capacity
       else capacity)
    (clusterList conf) 0.

Definition IsNumberOfStreamingUnitsWithinClusterLimit (conf : ClusterConfig) (clusterID : string)
    (count : Z) : bool :=
  match clusterConfigMap conf !! clusterID with
  | Some mc => (KafkaInstanceLimit mc =? -1) || (count <=? KafkaInstanceLimit mc)
  | None => true
  end.

Definition IsClusterSchedulable (conf : ClusterConfig) (clusterID : string) : bool :=
  match clusterConfigMap conf !! clusterID with
  | Some mc => Schedulable mc
  | None => true
  end.

Definition GetClusterSupportedInstanceType (conf : ClusterConfig) (clusterID : string) : option string :=
  MC_SupportedInstanceType <$> clusterConfigMap conf !! clusterID.

(** The keys of the argument map, with the identifier the caller stored. *)
Definition ExcessClusters (conf : ClusterConfig) (clusters : list (string * string)) : list string :=
  flat_map (fun '(clusterId, v) =>
    match clusterConfigMap conf !! clusterId with Some _ => [] | None => [v] end) clusters.

Definition MissingClusters (conf : ClusterConfig) (clusters : list (string * string)) : list ManualCluster :=
  flat_map (fun p =>
    match map_lookup clusters (MC_ClusterId p) with Some _ => [] | None => [p] end)
    (clusterList conf).

Record InstanceTypeNodePrewarmingConfig := mkInstanceTypeNodePrewarmingConfig {
  BaseStreamingUnitSize : string;
  NumReservedInstances : Z
}.

Definition NodePrewarmingConfig : Type := list (string * InstanceTypeNodePrewarmingConfig).

Definition defaultBaseStreamingUnitSize : string := "x1".

Definition ForInstanceType (c : NodePrewarmingConfig) (instanceTypeID : string)
  : option InstanceTypeNodePrewarmingConfig :=
  match map_lookup c instanceTypeID with
  | None => None
  | Some itc =>
      Some (if BaseStreamingUnitSize itc =?s ""
            then mkInstanceTypeNodePrewarmingConfig defaultBaseStreamingUnitSize (NumReservedInstances itc)
            else itc)
  end.

(** The outcome of [shared.ReadYamlFile]. *)
Inductive YamlRead (A : Type) : Type :=
| YamlOk (a : A)
| YamlNotExist (e : error)
| YamlOtherError (e : error).
Arguments YamlOk {A}.
Arguments YamlNotExist {A}.
Arguments YamlOtherError {A}.

(** [NodePrewarmingConfig.readFile]: the configuration afterwards, or the error. *)
Definition NodePrewarming_readFile (c : NodePrewarmingConfig) (file : YamlRead NodePrewarmingConfig)
  : result error NodePrewarmingConfig :=
  match file with
  | YamlOk conf => Ok conf
  | YamlOtherError _ => Ok c
  | YamlNotExist e => Err e
  end.

Definition prewarming_validate (c : InstanceTypeNodePrewarmingConfig) (instanceType : string)
    (kafkaConfig : KafkaConfig) : result error unit :=
  let baseStreamingUnit :=
    if BaseStreamingUnitSize c =?s "" then defaultBaseStreamingUnitSize else BaseStreamingUnitSize c in
  match GetKafkaInstanceSize kafkaConfig instanceType baseStreamingUnit with
  | Err e => Err (EWrap "error validating node prewarming configuration for instance type %s" e)
  | Ok _ =>
      if NumReservedInstances c <? 0
      then Err (EPlain "num_reserved_instances cannot be a negative number for instance type: %s")
      else Ok tt
  end.

(** The fields of [DataplaneClusterConfig] that decide placement and scaling. *)
Record DataplaneClusterConfig := mkDataplaneClusterConfig {
  DataPlaneClusterScalingType : string;
  DP_ClusterConfig : ClusterConfig;
  EnableDynamicScaleUpManagerScaleUpTrigger : bool;
  EnableDynamicScaleDownManagerScaleDownTrigger : bool;
  DP_NodePrewarmingConfig : NodePrewarmingConfig
}.

Definition IsDataPlaneManualScalingEnabled (c : DataplaneClusterConfig) : bool :=
  DataPlaneClusterScalingType c =?s ManualScaling.

Definition IsDataPlaneAutoScalingEnabled (c : DataplaneClusterConfig) : bool :=
  DataPlaneClusterScalingType c =?s AutoScaling.

Definition IsDataplaneScaleUpTriggerEnabled (c : DataplaneClusterConfig) : bool :=
  EnableDynamicScaleUpManagerScaleUpTrigger c.

Definition IsDataplaneScaleDownTriggerEnabled (c : DataplaneClusterConfig) : bool :=
  EnableDynamicScaleDownManagerScaleDownTrigger c.

(** ** Validation of a region against the cluster capacities

    The loop state is [(counter, totalCapacityUsed)]; [Ok None] is the early
    [return nil] of the single-instance-type case. *)
Definition region_step (r : Region) (dc : DataplaneClusterConfig)
    (st : Z * Z) (e : string * InstanceTypeConfig) : result error (option (Z * Z)) :=
  let '(counter, totalCapacityUsed) := st in
  let '(name, it) := e in
  if MinAvailableCapacitySlackStreamingUnits it <? 0
  then Err (EPlain "kafka minimum available capacity slack for instance type '%s' in region '%s' cannot be negative")
  else
    match Limit it with
    | None => Ok (Some st)
    | Some limit =>
        if limit =? 0 then Ok (Some st)
        else if limit <? MinAvailableCapacitySlackStreamingUnits it
        then Err (EPlain "configured kafka minimum available capacity slack '%d' for instance type '%s' in region '%s' cannot be bigger than its region limit '%v'")
        else if IsDataPlaneManualScalingEnabled dc then
          let conf := DP_ClusterConfig dc in
          if (length (SupportedInstanceTypesInRegion r) =? 1)%nat then
            if negb (limit =? GetCapacityForRegionAndInstanceType conf (Region_Name r) name false)
            then Err (EPlain "limit for instance type '%s'(%d) does not match the capacity in region %s(%d)")
            else Ok None
          else
            let minCapacity := GetCapacityForRegionAndInstanceType conf (Region_Name r) name true in
            let maxCapacity := GetCapacityForRegionAndInstanceType conf (Region_Name r) name false in
            if (limit <? minCapacity) || (maxCapacity <? limit)
            then Err (EPlain "limit for %s instance type (%d) does not match cluster capacity configuration in region '%s': min(%d), max(%d)")
            else if negb (RegionHasZeroOrNoLimitInstanceType r) then
              let total := totalCapacityUsed + limit in
              if (counter =? Z.of_nat (length (SupportedInstanceTypesInRegion r)))
                 && negb (total =? GetCapacityForRegion conf (Region_Name r))
              then Err (EPlain "total limits set in region '%s' does not match cluster capacity configuration")
              else Ok (Some (counter + 1, total))
            else Ok (Some (counter + 1, totalCapacityUsed))
        else Ok (Some st)
    end.

Fixpoint region_loop (r : Region) (dc : DataplaneClusterConfig) (st : Z * Z)
    (l : InstanceTypeMap) : result error unit :=
  match l with
  | [] => Ok tt
  | e :: l' =>
      st' <-! region_step r dc st e ;;
      match st' with
      | None => Ok tt
      | Some st'' => region_loop r dc st'' l'
      end
  end.

Definition Region_Validate (r : Region) (dc : DataplaneClusterConfig) : result error unit :=
  region_loop r dc (1, 0) (SupportedInstanceTypesInRegion r).

(** ** Lemmas *)
Lemma find_first {A} (p : A -> bool) l x :
  List.find p l = Some x <->
  exists pre post, l = pre ++ x :: post /\ p x = true /\ Forall (fun y => p y = false) pre.
Proof.
  split.
  - induction l as [|a l IH]; simpl; [done|]. destruct (p a) eqn:Ha.
    + intros [= <-]. by exists [], l.
    + intros H. destruct (IH H) as (pre & post & -> & Hp & Hpre).
      exists (a :: pre), post. repeat split; auto.
  - intros (pre & post & -> & Hp & Hpre). induction pre as [|a pre IH]; simpl; [by rewrite Hp|].
    inversion_clear Hpre as [|? ? Ha Hpre']. rewrite Ha. auto.
Qed.

(** Looking up a key that is unique in the list finds its entry. *)
Lemma find_unique {A} (key : A -> string) l x :
  NoDup (map key l) -> x ∈ l -> List.find (fun y => key y =?s key x) l = Some x.
Proof.
  intros Hnd (pre & post & ->)%list_elem_of_split. apply find_first.
  exists pre, post. rewrite String.eqb_refl. split_and!; [done..|].
  rewrite Forall_forall. intros y Hy. apply String.eqb_neq. intros Heq.
  rewrite map_app in Hnd. apply NoDup_app in Hnd as (_ & Hdis & _).
  apply (Hdis (key y)).
  - by apply list_elem_of_fmap_2.
  - simpl. rewrite Heq. left.
Qed.

(** The invariant of the scan of [GetBiggestCapacityConsumedSize]. *)
Definition biggest_inv (seen : list KafkaInstanceSize) (acc : Z * option KafkaInstanceSize) : Prop :=
  match snd acc with
  | None => fst acc = -1 /\ Forall (fun s => CapacityConsumed s <= -1) seen
  | Some s =>
      fst acc = CapacityConsumed s /\ -1 < CapacityConsumed s /\
      exists pre post, seen = pre ++ s :: post /\
        Forall (fun s' => CapacityConsumed s' < CapacityConsumed s) pre /\
        Forall (fun s' => CapacityConsumed s' <= CapacityConsumed s) post
  end.

Lemma biggest_step_inv seen acc s :
  biggest_inv seen acc -> biggest_inv (seen ++ [s]) (biggest_step acc s).
Proof.
  destruct acc as [m [b|]]; unfold biggest_inv; simpl.
  - intros (-> & Hb & pre & post & -> & Hpre & Hpost).
    destruct (Z.ltb_spec (CapacityConsumed b) (CapacityConsumed s)); simpl.
    + split_and!; [done|lia|]. exists (pre ++ b :: post), []. split_and!; [done| |by constructor].
      apply Forall_app; split; [|constructor; [lia|]];
        (eapply Forall_impl; [eassumption|]; simpl; lia).
    + split_and!; [done|done|]. exists pre, (post ++ [s]). split_and!; [by rewrite <- app_assoc|done|].
      apply Forall_app; split; [done|]. by repeat constructor.
  - intros (-> & Hall). destruct (Z.ltb_spec (-1) (CapacityConsumed s)); simpl.
    + split_and!; [done|lia|]. exists seen, []. split_and!; [done| |by constructor].
      eapply Forall_impl; [eassumption|]. simpl. lia.
    + split; [done|]. apply Forall_app; split; [done|]. by repeat constructor.
Qed.

Lemma biggest_fold_inv sizes seen acc :
  biggest_inv seen acc -> biggest_inv (seen ++ sizes) (fold_left biggest_step sizes acc).
Proof.
  revert seen acc. induction sizes as [|s sizes IH]; intros seen acc H; simpl.
  - by rewrite app_nil_r.
  - replace (seen ++ s :: sizes) with ((seen ++ [s]) ++ sizes) by by rewrite <- app_assoc.
    by apply IH, biggest_step_inv.
Qed.

Lemma GetBiggestCapacityConsumedSize_inv kp :
  biggest_inv (Sizes kp) (fold_left biggest_step (Sizes kp) (-1, None)).
Proof. apply (biggest_fold_inv (Sizes kp) []). split; [done|constructor]. Qed.

(** The size it returns is an upper bound that is attained; -1 stands for no
    size. *)
Lemma GetBiggestCapacityConsumedSize_max kp :
  let biggest := match GetBiggestCapacityConsumedSize kp with Some s => CapacityConsumed s | None => -1 end in
  (forall s, s ∈ Sizes kp -> CapacityConsumed s <= biggest) /\
  (biggest = -1 \/ exists s, s ∈ Sizes kp /\ CapacityConsumed s = biggest).
Proof.
  unfold GetBiggestCapacityConsumedSize. pose proof (GetBiggestCapacityConsumedSize_inv kp) as Hinv.
  destruct (fold_left _ _ _) as [m [b|]]; unfold biggest_inv in Hinv; simpl in *.
  - destruct Hinv as (_ & _ & pre & post & -> & Hpre & Hpost). rewrite Forall_forall in Hpre, Hpost. split.
    + intros s [Hs|[->|Hs]%elem_of_cons]%elem_of_app; [|lia|by apply Hpost].
      pose proof (Hpre s Hs). lia.
    + right. exists b. split; [set_solver|done].
  - destruct Hinv as [_ Hall]. rewrite Forall_forall in Hall. split; [done|by left].
Qed.

Section ValidationLemmas.
Context (ParseQuantity : string -> result error Z).
Context (ParseISO8601_IsZero : string -> result error bool).
Context (validate_Struct : KafkaInstanceType -> result error unit).

Lemma size_validate_ok k t :
  size_validate ParseQuantity ParseISO8601_IsZero k t = Ok tt ->
  1 <= CapacityConsumed k /\ 1 <= QuotaConsumed k /\ 1 <= MinInSyncReplicas k /\
  1 <= ReplicationFactor k /\ 0 < MaxPartitions k /\
  (forall s, LifespanSeconds k = Some s -> 0 < s).
Proof.
  unfold size_validate. repeat case_top. intros _. split_bools.
  repeat match goal with H : (_ <? _) = false |- _ => apply Z.ltb_ge in H
                    | H : (_ <=? _) = false |- _ => apply Z.leb_gt in H end.
  split_and!; try lia. intros s Hs. rewrite Hs in *. lia.
Qed.

Lemma sizes_validate_ok t seen l :
  sizes_validate ParseQuantity ParseISO8601_IsZero t seen l = Ok tt ->
  NoDup (map Size_Id l) /\ Forall (fun s => Size_Id s ∉ seen) l /\
  Forall (fun s => size_validate ParseQuantity ParseISO8601_IsZero s t = Ok tt) l.
Proof.
  revert seen. induction l as [|s l IH]; intros seen; simpl; [by intros _; split_and!; constructor|].
  destruct (Contains seen (Size_Id s)) eqn:Hc; [done|]. apply Contains_false in Hc.
  destruct (size_validate _ _ s t) as [[]|] eqn:Hs; simpl; [|done].
  intros (Hnd & Hout & Hall)%IH. split_and!.
  - constructor; [|done]. intros (s' & Heq & Hin)%list_elem_of_fmap.
    rewrite Forall_forall in Hout. apply (Hout s' Hin). rewrite Heq. left.
  - constructor; [done|]. eapply Forall_impl; [exact Hout|]. simpl. set_solver.
  - by constructor.
Qed.

Lemma types_validate_ok seen l :
  types_validate ParseQuantity ParseISO8601_IsZero validate_Struct seen l = Ok tt ->
  NoDup (map Type_Id l) /\ Forall (fun t => Type_Id t ∉ seen) l /\
  Forall (fun t => type_validate ParseQuantity ParseISO8601_IsZero validate_Struct t = Ok tt) l.
Proof.
  revert seen. induction l as [|s l IH]; intros seen; simpl; [by intros _; split_and!; constructor|].
  destruct (Contains seen (Type_Id s)) eqn:Hc; [done|]. apply Contains_false in Hc.
  destruct (type_validate _ _ _ s) as [[]|] eqn:Hs; simpl; [|done].
  intros (Hnd & Hout & Hall)%IH. split_and!.
  - constructor; [|done]. intros (s' & Heq & Hin)%list_elem_of_fmap.
    rewrite Forall_forall in Hout. apply (Hout s' Hin). rewrite Heq. left.
  - constructor; [done|]. eapply Forall_impl; [exact Hout|]. simpl. set_solver.
  - by constructor.
Qed.

Lemma type_validate_ok t :
  type_validate ParseQuantity ParseISO8601_IsZero validate_Struct t = Ok tt ->
  Sizes t <> [] /\ Type_Id t ∈ ValidKafkaInstanceTypes /\ NoDup (map Size_Id (Sizes t)) /\
  Forall (fun s => size_validate ParseQuantity ParseISO8601_IsZero s (Type_Id t) = Ok tt) (Sizes t).
Proof.
  unfold type_validate. repeat case_top. intros _. split_bools.
  match goal with H : sizes_validate _ _ _ _ _ = Ok ?u |- _ => destruct u; rename H into Hs end.
  apply sizes_validate_ok in Hs as (Hnd & _ & Hall). split_and!; [|by apply Contains_true|done|done].
  by destruct (Sizes t).
Qed.

(** In a configuration that passes validation, looking up the identifiers
    of any instance type and size of it finds exactly that size, and the size
    consumes at least one unit of capacity and of quota. *)
Theorem validated_config_lookup cfg t s :
  config_validate ParseQuantity ParseISO8601_IsZero validate_Struct cfg.(SupportedInstanceTypes) = Ok tt ->
  t ∈ SupportedKafkaInstanceTypes cfg.(SupportedInstanceTypes) -> s ∈ Sizes t ->
  GetKafkaInstanceSize cfg (Type_Id t) (Size_Id s) = Ok s /\ 1 <= CapacityConsumed s /\ 1 <= QuotaConsumed s.
Proof.
  intros (Hnd & _ & Htypes)%types_validate_ok Ht Hs. rewrite Forall_forall in Htypes.
  destruct (type_validate_ok t) as (_ & _ & Hnds & Hsizes); [by apply Htypes|]. rewrite Forall_forall in Hsizes.
  destruct (size_validate_ok s (Type_Id t)) as (Hc & Hq & _); [by apply Hsizes|]. split; [|done].
  unfold GetKafkaInstanceSize, GetKafkaInstanceTypeByID. rewrite (find_unique Type_Id) by done. simpl.
  unfold GetKafkaInstanceSizeByID. by rewrite (find_unique Size_Id).
Qed.
End ValidationLemmas.
