(* ===== verification/Model.v ===== *)
(** * The persisted entities: Kafka requests and data plane clusters

    [src/internal/kafka/internal/api/dbapi/kafka_request_types.go] and the
    [Cluster] struct of [src/pkg/api/cluster_types.go], with the embedded
    [api.Meta].  Each lives in a module ([KR], [CL]) because the two structs
    share field names.  Times are nanoseconds since the epoch; [sql.NullTime]
    is an [option].

    A JSON column is modelled by what decoding it yields: [JNull] for a nil
    column, [JDoc v] for bytes that decode to [v] and [JBad] for bytes that are
    not well-formed JSON. *)
From S2P Require Import Prelude Arrays Errors Status Config.

Inductive JSONCol (A : Type) : Type :=
| JNull
| JDoc (a : A)
| JBad.
Arguments JNull {A}.
Arguments JDoc {A}.
Arguments JBad {A}.

Definition json_error : error := EPlain "json: cannot unmarshal".

Record DataPlaneKafkaRoute := mkDataPlaneKafkaRoute {
  Domain : string;
  Router : string
}.

Record KafkaVersion := mkKafkaVersion { KafkaVersion_Version : string }.
Record KafkaIBPVersion := mkKafkaIBPVersion { KafkaIBPVersion_Version : string }.

(** [KafkaVersions] and [KafkaIBPVersions] are slices whose nilness no caller
    observes. *)
Record StrimziVersion := mkStrimziVersion {
  Version : string;
  Ready : bool;
  KafkaVersions : list KafkaVersion;
  KafkaIBPVersions : list KafkaIBPVersion
}.

Record DynamicCapacityInfo := mkDynamicCapacityInfo {
  MaxNodes : Z;
  MaxUnits : Z;
  RemainingUnits : Z
}.

(** ** Columns that an update of non-zero fields assigns

    [gorm]'s [Updates] with a struct skips the fields that hold their zero
    value; [merge_nonzero] in each module is the row that leaves. *)
Definition pick_string (new old : string) : string := if new =?s "" then old else new.
Definition pick_Z (new old : Z) : Z := if new =? 0 then old else new.
Definition pick_option {A} (new old : option A) : option A :=
  match new with Some _ => new | None => old end.
Definition pick_json {A} (new old : JSONCol A) : JSONCol A :=
  match new with JNull => old | _ => new end.

Module KR.
Record KafkaRequest := mkKafkaRequest {
  ID : string;
  CreatedAt : Z;
  UpdatedAt : Z;
  Region : string;
  ClusterID : string;
  CloudProvider : string;
  MultiAZ : bool;
  Name : string;
  Status : string;
  CanaryServiceAccountClientID : string;
  CanaryServiceAccountClientSecret : string;
  SubscriptionId : string;
  Owner : string;
  OwnerAccountId : string;
  BootstrapServerHost : string;
  AdminApiServerURL : string;
  OrganisationId : string;
  FailedReason : string;
  PlacementId : string;
  DesiredKafkaVersion : string;
  ActualKafkaVersion : string;
  DesiredStrimziVersion : string;
  ActualStrimziVersion : string;
  DesiredKafkaIBPVersion : string;
  ActualKafkaIBPVersion : string;
  KafkaUpgrading : bool;
  StrimziUpgrading : bool;
  KafkaIBPUpgrading : bool;
  MaxDataRetentionSize : string;
  InstanceType : string;
  QuotaType : string;
  Routes : JSONCol (list DataPlaneKafkaRoute);
  RoutesCreated : bool;
  Namespace : string;
  ReauthenticationEnabled : bool;
  RoutesCreationId : string;
  SizeId : string;
  BillingCloudAccountId : string;
  Marketplace : string;
  ActualKafkaBillingModel : string;
  DesiredKafkaBillingModel : string;
  PromotionStatus : string;
  PromotionDetails : string;
  ExpiresAt : option Z;
  KafkasRoutesBaseDomainName : string;
  KafkasRoutesBaseDomainTLSKeyRef : string;
  KafkasRoutesBaseDomainTLSCrtRef : string
}.

Definition eta (r : KafkaRequest) : KafkaRequest :=
  mkKafkaRequest (ID r) (CreatedAt r) (UpdatedAt r) (Region r) (ClusterID r) (CloudProvider r) (MultiAZ r) (Name r) (Status r) (CanaryServiceAccountClientID r) (CanaryServiceAccountClientSecret r) (SubscriptionId r) (Owner r) (OwnerAccountId r) (BootstrapServerHost r) (AdminApiServerURL r) (OrganisationId r) (FailedReason r) (PlacementId r) (DesiredKafkaVersion r) (ActualKafkaVersion r) (DesiredStrimziVersion r) (ActualStrimziVersion r) (DesiredKafkaIBPVersion r) (ActualKafkaIBPVersion r) (KafkaUpgrading r) (StrimziUpgrading r) (KafkaIBPUpgrading r) (MaxDataRetentionSize r) (InstanceType r) (QuotaType r) (Routes r) (RoutesCreated r) (Namespace r) (ReauthenticationEnabled r) (RoutesCreationId r) (SizeId r) (BillingCloudAccountId r) (Marketplace r) (ActualKafkaBillingModel r) (DesiredKafkaBillingModel r) (PromotionStatus r) (PromotionDetails r) (ExpiresAt r) (KafkasRoutesBaseDomainName r) (KafkasRoutesBaseDomainTLSKeyRef r) (KafkasRoutesBaseDomainTLSCrtRef r).

#[export] Instance set_ID : Setter ID := ltac:(build_setter eta).
#[export] Instance set_CreatedAt : Setter CreatedAt := ltac:(build_setter eta).
#[export] Instance set_UpdatedAt : Setter UpdatedAt := ltac:(build_setter eta).
#[export] Instance set_Region : Setter Region := ltac:(build_setter eta).
#[export] Instance set_ClusterID : Setter ClusterID := ltac:(build_setter eta).
#[export] Instance set_CloudProvider : Setter CloudProvider := ltac:(build_setter eta).
#[export] Instance set_MultiAZ : Setter MultiAZ := ltac:(build_setter eta).
#[export] Instance set_Name : Setter Name := ltac:(build_setter eta).
#[export] Instance set_Status : Setter Status := ltac:(build_setter eta).
#[export] Instance set_CanaryServiceAccountClientID : Setter CanaryServiceAccountClientID := ltac:(build_setter eta).
#[export] Instance set_CanaryServiceAccountClientSecret : Setter CanaryServiceAccountClientSecret := ltac:(build_setter eta).
#[export] Instance set_SubscriptionId : Setter SubscriptionId := ltac:(build_setter eta).
#[export] Instance set_Owner : Setter Owner := ltac:(build_setter eta).
#[export] Instance set_OwnerAccountId : Setter OwnerAccountId := ltac:(build_setter eta).
#[export] Instance set_BootstrapServerHost : Setter BootstrapServerHost := ltac:(build_setter eta).
#[export] Instance set_AdminApiServerURL : Setter AdminApiServerURL := ltac:(build_setter eta).
#[export] Instance set_OrganisationId : Setter OrganisationId := ltac:(build_setter eta).
#[export] Instance set_FailedReason : Setter FailedReason := ltac:(build_setter eta).
#[export] Instance set_PlacementId : Setter PlacementId := ltac:(build_setter eta).
#[export] Instance set_DesiredKafkaVersion : Setter DesiredKafkaVersion := ltac:(build_setter eta).
#[export] Instance set_ActualKafkaVersion : Setter ActualKafkaVersion := ltac:(build_setter eta).
#[export] Instance set_DesiredStrimziVersion : Setter DesiredStrimziVersion := ltac:(build_setter eta).
#[export] Instance set_ActualStrimziVersion : Setter ActualStrimziVersion := ltac:(build_setter eta).
#[export] Instance set_DesiredKafkaIBPVersion : Setter DesiredKafkaIBPVersion := ltac:(build_setter eta).
#[export] Instance set_ActualKafkaIBPVersion : Setter ActualKafkaIBPVersion := ltac:(build_setter eta).
#[export] Instance set_KafkaUpgrading : Setter KafkaUpgrading := ltac:(build_setter eta).
#[export] Instance set_StrimziUpgrading : Setter StrimziUpgrading := ltac:(build_setter eta).
#[export] Instance set_KafkaIBPUpgrading : Setter KafkaIBPUpgrading := ltac:(build_setter eta).
#[export] Instance set_MaxDataRetentionSize : Setter MaxDataRetentionSize := ltac:(build_setter eta).
#[export] Instance set_InstanceType : Setter InstanceType := ltac:(build_setter eta).
#[export] Instance set_QuotaType : Setter QuotaType := ltac:(build_setter eta).
#[export] Instance set_Routes : Setter Routes := ltac:(build_setter eta).
#[export] Instance set_RoutesCreated : Setter RoutesCreated := ltac:(build_setter eta).
#[export] Instance set_Namespace : Setter Namespace := ltac:(build_setter eta).
#[export] Instance set_ReauthenticationEnabled : Setter ReauthenticationEnabled := ltac:(build_setter eta).
#[export] Instance set_RoutesCreationId : Setter RoutesCreationId := ltac:(build_setter eta).
#[export] Instance set_SizeId : Setter SizeId := ltac:(build_setter eta).
#[export] Instance set_BillingCloudAccountId : Setter BillingCloudAccountId := ltac:(build_setter eta).
#[export] Instance set_Marketplace : Setter Marketplace := ltac:(build_setter eta).
#[export] Instance set_ActualKafkaBillingModel : Setter ActualKafkaBillingModel := ltac:(build_setter eta).
#[export] Instance set_DesiredKafkaBillingModel : Setter DesiredKafkaBillingModel := ltac:(build_setter eta).
#[export] Instance set_PromotionStatus : Setter PromotionStatus := ltac:(build_setter eta).
#[export] Instance set_PromotionDetails : Setter PromotionDetails := ltac:(build_setter eta).
#[export] Instance set_ExpiresAt : Setter ExpiresAt := ltac:(build_setter eta).
#[export] Instance set_KafkasRoutesBaseDomainName : Setter KafkasRoutesBaseDomainName := ltac:(build_setter eta).
#[export] Instance set_KafkasRoutesBaseDomainTLSKeyRef : Setter KafkasRoutesBaseDomainTLSKeyRef := ltac:(build_setter eta).
#[export] Instance set_KafkasRoutesBaseDomainTLSCrtRef : Setter KafkasRoutesBaseDomainTLSCrtRef := ltac:(build_setter eta).

(** The zero value of the struct. *)
#[export] Instance zero_KafkaRequest : Zero KafkaRequest :=
  mkKafkaRequest "" 0 0 "" "" "" false "" "" "" "" "" "" "" "" "" "" "" "" "" "" "" "" "" "" false false false "" "" "" JNull false "" false "" "" "" "" "" "" "" "" None "" "" "".

(** The row [old] after its non-zero columns have been assigned from [new]. *)
Definition merge_nonzero (new old : KafkaRequest) : KafkaRequest :=
  mkKafkaRequest
    (ID old)
    (pick_Z (CreatedAt new) (CreatedAt old))
    (pick_Z (UpdatedAt new) (UpdatedAt old))
    (pick_string (Region new) (Region old))
    (pick_string (ClusterID new) (ClusterID old))
    (pick_string (CloudProvider new) (CloudProvider old))
    (MultiAZ new || MultiAZ old)
    (pick_string (Name new) (Name old))
    (pick_string (Status new) (Status old))
    (pick_string (CanaryServiceAccountClientID new) (CanaryServiceAccountClientID old))
    (pick_string (CanaryServiceAccountClientSecret new) (CanaryServiceAccountClientSecret old))
    (pick_string (SubscriptionId new) (SubscriptionId old))
    (pick_string (Owner new) (Owner old))
    (pick_string (OwnerAccountId new) (OwnerAccountId old))
    (pick_string (BootstrapServerHost new) (BootstrapServerHost old))
    (pick_string (AdminApiServerURL new) (AdminApiServerURL old))
    (pick_string (OrganisationId new) (OrganisationId old))
    (pick_string (FailedReason new) (FailedReason old))
    (pick_string (PlacementId new) (PlacementId old))
    (pick_string (DesiredKafkaVersion new) (DesiredKafkaVersion old))
    (pick_string (ActualKafkaVersion new) (ActualKafkaVersion old))
    (pick_string (DesiredStrimziVersion new) (DesiredStrimziVersion old))
    (pick_string (ActualStrimziVersion new) (ActualStrimziVersion old))
    (pick_string (DesiredKafkaIBPVersion new) (DesiredKafkaIBPVersion old))
    (pick_string (ActualKafkaIBPVersion new) (ActualKafkaIBPVersion old))
    (KafkaUpgrading new || KafkaUpgrading old)
    (StrimziUpgrading new || StrimziUpgrading old)
    (KafkaIBPUpgrading new || KafkaIBPUpgrading old)
    (pick_string (MaxDataRetentionSize new) (MaxDataRetentionSize old))
    (pick_string (InstanceType new) (InstanceType old))
    (pick_string (QuotaType new) (QuotaType old))
    (pick_json (Routes new) (Routes old))
    (RoutesCreated new || RoutesCreated old)
    (pick_string (Namespace new) (Namespace old))
    (ReauthenticationEnabled new || ReauthenticationEnabled old)
    (pick_string (RoutesCreationId new) (RoutesCreationId old))
    (pick_string (SizeId new) (SizeId old))
    (pick_string (BillingCloudAccountId new) (BillingCloudAccountId old))
    (pick_string (Marketplace new) (Marketplace old))
    (pick_string (ActualKafkaBillingModel new) (ActualKafkaBillingModel old))
    (pick_string (DesiredKafkaBillingModel new) (DesiredKafkaBillingModel old))
    (pick_string (PromotionStatus new) (PromotionStatus old))
    (pick_string (PromotionDetails new) (PromotionDetails old))
    (pick_option (ExpiresAt new) (ExpiresAt old))
    (pick_string (KafkasRoutesBaseDomainName new) (KafkasRoutesBaseDomainName old))
    (pick_string (KafkasRoutesBaseDomainTLSKeyRef new) (KafkasRoutesBaseDomainTLSKeyRef old))
    (pick_string (KafkasRoutesBaseDomainTLSCrtRef new) (KafkasRoutesBaseDomainTLSCrtRef old)).
End KR.
Export (hints) KR.
Module CL.
Record Cluster := mkCluster {
  ID : string;
  CreatedAt : Z;
  UpdatedAt : Z;
  CloudProvider : string;
  ClusterID : string;
  ExternalID : string;
  MultiAZ : bool;
  Region : string;
  Status : string;
  StatusDetails : string;
  IdentityProviderID : string;
  ClusterDNS : string;
  ClientID : string;
  ClientSecret : string;
  ProviderType : string;
  ProviderSpec : option string;
  ClusterSpec : option string;
  AvailableStrimziVersions : JSONCol (list StrimziVersion);
  SupportedInstanceType : string;
  DynamicCapacityInfo : JSONCol (gmap string DynamicCapacityInfo);
  ClusterType : string;
  OrganizationID : string;
  AccessKafkasViaPrivateNetwork : bool
}.

Definition eta (r : Cluster) : Cluster :=
  mkCluster (ID r) (CreatedAt r) (UpdatedAt r) (CloudProvider r) (ClusterID r) (ExternalID r) (MultiAZ r) (Region r) (Status r) (StatusDetails r) (IdentityProviderID r) (ClusterDNS r) (ClientID r) (ClientSecret r) (ProviderType r) (ProviderSpec r) (ClusterSpec r) (AvailableStrimziVersions r) (SupportedInstanceType r) (DynamicCapacityInfo r) (ClusterType r) (OrganizationID r) (AccessKafkasViaPrivateNetwork r).

#[export] Instance set_ID : Setter ID := ltac:(build_setter eta).
#[export] Instance set_CreatedAt : Setter CreatedAt := ltac:(build_setter eta).
#[export] Instance set_UpdatedAt : Setter UpdatedAt := ltac:(build_setter eta).
#[export] Instance set_Status : Setter Status := ltac:(build_setter eta).
#[export] Instance set_ClusterID : Setter ClusterID := ltac:(build_setter eta).
#[export] Instance set_ExternalID : Setter ExternalID := ltac:(build_setter eta).
#[export] Instance set_ClusterDNS : Setter ClusterDNS := ltac:(build_setter eta).
#[export] Instance set_StatusDetails : Setter StatusDetails := ltac:(build_setter eta).
#[export] Instance set_SupportedInstanceType : Setter SupportedInstanceType := ltac:(build_setter eta).
#[export] Instance set_ClusterType : Setter ClusterType := ltac:(build_setter eta).
#[export] Instance set_AvailableStrimziVersions : Setter AvailableStrimziVersions := ltac:(build_setter eta).
#[export] Instance set_DynamicCapacityInfo : Setter DynamicCapacityInfo := ltac:(build_setter eta).
#[export] Instance set_ClusterSpec : Setter ClusterSpec := ltac:(build_setter eta).
#[export] Instance set_IdentityProviderID : Setter IdentityProviderID := ltac:(build_setter eta).
#[export] Instance set_ClientID : Setter ClientID := ltac:(build_setter eta).
#[export] Instance set_ClientSecret : Setter ClientSecret := ltac:(build_setter eta).
#[export] Instance set_ProviderType : Setter ProviderType := ltac:(build_setter eta).
#[export] Instance set_OrganizationID : Setter OrganizationID := ltac:(build_setter eta).

(** The zero value of the struct. *)
#[export] Instance zero_Cluster : Zero Cluster :=
  mkCluster "" 0 0 "" "" "" false "" "" "" "" "" "" "" "" None None JNull "" JNull "" "" false.

(** The row [old] after its non-zero columns have been assigned from [new]. *)
Definition merge_nonzero (new old : Cluster) : Cluster :=
  mkCluster
    (ID old)
    (pick_Z (CreatedAt new) (CreatedAt old))
    (pick_Z (UpdatedAt new) (UpdatedAt old))
    (pick_string (CloudProvider new) (CloudProvider old))
    (pick_string (ClusterID new) (ClusterID old))
    (pick_string (ExternalID new) (ExternalID old))
    (MultiAZ new || MultiAZ old)
    (pick_string (Region new) (Region old))
    (pick_string (Status new) (Status old))
    (StatusDetails old)
    (pick_string (IdentityProviderID new) (IdentityProviderID old))
    (pick_string (ClusterDNS new) (ClusterDNS old))
    (pick_string (ClientID new) (ClientID old))
    (pick_string (ClientSecret new) (ClientSecret old))
    (pick_string (ProviderType new) (ProviderType old))
    (pick_option (ProviderSpec new) (ProviderSpec old))
    (pick_option (ClusterSpec new) (ClusterSpec old))
    (pick_json (AvailableStrimziVersions new) (AvailableStrimziVersions old))
    (pick_string (SupportedInstanceType new) (SupportedInstanceType old))
    (pick_json (DynamicCapacityInfo new) (DynamicCapacityInfo old))
    (pick_string (ClusterType new) (ClusterType old))
    (pick_string (OrganizationID new) (OrganizationID old))
    (AccessKafkasViaPrivateNetwork new || AccessKafkasViaPrivateNetwork old).
End CL.
Export (hints) CL.
Abbreviation KafkaRequest := KR.KafkaRequest.
Abbreviation Cluster := CL.Cluster.

(** ** Methods of [KafkaRequest] *)
Definition KafkaPromotionStatusPromoting : string := "promoting".
Definition KafkaPromotionStatusFailed : string := "failed".
Definition KafkaPromotionStatusNoPromotion : string := "".

Definition ParseKafkaPromotionStatus (status : string) : result error string :=
  if Contains [KafkaPromotionStatusPromoting; KafkaPromotionStatusFailed; KafkaPromotionStatusNoPromotion] status
  then Ok status
  else Err (EPlain "cannot parse %q as KafkaPromotionStatus: invalid status").

(** [KafkaList.Index]: a later entry replaces an earlier one with the same id. *)
Definition KafkaList_Index (l : list KafkaRequest) : gmap string KafkaRequest :=
  foldl (fun index o => <[ o.(KR.ID) := o ]> index) ∅ l.

(** [NewID] is the identifier the xid library generates. *)
Definition KafkaRequest_BeforeCreate (NewID : string) (k : KafkaRequest) : KafkaRequest :=
  if k.(KR.ID) =?s "" then k <| KR.ID := NewID |> else k.

Definition GetRoutes (k : KafkaRequest) : result error (list DataPlaneKafkaRoute) :=
  match k.(KR.Routes) with
  | JNull => Ok []
  | JDoc routes => Ok routes
  | JBad => Err json_error
  end.

Definition SetRoutes (k : KafkaRequest) (routes : list DataPlaneKafkaRoute) : KafkaRequest :=
  k <| KR.Routes := JDoc routes |>.

(** [time.Duration(lifespanSeconds) * time.Second] is a 64-bit product. *)
Definition GetExpirationTime (k : KafkaRequest) (lifespanSeconds : Z) : Z :=
  k.(KR.CreatedAt) + int64 (lifespanSeconds * Second).

(** The code keeps the remaining life span as a number of days in a [float64];
    here it is the number of nanoseconds, and comparisons are exact. *)
Record RemainingLifeSpan := mkRemainingLifeSpan {
  remainingLifeSpan : Z;
  infinite : bool
}.

Definition Day : Z := 24 * Hour.

Definition LessThanOrEqual (l : RemainingLifeSpan) (days : Z) : bool :=
  if l.(infinite) then false else l.(remainingLifeSpan) <=? days * Day.

(** [Time.Sub] saturates at the largest duration. *)
Definition IsExpired (now : Z) (k : KafkaRequest) : bool * RemainingLifeSpan :=
  match k.(KR.ExpiresAt) with
  | None => (false, mkRemainingLifeSpan (- Day) true)
  | Some t =>
      if t <? now then (true, mkRemainingLifeSpan 0 false)
      else (false, mkRemainingLifeSpan (Z.min (t - now) (2 ^ 63 - 1)) false)
  end.

Definition CanBeAutomaticallySuspended (k : KafkaRequest) : bool :=
  Contains [ KafkaRequestStatusAccepted; KafkaRequestStatusPreparing; KafkaRequestStatusReady;
             KafkaRequestStatusProvisioning; KafkaRequestStatusResuming ] k.(KR.Status).

Definition DesiredBillingModelIsEnterprise (k : KafkaRequest) : bool :=
  StringEqualsIgnoreCase k.(KR.DesiredKafkaBillingModel) BillingModelEnterprise.

Definition HasCertificateInfo (k : KafkaRequest) : bool :=
  negb (StringEmpty k.(KR.KafkasRoutesBaseDomainName) ||
        StringEmpty k.(KR.KafkasRoutesBaseDomainTLSCrtRef) ||
        StringEmpty k.(KR.KafkasRoutesBaseDomainTLSKeyRef)).

(** [KafkaDomainName] is that field of the configuration. *)
Definition IsUsingSharedTLSCertificate (k : KafkaRequest) (KafkaDomainName : string) : bool :=
  (k.(KR.KafkasRoutesBaseDomainName) =?s KafkaDomainName) ||
  (k.(KR.KafkasRoutesBaseDomainName) =?s TrialKafkasDomainShard +:+ "." +:+ KafkaDomainName).

Definition IsADeveloperInstance (k : KafkaRequest) : bool :=
  k.(KR.InstanceType) =?s DEVELOPER.

(** ** Methods of [Cluster] and [StrimziVersion] *)
Definition ClusterList_Index (l : list Cluster) : gmap string Cluster :=
  foldl (fun index o => <[ o.(CL.ID) := o ]> index) ∅ l.

Definition Cluster_BeforeCreate (NewID : string) (cluster : Cluster) : Cluster :=
  let c := if cluster.(CL.Status) =?s "" then cluster <| CL.Status := ClusterAccepted |> else cluster in
  let c := if c.(CL.ID) =?s "" then c <| CL.ID := NewID |> else c in
  let c := if c.(CL.SupportedInstanceType) =?s ""
           then c <| CL.SupportedInstanceType := AllInstanceTypeSupport |> else c in
  if c.(CL.ClusterType) =?s "" then c <| CL.ClusterType := ManagedDataPlaneClusterType |> else c.

Definition GetLatestKafkaVersion (s : StrimziVersion) : option KafkaVersion := last s.(KafkaVersions).
Definition GetLatestKafkaIBPVersion (s : StrimziVersion) : option KafkaIBPVersion := last s.(KafkaIBPVersions).

(** [DeepCopy] is the identity on values: no operation below mutates a version
    in place. *)
Definition GetAvailableStrimziVersions (cluster : Cluster) : result error (list StrimziVersion) :=
  match cluster.(CL.AvailableStrimziVersions) with
  | JNull => Ok []
  | JDoc versions => Ok versions
  | JBad => Err json_error
  end.

Definition GetAvailableAndReadyStrimziVersions (cluster : Cluster) : result error (list StrimziVersion) :=
  strimziVersions <-! GetAvailableStrimziVersions cluster ;;
  Ok (Filter strimziVersions Ready).

Definition GetLatestAvailableAndReadyStrimziVersion (cluster : Cluster) : result error (option StrimziVersion) :=
  strimziVersions <-! GetAvailableAndReadyStrimziVersions cluster ;;
  Ok (last strimziVersions).

Definition GetLatestAvailableStrimziVersion (cluster : Cluster) : result error (option StrimziVersion) :=
  strimziVersions <-! GetAvailableStrimziVersions cluster ;;
  Ok (last strimziVersions).

Definition SetDynamicCapacityInfo (cluster : Cluster) (info : gmap string DynamicCapacityInfo) : Cluster :=
  cluster <| CL.DynamicCapacityInfo := JDoc info |>.

(** A column that does not decode is logged and read as an empty map. *)
Definition RetrieveDynamicCapacityInfo (cluster : Cluster) : gmap string DynamicCapacityInfo :=
  match cluster.(CL.DynamicCapacityInfo) with
  | JDoc info => info
  | _ => ∅
  end.

Definition GetSupportedInstanceTypes (cluster : Cluster) : list string :=
  if cluster.(CL.SupportedInstanceType) =?s "" then []
  else Split cluster.(CL.SupportedInstanceType) ","%char.

(** ** Lemmas *)

(** Creating a cluster leaves no column without its default. *)
Lemma Cluster_BeforeCreate_complete NewID c :
  NewID <> "" ->
  let c' := Cluster_BeforeCreate NewID c in
  c'.(CL.Status) <> "" /\ c'.(CL.ID) <> "" /\ c'.(CL.SupportedInstanceType) <> "" /\ c'.(CL.ClusterType) <> "" /\
  GetSupportedInstanceTypes c' <> [].
Proof.
  intros HN c'. assert (c'.(CL.Status) <> "" /\ c'.(CL.ID) <> "" /\ c'.(CL.SupportedInstanceType) <> "" /\
    c'.(CL.ClusterType) <> "") as (?&?&Hs&?).
  { subst c'. unfold Cluster_BeforeCreate. destruct c. simpl.
    repeat (case_str; simpl in *); split_and!; done. }
  split_and!; try done. unfold GetSupportedInstanceTypes.
  apply String.eqb_neq in Hs as ->. apply Split_not_nil.
Qed.

Lemma last_Filter_sat {A} (p : A -> bool) l a : last (Filter l p) = Some a -> p a = true /\ a ∈ l.
Proof. intros H. apply last_Some_elem_of, elem_of_Filter in H. naive_solver. Qed.

(** Expiry: an instance is expired exactly from the instant after its deadline. *)
Lemma IsExpired_spec now k :
  fst (IsExpired now k) = true <-> exists t, k.(KR.ExpiresAt) = Some t /\ t < now.
Proof.
  unfold IsExpired. destruct (KR.ExpiresAt k) as [t|]; [|naive_solver].
  destruct (Z.ltb_spec t now); simpl; naive_solver lia.
Qed.
