(* ===== verification/Versions.v ===== *)
(** * Versions: semantic version comparison and the order of Strimzi versions

    [src/pkg/api/semverutil.go] and the version part of
    [src/pkg/api/cluster_types.go].  The semver package is third-party code: it
    is the class [SemverLib], whose laws are what semver.org says of precedence
    (a total preorder, with results -1, 0 and 1).

    [sort.Slice] is the insertion sort that Go's [sort] package runs on slices
    of at most 12 elements, with the comparison as a closure that collects
    errors. *)
From Stdlib Require Import Sorting.Sorted.
From S2P Require Import Prelude Arrays Errors Status Config Model.

Class SemverLib := {
  Semver : Type;
  Major : Semver -> Z;
  Minor : Semver -> Z;
  Build : Semver -> list string;
  ParseTolerant : string -> result error Semver;
  Compare : Semver -> Semver -> Z;
  Compare_range : forall a b, Compare a b = -1 \/ Compare a b = 0 \/ Compare a b = 1;
  Compare_refl : forall a, Compare a a = 0;
  Compare_opp : forall a b, Compare a b = - Compare b a;
  Compare_trans : forall a b c, Compare a b <= 0 -> Compare b c <= 0 -> Compare a c <= 0
}.

(** Go compares strings byte by byte. *)
Definition string_gt (a b : string) : bool :=
  match String.compare a b with Gt => true | _ => false end.

Section Compare.
Context `{SemverLib}.

Definition build_compare (v1 v2 : Semver) : Z :=
  let v1BuildVersion := Join (Build v1) "." in
  let v2BuildVersion := Join (Build v2) "." in
  if v1BuildVersion =?s v2BuildVersion then 0
  else if string_gt v1BuildVersion v2BuildVersion then 1 else -1.

Definition buildAwareSemanticVersioningCompare (v1 v2 : string) : result error Z :=
  v1Semver <-! ParseTolerant v1 ;;
  v2Semver <-! ParseTolerant v2 ;;
  let res := Compare v1Semver v2Semver in
  Ok (if res =? 0 then build_compare v1Semver v2Semver else res).

Definition checkIfMinorDowngrade (current desired : string) : result error Z :=
  currentSemver <-! ParseTolerant current ;;
  desiredSemver <-! ParseTolerant desired ;;
  Ok (if Major currentSemver <? Major desiredSemver then -1
      else if Major desiredSemver <? Major currentSemver then 1
      else if Minor currentSemver =? Minor desiredSemver then 0
      else if Minor desiredSemver <? Minor currentSemver then 1
      else -1).

(** [StrimziVersionNumberPartRegex] is [\d+\.\d+\.\d+-\d+$]: its leftmost
    match is the longest suffix of that form. *)
Definition is_digit (c : ascii) : bool :=
  let n := N_of_ascii c in ((48 <=? n) && (n <=? 57))%N.

Fixpoint skip_digits (s : string) : string :=
  match s with
  | String c s' => if is_digit c then skip_digits s' else s
  | EmptyString => EmptyString
  end.

(** One or more digits, then what is left of [s]. *)
Definition digits1 (s : string) : option string :=
  match s with
  | String c s' => if is_digit c then Some (skip_digits s') else None
  | EmptyString => None
  end.

Definition byte (c : ascii) (s : string) : option string :=
  match s with
  | String c' s' => if Ascii.eqb c c' then Some s' else None
  | EmptyString => None
  end.

Definition matches_version_number (s : string) : bool :=
  match (s ← digits1 s; s ← byte "." s; s ← digits1 s; s ← byte "." s;
         s ← digits1 s; s ← byte "-" s; digits1 s) with
  | Some "" => true
  | _ => false
  end.

Fixpoint StrimziVersionNumberPart (s : string) : string :=
  if matches_version_number s then s
  else match s with
       | EmptyString => ""
       | String _ s' => StrimziVersionNumberPart s'
       end.

Definition StrimziVersion_Compare (s other : StrimziVersion) : result error Z :=
  let v1VersionNumber := StrimziVersionNumberPart s.(Version) in
  let v2VersionNumber := StrimziVersionNumberPart other.(Version) in
  if v1VersionNumber =?s "" then Err (EPlain "'%s' does not follow expected Strimzi Version format")
  else if v2VersionNumber =?s "" then Err (EPlain "'%s' does not follow expected Strimzi Version format")
  else buildAwareSemanticVersioningCompare v1VersionNumber v2VersionNumber.

Definition KafkaVersion_Compare (s other : KafkaVersion) : result error Z :=
  buildAwareSemanticVersioningCompare s.(KafkaVersion_Version) other.(KafkaVersion_Version).

Definition KafkaIBPVersion_Compare (s other : KafkaIBPVersion) : result error Z :=
  buildAwareSemanticVersioningCompare s.(KafkaIBPVersion_Version) other.(KafkaIBPVersion_Version).
End Compare.

(** ** [sort.Slice] with an error-collecting comparison *)
Section SortSlice.
Context {A : Type} (cmp : A -> A -> result error Z).

(** [less] returns its verdict and the error list it extends; on an error the
    compared result is 0, so the verdict is false. *)
Definition less (errs : list error) (a b : A) : bool * list error :=
  match cmp a b with
  | Ok res => (res =? -1, errs)
  | Err err => (false, errs ++ [err])
  end.

(** Moves [x] towards the front of the sorted prefix, which is held in
    reverse: the element next to [x] is its head. *)
Fixpoint insert_back (errs : list error) (x : A) (rev_prefix : list A) : list A * list error :=
  match rev_prefix with
  | [] => ([x], errs)
  | y :: rest =>
      let '(lt, errs) := less errs x y in
      if lt then let '(rest', errs) := insert_back errs x rest in (y :: rest', errs)
      else (x :: y :: rest, errs)
  end.

Fixpoint insertion_sort (errs : list error) (rev_prefix l : list A) : list A * list error :=
  match l with
  | [] => (reverse rev_prefix, errs)
  | x :: l' => let '(p, errs) := insert_back errs x rev_prefix in insertion_sort errs p l'
  end.

(** The slice after sorting, or the errors collected on the way. *)
Definition sort_or_errors (l : list A) : result error (list A) :=
  let '(sorted, errs) := insertion_sort [] [] l in
  match errs with [] => Ok sorted | _ => Err (EList errs) end.
End SortSlice.

Section DeepSort.
Context `{SemverLib}.

(** The nested slices of one version are sorted, Kafka versions first. *)
Definition sort_nested (v : StrimziVersion) : result error StrimziVersion :=
  kafkaVersions <-! sort_or_errors KafkaVersion_Compare v.(KafkaVersions) ;;
  kafkaIBPVersions <-! sort_or_errors KafkaIBPVersion_Compare v.(KafkaIBPVersions) ;;
  Ok (mkStrimziVersion v.(Version) v.(Ready) kafkaVersions kafkaIBPVersions).

Fixpoint sort_nested_all (l : list StrimziVersion) : result error (list StrimziVersion) :=
  match l with
  | [] => Ok []
  | v :: l' => v' <-! sort_nested v ;; l'' <-! sort_nested_all l' ;; Ok (v' :: l'')
  end.

Definition StrimziVersionsDeepSort (versions : list StrimziVersion) : result error (list StrimziVersion) :=
  versionsToSet <-! sort_or_errors StrimziVersion_Compare versions ;;
  sort_nested_all versionsToSet.

Definition SetAvailableStrimziVersions (cluster : Cluster) (versions : list StrimziVersion) : result error Cluster :=
  sortedVersions <-! StrimziVersionsDeepSort versions ;;
  Ok (cluster <| CL.AvailableStrimziVersions := JDoc sortedVersions |>).
End DeepSort.

(** ** Lemmas *)
Definition cmp_le {A} (cmp : A -> A -> result error Z) (a b : A) : Prop :=
  exists c, cmp a b = Ok c /\ c <= 0.

Section SortLemmas.
Context {A : Type} (cmp : A -> A -> result error Z).
Hypothesis cmp_opp : forall a b c, cmp a b = Ok c -> cmp b a = Ok (- c).
Hypothesis cmp_range : forall a b c, cmp a b = Ok c -> c = -1 \/ c = 0 \/ c = 1.

Lemma insert_back_perm errs x p : fst (insert_back cmp errs x p) ≡ₚ x :: p.
Proof.
  revert errs. induction p as [|y p IH]; intros errs; simpl; [done|].
  destruct (less cmp errs x y) as [[] errs']; [|done].
  specialize (IH errs'). destruct (insert_back cmp errs' x p). simpl in *. rewrite IH. constructor.
Qed.

Lemma insert_back_errs errs x p : exists more, snd (insert_back cmp errs x p) = errs ++ more.
Proof.
  revert errs. induction p as [|y p IH]; intros errs; simpl; [exists []; by rewrite app_nil_r|].
  unfold less. destruct (cmp x y) as [c|e]; simpl; [|by exists [e]].
  destruct (c =? -1); [|exists []; by rewrite app_nil_r].
  specialize (IH errs). by destruct (insert_back cmp errs x p).
Qed.

(** A silent insertion keeps the reversed prefix sorted. *)
Lemma insert_back_sorted x p p' :
  insert_back cmp [] x p = (p', []) ->
  Sorted (flip (cmp_le cmp)) p -> Sorted (flip (cmp_le cmp)) p' /\ (forall z, HdRel (flip (cmp_le cmp)) z p -> cmp_le cmp x z -> HdRel (flip (cmp_le cmp)) z p').
Proof.
  revert p'. induction p as [|y p IH]; intros p'; simpl.
  { intros [= <-] _. split; [by repeat constructor|]. intros. by constructor. }
  unfold less. destruct (cmp x y) as [c|e] eqn:Hc; simpl; [|done].
  pose proof (cmp_range _ _ _ Hc) as Hr. pose proof (cmp_opp _ _ _ Hc) as Ho.
  destruct (Z.eqb_spec c (-1)) as [->|Hne].
  - destruct (insert_back cmp [] x p) as [q es] eqn:Hi. intros [= <- ->] Hs.
    inversion Hs as [|? ? Hs' Hhd]; subst.
    destruct (IH q eq_refl Hs') as [Hq Hh]. split.
    + constructor; [done|]. apply Hh; [done|]. exists (-1). split; [done|lia].
    + intros z Hz _. inversion Hz; subst. by constructor.
  - intros [= <-] Hs. split.
    + constructor; [done|]. constructor. exists (- c). split; [done|lia].
    + intros z _ Hz. by constructor.
Qed.

Lemma insertion_sort_spec l p r errs es :
  insertion_sort cmp errs p l = (r, es) ->
  r ≡ₚ p ++ l /\ (exists more, es = errs ++ more) /\
  (es = [] -> Sorted (flip (cmp_le cmp)) p -> Sorted (flip (cmp_le cmp)) (reverse r)).
Proof.
  revert p errs. induction l as [|x l IH]; intros p errs; simpl.
  { intros [= <- <-]. rewrite app_nil_r, reverse_involutive. split_and!; [apply reverse_Permutation| |done].
    exists []. by rewrite app_nil_r. }
  destruct (insert_back cmp errs x p) as [q errs1] eqn:Hi. intros (Hp & (m & ->) & Hs)%IH.
  pose proof (insert_back_perm errs x p) as Hq. pose proof (insert_back_errs errs x p) as (m' & He).
  rewrite Hi in Hq, He. simpl in Hq, He. subst errs1. split_and!.
  - rewrite Hp, Hq, <- Permutation_middle. done.
  - exists (m' ++ m). by rewrite app_assoc.
  - intros Hnil Hsp. apply Hs; [done|].
    apply app_eq_nil in Hnil as [Hnil ->]. apply app_eq_nil in Hnil as [-> ->]. simpl in Hi.
    by eapply insert_back_sorted.
Qed.

Lemma Sorted_snoc {B} (R : B -> B -> Prop) l x :
  Sorted R l -> (forall y, last l = Some y -> R y x) -> Sorted R (l ++ [x]).
Proof.
  induction l as [|a l IH]; simpl; intros Hs Hl; [by repeat constructor|].
  inversion Hs as [|? ? Hs' Hhd]; subst. constructor.
  - apply IH; [done|]. intros y Hy. apply Hl. destruct l; [done|]. by rewrite last_cons_cons.
  - destruct l; simpl; constructor; [by apply Hl|]. by inversion Hhd.
Qed.

Lemma Sorted_reverse {B} (R : B -> B -> Prop) l : Sorted (flip R) l -> Sorted R (reverse l).
Proof.
  induction l as [|a l IH]; [constructor|]. intros Hs. inversion Hs as [|? ? Hs' Hhd]; subst.
  rewrite reverse_cons. apply Sorted_snoc; [by apply IH|].
  intros y Hy. rewrite last_reverse in Hy. destruct l; [done|]. inversion Hhd; subst. by simplify_eq/=.
Qed.

(** Sorting without a comparison error gives a sorted permutation. *)
Lemma sort_or_errors_ok l r :
  sort_or_errors cmp l = Ok r -> r ≡ₚ l /\ Sorted (cmp_le cmp) r.
Proof.
  unfold sort_or_errors. destruct (insertion_sort cmp [] [] l) as [s es] eqn:Hi.
  destruct es; [|done]. intros [= <-]. apply insertion_sort_spec in Hi as (Hp & _ & Hs).
  split; [done|]. rewrite <- (reverse_involutive s). apply Sorted_reverse, Hs; [done|constructor].
Qed.

(** The second element onwards is compared with the element before it, so an
    element that no comparison accepts makes the sort fail. *)
Lemma insertion_sort_bad l p errs x :
  x ∈ l -> p <> [] -> (forall y, exists e, cmp x y = Err e) -> snd (insertion_sort cmp errs p l) <> [].
Proof.
  intros Hx Hp Hbad. revert p errs Hp. induction l as [|z l IH]; [set_solver|].
  intros p errs Hp. simpl. destruct (insert_back cmp errs z p) as [q errs1] eqn:Hi.
  pose proof (insert_back_perm errs z p) as Hq. rewrite Hi in Hq. simpl in Hq.
  assert (q <> []) as Hq0. { intros ->. by apply Permutation_nil_cons in Hq. }
  apply elem_of_cons in Hx as [->|Hx]; [|by apply IH].
  destruct p as [|y p]; [done|]. simpl in Hi. unfold less in Hi.
  destruct (Hbad y) as [e He]. rewrite He in Hi. simplify_eq.
  destruct (insertion_sort cmp (errs ++ [e]) (z :: y :: p) l) as [r es] eqn:Hs.
  apply insertion_sort_spec in Hs as (_ & (m & ->) & _). simpl. by destruct errs.
Qed.
End SortLemmas.

Lemma string_gt_asym a b : a <> b -> string_gt a b = negb (string_gt b a).
Proof.
  unfold string_gt. intros Hne. rewrite (String.compare_antisym a b).
  destruct (String.compare b a) eqn:E; [|done|done]. apply String.compare_eq_iff in E. congruence.
Qed.

Lemma string_gt_trans a b c : string_gt a b = true -> string_gt b c = true -> string_gt a c = true.
Proof.
  unfold string_gt. revert b c.
  induction a as [|x a IH]; intros [|y b] [|z c]; simpl; try done.
  unfold Ascii.compare.
  destruct (N.compare_spec (N_of_ascii x) (N_of_ascii y)) as [Exy|Exy|Exy]; try done;
    destruct (N.compare_spec (N_of_ascii y) (N_of_ascii z)) as [Eyz|Eyz|Eyz]; try done;
    destruct (N.compare_spec (N_of_ascii x) (N_of_ascii z)) as [Exz|Exz|Exz]; try lia; try done.
  apply IH.
Qed.

Section CompareLemmas.
Context `{SemverLib}.

Lemma build_compare_opp a b : build_compare a b = - build_compare b a.
Proof.
  unfold build_compare. destruct (String.eqb_spec (Join (Build a) ".") (Join (Build b) ".")) as [->|Hne].
  - by rewrite String.eqb_refl.
  - rewrite (proj2 (String.eqb_neq _ _) (not_eq_sym Hne)), string_gt_asym by done.
    by destruct (string_gt _ _).
Qed.

Lemma build_compare_trans a b c :
  build_compare a b <= 0 -> build_compare b c <= 0 -> build_compare a c <= 0.
Proof.
  unfold build_compare.
  generalize (Join (Build a) ".") (Join (Build b) ".") (Join (Build c) "."). intros x y z.
  destruct (String.eqb_spec x y) as [->|Hxy]; [done|].
  destruct (String.eqb_spec y z) as [->|Hyz]; [by rewrite (proj2 (String.eqb_neq _ _) Hxy)|].
  rewrite (string_gt_asym x y), (string_gt_asym y z) by done.
  destruct (String.eqb_spec x z) as [->|Hxz]; [lia|]. rewrite (string_gt_asym x z) by done.
  destruct (string_gt y x) eqn:E1; simpl; [|lia]. destruct (string_gt z y) eqn:E2; simpl; [|lia].
  by rewrite (string_gt_trans _ _ _ E2 E1).
Qed.

Lemma semver_compare_opp v1 v2 c :
  buildAwareSemanticVersioningCompare v1 v2 = Ok c -> buildAwareSemanticVersioningCompare v2 v1 = Ok (- c).
Proof.
  unfold buildAwareSemanticVersioningCompare.
  destruct (ParseTolerant v1) as [a|], (ParseTolerant v2) as [b|]; simpl; try done.
  intros [= <-]. f_equal. rewrite (Compare_opp b a).
  destruct (Z.eqb_spec (Compare a b) 0), (Z.eqb_spec (- Compare a b) 0); try lia.
  apply build_compare_opp.
Qed.

Lemma semver_compare_range v1 v2 c :
  buildAwareSemanticVersioningCompare v1 v2 = Ok c -> c = -1 \/ c = 0 \/ c = 1.
Proof.
  unfold buildAwareSemanticVersioningCompare.
  destruct (ParseTolerant v1) as [a|], (ParseTolerant v2) as [b|]; simpl; try done.
  intros [= <-]. destruct (Z.eqb_spec (Compare a b) 0) as [_|]; [|apply Compare_range].
  unfold build_compare. repeat case_match; lia.
Qed.

Lemma semver_le_trans v1 v2 v3 :
  cmp_le buildAwareSemanticVersioningCompare v1 v2 -> cmp_le buildAwareSemanticVersioningCompare v2 v3 ->
  cmp_le buildAwareSemanticVersioningCompare v1 v3.
Proof.
  unfold cmp_le, buildAwareSemanticVersioningCompare.
  destruct (ParseTolerant v1) as [a|], (ParseTolerant v2) as [b|], (ParseTolerant v3) as [c|]; simpl;
    try naive_solver.
  intros (? & [= <-] & Hab) (? & [= <-] & Hbc). eexists. split; [done|].
  pose proof (Compare_trans a b c) as Ht1. pose proof (Compare_trans c a b) as Ht2.
  pose proof (Compare_trans b c a) as Ht3. pose proof (build_compare_trans a b c) as Htb.
  rewrite (Compare_opp c a), (Compare_opp b a), (Compare_opp c b) in *.
  destruct (Z.eqb_spec (Compare a b) 0), (Z.eqb_spec (Compare b c) 0), (Z.eqb_spec (Compare a c) 0); lia.
Qed.

Lemma StrimziVersion_Compare_ok a b c :
  StrimziVersion_Compare a b = Ok c ->
  buildAwareSemanticVersioningCompare (StrimziVersionNumberPart a.(Version)) (StrimziVersionNumberPart b.(Version)) = Ok c
  /\ StrimziVersionNumberPart a.(Version) <> "" /\ StrimziVersionNumberPart b.(Version) <> "".
Proof. unfold StrimziVersion_Compare. repeat case_str; done. Qed.

Lemma StrimziVersion_Compare_opp a b c :
  StrimziVersion_Compare a b = Ok c -> StrimziVersion_Compare b a = Ok (- c).
Proof.
  intros (Hc & Ha & Hb)%StrimziVersion_Compare_ok. unfold StrimziVersion_Compare.
  repeat case_str; try done. by apply semver_compare_opp.
Qed.

Lemma StrimziVersion_Compare_range a b c :
  StrimziVersion_Compare a b = Ok c -> c = -1 \/ c = 0 \/ c = 1.
Proof. intros (Hc & _)%StrimziVersion_Compare_ok. by eapply semver_compare_range. Qed.

Lemma strimzi_le_trans : Transitive (cmp_le StrimziVersion_Compare).
Proof.
  intros a b c (x & (Hx & Ha & _)%StrimziVersion_Compare_ok & Hx0) (y & (Hy & _ & Hc)%StrimziVersion_Compare_ok & Hy0).
  destruct (semver_le_trans _ _ _ (ex_intro _ x (conj Hx Hx0)) (ex_intro _ y (conj Hy Hy0))) as (z & Hz & Hz0).
  exists z. unfold StrimziVersion_Compare. repeat case_str; done.
Qed.

(** What the nested sort does to one version. *)
Definition nested_sorted (v v' : StrimziVersion) : Prop :=
  v'.(Version) = v.(Version) /\ v'.(Ready) = v.(Ready) /\
  v'.(KafkaVersions) ≡ₚ v.(KafkaVersions) /\ v'.(KafkaIBPVersions) ≡ₚ v.(KafkaIBPVersions) /\
  Sorted (cmp_le KafkaVersion_Compare) v'.(KafkaVersions) /\
  Sorted (cmp_le KafkaIBPVersion_Compare) v'.(KafkaIBPVersions).

Lemma sort_nested_ok v v' : sort_nested v = Ok v' -> nested_sorted v v'.
Proof.
  unfold sort_nested.
  destruct (sort_or_errors KafkaVersion_Compare _) as [ks|] eqn:Hk; simpl; [|done].
  destruct (sort_or_errors KafkaIBPVersion_Compare _) as [ibps|] eqn:Hi; simpl; [|done].
  intros [= <-].
  apply sort_or_errors_ok in Hk as [? ?];
    [|intros ???; apply semver_compare_opp | intros ???; apply semver_compare_range].
  apply sort_or_errors_ok in Hi as [? ?];
    [|intros ???; apply semver_compare_opp | intros ???; apply semver_compare_range].
  by split_and!.
Qed.

Lemma sort_nested_all_ok l l' : sort_nested_all l = Ok l' -> Forall2 nested_sorted l l'.
Proof.
  revert l'. induction l as [|v l IH]; simpl; intros l'; [intros [= <-]; constructor|].
  destruct (sort_nested v) as [v'|] eqn:Hv; simpl; [|done].
  destruct (sort_nested_all l) as [r|]; simpl; [|done].
  intros [= <-]. constructor; [by apply sort_nested_ok | by apply IH].
Qed.

(** Comparison reads the version string only. *)
Lemma Sorted_nested l l' :
  Forall2 nested_sorted l l' -> Sorted (cmp_le StrimziVersion_Compare) l -> Sorted (cmp_le StrimziVersion_Compare) l'.
Proof.
  induction 1 as [|v v' l l' (Hv & _) Hl IH]; [done|].
  intros Hs. inversion Hs as [|? ? Hs' Hhd]; subst. constructor; [by apply IH|].
  destruct Hl as [|w w' ? ? (Hw & _) _]; constructor. inversion Hhd as [|? ? (c & Hc & ?)]; subst.
  exists c. unfold StrimziVersion_Compare in *. by rewrite Hv, Hw.
Qed.
End CompareLemmas.

Section VersionProperties.
Context `{SemverLib}.

(** A successful deep sort returns the given versions, each with the same
    Kafka and IBP versions, sorted ascending at all three levels. *)
Theorem StrimziVersionsDeepSort_sorted versions sorted :
  StrimziVersionsDeepSort versions = Ok sorted ->
  Sorted (cmp_le StrimziVersion_Compare) sorted /\
  exists copies, copies ≡ₚ versions /\ Forall2 nested_sorted copies sorted.
Proof.
  unfold StrimziVersionsDeepSort.
  destruct (sort_or_errors StrimziVersion_Compare versions) as [mid|] eqn:Hs; simpl; [|done].
  intros Hn%sort_nested_all_ok.
  apply sort_or_errors_ok in Hs as [Hp Hsorted];
    [|apply StrimziVersion_Compare_opp | apply StrimziVersion_Compare_range].
  split; [by eapply Sorted_nested|]. by exists mid.
Qed.

(** The version stored last by [SetAvailableStrimziVersions], which is the
    one [GetLatestAvailableStrimziVersion] returns, is at least every
    version of the list. *)
Theorem latest_strimzi_is_newest cluster versions cluster' latest :
  SetAvailableStrimziVersions cluster versions = Ok cluster' ->
  GetLatestAvailableStrimziVersion cluster' = Ok (Some latest) ->
  forall v, v ∈ versions ->
    latest.(Version) = v.(Version) \/ cmp_le StrimziVersion_Compare v latest.
Proof.
  unfold SetAvailableStrimziVersions.
  destruct (StrimziVersionsDeepSort versions) as [sorted|] eqn:Hd; simpl; [|done].
  intros [= <-]. unfold GetLatestAvailableStrimziVersion. simpl. intros [= Hl] v Hv.
  unfold StrimziVersionsDeepSort in Hd.
  destruct (sort_or_errors StrimziVersion_Compare versions) as [mid|] eqn:Hs; simpl in Hd; [|done].
  apply sort_nested_all_ok in Hd.
  apply sort_or_errors_ok in Hs as [Hp Hsorted];
    [|apply StrimziVersion_Compare_opp | apply StrimziVersion_Compare_range].
  apply Sorted_StronglySorted in Hsorted; [|exact strimzi_le_trans].
  rewrite <- Hp in Hv. clear Hp.
  induction Hd as [|a a' mid sorted Ha Hd IH]; [set_solver|].
  inversion Hsorted as [|? ? Hss Hall]; subst. destruct sorted as [|b' sorted].
  - inversion Hd; subst. simplify_eq/=. left. destruct Ha as [-> _].
    by apply list_elem_of_singleton in Hv as ->.
  - apply elem_of_cons in Hv as [->|Hv]; [|by apply IH].
    right. rewrite last_cons_cons in Hl. apply last_Some_elem_of, list_elem_of_lookup in Hl as [i Hi].
    destruct (Forall2_lookup_r _ _ _ _ _ Hd Hi) as (b & Hb & (Hbv & _)).
    rewrite Forall_forall in Hall. destruct (Hall b) as (c & Hc & ?); [by eapply list_elem_of_lookup_2|].
    exists c. unfold StrimziVersion_Compare in *. by rewrite Hbv.
Qed.

(** A list of two or more versions with one that has no version number
    suffix is refused; a list of one version is never compared, so it is
    accepted whatever its version string is. *)
Theorem malformed_strimzi_version_refused versions v :
  v ∈ versions -> StrimziVersionNumberPart v.(Version) = "" ->
  (exists errs, (2 <= length versions)%nat /\ StrimziVersionsDeepSort versions = Err (EList errs)) \/
  versions = [v] /\ StrimziVersionsDeepSort versions = sort_nested_all [v].
Proof.
  intros Hv Hbad. destruct versions as [|x [|y l]].
  - set_solver.
  - right. apply list_elem_of_singleton in Hv as ->. done.
  - left. unfold StrimziVersionsDeepSort, sort_or_errors.
    assert (snd (insertion_sort StrimziVersion_Compare [] [] (x :: y :: l)) <> []) as Hne.
    { apply elem_of_cons in Hv as [->|Hv].
      - simpl. unfold less.
        assert (exists e, StrimziVersion_Compare y x = Err e) as [e ->].
        { unfold StrimziVersion_Compare. rewrite Hbad. simpl. case_str; eauto. }
        pose proof (insertion_sort_spec StrimziVersion_Compare StrimziVersion_Compare_opp
          StrimziVersion_Compare_range l [y; x] _ ([] ++ [e]) _ (surjective_pairing _)) as (_ & [m ->] & _).
        done.
      - apply (insertion_sort_bad StrimziVersion_Compare StrimziVersion_Compare_opp StrimziVersion_Compare_range)
          with (l := y :: l) (p := [x]) (errs := []) (x := v); [done|done|].
        intros z. unfold StrimziVersion_Compare. rewrite Hbad. simpl. eauto. }
    destruct (insertion_sort StrimziVersion_Compare [] [] (x :: y :: l)) as [r es]. simpl in Hne.
    destruct es as [|e es]; [done|]. exists (e :: es). split; [simpl; lia|done].
Qed.

(** [CompareSemanticVersionsMajorAndMinor] is 0 exactly when major and
    minor agree, and 1 exactly for a downgrade. *)
Theorem checkIfMinorDowngrade_spec current desired c d :
  ParseTolerant current = Ok c -> ParseTolerant desired = Ok d ->
  exists r, checkIfMinorDowngrade current desired = Ok r /\
    (r = 0 <-> Major c = Major d /\ Minor c = Minor d) /\
    (r = 1 <-> Major d < Major c \/ Major c = Major d /\ Minor d < Minor c) /\
    (r = -1 <-> Major c < Major d \/ Major c = Major d /\ Minor c < Minor d).
Proof.
  intros Hc Hd. unfold checkIfMinorDowngrade. rewrite Hc, Hd. simpl. eexists. split; [done|].
  destruct (Z.ltb_spec (Major c) (Major d)), (Z.ltb_spec (Major d) (Major c)),
    (Z.eqb_spec (Minor c) (Minor d)), (Z.ltb_spec (Minor d) (Minor c)); lia.
Qed.
End VersionProperties.

(** ** A semver library for the witnesses

    A version is the number its dot- or dash-separated decimal components make
    in base 1000; there is no build metadata. *)
Module DecimalSemver.
Fixpoint parse (s : string) (acc comp : Z) : option Z :=
  match s with
  | EmptyString => Some (acc * 1000 + comp)
  | String c s' =>
      if is_digit c then parse s' acc (comp * 10 + Z.of_N (N_of_ascii c) - 48)
      else if Ascii.eqb c "." || Ascii.eqb c "-" then parse s' (acc * 1000 + comp) 0
      else None
  end.

Definition cmp (a b : Z) : Z := Z.sgn (a - b).

#[export] Instance lib : SemverLib.
Proof.
  refine {|
    Semver := Z;
    Major v := v / 1000 / 1000;
    Minor v := v / 1000 mod 1000;
    Build _ := [];
    ParseTolerant s := match parse s 0 0 with Some v => Ok v | None => Err (EPlain "invalid version") end;
    Compare := cmp
  |}; unfold cmp; intros; lia.
Defined.

Definition v (s : string) : StrimziVersion :=
  mkStrimziVersion s true [mkKafkaVersion "2.8.1"; mkKafkaVersion "2.8.0"] [mkKafkaIBPVersion "2.8"].
End DecimalSemver.

Lemma StrimziVersionsDeepSort_sorted_witness :
  exists sorted,
    StrimziVersionsDeepSort (H := DecimalSemver.lib)
      [DecimalSemver.v "strimzi-cluster-operator.v0.23.0-1"; DecimalSemver.v "strimzi-cluster-operator.v0.22.1-4"] = Ok sorted /\
    Sorted (cmp_le (StrimziVersion_Compare (H := DecimalSemver.lib))) sorted.
Proof.
  eexists. split; [vm_compute; reflexivity|].
  eapply (StrimziVersionsDeepSort_sorted (H := DecimalSemver.lib)
    [DecimalSemver.v "strimzi-cluster-operator.v0.23.0-1"; DecimalSemver.v "strimzi-cluster-operator.v0.22.1-4"]).
  vm_compute. reflexivity.
Defined.

Lemma latest_strimzi_is_newest_witness :
  let old := DecimalSemver.v "strimzi-0.22.1-4" in
  let new := DecimalSemver.v "strimzi-0.23.0-1" in
  exists latest, latest.(Version) = "strimzi-0.23.0-1" /\
    (latest.(Version) = old.(Version) \/ cmp_le (StrimziVersion_Compare (H := DecimalSemver.lib)) old latest).
Proof.
  intros old new. eexists. split.
  2:{ eapply (latest_strimzi_is_newest (H := DecimalSemver.lib) zero [new; old]);
        [vm_compute; reflexivity | vm_compute; reflexivity | right; left]. }
  reflexivity.
Defined.

Lemma malformed_strimzi_version_refused_witness :
  (exists errs, (2 <= 2)%nat /\
     StrimziVersionsDeepSort (H := DecimalSemver.lib) [DecimalSemver.v "strimzi-0.22.1-4"; DecimalSemver.v "latest"] = Err (EList errs)) \/
  [DecimalSemver.v "strimzi-0.22.1-4"; DecimalSemver.v "latest"] = [DecimalSemver.v "latest"] /\
     StrimziVersionsDeepSort (H := DecimalSemver.lib) [DecimalSemver.v "strimzi-0.22.1-4"; DecimalSemver.v "latest"]
     = sort_nested_all (H := DecimalSemver.lib) [DecimalSemver.v "latest"].
Proof.
  apply (malformed_strimzi_version_refused (H := DecimalSemver.lib)
    [DecimalSemver.v "strimzi-0.22.1-4"; DecimalSemver.v "latest"] (DecimalSemver.v "latest"));
    [right; left | vm_compute; reflexivity].
Defined.

Lemma checkIfMinorDowngrade_spec_witness :
  exists r, checkIfMinorDowngrade (H := DecimalSemver.lib) "2.8.1" "2.7.2" = Ok r /\ r = 1.
Proof.
  destruct (checkIfMinorDowngrade_spec (H := DecimalSemver.lib) "2.8.1" "2.7.2" 2008001 2007002) as (r & Hr & _ & H1 & _);
    [vm_compute; reflexivity | vm_compute; reflexivity |].
  exists r. split; [exact Hr|]. apply H1. right. vm_compute. split; reflexivity.
Defined.
