(* ===== verification/HostNames.v ===== *)
(** * Host names and identifiers of Kafkas

    [src/internal/kafka/internal/services/util.go].  [IsDNS1035Label] belongs
    to k8s.io/apimachinery: it is a parameter, with the documented grammar of
    the label as its law. *)
From S2P Require Import Prelude Arrays Errors Status Config Model.

Definition truncatedNameLen : nat := 10.

Definition TruncateString (str : string) (num : nat) : string :=
  if (num <? String.length str)%nat then String.substring 0 num str else str.

Definition buildTruncateKafkaIdentifier (kafkaRequest : KafkaRequest) : string :=
  TruncateString kafkaRequest.(KR.Name) truncatedNameLen +:+ "-" +:+ ToLower kafkaRequest.(KR.ID).

Definition is_lower (c : ascii) : bool := let n := N_of_ascii c in ((97 <=? n) && (n <=? 122))%N.
Definition is_digit_byte (c : ascii) : bool := let n := N_of_ascii c in ((48 <=? n) && (n <=? 57))%N.
Definition is_dash (c : ascii) : bool := Ascii.eqb c "-".
(** [[^-a-z0-9]]. *)
Definition is_special (c : ascii) : bool := negb (is_lower c || is_digit_byte c || is_dash c).

(** [ReplaceAllString] of [[^a-z]([^-a-z0-9]*[^a-z0-9])?] by a dash: a match is
    a byte that is not a lower case letter, the special bytes that follow it
    and one dash after them.  [inside] is true within such a match. *)
Fixpoint dns1035_replace (inside : bool) (s : string) : string :=
  match s with
  | EmptyString => ""
  | String c s' =>
      if inside && is_special c then dns1035_replace true s'
      else if inside && is_dash c then dns1035_replace false s'
      else if is_lower c then String c (dns1035_replace false s')
      else String "-" (dns1035_replace true s')
  end.

(** The last byte replaced by [a], when it is a dash. *)
Fixpoint mask_trailing (s : string) : string :=
  match s with
  | EmptyString => ""
  | String c EmptyString => if is_dash c then "a" else s
  | String c s' => String c (mask_trailing s')
  end.

Definition mask_leading (s : string) : string :=
  match s with
  | String c s' => if is_dash c then String "a" s' else s
  | EmptyString => ""
  end.

Definition MaskProceedingandTrailingDash (name : string) : string := mask_leading (mask_trailing name).

Definition BuildKeycloakClientNameIdentifier (kafkaRequestID : string) : string :=
  "kafka" +:+ "-" +:+ ToLower kafkaRequestID.

Definition REDHAT_SSO : string := "redhat_sso".

Definition BuildCustomClaimCheck (kafkaRequest : KafkaRequest) (ssoconfigProvider : string) : string :=
  let org := kafkaRequest.(KR.OrganisationId) in
  if ssoconfigProvider =?s REDHAT_SSO
  then "@.rh-org-id == '" +:+ org +:+ "'|| @.org_id == '" +:+ org +:+ "' || @.clientId == '" +:+
       kafkaRequest.(KR.CanaryServiceAccountClientID) +:+ "'"
  else "@.rh-org-id == '" +:+ org +:+ "'|| @.org_id == '" +:+ org +:+ "'".

(** The grammar of a DNS-1035 label: [[a-z]([-a-z0-9]*[a-z0-9])?], at most 63
    bytes. *)
Fixpoint label_tail (s : string) : bool :=
  match s with
  | EmptyString => true
  | String c EmptyString => is_lower c || is_digit_byte c
  | String c s' => (is_lower c || is_digit_byte c || is_dash c) && label_tail s'
  end.

Definition dns1035_label (s : string) : bool :=
  match s with
  | EmptyString => false
  | String c s' => is_lower c && label_tail s' && (String.length s <=? 63)%nat
  end.

Section HostNames.
(** The validation errors of the label. *)
Context (IsDNS1035Label : string -> list string).

Definition replaceHostSpecialChar (name : string) : result error string :=
  let replacedName := MaskProceedingandTrailingDash (dns1035_replace false (ToLower name)) in
  match IsDNS1035Label replacedName with
  | [] => Ok replacedName
  | _ => Err (EPlain "host name is not valid: %s")
  end.
End HostNames.

(** ** Lemmas *)

(** Strings over the letters and the dash. *)
Fixpoint letters_and_dashes (s : string) : bool :=
  match s with
  | EmptyString => true
  | String c s' => (is_lower c || is_dash c) && letters_and_dashes s'
  end.

Lemma dns1035_replace_alphabet inside s : letters_and_dashes (dns1035_replace inside s) = true.
Proof.
  revert inside. induction s as [|c s IH]; intros inside; simpl; [done|].
  destruct inside, (is_special c), (is_dash c), (is_lower c) eqn:Hl; simpl; rewrite ?IH, ?Hl; done.
Qed.

Lemma dns1035_replace_length inside s :
  (String.length (dns1035_replace inside s) <= String.length s)%nat.
Proof.
  revert inside. induction s as [|c s IH]; intros inside; simpl; [done|].
  pose proof (IH true). pose proof (IH false). repeat case_match; simpl; lia.
Qed.

Lemma dns1035_replace_nonempty s : s <> "" -> dns1035_replace false s <> "".
Proof. destruct s as [|c s]; simpl; [done|]. by destruct (is_lower c). Qed.

Lemma mask_trailing_spec s :
  letters_and_dashes s = true -> letters_and_dashes (mask_trailing s) = true /\ label_tail (mask_trailing s) = true /\
  String.length (mask_trailing s) = String.length s.
Proof.
  induction s as [|c s IH]; [done|]. intros Hcs. cbn in Hcs. apply andb_true_iff in Hcs as [Hc Hs].
  specialize (IH Hs) as (H1 & H2 & H3). destruct s as [|c' s].
  - cbn. destruct (is_dash c) eqn:Hd; [done|]. rewrite orb_false_r in Hc. cbn. by rewrite Hc.
  - change (mask_trailing (String c (String c' s))) with (String c (mask_trailing (String c' s))).
    cbn [String.length]. rewrite H3. destruct (mask_trailing (String c' s)) as [|d t] eqn:E; [by destruct s|].
    cbn [letters_and_dashes label_tail] in *. apply andb_true_iff in H1 as [Hd Ht]. rewrite Hc, Hd, Ht.
    split_and!; [done| |done]. apply andb_true_iff. split; [|done].
    by destruct (is_lower c), (is_dash c), (is_digit_byte c).
Qed.

Lemma mask_label s :
  s <> "" -> letters_and_dashes s = true -> (String.length s <= 63)%nat -> dns1035_label (MaskProceedingandTrailingDash s) = true.
Proof.
  intros Hne Hs Hlen. destruct (mask_trailing_spec s Hs) as (H1 & H2 & H3). unfold MaskProceedingandTrailingDash.
  destruct (mask_trailing s) as [|c t] eqn:E; [by destruct s|].
  assert (label_tail t = true) as Ht by (destruct t; [done|]; cbn in H2; by apply andb_true_iff in H2 as [_ ?]).
  assert (forall d, (String.length (String d t) <=? 63)%nat = true) as Hl.
  { intros d. apply Nat.leb_le. cbn [String.length] in *. lia. }
  cbn [letters_and_dashes] in H1. apply andb_true_iff in H1 as [Hc _]. unfold mask_leading.
  destruct (is_dash c) eqn:Hd; unfold dns1035_label; rewrite Ht, Hl; [done|].
  by rewrite orb_false_r in Hc; rewrite Hc.
Qed.

Lemma ToLower_length s : String.length (ToLower s) = String.length s.
Proof. induction s as [|c s IH]; simpl; [done|]. by rewrite IH. Qed.

Section HostNameProperties.
Context (IsDNS1035Label : string -> list string).
Hypothesis IsDNS1035Label_spec : forall s, IsDNS1035Label s = [] <-> dns1035_label s = true.

(** Every non-empty name of at most 63 bytes is turned into a valid
    DNS-1035 label of at most the same length: the validation error of
    [replaceHostSpecialChar] is never returned for such a name. *)
Theorem replaceHostSpecialChar_valid name :
  name <> "" -> (String.length name <= 63)%nat ->
  exists host, replaceHostSpecialChar IsDNS1035Label name = Ok host /\ dns1035_label host = true.
Proof.
  intros Hne Hlen. unfold replaceHostSpecialChar.
  assert (dns1035_label (MaskProceedingandTrailingDash (dns1035_replace false (ToLower name))) = true) as Hok.
  { apply mask_label; [|apply dns1035_replace_alphabet|].
    - apply dns1035_replace_nonempty. by destruct name.
    - pose proof (dns1035_replace_length false (ToLower name)) as Hl. rewrite ToLower_length in Hl. lia. }
  rewrite (proj2 (IsDNS1035Label_spec _) Hok). eauto.
Qed.

(** The host identifier of a Kafka is not unique: digits are replaced by
    dashes, so two Kafkas whose names agree on their first ten bytes and
    whose identifiers differ in their digits only get the same host. *)
Theorem host_identifier_not_unique :
  exists k k', k.(KR.ID) <> k'.(KR.ID) /\ k.(KR.Name) = k'.(KR.Name) /\
    exists host, replaceHostSpecialChar IsDNS1035Label (buildTruncateKafkaIdentifier k) = Ok host /\
                 replaceHostSpecialChar IsDNS1035Label (buildTruncateKafkaIdentifier k') = Ok host.
Proof.
  exists (zero <| KR.ID := "cf4vtbk0tqo0ma36kp0g" |> <| KR.Name := "my-kafka" |>),
         (zero <| KR.ID := "cf4vtbk0tqo0ma36kp1g" |> <| KR.Name := "my-kafka" |>).
  split_and!; [done|done|]. exists "my-kafka-cf-vtbk-tqo-ma--kp-g". unfold replaceHostSpecialChar.
  assert (IsDNS1035Label "my-kafka-cf-vtbk-tqo-ma--kp-g" = []) as Hok by (apply IsDNS1035Label_spec; reflexivity).
  split; (replace (MaskProceedingandTrailingDash _) with "my-kafka-cf-vtbk-tqo-ma--kp-g" by reflexivity; by rewrite Hok).
Qed.
End HostNameProperties.

(** A validation that follows the grammar, for the witnesses. *)
Definition grammar_check (s : string) : list string := if dns1035_label s then [] else ["a DNS-1035 label must match the grammar"].

Lemma grammar_check_spec s : grammar_check s = [] <-> dns1035_label s = true.
Proof. unfold grammar_check. by destruct (dns1035_label s). Defined.

(** The example of the package's own test. *)
Example replaceHostSpecialChar_test :
  replaceHostSpecialChar grammar_check "-host-vp&xG^nl9MStC@SI*#c$6V^TKq0" = Ok "ahost-vp-xg-nl-mstc-si-c--v-tkqa".
Proof. reflexivity. Qed.

Lemma replaceHostSpecialChar_valid_witness :
  exists host, replaceHostSpecialChar grammar_check "-my.Kafka_01" = Ok host /\ dns1035_label host = true.
Proof.
  apply (replaceHostSpecialChar_valid grammar_check grammar_check_spec "-my.Kafka_01"); [discriminate | vm_compute; lia].
Defined.

Lemma host_identifier_not_unique_witness :
  exists k k', k.(KR.ID) <> k'.(KR.ID) /\ k.(KR.Name) = k'.(KR.Name) /\
    exists host, replaceHostSpecialChar grammar_check (buildTruncateKafkaIdentifier k) = Ok host /\
                 replaceHostSpecialChar grammar_check (buildTruncateKafkaIdentifier k') = Ok host.
Proof. apply (host_identifier_not_unique grammar_check grammar_check_spec). Defined.
