(* ===== verification/Store.v ===== *)
(** * The database and effectful computations

    The services keep their state in PostgreSQL through gorm
    ([src/pkg/db/connection.go] hands out the connections); both are
    third-party code.  A database is therefore an instance of the class
    [Database]: it executes the statements the services issue ([stmt]), and its
    laws are what the two products document of each statement ([stmt_sem]).  A
    statement can fail at any time; it then leaves the tables as they were.

    Handlers are computations over a world [W], which holds the database and
    whatever the other services keep: a computation returns a value or an error
    and the world it leaves, also when it fails, as Go code does. *)
From stdpp Require Import sorting.
From S2P Require Import Prelude Arrays Errors Status Config Model.

(** ** Computations *)
Definition M (W E A : Type) : Type := W -> result E A * W.

Section Monad.
Context {W E : Type}.

Definition ret {A} (a : A) : M W E A := fun w => (Ok a, w).
Definition throw {A} (e : E) : M W E A := fun w => (Err e, w).

Definition bind {A B} (m : M W E A) (k : A -> M W E B) : M W E B := fun w =>
  match m w with
  | (Ok a, w') => k a w'
  | (Err e, w') => (Err e, w')
  end.

(** A pure fallible function. *)
Definition lift {A} (r : result E A) : M W E A := fun w => (r, w).
End Monad.

Notation "x <~ m ;; k" := (bind m (fun x => k))
  (at level 100, m at next level, right associativity) : fleet_scope.

(** The code's [if err != nil { ... err ... }]: the outcome of [m] as a value. *)
Definition attempt {W E E' A} (m : M W E A) : M W E' (result E A) := fun w =>
  let '(r, w') := m w in (Ok r, w').

(** [if err != nil { return f(err) }]. *)
Definition wrap_err {W E E' A} (f : E -> E') (m : M W E A) : M W E' A := fun w =>
  let '(r, w') := m w in (map_err f r, w').

(** Runs a computation for each element and stops at the first error. *)
Fixpoint for_each {W E A} (f : A -> M W E unit) (l : list A) : M W E unit :=
  match l with
  | [] => ret tt
  | a :: l' => _ <~ f a ;; for_each f l'
  end.

(** The reconcilers' loop: every element is tried, the errors are collected. *)
Fixpoint for_all_collect {W E A} (f : A -> M W E unit) (l : list A) (w : W) : list E * W :=
  match l with
  | [] => ([], w)
  | a :: l' =>
      let '(r, w1) := f a w in
      let '(errs, w2) := for_all_collect f l' w1 in
      (match r with Err e => e :: errs | Ok _ => errs end, w2)
  end.

(** ** Tables and statements *)
Record tables := mkTables {
  kafkas : list KafkaRequest;
  clusters : list Cluster
}.

(** The statements the services issue, by the type of their result.  Rows
    that are soft-deleted are not in the tables: gorm filters them from every
    query.  [First*] returns [None] for [gorm.ErrRecordNotFound]; an update
    returns the number of affected rows. *)
Inductive stmt : Type -> Type :=
| SelectKafkas (p : KafkaRequest -> bool) : stmt (list KafkaRequest)
| FirstKafka (p : KafkaRequest -> bool) : stmt (option KafkaRequest)
| CountKafkas (p : KafkaRequest -> bool) : stmt Z
| UpdateKafkas (p : KafkaRequest -> bool) (f : KafkaRequest -> KafkaRequest) : stmt Z
| InsertKafka (k : KafkaRequest) : stmt unit
| DeleteKafkas (p : KafkaRequest -> bool) : stmt unit
| SelectClusters (p : Cluster -> bool) : stmt (list Cluster)
| SelectClustersByCreation (p : Cluster -> bool) : stmt (list Cluster)
| FirstCluster (p : Cluster -> bool) : stmt (option Cluster)
| UpdateClusters (p : Cluster -> bool) (f : Cluster -> Cluster) : stmt Z
| SaveCluster (c : Cluster) : stmt unit
| DeleteClusters (p : Cluster -> bool) : stmt unit.

(** An update assigns [updated_at] as well. *)
Definition update_rows {Row} (touch : Row -> Row) (p : Row -> bool) (f : Row -> Row) (rows : list Row) : list Row :=
  map (fun r => if p r then touch (f r) else r) rows.

Definition touch_kafka (t : Z) (k : KafkaRequest) : KafkaRequest := k <| KR.UpdatedAt := t |>.
Definition touch_cluster (t : Z) (c : Cluster) : Cluster := c <| CL.UpdatedAt := t |>.

Definition created_before (a b : Cluster) : Prop := a.(CL.CreatedAt) <= b.(CL.CreatedAt).

Definition first_sem {Row} (p : Row -> bool) (rows : list Row) (r : option Row) : Prop :=
  match r with
  | Some x => x ∈ rows /\ p x = true
  | None => Forall (fun x => p x = false) rows
  end.

(** An insertion sets the time stamps that are zero. *)
Definition stamp_kafka (t : Z) (k : KafkaRequest) : KafkaRequest :=
  k <| KR.CreatedAt := pick_Z k.(KR.CreatedAt) t |> <| KR.UpdatedAt := pick_Z k.(KR.UpdatedAt) t |>.
Definition stamp_cluster (t : Z) (c : Cluster) : Cluster :=
  c <| CL.CreatedAt := pick_Z c.(CL.CreatedAt) t |> <| CL.UpdatedAt := pick_Z c.(CL.UpdatedAt) t |>.

(** [Save] updates the row with the same primary key, or inserts; the status
    details are not a column. *)
Definition save_cluster (t : Z) (c : Cluster) (rows : list Cluster) : list Cluster :=
  let c := c <| CL.StatusDetails := "" |> in
  if existsb (fun r => r.(CL.ID) =?s c.(CL.ID)) rows
  then map (fun r => if r.(CL.ID) =?s c.(CL.ID) then touch_cluster t c else r) rows
  else rows ++ [stamp_cluster t c].

(** [stmt_sem t s db a db']: executing [s] at time [t] on [db] may return [a]
    and leave [db']. *)
Definition stmt_sem {A} (t : Z) (s : stmt A) : tables -> A -> tables -> Prop :=
  match s in stmt A return tables -> A -> tables -> Prop with
  | SelectKafkas p => fun db l db' => l ≡ₚ List.filter p db.(kafkas) /\ db' = db
  | FirstKafka p => fun db r db' => first_sem p db.(kafkas) r /\ db' = db
  | CountKafkas p => fun db n db' => n = Z.of_nat (length (List.filter p db.(kafkas))) /\ db' = db
  | UpdateKafkas p f => fun db n db' =>
      n = Z.of_nat (length (List.filter p db.(kafkas))) /\
      db' = mkTables (update_rows (touch_kafka t) p f db.(kafkas)) db.(clusters)
  | InsertKafka k => fun db _ db' =>
      Forall (fun r => r.(KR.ID) <> k.(KR.ID)) db.(kafkas) /\
      db' = mkTables (db.(kafkas) ++ [stamp_kafka t k]) db.(clusters)
  | DeleteKafkas p => fun db _ db' =>
      db' = mkTables (List.filter (fun k => negb (p k)) db.(kafkas)) db.(clusters)
  | SelectClusters p => fun db l db' => l ≡ₚ List.filter p db.(clusters) /\ db' = db
  | SelectClustersByCreation p => fun db l db' =>
      l ≡ₚ List.filter p db.(clusters) /\ Sorted.StronglySorted created_before l /\ db' = db
  | FirstCluster p => fun db r db' => first_sem p db.(clusters) r /\ db' = db
  | UpdateClusters p f => fun db n db' =>
      n = Z.of_nat (length (List.filter p db.(clusters))) /\
      db' = mkTables db.(kafkas) (update_rows (touch_cluster t) p f db.(clusters))
  | SaveCluster c => fun db _ db' => db' = mkTables db.(kafkas) (save_cluster t c db.(clusters))
  | DeleteClusters p => fun db _ db' =>
      db' = mkTables db.(kafkas) (List.filter (fun c => negb (p c)) db.(clusters))
  end.

(** ** Grouping

    [SELECT key, count(1) ... GROUP BY key]: one row per key with the number of
    rows that have it, in the order in which keys first appear (SQL leaves the
    order open). *)
Section GroupBy.
Context {K : Type} `{EqDecision K}.

Fixpoint count_key (gs : list (K * Z)) (k : K) : list (K * Z) :=
  match gs with
  | [] => [(k, 1)]
  | (k', n) :: gs' => if decide (k' = k) then (k', n + 1) :: gs' else (k', n) :: count_key gs' k
  end.

Definition group_by {Row} (key : Row -> K) (rows : list Row) : list (K * Z) :=
  foldl count_key [] (map key rows).

(** The sum of a weight of the keys, each taken [count] times. *)
Definition weighted_sum (weight : K -> Z) (gs : list (K * Z)) : Z :=
  foldr (fun '(k, n) acc => weight k * n + acc) 0 gs.

Lemma count_key_weight weight gs k :
  weighted_sum weight (count_key gs k) = weighted_sum weight gs + weight k.
Proof.
  induction gs as [|[k' n] gs IH]; simpl; [lia|].
  destruct (decide (k' = k)) as [->|]; simpl; [lia|]. rewrite IH. lia.
Qed.

(** Summing over the groups is summing over the rows. *)
Lemma group_by_weight {Row} weight (key : Row -> K) rows :
  weighted_sum weight (group_by key rows) = foldr (fun r acc => weight (key r) + acc) 0 rows.
Proof.
  unfold group_by. enough (forall gs,
    weighted_sum weight (foldl count_key gs (map key rows)) =
    weighted_sum weight gs + foldr (fun r acc => weight (key r) + acc) 0 rows) as Hg by (rewrite Hg; simpl; lia).
  induction rows as [|r rows IH]; intros gs; simpl; [lia|]. rewrite IH, count_key_weight. lia.
Qed.

Lemma count_key_keys gs k k' : k' ∈ map fst (count_key gs k) <-> k' = k \/ k' ∈ map fst gs.
Proof.
  induction gs as [|[k0 n] gs IH]; simpl; [set_solver|].
  destruct (decide (k0 = k)); simpl; set_solver.
Qed.

(** The keys of the groups are the keys of the rows. *)
Lemma group_by_keys {Row} (key : Row -> K) rows k :
  k ∈ map fst (group_by key rows) <-> k ∈ map key rows.
Proof.
  unfold group_by. enough (forall gs, k ∈ map fst (foldl count_key gs (map key rows)) <->
    k ∈ map fst gs \/ k ∈ map key rows) as Hg by (rewrite Hg; simpl; set_solver).
  induction rows as [|r rows IH]; intros gs; simpl; [set_solver|].
  rewrite IH, count_key_keys. set_solver.
Qed.

Lemma count_key_nodup gs k : NoDup (map fst gs) -> NoDup (map fst (count_key gs k)).
Proof.
  induction gs as [|[k' n] gs IH]; simpl; [intros _; by apply NoDup_singleton|].
  intros [Hk Hnd]%NoDup_cons. destruct (decide (k' = k)) as [->|]; simpl; apply NoDup_cons; [done|].
  rewrite count_key_keys. naive_solver.
Qed.

Lemma group_by_nodup {Row} (key : Row -> K) rows : NoDup (map fst (group_by key rows)).
Proof.
  unfold group_by. enough (forall gs, NoDup (map fst gs) -> NoDup (map fst (foldl count_key gs (map key rows)))) as Hg
    by (apply Hg; constructor).
  induction rows as [|r rows IH]; intros gs Hgs; simpl; [done|]. by apply IH, count_key_nodup.
Qed.

Definition indicator (k k' : K) : Z := if decide (k' = k) then 1 else 0.

Lemma indicator_absent k gs : k ∉ map fst gs -> weighted_sum (indicator k) gs = 0.
Proof.
  induction gs as [|[k' n] gs IH]; simpl; [done|]. intros Hk. unfold indicator at 1.
  rewrite decide_False, IH by set_solver. lia.
Qed.

(** The count of a group is the number of rows with its key. *)
Lemma group_by_count {Row} (key : Row -> K) rows k n :
  (k, n) ∈ group_by key rows -> n = foldr (fun r acc => indicator k (key r) + acc) 0 rows.
Proof.
  rewrite <- group_by_weight. pose proof (group_by_nodup key rows) as Hnd. revert Hnd.
  induction (group_by key rows) as [|[k' m] gs IH]; simpl; [set_solver|].
  intros [Hk Hnd]%NoDup_cons [[= -> ->]|Hin]%elem_of_cons.
  - unfold indicator at 1. rewrite decide_True by done. rewrite indicator_absent by done. lia.
  - unfold indicator at 1. rewrite decide_False, <- IH; [lia|done|done|].
    intros ->. apply Hk, list_elem_of_fmap. by exists (k, n).
Qed.
End GroupBy.

(** ** The interface *)
Class Database (W : Type) := {
  tables_of : W -> tables;
  time_now : W -> Z;
  exec : forall {A}, stmt A -> M W error A;
  exec_ok : forall A (s : stmt A) w a w',
    exec s w = (Ok a, w') -> stmt_sem (time_now w) s (tables_of w) a (tables_of w');
  exec_err : forall A (s : stmt A) w e w',
    exec s w = (Err e, w') -> tables_of w' = tables_of w
}.

(** [api.NewID], which calls the xid library. *)
Class IdSource (W : Type) := new_id : W -> string.

(** gorm refuses an update or a deletion without any condition, which is what
    a model with a zero key and no other condition gives. *)
Definition missing_where_clause : error := EPlain "WHERE conditions required".

(** [time.Now()]. *)
Definition get_time {W E} `{Database W} : M W E Z := fun w => (Ok (time_now w), w).

(** ** Computations that leave the tables alone *)
Definition read_only {W E A} `{Database W} (m : M W E A) : Prop :=
  forall w, tables_of (snd (m w)) = tables_of w.

Definition is_query {A} (s : stmt A) : bool :=
  match s with
  | SelectKafkas _ | FirstKafka _ | CountKafkas _ | SelectClusters _ | SelectClustersByCreation _ | FirstCluster _ => true
  | _ => false
  end.

Section ReadOnly.
Context {W : Type} `{Database W}.

Lemma ret_read_only {E A} (a : A) : read_only (ret a : M W E A).
Proof. done. Qed.

Lemma throw_read_only {E A} (e : E) : read_only (throw e : M W E A).
Proof. done. Qed.

Lemma lift_read_only {E A} (r : result E A) : read_only (lift r : M W E A).
Proof. done. Qed.

Lemma get_time_read_only {E} : read_only (get_time : M W E Z).
Proof. done. Qed.

Lemma bind_read_only {E A B} (m : M W E A) (k : A -> M W E B) :
  read_only m -> (forall a, read_only (k a)) -> read_only (bind m k).
Proof.
  intros Hm Hk w. unfold bind. specialize (Hm w).
  destruct (m w) as [[a|e] w']; simpl in *; [|done]. by rewrite Hk.
Qed.

Lemma attempt_read_only {E E' A} (m : M W E A) : read_only m -> read_only (attempt (E' := E') m).
Proof. intros Hm w. unfold attempt. specialize (Hm w). by destruct (m w). Qed.

Lemma wrap_err_read_only {E E' A} (f : E -> E') (m : M W E A) : read_only m -> read_only (wrap_err f m).
Proof. intros Hm w. unfold wrap_err. specialize (Hm w). by destruct (m w). Qed.

Lemma for_each_read_only {E A} (f : A -> M W E unit) l :
  (forall a, read_only (f a)) -> read_only (for_each f l).
Proof. intros Hf. induction l; simpl; [apply ret_read_only | by apply bind_read_only]. Qed.

Lemma query_read_only {A} (s : stmt A) : is_query s = true -> read_only (exec s).
Proof.
  intros Hq w. destruct (exec s w) as [[a|e] w'] eqn:He; simpl.
  - apply exec_ok in He. destruct s; simpl in *; try done; naive_solver.
  - by eapply exec_err.
Qed.

Lemma select_kafkas_ro p : read_only (exec (SelectKafkas p)).
Proof. by apply query_read_only. Qed.
Lemma first_kafka_ro p : read_only (exec (FirstKafka p)).
Proof. by apply query_read_only. Qed.
Lemma count_kafkas_ro p : read_only (exec (CountKafkas p)).
Proof. by apply query_read_only. Qed.
Lemma select_clusters_ro p : read_only (exec (SelectClusters p)).
Proof. by apply query_read_only. Qed.
Lemma select_clusters_by_creation_ro p : read_only (exec (SelectClustersByCreation p)).
Proof. by apply query_read_only. Qed.
Lemma first_cluster_ro p : read_only (exec (FirstCluster p)).
Proof. by apply query_read_only. Qed.
End ReadOnly.

#[export] Hint Resolve ret_read_only throw_read_only lift_read_only get_time_read_only bind_read_only
  attempt_read_only wrap_err_read_only for_each_read_only select_kafkas_ro first_kafka_ro count_kafkas_ro
  select_clusters_ro select_clusters_by_creation_ro first_cluster_ro : fleet.

(** Proves that a computation is read-only by following its structure. *)
Ltac solve_read_only :=
  intros;
  repeat first
    [ progress intros
    | match goal with |- read_only (match ?x with _ => _ end) => destruct x end
    | match goal with |- read_only (bind _ _) => apply bind_read_only end
    | match goal with |- read_only (attempt _) => apply attempt_read_only end
    | match goal with |- read_only (wrap_err _ _) => apply wrap_err_read_only end
    | match goal with |- read_only (for_each _ _) => apply for_each_read_only end
    | solve [eauto 2 with fleet] ].

(** Computations that leave the Kafka table alone. *)
Definition keeps_kafkas {W E A} `{Database W} (m : M W E A) : Prop :=
  forall w, kafkas (tables_of (snd (m w))) = kafkas (tables_of w).

Section KeepsKafkas.
Context {W : Type} `{Database W}.

Lemma read_only_keeps {E A} (m : M W E A) : read_only m -> keeps_kafkas m.
Proof. intros Hm w. by rewrite Hm. Qed.

Lemma bind_keeps {E A B} (m : M W E A) (k : A -> M W E B) :
  keeps_kafkas m -> (forall a, keeps_kafkas (k a)) -> keeps_kafkas (bind m k).
Proof.
  intros Hm Hk w. unfold bind. specialize (Hm w).
  destruct (m w) as [[a|e] w']; simpl in *; [|done]. by rewrite Hk.
Qed.

Lemma wrap_err_keeps {E E' A} (f : E -> E') (m : M W E A) : keeps_kafkas m -> keeps_kafkas (wrap_err f m).
Proof. intros Hm w. unfold wrap_err. specialize (Hm w). by destruct (m w). Qed.

Lemma attempt_keeps {E E' A} (m : M W E A) : keeps_kafkas m -> keeps_kafkas (attempt (E' := E') m).
Proof. intros Hm w. unfold attempt. specialize (Hm w). by destruct (m w). Qed.

Lemma update_clusters_keeps p f : keeps_kafkas (exec (UpdateClusters p f)).
Proof.
  intros w. destruct (exec (UpdateClusters p f) w) as [[n|e] w'] eqn:He; simpl.
  - apply exec_ok in He as [_ ->]. done.
  - by rewrite (exec_err _ _ _ _ _ He).
Qed.

Lemma keeps_run {E A} (m : M W E A) w r w' :
  keeps_kafkas m -> m w = (r, w') -> kafkas (tables_of w') = kafkas (tables_of w).
Proof. intros Hm Hr. specialize (Hm w). by rewrite Hr in Hm. Qed.
End KeepsKafkas.

Ltac solve_keeps :=
  intros;
  repeat first
    [ progress intros
    | match goal with |- keeps_kafkas (match ?x with _ => _ end) => destruct x end
    | match goal with |- keeps_kafkas (bind _ _) => apply bind_keeps end
    | match goal with |- keeps_kafkas (attempt _) => apply attempt_keeps end
    | match goal with |- keeps_kafkas (wrap_err _ _) => apply wrap_err_keeps end
    | apply update_clusters_keeps
    | solve [apply read_only_keeps; solve_read_only]
    | solve [eauto 2 with fleet] ].

(** ** Running computations backwards *)
Section Inversion.
Context {W : Type}.

Lemma bind_ok {E A B} (m : M W E A) (k : A -> M W E B) w b w' :
  bind m k w = (Ok b, w') -> exists a w1, m w = (Ok a, w1) /\ k a w1 = (Ok b, w').
Proof. unfold bind. destruct (m w) as [[a|e] w1]; [eauto | done]. Qed.

Lemma bind_inv {E A B} (m : M W E A) (k : A -> M W E B) w r w' :
  bind m k w = (r, w') ->
  (exists a w1, m w = (Ok a, w1) /\ k a w1 = (r, w')) \/ (exists e, m w = (Err e, w') /\ r = Err e).
Proof. unfold bind. destruct (m w) as [[a|e] w1]; [eauto | intros [= <- <-]; eauto]. Qed.

Lemma wrap_err_ok {E E' A} (f : E -> E') (m : M W E A) w a w' :
  wrap_err f m w = (Ok a, w') <-> m w = (Ok a, w').
Proof. unfold wrap_err. destruct (m w) as [[?|?] ?]; simpl; naive_solver. Qed.

Lemma wrap_err_err {E E' A} (f : E -> E') (m : M W E A) w e w' :
  wrap_err f m w = (Err e, w') <-> exists e0, m w = (Err e0, w') /\ e = f e0.
Proof. unfold wrap_err. destruct (m w) as [[?|?] ?]; simpl; naive_solver. Qed.

Lemma attempt_inv {E E' A} (m : M W E A) w (r : result E' (result E A)) w' :
  attempt m w = (r, w') -> exists r0, m w = (r0, w') /\ r = Ok r0.
Proof. unfold attempt. destruct (m w) as [r0 ?]. intros [= <- <-]. eauto. Qed.
End Inversion.

(** One step of a run [m w = (Ok a, w')]: a bind is split into its two runs, a
    test of the code into its two branches. *)
Ltac run_ok H :=
  lazymatch type of H with
  | bind _ _ _ = (Ok _, _) =>
      let a := fresh "a" in let w := fresh "w" in let H1 := fresh "Hrun" in
      apply bind_ok in H as (a & w & H1 & H); try run_ok H1
  | wrap_err _ _ _ = (Ok _, _) => apply wrap_err_ok in H; try run_ok H
  | attempt _ _ = (Ok _, _) =>
      let r := fresh "r" in let H1 := fresh "Hrun" in
      apply attempt_inv in H as (r & H & H1); injection H1 as H1; subst
  | ret _ _ = (Ok _, _) => unfold ret in H; injection H as H; subst
  | lift _ _ = (Ok _, _) => unfold lift in H; injection H as H; subst
  | get_time _ = (Ok _, _) => unfold get_time in H; injection H as H; subst
  | throw _ _ = (Ok _, _) => discriminate H
  | (if ?b then _ else _) _ = _ => destruct b eqn:?; try run_ok H
  | (match ?x with _ => _ end) _ = _ => destruct x eqn:?; try run_ok H
  end.

Lemma read_only_run {W E A} `{Database W} (m : M W E A) w r w' :
  read_only m -> m w = (r, w') -> tables_of w' = tables_of w.
Proof. intros Hm Hr. specialize (Hm w). by rewrite Hr in Hm. Qed.

(** ** Facts about updates *)
Section UpdateRows.
Context {Row : Type} (touch : Row -> Row).

Lemma update_rows_elem p f rows r :
  r ∈ update_rows touch p f rows <->
  exists r0, r0 ∈ rows /\ r = (if p r0 then touch (f r0) else r0).
Proof. unfold update_rows. rewrite list_elem_of_fmap. naive_solver. Qed.

Lemma update_rows_none p f rows : Forall (fun r => p r = false) rows -> update_rows touch p f rows = rows.
Proof. induction 1 as [|r rows Hr Hrs IH]; simpl; [done|]. by rewrite Hr, IH. Qed.
End UpdateRows.

(** ** A database in memory

    The instance that the witnesses run on: the tables, a clock, a list of
    outcomes for the coming statements ([true] for a failure; statements
    succeed once it is exhausted), and the state [X] of the other services. *)
Module MemDB.
Record world (X : Type) := mkWorld {
  db : tables;
  clock : Z;
  faults : list bool;
  ext : X
}.
Arguments mkWorld {X}.
Arguments db {X}.
Arguments clock {X}.
Arguments faults {X}.
Arguments ext {X}.

#[global] Instance created_before_dec : RelDecision created_before.
Proof. intros a b. unfold created_before. apply Z.le_dec. Defined.

Definition run_stmt {A} (t : Z) (s : stmt A) : tables -> option (A * tables) :=
  match s in stmt A return tables -> option (A * tables) with
  | SelectKafkas p => fun db => Some (List.filter p db.(kafkas), db)
  | FirstKafka p => fun db => Some (List.find p db.(kafkas), db)
  | CountKafkas p => fun db => Some (Z.of_nat (length (List.filter p db.(kafkas))), db)
  | UpdateKafkas p f => fun db =>
      Some (Z.of_nat (length (List.filter p db.(kafkas))),
            mkTables (update_rows (touch_kafka t) p f db.(kafkas)) db.(clusters))
  | InsertKafka k => fun db =>
      if existsb (fun r => r.(KR.ID) =?s k.(KR.ID)) db.(kafkas) then None
      else Some (tt, mkTables (db.(kafkas) ++ [stamp_kafka t k]) db.(clusters))
  | DeleteKafkas p => fun db =>
      Some (tt, mkTables (List.filter (fun k => negb (p k)) db.(kafkas)) db.(clusters))
  | SelectClusters p => fun db => Some (List.filter p db.(clusters), db)
  | SelectClustersByCreation p => fun db =>
      Some (merge_sort created_before (List.filter p db.(clusters)), db)
  | FirstCluster p => fun db => Some (List.find p db.(clusters), db)
  | UpdateClusters p f => fun db =>
      Some (Z.of_nat (length (List.filter p db.(clusters))),
            mkTables db.(kafkas) (update_rows (touch_cluster t) p f db.(clusters)))
  | SaveCluster c => fun db => Some (tt, mkTables db.(kafkas) (save_cluster t c db.(clusters)))
  | DeleteClusters p => fun db =>
      Some (tt, mkTables db.(kafkas) (List.filter (fun c => negb (p c)) db.(clusters)))
  end.

Definition run {X A} (s : stmt A) : M (world X) error A := fun w =>
  match w.(faults) with
  | true :: rest => (Err (EPlain "connection refused"), mkWorld w.(db) w.(clock) rest w.(ext))
  | l =>
      match run_stmt w.(clock) s w.(db) with
      | Some (a, db') => (Ok a, mkWorld db' w.(clock) (tail l) w.(ext))
      | None => (Err (EPlain "duplicate key value violates unique constraint"), mkWorld w.(db) w.(clock) (tail l) w.(ext))
      end
  end.

Lemma find_first_sem {Row} (p : Row -> bool) rows : first_sem p rows (List.find p rows).
Proof.
  destruct (List.find p rows) as [x|] eqn:E; simpl.
  - apply find_some in E. by rewrite list_elem_of_In.
  - apply Forall_forall. intros x Hx. apply (find_none _ _ E). by apply list_elem_of_In.
Qed.

#[global] Instance created_before_total : Total created_before.
Proof. intros a b. unfold created_before. lia. Qed.
#[global] Instance created_before_trans : Transitive created_before.
Proof. intros a b c. unfold created_before. lia. Qed.

Lemma run_stmt_sem {A} t (s : stmt A) db a db' : run_stmt t s db = Some (a, db') -> stmt_sem t s db a db'.
Proof.
  destruct s; simpl; try (intros [= <- <-]; auto using find_first_sem); try naive_solver.
  - destruct (existsb _ _) eqn:E; [done|]. intros [= <- <-]. split; [|done].
    apply Forall_forall. intros r Hr Heq. apply not_true_iff_false in E. apply E.
    apply existsb_exists. exists r. rewrite <- list_elem_of_In. split; [done|]. by apply String.eqb_eq.
  - split_and!; [apply merge_sort_Permutation | apply (StronglySorted_merge_sort created_before) | done].
Qed.

#[global] Instance database {X} : Database (world X).
Proof.
  refine {| tables_of := db; time_now := clock; exec := @run X |}.
  - intros A s w a w'. unfold run.
    destruct (faults w) as [|[] rest]; [|done|]; destruct (run_stmt _ s _) as [[a' db']|] eqn:E; try done;
      intros [= <- <-]; by apply run_stmt_sem.
  - intros A s w e w'. unfold run.
    destruct (faults w) as [|[] rest]; [|intros [= _ <-]; done|]; destruct (run_stmt _ s _) as [[a' db']|] eqn:E; try done;
      intros [= _ <-]; done.
Defined.

(** Identifiers numbered by the size of the tables. *)
#[global] Instance id_source {X} : IdSource (world X) := fun w =>
  "id-" +:+ pretty (length w.(db).(kafkas) + length w.(db).(clusters))%nat.
End MemDB.
