(* ===== verification/Resources.v ===== *)
(** * The resources of a data plane cluster

    The Kubernetes objects that the fleet manager installs on every cluster
    ([buildResourceSet] and the functions it calls, in
    [src/internal/kafka/internal/workers/cluster_mgrs/clusters_mgr.go]) and the
    operators that the standalone provider installs
    ([src/internal/kafka/internal/clusters/standalone_provider.go]), with the
    configuration they read: operators, observability, machine pools.

    A resource keeps the fields that the code sets.  The constructor stands for
    the pair of API version and kind. *)
From S2P Require Import Prelude Arrays Errors Status Config Model.

(** ** Resources *)
Record ObjectReference := mkObjectReference {
  OR_Kind : string;
  OR_APIVersion : string;
  OR_Name : string
}.

Record SubscriptionSpec := mkSubscriptionSpec {
  SS_CatalogSource : string;
  SS_Channel : string;
  SS_CatalogSourceNamespace : string;
  SS_StartingCSV : string;
  SS_InstallPlanApproval : string;
  SS_Package : string;
  SS_Config : option string
}.

Inductive resource :=
| Namespace (name : string) (labels : gmap string string)
| Secret (name namespace type : string) (stringData data : gmap string string)
| CatalogSource (name namespace : string) (labels : gmap string string) (sourceType image : string) (secrets : list string)
| OperatorGroup (name namespace : string) (labels : gmap string string) (targetNamespaces : list string)
| Subscription (name namespace : string) (labels : gmap string string) (spec : SubscriptionSpec)
| Group (name : string) (users : list string)
| ClusterRoleBinding (name : string) (subjects : list ObjectReference) (roleRef : ObjectReference)
| OAuth (name clientID issuer clientSecretName : string).

#[export] Instance ObjectReference_eq_dec : EqDecision ObjectReference.
Proof. solve_decision. Defined.
#[export] Instance SubscriptionSpec_eq_dec : EqDecision SubscriptionSpec.
Proof. solve_decision. Defined.
#[export] Instance resource_eq_dec : EqDecision resource.
Proof. solve_decision. Defined.

(** The namespace of a namespaced object. *)
Definition namespace_of (r : resource) : option string :=
  match r with
  | Secret _ ns _ _ _ | CatalogSource _ ns _ _ _ _ | OperatorGroup _ ns _ _ | Subscription _ ns _ _ => Some ns
  | _ => None
  end.

Record ResourceSet := mkResourceSet {
  RS_Name : string;
  RS_Resources : list resource
}.

(** [types.Parameter]. *)
Record AddonParameter := mkParameter {
  Param_Id : string;
  Param_Value : string
}.

(** ** Constants *)
Definition observabilityNamespace : string := "managed-application-services-observability".
Definition observabilityOperatorGroupName : string := "observability-operator-group-name".
Definition observabilityCatalogSourceName : string := "observability-operator-manifests".
Definition observabilitySubscriptionName : string := "observability-operator".
Definition observatoriumDexSecretName : string := "observatorium-configuration-dex".
Definition observatoriumSSOSecretName : string := "observatorium-configuration-red-hat-sso".
Definition syncsetName : string := "ext-managedservice-cluster-mgr".
Definition strimziAddonNamespace : string := "redhat-managed-kafka-operator".
Definition strimziQEAddonNamespace : string := "redhat-managed-kafka-operator-qe".
Definition kasFleetshardAddonNamespace : string := "redhat-kas-fleetshard-operator".
Definition kasFleetshardQEAddonNamespace : string := "redhat-kas-fleetshard-operator-qe".
Definition openIDIdentityProviderName : string := "Kafka_SRE".
Definition mkReadOnlyGroupName : string := "mk-readonly-access".
Definition mkSREGroupName : string := "kafka-sre".
Definition mkReadOnlyRoleBindingName : string := "mk-dedicated-readers".
Definition mkSRERoleBindingName : string := "kafka-sre-cluster-admin".
Definition dedicatedReadersRoleBindingName : string := "dedicated-readers".
Definition clusterAdminRoleName : string := "cluster-admin".
Definition kafkaInstanceProfileType : string := "bf2.org/kafkaInstanceProfileType".
Definition ImagePullSecretName : string := "rhoas-image-pull-secret".
Definition AuthTypeDex : string := "dex".
Definition AuthTypeSso : string := "redhat".

(** Values of the Kubernetes libraries. *)
Definition SecretTypeOpaque : string := "Opaque".
Definition SecretTypeDockerConfigJson : string := "kubernetes.io/dockerconfigjson".
Definition DockerConfigJsonKey : string := ".dockerconfigjson".
Definition SourceTypeGrpc : string := "grpc".
Definition ApprovalAutomatic : string := "Automatic".

Definition clusterLoggingOperatorAddonParams : list AddonParameter :=
  [ mkParameter "use-cloudwatch" "true"; mkParameter "use-app-logs" "true";
    mkParameter "use-infra-logs" "false"; mkParameter "use-audit-logs" "false" ].

(** ** Configuration *)
Record OperatorInstallationConfig := mkOperatorInstallationConfig {
  OI_Namespace : string;
  OI_IndexImage : string;
  OI_Package : string;
  OI_SubscriptionChannel : string;
  OI_SubscriptionConfig : option string;
  OI_SubscriptionStartingCSV : string
}.

Record CloudwatchCredentials := mkCloudwatchCredentials {
  AccessKey : string;
  SecretAccessKey : string
}.
#[export] Instance CloudwatchCredentials_zero : Zero CloudwatchCredentials := mkCloudwatchCredentials "" "".

Record EnterpriseCloudwatchCredentials := mkEnterpriseCloudwatchCredentials {
  EC_Credentials : CloudwatchCredentials;
  EC_OrgID : string
}.
#[export] Instance EnterpriseCloudwatchCredentials_zero : Zero EnterpriseCloudwatchCredentials :=
  mkEnterpriseCloudwatchCredentials zero "".

Record ObservabilityCloudWatchLoggingConfig := mkObservabilityCloudWatchLoggingConfig {
  Credentials : CloudwatchCredentials;
  EnterpriseCredentials : list EnterpriseCloudwatchCredentials;
  K8sCredentialsSecretName : string;
  K8sCredentialsSecretNamespace : string;
  CloudwatchLoggingEnabled : bool
}.

Definition setDefaults (c : ObservabilityCloudWatchLoggingConfig) : ObservabilityCloudWatchLoggingConfig :=
  mkObservabilityCloudWatchLoggingConfig c.(Credentials) c.(EnterpriseCredentials)
    (if c.(K8sCredentialsSecretName) =?s "" then "clo-cloudwatchlogs-creds" else c.(K8sCredentialsSecretName))
    (if c.(K8sCredentialsSecretNamespace) =?s "" then "openshift-logging" else c.(K8sCredentialsSecretNamespace))
    c.(CloudwatchLoggingEnabled).

Definition GetEnterpriseCredentials (c : ObservabilityCloudWatchLoggingConfig) (orgID : string) : option CloudwatchCredentials :=
  let '(idx, enterpriseCredential) := FindFirst c.(EnterpriseCredentials) (fun ec => orgID =?s ec.(EC_OrgID)) in
  if idx =? ElementNotFound then None
  else Some (mkCloudwatchCredentials enterpriseCredential.(EC_Credentials).(AccessKey)
               enterpriseCredential.(EC_Credentials).(SecretAccessKey)).

(** The fields of [ObservabilityConfiguration] that reach the clusters. *)
Record ObservabilityConfiguration := mkObservabilityConfiguration {
  DexUrl : string;
  DexUsername : string;
  DexPassword : string;
  DexSecret : string;
  RedHatSsoGatewayUrl : string;
  RedHatSsoAuthServerUrl : string;
  RedHatSsoRealm : string;
  RedHatSsoTenant : string;
  MetricsClientId : string;
  MetricsSecret : string;
  LogsClientId : string;
  LogsSecret : string;
  ObservatoriumGateway : string;
  ObservatoriumTenant : string;
  ObservabilityConfigTag : string;
  ObservabilityConfigRepo : string;
  ObservabilityConfigChannel : string;
  ObservabilityConfigAccessToken : string;
  CloudWatchLoggingConfig : ObservabilityCloudWatchLoggingConfig
}.

Record OCMConfig := mkOCMConfig {
  OCM_ClientID : string;
  OCM_ClientSecret : string;
  SelfToken : string;
  StrimziOperatorAddonID : string;
  KasFleetshardAddonID : string;
  ClusterLoggingOperatorAddonID : string
}.

Definition HasCredentials (c : OCMConfig) : bool :=
  (negb (c.(OCM_ClientID) =?s "") && negb (c.(OCM_ClientSecret) =?s "")) || negb (c.(SelfToken) =?s "").

(** *** Machine pools *)
Record ComputeNodesAutoscalingConfig := mkComputeNodesAutoscalingConfig {
  MaxComputeNodes : Z;
  MinComputeNodes : Z
}.

Record ComputeMachineConfig := mkComputeMachineConfig {
  ComputeMachineType : string;
  ComputeNodesAutoscaling : ComputeNodesAutoscalingConfig
}.

Record ComputeMachinesConfig := mkComputeMachinesConfig {
  ClusterWideWorkload : ComputeMachineConfig;
  KafkaWorkloadPerInstanceType : gmap string ComputeMachineConfig
}.

Definition GetKafkaWorkloadConfigForInstanceType (c : ComputeMachinesConfig) (instanceTypeID : string) : option ComputeMachineConfig :=
  c.(KafkaWorkloadPerInstanceType) !! instanceTypeID.

(** [cloudproviders.ParseCloudProviderID]. *)
Definition AWS : string := "aws".
Definition GCP : string := "gcp".
Definition Azure : string := "azure".
Definition Unknown : string := "".
Definition KnownCloudProviders : list string := [AWS; Azure; GCP].

(** The fields of [DataplaneClusterConfig] that only the clusters' life cycle
    reads, next to those of [Config.v]. *)
Record DataplaneSettings := mkDataplaneSettings {
  ImagePullDockerConfigContent : string;
  ReadOnlyUserList : list string;
  KafkaSREUsers : list string;
  EnableReadyDataPlaneClustersReconcile : bool;
  EnableKafkaSreIdentityProviderConfiguration : bool;
  HasKubernetesConfig : bool;
  StrimziOperatorOLMConfig : OperatorInstallationConfig;
  KasFleetshardOperatorOLMConfig : OperatorInstallationConfig;
  ObservabilityOperatorOLMConfig : OperatorInstallationConfig;
  ComputeMachinePerCloudProvider : gmap string ComputeMachinesConfig
}.

Definition ParseCloudProviderID (id : string) : string :=
  let normalizedID := ToLower id in
  if normalizedID =?s AWS then AWS
  else if normalizedID =?s GCP then GCP
  else if normalizedID =?s Azure then Azure
  else Unknown.

Definition DefaultComputeMachinesConfig (c : DataplaneSettings) (cloudProviderID : string) : result error ComputeMachinesConfig :=
  match c.(ComputeMachinePerCloudProvider) !! cloudProviderID with
  | None => Err (EPlain "cloud provider %q is missing from the 'compute_machine_per_cloud_provider' field in the %q dynamic scaling file")
  | Some config => Ok config
  end.

(** ** The builders of the cluster manager *)
Section Builders.
Context (obs : ObservabilityConfiguration) (dp : DataplaneSettings) (ValidIssuerURI : string).

Definition buildObservabilityNamespaceResource : resource := Namespace observabilityNamespace ∅.

Definition buildObservabilityCloudwatchLoggingCredentialsSecret : resource :=
  let cw := obs.(CloudWatchLoggingConfig) in
  Secret cw.(K8sCredentialsSecretName) cw.(K8sCredentialsSecretNamespace) SecretTypeOpaque
    (<[ "aws_access_key_id" := cw.(Credentials).(AccessKey) ]>
      {[ "aws_secret_access_key" := cw.(Credentials).(SecretAccessKey) ]}) ∅.

Definition buildObservabilityEnterpriseCloudwatchLoggingCredentialsSecret (orgID : string) : resource :=
  let cw := obs.(CloudWatchLoggingConfig) in
  Secret cw.(K8sCredentialsSecretName) cw.(K8sCredentialsSecretNamespace) SecretTypeOpaque
    (match GetEnterpriseCredentials cw orgID with
     | None => ∅
     | Some credentials =>
         <[ "aws_access_key" := credentials.(AccessKey) ]> {[ "aws_secret_access_key" := credentials.(SecretAccessKey) ]}
     end) ∅.

Definition buildObservatoriumDexSecretResource : resource :=
  Secret observatoriumDexSecretName observabilityNamespace SecretTypeOpaque
    (list_to_map [ ("authType", AuthTypeDex); ("gateway", obs.(ObservatoriumGateway)); ("tenant", obs.(ObservatoriumTenant));
                   ("dexUrl", obs.(DexUrl)); ("dexPassword", obs.(DexPassword)); ("dexSecret", obs.(DexSecret));
                   ("dexUsername", obs.(DexUsername)) ]) ∅.

Definition buildObservabilityRemoteWriteServiceAccountCredential (cluster : Cluster) : resource :=
  Secret "observability-proxy-credentials" observabilityNamespace ""
    (list_to_map [ ("client_id", cluster.(CL.ClientID)); ("client_secret", cluster.(CL.ClientSecret));
                   ("issuer_url", ValidIssuerURI) ]) ∅.

Definition buildObservatoriumSSOSecretResource : resource :=
  Secret observatoriumSSOSecretName observabilityNamespace SecretTypeOpaque
    (list_to_map [ ("authType", AuthTypeSso); ("gateway", obs.(RedHatSsoGatewayUrl)); ("tenant", obs.(RedHatSsoTenant));
                   ("redHatSsoAuthServerUrl", obs.(RedHatSsoAuthServerUrl)); ("redHatSsoRealm", obs.(RedHatSsoRealm));
                   ("metricsClientId", obs.(MetricsClientId)); ("metricsSecret", obs.(MetricsSecret));
                   ("logsClientId", obs.(LogsClientId)); ("logsSecret", obs.(LogsSecret)) ]) ∅.

Definition buildObservabilityCatalogSourceResource : resource :=
  CatalogSource observabilityCatalogSourceName observabilityNamespace ∅ SourceTypeGrpc
    dp.(ObservabilityOperatorOLMConfig).(OI_IndexImage) [].

Definition buildObservabilityOperatorGroupResource : resource :=
  OperatorGroup observabilityOperatorGroupName observabilityNamespace ∅ [observabilityNamespace].

Definition buildObservabilitySubscriptionResource : resource :=
  Subscription observabilitySubscriptionName observabilityNamespace ∅
    (mkSubscriptionSpec observabilityCatalogSourceName "alpha" observabilityNamespace
       dp.(ObservabilityOperatorOLMConfig).(OI_SubscriptionStartingCSV) ApprovalAutomatic observabilitySubscriptionName None).

Definition buildImagePullSecret (namespace : string) : option resource :=
  let content := dp.(ImagePullDockerConfigContent) in
  if TrimSpace content =?s "" then None
  else Some (Secret ImagePullSecretName namespace SecretTypeDockerConfigJson ∅ {[ DockerConfigJsonKey := content ]}).

Definition buildReadOnlyGroupResource : resource := Group mkReadOnlyGroupName dp.(ReadOnlyUserList).

Definition buildDedicatedReaderClusterRoleBindingResource : resource :=
  ClusterRoleBinding mkReadOnlyRoleBindingName
    [mkObjectReference "Group" "rbac.authorization.k8s.io" mkReadOnlyGroupName]
    (mkObjectReference "ClusterRole" "rbac.authorization.k8s.io" dedicatedReadersRoleBindingName).

Definition buildKafkaSREGroupResource : resource := Group mkSREGroupName dp.(KafkaSREUsers).

Definition buildKafkaSreClusterRoleBindingResource : resource :=
  ClusterRoleBinding mkSRERoleBindingName
    [mkObjectReference "Group" "rbac.authorization.k8s.io" mkSREGroupName]
    (mkObjectReference "ClusterRole" "rbac.authorization.k8s.io" clusterAdminRoleName).

(** [clusters.StrimziOperatorCommonLabels]. *)
Definition StrimziOperatorCommonLabels : gmap string string :=
  <[ "app.kubernetes.io/component" := "strimzi-bundle" ]> {[ "app.kubernetes.io/part-of" := "managed-kafka" ]}.

Definition strimzi_namespace (ocm : OCMConfig) (cluster : Cluster) : string :=
  if cluster.(CL.ProviderType) =?s ClusterProviderStandalone then dp.(StrimziOperatorOLMConfig).(OI_Namespace)
  else if ocm.(StrimziOperatorAddonID) =?s "managed-kafka-qe" then strimziQEAddonNamespace else strimziAddonNamespace.

Definition kas_fleetshard_namespace (ocm : OCMConfig) (cluster : Cluster) : string :=
  if cluster.(CL.ProviderType) =?s ClusterProviderStandalone then dp.(KasFleetshardOperatorOLMConfig).(OI_Namespace)
  else if ocm.(KasFleetshardAddonID) =?s "kas-fleetshard-operator-qe" then kasFleetshardQEAddonNamespace
  else kasFleetshardAddonNamespace.

Definition buildResourceSet (ocm : OCMConfig) (cluster : Cluster) : ResourceSet :=
  let strimziNamespace := strimzi_namespace ocm cluster in
  let kasFleetshardNamespace := kas_fleetshard_namespace ocm cluster in
  mkResourceSet syncsetName
    ((if cluster.(CL.ClusterType) =?s ManagedDataPlaneClusterType
      then [ buildReadOnlyGroupResource; buildDedicatedReaderClusterRoleBindingResource;
             buildKafkaSREGroupResource; buildKafkaSreClusterRoleBindingResource ]
      else []) ++
     [ buildObservabilityNamespaceResource ] ++
     (if obs.(CloudWatchLoggingConfig).(CloudwatchLoggingEnabled)
      then [ if cluster.(CL.ClusterType) =?s EnterpriseDataPlaneClusterType
             then buildObservabilityEnterpriseCloudwatchLoggingCredentialsSecret cluster.(CL.OrganizationID)
             else buildObservabilityCloudwatchLoggingCredentialsSecret ]
      else []) ++
     [ buildObservatoriumDexSecretResource; buildObservatoriumSSOSecretResource; buildObservabilityCatalogSourceResource;
       buildObservabilityOperatorGroupResource; buildObservabilitySubscriptionResource;
       buildObservabilityRemoteWriteServiceAccountCredential cluster ] ++
     (if cluster.(CL.ProviderType) =?s ClusterProviderStandalone
      then [ Namespace strimziNamespace StrimziOperatorCommonLabels; Namespace kasFleetshardNamespace ∅ ]
      else []) ++
     option_list (buildImagePullSecret strimziNamespace) ++
     option_list (buildImagePullSecret kasFleetshardNamespace) ++
     option_list (buildImagePullSecret observabilityNamespace)).
End Builders.

(** ** The operators that the standalone provider installs *)
Definition strimziOperatorCatalogSourceName : string := "managed-kafka-cs".
Definition strimziOperatorOperatorGroupName : string := "managed-kafka-og".
Definition strimziOperatorSubscriptionName : string := "managed-kafka-sub".
Definition kasFleetShardOperatorCatalogSourceName : string := "kas-fleetshard-operator-cs".
Definition kasFleetShardOperatorOperatorGroupName : string := "kas-fleetshard-operator-og".
Definition kasFleetShardOperatorSubscriptionName : string := "kas-fleetshard-operator-sub".
Definition kasFleetShardOperatorParametersSecretName : string := "addon-kas-fleetshard-operator-parameters".
Definition kafkaSREOpenIDPSecretName : string := "kafka-sre-idp-secret".

Section Standalone.
Context (dp : DataplaneSettings).

Definition catalog_secrets : list string :=
  if dp.(ImagePullDockerConfigContent) =?s "" then [] else [ImagePullSecretName].

Definition buildStrimziOperatorNamespace : resource :=
  Namespace dp.(StrimziOperatorOLMConfig).(OI_Namespace) StrimziOperatorCommonLabels.

Definition buildStrimziOperatorCatalogSource : resource :=
  let c := dp.(StrimziOperatorOLMConfig) in
  CatalogSource strimziOperatorCatalogSourceName c.(OI_Namespace) StrimziOperatorCommonLabels SourceTypeGrpc c.(OI_IndexImage) catalog_secrets.

Definition buildStrimziOperatorOperatorGroup : resource :=
  OperatorGroup strimziOperatorOperatorGroupName dp.(StrimziOperatorOLMConfig).(OI_Namespace) StrimziOperatorCommonLabels [].

Definition buildStrimziOperatorSubscription : resource :=
  let c := dp.(StrimziOperatorOLMConfig) in
  Subscription strimziOperatorSubscriptionName c.(OI_Namespace) StrimziOperatorCommonLabels
    (mkSubscriptionSpec strimziOperatorCatalogSourceName c.(OI_SubscriptionChannel) c.(OI_Namespace)
       c.(OI_SubscriptionStartingCSV) ApprovalAutomatic c.(OI_Package) c.(OI_SubscriptionConfig)).

Definition strimzi_resources : ResourceSet :=
  mkResourceSet "" [ buildStrimziOperatorNamespace; buildStrimziOperatorCatalogSource;
                     buildStrimziOperatorOperatorGroup; buildStrimziOperatorSubscription ].

Definition buildKASFleetShardOperatorNamespace : resource := Namespace dp.(KasFleetshardOperatorOLMConfig).(OI_Namespace) ∅.

Definition buildKASFleetShardOperatorCatalogSource : resource :=
  let c := dp.(KasFleetshardOperatorOLMConfig) in
  CatalogSource kasFleetShardOperatorCatalogSourceName c.(OI_Namespace) ∅ SourceTypeGrpc c.(OI_IndexImage) catalog_secrets.

Definition buildKASFleetShardOperatorOperatorGroup : resource :=
  OperatorGroup kasFleetShardOperatorOperatorGroupName dp.(KasFleetshardOperatorOLMConfig).(OI_Namespace) ∅ [].

Definition buildKASFleetShardOperatorSubscription : resource :=
  let c := dp.(KasFleetshardOperatorOLMConfig) in
  Subscription kasFleetShardOperatorSubscriptionName c.(OI_Namespace) ∅
    (mkSubscriptionSpec kasFleetShardOperatorCatalogSourceName c.(OI_SubscriptionChannel) c.(OI_Namespace)
       c.(OI_SubscriptionStartingCSV) ApprovalAutomatic c.(OI_Package) c.(OI_SubscriptionConfig)).

(** A later parameter with the same name replaces an earlier one. *)
Definition buildKASFleetShardSyncSecret (params : list AddonParameter) : resource :=
  Secret kasFleetShardOperatorParametersSecretName dp.(KasFleetshardOperatorOLMConfig).(OI_Namespace) ""
    (foldl (fun m param => <[ param.(Param_Id) := param.(Param_Value) ]> m) ∅ params) ∅.

Definition kas_fleetshard_resources (params : list AddonParameter) : ResourceSet :=
  mkResourceSet "" [ buildKASFleetShardOperatorNamespace; buildKASFleetShardSyncSecret params;
                     buildKASFleetShardOperatorCatalogSource; buildKASFleetShardOperatorOperatorGroup;
                     buildKASFleetShardOperatorSubscription ].
End Standalone.

(** ** Namespaces come first *)
Definition is_pull_secret (r : resource) : bool :=
  match r with Secret _ _ ty _ _ => ty =?s SecretTypeDockerConfigJson | _ => false end.

(** A namespace that is declared at a position of the prefix [A], none of whose
    objects is selected by [p], comes before every selected object. *)
Lemma declared_before (p : resource -> bool) (A B : list resource) i r ns labels :
  Forall (fun x => p x = false) A -> (A ++ B) !! i = Some r -> p r = true -> Namespace ns labels ∈ A ->
  exists j, (j < i)%nat /\ (A ++ B) !! j = Some (Namespace ns labels).
Proof.
  intros HA Hi Hp [j Hj]%list_elem_of_lookup. pose proof (lookup_lt_Some _ _ _ Hj) as Hlt.
  assert (length A <= i)%nat as Hle.
  { destruct (decide (i < length A)%nat) as [H|H]; [|lia]. exfalso. rewrite lookup_app_l in Hi by done.
    rewrite Forall_lookup in HA. rewrite (HA _ _ Hi) in Hp. done. }
  exists j. split; [lia|]. by rewrite lookup_app_l.
Qed.

Section ResourceSets.
Context (obs : ObservabilityConfiguration) (dp : DataplaneSettings) (ValidIssuerURI : string) (ocm : OCMConfig) (cluster : Cluster).

Definition the_resources : list resource := (buildResourceSet obs dp ValidIssuerURI ocm cluster).(RS_Resources).

(** The four objects that give people access. *)
Definition access_resources : list resource :=
  if cluster.(CL.ClusterType) =?s ManagedDataPlaneClusterType
  then [ buildReadOnlyGroupResource dp; buildDedicatedReaderClusterRoleBindingResource;
         buildKafkaSREGroupResource dp; buildKafkaSreClusterRoleBindingResource ]
  else [].

Definition cloudwatch_secret : resource :=
  if cluster.(CL.ClusterType) =?s EnterpriseDataPlaneClusterType
  then buildObservabilityEnterpriseCloudwatchLoggingCredentialsSecret obs cluster.(CL.OrganizationID)
  else buildObservabilityCloudwatchLoggingCredentialsSecret obs.

Definition cloudwatch_resources : list resource :=
  if obs.(CloudWatchLoggingConfig).(CloudwatchLoggingEnabled) then [cloudwatch_secret] else [].

Definition observability_resources : list resource :=
  [ buildObservatoriumDexSecretResource obs; buildObservatoriumSSOSecretResource obs; buildObservabilityCatalogSourceResource dp;
    buildObservabilityOperatorGroupResource; buildObservabilitySubscriptionResource dp;
    buildObservabilityRemoteWriteServiceAccountCredential ValidIssuerURI cluster ].

Definition standalone_namespaces : list resource :=
  if cluster.(CL.ProviderType) =?s ClusterProviderStandalone
  then [ Namespace (strimzi_namespace dp ocm cluster) StrimziOperatorCommonLabels;
         Namespace (kas_fleetshard_namespace dp ocm cluster) ∅ ]
  else [].

Definition pull_secrets : list resource :=
  option_list (buildImagePullSecret dp (strimzi_namespace dp ocm cluster)) ++
  option_list (buildImagePullSecret dp (kas_fleetshard_namespace dp ocm cluster)) ++
  option_list (buildImagePullSecret dp observabilityNamespace).

Lemma resources_parts : the_resources =
  (access_resources ++ [buildObservabilityNamespaceResource]) ++ cloudwatch_resources ++ observability_resources ++
  standalone_namespaces ++ pull_secrets.
Proof.
  unfold the_resources, buildResourceSet, access_resources, cloudwatch_resources, cloudwatch_secret, observability_resources,
    standalone_namespaces, pull_secrets. cbn [RS_Resources]. by rewrite <- !app_assoc.
Qed.

Lemma access_no_namespace : Forall (fun r => namespace_of r = None) access_resources.
Proof. unfold access_resources. destruct (_ =?s _); repeat constructor. Qed.

Lemma cloudwatch_opaque : exists n ns d d', cloudwatch_secret = Secret n ns SecretTypeOpaque d d'.
Proof. unfold cloudwatch_secret. destruct (_ =?s _); repeat eexists. Qed.

Lemma before_pull_secrets_opaque :
  Forall (fun r => is_pull_secret r = false)
    ((access_resources ++ [buildObservabilityNamespaceResource]) ++ cloudwatch_resources ++ observability_resources ++ standalone_namespaces).
Proof.
  destruct cloudwatch_opaque as (n & ns & d & d' & Hcw). rewrite !Forall_app. split_and!.
  - unfold access_resources. destruct (_ =?s _); repeat constructor.
  - repeat constructor.
  - unfold cloudwatch_resources. destruct (CloudwatchLoggingEnabled _); [|constructor]. constructor; [|constructor]. by rewrite Hcw.
  - repeat constructor.
  - unfold standalone_namespaces. destruct (_ =?s _); repeat constructor.
Qed.

Lemma pull_secret_namespace r ns : r ∈ pull_secrets -> namespace_of r = Some ns ->
  ns ∈ [strimzi_namespace dp ocm cluster; kas_fleetshard_namespace dp ocm cluster; observabilityNamespace].
Proof.
  unfold pull_secrets, buildImagePullSecret. destruct (TrimSpace _ =?s ""); simpl; [by intros ?%elem_of_nil|].
  rewrite !elem_of_cons, elem_of_nil. intros [->|[->|[->|[]]]]; simpl; intros [= <-]; auto.
Qed.

(** The set of resources declares namespaces before it uses them: every
    object in the observability namespace follows the declaration of that
    namespace, and on a standalone cluster every image pull secret follows the
    declaration of its own. *)
Theorem resource_namespaces_declared_first i r ns :
  the_resources !! i = Some r -> namespace_of r = Some ns ->
  ns = observabilityNamespace \/ (cluster.(CL.ProviderType) = ClusterProviderStandalone /\ is_pull_secret r = true) ->
  exists j labels, (j < i)%nat /\ the_resources !! j = Some (Namespace ns labels).
Proof.
  intros Hi Hns Hcase. rewrite resources_parts in *.
  destruct (decide (ns = observabilityNamespace)) as [->|Hne].
  - destruct (declared_before (fun x => bool_decide (is_Some (namespace_of x))) (access_resources ++ [buildObservabilityNamespaceResource])
      (cloudwatch_resources ++ observability_resources ++ standalone_namespaces ++ pull_secrets) i r observabilityNamespace ∅)
      as (j & Hj & Hlj); [|done|rewrite bool_decide_true; [done|by rewrite Hns]|rewrite elem_of_app; right; by left|eauto].
    apply Forall_app. split; [|repeat constructor]. eapply Forall_impl; [apply access_no_namespace|].
    intros x Hx. simpl in Hx. by rewrite Hx.
  - destruct Hcase as [?|[Hprov Hpull]]; [done|].
    set (A := (access_resources ++ [buildObservabilityNamespaceResource]) ++ cloudwatch_resources ++ observability_resources ++ standalone_namespaces).
    assert ((access_resources ++ [buildObservabilityNamespaceResource]) ++ cloudwatch_resources ++ observability_resources ++
      standalone_namespaces ++ pull_secrets = A ++ pull_secrets) as E by (unfold A; by rewrite <- !app_assoc).
    rewrite E in *. assert (exists labels, Namespace ns labels ∈ A) as [labels Hdecl].
    { assert (ns ∈ [strimzi_namespace dp ocm cluster; kas_fleetshard_namespace dp ocm cluster; observabilityNamespace]) as Hin.
      { apply (pull_secret_namespace r); [|done]. pose proof before_pull_secrets_opaque as Hop. fold A in Hop.
        apply list_elem_of_lookup_2, elem_of_app in Hi as [Hi|Hi]; [|done].
        rewrite Forall_forall in Hop. rewrite (Hop r Hi) in Hpull. done. }
      unfold A, standalone_namespaces. rewrite (proj2 (String.eqb_eq _ _) Hprov).
      rewrite !elem_of_cons, elem_of_nil in Hin. destruct Hin as [->|[->|[->|[]]]]; [eexists|eexists|done]; rewrite !elem_of_app, !elem_of_cons; auto 10. }
    destruct (declared_before is_pull_secret A pull_secrets i r ns labels) as (j & Hj & Hlj); [apply before_pull_secrets_opaque|done..|eauto].
Qed.

(** The credentials an organisation's own entry gives. *)
Lemma enterprise_credentials_own orgID credentials :
  GetEnterpriseCredentials obs.(CloudWatchLoggingConfig) orgID = Some credentials ->
  exists ec, ec ∈ obs.(CloudWatchLoggingConfig).(EnterpriseCredentials) /\ ec.(EC_OrgID) = orgID /\
    credentials = ec.(EC_Credentials).
Proof.
  unfold GetEnterpriseCredentials, FindFirst.
  destruct (FindFirst_from_spec 0 (EnterpriseCredentials (CloudWatchLoggingConfig obs)) (fun ec => orgID =?s ec.(EC_OrgID)) ltac:(lia))
    as [(pre & v & post & Heq & _ & Hv & ->)|[_ ->]]; [|done].
  destruct (Z.eqb_spec (0 + Z.of_nat (length pre)) ElementNotFound) as [H|_]; [unfold ElementNotFound in H; lia|].
  intros [= <-]. exists v. apply String.eqb_eq in Hv. split_and!; [rewrite Heq, elem_of_app, elem_of_cons; auto|done|by destruct (EC_Credentials v)].
Qed.

(** Neither an access object nor a carrier of AWS credentials. *)
Definition harmless (r : resource) : Prop :=
  match r with
  | Group _ _ | ClusterRoleBinding _ _ _ => False
  | Secret _ _ _ sd _ => sd !! "aws_secret_access_key" = None
  | _ => True
  end.

Lemma common_resources_harmless r : r ∈ observability_resources ++ standalone_namespaces ++ pull_secrets -> harmless r.
Proof.
  rewrite !elem_of_app. intros [Hr|[Hr|Hr]].
  - unfold observability_resources in Hr. rewrite !elem_of_cons, elem_of_nil in Hr.
    destruct Hr as [->|[->|[->|[->|[->|[->|[]]]]]]]; try exact I; apply not_elem_of_list_to_map_1; set_solver.
  - unfold standalone_namespaces in Hr. destruct (_ =?s _); [|by apply elem_of_nil in Hr].
    rewrite !elem_of_cons, elem_of_nil in Hr. by destruct Hr as [->|[->|[]]].
  - unfold pull_secrets, buildImagePullSecret in Hr. destruct (TrimSpace _ =?s ""); simpl in Hr; [by apply elem_of_nil in Hr|].
    rewrite !elem_of_cons, elem_of_nil in Hr. by destruct Hr as [->|[->|[->|[]]]].
Qed.

(** Enterprise clusters, which belong to customers, get no access objects
    (groups or role bindings) for the operators of the service, and the AWS
    credentials a secret of theirs carries are those configured for their own
    organisation. *)
Theorem enterprise_cluster_isolation r :
  cluster.(CL.ClusterType) = EnterpriseDataPlaneClusterType -> r ∈ the_resources ->
  (forall name users, r <> Group name users) /\ (forall name subjects role, r <> ClusterRoleBinding name subjects role) /\
  (forall name ns ty sd d v, r = Secret name ns ty sd d -> sd !! "aws_secret_access_key" = Some v ->
     exists ec, ec ∈ obs.(CloudWatchLoggingConfig).(EnterpriseCredentials) /\ ec.(EC_OrgID) = cluster.(CL.OrganizationID) /\
       v = ec.(EC_Credentials).(SecretAccessKey)).
Proof.
  intros Hty. rewrite resources_parts. unfold access_resources, cloudwatch_resources, cloudwatch_secret. rewrite Hty.
  change (EnterpriseDataPlaneClusterType =?s ManagedDataPlaneClusterType) with false.
  change (EnterpriseDataPlaneClusterType =?s EnterpriseDataPlaneClusterType) with true. cbn iota. rewrite app_nil_l.
  rewrite !elem_of_app, list_elem_of_singleton. rewrite <- !elem_of_app. intros [->|Hr].
  { split_and!; try done. }
  rewrite elem_of_app in Hr. destruct Hr as [Hr|Hr%common_resources_harmless].
  - destruct (CloudwatchLoggingEnabled _); [|by apply elem_of_nil in Hr]. apply list_elem_of_singleton in Hr as ->.
    split_and!; [done|done|]. intros name ns ty sd d v [= _ _ _ <- _] Hv.
    destruct (GetEnterpriseCredentials _ _) as [credentials|] eqn:Hc; [|done].
    destruct (enterprise_credentials_own _ _ Hc) as (ec & Hin & Horg & ->). exists ec. split_and!; [done|done|].
    rewrite lookup_insert_ne, lookup_singleton_eq in Hv by done. congruence.
  - split_and!; [by intros ? ? ->|by intros ? ? ? ->|]. intros name ns ty sd d v -> Hv. simpl in Hr. congruence.
Qed.
End ResourceSets.

(** The catalogue of a standalone operator names the pull secret whenever the
    content is not empty, the secret itself exists only when it is not blank. *)
Lemma catalog_secrets_exist dp ns :
  TrimSpace dp.(ImagePullDockerConfigContent) <> "" ->
  catalog_secrets dp = [ImagePullSecretName] /\ is_Some (buildImagePullSecret dp ns).
Proof.
  intros Hne. unfold catalog_secrets, buildImagePullSecret. rewrite (proj2 (String.eqb_neq _ _) Hne). split; [|eauto].
  destruct (String.eqb_spec (ImagePullDockerConfigContent dp) "") as [E|_]; [|done]. by rewrite E in Hne.
Qed.

(** ** A configuration *)
Module ResourceFixtures.
Definition olm (ns : string) : OperatorInstallationConfig := mkOperatorInstallationConfig ns "index" "package" "alpha" None "".
Definition machine : ComputeMachineConfig := mkComputeMachineConfig "m5.2xlarge" (mkComputeNodesAutoscalingConfig 5 1).
Definition settings (content : string) : DataplaneSettings :=
  mkDataplaneSettings content ["reader"] ["sre"] true true true (olm "strimzi") (olm "fleetshard") (olm "obs")
    {[ AWS := mkComputeMachinesConfig machine (<[ DEVELOPER := machine ]> {[ STANDARD := machine ]}) ]}.
Definition cloudwatch : ObservabilityCloudWatchLoggingConfig :=
  setDefaults (mkObservabilityCloudWatchLoggingConfig (mkCloudwatchCredentials "shared" "shared-secret")
    [mkEnterpriseCloudwatchCredentials (mkCloudwatchCredentials "own" "own-secret") "org-1"] "" "" true).
Definition observability : ObservabilityConfiguration :=
  mkObservabilityConfiguration "" "" "" "" "" "" "" "" "" "" "" "" "" "" "main" "repo" "resources" "token" cloudwatch.
Definition ocm : OCMConfig := mkOCMConfig "id" "secret" "" "managed-kafka" "kas-fleetshard-operator" "".
Definition cluster (type provider org : string) : Cluster :=
  (zero : Cluster) <| CL.ClusterType := type |> <| CL.ProviderType := provider |> <| CL.OrganizationID := org |>.
End ResourceFixtures.

(** A blank file: the catalogue refers to a secret that is never created. *)
Example blank_pull_secret :
  catalog_secrets (ResourceFixtures.settings " ") = [ImagePullSecretName] /\
  buildImagePullSecret (ResourceFixtures.settings " ") "strimzi" = None.
Proof. split; reflexivity. Qed.

(** The secret of an enterprise cluster has no [aws_access_key_id], the name
    under which the shared secret has the access key. *)
Example enterprise_access_key_name :
  match buildObservabilityEnterpriseCloudwatchLoggingCredentialsSecret ResourceFixtures.observability "org-1" with
  | Secret _ _ _ sd _ => sd !! "aws_access_key_id" = None /\ sd !! "aws_access_key" = Some "own"
  | _ => False
  end.
Proof. split; vm_compute; reflexivity. Qed.

Lemma resource_namespaces_declared_first_witness :
  let c := ResourceFixtures.cluster ManagedDataPlaneClusterType ClusterProviderStandalone "" in
  exists j labels, (j < 14)%nat /\
    the_resources ResourceFixtures.observability (ResourceFixtures.settings "{}") "uri" ResourceFixtures.ocm c !! j = Some (Namespace "strimzi" labels).
Proof.
  apply (resource_namespaces_declared_first ResourceFixtures.observability (ResourceFixtures.settings "{}") "uri" ResourceFixtures.ocm
    (ResourceFixtures.cluster ManagedDataPlaneClusterType ClusterProviderStandalone "") 14
    (Secret ImagePullSecretName "strimzi" SecretTypeDockerConfigJson ∅ {[ DockerConfigJsonKey := "{}" ]}) "strimzi").
  - reflexivity.
  - reflexivity.
  - right. split; reflexivity.
Defined.

Lemma enterprise_cluster_isolation_witness :
  let c := ResourceFixtures.cluster EnterpriseDataPlaneClusterType ClusterProviderOCM "org-1" in
  exists ec, ec ∈ ResourceFixtures.cloudwatch.(EnterpriseCredentials) /\ ec.(EC_OrgID) = "org-1" /\
    "own-secret" = ec.(EC_Credentials).(SecretAccessKey).
Proof.
  refine (proj2 (proj2 (enterprise_cluster_isolation ResourceFixtures.observability (ResourceFixtures.settings "{}") "uri" ResourceFixtures.ocm
    (ResourceFixtures.cluster EnterpriseDataPlaneClusterType ClusterProviderOCM "org-1")
    (buildObservabilityEnterpriseCloudwatchLoggingCredentialsSecret ResourceFixtures.observability "org-1") _ _)) _ _ _ _ _ _ _ _).
  - reflexivity.
  - right. left.
  - reflexivity.
  - vm_compute. reflexivity.
Defined.
