(* ===== verification/Providers.v ===== *)
(** * Cluster providers: [src/internal/kafka/internal/clusters]

    The interface of a provider ([provider.go], [types/types.go]) and its two
    implementations: OpenShift clusters managed through OCM ([ocm_provider.go],
    [cluster_builder.go]) and standalone clusters that the configuration lists
    ([standalone_provider.go]).

    The OCM client and the Kubernetes client are records of operations, as the
    Go interfaces are; objects of the OCM library are records of the attributes
    that the code reads or sets. *)
From S2P Require Import Prelude Arrays Errors Status Config Model Store Resources.

(** ** The types that providers exchange *)
Record ClusterSpec := mkClusterSpec {
  InternalID : string;
  Spec_ExternalID : string;
  Spec_Status : string;
  Spec_MultiAZ : bool;
  Spec_Region : string;
  Spec_CloudProvider : string;
  AdditionalInfo : option string;
  Spec_StatusDetails : string
}.

(** [types.ClusterRequest]: what a provider is asked to create. *)
Record ClusterRequest := mkClusterRequest {
  Req_CloudProvider : string;
  Req_Region : string;
  Req_MultiAZ : bool;
  Req_AdditionalSpec : option string
}.

Record OpenIDIdentityProviderInfo := mkOpenIDIdentityProviderInfo {
  IDP_ID : string;
  IDP_Name : string;
  IDP_ClientID : string;
  IDP_ClientSecret : string;
  IDP_Issuer : string
}.
Record IdentityProviderInfo := mkIdentityProviderInfo { OpenID : option OpenIDIdentityProviderInfo }.

Record MachinePoolAutoScaling := mkMachinePoolAutoScaling {
  MinNodes : Z;
  MaxNodes_ : Z
}.

Record ClusterNodeTaint := mkClusterNodeTaint {
  Effect : string;
  Taint_Key : string;
  Taint_Value : string
}.

Record MachinePoolRequest := mkMachinePoolRequest {
  MPR_ID : string;
  MPR_InstanceSize : string;
  MPR_MultiAZ : bool;
  MPR_AutoScalingEnabled : bool;
  MPR_AutoScaling : MachinePoolAutoScaling;
  MPR_ClusterID : string;
  MPR_NodeLabels : gmap string string;
  MPR_NodeTaints : list ClusterNodeTaint
}.

Record MachinePoolInfo := mkMachinePoolInfo {
  MPI_ID : string;
  MPI_InstanceSize : string;
  MPI_MultiAZ : bool;
  MPI_AutoScalingEnabled : bool;
  MPI_AutoScaling : MachinePoolAutoScaling;
  MPI_NodeLabels : gmap string string;
  MPI_NodeTaints : list ClusterNodeTaint
}.

Record QuotaCost := mkQuotaCost {
  QC_ID : string;
  QC_MaxAllowed : Z;
  QC_Consumed : Z
}.

Record CloudProviderInfo := mkCloudProviderInfo {
  CPI_ID : string;
  CPI_Name : string;
  CPI_DisplayName : string
}.

Record CloudProviderRegionInfo := mkCloudProviderRegionInfo {
  CRI_ID : string;
  CRI_CloudProviderID : string;
  CRI_Name : string;
  CRI_DisplayName : string;
  CRI_SupportsMultiAZ : bool
}.

(** [existing] holds the keys of [existingRegionIdToContentMapping]. *)
Fixpoint merge_regions (existing : list string) (target source : list CloudProviderRegionInfo) : list CloudProviderRegionInfo :=
  match source with
  | [] => target
  | region :: source' =>
      if Contains existing region.(CRI_ID) then merge_regions existing target source'
      else merge_regions (region.(CRI_ID) :: existing) (target ++ [region]) source'
  end.
Definition Merge (target source : list CloudProviderRegionInfo) : list CloudProviderRegionInfo :=
  merge_regions (map CRI_ID target) target source.

(** The operations of [Provider].  A nil pointer is [None]; the lists of cloud
    providers and regions are never nil. *)
Record ClusterProvider (W : Type) := mkClusterProvider {
  Provider_Create : ClusterRequest -> M W error (option ClusterSpec);
  Provider_CheckClusterStatus : ClusterSpec -> M W error ClusterSpec;
  Provider_Delete : ClusterSpec -> M W error bool;
  Provider_GetClusterDNS : ClusterSpec -> M W error string;
  Provider_AddIdentityProvider : ClusterSpec -> IdentityProviderInfo -> M W error (option IdentityProviderInfo);
  Provider_ApplyResources : ClusterSpec -> ResourceSet -> M W error ResourceSet;
  Provider_RemoveResources : ClusterSpec -> string -> M W error unit;
  Provider_InstallStrimzi : ClusterSpec -> M W error bool;
  Provider_InstallClusterLogging : ClusterSpec -> list AddonParameter -> M W error bool;
  Provider_InstallKasFleetshard : ClusterSpec -> list AddonParameter -> M W error bool;
  Provider_GetMachinePool : string -> string -> M W error (option MachinePoolInfo);
  Provider_CreateMachinePool : MachinePoolRequest -> M W error (option MachinePoolRequest);
  Provider_GetClusterResourceQuotaCosts : M W error (list QuotaCost);
  Provider_GetClusterSpec : string -> M W error ClusterSpec;
  Provider_GetCloudProviders : M W error (list CloudProviderInfo);
  Provider_GetCloudProviderRegions : CloudProviderInfo -> M W error (list CloudProviderRegionInfo);
  Provider_CheckIfOrganizationIsTheClusterOwner : string -> string -> string -> M W error unit
}.
Arguments mkClusterProvider {W}.
Arguments Provider_Create {W}.
Arguments Provider_CheckClusterStatus {W}.
Arguments Provider_Delete {W}.
Arguments Provider_GetClusterDNS {W}.
Arguments Provider_AddIdentityProvider {W}.
Arguments Provider_ApplyResources {W}.
Arguments Provider_RemoveResources {W}.
Arguments Provider_InstallStrimzi {W}.
Arguments Provider_InstallClusterLogging {W}.
Arguments Provider_InstallKasFleetshard {W}.
Arguments Provider_GetMachinePool {W}.
Arguments Provider_CreateMachinePool {W}.
Arguments Provider_GetClusterResourceQuotaCosts {W}.
Arguments Provider_GetClusterSpec {W}.
Arguments Provider_GetCloudProviders {W}.
Arguments Provider_GetCloudProviderRegions {W}.
Arguments Provider_CheckIfOrganizationIsTheClusterOwner {W}.

(** [DefaultProviderFactory]: OCM unless another type is named. *)
Definition DefaultProviderFactory_GetProvider {W} (ocm standalone : ClusterProvider W) (providerType : string)
  : result error (ClusterProvider W) :=
  let providerType := if providerType =?s "" then ClusterProviderOCM else providerType in
  if providerType =?s ClusterProviderStandalone then Ok standalone
  else if providerType =?s ClusterProviderOCM then Ok ocm
  else Err (EPlain "invalid provider type: %v").

(** ** Rounding: [src/pkg/shared/numutil.go]

    The remainder of Go has the sign of the dividend. *)
Definition RoundUp (number multiple : Z) : Z :=
  let remainder := Z.rem number multiple in
  if remainder =? 0 then number else number + (multiple - remainder).
Definition RoundDown (number multiple : Z) : Z := number - Z.rem number multiple.

Lemma RoundUp_spec n m : 0 <= n -> 0 < m -> (m | RoundUp n m) /\ n <= RoundUp n m < n + m.
Proof.
  intros Hn Hm. unfold RoundUp. rewrite Z.rem_mod_nonneg by lia. pose proof (Z.mod_pos_bound n m Hm).
  pose proof (Z.div_mod n m ltac:(lia)) as Hdiv. destruct (Z.eqb_spec (n mod m) 0) as [E|E].
  - split; [|lia]. exists (n / m). lia.
  - split; [|lia]. exists (n / m + 1). lia.
Qed.

Lemma RoundUp_mono a b m : 0 <= a -> a <= b -> 0 < m -> RoundUp a m <= RoundUp b m.
Proof.
  intros Ha Hab Hm. destruct (RoundUp_spec a m Ha Hm) as [[x Hx] Hbx], (RoundUp_spec b m ltac:(lia) Hm) as [[y Hy] Hby].
  rewrite Hx, Hy in *. destruct (Z.le_gt_cases x y); nia.
Qed.

(** ** OCM *)
Record OcmCluster := mkOcmCluster {
  OC_ID : string;
  OC_ExternalID : string;
  OC_MultiAZ : bool;
  OC_CloudProvider : string;
  OC_Region : string;
  OC_State : string;
  OC_ProvisionErrorMessage : string
}.

Record AddOnInstallation := mkAddOnInstallation {
  AOI_ID : string;
  AOI_State : string
}.

Record IdentityProvider := mkIdentityProvider {
  IP_ID : string;
  IP_Type : string;
  IP_MappingMethod : string;
  IP_Name : string;
  IP_OpenID : OpenIDIdentityProviderInfo
}.

Record OcmMachinePool := mkOcmMachinePool {
  OMP_ID : string;
  OMP_InstanceType : string;
  OMP_AvailabilityZones : list string;
  OMP_Autoscaling : option MachinePoolAutoScaling;
  OMP_Labels : gmap string string;
  OMP_Taints : list ClusterNodeTaint
}.

Record AWSCredentials := mkAWSCredentials {
  AWS_AccountID : string;
  AWS_AccessKey : string;
  AWS_SecretAccessKey : string
}.

Record GCPCredentials := mkGCPCredentials {
  AuthProviderX509CertURL : string;
  AuthURI : string;
  ClientEmail : string;
  GCP_ClientID : string;
  ClientX509CertURL : string;
  PrivateKey : string;
  PrivateKeyID : string;
  ProjectID : string;
  TokenURI : string;
  GCP_Type : string
}.

(** What [NewOCMClusterFromCluster] builds. *)
Record NewOcmCluster := mkNewOcmCluster {
  NC_Name : string;
  NC_CloudProvider : string;
  NC_Region : string;
  NC_MultiAZ : bool;
  NC_Version : option string;
  NC_CCS : bool;
  NC_Managed : bool;
  NC_AWS : option AWSCredentials;
  NC_GCP : option GCPCredentials;
  NC_ComputeMachineType : string;
  NC_MinReplicas : Z;
  NC_MaxReplicas : Z
}.

Definition ClusterStateReady : string := "ready".
Definition ClusterStateError : string := "error".
Definition AddOnInstallationStateReady : string := "ready".
Definition StatusNoContent : Z := 204.
Definition ipdAlreadyCreatedErrorToCheck : string := "already exists".
Definition ocmMultiAZClusterNodeScalingMultiple : Z := 3.
Definition ClusterNamePrefix : string := "mk-".

(** The operations of [ocm.Client].  The deletions return a status code next to
    their error; [U] is the type of untyped objects.  Of a subscription only its
    identifier is kept. *)
Record OcmClient (W U : Type) := mkOcmClient {
  CreateCluster : NewOcmCluster -> M W error OcmCluster;
  GetCluster : string -> M W error OcmCluster;
  DeleteCluster : string -> W -> Z * option error * W;
  Ocm_GetClusterDNS : string -> M W error string;
  CreateIdentityProvider : string -> IdentityProvider -> M W error IdentityProvider;
  GetIdentityProviderList : string -> M W error (list IdentityProvider);
  DeleteSyncSet : string -> string -> W -> Z * option error * W;
  GetSyncSet : string -> string -> M W error (list U);
  CreateSyncSet : string -> string -> list resource -> M W error unit;
  UpdateSyncSet : string -> string -> list resource -> M W error unit;
  GetAddon : string -> string -> M W error (option AddOnInstallation);
  CreateAddon : string -> string -> M W error (option AddOnInstallation);
  CreateAddonWithParams : string -> string -> list AddonParameter -> M W error (option AddOnInstallation);
  UpdateAddonParameters : string -> string -> list AddonParameter -> M W error unit;
  Ocm_GetMachinePool : string -> string -> M W error (option OcmMachinePool);
  Ocm_CreateMachinePool : string -> OcmMachinePool -> M W error unit;
  GetCurrentOrganization : M W error (option string);
  GetQuotaCosts : string -> list (option string * option string * option string) -> M W error (list QuotaCost);
  Ocm_GetCloudProviders : M W error (list CloudProviderInfo);
  Ocm_GetRegions : CloudProviderInfo -> M W error (list CloudProviderRegionInfo);
  GetOrganisationIdFromExternalId : string -> M W error string;
  FindSubscriptions : string -> M W error (list string)
}.
Arguments CreateCluster {W U}.
Arguments GetCluster {W U}.
Arguments DeleteCluster {W U}.
Arguments Ocm_GetClusterDNS {W U}.
Arguments CreateIdentityProvider {W U}.
Arguments GetIdentityProviderList {W U}.
Arguments DeleteSyncSet {W U}.
Arguments GetSyncSet {W U}.
Arguments CreateSyncSet {W U}.
Arguments UpdateSyncSet {W U}.
Arguments GetAddon {W U}.
Arguments CreateAddon {W U}.
Arguments CreateAddonWithParams {W U}.
Arguments UpdateAddonParameters {W U}.
Arguments Ocm_GetMachinePool {W U}.
Arguments Ocm_CreateMachinePool {W U}.
Arguments GetCurrentOrganization {W U}.
Arguments GetQuotaCosts {W U}.
Arguments Ocm_GetCloudProviders {W U}.
Arguments Ocm_GetRegions {W U}.
Arguments GetOrganisationIdFromExternalId {W U}.
Arguments FindSubscriptions {W U}.

(** *** [cluster_builder.go] *)
Section ClusterBuilder.
Context (awsConfig : option AWSCredentials) (gcpConfig : option GCPCredentials) (dp : DataplaneSettings).
Context (NewDataPlaneOpenShiftVersion : string) (generated_name : string).

Definition builder_validate (clusterRequest : ClusterRequest) : result error unit :=
  if (clusterRequest.(Req_CloudProvider) =?s AWS) && negb (bool_decide (is_Some awsConfig))
  then Err (EPlain "awsConfig is not defined")
  else if (clusterRequest.(Req_CloudProvider) =?s GCP) && negb (bool_decide (is_Some gcpConfig))
  then Err (EPlain "gcpConfig is not defined")
  else Ok tt.

(** The credentials of the provider's account; a nil configuration panics. *)
Definition setCloudProviderBuilder (cloudProviderID : string)
  : result error (option AWSCredentials * option GCPCredentials) :=
  if cloudProviderID =?s AWS then
    match awsConfig with
    | Some aws => Ok (Some aws, None)
    | None => Err (EPlain "runtime error: invalid memory address or nil pointer dereference")
    end
  else if cloudProviderID =?s GCP then
    match gcpConfig with
    | Some gcp => Ok (None, Some gcp)
    | None => Err (EPlain "runtime error: invalid memory address or nil pointer dereference")
    end
  else Ok (None, None).

Definition NewOCMClusterFromCluster (clusterRequest : ClusterRequest) : result error NewOcmCluster :=
  _ <-! builder_validate clusterRequest ;;
  let cloudProviderID := ParseCloudProviderID clusterRequest.(Req_CloudProvider) in
  creds <-! setCloudProviderBuilder cloudProviderID ;;
  computeMachineConfig <-! map_err (EWrap "cloud provider %q is not a recognized cloud provider")
                             (DefaultComputeMachinesConfig dp cloudProviderID) ;;
  let workload := computeMachineConfig.(ClusterWideWorkload) in
  Ok (mkNewOcmCluster generated_name clusterRequest.(Req_CloudProvider) clusterRequest.(Req_Region)
        clusterRequest.(Req_MultiAZ)
        (if NewDataPlaneOpenShiftVersion =?s "" then None else Some NewDataPlaneOpenShiftVersion)
        true true creds.1 creds.2 workload.(ComputeMachineType)
        workload.(ComputeNodesAutoscaling).(MinComputeNodes) workload.(ComputeNodesAutoscaling).(MaxComputeNodes)).
End ClusterBuilder.

(** *** [ocm_provider.go] *)
Section OCMProvider.
Context {W U : Type} (ocmClient : OcmClient W U) (ocmConfig : OCMConfig).
Context (buildCluster : ClusterRequest -> result error NewOcmCluster).
(** [DefaultUnstructuredConverter.FromUnstructured], into the type of the
    second argument. *)
Context (FromUnstructured : U -> resource -> option resource).

Definition OCM_Create (request : ClusterRequest) : M W error (option ClusterSpec) :=
  newCluster <~ lift (map_err (EWrap "failed to build OCM cluster") (buildCluster request)) ;;
  createdCluster <~ wrap_err (EWrap "failed to create OCM cluster") (ocmClient.(CreateCluster) newCluster) ;;
  ret (Some (mkClusterSpec createdCluster.(OC_ID) createdCluster.(OC_ExternalID) ClusterProvisioning request.(Req_MultiAZ)
               request.(Req_Region) request.(Req_CloudProvider) None "")).

Definition OCM_GetClusterSpec (clusterID : string) : M W error ClusterSpec :=
  cluster <~ wrap_err (EWrap "failed to get cluster %s") (ocmClient.(GetCluster) clusterID) ;;
  let status := if cluster.(OC_State) =?s ClusterStateReady then ClusterProvisioned
                else if cluster.(OC_State) =?s ClusterStateError then ClusterFailed
                else ClusterProvisioning in
  ret (mkClusterSpec clusterID cluster.(OC_ExternalID) status cluster.(OC_MultiAZ) cluster.(OC_Region)
         cluster.(OC_CloudProvider) None cluster.(OC_ProvisionErrorMessage)).

Definition OCM_CheckClusterStatus (spec : ClusterSpec) : M W error ClusterSpec := OCM_GetClusterSpec spec.(InternalID).

Definition OCM_Delete (spec : ClusterSpec) : M W error bool := fun w =>
  let '(code, err, w') := ocmClient.(DeleteCluster) spec.(InternalID) w in
  match err with
  | Some e => if negb (code =? StatusNotFound) then (Err (EWrap "failed to delete cluster %s" e), w') else (Ok (code =? StatusNotFound), w')
  | None => (Ok (code =? StatusNotFound), w')
  end.

Definition OCM_GetClusterDNS (clusterSpec : ClusterSpec) : M W error string :=
  wrap_err (EWrap "failed to get dns for cluster %s") (ocmClient.(Ocm_GetClusterDNS) clusterSpec.(InternalID)).

Definition buildIdentityProvider (idpInfo : OpenIDIdentityProviderInfo) : IdentityProvider :=
  mkIdentityProvider "" "OpenIDIdentityProvider" "claim" idpInfo.(IDP_Name)
    (mkOpenIDIdentityProviderInfo "" "" idpInfo.(IDP_ClientID) idpInfo.(IDP_ClientSecret) idpInfo.(IDP_Issuer)).

(** A provider of that name that already exists is used. *)
Definition addOpenIDIdentityProvider (clusterSpec : ClusterSpec) (openIdIdpInfo : OpenIDIdentityProviderInfo) : M W error string :=
  created <~ attempt (ocmClient.(CreateIdentityProvider) clusterSpec.(InternalID) (buildIdentityProvider openIdIdpInfo)) ;;
  match created with
  | Ok createdIdentityProvider => ret createdIdentityProvider.(IP_ID)
  | Err createErr =>
      if StrContains (error_text createErr) ipdAlreadyCreatedErrorToCheck then
        identityProvidersList <~ ocmClient.(GetIdentityProviderList) clusterSpec.(InternalID) ;;
        match List.find (fun ip => ip.(IP_Name) =?s openIdIdpInfo.(IDP_Name)) identityProvidersList with
        | Some identityProvider => ret identityProvider.(IP_ID)
        | None => throw createErr
        end
      else throw createErr
  end.

Definition OCM_AddIdentityProvider (clusterSpec : ClusterSpec) (info : IdentityProviderInfo) : M W error (option IdentityProviderInfo) :=
  match info.(OpenID) with
  | None => ret None
  | Some openID =>
      idpId <~ wrap_err (EWrap "failed to add identity provider for cluster %s") (addOpenIDIdentityProvider clusterSpec openID) ;;
      ret (Some (mkIdentityProviderInfo (Some (mkOpenIDIdentityProviderInfo idpId openID.(IDP_Name) openID.(IDP_ClientID)
                                                 openID.(IDP_ClientSecret) openID.(IDP_Issuer)))))
  end.

Definition OCM_RemoveResources (clusterSpec : ClusterSpec) (syncSetName : string) : M W error unit := fun w =>
  let '(status, err, w') := ocmClient.(DeleteSyncSet) clusterSpec.(InternalID) syncSetName w in
  match err with
  | Some e => if status =? StatusNotFound then (Ok tt, w') else (Err e, w')
  | None =>
      if negb (status =? StatusNoContent) then (Err (EPlain "unexpected response code when deleting sync set: %v"), w')
      else (Ok tt, w')
  end.

(** Position by position, the existing objects are converted to the type of the
    new ones and compared. *)
Fixpoint resources_differ (existing : list U) (new : list resource) : bool :=
  match existing, new with
  | u :: existing', r :: new' =>
      match FromUnstructured u r with
      | None => true
      | Some obj => if bool_decide (obj = r) then resources_differ existing' new' else true
      end
  | _, _ => false
  end.

Definition syncsetResourcesChanged (existing : list U) (new : list resource) : bool :=
  if negb (length existing =? length new)%nat then true else resources_differ existing new.

Definition createSyncSet (clusterID : string) (resourceSet : ResourceSet) : M W error unit :=
  ocmClient.(CreateSyncSet) clusterID resourceSet.(RS_Name) resourceSet.(RS_Resources).

Definition updateSyncSet (clusterID : string) (resourceSet : ResourceSet) (existingSyncset : list U) : M W error unit :=
  if syncsetResourcesChanged existingSyncset resourceSet.(RS_Resources)
  then ocmClient.(UpdateSyncSet) clusterID resourceSet.(RS_Name) resourceSet.(RS_Resources)
  else ret tt.

Definition OCM_ApplyResources (clusterSpec : ClusterSpec) (resources : ResourceSet) : M W error ResourceSet :=
  existing <~ attempt (ocmClient.(GetSyncSet) clusterSpec.(InternalID) resources.(RS_Name)) ;;
  match existing with
  | Err err =>
      if negb (Is404 (ToServiceError err)) then throw err
      else
        _ <~ wrap_err (EWrap "failed to create syncset for cluster %s") (createSyncSet clusterSpec.(InternalID) resources) ;;
        ret resources
  | Ok existingSyncset =>
      _ <~ wrap_err (EWrap "failed to update syncset for cluster %s") (updateSyncSet clusterSpec.(InternalID) resources existingSyncset) ;;
      ret resources
  end.

(** The getters of a nil installation return empty strings. *)
Definition addon_id (a : option AddOnInstallation) : string := match a with Some x => x.(AOI_ID) | None => "" end.
Definition addon_state (a : option AddOnInstallation) : string := match a with Some x => x.(AOI_State) | None => "" end.

Definition installAddon (clusterSpec : ClusterSpec) (addonID : string) : M W error bool :=
  addonInstallation <~ wrap_err (EWrap "failed to get addon %s for cluster %s") (ocmClient.(GetAddon) clusterSpec.(InternalID) addonID) ;;
  addonInstallation <~ (if addon_id addonInstallation =?s ""
                        then wrap_err (EWrap "failed to create addon %s for cluster %s") (ocmClient.(CreateAddon) clusterSpec.(InternalID) addonID)
                        else ret addonInstallation) ;;
  ret (addon_state addonInstallation =?s AddOnInstallationStateReady).

Definition installAddonWithParams (clusterSpec : ClusterSpec) (addonId : string) (params : list AddonParameter) : M W error bool :=
  addonInstallation <~ wrap_err (EWrap "failed to get addon %s for cluster %s") (ocmClient.(GetAddon) clusterSpec.(InternalID) addonId) ;;
  addonInstallation <~ (if bool_decide (is_Some addonInstallation) && (addon_id addonInstallation =?s "")
                        then wrap_err (EWrap "failed to create addon %s for cluster %s")
                               (ocmClient.(CreateAddonWithParams) clusterSpec.(InternalID) addonId params)
                        else ret addonInstallation) ;;
  if bool_decide (is_Some addonInstallation) && (addon_state addonInstallation =?s AddOnInstallationStateReady) then
    _ <~ wrap_err (EWrap "failed to update parameters for addon %s on cluster %s")
           (ocmClient.(UpdateAddonParameters) clusterSpec.(InternalID) (addon_id addonInstallation) params) ;;
    ret true
  else ret false.

Definition OCM_InstallStrimzi (clusterSpec : ClusterSpec) : M W error bool :=
  installAddon clusterSpec ocmConfig.(StrimziOperatorAddonID).
Definition OCM_InstallClusterLogging (clusterSpec : ClusterSpec) (params : list AddonParameter) : M W error bool :=
  installAddonWithParams clusterSpec ocmConfig.(ClusterLoggingOperatorAddonID) params.
Definition OCM_InstallKasFleetshard (clusterSpec : ClusterSpec) (params : list AddonParameter) : M W error bool :=
  installAddonWithParams clusterSpec ocmConfig.(KasFleetshardAddonID) params.

Definition OCM_GetMachinePool (clusterID id : string) : M W error (option MachinePoolInfo) :=
  ocmMachinePool <~ ocmClient.(Ocm_GetMachinePool) clusterID id ;;
  match ocmMachinePool with
  | None => ret None
  | Some mp =>
      ret (Some (mkMachinePoolInfo mp.(OMP_ID) mp.(OMP_InstanceType) (1 <? Z.of_nat (length mp.(OMP_AvailabilityZones)))
                   (bool_decide (is_Some mp.(OMP_Autoscaling)))
                   (default (mkMachinePoolAutoScaling 0 0) mp.(OMP_Autoscaling)) mp.(OMP_Labels) mp.(OMP_Taints)))
  end.

(** The bounds that are asked from OCM. *)
Definition pool_bounds (request : MachinePoolRequest) : MachinePoolAutoScaling :=
  let a := request.(MPR_AutoScaling) in
  if request.(MPR_MultiAZ)
  then mkMachinePoolAutoScaling (RoundUp a.(MinNodes) ocmMultiAZClusterNodeScalingMultiple)
         (RoundUp a.(MaxNodes_) ocmMultiAZClusterNodeScalingMultiple)
  else a.

Definition build_machine_pool (request : MachinePoolRequest) : result error OcmMachinePool :=
  let bounds := pool_bounds request in
  if request.(MPR_AutoScalingEnabled) && (bounds.(MaxNodes_) <? bounds.(MinNodes))
  then Err (EPlain "error creating MachinePool '%s' for cluster id '%s': minimum number of nodes cannot be more than maximum number of nodes")
  else Ok (mkOcmMachinePool request.(MPR_ID) request.(MPR_InstanceSize) []
             (if request.(MPR_AutoScalingEnabled) then Some bounds else None) request.(MPR_NodeLabels) request.(MPR_NodeTaints)).

Definition OCM_CreateMachinePool (request : MachinePoolRequest) : M W error (option MachinePoolRequest) :=
  machinePool <~ lift (build_machine_pool request) ;;
  _ <~ ocmClient.(Ocm_CreateMachinePool) request.(MPR_ClusterID) machinePool ;;
  ret (Some request).

(** The filters of the quota query: resource name, resource type, product. *)
Definition quota_filters : list (option string * option string * option string) :=
  [ (Some ("addon-" +:+ ocmConfig.(StrimziOperatorAddonID)), None, None);
    (Some ("addon-" +:+ ocmConfig.(KasFleetshardAddonID)), None, None);
    (None, Some "compute.node", Some "OSD"); (None, Some "cluster", Some "OSD") ].

Definition OCM_GetClusterResourceQuotaCosts : M W error (list QuotaCost) :=
  orgID <~ ocmClient.(GetCurrentOrganization) ;;
  match orgID with
  | None => throw (EPlain "failed to get quota cost: organisation id for the current authenticated user can't be found")
  | Some orgID => ocmClient.(GetQuotaCosts) orgID quota_filters
  end.

(** The attributes of the items are copied one by one. *)
Definition OCM_GetCloudProviders : M W error (list CloudProviderInfo) :=
  wrap_err (EWrap "failed to get cloud providers from OCM") ocmClient.(Ocm_GetCloudProviders).

(** The builder of the library's provider object does not fail on three
    strings. *)
Definition OCM_GetCloudProviderRegions (providerInfo : CloudProviderInfo) : M W error (list CloudProviderRegionInfo) :=
  wrap_err (EWrap "failed to get regions for provider %s") (ocmClient.(Ocm_GetRegions) providerInfo).

(** An empty identifier without an error has a nil cause. *)
Definition OCM_CheckIfOrganizationIsTheClusterOwner (externalOrganizationID clusterID clusterExternalID : string) : M W error unit :=
  org <~ attempt (ocmClient.(GetOrganisationIdFromExternalId) externalOrganizationID) ;;
  match org with
  | Err err => throw (EService (NewWithCause ErrorGeneral (Some err) "failed to retrieve organization details"))
  | Ok organizationID =>
      if StringEmpty organizationID then throw (EService (NewWithCause ErrorGeneral None "failed to retrieve organization details"))
      else
        let query := "cluster_id = '" +:+ clusterID +:+ "' AND external_cluster_id = '" +:+ clusterExternalID +:+
                     "' AND organization_id = '" +:+ organizationID +:+ "'" in
        subcriptions <~ wrap_err (fun err => EService (NewWithCause ErrorGeneral (Some err)
                                    "failed to validate if the organization with id %q owns the cluster with id %q"))
                          (ocmClient.(FindSubscriptions) query) ;;
        if IsEmpty subcriptions then throw (EService (Forbidden "organization with id %q does not own the cluster with id %q"))
        else ret tt
  end.

Definition OCMProvider : ClusterProvider W :=
  mkClusterProvider OCM_Create OCM_CheckClusterStatus OCM_Delete OCM_GetClusterDNS OCM_AddIdentityProvider OCM_ApplyResources
    OCM_RemoveResources OCM_InstallStrimzi OCM_InstallClusterLogging OCM_InstallKasFleetshard OCM_GetMachinePool
    OCM_CreateMachinePool OCM_GetClusterResourceQuotaCosts OCM_GetClusterSpec OCM_GetCloudProviders OCM_GetCloudProviderRegions
    OCM_CheckIfOrganizationIsTheClusterOwner.
End OCMProvider.

(** ** Standalone clusters *)
Definition lastAppliedConfigurationAnnotation : string := "kas-fleet-manager/last-applied-resource-configuration".

Record KubeObject := mkKubeObject {
  annotations : option (gmap string string);
  ResourceVersion : string
}.

(** The dynamic client of a cluster, by the context of its kubeconfig: opening
    it, the REST mapping of a kind, and the three requests.  The last two
    arguments of the writes are the annotation and the resource version. *)
Record KubeClient (W : Type) := mkKubeClient {
  Kube_Connect : string -> M W error unit;
  Kube_RESTMapping : string -> resource -> M W error unit;
  Kube_Get : string -> resource -> M W error (option KubeObject);
  Kube_Create : string -> resource -> string -> M W error unit;
  Kube_Update : string -> resource -> string -> string -> M W error unit
}.
Arguments Kube_Connect {W}.
Arguments Kube_RESTMapping {W}.
Arguments Kube_Get {W}.
Arguments Kube_Create {W}.
Arguments Kube_Update {W}.

Definition shouldApplyChanges (existingObj : option KubeObject) (newConfiguration : string) : bool :=
  match existingObj with
  | None => true
  | Some obj =>
      match obj.(annotations) with
      | None => true
      | Some originalAnnotations =>
          match originalAnnotations !! lastAppliedConfigurationAnnotation with
          | None => true
          | Some lastApplied => negb (newConfiguration =?s lastApplied)
          end
      end
  end.

Section StandaloneProvider.
Context {W : Type} `{Database W} (kube : KubeClient W) (dp : DataplaneSettings) (conf : ClusterConfig).
(** [json.Marshal]. *)
Context (marshal : resource -> result error string).

Definition FindClusterNameByClusterId (clusterId : string) : string :=
  match List.find (fun c => c.(MC_ClusterId) =?s clusterId) conf.(clusterList) with
  | Some cluster => cluster.(MC_Name)
  | None => ""
  end.

Definition applyChangesFn (context : string) (desired : resource) (newConfiguration : string) (existingObj : option KubeObject) : M W error unit :=
  match existingObj with
  | None => kube.(Kube_Create) context desired newConfiguration
  | Some obj => kube.(Kube_Update) context desired newConfiguration obj.(ResourceVersion)
  end.

Definition applyResource (context : string) (r : resource) : M W error unit :=
  newConfiguration <~ lift (marshal r) ;;
  _ <~ kube.(Kube_RESTMapping) context r ;;
  found <~ attempt (kube.(Kube_Get) context r) ;;
  let existingObj := match found with Ok o => o | Err _ => None end in
  if negb (shouldApplyChanges existingObj newConfiguration) then ret tt
  else applyChangesFn context r newConfiguration existingObj.

Definition Standalone_ApplyResources (clusterSpec : ClusterSpec) (resources : ResourceSet) : M W error ResourceSet :=
  if negb dp.(HasKubernetesConfig) then ret resources
  else
    let contextName := FindClusterNameByClusterId clusterSpec.(InternalID) in
    _ <~ kube.(Kube_Connect) contextName ;;
    _ <~ for_each (applyResource contextName) resources.(RS_Resources) ;;
    ret resources.

Definition Standalone_InstallStrimzi (clusterSpec : ClusterSpec) : M W error bool :=
  _ <~ Standalone_ApplyResources clusterSpec (strimzi_resources dp) ;; ret true.

Definition Standalone_InstallKasFleetshard (clusterSpec : ClusterSpec) (params : list AddonParameter) : M W error bool :=
  _ <~ Standalone_ApplyResources clusterSpec (kas_fleetshard_resources dp params) ;; ret true.

Definition buildOpenIDPClientSecret (info : OpenIDIdentityProviderInfo) : resource :=
  Secret kafkaSREOpenIDPSecretName "openshift-config" SecretTypeOpaque {[ "clientSecret" := info.(IDP_ClientSecret) ]} ∅.

Definition buildIdentityProviderResource (info : OpenIDIdentityProviderInfo) : resource :=
  OAuth info.(IDP_Name) info.(IDP_ClientID) info.(IDP_Issuer) kafkaSREOpenIDPSecretName.

(** The information comes back as it was given, without an identifier; a nil
    [OpenID] is dereferenced. *)
Definition Standalone_AddIdentityProvider (clusterSpec : ClusterSpec) (info : IdentityProviderInfo) : M W error (option IdentityProviderInfo) :=
  match info.(OpenID) with
  | None => throw (EPlain "runtime error: invalid memory address or nil pointer dereference")
  | Some openID =>
      _ <~ Standalone_ApplyResources clusterSpec
             (mkResourceSet "" [buildOpenIDPClientSecret openID; buildIdentityProviderResource openID]) ;;
      ret (Some info)
  end.

Definition Standalone_CheckClusterStatus (spec : ClusterSpec) : M W error ClusterSpec :=
  ret (mkClusterSpec spec.(InternalID) spec.(Spec_ExternalID) ClusterProvisioned spec.(Spec_MultiAZ) spec.(Spec_Region)
         spec.(Spec_CloudProvider) spec.(AdditionalInfo) spec.(Spec_StatusDetails)).

Definition Standalone_GetMachinePool (clusterID id : string) : M W error (option MachinePoolInfo) :=
  ret (Some (mkMachinePoolInfo id "" false false (mkMachinePoolAutoScaling 0 0) ∅ [])).

(** The clusters of this kind that are not being removed.  The local type of the
    query has no deletion column, so rows that were soft-deleted are read too;
    those are in [cleanup]. *)
Definition standalone_rows (p : Cluster -> bool) : M W error (list Cluster) :=
  exec (SelectClusters (fun c => p c && (c.(CL.ProviderType) =?s ClusterProviderStandalone) &&
                                 negb (Contains ClusterDeletionStatuses c.(CL.Status)))).

Definition Standalone_GetCloudProviders : M W error (list CloudProviderInfo) :=
  results <~ standalone_rows (fun _ => true) ;;
  ret (map (fun g => mkCloudProviderInfo g.1 g.1 g.1) (group_by CL.CloudProvider results)).

Definition Standalone_GetCloudProviderRegions (providerInf : CloudProviderInfo) : M W error (list CloudProviderRegionInfo) :=
  results <~ standalone_rows (fun c => c.(CL.CloudProvider) =?s providerInf.(CPI_ID)) ;;
  ret (map (fun '((region, multiAZ), _) => mkCloudProviderRegionInfo region providerInf.(CPI_ID) region region multiAZ)
         (group_by (fun c => (c.(CL.Region), c.(CL.MultiAZ))) results)).

(** The methods that the provider does not implement are constant. *)
Definition StandaloneProvider : ClusterProvider W :=
  mkClusterProvider (fun _ => ret None) Standalone_CheckClusterStatus (fun _ => ret true) (fun _ => ret "")
    Standalone_AddIdentityProvider Standalone_ApplyResources (fun _ _ => ret tt) Standalone_InstallStrimzi
    (fun _ _ => ret true) Standalone_InstallKasFleetshard Standalone_GetMachinePool (fun _ => ret None) (ret [])
    (fun _ => ret (mkClusterSpec "" "" "" false "" "" None "")) Standalone_GetCloudProviders Standalone_GetCloudProviderRegions
    (fun _ _ _ => ret tt).
End StandaloneProvider.

(** ** What providers promise *)

(** The statuses that [CheckClusterStatus] may give to a cluster. *)
Definition provider_statuses : list string := [ClusterProvisioning; ClusterProvisioned; ClusterFailed].

(** Providers talk to other systems: they leave the tables alone, and give a
    cluster that is being created one of the statuses above. *)
Class ProviderLaws {W : Type} `{Database W} (p : ClusterProvider W) : Prop := {
  create_ro : forall r, read_only (p.(Provider_Create) r);
  create_status : forall r w spec w', p.(Provider_Create) r w = (Ok (Some spec), w') -> spec.(Spec_Status) ∈ provider_statuses;
  check_ro : forall s, read_only (p.(Provider_CheckClusterStatus) s);
  check_status : forall s w spec w', p.(Provider_CheckClusterStatus) s w = (Ok spec, w') -> spec.(Spec_Status) ∈ provider_statuses;
  delete_ro : forall s, read_only (p.(Provider_Delete) s);
  dns_ro : forall s, read_only (p.(Provider_GetClusterDNS) s);
  idp_ro : forall s i, read_only (p.(Provider_AddIdentityProvider) s i);
  apply_ro : forall s r, read_only (p.(Provider_ApplyResources) s r);
  remove_ro : forall s n, read_only (p.(Provider_RemoveResources) s n);
  strimzi_ro : forall s, read_only (p.(Provider_InstallStrimzi) s);
  logging_ro : forall s ps, read_only (p.(Provider_InstallClusterLogging) s ps);
  fleetshard_ro : forall s ps, read_only (p.(Provider_InstallKasFleetshard) s ps);
  get_pool_ro : forall c i, read_only (p.(Provider_GetMachinePool) c i);
  create_pool_ro : forall r, read_only (p.(Provider_CreateMachinePool) r);
  quota_ro : read_only p.(Provider_GetClusterResourceQuotaCosts);
  get_spec_ro : forall c, read_only (p.(Provider_GetClusterSpec) c);
  cloud_providers_ro : read_only p.(Provider_GetCloudProviders);
  cloud_regions_ro : forall i, read_only (p.(Provider_GetCloudProviderRegions) i);
  owner_check_ro : forall o c e, read_only (p.(Provider_CheckIfOrganizationIsTheClusterOwner) o c e)
}.

(** The OCM service does not reach into the fleet manager's database. *)
Class OcmClientLaws {W U : Type} `{Database W} (c : OcmClient W U) : Prop := {
  ocm_create_ro : forall x, read_only (c.(CreateCluster) x);
  ocm_get_ro : forall x, read_only (c.(GetCluster) x);
  ocm_delete_ro : forall x w, tables_of (snd (c.(DeleteCluster) x w)) = tables_of w;
  ocm_dns_ro : forall x, read_only (c.(Ocm_GetClusterDNS) x);
  ocm_create_idp_ro : forall x y, read_only (c.(CreateIdentityProvider) x y);
  ocm_list_idp_ro : forall x, read_only (c.(GetIdentityProviderList) x);
  ocm_delete_syncset_ro : forall x y w, tables_of (snd (c.(DeleteSyncSet) x y w)) = tables_of w;
  ocm_get_syncset_ro : forall x y, read_only (c.(GetSyncSet) x y);
  ocm_create_syncset_ro : forall x y z, read_only (c.(CreateSyncSet) x y z);
  ocm_update_syncset_ro : forall x y z, read_only (c.(UpdateSyncSet) x y z);
  ocm_get_addon_ro : forall x y, read_only (c.(GetAddon) x y);
  ocm_create_addon_ro : forall x y, read_only (c.(CreateAddon) x y);
  ocm_create_addon_params_ro : forall x y z, read_only (c.(CreateAddonWithParams) x y z);
  ocm_update_addon_ro : forall x y z, read_only (c.(UpdateAddonParameters) x y z);
  ocm_get_pool_ro : forall x y, read_only (c.(Ocm_GetMachinePool) x y);
  ocm_create_pool_ro : forall x y, read_only (c.(Ocm_CreateMachinePool) x y);
  ocm_org_ro : read_only c.(GetCurrentOrganization);
  ocm_quota_ro : forall x y, read_only (c.(GetQuotaCosts) x y);
  ocm_providers_ro : read_only c.(Ocm_GetCloudProviders);
  ocm_regions_ro : forall x, read_only (c.(Ocm_GetRegions) x);
  ocm_organisation_ro : forall x, read_only (c.(GetOrganisationIdFromExternalId) x);
  ocm_subscriptions_ro : forall x, read_only (c.(FindSubscriptions) x)
}.
#[export] Hint Resolve ocm_create_ro ocm_get_ro ocm_dns_ro ocm_create_idp_ro ocm_list_idp_ro ocm_get_syncset_ro ocm_create_syncset_ro
  ocm_update_syncset_ro ocm_get_addon_ro ocm_create_addon_ro ocm_create_addon_params_ro ocm_update_addon_ro ocm_get_pool_ro
  ocm_create_pool_ro ocm_org_ro ocm_quota_ro ocm_providers_ro ocm_regions_ro ocm_organisation_ro ocm_subscriptions_ro : fleet.

Class KubeClientLaws {W : Type} `{Database W} (k : KubeClient W) : Prop := {
  kube_connect_ro : forall x, read_only (k.(Kube_Connect) x);
  kube_mapping_ro : forall x y, read_only (k.(Kube_RESTMapping) x y);
  kube_get_ro : forall x y, read_only (k.(Kube_Get) x y);
  kube_create_ro : forall x y z, read_only (k.(Kube_Create) x y z);
  kube_update_ro : forall x y z v, read_only (k.(Kube_Update) x y z v)
}.
#[export] Hint Resolve kube_connect_ro kube_mapping_ro kube_get_ro kube_create_ro kube_update_ro : fleet.

Section OCMLaws.
Context {W U : Type} `{Database W} (c : OcmClient W U) `{!OcmClientLaws c} (cfg : OCMConfig).
Context (build : ClusterRequest -> result error NewOcmCluster) (conv : U -> resource -> option resource).

#[export] Instance OCMProvider_laws : ProviderLaws (OCMProvider c cfg build conv).
Proof.
  split; simpl.
  - intros r. unfold OCM_Create. solve_read_only.
  - intros r w spec w' Hr. unfold OCM_Create in Hr. repeat run_ok Hr. by left.
  - intros s. unfold OCM_CheckClusterStatus, OCM_GetClusterSpec. solve_read_only.
  - intros s w spec w' Hr. unfold OCM_CheckClusterStatus, OCM_GetClusterSpec in Hr. repeat run_ok Hr. simpl.
    unfold provider_statuses. destruct (_ =?s ClusterStateReady); [|destruct (_ =?s ClusterStateError)]; set_solver.
  - intros s w. unfold OCM_Delete. pose proof (ocm_delete_ro s.(InternalID) w) as Ht.
    destruct (DeleteCluster c _ w) as [[code [e|]] w']; simpl in *; [|done]. by destruct (negb _).
  - intros s. unfold OCM_GetClusterDNS. solve_read_only.
  - intros s i. unfold OCM_AddIdentityProvider, addOpenIDIdentityProvider. solve_read_only.
  - intros s r. unfold OCM_ApplyResources, createSyncSet, updateSyncSet. solve_read_only.
  - intros s n w. unfold OCM_RemoveResources. pose proof (ocm_delete_syncset_ro s.(InternalID) n w) as Ht.
    destruct (DeleteSyncSet c _ n w) as [[code [e|]] w']; simpl in *; [by destruct (code =? _)|by destruct (negb _)].
  - intros s. unfold OCM_InstallStrimzi, installAddon. solve_read_only.
  - intros s ps. unfold OCM_InstallClusterLogging, installAddonWithParams. solve_read_only.
  - intros s ps. unfold OCM_InstallKasFleetshard, installAddonWithParams. solve_read_only.
  - intros x i. unfold OCM_GetMachinePool. solve_read_only.
  - intros r. unfold OCM_CreateMachinePool. solve_read_only.
  - unfold OCM_GetClusterResourceQuotaCosts. solve_read_only.
  - intros x. unfold OCM_GetClusterSpec. solve_read_only.
  - unfold OCM_GetCloudProviders. solve_read_only.
  - intros i. unfold OCM_GetCloudProviderRegions. solve_read_only.
  - intros o x e. unfold OCM_CheckIfOrganizationIsTheClusterOwner. solve_read_only.
Qed.
End OCMLaws.

Section StandaloneLaws.
Context {W : Type} `{Database W} (k : KubeClient W) `{!KubeClientLaws k} (dp : DataplaneSettings) (conf : ClusterConfig).
Context (marshal : resource -> result error string).

Lemma standalone_apply_ro s r : read_only (Standalone_ApplyResources k dp conf marshal s r).
Proof. unfold Standalone_ApplyResources, applyResource, applyChangesFn. solve_read_only. Qed.
#[local] Hint Resolve standalone_apply_ro : fleet.

#[export] Instance StandaloneProvider_laws : ProviderLaws (StandaloneProvider k dp conf marshal).
Proof.
  split; simpl; try (intros; by apply ret_read_only); try done.
  - intros s w spec w' Hr. unfold Standalone_CheckClusterStatus in Hr. run_ok Hr. right. by left.
  - intros s i. unfold Standalone_AddIdentityProvider. solve_read_only.
  - intros. apply standalone_apply_ro.
  - intros s. unfold Standalone_InstallStrimzi. solve_read_only.
  - intros s ps. unfold Standalone_InstallKasFleetshard. solve_read_only.
  - unfold Standalone_GetCloudProviders, standalone_rows. solve_read_only.
  - intros i. unfold Standalone_GetCloudProviderRegions, standalone_rows. solve_read_only.
Qed.
End StandaloneLaws.

(** The factory of the service: the two providers, whatever the type. *)
Lemma factory_laws {W} `{Database W} (ocm standalone : ClusterProvider W) t p :
  ProviderLaws ocm -> ProviderLaws standalone -> DefaultProviderFactory_GetProvider ocm standalone t = Ok p -> ProviderLaws p.
Proof.
  intros Ho Hs. unfold DefaultProviderFactory_GetProvider. set (t' := if t =?s "" then _ else t).
  destruct (t' =?s ClusterProviderStandalone); [by intros [= <-]|]. destruct (t' =?s ClusterProviderOCM); [by intros [= <-]|done].
Qed.

(** ** Properties *)

(** Machine pools: for a cluster in several zones OCM is asked for bounds
    that are multiples of three, each the least one that is not below what was
    requested; a request whose bounds are in order is never refused, and the
    bounds that are sent are in order. *)
Theorem machine_pool_bounds request :
  request.(MPR_AutoScalingEnabled) = true ->
  0 <= request.(MPR_AutoScaling).(MinNodes) <= request.(MPR_AutoScaling).(MaxNodes_) ->
  exists pool b, build_machine_pool request = Ok pool /\ pool.(OMP_Autoscaling) = Some b /\ b.(MinNodes) <= b.(MaxNodes_) /\
    request.(MPR_AutoScaling).(MinNodes) <= b.(MinNodes) < request.(MPR_AutoScaling).(MinNodes) + 3 /\
    request.(MPR_AutoScaling).(MaxNodes_) <= b.(MaxNodes_) < request.(MPR_AutoScaling).(MaxNodes_) + 3 /\
    (request.(MPR_MultiAZ) = true -> (3 | b.(MinNodes)) /\ (3 | b.(MaxNodes_))).
Proof.
  intros Hauto [Hmin Hmax].
  destruct (RoundUp_spec (MinNodes (MPR_AutoScaling request)) 3 Hmin ltac:(lia)) as [Hdmin Hbmin].
  destruct (RoundUp_spec (MaxNodes_ (MPR_AutoScaling request)) 3 ltac:(lia) ltac:(lia)) as [Hdmax Hbmax].
  pose proof (RoundUp_mono _ _ 3 Hmin Hmax ltac:(lia)) as Hmono.
  assert (MinNodes (pool_bounds request) <= MaxNodes_ (pool_bounds request)) as Hord.
  { unfold pool_bounds, ocmMultiAZClusterNodeScalingMultiple. destruct (MPR_MultiAZ request); simpl; lia. }
  unfold build_machine_pool. rewrite Hauto. destruct (Z.ltb_spec (MaxNodes_ (pool_bounds request)) (MinNodes (pool_bounds request))); [lia|].
  eexists _, _. split; [reflexivity|]. split; [reflexivity|]. split; [done|].
  unfold pool_bounds, ocmMultiAZClusterNodeScalingMultiple. destruct (MPR_MultiAZ request); simpl; split_and!; auto with lia; try done; lia.
Qed.

Lemma machine_pool_bounds_witness :
  let request := mkMachinePoolRequest "kafka-standard" "m5.2xlarge" true true (mkMachinePoolAutoScaling 1 5) "c1" ∅ [] in
  exists pool b, build_machine_pool request = Ok pool /\ pool.(OMP_Autoscaling) = Some b /\ b.(MinNodes) <= b.(MaxNodes_) /\
    1 <= b.(MinNodes) < 1 + 3 /\ 5 <= b.(MaxNodes_) < 5 + 3 /\ (true = true -> (3 | b.(MinNodes)) /\ (3 | b.(MaxNodes_))).
Proof.
  apply (machine_pool_bounds (mkMachinePoolRequest "kafka-standard" "m5.2xlarge" true true (mkMachinePoolAutoScaling 1 5) "c1" ∅ []));
    [reflexivity|simpl; lia].
Defined.

(** A sync set is left alone exactly when it already holds the resources:
    the comparison finds no change if and only if every existing object
    converts, in order, to the object that would replace it. *)
Theorem syncset_unchanged_iff {U} (conv : U -> resource -> option resource) existing new :
  syncsetResourcesChanged conv existing new = false <-> Forall2 (fun u r => conv u r = Some r) existing new.
Proof.
  unfold syncsetResourcesChanged. destruct (Nat.eqb_spec (length existing) (length new)) as [Hlen|Hlen]; simpl.
  - revert new Hlen. induction existing as [|u existing IH]; intros [|r new] Hlen; simplify_eq/=; [split; [constructor|done]|].
    destruct (conv u r) as [obj|] eqn:Hc.
    + case_bool_decide as Heq.
      * subst. rewrite IH by done. split; [by constructor|]. by inversion 1.
      * split; [done|]. inversion 1. congruence.
    + split; [done|]. inversion 1. congruence.
  - split; [done|]. intros H%Forall2_length. done.
Qed.
