(* ===== verification/Fixtures.v ===== *)
(** * A small deployment

    The concrete configuration, clusters and Kafkas on which the witnesses of
    the other files run: the sizes of
    [src/config/kafka-instance-types-configuration.yaml] that matter, one
    region, two managed clusters and one enterprise cluster. *)
From S2P Require Import Prelude Arrays Errors Status Config Model Store.

Module Fixtures.
Definition size (id : string) (capacity : Z) (lifespan : option Z) : KafkaInstanceSize :=
  mkKafkaInstanceSize id id "30Mi" "30Mi" 1000 "100Gi" 1000 "P14D" 100 "1Mi" capacity "rhosak" capacity
    (Some ["multi"]) 2 3 lifespan "stable".

Definition standard_model : KafkaBillingModel := mkKafkaBillingModel "standard" "rhosak" "RHOSAK" ["standard"] 0.
Definition enterprise_model : KafkaBillingModel := mkKafkaBillingModel "enterprise" "rhosak" "RHOSAKCC" ["standard"] 14.

Definition instance_types : SupportedKafkaInstanceTypesConfig :=
  mkSupportedKafkaInstanceTypesConfig
    [ mkKafkaInstanceType STANDARD "Standard" [size "x1" 1 None; size "x2" 2 None] [standard_model; enterprise_model];
      mkKafkaInstanceType DEVELOPER "Trial" [size "x1" 1 (Some 172800)] [standard_model] ].

Definition kafka_config : KafkaConfig :=
  mkKafkaConfig true "kafka.example.org" "" (mkKafkaQuotaConfig "quota-management-list" true 1) instance_types false [].

Definition capacity (max : Z) : JSONCol (gmap string DynamicCapacityInfo) :=
  JDoc (<[ DEVELOPER := mkDynamicCapacityInfo 3 max max ]> {[ STANDARD := mkDynamicCapacityInfo 3 max max ]}).

Definition cluster (id : string) (created max : Z) (type org : string) : Cluster :=
  CL.mkCluster ("row-" +:+ id) created created "aws" id ("ext-" +:+ id) true "us-east-1" ClusterReady "" "" "apps.example.org"
    "" "" ClusterProviderOCM None None
    (JDoc [mkStrimziVersion "strimzi-0.23.0-1" true [mkKafkaVersion "2.8.1"] [mkKafkaIBPVersion "2.8"]])
    AllInstanceTypeSupport (capacity max) type org false.

Definition c1 : Cluster := cluster "c1" 10 2 ManagedDataPlaneClusterType "".
Definition c2 : Cluster := cluster "c2" 20 5 ManagedDataPlaneClusterType "".
Definition c3 : Cluster := cluster "c3" 30 2 EnterpriseDataPlaneClusterType "org-1".

Definition kafka (id clusterId status instanceType sizeId : string) : KafkaRequest :=
  zero <| KR.ID := id |> <| KR.CreatedAt := 100 |> <| KR.Region := "us-east-1" |> <| KR.ClusterID := clusterId |>
       <| KR.CloudProvider := "aws" |> <| KR.MultiAZ := true |> <| KR.Name := id |> <| KR.Status := status |>
       <| KR.Owner := "alice" |> <| KR.OrganisationId := "org-1" |>
       <| KR.InstanceType := instanceType |> <| KR.SizeId := sizeId |>
       <| KR.ActualKafkaBillingModel := "standard" |> <| KR.DesiredKafkaBillingModel := "standard" |>.

Definition k1 : KafkaRequest := kafka "k1" "c1" KafkaRequestStatusReady STANDARD "x2".
Definition k2 : KafkaRequest := kafka "k2" "c1" KafkaRequestStatusDeleting STANDARD "x1".
Definition k3 : KafkaRequest := kafka "k3" "" KafkaRequestStatusAccepted STANDARD "x1".
Definition k4 : KafkaRequest :=
  (kafka "k4" "c3" KafkaRequestStatusAccepted STANDARD "x2") <| KR.DesiredKafkaBillingModel := "enterprise" |>.

Definition manual_cluster (id : string) (limit : Z) : ManualCluster :=
  mkManualCluster id id "aws" "us-east-1" true true limit ClusterReady ClusterProviderOCM "" AllInstanceTypeSupport.

Definition dp_config (scaling : string) : DataplaneClusterConfig :=
  mkDataplaneClusterConfig scaling (NewClusterConfig [manual_cluster "c1" 2; manual_cluster "c2" 5]) true true
    [(STANDARD, mkInstanceTypeNodePrewarmingConfig "x1" 1)].

Definition provider_config (limit : option Z) : ProviderConfig :=
  mkProviderConfig [mkProvider "aws" true
    [mkRegion "us-east-1" true [(STANDARD, mkInstanceTypeConfig limit 1); (DEVELOPER, mkInstanceTypeConfig limit 0)]]].

Definition db : tables := mkTables [k1; k2; k3] [c1; c2; c3].

(** The world: the tables at time 1000, no failing statement. *)
Definition world : MemDB.world unit := MemDB.mkWorld db 1000 [] tt.
End Fixtures.

(** The configuration of the deployment passes validation, with parsers that
    accept its quantities and periods. *)
Lemma validated_config_lookup_witness :
  config_validate (fun _ => Ok 1) (fun _ => Ok false) (fun _ => Ok tt) Fixtures.kafka_config.(SupportedInstanceTypes) = Ok tt /\
  GetKafkaInstanceSize Fixtures.kafka_config STANDARD "x2" = Ok (Fixtures.size "x2" 2 None).
Proof.
  split; [vm_compute; reflexivity|].
  refine (proj1 (validated_config_lookup (fun _ => Ok 1) (fun _ => Ok false) (fun _ => Ok tt) Fixtures.kafka_config
    (mkKafkaInstanceType STANDARD "Standard" [Fixtures.size "x1" 1 None; Fixtures.size "x2" 2 None]
       [Fixtures.standard_model; Fixtures.enterprise_model]) (Fixtures.size "x2" 2 None) _ _ _));
    [vm_compute; reflexivity | by left | right; by left].
Defined.
