(* ===== verification/ClusterService.v ===== *)
(** * The cluster service

    [src/internal/kafka/internal/services/clusters.go].  The operations are
    computations over the database of [Store.v]; cluster providers
    ([clusters.Provider], reached through a [ProviderFactory]) are a record of
    operations, as the Go interface is.  Metrics and logging are left out. *)
From S2P Require Import Prelude Arrays Errors Status Config Model Store Resources Providers Fixtures.

Definition general (reason : string) (err : error) : ServiceError := NewWithCause ErrorGeneral (Some err) reason.
Definition general_svc (reason : string) (err : ServiceError) : ServiceError := general reason (EService err).

(** The outcome of a nil pointer dereference. *)
Definition nil_dereference : ServiceError := GeneralError "runtime error: invalid memory address or nil pointer dereference".

Definition kafkaStatusesThatNoLongerConsumeResourcesInTheDataPlane : list string := [KafkaRequestStatusDeleting].

(** Whether a Kafka still occupies streaming units of its cluster. *)
Definition consumes_resources (k : KafkaRequest) : bool :=
  negb (Contains kafkaStatusesThatNoLongerConsumeResourcesInTheDataPlane k.(KR.Status)).

(** The caller, as the authentication middleware leaves it in the context. *)
Record Claims := mkClaims { Username : string; OrgId : string; IsOrgAdmin : bool }.
Record AuthContext := mkAuthContext {
  ctx_claims : result error Claims;
  ctx_is_admin : bool;
  ctx_filter_by_organisation : bool
}.

Record ResGroupCPRegion := mkResGroupCPRegion { RG_Provider : string; RG_Region : string; RG_Count : Z }.

Record FindClusterCriteria := mkFindClusterCriteria {
  FC_Provider : string;
  FC_Region : string;
  FC_MultiAZ : bool;
  FC_Status : string;
  FC_SupportedInstanceType : string;
  FC_ExternalID : string
}.

(** A struct condition of gorm filters on its non-zero fields only; the
    instance type is matched with [LIKE '%type%']. *)
Definition zero_or_eq (want have : string) : bool := (want =?s "") || (have =?s want).

Definition criteria_match (criteria : FindClusterCriteria) (c : Cluster) : bool :=
  zero_or_eq criteria.(FC_Provider) c.(CL.CloudProvider) &&
  zero_or_eq criteria.(FC_Region) c.(CL.Region) &&
  (negb criteria.(FC_MultiAZ) || c.(CL.MultiAZ)) &&
  zero_or_eq criteria.(FC_Status) c.(CL.Status) &&
  zero_or_eq criteria.(FC_ExternalID) c.(CL.ExternalID) &&
  ((criteria.(FC_SupportedInstanceType) =?s "") ||
   StrContains c.(CL.SupportedInstanceType) criteria.(FC_SupportedInstanceType)).

Record ResKafkaInstanceCount := mkResKafkaInstanceCount {
  KIC_ClusterID : string;
  KIC_Count : Z
}.

Record StatusCount := mkStatusCount {
  SC_Status : string;
  SC_Count : Z
}.

(** One entry per cluster and supported instance type; the counters are
    [int32]. *)
Record KafkaStreamingUnitCountPerCluster := mkKafkaStreamingUnitCountPerCluster {
  SU_Region : string;
  SU_InstanceType : string;
  SU_ID : string;
  SU_ClusterId : string;
  SU_Count : Z;
  SU_CloudProvider : string;
  SU_MaxUnits : Z;
  SU_Status : string;
  SU_ClusterType : string
}.

(** A row of the [GROUP BY] query on the Kafkas. *)
Record KafkaPerClusterCount := mkKafkaPerClusterCount {
  PC_Region : string;
  PC_InstanceType : string;
  PC_ClusterId : string;
  PC_Count : Z;
  PC_CloudProvider : string;
  PC_SizeId : string
}.

Definition isSame (k : KafkaStreamingUnitCountPerCluster) (db : KafkaPerClusterCount) : bool :=
  if db.(PC_ClusterId) =?s "" then false
  else (k.(SU_CloudProvider) =?s db.(PC_CloudProvider)) && (k.(SU_ClusterId) =?s db.(PC_ClusterId)) &&
       (k.(SU_InstanceType) =?s db.(PC_InstanceType)) && (k.(SU_Region) =?s db.(PC_Region)).

Definition FreeStreamingUnits (k : KafkaStreamingUnitCountPerCluster) : Z := int32 (k.(SU_MaxUnits) - k.(SU_Count)).

Fixpoint GetStreamingUnitCountForClusterAndInstanceType (l : list KafkaStreamingUnitCountPerCluster)
    (clusterId instanceType : string) : Z :=
  match l with
  | [] => 0
  | k :: l' =>
      if (k.(SU_ClusterId) =?s clusterId) && (k.(SU_InstanceType) =?s instanceType) then k.(SU_Count)
      else GetStreamingUnitCountForClusterAndInstanceType l' clusterId instanceType
  end.

(** [GROUP BY size_id, cluster_id, cloud_provider, region, instance_type]. *)
Definition kafka_group_key (k : KafkaRequest) : string * string * string * string * string :=
  (k.(KR.SizeId), k.(KR.ClusterID), k.(KR.CloudProvider), k.(KR.Region), k.(KR.InstanceType)).

Definition group_row (g : string * string * string * string * string * Z) : KafkaPerClusterCount :=
  let '(sizeId, clusterId, cloudProvider, region, instanceType, count) := g in
  mkKafkaPerClusterCount region instanceType clusterId count cloudProvider sizeId.

Definition group_kafkas (l : list KafkaRequest) : list KafkaPerClusterCount :=
  map group_row (group_by kafka_group_key l).

(** The entries of one cluster, before any Kafka is counted. *)
Definition prepopulate_cluster (c : Cluster) : list KafkaStreamingUnitCountPerCluster :=
  let clusterDynamicCapacityInfo := RetrieveDynamicCapacityInfo c in
  flat_map (fun supportedInstanceType =>
    let instanceType := TrimSpace supportedInstanceType in
    if instanceType =?s "" then []
    else
      let maxUnits := match clusterDynamicCapacityInfo !! instanceType with
                      | Some info => info.(MaxUnits)
                      | None => 0
                      end in
      [ mkKafkaStreamingUnitCountPerCluster c.(CL.Region) instanceType c.(CL.ID) c.(CL.ClusterID) 0
          c.(CL.CloudProvider) maxUnits c.(CL.Status) c.(CL.ClusterType) ])
    (Split c.(CL.SupportedInstanceType) ","%char).

Definition add_to_entry (n : Z) (e : KafkaStreamingUnitCountPerCluster) : KafkaStreamingUnitCountPerCluster :=
  mkKafkaStreamingUnitCountPerCluster e.(SU_Region) e.(SU_InstanceType) e.(SU_ID) e.(SU_ClusterId)
    (int32 (e.(SU_Count) + n)) e.(SU_CloudProvider) e.(SU_MaxUnits) e.(SU_Status) e.(SU_ClusterType).

(** Adds [n] to the first entry the group belongs to. *)
Fixpoint add_to_first (g : KafkaPerClusterCount) (n : Z) (l : list KafkaStreamingUnitCountPerCluster)
  : list KafkaStreamingUnitCountPerCluster :=
  match l with
  | [] => []
  | e :: l' => if isSame e g then add_to_entry n e :: l' else e :: add_to_first g n l'
  end.

Definition buildClusterSpec (cluster : Cluster) : ClusterSpec :=
  mkClusterSpec cluster.(CL.ClusterID) cluster.(CL.ExternalID) cluster.(CL.Status) cluster.(CL.MultiAZ)
    cluster.(CL.Region) cluster.(CL.CloudProvider) cluster.(CL.ClusterSpec) cluster.(CL.StatusDetails).

Section ClusterService.
Context {W : Type} `{Database W}.
Context (kafkaConfig : KafkaConfig).
Context (GetProvider : string -> result error (ClusterProvider W)).

Definition get_provider (cluster : Cluster) : M W ServiceError (ClusterProvider W) :=
  lift (map_err (general "failed to get provider implementation") (GetProvider cluster.(CL.ProviderType))).

(** [NewID] is the identifier that [BeforeCreate] draws for a new row. *)
Definition RegisterClusterJob (NewID : string) (clusterRequest : Cluster) : M W ServiceError unit :=
  wrap_err (general "failed to register cluster job")
    (exec (SaveCluster (Cluster_BeforeCreate NewID clusterRequest))).

Definition ClusterService_Create (NewID : string) (cluster : Cluster) : M W ServiceError Cluster :=
  let r := mkClusterRequest cluster.(CL.CloudProvider) cluster.(CL.Region) cluster.(CL.MultiAZ) cluster.(CL.ProviderSpec) in
  provider <~ get_provider cluster ;;
  created <~ wrap_err (general "failed to create cluster") (provider.(Provider_Create) r) ;;
  clusterSpec <~ match created with Some spec => ret spec | None => throw nil_dereference end ;;
  let cluster := cluster <| CL.ClusterID := clusterSpec.(InternalID) |>
                         <| CL.ExternalID := clusterSpec.(Spec_ExternalID) |>
                         <| CL.Status := clusterSpec.(Spec_Status) |> in
  let cluster := match clusterSpec.(AdditionalInfo) with
                 | Some info => cluster <| CL.ClusterSpec := Some info |>
                 | None => cluster
                 end in
  let cluster := Cluster_BeforeCreate NewID cluster in
  _ <~ wrap_err (general "failed to save data to db") (exec (SaveCluster cluster)) ;;
  ret cluster.

Definition ClusterService_Update (cluster : Cluster) : M W ServiceError unit :=
  if cluster.(CL.ID) =?s "" then throw (Validation "id is undefined")
  else
    _ <~ wrap_err (general "failed to update cluster")
           (exec (UpdateClusters (fun c => c.(CL.ID) =?s cluster.(CL.ID)) (CL.merge_nonzero cluster))) ;;
    ret tt.

Definition FindClusterByID (clusterID : string) : M W ServiceError (option Cluster) :=
  if clusterID =?s "" then throw (Validation "clusterID is undefined")
  else wrap_err (general "failed to find cluster with id: %s")
         (exec (FirstCluster (fun c => c.(CL.ClusterID) =?s clusterID))).

(** The Go function dereferences a nil pointer when the cluster does not
    exist; the panic is an outcome of its own. *)
Definition GetClusterDNS (clusterID : string) : M W ServiceError string :=
  found <~ FindClusterByID clusterID ;;
  match found with
  | None => throw nil_dereference
  | Some cluster =>
      if negb (cluster.(CL.ClusterDNS) =?s "") then ret cluster.(CL.ClusterDNS)
      else
        p <~ get_provider cluster ;;
        clusterDNS <~ wrap_err (general "failed to get cluster DNS from OCM")
                        (p.(Provider_GetClusterDNS) (buildClusterSpec cluster)) ;;
        _ <~ wrap_err (general_svc "failed to update cluster DNS")
               (ClusterService_Update (cluster <| CL.ClusterDNS := clusterDNS |>)) ;;
        ret clusterDNS
  end.

Definition ClusterService_ListByStatus (status : string) : M W ServiceError (list Cluster) :=
  if status =?s "" then throw (Validation "status is undefined")
  else wrap_err (general "failed to query by status")
         (exec (SelectClusters (fun c => c.(CL.Status) =?s status))).

(** The row is designated by the primary key when it is known, otherwise by
    the cluster identifier. *)
Definition ClusterService_UpdateStatus (cluster : Cluster) (status : string) : M W ServiceError unit :=
  if status =?s "" then throw (Validation "status is undefined")
  else if (cluster.(CL.ID) =?s "") && (cluster.(CL.ClusterID) =?s "") then throw (Validation "id is undefined")
  else
    let query := if negb (cluster.(CL.ID) =?s "")
                 then fun c => c.(CL.ID) =?s cluster.(CL.ID)
                 else fun c => c.(CL.ClusterID) =?s cluster.(CL.ClusterID) in
    _ <~ wrap_err (general "failed to update cluster status")
           (exec (UpdateClusters query (fun c => c <| CL.Status := status |>))) ;;
    ret tt.

Definition DeregisterClusterJob (clusterID : string) : M W ServiceError unit :=
  wrap_err (general_svc "failed to deregister cluster")
    (ClusterService_UpdateStatus (zero <| CL.ClusterID := clusterID |>) ClusterDeprovisioning).

(** [First] orders by the primary key; the [Order] that follows it in the
    code has no effect on the executed query. *)
Definition FindCluster (criteria : FindClusterCriteria) : M W error (option Cluster) :=
  exec (FirstCluster (criteria_match criteria)).

Definition FindAllClusters (criteria : FindClusterCriteria) : M W error (list Cluster) :=
  exec (SelectClustersByCreation (criteria_match criteria)).

Definition GetClientID (clusterID : string) : M W ServiceError string :=
  found <~ FindClusterByID clusterID ;;
  match found with
  | None => ret ""
  | Some cluster => ret cluster.(CL.ClientID)
  end.

Definition GetExternalID (clusterID : string) : M W ServiceError string :=
  found <~ FindClusterByID clusterID ;;
  match found with
  | None => throw (GeneralError "failed to get External ID for clusterID %s")
  | Some cluster => ret cluster.(CL.ExternalID)
  end.

(** A struct condition with an empty identifier is no condition. *)
Definition DeleteByClusterID (clusterID : string) : M W ServiceError unit :=
  wrap_err (general "Unable to delete cluster with cluster_id %s")
    (if clusterID =?s "" then throw missing_where_clause
     else exec (DeleteClusters (fun c => c.(CL.ClusterID) =?s clusterID))).

(** Rows that are soft-deleted are removed as well; the tables do not show
    them. *)
Definition HardDeleteByClusterID (clusterID : string) : M W ServiceError unit :=
  wrap_err (general "Unable to hard delete cluster with cluster_id %s")
    (if clusterID =?s "" then throw missing_where_clause
     else exec (DeleteClusters (fun c => c.(CL.ClusterID) =?s clusterID))).

(** The sub-query selects the cluster's Kafkas that are not being deleted. *)
Definition FindNonEmptyClusterByID (clusterID : string) : M W ServiceError (option Cluster) :=
  wrap_err (general "failed to find cluster with id %s")
    (ks <~ exec (SelectKafkas (fun k => negb (k.(KR.Status) =?s KafkaRequestStatusDeleting) &&
                                        (k.(KR.ClusterID) =?s clusterID))) ;;
     exec (FirstCluster (fun c => zero_or_eq clusterID c.(CL.ClusterID) &&
                                  Contains (map KR.ClusterID ks) c.(CL.ClusterID)))).

(** Only the listed columns are read, so the others have their zero value. *)
Definition enterprise_columns (c : Cluster) : Cluster :=
  CL.mkCluster "" 0 0 c.(CL.CloudProvider) c.(CL.ClusterID) "" c.(CL.MultiAZ) c.(CL.Region) c.(CL.Status) "" "" "" "" "" ""
    None None JNull "" JNull "" "" c.(CL.AccessKafkasViaPrivateNetwork).

Definition ListEnterpriseClustersOfAnOrganization (ctx : AuthContext) : M W ServiceError (list Cluster) :=
  claims <~ lift (map_err (fun e => NewWithCause ErrorUnauthenticated (Some e) "user not authenticated") ctx.(ctx_claims)) ;;
  if claims.(Username) =?s "" then throw (Unauthenticated "user not authenticated")
  else
    l <~ wrap_err (general "failed to list clusters")
           (exec (SelectClusters (fun c => (c.(CL.OrganizationID) =?s claims.(OrgId)) &&
                                           (c.(CL.ClusterType) =?s EnterpriseDataPlaneClusterType)))) ;;
    ret (map enterprise_columns l).

Definition ListGroupByProviderAndRegion (providers regions status : list string) : M W ServiceError (list ResGroupCPRegion) :=
  if bool_decide (providers = [] \/ regions = [] \/ status = []) then throw (Validation "provider, region and status must not be empty")
  else
    l <~ wrap_err (general "failed to list by cloud provider, regions and status")
           (exec (SelectClusters (fun c => Contains providers c.(CL.CloudProvider) && Contains regions c.(CL.Region) &&
                                           Contains status c.(CL.Status)))) ;;
    ret (map (fun '((provider, region), n) => mkResGroupCPRegion provider region n)
           (group_by (fun c => (c.(CL.CloudProvider), c.(CL.Region))) l)).

Definition ListNonEnterpriseClusterIDs : M W ServiceError (list string) :=
  l <~ wrap_err (general "failed to query by cluster info")
         (exec (SelectClustersByCreation (fun c => negb (c.(CL.ClusterID) =?s "") &&
                                                   negb (c.(CL.ClusterType) =?s EnterpriseDataPlaneClusterType)))) ;;
  ret (map CL.ClusterID l).

(** The capacity each cluster's Kafkas consume, summed in a map. *)
Fixpoint sum_capacity (m : gmap string Z) (l : list KafkaRequest) : result error (gmap string Z) :=
  match l with
  | [] => Ok m
  | k :: l' =>
      size <-! GetKafkaInstanceSize kafkaConfig k.(KR.InstanceType) k.(KR.SizeId) ;;
      sum_capacity (<[ k.(KR.ClusterID) := default 0 (m !! k.(KR.ClusterID)) + size.(CapacityConsumed) ]> m) l'
  end.

Definition FindKafkaInstanceCount (clusterIDs : list string) : M W error (list ResKafkaInstanceCount) :=
  ks <~ exec (SelectKafkas (fun k => consumes_resources k &&
                                     (IsEmpty clusterIDs || Contains clusterIDs k.(KR.ClusterID)))) ;;
  m <~ lift (sum_capacity ∅ ks) ;;
  ret (flat_map (fun clusterID => match m !! clusterID with
                                  | None => [mkResKafkaInstanceCount clusterID 0]
                                  | Some _ => []
                                  end) clusterIDs
       ++ map (fun '(k, v) => mkResKafkaInstanceCount k v) (map_to_list m)).

Definition UpdateMultiClusterStatus (clusterIDs : list string) (status : string) : M W ServiceError unit :=
  if status =?s "" then throw (Validation "status is undefined")
  else if IsEmpty clusterIDs then throw (Validation "ids is empty")
  else
    let query := fun c : Cluster =>
      Contains clusterIDs c.(CL.ClusterID) &&
      (if status =?s ClusterDeprovisioning then negb (c.(CL.Status) =?s ClusterCleanup) else true) in
    _ <~ wrap_err (general "failed to update status: %s")
           (exec (UpdateClusters query (fun c => c <| CL.Status := status |>))) ;;
    ret tt.

(** [GROUP BY status] with [count(1)], then a zero for each absent status. *)
Definition status_counts (statuses present : list string) : list StatusCount :=
  map (fun '(s, n) => mkStatusCount s n) (group_by id present) ++
  flat_map (fun s => if Contains present s then [] else [mkStatusCount s 0]) statuses.

Definition ClusterService_CountByStatus (status : list string) : M W ServiceError (list StatusCount) :=
  l <~ wrap_err (general "failed to count by status")
         (exec (SelectClusters (fun c => Contains status c.(CL.Status)))) ;;
  ret (status_counts status (map CL.Status l)).

Definition CheckClusterStatus (cluster : Cluster) : M W ServiceError Cluster :=
  p <~ get_provider cluster ;;
  clusterSpec <~ wrap_err (general "failed to check cluster status")
                   (p.(Provider_CheckClusterStatus) (buildClusterSpec cluster)) ;;
  let cluster := cluster <| CL.Status := clusterSpec.(Spec_Status) |>
                         <| CL.StatusDetails := clusterSpec.(Spec_StatusDetails) |>
                         <| CL.ClusterSpec := clusterSpec.(AdditionalInfo) |> in
  let cluster := if negb (clusterSpec.(Spec_ExternalID) =?s "") && (cluster.(CL.ExternalID) =?s "")
                 then cluster <| CL.ExternalID := clusterSpec.(Spec_ExternalID) |> else cluster in
  _ <~ ClusterService_Update cluster ;;
  ret cluster.

Definition ClusterService_Delete (cluster : Cluster) : M W ServiceError bool :=
  p <~ get_provider cluster ;;
  wrap_err (general "failed to delete the cluster from the provider")
    (p.(Provider_Delete) (buildClusterSpec cluster)).

(** The identifier of a provider without an OpenID part is read through a nil
    pointer. *)
Definition ConfigureAndSaveIdentityProvider (cluster : Cluster) (identityProviderInfo : IdentityProviderInfo) : M W ServiceError Cluster :=
  if negb (cluster.(CL.IdentityProviderID) =?s "") then ret cluster
  else
    p <~ get_provider cluster ;;
    providerInfo <~ wrap_err (general "failed to add identity provider")
                      (p.(Provider_AddIdentityProvider) (buildClusterSpec cluster) identityProviderInfo) ;;
    match providerInfo ≫= OpenID with
    | None => throw nil_dereference
    | Some openID =>
        let cluster := cluster <| CL.IdentityProviderID := openID.(IDP_ID) |> in
        _ <~ wrap_err (general_svc "failed to update cluster") (ClusterService_Update cluster) ;;
        ret cluster
    end.

Definition ApplyResources (cluster : Cluster) (resources : ResourceSet) : M W ServiceError unit :=
  p <~ get_provider cluster ;;
  _ <~ wrap_err (general "failed to apply resources %s") (p.(Provider_ApplyResources) (buildClusterSpec cluster) resources) ;;
  ret tt.

Definition RemoveResources (cluster : Cluster) (syncSetName : string) : M W ServiceError unit :=
  p <~ get_provider cluster ;;
  wrap_err (general "failed to remove resources %s") (p.(Provider_RemoveResources) (buildClusterSpec cluster) syncSetName).

Definition InstallStrimzi (cluster : Cluster) : M W ServiceError bool :=
  p <~ get_provider cluster ;;
  wrap_err (general "failed to install strimzi for cluster %s") (p.(Provider_InstallStrimzi) (buildClusterSpec cluster)).

Definition InstallClusterLogging (cluster : Cluster) (params : list AddonParameter) : M W ServiceError bool :=
  p <~ get_provider cluster ;;
  wrap_err (general "failed to install cluster-logging for cluster %s")
    (p.(Provider_InstallClusterLogging) (buildClusterSpec cluster) params).

Definition CheckStrimziVersionReady (cluster : Cluster) (strimziVersion : string) : result error bool :=
  readyStrimziVersions <-! GetAvailableAndReadyStrimziVersions cluster ;;
  Ok (existsb (fun v => v.(Version) =?s strimziVersion) readyStrimziVersions).

(** Only the first ready version with that name is looked at. *)
Definition IsStrimziKafkaVersionAvailableInCluster (cluster : Cluster)
    (strimziVersion kafkaVersion ibpVersion : string) : result error bool :=
  readyStrimziVersions <-! GetAvailableAndReadyStrimziVersions cluster ;;
  match List.find (fun v => v.(Version) =?s strimziVersion) readyStrimziVersions with
  | None => Ok false
  | Some v =>
      Ok (existsb (fun kv => kv.(KafkaVersion_Version) =?s kafkaVersion) v.(KafkaVersions) &&
          existsb (fun iv => iv.(KafkaIBPVersion_Version) =?s ibpVersion) v.(KafkaIBPVersions))
  end.

(** The counters are 32-bit: the conversion of the capacity, the product and
    the accumulation all wrap. *)
Fixpoint count_groups (gs : list KafkaPerClusterCount) (entries : list KafkaStreamingUnitCountPerCluster)
  : result error (list KafkaStreamingUnitCountPerCluster) :=
  match gs with
  | [] => Ok entries
  | g :: gs' =>
      instSize <-! GetKafkaInstanceSize kafkaConfig g.(PC_InstanceType) g.(PC_SizeId) ;;
      let streamingUnitCount := int32 (int32 instSize.(CapacityConsumed) * g.(PC_Count)) in
      count_groups gs' (add_to_first g streamingUnitCount entries)
  end.

Definition FindStreamingUnitCountByClusterAndInstanceType : M W error (list KafkaStreamingUnitCountPerCluster) :=
  cs <~ wrap_err (EWrap "failed to list data plane clusters")
          (exec (SelectClusters (fun c => negb (c.(CL.Status) =?s ClusterFailed)))) ;;
  ks <~ wrap_err (EWrap "failed to perform count query on kafkas table")
          (exec (SelectKafkas consumes_resources)) ;;
  lift (count_groups (group_kafkas ks) (flat_map prepopulate_cluster cs)).

(** The groups [(size_id, instance_type)] are added to a map from instance
    type to consumed units. *)
Fixpoint sum_per_instance_type (m : gmap string Z) (groups : list (string * string * Z)) : result error (gmap string Z) :=
  match groups with
  | [] => Ok m
  | (sizeId, instanceType, count) :: groups' =>
      instSize <-! GetKafkaInstanceSize kafkaConfig instanceType sizeId ;;
      let streamingUnitCount := instSize.(CapacityConsumed) * count in
      let m' := match m !! instanceType with
                | None => <[ instanceType := streamingUnitCount ]> m
                | Some existingCount => <[ instanceType := existingCount + streamingUnitCount ]> m
                end in
      sum_per_instance_type m' groups'
  end.

Definition ComputeConsumedStreamingUnitCountPerInstanceType (clusterID : string) : M W error (gmap string Z) :=
  ks <~ wrap_err (fun e => EService (general "failed to get count of sizes of a cluster" e))
          (exec (SelectKafkas (fun k => (k.(KR.ClusterID) =?s clusterID) && consumes_resources k))) ;;
  lift (sum_per_instance_type (<[ STANDARD := 0 ]> {[ DEVELOPER := 0 ]})
          (group_by (fun k => (k.(KR.SizeId), k.(KR.InstanceType))) ks)).
End ClusterService.

(** ** The streaming units that Kafkas consume *)
Definition units (cfg : KafkaConfig) (instanceType sizeId : string) : Z :=
  match GetKafkaInstanceSize cfg instanceType sizeId with
  | Ok size => size.(CapacityConsumed)
  | Err _ => 0
  end.

Definition kafka_units (cfg : KafkaConfig) (k : KafkaRequest) : Z := units cfg k.(KR.InstanceType) k.(KR.SizeId).

(** The sum of a value over a list, and the units of the Kafkas of a list that
    satisfy [p]: the reference for every counting query of the service. *)
Definition sum_of {A} (f : A -> Z) (l : list A) : Z := foldr (fun a acc => f a + acc) 0 l.

Definition consumed (cfg : KafkaConfig) (p : KafkaRequest -> bool) (ks : list KafkaRequest) : Z :=
  sum_of (kafka_units cfg) (List.filter p ks).

Lemma sum_of_perm {A} (f : A -> Z) l l' : l ≡ₚ l' -> sum_of f l = sum_of f l'.
Proof. induction 1; simpl; lia. Qed.

#[export] Instance sum_of_proper {A} (f : A -> Z) : Proper ((≡ₚ) ==> (=)) (sum_of f).
Proof. intros l l'. apply sum_of_perm. Qed.

#[export] Instance filter_proper {A} (p : A -> bool) : Proper ((≡ₚ) ==> (≡ₚ)) (List.filter p).
Proof.
  intros l l'. induction 1 as [|a l l' _ IH|a b l|l1 l2 l3 _ IH1 _ IH2]; simpl.
  - done.
  - destruct (p a); [by constructor | done].
  - destruct (p a), (p b); try done. constructor.
  - by etrans.
Qed.

Lemma sum_of_filter {A} (f : A -> Z) p l : sum_of f (List.filter p l) = sum_of (fun a => if p a then f a else 0) l.
Proof. induction l as [|a l IH]; simpl; [done|]. destruct (p a); simpl; rewrite IH; lia. Qed.

Lemma sum_of_ext {A} (f g : A -> Z) l : (forall a, a ∈ l -> f a = g a) -> sum_of f l = sum_of g l.
Proof. induction l as [|a l IH]; simpl; intros Hfg; [done|]. rewrite Hfg, IH by set_solver. done. Qed.

Lemma sum_of_app {A} (f : A -> Z) l l' : sum_of f (l ++ l') = sum_of f l + sum_of f l'.
Proof. induction l as [|a l IH]; simpl; [done|]. rewrite IH. lia. Qed.

Lemma sum_of_nonneg {A} (f : A -> Z) l : Forall (fun a => 0 <= f a) l -> 0 <= sum_of f l.
Proof. induction 1; simpl; lia. Qed.

Lemma filter_filter {A} (p q : A -> bool) l : List.filter p (List.filter q l) = List.filter (fun a => q a && p a) l.
Proof. induction l as [|a l IH]; simpl; [done|]. destruct (q a); simpl; rewrite <- IH; [by case_match | done]. Qed.

Lemma filter_ext_in' {A} (p q : A -> bool) l : (forall a, a ∈ l -> p a = q a) -> List.filter p l = List.filter q l.
Proof. intros Hpq. apply filter_ext_in. intros a Ha. apply Hpq. by apply list_elem_of_In. Qed.

(** *** [FindStreamingUnitCountByClusterAndInstanceType] *)
Definition entry_key (e : KafkaStreamingUnitCountPerCluster) : string * string * string * string :=
  (e.(SU_CloudProvider), e.(SU_ClusterId), e.(SU_InstanceType), e.(SU_Region)).

(** Whether the Kafka is counted in the entry. *)
Definition counted_in (e : KafkaStreamingUnitCountPerCluster) (k : KafkaRequest) : bool :=
  isSame e (group_row (kafka_group_key k, 0)).

Definition with_count (n : Z) (e : KafkaStreamingUnitCountPerCluster) : KafkaStreamingUnitCountPerCluster :=
  mkKafkaStreamingUnitCountPerCluster e.(SU_Region) e.(SU_InstanceType) e.(SU_ID) e.(SU_ClusterId)
    n e.(SU_CloudProvider) e.(SU_MaxUnits) e.(SU_Status) e.(SU_ClusterType).

Lemma isSame_key e g : isSame e g = true ->
  entry_key e = (g.(PC_CloudProvider), g.(PC_ClusterId), g.(PC_InstanceType), g.(PC_Region)).
Proof. unfold isSame, entry_key. case_str; [done|]. intros Hs. split_bools. reflect_strings. congruence. Qed.

(** Entries of clusters that have an identifier; a cluster gets its identifier
    from the provider some time after it is registered. *)
Definition identified (e : KafkaStreamingUnitCountPerCluster) : bool := negb (e.(SU_ClusterId) =?s "").

Definition distinct_entries (es : list KafkaStreamingUnitCountPerCluster) : Prop :=
  NoDup (map entry_key (List.filter identified es)).

Lemma isSame_identified e g : isSame e g = true -> identified e = true.
Proof.
  unfold isSame, identified. destruct (PC_ClusterId g =?s "") eqn:Hg; [done|]. intros Hs. split_bools. reflect_strings.
  apply negb_true_iff, String.eqb_neq. congruence.
Qed.

(** When keys are distinct, adding to the first matching entry is adding to
    every matching entry. *)
Lemma add_to_first_map g n es :
  distinct_entries es ->
  add_to_first g n es = map (fun e => if isSame e g then add_to_entry n e else e) es.
Proof.
  unfold distinct_entries. induction es as [|e es IH]; simpl; [done|]. intros Hnd.
  destruct (isSame e g) eqn:Hs.
  - rewrite (isSame_identified _ _ Hs) in Hnd. simpl in Hnd. apply NoDup_cons in Hnd as [Hnin _]. f_equal.
    symmetry. rewrite <- (map_id es) at 2. apply map_ext_in. intros e' He'%list_elem_of_In.
    destruct (isSame e' g) eqn:Hs'; [|done]. exfalso. apply Hnin.
    pose proof (isSame_identified _ _ Hs') as Hid. apply isSame_key in Hs, Hs'. rewrite Hs, <- Hs'.
    apply list_elem_of_fmap_2, list_elem_of_In, filter_In. by rewrite <- list_elem_of_In.
  - rewrite IH; [done|]. destruct (identified e); [by apply NoDup_cons in Hnd as [_ ?] | done].
Qed.

(** Distinctness depends on the keys only. *)
Lemma distinct_entries_map f es :
  (forall e, entry_key (f e) = entry_key e) -> distinct_entries es -> distinct_entries (map f es).
Proof.
  intros Hf. unfold distinct_entries.
  assert (forall e, identified (f e) = identified e) as Hid.
  { intros e. unfold identified. specialize (Hf e). unfold entry_key in Hf. congruence. }
  intros Hnd. enough (map entry_key (List.filter identified (map f es)) = map entry_key (List.filter identified es)) as -> by done.
  clear Hnd. induction es as [|e es IH]; simpl; [done|]. rewrite Hid. destruct (identified e); simpl; [|done].
  by rewrite Hf, IH.
Qed.

Definition groups_sum (cfg : KafkaConfig) (e : KafkaStreamingUnitCountPerCluster) (gs : list KafkaPerClusterCount) : Z :=
  sum_of (fun g => if isSame e g then units cfg g.(PC_InstanceType) g.(PC_SizeId) * g.(PC_Count) else 0) gs.

Lemma count_groups_ok cfg gs es l :
  distinct_entries es -> Forall (fun e => in_int32 e.(SU_Count)) es ->
  count_groups cfg gs es = Ok l ->
  l = map (fun e => with_count (int32 (e.(SU_Count) + groups_sum cfg e gs)) e) es.
Proof.
  revert es. induction gs as [|g gs IH]; intros es Hnd Hin; simpl.
  - intros [= <-]. rewrite <- (map_id es) at 1. apply map_ext_in. intros e He%list_elem_of_In.
    rewrite Forall_forall in Hin. rewrite Z.add_0_r, int32_id by auto. by destruct e.
  - destruct (GetKafkaInstanceSize cfg (PC_InstanceType g) (PC_SizeId g)) as [s|] eqn:Hsize; simpl; [|done].
    rewrite add_to_first_map by done. intros ->%IH.
    + rewrite map_map. apply map_ext. intros e. unfold groups_sum, units at 2. simpl. rewrite Hsize.
      destruct (isSame e g) eqn:Hs; simpl; unfold with_count; simpl; [|done].
      rewrite int32_mul_l, int32_add_r, int32_add_l. do 2 f_equal.
      change (isSame (add_to_entry _ e)) with (isSame e). lia.
    + apply distinct_entries_map; [|done]. intros e. by destruct (isSame e g).
    + apply Forall_forall. intros e' (e & -> & He)%list_elem_of_fmap. rewrite Forall_forall in Hin.
      destruct (isSame e g); [apply int32_range | auto].
Qed.

Lemma groups_sum_kafkas cfg e ks :
  groups_sum cfg e (group_kafkas ks) = consumed cfg (counted_in e) ks.
Proof.
  unfold consumed. rewrite sum_of_filter.
  pose (weight := fun key => if isSame e (group_row (key, 0))
                             then units cfg (group_row (key, 0)).(PC_InstanceType) (group_row (key, 0)).(PC_SizeId) else 0).
  transitivity (weighted_sum weight (group_by kafka_group_key ks)).
  - unfold groups_sum, group_kafkas. induction (group_by kafka_group_key ks) as [|[key n] gs IH]; simpl; [done|].
    rewrite IH. subst weight. simpl. destruct key as [[[[sizeId clusterId] provider] region] instanceType]. simpl.
    change (isSame e (mkKafkaPerClusterCount region instanceType clusterId n provider sizeId))
      with (isSame e (mkKafkaPerClusterCount region instanceType clusterId 0 provider sizeId)).
    destruct (isSame e _); lia.
  - rewrite group_by_weight. done.
Qed.

Lemma prepopulate_count_zero c e : e ∈ prepopulate_cluster c -> e.(SU_Count) = 0.
Proof.
  unfold prepopulate_cluster. rewrite list_elem_of_In, in_flat_map. intros (t & _ & Hin).
  destruct (TrimSpace t =?s ""); simpl in Hin; [done|]. by destruct Hin as [<-|[]].
Qed.

Lemma flat_map_perm {A B} (f : A -> list B) l l' : l ≡ₚ l' -> flat_map f l ≡ₚ flat_map f l'.
Proof.
  induction 1; simpl; [done|by f_equiv| |by etrans].
  rewrite !app_assoc. f_equiv. apply Permutation_app_comm.
Qed.

(** The clusters that count: all but the failed ones. *)
Definition not_failed (c : Cluster) : bool := negb (c.(CL.Status) =?s ClusterFailed).

(** The entries the service starts from. *)
Definition initial_entries (cs : list Cluster) : list KafkaStreamingUnitCountPerCluster :=
  flat_map prepopulate_cluster (List.filter not_failed cs).

Section CountingLemmas.
Context {W : Type} `{Database W} (cfg : KafkaConfig).

(** Every count is the wrapped sum of the units that the Kafkas of the entry
    consume. *)
Lemma FindStreamingUnitCount_ok w l w' :
  FindStreamingUnitCountByClusterAndInstanceType cfg w = (Ok l, w') ->
  distinct_entries (initial_entries (tables_of w).(clusters)) ->
  tables_of w' = tables_of w /\
  l ≡ₚ map (fun e => with_count
              (int32 (consumed cfg (fun k => consumes_resources k && counted_in e k) (tables_of w).(kafkas))) e)
           (initial_entries (tables_of w).(clusters)).
Proof.
  intros Hrun Hnd. unfold FindStreamingUnitCountByClusterAndInstanceType in Hrun. repeat run_ok Hrun.
  apply exec_ok in Hrun0 as [Hcs Ht1]. apply exec_ok in Hrun1 as [Hks Ht2].
  rewrite Ht1 in *. split; [done|].
  pose proof (flat_map_perm prepopulate_cluster _ _ Hcs) as Hp.
  apply count_groups_ok in Hrun as ->.
  - rewrite <- Hp. apply reflexive_eq, map_ext_in. intros e He%list_elem_of_In. f_equal. f_equal.
    rewrite groups_sum_kafkas. unfold consumed. rewrite (sum_of_perm _ _ _ (filter_proper _ _ _ Hks)), filter_filter.
    apply list_elem_of_In, in_flat_map in He as (c & _ & He%list_elem_of_In%prepopulate_count_zero). lia.
  - unfold distinct_entries. by rewrite (filter_proper _ _ _ Hp).
  - apply Forall_forall. intros e He. apply list_elem_of_In, in_flat_map in He as (c & _ & He%list_elem_of_In%prepopulate_count_zero).
    rewrite He. split; lia.
Qed.

Lemma sum_capacity_ok m ks m' id :
  sum_capacity cfg m ks = Ok m' ->
  default 0 (m' !! id) = default 0 (m !! id) + consumed cfg (fun k => k.(KR.ClusterID) =?s id) ks /\
  (is_Some (m' !! id) <-> is_Some (m !! id) \/ id ∈ map KR.ClusterID ks).
Proof.
  revert m. induction ks as [|k ks IH]; intros m; simpl.
  { intros [= <-]. split; [unfold consumed; simpl; lia | set_solver]. }
  destruct (GetKafkaInstanceSize cfg _ _) as [s|] eqn:Hs; simpl; [|done].
  intros [Hd Hi]%IH. rewrite Hd, Hi. unfold consumed. simpl.
  destruct (String.eqb_spec (KR.ClusterID k) id) as [<-|Hne]; simpl.
  - rewrite lookup_insert_eq. simpl. unfold kafka_units at 2, units. rewrite Hs. split; [lia|].
    split; [intros _; right; left | intros _; left; eauto].
  - rewrite lookup_insert_ne by done. split; [done|]. set_solver.
Qed.

(** Every reported count is what the cluster's Kafkas consume, and every
    requested cluster is reported. *)
Lemma FindKafkaInstanceCount_ok ids w l w' :
  FindKafkaInstanceCount cfg ids w = (Ok l, w') -> ids <> [] ->
  tables_of w' = tables_of w /\
  (forall c, c ∈ l -> c.(KIC_ClusterID) ∈ ids /\ c.(KIC_Count) =
     consumed cfg (fun k => consumes_resources k && (k.(KR.ClusterID) =?s c.(KIC_ClusterID))) (tables_of w).(kafkas)) /\
  (forall id, id ∈ ids -> id ∈ map KIC_ClusterID l).
Proof.
  intros Hrun Hne. unfold FindKafkaInstanceCount in Hrun. repeat run_ok Hrun.
  apply exec_ok in Hrun0 as [Hks Ht1]. split; [done|].
  assert (IsEmpty ids = false) as Hids by (by destruct ids). rewrite Hids in Hks. simpl in Hks.
  assert (forall id, id ∈ ids ->
    consumed cfg (fun k => k.(KR.ClusterID) =?s id) a =
    consumed cfg (fun k => consumes_resources k && (k.(KR.ClusterID) =?s id)) (tables_of w).(kafkas)) as Hc.
  { intros id Hid. unfold consumed. rewrite (sum_of_perm _ _ _ (filter_proper _ _ _ Hks)), filter_filter.
    f_equal. apply filter_ext_in'. intros k _. destruct (consumes_resources k); [|done]. simpl.
    destruct (String.eqb_spec (KR.ClusterID k) id) as [->|]; [|by rewrite andb_false_r].
    by rewrite andb_true_r, (proj2 (Contains_true ids id) Hid). }
  split.
  - intros c Hc'. apply elem_of_app in Hc' as [Hc'|Hc'].
    + apply list_elem_of_In, in_flat_map in Hc' as (id & Hid & Hin).
      destruct (a0 !! id) eqn:E; simpl in Hin; [done|]. destruct Hin as [<-|[]]. simpl.
      split; [by apply list_elem_of_In|]. rewrite <- Hc by (by apply list_elem_of_In).
      destruct (sum_capacity_ok _ _ _ id Hrun1) as [Hd _]. rewrite E, lookup_empty in Hd. simpl in Hd. lia.
    + apply list_elem_of_fmap in Hc' as ([id n] & -> & Hin). apply elem_of_map_to_list in Hin. simpl.
      destruct (sum_capacity_ok _ _ _ id Hrun1) as [Hd Hi]. rewrite Hin, lookup_empty in *. simpl in *.
      destruct Hi as [[Hi|Hi] _]; [done|by destruct Hi|].
      enough (id ∈ ids) as Hid by (split; [done|]; rewrite <- Hc by done; lia). apply list_elem_of_fmap in Hi as (k & -> & Hk).
      rewrite Hks in Hk. apply list_elem_of_In, filter_In in Hk as [_ Hk].
      split_bools. by apply Contains_true.
  - intros id Hid. apply list_elem_of_fmap. destruct (a0 !! id) as [n|] eqn:E.
    + exists (mkResKafkaInstanceCount id n). split; [done|]. apply elem_of_app. right.
      apply list_elem_of_fmap. exists (id, n). split; [done|]. by apply elem_of_map_to_list.
    + exists (mkResKafkaInstanceCount id 0). split; [done|]. apply elem_of_app. left.
      apply list_elem_of_In, in_flat_map. exists id. split; [by apply list_elem_of_In|]. rewrite E. by left.
Qed.

Lemma sum_per_instance_type_ok m gs m' t :
  sum_per_instance_type cfg m gs = Ok m' ->
  default 0 (m' !! t) = default 0 (m !! t) +
    weighted_sum (fun '(sizeId, instanceType) => if instanceType =?s t then units cfg instanceType sizeId else 0) gs.
Proof.
  revert m. induction gs as [|[[sizeId instanceType] n] gs IH]; intros m; simpl; [intros [= <-]; lia|].
  unfold units at 1. destruct (GetKafkaInstanceSize cfg instanceType sizeId) as [s|] eqn:Hs; simpl; [|done].
  intros Hd%IH. rewrite Hd.
  destruct (String.eqb_spec instanceType t) as [<-|Hne].
  - destruct (m !! instanceType); rewrite lookup_insert_eq; simpl; lia.
  - destruct (m !! instanceType); rewrite lookup_insert_ne by done; lia.
Qed.

Lemma ComputeConsumed_ok clusterID w m w' t :
  ComputeConsumedStreamingUnitCountPerInstanceType cfg clusterID w = (Ok m, w') ->
  tables_of w' = tables_of w /\
  default 0 (m !! t) =
    consumed cfg (fun k => (k.(KR.ClusterID) =?s clusterID) && consumes_resources k && (k.(KR.InstanceType) =?s t))
      (tables_of w).(kafkas).
Proof.
  intros Hrun. unfold ComputeConsumedStreamingUnitCountPerInstanceType in Hrun. repeat run_ok Hrun.
  apply exec_ok in Hrun0 as [Hks Ht]. split; [done|].
  apply sum_per_instance_type_ok with (t := t) in Hrun. rewrite Hrun, group_by_weight.
  assert (default 0 ((<[STANDARD:=0]> {[DEVELOPER := 0]} : gmap string Z) !! t) = 0) as ->.
  { destruct (decide (t = STANDARD)) as [->|]; [by rewrite lookup_insert_eq|]. rewrite lookup_insert_ne by done.
    destruct (decide (t = DEVELOPER)) as [->|]; [by rewrite lookup_singleton_eq | by rewrite lookup_singleton_ne]. }
  unfold consumed. rewrite <- (filter_filter _ (fun k => (KR.ClusterID k =?s clusterID) && consumes_resources k)).
  rewrite <- (sum_of_perm _ _ _ (filter_proper _ _ _ Hks)), sum_of_filter.
  simpl. apply sum_of_ext. intros k _. done.
Qed.
End CountingLemmas.

(** ** The interface the placement strategies and the scaling managers use

    [ClusterService] of clusters.go, restricted to the lookups; the laws are
    what the interface's comments promise, with the counts given by the
    reference [consumed]. *)
Class ClusterLookup (W : Type) `{Database W} (cfg : KafkaConfig) := {
  find_cluster_by_id : string -> M W ServiceError (option Cluster);
  find_cluster : FindClusterCriteria -> M W error (option Cluster);
  find_all_clusters : FindClusterCriteria -> M W error (list Cluster);
  find_kafka_instance_count : list string -> M W error (list ResKafkaInstanceCount);
  find_streaming_unit_count : M W error (list KafkaStreamingUnitCountPerCluster);
  compute_consumed : string -> M W error (gmap string Z);

  find_cluster_by_id_ok : forall id w r w',
    find_cluster_by_id id w = (Ok r, w') ->
    first_sem (fun c => c.(CL.ClusterID) =?s id) (tables_of w).(clusters) r;
  find_cluster_ok : forall criteria w r w',
    find_cluster criteria w = (Ok r, w') -> first_sem (criteria_match criteria) (tables_of w).(clusters) r;
  find_all_clusters_ok : forall criteria w l w',
    find_all_clusters criteria w = (Ok l, w') ->
    l ≡ₚ List.filter (criteria_match criteria) (tables_of w).(clusters) /\ Sorted.StronglySorted created_before l;
  find_kafka_instance_count_ok : forall ids w l w',
    find_kafka_instance_count ids w = (Ok l, w') -> ids <> [] ->
    (forall c, c ∈ l -> c.(KIC_Count) =
       consumed cfg (fun k => consumes_resources k && (k.(KR.ClusterID) =?s c.(KIC_ClusterID))) (tables_of w).(kafkas)) /\
    (forall id, id ∈ ids -> id ∈ map KIC_ClusterID l);
  find_streaming_unit_count_ok : forall w l w',
    find_streaming_unit_count w = (Ok l, w') ->
    distinct_entries (initial_entries (tables_of w).(clusters)) ->
    l ≡ₚ map (fun e => with_count
                (int32 (consumed cfg (fun k => consumes_resources k && counted_in e k) (tables_of w).(kafkas))) e)
             (initial_entries (tables_of w).(clusters));
  compute_consumed_ok : forall clusterID w m w' t,
    compute_consumed clusterID w = (Ok m, w') ->
    default 0 (m !! t) =
      consumed cfg (fun k => (k.(KR.ClusterID) =?s clusterID) && consumes_resources k && (k.(KR.InstanceType) =?s t))
        (tables_of w).(kafkas);

  find_cluster_by_id_ro : forall id, read_only (find_cluster_by_id id);
  find_cluster_ro : forall criteria, read_only (find_cluster criteria);
  find_all_clusters_ro : forall criteria, read_only (find_all_clusters criteria);
  find_kafka_instance_count_ro : forall ids, read_only (find_kafka_instance_count ids);
  find_streaming_unit_count_ro : read_only find_streaming_unit_count;
  compute_consumed_ro : forall id, read_only (compute_consumed id)
}.
#[export] Hint Resolve find_cluster_by_id_ro find_cluster_ro find_all_clusters_ro find_kafka_instance_count_ro
  find_streaming_unit_count_ro compute_consumed_ro : fleet.

(** The service implements it. *)
#[export] Instance clusterService {W} `{Database W} (cfg : KafkaConfig) : ClusterLookup W cfg.
Proof.
  refine {|
    find_cluster_by_id := FindClusterByID;
    find_cluster := FindCluster;
    find_all_clusters := FindAllClusters;
    find_kafka_instance_count := FindKafkaInstanceCount cfg;
    find_streaming_unit_count := FindStreamingUnitCountByClusterAndInstanceType cfg;
    compute_consumed := ComputeConsumedStreamingUnitCountPerInstanceType cfg
  |}.
  - intros id w r w' Hr. unfold FindClusterByID in Hr. repeat run_ok Hr. by apply exec_ok in Hr as [? _].
  - intros criteria w r w' Hr. by apply exec_ok in Hr as [? _].
  - intros criteria w l w' Hr. by apply exec_ok in Hr as (? & ? & _).
  - intros ids w l w' Hr Hne. eapply FindKafkaInstanceCount_ok in Hr as (_ & Hc & ?); [|done]. split; [|done]. intros c Hin. by apply Hc.
  - intros w l w' Hr Hnd. by eapply FindStreamingUnitCount_ok in Hr as (_ & ?).
  - intros id w m w' t Hr. by eapply ComputeConsumed_ok in Hr as (_ & ?).
  - intros id. unfold FindClusterByID. solve_read_only.
  - intros. unfold FindCluster. solve_read_only.
  - intros. unfold FindAllClusters. solve_read_only.
  - intros. unfold FindKafkaInstanceCount. solve_read_only.
  - unfold FindStreamingUnitCountByClusterAndInstanceType. solve_read_only.
  - intros. unfold ComputeConsumedStreamingUnitCountPerInstanceType. solve_read_only.
Defined.

Lemma status_counts_ok statuses present c :
  c ∈ status_counts statuses present ->
  c.(SC_Count) = Z.of_nat (length (List.filter (String.eqb c.(SC_Status)) present)).
Proof.
  unfold status_counts. intros [Hc|Hc]%elem_of_app.
  - apply list_elem_of_fmap in Hc as ([s n] & -> & ->%group_by_count). simpl.
    induction present as [|x l IH]; simpl; [done|]. rewrite IH. unfold indicator, id.
    destruct (String.eqb_spec s x), (decide (x = s)); subst; simpl; try done; lia.
  - apply list_elem_of_In, in_flat_map in Hc as (s & _ & Hin).
    destruct (Contains present s) eqn:Hp; [done|]. destruct Hin as [<-|[]]. simpl.
    apply Contains_false in Hp. rewrite (filter_ext_in' _ (fun _ => false)), filter_false; [done|].
    intros x Hx. apply String.eqb_neq. intros ->. done.
Qed.

Lemma status_counts_covers statuses present s :
  s ∈ statuses -> s ∈ map SC_Status (status_counts statuses present).
Proof.
  intros Hs. unfold status_counts. rewrite map_app, elem_of_app.
  destruct (Contains present s) eqn:Hp.
  - left. apply Contains_true in Hp. rewrite map_map.
    assert (s ∈ map fst (group_by id present)) as Hg by (rewrite group_by_keys, map_id; done).
    apply list_elem_of_fmap in Hg as ([s' n] & -> & Hin). apply list_elem_of_fmap. by exists (s', n).
  - right. apply list_elem_of_fmap. exists (mkStatusCount s 0). split; [done|].
    apply list_elem_of_In, in_flat_map. exists s. split; [by apply list_elem_of_In|]. rewrite Hp. by left.
Qed.

(** Looking up the DNS name of a cluster may store it in the cluster's row. *)
Lemma GetClusterDNS_keeps {W} `{Database W} (GetProvider : string -> result error (ClusterProvider W)) clusterID :
  (forall t p spec, GetProvider t = Ok p -> read_only (p.(Provider_GetClusterDNS) spec)) ->
  keeps_kafkas (GetClusterDNS GetProvider clusterID).
Proof.
  intros Hp. unfold GetClusterDNS. apply bind_keeps.
  - apply read_only_keeps. unfold FindClusterByID. solve_read_only.
  - intros [cluster|]; [|by apply read_only_keeps, throw_read_only]. destruct (negb _); [by apply read_only_keeps, ret_read_only|].
    unfold get_provider. intros w. unfold bind at 1, lift. destruct (GetProvider (CL.ProviderType cluster)) as [p|e] eqn:E; simpl; [|done].
    revert w. change (keeps_kafkas (clusterDNS <~ wrap_err (general "failed to get cluster DNS from OCM") (Provider_GetClusterDNS p (buildClusterSpec cluster)) ;;
      _ <~ wrap_err (general_svc "failed to update cluster DNS") (ClusterService_Update (cluster <| CL.ClusterDNS := clusterDNS |>)) ;; ret clusterDNS)).
    apply bind_keeps; [apply read_only_keeps, wrap_err_read_only; by eapply Hp|].
    intros dns. unfold ClusterService_Update. solve_keeps.
Qed.

(** ** Properties *)
Section ClusterServiceProperties.
Context {W : Type} `{Database W} (cfg : KafkaConfig).


(** [CountByStatus] reports every requested status, each with the number
    of clusters that are in it. *)
Theorem cluster_count_by_status_exact statuses w l w' :
  ClusterService_CountByStatus statuses w = (Ok l, w') ->
  (forall s, s ∈ statuses -> s ∈ map SC_Status l) /\
  (forall c, c ∈ l -> c.(SC_Status) ∈ statuses ->
     c.(SC_Count) = Z.of_nat (length (List.filter (fun cl => cl.(CL.Status) =?s c.(SC_Status)) (tables_of w).(clusters)))).
Proof.
  intros Hrun. unfold ClusterService_CountByStatus in Hrun. repeat run_ok Hrun.
  apply exec_ok in Hrun0 as [Hcs _]. split; [intros; by apply status_counts_covers|].
  intros c Hc Hs. rewrite (status_counts_ok _ _ _ Hc). f_equal.
  transitivity (length (List.filter (fun cl => cl.(CL.Status) =?s c.(SC_Status)) a)).
  - clear. induction a as [|x a IH]; simpl; [done|]. rewrite (String.eqb_sym (SC_Status c)).
    case_str; simpl; by rewrite IH.
  - rewrite Hcs, filter_filter. apply f_equal. apply filter_ext_in'. intros x _.
    destruct (String.eqb_spec (CL.Status x) (SC_Status c)) as [->|]; [|by rewrite andb_false_r].
    by rewrite (proj2 (Contains_true _ _) Hs).
Qed.

(** [UpdateMultiClusterStatus] touches the listed clusters only, gives
    them the requested status, and never moves a cluster that is being
    cleaned up back to [deprovisioning]. *)
Theorem update_multi_cluster_status_effect ids status w w' :
  UpdateMultiClusterStatus ids status w = (Ok tt, w') ->
  status <> "" /\ ids <> [] /\ kafkas (tables_of w') = kafkas (tables_of w) /\
  length (tables_of w').(clusters) = length (tables_of w).(clusters) /\
  forall i c, (tables_of w).(clusters) !! i = Some c ->
    exists c', (tables_of w').(clusters) !! i = Some c' /\ c'.(CL.ID) = c.(CL.ID) /\
      (if Contains ids c.(CL.ClusterID) && negb ((status =?s ClusterDeprovisioning) && (c.(CL.Status) =?s ClusterCleanup))
       then c'.(CL.Status) = status else c' = c).
Proof.
  intros Hrun. unfold UpdateMultiClusterStatus in Hrun. repeat run_ok Hrun.
  apply exec_ok in Hrun0 as [_ Ht]. rewrite Ht. simpl. reflect_strings.
  split_and!; [done|by destruct ids|done|apply length_map|].
  intros i c Hi. unfold update_rows. rewrite list_lookup_fmap, Hi. simpl. eexists. split; [done|].
  destruct (Contains ids (CL.ClusterID c)); simpl; [|done].
  destruct (status =?s ClusterDeprovisioning); simpl; [|done].
  destruct (CL.Status c =?s ClusterCleanup); done.
Qed.
End ClusterServiceProperties.


Lemma cluster_count_by_status_exact_witness :
  exists l w', ClusterService_CountByStatus [ClusterReady; ClusterFull] Fixtures.world = (Ok l, w') /\
    forall s, s ∈ [ClusterReady; ClusterFull] -> s ∈ map SC_Status l.
Proof.
  eexists _, _. split; [vm_compute; reflexivity|].
  edestruct (cluster_count_by_status_exact [ClusterReady; ClusterFull] Fixtures.world) as [Hcovers _];
    [vm_compute; reflexivity | exact Hcovers].
Defined.

Lemma update_multi_cluster_status_effect_witness :
  exists w', UpdateMultiClusterStatus ["c1"] ClusterDeprovisioning Fixtures.world = (Ok tt, w') /\
    length (tables_of w').(clusters) = 3%nat.
Proof.
  eexists. split; [vm_compute; reflexivity|].
  edestruct (update_multi_cluster_status_effect ["c1"] ClusterDeprovisioning Fixtures.world) as (_ & _ & _ & Hlen & _);
    [vm_compute; reflexivity | exact Hlen].
Defined.
