(* ===== verification/ClusterManager.v ===== *)
(** * The workers that drive clusters

    [src/internal/kafka/internal/workers/cluster_mgrs]: the cluster manager
    ([clusters_mgr.go]) and the workers for clusters in deprovisioning and in
    cleanup, with the add-on of the fleetshard operator
    ([src/internal/kafka/internal/services/kas_fleetshard_operator_addon.go]).

    A cluster that a loop was given is a copy of its row; a helper that changes
    its argument changes a copy of its own. *)
From S2P Require Import Prelude Arrays Errors Status Config Model Store Resources Providers ClusterService.

(** ** Interfaces *)

(** The single sign-on services.  [register_fleetshard_account] returns the
    client identifier and secret. *)
Class ClusterSso (W : Type) `{Database W} := {
  valid_issuer_uri : string;
  osd_valid_issuer_uri : string;
  register_fleetshard_account : string -> M W ServiceError (string * string);
  deregister_fleetshard_account : string -> M W ServiceError unit;
  register_client_in_sso : string -> string -> M W error string;
  deregister_client_in_sso : string -> M W ServiceError unit;

  register_fleetshard_account_ro : forall c, read_only (register_fleetshard_account c);
  deregister_fleetshard_account_ro : forall c, read_only (deregister_fleetshard_account c);
  register_client_in_sso_ro : forall c u, read_only (register_client_in_sso c u);
  deregister_client_in_sso_ro : forall c, read_only (deregister_client_in_sso c)
}.
#[export] Hint Resolve register_fleetshard_account_ro deregister_fleetshard_account_ro register_client_in_sso_ro
  deregister_client_in_sso_ro : fleet.

(** ** The add-on of the fleetshard operator *)
Definition kasFleetshardOperatorParamMasSSOBaseUrl : string := "sso-auth-server-url".
Definition KasFleetshardOperatorParamServiceAccountId : string := "sso-client-id".
Definition KasFleetshardOperatorParamServiceAccountSecret : string := "sso-secret".
Definition kasFleetshardOperatorParamClusterId : string := "cluster-id".
Definition kasFleetshardOperatorParamControlPlaneBaseURL : string := "control-plane-url".
Definition kasFleetshardOperatorParamPollinterval : string := "poll-interval".
Definition kasFleetshardOperatorParamResyncInterval : string := "resync-interval".

Definition GetParam (p : list AddonParameter) (name : string) : string :=
  match List.find (fun param => param.(Param_Id) =?s name) p with
  | Some param => param.(Param_Value)
  | None => ""
  end.

(** The values of [ServerConfig] and [KasFleetshardConfig] among the
    parameters. *)
Record AddonConfig := mkAddonConfig {
  PublicHostURL : string;
  PollInterval : string;
  ResyncInterval : string
}.

Definition has_credentials (cluster : Cluster) : bool := negb (cluster.(CL.ClientID) =?s "") && negb (cluster.(CL.ClientSecret) =?s "").

Section Workers.
Context {W : Type} `{Database W} `{IdSource W} `{!ClusterSso W}.
Context (GetProvider : string -> result error (ClusterProvider W)).
Context (kafkaConfig : KafkaConfig) (dp : DataplaneClusterConfig) (settings : DataplaneSettings).
Context (obs : ObservabilityConfiguration) (ocm : OCMConfig) (addon : AddonConfig).

(** [account] is the service account, present when the cluster has none. *)
Definition buildAddonParams (cluster : Cluster) (account : option (string * string)) : list AddonParameter :=
  let '(clientId, clientSecret) :=
    if has_credentials cluster then (cluster.(CL.ClientID), cluster.(CL.ClientSecret)) else default ("", "") account in
  [ mkParameter kasFleetshardOperatorParamMasSSOBaseUrl valid_issuer_uri;
    mkParameter KasFleetshardOperatorParamServiceAccountId clientId;
    mkParameter KasFleetshardOperatorParamServiceAccountSecret clientSecret;
    mkParameter kasFleetshardOperatorParamControlPlaneBaseURL addon.(PublicHostURL);
    mkParameter kasFleetshardOperatorParamClusterId cluster.(CL.ClusterID);
    mkParameter kasFleetshardOperatorParamPollinterval addon.(PollInterval);
    mkParameter kasFleetshardOperatorParamResyncInterval addon.(ResyncInterval) ].

Definition GetAddonParams (cluster : Cluster) : M W ServiceError (list AddonParameter) :=
  if negb (has_credentials cluster) then
    acc <~ wrap_err (fun _ => GeneralError "failed to create service account for cluster %s due to error: %v")
             (register_fleetshard_account cluster.(CL.ClusterID)) ;;
    ret (buildAddonParams cluster (Some acc))
  else ret (buildAddonParams cluster None).

(** The specification that the add-on builds leaves the status details out. *)
Definition addon_spec (cluster : Cluster) : ClusterSpec :=
  mkClusterSpec cluster.(CL.ClusterID) cluster.(CL.ExternalID) cluster.(CL.Status) cluster.(CL.MultiAZ) cluster.(CL.Region)
    cluster.(CL.CloudProvider) cluster.(CL.ClusterSpec) "".

Definition Provision (cluster : Cluster) : M W ServiceError (bool * list AddonParameter) :=
  params <~ GetAddonParams cluster ;;
  p <~ get_provider GetProvider cluster ;;
  ready <~ wrap_err (general "failed to install addon %s for cluster %s") (p.(Provider_InstallKasFleetshard) (addon_spec cluster) params) ;;
  ret (ready, params).

Definition ReconcileParameters (cluster : Cluster) : M W ServiceError (list AddonParameter) :=
  params <~ GetAddonParams cluster ;;
  p <~ get_provider GetProvider cluster ;;
  _ <~ wrap_err (general "failed to update parameters for addon %s for cluster %s")
         (p.(Provider_InstallKasFleetshard) (addon_spec cluster) params) ;;
  ret params.

Definition RemoveServiceAccount (cluster : Cluster) : M W ServiceError unit := deregister_fleetshard_account cluster.(CL.ClusterID).

(** ** Reconciling one cluster *)
Definition svc {A} (reason : string) (m : M W ServiceError A) : M W error A := wrap_err (fun e => EWrap reason (EService e)) m.
Definition plain {A} (m : M W ServiceError A) : M W error A := wrap_err EService m.

Definition reconcileClusterResources (cluster : Cluster) : M W error unit :=
  svc "failed to apply resources for cluster %s"
    (ApplyResources GetProvider cluster (buildResourceSet obs settings valid_issuer_uri ocm cluster)).

Definition reconcileClusterDNS (cluster : Cluster) : M W error unit :=
  if negb (cluster.(CL.ClusterDNS) =?s "") then ret tt
  else _ <~ svc "failed to reconcile cluster %s: GetClusterDNS %s" (GetClusterDNS GetProvider cluster.(CL.ClusterID)) ;; ret tt.

(** Stores the credentials of a new service account. *)
Definition save_credentials (cluster : Cluster) (params : list AddonParameter) : M W error unit :=
  if negb (has_credentials cluster) then
    svc "failed to reconcile clientID of %s cluster %s: %s"
      (ClusterService_Update (cluster <| CL.ClientID := GetParam params KasFleetshardOperatorParamServiceAccountId |>
                                      <| CL.ClientSecret := GetParam params KasFleetshardOperatorParamServiceAccountSecret |>))
  else ret tt.

Definition reconcileKasFleetshardOperator (cluster : Cluster) : M W error unit :=
  params <~ svc "failed to reconcile kas-fleet-shard parameters of %s cluster %s: %s" (ReconcileParameters cluster) ;;
  save_credentials cluster params.

Definition callback_uri (clusterDNS : string) : string :=
  "https://oauth-openshift." +:+ clusterDNS +:+ "/oauth2callback/" +:+ openIDIdentityProviderName.

Definition reconcileClusterIdentityProvider (cluster : Cluster) : M W error unit :=
  if negb settings.(EnableKafkaSreIdentityProviderConfiguration) then ret tt
  else if negb (cluster.(CL.IdentityProviderID) =?s "") then ret tt
  else
    clusterDNS <~ svc "failed to reconcile cluster identity provider %s: %s" (GetClusterDNS GetProvider cluster.(CL.ClusterID)) ;;
    clientSecret <~ wrap_err (EWrap "failed to reconcile cluster identity provider %s: %s")
                      (register_client_in_sso cluster.(CL.ID) (callback_uri clusterDNS)) ;;
    let idpInfo := mkIdentityProviderInfo (Some (mkOpenIDIdentityProviderInfo "" openIDIdentityProviderName cluster.(CL.ID)
                                                   clientSecret osd_valid_issuer_uri)) in
    _ <~ plain (ConfigureAndSaveIdentityProvider GetProvider cluster idpInfo) ;;
    ret tt.

(** The instance type of the manual configuration, or both. *)
Definition reconcileClusterInstanceType (cluster : Cluster) : M W error unit :=
  let manualScalingEnabled := IsDataPlaneManualScalingEnabled dp in
  let found := if manualScalingEnabled then GetClusterSupportedInstanceType dp.(DP_ClusterConfig) cluster.(CL.ClusterID) else None in
  let unset := cluster.(CL.SupportedInstanceType) =?s "" in
  if manualScalingEnabled && negb (bool_decide (is_Some found)) && negb unset then ret tt
  else if negb unset && negb manualScalingEnabled then ret tt
  else
    let supportedInstanceType := default AllInstanceTypeSupport found in
    if negb (cluster.(CL.SupportedInstanceType) =?s supportedInstanceType) then
      svc "failed to update instance type in database for cluster %s"
        (ClusterService_Update (cluster <| CL.SupportedInstanceType := supportedInstanceType |>))
    else ret tt.

(** The capacity of each instance type before any report. *)
Definition initial_capacity (cfg : ComputeMachinesConfig) (types : list string) : gmap string DynamicCapacityInfo :=
  foldl (fun m t => match GetKafkaWorkloadConfigForInstanceType cfg t with
                    | None => m
                    | Some config => <[ t := mkDynamicCapacityInfo (int32 config.(ComputeNodesAutoscaling).(MaxComputeNodes)) 0 0 ]> m
                    end) ∅ types.

Definition reconcileDynamicCapacityInfo (cluster : Cluster) : M W error unit :=
  if IsDataPlaneAutoScalingEnabled dp && bool_decide (RetrieveDynamicCapacityInfo cluster <> ∅) then ret tt
  else
    updatedDynamicCapacityInfo <~
      lift (if IsDataPlaneAutoScalingEnabled dp then
              computeMachinesConfig <-! map_err (EWrap "clusterID's %q cloud provider %q is not a recognized cloud provider")
                                          (DefaultComputeMachinesConfig settings (ParseCloudProviderID cluster.(CL.CloudProvider))) ;;
              Ok (initial_capacity computeMachinesConfig (GetSupportedInstanceTypes cluster))
            else Ok ∅) ;;
    svc "failed to update instance type in database for cluster %s"
      (ClusterService_Update (SetDynamicCapacityInfo cluster updatedDynamicCapacityInfo)).

Definition reconcileReadyCluster (cluster : Cluster) : M W error unit :=
  if negb settings.(EnableReadyDataPlaneClustersReconcile) then ret tt
  else if cluster.(CL.ClusterType) =?s EnterpriseDataPlaneClusterType then ret tt
  else
    _ <~ wrap_err (EWrap "failed to reconcile instance type ready cluster %s: %s") (reconcileClusterInstanceType cluster) ;;
    _ <~ wrap_err (EWrap "failed to reconcile dynamic capacity info for ready cluster %s: %s") (reconcileDynamicCapacityInfo cluster) ;;
    _ <~ wrap_err (EWrap "failed to reconcile ready cluster resources %s ") (reconcileClusterResources cluster) ;;
    _ <~ wrap_err (EWrap "failed to reconcile cluster dns of ready cluster %s: %s") (reconcileClusterDNS cluster) ;;
    _ <~ wrap_err (EWrap "failed to reconcile identity provider of ready cluster %s: %s") (reconcileClusterIdentityProvider cluster) ;;
    wrap_err (EWrap "failed to reconcile Kas Fleetshard Operator of ready cluster %s: %s") (reconcileKasFleetshardOperator cluster).

Definition reconcileWaitingForKasFleetshardOperatorCluster (cluster : Cluster) : M W error unit :=
  _ <~ wrap_err (EWrap "failed to reconcile  waiting for Kas Fleetshard Operator cluster resources '%s'") (reconcileClusterResources cluster) ;;
  _ <~ wrap_err (EWrap "failed to reconcile identity provider of waiting for Kas Fleetshard Operator cluster %s: %s")
         (reconcileClusterIdentityProvider cluster) ;;
  wrap_err (EWrap "failed to reconcile Kas Fleetshard Operator of waiting for Kas Fleetshard Operator cluster %s: %s")
    (reconcileKasFleetshardOperator cluster).

Definition buildMachinePoolRequest (machinePoolID supportedInstanceType : string) (cluster : Cluster) : result error MachinePoolRequest :=
  computeMachinesConfig <-! map_err (EWrap "clusterID's %q cloud provider %q is not a recognized cloud provider")
                              (DefaultComputeMachinesConfig settings (ParseCloudProviderID cluster.(CL.CloudProvider))) ;;
  match GetKafkaWorkloadConfigForInstanceType computeMachinesConfig supportedInstanceType with
  | None => Err (EPlain "no dynamic scaling configuration found for instance type '%s'")
  | Some dynamicScalingConfig =>
      let nodes := dynamicScalingConfig.(ComputeNodesAutoscaling) in
      Ok (mkMachinePoolRequest machinePoolID dynamicScalingConfig.(ComputeMachineType) cluster.(CL.MultiAZ) true
            (mkMachinePoolAutoScaling nodes.(MinComputeNodes) nodes.(MaxComputeNodes)) cluster.(CL.ClusterID)
            {[ kafkaInstanceProfileType := supportedInstanceType ]}
            [mkClusterNodeTaint "NoExecute" kafkaInstanceProfileType supportedInstanceType])
  end.

(** One pool: the largest number of nodes it may have. *)
Definition reconcile_machine_pool (p : ClusterProvider W) (cluster : Cluster) (supportedInstanceType : string) : M W error Z :=
  let machinePoolID := "kafka-" +:+ supportedInstanceType in
  existing <~ p.(Provider_GetMachinePool) cluster.(CL.ClusterID) machinePoolID ;;
  match existing with
  | Some pool => ret (int32 pool.(MPI_AutoScaling).(MaxNodes_))
  | None =>
      request <~ lift (buildMachinePoolRequest machinePoolID supportedInstanceType cluster) ;;
      _ <~ p.(Provider_CreateMachinePool) request ;;
      ret (int32 request.(MPR_AutoScaling).(MaxNodes_))
  end.

Fixpoint reconcile_machine_pools (p : ClusterProvider W) (cluster : Cluster) (types : list string) (info : gmap string DynamicCapacityInfo)
  : M W error (gmap string DynamicCapacityInfo) :=
  match types with
  | [] => ret info
  | t :: types' =>
      n <~ reconcile_machine_pool p cluster t ;;
      reconcile_machine_pools p cluster types' (<[ t := mkDynamicCapacityInfo n 0 0 ]> info)
  end.

Definition reconcileClusterMachinePools (cluster : Cluster) : M W error bool :=
  if negb (IsDataPlaneAutoScalingEnabled dp) then ret true
  else
    providerClient <~ lift (GetProvider cluster.(CL.ProviderType)) ;;
    dynamicCapacityInfo <~ reconcile_machine_pools providerClient cluster (GetSupportedInstanceTypes cluster) ∅ ;;
    _ <~ svc "failed to update cluster" (ClusterService_Update (SetDynamicCapacityInfo cluster dynamicCapacityInfo)) ;;
    ret true.

Definition reconcileStrimziOperator (cluster : Cluster) : M W error bool := plain (InstallStrimzi GetProvider cluster).
Definition reconcileClusterLoggingOperator (cluster : Cluster) : M W error bool :=
  plain (InstallClusterLogging GetProvider cluster clusterLoggingOperatorAddonParams).

Definition reconcileAddonOperator (cluster : Cluster) : M W error bool :=
  strimziOperatorIsReady <~ reconcileStrimziOperator cluster ;;
  clusterLoggingOperatorIsReady <~ (if negb (ocm.(ClusterLoggingOperatorAddonID) =?s "") then reconcileClusterLoggingOperator cluster else ret false) ;;
  provisioned <~ plain (Provision cluster) ;;
  let '(kasFleetshardOperatorIsReady, params) := provisioned in
  _ <~ save_credentials cluster params ;;
  ret (strimziOperatorIsReady && kasFleetshardOperatorIsReady &&
       (clusterLoggingOperatorIsReady || (ocm.(ClusterLoggingOperatorAddonID) =?s ""))).

Definition reconcileProvisionedCluster (cluster : Cluster) : M W error unit :=
  machinePoolsReconciled <~ reconcileClusterMachinePools cluster ;;
  _ <~ reconcileClusterDNS cluster ;;
  _ <~ reconcileClusterIdentityProvider cluster ;;
  _ <~ wrap_err (EWrap "failed to reconcile cluster %s SyncSet: %s") (reconcileClusterResources cluster) ;;
  addonsReconciled <~ wrap_err (EWrap "failed to reconcile cluster %s addon operator: %s") (reconcileAddonOperator cluster) ;;
  if machinePoolsReconciled && addonsReconciled then
    svc "failed to update local cluster %s status: %s" (ClusterService_UpdateStatus cluster ClusterWaitingForKasFleetShardOperator)
  else ret tt.

Definition reconcileAcceptedCluster (cluster : Cluster) : M W error unit := fun w =>
  (_ <~ svc "failed to create cluster for request %s" (ClusterService_Create GetProvider (new_id w) cluster) ;; ret tt) w.

Definition reconcileClusterStatus (cluster : Cluster) : M W error Cluster := plain (CheckClusterStatus GetProvider cluster).

(** ** The passes of the cluster manager *)

(** The loops of the manager: a pass over one cluster may report several
    errors. *)
Fixpoint gather (f : Cluster -> W -> list error * W) (l : list Cluster) (w : W) : list error * W :=
  match l with
  | [] => ([], w)
  | c :: l' =>
      let '(errs1, w1) := f c w in
      let '(errs2, w2) := gather f l' w1 in
      (errs1 ++ errs2, w2)
  end.

(** The errors of a computation that is logged and left behind. *)
Definition errs_of {A} (m : M W error A) : W -> list error * W := fun w =>
  match m w with
  | (Ok _, w') => ([], w')
  | (Err e, w') => ([e], w')
  end.

(** One computation after the other, whatever their outcomes. *)
Definition andThen (f g : W -> list error * W) : W -> list error * W := fun w =>
  let '(errs1, w1) := f w in
  let '(errs2, w2) := g w1 in
  (errs1 ++ errs2, w2).

Definition is_enterprise (cluster : Cluster) : bool := cluster.(CL.ClusterType) =?s EnterpriseDataPlaneClusterType.

(** Lists the clusters in a status and processes each. *)
Definition process (status reason : string) (f : Cluster -> W -> list error * W) : W -> list error * W := fun w =>
  match ClusterService_ListByStatus status w with
  | (Err e, w1) => ([EWrap reason (EService e)], w1)
  | (Ok l, w1) => gather f l w1
  end.

Definition processAcceptedClusters : W -> list error * W :=
  process ClusterAccepted "failed to list accepted clusters" (fun cluster =>
    if negb (is_enterprise cluster) then
      errs_of (wrap_err (EWrap "failed to reconcile accepted cluster %s") (reconcileAcceptedCluster cluster))
    else
      errs_of (svc "failed to update status of accepted %s cluster %s"
                 (ClusterService_Update (cluster <| CL.Status := ClusterProvisioning |>)))).

Definition processProvisioningClusters : W -> list error * W :=
  process ClusterProvisioning "failed to list pending clusters" (fun provisioningCluster =>
    if negb (is_enterprise provisioningCluster) then
      errs_of (wrap_err (EWrap "failed to reconcile cluster %s status") (reconcileClusterStatus provisioningCluster))
    else
      errs_of (svc "failed to update status of accepted %s cluster %s"
                 (ClusterService_Update (provisioningCluster <| CL.Status := ClusterProvisioned |>)))).

(** The status of an enterprise cluster moves on even when its resources could
    not be applied. *)
Definition processProvisionedClusters : W -> list error * W :=
  process ClusterProvisioned "failed to list provisioned clusters" (fun provisionedCluster =>
    if negb (is_enterprise provisionedCluster) then
      errs_of (wrap_err (EWrap "failed to reconcile provisioned cluster %s") (reconcileProvisionedCluster provisionedCluster))
    else
      andThen
        (errs_of (wrap_err (EWrap "failed to create or update resource set of provisioned %s cluster %s")
                    (reconcileClusterResources provisionedCluster)))
        (errs_of (svc "failed to update status of provisioned %s cluster %s"
                    (ClusterService_Update (provisionedCluster <| CL.Status := ClusterWaitingForKasFleetShardOperator |>))))).

Definition processWaitingForKasFleetshardOperatorClusters : W -> list error * W :=
  process ClusterWaitingForKasFleetShardOperator "failed to list waiting for Kas Fleetshard Operator clusters" (fun waitingCluster =>
    if negb (is_enterprise waitingCluster) then
      errs_of (wrap_err (EWrap "failed to reconcile waiting for Kas Fleetshard Operator cluster %s")
                 (reconcileWaitingForKasFleetshardOperatorCluster waitingCluster))
    else
      errs_of (wrap_err (EWrap "failed to create or update resource set of %s cluster %s waiting for kas fleetshard operator")
                 (reconcileClusterResources waitingCluster))).

Definition processReadyClusters : W -> list error * W :=
  process ClusterReady "failed to list ready clusters" (fun readyCluster =>
    if negb (is_enterprise readyCluster) then
      errs_of (wrap_err (EWrap "failed to reconcile ready cluster %s") (reconcileReadyCluster readyCluster))
    else
      errs_of (wrap_err (EWrap "failed to create or update resource set of ready %s cluster %s") (reconcileClusterResources readyCluster))).

(** *** The clusters of the manual configuration *)
Definition manual_request (p : ManualCluster) : Cluster :=
  CL.mkCluster "" 0 0 p.(MC_CloudProvider) p.(MC_ClusterId) "" p.(MC_MultiAZ) p.(MC_Region) p.(MC_Status) "" "" p.(MC_ClusterDNS) "" ""
    p.(MC_ProviderType) None None JNull p.(MC_SupportedInstanceType) JNull ManagedDataPlaneClusterType "" false.

Definition register_missing (p : ManualCluster) : M W error unit := fun w =>
  svc "failed to register new cluster %s with config file" (RegisterClusterJob (new_id w) (manual_request p)) w.

(** The map from cluster identifiers to clusters, by its keys. *)
Definition clusterIdsMap (allClusterIds : list string) : list (string * string) :=
  map (fun id => (id, id)) (remove_dups allClusterIds).

(** The clusters that no Kafka uses. *)
Definition empty_clusters (kafkaInstanceCount : list ResKafkaInstanceCount) : list string :=
  flat_map (fun c => if 0 <? c.(KIC_Count) then [] else [c.(KIC_ClusterID)]) kafkaInstanceCount.

Definition deprovision_excess (excessClusterIds : list string) : M W error unit :=
  kafkaInstanceCount <~ wrap_err (EWrap "failed to find kafka count for cluster: %s") (FindKafkaInstanceCount kafkaConfig excessClusterIds) ;;
  let idsOfClustersToDeprovision := empty_clusters kafkaInstanceCount in
  if IsEmpty idsOfClustersToDeprovision then ret tt
  else svc "failed to deprovisioning a cluster: %s" (UpdateMultiClusterStatus idsOfClustersToDeprovision ClusterDeprovisioning).

Definition manual_config : M W error unit :=
  allClusterIds <~ svc "failed to retrieve cluster ids from clusters" ListNonEnterpriseClusterIDs ;;
  let idsMap := clusterIdsMap allClusterIds in
  _ <~ for_each register_missing (MissingClusters dp.(DP_ClusterConfig) idsMap) ;;
  let excessClusterIds := ExcessClusters dp.(DP_ClusterConfig) idsMap in
  if IsEmpty excessClusterIds then ret tt else deprovision_excess excessClusterIds.

Definition reconcileClusterWithManualConfig : W -> list error * W :=
  if negb (IsDataPlaneManualScalingEnabled dp) then fun w => ([], w) else errs_of manual_config.

(** *** Metrics: what is read, and the errors *)
Definition clusterMetricsStatuses : list string :=
  [ClusterAccepted; ClusterProvisioning; ClusterProvisioned; ClusterCleanup; ClusterWaitingForKasFleetShardOperator; ClusterReady;
   ClusterFull; ClusterFailed; ClusterDeprovisioning].

Definition setClusterStatusCountMetrics : M W error (list StatusCount) := plain (ClusterService_CountByStatus clusterMetricsStatuses).

(** The samples: cluster, external identifier and count. *)
Fixpoint kafka_per_cluster_samples (counters : list ResKafkaInstanceCount) : M W error (list (string * string * Z)) :=
  match counters with
  | [] => ret []
  | counter :: counters' =>
      if counter.(KIC_ClusterID) =?s "" then kafka_per_cluster_samples counters'
      else
        clusterExternalID <~ plain (GetExternalID counter.(KIC_ClusterID)) ;;
        rest <~ kafka_per_cluster_samples counters' ;;
        ret ((counter.(KIC_ClusterID), clusterExternalID, counter.(KIC_Count)) :: rest)
  end.

Definition setKafkaPerClusterCountMetrics : M W error (list (string * string * Z)) :=
  counters <~ FindKafkaInstanceCount kafkaConfig [] ;;
  kafka_per_cluster_samples counters.

Definition setClusterProviderResourceQuotaMetrics : M W error (list QuotaCost) :=
  if negb (HasCredentials ocm) then ret []
  else
    provider <~ lift (GetProvider ClusterProviderOCM) ;;
    provider.(Provider_GetClusterResourceQuotaCosts).

Definition processMetrics : W -> list error * W :=
  andThen (errs_of (wrap_err (EWrap "failed to set cluster status count metrics") setClusterStatusCountMetrics))
    (andThen (errs_of (wrap_err (EWrap "failed to set kafka per cluster count metrics") setKafkaPerClusterCountMetrics))
       (errs_of (wrap_err (EWrap "failed to set cluster provider resource quota metrics") setClusterProviderResourceQuotaMetrics))).

Definition ClusterManager_Reconcile : W -> list error * W :=
  foldr andThen (fun w => ([], w))
    [ processMetrics;
      reconcileClusterWithManualConfig;
      processAcceptedClusters;
      processProvisioningClusters;
      processProvisionedClusters;
      processWaitingForKasFleetshardOperatorClusters;
      processReadyClusters ].

(** ** Clusters in deprovisioning *)
Definition reconcileDeprovisioningEnterpriseCluster (cluster : Cluster) : M W error unit :=
  _ <~ plain (RemoveResources GetProvider cluster syncsetName) ;;
  plain (ClusterService_UpdateStatus cluster ClusterCleanup).

Definition reconcileDeprovisioningCluster (cluster : Cluster) : M W error unit :=
  nonEmptyCluster <~ plain (FindNonEmptyClusterByID cluster.(CL.ClusterID)) ;;
  match nonEmptyCluster with
  | Some _ => plain (ClusterService_UpdateStatus cluster ClusterReady)
  | None =>
      deleted <~ plain (ClusterService_Delete GetProvider cluster) ;;
      if negb deleted then ret tt
      else svc "failed to update deprovisioning cluster %s status to 'cleanup'" (ClusterService_UpdateStatus cluster ClusterCleanup)
  end.

(** The list of errors of a pass, as [ErrorList] accumulates it. *)
Definition add_all (p : W -> list error * W) : W -> list error * W := fun w =>
  let '(errs, w') := p w in (AddErrors [] errs, w').

Definition processDeprovisioningClusters : W -> list error * W := fun w =>
  match ClusterService_ListByStatus ClusterDeprovisioning w with
  | (Err e, w1) => (AddErrors [] [EService e], w1)
  | (Ok l, w1) =>
      add_all (gather (fun cluster =>
        errs_of (wrap_err (EWrap "failed to reconcile deprovisioning cluster %s")
                   (if negb (is_enterprise cluster) then reconcileDeprovisioningCluster cluster
                    else reconcileDeprovisioningEnterpriseCluster cluster))) l) w1
  end.

(** The pass returns its errors as one [ErrorList], which is unrolled again. *)
Definition worker_errors (p : W -> list error * W) : W -> list error * W := fun w =>
  let '(errs, w') := p w in
  (if ErrorList_IsEmpty errs then [] else AddErrors [] [EList errs], w').

Definition Deprovisioning_Reconcile : W -> list error * W := worker_errors processDeprovisioningClusters.

(** ** Clusters in cleanup *)
Definition reconcileCleanupEnterpriseCluster (cluster : Cluster) : M W error unit :=
  _ <~ svc "failed to removed Dataplane cluster %s fleetshard service account" (RemoveServiceAccount cluster) ;;
  svc "failed to hard delete Dataplane cluster %s from the database" (HardDeleteByClusterID cluster.(CL.ClusterID)).

Definition reconcileCleanupCluster (cluster : Cluster) : M W error unit :=
  _ <~ (if settings.(EnableKafkaSreIdentityProviderConfiguration)
        then svc "failed to removed Dataplane cluster %s IDP client" (deregister_client_in_sso cluster.(CL.ID)) else ret tt) ;;
  _ <~ svc "failed to removed Dataplane cluster %s fleetshard service account" (RemoveServiceAccount cluster) ;;
  svc "failed to soft delete Dataplane cluster %s from the database" (DeleteByClusterID cluster.(CL.ClusterID)).

Definition processCleanupClusters : W -> list error * W :=
  add_all (process ClusterCleanup "failed to list of cleanup clusters" (fun cluster =>
    if negb (is_enterprise cluster) then
      errs_of (wrap_err (EWrap "failed to reconcile cleanup cluster %s") (reconcileCleanupCluster cluster))
    else
      errs_of (wrap_err (EWrap "failed to reconcile cleanup enterprise cluster %s") (reconcileCleanupEnterpriseCluster cluster)))).

Definition Cleanup_Reconcile : W -> list error * W := worker_errors processCleanupClusters.
End Workers.
