(* ===== verification/ClusterLifecycle.v ===== *)
(** * The life of a cluster

    What a pass of the cluster workers ([ClusterManager.v]) does to the cluster
    table, for any database, any cluster providers that keep their interface's
    promises ([ProviderLaws]) and any single sign-on service. *)
From S2P Require Import Prelude Arrays Errors Status Config Model Store Resources Providers Fixtures ClusterService ClusterManager.

(** ** Columns *)

(** The rows by primary key, with one of their columns. *)
Definition column (π : Cluster -> string) (cs : list Cluster) : list (string * string) := map (fun c => (c.(CL.ID), π c)) cs.

(** The primary keys are distinct, and set. *)
Definition rows_keyed (l : list (string * string)) : Prop := NoDup l.*1 /\ "" ∉ l.*1.
#[export] Instance rows_keyed_dec l : Decision (rows_keyed l) := and_dec _ _.

(** A row after work on the row [i], which may leave it at a value of [S]. *)
Definition touched (i : string) (S : list string) (r r' : string * string) : Prop :=
  r' = r \/ (r.1 = i /\ r'.1 = i /\ r'.2 ∈ S).

Lemma Forall2_same {A} (R : A -> A -> Prop) l : (forall x, R x x) -> Forall2 R l l.
Proof. intros HR. induction l; by constructor. Qed.

Lemma Forall2_impl_in {A B} (R R' : A -> B -> Prop) l l' :
  Forall2 R l l' -> (forall x y, x ∈ l -> R x y -> R' x y) -> Forall2 R' l l'.
Proof. induction 1 as [|x y l l' Hx Hl IH]; intros HR; constructor; [apply HR; [left|done]|]. apply IH. intros. apply HR; [by right|done]. Qed.

Lemma same_keys (R : string * string -> string * string -> Prop) l l' :
  Forall2 R l l' -> (forall r r', R r r' -> r'.1 = r.1) -> l'.*1 = l.*1.
Proof. intros Hl HR. induction Hl as [|r r' l l' Hr Hl IH]; [done|]. rewrite !fmap_cons, IH. f_equal. by apply HR. Qed.

Lemma touched_refl i S l : Forall2 (touched i S) l l.
Proof. apply Forall2_same. intros r. by left. Qed.

Lemma touched_elem i S l l' j v : Forall2 (touched i S) l l' -> (j, v) ∈ l -> j <> i -> (j, v) ∈ l'.
Proof.
  induction 1 as [|r r' l l' Hr Hl IH]; intros Hin Hne; [set_solver|]. apply elem_of_cons in Hin as [<-|Hin]; [|right; auto].
  destruct Hr as [->|(Hi & _ & _)]; [by left|]. by simpl in Hi.
Qed.

Lemma touched_keys i S l l' : Forall2 (touched i S) l l' -> l'.*1 = l.*1.
Proof. intros Hl. eapply same_keys; [exact Hl|]. intros r r' [->|(? & ? & _)]; congruence. Qed.

Lemma keyed_unique (l : list (string * string)) i v v' : rows_keyed l -> (i, v) ∈ l -> (i, v') ∈ l -> v = v'.
Proof.
  intros [Hnd _] H1 H2. induction l as [|[j u] l IH]; [set_solver|]. rewrite fmap_cons in Hnd. apply NoDup_cons in Hnd as [Hj Hnd].
  assert (forall u', (j, u') ∉ l) as Hj' by (intros u' Hin; apply Hj, list_elem_of_fmap; by exists (j, u')).
  apply elem_of_cons in H1, H2. destruct H1 as [H1|H1], H2 as [H2|H2]; [congruence|..|by apply IH];
    simplify_eq; exfalso; by eapply Hj'.
Qed.

Section Steady.
Context {W : Type} `{Database W}.
Context (π : Cluster -> string).

Definition column_of (w : W) : list (string * string) := column π (tables_of w).(clusters).

(** The row [i] is there, with the value [v]. *)
Definition at_row (i v : string) (w : W) : Prop := rows_keyed (column_of w) /\ (i, v) ∈ column_of w.

(** Work that leaves the column as it is when row [i] has the value [v]. *)
Definition steady {E A} (i v : string) (m : M W E A) : Prop :=
  forall w, at_row i v w -> column_of (snd (m w)) = column_of w.

(** Work that may give row [i] a value of [S]. *)
Definition settles {E A} (i v : string) (S : list string) (m : M W E A) : Prop :=
  forall w, at_row i v w -> Forall2 (touched i S) (column_of w) (column_of (snd (m w))).

Lemma at_row_cong i v w w' : column_of w' = column_of w -> at_row i v w -> at_row i v w'.
Proof. unfold at_row. by intros ->. Qed.

Lemma read_only_steady {E A} i v (m : M W E A) : read_only m -> steady i v m.
Proof. intros Hm w _. unfold column_of. by rewrite Hm. Qed.

Lemma bind_steady {E A B} i v (m : M W E A) (k : A -> M W E B) :
  steady i v m -> (forall a, steady i v (k a)) -> steady i v (bind m k).
Proof.
  intros Hm Hk w Hw. unfold bind. specialize (Hm w Hw). destruct (m w) as [[a|e] w1]; simpl in *; [|done].
  rewrite <- Hm. apply Hk. by eapply at_row_cong.
Qed.

Lemma wrap_err_steady {E E' A} i v (f : E -> E') (m : M W E A) : steady i v m -> steady i v (wrap_err f m).
Proof. intros Hm w Hw. unfold wrap_err. specialize (Hm w Hw). by destruct (m w). Qed.

Lemma steady_settles {E A} i v S (m : M W E A) : steady i v m -> settles i v S m.
Proof. intros Hm w Hw. rewrite Hm by done. apply touched_refl. Qed.

Lemma bind_settles {E A B} i v S (m : M W E A) (k : A -> M W E B) :
  steady i v m -> (forall a, settles i v S (k a)) -> settles i v S (bind m k).
Proof.
  intros Hm Hk w Hw. unfold bind. specialize (Hm w Hw). destruct (m w) as [[a|e] w1]; simpl in *.
  - rewrite <- Hm. apply Hk. by eapply at_row_cong.
  - rewrite Hm. apply touched_refl.
Qed.

(** A settling step followed by reads. *)
Lemma bind_settles_ro {E A B} i v S (m : M W E A) (k : A -> M W E B) :
  settles i v S m -> (forall a, read_only (k a)) -> settles i v S (bind m k).
Proof.
  intros Hm Hk w Hw. unfold bind. specialize (Hm w Hw). destruct (m w) as [[a|e] w1]; simpl in *; [|done].
  unfold column_of in *. by rewrite Hk.
Qed.

Lemma wrap_err_settles {E E' A} i v S (f : E -> E') (m : M W E A) : settles i v S m -> settles i v S (wrap_err f m).
Proof. intros Hm w Hw. unfold wrap_err. specialize (Hm w Hw). by destruct (m w). Qed.

Lemma settles_same {E A} i v (m : M W E A) : settles i v [v] m -> steady i v m.
Proof.
  intros Hm w Hw. specialize (Hm w Hw). destruct Hw as [Hk Hv].
  assert (forall r, r ∈ column_of w -> r.1 = i -> r.2 = v) as Hu.
  { intros [j u] Hr Hj. simpl in *. subst. by eapply keyed_unique. }
  clear Hk Hv. induction Hm as [|r r' l l' Hr Hl IH]; [done|]. f_equal.
  - destruct Hr as [->|(H1 & H2 & H3)]; [done|]. specialize (Hu r). destruct r, r'; simpl in *. f_equal; [congruence|].
    rewrite Hu; [|left|done]. set_solver.
  - apply IH. intros r0 Hr0. apply Hu. by right.
Qed.

Lemma settles_weaken {E A} i v S S' (m : M W E A) : settles i v S m -> (forall x, x ∈ S -> x ∈ S') -> settles i v S' m.
Proof.
  intros Hm HS w Hw. eapply Forall2_impl; [by apply Hm|]. intros r r' [->|(? & ? & ?)]; [by left|]. right. auto.
Qed.

(** An update of the row [i] only. *)
Lemma UpdateClusters_settles i v S p f :
  (forall c t, p c = true -> c.(CL.ID) = i /\ (touch_cluster t (f c)).(CL.ID) = i /\ (π c = v -> π (touch_cluster t (f c)) ∈ S)) ->
  settles i v S (exec (UpdateClusters p f)).
Proof.
  intros Hp w [Hk Hv]. destruct (exec (UpdateClusters p f) w) as [[n|e] w'] eqn:He; simpl; unfold column_of.
  2:{ rewrite (exec_err _ _ _ _ _ He). apply touched_refl. }
  apply exec_ok in He as [_ ->]. simpl. unfold column, update_rows. rewrite map_map.
  apply Forall2_fmap, Forall_Forall2_diag, Forall_forall. intros c Hc. simpl.
  destruct (p c) eqn:Hpc; [|by left]. destruct (Hp c (time_now w) Hpc) as (H1 & H2 & H3). right. split_and!; [done..|].
  apply H3. eapply (keyed_unique (column_of w) i); [done| |done].
  apply list_elem_of_fmap. exists c. by rewrite H1.
Qed.
End Steady.

(** ** The service's updates *)
Section ServiceUpdates.
Context {W : Type} `{Database W}.
Context (π : Cluster -> string) (Hπ : π = CL.Status \/ π = CL.SupportedInstanceType).

Lemma column_merge t new old : π (touch_cluster t (CL.merge_nonzero new old)) = pick_string (π new) (π old).
Proof using Hπ. by destruct Hπ as [-> | ->]. Qed.

Lemma Update_settles i v S c : c.(CL.ID) = i -> pick_string (π c) v ∈ S -> settles π i v S (ClusterService_Update c).
Proof using Hπ.
  intros Hid HS. unfold ClusterService_Update. destruct (CL.ID c =?s ""); [by apply steady_settles, read_only_steady, throw_read_only|].
  apply bind_settles_ro; [|intros; apply ret_read_only]. apply wrap_err_settles, UpdateClusters_settles.
  intros row t Hrow. apply String.eqb_eq in Hrow. split_and!; [congruence|by transitivity (CL.ID row); [|congruence]|]. intros <-. by rewrite column_merge.
Qed.

Lemma Update_steady i v c : c.(CL.ID) = i -> π c = v -> steady π i v (ClusterService_Update c).
Proof using Hπ.
  intros Hid Hc. apply settles_same, Update_settles; [done|]. rewrite Hc. unfold pick_string. destruct (v =?s "") eqn:E; set_solver.
Qed.

(** A successful update from a copy gives the row the value of the copy. *)
Lemma Update_sets c w w' i v l :
  ClusterService_Update c w = (Ok tt, w') -> c.(CL.ID) = i -> π c = v -> v <> "" ->
  rows_keyed l -> (i, v) ∈ l -> (exists S, Forall2 (touched i S) l (column_of π w)) -> column_of π w' = l.
Proof using Hπ.
  intros Hr <- <- Hne Hk Hin [S HS]. unfold ClusterService_Update in Hr. repeat run_ok Hr. apply exec_ok in Hrun as [_ Ht].
  unfold column_of in *. rewrite Ht. simpl. clear Ht.
  assert (forall r, r ∈ l -> r.1 = CL.ID c -> r.2 = π c) as Hu by (intros [j u] ? ?; simpl in *; subst; by eapply keyed_unique).
  clear Hin Hk. revert l HS Hu. induction (clusters (tables_of w)) as [|row rows IH]; intros l HS Hu; inversion HS as [|r ? l' ? Hr' Hl']; subst; [done|].
  simpl. f_equal; [|apply IH; [done|]; intros; apply Hu; [by right|done]].
  destruct (String.eqb_spec (CL.ID row) (CL.ID c)) as [E|E].
  - rewrite column_merge. unfold pick_string. apply String.eqb_neq in Hne as ->.
    assert (r.1 = CL.ID c) as Hr1 by (destruct Hr' as [Hr'|(? & _)]; [by rewrite <- Hr'|done]).
    specialize (Hu r (list_elem_of_here _ _) Hr1). destruct r as [j u]. simpl in Hr1, Hu. rewrite Hr1, Hu, <- E. done.
  - destruct Hr' as [<-|(_ & ? & _)]; done.
Qed.
End ServiceUpdates.

(** ** Reconciling one cluster *)
Section Reconciling.
Context {W : Type} `{Database W} `{IdSource W} `{!ClusterSso W}.
Context (GetProvider : string -> result error (ClusterProvider W)).
Context (kafkaConfig : KafkaConfig) (dp : DataplaneClusterConfig) (settings : DataplaneSettings).
Context (obs : ObservabilityConfiguration) (ocm : OCMConfig) (addon : AddonConfig).
Context (providers_lawful : forall t p, GetProvider t = Ok p -> ProviderLaws p).
Context (π : Cluster -> string) (Hπ : π = CL.Status \/ π = CL.SupportedInstanceType).

#[local] Hint Resolve create_ro check_ro delete_ro dns_ro idp_ro apply_ro remove_ro strimzi_ro logging_ro fleetshard_ro get_pool_ro
  create_pool_ro quota_ro : fleet.

Lemma bind_provider_steady {E A} i v f t (k : ClusterProvider W -> M W E A) :
  (forall p, ProviderLaws p -> steady π i v (k p)) -> steady π i v (bind (lift (map_err f (GetProvider t))) k).
Proof using providers_lawful.
  intros Hk w Hw. unfold bind, lift. destruct (GetProvider t) as [p|e] eqn:Hp; simpl; [|done].
  apply Hk; [by eapply providers_lawful | done].
Qed.

Lemma bind_factory_steady {A} i v t (k : ClusterProvider W -> M W error A) :
  (forall p, ProviderLaws p -> steady π i v (k p)) -> steady π i v (bind (lift (GetProvider t)) k).
Proof using providers_lawful.
  intros Hk w Hw. unfold bind, lift. destruct (GetProvider t) as [p|e] eqn:Hp; simpl; [|done].
  apply Hk; [by eapply providers_lawful | done].
Qed.

(** Follows the structure of a computation; an update must write the value the
    row has. *)
Ltac solve_steady :=
  intros;
  repeat first
    [ progress intros
    | match goal with |- steady _ _ _ (match ?x with _ => _ end) => destruct x end
    | match goal with |- steady _ _ _ (bind (get_provider _ _) _) => apply bind_provider_steady end
    | match goal with |- steady _ _ _ (bind (lift (GetProvider _)) _) => apply bind_factory_steady end
    | match goal with |- steady _ _ _ (bind _ _) => apply bind_steady end
    | match goal with |- steady _ _ _ (svc _ _) => unfold svc end
    | match goal with |- steady _ _ _ (plain _) => unfold plain end
    | match goal with |- steady _ _ _ (wrap_err _ _) => apply wrap_err_steady end
    | solve [apply read_only_steady; solve_read_only]
    | solve [apply Update_steady; [exact Hπ | done | destruct Hπ as [-> | ->]; done]]
    | solve [eauto 2] ].

Lemma GetClusterDNS_steady clusterID i v : steady π i v (GetClusterDNS GetProvider clusterID).
Proof using providers_lawful Hπ.
  intros w Hw. unfold GetClusterDNS. unfold bind at 1. destruct (FindClusterByID clusterID w) as [found w1] eqn:Hf.
  assert (tables_of w1 = tables_of w) as Ht.
  { eapply read_only_run; [|exact Hf]. unfold FindClusterByID. solve_read_only. }
  destruct found as [[c|]|e]; simpl; [|unfold column_of; by rewrite Ht..].
  transitivity (column_of π w1); [|by unfold column_of; rewrite Ht].
  match goal with |- column_of π (snd (?m w1)) = _ => assert (steady π c.(CL.ID) (π c) m) as Hs by solve_steady end.
  apply Hs. destruct Hw as [Hk _]. unfold at_row, column_of in *. rewrite Ht. split; [done|].
  apply list_elem_of_fmap. exists c. split; [done|]. unfold FindClusterByID in Hf. repeat run_ok Hf. by apply exec_ok in Hf as [[? _] _].
Qed.
#[local] Hint Resolve GetClusterDNS_steady : core.

Lemma reconcileClusterDNS_steady c i v : steady π i v (reconcileClusterDNS GetProvider c).
Proof using providers_lawful Hπ. unfold reconcileClusterDNS. solve_steady. Qed.

Lemma reconcileClusterResources_ro c i v : steady π i v (reconcileClusterResources GetProvider settings obs ocm c).
Proof using providers_lawful. unfold reconcileClusterResources, ApplyResources. solve_steady. Qed.

Lemma GetAddonParams_ro c : read_only (GetAddonParams addon c).
Proof. unfold GetAddonParams. solve_read_only. Qed.
#[local] Hint Resolve reconcileClusterDNS_steady reconcileClusterResources_ro GetAddonParams_ro : core fleet.

Lemma save_credentials_steady c params : steady π c.(CL.ID) (π c) (save_credentials c params).
Proof using Hπ. unfold save_credentials. solve_steady. Qed.

Lemma Provision_steady c i v : steady π i v (Provision GetProvider addon c).
Proof using providers_lawful. unfold Provision. solve_steady. Qed.

Lemma ReconcileParameters_steady c i v : steady π i v (ReconcileParameters GetProvider addon c).
Proof using providers_lawful. unfold ReconcileParameters. solve_steady. Qed.
#[local] Hint Resolve save_credentials_steady Provision_steady ReconcileParameters_steady : core.

Lemma reconcileKasFleetshardOperator_steady c : steady π c.(CL.ID) (π c) (reconcileKasFleetshardOperator GetProvider addon c).
Proof using providers_lawful Hπ. unfold reconcileKasFleetshardOperator. solve_steady. Qed.

Lemma reconcileClusterIdentityProvider_steady c :
  steady π c.(CL.ID) (π c) (reconcileClusterIdentityProvider GetProvider settings c).
Proof using providers_lawful Hπ. unfold reconcileClusterIdentityProvider, ConfigureAndSaveIdentityProvider. solve_steady. Qed.

Lemma reconcileDynamicCapacityInfo_steady c : steady π c.(CL.ID) (π c) (reconcileDynamicCapacityInfo dp settings c).
Proof using Hπ. unfold reconcileDynamicCapacityInfo. solve_steady. Qed.
#[local] Hint Resolve reconcileKasFleetshardOperator_steady reconcileClusterIdentityProvider_steady
  reconcileDynamicCapacityInfo_steady : core.

Lemma reconcile_machine_pool_ro p c t : ProviderLaws p -> read_only (reconcile_machine_pool settings p c t).
Proof. unfold reconcile_machine_pool. solve_read_only. Qed.

Lemma reconcile_machine_pools_ro p c types info : ProviderLaws p -> read_only (reconcile_machine_pools settings p c types info).
Proof.
  intros Hp. revert info. induction types as [|t types IH]; intros info; simpl; [apply ret_read_only|].
  apply bind_read_only; [by apply reconcile_machine_pool_ro | auto].
Qed.
#[local] Hint Resolve reconcile_machine_pools_ro : fleet.

Lemma reconcileClusterMachinePools_steady c : steady π c.(CL.ID) (π c) (reconcileClusterMachinePools GetProvider dp settings c).
Proof using providers_lawful Hπ. unfold reconcileClusterMachinePools. solve_steady. Qed.

Lemma reconcileAddonOperator_steady c : steady π c.(CL.ID) (π c) (reconcileAddonOperator GetProvider ocm addon c).
Proof using providers_lawful Hπ.
  unfold reconcileAddonOperator, reconcileStrimziOperator, InstallStrimzi, reconcileClusterLoggingOperator, InstallClusterLogging.
  solve_steady.
Qed.

Lemma reconcileClusterInstanceType_steady c :
  π = CL.Status -> steady π c.(CL.ID) (π c) (reconcileClusterInstanceType dp c).
Proof using.
  intros Hs. assert (forall t, steady π c.(CL.ID) (π c) (ClusterService_Update (c <| CL.SupportedInstanceType := t |>))) as Hu
    by (intros t; apply Update_steady; [by left|done|by rewrite Hs]).
  unfold reconcileClusterInstanceType. solve_steady.
Qed.
#[local] Hint Resolve reconcileClusterMachinePools_steady reconcileAddonOperator_steady reconcileClusterInstanceType_steady : core.

Lemma reconcileReadyCluster_steady c :
  π = CL.Status -> steady π c.(CL.ID) (π c) (reconcileReadyCluster GetProvider dp settings obs ocm addon c).
Proof using providers_lawful Hπ. intros Hs. unfold reconcileReadyCluster. solve_steady. Qed.

Lemma reconcileWaiting_steady c :
  steady π c.(CL.ID) (π c) (reconcileWaitingForKasFleetshardOperatorCluster GetProvider settings obs ocm addon c).
Proof using providers_lawful Hπ. unfold reconcileWaitingForKasFleetshardOperatorCluster. solve_steady. Qed.
End Reconciling.

(** ** Moving the status *)
Section Moving.
Context {W : Type} `{Database W} `{IdSource W} `{!ClusterSso W}.
Context (GetProvider : string -> result error (ClusterProvider W)).
Context (dp : DataplaneClusterConfig) (settings : DataplaneSettings).
Context (obs : ObservabilityConfiguration) (ocm : OCMConfig) (addon : AddonConfig).
Context (providers_lawful : forall t p, GetProvider t = Ok p -> ProviderLaws p).

Lemma bind_settles_when {E A B} π (P : A -> Prop) i v S (m : M W E A) (k : A -> M W E B) :
  read_only m -> (forall w a w', m w = (Ok a, w') -> P a) -> (forall a, P a -> settles π i v S (k a)) -> settles π i v S (bind m k).
Proof.
  intros Hm HP Hk w Hw. unfold bind. specialize (Hm w). specialize (HP w). destruct (m w) as [[a|e] w1]; simpl in *.
  - assert (column_of π w1 = column_of π w) as Hc by (unfold column_of; by rewrite Hm). rewrite <- Hc.
    apply Hk; [by eapply HP | by eapply at_row_cong].
  - unfold column_of. rewrite Hm. apply touched_refl.
Qed.

Lemma bind_provider_settles {A} π i v S c (k : ClusterProvider W -> M W ServiceError A) :
  (forall p, ProviderLaws p -> settles π i v S (k p)) -> settles π i v S (bind (get_provider GetProvider c) k).
Proof using providers_lawful.
  apply (bind_settles_when π (fun p => ProviderLaws p)); [solve_read_only|]. intros w p w' Hp. unfold get_provider, lift in Hp.
  destruct (GetProvider (CL.ProviderType c)) eqn:E; simplify_eq/=. by eapply providers_lawful.
Qed.

Lemma at_row_id_nonempty (π : Cluster -> string) i v (w : W) : at_row π i v w -> i <> "".
Proof. intros [[_ Hne] Hi] ->. apply Hne, list_elem_of_fmap. by exists ("", v). Qed.

Lemma UpdateStatus_settles c v s : settles CL.Status c.(CL.ID) v [s] (ClusterService_UpdateStatus c s).
Proof.
  intros w Hw. pose proof (at_row_id_nonempty _ _ _ _ Hw) as Hne%String.eqb_neq. unfold ClusterService_UpdateStatus.
  destruct (s =?s ""); [apply touched_refl|]. rewrite Hne. simpl. revert w Hw.
  apply bind_settles_ro; [|intros; apply ret_read_only]. apply wrap_err_settles, UpdateClusters_settles.
  intros row t Hrow. apply String.eqb_eq in Hrow. split_and!; [done..|]. intros _. simpl. set_solver.
Qed.

Lemma reconcileProvisionedCluster_settles c :
  settles CL.Status c.(CL.ID) c.(CL.Status) [ClusterWaitingForKasFleetShardOperator]
    (reconcileProvisionedCluster GetProvider dp settings obs ocm addon c).
Proof using providers_lawful.
  pose proof (or_introl eq_refl : CL.Status = CL.Status \/ CL.Status = CL.SupportedInstanceType) as Hπ.
  unfold reconcileProvisionedCluster.
  apply bind_settles; [by apply reconcileClusterMachinePools_steady|]. intros pools.
  apply bind_settles; [by apply reconcileClusterDNS_steady|]. intros _.
  apply bind_settles; [by apply reconcileClusterIdentityProvider_steady|]. intros _.
  apply bind_settles; [by apply wrap_err_steady, reconcileClusterResources_ro|]. intros _.
  apply bind_settles; [by apply wrap_err_steady, reconcileAddonOperator_steady|]. intros addons.
  destruct (pools && addons); [apply wrap_err_settles, UpdateStatus_settles|apply steady_settles, read_only_steady, ret_read_only].
Qed.

Lemma reconcileClusterStatus_settles c :
  settles CL.Status c.(CL.ID) c.(CL.Status) provider_statuses (reconcileClusterStatus GetProvider c).
Proof using providers_lawful.
  unfold reconcileClusterStatus, plain, CheckClusterStatus. apply wrap_err_settles, bind_provider_settles. intros p Hp.
  apply (bind_settles_when _ (fun spec => Spec_Status spec ∈ provider_statuses)).
  - apply wrap_err_read_only, check_ro.
  - intros w spec w' Hs%wrap_err_ok. by eapply check_status.
  - intros spec Hs. cbv zeta. apply bind_settles_ro; [|intros; apply ret_read_only].
    apply Update_settles; [by left| by destruct (_ && _)|].
    replace (CL.Status _) with (Spec_Status spec) by (by destruct (_ && _)).
    unfold pick_string. destruct (String.eqb_spec (Spec_Status spec) "") as [E|]; [|done].
    rewrite E in Hs. unfold provider_statuses in Hs. set_solver.
Qed.

Lemma SaveCluster_settles c v S : c.(CL.Status) ∈ S -> settles CL.Status c.(CL.ID) v S (exec (SaveCluster c)).
Proof.
  intros HS w [Hk Hv]. destruct (exec (SaveCluster c) w) as [[[]|e] w'] eqn:He; simpl; unfold column_of.
  2:{ rewrite (exec_err _ _ _ _ _ He). apply touched_refl. }
  apply exec_ok in He. simpl in He. rewrite He. simpl. unfold save_cluster. rewrite (proj2 (existsb_exists _ _)).
  - unfold column. rewrite map_map. apply Forall2_fmap, Forall_Forall2_diag, Forall_forall. intros row Hrow. simpl.
    destruct (String.eqb_spec (CL.ID row) (CL.ID c)) as [E|]; [right; by split_and!|by left].
  - apply list_elem_of_fmap in Hv as (row & [= E _] & Hrow). exists row. rewrite <- list_elem_of_In. simpl. by rewrite E, String.eqb_refl.
Qed.

Lemma BeforeCreate_keeps NewID c :
  c.(CL.ID) <> "" -> c.(CL.Status) <> "" ->
  (Cluster_BeforeCreate NewID c).(CL.ID) = c.(CL.ID) /\ (Cluster_BeforeCreate NewID c).(CL.Status) = c.(CL.Status).
Proof.
  intros Hi%String.eqb_neq Hs%String.eqb_neq. unfold Cluster_BeforeCreate. rewrite Hs. cbv zeta. rewrite Hi. repeat case_str; done.
Qed.

Lemma ClusterService_Create_settles NewID c v :
  c.(CL.ID) <> "" -> settles CL.Status c.(CL.ID) v provider_statuses (ClusterService_Create GetProvider NewID c).
Proof using providers_lawful.
  intros Hne. unfold ClusterService_Create. apply bind_provider_settles. intros p Hp.
  apply (bind_settles_when _ (fun o => forall spec, o = Some spec -> Spec_Status spec ∈ provider_statuses)).
  { apply wrap_err_read_only, create_ro. }
  { intros w o w' Ho%wrap_err_ok spec ->. by eapply create_status. }
  intros o Ho. apply (bind_settles_when _ (fun spec => Spec_Status spec ∈ provider_statuses)); [solve_read_only| |].
  { intros w spec w' Hr. destruct o; [|done]. unfold ret in Hr. simplify_eq. by apply Ho. }
  intros spec Hs. cbv zeta. match goal with |- context [Cluster_BeforeCreate NewID ?x] => set (c' := x) end.
  assert (c'.(CL.ID) = c.(CL.ID) /\ c'.(CL.Status) = spec.(Spec_Status)) as [Hi Hst] by (subst c'; by destruct (AdditionalInfo spec)).
  clearbody c'. destruct (BeforeCreate_keeps NewID c') as [Hi' Hst'].
  { by rewrite Hi. }
  { rewrite Hst. intros E. rewrite E in Hs. unfold provider_statuses in Hs. set_solver. }
  apply bind_settles_ro; [|intros; apply ret_read_only]. rewrite <- Hi, <- Hi'. apply wrap_err_settles, SaveCluster_settles. congruence.
Qed.

Lemma reconcileAcceptedCluster_settles c :
  settles CL.Status c.(CL.ID) c.(CL.Status) provider_statuses (reconcileAcceptedCluster GetProvider c).
Proof using providers_lawful.
  intros w Hw. unfold reconcileAcceptedCluster. pose proof (at_row_id_nonempty _ _ _ _ Hw) as Hne.
  generalize (new_id w). intros NewID. revert w Hw.
  apply bind_settles_ro; [|intros; apply ret_read_only]. by apply wrap_err_settles, ClusterService_Create_settles.
Qed.
End Moving.

(** ** The passes of the cluster manager *)

(** The moves of a cluster in one pass; a cluster leaves the configuration file
    only under manual scaling. *)
Inductive cluster_move (manual : bool) : string -> string -> Prop :=
| move_created s' : s' ∈ provider_statuses -> cluster_move manual ClusterAccepted s'
| move_checked s' : s' ∈ provider_statuses -> cluster_move manual ClusterProvisioning s'
| move_terraformed : cluster_move manual ClusterProvisioned ClusterWaitingForKasFleetShardOperator
| move_excess s : manual = true -> s <> ClusterCleanup -> cluster_move manual s ClusterDeprovisioning.

(** Every row is still there and has taken moves only; rows are added from the
    configuration file, under generated keys. *)
Definition rows_moved (generated : string -> Prop) (manual : bool) (l l' : list (string * string)) : Prop :=
  exists l1 added, l' = l1 ++ added /\ (manual = false -> added = []) /\ Forall (fun r => generated r.1) added /\ Forall2 (fun r r' => r'.1 = r.1 /\ rtc (cluster_move manual) r.2 r'.2) l l1.

Section Passes.
Context {W : Type} `{Database W} `{IdSource W} `{!ClusterSso W}.
Context (GetProvider : string -> result error (ClusterProvider W)).
Context (kafkaConfig : KafkaConfig) (dp : DataplaneClusterConfig) (settings : DataplaneSettings).
Context (obs : ObservabilityConfiguration) (ocm : OCMConfig) (addon : AddonConfig).
Context (providers_lawful : forall t p, GetProvider t = Ok p -> ProviderLaws p).
Context (manual : bool).

Definition generated (i : string) : Prop := exists w : W, i = new_id w.

Definition status_column (w : W) : list (string * string) := column_of CL.Status w.

(** A pass keeps the keys and moves rows as allowed. *)
Definition lawful_pass {X} (p : W -> X * W) : Prop :=
  forall w, rows_keyed (status_column w) ->
    rows_keyed (status_column (snd (p w))) /\ rows_moved generated manual (status_column w) (status_column (snd (p w))).

Lemma rows_moved_refl l : rows_moved generated manual l l.
Proof. exists l, []. rewrite app_nil_r. split_and!; [done|done|by constructor|]. apply Forall2_same. intros r. split; [done|apply rtc_refl]. Qed.

Lemma rows_moved_trans l1 l2 l3 : rows_moved generated manual l1 l2 -> rows_moved generated manual l2 l3 -> rows_moved generated manual l1 l3.
Proof.
  intros (m1 & a1 & -> & Ha1 & Hg1 & H1) (m2 & a2 & -> & Ha2 & Hg2 & H2). apply Forall2_app_inv_l in H2 as (m3 & m4 & H3 & H4 & ->).
  exists m3, (m4 ++ a2). split; [by rewrite app_assoc|]. split.
  { intros Hman. rewrite (Ha1 Hman) in H4. inversion H4. by apply Ha2. }
  split.
  { apply Forall_app. split; [|done]. clear -H4 Hg1. induction H4 as [|r r' l l' [Hi _] Hl IH]; [constructor|].
    apply Forall_cons in Hg1 as [Hr Hg]. constructor; [by rewrite Hi|by apply IH]. }
  clear H4 Ha1 Ha2 Hg1 Hg2. revert m3 H3. induction H1 as [|r r1 l m [Hk Hr] Hl IH]; intros m3 H3.
  - inversion H3. constructor.
  - inversion H3 as [|? r2 ? m' [Hk' Hr'] Hm']; subst. constructor; [|by apply IH]. split; [congruence|by etrans].
Qed.

Lemma read_only_lawful {X} (p : W -> X * W) : (forall w, tables_of (snd (p w)) = tables_of w) -> lawful_pass p.
Proof. intros Hp w Hk. unfold status_column, column_of. rewrite Hp. split; [done|apply rows_moved_refl]. Qed.

Lemma ro_lawful {E A} (m : M W E A) : read_only m -> lawful_pass m.
Proof. apply read_only_lawful. Qed.

Lemma andThen_lawful p q : lawful_pass p -> lawful_pass q -> lawful_pass (andThen p q).
Proof.
  intros Hp Hq w Hk. unfold andThen. destruct (Hp w Hk) as [Hk1 Hm1]. destruct (p w) as [e1 w1]. simpl in *.
  destruct (Hq w1 Hk1) as [Hk2 Hm2]. destruct (q w1) as [e2 w2]. simpl in *. split; [done|by eapply rows_moved_trans].
Qed.

Lemma errs_of_world {A} (m : M W error A) w : snd (errs_of m w) = snd (m w).
Proof. unfold errs_of. by destruct (m w) as [[]]. Qed.

(** A loop over distinct rows that all have the status [s]. *)
Lemma gather_settles s S f l w :
  (forall c w, c ∈ l -> at_row CL.Status c.(CL.ID) s w ->
     Forall2 (touched c.(CL.ID) S) (status_column w) (status_column (snd (f c w)))) ->
  NoDup (map CL.ID l) -> rows_keyed (status_column w) -> (forall c, c ∈ l -> (c.(CL.ID), s) ∈ status_column w) ->
  Forall2 (fun r r' => r' = r \/ (r'.1 = r.1 /\ r.1 ∈ map CL.ID l /\ r'.2 ∈ S)) (status_column w) (status_column (snd (gather f l w))).
Proof.
  revert w. induction l as [|c l IH]; intros w Hf Hnd Hk Hl; simpl.
  { apply Forall2_same. by left. }
  simpl in Hnd. apply NoDup_cons in Hnd as [Hc Hnd].
  assert (Forall2 (touched c.(CL.ID) S) (status_column w) (status_column (snd (f c w)))) as H1 by (apply Hf; [left|split; [done|apply Hl; left]]).
  destruct (f c w) as [errs1 w1]. simpl in H1.
  assert (rows_keyed (status_column w1)) as Hk1 by (unfold rows_keyed; by rewrite (touched_keys _ _ _ _ H1)).
  assert (forall c', c' ∈ l -> (c'.(CL.ID), s) ∈ status_column w1) as Hl1.
  { intros c' Hc'. eapply touched_elem; [exact H1|apply Hl; by right|]. intros E. apply Hc. rewrite <- E. by apply list_elem_of_fmap_2. }
  specialize (IH w1 (fun c' w' Hc' => Hf c' w' (list_elem_of_further _ _ _ Hc')) Hnd Hk1 Hl1).
  destruct (gather f l w1) as [errs2 w2]. simpl in *.
  clear Hf Hk Hl Hk1 Hl1. revert IH. generalize (status_column w2). induction H1 as [|r r1 l0 l1 Hr Hl IHl]; intros l2 H2.
  - inversion H2. constructor.
  - inversion H2 as [|? r2 ? l2' Hr2 Hl2]; subst. constructor; [|by apply IHl].
    destruct Hr2 as [->|(Hi2 & Hin & Hs2)]; destruct Hr as [->|(Hi & Hi1 & Hs)]; [by left| |by right; split_and!; [|right|]|];
      right; (split; [congruence|]; split; [rewrite Hi; left|done]).
Qed.

Lemma ListByStatus_rows s w l w1 :
  ClusterService_ListByStatus s w = (Ok l, w1) ->
  tables_of w1 = tables_of w /\ l ≡ₚ List.filter (fun c => c.(CL.Status) =?s s) (tables_of w).(clusters).
Proof. intros Hl. unfold ClusterService_ListByStatus in Hl. repeat run_ok Hl. apply exec_ok in Hl as [Hl Ht]. done. Qed.

Lemma filter_ids_nodup (p : Cluster -> bool) cs : NoDup (map CL.ID cs) -> NoDup (map CL.ID (List.filter p cs)).
Proof.
  induction cs as [|c cs IH]; simpl; [done|]. intros [Hc Hnd]%NoDup_cons. destruct (p c); simpl; [|auto]. apply NoDup_cons. split; [|auto].
  intros (c' & E & Hin)%list_elem_of_fmap. apply Hc. rewrite E. apply list_elem_of_fmap_2.
  by apply list_elem_of_In, filter_In in Hin as [?%list_elem_of_In _].
Qed.

Lemma column_keys π (cs : list Cluster) : (column π cs).*1 = map CL.ID cs.
Proof. unfold column. induction cs as [|c cs IH]; [done|]. cbn. f_equal. exact IH. Qed.

Lemma process_lawful s reason S f :
  (forall c w, c.(CL.Status) = s -> at_row CL.Status c.(CL.ID) s w ->
     Forall2 (touched c.(CL.ID) S) (status_column w) (status_column (snd (f c w)))) ->
  (forall x, x ∈ S -> rtc (cluster_move manual) s x) ->
  lawful_pass (process s reason f).
Proof.
  intros Hf HS w Hk. unfold process. destruct (ClusterService_ListByStatus s w) as [[l|e] w1] eqn:Hl; simpl.
  2:{ unfold status_column, column_of. rewrite (read_only_run (ClusterService_ListByStatus s) w (Err e) w1); [|unfold ClusterService_ListByStatus; solve_read_only|done].
      split; [done|apply rows_moved_refl]. }
  apply ListByStatus_rows in Hl as [Ht Hl]. assert (status_column w1 = status_column w) as Hc by (unfold status_column, column_of; by rewrite Ht).
  rewrite <- Hc in *. assert (forall c, c ∈ l -> c.(CL.Status) = s /\ (c.(CL.ID), s) ∈ status_column w1) as Hin.
  { intros c Hin. rewrite Hl in Hin. apply list_elem_of_In, filter_In in Hin as [Hin Hs%String.eqb_eq].
    split; [done|]. rewrite Hc. apply list_elem_of_fmap. exists c. rewrite Hs. split; [done|by apply list_elem_of_In]. }
  assert (NoDup (map CL.ID l)) as Hnd.
  { rewrite Hl. apply filter_ids_nodup. destruct Hk as [Hnd _]. unfold status_column, column_of in Hnd. by rewrite column_keys, Ht in Hnd. }
  pose proof (gather_settles s S f l w1 (fun c w' Hc' => Hf c w' (proj1 (Hin c Hc'))) Hnd Hk (fun c Hc' => proj2 (Hin c Hc'))) as H2.
  split.
  - unfold rows_keyed. erewrite same_keys; [exact Hk|exact H2|]. intros r r' [->|(? & _)]; done.
  - eexists _, []. rewrite app_nil_r. split_and!; [done|done|by constructor|]. eapply Forall2_impl_in; [exact H2|].
    intros r r' Hr [->|(Hi & (c & E & Hc')%list_elem_of_fmap & Hx)]; [split; [done|apply rtc_refl]|]. split; [done|].
    replace r.2 with s; [by apply HS|]. eapply (keyed_unique (status_column w1) r.1); [done|rewrite E; by apply Hin|by destruct r].
Qed.

Lemma bind_lawful {E A B} (m : M W E A) (k : A -> M W E B) :
  lawful_pass m -> (forall a, lawful_pass (k a)) -> lawful_pass (bind m k).
Proof.
  intros Hm Hk w Hw. unfold bind. specialize (Hm w Hw). destruct (m w) as [[a|e] w1]; [|exact Hm]. simpl in Hm. destruct Hm as [Hw1 Hm].
  destruct (Hk a w1 Hw1) as [Hw2 Hm2]. split; [done|by eapply rows_moved_trans].
Qed.

Lemma wrap_err_lawful {E E' A} (f : E -> E') (m : M W E A) : lawful_pass m -> lawful_pass (wrap_err f m).
Proof. intros Hm w Hw. specialize (Hm w Hw). unfold wrap_err. by destruct (m w). Qed.

Lemma errs_of_lawful {A} (m : M W error A) : lawful_pass m -> lawful_pass (errs_of m).
Proof. intros Hm w Hw. rewrite errs_of_world. by apply Hm. Qed.

Lemma for_each_lawful {E A} (f : A -> M W E unit) l : (forall a, lawful_pass (f a)) -> lawful_pass (for_each f l).
Proof. intros Hf. induction l as [|a l IH]; simpl; [by apply read_only_lawful|]. by apply bind_lawful. Qed.

Lemma process_lawful_M s reason S (f : Cluster -> M W error unit) g :
  (forall c w, snd (g c w) = snd (f c w)) -> (forall c, c.(CL.Status) = s -> settles CL.Status c.(CL.ID) s S (f c)) ->
  (forall x, x ∈ S -> rtc (cluster_move manual) s x) -> lawful_pass (process s reason g).
Proof. intros Hg Hf HS. eapply process_lawful; [|exact HS]. intros c w Hc Hw. rewrite Hg. by apply Hf. Qed.

Section Manual.
Context (manual_on : manual = true).
Context (fresh_ids : forall w : W, new_id w <> "" /\ new_id w ∉ map CL.ID (tables_of w).(clusters)).

Lemma register_missing_column p w :
  status_column (snd (register_missing p w)) = status_column w \/
  exists s, status_column (snd (register_missing p w)) = status_column w ++ [(new_id w, s)].
Proof using fresh_ids.
  unfold register_missing, svc, RegisterClusterJob, wrap_err. set (c := Cluster_BeforeCreate _ _).
  assert (c.(CL.ID) = new_id w) as Hid by (subst c; unfold Cluster_BeforeCreate; simpl; by repeat case_str).
  destruct (exec (SaveCluster c) w) as [[[]|e] w'] eqn:He; simpl; unfold status_column, column_of.
  2:{ left. by rewrite (exec_err _ _ _ _ _ He). }
  right. apply exec_ok in He. simpl in He. rewrite He. simpl. exists c.(CL.Status). unfold save_cluster.
  destruct (existsb _ _) eqn:Hex.
  - exfalso. apply existsb_exists in Hex as (row & Hrow & E%String.eqb_eq). destruct (fresh_ids w) as [_ Hn]. apply Hn.
    rewrite <- Hid. simpl in E. rewrite <- E. apply list_elem_of_fmap_2. by apply list_elem_of_In.
  - unfold column. rewrite map_app. simpl. by rewrite Hid.
Qed.

Lemma register_missing_lawful p : lawful_pass (register_missing p).
Proof using manual_on fresh_ids.
  intros w Hk. destruct (register_missing_column p w) as [->|[s ->]]; [split; [done|apply rows_moved_refl]|].
  destruct (fresh_ids w) as [Hne Hn]. destruct Hk as [Hnd Hnil]. split.
  - unfold rows_keyed. rewrite fmap_app. simpl. split.
    + apply NoDup_app. split_and!; [done| |apply NoDup_singleton]. intros x Hx ->%list_elem_of_singleton. apply Hn.
      unfold status_column, column_of in Hx. by rewrite column_keys in Hx.
    + rewrite elem_of_app. intros [?|E%list_elem_of_singleton]; [done|]. by rewrite <- E in Hne.
  - eexists _, _. split; [done|]. split; [congruence|]. split; [repeat constructor; by exists w|]. apply Forall2_same. intros r. split; [done|apply rtc_refl].
Qed.

Lemma UpdateClusters_lawful p f :
  (forall c t, p c = true -> (touch_cluster t (f c)).(CL.ID) = c.(CL.ID) /\
     rtc (cluster_move manual) c.(CL.Status) (touch_cluster t (f c)).(CL.Status)) ->
  lawful_pass (exec (UpdateClusters p f)).
Proof using.
  intros Hp w Hk. destruct (exec (UpdateClusters p f) w) as [[n|e] w'] eqn:He; simpl; unfold status_column, column_of.
  2:{ rewrite (exec_err _ _ _ _ _ He). split; [done|apply rows_moved_refl]. }
  apply exec_ok in He as [_ ->]. simpl. unfold update_rows.
  assert (Forall2 (fun r r' => r'.1 = r.1 /\ rtc (cluster_move manual) r.2 r'.2) (status_column w)
    (column CL.Status (map (fun r => if p r then touch_cluster (time_now w) (f r) else r) (tables_of w).(clusters)))) as Hm.
  { unfold status_column, column_of, column. rewrite map_map. apply Forall2_fmap, Forall_Forall2_diag, Forall_forall. intros c _. simpl.
    destruct (p c) eqn:Hpc; [|split; [done|apply rtc_refl]]. by apply (Hp c (time_now w)). }
  split.
  - unfold rows_keyed. erewrite same_keys; [exact Hk|exact Hm|]. by intros r r' [? _].
  - eexists _, []. rewrite app_nil_r. split_and!; [done|done|by constructor|exact Hm].
Qed.

Lemma UpdateMulti_lawful ids : lawful_pass (UpdateMultiClusterStatus ids ClusterDeprovisioning : M W _ _).
Proof using manual_on.
  unfold UpdateMultiClusterStatus. simpl. destruct (IsEmpty ids); [by apply read_only_lawful|].
  apply bind_lawful; [|intros; by apply read_only_lawful]. apply wrap_err_lawful, UpdateClusters_lawful.
  intros c t Hc. split_bools. split; [done|]. apply rtc_once, move_excess; [done|]. by apply String.eqb_neq.
Qed.

Lemma manual_config_lawful : lawful_pass (manual_config kafkaConfig dp).
Proof using manual_on fresh_ids.
  unfold manual_config, svc. apply bind_lawful; [apply ro_lawful; unfold ListNonEnterpriseClusterIDs; solve_read_only|].
  intros ids. cbv zeta. apply bind_lawful; [apply for_each_lawful; intros p; apply register_missing_lawful|]. intros _.
  destruct (IsEmpty _); [by apply read_only_lawful|]. unfold deprovision_excess.
  apply bind_lawful; [apply ro_lawful; unfold FindKafkaInstanceCount; solve_read_only|]. intros counts. cbv zeta.
  destruct (IsEmpty _); [by apply read_only_lawful|]. by apply wrap_err_lawful, UpdateMulti_lawful.
Qed.
End Manual.

Lemma moves_of_provider s x : s ∈ [ClusterAccepted; ClusterProvisioning] -> x ∈ provider_statuses -> rtc (cluster_move manual) s x.
Proof. intros [->|[->|[]%not_elem_of_nil]%elem_of_cons]%elem_of_cons Hx; apply rtc_once; by constructor. Qed.

(** The update that moves an enterprise cluster on. *)
Lemma Update_status_settles c v s : s <> "" -> settles CL.Status c.(CL.ID) v [s] (ClusterService_Update (W := W) (c <| CL.Status := s |>)).
Proof.
  intros Hs%String.eqb_neq. apply Update_settles; [by left|done|]. simpl. unfold pick_string. rewrite Hs. left.
Qed.

Lemma processAcceptedClusters_lawful : lawful_pass (processAcceptedClusters GetProvider).
Proof using providers_lawful.
  eapply process_lawful with (S := provider_statuses); [|by intros; apply moves_of_provider; [left|]]. intros c w <- Hw.
  destruct (negb _); rewrite errs_of_world; revert w Hw; apply wrap_err_settles; [by apply reconcileAcceptedCluster_settles|].
  eapply settles_weaken; [by apply Update_status_settles|]. intros x ->%list_elem_of_singleton. left.
Qed.

Lemma processProvisioningClusters_lawful : lawful_pass (processProvisioningClusters GetProvider).
Proof using providers_lawful.
  eapply process_lawful with (S := provider_statuses); [|by intros; apply moves_of_provider; [right; left|]]. intros c w <- Hw.
  destruct (negb _); rewrite errs_of_world; revert w Hw; apply wrap_err_settles; [by apply reconcileClusterStatus_settles|].
  eapply settles_weaken; [by apply Update_status_settles|]. intros x ->%list_elem_of_singleton. right. left.
Qed.

Lemma processProvisionedClusters_lawful : lawful_pass (processProvisionedClusters GetProvider dp settings obs ocm addon).
Proof using providers_lawful.
  eapply process_lawful with (S := [ClusterWaitingForKasFleetShardOperator]).
  2:{ intros x ->%list_elem_of_singleton. apply rtc_once. constructor. }
  intros c w <- Hw. destruct (negb _).
  - rewrite errs_of_world. revert w Hw. by apply wrap_err_settles, reconcileProvisionedCluster_settles.
  - unfold andThen. pose proof (reconcileClusterResources_ro GetProvider settings obs ocm providers_lawful CL.Status c c.(CL.ID) c.(CL.Status)) as Hro.
    apply (wrap_err_steady _ _ _ (EWrap "failed to create or update resource set of provisioned %s cluster %s")) in Hro. specialize (Hro w Hw).
    rewrite <- errs_of_world in Hro. destruct (errs_of _ w) as [errs1 w1]. simpl in Hro.
    destruct (errs_of _ w1) as [errs2 w2] eqn:H2. simpl. apply (f_equal snd) in H2. rewrite errs_of_world in H2. simpl in H2. subst w2.
    unfold status_column. rewrite <- Hro. eapply (at_row_cong _ _ _ _ _ Hro) in Hw. clear Hro. revert w1 Hw.
    by apply wrap_err_settles, Update_status_settles.
Qed.

Lemma processWaiting_lawful : lawful_pass (processWaitingForKasFleetshardOperatorClusters GetProvider settings obs ocm addon).
Proof using providers_lawful.
  eapply process_lawful with (S := []); [|by intros x ?%not_elem_of_nil]. intros c w <- Hw.
  destruct (negb _); rewrite errs_of_world; revert w Hw; apply wrap_err_settles, steady_settles;
    [apply reconcileWaiting_steady; [done|by left] | by apply reconcileClusterResources_ro].
Qed.

Lemma processReadyClusters_lawful : lawful_pass (processReadyClusters GetProvider dp settings obs ocm addon).
Proof using providers_lawful.
  eapply process_lawful with (S := []); [|by intros x ?%not_elem_of_nil]. intros c w <- Hw.
  destruct (negb _); rewrite errs_of_world; revert w Hw; apply wrap_err_settles, steady_settles;
    [apply reconcileReadyCluster_steady; [done|by left|done] | by apply reconcileClusterResources_ro].
Qed.

Lemma kafka_per_cluster_samples_ro counters : read_only (kafka_per_cluster_samples (W := W) counters).
Proof.
  induction counters as [|counter counters IH]; simpl; [apply ret_read_only|]. destruct (_ =?s ""); [done|].
  apply bind_read_only; [unfold plain, GetExternalID, FindClusterByID; solve_read_only|]. intros x. apply bind_read_only; [done|]. solve_read_only.
Qed.

Lemma processMetrics_lawful : lawful_pass (processMetrics GetProvider kafkaConfig ocm).
Proof using providers_lawful.
  unfold processMetrics. repeat apply andThen_lawful; apply errs_of_lawful, wrap_err_lawful, ro_lawful.
  - unfold setClusterStatusCountMetrics, plain, ClusterService_CountByStatus. solve_read_only.
  - unfold setKafkaPerClusterCountMetrics. apply bind_read_only; [unfold FindKafkaInstanceCount; solve_read_only|].
    intros; apply kafka_per_cluster_samples_ro.
  - unfold setClusterProviderResourceQuotaMetrics. destruct (negb _); [apply ret_read_only|]. intros w. unfold bind, lift.
    destruct (GetProvider ClusterProviderOCM) as [p|e] eqn:Hp; [|done]. apply (quota_ro (ProviderLaws := providers_lawful _ _ Hp)).
Qed.
(** A whole pass. *)
Lemma ClusterManager_lawful :
  (forall w : W, new_id w <> "" /\ new_id w ∉ map CL.ID (tables_of w).(clusters)) -> manual = IsDataPlaneManualScalingEnabled dp ->
  lawful_pass (ClusterManager_Reconcile GetProvider kafkaConfig dp settings obs ocm addon).
Proof using providers_lawful.
  intros Hfresh Hmanual. unfold ClusterManager_Reconcile. simpl. apply andThen_lawful; [by apply processMetrics_lawful|].
  apply andThen_lawful.
  { unfold reconcileClusterWithManualConfig. destruct (IsDataPlaneManualScalingEnabled dp) eqn:Hman; simpl; [|by apply read_only_lawful].
    apply errs_of_lawful. by apply manual_config_lawful. }
  repeat apply andThen_lawful; [by apply processAcceptedClusters_lawful|by apply processProvisioningClusters_lawful|
    by apply processProvisionedClusters_lawful|by apply processWaiting_lawful|by apply processReadyClusters_lawful|by apply read_only_lawful].
Qed.
End Passes.

(** What a cluster's status can become in one pass. *)
Definition may_become (manual : bool) (s : string) : list string :=
  s :: (if s =?s ClusterAccepted then provider_statuses ++ [ClusterWaitingForKasFleetShardOperator]
        else if s =?s ClusterProvisioning then provider_statuses ++ [ClusterWaitingForKasFleetShardOperator]
        else if s =?s ClusterProvisioned then [ClusterWaitingForKasFleetShardOperator] else [])
    ++ (if manual && negb (s =?s ClusterCleanup) then [ClusterDeprovisioning] else []).

Lemma may_become_step manual s s1 s2 : s1 ∈ may_become manual s -> cluster_move manual s1 s2 -> s2 ∈ may_become manual s.
Proof.
  unfold may_become. intros H1 H2.
  destruct (String.eqb_spec s ClusterAccepted) as [->|N1]; [|destruct (String.eqb_spec s ClusterProvisioning) as [->|N2];
    [|destruct (String.eqb_spec s ClusterProvisioned) as [->|N3]; [|destruct (String.eqb_spec s ClusterCleanup) as [->|N4]]]];
    inversion H2 as [x Hx|x Hx| |x Hman Hx]; subst; clear H2; try destruct manual; unfold provider_statuses in *; simpl in *;
    repeat rewrite ?elem_of_cons, ?elem_of_nil in *; naive_solver.
Qed.

Lemma may_become_moves manual s s' : rtc (cluster_move manual) s s' -> s' ∈ may_become manual s.
Proof.
  intros Hr. enough (forall s0, s ∈ may_become manual s0 -> s' ∈ may_become manual s0) as He by (apply He; left).
  induction Hr as [|x y z Hxy _ IH]; [done|]. intros s0 Hx. apply IH. by eapply may_become_step.
Qed.

(** ** Writing the instance type *)
Lemma reconcileClusterInstanceType_touches {W} `{Database W} dp c (w : W) :
  at_row CL.SupportedInstanceType c.(CL.ID) c.(CL.SupportedInstanceType) w ->
  exists S, Forall2 (touched c.(CL.ID) S) (column_of CL.SupportedInstanceType w)
    (column_of CL.SupportedInstanceType (snd (reconcileClusterInstanceType dp c w))).
Proof.
  intros Hw. unfold reconcileClusterInstanceType. cbv zeta. set (t := default _ _).
  exists [pick_string t c.(CL.SupportedInstanceType)].
  destruct (_ && _ && _); [apply touched_refl|]. destruct (_ && _); [apply touched_refl|]. destruct (negb _); [|apply touched_refl].
  unfold svc. refine (wrap_err_settles _ _ _ _ _ _ (Update_settles _ _ _ _ _ _ _ _) w Hw); [by right|done|]. left.
Qed.

Lemma reconcileDynamicCapacityInfo_manual {W} `{Database W} dp settings c (w : W) w' :
  reconcileDynamicCapacityInfo dp settings c w = (Ok tt, w') -> IsDataPlaneManualScalingEnabled dp = true ->
  ClusterService_Update (SetDynamicCapacityInfo c ∅) w = (Ok tt, w').
Proof.
  intros Hr Hman. unfold reconcileDynamicCapacityInfo in Hr.
  assert (IsDataPlaneAutoScalingEnabled dp = false) as Hauto.
  { unfold IsDataPlaneManualScalingEnabled, IsDataPlaneAutoScalingEnabled in *. apply String.eqb_eq in Hman. by rewrite Hman. }
  rewrite Hauto in Hr. simpl in Hr. by apply wrap_err_ok in Hr.
Qed.

(** ** A deployment for the examples *)
Module LifeExample.
Abbreviation world := (MemDB.world unit).

(** A provider whose clusters are ready at once. *)
Definition spec (status : string) : ClusterSpec := mkClusterSpec "c9" "ext-c9" status true "us-east-1" "aws" None "".
Definition provider (deleted : bool) : ClusterProvider world :=
  mkClusterProvider
    (fun _ => ret (Some (spec ClusterProvisioning))) (fun _ => ret (spec ClusterProvisioned)) (fun _ => ret deleted)
    (fun _ => ret "apps.example.org") (fun _ info => ret (Some info)) (fun _ rs => ret rs) (fun _ _ => ret tt)
    (fun _ => ret true) (fun _ _ => ret true) (fun _ _ => ret true) (fun _ _ => ret None) (fun r => ret (Some r)) (ret [])
    (fun _ => ret (spec ClusterProvisioned)) (ret [mkCloudProviderInfo "aws" "aws" "aws"])
    (fun p => ret [mkCloudProviderRegionInfo "us-east-1" p.(CPI_ID) "us-east-1" "US East" true]) (fun _ _ _ => ret tt).

#[global] Instance provider_laws deleted : ProviderLaws (provider deleted).
Proof.
  constructor; try (intros; intros w; reflexivity).
  - intros r w spec' w' [= <- _]. left.
  - intros r w spec' w' [= <- _]. right. left.
Qed.

#[global] Instance sso : ClusterSso world.
Proof.
  refine {| valid_issuer_uri := "https://sso"; osd_valid_issuer_uri := "https://osd";
            register_fleetshard_account := fun c => ret ("srvc-" +:+ c, "secret");
            deregister_fleetshard_account := fun _ => ret tt;
            register_client_in_sso := fun _ _ => ret "client-secret";
            deregister_client_in_sso := fun _ => ret tt |}; intros; intros w; reflexivity.
Defined.

Lemma length_sapp (a b : string) : String.length (a +:+ b) = (String.length a + String.length b)%nat.
Proof. induction a as [|ch a IH]; [done|]. simpl. by rewrite <- IH. Qed.

(** An identifier longer than all those in use. *)
#[global] Instance fresh_id : IdSource world := fun w => foldr (fun c s => c.(CL.ID) +:+ s) "x" w.(MemDB.db).(clusters).

Lemma fresh_id_fresh (w : world) : new_id w <> "" /\ new_id w ∉ map CL.ID (tables_of w).(clusters).
Proof.
  unfold new_id, fresh_id. simpl. set (cs := clusters (MemDB.db w)).
  assert (forall c, c ∈ cs -> (String.length c.(CL.ID) < String.length (foldr (fun c s => c.(CL.ID) +:+ s) "x" cs))%nat) as Hlt.
  { induction cs as [|c0 cs IH]; intros c Hc; [set_solver|]. simpl. rewrite length_sapp.
    apply elem_of_cons in Hc as [->|Hc%IH]; [|lia]. enough (0 < String.length (foldr (fun c s => c.(CL.ID) +:+ s) "x" cs))%nat by lia.
    clear. induction cs as [|c cs IH]; simpl; [lia|]. rewrite length_sapp. lia. }
  split.
  - destruct cs as [|c cs']; [done|]. intros E. specialize (Hlt c (list_elem_of_here _ _)). rewrite E in Hlt. simpl in Hlt. lia.
  - intros (c & E & Hc)%list_elem_of_fmap. apply Hlt in Hc. rewrite <- E in Hc. lia.
Qed.

Definition row (id status type : string) : Cluster := (Fixtures.cluster id 10 2 type "") <| CL.Status := status |>.
Definition factory (deleted : bool) : string -> result error (ClusterProvider world) := fun _ => Ok (provider deleted).
Definition settings : DataplaneSettings := ResourceFixtures.settings "".
Definition addon : AddonConfig := mkAddonConfig "https://fleet" "15s" "60s".

(** Clusters in several states; the configuration file holds "c1" and "c2"
    only, and "c1" has a Kafka. *)
Definition rows : list Cluster :=
  [ row "c1" ClusterReady ManagedDataPlaneClusterType; row "a" ClusterAccepted ManagedDataPlaneClusterType;
    row "d" ClusterCleanup ManagedDataPlaneClusterType; row "e" ClusterAccepted EnterpriseDataPlaneClusterType ].
Definition w0 : world := MemDB.mkWorld (mkTables [Fixtures.k1] rows) 1000 [] tt.

Lemma factory_lawful deleted t p : factory deleted t = Ok p -> ProviderLaws p.
Proof. intros [= <-]. apply _. Qed.
End LifeExample.

(** ** Properties *)

(** [C5] The statuses of the clusters over one pass of the cluster manager,
    whatever providers that keep to their interface answer and whichever
    statement fails: every row of the cluster table stays, in its place and with its primary key, and its
    status either stays or follows the creation pipeline (accepted, provisioning,
    provisioned, waiting for the operator, or failed); a status that is not part
    of the pipeline, such as deprovisioning or cleanup, stays.  Only under manual
    scaling can a cluster outside cleanup be marked for deprovisioning, and can
    rows be added, with generated keys.  The statement is about primary keys and
    statuses: a pass also writes other columns, such as the DNS name, the
    capacity information and the credentials, and these are left open.  Generated
    keys are taken to be new. *)
Theorem cluster_manager_moves {W} `{Database W} `{IdSource W} `{!ClusterSso W} GetProvider kafkaConfig dp settings obs ocm addon
    (w : W) errs w' :
  ClusterManager_Reconcile GetProvider kafkaConfig dp settings obs ocm addon w = (errs, w') ->
  (forall t p, GetProvider t = Ok p -> ProviderLaws p) ->
  (forall w : W, new_id w <> "" /\ new_id w ∉ map CL.ID (tables_of w).(clusters)) ->
  rows_keyed (status_column w) ->
  let manual := IsDataPlaneManualScalingEnabled dp in
  rows_keyed (status_column w') /\
  exists l1 added, status_column w' = l1 ++ added /\ (manual = false -> added = []) /\ Forall (fun r => generated (W := W) r.1) added /\
    Forall2 (fun r r' => r'.1 = r.1 /\ r'.2 ∈ may_become manual r.2) (status_column w) l1.
Proof.
  intros Hr Hp Hfresh Hk manual.
  pose proof (ClusterManager_lawful GetProvider kafkaConfig dp settings obs ocm addon Hp manual Hfresh eq_refl) as Hpass.
  specialize (Hpass w Hk). rewrite Hr in Hpass. destruct Hpass as [Hk' (l1 & added & Hl & Ha & Hg & Hm)]. simpl in *. split; [done|].
  exists l1, added. split_and!; [done..|]. eapply Forall2_impl; [exact Hm|]. intros r r' [Hi Hs]. split; [done|by apply may_become_moves].
Qed.


Lemma cluster_manager_moves_witness :
  exists errs w', ClusterManager_Reconcile (LifeExample.factory true) Fixtures.kafka_config (Fixtures.dp_config ManualScaling)
    LifeExample.settings ResourceFixtures.observability ResourceFixtures.ocm LifeExample.addon LifeExample.w0 = (errs, w') /\
  map snd (status_column w') =
    [ClusterReady; ClusterDeprovisioning; ClusterCleanup; ClusterWaitingForKasFleetShardOperator; ClusterReady] /\
  rows_keyed (status_column w').
Proof.
  destruct (ClusterManager_Reconcile (LifeExample.factory true) Fixtures.kafka_config (Fixtures.dp_config ManualScaling)
    LifeExample.settings ResourceFixtures.observability ResourceFixtures.ocm LifeExample.addon LifeExample.w0) as [errs w'] eqn:Hr.
  exists errs, w'. split; [done|]. split; [apply (f_equal (fun p => map snd (status_column (snd p)))) in Hr; by vm_compute in Hr|].
  refine (proj1 (cluster_manager_moves (LifeExample.factory true) Fixtures.kafka_config (Fixtures.dp_config ManualScaling)
    LifeExample.settings ResourceFixtures.observability ResourceFixtures.ocm LifeExample.addon LifeExample.w0 errs w' Hr
    (LifeExample.factory_lawful true) LifeExample.fresh_id_fresh _)).
  refine (bool_decide_unpack (rows_keyed (status_column LifeExample.w0)) _). vm_compute. exact I.
Defined.

(** A ready cluster keeps the instance type it has.  Under manual scaling
    the type of the configuration file is written first, but the capacity
    information is then saved from the copy that was read before it, which
    restores the former type: the type in the file never lasts. *)
Theorem ready_cluster_instance_type_reverts {W} `{Database W} `{IdSource W} `{!ClusterSso W} GetProvider dp settings obs ocm addon
    cluster (w : W) w' :
  reconcileReadyCluster GetProvider dp settings obs ocm addon cluster w = (Ok tt, w') ->
  (forall t p, GetProvider t = Ok p -> ProviderLaws p) ->
  IsDataPlaneManualScalingEnabled dp = true -> cluster.(CL.SupportedInstanceType) <> "" ->
  at_row CL.SupportedInstanceType cluster.(CL.ID) cluster.(CL.SupportedInstanceType) w ->
  column_of CL.SupportedInstanceType w' = column_of CL.SupportedInstanceType w.
Proof.
  intros Hr Hp Hman Hne Hw. assert (CL.SupportedInstanceType = CL.Status \/ CL.SupportedInstanceType = CL.SupportedInstanceType) as Hπ by (by right).
  unfold reconcileReadyCluster in Hr. destruct (negb _); [by run_ok Hr|]. destruct (_ =?s EnterpriseDataPlaneClusterType); [by run_ok Hr|].
  apply bind_ok in Hr as ([] & w1 & H1%wrap_err_ok & Hr). apply bind_ok in Hr as ([] & w2 & H2%wrap_err_ok & Hr).
  assert (column_of CL.SupportedInstanceType w2 = column_of CL.SupportedInstanceType w) as Hc.
  { destruct (reconcileClusterInstanceType_touches dp cluster w Hw) as [S HS]. rewrite H1 in HS.
    apply reconcileDynamicCapacityInfo_manual in H2; [|done].
    by eapply (Update_sets _ Hπ _ _ _ _ _ _ H2); [done..|apply Hw|apply Hw|eexists]. }
  apply (at_row_cong _ _ _ _ _ Hc) in Hw. rewrite <- Hc.
  match type of Hr with ?m w2 = _ => enough (steady CL.SupportedInstanceType cluster.(CL.ID) cluster.(CL.SupportedInstanceType) m) as Hs end.
  { specialize (Hs w2 Hw). by rewrite Hr in Hs. }
  apply bind_steady; [by apply wrap_err_steady, reconcileClusterResources_ro|]. intros _.
  apply bind_steady; [by apply wrap_err_steady, reconcileClusterDNS_steady|]. intros _.
  apply bind_steady; [by apply wrap_err_steady, reconcileClusterIdentityProvider_steady|]. intros _.
  by apply wrap_err_steady, reconcileKasFleetshardOperator_steady.
Qed.

(** The file says both types, the row only one; after the pass it still does. *)
Lemma ready_cluster_instance_type_reverts_witness :
  let c := (LifeExample.row "c1" ClusterReady ManagedDataPlaneClusterType) <| CL.SupportedInstanceType := STANDARD |> in
  let w := MemDB.mkWorld (mkTables [] [c]) 1000 [] tt in
  let dp := Fixtures.dp_config ManualScaling in
  GetClusterSupportedInstanceType dp.(DP_ClusterConfig) "c1" = Some AllInstanceTypeSupport /\
  exists w', reconcileReadyCluster (LifeExample.factory true) dp LifeExample.settings ResourceFixtures.observability ResourceFixtures.ocm
    LifeExample.addon c w = (Ok tt, w') /\
  column_of CL.SupportedInstanceType w' = [("row-c1", STANDARD)].
Proof.
  intros c w dp. split; [vm_compute; reflexivity|].
  destruct (reconcileReadyCluster (LifeExample.factory true) dp LifeExample.settings ResourceFixtures.observability ResourceFixtures.ocm
    LifeExample.addon c w) as [r w'] eqn:Hr.
  assert (r = Ok tt) as -> by (apply (f_equal fst) in Hr; by vm_compute in Hr). exists w'. split; [done|].
  refine (ready_cluster_instance_type_reverts (LifeExample.factory true) dp LifeExample.settings ResourceFixtures.observability
    ResourceFixtures.ocm LifeExample.addon c w w' Hr (LifeExample.factory_lawful true) _ _ _); [reflexivity|done|].
  split; [|left]. refine (bool_decide_unpack (rows_keyed (column_of CL.SupportedInstanceType w)) _). vm_compute. exact I.
Defined.
