(* ===== verification/ClusterRemoval.v ===== *)
(** * Taking clusters out of service

    The workers for clusters in [deprovisioning] and in [cleanup], and the
    clusters that leave the configuration file under manual scaling
    ([ClusterManager.v]): what each does to the rows, for any database and any
    lawful providers. *)
From S2P Require Import Prelude Arrays Errors Status Config Model Store Resources Providers Fixtures ClusterService ClusterManager ClusterLifecycle.

(** The primary keys of the clusters are distinct, and set. *)
Definition clusters_keyed (db : tables) : Prop := NoDup (map CL.ID db.(clusters)) /\ "" ∉ map CL.ID db.(clusters).
#[export] Instance clusters_keyed_dec db : Decision (clusters_keyed db) := and_dec _ _.

Lemma keyed_row db (c c' : Cluster) : clusters_keyed db -> c ∈ db.(clusters) -> c' ∈ db.(clusters) -> c.(CL.ID) = c'.(CL.ID) -> c = c'.
Proof.
  intros [Hnd _]. induction db.(clusters) as [|x cs IH]; [set_solver|]. simpl in Hnd. apply NoDup_cons in Hnd as [Hx Hnd].
  intros [->|H1]%elem_of_cons [->|H2]%elem_of_cons Heq; [done|exfalso; apply Hx|exfalso; apply Hx|by apply IH].
  - rewrite Heq. by apply list_elem_of_fmap_2.
  - rewrite <- Heq. by apply list_elem_of_fmap_2.
Qed.

(** ** Loops that work on one row at a time *)
Section RowLoops.
Context {W : Type} `{Database W}.
Context (R : Cluster -> Cluster -> Prop) (R_id : forall r r', R r r' -> r'.(CL.ID) = r.(CL.ID)).

(** The row [c] may have taken a step of [R]; the rest is as it was. *)
Definition row_step (c : Cluster) (w w' : W) : Prop :=
  kafkas (tables_of w') = kafkas (tables_of w) /\
  Forall2 (fun r r' => r' = r \/ (r = c /\ R r r')) (tables_of w).(clusters) (tables_of w').(clusters).

Lemma row_step_refl c w w' : tables_of w' = tables_of w -> row_step c w w'.
Proof. intros Ht. split; rewrite Ht; [done|]. apply Forall2_same. by left. Qed.

Lemma row_step_keyed c w w' : row_step c w w' -> clusters_keyed (tables_of w) -> clusters_keyed (tables_of w').
Proof using R_id.
  intros [_ Hs] Hk. unfold clusters_keyed. enough (map CL.ID (tables_of w').(clusters) = map CL.ID (tables_of w).(clusters)) as -> by done.
  clear Hk. induction Hs as [|r r' l l' Hr Hl IH]; simpl; [done|]. rewrite IH. f_equal. destruct Hr as [->|[-> Hr]]; [done|by apply R_id].
Qed.

Lemma row_step_other c c' w w' : row_step c w w' -> c' ∈ (tables_of w).(clusters) -> c'.(CL.ID) <> c.(CL.ID) -> c' ∈ (tables_of w').(clusters).
Proof.
  intros [_ Hs] Hin Hne. induction Hs as [|r r' l l' Hr Hl IH]; [set_solver|]. apply elem_of_cons in Hin as [->|Hin]; [|right; auto].
  destruct Hr as [->|[-> _]]; [left|done].
Qed.

(** The status of a row is written. *)
Lemma UpdateStatus_row_step c s w r w' :
  ClusterService_UpdateStatus c s w = (r, w') -> clusters_keyed (tables_of w) -> c ∈ (tables_of w).(clusters) ->
  (forall t, R c (touch_cluster t (c <| CL.Status := s |>))) -> row_step c w w' /\
  (r = Ok tt -> exists t, touch_cluster t (c <| CL.Status := s |>) ∈ (tables_of w').(clusters)).
Proof.
  intros Hr Hk Hc HR. assert (c.(CL.ID) <> "") as Hne%String.eqb_neq.
  { intros E. destruct Hk as [_ Hk]. apply Hk. rewrite <- E. by apply list_elem_of_fmap_2. }
  unfold ClusterService_UpdateStatus in Hr. destruct (s =?s ""); [injection Hr as <- <-; split; [by apply row_step_refl|done]|].
  rewrite Hne in Hr. simpl in Hr. apply bind_inv in Hr as [(n & w1 & H1%wrap_err_ok & Hr)|(e & H1%wrap_err_err & ->)].
  - injection Hr as <- <-. apply exec_ok in H1 as [_ Ht]. split; [split; rewrite Ht; [done|]|].
    + simpl. unfold update_rows. apply Forall2_fmap_r, Forall_Forall2_diag, Forall_forall. intros x Hx. unfold compose.
      destruct (String.eqb_spec (CL.ID x) (CL.ID c)) as [E|]; [|by left]. right.
      rewrite (keyed_row _ _ _ Hk Hx Hc E). split; [done|apply HR].
    + intros _. exists (time_now w). rewrite Ht. simpl. apply update_rows_elem. exists c. by rewrite String.eqb_refl.
  - destruct H1 as (e0 & H1 & _). split; [|done]. apply row_step_refl. by eapply exec_err.
Qed.

Lemma gather_rows ks f l w :
  (forall c w, c ∈ l -> clusters_keyed (tables_of w) -> c ∈ (tables_of w).(clusters) -> kafkas (tables_of w) = ks ->
     row_step c w (snd (f c w))) -> kafkas (tables_of w) = ks ->
  NoDup (map CL.ID l) -> clusters_keyed (tables_of w) -> (forall c, c ∈ l -> c ∈ (tables_of w).(clusters)) ->
  kafkas (tables_of (snd (gather f l w))) = ks /\
  Forall2 (fun r r' => r' = r \/ (r ∈ l /\ R r r')) (tables_of w).(clusters) (tables_of (snd (gather f l w))).(clusters).
Proof using R_id.
  revert w. induction l as [|c l IH]; intros w Hf Hks0 Hnd Hk Hl; simpl.
  { split; [done|]. apply Forall2_same. by left. }
  simpl in Hnd. apply NoDup_cons in Hnd as [Hc Hnd].
  assert (row_step c w (snd (f c w))) as H1 by (apply Hf; [left|done|apply Hl; left|done]).
  destruct (f c w) as [errs1 w1]. simpl in H1.
  assert (forall c', c' ∈ l -> c' ∈ (tables_of w1).(clusters)) as Hl1.
  { intros c' Hc'. eapply row_step_other; [exact H1|apply Hl; by right|]. intros E. apply Hc. rewrite <- E. by apply list_elem_of_fmap_2. }
  assert (kafkas (tables_of w1) = ks) as Hks1 by (destruct H1; congruence).
  destruct (IH w1 (fun c' w' Hc' => Hf c' w' (list_elem_of_further _ _ _ Hc')) Hks1 Hnd (row_step_keyed _ _ _ H1 Hk) Hl1) as [Hks H2].
  destruct (gather f l w1) as [errs2 w2]. simpl in *. destruct H1 as [_ H1]. split; [done|].
  assert (forall r, R c r -> r ∉ l) as Hout.
  { intros r Hr Hin. apply Hc. rewrite <- (R_id _ _ Hr). by apply list_elem_of_fmap_2. }
  clear -H1 H2 Hout. revert H2. generalize (tables_of w2).(clusters). induction H1 as [|r r1 l0 l1 Hr Hl IHl]; intros l2 H2.
  - inversion H2. constructor.
  - inversion H2 as [|? r2 ? l2' Hr2 Hl2]; subst. constructor; [|by apply IHl].
    destruct Hr as [->|[-> Hr]]; destruct Hr2 as [->|[Hin Hr2]]; [by left|right; split; [by right|done]|right; split; [left|done]|].
    exfalso. by eapply Hout.
Qed.
End RowLoops.

(** ** Clusters in deprovisioning *)

(** Whether a Kafka that is not being deleted is on the cluster. *)
Definition occupied (ks : list KafkaRequest) (c : Cluster) : bool :=
  existsb (fun k => negb (k.(KR.Status) =?s KafkaRequestStatusDeleting) && (k.(KR.ClusterID) =?s c.(CL.ClusterID))) ks.

(** What one pass may do to a row. *)
Inductive deprovision_step (ks : list KafkaRequest) (r : Cluster) : Cluster -> Prop :=
| back_to_ready t :
    r.(CL.Status) = ClusterDeprovisioning -> is_enterprise r = false -> occupied ks r = true ->
    deprovision_step ks r (touch_cluster t (r <| CL.Status := ClusterReady |>))
| to_cleanup t :
    r.(CL.Status) = ClusterDeprovisioning -> (is_enterprise r = false -> occupied ks r = false) ->
    deprovision_step ks r (touch_cluster t (r <| CL.Status := ClusterCleanup |>)).

Lemma deprovision_step_id ks r r' : deprovision_step ks r r' -> r'.(CL.ID) = r.(CL.ID).
Proof. by destruct 1. Qed.

Section Deprovisioning.
Context {W : Type} `{Database W}.
Context (GetProvider : string -> result error (ClusterProvider W)).
Context (providers_lawful : forall t p, GetProvider t = Ok p -> ProviderLaws p).

(** The lookup tells whether the cluster is occupied. *)
Lemma FindNonEmptyClusterByID_occupied c w r w' :
  FindNonEmptyClusterByID c.(CL.ClusterID) w = (Ok r, w') -> c ∈ (tables_of w).(clusters) ->
  occupied (tables_of w).(kafkas) c = bool_decide (is_Some r).
Proof.
  intros Hr Hc. unfold FindNonEmptyClusterByID in Hr. repeat run_ok Hr. apply exec_ok in Hrun as [Hks Ht]. apply exec_ok in Hr as [Hf _].
  rewrite Ht in Hf. set (p := fun k : KafkaRequest => _ && _) in Hks. assert (occupied (tables_of w).(kafkas) c = existsb p (tables_of w).(kafkas)) as -> by done.
  apply eq_true_iff_eq. rewrite bool_decide_eq_true, existsb_exists. split.
  - intros (k & Hk & Hp). destruct r as [x|]; [by eexists|]. exfalso. simpl in Hf. rewrite Forall_forall in Hf. specialize (Hf c Hc).
    apply not_true_iff_false in Hf. apply Hf. unfold zero_or_eq. rewrite String.eqb_refl, orb_true_r. simpl. apply Contains_true.
    apply list_elem_of_fmap. exists k. split; [subst p; simpl in Hp; split_bools; reflect_strings; congruence|].
    rewrite Hks. apply list_elem_of_In, filter_In. done.
  - intros [x ->]. destruct Hf as [_ Hf]. split_bools. apply Contains_true in H1. apply list_elem_of_fmap in H1 as (k & _ & Hk).
    rewrite Hks in Hk. apply list_elem_of_In, filter_In in Hk as [? ?]. by exists k.
Qed.

(** A lookup of the provider, then a read. *)
Lemma provider_call_ro {A} c (k : ClusterProvider W -> M W ServiceError A) :
  (forall p, ProviderLaws p -> read_only (k p)) -> read_only (bind (get_provider GetProvider c) k).
Proof using providers_lawful.
  intros Hk w. unfold get_provider, bind, lift. destruct (GetProvider (CL.ProviderType c)) as [p|e] eqn:Hp; simpl; [|done].
  by apply Hk, (providers_lawful _ _ Hp).
Qed.

Lemma Delete_ro c : read_only (ClusterService_Delete GetProvider c).
Proof using providers_lawful. apply provider_call_ro. intros p Hp. apply wrap_err_read_only, delete_ro. Qed.

Lemma RemoveResources_ro c n : read_only (RemoveResources GetProvider c n).
Proof using providers_lawful. apply provider_call_ro. intros p Hp. apply wrap_err_read_only, remove_ro. Qed.

(** A read, then a step. *)
Lemma bind_row_step {E A B} R c (m : M W E A) (k : A -> M W E B) w :
  read_only m -> (forall a w1, m w = (Ok a, w1) -> tables_of w1 = tables_of w -> row_step R c w1 (snd (k a w1))) ->
  row_step R c w (snd (bind m k w)).
Proof.
  intros Hm Hk. unfold bind. specialize (Hm w). destruct (m w) as [[a|e] w1]; simpl in Hm; [|by apply row_step_refl].
  specialize (Hk a w1 eq_refl Hm). unfold row_step in *. by rewrite Hm in Hk.
Qed.

Lemma snd_wrap_err {E E' A} (f : E -> E') (m : M W E A) w : snd (wrap_err f m w) = snd (m w).
Proof. unfold wrap_err. by destruct (m w). Qed.

Lemma UpdateStatus_to R c s w f :
  clusters_keyed (tables_of w) -> c ∈ (tables_of w).(clusters) ->
  (forall t, R c (touch_cluster t (c <| CL.Status := s |>))) ->
  row_step R c w (snd (wrap_err (E' := error) f (ClusterService_UpdateStatus c s) w)).
Proof.
  intros Hk Hc HR. rewrite snd_wrap_err. destruct (ClusterService_UpdateStatus c s w) as [r w'] eqn:Hr.
  by apply (UpdateStatus_row_step R) in Hr as [? _].
Qed.

Lemma reconcileDeprovisioningCluster_step c w :
  clusters_keyed (tables_of w) -> c ∈ (tables_of w).(clusters) -> c.(CL.Status) = ClusterDeprovisioning -> is_enterprise c = false ->
  row_step (deprovision_step (tables_of w).(kafkas)) c w (snd (reconcileDeprovisioningCluster GetProvider c w)).
Proof using providers_lawful.
  intros Hk Hc Hs Hent. unfold reconcileDeprovisioningCluster, plain, svc.
  apply bind_row_step; [apply wrap_err_read_only; unfold FindNonEmptyClusterByID; solve_read_only|].
  intros r w1 Hr%wrap_err_ok Ht. apply FindNonEmptyClusterByID_occupied in Hr; [|done].
  rewrite <- Ht in Hk, Hc. destruct r as [x|]; simpl in Hr.
  - apply UpdateStatus_to; [done..|]. intros t. by constructor.
  - apply bind_row_step; [apply wrap_err_read_only, Delete_ro|]. intros deleted w2 _ Ht2. rewrite <- Ht2 in Hk, Hc.
    destruct (negb deleted); [by apply row_step_refl|]. apply UpdateStatus_to; [done..|]. intros t. by constructor.
Qed.

Lemma reconcileDeprovisioningEnterpriseCluster_step c w :
  clusters_keyed (tables_of w) -> c ∈ (tables_of w).(clusters) -> c.(CL.Status) = ClusterDeprovisioning -> is_enterprise c = true ->
  row_step (deprovision_step (tables_of w).(kafkas)) c w (snd (reconcileDeprovisioningEnterpriseCluster GetProvider c w)).
Proof using providers_lawful.
  intros Hk Hc Hs Hent. unfold reconcileDeprovisioningEnterpriseCluster, plain.
  apply bind_row_step; [apply wrap_err_read_only, RemoveResources_ro|]. intros [] w1 _ Ht. rewrite <- Ht in Hk, Hc.
  apply UpdateStatus_to; [done..|]. intros t. constructor; [done|congruence].
Qed.
End Deprovisioning.

(** The rows after a pass. *)
Lemma deprovisioning_rows {W} `{Database W} GetProvider (w : W) errs w' :
  Deprovisioning_Reconcile GetProvider w = (errs, w') ->
  (forall t p, GetProvider t = Ok p -> ProviderLaws p) -> clusters_keyed (tables_of w) ->
  kafkas (tables_of w') = kafkas (tables_of w) /\
  Forall2 (fun r r' => r' = r \/ deprovision_step (tables_of w).(kafkas) r r') (tables_of w).(clusters) (tables_of w').(clusters).
Proof.
  intros Hr Hp Hk. unfold Deprovisioning_Reconcile, worker_errors, processDeprovisioningClusters in Hr.
  destruct (ClusterService_ListByStatus ClusterDeprovisioning w) as [[l|e] w1] eqn:Hl.
  - apply ListByStatus_rows in Hl as [Ht Hl]. unfold add_all in Hr.
    match type of Hr with context [gather ?f l w1] => pose proof (gather_rows (deprovision_step (tables_of w).(kafkas)) (deprovision_step_id _) (tables_of w).(kafkas) f l w1) as Hg end.
    rewrite Ht in Hg. destruct (gather _ l w1) as [errs1 w2]. simpl in Hg. injection Hr as _ <-.
    assert (forall c, c ∈ l -> c ∈ (tables_of w).(clusters) /\ c.(CL.Status) = ClusterDeprovisioning) as Hin.
    { intros c Hc. rewrite Hl in Hc. by apply list_elem_of_In, filter_In in Hc as [?%list_elem_of_In ?%String.eqb_eq]. }
    destruct Hg as [Hks Hg].
    + intros c w0 Hc Hk0 Hc0 Hks0. rewrite errs_of_world, snd_wrap_err, <- Hks0. destruct (Hin c Hc) as [_ Hs].
      destruct (is_enterprise c) eqn:Hent; simpl;
        [by apply reconcileDeprovisioningEnterpriseCluster_step|by apply reconcileDeprovisioningCluster_step].
    + done.
    + rewrite Hl. apply filter_ids_nodup. by destruct Hk.
    + done.
    + intros c Hc. by apply Hin.
    + split; [done|]. eapply Forall2_impl; [exact Hg|]. intros r r' [->|[_ ?]]; [by left|by right].
  - injection Hr as _ <-. apply (read_only_run (ClusterService_ListByStatus ClusterDeprovisioning)) in Hl as ->; [|unfold ClusterService_ListByStatus; solve_read_only].
    split; [done|]. apply Forall2_same. by left.
Qed.

(** ** Properties of the deprovisioning pass *)

(** [C10] One pass of the deprovisioning worker touches clusters in
    [deprovisioning] only and changes nothing but their status.  A managed
    cluster goes on to [cleanup] only when no Kafka is left on it (those
    being deleted aside), and back to [ready] only when one is; the Kafkas are
    not touched. *)
Theorem deprovisioning_pass_effect {W} `{Database W} GetProvider (w : W) errs w' :
  Deprovisioning_Reconcile GetProvider w = (errs, w') ->
  (forall t p, GetProvider t = Ok p -> ProviderLaws p) -> clusters_keyed (tables_of w) ->
  kafkas (tables_of w') = kafkas (tables_of w) /\
  Forall2 (fun r r' => r' = r \/ deprovision_step (tables_of w).(kafkas) r r') (tables_of w).(clusters) (tables_of w').(clusters).
Proof. apply deprovisioning_rows. Qed.

Lemma deprovisioning_pass_effect_witness :
  let rows := [LifeExample.row "c1" ClusterDeprovisioning ManagedDataPlaneClusterType;
               LifeExample.row "a" ClusterDeprovisioning ManagedDataPlaneClusterType;
               LifeExample.row "b" ClusterReady ManagedDataPlaneClusterType] in
  let w : MemDB.world unit := MemDB.mkWorld (mkTables [Fixtures.k1] rows) 1000 [] tt in
  exists errs w', Deprovisioning_Reconcile (LifeExample.factory true) w = (errs, w') /\
    map CL.Status (tables_of w').(clusters) = [ClusterReady; ClusterCleanup; ClusterReady] /\
    Forall2 (fun r r' => r' = r \/ deprovision_step [Fixtures.k1] r r') rows (tables_of w').(clusters).
Proof.
  intros rows w. destruct (Deprovisioning_Reconcile (LifeExample.factory true) w) as [errs w'] eqn:Hr. exists errs, w'. split; [done|].
  split; [apply (f_equal (fun p => map CL.Status (tables_of (snd p)).(clusters))) in Hr; by vm_compute in Hr|].
  refine (proj2 (deprovisioning_pass_effect (LifeExample.factory true) w errs w' Hr (LifeExample.factory_lawful true) _)).
  refine (bool_decide_unpack (clusters_keyed (tables_of w)) _). vm_compute. exact I.
Defined.

(** ** Clusters in cleanup *)

(** A cluster identifier names one row. *)
Definition cluster_ids_distinct (cs : list Cluster) : Prop :=
  forall c c', c ∈ cs -> c' ∈ cs -> c.(CL.ClusterID) = c'.(CL.ClusterID) -> c.(CL.ClusterID) <> "" -> c = c'.

(** The rows without those of some clusters. *)
Definition without (ids : list string) (cs : list Cluster) : list Cluster := List.filter (fun c => negb (Contains ids c.(CL.ClusterID))) cs.

Lemma without_none cs : without [] cs = cs.
Proof. unfold without. induction cs as [|c cs IH]; simpl; [done|]. by f_equal. Qed.

Lemma without_app ids ids' cs : without ids' (without ids cs) = without (ids ++ ids') cs.
Proof.
  unfold without. rewrite filter_filter. apply filter_ext_in'. intros c _. rewrite <- negb_orb. f_equal. apply eq_true_iff_eq.
  rewrite orb_true_iff, !Contains_true. set_solver.
Qed.

Section Cleanup.
Context {W : Type} `{Database W} `{!ClusterSso W} (settings : DataplaneSettings).

(** The identifiers a pass removes are those of rows it was given; without an
    error, all of them. *)
Definition removes (ids : list string) (errs : list error) (w w' : W) : Prop :=
  kafkas (tables_of w') = kafkas (tables_of w) /\
  exists gone, (tables_of w').(clusters) = without gone (tables_of w).(clusters) /\
    (forall i, i ∈ gone -> i ∈ ids /\ i <> "") /\ (errs = [] -> forall i, i ∈ ids -> i ∈ gone).

Lemma nothing_removed ids errs w w' : tables_of w' = tables_of w -> (errs = [] -> ids = []) -> removes ids errs w w'.
Proof. intros Ht He. unfold removes. rewrite Ht. split; [done|]. exists []. rewrite without_none. split_and!; [done|set_solver|]. intros ->%He. set_solver. Qed.

(** A computation that removes the rows of one cluster, or fails. *)
Definition remover {E A} (id : string) (m : M W E A) : Prop :=
  forall w, removes [id] (match fst (m w) with Ok _ => [] | Err _ => [EPlain ""] end) w (snd (m w)).

Lemma delete_remover {E} id (f : error -> E) :
  remover id (wrap_err f (if id =?s "" then throw missing_where_clause else exec (DeleteClusters (fun c => c.(CL.ClusterID) =?s id)))).
Proof.
  intros w. rewrite snd_wrap_err. unfold wrap_err. destruct (String.eqb_spec id "") as [->|Hne]; simpl; [by apply nothing_removed|].
  destruct (exec _ w) as [[[]|e] w'] eqn:He; simpl; [|apply nothing_removed; [by eapply exec_err|done]].
  apply exec_ok in He. simpl in He. split; [by rewrite He|]. exists [id]. rewrite He. simpl. split_and!; [|set_solver..].
  unfold without. apply filter_ext_in'. intros c _. f_equal. apply eq_true_iff_eq. rewrite Contains_true, String.eqb_eq. set_solver.
Qed.

Lemma wrap_err_remover {E E' A} id (f : E -> E') (m : M W E A) : remover id m -> remover id (wrap_err f m).
Proof. intros Hm w. specialize (Hm w). unfold wrap_err. by destruct (m w) as [[] ?]. Qed.

Lemma bind_remover {E A B} id (m : M W E A) (k : A -> M W E B) : read_only m -> (forall a, remover id (k a)) -> remover id (bind m k).
Proof.
  intros Hm Hk w. unfold bind. specialize (Hm w). destruct (m w) as [[a|e] w1]; simpl in *; [|by apply nothing_removed].
  specialize (Hk a w1). unfold removes in *. by rewrite Hm in Hk.
Qed.

Lemma reconcileCleanupCluster_removes c : remover c.(CL.ClusterID) (reconcileCleanupCluster settings c).
Proof.
  unfold reconcileCleanupCluster, svc. apply bind_remover; [solve_read_only|]. intros _.
  apply bind_remover; [unfold RemoveServiceAccount; solve_read_only|]. intros _. apply wrap_err_remover, delete_remover.
Qed.

Lemma reconcileCleanupEnterpriseCluster_removes c : remover c.(CL.ClusterID) (reconcileCleanupEnterpriseCluster c).
Proof.
  unfold reconcileCleanupEnterpriseCluster, svc.
  apply bind_remover; [unfold RemoveServiceAccount; solve_read_only|]. intros _. apply wrap_err_remover, delete_remover.
Qed.

Lemma errs_of_remover id (m : M W error unit) w : remover id m -> removes [id] (fst (errs_of m w)) w (snd (errs_of m w)).
Proof.
  intros Hm. specialize (Hm w). rewrite errs_of_world. unfold errs_of. destruct (m w) as [[a|e] w']; simpl in *; [done|].
  destruct Hm as (Hks & gone & Hg & Hids & _). split; [done|]. by exists gone.
Qed.

Lemma gather_removes f l w :
  (forall c w, c ∈ l -> removes [c.(CL.ClusterID)] (fst (f c w)) w (snd (f c w))) ->
  removes (map CL.ClusterID l) (fst (gather f l w)) w (snd (gather f l w)).
Proof.
  revert w. induction l as [|c l IH]; intros w Hf; simpl; [by apply nothing_removed|].
  pose proof (Hf c w (list_elem_of_here _ _)) as (Hks1 & gone1 & Hg1 & Hids1 & Hall1). destruct (f c w) as [errs1 w1]. simpl in *.
  destruct (IH w1) as (Hks2 & gone2 & Hg2 & Hids2 & Hall2); [intros; apply Hf; by right|].
  destruct (gather f l w1) as [errs2 w2]. simpl in *. split; [congruence|]. exists (gone1 ++ gone2). split_and!.
  - by rewrite Hg2, Hg1, without_app.
  - intros i [Hi|Hi]%elem_of_app; [apply Hids1 in Hi|apply Hids2 in Hi]; set_solver.
  - intros [-> ->]%app_eq_nil i [->|Hi]%elem_of_cons; apply elem_of_app; [left; apply Hall1; [done|left]|right; auto].
Qed.

(** Errors that are no [ErrorList] inside: an empty one would be dropped when
    the worker flattens its errors. *)
Definition listless {E A} (inj : E -> error) (m : M W E A) : Prop := forall w e w', m w = (Err e, w') -> unroll (inj e) = None.

Lemma bind_listless {E A B} (inj : E -> error) (m : M W E A) (k : A -> M W E B) :
  listless inj m -> (forall a, listless inj (k a)) -> listless inj (bind m k).
Proof. intros Hm Hk w e w' [(a & w1 & _ & Hr)|(e0 & Hr & [= ->])]%bind_inv; [by eapply Hk|by eapply Hm]. Qed.

Lemma wrap_err_listless {E E' A} (inj : E -> error) (inj' : E' -> error) (f : E -> E') (m : M W E A) :
  listless inj m -> (forall e, unroll (inj e) = None -> unroll (inj' (f e)) = None) -> listless inj' (wrap_err f m).
Proof. intros Hm Hf w e w' (e0 & Hr & ->)%wrap_err_err. by eapply Hf, Hm. Qed.

Lemma add_all_nil p (w : W) errs w' :
  worker_errors (add_all p) w = (errs, w') -> (forall e, e ∈ fst (p w) -> unroll e = None) ->
  snd (p w) = w' /\ (errs = [] -> fst (p w) = []).
Proof.
  intros Hr Hp. unfold worker_errors, add_all in Hr. destruct (p w) as [[|e l] w1]; simpl in *; injection Hr as Hr <-; [done|].
  split; [done|]. unfold AddErrors in Hr. simpl in Hr. rewrite (Hp e) in Hr by left. simpl in Hr. rewrite (Hp e) in Hr by left. by destruct Hr.
Qed.

Lemma gather_errors f l (w : W) (P : error -> Prop) :
  (forall c w e, c ∈ l -> e ∈ fst (f c w) -> P e) -> forall e, e ∈ fst (gather f l w) -> P e.
Proof.
  revert w. induction l as [|c l IH]; intros w Hf e; simpl; [set_solver|]. pose proof (Hf c w) as Hfc. destruct (f c w) as [errs1 w1].
  specialize (IH w1 (fun c' w' e' Hc' => Hf c' w' e' (list_elem_of_further _ _ _ Hc')) e). destruct (gather f l w1) as [errs2 w2]. simpl in *.
  intros [He|He]%elem_of_app; [apply Hfc; [left|done]|auto].
Qed.

Lemma errs_of_elem {A} (m : M W error A) w e : e ∈ fst (errs_of m w) -> exists w', m w = (Err e, w').
Proof. unfold errs_of. destruct (m w) as [[a|e0] w']; simpl; [set_solver|]. intros ->%list_elem_of_singleton. by exists w'. Qed.
End Cleanup.

(** The services report errors, not lists of errors. *)
Definition plain_services {W} `{Database W} `{!ClusterSso W} : Prop :=
  (forall A (s : stmt A), listless id (exec (W := W) s)) /\
  (forall c, listless EService (deregister_fleetshard_account c)) /\ (forall c, listless EService (deregister_client_in_sso c)).

Section CleanupPass.
Context {W : Type} `{Database W} `{!ClusterSso W} (settings : DataplaneSettings).
Context (services_plain : plain_services).

Definition cleanup_one (cluster : Cluster) : W -> list error * W :=
  if negb (is_enterprise cluster)
  then errs_of (wrap_err (EWrap "failed to reconcile cleanup cluster %s") (reconcileCleanupCluster settings cluster))
  else errs_of (wrap_err (EWrap "failed to reconcile cleanup enterprise cluster %s") (reconcileCleanupEnterpriseCluster cluster)).

Lemma cleanup_one_removes c w : removes [c.(CL.ClusterID)] (fst (cleanup_one c w)) w (snd (cleanup_one c w)).
Proof.
  unfold cleanup_one. destruct (negb _); apply errs_of_remover, wrap_err_remover;
    [apply reconcileCleanupCluster_removes|apply reconcileCleanupEnterpriseCluster_removes].
Qed.

Lemma delete_listless reason clusterID : listless EService (wrap_err (general reason)
  (if clusterID =?s "" then throw missing_where_clause else exec (DeleteClusters (fun c => c.(CL.ClusterID) =?s clusterID)) : M W error unit)).
Proof using services_plain.
  destruct services_plain as [Hexec _]. eapply (wrap_err_listless id); [|intros e He; exact He].
  destruct (_ =?s ""); [intros w e w' [= <- _]; done|apply Hexec].
Qed.

Lemma svc_listless {A} reason (m : M W ServiceError A) : listless EService m -> listless id (svc reason m).
Proof. intros Hm. by eapply wrap_err_listless. Qed.

Lemma cleanup_listless c (m : M W error unit) :
  m = reconcileCleanupCluster settings c \/ m = reconcileCleanupEnterpriseCluster c -> listless id m.
Proof using services_plain.
  destruct services_plain as (_ & Hacc & Hidp). intros [-> | ->].
  - apply bind_listless; [destruct (EnableKafkaSreIdentityProviderConfiguration settings); [apply svc_listless, Hidp|done]|]. intros _.
    apply bind_listless; [apply svc_listless, Hacc|]. intros _. apply svc_listless, delete_listless.
  - apply bind_listless; [apply svc_listless, Hacc|]. intros _. apply svc_listless, delete_listless.
Qed.

Lemma cleanup_one_listless c w e : e ∈ fst (cleanup_one c w) -> unroll e = None.
Proof using services_plain.
  unfold cleanup_one. destruct (negb _); intros (w' & (e0 & He & ->)%wrap_err_err)%errs_of_elem; simpl;
    eapply (cleanup_listless c); [by left|exact He|by right|exact He].
Qed.

Lemma process_cleanup w :
  let p := process ClusterCleanup "failed to list of cleanup clusters" cleanup_one in
  (forall e, e ∈ fst (p w) -> unroll e = None) /\
  exists l, (forall c, c ∈ l -> c ∈ (tables_of w).(clusters) /\ c.(CL.Status) = ClusterCleanup) /\
    (fst (p w) = [] -> forall c, c ∈ (tables_of w).(clusters) -> c.(CL.Status) = ClusterCleanup -> c ∈ l) /\
    removes (map CL.ClusterID l) (fst (p w)) w (snd (p w)).
Proof using services_plain.
  unfold process. destruct (ClusterService_ListByStatus ClusterCleanup w) as [[l|e] w1] eqn:Hl; simpl.
  - apply ListByStatus_rows in Hl as [Ht Hl]. split; [apply gather_errors; intros; by eapply cleanup_one_listless|].
    exists l. split_and!.
    + intros c Hc. rewrite Hl in Hc. by apply list_elem_of_In, filter_In in Hc as [?%list_elem_of_In ?%String.eqb_eq].
    + intros _ c Hc Hs. rewrite Hl. apply list_elem_of_In, filter_In. rewrite <- list_elem_of_In. by rewrite Hs.
    + pose proof (gather_removes cleanup_one l w1 (fun c w _ => cleanup_one_removes c w)) as Hg. unfold removes in *. by rewrite Ht in Hg.
  - split.
    + intros e' ->%list_elem_of_singleton. simpl. unfold ClusterService_ListByStatus in Hl. simpl in Hl.
      apply wrap_err_err in Hl as (e0 & He & ->). destruct services_plain as [Hexec _]. simpl. by eapply Hexec in He.
    + exists []. split_and!; [set_solver|done|]. apply nothing_removed; [|done].
      eapply read_only_run; [|exact Hl]. unfold ClusterService_ListByStatus. solve_read_only.
Qed.
End CleanupPass.

(** One pass of the cleanup worker removes clusters in [cleanup] and no
    others, changes no row and touches no Kafka; when it reports no error, no
    cluster in [cleanup] is left. *)
Theorem cleanup_pass_effect {W} `{Database W} `{!ClusterSso W} settings (w : W) errs w' :
  Cleanup_Reconcile settings w = (errs, w') -> plain_services -> cluster_ids_distinct (tables_of w).(clusters) ->
  kafkas (tables_of w') = kafkas (tables_of w) /\
  (forall c, c ∈ (tables_of w').(clusters) -> c ∈ (tables_of w).(clusters)) /\
  (forall c, c ∈ (tables_of w).(clusters) -> c.(CL.Status) <> ClusterCleanup -> c ∈ (tables_of w').(clusters)) /\
  (errs = [] -> forall c, c ∈ (tables_of w').(clusters) -> c.(CL.Status) <> ClusterCleanup).
Proof.
  intros Hr Hplain Hd. destruct (process_cleanup settings Hplain w) as (Hun & l & Hl & Hall & Hks & gone & Hg & Hids & Hdone).
  apply add_all_nil in Hr as [Hw Herrs]; [|exact Hun]. change (snd (process ClusterCleanup "failed to list of cleanup clusters" (cleanup_one settings) w) = w') in Hw.
  rewrite Hw in Hks, Hg. split; [done|]. rewrite Hg. unfold without. setoid_rewrite list_elem_of_In. setoid_rewrite filter_In.
  setoid_rewrite <- list_elem_of_In. split_and!.
  - by intros c [? _].
  - intros c Hc Hs. split; [done|]. apply negb_true_iff, Contains_false. intros Hi. destruct (Hids _ Hi) as [Hin Hne].
    apply list_elem_of_fmap in Hin as (c' & E & Hc'). apply Hl in Hc' as [Hc' Hs']. rewrite (Hd c c') in Hs; done.
  - intros Herr c [Hc Hnot] Hs. apply negb_true_iff, Contains_false in Hnot. apply Hnot, Hdone; [by apply Herrs|].
    apply list_elem_of_fmap_2, Hall; [by apply Herrs|done..].
Qed.

Lemma plain_services_example : plain_services (W := MemDB.world unit).
Proof.
  split_and!; [|done..]. intros A s w e w'. simpl. unfold MemDB.run.
  destruct (MemDB.faults w) as [|[] rest]; [|by intros [= <- _]|]; destruct (MemDB.run_stmt _ s _) as [[]|]; try done; by intros [= <- _].
Qed.

Lemma cleanup_pass_effect_witness :
  exists errs w', Cleanup_Reconcile LifeExample.settings LifeExample.w0 = (errs, w') /\
    map CL.ClusterID (tables_of w').(clusters) = ["c1"; "a"; "e"] /\ errs = [] /\
    (forall c, c ∈ (tables_of w').(clusters) -> c.(CL.Status) <> ClusterCleanup).
Proof.
  destruct (Cleanup_Reconcile LifeExample.settings LifeExample.w0) as [errs w'] eqn:Hr. exists errs, w'. split; [done|].
  split; [apply (f_equal (fun p => map CL.ClusterID (tables_of (snd p)).(clusters))) in Hr; by vm_compute in Hr|].
  assert (errs = []) as Herr by (apply (f_equal fst) in Hr; by vm_compute in Hr). split; [done|].
  refine (proj2 (proj2 (proj2 (cleanup_pass_effect LifeExample.settings LifeExample.w0 errs w' Hr plain_services_example _))) Herr).
  intros c c' Hc Hc'. apply list_elem_of_In in Hc, Hc'. simpl in Hc, Hc'. naive_solver.
Defined.

(** ** Clusters of the configuration file *)
Lemma IsEmpty_spec {A} (l : list A) : reflect (l = []) (IsEmpty l).
Proof. destruct l; by constructor. Qed.

Section ManualConfig.
Context {W : Type} `{Database W} `{IdSource W}.
Context (kafkaConfig : KafkaConfig) (dp : DataplaneClusterConfig).

Definition configured (id : string) : bool := bool_decide (is_Some (clusterConfigMap dp.(DP_ClusterConfig) !! id)).

(** The cluster is managed and has an identifier. *)
Definition managed (c : Cluster) : bool := negb (c.(CL.ClusterID) =?s "") && negb (is_enterprise c).

(** A cluster that left the configuration file and that no Kafka uses. *)
Definition excess (ks : list KafkaRequest) (c : Cluster) : bool :=
  managed c && negb (configured c.(CL.ClusterID)) &&
  (consumed kafkaConfig (fun k => consumes_resources k && (k.(KR.ClusterID) =?s c.(CL.ClusterID))) ks <=? 0).

(** The entries of the file that have no managed cluster yet. *)
Definition missing (cs : list Cluster) : list ManualCluster :=
  List.filter (fun p => negb (existsb (fun c => managed c && (c.(CL.ClusterID) =?s p.(MC_ClusterId))) cs)) (clusterList dp.(DP_ClusterConfig)).

Lemma clusterIdsMap_lookup ids id : map_lookup (clusterIdsMap ids) id = if Contains ids id then Some id else None.
Proof.
  unfold clusterIdsMap. assert (Contains ids id = Contains (remove_dups ids) id) as ->.
  { apply eq_true_iff_eq. rewrite !Contains_true. symmetry. apply elem_of_remove_dups. }
  induction (remove_dups ids) as [|i l IH]; [done|]. cbn [map map_lookup]. rewrite IH.
  assert (Contains (i :: l) id = (i =?s id) || Contains l id) as ->.
  { apply eq_true_iff_eq. rewrite orb_true_iff, !Contains_true, String.eqb_eq. set_solver. }
  destruct (String.eqb_spec i id) as [->|]; done.
Qed.

(** What the listing of the managed clusters returns. *)
Lemma ListNonEnterprise_ids w ids w1 :
  ListNonEnterpriseClusterIDs w = (Ok ids, w1) ->
  tables_of w1 = tables_of w /\ forall id, Contains ids id = existsb (fun c => managed c && (c.(CL.ClusterID) =?s id)) (tables_of w).(clusters).
Proof.
  intros Hr. unfold ListNonEnterpriseClusterIDs in Hr. repeat run_ok Hr. apply exec_ok in Hrun as (Hl & _ & Ht). split; [done|].
  intros id. apply eq_true_iff_eq. rewrite Contains_true, existsb_exists, list_elem_of_fmap. split.
  - intros (c & -> & Hc). rewrite Hl in Hc. apply list_elem_of_In, filter_In in Hc as [Hc Hm]. exists c. by rewrite String.eqb_refl, andb_true_r.
  - intros (c & Hc & Hm). split_bools. reflect_strings. exists c. split; [done|]. rewrite Hl. apply list_elem_of_In, filter_In. done.
Qed.

Lemma MissingClusters_missing ids cs :
  (forall id, Contains ids id = existsb (fun c => managed c && (c.(CL.ClusterID) =?s id)) cs) ->
  MissingClusters dp.(DP_ClusterConfig) (clusterIdsMap ids) = missing cs.
Proof.
  intros Hids. unfold MissingClusters, missing. induction (clusterList _) as [|p l IH]; simpl; [done|].
  rewrite clusterIdsMap_lookup, Hids, IH. by destruct (existsb _ cs).
Qed.

Lemma ExcessClusters_elem ids id : id ∈ ExcessClusters dp.(DP_ClusterConfig) (clusterIdsMap ids) <-> Contains ids id = true /\ configured id = false.
Proof.
  unfold ExcessClusters, configured. rewrite Contains_true, bool_decide_eq_false, list_elem_of_In, in_flat_map. split.
  - intros ([i v] & (j & [= <- <-] & Hj)%in_map_iff & Hid). apply list_elem_of_In in Hj. rewrite elem_of_remove_dups in Hj.
    destruct (_ !! j) eqn:E; [done|]. destruct Hid as [<-|[]]. rewrite E. split; [done|]. by intros [? ?].
  - intros [Hi Hc]. exists (id, id). split; [apply in_map_iff; exists id; split; [done|]; by apply list_elem_of_In, elem_of_remove_dups|].
    destruct (_ !! id) eqn:E; [by destruct Hc|by left].
Qed.

Section Registering.
Context (fresh_ids : forall w : W, new_id w <> "" /\ new_id w ∉ map CL.ID (tables_of w).(clusters)).

Lemma register_missing_ok p w w1 :
  register_missing p w = (Ok tt, w1) ->
  exists c, tables_of w1 = mkTables (tables_of w).(kafkas) ((tables_of w).(clusters) ++ [c]) /\ c.(CL.ClusterID) = p.(MC_ClusterId).
Proof using fresh_ids.
  intros Hr. unfold register_missing, svc, RegisterClusterJob in Hr. apply wrap_err_ok, wrap_err_ok in Hr.
  set (c := Cluster_BeforeCreate _ _) in Hr. apply exec_ok in Hr. simpl in Hr. unfold save_cluster in Hr.
  assert (c.(CL.ID) = new_id w /\ c.(CL.ClusterID) = p.(MC_ClusterId)) as [Hid Hcid]
    by (subst c; unfold Cluster_BeforeCreate; simpl; split; by repeat case_str).
  destruct (existsb _ _) eqn:Hex; [|by eexists; split; [exact Hr|]].
  exfalso. apply existsb_exists in Hex as (row & Hrow & E%String.eqb_eq). destruct (fresh_ids w) as [_ Hn]. apply Hn.
  rewrite <- Hid. simpl in E. rewrite <- E. apply list_elem_of_fmap_2. by apply list_elem_of_In.
Qed.

Lemma register_all_ok l w w1 :
  for_each register_missing l w = (Ok tt, w1) ->
  exists added, tables_of w1 = mkTables (tables_of w).(kafkas) ((tables_of w).(clusters) ++ added) /\
    Forall2 (fun p c => c.(CL.ClusterID) = p.(MC_ClusterId)) l added.
Proof using fresh_ids.
  revert w. induction l as [|p l IH]; intros w Hr; simpl in Hr.
  { injection Hr as <-. exists []. rewrite app_nil_r. by destruct (tables_of w). }
  apply bind_ok in Hr as ([] & w2 & (c & Ht & Hc)%register_missing_ok & (added & Ht1 & Hall)%IH). exists (c :: added).
  rewrite Ht1, Ht. simpl. split; [by rewrite <- app_assoc|by constructor].
Qed.

End Registering.

(** A row after the pass. *)
Definition manual_row (ks : list KafkaRequest) (r r' : Cluster) : Prop :=
  if excess ks r && negb (r.(CL.Status) =?s ClusterCleanup) then exists t, r' = touch_cluster t (r <| CL.Status := ClusterDeprovisioning |>)
  else r' = r.

Lemma empty_clusters_elem (ids : list string) ks l (id : string) :
  (forall c, c ∈ l -> c.(KIC_ClusterID) ∈ ids /\ c.(KIC_Count) =
     consumed kafkaConfig (fun k => consumes_resources k && (k.(KR.ClusterID) =?s c.(KIC_ClusterID))) ks) ->
  (forall id, id ∈ ids -> id ∈ map KIC_ClusterID l) ->
  id ∈ empty_clusters l <-> id ∈ ids /\ consumed kafkaConfig (fun k => consumes_resources k && (k.(KR.ClusterID) =?s id)) ks <= 0.
Proof.
  intros Hl Hall. unfold empty_clusters. rewrite list_elem_of_In, in_flat_map. split.
  - intros (c & Hc%list_elem_of_In & Hi). destruct (Hl c Hc) as [Hin Hcount]. destruct (Z.ltb_spec 0 (KIC_Count c)); [done|].
    destruct Hi as [<-|[]]. split; [done|lia].
  - intros [(c & -> & Hc)%Hall%list_elem_of_fmap Hle]. exists c. split; [by apply list_elem_of_In|]. destruct (Hl c Hc) as [_ Hcount].
    destruct (Z.ltb_spec 0 (KIC_Count c)); [lia|by left].
Qed.

Lemma manual_row_same ks cs : (forall c, c ∈ cs -> excess ks c = false) -> Forall2 (manual_row ks) cs cs.
Proof. intros Hc. apply Forall_Forall2_diag, Forall_forall. intros c Hin. unfold manual_row. by rewrite Hc. Qed.

(** Marking the identifiers of the excess clusters marks the excess rows. *)
Lemma UpdateMulti_manual ids ks cs added w w' :
  UpdateMultiClusterStatus ids ClusterDeprovisioning w = (Ok tt, w') -> tables_of w = mkTables ks (cs ++ added) ->
  (forall c, c ∈ cs -> Contains ids c.(CL.ClusterID) = excess ks c) ->
  exists old' added', tables_of w' = mkTables ks (old' ++ added') /\ Forall2 (manual_row ks) cs old' /\ map CL.ClusterID added' = map CL.ClusterID added.
Proof.
  intros Hr Ht Hids. unfold UpdateMultiClusterStatus in Hr. repeat run_ok Hr. apply exec_ok in Hrun as [_ Ht']. rewrite Ht in Ht'. simpl in Ht'.
  unfold update_rows in Ht'. rewrite map_app in Ht'. eexists _, _. split; [exact Ht'|]. split.
  - apply Forall2_fmap_r, Forall_Forall2_diag, Forall_forall. intros c Hc. unfold compose, manual_row. rewrite (Hids c Hc).
    destruct (excess ks c && negb _); [by eexists|done].
  - rewrite map_map. apply map_ext. intros c. by destruct (_ && _).
Qed.
End ManualConfig.

(** Under manual scaling a pass without error makes the cluster table
    follow the configuration file: every entry of the file without a managed
    cluster is registered, the managed clusters that left the file and that no
    Kafka uses are marked for deprovisioning (unless they are being cleaned up
    already), and every other row, in particular every enterprise cluster and
    every cluster with Kafkas on it, is left as it was. *)
Theorem manual_config_converges {W} `{Database W} `{IdSource W} kafkaConfig dp (w : W) w' :
  reconcileClusterWithManualConfig kafkaConfig dp w = ([], w') -> IsDataPlaneManualScalingEnabled dp = true ->
  (forall w : W, new_id w <> "" /\ new_id w ∉ map CL.ID (tables_of w).(clusters)) ->
  cluster_ids_distinct (tables_of w).(clusters) ->
  exists old' added, tables_of w' = mkTables (tables_of w).(kafkas) (old' ++ added) /\
    Forall2 (manual_row kafkaConfig dp (tables_of w).(kafkas)) (tables_of w).(clusters) old' /\
    map CL.ClusterID added = map MC_ClusterId (missing dp (tables_of w).(clusters)).
Proof.
  intros Hr Hman Hfresh Hd. unfold reconcileClusterWithManualConfig in Hr. rewrite Hman in Hr. simpl in Hr.
  assert (manual_config kafkaConfig dp w = (Ok tt, w')) as Hm by (unfold errs_of in Hr; destruct (manual_config kafkaConfig dp w) as [[[]|] ?]; by simplify_eq).
  clear Hr. unfold manual_config in Hm. apply bind_ok in Hm as (ids & w1 & Hids%wrap_err_ok & Hm).
  apply ListNonEnterprise_ids in Hids as [Ht1 Hids]. cbv zeta in Hm. rewrite (MissingClusters_missing dp ids _ Hids) in Hm.
  apply bind_ok in Hm as ([] & w2 & (added & Ht2 & Hadded)%register_all_ok & Hm); [|done]. rewrite Ht1 in Ht2.
  assert (map CL.ClusterID added = map MC_ClusterId (missing dp (tables_of w).(clusters))) as Hids2
    by (clear -Hadded; induction Hadded; simpl; congruence).
  assert (forall c, c ∈ (tables_of w).(clusters) -> excess kafkaConfig dp (tables_of w).(kafkas) c = true <->
    c.(CL.ClusterID) ∈ ExcessClusters dp.(DP_ClusterConfig) (clusterIdsMap ids) /\
    consumed kafkaConfig (fun k => consumes_resources k && (k.(KR.ClusterID) =?s c.(CL.ClusterID))) (tables_of w).(kafkas) <= 0) as Hexcess.
  { intros c Hc. rewrite ExcessClusters_elem, Hids, existsb_exists. unfold excess. rewrite !andb_true_iff, negb_true_iff, Z.leb_le.
    split; [|]. 
    - intros [[Hmc Hconf] Hle]. split_and!; [|done..]. exists c. rewrite <- list_elem_of_In, Hmc, String.eqb_refl. done.
    - intros [[(c' & Hc' & Heq) Hconf] Hle]. split_and!; try done. split_bools. reflect_strings. apply list_elem_of_In in Hc'.
      rewrite (Hd c c'); try done. unfold managed in *. split_bools. reflect_strings. congruence. }
  set (ks := kafkas (tables_of w)) in *. set (cs := clusters (tables_of w)) in *.
  destruct (IsEmpty_spec (ExcessClusters (DP_ClusterConfig dp) (clusterIdsMap ids))) as [Hnil|Hne].
  { injection Hm as <-. exists cs, added. split_and!; [done| |done]. apply manual_row_same. intros c Hc.
    apply not_true_iff_false. rewrite (Hexcess c Hc), Hnil. set_solver. }
  unfold deprovision_excess in Hm. apply bind_ok in Hm as (counts & w3 & Hcounts%wrap_err_ok & Hm). cbv zeta in Hm.
  apply FindKafkaInstanceCount_ok in Hcounts as (Ht3 & Hl & Hall); [|done]. rewrite Ht2 in Ht3, Hl. simpl in Hl.
  assert (forall c, c ∈ cs -> c.(CL.ClusterID) ∈ empty_clusters counts <-> excess kafkaConfig dp ks c = true) as Hemp.
  { intros c Hc. rewrite (Hexcess c Hc). by apply empty_clusters_elem. }
  destruct (IsEmpty_spec (empty_clusters counts)) as [Hnil|Hne2].
  - injection Hm as <-. exists cs, added. split_and!; [done| |done]. apply manual_row_same. intros c Hc.
    apply not_true_iff_false. rewrite <- (Hemp c Hc), Hnil. set_solver.
  - apply wrap_err_ok in Hm. eapply UpdateMulti_manual in Hm as (old' & added' & Ht' & Hold & Hadd'); [|exact Ht3|].
    + exists old', added'. split_and!; [done..|congruence].
    + intros c Hc. apply eq_true_iff_eq. by rewrite Contains_true, Hemp.
Qed.

Lemma manual_config_converges_witness :
  exists w', reconcileClusterWithManualConfig Fixtures.kafka_config (Fixtures.dp_config ManualScaling) LifeExample.w0 = ([], w') /\
    map CL.Status (tables_of w').(clusters) = [ClusterReady; ClusterDeprovisioning; ClusterCleanup; ClusterAccepted; ClusterReady] /\
    exists old' added, tables_of w' = mkTables [Fixtures.k1] (old' ++ added) /\
      Forall2 (manual_row Fixtures.kafka_config (Fixtures.dp_config ManualScaling) [Fixtures.k1]) LifeExample.rows old' /\
      map CL.ClusterID added = ["c2"].
Proof.
  destruct (reconcileClusterWithManualConfig Fixtures.kafka_config (Fixtures.dp_config ManualScaling) LifeExample.w0) as [errs w'] eqn:Hr.
  assert (errs = []) as -> by (apply (f_equal fst) in Hr; by vm_compute in Hr). exists w'. split; [done|].
  split; [apply (f_equal (fun p => map CL.Status (tables_of (snd p)).(clusters))) in Hr; by vm_compute in Hr|].
  refine (manual_config_converges Fixtures.kafka_config (Fixtures.dp_config ManualScaling) LifeExample.w0 w' Hr eq_refl
    LifeExample.fresh_id_fresh _).
  intros c c' Hc Hc'. apply list_elem_of_In in Hc, Hc'. simpl in Hc, Hc'. naive_solver.
Defined.
