(* ===== verification/DataPlaneCluster.v ===== *)
(** * What the clusters report

    [src/internal/kafka/internal/services/data_plane_cluster.go]: the fleetshard
    operator of a cluster reports whether it is ready, the Strimzi versions it
    offers and its capacity, and fetches its configuration. *)
From S2P Require Import Prelude Arrays Errors Status Config Model Versions Store Resources Providers Fixtures ClusterService ClusterManager ClusterLifecycle ClusterRemoval.

#[export] Instance KafkaVersion_eq_dec : EqDecision KafkaVersion.
Proof. solve_decision. Defined.
#[export] Instance KafkaIBPVersion_eq_dec : EqDecision KafkaIBPVersion.
Proof. solve_decision. Defined.
#[export] Instance StrimziVersion_eq_dec : EqDecision StrimziVersion.
Proof. solve_decision. Defined.

(** ** The messages *)
Record DataPlaneClusterStatusCondition := mkDataPlaneClusterStatusCondition {
  Cond_Type : string;
  Cond_Reason : string;
  Cond_Status : string;
  Cond_Message : string
}.

Record DataPlaneClusterStatus := mkDataPlaneClusterStatus {
  Conditions : list DataPlaneClusterStatusCondition;
  Reported_AvailableStrimziVersions : list StrimziVersion;
  Reported_DynamicCapacityInfo : gmap string DynamicCapacityInfo
}.

Record DataPlaneClusterConfigObservability := mkDataPlaneClusterConfigObservability {
  DP_AccessToken : string;
  DP_Channel : string;
  DP_Repository : string;
  DP_Tag : string
}.

(** [NetworkConfiguration] holds one flag. *)
Record DataPlaneClusterConfig := mkDataPlaneClusterConfig {
  Observability : DataPlaneClusterConfigObservability;
  Config_DynamicCapacityInfo : gmap string DynamicCapacityInfo;
  Private : bool
}.

Definition dataPlaneClusterStatusCondReadyName : string := "Ready".

(** [strconv.ParseBool]. *)
Definition ParseBool (str : string) : result error bool :=
  if Contains ["1"; "t"; "T"; "true"; "TRUE"; "True"] str then Ok true
  else if Contains ["0"; "f"; "F"; "false"; "FALSE"; "False"] str then Ok false
  else Err (EPlain "strconv.ParseBool: parsing %q: invalid syntax").

Definition isFleetShardOperatorReady (status : DataPlaneClusterStatus) : result error bool :=
  match List.find (fun cond => cond.(Cond_Type) =?s dataPlaneClusterStatusCondReadyName) status.(Conditions) with
  | Some cond => ParseBool cond.(Cond_Status)
  | None => Ok false
  end.

Definition clusterCanProcessStatusReports (cluster : Cluster) : bool :=
  (cluster.(CL.Status) =?s ClusterReady) || (cluster.(CL.Status) =?s ClusterFull) ||
  (cluster.(CL.Status) =?s ClusterWaitingForKasFleetShardOperator).

(** The loop over the known instance types: the nodes stay, the units are
    those of the report. *)
Definition update_capacity (known reported : gmap string DynamicCapacityInfo) : gmap string DynamicCapacityInfo :=
  map_imap (fun instanceType capacity =>
    Some (match reported !! instanceType with
          | None => capacity
          | Some newCapacity => mkDynamicCapacityInfo capacity.(MaxNodes) newCapacity.(MaxUnits) newCapacity.(RemainingUnits)
          end)) known.

Section Service.
Context {W : Type} `{Database W} `{SemverLib}.
Context (obs : ObservabilityConfiguration).

Definition found_cluster (clusterID : string) : M W ServiceError Cluster :=
  cluster <~ FindClusterByID clusterID ;;
  match cluster with
  | None => throw (BadRequest "cluster agent with ID '%s' not found")
  | Some cluster => ret cluster
  end.

Definition GetDataPlaneClusterConfig (clusterID : string) : M W ServiceError DataPlaneClusterConfig :=
  cluster <~ found_cluster clusterID ;;
  ret (mkDataPlaneClusterConfig
         (mkDataPlaneClusterConfigObservability obs.(ObservabilityConfigAccessToken) obs.(ObservabilityConfigChannel)
            obs.(ObservabilityConfigRepo) obs.(ObservabilityConfigTag))
         (RetrieveDynamicCapacityInfo cluster) cluster.(CL.AccessKafkasViaPrivateNetwork)).

(** The cluster as the report changes it; versions are stored when there are
    any and they differ from those known. *)
Definition with_versions (cluster : Cluster) (prev versions : list StrimziVersion) : result error Cluster :=
  if negb (IsEmpty versions) && negb (bool_decide (prev = versions)) then SetAvailableStrimziVersions cluster versions else Ok cluster.

Definition setClusterStatus (cluster : Cluster) (status : DataPlaneClusterStatus) : M W error unit :=
  prevAvailableStrimziVersions <~ lift (GetAvailableStrimziVersions cluster) ;;
  let cluster := SetDynamicCapacityInfo cluster
                   (update_capacity (RetrieveDynamicCapacityInfo cluster) status.(Reported_DynamicCapacityInfo)) in
  cluster <~ lift (with_versions cluster prevAvailableStrimziVersions status.(Reported_AvailableStrimziVersions)) ;;
  wrap_err EService (ClusterService_Update (cluster <| CL.Status := ClusterReady |>)).

Definition UpdateDataPlaneClusterStatus (clusterID : string) (status : DataPlaneClusterStatus) : M W ServiceError unit :=
  cluster <~ found_cluster clusterID ;;
  if negb (clusterCanProcessStatusReports cluster) then ret tt
  else
    fleetShardOperatorReady <~ lift (map_err ToServiceError (isFleetShardOperatorReady status)) ;;
    if negb fleetShardOperatorReady then
      if negb (cluster.(CL.Status) =?s ClusterWaitingForKasFleetShardOperator) then
        ClusterService_UpdateStatus cluster ClusterWaitingForKasFleetShardOperator
      else ret tt
    else wrap_err ToServiceError (setClusterStatus cluster status).
End Service.

(** ** Lemmas *)
Section Lemmas.
Context {W : Type} `{Database W} `{SemverLib}.

Lemma Update_row_step R c c' w r w' :
  ClusterService_Update c' w = (r, w') -> clusters_keyed (tables_of w) -> c ∈ (tables_of w).(clusters) -> c'.(CL.ID) = c.(CL.ID) ->
  (forall t, R c (touch_cluster t (CL.merge_nonzero c' c))) ->
  row_step R c w w' /\ (forall e, r = Err e -> tables_of w' = tables_of w).
Proof.
  intros Hr Hk Hc Hid HR. unfold ClusterService_Update in Hr.
  destruct (CL.ID c' =?s ""); [injection Hr as <- <-; split; [by apply row_step_refl|done]|].
  apply bind_inv in Hr as [(n & w1 & H1%wrap_err_ok & [= <- <-])|(e & H1%wrap_err_err & ->)].
  - split; [|done]. apply exec_ok in H1 as [_ Ht]. split; rewrite Ht; [done|]. simpl. unfold update_rows.
    apply Forall2_fmap_r, Forall_Forall2_diag, Forall_forall. intros x Hx. unfold compose.
    destruct (String.eqb_spec (CL.ID x) (CL.ID c')) as [E|]; [|by left]. right. rewrite Hid in E.
    rewrite (keyed_row _ _ _ Hk Hx Hc E). split; [done|apply HR].
  - destruct H1 as (e0 & H1 & _). apply exec_err in H1. split; [by apply row_step_refl|by intros ? _].
Qed.

Lemma wrap_err_run {E E' A} (f : E -> E') (m : M W E A) w r w' :
  wrap_err f m w = (r, w') -> exists r0, m w = (r0, w') /\ (forall e, r = Err e -> exists e0, r0 = Err e0).
Proof.
  unfold wrap_err. destruct (m w) as [r0 w1]. intros [= <- <-]. exists r0. split; [done|]. intros e He. destruct r0 as [|e0]; [done|by exists e0].
Qed.

Lemma UpdateStatus_err c s w e w' : ClusterService_UpdateStatus c s w = (Err e, w') -> tables_of w' = tables_of w.
Proof.
  unfold ClusterService_UpdateStatus. destruct (s =?s ""); [by intros [= _ <-]|]. destruct (_ && _); [by intros [= _ <-]|].
  intros [(n & w1 & _ & Hr)|(e0 & (e1 & Hr & _)%wrap_err_err & _)]%bind_inv; [done|]. by eapply exec_err.
Qed.

Lemma found_cluster_spec id w r w1 :
  found_cluster id w = (r, w1) -> tables_of w1 = tables_of w /\
  match r with
  | Ok c => c ∈ (tables_of w).(clusters) /\ c.(CL.ClusterID) = id
  | Err _ => True
  end.
Proof.
  intros Hr. split.
  - eapply read_only_run; [|exact Hr]. unfold found_cluster, FindClusterByID. solve_read_only.
  - destruct r as [c|]; [|done]. unfold found_cluster in Hr. apply bind_ok in Hr as ([x|] & w2 & Hf & Hr); [|done].
    injection Hr as <- _. unfold FindClusterByID in Hf. repeat run_ok Hf. apply exec_ok in Hf as [[Hx Hid] _]. by apply String.eqb_eq in Hid.
Qed.

Lemma update_capacity_lookup known reported t :
  update_capacity known reported !! t =
    (fun k => match reported !! t with None => k | Some n => mkDynamicCapacityInfo k.(MaxNodes) n.(MaxUnits) n.(RemainingUnits) end) <$> known !! t.
Proof. unfold update_capacity. rewrite map_lookup_imap. by destruct (known !! t). Qed.

Lemma with_versions_spec c prev versions c' :
  with_versions c prev versions = Ok c' ->
  exists v, c' = c <| CL.AvailableStrimziVersions := v |> /\
    (v = c.(CL.AvailableStrimziVersions) \/ exists sorted, StrimziVersionsDeepSort versions = Ok sorted /\ v = JDoc sorted).
Proof.
  unfold with_versions. destruct (_ && _).
  - unfold SetAvailableStrimziVersions. destruct (StrimziVersionsDeepSort versions) as [sorted|] eqn:E; simpl; [|done].
    intros [= <-]. eexists. split; [done|]. right. by exists sorted.
  - intros [= <-]. exists c.(CL.AvailableStrimziVersions). split; [by destruct c|by left].
Qed.
End Lemmas.

(** ** Properties *)

(** The instance types and their node limits are as before; the units of a
    reported type are those of the report. *)
Definition capacity_updated (known reported new : gmap string DynamicCapacityInfo) : Prop :=
  dom new = dom known /\
  forall t k k', known !! t = Some k -> new !! t = Some k' ->
    k'.(MaxNodes) = k.(MaxNodes) /\
    match reported !! t with
    | None => k' = k
    | Some n => k'.(MaxUnits) = n.(MaxUnits) /\ k'.(RemainingUnits) = n.(RemainingUnits)
    end.

Lemma update_capacity_updated known reported : capacity_updated known reported (update_capacity known reported).
Proof.
  split.
  - apply set_eq. intros t. rewrite !elem_of_dom, update_capacity_lookup. by rewrite fmap_is_Some.
  - intros t k k' Hk. rewrite update_capacity_lookup, Hk. intros [= <-]. by destruct (reported !! t).
Qed.

(** What a report does to the row of its cluster. *)
Inductive report_step `{SemverLib} (status : DataPlaneClusterStatus) (r : Cluster) : Cluster -> Prop :=
| report_not_ready t :
    isFleetShardOperatorReady status = Ok false -> r.(CL.Status) <> ClusterWaitingForKasFleetShardOperator ->
    report_step status r (touch_cluster t (r <| CL.Status := ClusterWaitingForKasFleetShardOperator |>))
| report_ready r' :
    isFleetShardOperatorReady status = Ok true ->
    r'.(CL.ID) = r.(CL.ID) -> r'.(CL.ClusterID) = r.(CL.ClusterID) -> r'.(CL.Status) = ClusterReady ->
    capacity_updated (RetrieveDynamicCapacityInfo r) status.(Reported_DynamicCapacityInfo) (RetrieveDynamicCapacityInfo r') ->
    (r'.(CL.AvailableStrimziVersions) = r.(CL.AvailableStrimziVersions) \/
     exists sorted, StrimziVersionsDeepSort status.(Reported_AvailableStrimziVersions) = Ok sorted /\
       r'.(CL.AvailableStrimziVersions) = JDoc sorted) ->
    report_step status r r'.

(** Storing a ready report. *)
Lemma setClusterStatus_step {W} `{Database W} `{SemverLib} R c status (w : W) r w' :
  setClusterStatus c status w = (r, w') -> clusters_keyed (tables_of w) -> c ∈ (tables_of w).(clusters) ->
  isFleetShardOperatorReady status = Ok true -> (forall row', report_step status c row' -> R c row') ->
  row_step R c w w' /\ (forall e, r = Err e -> tables_of w' = tables_of w).
Proof.
  intros Hr Hk Hc Hready HR. unfold setClusterStatus, bind at 1, lift at 1 in Hr.
  destruct (GetAvailableStrimziVersions c) as [prev|e]; [|injection Hr as <- <-; split; [by apply row_step_refl|done]].
  unfold bind, lift in Hr. cbv zeta in Hr. destruct (with_versions _ prev _) as [c'|e] eqn:Hv; [|injection Hr as <- <-; split; [by apply row_step_refl|done]].
  apply with_versions_spec in Hv as (v & -> & Hv).
  apply wrap_err_run in Hr as (r0 & Hu & Hr0).
  eapply (Update_row_step R c) in Hu as [Hs He]; [|done..|].
  - split; [done|]. intros e Hre. destruct (Hr0 e Hre) as [e0 ->]. by eapply He.
  - intros t. apply HR, report_ready; simpl; [done|done| |done|apply update_capacity_updated|].
    + unfold pick_string. by destruct (CL.ClusterID c =?s "").
    + destruct Hv as [->|(sorted & Hsort & ->)]; [left; simpl; by destruct (CL.AvailableStrimziVersions c)|right; by exists sorted].
Qed.

(** The rows after a report. *)
Lemma cluster_report_rows {W} `{Database W} `{SemverLib} clusterID status (w : W) r w' :
  UpdateDataPlaneClusterStatus clusterID status w = (r, w') -> clusters_keyed (tables_of w) ->
  kafkas (tables_of w') = kafkas (tables_of w) /\
  (forall e, r = Err e -> tables_of w' = tables_of w) /\
  Forall2 (fun row row' => row' = row \/
             (row.(CL.ClusterID) = clusterID /\ clusterCanProcessStatusReports row = true /\ report_step status row row'))
    (tables_of w).(clusters) (tables_of w').(clusters).
Proof.
  intros Hr Hk. set (R := fun row row' => row.(CL.ClusterID) = clusterID /\ clusterCanProcessStatusReports row = true /\ report_step status row row').
  enough (exists c, row_step R c w w' /\ (forall e, r = Err e -> tables_of w' = tables_of w)) as (c & [Hks Hrows] & Herr).
  { split_and!; [done..|]. eapply Forall2_impl; [exact Hrows|]. intros x x' [->|[-> HR]]; [by left|by right]. }
  unfold UpdateDataPlaneClusterStatus in Hr. apply bind_inv in Hr as [(c & w1 & Hf & Hr)|(e & Hf & ->)];
    apply found_cluster_spec in Hf as [Ht Hc].
  2:{ exists zero. split; [by apply row_step_refl|done]. }
  destruct Hc as [Hc Hid]. exists c. rewrite <- Ht in Hk, Hc.
  enough (row_step R c w1 w' /\ (forall e, r = Err e -> tables_of w' = tables_of w1)) as [Hs He]
    by (unfold row_step in *; rewrite Ht in *; done).
  destruct (negb (clusterCanProcessStatusReports c)) eqn:Hcan; [injection Hr as <- <-; split; [by apply row_step_refl|done]|].
  apply negb_false_iff in Hcan. unfold bind, lift in Hr. destruct (isFleetShardOperatorReady status) as [ready|e] eqn:Hready; simpl in Hr;
    [|injection Hr as <- <-; split; [by apply row_step_refl|done]].
  destruct ready; simpl in Hr.
  - apply wrap_err_run in Hr as (r0 & Hset & Hr0).
    eapply (setClusterStatus_step R) in Hset as [Hs He]; [|done..|by intros row' Hrow'; subst R].
    split; [done|]. intros e Hre. destruct (Hr0 e Hre) as [e0 ->]. by eapply He.
  - destruct (String.eqb_spec (CL.Status c) ClusterWaitingForKasFleetShardOperator) as [Hw|Hw]; simpl in Hr;
      [injection Hr as <- <-; split; [by apply row_step_refl|done]|].
    split; [|intros e ->; by eapply UpdateStatus_err]. eapply (UpdateStatus_row_step R) in Hr as [? _]; [done..|].
    intros t. split_and!; [done..|]. by constructor.
Qed.

(** A report changes one row at most, that of the cluster it names, and
    only while the cluster is ready, full or waiting for the operator: a
    cluster that is being created or removed ignores it.  A report that the
    operator is not ready only sends the cluster back to waiting; a ready
    report makes it ready and updates the units of the instance types the
    cluster already has, never its node limits.  A report that is refused
    changes nothing. *)
Theorem cluster_report_effect {W} `{Database W} `{SemverLib} clusterID status (w : W) r w' :
  UpdateDataPlaneClusterStatus clusterID status w = (r, w') -> clusters_keyed (tables_of w) ->
  kafkas (tables_of w') = kafkas (tables_of w) /\
  (forall e, r = Err e -> tables_of w' = tables_of w) /\
  Forall2 (fun row row' => row' = row \/
             (row.(CL.ClusterID) = clusterID /\ clusterCanProcessStatusReports row = true /\ report_step status row row'))
    (tables_of w).(clusters) (tables_of w').(clusters).
Proof. apply cluster_report_rows. Qed.

Lemma cluster_report_effect_witness :
  let status := mkDataPlaneClusterStatus [mkDataPlaneClusterStatusCondition "Ready" "" "True" ""] []
                  {[ STANDARD := mkDynamicCapacityInfo 99 7 6 ]} in
  let rows := [LifeExample.row "c1" ClusterWaitingForKasFleetShardOperator ManagedDataPlaneClusterType] in
  let w : MemDB.world unit := MemDB.mkWorld (mkTables [] rows) 1000 [] tt in
  exists w', UpdateDataPlaneClusterStatus (H0 := DecimalSemver.lib) "c1" status w = (Ok tt, w') /\
    map CL.Status (tables_of w').(clusters) = [ClusterReady] /\
    Forall2 (fun row row' => row' = row \/
               (row.(CL.ClusterID) = "c1" /\ clusterCanProcessStatusReports row = true /\ report_step (H := DecimalSemver.lib) status row row'))
      rows (tables_of w').(clusters).
Proof.
  intros status rows w. destruct (UpdateDataPlaneClusterStatus (H0 := DecimalSemver.lib) "c1" status w) as [r w'] eqn:Hr.
  assert (r = Ok tt) as -> by (apply (f_equal fst) in Hr; by vm_compute in Hr). exists w'. split; [done|].
  split; [apply (f_equal (fun p => map CL.Status (tables_of (snd p)).(clusters))) in Hr; by vm_compute in Hr|].
  refine (proj2 (proj2 (cluster_report_effect (H0 := DecimalSemver.lib) "c1" status w (Ok tt) w' Hr _))).
  refine (bool_decide_unpack (clusters_keyed (tables_of w)) _). vm_compute. exact I.
Defined.

(** A copy that was read before a cluster was marked for deprovisioning
    undoes the mark when it is saved: an update writes the status of the copy
    back.  The cluster manager and the reports save such copies. *)
Theorem stale_copy_undoes_deprovisioning {W} `{Database W} copy (w : W) w' :
  ClusterService_Update copy w = (Ok tt, w') -> copy.(CL.Status) = ClusterReady ->
  rows_keyed (status_column w) -> (copy.(CL.ID), ClusterDeprovisioning) ∈ status_column w ->
  (copy.(CL.ID), ClusterReady) ∈ status_column w'.
Proof.
  intros Hr Hs Hk Hin. unfold ClusterService_Update in Hr. repeat run_ok Hr. apply exec_ok in Hrun as [_ Ht].
  apply list_elem_of_fmap in Hin as (row & [= Hid _] & Hrow). unfold status_column, column_of. rewrite Ht. simpl.
  apply list_elem_of_fmap. exists (touch_cluster (time_now w) (CL.merge_nonzero copy row)). split.
  - change (CL.Status (touch_cluster _ (CL.merge_nonzero copy row))) with (pick_string copy.(CL.Status) row.(CL.Status)). by rewrite Hs, Hid.
  - apply update_rows_elem. exists row. by rewrite Hid, String.eqb_refl.
Qed.

Lemma stale_copy_undoes_deprovisioning_witness :
  let copy := LifeExample.row "c1" ClusterReady ManagedDataPlaneClusterType in
  let w : MemDB.world unit := MemDB.mkWorld (mkTables [] [copy]) 1000 [] tt in
  exists w1 w2, UpdateMultiClusterStatus ["c1"] ClusterDeprovisioning w = (Ok tt, w1) /\
    status_column w1 = [("row-c1", ClusterDeprovisioning)] /\
    ClusterService_Update copy w1 = (Ok tt, w2) /\ ("row-c1", ClusterReady) ∈ status_column w2.
Proof.
  intros copy w. destruct (UpdateMultiClusterStatus ["c1"] ClusterDeprovisioning w) as [r1 w1] eqn:H1.
  assert (r1 = Ok tt) as -> by (apply (f_equal fst) in H1; by vm_compute in H1).
  assert (status_column w1 = [("row-c1", ClusterDeprovisioning)]) as Hw1
    by (apply (f_equal (fun p => status_column (snd p))) in H1; by vm_compute in H1).
  destruct (ClusterService_Update copy w1) as [r2 w2] eqn:H2.
  assert (r2 = Ok tt) as ->.
  { transitivity (fst (ClusterService_Update copy w1)); [by rewrite H2|]. transitivity (fst (ClusterService_Update copy (snd (UpdateMultiClusterStatus ["c1"] ClusterDeprovisioning w))));
      [by rewrite H1|vm_compute; reflexivity]. }
  exists w1, w2. split_and!; [done..|].
  refine (stale_copy_undoes_deprovisioning copy w1 w2 H2 eq_refl _ _); rewrite Hw1; [|left].
  refine (bool_decide_unpack (rows_keyed [("row-c1", ClusterDeprovisioning)]) _). vm_compute. exact I.
Defined.
