(* ===== verification/Placement.v ===== *)
(** * Placement of Kafkas on data plane clusters

    [src/internal/kafka/internal/services/cluster_placement_strategy.go]: the
    strategy for Kafkas of the enterprise billing model and the three
    strategies for the others, chosen by the scaling mode.  The strategies use
    the cluster service through the interface [ClusterLookup] only. *)
From S2P Require Import Prelude Arrays Errors Status Config Model Store Fixtures ClusterService.

Section Placement.
Context {W : Type} `{Database W}.
Context (dataplaneClusterConfig : DataplaneClusterConfig) (kafkaConfig : KafkaConfig).
Context `{!ClusterLookup W kafkaConfig}.

Definition kafka_instance_size (kafka : KafkaRequest) : result error KafkaInstanceSize :=
  GetKafkaInstanceSize kafkaConfig kafka.(KR.InstanceType) kafka.(KR.SizeId).

(** [findDataPlaneClusterByIdIfItHasCapacityAvailable.FindCluster]. *)
Definition enterprise_FindCluster (kafka : KafkaRequest) : M W error (option Cluster) :=
  found <~ attempt (find_cluster_by_id kafka.(KR.ClusterID)) ;;
  match found with
  | Ok (Some cluster) =>
      if negb (cluster.(CL.OrganizationID) =?s kafka.(KR.OrganisationId))
      then throw (EService (Unauthorized "user with organization ID: '%s' is unauthorized to create kafka on a cluster belonging to different organization"))
      else if negb (cluster.(CL.Status) =?s ClusterReady)
      then throw (EService (BadRequest "cluster with id: %s is not ready to accept kafkas"))
      else
        kafkaSizeConsumption <~ lift (kafka_instance_size kafka) ;;
        match RetrieveDynamicCapacityInfo cluster !! kafka.(KR.InstanceType) with
        | None => throw (EPlain "instance type %q not supported on selected cluster %q")
        | Some capacityInfo =>
            streamingUnitCounts <~ compute_consumed cluster.(CL.ClusterID) ;;
            let usedCapacity := default 0 (streamingUnitCounts !! kafka.(KR.InstanceType)) in
            let futureRemainingCapacity :=
              capacityInfo.(MaxUnits) - (usedCapacity + kafkaSizeConsumption.(CapacityConsumed)) in
            if 0 <=? futureRemainingCapacity then ret (Some cluster) else ret None
        end
  | _ => throw (EService (GeneralError "failed to get cluster with id: %q"))
  end.

(** The criteria that the three strategies build. *)
Definition placement_criteria (kafka : KafkaRequest) : FindClusterCriteria :=
  mkFindClusterCriteria kafka.(KR.CloudProvider) kafka.(KR.Region) kafka.(KR.MultiAZ) ClusterReady
    kafka.(KR.InstanceType) "".

Definition FirstReadyCluster_FindCluster (kafka : KafkaRequest) : M W error (option Cluster) :=
  if DesiredBillingModelIsEnterprise kafka then enterprise_FindCluster kafka
  else wrap_err (EWrap "failed to find a cluster with criteria '%v'") (find_cluster (placement_criteria kafka)).

Definition findClusterIDsOfManagedClustersThatAreSchedulable (clusterObj : list Cluster) : list string :=
  map CL.ClusterID
    (List.filter (fun cluster =>
       (cluster.(CL.ClusterType) =?s ManagedDataPlaneClusterType) &&
       IsClusterSchedulable dataplaneClusterConfig.(DP_ClusterConfig) cluster.(CL.ClusterID)) clusterObj).

Definition searchForClusterFromClustersList (clusters : list Cluster) (clusterID : string) : option Cluster :=
  List.find (fun cluster => (cluster.(CL.ClusterID) =?s clusterID) &&
                            (cluster.(CL.ClusterType) =?s ManagedDataPlaneClusterType)) clusters.

Definition findConsumedStreamingUnitPerClusterID (clusterIDs : list string) : M W error (gmap string Z) :=
  instanceLst <~ find_kafka_instance_count clusterIDs ;;
  ret (foldl (fun m c => <[ c.(KIC_ClusterID) := c.(KIC_Count) ]> m) ∅ instanceLst).

(** The first identifier whose cluster stays within its limit. *)
Definition within_limit (consumed : gmap string Z) (size : KafkaInstanceSize) (clusterID : string) : bool :=
  IsNumberOfStreamingUnitsWithinClusterLimit dataplaneClusterConfig.(DP_ClusterConfig) clusterID
    (default 0 (consumed !! clusterID) + size.(CapacityConsumed)).

(** When the consumption query fails, the code wraps the nil [err] of the
    previous call: no cluster and no error are returned. *)
Definition FirstSchedulableWithinLimit_FindCluster (kafka : KafkaRequest) : M W error (option Cluster) :=
  if DesiredBillingModelIsEnterprise kafka then enterprise_FindCluster kafka
  else
    kafkaInstanceSize <~ lift (map_err (EWrap "failed to get kafka instance size for cluster with criteria '%v'")
                                (kafka_instance_size kafka)) ;;
    clusters <~ wrap_err (EWrap "failed to find all clusters with criteria '%v'")
                  (find_all_clusters (placement_criteria kafka)) ;;
    let clusterIDs := findClusterIDsOfManagedClustersThatAreSchedulable clusters in
    if IsEmpty clusterIDs then ret None
    else
      consumedUnits <~ attempt (findConsumedStreamingUnitPerClusterID clusterIDs) ;;
      match consumedUnits with
      | Err _ => ret None
      | Ok consumedStreamingUnitPerClusterID =>
          match List.find (within_limit consumedStreamingUnitPerClusterID kafkaInstanceSize) clusterIDs with
          | Some clusterID => ret (searchForClusterFromClustersList clusters clusterID)
          | None => ret None
          end
      end.

Definition isManagedClusterNotFull (cluster : Cluster) (counts : list KafkaStreamingUnitCountPerCluster)
    (kafka : KafkaRequest) (instanceSize : KafkaInstanceSize) : bool :=
  let currentStreamingUnitsUsed :=
    GetStreamingUnitCountForClusterAndInstanceType counts cluster.(CL.ClusterID) kafka.(KR.InstanceType) in
  let maxStreamingUnits :=
    match RetrieveDynamicCapacityInfo cluster !! kafka.(KR.InstanceType) with
    | Some info => info.(MaxUnits)
    | None => 0
    end in
  currentStreamingUnitsUsed + instanceSize.(CapacityConsumed) <=? maxStreamingUnits.

(** No cluster at all is not an error: the code wraps a nil error. *)
Definition FirstReadyWithCapacity_FindCluster (kafka : KafkaRequest) : M W error (option Cluster) :=
  if DesiredBillingModelIsEnterprise kafka then enterprise_FindCluster kafka
  else
    clusters <~ wrap_err (EWrap "failed to find all clusters with criteria '%v'")
                  (find_all_clusters (placement_criteria kafka)) ;;
    if IsEmpty clusters then ret None
    else
      counts <~ wrap_err (EWrap "failed to get count of streaming units by cluster and instance type for criteria '%v'")
                  find_streaming_unit_count ;;
      instanceSize <~ lift (map_err (EWrap "failed to get kafka instance size for cluster with criteria '%v'")
                             (kafka_instance_size kafka)) ;;
      ret (List.find (fun cluster =>
             (cluster.(CL.ClusterType) =?s ManagedDataPlaneClusterType) &&
             isManagedClusterNotFull cluster counts kafka instanceSize) clusters).

(** [NewClusterPlacementStrategy] and the chosen strategy's [FindCluster]. *)
Definition Placement_FindCluster (kafka : KafkaRequest) : M W error (option Cluster) :=
  if IsDataPlaneManualScalingEnabled dataplaneClusterConfig then FirstSchedulableWithinLimit_FindCluster kafka
  else if IsDataPlaneAutoScalingEnabled dataplaneClusterConfig then FirstReadyWithCapacity_FindCluster kafka
  else FirstReadyCluster_FindCluster kafka.

(** ** Lemmas *)
Lemma enterprise_FindCluster_ro kafka : read_only (enterprise_FindCluster kafka).
Proof. unfold enterprise_FindCluster. solve_read_only. Qed.

Lemma Placement_FindCluster_ro kafka : read_only (Placement_FindCluster kafka).
Proof.
  pose proof (enterprise_FindCluster_ro kafka).
  unfold Placement_FindCluster, FirstSchedulableWithinLimit_FindCluster, FirstReadyWithCapacity_FindCluster,
    FirstReadyCluster_FindCluster, findConsumedStreamingUnitPerClusterID. solve_read_only.
Qed.
End Placement.
#[export] Hint Resolve Placement_FindCluster_ro : fleet.

(** ** What the strategies promise *)

(** The cluster lists the instance type, as an item and not only as a
    substring. *)
Definition supports (c : Cluster) (instanceType : string) : Prop :=
  instanceType <> "" /\ exists t, t ∈ Split c.(CL.SupportedInstanceType) ","%char /\ TrimSpace t = instanceType.

(** Kafkas that occupy the cluster, for one instance type. *)
Definition occupies (c : Cluster) (instanceType : string) (k : KafkaRequest) : bool :=
  consumes_resources k && (k.(KR.ClusterID) =?s c.(CL.ClusterID)) && (k.(KR.InstanceType) =?s instanceType).

Definition max_units (c : Cluster) (instanceType : string) : Z :=
  match RetrieveDynamicCapacityInfo c !! instanceType with
  | Some info => info.(MaxUnits)
  | None => 0
  end.

(** A managed cluster that can take the Kafka under dynamic scaling. *)
Definition has_room (cfg : KafkaConfig) (db : tables) (kafka : KafkaRequest) (c : Cluster) : Prop :=
  c ∈ db.(clusters) /\ criteria_match (placement_criteria kafka) c = true /\
  c.(CL.ClusterType) = ManagedDataPlaneClusterType /\
  consumed cfg (occupies c kafka.(KR.InstanceType)) db.(kafkas) + kafka_units cfg kafka
    <= max_units c kafka.(KR.InstanceType).

(** A managed cluster that can take the Kafka under manual scaling. *)
Definition schedulable_within_limit (dp : DataplaneClusterConfig) (cfg : KafkaConfig) (db : tables)
    (kafka : KafkaRequest) (c : Cluster) : Prop :=
  c ∈ db.(clusters) /\ criteria_match (placement_criteria kafka) c = true /\
  c.(CL.ClusterType) = ManagedDataPlaneClusterType /\
  IsClusterSchedulable dp.(DP_ClusterConfig) c.(CL.ClusterID) = true /\
  IsNumberOfStreamingUnitsWithinClusterLimit dp.(DP_ClusterConfig) c.(CL.ClusterID)
    (consumed cfg (fun k => consumes_resources k && (k.(KR.ClusterID) =?s c.(CL.ClusterID))) db.(kafkas)
     + kafka_units cfg kafka) = true.

Definition entry_id (e : KafkaStreamingUnitCountPerCluster) : string * string := (e.(SU_ClusterId), e.(SU_InstanceType)).

(** The database as the migrations and the registration handlers keep it:
    cluster identifiers identify entries, Kafkas record the provider and region
    of their cluster, and no count exceeds 32 bits. *)
Record placement_wf (cfg : KafkaConfig) (db : tables) (kafka : KafkaRequest) : Prop := {
  wf_entries : NoDup (map entry_id (List.filter identified (initial_entries db.(clusters))));
  wf_supports : forall c, c ∈ db.(clusters) -> criteria_match (placement_criteria kafka) c = true ->
    supports c kafka.(KR.InstanceType) /\ c.(CL.ClusterID) <> "";
  wf_kafkas : forall c k, c ∈ db.(clusters) -> k ∈ db.(kafkas) -> k.(KR.ClusterID) = c.(CL.ClusterID) ->
    k.(KR.CloudProvider) = c.(CL.CloudProvider) /\ k.(KR.Region) = c.(CL.Region);
  wf_int32 : forall c, c ∈ db.(clusters) -> in_int32 (consumed cfg (occupies c kafka.(KR.InstanceType)) db.(kafkas))
}.

(** *** Helper lemmas *)
Lemma find_sorted {A} (R : A -> A -> Prop) (p : A -> bool) l x :
  (forall a, R a a) -> Sorted.StronglySorted R l -> List.find p l = Some x ->
  x ∈ l /\ p x = true /\ forall y, y ∈ l -> p y = true -> R x y.
Proof.
  intros Hrefl. induction 1 as [|a l Hs IH Hall]; simpl; [done|].
  destruct (p a) eqn:Hp.
  - intros [= <-]. split_and!; [left|done|]. intros y [->|Hy]%elem_of_cons _; [done|].
    rewrite Forall_forall in Hall. auto.
  - intros (Hx & Hpx & Hy)%IH. split_and!; [by right|done|].
    intros y [->|Hin]%elem_of_cons Hpy; [congruence|auto].
Qed.

Lemma find_none_elem {A} (p : A -> bool) l x : List.find p l = None -> x ∈ l -> p x = false.
Proof. intros Hf Hx. by apply (find_none _ _ Hf), list_elem_of_In. Qed.

Lemma created_before_refl c : created_before c c.
Proof. unfold created_before. lia. Qed.

Lemma criteria_ready kafka c : criteria_match (placement_criteria kafka) c = true -> c.(CL.Status) = ClusterReady.
Proof.
  unfold criteria_match, placement_criteria, zero_or_eq. simpl. intros Hm. split_bools. by reflect_strings.
Qed.

(** The entry of a cluster for an instance type it supports. *)
Definition entry_for (c : Cluster) (instanceType : string) : KafkaStreamingUnitCountPerCluster :=
  mkKafkaStreamingUnitCountPerCluster c.(CL.Region) instanceType c.(CL.ID) c.(CL.ClusterID) 0
    c.(CL.CloudProvider) (max_units c instanceType) c.(CL.Status) c.(CL.ClusterType).

Lemma entry_for_initial c instanceType cs :
  c ∈ cs -> not_failed c = true -> supports c instanceType -> entry_for c instanceType ∈ initial_entries cs.
Proof.
  intros Hc Hf (Hne & t & Ht & <-). unfold initial_entries. apply list_elem_of_In, in_flat_map. exists c.
  split; [by apply filter_In; rewrite <- list_elem_of_In|].
  unfold prepopulate_cluster. apply in_flat_map. exists t. split; [by apply list_elem_of_In|].
  apply String.eqb_neq in Hne as ->. by left.
Qed.

Lemma get_count_lookup l e :
  NoDup (map entry_id (List.filter identified l)) -> e ∈ l -> identified e = true ->
  GetStreamingUnitCountForClusterAndInstanceType l e.(SU_ClusterId) e.(SU_InstanceType) = e.(SU_Count).
Proof.
  intros Hnd He Hid. revert Hnd He. induction l as [|a l IH]; simpl; [set_solver|].
  intros Hnd [->|He]%elem_of_cons; [by rewrite !String.eqb_refl|].
  destruct ((SU_ClusterId a =?s SU_ClusterId e) && (SU_InstanceType a =?s SU_InstanceType e)) eqn:Hs.
  - exfalso. split_bools. reflect_strings.
    assert (identified a = true) as Ha by (unfold identified in *; congruence). rewrite Ha in Hnd. simpl in Hnd.
    apply NoDup_cons in Hnd as [Hnin _]. apply Hnin, list_elem_of_fmap. exists e. split; [unfold entry_id; congruence|].
    apply list_elem_of_In, filter_In. by rewrite <- list_elem_of_In.
  - apply IH; [|done]. destruct (identified a); [by apply NoDup_cons in Hnd as [_ ?] | done].
Qed.

Lemma filter_with_count (f : KafkaStreamingUnitCountPerCluster -> Z) l :
  List.filter identified (map (fun e => with_count (f e) e) l) = map (fun e => with_count (f e) e) (List.filter identified l).
Proof. induction l as [|e l IH]; simpl; [done|]. rewrite IH. unfold identified at 1. simpl. fold (identified e). by destruct (identified e). Qed.

Lemma NoDup_map_refine {A B C} (f : A -> B) (g : A -> C) l :
  (forall a b, g a = g b -> f a = f b) -> NoDup (map f l) -> NoDup (map g l).
Proof.
  intros Hfg. induction l as [|a l IH]; simpl; [constructor|]. intros [Ha Hnd]%NoDup_cons.
  apply NoDup_cons. split; [|by apply IH]. intros (b & Hb & Hin)%list_elem_of_fmap.
  apply Ha, list_elem_of_fmap. exists b. auto.
Qed.

Lemma entry_keys_nodup cs :
  NoDup (map entry_id (List.filter identified (initial_entries cs))) -> distinct_entries (initial_entries cs).
Proof. unfold distinct_entries. apply NoDup_map_refine. intros a b. unfold entry_id, entry_key. congruence. Qed.

(** In a well-formed database the Kafkas counted in the entry are those that
    occupy the cluster. *)
Lemma counted_in_occupies cfg db kafka c :
  placement_wf cfg db kafka -> c ∈ db.(clusters) -> c.(CL.ClusterID) <> "" ->
  consumed cfg (fun k => consumes_resources k && counted_in (entry_for c kafka.(KR.InstanceType)) k) db.(kafkas) =
  consumed cfg (occupies c kafka.(KR.InstanceType)) db.(kafkas).
Proof.
  intros Hwf Hc Hid. unfold consumed. f_equal. apply filter_ext_in'. intros k Hk.
  unfold occupies, counted_in, isSame, group_row, kafka_group_key. cbn -[String.eqb].
  destruct (consumes_resources k); [|done]. cbn -[String.eqb].
  destruct (String.eqb_spec (KR.ClusterID k) (CL.ClusterID c)) as [E|E]; simpl.
  - rewrite E. apply String.eqb_neq in Hid as ->.
    destruct (wf_kafkas _ _ _ Hwf c k Hc Hk E) as [-> ->]. rewrite !String.eqb_refl. simpl.
    by rewrite andb_true_r, String.eqb_sym.
  - destruct (KR.ClusterID k =?s ""); [done|].
    rewrite (proj2 (String.eqb_neq (CL.ClusterID c) _)) by done. by rewrite andb_false_r.
Qed.

Section PlacementProperties.
Context {W : Type} `{Database W} (dp : DataplaneClusterConfig) (cfg : KafkaConfig).
Context `{!ClusterLookup W cfg}.

Lemma run_tables {E A} (m : M W E A) w r w' : read_only m -> m w = (r, w') -> tables_of w' = tables_of w.
Proof. apply read_only_run. Qed.

(** Under the interface's laws, the fullness test compares the units that
    occupy the cluster with its maximum. *)
Lemma not_full_spec kafka c size counts w w' :
  find_streaming_unit_count w = (Ok counts, w') ->
  placement_wf cfg (tables_of w) kafka -> c ∈ (tables_of w).(clusters) ->
  criteria_match (placement_criteria kafka) c = true ->
  kafka_instance_size cfg kafka = Ok size ->
  isManagedClusterNotFull c counts kafka size = true <->
  consumed cfg (occupies c kafka.(KR.InstanceType)) (tables_of w).(kafkas) + kafka_units cfg kafka
    <= max_units c kafka.(KR.InstanceType).
Proof.
  intros Hrun Hwf Hc Hm Hsize. destruct (wf_supports _ _ _ Hwf c Hc Hm) as [Hsup Hid].
  pose proof (entry_keys_nodup _ (wf_entries _ _ _ Hwf)) as Hnd.
  apply find_streaming_unit_count_ok in Hrun; [|done].
  assert (not_failed c = true) as Hnf by (unfold not_failed; by rewrite (criteria_ready _ _ Hm)).
  pose proof (entry_for_initial c _ _ Hc Hnf Hsup) as He.
  pose (n := int32 (consumed cfg (fun k => consumes_resources k && counted_in (entry_for c kafka.(KR.InstanceType)) k)
                      (tables_of w).(kafkas))).
  assert (with_count n (entry_for c (KR.InstanceType kafka)) ∈ counts) as Hin.
  { rewrite Hrun. apply list_elem_of_fmap. by eexists. }
  assert (NoDup (map entry_id (List.filter identified counts))) as Hnd'.
  { rewrite Hrun, filter_with_count, map_map. exact (wf_entries _ _ _ Hwf). }
  pose proof (get_count_lookup _ _ Hnd' Hin) as Hget. simpl in Hget.
  unfold isManagedClusterNotFull. rewrite Hget by (by apply negb_true_iff, String.eqb_neq).
  subst n.
  rewrite counted_in_occupies, int32_id by (done || by apply (wf_int32 _ _ _ Hwf)).
  unfold kafka_units, units. unfold kafka_instance_size in Hsize. rewrite Hsize.
  rewrite Z.leb_le. done.
Qed.

(** [C7] Under dynamic scaling a Kafka that is not enterprise is placed on the
    oldest managed, ready, matching cluster that has room for it, and on none
    only when no cluster has room. *)
Theorem dynamic_placement_correct kafka w r w' :
  FirstReadyWithCapacity_FindCluster cfg kafka w = (Ok r, w') ->
  DesiredBillingModelIsEnterprise kafka = false -> placement_wf cfg (tables_of w) kafka ->
  match r with
  | Some c => has_room cfg (tables_of w) kafka c /\
              forall c', has_room cfg (tables_of w) kafka c' -> created_before c c'
  | None => forall c', ~ has_room cfg (tables_of w) kafka c'
  end.
Proof.
  intros Hrun He Hwf. unfold FirstReadyWithCapacity_FindCluster in Hrun. rewrite He in Hrun.
  run_ok Hrun. pose proof (run_tables _ _ _ _ (find_all_clusters_ro _) Hrun0) as Ht0.
  apply find_all_clusters_ok in Hrun0 as [Hp Hs].
  assert (forall c, c ∈ a <-> c ∈ (tables_of w).(clusters) /\ criteria_match (placement_criteria kafka) c = true) as Ha.
  { intros c. rewrite Hp, !list_elem_of_In. apply filter_In. }
  destruct (IsEmpty a) eqn:Hemp.
  { run_ok Hrun. intros c' (Hc' & Hm & _). destruct a; [|done]. by apply (not_elem_of_nil c'), (Ha c'). }
  repeat run_ok Hrun. rewrite <- Ht0 in *.
  destruct (kafka_instance_size cfg kafka) as [size|] eqn:Hsize; [|done]. simpl in Hrun1. injection Hrun1 as <-.
  assert (forall c, has_room cfg (tables_of w0) kafka c <-> c ∈ a /\
    (c.(CL.ClusterType) =?s ManagedDataPlaneClusterType) && isManagedClusterNotFull c a0 kafka size = true) as Hroom.
  { intros c. rewrite Ha. unfold has_room. rewrite andb_true_iff, String.eqb_eq. split.
    - intros (? & ? & ? & ?). split_and!; try done. by eapply not_full_spec.
    - intros ((? & ?) & ? & Hnf). split_and!; try done. by eapply (not_full_spec kafka c) in Hnf. }
  destruct (List.find _ a) as [c|] eqn:Hf.
  - apply (find_sorted created_before) in Hf as (Hc & Hpc & Hold); [|apply created_before_refl|done].
    split; [by apply Hroom|]. intros c' [Hc' Hpc']%Hroom. auto.
  - intros c' [Hc' Hpc']%Hroom. by rewrite (find_none_elem _ _ _ Hf Hc') in Hpc'.
Qed.

(** A Kafka of the enterprise billing model is placed on the cluster it
    names only when that cluster belongs to its organisation, is ready,
    declares capacity for the instance type and stays within that capacity
    with the Kafka on it; whatever the scaling mode. *)
Theorem enterprise_placement_sound kafka w c w' :
  Placement_FindCluster dp cfg kafka w = (Ok (Some c), w') -> DesiredBillingModelIsEnterprise kafka = true ->
  c ∈ (tables_of w).(clusters) /\ c.(CL.ClusterID) = kafka.(KR.ClusterID) /\
  c.(CL.OrganizationID) = kafka.(KR.OrganisationId) /\ c.(CL.Status) = ClusterReady /\
  consumed cfg (occupies c kafka.(KR.InstanceType)) (tables_of w).(kafkas) + kafka_units cfg kafka
    <= max_units c kafka.(KR.InstanceType).
Proof.
  intros Hrun He.
  assert (enterprise_FindCluster cfg kafka w = (Ok (Some c), w')) as Hent.
  { unfold Placement_FindCluster, FirstSchedulableWithinLimit_FindCluster, FirstReadyWithCapacity_FindCluster,
      FirstReadyCluster_FindCluster in Hrun. rewrite He in Hrun. by repeat case_match. }
  clear Hrun. unfold enterprise_FindCluster in Hent. repeat run_ok Hent; simplify_eq; split_bools. reflect_strings.
  pose proof (run_tables _ _ _ _ (find_cluster_by_id_ro _) Hrun) as Ht.
  apply find_cluster_by_id_ok in Hrun as [Hc Hid]. apply String.eqb_eq in Hid.
  apply compute_consumed_ok with (t := kafka.(KR.InstanceType)) in Hrun1. rewrite Ht in Hrun1.
  split_and!; try done.
  unfold max_units. match goal with H : _ !! _ = Some _ |- _ => rewrite H end.
  match goal with H : kafka_instance_size _ _ = Ok _ |- _ => unfold kafka_instance_size in H; unfold kafka_units, units; rewrite H end.
  match goal with H : (0 <=? _) = true |- _ => apply Z.leb_le in H; rewrite Hrun1 in H end.
  assert (forall l, consumed cfg (occupies c (KR.InstanceType kafka)) l =
    consumed cfg (fun k => (KR.ClusterID k =?s CL.ClusterID c) && consumes_resources k && (KR.InstanceType k =?s KR.InstanceType kafka)) l) as ->.
  { intros l. unfold consumed. f_equal. apply filter_ext_in'. intros k _. unfold occupies.
    by rewrite (andb_comm (consumes_resources k)). }
  lia.
Qed.

Lemma consumed_map_lookup ids w m w' :
  findConsumedStreamingUnitPerClusterID cfg ids w = (Ok m, w') -> ids <> [] ->
  forall id, id ∈ ids -> m !! id =
    Some (consumed cfg (fun k => consumes_resources k && (k.(KR.ClusterID) =?s id)) (tables_of w).(kafkas)).
Proof.
  intros Hrun Hne id Hid. unfold findConsumedStreamingUnitPerClusterID in Hrun. repeat run_ok Hrun.
  apply find_kafka_instance_count_ok in Hrun0 as [Hc Hcov]; [|done]. specialize (Hcov id Hid). clear Hid Hne.
  revert Hc Hcov. generalize (∅ : gmap string Z).
  induction a as [|c l IH] using rev_ind; intros m Hc Hcov; [set_solver|].
  rewrite foldl_app. simpl. destruct (decide (KIC_ClusterID c = id)) as [<-|Hne].
  - rewrite lookup_insert_eq. f_equal. apply Hc. set_solver.
  - rewrite lookup_insert_ne by done. apply IH; [intros; apply Hc; set_solver|].
    rewrite map_app, elem_of_app in Hcov. destruct Hcov as [|Hcov]; [done|]. simpl in Hcov. set_solver.
Qed.

Lemma nodup_find_unique (cs : list Cluster) c p :
  NoDup (map CL.ClusterID cs) -> c ∈ cs -> p c = true ->
  List.find (fun x => (x.(CL.ClusterID) =?s c.(CL.ClusterID)) && p x) cs = Some c.
Proof.
  induction cs as [|x cs IH]; simpl; [set_solver|]. intros [Hx Hnd]%NoDup_cons [<-|Hc]%elem_of_cons Hp.
  - by rewrite String.eqb_refl, Hp.
  - destruct (String.eqb_spec (CL.ClusterID x) (CL.ClusterID c)) as [E|]; simpl; [|by apply IH].
    exfalso. apply Hx. rewrite E. by apply list_elem_of_fmap_2.
Qed.

Lemma find_map {A B} (f : A -> B) (p : B -> bool) l : List.find p (map f l) = f <$> List.find (fun a => p (f a)) l.
Proof. induction l as [|a l IH]; simpl; [done|]. by destruct (p (f a)). Qed.

Lemma StronglySorted_filter {A} (R : A -> A -> Prop) (p : A -> bool) l :
  Sorted.StronglySorted R l -> Sorted.StronglySorted R (List.filter p l).
Proof.
  induction 1 as [|a l Hs IH Hall]; simpl; [constructor|]. destruct (p a); [|done]. constructor; [done|].
  apply Forall_forall. intros x Hx. rewrite Forall_forall in Hall. apply Hall.
  apply list_elem_of_In, filter_In in Hx as [Hx _]. by apply list_elem_of_In.
Qed.

Lemma NoDup_map_filter {A B} (f : A -> B) (p : A -> bool) l : NoDup (map f l) -> NoDup (map f (List.filter p l)).
Proof.
  induction l as [|a l IH]; simpl; [done|]. intros [Ha Hnd]%NoDup_cons. destruct (p a); simpl; [|by apply IH].
  apply NoDup_cons. split; [|by apply IH]. intros (b & Hb & Hin)%list_elem_of_fmap. apply Ha.
  apply list_elem_of_fmap. exists b. split; [done|]. apply list_elem_of_In, filter_In in Hin as [Hin _].
  by apply list_elem_of_In.
Qed.

(** Under manual scaling a Kafka that is not enterprise is placed on the
    oldest managed, ready, schedulable cluster whose limit admits it; no
    cluster is returned only when none qualifies or the consumption query
    failed. *)
Theorem manual_placement_correct kafka w r w' :
  FirstSchedulableWithinLimit_FindCluster dp cfg kafka w = (Ok r, w') ->
  DesiredBillingModelIsEnterprise kafka = false -> NoDup (map CL.ClusterID (tables_of w).(clusters)) ->
  match r with
  | Some c => schedulable_within_limit dp cfg (tables_of w) kafka c /\
              forall c', schedulable_within_limit dp cfg (tables_of w) kafka c' -> created_before c c'
  | None => (forall c', ~ schedulable_within_limit dp cfg (tables_of w) kafka c') \/
            exists ids w1 e, find_kafka_instance_count ids w1 = (Err e, w')
  end.
Proof.
  intros Hrun He Hnd. unfold FirstSchedulableWithinLimit_FindCluster in Hrun. rewrite He in Hrun.
  do 2 run_ok Hrun.
  destruct (kafka_instance_size cfg kafka) as [size|] eqn:Hsize; [|done]. simpl in Hrun0. injection Hrun0 as <-.
  pose proof (run_tables _ _ _ _ (find_all_clusters_ro _) Hrun1) as Ht0.
  apply find_all_clusters_ok in Hrun1 as [Hp Hs].
  rename a0 into found.
  pose (ok := fun c => (c.(CL.ClusterType) =?s ManagedDataPlaneClusterType) &&
                       IsClusterSchedulable dp.(DP_ClusterConfig) c.(CL.ClusterID)).
  assert (NoDup (map CL.ClusterID found)) as Hndf by (rewrite Hp; by apply NoDup_map_filter).
  assert (forall c, schedulable_within_limit dp cfg (tables_of w0) kafka c -> c ∈ List.filter ok found) as Hcand.
  { intros c (Hc & Hm & Hmg & Hsch & _). rewrite list_elem_of_In, filter_In, <- list_elem_of_In, Hp.
    rewrite list_elem_of_In, filter_In, <- list_elem_of_In. unfold ok. by rewrite Hmg, Hsch. }
  destruct (IsEmpty _) eqn:Hemp.
  { run_ok Hrun. left. intros c' Hc'%Hcand. unfold findClusterIDsOfManagedClustersThatAreSchedulable in Hemp.
    fold ok in Hemp. destruct (List.filter ok found); [set_solver | done]. }
  run_ok Hrun. destruct r0 as [m|e].
  2:{ run_ok Hrun. right. unfold findConsumedStreamingUnitPerClusterID in Hrun0.
      apply bind_inv in Hrun0 as [(? & ? & _ & ?)|(e' & Hc & _)]; [done|]. eauto. }
  assert (findClusterIDsOfManagedClustersThatAreSchedulable dp found <> []) as Hne
    by (intros E; rewrite E in Hemp; done).
  pose proof (consumed_map_lookup _ _ _ _ Hrun0 Hne) as Hm. rewrite Ht0 in Hm. clear Hrun0 Hemp Hne.
  unfold findClusterIDsOfManagedClustersThatAreSchedulable in *. fold ok in Hm, Hrun. rewrite find_map in Hrun.
  assert (forall c, c ∈ List.filter ok found ->
    within_limit dp m size c.(CL.ClusterID) = true <-> schedulable_within_limit dp cfg (tables_of w0) kafka c) as Hlim.
  { intros c Hc. unfold within_limit. rewrite Hm by (by apply list_elem_of_fmap_2). simpl.
    unfold schedulable_within_limit, kafka_units, units. unfold kafka_instance_size in Hsize. rewrite Hsize.
    apply list_elem_of_In, filter_In in Hc as [Hc Hok]. apply list_elem_of_In in Hc.
    rewrite Hp, list_elem_of_In, filter_In, <- list_elem_of_In in Hc. destruct Hc as [Hc Hcm].
    unfold ok in Hok. split_bools. reflect_strings. naive_solver. }
  destruct (List.find _ (List.filter ok found)) as [c|] eqn:Hf; simpl in Hrun; run_ok Hrun.
  - apply (find_sorted created_before) in Hf as (Hc & Hpc & Hold);
      [|apply created_before_refl | by apply StronglySorted_filter].
    unfold searchForClusterFromClustersList. pose proof Hc as Hc0.
    apply list_elem_of_In, filter_In in Hc0 as [Hc0%list_elem_of_In Hok]. unfold ok in Hok. split_bools.
    rewrite (nodup_find_unique found c (fun x => CL.ClusterType x =?s ManagedDataPlaneClusterType)) by done.
    split; [by apply Hlim|]. intros c' Hc'. apply Hold; [by apply Hcand|]. by apply Hlim; [apply Hcand|].
  - left. intros c' Hc'. pose proof (Hcand _ Hc') as Hin.
    apply Hlim in Hc'; [|done]. by rewrite (find_none_elem _ _ _ Hf Hin) in Hc'.
Qed.

(** A failing consumption query is not reported by the manual strategy:
    the caller gets no cluster and no error. *)
Theorem manual_placement_hides_query_error kafka w w1 w2 size found e :
  DesiredBillingModelIsEnterprise kafka = false -> kafka_instance_size cfg kafka = Ok size ->
  find_all_clusters (placement_criteria kafka) w = (Ok found, w1) ->
  find_kafka_instance_count (findClusterIDsOfManagedClustersThatAreSchedulable dp found) w1 = (Err e, w2) ->
  FirstSchedulableWithinLimit_FindCluster dp cfg kafka w =
    (Ok None, if IsEmpty (findClusterIDsOfManagedClustersThatAreSchedulable dp found) then w1 else w2).
Proof.
  intros He Hsize Hall Hcount. unfold FirstSchedulableWithinLimit_FindCluster. rewrite He.
  unfold bind at 1, lift. rewrite Hsize. simpl. unfold bind at 1, wrap_err. rewrite Hall. simpl.
  destruct (IsEmpty _); [done|]. unfold bind at 1, attempt, findConsumedStreamingUnitPerClusterID, bind at 1.
  by rewrite Hcount.
Qed.
End PlacementProperties.

Lemma fixtures_wf : placement_wf Fixtures.kafka_config Fixtures.db Fixtures.k3.
Proof.
  constructor.
  - vm_compute. repeat constructor; set_solver.
  - intros c Hc _. split; [|by repeat (apply elem_of_cons in Hc as [->|Hc]; [done|]); apply not_elem_of_nil in Hc].
    split; [done|]. exists STANDARD.
    repeat (apply elem_of_cons in Hc as [->|Hc]; [by split; [vm_compute; left|]|]). by apply not_elem_of_nil in Hc.
  - intros c k Hc Hk. repeat (apply elem_of_cons in Hc as [->|Hc]; [repeat (apply elem_of_cons in Hk as [->|Hk]; [by vm_compute|]); by apply not_elem_of_nil in Hk|]).
    by apply not_elem_of_nil in Hc.
  - intros c Hc. repeat (apply elem_of_cons in Hc as [->|Hc]; [vm_compute; split; done|]). by apply not_elem_of_nil in Hc.
Defined.

Lemma dynamic_placement_correct_witness :
  exists w', FirstReadyWithCapacity_FindCluster Fixtures.kafka_config Fixtures.k3 Fixtures.world = (Ok (Some Fixtures.c2), w') /\
    has_room Fixtures.kafka_config Fixtures.db Fixtures.k3 Fixtures.c2.
Proof.
  eexists. split; [vm_compute; reflexivity|].
  edestruct (dynamic_placement_correct Fixtures.kafka_config Fixtures.k3 Fixtures.world (Some Fixtures.c2)) as [Hroom _];
    [vm_compute; reflexivity | reflexivity | exact fixtures_wf | exact Hroom].
Defined.

Lemma enterprise_placement_sound_witness :
  exists w', Placement_FindCluster (Fixtures.dp_config AutoScaling) Fixtures.kafka_config Fixtures.k4 Fixtures.world
    = (Ok (Some Fixtures.c3), w') /\ Fixtures.c3.(CL.OrganizationID) = Fixtures.k4.(KR.OrganisationId).
Proof.
  eexists. split; [vm_compute; reflexivity|].
  edestruct (enterprise_placement_sound (Fixtures.dp_config AutoScaling) Fixtures.kafka_config Fixtures.k4 Fixtures.world)
    as (_ & _ & Horg & _); [vm_compute; reflexivity | reflexivity | exact Horg].
Defined.

Lemma manual_placement_correct_witness :
  exists w', FirstSchedulableWithinLimit_FindCluster (Fixtures.dp_config ManualScaling) Fixtures.kafka_config Fixtures.k3 Fixtures.world
    = (Ok (Some Fixtures.c2), w') /\
    schedulable_within_limit (Fixtures.dp_config ManualScaling) Fixtures.kafka_config Fixtures.db Fixtures.k3 Fixtures.c2.
Proof.
  eexists. split; [vm_compute; reflexivity|].
  edestruct (manual_placement_correct (Fixtures.dp_config ManualScaling) Fixtures.kafka_config Fixtures.k3 Fixtures.world (Some Fixtures.c2))
    as [Hok _]; [vm_compute; reflexivity | reflexivity | vm_compute; repeat constructor; set_solver | exact Hok].
Defined.

(** The clusters are listed, then the consumption query fails. *)
Lemma manual_placement_hides_query_error_witness :
  fst (FirstSchedulableWithinLimit_FindCluster (Fixtures.dp_config ManualScaling) Fixtures.kafka_config Fixtures.k3
         (MemDB.mkWorld Fixtures.db 1000 [false; true] tt)) = Ok None.
Proof.
  erewrite (manual_placement_hides_query_error (Fixtures.dp_config ManualScaling) Fixtures.kafka_config Fixtures.k3
    (MemDB.mkWorld Fixtures.db 1000 [false; true] tt)); [reflexivity | vm_compute; reflexivity ..].
Defined.
