(* ===== verification/Scaling.v ===== *)
(** * Dynamic scaling of the data plane

    [src/internal/kafka/internal/workers/cluster_mgrs/dynamic_scale_up_mgr.go]
    and [dynamic_scale_down_mgr.go]: the capacity summary of a region, the
    decisions to register a new cluster and to deprovision an empty one, and
    the two reconcile events.  The list of streaming unit counts is shared and
    mutated by the scale-down event; it is threaded explicitly. *)
From S2P Require Import Prelude Arrays Errors Status Config Model Store Fixtures ClusterService Placement.

Record supportedInstanceTypeLocator := mkLocator {
  L_provider : string;
  L_region : string;
  L_instanceTypeName : string;
  L_clusterType : string
}.

Definition Locator_Equal (l other : supportedInstanceTypeLocator) : bool :=
  (l.(L_provider) =?s other.(L_provider)) && (l.(L_region) =?s other.(L_region)) &&
  (l.(L_instanceTypeName) =?s other.(L_instanceTypeName)) && (l.(L_clusterType) =?s other.(L_clusterType)).

Record instanceTypeConsumptionSummary := mkSummary {
  maxStreamingUnits : Z;
  freeStreamingUnits : Z;
  consumedStreamingUnits : Z;
  ongoingScaleUpAction : bool;
  biggestInstanceSizeCapacityAvailable : bool
}.

Definition clusterStatesTowardReadyState : list string :=
  [ ClusterProvisioning; ClusterProvisioned; ClusterAccepted; ClusterWaitingForKasFleetShardOperator ].
Definition clusterStatesTowardDeletion : list string := [ ClusterDeprovisioning; ClusterCleanup ].

Definition locator_of (k : KafkaStreamingUnitCountPerCluster) : supportedInstanceTypeLocator :=
  mkLocator k.(SU_CloudProvider) k.(SU_Region) k.(SU_InstanceType) k.(SU_ClusterType).

(** The loop state: consumed and maximal units, whether a cluster can hold the
    biggest size, whether a scale up is ongoing. *)
Record calc_state := mkCalc {
  calc_consumed : Z;
  calc_max : Z;
  calc_fits : bool;
  calc_ongoing : bool
}.

Definition calc_step (locator : supportedInstanceTypeLocator) (biggest : Z) (st : calc_state)
    (k : KafkaStreamingUnitCountPerCluster) : calc_state :=
  if negb (Locator_Equal locator (locator_of k)) then st
  else if Contains clusterStatesTowardReadyState k.(SU_Status)
  then mkCalc st.(calc_consumed) st.(calc_max) st.(calc_fits) true
  else if Contains clusterStatesTowardDeletion k.(SU_Status) then st
  else mkCalc (st.(calc_consumed) + k.(SU_Count)) (st.(calc_max) + k.(SU_MaxUnits))
         (st.(calc_fits) || (int32 biggest <=? FreeStreamingUnits k)) st.(calc_ongoing).

Definition getBiggestCapacityConsumedSize (types : SupportedKafkaInstanceTypesConfig) (instanceTypeName : string)
  : result error Z :=
  kafkaInstanceTypeConfig <-! GetKafkaInstanceTypeByID types instanceTypeName ;;
  Ok (match GetBiggestCapacityConsumedSize kafkaInstanceTypeConfig with
      | Some size => size.(CapacityConsumed)
      | None => -1
      end).

Definition Calculate (types : SupportedKafkaInstanceTypesConfig) (locator : supportedInstanceTypeLocator)
    (counts : list KafkaStreamingUnitCountPerCluster) : result error instanceTypeConsumptionSummary :=
  biggest <-! getBiggestCapacityConsumedSize types locator.(L_instanceTypeName) ;;
  let st := foldl (calc_step locator biggest) (mkCalc 0 0 false false) counts in
  Ok (mkSummary st.(calc_max) (st.(calc_max) - st.(calc_consumed)) st.(calc_consumed) st.(calc_ongoing) st.(calc_fits)).

Definition regionLimitReached (itc : InstanceTypeConfig) (summary : instanceTypeConsumptionSummary) : bool :=
  match itc.(Limit) with
  | None => false
  | Some limit => limit <=? summary.(consumedStreamingUnits)
  end.

Definition enoughCapacitySlackInRegion (itc : InstanceTypeConfig) (summary : instanceTypeConsumptionSummary) : bool :=
  itc.(MinAvailableCapacitySlackStreamingUnits) <=? summary.(freeStreamingUnits).

Definition ShouldScaleUp (types : SupportedKafkaInstanceTypesConfig) (locator : supportedInstanceTypeLocator)
    (itc : InstanceTypeConfig) (counts : list KafkaStreamingUnitCountPerCluster) : result error bool :=
  summary <-! Calculate types locator counts ;;
  Ok (if regionLimitReached itc summary then false
      else if summary.(ongoingScaleUpAction) then false
      else if negb summary.(biggestInstanceSizeCapacityAvailable) then true
      else if negb (enoughCapacitySlackInRegion itc summary) then true
      else false).

(** *** Scale down: the decision *)
Definition findRegionInstanceTypeConfiguration (providers : ProviderConfig) (suCount : KafkaStreamingUnitCountPerCluster)
  : InstanceTypeMap :=
  match ProviderList_GetByName providers.(SupportedProviders) suCount.(SU_CloudProvider) with
  | None => []
  | Some provider =>
      match RegionList_GetByName provider.(Regions) suCount.(SU_Region) with
      | None => []
      | Some region => region.(SupportedInstanceTypesInRegion)
      end
  end.

Record processed := mkProcessed {
  indexesOfStreamingUnitForSameClusterID : list nat;
  is_processed : bool
}.

Definition process_step (m : gmap string processed) (ik : nat * KafkaStreamingUnitCountPerCluster) : gmap string processed :=
  let '(i, k) := ik in
  match m !! k.(SU_ClusterId) with
  | None => <[ k.(SU_ClusterId) := mkProcessed [i] (negb (k.(SU_Status) =?s ClusterReady)) ]> m
  | Some existing =>
      <[ k.(SU_ClusterId) :=
           mkProcessed (existing.(indexesOfStreamingUnitForSameClusterID) ++ [i]) existing.(is_processed) ]> m
  end.

Definition indexed {A} (l : list A) : list (nat * A) := imap pair l.

Definition createAMapOfProcessedClusters (counts : list KafkaStreamingUnitCountPerCluster) : gmap string processed :=
  foldl process_step ∅ (indexed counts).

Section ScaleDownDecision.
Context (types : SupportedKafkaInstanceTypesConfig).
Context (regionsSupportedInstanceType : InstanceTypeMap).
Context (counts : list KafkaStreamingUnitCountPerCluster).
Context (clusterID : string) (indexes : list nat).

(** An index out of range would panic; the indexes come from the list. *)
Definition entry_at (i : nat) : list KafkaStreamingUnitCountPerCluster := option_list (counts !! i).

Definition isEnterpriseCluster : bool :=
  match indexes with
  | [] => false
  | i :: _ => existsb (fun e => e.(SU_ClusterType) =?s EnterpriseDataPlaneClusterType) (entry_at i)
  end.

Definition isClusterNotEmpty : bool :=
  existsb (fun i => existsb (fun e => 0 <? e.(SU_Count)) (entry_at i)) indexes.

Definition createNewStreamingUnitPerClusterListAfterRemovalOfCandidateCluster : list KafkaStreamingUnitCountPerCluster :=
  List.filter (fun suCount => negb (Contains clusterStatesTowardReadyState suCount.(SU_Status)) &&
                              negb (suCount.(SU_ClusterId) =?s clusterID)) counts.

Definition managed_locator (k : KafkaStreamingUnitCountPerCluster) : supportedInstanceTypeLocator :=
  mkLocator k.(SU_CloudProvider) k.(SU_Region) k.(SU_InstanceType) ManagedDataPlaneClusterType.

Fixpoint isScaleUpNeededAfterCandidateClusterRemoval (newCounts : list KafkaStreamingUnitCountPerCluster)
    (entries : list KafkaStreamingUnitCountPerCluster) : result error bool :=
  match entries with
  | [] => Ok false
  | suCount :: rest =>
      match map_lookup regionsSupportedInstanceType suCount.(SU_InstanceType) with
      | None => isScaleUpNeededAfterCandidateClusterRemoval newCounts rest
      | Some instanceTypeConfig =>
          shouldScaleUp <-! ShouldScaleUp types (managed_locator suCount) instanceTypeConfig newCounts ;;
          if shouldScaleUp then Ok true else isScaleUpNeededAfterCandidateClusterRemoval newCounts rest
      end
  end.

Definition ShouldScaleDown : result error bool :=
  if isEnterpriseCluster then Ok false
  else if isClusterNotEmpty then Ok false
  else if IsEmpty regionsSupportedInstanceType then Ok true
  else
    scaleUpNeededAfterRemoval <-! isScaleUpNeededAfterCandidateClusterRemoval
      createNewStreamingUnitPerClusterListAfterRemovalOfCandidateCluster (flat_map entry_at indexes) ;;
    Ok (negb scaleUpNeededAfterRemoval).
End ScaleDownDecision.

Definition with_status (status : string) (e : KafkaStreamingUnitCountPerCluster) : KafkaStreamingUnitCountPerCluster :=
  mkKafkaStreamingUnitCountPerCluster e.(SU_Region) e.(SU_InstanceType) e.(SU_ID) e.(SU_ClusterId) e.(SU_Count)
    e.(SU_CloudProvider) e.(SU_MaxUnits) status e.(SU_ClusterType).

Definition mark_deprovisioning (indexes : list nat) (counts : list KafkaStreamingUnitCountPerCluster)
  : list KafkaStreamingUnitCountPerCluster :=
  foldl (fun l i => alter (with_status ClusterDeprovisioning) i l) counts indexes.

Section Managers.
Context {W : Type} `{Database W} `{IdSource W}.
Context (dataplaneClusterConfig : DataplaneClusterConfig) (providers : ProviderConfig) (kafkaConfig : KafkaConfig).
Context `{!ClusterLookup W kafkaConfig}.

(** The cluster a scale up registers. *)
Definition scale_up_request (locator : supportedInstanceTypeLocator) : Cluster :=
  CL.mkCluster "" 0 0 locator.(L_provider) "" "" (locator.(L_instanceTypeName) =?s StandardTypeSupport) locator.(L_region)
    ClusterAccepted "" "" "" "" "" ClusterProviderOCM None None JNull locator.(L_instanceTypeName) JNull
    ManagedDataPlaneClusterType "" false.

Definition ScaleUp (dryRun : bool) (locator : supportedInstanceTypeLocator) : M W ServiceError unit := fun w =>
  if dryRun then (Ok tt, w)
  else RegisterClusterJob (new_id w) (scale_up_request locator) w.

(** Evaluates one instance type of one region and scales up if needed; the
    error, if any, joins the list and the loop goes on. *)
Definition scale_up_one (counts : list KafkaStreamingUnitCountPerCluster)
    (target : supportedInstanceTypeLocator * InstanceTypeConfig) : M W error unit :=
  let '(locator, itc) := target in
  shouldScaleUp <~ lift (ShouldScaleUp kafkaConfig.(SupportedInstanceTypes) locator itc counts) ;;
  if shouldScaleUp
  then wrap_err EService (ScaleUp (negb (IsDataplaneScaleUpTriggerEnabled dataplaneClusterConfig)) locator)
  else ret tt.

(** The iteration over providers, regions and instance types. *)
Definition scale_up_targets : list (supportedInstanceTypeLocator * InstanceTypeConfig) :=
  flat_map (fun provider =>
    flat_map (fun region =>
      map (fun '(name, itc) => (mkLocator provider.(Provider_Name) region.(Region_Name) name ManagedDataPlaneClusterType, itc))
        region.(SupportedInstanceTypesInRegion)) provider.(Regions)) providers.(SupportedProviders).

Definition processDynamicScaleUpReconcileEvent (w : W) : ErrorList * W :=
  match find_streaming_unit_count w with
  | (Err err, w') => (AddErrors [] [err], w')
  | (Ok counts, w') =>
      let '(errs, w'') := for_all_collect (scale_up_one counts) scale_up_targets w' in
      (AddErrors [] errs, w'')
  end.

Definition ScaleUp_Reconcile (w : W) : ErrorList * W :=
  if negb (IsDataPlaneAutoScalingEnabled dataplaneClusterConfig) then ([], w)
  else processDynamicScaleUpReconcileEvent w.

(** Marks the rows, then the shared list. *)
Definition ScaleDown (dryRun : bool) (clusterID : string) (indexes : list nat)
    (counts : list KafkaStreamingUnitCountPerCluster) : M W ServiceError (list KafkaStreamingUnitCountPerCluster) :=
  if dryRun then ret counts
  else
    _ <~ ClusterService_UpdateStatus (zero <| CL.ClusterID := clusterID |>) ClusterDeprovisioning ;;
    ret (mark_deprovisioning indexes counts).

(** One iteration of the event's loop, at position [i] of the list. *)
Definition scale_down_one (i : nat) (m : gmap string processed) (counts : list KafkaStreamingUnitCountPerCluster) (w : W)
  : list error * gmap string processed * list KafkaStreamingUnitCountPerCluster * W :=
  match counts !! i with
  | None => ([], m, counts, w)
  | Some suCount =>
      let clusterID := suCount.(SU_ClusterId) in
      let existing := default (mkProcessed [] false) (m !! clusterID) in
      if existing.(is_processed) then ([], m, counts, w)
      else
        let indexes := existing.(indexesOfStreamingUnitForSameClusterID) in
        let m' := <[ clusterID := mkProcessed indexes true ]> m in
        match ShouldScaleDown kafkaConfig.(SupportedInstanceTypes) (findRegionInstanceTypeConfiguration providers suCount)
                counts clusterID indexes with
        | Err err => ([err], m', counts, w)
        | Ok false => ([], m', counts, w)
        | Ok true =>
            match ScaleDown (negb (IsDataplaneScaleDownTriggerEnabled dataplaneClusterConfig)) clusterID indexes counts w with
            | (Err err, w') => ([EService err], m', counts, w')
            | (Ok counts', w') => ([], m', counts', w')
            end
        end
  end.

Fixpoint scale_down_loop (positions : list nat) (m : gmap string processed)
    (counts : list KafkaStreamingUnitCountPerCluster) (w : W)
  : list error * gmap string processed * list KafkaStreamingUnitCountPerCluster * W :=
  match positions with
  | [] => ([], m, counts, w)
  | i :: rest =>
      let '(errs, m', counts', w') := scale_down_one i m counts w in
      let '(errs', m'', counts'', w'') := scale_down_loop rest m' counts' w' in
      (errs ++ errs', m'', counts'', w'')
  end.

Definition processDynamicScaleDownReconcileEvent (w : W) : ErrorList * W :=
  match find_streaming_unit_count w with
  | (Err err, w') => (AddErrors [] [err], w')
  | (Ok counts, w') =>
      let '(errs, _, _, w'') :=
        scale_down_loop (seq 0 (length counts)) (createAMapOfProcessedClusters counts) counts w' in
      (AddErrors [] errs, w'')
  end.

Definition ScaleDown_Reconcile (w : W) : ErrorList * W :=
  if negb (IsDataPlaneAutoScalingEnabled dataplaneClusterConfig) then ([], w)
  else processDynamicScaleDownReconcileEvent w.
End Managers.

(** ** Lemmas on the summary *)

(** The entries that count for a locator: those of its clusters that are
    neither being created nor being deleted. *)
Definition in_service (locator : supportedInstanceTypeLocator) (k : KafkaStreamingUnitCountPerCluster) : bool :=
  Locator_Equal locator (locator_of k) && negb (Contains clusterStatesTowardReadyState k.(SU_Status)) &&
  negb (Contains clusterStatesTowardDeletion k.(SU_Status)).

Definition being_created (locator : supportedInstanceTypeLocator) (k : KafkaStreamingUnitCountPerCluster) : bool :=
  Locator_Equal locator (locator_of k) && Contains clusterStatesTowardReadyState k.(SU_Status).

Definition holds_biggest (locator : supportedInstanceTypeLocator) (biggest : Z) (k : KafkaStreamingUnitCountPerCluster) : bool :=
  in_service locator k && (int32 biggest <=? FreeStreamingUnits k).

Definition total_count locator counts : Z := sum_of SU_Count (List.filter (in_service locator) counts).
Definition total_max locator counts : Z := sum_of SU_MaxUnits (List.filter (in_service locator) counts).

(** One step of the loop adds the entry to each of the four figures. *)
Lemma calc_step_spec locator biggest st k :
  calc_step locator biggest st k =
  mkCalc (calc_consumed st + (if in_service locator k then k.(SU_Count) else 0))
         (calc_max st + (if in_service locator k then k.(SU_MaxUnits) else 0))
         (calc_fits st || holds_biggest locator biggest k)
         (calc_ongoing st || being_created locator k).
Proof.
  unfold calc_step, holds_biggest, in_service, being_created. destruct st as [c m f o]. simpl.
  destruct (Locator_Equal _ _); simpl; [|by rewrite !Z.add_0_r, !orb_false_r].
  destruct (Contains clusterStatesTowardReadyState _); simpl; [by rewrite !Z.add_0_r, orb_false_r, orb_true_r|].
  destruct (Contains clusterStatesTowardDeletion _); simpl; by rewrite ?Z.add_0_r, !orb_false_r.
Qed.

Lemma calc_fold locator biggest counts st :
  foldl (calc_step locator biggest) st counts =
  mkCalc (calc_consumed st + total_count locator counts) (calc_max st + total_max locator counts)
         (calc_fits st || existsb (holds_biggest locator biggest) counts)
         (calc_ongoing st || existsb (being_created locator) counts).
Proof.
  unfold total_count, total_max. rewrite !sum_of_filter. revert st.
  induction counts as [|k l IH]; intros st; simpl; [destruct st; simpl; by rewrite !Z.add_0_r, !orb_false_r|].
  rewrite IH, calc_step_spec. simpl. by rewrite <- !Z.add_assoc, <- !orb_assoc.
Qed.

Lemma Calculate_spec types locator counts :
  Calculate types locator counts =
  (biggest <-! getBiggestCapacityConsumedSize types locator.(L_instanceTypeName) ;;
   Ok (mkSummary (total_max locator counts) (total_max locator counts - total_count locator counts)
         (total_count locator counts) (existsb (being_created locator) counts)
         (existsb (holds_biggest locator biggest) counts))).
Proof.
  unfold Calculate. destruct (getBiggestCapacityConsumedSize _ _); simpl; [|done]. by rewrite calc_fold.
Qed.

Definition limit_reached (itc : InstanceTypeConfig) (consumed : Z) : Prop :=
  exists limit, itc.(Limit) = Some limit /\ limit <= consumed.

Lemma ShouldScaleUp_ok types locator itc counts biggest :
  getBiggestCapacityConsumedSize types locator.(L_instanceTypeName) = Ok biggest ->
  exists b, ShouldScaleUp types locator itc counts = Ok b /\
    (b = true <->
       ~ limit_reached itc (total_count locator counts) /\
       existsb (being_created locator) counts = false /\
       (existsb (holds_biggest locator biggest) counts = false \/
        total_max locator counts - total_count locator counts < itc.(MinAvailableCapacitySlackStreamingUnits))).
Proof.
  intros Hb. unfold ShouldScaleUp. rewrite Calculate_spec, Hb. simpl. eexists. split; [done|].
  unfold regionLimitReached, enoughCapacitySlackInRegion, limit_reached. simpl.
  destruct (Limit itc) as [limit|]; [destruct (Z.leb_spec limit (total_count locator counts))|];
    destruct (existsb (being_created locator) counts), (existsb (holds_biggest locator biggest) counts);
    simpl; try destruct (Z.leb_spec (MinAvailableCapacitySlackStreamingUnits itc)
      (total_max locator counts - total_count locator counts)); simpl; naive_solver lia.
Qed.

(** Dropping entries that are not in service from the list keeps the decision
    negative. *)
Lemma ShouldScaleUp_false_drop types locator itc counts keep :
  (forall k, k ∈ counts -> in_service locator k = true -> keep k = true) ->
  ShouldScaleUp types locator itc (List.filter keep counts) = Ok false ->
  ShouldScaleUp types locator itc counts = Ok false.
Proof.
  intros Hkeep. destruct (getBiggestCapacityConsumedSize types locator.(L_instanceTypeName)) as [biggest|e] eqn:Hb.
  2:{ unfold ShouldScaleUp. by rewrite !Calculate_spec, Hb. }
  destruct (ShouldScaleUp_ok types locator itc (List.filter keep counts) biggest Hb) as (b & -> & Hspec).
  destruct (ShouldScaleUp_ok types locator itc counts biggest Hb) as (b' & -> & Hspec').
  intros [= ->]. destruct b'; [|done]. exfalso. destruct Hspec' as [Hs _].
  destruct (Hs eq_refl) as (Hlim & Hnew & Hneed). clear Hs.
  assert (forall f, sum_of f (List.filter (in_service locator) (List.filter keep counts)) =
    sum_of f (List.filter (in_service locator) counts)) as Hsum.
  { intros f. rewrite filter_filter. f_equal. apply filter_ext_in'. intros k Hk.
    destruct (in_service locator k) eqn:Hin; [by rewrite (Hkeep k) | by rewrite andb_false_r]. }
  unfold total_count, total_max in *. rewrite !Hsum in Hspec. apply diff_false_true, Hspec. split_and!; [done| |].
  - apply not_true_iff_false. intros (k & Hk & Hc)%existsb_exists. apply filter_In in Hk as [Hk _].
    apply not_true_iff_false in Hnew. apply Hnew, existsb_exists. eauto.
  - destruct Hneed as [Hfit|]; [left|by right].
    apply not_true_iff_false. intros (k & Hk & Hc)%existsb_exists. apply filter_In in Hk as [Hk _].
    apply not_true_iff_false in Hfit. apply Hfit, existsb_exists. eauto.
Qed.

(** ** Lemmas on the scale-down decision *)

(** The positions of a cluster's entries. *)
Definition positions_of (counts : list KafkaStreamingUnitCountPerCluster) (clusterID : string) (indexes : list nat) : Prop :=
  forall i, i ∈ indexes <-> exists e, counts !! i = Some e /\ e.(SU_ClusterId) = clusterID.

Definition mark_cluster (clusterID : string) (e : KafkaStreamingUnitCountPerCluster) : KafkaStreamingUnitCountPerCluster :=
  if e.(SU_ClusterId) =?s clusterID then with_status ClusterDeprovisioning e else e.

Lemma alter_with_status_lookup s (l : list KafkaStreamingUnitCountPerCluster) (i j : nat) :
  alter (with_status s) i l !! j = (if decide (i = j) then with_status s <$> l !! j else l !! j).
Proof. destruct (decide (i = j)) as [->|]; [apply list_lookup_alter_eq | by apply list_lookup_alter_ne]. Qed.

Lemma mark_deprovisioning_lookup indexes counts j :
  mark_deprovisioning indexes counts !! j =
  (if decide (j ∈ indexes) then with_status ClusterDeprovisioning <$> counts !! j else counts !! j).
Proof.
  unfold mark_deprovisioning. revert counts. induction indexes as [|i l IH]; intros counts; cbn [foldl].
  - destruct (decide (j ∈ [])) as [Hin|]; [by apply not_elem_of_nil in Hin | done].
  - rewrite IH, alter_with_status_lookup.
    destruct (decide (i = j)) as [->|Hij], (decide (j ∈ l)) as [Hl|Hl];
      destruct (decide (j ∈ _ :: l)) as [Hc|Hc]; rewrite elem_of_cons in Hc; try done; try naive_solver.
    by destruct (counts !! j).
Qed.

Lemma mark_deprovisioning_map counts clusterID indexes :
  positions_of counts clusterID indexes ->
  mark_deprovisioning indexes counts = map (mark_cluster clusterID) counts.
Proof.
  intros Hpos. apply list_eq. intros j. rewrite mark_deprovisioning_lookup, list_lookup_fmap.
  destruct (counts !! j) as [e|] eqn:Hj; simpl; [|by destruct (decide _)].
  unfold mark_cluster. destruct (decide (j ∈ indexes)) as [Hin|Hin].
  - apply Hpos in Hin as (e' & He' & <-). rewrite Hj in He'. injection He' as <-. by rewrite String.eqb_refl.
  - case_str; [|done]. exfalso. apply Hin, Hpos. eauto.
Qed.

Lemma filter_map_fixed {A} (keep : A -> bool) (f : A -> A) l :
  (forall a, keep (f a) = keep a) -> (forall a, keep a = true -> f a = a) ->
  List.filter keep (map f l) = List.filter keep l.
Proof.
  intros Hk Hf. induction l as [|a l IH]; simpl; [done|]. rewrite Hk, IH.
  destruct (keep a) eqn:Ha; [by rewrite Hf | done].
Qed.

(** Removing the candidate and marking it leave the same clusters in service. *)
Lemma removal_then_mark counts clusterID :
  createNewStreamingUnitPerClusterListAfterRemovalOfCandidateCluster counts clusterID =
  List.filter (fun k => negb (Contains clusterStatesTowardReadyState k.(SU_Status)) && negb (k.(SU_ClusterId) =?s clusterID))
    (map (mark_cluster clusterID) counts).
Proof.
  symmetry. apply filter_map_fixed; intros e; unfold mark_cluster; destruct (SU_ClusterId e =?s clusterID) eqn:He; try done.
  - cbn [with_status SU_ClusterId]. by rewrite He, !andb_false_r.
  - by rewrite He.
  - cbn [negb]. by rewrite andb_false_r.
Qed.

Lemma scale_up_after_removal_false types regions new entries e itc :
  isScaleUpNeededAfterCandidateClusterRemoval types regions new entries = Ok false ->
  e ∈ entries -> map_lookup regions e.(SU_InstanceType) = Some itc ->
  ShouldScaleUp types (managed_locator e) itc new = Ok false.
Proof.
  induction entries as [|x l IH]; simpl; [set_solver|]. intros Hs [->|He]%elem_of_cons Hitc.
  - rewrite Hitc in Hs. destruct (ShouldScaleUp _ _ _ _) as [[]|]; simpl in Hs; done.
  - apply IH; [|done|done]. destruct (map_lookup regions (SU_InstanceType x)) as [itc'|]; [|done].
    destruct (ShouldScaleUp types (managed_locator x) itc' new) as [[]|]; simpl in Hs; done.
Qed.

Lemma mark_in_service locator clusterID counts k :
  k ∈ map (mark_cluster clusterID) counts -> in_service locator k = true ->
  negb (Contains clusterStatesTowardReadyState k.(SU_Status)) && negb (k.(SU_ClusterId) =?s clusterID) = true.
Proof.
  intros (e & -> & _)%list_elem_of_fmap. unfold mark_cluster.
  destruct (SU_ClusterId e =?s clusterID) eqn:He.
  - unfold in_service. simpl. by rewrite andb_false_r.
  - unfold in_service. rewrite He. intros Hs. split_bools. by rewrite H1.
Qed.

(** What a positive decision guarantees. *)
Lemma ShouldScaleDown_true types regions counts clusterID indexes :
  ShouldScaleDown types regions counts clusterID indexes = Ok true ->
  positions_of counts clusterID indexes ->
  (forall i e, head indexes = Some i -> counts !! i = Some e -> e.(SU_ClusterType) <> EnterpriseDataPlaneClusterType) /\
  (forall e, e ∈ counts -> e.(SU_ClusterId) = clusterID -> e.(SU_Count) <= 0) /\
  (forall e itc, e ∈ counts -> e.(SU_ClusterId) = clusterID -> map_lookup regions e.(SU_InstanceType) = Some itc ->
     ShouldScaleUp types (managed_locator e) itc (mark_deprovisioning indexes counts) = Ok false).
Proof.
  intros Hs Hpos. unfold ShouldScaleDown in Hs.
  destruct (isEnterpriseCluster counts indexes) eqn:Hent; [done|].
  destruct (isClusterNotEmpty counts indexes) eqn:Hemp; [done|].
  assert (forall e, e ∈ counts -> e.(SU_ClusterId) = clusterID -> exists i, i ∈ indexes /\ counts !! i = Some e) as Hat.
  { intros e [i Hi]%list_elem_of_lookup Hid. exists i. split; [|done]. apply Hpos. eauto. }
  split_and!.
  - intros i e Hi He Htype. destruct indexes as [|i' l]; [done|]. simplify_eq/=.
    unfold entry_at in Hent. rewrite He in Hent. simpl in Hent. by rewrite Htype in Hent.
  - intros e He Hid. destruct (Hat e He Hid) as (i & Hi & Hl).
    destruct (Z.ltb_spec 0 (SU_Count e)) as [Hlt|]; [|lia]. exfalso.
    apply not_true_iff_false in Hemp. apply Hemp. unfold isClusterNotEmpty. apply existsb_exists. exists i.
    split; [by apply list_elem_of_In|]. unfold entry_at. rewrite Hl. simpl. rewrite orb_false_r. by apply Z.ltb_lt.
  - intros e itc He Hid Hitc. destruct (IsEmpty regions) eqn:Hr; [by destruct regions|].
    destruct (isScaleUpNeededAfterCandidateClusterRemoval _ _ _ _) as [[]|] eqn:Hn; simpl in Hs; try done.
    apply (scale_up_after_removal_false _ _ _ _ e itc) in Hn; [|clear Hn|done].
    + rewrite (mark_deprovisioning_map _ _ _ Hpos). rewrite removal_then_mark in Hn.
      eapply ShouldScaleUp_false_drop; [|exact Hn]. intros k. apply mark_in_service.
    + destruct (Hat e He Hid) as (i & Hi & Hl). apply list_elem_of_In, in_flat_map. exists i.
      split; [by apply list_elem_of_In|]. unfold entry_at. rewrite Hl. by left.
Qed.

(** ** Lemmas on the scale-down event *)
Lemma indexed_snoc {A} (l : list A) x : indexed (l ++ [x]) = indexed l ++ [(length l, x)].
Proof. unfold indexed. rewrite imap_app. simpl. by rewrite Nat.add_0_r. Qed.

Lemma positions_of_snoc_ne counts x id indexes :
  x.(SU_ClusterId) <> id -> positions_of counts id indexes -> positions_of (counts ++ [x]) id indexes.
Proof.
  intros Hne Hpos i. rewrite (Hpos i). split; intros (e & He & Hid); exists e; (split; [|done]).
  - by apply lookup_app_l_Some.
  - apply lookup_snoc_Some in He as [[_ He]|[_ ->]]; [done | done].
Qed.

Lemma positions_of_snoc_eq counts x indexes :
  positions_of counts x.(SU_ClusterId) indexes ->
  positions_of (counts ++ [x]) x.(SU_ClusterId) (indexes ++ [length counts]).
Proof.
  intros Hpos i. rewrite elem_of_app, (Hpos i), list_elem_of_singleton. split.
  - intros [(e & He & Hid)| ->]; [exists e; split; [by apply lookup_app_l_Some|done]|].
    exists x. by rewrite list_lookup_middle.
  - intros (e & He & Hid). apply lookup_snoc_Some in He as [[_ He]|[-> ->]]; [left; eauto | by right].
Qed.

(** The map records the positions of each cluster and whether its first entry
    is out of consideration. *)
Lemma processed_map_spec counts id :
  match createAMapOfProcessedClusters counts !! id with
  | Some p =>
      positions_of counts id p.(indexesOfStreamingUnitForSameClusterID) /\
      exists i e, head p.(indexesOfStreamingUnitForSameClusterID) = Some i /\ counts !! i = Some e /\
        p.(is_processed) = negb (e.(SU_Status) =?s ClusterReady)
  | None => positions_of counts id []
  end.
Proof.
  unfold createAMapOfProcessedClusters. induction counts as [|x counts IH] using rev_ind.
  { simpl. rewrite lookup_empty. intros i. split; [set_solver|]. intros (e & He & _). by rewrite lookup_nil in He. }
  rewrite indexed_snoc, foldl_app. cbn [foldl process_step].
  set (m := foldl process_step ∅ (indexed counts)) in *.
  destruct (decide (x.(SU_ClusterId) = id)) as [<-|Hne].
  - destruct (m !! SU_ClusterId x) as [p|] eqn:Hp; rewrite lookup_insert_eq; cbn [indexesOfStreamingUnitForSameClusterID is_processed].
    + destruct IH as [Hpos (i & e & Hi & He & Hproc)]. split; [by apply positions_of_snoc_eq|].
      exists i, e. split_and!; [|by apply lookup_app_l_Some|done].
      by destruct (indexesOfStreamingUnitForSameClusterID p).
    + split; [by apply (positions_of_snoc_eq _ _ [])|]. exists (length counts), x.
      by rewrite list_lookup_middle.
  - assert (forall p, (<[SU_ClusterId x := p]> m) !! id = m !! id) as Hm by (intros; by rewrite lookup_insert_ne).
    destruct (m !! SU_ClusterId x); rewrite Hm; destruct (m !! id) as [p'|]; try (by apply positions_of_snoc_ne).
    all: destruct IH as [Hpos (i & e & Hi & He & Hproc)]; split; [by apply positions_of_snoc_ne|];
      exists i, e; split_and!; [done|by apply lookup_app_l_Some|done].
Qed.

(** Two lists of counts that agree up to statuses. *)
Definition same_counts (l l' : list KafkaStreamingUnitCountPerCluster) : Prop :=
  exists status : nat -> string, forall i, l' !! i = with_status (status i) <$> l !! i.

Lemma same_counts_refl l : same_counts l l.
Proof.
  exists (fun i => match l !! i with Some e => e.(SU_Status) | None => "" end). intros i.
  by destruct (l !! i) as [[]|].
Qed.

Lemma same_counts_mark L counts indexes : same_counts L counts -> same_counts L (mark_deprovisioning indexes counts).
Proof.
  intros [st Hst]. exists (fun i => if decide (i ∈ indexes) then ClusterDeprovisioning else st i).
  intros i. rewrite mark_deprovisioning_lookup, Hst. destruct (decide _), (L !! i); done.
Qed.

Lemma same_counts_positions L counts id indexes :
  same_counts L counts -> positions_of L id indexes -> positions_of counts id indexes.
Proof.
  intros [st Hst] Hpos i. rewrite (Hpos i), Hst. split.
  - intros (e & -> & Hid). simpl. eauto.
  - destruct (L !! i) as [e|]; simpl; [|naive_solver]. intros (e' & [= <-] & Hid). eauto.
Qed.

Lemma same_counts_elem L counts e : same_counts L counts -> e ∈ L -> exists s, with_status s e ∈ counts.
Proof.
  intros [st Hst] [i Hi]%list_elem_of_lookup. exists (st i). eapply list_elem_of_lookup_2. by rewrite Hst, Hi.
Qed.

(** What makes a cluster removable, in terms of the counts. *)
Definition removable (L : list KafkaStreamingUnitCountPerCluster) (clusterID : string) : Prop :=
  clusterID <> "" /\ (forall e, e ∈ L -> e.(SU_ClusterId) = clusterID -> e.(SU_Count) <= 0) /\
  exists e, e ∈ L /\ e.(SU_ClusterId) = clusterID /\ e.(SU_Status) = ClusterReady /\
    e.(SU_ClusterType) <> EnterpriseDataPlaneClusterType.

(** A row after the event: as before, or marked because it was removable. *)
Definition scaled_down (L : list KafkaStreamingUnitCountPerCluster) (c c' : Cluster) : Prop :=
  c' = c \/ (exists t, c' = touch_cluster t (c <| CL.Status := ClusterDeprovisioning |>)) /\ removable L c.(CL.ClusterID).

Lemma scaled_down_trans L a b c : scaled_down L a b -> scaled_down L b c -> scaled_down L a c.
Proof.
  intros [->|[[t ->] Hr]] [->|[[t' ->] Hr']]; [by left|right; eauto|right; eauto|]. right. split; [by exists t'|done].
Qed.

Section ScaleDownEvent.
Context {W : Type} `{Database W} `{IdSource W}.
Context (dp : DataplaneClusterConfig) (providers : ProviderConfig) (cfg : KafkaConfig).
Context `{!ClusterLookup W cfg}.

Lemma ScaleDown_run dryRun id indexes counts w r w' :
  ScaleDown dryRun id indexes counts w = (r, w') ->
  (tables_of w' = tables_of w /\ (r = Ok counts \/ exists e, r = Err e)) \/
  (r = Ok (mark_deprovisioning indexes counts) /\ id <> "" /\
   kafkas (tables_of w') = kafkas (tables_of w) /\
   clusters (tables_of w') = update_rows (touch_cluster (time_now w)) (fun c => c.(CL.ClusterID) =?s id)
                               (fun c => c <| CL.Status := ClusterDeprovisioning |>) (clusters (tables_of w))).
Proof.
  unfold ScaleDown. destruct dryRun; [intros [= <- <-]; left; eauto|].
  unfold ClusterService_UpdateStatus. cbn -[exec]. destruct (String.eqb_spec id "") as [->|Hne].
  { intros [= <- <-]. left. eauto. }
  unfold bind, wrap_err, ret. destruct (exec _ w) as [[n|e] w1] eqn:He; intros [= <- <-].
  - apply exec_ok in He as [_ ->]. right. done.
  - apply exec_err in He. left. eauto.
Qed.

(** The loop invariant, relative to the list the event starts from. *)
Record event_inv (L : list KafkaStreamingUnitCountPerCluster) (db0 : tables) (m : gmap string processed)
    (counts : list KafkaStreamingUnitCountPerCluster) (w : W) : Prop := {
  inv_counts : same_counts L counts;
  inv_map : forall id p, m !! id = Some p -> exists p0,
    createAMapOfProcessedClusters L !! id = Some p0 /\
    p.(indexesOfStreamingUnitForSameClusterID) = p0.(indexesOfStreamingUnitForSameClusterID) /\
    (p.(is_processed) = false -> p0.(is_processed) = false);
  inv_dom : forall id, is_Some (createAMapOfProcessedClusters L !! id) -> is_Some (m !! id);
  inv_kafkas : kafkas (tables_of w) = kafkas db0;
  inv_clusters : Forall2 (scaled_down L) (clusters db0) (clusters (tables_of w))
}.

Lemma event_inv_insert L db0 m counts w id p :
  event_inv L db0 m counts w -> m !! id = Some p ->
  event_inv L db0 (<[ id := mkProcessed p.(indexesOfStreamingUnitForSameClusterID) true ]> m) counts w.
Proof.
  intros [? Hm Hd ? ?] Hp. constructor; try done.
  - intros id' p'. destruct (decide (id = id')) as [<-|]; [rewrite lookup_insert_eq|rewrite lookup_insert_ne by done; apply Hm].
    intros [= <-]. destruct (Hm _ _ Hp) as (p0 & ? & ? & _). by exists p0.
  - intros id' Hs. destruct (decide (id = id')) as [<-|]; [rewrite lookup_insert_eq; eauto|].
    rewrite lookup_insert_ne by done. auto.
Qed.

(** A cluster that the decision accepts is removable. *)
Lemma decision_removable L counts id p e types regions i :
  same_counts L counts -> createAMapOfProcessedClusters L !! id = Some p -> is_processed p = false ->
  counts !! i = Some e -> e.(SU_ClusterId) = id -> id <> "" ->
  ShouldScaleDown types regions counts id (indexesOfStreamingUnitForSameClusterID p) = Ok true -> removable L id.
Proof.
  intros Hs Hp Hproc He Hid Hne Hd. pose proof (processed_map_spec L id) as Hspec. rewrite Hp in Hspec.
  destruct Hspec as [Hpos (i0 & e0 & Hi0 & He0 & Hst)]. rewrite Hproc in Hst.
  symmetry in Hst. apply negb_false_iff, String.eqb_eq in Hst.
  apply ShouldScaleDown_true in Hd as (Hent & Hempty & _); [|by eapply same_counts_positions].
  split_and!; [done| |].
  - intros x Hx Hxid. destruct (same_counts_elem _ _ _ Hs Hx) as [s Hin]. by apply (Hempty _ Hin).
  - exists e0. assert (i0 ∈ indexesOfStreamingUnitForSameClusterID p) as Hin by (by apply head_Some_elem_of).
    apply Hpos in Hin as (e1 & He1 & Hid1). simplify_eq. split_and!; try done; [by eapply list_elem_of_lookup_2|].
    destruct Hs as [st Hst']. pose proof (Hst' i0) as Hc. rewrite He0 in Hc. by apply (Hent i0 _ Hi0) in Hc.
Qed.

Lemma scale_down_one_inv L db0 m counts w i errs m' counts' w' :
  event_inv L db0 m counts w ->
  scale_down_one dp providers cfg i m counts w = (errs, m', counts', w') ->
  event_inv L db0 m' counts' w'.
Proof.
  intros Hinv. unfold scale_down_one. destruct (counts !! i) as [e|] eqn:He; [|by intros [= _ <- <- <-]].
  assert (exists p, m !! e.(SU_ClusterId) = Some p) as [p Hp].
  { apply (inv_dom _ _ _ _ _ Hinv). pose proof (processed_map_spec L e.(SU_ClusterId)) as Hs.
    destruct (createAMapOfProcessedClusters L !! SU_ClusterId e) as [p|]; [eauto|].
    apply (same_counts_positions _ _ _ _ (inv_counts _ _ _ _ _ Hinv)) in Hs.
    exfalso. apply (not_elem_of_nil i), Hs. eauto. }
  rewrite Hp. simpl. destruct (is_processed p) eqn:Hproc; [by intros [= _ <- <- <-]|].
  pose proof (event_inv_insert _ _ _ _ _ _ _ Hinv Hp) as Hinv'.
  destruct (ShouldScaleDown _ _ _ _ _) as [[]|err] eqn:Hd; [|by intros [= _ <- <- <-]..].
  destruct (ScaleDown _ _ _ _ w) as [r w1] eqn:Hrun.
  destruct (inv_map _ _ _ _ _ Hinv _ _ Hp) as (p0 & Hp0 & Hidx & Hpr).
  apply ScaleDown_run in Hrun as [[Ht Hr]|(-> & Hne & Hk & Hc)].
  - assert (event_inv L db0 (<[ e.(SU_ClusterId) := mkProcessed p.(indexesOfStreamingUnitForSameClusterID) true ]> m) counts w1) as Hinv1.
    { destruct Hinv'. constructor; try done; by rewrite Ht. }
    destruct Hr as [->|[err ->]]; by intros [= _ <- <- <-].
  - intros [= _ <- <- <-]. rewrite Hidx in Hd.
    assert (removable L e.(SU_ClusterId)) as Hrem
      by (eapply decision_removable; eauto using inv_counts).
    destruct Hinv' as [Hcs Hm Hdom Hkk Hcl]. constructor; try done; [by apply same_counts_mark|by rewrite Hk|].
    rewrite Hc. unfold update_rows. apply Forall2_fmap_r. eapply Forall2_impl; [exact Hcl|].
    intros c c' Hcc. eapply scaled_down_trans; [exact Hcc|]. simpl.
    destruct (String.eqb_spec (CL.ClusterID c') (SU_ClusterId e)) as [E|]; [|by left]. right. rewrite E. eauto.
Qed.

Lemma scale_down_loop_inv L db0 positions m counts w errs m' counts' w' :
  event_inv L db0 m counts w ->
  scale_down_loop dp providers cfg positions m counts w = (errs, m', counts', w') ->
  event_inv L db0 m' counts' w'.
Proof.
  revert m counts w errs. induction positions as [|i l IH]; intros m counts w errs Hinv; simpl; [by intros [= _ <- <- <-]|].
  destruct (scale_down_one _ _ _ i m counts w) as [[[e1 m1] c1] w1] eqn:H1.
  destruct (scale_down_loop _ _ _ l m1 c1 w1) as [[[e2 m2] c2] w2] eqn:H2.
  intros [= _ <- <- <-]. eapply IH; [by eapply scale_down_one_inv | exact H2].
Qed.

Lemma initial_inv L w : event_inv L (tables_of w) (createAMapOfProcessedClusters L) L w.
Proof.
  constructor; [apply same_counts_refl|naive_solver|done|done|].
  apply Forall_Forall2_diag, Forall_forall. intros c _. by left.
Qed.

Lemma scale_down_event_inv w errs w' :
  processDynamicScaleDownReconcileEvent dp providers cfg w = (errs, w') ->
  kafkas (tables_of w') = kafkas (tables_of w) /\
  (clusters (tables_of w') = clusters (tables_of w) \/
   exists L w1, find_streaming_unit_count w = (Ok L, w1) /\
     Forall2 (scaled_down L) (clusters (tables_of w)) (clusters (tables_of w'))).
Proof.
  unfold processDynamicScaleDownReconcileEvent. destruct (find_streaming_unit_count w) as [[L|e] w1] eqn:Hf;
    pose proof (read_only_run _ _ _ _ find_streaming_unit_count_ro Hf) as Ht.
  - destruct (scale_down_loop _ _ _ _ _ L w1) as [[[es m'] cs] w2] eqn:Hl. intros [= _ <-].
    apply (scale_down_loop_inv L (tables_of w1)) in Hl; [|apply initial_inv]. rewrite <- Ht.
    split; [apply Hl|]. right. exists L, w1. split; [done | apply Hl].
  - intros [= _ <-]. by rewrite Ht; auto.
Qed.
End ScaleDownEvent.

(** ** Properties *)

(** What the database and the configuration guarantee about the Kafkas that
    are placed on a cluster. *)
Record scaling_wf (cfg : KafkaConfig) (db : tables) : Prop := {
  sc_entries : distinct_entries (initial_entries db.(clusters));
  sc_ids : forall c1 c2, c1 ∈ db.(clusters) -> c2 ∈ db.(clusters) -> c1.(CL.ClusterID) = c2.(CL.ClusterID) ->
    c1.(CL.ClusterID) <> "" -> c1 = c2;
  sc_kafkas : forall c k, c ∈ db.(clusters) -> k ∈ db.(kafkas) -> k.(KR.ClusterID) = c.(CL.ClusterID) ->
    k.(KR.CloudProvider) = c.(CL.CloudProvider) /\ k.(KR.Region) = c.(CL.Region) /\ supports c k.(KR.InstanceType);
  sc_units : forall k, k ∈ db.(kafkas) -> 1 <= kafka_units cfg k;
  sc_int32 : forall e, e ∈ initial_entries db.(clusters) ->
    in_int32 (consumed cfg (fun k => consumes_resources k && counted_in e k) db.(kafkas))
}.

Lemma sum_of_ge {A} (f : A -> Z) l a : a ∈ l -> Forall (fun x => 0 <= f x) l -> f a <= sum_of f l.
Proof.
  induction l as [|x l IH]; [set_solver|]. intros [->|Ha]%elem_of_cons [Hx Hl]%Forall_cons; simpl.
  - pose proof (sum_of_nonneg f l Hl). lia.
  - pose proof (IH Ha Hl). lia.
Qed.

(** A Kafka that occupies a cluster shows in the cluster's counts. *)
Lemma occupied_count_positive cfg db c k :
  scaling_wf cfg db -> c ∈ db.(clusters) -> k ∈ db.(kafkas) -> k.(KR.ClusterID) = c.(CL.ClusterID) ->
  c.(CL.ClusterID) <> "" -> consumes_resources k = true ->
  0 < consumed cfg (fun k' => consumes_resources k' && counted_in (entry_for c k.(KR.InstanceType)) k') db.(kafkas).
Proof.
  intros Hwf Hc Hk Hid Hne Hcons. destruct (sc_kafkas _ _ Hwf c k Hc Hk Hid) as (Hp & Hr & _).
  assert (counted_in (entry_for c k.(KR.InstanceType)) k = true) as Hin.
  { unfold counted_in, isSame, group_row, kafka_group_key. cbn -[String.eqb].
    rewrite Hid, Hp, Hr, !String.eqb_refl. by apply String.eqb_neq in Hne as ->. }
  unfold consumed. pose proof (sum_of_ge (kafka_units cfg) (List.filter _ (kafkas db)) k
    (proj2 (list_elem_of_In _ _) (proj2 (filter_In (fun k' => consumes_resources k' && counted_in (entry_for c k.(KR.InstanceType)) k') k (kafkas db))
       (conj (proj1 (list_elem_of_In _ _) Hk) (andb_true_intro (conj Hcons Hin)))))) as Hge.
  pose proof (sc_units _ _ Hwf k Hk). eapply Z.lt_le_trans; [|apply Hge]; [lia|].
  apply Forall_forall. intros x Hx. apply list_elem_of_In, filter_In in Hx as [Hx _].
  pose proof (sc_units _ _ Hwf x (proj2 (list_elem_of_In _ _) Hx)). lia.
Qed.

Lemma initial_entry_cluster cs e :
  e ∈ initial_entries cs -> exists c, c ∈ cs /\ not_failed c = true /\ e.(SU_ClusterId) = c.(CL.ClusterID) /\
    e.(SU_Status) = c.(CL.Status) /\ e.(SU_ClusterType) = c.(CL.ClusterType).
Proof.
  unfold initial_entries. rewrite list_elem_of_In, in_flat_map. intros (c & Hc & He).
  apply filter_In in Hc as [Hc Hf]. exists c. split; [by apply list_elem_of_In|]. split; [done|].
  unfold prepopulate_cluster in He. apply in_flat_map in He as (t & _ & He).
  destruct (TrimSpace t =?s ""); simpl in He; [done|]. by destruct He as [<-|[]].
Qed.

Lemma existsb_false_iff {A} (p : A -> bool) l : existsb p l = false <-> forall a, a ∈ l -> p a = false.
Proof.
  induction l as [|a l IH]; simpl; [split; [set_solver|done]|]. rewrite orb_false_iff, IH. set_solver.
Qed.

Section ScalingProperties.
Context {W : Type} `{Database W} `{IdSource W}.
Context (dp : DataplaneClusterConfig) (providers : ProviderConfig) (cfg : KafkaConfig).
Context `{!ClusterLookup W cfg}.

(** [C9] The scale-down event leaves every Kafka as it is, adds and removes no
    cluster, and of a cluster changes at most the status, which becomes
    [deprovisioning], and the time of the update; and it does so only to clusters
    that are ready, not enterprise and host no Kafka other than those already in
    [deleting].  The tables are assumed to satisfy [scaling_wf]: cluster
    identifiers are distinct, a Kafka is on a cluster of its provider and region
    that supports its instance type, its size consumes at least one unit, and the
    counts fit in 32 bits. *)
Theorem scale_down_event_safe w errs w' :
  processDynamicScaleDownReconcileEvent dp providers cfg w = (errs, w') ->
  scaling_wf cfg (tables_of w) ->
  kafkas (tables_of w') = kafkas (tables_of w) /\
  Forall2 (fun c c' => c' = c \/
    (exists t, c' = touch_cluster t (c <| CL.Status := ClusterDeprovisioning |>)) /\
    c.(CL.Status) = ClusterReady /\ c.(CL.ClusterType) <> EnterpriseDataPlaneClusterType /\
    forall k, k ∈ kafkas (tables_of w) -> k.(KR.ClusterID) = c.(CL.ClusterID) -> k.(KR.Status) = KafkaRequestStatusDeleting)
    (clusters (tables_of w)) (clusters (tables_of w')).
Proof.
  intros Hrun Hwf. apply scale_down_event_inv in Hrun as [Hk Hc]. split; [done|].
  destruct Hc as [->|(L & w1 & Hf & Hc)]; [apply Forall_Forall2_diag, Forall_forall; by left|].
  apply find_streaming_unit_count_ok in Hf; [|apply Hwf].
  apply Forall2_same_length_lookup_2; [by eapply Forall2_length|].
  intros i c c' Hi Hi'. assert (c ∈ clusters (tables_of w)) as Hcin by (by eapply list_elem_of_lookup_2).
  pose proof (Forall2_lookup_lr _ _ _ _ _ _ Hc Hi Hi') as [->|(Hst & Hne & Hempty & e & He & Hid & Hready & Htype)];
    [by left|]. right.
  rewrite Hf in He. apply list_elem_of_fmap in He as (e0 & -> & He0).
  apply initial_entry_cluster in He0 as (c0 & Hc0 & Hnf & Hid0 & Hst0 & Ht0). simpl in *.
  assert (c0 = c) as -> by (apply (sc_ids _ _ Hwf); try done; congruence).
  split_and!; try done; [congruence|congruence|].
  intros k Hkin Hkid. destruct (consumes_resources k) eqn:Hcons.
  - exfalso. pose proof (occupied_count_positive cfg _ c k Hwf Hcin Hkin Hkid Hne Hcons) as Hpos.
    destruct (sc_kafkas _ _ Hwf c k Hcin Hkin Hkid) as (_ & _ & Hsup).
    pose proof (entry_for_initial c _ _ Hcin Hnf Hsup) as Hent.
    pose proof (sc_int32 _ _ Hwf _ Hent) as Hin.
    specialize (Hempty (with_count (int32 (consumed cfg (fun k' => consumes_resources k' && counted_in (entry_for c k.(KR.InstanceType)) k')
      (kafkas (tables_of w)))) (entry_for c k.(KR.InstanceType)))).
    simpl in Hempty. rewrite int32_id in Hempty by done. cut (0 < 0); [lia|].
    eapply Z.lt_le_trans; [exact Hpos|]. apply Hempty; [|done].
    rewrite Hf. apply list_elem_of_fmap. exists (entry_for c k.(KR.InstanceType)). by rewrite int32_id.
  - unfold consumes_resources in Hcons. apply negb_false_iff, Contains_true in Hcons.
    by apply list_elem_of_singleton in Hcons.
Qed.

(** A positive scale-down decision never causes a scale up: with the
    cluster marked as deprovisioning, [ShouldScaleUp] is false for every
    instance type that the cluster served and the region configures. *)
Theorem scale_down_needs_no_scale_up types regions counts clusterID indexes e itc :
  ShouldScaleDown types regions counts clusterID indexes = Ok true ->
  positions_of counts clusterID indexes ->
  e ∈ counts -> e.(SU_ClusterId) = clusterID -> map_lookup regions e.(SU_InstanceType) = Some itc ->
  ShouldScaleUp types (managed_locator e) itc (mark_deprovisioning indexes counts) = Ok false.
Proof. intros Hs Hpos He Hid Hitc. by eapply (ShouldScaleDown_true types regions) in Hs as (_ & _ & Hno); eauto. Qed.

(** [ShouldScaleUp] decides to scale up exactly when the region's limit
    is not reached, no cluster of the kind is being created, and either no
    cluster in service has room for the biggest size or the free capacity is
    below the slack; it fails only for an unknown instance type. *)
Theorem should_scale_up_iff types locator itc counts t :
  GetKafkaInstanceTypeByID types locator.(L_instanceTypeName) = Ok t ->
  exists b biggest, ShouldScaleUp types locator itc counts = Ok b /\
    (forall s, s ∈ Sizes t -> s.(CapacityConsumed) <= biggest) /\
    (biggest = -1 \/ exists s, s ∈ Sizes t /\ s.(CapacityConsumed) = biggest) /\
    (b = true <->
      (forall limit, itc.(Limit) = Some limit -> total_count locator counts < limit) /\
      (forall k, k ∈ counts -> Locator_Equal locator (locator_of k) = true -> k.(SU_Status) ∉ clusterStatesTowardReadyState) /\
      ((forall k, k ∈ counts -> in_service locator k = true -> FreeStreamingUnits k < int32 biggest) \/
       total_max locator counts - total_count locator counts < itc.(MinAvailableCapacitySlackStreamingUnits))).
Proof.
  intros Ht. pose (biggest := match GetBiggestCapacityConsumedSize t with Some s => s.(CapacityConsumed) | None => -1 end).
  assert (getBiggestCapacityConsumedSize types locator.(L_instanceTypeName) = Ok biggest) as Hb
    by (unfold getBiggestCapacityConsumedSize; by rewrite Ht).
  destruct (ShouldScaleUp_ok types locator itc counts biggest Hb) as (b & Hs & Hiff).
  destruct (GetBiggestCapacityConsumedSize_max t) as [Hmax Hatt].
  exists b, biggest. split_and!; [done|done|done|]. rewrite Hiff. unfold limit_reached.
  rewrite !existsb_false_iff. f_equiv; [|f_equiv; [|f_equiv]].
  - destruct (Limit itc) as [limit|]; [|naive_solver]. split.
    + intros Hn l [= <-]. destruct (Z.lt_ge_cases (total_count locator counts) limit); [done|]. naive_solver.
    + intros Hl (l & [= <-] & Hle). specialize (Hl limit eq_refl). lia.
  - unfold being_created. setoid_rewrite andb_false_iff. setoid_rewrite Contains_false.
    apply forall_proper; intros k. destruct (Locator_Equal locator (locator_of k)); naive_solver.
  - unfold holds_biggest. setoid_rewrite andb_false_iff. setoid_rewrite Z.leb_gt.
    apply forall_proper; intros k. destruct (in_service locator k); naive_solver.
Qed.

Lemma initial_entries_app cs cs' : initial_entries (cs ++ cs') = initial_entries cs ++ initial_entries cs'.
Proof. unfold initial_entries. by rewrite List.filter_app, flat_map_app. Qed.

(** The row that a scale up leaves. *)
Definition scale_up_row (t : Z) (id : string) (locator : supportedInstanceTypeLocator) : Cluster :=
  stamp_cluster t ((scale_up_request locator) <| CL.ID := id |>).

Lemma ScaleUp_run locator w w' :
  ScaleUp false locator w = (Ok tt, w') -> locator.(L_instanceTypeName) <> "" ->
  new_id w ∉ map CL.ID (clusters (tables_of w)) ->
  kafkas (tables_of w') = kafkas (tables_of w) /\
  clusters (tables_of w') = clusters (tables_of w) ++ [scale_up_row (time_now w) (new_id w) locator].
Proof.
  intros Hrun Hname Hfresh. unfold ScaleUp, RegisterClusterJob in Hrun. apply wrap_err_ok, exec_ok in Hrun.
  simpl in Hrun. rewrite Hrun. split; [done|]. simpl. unfold save_cluster, Cluster_BeforeCreate. simpl.
  rewrite (proj2 (String.eqb_neq _ _) Hname). simpl.
  destruct (existsb _ _) eqn:E; [|done].
  exfalso. apply existsb_exists in E as (c & Hc & Hid%String.eqb_eq).
  apply Hfresh. apply list_elem_of_fmap. exists c. rewrite list_elem_of_In. done.
Qed.

(** A scale up is not repeated while it is in progress: once the cluster
    has been registered, the next evaluation of the same provider, region and
    instance type, on the counts that the database then gives, does not ask
    for another one. *)
Theorem scale_up_then_wait locator itc w w1 L w2 :
  ScaleUp false locator w = (Ok tt, w1) ->
  new_id w ∉ map CL.ID (clusters (tables_of w)) ->
  locator.(L_clusterType) = ManagedDataPlaneClusterType ->
  supports (scale_up_request locator) locator.(L_instanceTypeName) ->
  distinct_entries (initial_entries (clusters (tables_of w))) ->
  find_streaming_unit_count w1 = (Ok L, w2) ->
  ShouldScaleUp cfg.(SupportedInstanceTypes) locator itc L <> Ok true.
Proof.
  intros Hrun Hfresh Hmanaged Hsup Hdist Hfind.
  assert (locator.(L_instanceTypeName) <> "") as Hname by apply Hsup.
  apply ScaleUp_run in Hrun as [_ Hrows]; [|done|done].
  pose (row := scale_up_row (time_now w) (new_id w) locator).
  apply find_streaming_unit_count_ok in Hfind.
  2:{ rewrite Hrows, initial_entries_app. unfold distinct_entries. rewrite List.filter_app. fold row.
      enough (List.filter identified (initial_entries [row]) = []) as -> by (by rewrite app_nil_r).
      destruct (List.filter identified (initial_entries [row])) as [|e l] eqn:E; [done|]. exfalso.
      assert (e ∈ List.filter identified (initial_entries [row])) as He by (rewrite E; left).
      apply list_elem_of_In, filter_In in He as [He Hid]. apply list_elem_of_In, initial_entry_cluster in He as (c & Hc & _ & Hcid & _).
      apply list_elem_of_singleton in Hc as ->. unfold identified in Hid. by rewrite Hcid in Hid. }
  assert (entry_for row locator.(L_instanceTypeName) ∈ initial_entries (clusters (tables_of w1))) as Hentry.
  { apply entry_for_initial; [rewrite Hrows; set_solver|done|exact Hsup]. }
  destruct (getBiggestCapacityConsumedSize cfg.(SupportedInstanceTypes) locator.(L_instanceTypeName)) as [biggest|e] eqn:Hb.
  2:{ unfold ShouldScaleUp. by rewrite Calculate_spec, Hb. }
  destruct (ShouldScaleUp_ok _ _ itc L _ Hb) as (b & -> & Hiff). intros [= ->].
  destruct Hiff as [Hiff _]. destruct (Hiff eq_refl) as (_ & Hnone & _).
  rewrite existsb_false_iff in Hnone.
  pose proof (list_elem_of_fmap_2 (fun e => with_count (int32 (consumed cfg (fun k => consumes_resources k && counted_in e k)
    (kafkas (tables_of w1)))) e) _ _ Hentry) as Hin.
  rewrite <- Hfind in Hin. specialize (Hnone _ Hin). unfold being_created, Locator_Equal in Hnone. simpl in Hnone.
  rewrite !String.eqb_refl, Hmanaged in Hnone. done.
Qed.
End ScalingProperties.

(** *** Witnesses *)
Module ScalingExamples.
Definition counts : list KafkaStreamingUnitCountPerCluster :=
  [ mkKafkaStreamingUnitCountPerCluster "us-east-1" STANDARD "row-c1" "c1" 2 "aws" 5 ClusterReady ManagedDataPlaneClusterType;
    mkKafkaStreamingUnitCountPerCluster "us-east-1" STANDARD "row-c2" "c2" 0 "aws" 5 ClusterReady ManagedDataPlaneClusterType ].
Definition locator : supportedInstanceTypeLocator := mkLocator "aws" "us-east-1" STANDARD ManagedDataPlaneClusterType.
Definition itc : InstanceTypeConfig := mkInstanceTypeConfig (Some 10) 1.
Definition regions : InstanceTypeMap := [(STANDARD, itc)].
End ScalingExamples.
Import ScalingExamples.

Lemma should_scale_up_iff_witness :
  exists b biggest, ShouldScaleUp Fixtures.instance_types locator itc counts = Ok b /\ b = false /\
    forall s, s ∈ [Fixtures.size "x1" 1 None; Fixtures.size "x2" 2 None] -> s.(CapacityConsumed) <= biggest.
Proof.
  edestruct (should_scale_up_iff Fixtures.instance_types locator itc counts) as (b & biggest & Hs & Hmax & _);
    [vm_compute; reflexivity|].
  exists b, biggest. split_and!; [exact Hs | vm_compute in Hs; congruence | exact Hmax].
Defined.

Lemma scale_down_needs_no_scale_up_witness :
  ShouldScaleDown Fixtures.instance_types regions counts "c2" [1%nat] = Ok true /\
  ShouldScaleUp Fixtures.instance_types locator itc (mark_deprovisioning [1%nat] counts) = Ok false.
Proof.
  split; [vm_compute; reflexivity|].
  apply (scale_down_needs_no_scale_up Fixtures.instance_types regions counts "c2" [1%nat]
    (mkKafkaStreamingUnitCountPerCluster "us-east-1" STANDARD "row-c2" "c2" 0 "aws" 5 ClusterReady ManagedDataPlaneClusterType) itc).
  - vm_compute. reflexivity.
  - intros i. rewrite list_elem_of_singleton. split.
    + intros ->. eexists. split; reflexivity.
    + destruct i as [|[|i]]; [|done|]; intros (e & He & Hid); simpl in He; simplify_eq; done.
  - right. left.
  - reflexivity.
  - reflexivity.
Defined.

(** The deployment with one more empty cluster, which makes the second one
    superfluous. *)
Definition roomy_db : tables := mkTables Fixtures.db.(kafkas) (Fixtures.db.(clusters) ++ [Fixtures.cluster "c4" 40 5 ManagedDataPlaneClusterType ""]).

Lemma roomy_scaling_wf : scaling_wf Fixtures.kafka_config roomy_db.
Proof.
  constructor.
  - vm_compute. repeat constructor; set_solver.
  - intros a b Ha Hb. repeat (apply elem_of_cons in Ha as [->|Ha]; [|]); [..|by apply not_elem_of_nil in Ha];
      repeat (apply elem_of_cons in Hb as [->|Hb]; [done|]); by apply not_elem_of_nil in Hb.
  - intros c k Hc Hk Hid. assert (supports c k.(KR.InstanceType)).
    { split; [by repeat (apply elem_of_cons in Hk as [->|Hk]; [done|]); apply not_elem_of_nil in Hk|].
      exists STANDARD. split; [|by repeat (apply elem_of_cons in Hk as [->|Hk]; [done|]); apply not_elem_of_nil in Hk].
      repeat (apply elem_of_cons in Hc as [->|Hc]; [vm_compute; left|]). by apply not_elem_of_nil in Hc. }
    repeat (apply elem_of_cons in Hc as [->|Hc]; [repeat (apply elem_of_cons in Hk as [->|Hk]; [done|]); by apply not_elem_of_nil in Hk|]).
    by apply not_elem_of_nil in Hc.
  - intros k Hk. repeat (apply elem_of_cons in Hk as [->|Hk]; [done|]). by apply not_elem_of_nil in Hk.
  - intros e He. vm_compute in He.
    repeat (apply elem_of_cons in He as [->|He]; [vm_compute; split; done|]). by apply not_elem_of_nil in He.
Defined.

Lemma scale_down_event_safe_witness :
  exists errs w', processDynamicScaleDownReconcileEvent (Fixtures.dp_config AutoScaling) (Fixtures.provider_config None)
    Fixtures.kafka_config (MemDB.mkWorld roomy_db 1000 [] tt) = (errs, w') /\ map (fun c => (c.(CL.ClusterID), c.(CL.Status))) (tables_of w').(clusters)
      = [("c1", ClusterReady); ("c2", ClusterDeprovisioning); ("c3", ClusterReady); ("c4", ClusterReady)] /\ exists t c', (tables_of w').(clusters) !! 1%nat = Some c' /\ c' = touch_cluster t (Fixtures.c2 <| CL.Status := ClusterDeprovisioning |>).
Proof.
  destruct (processDynamicScaleDownReconcileEvent (Fixtures.dp_config AutoScaling) (Fixtures.provider_config None)
    Fixtures.kafka_config (MemDB.mkWorld roomy_db 1000 [] tt)) as [errs w'] eqn:E.
  destruct (scale_down_event_safe (Fixtures.dp_config AutoScaling) (Fixtures.provider_config None) Fixtures.kafka_config
    (MemDB.mkWorld roomy_db 1000 [] tt) errs w' E roomy_scaling_wf) as [_ Hc].
  assert (map (fun c => (c.(CL.ClusterID), c.(CL.Status))) (tables_of w').(clusters)
      = [("c1", ClusterReady); ("c2", ClusterDeprovisioning); ("c3", ClusterReady); ("c4", ClusterReady)]) as Hs.
  { apply (f_equal (fun p => map (fun c => (c.(CL.ClusterID), c.(CL.Status))) (tables_of (snd p)).(clusters))) in E. vm_compute in E. exact (eq_sym E). }
  exists errs, w'. split; [reflexivity|]. split; [exact Hs|].
  destruct (Forall2_lookup_l _ _ _ 1%nat Fixtures.c2 Hc eq_refl) as (c' & Hi & [->|[[t ->] _]]).
  - apply (f_equal (fun l => l !! 1%nat)) in Hs. rewrite list_lookup_fmap in Hs. rewrite Hi in Hs. vm_compute in Hs. discriminate Hs.
  - exists t, (touch_cluster t (Fixtures.c2 <| CL.Status := ClusterDeprovisioning |>)). split; [exact Hi | reflexivity].
Defined.

Lemma scale_up_then_wait_witness :
  exists w1 L w2, ScaleUp false locator Fixtures.world = (Ok tt, w1) /\
    FindStreamingUnitCountByClusterAndInstanceType Fixtures.kafka_config w1 = (Ok L, w2) /\
    ShouldScaleUp Fixtures.instance_types locator itc L <> Ok true.
Proof.
  eexists _, _, _. split; [vm_compute; reflexivity|]. split; [vm_compute; reflexivity|].
  eapply (scale_up_then_wait Fixtures.kafka_config locator itc Fixtures.world).
  - vm_compute. reflexivity.
  - vm_compute. set_solver.
  - reflexivity.
  - split; [done|]. exists STANDARD. split; [vm_compute; left | reflexivity].
  - vm_compute. repeat constructor; set_solver.
  - vm_compute. reflexivity.
Defined.
