(* ===== verification/ClusterSystem.v ===== *)
(** * The cluster workers together

    The cluster manager, the workers for clusters in deprovisioning and in
    cleanup, the dynamic scaling workers, the reports of the clusters and the
    registration and deregistration of enterprise clusters, in any order, each
    run uninterrupted. *)
From S2P Require Import Prelude Arrays Errors Status Config Model Versions Store Resources Providers Fixtures ClusterService ClusterManager ClusterLifecycle ClusterRemoval DataPlaneCluster Placement Scaling.

Section System.
Context {W : Type} `{Database W} `{IdSource W} `{!ClusterSso W} `{SemverLib}.
Context (GetProvider : string -> result error (ClusterProvider W)).
Context (kafkaConfig : KafkaConfig) (dp : DataplaneClusterConfig) (settings : DataplaneSettings).
Context (obs : ObservabilityConfiguration) (ocm : OCMConfig) (addon : AddonConfig) (regions : ProviderConfig).
Context `{!ClusterLookup W kafkaConfig}.

(** The provider issues distinct identifiers, and a cluster lists each instance
    type once. *)
Definition distinct_clusters (db : tables) : Prop :=
  distinct_entries (initial_entries db.(clusters)) /\
  forall c1 c2, c1 ∈ db.(clusters) -> c2 ∈ db.(clusters) -> c1.(CL.ClusterID) = c2.(CL.ClusterID) -> c1.(CL.ClusterID) <> "" -> c1 = c2.

(** A run that may change clusters; the cluster of row [i] is not deregistered. *)
Inductive cluster_step (i : string) (w w' : W) : Prop :=
| step_manager errs : ClusterManager_Reconcile GetProvider kafkaConfig dp settings obs ocm addon w = (errs, w') -> cluster_step i w w'
| step_deprovisioning errs : Deprovisioning_Reconcile GetProvider w = (errs, w') -> cluster_step i w w'
| step_cleanup errs : Cleanup_Reconcile settings w = (errs, w') -> cluster_step i w w'
| step_report clusterID status r : UpdateDataPlaneClusterStatus clusterID status w = (r, w') -> cluster_step i w w'
| step_scale_up errs : ScaleUp_Reconcile dp regions kafkaConfig w = (errs, w') -> cluster_step i w w'
| step_scale_down errs : distinct_clusters (tables_of w) -> ScaleDown_Reconcile dp regions kafkaConfig w = (errs, w') -> cluster_step i w w'
| step_register c r : c.(CL.ID) = "" -> RegisterClusterJob (new_id w) c w = (r, w') -> cluster_step i w w'
| step_deregister clusterID r :
    (forall c, c ∈ (tables_of w).(clusters) -> c.(CL.ID) = i -> c.(CL.ClusterID) <> clusterID) ->
    DeregisterClusterJob clusterID w = (r, w') -> cluster_step i w w'.

Context (providers_lawful : forall t p, GetProvider t = Ok p -> ProviderLaws p).
Context (fresh_ids : forall w : W, new_id w <> "" /\ new_id w ∉ map CL.ID (tables_of w).(clusters)).

(** The row [i] is in cleanup, or gone. *)
Definition retired (i : string) (w : W) : Prop :=
  clusters_keyed (tables_of w) /\ forall s, (i, s) ∈ status_column w -> s = ClusterCleanup.

Lemma keyed_columns w : clusters_keyed (tables_of w) <-> rows_keyed (status_column w).
Proof. unfold clusters_keyed, rows_keyed, status_column, column_of. by rewrite column_keys. Qed.

(** A step that changes no row in cleanup. *)
Lemma retired_rows (R : Cluster -> Cluster -> Prop) i w w' :
  Forall2 (fun r r' => r' = r \/ R r r') (tables_of w).(clusters) (tables_of w').(clusters) ->
  (forall r r', R r r' -> r'.(CL.ID) = r.(CL.ID) /\ r.(CL.Status) <> ClusterCleanup) -> retired i w -> retired i w'.
Proof.
  intros Hrows HR [Hk Hi]. unfold retired, clusters_keyed, status_column, column_of, column in *. split.
  - enough (map CL.ID (tables_of w').(clusters) = map CL.ID (tables_of w).(clusters)) as -> by done.
    clear -Hrows HR. induction Hrows as [|r r' l l' Hr Hl IH]; simpl; [done|]. rewrite IH. f_equal. destruct Hr as [->|Hr]; [done|by apply HR].
  - clear Hk. induction Hrows as [|r r' l l' Hr Hl IH]; intros s Hs; [set_solver|]. simpl in Hs, Hi. apply elem_of_cons in Hs as [Hs|Hs].
    + destruct Hr as [->|Hr]; [apply Hi; rewrite <- Hs; left|]. destruct (HR _ _ Hr) as [Hid Hne]. exfalso. apply Hne, Hi.
      injection Hs as -> _. rewrite Hid. left.
    + apply IH; [|done]. intros s' Hs'. apply Hi. by right.
Qed.

Lemma deprovision_step_not_cleanup ks r r' : deprovision_step ks r r' -> r'.(CL.ID) = r.(CL.ID) /\ r.(CL.Status) <> ClusterCleanup.
Proof. intros [t Hs|t Hs]; (split; [done|]; by rewrite Hs). Qed.

Lemma report_step_not_cleanup status r r' :
  clusterCanProcessStatusReports r = true -> report_step status r r' -> r'.(CL.ID) = r.(CL.ID) /\ r.(CL.Status) <> ClusterCleanup.
Proof. intros Hcan Hr. split; [by destruct Hr|]. intros E. unfold clusterCanProcessStatusReports in Hcan. by rewrite E in Hcan. Qed.

(** The cleanup pass only removes rows. *)
Lemma cleanup_rows w errs w' : Cleanup_Reconcile settings w = (errs, w') -> exists gone, (tables_of w').(clusters) = without gone (tables_of w).(clusters).
Proof.
  intros Hr. assert (w' = snd (process ClusterCleanup "failed to list of cleanup clusters" (cleanup_one settings) w)) as ->.
  { unfold Cleanup_Reconcile, processCleanupClusters, worker_errors, add_all in Hr. change (fun cluster => _) with (cleanup_one settings) in Hr.
    destruct (process _ _ _ w) as [errs0 w0]. by injection Hr. }
  unfold process. destruct (ClusterService_ListByStatus ClusterCleanup w) as [[l|e] w1] eqn:Hl; simpl.
  - apply ListByStatus_rows in Hl as [<- _].
    destruct (gather_removes (cleanup_one settings) l w1 (fun c w _ => cleanup_one_removes settings c w)) as (_ & gone & Hg & _). by exists gone.
  - exists []. rewrite without_none. erewrite (read_only_run (ClusterService_ListByStatus ClusterCleanup)); [done| |exact Hl].
    unfold ClusterService_ListByStatus. solve_read_only.
Qed.

Lemma retired_without gone i w w' : (tables_of w').(clusters) = without gone (tables_of w).(clusters) -> retired i w -> retired i w'.
Proof.
  intros Hg [[Hnd Hne] Hi]. assert (forall c, c ∈ (tables_of w').(clusters) -> c ∈ (tables_of w).(clusters)) as Hsub.
  { intros c Hc. rewrite Hg in Hc. by apply list_elem_of_In, filter_In in Hc as [?%list_elem_of_In _]. }
  split; [split|].
  - rewrite Hg. by apply filter_ids_nodup.
  - intros (c & E & Hc)%list_elem_of_fmap. apply Hne. rewrite E. by apply list_elem_of_fmap_2, Hsub.
  - intros s (c & [= -> ->] & Hc)%list_elem_of_fmap. apply Hi, list_elem_of_fmap. exists c. split; [done|by apply Hsub].
Qed.

(** A step that changes the status of rows other than [i]. *)
Lemma retired_update i t p f (w w' : W) :
  (tables_of w').(clusters) = update_rows (touch_cluster t) p f (tables_of w).(clusters) -> (forall c, (f c).(CL.ID) = c.(CL.ID)) ->
  (forall c, c ∈ (tables_of w).(clusters) -> c.(CL.ID) = i -> p c = false) -> retired i w -> retired i w'.
Proof.
  intros Hc Hf Hp [Hk Hi]. unfold retired, clusters_keyed, status_column, column_of, column, update_rows in *. rewrite Hc, map_map. split.
  - erewrite map_ext; [exact Hk|]. intros c. destruct (p c); [apply Hf|done].
  - intros s (c' & [= E ->] & Hc')%list_elem_of_fmap. apply list_elem_of_fmap in Hc' as (c & -> & Hc').
    destruct (p c) eqn:Ep.
    + rewrite (Hp c Hc') in Ep; [done|]. rewrite E. symmetry. apply Hf.
    + apply Hi, list_elem_of_fmap. exists c. by rewrite E.
Qed.

(** A new row. *)
Lemma retired_register i c w r w' : (forall w0 : W, new_id w0 <> i) -> c.(CL.ID) = "" ->
  RegisterClusterJob (new_id w) c w = (r, w') -> retired i w -> retired i w'.
Proof using fresh_ids.
  intros Hgen Hc Hr [[Hnd Hne] Hi]. destruct (fresh_ids w) as [Hid Hnew]. unfold RegisterClusterJob in Hr.
  destruct r as [[]|e]; [|apply wrap_err_err in Hr as (e0 & Hr%exec_err & _); unfold retired, clusters_keyed, status_column, column_of; by rewrite Hr].
  apply wrap_err_ok, exec_ok in Hr. simpl in Hr. set (b := Cluster_BeforeCreate (new_id w) c) in *.
  assert (CL.ID b = new_id w) as Hb by (subst b; unfold Cluster_BeforeCreate; destruct c; simpl in Hc; subst; simpl; by repeat case_match).
  assert ((tables_of w').(clusters) = (tables_of w).(clusters) ++ [stamp_cluster (time_now w) (b <| CL.StatusDetails := "" |>)]) as Hrows.
  { rewrite Hr. simpl. unfold save_cluster. destruct (existsb _ _) eqn:E; [|done]. exfalso. apply existsb_exists in E as (x & Hx & Ex%String.eqb_eq).
    apply Hnew, list_elem_of_fmap. exists x. split; [|by apply list_elem_of_In]. rewrite Ex. by rewrite <- Hb. }
  clearbody b. unfold retired, clusters_keyed, status_column, column_of, column. rewrite Hrows, !map_app. simpl. rewrite Hb. split; [split|].
  - apply NoDup_app. split_and!; [done| |apply NoDup_singleton]. intros x Hx ->%list_elem_of_singleton. done.
  - rewrite elem_of_app, list_elem_of_singleton. intros [?|?]; congruence.
  - intros s [Hs|[= E _]%list_elem_of_singleton]%elem_of_app; [by apply Hi|]. by destruct (Hgen w).
Qed.

Lemma scale_up_one_retired i counts target w r w' : (forall w0 : W, new_id w0 <> i) ->
  scale_up_one dp kafkaConfig counts target w = (r, w') -> retired i w -> retired i w'.
Proof using fresh_ids.
  intros Hgen Hr Hret. unfold scale_up_one in Hr. destruct target as [locator itc].
  apply bind_inv in Hr as [(b & w1 & [= _ <-] & Hr)|(e & [= _ <-] & _)]; [|done].
  destruct b; [|by injection Hr as _ <-]. unfold wrap_err, ScaleUp in Hr. destruct (negb _); [by injection Hr as _ <-|].
  destruct (RegisterClusterJob _ _ w) as [r0 w0] eqn:Hreg. injection Hr as _ <-. eapply retired_register; [exact Hgen| |exact Hreg|exact Hret]. done.
Qed.

Lemma scale_up_retired i w errs w' : (forall w0 : W, new_id w0 <> i) -> ScaleUp_Reconcile dp regions kafkaConfig w = (errs, w') ->
  retired i w -> retired i w'.
Proof using fresh_ids.
  intros Hgen Hr Hret. unfold ScaleUp_Reconcile in Hr. destruct (negb _); [by injection Hr as _ <-|].
  unfold processDynamicScaleUpReconcileEvent in Hr. destruct (find_streaming_unit_count w) as [[L|e] w1] eqn:Hf;
    pose proof (read_only_run _ _ _ _ find_streaming_unit_count_ro Hf) as Ht.
  - assert (retired i w1) as Hret1 by (unfold retired, clusters_keyed, status_column, column_of; by rewrite Ht). clear Hf Ht Hret.
    destruct (for_all_collect _ _ w1) as [errs1 w2] eqn:Hl. injection Hr as _ <-. revert w1 errs1 Hret1 Hl.
    induction (scale_up_targets regions) as [|x l IH]; intros w1 errs1 Hret1 Hl; simpl in Hl; [by injection Hl as _ <-|].
    destruct (scale_up_one _ _ L x w1) as [ra wa] eqn:Ha. destruct (for_all_collect _ l wa) as [errs2 wb] eqn:Hb.
    injection Hl as _ <-. eapply IH; [|exact Hb]. by eapply scale_up_one_retired.
  - injection Hr as _ <-. unfold retired, clusters_keyed, status_column, column_of. by rewrite Ht.
Qed.

Lemma scale_down_retired i w errs w' : distinct_clusters (tables_of w) -> ScaleDown_Reconcile dp regions kafkaConfig w = (errs, w') ->
  retired i w -> retired i w'.
Proof.
  intros [Hent Hids] Hr Hret. unfold ScaleDown_Reconcile in Hr. destruct (negb _); [by injection Hr as _ <-|].
  apply scale_down_event_inv in Hr as [_ [Hc|(L & w1 & Hf & Hc)]];
    [unfold retired, clusters_keyed, status_column, column_of in *; by rewrite Hc|].
  apply find_streaming_unit_count_ok in Hf; [|done].
  eapply (retired_rows (fun r r' => r'.(CL.ID) = r.(CL.ID) /\ r.(CL.Status) <> ClusterCleanup)); [|done|done].
  eapply Forall2_impl_in; [exact Hc|]. intros c c' Hin [->|[[t ->] (Hne & _ & e & He & Hid & Hready & _)]]; [by left|]. right. split; [done|].
  rewrite Hf in He. apply list_elem_of_fmap in He as (e0 & -> & He0). apply initial_entry_cluster in He0 as (c0 & Hc0 & _ & Hid0 & Hst0 & _).
  simpl in *. assert (c0 = c) as -> by (apply Hids; try done; congruence). intros E. rewrite <- Hst0, Hready in E. discriminate E.
Qed.

Lemma deregister_retired i clusterID w r w' : (forall c, c ∈ (tables_of w).(clusters) -> c.(CL.ID) = i -> c.(CL.ClusterID) <> clusterID) ->
  DeregisterClusterJob clusterID w = (r, w') -> retired i w -> retired i w'.
Proof.
  intros Hi Hr Hret. unfold DeregisterClusterJob, ClusterService_UpdateStatus, wrap_err in Hr. simpl in Hr.
  destruct (clusterID =?s ""); [by injection Hr as _ <-|]. unfold bind in Hr.
  destruct (exec _ w) as [[n|e] w1] eqn:He; injection Hr as _ <-.
  - apply exec_ok in He as [_ Ht]. eapply retired_update; [by rewrite Ht|done| |done]. intros c Hc Hci. apply String.eqb_neq. by apply Hi.
  - apply exec_err in He. unfold retired, clusters_keyed, status_column, column_of in *. by rewrite He.
Qed.

Lemma retired_step i w w' : (forall w0 : W, new_id w0 <> i) -> cluster_step i w w' -> retired i w -> retired i w'.
Proof using providers_lawful fresh_ids.
  intros Hgen Hstep Hret. destruct Hstep as [errs Hr|errs Hr|errs Hr|clusterID status r Hr|errs Hr|errs Hd Hr|c r Hc Hr|clusterID r Hi Hr].
  5: by eapply scale_up_retired.
  5: by eapply scale_down_retired.
  5: by eapply retired_register.
  5: by eapply deregister_retired.
  - destruct Hret as [Hk Hi]. apply keyed_columns in Hk.
    pose proof (ClusterManager_lawful GetProvider kafkaConfig dp settings obs ocm addon providers_lawful _ fresh_ids eq_refl w Hk) as Hpass.
    rewrite Hr in Hpass. simpl in Hpass. destruct Hpass as [Hk' (l1 & added & Hl & _ & Hg & Hm)].
    split; [by apply keyed_columns|]. intros s Hs. rewrite Hl in Hs. apply elem_of_app in Hs as [Hs|Hs].
    + apply list_elem_of_lookup_1 in Hs as (n & Hn). destruct (Forall2_lookup_r _ _ _ _ _ Hm Hn) as ([j s0] & Hj & Hid & Hmv). simpl in *. subst j.
      assert (s0 = ClusterCleanup) as -> by (apply Hi; by eapply list_elem_of_lookup_2).
      apply may_become_moves in Hmv. unfold may_become in Hmv. simpl in Hmv. rewrite andb_false_r in Hmv. by apply list_elem_of_singleton in Hmv.
    + rewrite Forall_forall in Hg. destruct (Hg _ Hs) as [w0 E]. by destruct (Hgen w0).
  - apply deprovisioning_rows in Hr as [_ Hrows]; [|done|by destruct Hret].
    eapply retired_rows; [exact Hrows|by apply deprovision_step_not_cleanup|done].
  - apply cleanup_rows in Hr as [gone Hg]. by eapply retired_without.
  - apply cluster_report_rows in Hr as (_ & _ & Hrows); [|by destruct Hret].
    eapply retired_rows; [exact Hrows| |done]. intros row row' (_ & Hcan & Hs). by eapply report_step_not_cleanup.
Qed.
End System.

(** [C2] Once a cluster is in [cleanup], no sequence of runs of the cluster
    manager, of the deprovisioning and cleanup workers, of the dynamic scale-up
    and scale-down workers, of reports, of registrations, and of deregistrations
    of other clusters brings it back: its row is in [cleanup] until it is removed,
    and is never seen in another status again.  Runs are not interrupted by one
    another, and the cluster itself is not deregistered by its owner, which would
    put it back in [deprovisioning].  Rows get fresh keys, and the scale-down
    worker runs on clusters whose identifiers are distinct. *)
Theorem cleanup_is_final {W} `{Database W} `{IdSource W} `{!ClusterSso W} `{SemverLib} GetProvider kafkaConfig dp settings obs ocm addon regions
    `{!ClusterLookup W kafkaConfig} (i : string) (w w' : W) :
  rtc (cluster_step GetProvider kafkaConfig dp settings obs ocm addon regions i) w w' ->
  (forall t p, GetProvider t = Ok p -> ProviderLaws p) ->
  (forall w0 : W, new_id w0 <> "" /\ new_id w0 ∉ map CL.ID (tables_of w0).(clusters)) -> (forall w0 : W, new_id w0 <> i) ->
  clusters_keyed (tables_of w) -> (i, ClusterCleanup) ∈ status_column w ->
  forall s, (i, s) ∈ status_column w' -> s = ClusterCleanup.
Proof.
  intros Hsteps Hp Hfresh Hgen Hk Hi. enough (retired i w') as [_ Hret] by done.
  assert (retired i w) as Hret.
  { split; [done|]. intros s Hs. apply keyed_columns in Hk. by eapply keyed_unique. }
  clear Hk Hi. induction Hsteps as [|w w1 w' Hstep _ IH]; [done|]. apply IH. by eapply retired_step.
Qed.

Lemma fresh_id_not_d (w : MemDB.world unit) : new_id w <> "row-d".
Proof.
  unfold new_id, LifeExample.fresh_id. assert (exists a, foldr (fun c s => c.(CL.ID) +:+ s) "x" w.(MemDB.db).(clusters) = a +:+ "x") as [a ->].
  { induction w.(MemDB.db).(clusters) as [|c cs [a IH]]; [by exists ""|]. exists (c.(CL.ID) +:+ a). simpl. rewrite IH.
    clear. induction (CL.ID c) as [|ch s IHs]; [done|].
    change (String ch (s +:+ (a +:+ "x")) = String ch ((s +:+ a) +:+ "x")). by rewrite IHs. }
  destruct a as [|c1 [|c2 [|c3 [|c4 [|c5 [|c6 a]]]]]]; simpl; intros E; inversion E.
Qed.

Lemma cleanup_is_final_witness :
  exists w', rtc (cluster_step (H1 := DecimalSemver.lib) (LifeExample.factory true) Fixtures.kafka_config (Fixtures.dp_config ManualScaling) LifeExample.settings
    ResourceFixtures.observability ResourceFixtures.ocm LifeExample.addon (Fixtures.provider_config None) "row-d") LifeExample.w0 w' /\
  forall s, ("row-d", s) ∈ status_column w' -> s = ClusterCleanup.
Proof.
  destruct (ClusterManager_Reconcile (LifeExample.factory true) Fixtures.kafka_config (Fixtures.dp_config ManualScaling)
    LifeExample.settings ResourceFixtures.observability ResourceFixtures.ocm LifeExample.addon LifeExample.w0) as [errs w1] eqn:H1.
  destruct (Deprovisioning_Reconcile (LifeExample.factory true) w1) as [errs2 w2] eqn:H2.
  destruct (ScaleUp_Reconcile (Fixtures.dp_config ManualScaling) (Fixtures.provider_config None) Fixtures.kafka_config w2) as [errs3 w3] eqn:H3.
  destruct (RegisterClusterJob (new_id w3) (Fixtures.c3 <| CL.ID := "" |>) w3) as [r4 w4] eqn:H4.
  assert (rtc (cluster_step (H1 := DecimalSemver.lib) (LifeExample.factory true) Fixtures.kafka_config (Fixtures.dp_config ManualScaling) LifeExample.settings
    ResourceFixtures.observability ResourceFixtures.ocm LifeExample.addon (Fixtures.provider_config None) "row-d") LifeExample.w0 w4) as Hsteps.
  { eapply rtc_l; [eapply step_manager; exact H1|]. eapply rtc_l; [eapply step_deprovisioning; exact H2|].
    eapply rtc_l; [eapply step_scale_up; exact H3|]. apply rtc_once. eapply step_register; [|exact H4]. reflexivity. }
  exists w4. split; [exact Hsteps|].
  refine (cleanup_is_final (LifeExample.factory true) Fixtures.kafka_config (Fixtures.dp_config ManualScaling) LifeExample.settings
    ResourceFixtures.observability ResourceFixtures.ocm LifeExample.addon (Fixtures.provider_config None) "row-d" LifeExample.w0 w4 Hsteps (LifeExample.factory_lawful true)
    LifeExample.fresh_id_fresh fresh_id_not_d _ _).
  - refine (bool_decide_unpack (clusters_keyed (tables_of LifeExample.w0)) _). vm_compute. exact I.
  - right. right. left.
Defined.
