(* ===== verification/KafkaService.v ===== *)
(** * The Kafka service

    [src/internal/kafka/internal/services/kafka.go]: the handlers that
    register, prepare, update, deprovision and delete Kafka requests, and the
    capacity checks of a region.

    The other services it calls (quota, single sign-on, certificates, Route 53)
    are Go interfaces; the class [KafkaExternals] holds the operations that are
    called, with the law that none of them writes the tables of the fleet
    manager.  A method that mutates the request it is given returns the mutated
    request. *)
From S2P Require Import Prelude Arrays Errors Status Config Model HostNames Store Resources Fixtures ClusterService Placement.

Definition kafkaDeletionStatuses : list string := [KafkaRequestStatusDeleting; KafkaRequestStatusDeprovision].

Definition kafkaManagedCRStatuses : list string :=
  [ KafkaRequestStatusProvisioning; KafkaRequestStatusDeprovision; KafkaRequestStatusReady; KafkaRequestStatusFailed;
    KafkaRequestStatusSuspended; KafkaRequestStatusSuspending; KafkaRequestStatusResuming ].

Definition statusesOfKafkaThatAreNotActive : list string :=
  [ KafkaRequestStatusDeleting; KafkaRequestStatusDeprovision; KafkaRequestStatusSuspended ].

Inductive KafkaRoutesAction := KafkaRoutesActionCreate | KafkaRoutesActionDelete.

Definition CanaryServiceAccountPrefix : string := "canary".

(** Records of route53: a CNAME change of a domain. *)
Record ResourceRecordChange := mkResourceRecordChange {
  RR_Action : KafkaRoutesAction;
  RR_Name : string;
  RR_Type : string;
  RR_TTL : Z;
  RR_Value : string
}.

Definition buildResourceRecordChange (recordName clusterIngress : string) (action : KafkaRoutesAction) : ResourceRecordChange :=
  mkResourceRecordChange action recordName "CNAME" 300 clusterIngress.

Definition buildKafkaClusterCNAMESRecordBatch (routes : list DataPlaneKafkaRoute) (action : KafkaRoutesAction)
  : list ResourceRecordChange :=
  map (fun r => buildResourceRecordChange r.(Domain) r.(Router) action) routes.

(** What [GetCertificate] can return besides a certificate. *)
Inductive CertificateError := CertNotExist | CertOther (e : error).

Record ServiceAccount := mkServiceAccount { SA_ClientID : string; SA_ClientSecret : string }.
Record ServiceAccountRequest := mkServiceAccountRequest {
  SAR_Owner : string;
  SAR_OwnerAccountId : string;
  SAR_ClientId : string;
  SAR_OrgId : string;
  SAR_Name : string;
  SAR_Description : string
}.

(** The outcome of a Route 53 change: its identifier and its status, which the
    Route 53 interface requires in every answer. *)
Record ChangeInfo := mkChangeInfo { Change_Id : string; Change_Status : string }.

(** What a reservation of quota stores in the request: the billing model, as the
    desired and as the actual one, and the marketplace and the billing account,
    which it may detect. *)
Record ReservedBilling := mkReservedBilling {
  RB_BillingModel : string;
  RB_Marketplace : string;
  RB_BillingCloudAccountId : string
}.

Class KafkaExternals (W : Type) `{Database W} := {
  (** [QuotaServiceFactory.GetQuotaService]: an unknown type is an error. *)
  get_quota_service : string -> result ServiceError unit;
  check_quota_defined : string -> string -> string -> KafkaBillingModel -> M W ServiceError bool;
  (** [ReserveQuota]: the subscription, and what is stored in the request. *)
  reserve_quota : KafkaRequest -> M W ServiceError (string * ReservedBilling);
  is_entitlement_active : KafkaRequest -> M W error bool;
  (** Single sign-on. *)
  enable_authentication_on_kafka : bool;
  create_service_account : ServiceAccountRequest -> M W ServiceError ServiceAccount;
  delete_service_account : string -> M W ServiceError unit;
  (** Certificates of the Kafka routes. *)
  automatic_certificate_management : bool;
  get_certificate : string -> string -> M W CertificateError (string * string);
  manage_certificate : string -> M W error (string * string);
  revoke_certificate : string -> M W error unit;
  (** Route 53. *)
  new_aws_client : string -> result error unit;
  change_resource_record_sets : string -> list ResourceRecordChange -> M W error ChangeInfo;
  get_change : string -> M W error ChangeInfo;
  (** The DNS name of a cluster: [GetClusterDNS] of the cluster service. *)
  get_cluster_dns : string -> M W ServiceError string;
  dns_label_errors : string -> list string;

  check_quota_defined_ro : forall o org t bm, read_only (check_quota_defined o org t bm);
  reserve_quota_ro : forall k, read_only (reserve_quota k);
  is_entitlement_active_ro : forall k, read_only (is_entitlement_active k);
  create_service_account_ro : forall r, read_only (create_service_account r);
  delete_service_account_ro : forall id, read_only (delete_service_account id);
  get_certificate_ro : forall a b, read_only (get_certificate a b);
  manage_certificate_ro : forall d, read_only (manage_certificate d);
  revoke_certificate_ro : forall d, read_only (revoke_certificate d);
  change_resource_record_sets_ro : forall d l, read_only (change_resource_record_sets d l);
  get_change_ro : forall id, read_only (get_change id);
  get_cluster_dns_keeps : forall id, keeps_kafkas (get_cluster_dns id)
}.
#[export] Hint Resolve check_quota_defined_ro reserve_quota_ro is_entitlement_active_ro create_service_account_ro
  delete_service_account_ro get_certificate_ro manage_certificate_ro revoke_certificate_ro
  change_resource_record_sets_ro get_change_ro get_cluster_dns_keeps : fleet.

Definition DefaultAWSRoute53Region : string := "us-east-1".
Definition DefaultGCPRoute53Region : string := "us-east-1".
Definition DefaultIngressDnsNamePrefix : string := "apps".
Definition ManagedKafkaIngressDnsNamePrefix : string := "kas".

Definition getRoute53RegionFromKafkaRequest (kafkaRequest : KafkaRequest) : result ServiceError string :=
  if kafkaRequest.(KR.CloudProvider) =?s AWS then Ok DefaultAWSRoute53Region
  else if kafkaRequest.(KR.CloudProvider) =?s GCP then Ok DefaultGCPRoute53Region
  else Err (GeneralError "unknown cloud provider: %q").

(** [strings.Replace(s, old, new, 1)] for a non-empty [old]. *)
Fixpoint replace_first (s old new : string) : string :=
  if String.prefix old s then new +:+ String.substring (String.length old) (String.length s - String.length old) s
  else match s with
       | EmptyString => EmptyString
       | String c s' => String c (replace_first s' old new)
       end.

(** A model with a zero primary key designates every row. *)
Definition designates (k row : KafkaRequest) : bool := zero_or_eq k.(KR.ID) row.(KR.ID).
Definition not_under_deletion (row : KafkaRequest) : bool := negb (Contains kafkaDeletionStatuses row.(KR.Status)).

Section KafkaService.
Context {W : Type} `{Database W} `{IdSource W} `{!KafkaExternals W}.
Context (dataplaneClusterConfig : DataplaneClusterConfig) (providerConfig : ProviderConfig) (kafkaConfig : KafkaConfig).
Context `{!ClusterLookup W kafkaConfig}.

(** ** Capacity of a region *)

(** The sum of the capacities, or the first unknown size. *)
Fixpoint total_capacity (l : list KafkaRequest) : result error Z :=
  match l with
  | [] => Ok 0
  | k :: l' =>
      size <-! GetKafkaInstanceSize kafkaConfig k.(KR.InstanceType) k.(KR.SizeId) ;;
      rest <-! total_capacity l' ;;
      Ok (size.(CapacityConsumed) + rest)
  end.

(** The Kafkas that count against the limit of a region and instance type. *)
Definition counts_in_region (kafkaRequest k : KafkaRequest) : bool :=
  (k.(KR.Region) =?s kafkaRequest.(KR.Region)) && (k.(KR.CloudProvider) =?s kafkaRequest.(KR.CloudProvider)) &&
  (k.(KR.InstanceType) =?s kafkaRequest.(KR.InstanceType)) &&
  negb (k.(KR.ActualKafkaBillingModel) =?s BillingModelEnterprise).

Definition capacityAvailableForRegionAndInstanceType (instTypeRegCapacity : option Z) (kafkaRequest : KafkaRequest)
  : M W ServiceError bool :=
  ks <~ wrap_err (general "failed to check kafka capacity for region '%s' and instance type '%s'")
          (exec (SelectKafkas (counts_in_region kafkaRequest))) ;;
  count <~ lift (map_err (fun e => NewWithCause ErrorInstancePlanNotSupported (Some e)
                   "failed to check kafka capacity for region '%s' and instance type '%s'") (total_capacity ks)) ;;
  kafkaInstanceSize <~ lift (map_err (fun e => NewWithCause ErrorInstancePlanNotSupported (Some e)
                   "failed to check kafka capacity for region '%s' and instance type '%s'")
                   (GetKafkaInstanceSize kafkaConfig kafkaRequest.(KR.InstanceType) kafkaRequest.(KR.SizeId))) ;;
  ret (match instTypeRegCapacity with
       | None => true
       | Some limit => count + kafkaInstanceSize.(CapacityConsumed) <=? limit
       end).

Definition HasAvailableCapacityInRegion (kafkaRequest : KafkaRequest) : M W ServiceError bool :=
  regInstTypeLimit <~ lift (GetInstanceLimit providerConfig kafkaRequest.(KR.Region) kafkaRequest.(KR.CloudProvider)
                              kafkaRequest.(KR.InstanceType)) ;;
  match regInstTypeLimit with
  | Some 0 => ret false
  | _ =>
      if IsDataPlaneAutoScalingEnabled dataplaneClusterConfig && match regInstTypeLimit with None => true | _ => false end
      then ret true
      else capacityAvailableForRegionAndInstanceType regInstTypeLimit kafkaRequest
  end.

(** The loop over the sizes, biggest first: the prefix of sizes up to the
    first one that fits.  [rev_sizes] is the reversed list of sizes. *)
Fixpoint available_sizes (criteria : FindClusterCriteria) (rev_sizes : list KafkaInstanceSize)
  : M W ServiceError (list string) :=
  match rev_sizes with
  | [] => ret []
  | size :: smaller =>
      let kafka := zero <| KR.CloudProvider := criteria.(FC_Provider) |> <| KR.Region := criteria.(FC_Region) |>
                        <| KR.InstanceType := criteria.(FC_SupportedInstanceType) |>
                        <| KR.MultiAZ := criteria.(FC_MultiAZ) |> <| KR.SizeId := size.(Size_Id) |> in
      let available := map Size_Id (reverse rev_sizes) in
      hasCapacity <~ HasAvailableCapacityInRegion kafka ;;
      if hasCapacity then
        if IsDataPlaneAutoScalingEnabled dataplaneClusterConfig then ret available
        else
          cluster <~ wrap_err (general "failed to find data plane cluster for kafka with criteria '%v'")
                       (Placement_FindCluster dataplaneClusterConfig kafkaConfig kafka) ;;
          match cluster with
          | Some _ => ret available
          | None => available_sizes criteria smaller
          end
      else available_sizes criteria smaller
  end.

(** [criteria] is a pointer: nil is [None]. *)
Definition GetAvailableSizesInRegion (criteria : option FindClusterCriteria) : M W ServiceError (list string) :=
  match criteria with
  | None => throw (GeneralError "unable to get available sizes in region: criteria was not specified")
  | Some criteria =>
      instanceType <~ lift (map_err (fun _ => InstanceTypeNotSupported "unable to get available sizes in region: %s")
                        (GetKafkaInstanceTypeByID kafkaConfig.(SupportedInstanceTypes) criteria.(FC_SupportedInstanceType))) ;;
      available_sizes criteria (reverse (Sizes instanceType))
  end.

(** ** Quota *)
Definition quota_service (reason : string) : M W ServiceError unit :=
  lift (map_err (general_svc reason) (get_quota_service kafkaConfig.(Quota).(Quota_Type))).

Fixpoint first_with_quota (owner organisationId : string) (l : list (string * KafkaBillingModel)) : M W ServiceError string :=
  match l with
  | [] => ret DEVELOPER
  | (instanceType, bm) :: l' =>
      hasQuota <~ check_quota_defined owner organisationId instanceType bm ;;
      if hasQuota then ret instanceType else first_with_quota owner organisationId l'
  end.

Definition AssignInstanceType (owner organisationId : string) : M W ServiceError string :=
  _ <~ quota_service "unable to check quota" ;;
  first_with_quota owner organisationId
    (flat_map (fun instanceType =>
       if Type_Id instanceType =?s DEVELOPER then []
       else map (fun bm => (Type_Id instanceType, bm)) (SupportedBillingModels instanceType))
     (SupportedKafkaInstanceTypes kafkaConfig.(SupportedInstanceTypes))).

Definition owned_developer_instance (kafkaRequest k : KafkaRequest) : bool :=
  (k.(KR.InstanceType) =?s DEVELOPER) && (k.(KR.Owner) =?s kafkaRequest.(KR.Owner)) &&
  (k.(KR.OrganisationId) =?s kafkaRequest.(KR.OrganisationId)).

Definition check_developer_limit (kafkaRequest : KafkaRequest) : M W ServiceError unit :=
  if kafkaRequest.(KR.InstanceType) =?s DEVELOPER then
    _ <~ lift (map_err (general "unable to reserve quota")
                 (GetKafkaInstanceTypeByID kafkaConfig.(SupportedInstanceTypes) kafkaRequest.(KR.InstanceType))) ;;
    if negb kafkaConfig.(Quota).(AllowDeveloperInstance)
    then throw (NewWithCause ErrorForbidden None "kafka %s instances are not allowed")
    else
      count <~ wrap_err (general "failed to count kafka %s instances")
                 (exec (CountKafkas (owned_developer_instance kafkaRequest))) ;;
      if kafkaConfig.(Quota).(MaxAllowedDeveloperInstances) <=? count
      then throw (TooManyKafkaInstancesReached "only %d %s instance is allowed")
      else ret tt
  else ret tt.

Definition reserveQuota (kafkaRequest : KafkaRequest) : M W ServiceError (string * ReservedBilling) :=
  _ <~ check_developer_limit kafkaRequest ;;
  _ <~ quota_service "unable to check quota" ;;
  reserve_quota kafkaRequest.

(** ** Registration *)
Definition findADataPlaneClusterToPlaceTheKafka (kafkaRequest : KafkaRequest) : M W ServiceError Cluster :=
  found <~ attempt (Placement_FindCluster dataplaneClusterConfig kafkaConfig kafkaRequest) ;;
  match found with
  | Ok (Some cluster) => ret cluster
  | _ => throw (TooManyKafkaInstancesReached
                  (if DesiredBillingModelIsEnterprise kafkaRequest
                   then "cluster %q cannot accept instance type: %q at this moment"
                   else "region %s cannot accept instance type: %s at this moment"))
  end.

Definition check_region_capacity (kafkaRequest : KafkaRequest) : M W ServiceError unit :=
  if DesiredBillingModelIsEnterprise kafkaRequest then ret tt
  else
    hasCapacity <~ wrap_err (fun err => if Code err =? ErrorGeneral
                                        then general_svc "unable to validate your request, please try again" err else err)
                     (HasAvailableCapacityInRegion kafkaRequest) ;;
    if hasCapacity then ret tt
    else throw (TooManyKafkaInstancesReached "region %s cannot accept instance type: %s at this moment").

Definition place_at_registration (kafkaRequest : KafkaRequest) : M W ServiceError KafkaRequest :=
  if negb (IsDataPlaneAutoScalingEnabled dataplaneClusterConfig) || DesiredBillingModelIsEnterprise kafkaRequest then
    cluster <~ findADataPlaneClusterToPlaceTheKafka kafkaRequest ;;
    let kafkaRequest := kafkaRequest <| KR.ClusterID := cluster.(CL.ClusterID) |> in
    ret (if DesiredBillingModelIsEnterprise kafkaRequest
         then kafkaRequest <| KR.CloudProvider := cluster.(CL.CloudProvider) |> <| KR.Region := cluster.(CL.Region) |>
         else kafkaRequest)
  else ret kafkaRequest.

(** The fields that depend on the instance size and on the time. *)
Definition complete_registration (kafkaRequest : KafkaRequest) (size : KafkaInstanceSize) (timeNow : Z) : KafkaRequest :=
  let k := kafkaRequest <| KR.MaxDataRetentionSize := size.(MaxDataRetentionSize) |>
                        <| KR.CreatedAt := timeNow |> <| KR.UpdatedAt := timeNow |> in
  let k := match size.(LifespanSeconds) with
           | Some lifespan => k <| KR.ExpiresAt := Some (timeNow + int64 (lifespan * Second)) |>
           | None => k
           end in
  k <| KR.QuotaType := kafkaConfig.(Quota).(Quota_Type) |>.

Definition set_multi_az (kafkaRequest : KafkaRequest) : KafkaRequest :=
  if kafkaRequest.(KR.InstanceType) =?s STANDARD then kafkaRequest <| KR.MultiAZ := true |>
  else if kafkaRequest.(KR.InstanceType) =?s DEVELOPER then kafkaRequest <| KR.MultiAZ := false |>
  else kafkaRequest.

(** The mutex of the Go function serialises the registrations of a process;
    a call is one uninterrupted computation here. *)
Definition RegisterKafkaJob (kafkaRequest : KafkaRequest) : M W ServiceError KafkaRequest := fun w0 =>
  (let kafkaRequest := set_multi_az (kafkaRequest <| KR.ID := new_id w0 |>) in
   _ <~ check_region_capacity kafkaRequest ;;
   kafkaRequest <~ place_at_registration kafkaRequest ;;
   reserved <~ reserveQuota kafkaRequest ;;
   let '(subscriptionId, billing) := reserved in
   let kafkaRequest := kafkaRequest <| KR.DesiredKafkaBillingModel := billing.(RB_BillingModel) |>
                                    <| KR.ActualKafkaBillingModel := billing.(RB_BillingModel) |>
                                    <| KR.Marketplace := billing.(RB_Marketplace) |>
                                    <| KR.BillingCloudAccountId := billing.(RB_BillingCloudAccountId) |>
                                    <| KR.SubscriptionId := subscriptionId |>
                                    <| KR.Status := KafkaRequestStatusAccepted |> in
   instanceType <~ lift (map_err (fun _ => InstanceTypeNotSupported "%s")
                      (GetKafkaInstanceTypeByID kafkaConfig.(SupportedInstanceTypes) kafkaRequest.(KR.InstanceType))) ;;
   size <~ lift (map_err (fun _ => InstancePlanNotSupported "%s")
                   (GetKafkaInstanceSizeByID instanceType kafkaRequest.(KR.SizeId))) ;;
   timeNow <~ get_time ;;
   let kafkaRequest := complete_registration kafkaRequest size timeNow in
   _ <~ wrap_err (general "failed to create kafka request") (exec (InsertKafka kafkaRequest)) ;;
   ret kafkaRequest) w0.

(** ** Queries *)
Definition ListByStatus (status : list string) : M W ServiceError (list KafkaRequest) :=
  if IsEmpty status then throw (GeneralError "no status provided")
  else wrap_err (general "failed to list by status") (exec (SelectKafkas (fun k => Contains status k.(KR.Status)))).

Definition ListKafkasToBePromoted : M W ServiceError (list KafkaRequest) :=
  wrap_err (general "failed to list kafkas to be promoted")
    (exec (SelectKafkas (fun k =>
       negb (k.(KR.ActualKafkaBillingModel) =?s k.(KR.DesiredKafkaBillingModel)) &&
       negb (k.(KR.PromotionStatus) =?s KafkaPromotionStatusFailed) &&
       Contains [KafkaRequestStatusReady; KafkaRequestStatusSuspended; KafkaRequestStatusResuming] k.(KR.Status)))).

(** [First] followed by [services.HandleGetError]. *)
Definition first_or_not_found (p : KafkaRequest -> bool) : M W ServiceError KafkaRequest :=
  found <~ wrap_err (general "unable to find %s with %s='%v'") (exec (FirstKafka p)) ;;
  match found with
  | Some k => ret k
  | None => throw (NotFound "%s with %s='%v' not found")
  end.

Definition GetByID (id : string) : M W ServiceError KafkaRequest :=
  if id =?s "" then throw (Validation "id is undefined")
  else first_or_not_found (fun k => k.(KR.ID) =?s id).

(** Which rows a caller may read. *)
Definition visible (ctx : AuthContext) (claims : Claims) (k : KafkaRequest) : bool :=
  if ctx.(ctx_is_admin) then true
  else if ctx.(ctx_filter_by_organisation) then k.(KR.OrganisationId) =?s claims.(OrgId)
  else k.(KR.Owner) =?s claims.(Username).

Definition Kafka_Get (ctx : AuthContext) (id : string) : M W ServiceError KafkaRequest :=
  if id =?s "" then throw (Validation "id is undefined")
  else
    claims <~ lift (map_err (fun e => NewWithCause ErrorUnauthenticated (Some e) "user not authenticated") ctx.(ctx_claims)) ;;
    if negb ctx.(ctx_is_admin) && (claims.(Username) =?s "") then throw (Unauthenticated "user not authenticated")
    else first_or_not_found (fun k => (k.(KR.ID) =?s id) && visible ctx claims k).

Definition ListAll : M W ServiceError (list KafkaRequest) :=
  wrap_err (general "unable to list kafka requests") (exec (SelectKafkas (fun _ => true))).

Definition ListKafkasWithRoutesNotCreated : M W ServiceError (list KafkaRequest) :=
  wrap_err (general "failed to list kafka requests")
    (exec (SelectKafkas (fun k => match k.(KR.Routes) with JNull => false | _ => true end && negb k.(KR.RoutesCreated)))).

Definition Kafka_CountByStatus (status : list string) : M W ServiceError (list StatusCount) :=
  l <~ wrap_err (general "failed to count kafkas") (exec (SelectKafkas (fun k => Contains status k.(KR.Status)))) ;;
  ret (status_counts status (map KR.Status l)).

(** ** Updates *)

(** Updates the non-zero fields of the row that the request designates,
    unless the row is under deletion. *)
Definition Update (kafkaRequest : KafkaRequest) : M W ServiceError unit :=
  _ <~ wrap_err (general "failed to update kafka")
         (exec (UpdateKafkas (fun row => designates kafkaRequest row && not_under_deletion row)
                  (KR.merge_nonzero kafkaRequest))) ;;
  ret tt.

(** [fields] assigns the listed columns, zero values included. *)
Definition Updates (kafkaRequest : KafkaRequest) (fields : KafkaRequest -> KafkaRequest) : M W ServiceError unit :=
  _ <~ wrap_err (general "failed to update kafka")
         (exec (UpdateKafkas (fun row => designates kafkaRequest row && not_under_deletion row) fields)) ;;
  ret tt.

Definition VerifyAndUpdateKafkaAdmin (ctx : AuthContext) (kafkaRequest : KafkaRequest) : M W ServiceError unit :=
  if negb ctx.(ctx_is_admin) then throw (New ErrorUnauthenticated "user not authenticated")
  else
    _ <~ wrap_err (general "failed to update kafka")
           (if kafkaRequest.(KR.ID) =?s "" then throw missing_where_clause
            else exec (UpdateKafkas (designates kafkaRequest) (fun row =>
              row <| KR.MaxDataRetentionSize := kafkaRequest.(KR.MaxDataRetentionSize) |>
                  <| KR.DesiredStrimziVersion := kafkaRequest.(KR.DesiredStrimziVersion) |>
                  <| KR.DesiredKafkaVersion := kafkaRequest.(KR.DesiredKafkaVersion) |>
                  <| KR.DesiredKafkaIBPVersion := kafkaRequest.(KR.DesiredKafkaIBPVersion) |>
                  <| KR.Status := kafkaRequest.(KR.Status) |>))) ;;
    ret tt.

(** [(executed, err)] is [Err (executed, err)] when [err] is not nil, and
    [Ok tt] for [(true, nil)]. *)
Definition UpdateStatus (id status : string) : M W (bool * ServiceError) unit :=
  kafka <~ wrap_err (fun err => (true, general_svc "failed to update status" err)) (GetByID id) ;;
  if (kafka.(KR.Status) =?s KafkaRequestStatusDeprovision) && negb (status =?s KafkaRequestStatusDeleting)
  then throw (false, GeneralError "failed to update status: cluster is deprovisioning")
  else if kafka.(KR.Status) =?s status
  then throw (false, GeneralError "failed to update status: the cluster %s is already in %s state")
  else
    _ <~ wrap_err (fun err => (true, general "failed to update kafka status" err))
           (exec (UpdateKafkas (fun row => row.(KR.ID) =?s id) (fun row => row <| KR.Status := status |>))) ;;
    ret tt.

(** ** Deprovisioning and deletion *)
Definition deprovisionable_by (ctx : AuthContext) (claims : Claims) (id : string) (k : KafkaRequest) : bool :=
  (k.(KR.ID) =?s id) &&
  (if ctx.(ctx_is_admin) then true
   else if claims.(IsOrgAdmin) then k.(KR.OrganisationId) =?s claims.(OrgId)
   else k.(KR.Owner) =?s claims.(Username)).

(** An update that was not attempted is not an error for the caller. *)
Definition RegisterKafkaDeprovisionJob (ctx : AuthContext) (id : string) : M W ServiceError unit :=
  if id =?s "" then throw (Validation "id is undefined")
  else
    claims <~ lift (map_err (fun e => NewWithCause ErrorUnauthenticated (Some e) "user not authenticated") ctx.(ctx_claims)) ;;
    _ <~ first_or_not_found (deprovisionable_by ctx claims id) ;;
    outcome <~ attempt (UpdateStatus id KafkaRequestStatusDeprovision) ;;
    match outcome with
    | Err (true, err) => throw (general_svc "unable to find %s with %s='%v'" err)
    | _ => ret tt
    end.

Definition DeprovisionKafkaForUsers (users : list string) : M W ServiceError unit :=
  _ <~ wrap_err (general "unable to deprovision kafka requests for users")
         (exec (UpdateKafkas (fun k => Contains users k.(KR.Owner) && not_under_deletion k)
                  (fun k => k <| KR.Status := KafkaRequestStatusDeprovision |>))) ;;
  ret tt.

Definition kafkaWithExpiresAtShouldBeDeprovisioned (kafkaRequest : KafkaRequest) (currentTime : Z) : bool :=
  match kafkaRequest.(KR.ExpiresAt) with
  | Some t => t <? currentTime
  | None => false
  end.

Definition DeprovisionExpiredKafkas : M W ServiceError unit :=
  existingKafkaRequests <~ wrap_err (general "unable to deprovision expired kafkas")
    (exec (SelectKafkas (fun k => not_under_deletion k && match k.(KR.ExpiresAt) with Some _ => true | None => false end))) ;;
  timeNow <~ get_time ;;
  let kafkasToDeprovisionIDs :=
    map KR.ID (List.filter (fun k => kafkaWithExpiresAtShouldBeDeprovisioned k timeNow) existingKafkaRequests) in
  if IsEmpty kafkasToDeprovisionIDs then ret tt
  else
    _ <~ wrap_err (general "unable to deprovision expired kafkas")
           (exec (UpdateKafkas (fun k => Contains kafkasToDeprovisionIDs k.(KR.ID))
                    (fun k => k <| KR.Status := KafkaRequestStatusDeprovision |>))) ;;
    ret tt.

(** ** Routes and certificates *)
Definition route53_client (kafkaRequest : KafkaRequest) : M W ServiceError unit :=
  region <~ lift (map_err (general_svc "error getting route 53 region from kafka request")
                    (getRoute53RegionFromKafkaRequest kafkaRequest)) ;;
  lift (map_err (general "unable to create aws client") (new_aws_client region)).

(** [GetRoutes] returns a nil slice for a nil column, which is an error here. *)
Definition routes_or_error (kafkaRequest : KafkaRequest) : result ServiceError (list DataPlaneKafkaRoute) :=
  match kafkaRequest.(KR.Routes) with
  | JNull => Err (NewWithCause ErrorGeneral None "failed to get routes")
  | JDoc routes => Ok routes
  | JBad => Err (general "failed to get routes" json_error)
  end.

Definition ChangeKafkaCNAMErecords (kafkaRequest : KafkaRequest) (action : KafkaRoutesAction) : M W ServiceError ChangeInfo :=
  routes <~ lift (routes_or_error kafkaRequest) ;;
  let domainRecordBatch := buildKafkaClusterCNAMESRecordBatch routes action in
  _ <~ route53_client kafkaRequest ;;
  wrap_err (general "unable to create domain record sets")
    (change_resource_record_sets kafkaConfig.(KafkaDomainName) domainRecordBatch).

Definition GetCNAMERecordStatus (kafkaRequest : KafkaRequest) : M W ServiceError ChangeInfo :=
  _ <~ route53_client kafkaRequest ;;
  wrap_err (general "unable to get status of Route53 change batch request with ID %q")
    (get_change kafkaRequest.(KR.RoutesCreationId)).

Definition delete_canary_account (kafkaRequest : KafkaRequest) : M W ServiceError unit :=
  if enable_authentication_on_kafka && negb (kafkaRequest.(KR.CanaryServiceAccountClientID) =?s "") then
    outcome <~ attempt (delete_service_account kafkaRequest.(KR.CanaryServiceAccountClientID)) ;;
    match outcome with
    | Err keycloakErr =>
        if Code keycloakErr =? ErrorServiceAccountNotFound then ret tt
        else throw (general_svc "error deleting canary service account" keycloakErr)
    | Ok _ => ret tt
    end
  else ret tt.

Definition delete_dependencies (kafkaRequest : KafkaRequest) : M W ServiceError unit :=
  _ <~ delete_canary_account kafkaRequest ;;
  _ <~ lift (map_err (general "failed to get routes") (GetRoutes kafkaRequest)) ;;
  _ <~ (match kafkaRequest.(KR.Routes) with
        | JDoc _ => if kafkaConfig.(EnableKafkaCNAMERegistration)
                    then _ <~ ChangeKafkaCNAMErecords kafkaRequest KafkaRoutesActionDelete ;; ret tt
                    else ret tt
        | _ => ret tt
        end) ;;
  if HasCertificateInfo kafkaRequest && negb (IsUsingSharedTLSCertificate kafkaRequest kafkaConfig.(KafkaDomainName))
  then wrap_err (general "error revoking certificate for the base domain %q of kafka with id %q")
         (revoke_certificate kafkaRequest.(KR.KafkasRoutesBaseDomainName))
  else ret tt.

Definition Kafka_Delete (kafkaRequest : KafkaRequest) : M W ServiceError unit :=
  _ <~ (if negb (kafkaRequest.(KR.ClusterID) =?s "") then delete_dependencies kafkaRequest else ret tt) ;;
  wrap_err (general "unable to delete kafka request with id %s")
    (if kafkaRequest.(KR.ID) =?s "" then throw missing_where_clause
     else exec (DeleteKafkas (designates kafkaRequest))).

Definition getKafkaRoutesBaseDomainName (kafkaRequest : KafkaRequest) : string :=
  if negb automatic_certificate_management then kafkaConfig.(KafkaDomainName)
  else if (kafkaRequest.(KR.Status) =?s KafkaRequestStatusAccepted) || (kafkaRequest.(KR.Status) =?s KafkaRequestStatusPreparing)
  then
    if IsADeveloperInstance kafkaRequest then TrialKafkasDomainShard +:+ "." +:+ kafkaConfig.(KafkaDomainName)
    else kafkaRequest.(KR.ID) +:+ "." +:+ kafkaConfig.(KafkaDomainName)
  else kafkaConfig.(KafkaDomainName).

Definition AssignBootstrapServerHost (kafkaRequest : KafkaRequest) : M W ServiceError KafkaRequest :=
  truncatedKafkaIdentifier <~ lift (map_err (general "generated host is not valid")
    (replaceHostSpecialChar dns_label_errors (buildTruncateKafkaIdentifier kafkaRequest))) ;;
  if kafkaConfig.(EnableKafkaCNAMERegistration) then
    ret (kafkaRequest <| KR.BootstrapServerHost :=
           truncatedKafkaIdentifier +:+ "." +:+ kafkaRequest.(KR.KafkasRoutesBaseDomainName) |>)
  else
    clusterDNS <~ wrap_err (general_svc "error retrieving cluster DNS") (get_cluster_dns kafkaRequest.(KR.ClusterID)) ;;
    let clusterDNS := replace_first clusterDNS DefaultIngressDnsNamePrefix ManagedKafkaIngressDnsNamePrefix in
    ret (kafkaRequest <| KR.BootstrapServerHost := truncatedKafkaIdentifier +:+ "." +:+ clusterDNS |>).

Definition canary_request (kafkaRequest : KafkaRequest) : ServiceAccountRequest :=
  mkServiceAccountRequest kafkaRequest.(KR.Owner) kafkaRequest.(KR.OwnerAccountId)
    (ToLower (CanaryServiceAccountPrefix +:+ "-" +:+ kafkaRequest.(KR.ID))) kafkaRequest.(KR.OrganisationId)
    ("canary-service-account-for-kafka " +:+ kafkaRequest.(KR.ID))
    ("canary service account for kafka " +:+ kafkaRequest.(KR.ID)).

(** Whether the certificate of the routes is there: [Ok false] when the
    reconciliation has to wait for it. *)
Definition certificate_ready (kafkaRequest : KafkaRequest) : M W ServiceError bool :=
  if automatic_certificate_management then
    if negb (HasCertificateInfo kafkaRequest) then ret false
    else
      cert <~ attempt (get_certificate kafkaRequest.(KR.KafkasRoutesBaseDomainTLSCrtRef) kafkaRequest.(KR.KafkasRoutesBaseDomainTLSKeyRef)) ;;
      match cert with
      | Ok _ => ret true
      | Err CertNotExist => ret false
      | Err (CertOther e) => throw (general "error checking if certificate for kafka %q has been created" e)
      end
  else ret true.

(** The columns a prepared Kafka gets, in a request that holds nothing else. *)
Definition prepared_fields (kafkaRequest : KafkaRequest) (placementId : string) : KafkaRequest :=
  zero <| KR.ID := kafkaRequest.(KR.ID) |>
       <| KR.BootstrapServerHost := kafkaRequest.(KR.BootstrapServerHost) |>
       <| KR.CanaryServiceAccountClientID := kafkaRequest.(KR.CanaryServiceAccountClientID) |>
       <| KR.CanaryServiceAccountClientSecret := kafkaRequest.(KR.CanaryServiceAccountClientSecret) |>
       <| KR.PlacementId := placementId |>
       <| KR.Status := KafkaRequestStatusProvisioning |>
       <| KR.Namespace := kafkaRequest.(KR.Namespace) |>.

(** The request is mutated before and after a failure: both outcomes hand
    back the request as it was left. *)
Definition PrepareKafkaRequest (kafkaRequest : KafkaRequest) : M W (KafkaRequest * ServiceError) KafkaRequest :=
  let kafkaRequest := kafkaRequest <| KR.Namespace := "kafka-" +:+ ToLower kafkaRequest.(KR.ID) |> in
  let kafkaRequest := kafkaRequest <| KR.KafkasRoutesBaseDomainName := getKafkaRoutesBaseDomainName kafkaRequest |> in
  certReady <~ wrap_err (pair kafkaRequest) (certificate_ready kafkaRequest) ;;
  if negb certReady then ret kafkaRequest
  else
    withHost <~ wrap_err (fun err => (kafkaRequest, general_svc "error assigning bootstrap server host to kafka %s" err))
                  (AssignBootstrapServerHost kafkaRequest) ;;
    withCanary <~ wrap_err (pair withHost)
                    (if enable_authentication_on_kafka then
                       canary <~ wrap_err (fun _ => FailedToCreateSSOClient "failed to  create canary service account %s:%v")
                                   (create_service_account (canary_request withHost)) ;;
                       ret (withHost <| KR.CanaryServiceAccountClientID := canary.(SA_ClientID) |>
                                     <| KR.CanaryServiceAccountClientSecret := canary.(SA_ClientSecret) |>)
                     else ret withHost) ;;
    fun w =>
      (_ <~ wrap_err (fun err => (withCanary, general_svc "failed to update kafka request" err))
              (Update (prepared_fields withCanary (new_id w))) ;;
       ret withCanary) w.

Definition ManagedKafkasRoutesTLSCertificate (kafkaRequest : KafkaRequest) : M W error unit :=
  if Contains statusesOfKafkaThatAreNotActive kafkaRequest.(KR.Status) then ret tt
  else
    let kafkaRequest := if negb (HasCertificateInfo kafkaRequest)
                        then kafkaRequest <| KR.KafkasRoutesBaseDomainName := getKafkaRoutesBaseDomainName kafkaRequest |>
                        else kafkaRequest in
    out <~ manage_certificate kafkaRequest.(KR.KafkasRoutesBaseDomainName) ;;
    let '(keyRef, crtRef) := out in
    wrap_err EService (Updates kafkaRequest (fun row =>
      row <| KR.KafkasRoutesBaseDomainTLSKeyRef := keyRef |> <| KR.KafkasRoutesBaseDomainTLSCrtRef := crtRef |>
          <| KR.KafkasRoutesBaseDomainName := kafkaRequest.(KR.KafkasRoutesBaseDomainName) |>)).

Definition IsQuotaEntitlementActive (kafkaRequest : KafkaRequest) : M W error bool :=
  _ <~ lift (map_err EService (get_quota_service kafkaConfig.(Quota).(Quota_Type))) ;;
  is_entitlement_active kafkaRequest.
End KafkaService.

(** ** Facts about the operations *)

(** What one successful or failed update of the Kafka table leaves. *)
Section UpdateFacts.
Context {W : Type} `{Database W}.

Lemma update_kafkas_run p f w r w' :
  exec (UpdateKafkas p f) w = (r, w') ->
  tables_of w' = match r with
                 | Ok _ => mkTables (update_rows (touch_kafka (time_now w)) p f (tables_of w).(kafkas)) (tables_of w).(clusters)
                 | Err _ => tables_of w
                 end.
Proof. intros He. destruct r; [by apply exec_ok in He as [_ ->] | by eapply exec_err]. Qed.

Lemma wrapped_update_run {E} (g : error -> E) p f w r w' :
  (_ <~ wrap_err g (exec (UpdateKafkas p f)) ;; ret tt) w = (r, w') ->
  tables_of w' = match r with
                 | Ok _ => mkTables (update_rows (touch_kafka (time_now w)) p f (tables_of w).(kafkas)) (tables_of w).(clusters)
                 | Err _ => tables_of w
                 end.
Proof.
  intros [(n & w1 & Hn & Hr)|(e & He & ->)]%bind_inv.
  - apply wrap_err_ok, update_kafkas_run in Hn. injection Hr as <- <-. done.
  - apply wrap_err_err in He as (e0 & He & _). by apply update_kafkas_run in He.
Qed.

Lemma first_or_not_found_ro p : read_only (first_or_not_found p).
Proof. unfold first_or_not_found. solve_read_only. Qed.

Lemma first_or_not_found_ok p w k w' :
  first_or_not_found p w = (Ok k, w') -> k ∈ (tables_of w).(kafkas) /\ p k = true /\ tables_of w' = tables_of w.
Proof.
  intros Hrun. pose proof (read_only_run _ _ _ _ (first_or_not_found_ro p) Hrun) as Ht.
  unfold first_or_not_found in Hrun. repeat run_ok Hrun. apply exec_ok in Hrun0 as [[Hk Hp] _]. done.
Qed.

Lemma GetByID_ro id : read_only (GetByID id).
Proof. unfold GetByID. pose proof first_or_not_found_ro. solve_read_only. Qed.

Lemma GetByID_ok id w k w' :
  GetByID id w = (Ok k, w') -> id <> "" /\ k ∈ (tables_of w).(kafkas) /\ k.(KR.ID) = id /\ tables_of w' = tables_of w.
Proof.
  unfold GetByID. intros Hrun. run_ok Hrun. reflect_strings.
  apply first_or_not_found_ok in Hrun as (Hk & Hid & Ht). by apply String.eqb_eq in Hid.
Qed.
End UpdateFacts.
#[export] Hint Resolve first_or_not_found_ro GetByID_ro : fleet.

Section RegistrationFacts.
Context {W : Type} `{Database W} `{IdSource W} `{!KafkaExternals W}.
Context (dp : DataplaneClusterConfig) (pc : ProviderConfig) (cfg : KafkaConfig).
Context `{!ClusterLookup W cfg}.

Lemma total_capacity_ok ks n : total_capacity cfg ks = Ok n -> n = sum_of (kafka_units cfg) ks.
Proof.
  revert n. induction ks as [|k ks IH]; simpl; intros n; [naive_solver|].
  unfold kafka_units at 1, units.
  destruct (GetKafkaInstanceSize _ _ _) as [size|]; simpl; [|done].
  destruct (total_capacity cfg ks) as [m|]; simpl; [|done]. intros [= <-]. by rewrite (IH m).
Qed.

Lemma region_capacity_ro k : read_only (HasAvailableCapacityInRegion dp pc cfg k).
Proof. unfold HasAvailableCapacityInRegion, capacityAvailableForRegionAndInstanceType. solve_read_only. Qed.

(** With a limit, a positive answer means that the Kafka fits under it. *)
Lemma region_capacity_ok k w w' limit :
  HasAvailableCapacityInRegion dp pc cfg k w = (Ok true, w') ->
  GetInstanceLimit pc k.(KR.Region) k.(KR.CloudProvider) k.(KR.InstanceType) = Ok (Some limit) ->
  consumed cfg (counts_in_region k) (tables_of w).(kafkas) + kafka_units cfg k <= limit.
Proof.
  unfold HasAvailableCapacityInRegion. intros Hr Hlim. rewrite Hlim in Hr.
  unfold bind at 1, lift in Hr. rewrite andb_false_r in Hr.
  assert (capacityAvailableForRegionAndInstanceType cfg (Some limit) k w = (Ok true, w')) as Hc
    by (destruct limit; [discriminate Hr | done..]). clear Hr.
  unfold capacityAvailableForRegionAndInstanceType in Hc.
  run_ok Hc. apply exec_ok in Hrun as [Hp _]. run_ok Hc.
  destruct (total_capacity cfg a) as [n|] eqn:Hn; [|done]. simpl in Hrun. injection Hrun as <-.
  run_ok Hc. destruct (GetKafkaInstanceSize _ _ _) as [size|] eqn:Hs; [|done]. simpl in Hrun. injection Hrun as <-.
  unfold ret in Hc. injection Hc as Hc _. apply Z.leb_le in Hc. apply total_capacity_ok in Hn.
  unfold consumed, kafka_units at 2, units. rewrite Hs, <- Hp, <- Hn. done.
Qed.
End RegistrationFacts.
#[export] Hint Resolve region_capacity_ro : fleet.

(** What a successful registration went through. *)
Definition accepted_request (placed : KafkaRequest) (subscriptionId : string) (billing : ReservedBilling) : KafkaRequest :=
  placed <| KR.DesiredKafkaBillingModel := billing.(RB_BillingModel) |> <| KR.ActualKafkaBillingModel := billing.(RB_BillingModel) |>
         <| KR.Marketplace := billing.(RB_Marketplace) |> <| KR.BillingCloudAccountId := billing.(RB_BillingCloudAccountId) |>
         <| KR.SubscriptionId := subscriptionId |> <| KR.Status := KafkaRequestStatusAccepted |>.

Section RegistrationLemmas.
Context {W : Type} `{Database W} `{IdSource W} `{!KafkaExternals W}.
Context (dp : DataplaneClusterConfig) (pc : ProviderConfig) (cfg : KafkaConfig).
Context `{!ClusterLookup W cfg}.

Definition identified_request (req : KafkaRequest) (w : W) : KafkaRequest :=
  set_multi_az (req <| KR.ID := new_id w |>).

Lemma identified_request_eq req w :
  exists i p, identified_request req w = req <| KR.ID := i |> <| KR.MultiAZ := p |>.
Proof. unfold identified_request, set_multi_az. destruct req; exists (new_id w). simpl.
  repeat case_str; [exists true | exists false | eexists]; reflexivity. Qed.

Lemma RegisterKafkaJob_ok req w k w' :
  RegisterKafkaJob dp pc cfg req w = (Ok k, w') ->
  exists w1 placed w2 sub bm w3 size,
    check_region_capacity dp pc cfg (identified_request req w) w = (Ok tt, w1) /\
    place_at_registration dp cfg (identified_request req w) w1 = (Ok placed, w2) /\
    reserveQuota cfg placed w2 = (Ok (sub, bm), w3) /\
    GetKafkaInstanceSize cfg placed.(KR.InstanceType) placed.(KR.SizeId) = Ok size /\
    k = complete_registration cfg (accepted_request placed sub bm) size (time_now w3) /\
    exec (InsertKafka k) w3 = (Ok tt, w').
Proof.
  unfold RegisterKafkaJob. fold (identified_request req w). intros Hr.
  apply bind_ok in Hr as ([] & w1 & Hcheck & Hr). apply bind_ok in Hr as (placed & w2 & Hplace & Hr).
  apply bind_ok in Hr as ([sub bm] & w3 & Hres & Hr). fold (accepted_request placed sub bm) in Hr.
  run_ok Hr. run_ok Hr. simpl in Hrun.
  destruct (GetKafkaInstanceTypeByID _ _) as [it|] eqn:Hit; [|done]. injection Hrun as <-.
  destruct (GetKafkaInstanceSizeByID _ _) as [size|] eqn:Hsize; [|done]. injection Hrun0 as <-.
  run_ok Hr. apply bind_ok in Hr as ([] & w4 & Hins & Hr). run_ok Hr. apply wrap_err_ok in Hins.
  exists w1, placed, w2, sub, bm, w0, size. split_and!; try done.
  unfold GetKafkaInstanceSize. by rewrite Hit.
Qed.

Lemma check_region_capacity_ro k : read_only (check_region_capacity dp pc cfg k).
Proof. unfold check_region_capacity. solve_read_only. Qed.

Lemma place_at_registration_ro k : read_only (place_at_registration dp cfg k).
Proof. unfold place_at_registration, findADataPlaneClusterToPlaceTheKafka. solve_read_only. Qed.

Lemma reserveQuota_ro k : read_only (reserveQuota cfg k).
Proof. unfold reserveQuota, check_developer_limit, quota_service. solve_read_only. Qed.

(** Placement assigns the cluster, and for enterprise Kafkas its location. *)
Lemma place_at_registration_ok k w placed w' :
  place_at_registration dp cfg k w = (Ok placed, w') ->
  (placed = k /\ IsDataPlaneAutoScalingEnabled dp = true /\ DesiredBillingModelIsEnterprise k = false) \/
  exists c w1, Placement_FindCluster dp cfg k w = (Ok (Some c), w1) /\
    placed = if DesiredBillingModelIsEnterprise k
             then k <| KR.ClusterID := c.(CL.ClusterID) |> <| KR.CloudProvider := c.(CL.CloudProvider) |>
                    <| KR.Region := c.(CL.Region) |>
             else k <| KR.ClusterID := c.(CL.ClusterID) |>.
Proof.
  unfold place_at_registration. intros Hr. destruct (_ || _) eqn:Hb.
  - right. apply bind_ok in Hr as (c & w1 & Hc & Hr). unfold findADataPlaneClusterToPlaceTheKafka in Hc.
    run_ok Hc. destruct r as [[c'|]|]; try discriminate Hc. run_ok Hc. run_ok Hr. eauto.
  - left. run_ok Hr. split_bools. done.
Qed.
End RegistrationLemmas.
#[export] Hint Resolve check_region_capacity_ro place_at_registration_ro reserveQuota_ro : fleet.

Section RegistrationProperties.
Context {W : Type} `{Database W} `{IdSource W} `{!KafkaExternals W}.
Context (dp : DataplaneClusterConfig) (pc : ProviderConfig) (cfg : KafkaConfig).
Context `{!ClusterLookup W cfg}.

(** [C3] A Kafka that is registered outside the enterprise billing model
    leaves the streaming units of its region, cloud provider and instance type
    within the configured limit, the new Kafka included. *)
Theorem registration_within_region_limit req w k w' limit :
  RegisterKafkaJob dp pc cfg req w = (Ok k, w') -> DesiredBillingModelIsEnterprise req = false ->
  GetInstanceLimit pc req.(KR.Region) req.(KR.CloudProvider) req.(KR.InstanceType) = Ok (Some limit) ->
  0 <= kafka_units cfg k ->
  consumed cfg (counts_in_region req) (tables_of w').(kafkas) <= limit.
Proof.
  intros (w1 & placed & w2 & sub & bm & w3 & size & Hcheck & Hplace & Hres & Hsize & -> & Hins)%RegisterKafkaJob_ok He Hlim Hu.
  pose proof (read_only_run _ _ _ _ (check_region_capacity_ro dp pc cfg _) Hcheck) as Ht1.
  pose proof (read_only_run _ _ _ _ (place_at_registration_ro dp cfg _) Hplace) as Ht2.
  pose proof (read_only_run _ _ _ _ (reserveQuota_ro cfg _) Hres) as Ht3.
  apply exec_ok in Hins as [_ ->]. simpl. rewrite Ht3, Ht2, Ht1.
  unfold consumed. rewrite List.filter_app, sum_of_app. fold (consumed cfg (counts_in_region req) (tables_of w).(kafkas)).
  destruct (identified_request_eq req w) as (i & p & Hreq).
  assert (DesiredBillingModelIsEnterprise (identified_request req w) = false) as He' by (by rewrite Hreq; destruct req).
  unfold check_region_capacity in Hcheck. rewrite He' in Hcheck. run_ok Hcheck. destruct a; [|discriminate Hcheck].
  eapply region_capacity_ok with (limit := limit) in Hrun; [|by rewrite Hreq; destruct req].
  assert (kafka_units cfg placed = kafka_units cfg (identified_request req w)) as Hpl.
  { apply place_at_registration_ok in Hplace as [(-> & _)|(c & ? & _ & ->)]; [done|]. by rewrite He'. }
  enough (sum_of (kafka_units cfg) (List.filter (counts_in_region req)
    [stamp_kafka (time_now w3) (complete_registration cfg (accepted_request placed sub bm) size (time_now w3))]) <=
    kafka_units cfg placed) as Hle.
  { rewrite Hpl in Hle. rewrite Hreq in Hrun, Hle. destruct req; simpl in *. unfold counts_in_region in *. simpl in *. lia. }
  revert Hu. unfold kafka_units, complete_registration. simpl. repeat case_match; simpl; lia.
Qed.

(** A user who registers a developer Kafka owns at most the configured
    number of developer Kafkas afterwards, the new one included, and such
    Kafkas are allowed at all. *)
Theorem registration_within_developer_limit req w k w' :
  RegisterKafkaJob dp pc cfg req w = (Ok k, w') -> req.(KR.InstanceType) = DEVELOPER ->
  cfg.(Quota).(AllowDeveloperInstance) = true /\
  Z.of_nat (length (List.filter (owned_developer_instance req) (tables_of w').(kafkas)))
    <= cfg.(Quota).(MaxAllowedDeveloperInstances).
Proof.
  intros (w1 & placed & w2 & sub & bm & w3 & size & Hcheck & Hplace & Hres & Hsize & -> & Hins)%RegisterKafkaJob_ok Hdev.
  pose proof (read_only_run _ _ _ _ (reserveQuota_ro cfg _) Hres) as Ht3.
  assert (owned_developer_instance placed = owned_developer_instance req /\ placed.(KR.InstanceType) = DEVELOPER) as [Hown Hpd].
  { destruct (identified_request_eq req w) as (i & p & Hreq). rewrite Hreq in Hplace.
    apply place_at_registration_ok in Hplace as [(-> & _)|(c & ? & _ & ->)]; [by destruct req|].
    destruct req; simpl in *; by case_match. }
  apply exec_ok in Hins as [_ ->]. simpl. rewrite List.filter_app, length_app, Ht3.
  apply bind_ok in Hres as ([] & w4 & Hlim & _). unfold check_developer_limit in Hlim.
  rewrite Hpd, Hown, String.eqb_refl in Hlim. run_ok Hlim. run_ok Hlim.
  destruct (_ <=? _) eqn:Hle in Hlim; [discriminate Hlim|]. split_bools.
  apply exec_ok in Hrun0 as [-> _]. split; [done|].
  apply Z.leb_gt in Hle.
  assert (length (List.filter (owned_developer_instance req)
    [stamp_kafka (time_now w3) (complete_registration cfg (accepted_request placed sub bm) size (time_now w3))]) <= 1)%nat
    by (simpl; case_match; simpl; lia).
  lia.
Qed.

(** A successful registration inserts exactly one row: an accepted Kafka
    with an identifier no other row has, with the multi-AZ setting of its
    instance type and the expiry of its size; in every mode but dynamic
    scaling, and always for enterprise Kafkas, it is on an existing cluster. *)
Theorem registration_inserts_accepted_kafka req w k w' :
  RegisterKafkaJob dp pc cfg req w = (Ok k, w') ->
  (exists t, tables_of w' = mkTables ((tables_of w).(kafkas) ++ [stamp_kafka t k]) (tables_of w).(clusters)) /\
  Forall (fun row => row.(KR.ID) <> k.(KR.ID)) (tables_of w).(kafkas) /\
  k.(KR.Status) = KafkaRequestStatusAccepted /\ k.(KR.ID) = new_id w /\
  (k.(KR.InstanceType) = STANDARD -> k.(KR.MultiAZ) = true) /\
  (k.(KR.InstanceType) = DEVELOPER -> k.(KR.MultiAZ) = false) /\
  (exists size, GetKafkaInstanceSize cfg k.(KR.InstanceType) k.(KR.SizeId) = Ok size /\
     forall lifespan, size.(LifespanSeconds) = Some lifespan ->
       k.(KR.ExpiresAt) = Some (k.(KR.CreatedAt) + int64 (lifespan * Second))) /\
  (IsDataPlaneAutoScalingEnabled dp = false \/ DesiredBillingModelIsEnterprise req = true ->
     exists c w1 w2 r, Placement_FindCluster dp cfg r w1 = (Ok (Some c), w2) /\ tables_of w1 = tables_of w /\
       k.(KR.ClusterID) = c.(CL.ClusterID)).
Proof.
  intros (w1 & placed & w2 & sub & bm & w3 & size & Hcheck & Hplace & Hres & Hsize & -> & Hins)%RegisterKafkaJob_ok.
  pose proof (read_only_run _ _ _ _ (check_region_capacity_ro dp pc cfg _) Hcheck) as Ht1.
  pose proof (read_only_run _ _ _ _ (place_at_registration_ro dp cfg _) Hplace) as Ht2.
  pose proof (read_only_run _ _ _ _ (reserveQuota_ro cfg _) Hres) as Ht3.
  apply exec_ok in Hins as [Hfresh Hins]. rewrite Ht3, Ht2, Ht1 in Hfresh, Hins.
  split; [by eexists|]. split; [done|].
  apply place_at_registration_ok in Hplace as Hcase.
  assert (placed.(KR.ID) = new_id w /\ placed.(KR.MultiAZ) = (identified_request req w).(KR.MultiAZ) /\
          placed.(KR.InstanceType) = req.(KR.InstanceType)) as (Hid & Hm & Ht).
  { destruct Hcase as [(-> & _)|(c & ? & _ & ->)]; [|case_match];
      unfold identified_request, set_multi_az; repeat case_match; by destruct req. }
  set (k := complete_registration cfg (accepted_request placed sub bm) size (time_now w3)).
  assert (k.(KR.Status) = KafkaRequestStatusAccepted /\ k.(KR.ID) = placed.(KR.ID) /\
          k.(KR.InstanceType) = placed.(KR.InstanceType) /\ k.(KR.SizeId) = placed.(KR.SizeId) /\
          k.(KR.MultiAZ) = placed.(KR.MultiAZ) /\ k.(KR.ClusterID) = placed.(KR.ClusterID)) as (Es & Ei & Et & Ez & Em & Ec).
  { subst k. unfold complete_registration. by destruct (LifespanSeconds size). }
  rewrite Es, Ei, Et, Ez, Em, Ec, Hid, Hm, Ht. unfold identified_request, set_multi_az. split_and!; try done.
  - intros E. destruct req; simpl in *. by rewrite E.
  - intros E. destruct req; simpl in *. by rewrite E.
  - exists size. rewrite <- Ht. split; [done|]. intros lifespan Hl. subst k. unfold complete_registration. by rewrite Hl.
  - intros Hmode. destruct Hcase as [(_ & Ha & Hb)|(c & w4 & Hf & Hp)].
    + destruct (identified_request_eq req w) as (i & p & Hreq). 
      assert (DesiredBillingModelIsEnterprise req = false) by (by rewrite <- Hb, Hreq; destruct req).
      destruct Hmode; congruence.
    + exists c, w1, w4, (identified_request req w). split_and!; [done..|]. rewrite Hp. by case_match.
Qed.

Lemma RegisterKafkaJob_err req w e w' :
  RegisterKafkaJob dp pc cfg req w = (Err e, w') -> tables_of w' = tables_of w.
Proof.
  unfold RegisterKafkaJob. fold (identified_request req w). intros Hr.
  apply bind_inv in Hr as [([] & w1 & Hcheck & Hr)|(? & Hcheck & _)];
    apply (read_only_run _ _ _ _ (check_region_capacity_ro dp pc cfg _)) in Hcheck as <-; [|done].
  apply bind_inv in Hr as [(placed & w2 & Hplace & Hr)|(? & Hplace & _)];
    apply (read_only_run _ _ _ _ (place_at_registration_ro dp cfg _)) in Hplace as <-; [|done].
  apply bind_inv in Hr as [([sub bm] & w3 & Hres & Hr)|(? & Hres & _)];
    apply (read_only_run _ _ _ _ (reserveQuota_ro cfg _)) in Hres as <-; [|done].
  repeat (apply bind_inv in Hr as [(? & ? & Hl & Hr)|(? & Hl & _)]; [|first
    [ apply wrap_err_err in Hl as (? & Hl & _); by eapply exec_err
    | unfold lift, get_time in Hl; by injection Hl as _ ->]];
    try (unfold lift, get_time in Hl; injection Hl as _ ->)).
  discriminate Hr.
Qed.

(** A registration that fails leaves the tables as they were. *)
Theorem failed_registration_keeps_tables req w e w' :
  RegisterKafkaJob dp pc cfg req w = (Err e, w') -> tables_of w' = tables_of w.
Proof. apply RegisterKafkaJob_err. Qed.
End RegistrationProperties.

(** ** Which rows the updates of the service change *)
Section RowUpdates.
Context {Row : Type} (touch : Row -> Row).

Lemma update_rows_lookup p f rows i r :
  rows !! i = Some r -> update_rows touch p f rows !! i = Some (if p r then touch (f r) else r).
Proof. intros Hi. unfold update_rows. by rewrite list_lookup_fmap, Hi. Qed.

Lemma update_rows_ext p q f rows :
  (forall r, r ∈ rows -> p r = q r) -> update_rows touch p f rows = update_rows touch q f rows.
Proof.
  intros Hpq. apply map_ext_in. intros r Hr. rewrite Hpq; [done|]. by apply list_elem_of_In.
Qed.
End RowUpdates.

(** With distinct identifiers, naming the rows that satisfy [p] selects them. *)
Lemma selected_by_id (p : KafkaRequest -> bool) rows k :
  NoDup (map KR.ID rows) -> k ∈ rows -> Contains (map KR.ID (List.filter p rows)) k.(KR.ID) = p k.
Proof.
  intros Hnd Hk. destruct (p k) eqn:Hp.
  - apply Contains_true, list_elem_of_fmap. exists k. split; [done|].
    apply list_elem_of_In, filter_In. by rewrite <- list_elem_of_In.
  - apply not_true_iff_false. intros (k' & Hid & Hk')%Contains_true%list_elem_of_fmap.
    apply list_elem_of_In, filter_In in Hk' as [Hk'%list_elem_of_In Hp'].
    enough (k' = k) as -> by congruence.
    apply list_elem_of_lookup in Hk as [i Hi], Hk' as [j Hj].
    assert (i = j) as ->; [|congruence].
    eapply (NoDup_lookup (map KR.ID rows)); [done| |]; rewrite list_lookup_fmap; [rewrite Hi | rewrite Hj]; simpl; by rewrite ?Hid.
Qed.

Section UpdateProperties.
Context {W : Type} `{Database W}.

Lemma Update_run k w r w' :
  Update k w = (r, w') ->
  tables_of w' = match r with
    | Ok _ => mkTables (update_rows (touch_kafka (time_now w)) (fun row => designates k row && not_under_deletion row)
                          (KR.merge_nonzero k) (tables_of w).(kafkas)) (tables_of w).(clusters)
    | Err _ => tables_of w
    end.
Proof. apply wrapped_update_run. Qed.

Lemma Updates_run k f w r w' :
  Updates k f w = (r, w') ->
  tables_of w' = match r with
    | Ok _ => mkTables (update_rows (touch_kafka (time_now w)) (fun row => designates k row && not_under_deletion row)
                          f (tables_of w).(kafkas)) (tables_of w).(clusters)
    | Err _ => tables_of w
    end.
Proof. apply wrapped_update_run. Qed.

(** Whatever a caller passes, [Update] and [Updates] leave every Kafka
    under deletion and, when the request has an identifier, every other Kafka
    exactly as it was, and no cluster changes. *)
Theorem update_spares_deletion_and_other_rows k f w r w' i row :
  Update k w = (r, w') \/ Updates k f w = (r, w') ->
  (tables_of w).(kafkas) !! i = Some row ->
  not_under_deletion row = false \/ (k.(KR.ID) <> "" /\ row.(KR.ID) <> k.(KR.ID)) ->
  (tables_of w').(kafkas) !! i = Some row /\ (tables_of w').(clusters) = (tables_of w).(clusters).
Proof.
  intros Hrun Hi Hout.
  assert (designates k row && not_under_deletion row = false) as Hno.
  { destruct Hout as [->|[Hne Hid]]; [apply andb_false_r|].
    unfold designates, zero_or_eq. apply String.eqb_neq in Hne, Hid. by rewrite Hne, Hid. }
  destruct Hrun as [->%Update_run | ->%Updates_run]; destruct r; try done; simpl;
    by erewrite update_rows_lookup, Hno.
Qed.

Lemma UpdateStatus_run id status w r w' :
  UpdateStatus id status w = (r, w') ->
  match r with
  | Ok _ => exists k w1, GetByID id w = (Ok k, w1) /\ k.(KR.Status) <> status /\
      (k.(KR.Status) = KafkaRequestStatusDeprovision -> status = KafkaRequestStatusDeleting) /\
      tables_of w' = mkTables (update_rows (touch_kafka (time_now w1)) (fun row => row.(KR.ID) =?s id)
        (fun row => row <| KR.Status := status |>) (tables_of w).(kafkas)) (tables_of w).(clusters)
  | Err (executed, _) => tables_of w' = tables_of w /\
      (executed = false -> exists k w1, GetByID id w = (Ok k, w1) /\
         (k.(KR.Status) = status \/ k.(KR.Status) = KafkaRequestStatusDeprovision /\ status <> KafkaRequestStatusDeleting))
  end.
Proof.
  intros [(k & w1 & Hk & Hr)|(e & He & ->)]%bind_inv.
  2:{ apply wrap_err_err in He as (e0 & He & ->). split; [|done]. by apply (read_only_run _ _ _ _ (GetByID_ro _)) in He. }
  apply wrap_err_ok in Hk. pose proof (read_only_run _ _ _ _ (GetByID_ro _) Hk) as Ht.
  destruct (_ && _) eqn:Hd in Hr.
  { injection Hr as <- <-. split; [done|]. intros _. split_bools. reflect_strings. eauto 10. }
  destruct (_ =?s _) eqn:Hs in Hr.
  { injection Hr as <- <-. split; [done|]. intros _. reflect_strings. eauto 10. }
  apply bind_inv in Hr as [(n & w2 & Hu & Hr)|(e & He & ->)].
  - apply wrap_err_ok, update_kafkas_run in Hu. injection Hr as <- <-. rewrite <- Ht.
    exists k, w1. reflect_strings. split_and!; try done. intros E. rewrite E, String.eqb_refl in Hd.
    by apply negb_false_iff, String.eqb_eq in Hd.
  - apply wrap_err_err in He as (e0 & He & ->). apply update_kafkas_run in He. by rewrite He.
Qed.

(** [UpdateStatus] moves a Kafka out of the deprovision status to the
    deleting status only, never rewrites the same status, and touches the one
    Kafka it names; when it refuses or fails, nothing is written. *)
Theorem update_status_transition id status w r w' :
  UpdateStatus id status w = (r, w') -> NoDup (map KR.ID (tables_of w).(kafkas)) ->
  (is_ok r = false -> tables_of w' = tables_of w) /\
  (forall i row row', (tables_of w).(kafkas) !! i = Some row -> (tables_of w').(kafkas) !! i = Some row' -> row' <> row ->
     row.(KR.ID) = id /\ row'.(KR.Status) = status /\ row.(KR.Status) <> status /\
     (row.(KR.Status) = KafkaRequestStatusDeprovision -> status = KafkaRequestStatusDeleting)) /\
  (r = Ok tt -> exists i row row', (tables_of w).(kafkas) !! i = Some row /\ row.(KR.ID) = id /\
     (tables_of w').(kafkas) !! i = Some row' /\ row'.(KR.Status) = status).
Proof.
  intros Hr Hnd. apply UpdateStatus_run in Hr. destruct r as [[]|[ex e]].
  2:{ destruct Hr as [Ht _]. rewrite Ht. split_and!; [done| |done]. intros; congruence. }
  destruct Hr as (k & w1 & (Hne & Hk & Hid & _)%GetByID_ok & Hs & Hd & ->). split; [done|]. simpl. split.
  - intros i row row' Hi Hi' Hch. erewrite update_rows_lookup in Hi' by done. injection Hi' as <-.
    destruct (String.eqb_spec row.(KR.ID) id) as [E|]; [|done].
    assert (row = k) as ->; [|by split_and!].
    apply list_elem_of_lookup in Hk as [j Hj]. assert (i = j) as ->; [|congruence].
    eapply (NoDup_lookup (map KR.ID _)); [done| |]; rewrite list_lookup_fmap; [rewrite Hi | rewrite Hj]; simpl; by rewrite ?E, ?Hid.
  - intros _. apply list_elem_of_lookup in Hk as [j Hj]. eexists j, k, _. split_and!; [done..| |].
    + by erewrite update_rows_lookup.
    + apply String.eqb_eq in Hid. by rewrite Hid.
Qed.

(** The guard of [UpdateStatus] covers the deprovision status only: a
    Kafka in the deleting status takes whatever other status is asked for. *)
Theorem update_status_leaves_deleting id status w k w1 n w2 :
  GetByID id w = (Ok k, w1) -> k.(KR.Status) = KafkaRequestStatusDeleting -> status <> KafkaRequestStatusDeleting ->
  exec (UpdateKafkas (fun row => row.(KR.ID) =?s id) (fun row => row <| KR.Status := status |>)) w1 = (Ok n, w2) ->
  UpdateStatus id status w = (Ok tt, w2) /\
  exists row', row' ∈ (tables_of w2).(kafkas) /\ row'.(KR.ID) = id /\ row'.(KR.Status) = status.
Proof.
  intros Hget Hk Hs Hexec. pose proof Hget as (_ & Hin & Hid & Ht)%GetByID_ok. split.
  - unfold UpdateStatus, bind, wrap_err. rewrite Hget. cbn [map_err]. rewrite Hk.
    change (KafkaRequestStatusDeleting =?s KafkaRequestStatusDeprovision) with false. cbn [andb].
    rewrite (proj2 (String.eqb_neq KafkaRequestStatusDeleting status)) by congruence. by rewrite Hexec.
  - apply exec_ok in Hexec as [_ ->]. rewrite Ht. simpl.
    exists (touch_kafka (time_now w1) (k <| KR.Status := status |>)). split; [|by destruct k].
    apply update_rows_elem. exists k. split; [done|]. apply String.eqb_eq in Hid. by rewrite Hid.
Qed.

(** A deprovision request changes only the Kafka it names, moves it to
    the deprovision status, and only when the caller is an administrator, an
    administrator of the Kafka's organisation, or its owner. *)
Theorem deprovision_request_authorised ctx id w r w' i row row' :
  RegisterKafkaDeprovisionJob ctx id w = (r, w') -> NoDup (map KR.ID (tables_of w).(kafkas)) ->
  (tables_of w).(kafkas) !! i = Some row -> (tables_of w').(kafkas) !! i = Some row' -> row' <> row ->
  row.(KR.ID) = id /\ row'.(KR.Status) = KafkaRequestStatusDeprovision /\
  exists claims, ctx.(ctx_claims) = Ok claims /\
    (ctx.(ctx_is_admin) = true \/
     (claims.(IsOrgAdmin) = true /\ row.(KR.OrganisationId) = claims.(OrgId)) \/
     (claims.(IsOrgAdmin) = false /\ row.(KR.Owner) = claims.(Username))).
Proof.
  intros Hr Hnd Hi Hi' Hch. unfold RegisterKafkaDeprovisionJob in Hr.
  destruct (id =?s ""); [injection Hr as _ <-; congruence|].
  destruct ctx.(ctx_claims) as [claims|e]; [|injection Hr as _ <-; congruence]. unfold bind at 1, lift, map_err in Hr.
  apply bind_inv in Hr as [(k & w1 & Hk & Hr)|(e & He & _)].
  2:{ apply (read_only_run _ _ _ _ (first_or_not_found_ro _)) in He. congruence. }
  apply first_or_not_found_ok in Hk as (Hk & Hp & Ht). rewrite <- Ht in *.
  unfold bind, attempt in Hr. destruct (UpdateStatus id _ w1) as [st w2] eqn:Hu.
  assert (w2 = w') as -> by (destruct st as [[]|[[] ?]]; by injection Hr).
  apply UpdateStatus_run in Hu. destruct st as [[]|[ex e]]; [|destruct Hu as [Hu _]; congruence].
  destruct Hu as (_ & w3 & _ & _ & _ & Hu). rewrite Hu in Hi'. simpl in Hi'.
  erewrite update_rows_lookup in Hi' by done. injection Hi' as <-.
  destruct (String.eqb_spec row.(KR.ID) id) as [E|]; [|done].
  unfold deprovisionable_by in Hp. apply andb_true_iff in Hp as [Hid%String.eqb_eq Hp].
  assert (row = k) as ->.
  { apply list_elem_of_lookup in Hk as [j Hj]. assert (i = j) as ->; [|congruence].
    eapply (NoDup_lookup (map KR.ID _)); [done| |]; rewrite list_lookup_fmap; [rewrite Hi | rewrite Hj]; simpl; by rewrite ?E, ?Hid. }
  split_and!; [done..|]. exists claims. split; [done|].
  destruct (ctx_is_admin ctx); [by left|]. right. destruct (IsOrgAdmin claims); apply String.eqb_eq in Hp; auto.
Qed.

(** The expiry pass moves to the deprovision status exactly the Kafkas
    whose expiry date has passed and that are not already under deletion. *)
Theorem expired_kafkas_deprovisioned w w' :
  DeprovisionExpiredKafkas w = (Ok tt, w') -> NoDup (map KR.ID (tables_of w).(kafkas)) ->
  exists l w1, exec (SelectKafkas (fun k => not_under_deletion k && match k.(KR.ExpiresAt) with Some _ => true | None => false end)) w
      = (Ok l, w1) /\
    tables_of w' = mkTables (update_rows (touch_kafka (time_now w1))
      (fun k => not_under_deletion k && kafkaWithExpiresAtShouldBeDeprovisioned k (time_now w1))
      (fun k => k <| KR.Status := KafkaRequestStatusDeprovision |>) (tables_of w).(kafkas)) (tables_of w).(clusters).
Proof.
  intros Hr Hnd. unfold DeprovisionExpiredKafkas in Hr.
  apply bind_ok in Hr as (l & w1 & Hl & Hr). apply wrap_err_ok in Hl. exists l, w1. split; [done|].
  pose proof (read_only_run _ _ _ _ (select_kafkas_ro _) Hl) as Ht.
  apply exec_ok in Hl as [Hperm _]. unfold bind at 1, get_time in Hr.
  pose (expired := fun k => kafkaWithExpiresAtShouldBeDeprovisioned k (time_now w1)).
  assert (forall k, k ∈ (tables_of w).(kafkas) ->
    Contains (map KR.ID (List.filter expired l)) k.(KR.ID) = not_under_deletion k && expired k) as Hsel.
  { intros k Hk. rewrite <- (selected_by_id (fun k => not_under_deletion k && expired k) _ _ Hnd Hk).
    apply eq_true_iff_eq. rewrite !Contains_true, Hperm, filter_filter. enough (Heq : List.filter (fun a => (not_under_deletion a && match KR.ExpiresAt a with Some _ => true | None => false end) && expired a) (kafkas (tables_of w)) = List.filter (fun a => not_under_deletion a && expired a) (kafkas (tables_of w))) by (by rewrite Heq). apply filter_ext_in'.
    intros k' _. unfold expired, kafkaWithExpiresAtShouldBeDeprovisioned.
    destruct (KR.ExpiresAt k'); by rewrite ?andb_true_r, ?andb_false_r. }
  fold expired. fold expired in Hr. destruct (IsEmpty _) eqn:Hemp.
  - injection Hr as <-. rewrite update_rows_none; [by rewrite Ht; destruct (tables_of w)|].
    apply Forall_forall. intros k Hk. rewrite <- Hsel by done. by destruct (map KR.ID _).
  - apply wrapped_update_run in Hr. rewrite Hr, Ht. f_equal. by apply update_rows_ext.
Qed.
End UpdateProperties.

Section SizeProperties.
Context {W : Type} `{Database W} `{IdSource W} `{!KafkaExternals W}.
Context (dp : DataplaneClusterConfig) (pc : ProviderConfig) (cfg : KafkaConfig).
Context `{!ClusterLookup W cfg}.

(** A negative answer means that the limit is zero or that the Kafka does not fit. *)
Lemma region_capacity_full k w w' :
  HasAvailableCapacityInRegion dp pc cfg k w = (Ok false, w') ->
  exists limit, GetInstanceLimit pc k.(KR.Region) k.(KR.CloudProvider) k.(KR.InstanceType) = Ok (Some limit) /\
    (limit = 0 \/ limit < consumed cfg (counts_in_region k) (tables_of w).(kafkas) + kafka_units cfg k).
Proof.
  unfold HasAvailableCapacityInRegion. intros Hr. unfold bind at 1, lift in Hr.
  destruct (GetInstanceLimit _ _ _ _) as [limit|] eqn:Hlim; [|discriminate Hr].
  destruct (decide (limit = Some 0)) as [->|Hnz]; [eauto|].
  assert ((if IsDataPlaneAutoScalingEnabled dp && match limit with None => true | _ => false end then ret true
           else capacityAvailableForRegionAndInstanceType cfg limit k) w = (Ok false, w')) as Hc
    by (destruct limit as [[]|]; done). clear Hr.
  destruct (_ && _) eqn:Ha; [discriminate Hc|]. unfold capacityAvailableForRegionAndInstanceType in Hc.
  run_ok Hc. apply exec_ok in Hrun as [Hp _]. run_ok Hc.
  destruct (total_capacity cfg a) as [n|] eqn:Hn; [|done]. simpl in Hrun. injection Hrun as <-.
  run_ok Hc. destruct (GetKafkaInstanceSize _ _ _) as [size|] eqn:Hs; [|done]. simpl in Hrun. injection Hrun as <-.
  unfold ret in Hc. injection Hc as Hc _. destruct limit as [limit|]; [|done]. exists limit. split; [done|]. right.
  apply Z.leb_gt in Hc. apply total_capacity_ok in Hn.
  unfold consumed, kafka_units at 2, units. by rewrite Hs, <- Hp, <- Hn.
Qed.

(** The streaming units already taken in the region of a search. *)
Definition region_use (criteria : FindClusterCriteria) (ks : list KafkaRequest) : Z :=
  consumed cfg (counts_in_region (zero <| KR.CloudProvider := criteria.(FC_Provider) |>
    <| KR.Region := criteria.(FC_Region) |> <| KR.InstanceType := criteria.(FC_SupportedInstanceType) |>)) ks.

Lemma available_sizes_ok criteria rev_sizes w l w' limit :
  available_sizes dp pc cfg criteria rev_sizes w = (Ok l, w') ->
  GetInstanceLimit pc criteria.(FC_Region) criteria.(FC_Provider) criteria.(FC_SupportedInstanceType) = Ok (Some limit) ->
  let fits size := region_use criteria (tables_of w).(kafkas) + units cfg criteria.(FC_SupportedInstanceType) (Size_Id size) <= limit in
  exists bigger offered, rev_sizes = bigger ++ offered /\ l = map Size_Id (reverse offered) /\
    (forall size, head offered = Some size -> fits size) /\
    (IsDataPlaneAutoScalingEnabled dp = true -> Forall (fun size => limit = 0 \/ ~ fits size) bigger).
Proof.
  intros Hr Hlim fits. revert w Hr fits. induction rev_sizes as [|size smaller IH]; intros w Hr fits.
  { injection Hr as <- <-. by exists [], []. }
  simpl in Hr. set (kafka := zero <| KR.CloudProvider := _ |> <| KR.Region := _ |> <| KR.InstanceType := _ |>
    <| KR.MultiAZ := _ |> <| KR.SizeId := _ |>) in Hr.
  apply bind_ok in Hr as (hasCapacity & w1 & Hcap & Hr).
  pose proof (read_only_run _ _ _ _ (region_capacity_ro dp pc cfg _) Hcap) as Ht.
  assert (forall w2, available_sizes dp pc cfg criteria smaller w2 = (Ok l, w') -> tables_of w2 = tables_of w ->
    (IsDataPlaneAutoScalingEnabled dp = true -> limit = 0 \/ ~ fits size) ->
    exists bigger offered, size :: smaller = bigger ++ offered /\ l = map Size_Id (reverse offered) /\
      (forall size, head offered = Some size -> fits size) /\
      (IsDataPlaneAutoScalingEnabled dp = true -> Forall (fun size => limit = 0 \/ ~ fits size) bigger)) as Hskip.
  { intros w2 Hr2 Ht2 Hfull. specialize (IH w2 Hr2). simpl in IH. rewrite Ht2 in IH.
    destruct IH as (bigger & offered & -> & Hl & Hfit & Hbig). exists (size :: bigger), offered.
    split_and!; [done..|]. intros Ha. constructor; auto. }
  destruct hasCapacity.
  - eapply region_capacity_ok in Hcap; [|done].
    assert (exists bigger offered, size :: smaller = bigger ++ offered /\ map Size_Id (reverse (size :: smaller)) = map Size_Id (reverse offered) /\
      (forall size, head offered = Some size -> fits size) /\
      (IsDataPlaneAutoScalingEnabled dp = true -> Forall (fun size => limit = 0 \/ ~ fits size) bigger)) as Hstop.
    { exists [], (size :: smaller). split_and!; try done. intros ? [= <-]. exact Hcap. }
    destruct (IsDataPlaneAutoScalingEnabled dp) eqn:Ha; [injection Hr as <- <-; exact Hstop|].
    apply bind_ok in Hr as (c & w2 & Hc & Hr). apply wrap_err_ok in Hc.
    pose proof (read_only_run _ _ _ _ (Placement_FindCluster_ro dp cfg _) Hc) as Ht2.
    destruct c; [injection Hr as <- <-; exact Hstop|]. apply (Hskip w2); [done|congruence|done].
  - apply region_capacity_full in Hcap as (limit' & Hlim' & Hfull). apply (Hskip w1); [done..|]. intros _.
    assert (limit' = limit) as -> by (simpl in Hlim'; congruence).
    destruct Hfull as [->|Hfull]; [by left|]. right. intros Hf. unfold fits in Hf. apply Z.lt_nge in Hfull. by apply Hfull.
Qed.

(** The sizes offered in a region are a prefix of the configured sizes
    whose largest member fits under the limit of the region; under dynamic
    scaling no larger size fits. *)
Theorem available_sizes_fit_region criteria w l w' limit :
  GetAvailableSizesInRegion dp pc cfg (Some criteria) w = (Ok l, w') ->
  GetInstanceLimit pc criteria.(FC_Region) criteria.(FC_Provider) criteria.(FC_SupportedInstanceType) = Ok (Some limit) ->
  let fits size := region_use criteria (tables_of w).(kafkas) + units cfg criteria.(FC_SupportedInstanceType) (Size_Id size) <= limit in
  exists it offered bigger,
    GetKafkaInstanceTypeByID cfg.(SupportedInstanceTypes) criteria.(FC_SupportedInstanceType) = Ok it /\
    Sizes it = offered ++ bigger /\ l = map Size_Id offered /\
    (forall size, last offered = Some size -> fits size) /\
    (IsDataPlaneAutoScalingEnabled dp = true -> Forall (fun size => limit = 0 \/ ~ fits size) bigger).
Proof.
  intros Hr Hlim fits. unfold GetAvailableSizesInRegion in Hr. unfold bind at 1, lift in Hr.
  destruct (GetKafkaInstanceTypeByID _ _) as [it|]; [|discriminate Hr]. simpl in Hr.
  apply (available_sizes_ok _ _ _ _ _ limit) in Hr as (bigger & offered & Hsplit & -> & Hfit & Hbig); [|done].
  exists it, (reverse offered), (reverse bigger). split_and!; [done| |done| |].
  - by rewrite <- reverse_app, <- Hsplit, reverse_involutive.
  - intros size. rewrite last_reverse. apply Hfit.
  - intros Ha. apply Forall_reverse. by apply Hbig.
Qed.
End SizeProperties.

(** ** The services of the small deployment

    Quota is granted under the standard billing model, certificates are managed
    by hand, and the calls to single sign-on and Route 53 succeed. *)
Module DemoExternals.
#[global] Instance externals : KafkaExternals (MemDB.world unit).
Proof.
  refine {|
    get_quota_service := fun _ => Ok tt;
    check_quota_defined := fun _ _ t _ => ret (t =?s STANDARD);
    reserve_quota := fun k => ret ("sub-" +:+ k.(KR.ID), mkReservedBilling "standard" k.(KR.Marketplace) k.(KR.BillingCloudAccountId));
    is_entitlement_active := fun _ => ret true;
    enable_authentication_on_kafka := true;
    create_service_account := fun r => ret (mkServiceAccount r.(SAR_ClientId) "secret");
    delete_service_account := fun _ => ret tt;
    automatic_certificate_management := false;
    get_certificate := fun _ _ => throw CertNotExist;
    manage_certificate := fun d => ret (d +:+ "/key", d +:+ "/crt");
    revoke_certificate := fun _ => ret tt;
    new_aws_client := fun _ => Ok tt;
    change_resource_record_sets := fun _ _ => ret (mkChangeInfo "change-1" "PENDING");
    get_change := fun id => ret (mkChangeInfo id "INSYNC");
    get_cluster_dns := fun id => ret ("apps." +:+ id +:+ ".example.org");
    dns_label_errors := fun _ => []
  |}; done.
Defined.

Definition request (instanceType : string) : KafkaRequest :=
  (Fixtures.kafka "" "" "" instanceType "x1") <| KR.ActualKafkaBillingModel := "" |>.

Definition register (instanceType : string) (limit : Z) :=
  RegisterKafkaJob (Fixtures.dp_config AutoScaling) (Fixtures.provider_config (Some limit)) Fixtures.kafka_config
    (request instanceType) Fixtures.world.

Definition alice : AuthContext := mkAuthContext (Ok (mkClaims "alice" "org-1" false)) false true.

Definition expiring : MemDB.world unit :=
  MemDB.mkWorld (mkTables [Fixtures.k1 <| KR.ExpiresAt := Some 900 |>; Fixtures.k2 <| KR.ExpiresAt := Some 900 |>;
                           Fixtures.k3 <| KR.ExpiresAt := Some 2000 |>] []) 1000 [] tt.

Definition search : FindClusterCriteria := mkFindClusterCriteria "aws" "us-east-1" true "" STANDARD "".
End DemoExternals.

(** The fixture holds four standard units; a fifth fits under a limit of five. *)
Lemma registration_within_region_limit_witness :
  exists k w', DemoExternals.register STANDARD 5 = (Ok k, w') /\
    consumed Fixtures.kafka_config (counts_in_region (DemoExternals.request STANDARD)) (tables_of w').(kafkas) <= 5.
Proof.
  eexists _, _. split; [vm_compute; reflexivity|].
  eapply (registration_within_region_limit (Fixtures.dp_config AutoScaling) (Fixtures.provider_config (Some 5)) Fixtures.kafka_config
    (DemoExternals.request STANDARD) Fixtures.world); [vm_compute; reflexivity | reflexivity | reflexivity | by vm_compute].
Defined.

Lemma registration_within_developer_limit_witness :
  exists k w', DemoExternals.register DEVELOPER 5 = (Ok k, w') /\
    Z.of_nat (length (List.filter (owned_developer_instance (DemoExternals.request DEVELOPER)) (tables_of w').(kafkas))) <= 1.
Proof.
  eexists _, _. split; [vm_compute; reflexivity|].
  edestruct (registration_within_developer_limit (Fixtures.dp_config AutoScaling) (Fixtures.provider_config (Some 5)) Fixtures.kafka_config
    (DemoExternals.request DEVELOPER) Fixtures.world) as [_ Hle]; [vm_compute; reflexivity | reflexivity | exact Hle].
Defined.

Lemma registration_inserts_accepted_kafka_witness :
  exists k w', DemoExternals.register STANDARD 5 = (Ok k, w') /\ k.(KR.Status) = KafkaRequestStatusAccepted.
Proof.
  eexists _, _. split; [vm_compute; reflexivity|].
  edestruct (registration_inserts_accepted_kafka (Fixtures.dp_config AutoScaling) (Fixtures.provider_config (Some 5)) Fixtures.kafka_config
    (DemoExternals.request STANDARD) Fixtures.world) as (_ & _ & Hs & _); [vm_compute; reflexivity | exact Hs].
Defined.

(** Under a limit of four the request is refused. *)
Lemma failed_registration_keeps_tables_witness :
  exists e w', DemoExternals.register STANDARD 4 = (Err e, w') /\ tables_of w' = tables_of Fixtures.world.
Proof.
  eexists _, _. split; [vm_compute; reflexivity|].
  eapply (failed_registration_keeps_tables (Fixtures.dp_config AutoScaling) (Fixtures.provider_config (Some 4)) Fixtures.kafka_config
    (DemoExternals.request STANDARD) Fixtures.world); vm_compute; reflexivity.
Defined.

(** An update of the ready Kafka [k1] leaves [k2], which is being deleted. *)
Lemma update_spares_deletion_and_other_rows_witness :
  exists w', Update (Fixtures.k1 <| KR.FailedReason := "none" |>) Fixtures.world = (Ok tt, w') /\
    (tables_of w').(kafkas) !! 1%nat = Some Fixtures.k2.
Proof.
  eexists. split; [vm_compute; reflexivity|].
  refine (proj1 (update_spares_deletion_and_other_rows (Fixtures.k1 <| KR.FailedReason := "none" |>) id Fixtures.world (Ok tt)
    _ 1%nat Fixtures.k2 _ _ _)); [left; vm_compute; reflexivity | reflexivity | left; reflexivity].
Defined.

Lemma update_status_transition_witness :
  exists w', UpdateStatus "k1" KafkaRequestStatusDeprovision Fixtures.world = (Ok tt, w') /\
    exists i row row', (tables_of Fixtures.world).(kafkas) !! i = Some row /\ row.(KR.ID) = "k1" /\
      (tables_of w').(kafkas) !! i = Some row' /\ row'.(KR.Status) = KafkaRequestStatusDeprovision.
Proof.
  eexists. split; [vm_compute; reflexivity|].
  edestruct (update_status_transition "k1" KafkaRequestStatusDeprovision Fixtures.world (Ok tt)) as (_ & _ & Hok);
    [vm_compute; reflexivity | vm_compute; repeat constructor; set_solver | by apply Hok].
Defined.

(** The deleting Kafka [k2] is asked to suspend. *)
Lemma update_status_leaves_deleting_witness :
  exists w', UpdateStatus "k2" KafkaRequestStatusSuspending Fixtures.world = (Ok tt, w') /\
    exists row', row' ∈ (tables_of w').(kafkas) /\ row'.(KR.ID) = "k2" /\ row'.(KR.Status) = KafkaRequestStatusSuspending.
Proof.
  eexists. eapply (update_status_leaves_deleting "k2" KafkaRequestStatusSuspending Fixtures.world Fixtures.k2);
    [vm_compute; reflexivity | reflexivity | discriminate | vm_compute; reflexivity].
Defined.

Lemma deprovision_request_authorised_witness :
  exists w' row', RegisterKafkaDeprovisionJob DemoExternals.alice "k1" Fixtures.world = (Ok tt, w') /\
    (tables_of w').(kafkas) !! 0%nat = Some row' /\ row'.(KR.Status) = KafkaRequestStatusDeprovision.
Proof.
  eexists _, _. split; [vm_compute; reflexivity|]. split; [reflexivity|].
  refine (proj1 (proj2 (deprovision_request_authorised DemoExternals.alice "k1" Fixtures.world (Ok tt) _ 0%nat Fixtures.k1 _ _ _ _ _ _)));
    [vm_compute; reflexivity | vm_compute; repeat constructor; set_solver | reflexivity | reflexivity | discriminate].
Defined.

(** [k1] has expired, [k2] too but is being deleted, [k3] has not. *)
Lemma expired_kafkas_deprovisioned_witness :
  exists w', DeprovisionExpiredKafkas DemoExternals.expiring = (Ok tt, w') /\
    map KR.Status (tables_of w').(kafkas) =
      [KafkaRequestStatusDeprovision; KafkaRequestStatusDeleting; KafkaRequestStatusAccepted].
Proof.
  eexists. split; [vm_compute; reflexivity|].
  edestruct (expired_kafkas_deprovisioned DemoExternals.expiring) as (l & w1 & Hl & Ht);
    [vm_compute; reflexivity | vm_compute; repeat constructor; set_solver |].
  rewrite Ht. vm_compute in Hl. injection Hl as _ <-. reflexivity.
Defined.

(** Four of the five units are taken: only the small size fits. *)
Lemma available_sizes_fit_region_witness :
  exists w', GetAvailableSizesInRegion (Fixtures.dp_config AutoScaling) (Fixtures.provider_config (Some 5)) Fixtures.kafka_config
      (Some DemoExternals.search) Fixtures.world = (Ok ["x1"], w') /\
    exists it offered bigger, GetKafkaInstanceTypeByID Fixtures.instance_types STANDARD = Ok it /\
      Sizes it = offered ++ bigger /\ ["x1"] = map Size_Id offered.
Proof.
  eexists. split; [vm_compute; reflexivity|].
  edestruct (available_sizes_fit_region (Fixtures.dp_config AutoScaling) (Fixtures.provider_config (Some 5)) Fixtures.kafka_config
    DemoExternals.search Fixtures.world ["x1"]) as (it & offered & bigger & Hit & Hs & Hl & _);
    [vm_compute; reflexivity | reflexivity | by exists it, offered, bigger].
Defined.
