(* ===== verification/QuotaList.v ===== *)
(** * Quota from a list of organisations and accounts

    [src/pkg/quota_management] (the granted quota, as the configuration file
    lists it) and the quota service that enforces it,
    [src/internal/kafka/internal/services/quota/quota_management_list_service.go].
    An expiration date is an instant; parsing it is left to the time library. *)
From S2P Require Import Prelude Arrays Errors Status Config Model Store Resources Providers Fixtures ClusterService Placement KafkaService.

(** ** The list *)
Record BillingModel := mkBillingModel {
  QBM_Id : string;
  QBM_ExpirationDate : option Z;
  QBM_MaxAllowedInstances : Z
}.
#[export] Instance BillingModel_zero : Zero BillingModel := mkBillingModel "" None 0.

(** No date means that the quota never expires. *)
Definition HasExpired (now : Z) (bm : BillingModel) : bool :=
  match bm.(QBM_ExpirationDate) with
  | None => false
  | Some e => e <? now
  end.

Record Quota := mkQuota {
  InstanceTypeID : string;
  KafkaBillingModels : list BillingModel
}.
#[export] Instance Quota_zero : Zero Quota := mkQuota "" [].

Definition defaultBillingModels : list BillingModel := [mkBillingModel "standard" None 0].
Definition defaultGrantedQuota : list Quota := [mkQuota "standard" []].

Definition GetKafkaBillingModels (quota : Quota) : list BillingModel :=
  if IsEmpty quota.(KafkaBillingModels) then defaultBillingModels else quota.(KafkaBillingModels).

(** [Some] is the Go pair of the element and [true]. *)
Definition find_first {A} `{Zero A} (l : list A) (p : A -> bool) : option A :=
  let '(idx, a) := FindFirst l p in if idx =? -1 then None else Some a.

Definition GetKafkaBillingModelByID (quota : Quota) (billingModelId : string) : option BillingModel :=
  find_first (GetKafkaBillingModels quota) (fun bm => StringEqualsIgnoreCase bm.(QBM_Id) billingModelId).

Definition getBillingModel (grantedQuota : list Quota) (instanceTypeId billingModelID : string) : option BillingModel :=
  find_first grantedQuota (fun x => StringEqualsIgnoreCase x.(InstanceTypeID) instanceTypeId) ≫=
    fun instanceType => GetKafkaBillingModelByID instanceType billingModelID.

Definition hasQuotaConfigurationFor (grantedQuota : list Quota) (instanceTypeId billingModelID : string) : bool :=
  bool_decide (is_Some (getBillingModel grantedQuota instanceTypeId billingModelID)).

Record Account := mkAccount {
  Account_Username : string;
  Account_MaxAllowedInstances : Z;
  Account_GrantedQuota : list Quota
}.
#[export] Instance Account_zero : Zero Account := mkAccount "" 0 [].

Record Organisation := mkOrganisation {
  Org_Id : string;
  AnyUser : bool;
  Org_MaxAllowedInstances : Z;
  RegisteredUsers : list Account;
  Org_GrantedQuota : list Quota
}.
#[export] Instance Organisation_zero : Zero Organisation := mkOrganisation "" false 0 [] [].

Definition or_default (granted : list Quota) : list Quota := if IsEmpty granted then defaultGrantedQuota else granted.
Definition Account_GetGrantedQuota (account : Account) : list Quota := or_default account.(Account_GrantedQuota).
Definition Org_GetGrantedQuota (org : Organisation) : list Quota := or_default org.(Org_GrantedQuota).

Definition GetByUsername (accounts : list Account) (username : string) : option Account :=
  find_first accounts (fun a => username =?s a.(Account_Username)).
Definition GetById (orgs : list Organisation) (Id : string) : option Organisation := find_first orgs (fun o => Id =?s o.(Org_Id)).

Definition HasUsersRegistered (org : Organisation) : bool := (0 <? length org.(RegisteredUsers))%nat.

Definition IsUserRegistered (org : Organisation) (username : string) : bool :=
  if negb (HasUsersRegistered org) then org.(AnyUser) else bool_decide (is_Some (GetByUsername org.(RegisteredUsers) username)).

Record RegisteredUsersListConfiguration := mkRegisteredUsersListConfiguration {
  Organisations : list Organisation;
  ServiceAccounts : list Account
}.

Record QuotaManagementListConfig := mkQuotaManagementListConfig {
  QuotaList : RegisteredUsersListConfiguration;
  EnableInstanceLimitControl : bool
}.

Definition GetAllowedAccountByUsernameAndOrgId (c : QuotaManagementListConfig) (username orgId : string) : option Account :=
  let org := default zero (GetById c.(QuotaList).(Organisations) orgId) in
  match GetByUsername org.(RegisteredUsers) username with
  | Some user => Some user
  | None => GetByUsername c.(QuotaList).(ServiceAccounts) username
  end.

(** The implementations of [QuotaManagementListItem]. *)
Inductive QuotaManagementListItem :=
| item_organisation (org : Organisation)
| item_account (account : Account).

Definition item_quota (item : QuotaManagementListItem) : list Quota :=
  match item with
  | item_organisation org => Org_GetGrantedQuota org
  | item_account account => Account_GetGrantedQuota account
  end.

Definition item_max (item : QuotaManagementListItem) : Z :=
  match item with
  | item_organisation org => org.(Org_MaxAllowedInstances)
  | item_account account => account.(Account_MaxAllowedInstances)
  end.

Section Service.
Context {W : Type} `{Database W}.
(** The variable [MaxAllowedInstances], set by a flag. *)
Context (MaxAllowedInstances : Z).
Context (quotaManagementList : QuotaManagementListConfig) (kafkaConfig : KafkaConfig).

(** The method of both implementations. *)
Definition GetMaxAllowedInstances (now : Z) (item : QuotaManagementListItem) (instanceTypeID billingModelID : string) : Z :=
  match getBillingModel (item_quota item) instanceTypeID billingModelID with
  | None => 0
  | Some bm =>
      if HasExpired now bm then 0
      else if 0 <? bm.(QBM_MaxAllowedInstances) then bm.(QBM_MaxAllowedInstances)
      else if 0 <? item_max item then item_max item
      else MaxAllowedInstances
  end.

Definition IsInstanceCountWithinLimit (now : Z) (item : QuotaManagementListItem) (instanceTypeID billingModelID : string) (count : Z) : bool :=
  count <=? GetMaxAllowedInstances now item instanceTypeID billingModelID.

Definition organisations : list Organisation := quotaManagementList.(QuotaList).(Organisations).
Definition serviceAccounts : list Account := quotaManagementList.(QuotaList).(ServiceAccounts).

(** The organisation of a user it has registered. *)
Definition registered_org (username orgId : string) : option Organisation :=
  match GetById organisations orgId with
  | Some org => if IsUserRegistered org username then Some org else None
  | None => None
  end.

(** The entry of the list that a user's quota comes from: the organisation
    comes first. *)
Definition list_item (username orgId : string) : option QuotaManagementListItem :=
  match registered_org username orgId with
  | Some org => Some (item_organisation org)
  | None => item_account <$> GetByUsername serviceAccounts username
  end.

Definition CheckIfQuotaIsDefinedForInstanceType (username organisationId instanceType : string) (kafkaBillingModel : KafkaBillingModel)
  : M W ServiceError bool :=
  ret (match list_item username organisationId with
       | Some item => hasQuotaConfigurationFor (item_quota item) instanceType kafkaBillingModel.(BM_ID)
       | None => instanceType =?s DEVELOPER
       end).

Definition billingModelStandard : string := "standard".

Definition detectBillingModel (kafka : KafkaRequest) : result ServiceError string :=
  if negb (kafka.(KR.DesiredKafkaBillingModel) =?s "") then
    match GetKafkaInstanceTypeByID kafkaConfig.(SupportedInstanceTypes) kafka.(KR.InstanceType) with
    | Err _ => Err nil_dereference
    | Ok instanceType =>
        match GetKafkaSupportedBillingModelByID instanceType kafka.(KR.DesiredKafkaBillingModel) with
        | Err _ => Err (InsufficientQuotaError "invalid billing model '%s'")
        | Ok _ => Ok kafka.(KR.DesiredKafkaBillingModel)
        end
    end
  else if kafka.(KR.InstanceType) =?s DEVELOPER then Ok billingModelStandard
  else
    grantedQuota <-! match GetById organisations kafka.(KR.OrganisationId) with
                     | Some org => Ok (Org_GetGrantedQuota org)
                     | None =>
                         match GetByUsername serviceAccounts kafka.(KR.Owner) with
                         | Some user => Ok (Account_GetGrantedQuota user)
                         | None => Err (InsufficientQuotaError "unable to detect any valid billing model for organisation '%s' and user '%s'")
                         end
                     end ;;
    match find_first grantedQuota (fun q => StringEqualsIgnoreCase q.(InstanceTypeID) kafka.(KR.InstanceType)) with
    | None => Err (InsufficientQuotaError "no quota assigned for instance type: %s")
    | Some quota =>
        if negb (kafka.(KR.Marketplace) =?s "") then Err (InsufficientQuotaError "marketplace is not supported when using QUOTA-LIST")
        else
          match GetKafkaBillingModelByID quota billingModelStandard with
          | Some bm => Ok bm.(QBM_Id)
          | None => Ok (default zero (head (GetKafkaBillingModels quota))).(QBM_Id)
          end
    end.

(** The Kafkas that count against the same quota. *)
Definition same_quota (kafka : KafkaRequest) (billingModelID : string) (k : KafkaRequest) : bool :=
  (k.(KR.InstanceType) =?s kafka.(KR.InstanceType)) &&
  ((k.(KR.ActualKafkaBillingModel) =?s billingModelID) || (k.(KR.DesiredKafkaBillingModel) =?s billingModelID)) &&
  (if negb (kafka.(KR.InstanceType) =?s DEVELOPER) && bool_decide (is_Some (registered_org kafka.(KR.Owner) kafka.(KR.OrganisationId)))
   then k.(KR.OrganisationId) =?s kafka.(KR.OrganisationId)
   else k.(KR.Owner) =?s kafka.(KR.Owner)).

Fixpoint total_capacity (kafkas : list KafkaRequest) : result error Z :=
  match kafkas with
  | [] => Ok 0
  | kafka :: rest =>
      kafkaInstanceSize <-! GetKafkaInstanceSize kafkaConfig kafka.(KR.InstanceType) kafka.(KR.SizeId) ;;
      n <-! total_capacity rest ;;
      Ok (kafkaInstanceSize.(CapacityConsumed) + n)
  end.

(** Returns the request with the billing models it was left with. *)
Definition ReserveQuota (kafka : KafkaRequest) : M W ServiceError (string * KafkaRequest) :=
  billingModelID <~ lift (detectBillingModel kafka) ;;
  let kafka := kafka <| KR.DesiredKafkaBillingModel := billingModelID |> in
  let granted := ("", kafka <| KR.ActualKafkaBillingModel := billingModelID |>) in
  if negb quotaManagementList.(EnableInstanceLimitControl) then ret granted
  else
    let item := list_item kafka.(KR.Owner) kafka.(KR.OrganisationId) in
    kafkas <~ wrap_err (fun _ => GeneralError "failed to check kafka capacity for instance type '%s'")
                (exec (SelectKafkas (same_quota kafka billingModelID))) ;;
    totalInstanceCount <~ lift (map_err (general "failed to check kafka capacity for instance type '%s'") (total_capacity kafkas)) ;;
    let developer := kafka.(KR.InstanceType) =?s DEVELOPER in
    match item with
    | Some item =>
        if negb developer then
          kafkaInstanceSize <~ lift (map_err (general "error reserving quota")
                                 (GetKafkaInstanceSize kafkaConfig kafka.(KR.InstanceType) kafka.(KR.SizeId))) ;;
          now <~ get_time ;;
          if IsInstanceCountWithinLimit now item kafka.(KR.InstanceType) billingModelID
               (totalInstanceCount + kafkaInstanceSize.(CapacityConsumed))
          then ret granted
          else throw (MaximumAllowedInstanceReached "has reached a maximum number of %d allowed streaming units")
        else throw (InsufficientQuotaError "Insufficient quota")
    | None =>
        if developer then
          if MaxAllowedInstances <=? totalInstanceCount
          then throw (MaximumAllowedInstanceReached "has reached a maximum number of %d allowed streaming units")
          else ret granted
        else throw (InsufficientQuotaError "Insufficient quota")
    end.

Definition ReserveQuotaIfNotAlreadyReserved (kafka : KafkaRequest) : M W ServiceError (string * KafkaRequest) := ReserveQuota kafka.

(** No-operations of the service. *)
Definition DeleteQuota (SubscriptionId : string) : M W ServiceError unit := ret tt.
Definition DeleteQuotaForBillingModel (subscriptionId : string) (kafkaBillingModel : KafkaBillingModel) : M W ServiceError unit := ret tt.
Definition ValidateBillingAccount (organisationId instanceType billingModelID billingCloudAccountId : string) (marketplace : option string)
  : M W ServiceError unit := ret tt.

Definition List_IsQuotaEntitlementActive (kafka : KafkaRequest) : M W error bool :=
  if negb quotaManagementList.(EnableInstanceLimitControl) then ret true
  else
    let billingModel := list_item kafka.(KR.Owner) kafka.(KR.OrganisationId) ≫=
                          fun item => getBillingModel (item_quota item) kafka.(KR.InstanceType) kafka.(KR.ActualKafkaBillingModel) in
    now <~ get_time ;;
    match billingModel with
    | None => ret false
    | Some bm => ret (negb (HasExpired now bm))
    end.
End Service.

(** ** Facts *)
Lemma find_first_elem {A} `{Zero A} (l : list A) p a : find_first l p = Some a -> a ∈ l /\ p a = true.
Proof.
  unfold find_first, FindFirst. generalize 0. induction l as [|x l IH]; intros i; simpl; [done|].
  destruct (p x) eqn:Hx; [|intros Hf; apply IH in Hf as [? ?]; set_solver].
  destruct (i =? -1); [done|]. intros [= ->]. split; [left|done].
Qed.

Section Facts.
Context {W : Type} `{Database W}.
Context (MaxAllowedInstances : Z) (conf : QuotaManagementListConfig) (cfg : KafkaConfig).

Lemma total_capacity_sum ks n : total_capacity cfg ks = Ok n -> n = sum_of (kafka_units cfg) ks.
Proof.
  revert n. induction ks as [|k ks IH]; intros n; simpl; [by intros [= <-]|].
  destruct (GetKafkaInstanceSize cfg _ _) as [size|] eqn:Hs; simpl; [|done]. destruct (total_capacity cfg ks) as [m|]; simpl; [|done].
  intros [= <-]. rewrite (IH m) by done. unfold kafka_units at 2, units. by rewrite Hs.
Qed.

Lemma ReserveQuota_ro k : read_only (ReserveQuota MaxAllowedInstances conf cfg k).
Proof. unfold ReserveQuota. solve_read_only. Qed.

Lemma List_IsQuotaEntitlementActive_ro k : read_only (List_IsQuotaEntitlementActive (W := W) conf k).
Proof. unfold List_IsQuotaEntitlementActive. solve_read_only. Qed.

(** A granted reservation of an instance that is not a developer instance. *)
Lemma ReserveQuota_granted k w sub k' w' :
  ReserveQuota MaxAllowedInstances conf cfg k w = (Ok (sub, k'), w') -> conf.(EnableInstanceLimitControl) = true ->
  k.(KR.InstanceType) <> DEVELOPER ->
  exists bm item, detectBillingModel conf cfg k = Ok bm /\ list_item conf k.(KR.Owner) k.(KR.OrganisationId) = Some item /\
    sub = "" /\ k' = k <| KR.DesiredKafkaBillingModel := bm |> <| KR.ActualKafkaBillingModel := bm |> /\
    (exists size, GetKafkaInstanceSize cfg k.(KR.InstanceType) k.(KR.SizeId) = Ok size) /\
    consumed cfg (same_quota conf k bm) (tables_of w).(kafkas) + kafka_units cfg k
      <= GetMaxAllowedInstances MaxAllowedInstances (time_now w') item k.(KR.InstanceType) bm.
Proof.
  intros Hr Hen Hdev. unfold ReserveQuota in Hr. apply bind_ok in Hr as (bm & w1 & Hbm & Hr).
  unfold lift in Hbm. injection Hbm as Hbm <-. cbv zeta in Hr. rewrite Hen in Hr. simpl in Hr. apply String.eqb_neq in Hdev. rewrite Hdev in Hr.
  apply bind_ok in Hr as (ks & w2 & Hks%wrap_err_ok & Hr). apply exec_ok in Hks as [Hks _].
  apply bind_ok in Hr as (total & w3 & Ht & Hr). unfold lift in Ht. injection Ht as Ht <-.
  destruct (total_capacity cfg ks) as [n|] eqn:Hn; simplify_eq/=. apply total_capacity_sum in Hn.
  destruct (list_item conf _ _) as [item|] eqn:Hitem; [|done]. simpl in Hr.
  apply bind_ok in Hr as (size & w4 & Hs & Hr). unfold lift in Hs. injection Hs as Hs <-.
  destruct (GetKafkaInstanceSize cfg _ _) as [size'|] eqn:Hsize; simplify_eq/=. unfold bind, get_time in Hr. simpl in Hr.
  destruct (IsInstanceCountWithinLimit _ _ _ _ _ _) eqn:Hlim; [|done]. injection Hr as <- <- <-.
  exists bm, item. split_and!; [done..|by eexists|]. unfold IsInstanceCountWithinLimit in Hlim. apply Z.leb_le in Hlim.
  unfold consumed, kafka_units at 2, units. rewrite Hsize, <- (sum_of_perm _ _ _ Hks). done.
Qed.
End Facts.

(** ** The factory, and the interface the Kafka service uses *)
Definition AMSQuotaType : string := "ams".
Definition QuotaManagementListQuotaType : string := "quota-management-list".
Definition UndefinedQuotaType : string := "".

(** The services of the container, by their type. *)
Definition GetQuotaService (quotaType : string) : result ServiceError string :=
  let quotaType := if quotaType =?s UndefinedQuotaType then QuotaManagementListQuotaType else quotaType in
  if Contains [AMSQuotaType; QuotaManagementListQuotaType] quotaType then Ok quotaType
  else Err (GeneralError "invalid quota service type: %v").

(** The quota list behind the interface of [KafkaService.v]; the other
    services are those of [E]. *)
Definition quota_list_externals {W} `{Database W} (MaxAllowedInstances : Z) (conf : QuotaManagementListConfig) (cfg : KafkaConfig)
    (E : KafkaExternals W) : KafkaExternals W.
Proof.
  refine {|
    get_quota_service := fun t => _ <-! GetQuotaService t ;; Ok tt;
    check_quota_defined := CheckIfQuotaIsDefinedForInstanceType conf;
    reserve_quota := fun k => r <~ ReserveQuota MaxAllowedInstances conf cfg k ;; 
                              ret (r.1, mkReservedBilling r.2.(KR.ActualKafkaBillingModel) r.2.(KR.Marketplace) r.2.(KR.BillingCloudAccountId));
    is_entitlement_active := List_IsQuotaEntitlementActive conf;
    enable_authentication_on_kafka := E.(enable_authentication_on_kafka);
    create_service_account := E.(create_service_account);
    delete_service_account := E.(delete_service_account);
    automatic_certificate_management := E.(automatic_certificate_management);
    get_certificate := E.(get_certificate);
    manage_certificate := E.(manage_certificate);
    revoke_certificate := E.(revoke_certificate);
    new_aws_client := E.(new_aws_client);
    change_resource_record_sets := E.(change_resource_record_sets);
    get_change := E.(get_change);
    get_cluster_dns := E.(get_cluster_dns);
    dns_label_errors := E.(dns_label_errors)
  |}; try solve [eauto with fleet].
  - intros k. apply bind_read_only; [apply ReserveQuota_ro|intros a; apply ret_read_only].
  - intros k. apply List_IsQuotaEntitlementActive_ro.
Defined.

(** ** Properties *)

(** Every size of the configuration consumes capacity, as validation demands. *)
Definition positive_sizes (cfg : KafkaConfig) : Prop :=
  forall t s size, GetKafkaInstanceSize cfg t s = Ok size -> 0 < size.(CapacityConsumed).

Lemma kafka_units_nonneg cfg k : positive_sizes cfg -> 0 <= kafka_units cfg k.
Proof.
  intros Hpos. unfold kafka_units, units. destruct (GetKafkaInstanceSize cfg _ _) as [size|] eqn:E; [|done]. apply Hpos in E. lia.
Qed.

Lemma consumed_nonneg cfg p ks : positive_sizes cfg -> 0 <= consumed cfg p ks.
Proof. intros Hpos. apply sum_of_nonneg, Forall_forall. intros k _. by apply kafka_units_nonneg. Qed.

Section Properties.
Context {W : Type} `{Database W}.
Context (MaxAllowedInstances : Z) (conf : QuotaManagementListConfig) (cfg : KafkaConfig).

(** The quota of the entry is granted and has not expired when the limit is
    positive. *)
Lemma limit_positive now item t bm :
  0 < GetMaxAllowedInstances MaxAllowedInstances now item t bm ->
  exists granted, getBillingModel (item_quota item) t bm = Some granted /\ HasExpired now granted = false.
Proof.
  unfold GetMaxAllowedInstances. destruct (getBillingModel (item_quota item) t bm) as [granted|]; [|lia].
  destruct (HasExpired now granted) eqn:E; [lia|]. by exists granted.
Qed.

(** The grant behind a reservation. *)
Lemma ReserveQuota_grant k w sub k' w' :
  ReserveQuota MaxAllowedInstances conf cfg k w = (Ok (sub, k'), w') -> conf.(EnableInstanceLimitControl) = true ->
  k.(KR.InstanceType) <> DEVELOPER -> positive_sizes cfg ->
  exists bm item granted, k' = k <| KR.DesiredKafkaBillingModel := bm |> <| KR.ActualKafkaBillingModel := bm |> /\
    list_item conf k.(KR.Owner) k.(KR.OrganisationId) = Some item /\
    getBillingModel (item_quota item) k.(KR.InstanceType) bm = Some granted /\ HasExpired (time_now w') granted = false /\
    consumed cfg (same_quota conf k bm) (tables_of w).(kafkas) + kafka_units cfg k
      <= GetMaxAllowedInstances MaxAllowedInstances (time_now w') item k.(KR.InstanceType) bm.
Proof.
  intros Hr Hen Hdev Hpos. apply ReserveQuota_granted in Hr as (bm & item & Hbm & Hitem & _ & -> & [size Hsize] & Hle); [|done..].
  destruct (limit_positive (time_now w') item k.(KR.InstanceType) bm) as (granted & Hg & Hx).
  { pose proof (consumed_nonneg cfg (same_quota conf k bm) (tables_of w).(kafkas) Hpos) as Hnn.
    unfold kafka_units, units in Hle. rewrite Hsize in Hle. apply Hpos in Hsize. lia. }
  by exists bm, item, granted.
Qed.

(** [C4] With instance limits enabled, quota for a standard instance is
    reserved only from an entry of the list that grants the instance type
    under the billing model and has not expired, and only when everything the
    organisation (or else the account) already runs there plus the new
    instance stays within the limit of that entry. *)
Theorem quota_reservation_within_limit k w sub k' w' :
  ReserveQuota MaxAllowedInstances conf cfg k w = (Ok (sub, k'), w') -> conf.(EnableInstanceLimitControl) = true ->
  k.(KR.InstanceType) <> DEVELOPER -> positive_sizes cfg ->
  let bm := k'.(KR.ActualKafkaBillingModel) in
  tables_of w' = tables_of w /\
  exists item granted, list_item conf k.(KR.Owner) k.(KR.OrganisationId) = Some item /\
    getBillingModel (item_quota item) k.(KR.InstanceType) bm = Some granted /\ HasExpired (time_now w') granted = false /\
    consumed cfg (same_quota conf k bm) (tables_of w).(kafkas) + kafka_units cfg k
      <= GetMaxAllowedInstances MaxAllowedInstances (time_now w') item k.(KR.InstanceType) bm.
Proof.
  intros Hr Hen Hdev Hpos bm. split; [eapply read_only_run; [apply ReserveQuota_ro|exact Hr]|].
  apply ReserveQuota_grant in Hr as (bm' & item & granted & -> & ?); [|done..]. by exists item, granted.
Qed.

(** What has just been reserved is active: at the time of the reservation
    the entitlement check accepts the request it left. *)
Theorem reserved_quota_is_active k w sub k' w' w2 :
  ReserveQuota MaxAllowedInstances conf cfg k w = (Ok (sub, k'), w') -> k.(KR.InstanceType) <> DEVELOPER -> positive_sizes cfg ->
  time_now w2 = time_now w' ->
  List_IsQuotaEntitlementActive conf k' w2 = (Ok true, w2).
Proof.
  intros Hr Hdev Hpos Ht. unfold List_IsQuotaEntitlementActive. destruct (EnableInstanceLimitControl conf) eqn:Hen; [|done]. simpl.
  apply ReserveQuota_grant in Hr as (bm & item & granted & -> & Hitem & Hg & Hx & _); [|done..]. simpl.
  rewrite Hitem. simpl. rewrite Hg. unfold bind, get_time. by rewrite Ht, Hx.
Qed.

(** Promotion counts an instance twice: reserving the desired billing
    model for a Kafka that is already in the table succeeds only when the
    limit leaves room for the instance a second time, since its own row
    carries the desired model. *)
Theorem promotion_counts_twice k ks1 ks2 w sub k' w' :
  ReserveQuotaIfNotAlreadyReserved MaxAllowedInstances conf cfg k w = (Ok (sub, k'), w') ->
  conf.(EnableInstanceLimitControl) = true -> k.(KR.InstanceType) <> DEVELOPER -> k.(KR.DesiredKafkaBillingModel) <> "" ->
  (tables_of w).(kafkas) = ks1 ++ k :: ks2 ->
  exists item, list_item conf k.(KR.Owner) k.(KR.OrganisationId) = Some item /\
    consumed cfg (same_quota conf k k.(KR.DesiredKafkaBillingModel)) (ks1 ++ ks2) + 2 * kafka_units cfg k
      <= GetMaxAllowedInstances MaxAllowedInstances (time_now w') item k.(KR.InstanceType) k.(KR.DesiredKafkaBillingModel).
Proof.
  intros Hr Hen Hdev Hdes Hks. unfold ReserveQuotaIfNotAlreadyReserved in Hr.
  apply ReserveQuota_granted in Hr as (bm & item & Hbm & Hitem & _ & _ & _ & Hle); [|done..]. exists item. split; [done|].
  assert (bm = k.(KR.DesiredKafkaBillingModel)) as ->.
  { unfold detectBillingModel in Hbm. apply String.eqb_neq in Hdes. rewrite Hdes in Hbm. simpl in Hbm. repeat case_match; by simplify_eq. }
  rewrite Hks in Hle. unfold consumed in *. rewrite sum_of_filter, !sum_of_app in *. simpl in Hle.
  assert (same_quota conf k (KR.DesiredKafkaBillingModel k) k = true) as Hself.
  { unfold same_quota. rewrite !String.eqb_refl, orb_true_r. simpl. by destruct (negb _ && _). }
  rewrite Hself in Hle. lia.
Qed.
End Properties.

(** The sizes of a configuration, checked one by one. *)
Lemma positive_sizes_check cfg :
  forallb (fun t => forallb (fun s => 0 <? s.(CapacityConsumed)) t.(Sizes)) cfg.(SupportedInstanceTypes).(SupportedKafkaInstanceTypes) = true ->
  positive_sizes cfg.
Proof.
  intros Hall t s size Hs. unfold GetKafkaInstanceSize, GetKafkaInstanceTypeByID, GetKafkaInstanceSizeByID in Hs.
  destruct (List.find _ (SupportedKafkaInstanceTypes _)) as [ty|] eqn:Ht; simpl in Hs; [|done].
  destruct (List.find _ (Sizes ty)) as [sz|] eqn:Hz; simplify_eq/=. apply find_some in Ht as [Ht _], Hz as [Hz _].
  rewrite forallb_forall in Hall. apply Hall in Ht. rewrite forallb_forall in Ht. apply Ht in Hz. lia.
Qed.

Module QuotaExample.
Definition org (max : Z) : Organisation :=
  mkOrganisation "org-1" true 0 [] [mkQuota "standard" [mkBillingModel "standard" (Some 5000) max]].
Definition conf (max : Z) : QuotaManagementListConfig :=
  mkQuotaManagementListConfig (mkRegisteredUsersListConfiguration [org max] []) true.
Definition k9 : KafkaRequest := Fixtures.kafka "k9" "" KafkaRequestStatusAccepted STANDARD "x2".
(** A Kafka being promoted from another billing model. *)
Definition promoted : KafkaRequest := k9 <| KR.ActualKafkaBillingModel := "enterprise" |>.
Definition promotion_world : MemDB.world unit := MemDB.mkWorld (mkTables [promoted] []) 1000 [] tt.
End QuotaExample.

Lemma quota_reservation_within_limit_witness :
  let k := QuotaExample.k9 in
  exists k' w', ReserveQuota 1 (QuotaExample.conf 6) Fixtures.kafka_config k Fixtures.world = (Ok ("", k'), w') /\
    exists item, list_item (QuotaExample.conf 6) "alice" "org-1" = Some item /\
      consumed Fixtures.kafka_config (same_quota (QuotaExample.conf 6) k "standard") Fixtures.db.(kafkas) + kafka_units Fixtures.kafka_config k
        <= GetMaxAllowedInstances 1 1000 item STANDARD "standard".
Proof.
  intros k. destruct (ReserveQuota 1 (QuotaExample.conf 6) Fixtures.kafka_config k Fixtures.world) as [r w'] eqn:Hr.
  assert (r = Ok ("", k) /\ w' = Fixtures.world) as [-> ->]
    by (split; [change r with (fst (r, w'))|change w' with (snd (r, w'))]; rewrite <- Hr; vm_compute; reflexivity).
  exists k, Fixtures.world. split; [done|].
  destruct (quota_reservation_within_limit 1 (QuotaExample.conf 6) Fixtures.kafka_config k Fixtures.world "" k Fixtures.world Hr eq_refl)
    as (_ & item & granted & Hitem & _ & _ & Hle); [done|by apply positive_sizes_check|]. exists item. split; [exact Hitem|exact Hle].
Defined.

Lemma reserved_quota_is_active_witness :
  let k := QuotaExample.k9 in
  exists k' w', ReserveQuota 1 (QuotaExample.conf 6) Fixtures.kafka_config k Fixtures.world = (Ok ("", k'), w') /\
    List_IsQuotaEntitlementActive (QuotaExample.conf 6) k' w' = (Ok true, w').
Proof.
  intros k. destruct (ReserveQuota 1 (QuotaExample.conf 6) Fixtures.kafka_config k Fixtures.world) as [r w'] eqn:Hr.
  assert (r = Ok ("", k)) as -> by (change r with (fst (r, w')); rewrite <- Hr; vm_compute; reflexivity). exists k, w'. split; [done|].
  apply (reserved_quota_is_active 1 (QuotaExample.conf 6) Fixtures.kafka_config k Fixtures.world "" k w' w' Hr); [done|by apply positive_sizes_check|done].
Defined.

(** Four units are needed to promote an instance of two; with three the
    promotion is refused, although only two are in use. *)
Lemma promotion_counts_twice_witness :
  let k := QuotaExample.promoted in
  (exists k' w', ReserveQuotaIfNotAlreadyReserved 1 (QuotaExample.conf 4) Fixtures.kafka_config k QuotaExample.promotion_world = (Ok ("", k'), w') /\
    exists item, list_item (QuotaExample.conf 4) "alice" "org-1" = Some item /\
      2 * kafka_units Fixtures.kafka_config k <= GetMaxAllowedInstances 1 1000 item STANDARD "standard") /\
  is_ok (fst (ReserveQuotaIfNotAlreadyReserved 1 (QuotaExample.conf 3) Fixtures.kafka_config k QuotaExample.promotion_world)) = false /\
  kafka_units Fixtures.kafka_config k = 2.
Proof.
  intros k. split; [|split; vm_compute; reflexivity].
  destruct (ReserveQuotaIfNotAlreadyReserved 1 (QuotaExample.conf 4) Fixtures.kafka_config k QuotaExample.promotion_world) as [r w'] eqn:Hr.
  assert (r = Ok ("", QuotaExample.k9) /\ w' = QuotaExample.promotion_world) as [-> ->]
    by (split; [change r with (fst (r, w'))|change w' with (snd (r, w'))]; rewrite <- Hr; vm_compute; reflexivity).
  exists QuotaExample.k9, QuotaExample.promotion_world. split; [done|].
  destruct (promotion_counts_twice 1 (QuotaExample.conf 4) Fixtures.kafka_config k [] [] QuotaExample.promotion_world "" QuotaExample.k9
    QuotaExample.promotion_world Hr eq_refl) as (item & Hitem & Hle); [done..|]. exists item. split; [exact Hitem|]. exact Hle.
Defined.
