(* ===== verification/Transitions.v ===== *)
(** * Status changes of the Kafka table

    A vocabulary for what an operation does to the statuses of the Kafkas, with
    the facts about the updates of the Kafka service, shared by the data plane
    reports and by the reconcilers. *)
From S2P Require Import Prelude Arrays Errors Status Config Model Store ClusterService Placement KafkaService.

(** ** How an operation changes the rows

    [changed id R row row']: the row is untouched, or it is the one named [id],
    it keeps its identifier, and [R] relates it to what it becomes.  [moved] is
    the case where [R] speaks of the new status. *)
Definition changed (id : string) (R : KafkaRequest -> KafkaRequest -> Prop) (row row' : KafkaRequest) : Prop :=
  row' = row \/ (row.(KR.ID) = id /\ row'.(KR.ID) = id /\ R row row').

Definition moved (id : string) (P : KafkaRequest -> string -> Prop) : KafkaRequest -> KafkaRequest -> Prop :=
  changed id (fun row row' => P row row'.(KR.Status)).

Definition keeps_status (row : KafkaRequest) (status : string) : Prop := status = row.(KR.Status).

Lemma moved_refl id P rows : Forall2 (moved id P) rows rows.
Proof. induction rows; constructor; [by left | done]. Qed.

Lemma moved_impl id (P Q : KafkaRequest -> string -> Prop) rows rows' :
  (forall row st, row ∈ rows -> row.(KR.ID) = id -> P row st -> Q row st) ->
  Forall2 (moved id P) rows rows' -> Forall2 (moved id Q) rows rows'.
Proof.
  intros HPQ. induction 1 as [|row row' rows rows' Hm Hms IH]; constructor.
  - destruct Hm as [->|(? & ? & ?)]; [by left|]. right. split_and!; try done. apply HPQ; [set_solver|done..].
  - apply IH. intros ? ? ?. apply HPQ. set_solver.
Qed.

(** A move after, or before, an operation that keeps the statuses. *)
Lemma moved_after_keep id (P : KafkaRequest -> string -> Prop) l1 l2 l3 :
  (forall row row' st, row'.(KR.Status) = row.(KR.Status) -> P row' st -> P row st) ->
  (forall row st, keeps_status row st -> P row st) ->
  Forall2 (moved id keeps_status) l1 l2 -> Forall2 (moved id P) l2 l3 -> Forall2 (moved id P) l1 l3.
Proof.
  intros HP Hk. apply Forall2_trans. intros x y z [->|(Hx & Hy & Hs)] [->|(Hy' & Hz & Hp)].
  - by left.
  - right. by split_and!.
  - right. split_and!; try done. by apply Hk.
  - right. split_and!; try done. by eapply HP.
Qed.

Lemma keep_after_moved id (P : KafkaRequest -> string -> Prop) l1 l2 l3 :
  (forall row st, keeps_status row st -> P row st) ->
  Forall2 (moved id P) l1 l2 -> Forall2 (moved id keeps_status) l2 l3 -> Forall2 (moved id P) l1 l3.
Proof.
  intros Hk. apply Forall2_trans. intros x y z [->|(Hx & Hy & Hs)] [->|(Hy' & Hz & Hp)].
  - by left.
  - right. split_and!; try done. by apply Hk.
  - right. by split_and!.
  - right. split_and!; try done. by rewrite Hp.
Qed.

Section MovedLemmas.
Context {W : Type} `{Database W}.

Lemma update_rows_moved t p f id (P : KafkaRequest -> string -> Prop) rows :
  (forall row, row ∈ rows -> p row = true -> row.(KR.ID) = id /\ (f row).(KR.ID) = id /\ P row (f row).(KR.Status)) ->
  Forall2 (moved id P) rows (update_rows (touch_kafka t) p f rows).
Proof.
  intros Hp. induction rows as [|row rows IH]; constructor.
  - destruct (p row) eqn:E; [|by left]. right. destruct (Hp row) as (? & ? & ?); [set_solver|done|]. by destruct (f row).
  - apply IH. intros ? ?. apply Hp. set_solver.
Qed.

(** The rows that an update with an identifier reaches. *)
Lemma designated_row k row :
  k.(KR.ID) <> "" -> designates k row && not_under_deletion row = true ->
  row.(KR.ID) = k.(KR.ID) /\ not_under_deletion row = true.
Proof.
  unfold designates, zero_or_eq. intros Hne [Hd Hn]%andb_true_iff. split; [|done].
  by apply orb_true_iff in Hd as [Hd|Hd]; apply String.eqb_eq in Hd.
Qed.

Lemma Updates_moved k f w r w' (P : KafkaRequest -> string -> Prop) :
  Updates k f w = (r, w') -> k.(KR.ID) <> "" -> (forall row, (f row).(KR.ID) = row.(KR.ID)) ->
  (forall row, row ∈ (tables_of w).(kafkas) -> row.(KR.ID) = k.(KR.ID) -> not_under_deletion row = true -> P row (f row).(KR.Status)) ->
  Forall2 (moved k.(KR.ID) P) (tables_of w).(kafkas) (tables_of w').(kafkas).
Proof.
  intros ->%Updates_run Hne Hid HP. destruct r; [|apply moved_refl]. apply update_rows_moved.
  intros row Hin [Hr Hn]%designated_row; [|done]. rewrite Hid. split_and!; auto.
Qed.

Lemma merge_nonzero_id k row : (KR.merge_nonzero k row).(KR.ID) = row.(KR.ID).
Proof. done. Qed.

Lemma merge_nonzero_status k row : (KR.merge_nonzero k row).(KR.Status) = pick_string k.(KR.Status) row.(KR.Status).
Proof. done. Qed.

Lemma Update_moved k w r w' (P : KafkaRequest -> string -> Prop) :
  Update k w = (r, w') -> k.(KR.ID) <> "" ->
  (forall row, row ∈ (tables_of w).(kafkas) -> row.(KR.ID) = k.(KR.ID) -> not_under_deletion row = true ->
     P row (pick_string k.(KR.Status) row.(KR.Status))) ->
  Forall2 (moved k.(KR.ID) P) (tables_of w).(kafkas) (tables_of w').(kafkas).
Proof.
  intros ->%Update_run Hne HP. destruct r; [|apply moved_refl]. apply update_rows_moved.
  intros row Hin [Hr Hn]%designated_row; [|done]. rewrite merge_nonzero_id, merge_nonzero_status. split_and!; auto.
Qed.

Lemma UpdateStatus_moved id status w r w' :
  UpdateStatus id status w = (r, w') ->
  Forall2 (moved id (fun _ st => st = status)) (tables_of w).(kafkas) (tables_of w').(kafkas).
Proof.
  intros Hr%UpdateStatus_run. destruct r as [[]|[ex e]]; [|destruct Hr as [-> _]; apply moved_refl].
  destruct Hr as (k & w1 & _ & _ & _ & ->). apply update_rows_moved. intros row _ Hid%String.eqb_eq. done.
Qed.
End MovedLemmas.

Lemma keeps_moved {W} `{Database W} {E A} (m : M W E A) id w r w' :
  keeps_kafkas m -> m w = (r, w') ->
  Forall2 (moved id keeps_status) (tables_of w).(kafkas) (tables_of w').(kafkas).
Proof. intros Hk Hr. rewrite (keeps_run m w r w' Hk Hr). apply moved_refl. Qed.

(** ** Identified rows and snapshots *)

(** The primary key: distinct identifiers, none of them empty. *)
Definition keyed (db : tables) : Prop :=
  NoDup (map KR.ID db.(kafkas)) /\ Forall (fun k => k.(KR.ID) <> "") db.(kafkas).

Lemma same_id_same_row rows a b :
  NoDup (map KR.ID rows) -> a ∈ rows -> b ∈ rows -> a.(KR.ID) = b.(KR.ID) -> a = b.
Proof.
  intros Hnd [i Hi]%list_elem_of_lookup [j Hj]%list_elem_of_lookup Hid. assert (i = j) as ->; [|congruence].
  eapply (NoDup_lookup (map KR.ID rows)); [done| |]; rewrite list_lookup_fmap; [rewrite Hi | rewrite Hj]; simpl; by rewrite ?Hid.
Qed.

Section Snapshots.
Context {W : Type} `{Database W}.

(** The value in memory is the row of that identifier. *)
Definition snapshot_of (k : KafkaRequest) (w : W) : Prop :=
  k.(KR.ID) <> "" /\ forall row, row ∈ (tables_of w).(kafkas) -> row.(KR.ID) = k.(KR.ID) -> row = k.

Lemma GetByID_snapshot id w k w' :
  GetByID id w = (Ok k, w') -> NoDup (map KR.ID (tables_of w).(kafkas)) -> snapshot_of k w'.
Proof.
  intros (Hne & Hk & Hid & Ht)%GetByID_ok Hnd. split; [congruence|]. rewrite Ht. intros row Hrow Hrid.
  by eapply same_id_same_row.
Qed.

Lemma pick_string_same s : pick_string s s = s.
Proof. unfold pick_string. by case_match. Qed.

(** Writing back a snapshot whose status was not changed keeps the statuses. *)
Lemma Update_snapshot k k' w r w' :
  Update k' w = (r, w') -> snapshot_of k w -> k'.(KR.ID) = k.(KR.ID) -> k'.(KR.Status) = k.(KR.Status) ->
  Forall2 (moved k.(KR.ID) keeps_status) (tables_of w).(kafkas) (tables_of w').(kafkas).
Proof.
  intros Hu [Hne Hs] Hid Hst. rewrite <- Hid. eapply Update_moved; [done|congruence|].
  intros row Hin Hr _. rewrite Hst, (Hs row) by congruence. unfold keeps_status. apply pick_string_same.
Qed.

(** A query gives snapshots of distinct rows. *)
Lemma snapshots_of_query p l w :
  keyed (tables_of w) -> l ≡ₚ List.filter p (tables_of w).(kafkas) ->
  NoDup (map KR.ID l) /\ Forall (fun k => p k = true /\ snapshot_of k w) l.
Proof.
  intros [Hnd Hne] Hp. split; [rewrite Hp; by apply NoDup_map_filter|]. apply Forall_forall. intros k Hk.
  rewrite Hp in Hk. apply list_elem_of_In, filter_In in Hk as [Hk%list_elem_of_In Hpk]. split; [done|].
  rewrite Forall_forall in Hne. split; [by apply Hne|]. intros row Hrow Hid. by eapply same_id_same_row.
Qed.

Lemma snapshot_survives k k' R w w' :
  Forall2 (changed k.(KR.ID) R) (tables_of w).(kafkas) (tables_of w').(kafkas) ->
  k'.(KR.ID) <> k.(KR.ID) -> snapshot_of k' w -> snapshot_of k' w'.
Proof.
  intros Hall Hne [Hk Hs]. split; [done|]. intros row' Hrow' Hid.
  apply list_elem_of_lookup in Hrow' as [i Hi]. eapply Forall2_lookup_r in Hall as (row & Hrow & Hc); [|exact Hi].
  destruct Hc as [->|(_ & Hid' & _)]; [|congruence]. apply Hs; [|done]. by eapply list_elem_of_lookup_2.
Qed.

(** What a loop over snapshots does, when each iteration changes its own row. *)
Definition worked_on (p : KafkaRequest -> Prop) (R : KafkaRequest -> KafkaRequest -> Prop) (row row' : KafkaRequest) : Prop :=
  row' = row \/ (p row /\ row'.(KR.ID) = row.(KR.ID) /\ R row row').

Lemma for_all_collect_changed {E} (f : KafkaRequest -> M W E unit) R l w errs w' :
  for_all_collect f l w = (errs, w') ->
  (forall k w r w', k ∈ l -> f k w = (r, w') -> snapshot_of k w ->
     Forall2 (changed k.(KR.ID) R) (tables_of w).(kafkas) (tables_of w').(kafkas)) ->
  NoDup (map KR.ID l) -> Forall (fun k => snapshot_of k w) l ->
  Forall2 (worked_on (fun k => k ∈ l) R) (tables_of w).(kafkas) (tables_of w').(kafkas).
Proof.
  revert w errs. induction l as [|k l IH]; simpl; intros w errs Hr Hf Hnd Hs.
  { injection Hr as _ <-. induction (kafkas _); constructor; [by left|done]. }
  apply NoDup_cons in Hnd as [Hk Hnd]. apply Forall_cons in Hs as [Hsk Hs].
  destruct (f k w) as [r w1] eqn:Hfk. destruct (for_all_collect f l w1) as [errs' w2] eqn:Hl. injection Hr as _ <-.
  apply Hf in Hfk; [|set_solver|done].
  apply IH in Hl; [|intros; eapply Hf; [set_solver|done..]|done|].
  2:{ rewrite Forall_forall in Hs |- *. intros k' Hk'. eapply snapshot_survives; [exact Hfk| |by apply Hs].
      intros Heq. apply Hk. rewrite <- Heq. by apply list_elem_of_fmap_2. }
  assert (Forall2 (fun row row' => (row ∈ (tables_of w).(kafkas)) /\ changed k.(KR.ID) R row row')
    (tables_of w).(kafkas) (tables_of w1).(kafkas)) as Hfk'.
  { apply Forall2_same_length_lookup_2; [by eapply Forall2_length|]. intros i x y Hx Hy.
    split; [by eapply list_elem_of_lookup_2|]. by eapply (Forall2_lookup_lr _ _ _ _ _ _ Hfk). }
  eapply Forall2_trans; [|exact Hfk'|exact Hl].
  intros row row1 row2 [Hin [->|(Hid & Hid1 & HR)]] [->|(Hin2 & Hid2 & HR2)].
  - by left.
  - right. set_solver.
  - right. assert (row = k) as -> by (by apply Hsk). split_and!; [set_solver|congruence|done].
  - exfalso. apply Hk. rewrite <- Hid1. by apply list_elem_of_fmap_2.
Qed.
End Snapshots.

(** ** Deletion is kept

    The rows keep their identifiers and those under deletion stay so: the
    common denominator of every operation that does not remove a row. *)
Definition deletion_kept (row row' : KafkaRequest) : Prop :=
  row'.(KR.ID) = row.(KR.ID) /\ (not_under_deletion row = false -> not_under_deletion row' = false).

#[export] Instance deletion_kept_preorder : PreOrder deletion_kept.
Proof. split; [by split|]. intros x y z [? ?] [? ?]. split; [congruence|auto]. Qed.

Lemma deletion_kept_ids l l' : Forall2 deletion_kept l l' -> map KR.ID l' = map KR.ID l.
Proof. induction 1 as [|row row' l l' [Hid _] _ IH]; simpl; [done|]. by rewrite Hid, IH. Qed.

Definition spares_deletion {W E A} `{Database W} (m : M W E A) : Prop :=
  forall w, Forall2 deletion_kept (tables_of w).(kafkas) (tables_of (snd (m w))).(kafkas).

Section SparesDeletion.
Context {W : Type} `{Database W}.

Lemma keeps_spares {E A} (m : M W E A) : keeps_kafkas m -> spares_deletion m.
Proof. intros Hm w. rewrite Hm. reflexivity. Qed.

Lemma read_only_spares {E A} (m : M W E A) : read_only m -> spares_deletion m.
Proof. intros Hm. by apply keeps_spares, read_only_keeps. Qed.

Lemma bind_spares {E A B} (m : M W E A) (k : A -> M W E B) :
  spares_deletion m -> (forall a, spares_deletion (k a)) -> spares_deletion (bind m k).
Proof.
  intros Hm Hk w. unfold bind. specialize (Hm w). destruct (m w) as [[a|e] w1]; simpl in *; [|done].
  etrans; [exact Hm | apply Hk].
Qed.

Lemma wrap_err_spares {E E' A} (f : E -> E') (m : M W E A) : spares_deletion m -> spares_deletion (wrap_err f m).
Proof. intros Hm w. specialize (Hm w). unfold wrap_err. by destruct (m w). Qed.

Lemma attempt_spares {E E' A} (m : M W E A) : spares_deletion m -> spares_deletion (attempt (E' := E') m).
Proof. intros Hm w. specialize (Hm w). unfold attempt. by destruct (m w). Qed.

Lemma for_all_collect_spares {E A} (f : A -> M W E unit) l w :
  (forall a, spares_deletion (f a)) ->
  Forall2 deletion_kept (tables_of w).(kafkas) (tables_of (snd (for_all_collect f l w))).(kafkas).
Proof.
  intros Hf. revert w. induction l as [|a l IH]; simpl; intros w; [reflexivity|]. specialize (Hf a w) as Ha.
  destruct (f a w) as [r w1]. specialize (IH w1). destruct (for_all_collect f l w1) as [errs w2]. simpl in *. by etrans.
Qed.

Lemma update_rows_deletion_kept t p f rows :
  (forall row, row ∈ rows -> p row = true -> deletion_kept row (f row)) ->
  Forall2 deletion_kept rows (update_rows (touch_kafka t) p f rows).
Proof.
  intros Hp. induction rows as [|row rows IH]; constructor.
  - destruct (p row) eqn:E; [|by split]. destruct (Hp row) as [? ?]; [set_solver|done|]. by destruct (f row).
  - apply IH. intros ? ?. apply Hp. set_solver.
Qed.

Lemma Update_spares k : spares_deletion (Update k).
Proof.
  intros w. destruct (Update k w) as [r w'] eqn:Hu. simpl. apply Update_run in Hu as ->. destruct r; [|reflexivity].
  apply update_rows_deletion_kept. intros row _ [_ Hn]%andb_true_iff. split; [done|congruence].
Qed.

Lemma Updates_spares k f : (forall row, (f row).(KR.ID) = row.(KR.ID)) -> spares_deletion (Updates k f).
Proof.
  intros Hf w. destruct (Updates k f w) as [r w'] eqn:Hu. simpl. apply Updates_run in Hu as ->. destruct r; [|reflexivity].
  apply update_rows_deletion_kept. intros row _ [_ Hn]%andb_true_iff. split; [done|congruence].
Qed.

Lemma UpdateStatus_spares id status : Contains kafkaDeletionStatuses status = true -> spares_deletion (UpdateStatus id status).
Proof.
  intros Hst w. destruct (UpdateStatus id status w) as [r w'] eqn:Hu. simpl. apply UpdateStatus_run in Hu.
  destruct r as [[]|[ex e]]; [|destruct Hu as [-> _]; reflexivity]. destruct Hu as (k & w1 & _ & _ & _ & ->).
  apply update_rows_deletion_kept. intros row _ _. split; [by destruct row|]. intros _.
  unfold not_under_deletion. destruct row; simpl. by rewrite Hst.
Qed.

End SparesDeletion.
#[export] Hint Resolve Update_spares : fleet.

(** Follows the structure of a computation made of queries and guarded updates. *)
Ltac solve_spares :=
  intros;
  repeat first
    [ progress intros
    | match goal with |- spares_deletion (match ?x with _ => _ end) => destruct x end
    | match goal with |- spares_deletion (bind _ _) => apply bind_spares end
    | match goal with |- spares_deletion (attempt _) => apply attempt_spares end
    | match goal with |- spares_deletion (wrap_err _ _) => apply wrap_err_spares end
    | solve [apply Update_spares]
    | solve [apply Updates_spares; by intros []]
    | solve [by apply UpdateStatus_spares]
    | match goal with |- spares_deletion (fun w => _) =>
        let w := fresh "w" in intros w; cbv beta;
        match goal with |- Forall2 _ _ (kafkas (tables_of (snd (?m w)))) => refine ((_ : spares_deletion m) w) end
      end
    | solve [apply read_only_spares; solve_read_only]
    | solve [apply keeps_spares; solve_keeps]
    | solve [eauto 2 with fleet] ].
