(* ===== verification/DataPlaneKafka.v ===== *)
(** * Reports of the data plane about Kafkas

    [src/internal/kafka/internal/services/data_plane_kafka.go] and
    [src/internal/kafka/internal/api/dbapi/data_plane_kafka_status.go]: the
    handler that receives what the operator of a cluster says about each Kafka,
    and the status changes that follow.

    Errors of a single report are logged and the loop goes on; the model returns
    the list of the logged errors.  Metrics are not modelled, except the counts
    of the reserved Kafkas, which the handler returns. *)
From S2P Require Import Prelude Arrays Errors Status Config Model HostNames Store Fixtures ClusterService Placement KafkaService Transitions.

Record DataPlaneKafkaStatusCondition := mkCondition {
  Cond_Type : string;
  Cond_Reason : string;
  Cond_Status : string;
  Cond_Message : string
}.

Record DataPlaneKafkaRouteRequest := mkRouteRequest {
  RouteReq_Name : string;
  RouteReq_Prefix : string;
  RouteReq_Router : string
}.

Record DataPlaneKafkaStatus := mkDataPlaneKafkaStatus {
  KafkaClusterId : string;
  Conditions : list DataPlaneKafkaStatusCondition;
  Report_Routes : list DataPlaneKafkaRouteRequest;
  Report_KafkaVersion : string;
  Report_StrimziVersion : string;
  Report_KafkaIBPVersion : string;
  AdminServerURI : string
}.

Definition GetReadyCondition (d : DataPlaneKafkaStatus) : option DataPlaneKafkaStatusCondition :=
  List.find (fun c => EqualFold c.(Cond_Type) "Ready") d.(Conditions).

(** [managedKafkaStatus]. *)
Inductive managedKafkaStatus :=
| statusInstalling
| statusReady
| statusError
| statusRejected
| statusRejectedClusterFull
| statusDeleted
| statusUnknown
| statusSuspended.

#[export] Instance managedKafkaStatus_eq_dec : EqDecision managedKafkaStatus.
Proof. solve_decision. Defined.

#[export] Instance managedKafkaStatus_countable : Countable managedKafkaStatus.
Proof.
  refine (inj_countable' (fun s => match s with
      | statusInstalling => 0 | statusReady => 1 | statusError => 2 | statusRejected => 3
      | statusRejectedClusterFull => 4 | statusDeleted => 5 | statusUnknown => 6 | statusSuspended => 7 end%nat)
    (fun n => match n with
      | 0 => statusInstalling | 1 => statusReady | 2 => statusError | 3 => statusRejected
      | 4 => statusRejectedClusterFull | 5 => statusDeleted | 6 => statusUnknown | _ => statusSuspended end%nat) _).
  by intros [].
Defined.

Definition strimziUpdating : string := "StrimziUpdating".
Definition kafkaUpdating : string := "KafkaUpdating".
Definition kafkaIBPUpdating : string := "KafkaIbpUpdating".

Inductive managedKafkaDeploymentType := reservedDeploymentType | realDeploymentType.

Definition getManagedKafkaDeploymentType (ks : DataPlaneKafkaStatus) : managedKafkaDeploymentType :=
  if HasPrefix ks.(KafkaClusterId) "reserved-" then reservedDeploymentType else realDeploymentType.

(** The status a condition decides, if it decides one. *)
Definition condition_status (c : DataPlaneKafkaStatusCondition) : option managedKafkaStatus :=
  if EqualFold c.(Cond_Type) "Ready" then
    if EqualFold c.(Cond_Reason) "Suspended" then Some statusSuspended
    else if EqualFold c.(Cond_Status) "True" then Some statusReady
    else if EqualFold c.(Cond_Status) "Unknown" then Some statusUnknown
    else if EqualFold c.(Cond_Reason) "Installing" then Some statusInstalling
    else if EqualFold c.(Cond_Reason) "Deleted" then Some statusDeleted
    else if EqualFold c.(Cond_Reason) "Error" then Some statusError
    else if EqualFold c.(Cond_Reason) "Rejected" then
      if EqualFold c.(Cond_Message) "Cluster has insufficient resources" then Some statusRejectedClusterFull
      else Some statusRejected
    else None
  else None.

Fixpoint first_status (l : list DataPlaneKafkaStatusCondition) : managedKafkaStatus :=
  match l with
  | [] => statusInstalling
  | c :: l' => match condition_status c with Some s => s | None => first_status l' end
  end.

Definition getManagedKafkaStatus (status : DataPlaneKafkaStatus) : managedKafkaStatus := first_status status.(Conditions).

(** The routes of a report, or an error at the first router outside the
    domain of the cluster. *)
Fixpoint buildKafkaRoutes (routesInRequest : list DataPlaneKafkaRouteRequest) (kafka : KafkaRequest) (clusterDNS : string)
  : result error (list DataPlaneKafkaRoute) :=
  match routesInRequest with
  | [] => Ok []
  | r :: rest =>
      if HasSuffix r.(RouteReq_Router) clusterDNS then
        routes <-! buildKafkaRoutes rest kafka clusterDNS ;;
        Ok (mkDataPlaneKafkaRoute
              (if negb (r.(RouteReq_Prefix) =?s "") then r.(RouteReq_Prefix) +:+ "-" +:+ kafka.(KR.BootstrapServerHost)
               else kafka.(KR.BootstrapServerHost))
              r.(RouteReq_Router) :: routes)
      else Err (EPlain "router domain is not valid. router = %q, expected domain = %q")
  end.

(** The counts of the reserved Kafkas, by instance type and status. *)
Abbreviation prewarming_info := (gmap string (gmap managedKafkaStatus Z)).

Definition empty_counts : gmap managedKafkaStatus Z :=
  list_to_map (map (fun s => (s, 0)) [statusReady; statusError; statusUnknown; statusDeleted; statusRejected; statusInstalling;
                                      statusRejectedClusterFull]).

Definition processReservedKafkaDeployment (ks : DataPlaneKafkaStatus) (prewarmingStatusInfo : prewarming_info)
  : prewarming_info * list error :=
  match Split ks.(KafkaClusterId) "-" with
  | _ :: _ :: instanceType :: _ :: _ =>
      match prewarmingStatusInfo !! instanceType with
      | None => (prewarmingStatusInfo, [EPlain "the reserved kafka %q ID is not supported in the cluster with ClusterID %q"])
      | Some counts =>
          let s := getManagedKafkaStatus ks in
          (<[ instanceType := <[ s := default 0 (counts !! s) + 1 ]> counts ]> prewarmingStatusInfo, [])
      end
  | _ => (prewarmingStatusInfo,
          [EPlain "the reserved kafka %q ID does not follow the format 'reserved-kafka-<instance-type>-<number>'"])
  end.

(** [NewWithCause(err.Code, err, ...)]. *)
Definition same_code (reason : string) (err : ServiceError) : ServiceError := NewWithCause (Code err) (Some (EService err)) reason.

Definition suspending_or_suspended (kafka : KafkaRequest) : bool :=
  (kafka.(KR.Status) =?s KafkaRequestStatusSuspending) || (kafka.(KR.Status) =?s KafkaRequestStatusSuspended).

Section DataPlaneKafkaService.
Context {W : Type} `{Database W} `{IdSource W} `{!KafkaExternals W}.
Context (kafkaConfig : KafkaConfig) `{!ClusterLookup W kafkaConfig}.

Definition checkKafkaRequestCurrentStatus (kafka : KafkaRequest) (status : string) : M W ServiceError bool :=
  currentInstance <~ GetByID kafka.(KR.ID) ;;
  ret (currentInstance.(KR.Status) =?s status).

Definition setKafkaClusterReady (kafka : KafkaRequest) : M W ServiceError unit :=
  if negb kafka.(KR.RoutesCreated) then ret tt
  else
    _ <~ checkKafkaRequestCurrentStatus kafka KafkaRequestStatusProvisioning ;;
    wrap_err (same_code "failed to update kafka %q")
      (Updates kafka (fun row => row <| KR.AdminApiServerURL := kafka.(KR.AdminApiServerURL) |>
                                     <| KR.FailedReason := "" |> <| KR.Status := KafkaRequestStatusReady |>)).

(** The new version of a component, when the report names a different one. *)
Definition reported_version (reported actual : string) : string :=
  if negb (reported =?s "") && negb (reported =?s actual) then reported else actual.

(** The upgrading flag follows the reason of the ready condition. *)
Definition reported_upgrading (condition : option DataPlaneKafkaStatusCondition) (reason : string) (current : bool) : bool :=
  match condition with
  | None => current
  | Some c =>
      let set := c.(Cond_Reason) =?s reason in
      if set && negb current then true else if negb set && current then false else current
  end.

Definition with_reported_versions (kafka : KafkaRequest) (status : DataPlaneKafkaStatus) : KafkaRequest :=
  let ready := GetReadyCondition status in
  kafka <| KR.ActualKafkaVersion := reported_version status.(Report_KafkaVersion) kafka.(KR.ActualKafkaVersion) |>
        <| KR.ActualKafkaIBPVersion := reported_version status.(Report_KafkaIBPVersion) kafka.(KR.ActualKafkaIBPVersion) |>
        <| KR.ActualStrimziVersion := reported_version status.(Report_StrimziVersion) kafka.(KR.ActualStrimziVersion) |>
        <| KR.StrimziUpgrading := reported_upgrading ready strimziUpdating kafka.(KR.StrimziUpgrading) |>
        <| KR.KafkaUpgrading := reported_upgrading ready kafkaUpdating kafka.(KR.KafkaUpgrading) |>
        <| KR.KafkaIBPUpgrading := reported_upgrading ready kafkaIBPUpdating kafka.(KR.KafkaIBPUpgrading) |>.

Definition needs_version_update (kafka k : KafkaRequest) : bool :=
  negb (k.(KR.ActualKafkaVersion) =?s kafka.(KR.ActualKafkaVersion)) ||
  negb (k.(KR.ActualKafkaIBPVersion) =?s kafka.(KR.ActualKafkaIBPVersion)) ||
  negb (k.(KR.ActualStrimziVersion) =?s kafka.(KR.ActualStrimziVersion)) ||
  xorb k.(KR.StrimziUpgrading) kafka.(KR.StrimziUpgrading) ||
  xorb k.(KR.KafkaUpgrading) kafka.(KR.KafkaUpgrading) ||
  xorb k.(KR.KafkaIBPUpgrading) kafka.(KR.KafkaIBPUpgrading).

Definition version_fields (k row : KafkaRequest) : KafkaRequest :=
  row <| KR.ActualStrimziVersion := k.(KR.ActualStrimziVersion) |>
      <| KR.ActualKafkaVersion := k.(KR.ActualKafkaVersion) |>
      <| KR.ActualKafkaIBPVersion := k.(KR.ActualKafkaIBPVersion) |>
      <| KR.StrimziUpgrading := k.(KR.StrimziUpgrading) |>
      <| KR.KafkaUpgrading := k.(KR.KafkaUpgrading) |>
      <| KR.KafkaIBPUpgrading := k.(KR.KafkaIBPUpgrading) |>.

Definition setKafkaRequestVersionFields (kafka : KafkaRequest) (status : DataPlaneKafkaStatus) : M W ServiceError unit :=
  let k := with_reported_versions kafka status in
  if needs_version_update kafka k
  then wrap_err (same_code "failed to update actual version fields for kafka %q") (Updates k (version_fields k))
  else ret tt.

Definition setKafkaClusterFailed (kafka : KafkaRequest) : M W ServiceError unit :=
  if kafka.(KR.Status) =?s KafkaRequestStatusFailed then ret tt
  else
    _ <~ checkKafkaRequestCurrentStatus kafka KafkaRequestStatusProvisioning ;;
    wrap_err (same_code "failed to update kafka cluster to %q status for kafka %q")
      (Update (kafka <| KR.Status := KafkaRequestStatusFailed |>
                     <| KR.FailedReason := "Kafka reported as failed from the data plane" |>)).

(** An update that was not attempted is not an error. *)
Definition setKafkaClusterDeleting (kafka : KafkaRequest) : M W ServiceError unit :=
  outcome <~ attempt (UpdateStatus kafka.(KR.ID) KafkaRequestStatusDeleting) ;;
  match outcome with
  | Err (true, updateErr) => throw (same_code "failed to update status %q for kafka %q" updateErr)
  | _ => ret tt
  end.

Definition reassignKafkaCluster (kafka : KafkaRequest) : M W ServiceError unit :=
  if kafka.(KR.Status) =?s KafkaRequestStatusProvisioning
  then fun w => Update (kafka <| KR.PlacementId := new_id w |>) w
  else ret tt.

Definition unassignKafkaFromDataplaneCluster (kafka : KafkaRequest) : M W ServiceError unit :=
  if (kafka.(KR.Status) =?s KafkaRequestStatusProvisioning) && negb (DesiredBillingModelIsEnterprise kafka)
  then wrap_err (same_code "failed to reset fields for kafka %q")
         (Updates kafka (fun row => row <| KR.ClusterID := "" |> <| KR.BootstrapServerHost := "" |>
            <| KR.DesiredStrimziVersion := "" |> <| KR.DesiredKafkaVersion := "" |> <| KR.DesiredKafkaIBPVersion := "" |>))
  else ret tt.

Definition persistKafkaRoutes (kafka : KafkaRequest) (kafkaStatus : DataPlaneKafkaStatus) (cluster : Cluster)
  : M W ServiceError unit :=
  match kafka.(KR.Routes) with
  | JNull =>
      if IsEmpty kafkaStatus.(Report_Routes) then ret tt
      else
        clusterDNS <~ wrap_err (same_code "failed to get DNS entry for ClusterID %q") (get_cluster_dns cluster.(CL.ClusterID)) ;;
        let baseClusterDomain := TrimPrefix clusterDNS (DefaultIngressDnsNamePrefix +:+ ".") in
        routes <~ lift (map_err (fun e => NewWithCause ErrorBadRequest (Some e) "routes are not valid")
                          (buildKafkaRoutes kafkaStatus.(Report_Routes) kafka baseClusterDomain)) ;;
        wrap_err (same_code "failed to update routes for kafka %q") (Update (SetRoutes kafka routes))
  | _ => ret tt
  end.

(** The reaction to the reported status.  The snapshot [kafka] is passed on
    as it was read: the fields that a reaction assigns in memory (routes,
    status, placement) are not read by what follows. *)
Definition react (ks : DataPlaneKafkaStatus) (cluster : Cluster) (kafka : KafkaRequest) : M W ServiceError unit :=
  match getManagedKafkaStatus ks with
  | statusReady =>
      if negb (suspending_or_suspended kafka) then
        _ <~ persistKafkaRoutes kafka ks cluster ;;
        setKafkaClusterReady (kafka <| KR.AdminApiServerURL := ks.(AdminServerURI) |>)
      else ret tt
  | statusInstalling => persistKafkaRoutes kafka ks cluster
  | statusError => if negb (suspending_or_suspended kafka) then setKafkaClusterFailed kafka else ret tt
  | statusDeleted => setKafkaClusterDeleting kafka
  | statusRejected => reassignKafkaCluster kafka
  | statusRejectedClusterFull => unassignKafkaFromDataplaneCluster kafka
  | statusSuspended =>
      if kafka.(KR.Status) =?s KafkaRequestStatusSuspending
      then wrap_err snd (UpdateStatus kafka.(KR.ID) KafkaRequestStatusSuspended)
      else ret tt
  | statusUnknown => ret tt
  end.

Definition logged {A} (r : result ServiceError A) : list error :=
  match r with Ok _ => [] | Err e => [EService e] end.

Definition processRealKafkaDeployment (ks : DataPlaneKafkaStatus) (cluster : Cluster) (w : W) : list error * W :=
  match GetByID ks.(KafkaClusterId) w with
  | (Err getErr, w1) => ([EService getErr], w1)
  | (Ok kafka, w1) =>
      if negb (kafka.(KR.ClusterID) =?s cluster.(CL.ClusterID)) then ([], w1)
      else
        let '(e, w2) := react ks cluster kafka w1 in
        let '(e', w3) := setKafkaRequestVersionFields kafka ks w2 in
        (logged e ++ logged e', w3)
  end.

Fixpoint process_reports (status : list DataPlaneKafkaStatus) (cluster : Cluster) (info : prewarming_info) (w : W)
  : prewarming_info * list error * W :=
  match status with
  | [] => (info, [], w)
  | ks :: rest =>
      match getManagedKafkaDeploymentType ks with
      | realDeploymentType =>
          let '(errs, w1) := processRealKafkaDeployment ks cluster w in
          let '(info', errs', w2) := process_reports rest cluster info w1 in
          (info', errs ++ errs', w2)
      | reservedDeploymentType =>
          let '(info1, errs) := processReservedKafkaDeployment ks info in
          let '(info', errs', w2) := process_reports rest cluster info1 w in
          (info', errs ++ errs', w2)
      end
  end.

Definition initial_info (cluster : Cluster) : prewarming_info :=
  list_to_map (map (fun t => (t, empty_counts)) (GetSupportedInstanceTypes cluster)).

(** The counts that are emitted as metrics, and the logged errors. *)
Definition UpdateDataPlaneKafkaService (clusterID : string) (status : list DataPlaneKafkaStatus)
  : M W ServiceError (prewarming_info * list error) :=
  found <~ find_cluster_by_id clusterID ;;
  match found with
  | None => throw (BadRequest "clusterID %q not found")
  | Some cluster => fun w =>
      let '(info, errs, w') := process_reports status cluster (initial_info cluster) w in (Ok (info, errs), w')
  end.
End DataPlaneKafkaService.

(** ** What a report may do *)

(** The status changes each report allows. *)
Definition report_allows (s : managedKafkaStatus) (row : KafkaRequest) (status : string) : Prop :=
  keeps_status row status \/
  match s with
  | statusReady => status = KafkaRequestStatusReady /\ row.(KR.RoutesCreated) = true /\
      suspending_or_suspended row = false /\ not_under_deletion row = true
  | statusError => status = KafkaRequestStatusFailed /\ suspending_or_suspended row = false /\ not_under_deletion row = true
  | statusDeleted => status = KafkaRequestStatusDeleting
  | statusSuspended => status = KafkaRequestStatusSuspended /\ row.(KR.Status) = KafkaRequestStatusSuspending
  | _ => False
  end.

Section ReportLemmas.
Context {W : Type} `{Database W} `{IdSource W} `{!KafkaExternals W}.

Lemma checkKafkaRequestCurrentStatus_ro k s : read_only (checkKafkaRequestCurrentStatus k s).
Proof. unfold checkKafkaRequestCurrentStatus. solve_read_only. Qed.

Lemma persistKafkaRoutes_moved k ks c w r w' :
  persistKafkaRoutes k ks c w = (r, w') -> snapshot_of k w ->
  Forall2 (moved k.(KR.ID) keeps_status) (tables_of w).(kafkas) (tables_of w').(kafkas).
Proof.
  unfold persistKafkaRoutes. intros Hr Hs.
  destruct (KR.Routes k); [|injection Hr as _ <-; apply moved_refl..].
  destruct (IsEmpty _); [injection Hr as _ <-; apply moved_refl|].
  apply bind_inv in Hr as [(dns & w1 & Hdns & Hr)|(e & He & _)].
  2:{ eapply (keeps_moved (wrap_err _ _)); [|exact He]. apply wrap_err_keeps; auto with fleet. }
  eapply keeps_run in Hdns; [|apply wrap_err_keeps; auto with fleet]. rewrite <- Hdns.
  unfold bind at 1, lift in Hr. destruct (buildKafkaRoutes _ _ _) as [routes|]; [|injection Hr as _ <-; apply moved_refl].
  simpl in Hr. unfold wrap_err in Hr. destruct (Update _ w1) as [r' w2] eqn:Hu. injection Hr as _ <-.
  eapply Update_snapshot in Hu; [exact Hu| |done|done]. destruct Hs as [Hne Hs]. split; [done|]. by rewrite Hdns.
Qed.

Lemma setKafkaClusterReady_moved k w r w' :
  setKafkaClusterReady k w = (r, w') -> k.(KR.ID) <> "" ->
  Forall2 (moved k.(KR.ID) (fun row st => keeps_status row st \/
    st = KafkaRequestStatusReady /\ k.(KR.RoutesCreated) = true /\ not_under_deletion row = true))
    (tables_of w).(kafkas) (tables_of w').(kafkas).
Proof.
  unfold setKafkaClusterReady. intros Hr Hne. destruct (KR.RoutesCreated k) eqn:Hrc; simpl in Hr;
    [|injection Hr as _ <-; apply moved_refl].
  apply bind_inv in Hr as [(b & w1 & Hb & Hr)|(e & He & _)].
  2:{ rewrite (read_only_run _ _ _ _ (checkKafkaRequestCurrentStatus_ro _ _) He). apply moved_refl. }
  rewrite <- (read_only_run _ _ _ _ (checkKafkaRequestCurrentStatus_ro _ _) Hb).
  unfold wrap_err in Hr. destruct (Updates _ _ w1) as [r' w2] eqn:Hu. injection Hr as _ <-.
  eapply Updates_moved in Hu; [exact Hu|done|by intros []|]. intros row _ _ Hn. right. by destruct row.
Qed.

Lemma setKafkaClusterFailed_moved k w r w' :
  setKafkaClusterFailed k w = (r, w') -> k.(KR.ID) <> "" ->
  Forall2 (moved k.(KR.ID) (fun row st => st = KafkaRequestStatusFailed /\ not_under_deletion row = true))
    (tables_of w).(kafkas) (tables_of w').(kafkas).
Proof.
  unfold setKafkaClusterFailed. intros Hr Hne. destruct (_ =?s _); [injection Hr as _ <-; apply moved_refl|].
  apply bind_inv in Hr as [(b & w1 & Hb & Hr)|(e & He & _)].
  2:{ rewrite (read_only_run _ _ _ _ (checkKafkaRequestCurrentStatus_ro _ _) He). apply moved_refl. }
  rewrite <- (read_only_run _ _ _ _ (checkKafkaRequestCurrentStatus_ro _ _) Hb).
  unfold wrap_err in Hr. destruct (Update _ w1) as [r' w2] eqn:Hu. injection Hr as _ <-.
  eapply (Update_moved _ _ _ _ (fun row st => st = KafkaRequestStatusFailed /\ not_under_deletion row = true)) in Hu;
    [exact Hu|by destruct k|]. intros row _ _ Hn. by destruct k.
Qed.

Lemma setKafkaRequestVersionFields_moved k ks w r w' :
  setKafkaRequestVersionFields k ks w = (r, w') -> k.(KR.ID) <> "" ->
  Forall2 (moved k.(KR.ID) keeps_status) (tables_of w).(kafkas) (tables_of w').(kafkas).
Proof.
  unfold setKafkaRequestVersionFields. intros Hr Hne. destruct (needs_version_update _ _);
    [|injection Hr as _ <-; apply moved_refl].
  unfold wrap_err in Hr. destruct (Updates _ _ w) as [r' w2] eqn:Hu. injection Hr as _ <-.
  eapply (Updates_moved _ _ _ _ _ keeps_status) in Hu; [exact Hu|done|by intros []|]. by intros [].
Qed.
End ReportLemmas.

Section ReportProperties.
Context {W : Type} `{Database W} `{IdSource W} `{!KafkaExternals W}.
Context (cfg : KafkaConfig) `{!ClusterLookup W cfg}.

Lemma react_moved ks c k w r w' :
  react ks c k w = (r, w') -> snapshot_of k w ->
  Forall2 (moved k.(KR.ID) (report_allows (getManagedKafkaStatus ks))) (tables_of w).(kafkas) (tables_of w').(kafkas).
Proof.
  intros Hr Hs. assert (forall l l', Forall2 (moved k.(KR.ID) keeps_status) l l' ->
    Forall2 (moved k.(KR.ID) (report_allows (getManagedKafkaStatus ks))) l l') as Hkeep
    by (intros l l'; apply moved_impl; by left).
  pose proof Hs as [Hne Hrow]. unfold react in Hr. destruct (getManagedKafkaStatus ks) eqn:Hst.
  - apply Hkeep. by eapply persistKafkaRoutes_moved.
  - destruct (suspending_or_suspended k) eqn:Hsus; simpl in Hr; [injection Hr as _ <-; apply moved_refl|].
    apply bind_inv in Hr as [([] & w1 & Hp & Hr)|(e & He & _)]; [|apply Hkeep; by eapply persistKafkaRoutes_moved].
    apply persistKafkaRoutes_moved in Hp; [|done]. apply setKafkaClusterReady_moved in Hr; [|by destruct k].
    pose (P := fun (row : KafkaRequest) st => keeps_status row st \/ st = KafkaRequestStatusReady /\
      k.(KR.RoutesCreated) = true /\ not_under_deletion row = true).
    apply (moved_impl _ P).
    { intros row st Hin Hid [Hks|(-> & Hrc & Hn)]; [by left|]. right. rewrite (Hrow row) in * by done. done. }
    eapply (moved_after_keep _ P); [| |exact Hp|].
    + intros row row' st Hss [Hks|(-> & Hrc & Hn)]; [left; unfold keeps_status in *; congruence|].
      right. unfold not_under_deletion in *. by rewrite <- Hss.
    + by left.
    + eapply moved_impl; [|by destruct k]. done.
  - destruct (suspending_or_suspended k) eqn:Hsus; simpl in Hr; [injection Hr as _ <-; apply moved_refl|].
    apply setKafkaClusterFailed_moved in Hr; [|done]. eapply moved_impl; [|exact Hr].
    intros row st Hin Hid [-> Hn]. right. rewrite (Hrow row) in * by done. done.
  - apply Hkeep. unfold reassignKafkaCluster in Hr. destruct (_ =?s _); [|injection Hr as _ <-; apply moved_refl].
    eapply Update_snapshot; [exact Hr|done|by destruct k..].
  - apply Hkeep. unfold unassignKafkaFromDataplaneCluster in Hr. destruct (_ && _); [|injection Hr as _ <-; apply moved_refl].
    unfold wrap_err in Hr. destruct (Updates _ _ w) as [r' w2] eqn:Hu. injection Hr as _ <-.
    eapply (Updates_moved _ _ _ _ _ keeps_status) in Hu; [exact Hu|done|by intros []|]. by intros [].
  - unfold setKafkaClusterDeleting, bind, attempt in Hr. destruct (UpdateStatus _ _ w) as [st w1] eqn:Hu.
    assert (w1 = w') as -> by (destruct st as [[]|[[] ?]]; by injection Hr).
    apply UpdateStatus_moved in Hu. eapply moved_impl; [|exact Hu]. intros row st' _ _ ->. by right.
  - injection Hr as _ <-. apply moved_refl.
  - destruct (String.eqb_spec (KR.Status k) KafkaRequestStatusSuspending) as [E|]; [|injection Hr as _ <-; apply moved_refl].
    unfold wrap_err in Hr. destruct (UpdateStatus _ _ w) as [st w1] eqn:Hu. injection Hr as _ <-.
    apply UpdateStatus_moved in Hu. eapply moved_impl; [|exact Hu]. intros row st' Hin Hid ->. right.
    split; [done|]. by rewrite (Hrow row).
Qed.

(** The effect of one report on one row. *)
Definition report_effect (ks : DataPlaneKafkaStatus) (cluster : Cluster) (row row' : KafkaRequest) : Prop :=
  row' = row \/
  (row.(KR.ID) = ks.(KafkaClusterId) /\ row'.(KR.ID) = row.(KR.ID) /\ row.(KR.ClusterID) = cluster.(CL.ClusterID) /\
   report_allows (getManagedKafkaStatus ks) row row'.(KR.Status)).

Lemma report_effect_ok ks c w errs w' :
  processRealKafkaDeployment ks c w = (errs, w') -> NoDup (map KR.ID (tables_of w).(kafkas)) ->
  Forall2 (report_effect ks c) (tables_of w).(kafkas) (tables_of w').(kafkas).
Proof.
  intros Hr Hnd. unfold processRealKafkaDeployment in Hr.
  assert (forall l, Forall2 (report_effect ks c) l l) as Hrefl by (intros l; induction l; constructor; [by left|done]).
  destruct (GetByID _ w) as [[k|e] w1] eqn:Hk; pose proof (read_only_run _ _ _ _ (GetByID_ro _) Hk) as Ht; rewrite <- Ht in *;
    [|injection Hr as _ <-; apply Hrefl].
  destruct (KR.ClusterID k =?s _) eqn:Hc; simpl in Hr; [|injection Hr as _ <-; apply Hrefl]. apply String.eqb_eq in Hc.
  assert (snapshot_of k w1) as Hs by (eapply GetByID_snapshot; [exact Hk|by rewrite <- Ht]).
  apply GetByID_ok in Hk as (_ & _ & Hid & _).
  destruct (react ks c k w1) as [r2 w2] eqn:Hreact. destruct (setKafkaRequestVersionFields k ks w2) as [r3 w3] eqn:Hv.
  injection Hr as _ <-. pose proof Hs as [Hne Hrow].
  apply react_moved in Hreact; [|done]. apply setKafkaRequestVersionFields_moved in Hv; [|done].
  assert (Forall2 (moved k.(KR.ID) (fun row st => row = k /\ report_allows (getManagedKafkaStatus ks) row st))
    (tables_of w1).(kafkas) (tables_of w3).(kafkas)) as Hall.
  { apply (moved_impl _ (report_allows (getManagedKafkaStatus ks))); [by auto|].
    eapply keep_after_moved; [by left|exact Hreact|exact Hv]. }
  eapply Forall2_impl; [exact Hall|]. intros row row' [->|(Hi & Hi' & -> & Ha)]; [by left|].
  right. split_and!; congruence || done.
Qed.

(** [C8] A report about a Kafka changes no other Kafka, nothing of a Kafka on
    another cluster, and its status only in the ways the kind of report
    allows: ready from a ready report once the routes exist, failed from an
    error report, neither while the Kafka is suspended, suspending or under
    deletion; suspended only from suspending; deleting only from a deleted
    report.  Rejections, installing and unknown reports change no status. *)
Theorem data_plane_report_transitions ks cluster w errs w' :
  processRealKafkaDeployment ks cluster w = (errs, w') -> NoDup (map KR.ID (tables_of w).(kafkas)) ->
  Forall2 (report_effect ks cluster) (tables_of w).(kafkas) (tables_of w').(kafkas).
Proof. apply report_effect_ok. Qed.

(** ** Batches of reports *)
Lemma report_effect_deletion_kept ks c row row' : report_effect ks c row row' -> deletion_kept row row'.
Proof.
  intros [->|(Hid & Hid' & _ & Ha)]; [by split|]. split; [done|].
  unfold report_allows, keeps_status, not_under_deletion in *. intros Hd.
  destruct Ha as [->|Ha]; [done|].
  destruct (getManagedKafkaStatus ks); try done.
  - destruct Ha as (_ & _ & _ & Hn). congruence.
  - destruct Ha as (_ & _ & Hn). congruence.
  - by rewrite Ha.
  - destruct Ha as [_ Hs]. by rewrite Hs in Hd.
Qed.

Lemma process_reports_batch reports c info w info' errs w' :
  process_reports reports c info w = (info', errs, w') -> NoDup (map KR.ID (tables_of w).(kafkas)) ->
  Forall2 deletion_kept (tables_of w).(kafkas) (tables_of w').(kafkas).
Proof.
  revert info w info' errs w'. induction reports as [|ks reports IH]; simpl; intros info w info' errs w' Hr Hnd.
  - injection Hr as _ _ <-. clear. induction (kafkas _); constructor; [by split|done].
  - destruct (getManagedKafkaDeploymentType ks).
    + destruct (processReservedKafkaDeployment ks info) as [info1 e1].
      destruct (process_reports reports c info1 w) as [[i2 e2] w2] eqn:Hp. injection Hr as _ _ <-. by eapply IH.
    + destruct (processRealKafkaDeployment ks c w) as [e1 w1] eqn:H1.
      destruct (process_reports reports c info w1) as [[i2 e2] w2] eqn:Hp. injection Hr as _ _ <-.
      apply report_effect_ok in H1; [|done].
      assert (Forall2 deletion_kept (tables_of w).(kafkas) (tables_of w1).(kafkas)) as Hb
        by (eapply Forall2_impl; [exact H1|apply report_effect_deletion_kept]).
      apply IH in Hp; [|by rewrite (deletion_kept_ids _ _ Hb)].
      eapply Forall2_trans; [|exact Hb|exact Hp]. intros x y z [? ?] [? ?]. split; [congruence|auto].
Qed.

Lemma UpdateDataPlaneKafkaService_kept clusterID reports w r w' :
  UpdateDataPlaneKafkaService cfg clusterID reports w = (r, w') -> NoDup (map KR.ID (tables_of w).(kafkas)) ->
  Forall2 deletion_kept (tables_of w).(kafkas) (tables_of w').(kafkas).
Proof.
  intros Hr Hnd. unfold UpdateDataPlaneKafkaService in Hr. apply bind_inv in Hr as [(found & w1 & Hf & Hr)|(e & He & _)].
  2:{ by rewrite (read_only_run _ _ _ _ (find_cluster_by_id_ro _) He). }
  rewrite <- (read_only_run _ _ _ _ (find_cluster_by_id_ro _) Hf) in *. destruct found as [c|]; [|by injection Hr as _ <-].
  destruct (process_reports _ _ _ w1) as [[info errs] w2] eqn:Hp. injection Hr as _ <-. by eapply process_reports_batch.
Qed.

(** Whatever a cluster reports, a batch of reports creates and removes no
    Kafka, and a Kafka under deletion stays under deletion. *)
Theorem data_plane_reports_keep_deletion clusterID reports w r w' :
  UpdateDataPlaneKafkaService cfg clusterID reports w = (r, w') -> NoDup (map KR.ID (tables_of w).(kafkas)) ->
  map KR.ID (tables_of w').(kafkas) = map KR.ID (tables_of w).(kafkas) /\
  Forall2 (fun row row' => not_under_deletion row = false -> not_under_deletion row' = false)
    (tables_of w).(kafkas) (tables_of w').(kafkas).
Proof.
  intros Hr Hnd. apply UpdateDataPlaneKafkaService_kept in Hr; [|done].
  split; [by apply deletion_kept_ids|]. eapply Forall2_impl; [exact Hr|]. by intros ? ? [_ ?].
Qed.
End ReportProperties.

(** ** The counts of the reserved Kafkas *)

(** The instance type a reserved report counts for. *)
Definition reserved_type (ks : DataPlaneKafkaStatus) : option string :=
  match getManagedKafkaDeploymentType ks with
  | realDeploymentType => None
  | reservedDeploymentType =>
      match Split ks.(KafkaClusterId) "-" with _ :: _ :: t :: _ :: _ => Some t | _ => None end
  end.

Definition counts_for (t : string) (s : managedKafkaStatus) (ks : DataPlaneKafkaStatus) : bool :=
  bool_decide (reserved_type ks = Some t) && bool_decide (getManagedKafkaStatus ks = s).

Definition count_of (info : prewarming_info) (t : string) (s : managedKafkaStatus) : Z :=
  default 0 (info !! t ≫= lookup s).

Lemma reserved_step ks info info' errs t s :
  getManagedKafkaDeploymentType ks = reservedDeploymentType ->
  processReservedKafkaDeployment ks info = (info', errs) ->
  (is_Some (info' !! t) <-> is_Some (info !! t)) /\
  (is_Some (info !! t) -> count_of info' t s = count_of info t s + if counts_for t s ks then 1 else 0).
Proof.
  intros Hty Hr. unfold processReservedKafkaDeployment in Hr. unfold counts_for, reserved_type. rewrite Hty.
  destruct (Split _ _) as [|? [|? [|ty [|? ?]]]]; try (injection Hr as <- _; split; [done|]; intros _; simpl; lia).
  destruct (info !! ty) as [counts|] eqn:Hl; injection Hr as <- _.
  - split; [destruct (decide (ty = t)) as [->|]; [by rewrite lookup_insert_eq, Hl | by rewrite lookup_insert_ne]|].
    intros _. unfold count_of. destruct (decide (ty = t)) as [->|Hne].
    + rewrite lookup_insert_eq, Hl. simpl. rewrite (bool_decide_true (Some t = Some t)) by done. simpl.
      destruct (decide (getManagedKafkaStatus ks = s)) as [<-|Hs].
      * by rewrite lookup_insert_eq, bool_decide_true.
      * rewrite lookup_insert_ne, bool_decide_false by done. lia.
    + rewrite lookup_insert_ne by done. rewrite (bool_decide_false (Some ty = Some t)) by congruence. simpl. lia.
  - split; [done|]. intros Ht. rewrite (bool_decide_false (Some ty = Some t)); [simpl; lia|]. intros [= ->]. by rewrite Hl in Ht; destruct Ht.
Qed.

Section CountProperties.
Context {W : Type} `{Database W} `{IdSource W} `{!KafkaExternals W}.
Context (cfg : KafkaConfig) `{!ClusterLookup W cfg}.

Lemma process_reports_counts reports c info w info' errs w' t s :
  process_reports reports c info w = (info', errs, w') -> is_Some (info !! t) ->
  count_of info' t s = count_of info t s + Z.of_nat (length (List.filter (counts_for t s) reports)).
Proof.
  revert info w info' errs w'. induction reports as [|ks reports IH]; simpl; intros info w info' errs w' Hr Ht.
  - injection Hr as <- _ _. lia.
  - destruct (getManagedKafkaDeploymentType ks) eqn:Hty.
    + destruct (processReservedKafkaDeployment ks info) as [info1 e1] eqn:Hres.
      destruct (process_reports reports c info1 w) as [[i2 e2] w2] eqn:Hp. injection Hr as <- _ _.
      eapply reserved_step in Hres as [Hdom Hcount]; [|done].
      rewrite (IH _ _ _ _ _ Hp) by (by apply Hdom). rewrite Hcount by done. case_match; simpl; lia.
    + destruct (processRealKafkaDeployment ks c w) as [e1 w1].
      destruct (process_reports reports c info w1) as [[i2 e2] w2] eqn:Hp. injection Hr as <- _ _.
      rewrite (IH _ _ _ _ _ Hp Ht). unfold counts_for at 2, reserved_type. by rewrite Hty.
Qed.

Lemma initial_info_zero c t s :
  t ∈ GetSupportedInstanceTypes c -> is_Some (initial_info c !! t) /\ count_of (initial_info c) t s = 0.
Proof.
  intros Ht. assert (initial_info c !! t = Some empty_counts) as Hl.
  { unfold initial_info. induction (GetSupportedInstanceTypes c) as [|t' l IH]; [set_solver|]. simpl.
    destruct (decide (t' = t)) as [->|]; [by rewrite lookup_insert_eq|]. rewrite lookup_insert_ne by done.
    apply IH. set_solver. }
  unfold count_of. rewrite Hl. split; [done|]. by destruct s.
Qed.

(** The counts published for the reserved Kafkas of a cluster are, for
    each instance type the cluster supports and each status, the number of
    reserved reports of the batch with that type and status. *)
Theorem reserved_counts_exact clusterID reports w info errs w' t s :
  UpdateDataPlaneKafkaService cfg clusterID reports w = (Ok (info, errs), w') ->
  (forall c, c ∈ (tables_of w).(clusters) -> c.(CL.ClusterID) = clusterID -> t ∈ GetSupportedInstanceTypes c) ->
  count_of info t s = Z.of_nat (length (List.filter (counts_for t s) reports)).
Proof.
  intros Hr Hsup. unfold UpdateDataPlaneKafkaService in Hr. apply bind_ok in Hr as (found & w1 & Hf & Hr).
  apply find_cluster_by_id_ok in Hf. destruct found as [c|]; [|discriminate Hr]. destruct Hf as [Hc Hid%String.eqb_eq].
  destruct (process_reports _ _ _ w1) as [[i2 e2] w2] eqn:Hp. injection Hr as -> _ _.
  destruct (initial_info_zero c t s) as [His Hz]; [by apply Hsup|].
  rewrite (process_reports_counts _ _ _ _ _ _ _ t s Hp His), Hz. lia.
Qed.
End CountProperties.

(** ** Witnesses: reports on the small deployment *)
Module DemoReports.
Definition report (id reason status : string) : DataPlaneKafkaStatus :=
  mkDataPlaneKafkaStatus id [mkCondition "Ready" reason status ""] [] "2.8.1" "strimzi-0.23.0-1" "2.8" "https://admin".

Definition batch : list DataPlaneKafkaStatus :=
  [report "k1" "Error" "False"; report "k2" "" "True"; report "reserved-kafka-standard-1" "" "True"].
End DemoReports.

(** An error report fails the ready Kafka [k1]. *)
Lemma data_plane_report_transitions_witness :
  exists errs w', processRealKafkaDeployment (DemoReports.report "k1" "Error" "False") Fixtures.c1 Fixtures.world = (errs, w') /\
    map KR.Status (tables_of w').(kafkas) = [KafkaRequestStatusFailed; KafkaRequestStatusDeleting; KafkaRequestStatusAccepted] /\
    Forall2 (report_effect (DemoReports.report "k1" "Error" "False") Fixtures.c1)
      (tables_of Fixtures.world).(kafkas) (tables_of w').(kafkas).
Proof.
  eexists _, _. split; [vm_compute; reflexivity|]. split; [reflexivity|].
  eapply (data_plane_report_transitions (DemoReports.report "k1" "Error" "False") Fixtures.c1 Fixtures.world);
    [vm_compute; reflexivity | vm_compute; repeat constructor; set_solver].
Defined.

(** The batch says that [k2], which is being deleted, is ready. *)
Lemma data_plane_reports_keep_deletion_witness :
  Forall2 (fun row row' => not_under_deletion row = false -> not_under_deletion row' = false)
    (tables_of Fixtures.world).(kafkas)
    (tables_of (snd (UpdateDataPlaneKafkaService Fixtures.kafka_config "c1" DemoReports.batch Fixtures.world))).(kafkas).
Proof.
  refine (proj2 (data_plane_reports_keep_deletion Fixtures.kafka_config "c1" DemoReports.batch Fixtures.world _ _
    (surjective_pairing _) _)).
  vm_compute; repeat constructor; set_solver.
Defined.

Lemma reserved_counts_exact_witness :
  exists info errs w', UpdateDataPlaneKafkaService Fixtures.kafka_config "c1" DemoReports.batch Fixtures.world = (Ok (info, errs), w') /\
    count_of info STANDARD statusReady = 1.
Proof.
  destruct (UpdateDataPlaneKafkaService Fixtures.kafka_config "c1" DemoReports.batch Fixtures.world) as [r w'] eqn:Hrun.
  assert (is_ok r = true) as Hok by (replace r with (fst (r, w')) by done; rewrite <- Hrun; vm_compute; reflexivity).
  destruct r as [[info errs]|e]; [|discriminate Hok]. exists info, errs, w'. split; [done|].
  apply (reserved_counts_exact Fixtures.kafka_config "c1" DemoReports.batch Fixtures.world info errs w'); [exact Hrun|].
  intros c Hc _. repeat (apply elem_of_cons in Hc as [->|Hc]; [vm_compute; repeat constructor|]). by apply not_elem_of_nil in Hc.
Defined.
