(* ===== verification/Workers.v ===== *)
(** * The reconcilers of the Kafkas

    [src/internal/kafka/internal/workers/kafka_mgrs]: the workers that
    periodically take the Kafkas of a status and move them on.  Each [Reconcile]
    lists its Kafkas once and then works through that snapshot; an error of one
    Kafka is collected and the loop goes on.  A call is one uninterrupted
    computation; metrics are not modelled, except the published capacities. *)
From S2P Require Import Prelude Arrays Errors Status Config Model HostNames Store Fixtures ClusterService Placement KafkaService Transitions.

(** [acl.AccessControlListConfig], the fields the worker reads. *)
Record AccessControlListConfig := mkAccessControlListConfig {
  EnableDenyList : bool;
  DenyList : list string
}.

(** [QuotaService.DeleteQuota]. *)
Class QuotaDeletion (W : Type) `{Database W} := {
  delete_quota : string -> string -> M W ServiceError unit;
  delete_quota_ro : forall quotaType sub, read_only (delete_quota quotaType sub)
}.
#[export] Hint Resolve delete_quota_ro : fleet.

(** What wrapping a nil [*ServiceError] gives: an error that is not nil and
    that has no text. *)
Definition nil_service_error : error := EPlain "<nil>".

(** The Kafkas a worker lists, or the error of the listing. *)
Definition list_then {W} (listing : M W ServiceError (list KafkaRequest)) (reason : string)
  (work : list KafkaRequest -> W -> list error * W) (w : W) : list error * W :=
  match listing w with
  | (Err e, w1) => let '(errs, w2) := work [] w1 in (EWrap reason (EService e) :: errs, w2)
  | (Ok l, w1) => work l w1
  end.

Section KafkaWorkers.
Context {W : Type} `{Database W} `{IdSource W} `{!KafkaExternals W} `{!QuotaDeletion W}.
Context (dataplaneClusterConfig : DataplaneClusterConfig) (providerConfig : ProviderConfig) (kafkaConfig : KafkaConfig).
Context `{!ClusterLookup W kafkaConfig}.

(** ** Accepted Kafkas *)
Definition duration_since_creation {E} (kafka : KafkaRequest) : M W E Z :=
  now <~ get_time ;; ret (now - kafka.(KR.CreatedAt)).

Definition fail_kafka (kafka : KafkaRequest) (reason : string) : KafkaRequest :=
  kafka <| KR.Status := KafkaRequestStatusFailed |> <| KR.FailedReason := reason |>.

Definition markTheUnassignedKafkaAsFailedOrAllowRetryClusterPlacementReconciliation (kafka : KafkaRequest) : M W error unit :=
  durationSinceCreation <~ duration_since_creation kafka ;;
  if durationSinceCreation <? AcceptedKafkaMaxRetryDurationWhileWaitingForClusterAssignment then ret tt
  else wrap_err (fun e => EWrap "failed to update failed kafka %s" (EService e))
         (Update (fail_kafka kafka "Region %s in cloud provider %s cannot accept %s Kafka of size %s at the moment.")).

Definition markTheAssignedKafkaAsFailedOrAllowRetryStrimziVersionPickingReconciliation (kafka : KafkaRequest) : M W error unit :=
  durationSinceCreation <~ duration_since_creation kafka ;;
  if durationSinceCreation <? AcceptedKafkaMaxRetryDurationWhileWaitingForStrimziVersion then ret tt
  else wrap_err (fun e => EWrap "failed to update failed kafka %s" (EService e))
         (Update (fail_kafka kafka "Failed to get desired Strimzi version")).

Definition assignDesiredKafkaVersions (kafka : KafkaRequest) (latestReadyStrimziVersion : StrimziVersion)
  : result error KafkaRequest :=
  match GetLatestKafkaVersion latestReadyStrimziVersion with
  | None => Err (EPlain "failed to get Kafka version %s")
  | Some desiredKafkaVersion =>
      match GetLatestKafkaIBPVersion latestReadyStrimziVersion with
      | None => Err (EPlain "failed to get Kafka IBP version %s")
      | Some desiredKafkaIBPVersion =>
          Ok (kafka <| KR.DesiredStrimziVersion := latestReadyStrimziVersion.(Version) |>
                    <| KR.DesiredKafkaVersion := desiredKafkaVersion.(KafkaVersion_Version) |>
                    <| KR.DesiredKafkaIBPVersion := desiredKafkaIBPVersion.(KafkaIBPVersion_Version) |>)
      end
  end.

(** The cluster of an accepted Kafka: the assigned one, or a new one; [None]
    when there is no room yet. *)
Definition cluster_of_accepted (kafka : KafkaRequest) : M W error (option Cluster) :=
  if kafka.(KR.ClusterID) =?s "" then
    wrap_err (EWrap "failed to find cluster for kafka request %s") (Placement_FindCluster dataplaneClusterConfig kafkaConfig kafka)
  else
    foundCluster <~ wrap_err (fun e => EWrap "failed to find cluster with '%s' for kafka request '%s'" (EService e))
                      (find_cluster_by_id kafka.(KR.ClusterID)) ;;
    match foundCluster with
    | None => throw (EWrap "failed to find cluster with '%s' for kafka request '%s'" nil_service_error)
    | Some c => ret (Some c)
    end.

Definition reconcileAcceptedKafka (kafka : KafkaRequest) : M W error unit :=
  found <~ cluster_of_accepted kafka ;;
  match found with
  | None => markTheUnassignedKafkaAsFailedOrAllowRetryClusterPlacementReconciliation kafka
  | Some cluster =>
      let kafka := if kafka.(KR.ClusterID) =?s "" then kafka <| KR.ClusterID := cluster.(CL.ClusterID) |> else kafka in
      latestReadyStrimziVersion <~ lift (map_err (EWrap "Failed to get latest available ready strimzi version for cluster %s")
                                           (GetLatestAvailableAndReadyStrimziVersion cluster)) ;;
      match latestReadyStrimziVersion with
      | None => markTheAssignedKafkaAsFailedOrAllowRetryStrimziVersionPickingReconciliation kafka
      | Some version =>
          kafka <~ lift (assignDesiredKafkaVersions kafka version) ;;
          wrap_err (fun e => EWrap "failed to update kafka %s with cluster details" (EService e))
            (Update (kafka <| KR.Status := KafkaRequestStatusPreparing |>))
      end
  end.

Definition Accepted_Reconcile (w : W) : list error * W :=
  list_then (ListByStatus [KafkaRequestStatusAccepted]) "failed to list accepted kafkas"
    (for_all_collect (fun kafka => wrap_err (EWrap "failed to reconcile accepted kafka %s") (reconcileAcceptedKafka kafka))) w.

(** ** Preparing Kafkas *)

(** [kafkaRequest] is the request as the preparation left it. *)
Definition handleKafkaRequestCreationError (kafkaRequest : KafkaRequest) (err : ServiceError) : M W error unit :=
  if IsServerErrorClass err then
    durationSinceCreation <~ duration_since_creation kafkaRequest ;;
    if KafkaMaxDurationWithProvisioningErrs <? durationSinceCreation then
      _ <~ wrap_err (fun e => EWrap "Failed to update kafka %s in failed state. Kafka failed reason %s" (EService e))
             (Update (fail_kafka kafkaRequest (Reason err))) ;;
      throw (EWrap "Kafka %s is in server error failed state. Maximum attempts has been reached" (EService err))
    else throw (EWrap "failed to provision kafka %s on cluster %s" (EService err))
  else if IsClientErrorClass err then
    _ <~ wrap_err (fun _ => EWrap "Failed to update kafka %s in failed state" (EService err))
           (Update (fail_kafka kafkaRequest (Reason err))) ;;
    throw (EWrap "error creating kafka %s" (EService err))
  else throw (EWrap "failed to provision kafka %s on cluster %s" (EService err)).

Definition reconcilePreparingKafka (kafka : KafkaRequest) : M W error unit :=
  prepared <~ attempt (PrepareKafkaRequest kafkaConfig kafka) ;;
  match prepared with
  | Ok _ => ret tt
  | Err (mutated, err) => handleKafkaRequestCreationError mutated err
  end.

Definition Preparing_Reconcile (w : W) : list error * W :=
  list_then (ListByStatus [KafkaRequestStatusPreparing]) "failed to list preparing kafkas"
    (for_all_collect (fun kafka => wrap_err (EWrap "failed to reconcile preparing kafka %s") (reconcilePreparingKafka kafka))) w.

(** ** Provisioning Kafkas *)
Definition reassignProvisioningKafka (kafka : KafkaRequest) : M W error unit :=
  found <~ attempt (Placement_FindCluster dataplaneClusterConfig kafkaConfig kafka) ;;
  match found with
  | Ok (Some cluster) =>
      let kafka := kafka <| KR.ClusterID := cluster.(CL.ClusterID) |> in
      kafka <~ wrap_err (fun e => EWrap "error assigning bootstrap server host to kafka %s" (EService e))
                 (AssignBootstrapServerHost kafkaConfig kafka) ;;
      latest <~ lift (map_err (EWrap "error finding ready strimzi versions for kafka %s")
                        (GetLatestAvailableAndReadyStrimziVersion cluster)) ;;
      match latest with
      | None => throw (EPlain "could not find latest strimzi version for kafka %s")
      | Some latestStrimziVersion =>
          kafka <~ lift (assignDesiredKafkaVersions kafka latestStrimziVersion) ;;
          wrap_err (fun _ => EPlain "failed to update kafka %s in provisioning state") (Update kafka)
      end
  | _ => throw (EPlain "region %s cannot accept instance type: %s at this moment for kafka %s")
  end.

Definition Provisioning_Reconcile (w : W) : list error * W :=
  list_then (ListByStatus [KafkaRequestStatusProvisioning]) "failed to list provisioning kafkas"
    (for_all_collect (fun kafka =>
       if kafka.(KR.ClusterID) =?s ""
       then wrap_err (EWrap "failed to reassign provisioning kafka %q") (reassignProvisioningKafka kafka)
       else ret tt)) w.

(** ** Ready Kafkas *)
Definition reconcileCanaryServiceAccount (kafkaRequest : KafkaRequest) : M W error unit :=
  if (kafkaRequest.(KR.CanaryServiceAccountClientID) =?s "") && (kafkaRequest.(KR.CanaryServiceAccountClientSecret) =?s "") then
    serviceAccount <~ wrap_err (fun e => EWrap "failed to create canary service account: %s" (EService e))
                        (create_service_account (canary_request kafkaRequest)) ;;
    wrap_err (fun e => EWrap "failed to update kafka %s with canary service account details" (EService e))
      (Update (kafkaRequest <| KR.CanaryServiceAccountClientID := serviceAccount.(SA_ClientID) |>
                            <| KR.CanaryServiceAccountClientSecret := serviceAccount.(SA_ClientSecret) |>))
  else ret tt.

Definition Ready_Reconcile (w : W) : list error * W :=
  if negb enable_authentication_on_kafka then ([], w)
  else list_then (ListByStatus [KafkaRequestStatusReady]) "failed to list ready kafkas"
         (for_all_collect (fun kafka => wrap_err (EWrap "failed to create ready kafka canary service account: %q")
                                          (reconcileCanaryServiceAccount kafka))) w.

(** ** Deleting Kafkas *)
Definition reconcileDeletingKafkas (kafka : KafkaRequest) : M W error unit :=
  _ <~ lift (map_err EService (get_quota_service kafka.(KR.QuotaType))) ;;
  _ <~ wrap_err (fun e => EWrap "failed to delete subscription id %s for kafka %s" (EService e))
         (delete_quota kafka.(KR.QuotaType) kafka.(KR.SubscriptionId)) ;;
  wrap_err (fun e => EWrap "failed to delete kafka %s" (EService e)) (Kafka_Delete kafkaConfig kafka).

(** Kafkas whose deprovisioning was asked before they reached a cluster are
    removed with the deleting ones. *)
Definition never_provisioned (k : KafkaRequest) : bool := k.(KR.BootstrapServerHost) =?s "".

Definition Deleting_Reconcile (w : W) : list error * W :=
  list_then (ListByStatus [KafkaRequestStatusDeleting]) "failed to list deleting kafka requests"
    (fun deletingKafkas =>
       list_then (ListByStatus [KafkaRequestStatusDeprovision]) "failed to list kafka deprovisioning requests"
         (fun deprovisioningKafkas =>
            for_all_collect (fun kafka => wrap_err (EWrap "failed to reconcile deleting kafka request %s") (reconcileDeletingKafkas kafka))
              (deletingKafkas ++ List.filter never_provisioned deprovisioningKafkas))) w.

(** ** Routes *)
Definition reconcile_routes (kafka : KafkaRequest) : M W error unit :=
  kafka <~ wrap_err EService
    (if kafkaConfig.(EnableKafkaCNAMERegistration) then
       if kafka.(KR.RoutesCreationId) =?s "" then
         change <~ ChangeKafkaCNAMErecords kafkaConfig kafka KafkaRoutesActionCreate ;;
         ret (kafka <| KR.RoutesCreationId := change.(Change_Id) |>
                    <| KR.RoutesCreated := change.(Change_Status) =?s "INSYNC" |>)
       else
         recordStatus <~ GetCNAMERecordStatus kafka ;;
         ret (kafka <| KR.RoutesCreated := recordStatus.(Change_Status) =?s "INSYNC" |>)
     else ret (kafka <| KR.RoutesCreated := true |>)) ;;
  wrap_err EService (Update kafka).

Definition CNAME_Reconcile (w : W) : list error * W :=
  list_then ListKafkasWithRoutesNotCreated "failed to list kafkas whose routes are not created"
    (for_all_collect reconcile_routes) w.

Definition TLS_Reconcile (w : W) : list error * W :=
  list_then ListAll "failed to list kafkas"
    (for_all_collect (fun kafka => wrap_err (EWrap "failed to reconcile kafka routes tls certificates%q")
                                     (ManagedKafkasRoutesTLSCertificate kafkaConfig kafka))) w.
End KafkaWorkers.

(** ** Facts about the loops *)
Section ListingFacts.
Context {W : Type} `{Database W}.

(** A listing returns the rows that satisfy [p]. *)
Definition lists (p : KafkaRequest -> bool) (listing : M W ServiceError (list KafkaRequest)) : Prop :=
  read_only listing /\ forall w l w', listing w = (Ok l, w') -> l ≡ₚ List.filter p (tables_of w).(kafkas).

Lemma select_lists p reason : lists p (wrap_err (general reason) (exec (SelectKafkas p))).
Proof.
  split; [solve_read_only|]. intros w l w' Hl%wrap_err_ok. by apply exec_ok in Hl as [Hl _].
Qed.

Lemma ListByStatus_lists s : lists (fun k => k.(KR.Status) =?s s) (ListByStatus [s]).
Proof.
  destruct (select_lists (fun k => Contains [s] k.(KR.Status)) "failed to list by status") as [Hro Hl].
  split; [exact Hro|]. intros w l w' Hrun. unfold ListByStatus in Hrun. simpl in Hrun. rewrite (Hl w l w' Hrun).
  enough (List.filter (fun k => Contains [s] k.(KR.Status)) (tables_of w).(kafkas) =
          List.filter (fun k => k.(KR.Status) =?s s) (tables_of w).(kafkas)) as -> by done.
  apply filter_ext_in'. intros k _. apply eq_true_iff_eq. rewrite Contains_true, String.eqb_eq. set_solver.
Qed.

Definition listed (r : result ServiceError (list KafkaRequest)) : list KafkaRequest :=
  match r with Ok l => l | Err _ => [] end.

Lemma elem_of_listed p listing w r w' k :
  lists p listing -> listing w = (r, w') -> k ∈ listed r -> k ∈ (tables_of w).(kafkas) /\ p k = true.
Proof.
  intros [_ Hl] Hr Hk. destruct r as [l|]; [|set_solver]. simpl in Hk. rewrite (Hl _ _ _ Hr) in Hk.
  by apply list_elem_of_In, filter_In in Hk as [Hk%list_elem_of_In Hp].
Qed.

Lemma listed_complete p listing w r w' k :
  lists p listing -> listing w = (r, w') -> is_ok r = true -> k ∈ (tables_of w).(kafkas) -> p k = true -> k ∈ listed r.
Proof.
  intros [_ Hl] Hr Hok Hk Hp. destruct r as [l|]; [|done]. simpl. rewrite (Hl _ _ _ Hr).
  apply list_elem_of_In, filter_In. by rewrite <- list_elem_of_In.
Qed.

Lemma list_then_inv listing reason work (w : W) errs w' :
  list_then listing reason work w = (errs, w') ->
  exists r w1 errs0, listing w = (r, w1) /\ work (listed r) w1 = (errs0, w') /\ (errs = [] -> is_ok r = true /\ errs0 = []).
Proof.
  unfold list_then. destruct (listing w) as [[l|e] w1].
  - intros Hw. by exists (Ok l), w1, errs.
  - destruct (work [] w1) as [errs0 w2] eqn:Hw. intros [= <- <-]. by exists (Err e), w1, errs0.
Qed.

(** A worker that lists and loops changes only what it lists. *)
Lemma list_then_worked p listing reason (f : KafkaRequest -> M W error unit) R w errs w' :
  list_then listing reason (for_all_collect f) w = (errs, w') -> lists p listing -> keyed (tables_of w) ->
  (forall k w r w', p k = true -> f k w = (r, w') -> snapshot_of k w ->
     Forall2 (changed k.(KR.ID) R) (tables_of w).(kafkas) (tables_of w').(kafkas)) ->
  Forall2 (worked_on (fun k => p k = true) R) (tables_of w).(kafkas) (tables_of w').(kafkas).
Proof.
  intros Hr [Hro Hlist] Hkey Hf. unfold list_then in Hr. destruct (listing w) as [[l|e] w1] eqn:Hl.
  - pose proof (read_only_run _ _ _ _ Hro Hl) as Ht. apply Hlist in Hl. rewrite <- Ht in *.
    destruct (snapshots_of_query p l w1) as [Hnd Hs]; [done..|]. rewrite Forall_forall in Hs.
    eapply for_all_collect_changed in Hr; [| |done|].
    + eapply Forall2_impl; [exact Hr|]. intros row row' [->|(Hin & Hid & HR)]; [by left|]. right. split_and!; [by apply Hs|done..].
    + intros k w2 r w3 Hk. apply Hf. by apply Hs.
    + apply Forall_forall. intros k Hk. by apply Hs.
  - simpl in Hr. injection Hr as _ <-. rewrite (read_only_run _ _ _ _ Hro Hl).
    clear. induction (kafkas _); constructor; [by left|done].
Qed.
End ListingFacts.

(** ** The creation pipeline *)
Section PipelineFacts.
Context {W : Type} `{Database W} `{IdSource W} `{!KafkaExternals W} `{!QuotaDeletion W}.
Context (dp : DataplaneClusterConfig) (cfg : KafkaConfig) `{!ClusterLookup W cfg}.

(** The update of a snapshot [k'] of [k] that ends in the status [s]. *)
Lemma Update_to k k' s w r w' :
  Update k' w = (r, w') -> snapshot_of k w -> k'.(KR.ID) = k.(KR.ID) -> k'.(KR.Status) = s -> s <> "" ->
  Forall2 (moved k.(KR.ID) (fun _ st => st = s)) (tables_of w).(kafkas) (tables_of w').(kafkas).
Proof.
  intros Hu [Hne _] Hid Hs Hnz. rewrite <- Hid. eapply Update_moved; [done|congruence|].
  intros row _ _ _. rewrite Hs. unfold pick_string. apply String.eqb_neq in Hnz. by rewrite Hnz.
Qed.

Lemma wrapped_run {E E' A} (g : E -> E') (m : M W E A) w r w' :
  wrap_err g m w = (r, w') -> exists r0, m w = (r0, w').
Proof. unfold wrap_err. destruct (m w) as [r0 w1]. intros [= _ ->]. eauto. Qed.

Lemma cluster_of_accepted_ro k : read_only (cluster_of_accepted dp cfg k).
Proof. unfold cluster_of_accepted. solve_read_only. Qed.

Lemma snapshot_of_tables k w w' : tables_of w' = tables_of w -> snapshot_of k w -> snapshot_of k w'.
Proof. intros Ht [Hne Hs]. split; [done|]. by rewrite Ht. Qed.

Definition to_one_of (targets : list string) (row row' : KafkaRequest) : Prop :=
  row'.(KR.Status) = row.(KR.Status) \/ row'.(KR.Status) ∈ targets.

Lemma moved_to_one_of id s targets l l' :
  s ∈ targets -> Forall2 (moved id (fun _ st => st = s)) l l' -> Forall2 (changed id (to_one_of targets)) l l'.
Proof.
  intros Hs Hall. eapply Forall2_impl; [exact Hall|]. intros row row' [->|(? & ? & ?)]; [by left|].
  right. split_and!; [done..|]. right. congruence.
Qed.

Lemma keep_to_one_of id targets l l' : Forall2 (moved id keeps_status) l l' -> Forall2 (changed id (to_one_of targets)) l l'.
Proof.
  intros Hall. eapply Forall2_impl; [exact Hall|]. intros row row' [->|(? & ? & ?)]; [by left|].
  right. split_and!; [done..|]. by left.
Qed.

Lemma same_tables_changed id R w w' :
  tables_of w' = tables_of w -> Forall2 (changed id R) (tables_of w).(kafkas) (tables_of w').(kafkas).
Proof. intros ->. induction (kafkas _); constructor; [by left|done]. Qed.

Lemma mark_failed_changed {E} k k' d (g : ServiceError -> E) reason targets w r w' :
  (durationSinceCreation <~ duration_since_creation k' ;;
   if durationSinceCreation <? d then ret tt else wrap_err g (Update (fail_kafka k' reason))) w = (r, w') ->
  KafkaRequestStatusFailed ∈ targets -> snapshot_of k w -> k'.(KR.ID) = k.(KR.ID) ->
  Forall2 (changed k.(KR.ID) (to_one_of targets)) (tables_of w).(kafkas) (tables_of w').(kafkas).
Proof.
  intros Hr Ht Hs Hid. unfold bind, duration_since_creation, bind, get_time, ret in Hr.
  destruct (_ <? _); [injection Hr as _ <-; by apply same_tables_changed|].
  apply wrapped_run in Hr as [r0 Hu]. eapply moved_to_one_of; [exact Ht|].
  eapply Update_to; [exact Hu|done|by destruct k'|by destruct k'|done].
Qed.

Lemma assignDesiredKafkaVersions_ok k v k' :
  assignDesiredKafkaVersions k v = Ok k' ->
  exists kv ibp, GetLatestKafkaVersion v = Some kv /\ GetLatestKafkaIBPVersion v = Some ibp /\
    k' = k <| KR.DesiredStrimziVersion := v.(Version) |> <| KR.DesiredKafkaVersion := kv.(KafkaVersion_Version) |>
           <| KR.DesiredKafkaIBPVersion := ibp.(KafkaIBPVersion_Version) |>.
Proof. unfold assignDesiredKafkaVersions. repeat case_match; naive_solver. Qed.

Lemma reconcileAcceptedKafka_changed k w r w' :
  reconcileAcceptedKafka dp cfg k w = (r, w') -> snapshot_of k w ->
  Forall2 (changed k.(KR.ID) (to_one_of [KafkaRequestStatusPreparing; KafkaRequestStatusFailed]))
    (tables_of w).(kafkas) (tables_of w').(kafkas).
Proof.
  intros Hr Hs. unfold reconcileAcceptedKafka in Hr. apply bind_inv in Hr as [(found & w1 & Hf & Hr)|(e & He & _)].
  2:{ apply same_tables_changed. by apply (read_only_run _ _ _ _ (cluster_of_accepted_ro _) He). }
  pose proof (read_only_run _ _ _ _ (cluster_of_accepted_ro _) Hf) as Ht. rewrite <- Ht.
  apply (snapshot_of_tables _ _ _ Ht) in Hs. destruct found as [c|].
  2:{ eapply mark_failed_changed in Hr; [exact Hr|set_solver|done|done]. }
  set (k1 := if KR.ClusterID k =?s "" then _ else k) in Hr.
  assert (k1.(KR.ID) = k.(KR.ID)) as Hid by (subst k1; case_match; by destruct k).
  unfold bind at 1, lift in Hr. destruct (GetLatestAvailableAndReadyStrimziVersion c) as [[v|]|e]; simpl in Hr.
  - destruct (assignDesiredKafkaVersions k1 v) as [k2|] eqn:Hv; simpl in Hr; [|injection Hr as _ <-; by apply same_tables_changed].
    apply assignDesiredKafkaVersions_ok in Hv as (kv & ibp & _ & _ & ->). apply wrapped_run in Hr as [r0 Hu].
    eapply (moved_to_one_of _ KafkaRequestStatusPreparing); [set_solver|].
    eapply Update_to; [exact Hu|done|by destruct k1|by destruct k1|done].
  - eapply mark_failed_changed in Hr; [exact Hr|set_solver|done|done].
  - injection Hr as _ <-. by apply same_tables_changed.
Qed.

(** *** Preparation *)
Lemma certificate_ready_ro k : read_only (certificate_ready k).
Proof. unfold certificate_ready. solve_read_only. Qed.

Lemma AssignBootstrapServerHost_keeps k : keeps_kafkas (AssignBootstrapServerHost cfg k).
Proof. unfold AssignBootstrapServerHost. solve_keeps. Qed.

Lemma AssignBootstrapServerHost_ok k w k' w' :
  AssignBootstrapServerHost cfg k w = (Ok k', w') -> exists host, k' = k <| KR.BootstrapServerHost := host |>.
Proof.
  unfold AssignBootstrapServerHost. intros Hr. apply bind_ok in Hr as (t & w1 & _ & Hr).
  destruct (EnableKafkaCNAMERegistration cfg); [unfold ret in Hr; injection Hr as <- _; eauto|].
  apply bind_ok in Hr as (dns & w2 & _ & Hr). unfold ret in Hr. injection Hr as <- _. eauto.
Qed.

Lemma same_kafkas_changed id R w w' :
  (tables_of w').(kafkas) = (tables_of w).(kafkas) -> Forall2 (changed id R) (tables_of w).(kafkas) (tables_of w').(kafkas).
Proof. intros ->. induction (kafkas _); constructor; [by left|done]. Qed.

Lemma snapshot_of_kafkas k w w' : (tables_of w').(kafkas) = (tables_of w).(kafkas) -> snapshot_of k w -> snapshot_of k w'.
Proof. intros Ht [Hne Hs]. split; [done|]. by rewrite Ht. Qed.

(** The preparation changes the row of the snapshot, to provisioning, and
    hands back a request with the same identifier; a failure changes nothing. *)
Lemma PrepareKafkaRequest_changed k w r w' :
  PrepareKafkaRequest cfg k w = (r, w') -> snapshot_of k w ->
  match r with
  | Ok _ => Forall2 (changed k.(KR.ID) (to_one_of [KafkaRequestStatusProvisioning])) (tables_of w).(kafkas) (tables_of w').(kafkas)
  | Err (k', _) => (tables_of w').(kafkas) = (tables_of w).(kafkas) /\ k'.(KR.ID) = k.(KR.ID)
  end.
Proof.
  unfold PrepareKafkaRequest. intros Hr Hs.
  set (k0 := _ <| KR.KafkasRoutesBaseDomainName := _ |>) in Hr.
  assert (k0.(KR.ID) = k.(KR.ID)) as Hid0 by (by destruct k). clearbody k0.
  apply bind_inv in Hr as [(ready & w1 & Hc & Hr)|(e & He & ->)].
  2:{ apply wrap_err_err in He as (e0 & He & ->). by rewrite (read_only_run _ _ _ _ (certificate_ready_ro _) He). }
  apply wrap_err_ok in Hc. pose proof (read_only_run _ _ _ _ (certificate_ready_ro _) Hc) as Ht. rewrite <- Ht.
  apply (snapshot_of_tables _ _ _ Ht) in Hs.
  destruct ready; simpl in Hr; [|injection Hr as <- <-; by apply same_kafkas_changed].
  apply bind_inv in Hr as [(k1 & w2 & Hh & Hr)|(e & He & ->)].
  2:{ apply wrap_err_err in He as (e0 & He & ->). by rewrite (keeps_run _ _ _ _ (AssignBootstrapServerHost_keeps _) He). }
  apply wrap_err_ok in Hh. pose proof (keeps_run _ _ _ _ (AssignBootstrapServerHost_keeps _) Hh) as Hk2. rewrite <- Hk2.
  apply (snapshot_of_kafkas _ _ _ Hk2) in Hs.
  apply AssignBootstrapServerHost_ok in Hh as [host ->].
  apply bind_inv in Hr as [(k2 & w3 & Hca & Hr)|(e & He & ->)].
  2:{ apply wrap_err_err in He as (e0 & He & ->). split; [|by destruct k0]. eapply keeps_run; [|exact He]. solve_keeps. }
  apply wrap_err_ok in Hca. assert ((tables_of w3).(kafkas) = (tables_of w2).(kafkas)) as Hk3
    by (eapply keeps_run; [|exact Hca]; solve_keeps).
  rewrite <- Hk3. apply (snapshot_of_kafkas _ _ _ Hk3) in Hs.
  assert (k2.(KR.ID) = k.(KR.ID)) as Hid2.
  { destruct enable_authentication_on_kafka.
    - apply bind_ok in Hca as (sa & ? & _ & Hca). unfold ret in Hca. injection Hca as <- _. by destruct k0.
    - unfold ret in Hca. injection Hca as <- _. by destruct k0. }
  apply bind_inv in Hr as [([] & w4 & Hu & Hr)|(e & He & ->)].
  - apply wrap_err_ok in Hu. unfold ret in Hr. injection Hr as <- <-.
    eapply moved_to_one_of; [|eapply Update_to; [exact Hu|done|exact Hid2|reflexivity|done]]. set_solver.
  - apply wrap_err_err in He as (e0 & He & ->). apply Update_run in He as ->. done.
Qed.

Lemma reconcilePreparingKafka_changed k w r w' :
  reconcilePreparingKafka cfg k w = (r, w') -> snapshot_of k w ->
  Forall2 (changed k.(KR.ID) (to_one_of [KafkaRequestStatusProvisioning; KafkaRequestStatusFailed]))
    (tables_of w).(kafkas) (tables_of w').(kafkas).
Proof.
  unfold reconcilePreparingKafka, bind at 1, attempt. intros Hr Hs.
  destruct (PrepareKafkaRequest cfg k w) as [[k1|[k1 err]] w1] eqn:Hp; apply PrepareKafkaRequest_changed in Hp; try done.
  - unfold ret in Hr. injection Hr as _ <-. eapply Forall2_impl; [exact Hp|].
    intros row row' [->|(? & ? & [|])]; [by left| |]; right; split_and!; try done; [by left|right; set_solver].
  - destruct Hp as [Hk Hid]. rewrite <- Hk. apply (snapshot_of_kafkas _ _ _ Hk) in Hs.
    assert (forall reason g g' (w2 : W) (r2 : result error unit), (_ <~ wrap_err g (Update (fail_kafka k1 reason)) ;; throw g') w1 = (r2, w2) ->
      Forall2 (changed k.(KR.ID) (to_one_of [KafkaRequestStatusProvisioning; KafkaRequestStatusFailed]))
        (tables_of w1).(kafkas) (tables_of w2).(kafkas)) as Hfail.
    { intros reason g g' w2 r2 Hf. unfold bind, throw in Hf. destruct (wrap_err _ _ w1) as [r3 w3] eqn:Hw.
      assert (w3 = w2) as -> by (destruct r3; by injection Hf). apply wrapped_run in Hw as [r0 Hu].
      eapply (moved_to_one_of _ KafkaRequestStatusFailed); [set_solver|].
      eapply Update_to; [exact Hu|done|by destruct k1|by destruct k1|done]. }
    unfold handleKafkaRequestCreationError in Hr. destruct (IsServerErrorClass err).
    + unfold bind at 1, duration_since_creation, bind at 1, get_time, ret in Hr. cbv beta iota in Hr.
      destruct (_ <? _); [by eapply Hfail|]. injection Hr as _ <-. by apply same_tables_changed.
    + destruct (IsClientErrorClass err); [by eapply Hfail|]. injection Hr as _ <-. by apply same_tables_changed.
Qed.

(** *** Provisioning and ready Kafkas keep their status *)
Lemma reassignProvisioningKafka_moved k w r w' :
  reassignProvisioningKafka dp cfg k w = (r, w') -> snapshot_of k w ->
  Forall2 (moved k.(KR.ID) keeps_status) (tables_of w).(kafkas) (tables_of w').(kafkas).
Proof.
  unfold reassignProvisioningKafka, bind at 1, attempt. intros Hr Hs.
  destruct (Placement_FindCluster dp cfg k w) as [found w1] eqn:Hf.
  pose proof (read_only_run _ _ _ _ (Placement_FindCluster_ro dp cfg _) Hf) as Ht. rewrite <- Ht.
  apply (snapshot_of_tables _ _ _ Ht) in Hs.
  destruct found as [[c|]|]; [|injection Hr as _ <-; apply moved_refl..].
  apply bind_inv in Hr as [(k1 & w2 & Hh & Hr)|(e & He & ->)].
  2:{ apply wrap_err_err in He as (e0 & He & ->). rewrite (keeps_run _ _ _ _ (AssignBootstrapServerHost_keeps _) He). apply moved_refl. }
  apply wrap_err_ok in Hh. pose proof (keeps_run _ _ _ _ (AssignBootstrapServerHost_keeps _) Hh) as Hk2. rewrite <- Hk2.
  apply (snapshot_of_kafkas _ _ _ Hk2) in Hs. apply AssignBootstrapServerHost_ok in Hh as [host ->].
  unfold bind at 1, lift in Hr. destruct (GetLatestAvailableAndReadyStrimziVersion c) as [[v|]|e]; simpl in Hr;
    [|injection Hr as _ <-; apply moved_refl..].
  unfold bind at 1 in Hr. destruct (assignDesiredKafkaVersions _ v) as [k2|] eqn:Hv; [|injection Hr as _ <-; apply moved_refl].
  apply assignDesiredKafkaVersions_ok in Hv as (kv & ibp & _ & _ & ->). apply wrapped_run in Hr as [r0 Hu].
  eapply Update_snapshot; [exact Hu|done|by destruct k..].
Qed.

Lemma reconcileCanaryServiceAccount_moved k w r w' :
  reconcileCanaryServiceAccount k w = (r, w') -> snapshot_of k w ->
  Forall2 (moved k.(KR.ID) keeps_status) (tables_of w).(kafkas) (tables_of w').(kafkas).
Proof.
  unfold reconcileCanaryServiceAccount. intros Hr Hs. destruct (_ && _); [|injection Hr as _ <-; apply moved_refl].
  apply bind_inv in Hr as [(sa & w1 & Hsa & Hr)|(e & He & _)].
  2:{ eapply keeps_moved; [|exact He]. solve_keeps. }
  assert (tables_of w1 = tables_of w) as Ht by (eapply read_only_run; [|exact Hsa]; solve_read_only). rewrite <- Ht.
  apply (snapshot_of_tables _ _ _ Ht) in Hs. apply wrapped_run in Hr as [r0 Hu].
  eapply Update_snapshot; [exact Hu|done|by destruct k..].
Qed.
End PipelineFacts.

(** ** The passes of the workers *)
Inductive pipeline_worker := AcceptedWorker | PreparingWorker | ProvisioningWorker | ReadyWorker.

Definition source_status (p : pipeline_worker) : string :=
  match p with
  | AcceptedWorker => KafkaRequestStatusAccepted
  | PreparingWorker => KafkaRequestStatusPreparing
  | ProvisioningWorker => KafkaRequestStatusProvisioning
  | ReadyWorker => KafkaRequestStatusReady
  end.

Definition target_statuses (p : pipeline_worker) : list string :=
  match p with
  | AcceptedWorker => [KafkaRequestStatusPreparing; KafkaRequestStatusFailed]
  | PreparingWorker => [KafkaRequestStatusProvisioning; KafkaRequestStatusFailed]
  | ProvisioningWorker | ReadyWorker => []
  end.

(** The Kafkas a deleting pass removes. *)
Definition removable (k : KafkaRequest) : bool :=
  (k.(KR.Status) =?s KafkaRequestStatusDeleting) || 
  ((k.(KR.Status) =?s KafkaRequestStatusDeprovision) && (k.(KR.BootstrapServerHost) =?s "")).

Section WorkerProperties.
Context {W : Type} `{Database W} `{IdSource W} `{!KafkaExternals W} `{!QuotaDeletion W}.
Context (dp : DataplaneClusterConfig) (cfg : KafkaConfig) `{!ClusterLookup W cfg}.

Definition pipeline_pass (p : pipeline_worker) : W -> list error * W :=
  match p with
  | AcceptedWorker => Accepted_Reconcile dp cfg
  | PreparingWorker => Preparing_Reconcile cfg
  | ProvisioningWorker => Provisioning_Reconcile dp cfg
  | ReadyWorker => Ready_Reconcile
  end.

(** A pass of a worker of the creation pipeline touches only the Kafkas
    of the status it serves, and leaves each of them in that status or in one
    of its successors: preparing or failed after accepted, provisioning or
    failed after preparing, none after provisioning and ready. *)
Theorem creation_pipeline_transitions p w errs w' :
  pipeline_pass p w = (errs, w') -> keyed (tables_of w) ->
  Forall2 (worked_on (fun k => k.(KR.Status) = source_status p) (to_one_of (target_statuses p)))
    (tables_of w).(kafkas) (tables_of w').(kafkas).
Proof.
  intros Hr Hkey.
  enough (Forall2 (worked_on (fun k => (k.(KR.Status) =?s source_status p) = true) (to_one_of (target_statuses p)))
    (tables_of w).(kafkas) (tables_of w').(kafkas)) as Hall.
  { eapply Forall2_impl; [exact Hall|]. intros row row' [->|(Hs%String.eqb_eq & ? & ?)]; [by left|]. by right. }
  destruct p; simpl in Hr; unfold Accepted_Reconcile, Preparing_Reconcile, Provisioning_Reconcile, Ready_Reconcile in Hr.
  - eapply list_then_worked; [exact Hr|apply ListByStatus_lists|done|]. intros k w1 r w2 _ [r0 Hk]%wrapped_run Hs.
    by eapply reconcileAcceptedKafka_changed.
  - eapply list_then_worked; [exact Hr|apply ListByStatus_lists|done|]. intros k w1 r w2 _ [r0 Hk]%wrapped_run Hs.
    by eapply reconcilePreparingKafka_changed.
  - eapply list_then_worked; [exact Hr|apply ListByStatus_lists|done|]. intros k w1 r w2 _ Hk Hs.
    cbv beta in Hk. destruct (_ =?s _); [|injection Hk as _ <-; by apply same_tables_changed].
    apply wrapped_run in Hk as [r0 Hk]. apply keep_to_one_of. by eapply reassignProvisioningKafka_moved.
  - destruct enable_authentication_on_kafka; simpl in Hr.
    2:{ injection Hr as _ <-. clear. induction (kafkas _); constructor; [by left|done]. }
    eapply list_then_worked; [exact Hr|apply ListByStatus_lists|done|]. intros k w1 r w2 _ [r0 Hk]%wrapped_run Hs.
    apply keep_to_one_of. by eapply reconcileCanaryServiceAccount_moved.
Qed.

(** What the accepted Kafka of a successful reconciliation becomes: prepared
    on its cluster with the versions of the latest ready Strimzi version of
    that cluster, or failed once the time to wait has passed. *)
Definition accepted_outcome (k : KafkaRequest) (w : W) (row' : KafkaRequest) : Prop :=
  (exists c w1 v kv ibp,
     cluster_of_accepted dp cfg k w = (Ok (Some c), w1) /\
     GetLatestAvailableAndReadyStrimziVersion c = Ok (Some v) /\ GetLatestKafkaVersion v = Some kv /\
     GetLatestKafkaIBPVersion v = Some ibp /\
     row'.(KR.Status) = KafkaRequestStatusPreparing /\
     row'.(KR.ClusterID) = (if k.(KR.ClusterID) =?s "" then c.(CL.ClusterID) else k.(KR.ClusterID)) /\
     row'.(KR.DesiredStrimziVersion) = pick_string v.(Version) k.(KR.DesiredStrimziVersion) /\
     row'.(KR.DesiredKafkaVersion) = pick_string kv.(KafkaVersion_Version) k.(KR.DesiredKafkaVersion) /\
     row'.(KR.DesiredKafkaIBPVersion) = pick_string ibp.(KafkaIBPVersion_Version) k.(KR.DesiredKafkaIBPVersion)) \/
  (row'.(KR.Status) = KafkaRequestStatusFailed /\ row'.(KR.FailedReason) <> "" /\
   ((exists w1, cluster_of_accepted dp cfg k w = (Ok None, w1) /\
      AcceptedKafkaMaxRetryDurationWhileWaitingForClusterAssignment <= time_now w1 - k.(KR.CreatedAt)) \/
    (exists c w1, cluster_of_accepted dp cfg k w = (Ok (Some c), w1) /\
      GetLatestAvailableAndReadyStrimziVersion c = Ok None /\
      AcceptedKafkaMaxRetryDurationWhileWaitingForStrimziVersion <= time_now w1 - k.(KR.CreatedAt)))).

Lemma Update_changed k' k w r w' (R : KafkaRequest -> KafkaRequest -> Prop) :
  Update k' w = (r, w') -> snapshot_of k w -> k'.(KR.ID) = k.(KR.ID) ->
  (forall t, R k (touch_kafka t (KR.merge_nonzero k' k))) ->
  Forall2 (changed k.(KR.ID) R) (tables_of w).(kafkas) (tables_of w').(kafkas).
Proof.
  intros ->%Update_run [Hne Hs] Hid HR. destruct r; [|by apply same_kafkas_changed].
  simpl. assert (forall row, row ∈ (tables_of w).(kafkas) -> row.(KR.ID) = k.(KR.ID) -> row = k) as Hs' by done.
  revert Hs'. clear Hs. induction (kafkas _) as [|row rows IH]; intros Hs; constructor.
  - destruct (_ && _) eqn:Hd; [|by left]. apply designated_row in Hd as [Hr _]; [|congruence].
    assert (row = k) as -> by (apply Hs; [set_solver|congruence]). right. by split_and!.
  - apply IH. intros ? ?. apply Hs. set_solver.
Qed.

Lemma mark_failed_ok {E} k k' d (g : ServiceError -> E) reason w r w' (R : KafkaRequest -> KafkaRequest -> Prop) :
  (durationSinceCreation <~ duration_since_creation k' ;;
   if durationSinceCreation <? d then ret tt else wrap_err g (Update (fail_kafka k' reason))) w = (r, w') ->
  snapshot_of k w -> k'.(KR.ID) = k.(KR.ID) -> k'.(KR.CreatedAt) = k.(KR.CreatedAt) ->
  (d <= time_now w - k.(KR.CreatedAt) -> forall t, R k (touch_kafka t (KR.merge_nonzero (fail_kafka k' reason) k))) ->
  Forall2 (changed k.(KR.ID) R) (tables_of w).(kafkas) (tables_of w').(kafkas).
Proof.
  intros Hr Hs Hid Hcr HR. unfold bind, duration_since_creation, bind, get_time, ret in Hr. rewrite Hcr in Hr.
  destruct (Z.ltb_spec (time_now w - k.(KR.CreatedAt)) d); [injection Hr as _ <-; by apply same_tables_changed|].
  apply wrapped_run in Hr as [r0 Hu]. eapply Update_changed; [exact Hu|done|by destruct k'|]. intros t. by apply HR.
Qed.

(** Reconciling an accepted Kafka changes no other row and leaves it as
    it is, prepares it, or fails it, the latter not before the hour (no
    cluster) or the five minutes (no Strimzi version) since its creation have
    passed. *)
Theorem accepted_kafka_reconciled k w r w' :
  reconcileAcceptedKafka dp cfg k w = (r, w') -> snapshot_of k w ->
  Forall2 (changed k.(KR.ID) (fun _ row' => accepted_outcome k w row')) (tables_of w).(kafkas) (tables_of w').(kafkas).
Proof.
  intros Hr Hs. unfold reconcileAcceptedKafka in Hr. apply bind_inv in Hr as [(found & w1 & Hf & Hr)|(e & He & _)].
  2:{ apply same_tables_changed. by apply (read_only_run _ _ _ _ (cluster_of_accepted_ro dp cfg _) He). }
  pose proof (read_only_run _ _ _ _ (cluster_of_accepted_ro dp cfg _) Hf) as Ht. rewrite <- Ht.
  apply (snapshot_of_tables _ _ _ Ht) in Hs. destruct found as [c|].
  2:{ eapply mark_failed_ok in Hr; [exact Hr|done..|]. intros Hlate t. right. destruct k; simpl. split_and!; [done..|].
      left. by exists w1. }
  unfold bind at 1, lift in Hr. destruct (GetLatestAvailableAndReadyStrimziVersion c) as [[v|]|e] eqn:Hv; simpl in Hr.
  - destruct (assignDesiredKafkaVersions _ v) as [k2|] eqn:Hk2; simpl in Hr; [|injection Hr as _ <-; by apply same_tables_changed].
    apply assignDesiredKafkaVersions_ok in Hk2 as (kv & ibp & Hkv & Hibp & ->). apply wrapped_run in Hr as [r0 Hu].
    eapply Update_changed; [exact Hu|done|by destruct k; case_match|]. intros t. left.
    exists c, w1, v, kv, ibp. destruct k; simpl in *. unfold pick_string at 1. case_match; simpl; split_and!; try done.
    + reflect_strings. unfold pick_string. subst. case_match; [by reflect_strings|done].
    + unfold pick_string. by case_match.
  - eapply mark_failed_ok in Hr; [exact Hr|done|by destruct k; case_match|by destruct k; case_match|].
    intros Hlate t. right. destruct k; case_match; simpl; split_and!; try done; right; by exists c, w1.
  - injection Hr as _ <-. by apply same_tables_changed.
Qed.
End WorkerProperties.

Section DeletionProperties.
Context {W : Type} `{Database W} `{IdSource W} `{!KafkaExternals W} `{!QuotaDeletion W}.
Context (cfg : KafkaConfig).

Definition without (ids : list string) (rows : list KafkaRequest) : list KafkaRequest :=
  List.filter (fun k => negb (Contains ids k.(KR.ID))) rows.

Lemma delete_dependencies_ro k : read_only (delete_dependencies cfg k).
Proof.
  unfold delete_dependencies, delete_canary_account, ChangeKafkaCNAMErecords, route53_client. solve_read_only.
Qed.

(** Deleting one Kafka removes its row or, on an error, nothing. *)
Lemma reconcileDeletingKafkas_run k w r w' :
  reconcileDeletingKafkas cfg k w = (r, w') -> k.(KR.ID) <> "" ->
  (tables_of w').(kafkas) = match r with
                            | Ok _ => without [k.(KR.ID)] (tables_of w).(kafkas)
                            | Err _ => (tables_of w).(kafkas)
                            end.
Proof.
  unfold reconcileDeletingKafkas. intros Hr Hne.
  unfold bind at 1, lift in Hr. destruct (get_quota_service _) as [[]|e]; simpl in Hr; [|by injection Hr as <- <-].
  apply bind_inv in Hr as [([] & w1 & Hq & Hr)|(e & He & ->)].
  2:{ apply wrap_err_err in He as (e0 & He & ->). by rewrite (read_only_run _ _ _ _ (delete_quota_ro _ _) He). }
  apply wrap_err_ok in Hq. rewrite <- (read_only_run _ _ _ _ (delete_quota_ro _ _) Hq). clear Hq w.
  unfold wrap_err in Hr. destruct (Kafka_Delete cfg k w1) as [r0 w2] eqn:Hd. injection Hr as <- <-.
  unfold Kafka_Delete in Hd.
  apply bind_inv in Hd as [([] & w3 & Hdep & Hd)|(e & He & ->)];
    [|simpl; f_equal; eapply read_only_run; [|exact He]; destruct (negb _); [apply delete_dependencies_ro|done]].
  replace (tables_of w1) with (tables_of w3)
    by (eapply read_only_run; [|exact Hdep]; destruct (negb _); [apply delete_dependencies_ro|done]).
  apply String.eqb_neq in Hne. rewrite Hne in Hd. unfold wrap_err in Hd.
  destruct (exec _ w3) as [r3 w4] eqn:Hx. injection Hd as <- <-. destruct r3; simpl.
  - apply exec_ok in Hx as ->. simpl. apply filter_ext_in'. intros row _. f_equal.
    unfold designates, zero_or_eq. rewrite Hne. simpl. apply eq_true_iff_eq. rewrite Contains_true, String.eqb_eq. set_solver.
  - by rewrite (exec_err _ _ _ _ _ Hx).
Qed.

Lemma without_without ids ids' rows : without ids' (without ids rows) = without (ids ++ ids') rows.
Proof.
  unfold without. rewrite filter_filter. apply filter_ext_in'. intros k _.
  apply eq_true_iff_eq. rewrite andb_true_iff, !negb_true_iff, !Contains_false. set_solver.
Qed.

Lemma without_nil rows : without [] rows = rows.
Proof. induction rows as [|row rows IH]; [done|]. change (row :: without [] rows = row :: rows). by rewrite IH. Qed.

(** A loop removes some of the rows it works on; all of them without error. *)
Lemma deleting_loop l w errs w' :
  for_all_collect (fun k => wrap_err (EWrap "failed to reconcile deleting kafka request %s") (reconcileDeletingKafkas cfg k)) l w = (errs, w') ->
  Forall (fun k => k.(KR.ID) <> "") l ->
  exists gone, gone ⊆ map KR.ID l /\ (errs = [] -> gone = map KR.ID l) /\
    (tables_of w').(kafkas) = without gone (tables_of w).(kafkas).
Proof.
  revert w errs. induction l as [|k l IH]; intros w errs Hr Hne; simpl in Hr.
  { injection Hr as <- <-. exists []. by rewrite without_nil. }
  apply Forall_cons in Hne as [Hk Hne]. unfold wrap_err at 1 in Hr.
  destruct (reconcileDeletingKafkas cfg k w) as [r w1] eqn:Hd.
  destruct (for_all_collect _ l w1) as [errs' w2] eqn:Hl. injection Hr as Herrs <-.
  apply reconcileDeletingKafkas_run in Hd; [|done]. apply IH in Hl as (gone & Hsub & Hall & Hw); [|done].
  destruct r as [[]|e]; simpl in Herrs.
  - exists (k.(KR.ID) :: gone). rewrite Hw, Hd, without_without. simpl. split_and!; [set_solver| |done].
    intros E. f_equal. apply Hall. congruence.
  - exists gone. rewrite Hw, Hd. split_and!; [set_solver| |done]. intros E. by rewrite E in Herrs.
Qed.

Lemma Deleting_Reconcile_run w errs w' :
  Deleting_Reconcile cfg w = (errs, w') -> keyed (tables_of w) ->
  (exists gone, (tables_of w').(kafkas) = without gone (tables_of w).(kafkas) /\
     Forall (fun k => k.(KR.ID) ∈ gone -> removable k = true) (tables_of w).(kafkas)) /\
  (errs = [] -> (tables_of w').(kafkas) = List.filter (fun k => negb (removable k)) (tables_of w).(kafkas)).
Proof.
  intros Hr Hkey. unfold Deleting_Reconcile in Hr.
  pose proof (ListByStatus_lists KafkaRequestStatusDeleting) as L1.
  pose proof (ListByStatus_lists KafkaRequestStatusDeprovision) as L2.
  apply list_then_inv in Hr as (r1 & w1 & errs1 & H1 & Hr & Herrs1).
  apply list_then_inv in Hr as (r2 & w2 & errs2 & H2 & Hloop & Herrs2).
  pose proof (read_only_run _ _ _ _ (proj1 L1) H1) as Ht1. pose proof (read_only_run _ _ _ _ (proj1 L2) H2) as Ht2.
  set (l := listed r1 ++ List.filter never_provisioned (listed r2)) in *.
  assert (forall k, k ∈ l -> k ∈ (tables_of w).(kafkas) /\ removable k = true) as Hin.
  { intros k [Hk|Hk]%elem_of_app.
    - destruct (elem_of_listed _ _ _ _ _ _ L1 H1 Hk) as [Hk' Hs]. unfold removable. by rewrite Hs.
    - apply list_elem_of_In, filter_In in Hk as [Hk%list_elem_of_In Hn]. unfold never_provisioned in Hn.
      destruct (elem_of_listed _ _ _ _ _ _ L2 H2 Hk) as [Hk' Hs]. rewrite Ht1 in Hk'.
      unfold removable. rewrite Hs, Hn. by rewrite orb_true_r. }
  assert (is_ok r1 = true -> is_ok r2 = true -> forall k, k ∈ (tables_of w).(kafkas) -> removable k = true -> k ∈ l) as Hcomplete.
  { intros Hok1 Hok2 k Hk [Hs|[Hs Hn]%andb_true_iff]%orb_true_iff; apply elem_of_app; [left|right].
    - exact (listed_complete _ _ _ _ _ _ L1 H1 Hok1 Hk Hs).
    - apply list_elem_of_In, filter_In. rewrite <- list_elem_of_In. split; [|done].
      apply (listed_complete _ _ _ _ _ _ L2 H2 Hok2); [by rewrite Ht1|done]. }
  destruct Hkey as [Hnd Hne]. rewrite Forall_forall in Hne.
  apply deleting_loop in Hloop as (gone & Hsub & Hall & Hw); [|apply Forall_forall; intros k Hk; by apply Hne, Hin].
  assert (forall k, k ∈ (tables_of w).(kafkas) -> k.(KR.ID) ∈ map KR.ID l -> removable k = true) as Hids.
  { intros k Hk (k' & Hid & [Hk' Hrem]%Hin)%list_elem_of_fmap. by rewrite (same_id_same_row _ k k' Hnd Hk Hk' Hid). }
  rewrite Ht2, Ht1 in Hw. split.
  - exists gone. split; [done|]. apply Forall_forall. auto.
  - intros E. apply Herrs1 in E as [Hok1 E]. apply Herrs2 in E as [Hok2 E]. rewrite Hw, (Hall E).
    apply filter_ext_in'. intros k Hk. f_equal. apply eq_true_iff_eq. rewrite Contains_true. split; [by apply Hids|].
    intros Hrem. apply list_elem_of_fmap. eauto.
Qed.

(** [C35] A deleting pass removes only Kafkas in the deleting status, or in the
    deprovision status without ever having been provisioned, and leaves all
    other rows as they are; when it reports no error it removes all of them. *)
Theorem deleting_pass_removes_exactly w errs w' :
  Deleting_Reconcile cfg w = (errs, w') -> keyed (tables_of w) ->
  (exists gone, (tables_of w').(kafkas) = without gone (tables_of w).(kafkas) /\
     Forall (fun k => k.(KR.ID) ∈ gone -> removable k = true) (tables_of w).(kafkas)) /\
  (errs = [] -> (tables_of w').(kafkas) = List.filter (fun k => negb (removable k)) (tables_of w).(kafkas)).
Proof. apply Deleting_Reconcile_run. Qed.
End DeletionProperties.

(** ** Witnesses on the small deployment *)
Module DemoQuota.
#[global] Instance deletion : QuotaDeletion (MemDB.world unit).
Proof. refine {| delete_quota := fun _ _ => ret tt |}; done. Defined.
End DemoQuota.

Lemma fixtures_keyed : keyed (tables_of Fixtures.world).
Proof. split; vm_compute; repeat constructor; set_solver. Defined.

Lemma fixtures_snapshot : snapshot_of Fixtures.k3 Fixtures.world.
Proof.
  split; [done|]. intros row Hrow. repeat (apply elem_of_cons in Hrow as [->|Hrow]; [done|]). by apply not_elem_of_nil in Hrow.
Defined.

(** The accepted Kafka [k3] is placed and becomes preparing. *)
Lemma creation_pipeline_transitions_witness :
  exists errs w', pipeline_pass (Fixtures.dp_config AutoScaling) Fixtures.kafka_config AcceptedWorker Fixtures.world = (errs, w') /\
    map KR.Status (tables_of w').(kafkas) = [KafkaRequestStatusReady; KafkaRequestStatusDeleting; KafkaRequestStatusPreparing] /\
    Forall2 (worked_on (fun k => k.(KR.Status) = KafkaRequestStatusAccepted) (to_one_of [KafkaRequestStatusPreparing; KafkaRequestStatusFailed]))
      (tables_of Fixtures.world).(kafkas) (tables_of w').(kafkas).
Proof.
  eexists _, _. split; [vm_compute; reflexivity|]. split; [reflexivity|].
  eapply (creation_pipeline_transitions (Fixtures.dp_config AutoScaling) Fixtures.kafka_config AcceptedWorker Fixtures.world);
    [vm_compute; reflexivity | exact fixtures_keyed].
Defined.

Lemma accepted_kafka_reconciled_witness :
  exists r w', reconcileAcceptedKafka (Fixtures.dp_config AutoScaling) Fixtures.kafka_config Fixtures.k3 Fixtures.world = (r, w') /\
    Forall2 (changed "k3" (fun _ row' => accepted_outcome (Fixtures.dp_config AutoScaling) Fixtures.kafka_config Fixtures.k3 Fixtures.world row'))
      (tables_of Fixtures.world).(kafkas) (tables_of w').(kafkas).
Proof.
  eexists _, _. split; [apply surjective_pairing|].
  eapply (accepted_kafka_reconciled (Fixtures.dp_config AutoScaling) Fixtures.kafka_config Fixtures.k3 Fixtures.world);
    [apply surjective_pairing | exact fixtures_snapshot].
Defined.

(** [k2] is being deleted; the pass removes it. *)
Lemma deleting_pass_removes_exactly_witness :
  exists w', Deleting_Reconcile Fixtures.kafka_config Fixtures.world = ([], w') /\
    (tables_of w').(kafkas) = List.filter (fun k => negb (removable k)) (tables_of Fixtures.world).(kafkas).
Proof.
  eexists. split; [vm_compute; reflexivity|].
  refine (proj2 (deleting_pass_removes_exactly Fixtures.kafka_config Fixtures.world [] _ _ _) eq_refl);
    [vm_compute; reflexivity | exact fixtures_keyed].
Defined.
