(* ===== verification/KafkaManager.v ===== *)
(** * The general Kafka worker

    [src/internal/kafka/internal/workers/kafka_mgrs/kafkas_mgr.go]: status and
    capacity figures, denied owners, expiry dates, suspension in the grace
    period, and the removal of expired Kafkas.

    The published capacities are computed in [float64] by the code; the model
    computes them on integers, which is exact for the 32-bit counts and limits
    that are published. *)
From S2P Require Import Prelude Arrays Errors Status Config Model HostNames Store Fixtures ClusterService Placement KafkaService Transitions Workers.

Definition kafkaMetricsStatuses : list string :=
  [ KafkaRequestStatusAccepted; KafkaRequestStatusPreparing; KafkaRequestStatusProvisioning; KafkaRequestStatusReady;
    KafkaRequestStatusDeprovision; KafkaRequestStatusDeleting; KafkaRequestStatusFailed; KafkaRequestStatusSuspended;
    KafkaRequestStatusSuspending; KafkaRequestStatusResuming ].

(** ** Capacities *)
Definition MaxInt64 : Z := 2 ^ 63 - 1.

Definition published (region instanceType clusterId : string) (count : Z) (cloudProvider : string) (maxUnits : Z)
  : KafkaStreamingUnitCountPerCluster :=
  mkKafkaStreamingUnitCountPerCluster region instanceType "" clusterId (int32 count) cloudProvider (int32 maxUnits) "" "".

Section Capacity.
Context (cloudProviders : ProviderConfig).

Definition getRegionInstanceTypeLimit (region cloudProvider instanceType : string) : result error Z :=
  instanceTypeLimit <-! map_err (fun e => EWrap "failed to get instance limit for %v on %v and instance type %v" (EService e))
                          (GetInstanceLimit cloudProviders region cloudProvider instanceType) ;;
  Ok (match instanceTypeLimit with Some limit => limit | None => MaxInt64 end).

(** Enterprise clusters have no region limit. *)
Definition calculateAvailableAndMadCapacityForEnterpriseClusters (l : list KafkaStreamingUnitCountPerCluster)
  : list KafkaStreamingUnitCountPerCluster :=
  map (fun c => published c.(SU_Region) c.(SU_InstanceType) c.(SU_ClusterId) (c.(SU_MaxUnits) - c.(SU_Count))
                  c.(SU_CloudProvider) c.(SU_MaxUnits))
    (List.filter (fun c => c.(SU_ClusterType) =?s EnterpriseDataPlaneClusterType) l).

Definition calculateAvailableAndMaxCapacityForDynamicScaling (c : KafkaStreamingUnitCountPerCluster)
  : result error KafkaStreamingUnitCountPerCluster :=
  limit <-! getRegionInstanceTypeLimit c.(SU_Region) c.(SU_CloudProvider) c.(SU_InstanceType) ;;
  let maxAvailable := Z.min c.(SU_MaxUnits) limit in
  let available := Z.max 0 (maxAvailable - c.(SU_Count)) in
  Ok (published c.(SU_Region) c.(SU_InstanceType) c.(SU_ClusterId) available c.(SU_CloudProvider) maxAvailable).

(** The 32-bit sums of the units of a cluster: all of them, and those of an
    instance type. *)
Definition findUsedCapacityForCluster (l : list KafkaStreamingUnitCountPerCluster) (clusterId instanceType : string) : Z * Z :=
  foldl (fun '(totalUsed, instanceTypeUsed) k =>
    if k.(SU_ClusterId) =?s clusterId then
      (int32 (totalUsed + k.(SU_Count)),
       if k.(SU_InstanceType) =?s instanceType then int32 (instanceTypeUsed + k.(SU_Count)) else instanceTypeUsed)
    else (totalUsed, instanceTypeUsed)) (0, 0) l.

Definition manual_capacity (l : list KafkaStreamingUnitCountPerCluster) (cluster : ManualCluster) (instanceType : string)
  : result error KafkaStreamingUnitCountPerCluster :=
  limit <-! getRegionInstanceTypeLimit cluster.(MC_Region) cluster.(MC_CloudProvider) instanceType ;;
  let maxAvailable := Z.min cluster.(KafkaInstanceLimit) limit in
  let '(totalUsed, instanceTypeUsed) := findUsedCapacityForCluster l cluster.(MC_ClusterId) instanceType in
  let availableByInstanceType := Z.max 0 (Z.min (maxAvailable - instanceTypeUsed) (cluster.(KafkaInstanceLimit) - totalUsed)) in
  Ok (published cluster.(MC_Region) instanceType cluster.(MC_ClusterId) availableByInstanceType cluster.(MC_CloudProvider) maxAvailable).

Fixpoint sequence {E A} (l : list (result E A)) : result E (list A) :=
  match l with
  | [] => Ok []
  | r :: l' => a <-! r ;; rest <-! sequence l' ;; Ok (a :: rest)
  end.

Definition calculateCapacityByRegionAndInstanceTypeForManualClusters (manualClusters : list ManualCluster)
  (l : list KafkaStreamingUnitCountPerCluster) : result error (list KafkaStreamingUnitCountPerCluster) :=
  sequence (flat_map (fun cluster =>
    if negb cluster.(Schedulable) then []
    else map (manual_capacity l cluster)
           (List.filter (fun t => negb (t =?s "")) (Split cluster.(MC_SupportedInstanceType) ","%char)))
    manualClusters).
End Capacity.

Section KafkaManager.
Context {W : Type} `{Database W} `{IdSource W} `{!KafkaExternals W}.
Context (dataplaneClusterConfig : DataplaneClusterConfig) (cloudProviders : ProviderConfig) (kafkaConfig : KafkaConfig).
Context (accessControlListConfig : AccessControlListConfig).
Context `{!ClusterLookup W kafkaConfig}.

(** The used capacities that are published, and the available and maximal
    ones; on an error the latter are those published before it. *)
Definition updateClusterStatusCapacityMetrics
  : M W error (list KafkaStreamingUnitCountPerCluster * list KafkaStreamingUnitCountPerCluster) :=
  l <~ wrap_err (EWrap "failed to count Kafkas by region") find_streaming_unit_count ;;
  let used := List.filter (fun c => negb (c.(SU_Status) =?s ClusterAccepted)) l in
  dynamic <~ (if IsDataPlaneAutoScalingEnabled dataplaneClusterConfig
              then lift (sequence (map (calculateAvailableAndMaxCapacityForDynamicScaling cloudProviders)
                           (List.filter (fun c => negb (c.(SU_Status) =?s ClusterAccepted) &&
                                                  negb (c.(SU_ClusterType) =?s EnterpriseDataPlaneClusterType)) l)))
              else ret []) ;;
  manual <~ (if IsDataPlaneManualScalingEnabled dataplaneClusterConfig
             then lift (calculateCapacityByRegionAndInstanceTypeForManualClusters cloudProviders
                          dataplaneClusterConfig.(DP_ClusterConfig).(clusterList) l)
             else ret []) ;;
  ret (used, dynamic ++ List.filter (fun c => negb (c.(SU_Status) =?s ClusterAccepted)) manual ++
             calculateAvailableAndMadCapacityForEnterpriseClusters l).

Definition setKafkaStatusCountMetric : M W error (list StatusCount) :=
  wrap_err (fun e => EWrap "failed to count Kafkas by status" (EService e)) (Kafka_CountByStatus kafkaMetricsStatuses).

Definition reconcileDeniedKafkaOwners (deniedUsers : list string) : M W ServiceError unit :=
  if IsEmpty deniedUsers then ret tt else DeprovisionKafkaForUsers deniedUsers.

(** ** Expiry dates *)
Definition updateKafkaExpirationDate (kafka : KafkaRequest) (expiresAt : option Z) : M W error unit :=
  wrap_err EService (Updates kafka (fun row => row <| KR.ExpiresAt := expiresAt |>)).

(** The expiry date that the entitlement calls for: [Ok None] when nothing
    has to change.  [AddDate] counts days of 24 hours. *)
Definition entitlement_expiry (kafka : KafkaRequest) (isQuotaEntitlementActive : bool) (now : Z) : result error (option (option Z)) :=
  match isQuotaEntitlementActive, kafka.(KR.ExpiresAt) with
  | true, Some _ => Ok (Some None)
  | false, None =>
      billingModel <-! GetBillingModelByID kafkaConfig kafka.(KR.InstanceType) kafka.(KR.ActualKafkaBillingModel) ;;
      Ok (Some (Some (now + billingModel.(GracePeriodDays) * Day)))
  | _, _ => Ok None
  end.

(** Returns the Kafka as it is left in memory: an update through a map
    assigns the fields of the model it is called with, whatever its outcome. *)
Definition updateExpiresAtBasedOnQuotaEntitlement (kafka : KafkaRequest) (isQuotaEntitlementActive : bool) (w : W)
  : result error unit * KafkaRequest * W :=
  match entitlement_expiry kafka isQuotaEntitlementActive (time_now w) with
  | Err e => (Err e, kafka, w)
  | Ok None => (Ok tt, kafka, w)
  | Ok (Some expiresAt) =>
      let '(r, w') := updateKafkaExpirationDate kafka expiresAt w in (r, kafka <| KR.ExpiresAt := expiresAt |>, w')
  end.

Definition org_billing_model (kafka : KafkaRequest) : string :=
  kafka.(KR.OrganisationId) +:+ "-" +:+ kafka.(KR.ActualKafkaBillingModel).

(** The entitlement, from the cache or from the quota service. *)
Definition cached_entitlement (cache : gmap string bool) (kafka : KafkaRequest) (w : W) : result error (bool * gmap string bool) * W :=
  match cache !! org_billing_model kafka with
  | Some active => (Ok (active, cache), w)
  | None =>
      let '(r, w') := IsQuotaEntitlementActive kafkaConfig kafka w in
      (match r with
       | Ok active => Ok (active, <[ org_billing_model kafka := active ]> cache)
       | Err e => Err e
       end, w')
  end.

(** One iteration: the errors, the Kafka in memory, the cache. *)
Definition reconcile_expires_at (cache : gmap string bool) (kafka : KafkaRequest) (w : W)
  : list error * KafkaRequest * gmap string bool * W :=
  if Contains GetDeletingStatuses kafka.(KR.Status) then ([], kafka, cache, w)
  else
    match GetKafkaInstanceSize kafkaConfig kafka.(KR.InstanceType) kafka.(KR.SizeId) with
    | Err e => ([EWrap "failed to get kafka instance size for %q with instance type %q and size id %q" e], kafka, cache, w)
    | Ok instanceSize =>
        match instanceSize.(LifespanSeconds) with
        | Some _ => ([], kafka, cache, w)
        | None =>
            match cached_entitlement cache kafka w with
            | (Err e, w1) => ([EWrap "failed to get quota entitlement status of kafka instance %q" e], kafka, cache, w1)
            | (Ok (active, cache'), w1) =>
                let '(r, kafka', w2) := updateExpiresAtBasedOnQuotaEntitlement kafka active w1 in
                (match r with
                 | Ok _ => []
                 | Err e => [EWrap "failed to update expires_at value based on quota entitlement for kafka instance %q" e]
                 end, kafka', cache', w2)
            end
        end
    end.

Fixpoint expires_at_loop (cache : gmap string bool) (kafkas : list KafkaRequest) (w : W) : list error * list KafkaRequest * W :=
  match kafkas with
  | [] => ([], [], w)
  | kafka :: rest =>
      let '(errs, kafka', cache', w1) := reconcile_expires_at cache kafka w in
      let '(errs', rest', w2) := expires_at_loop cache' rest w1 in
      (errs ++ errs', kafka' :: rest', w2)
  end.

Definition reconcileKafkaExpiresAt (kafkas : list KafkaRequest) (w : W) : list error * list KafkaRequest * W :=
  expires_at_loop ∅ kafkas w.

(** ** Suspension in the grace period *)
Definition suspend_in_grace_period (kafka : KafkaRequest) : M W error unit :=
  if negb (CanBeAutomaticallySuspended kafka) then ret tt
  else
    now <~ get_time ;;
    let '(expired, remainingLifespan) := IsExpired now kafka in
    if expired then ret tt
    else
      bm <~ lift (map_err (EWrap "failed to suspend expired Kafka instances")
                    (GetBillingModelByID kafkaConfig kafka.(KR.InstanceType) kafka.(KR.ActualKafkaBillingModel))) ;;
      if LessThanOrEqual remainingLifespan bm.(GracePeriodDays)
      then wrap_err (fun '(_, err) => EWrap "failed to suspend expired Kafka instances" (EService err))
             (UpdateStatus kafka.(KR.ID) KafkaRequestStatusSuspending)
      else ret tt.

Definition errors_of {E A} (f : E -> error) (r : result E A) : list error :=
  match r with Ok _ => [] | Err e => [f e] end.

Definition KafkaManager_Reconcile (w : W) : list error * W :=
  let '(listed, w1) := ListAll w in
  let kafkas := match listed with Ok l => l | Err _ => [] end in
  let '(counted, w2) := setKafkaStatusCountMetric w1 in
  let '(capacity, w3) := updateClusterStatusCapacityMetrics w2 in
  let '(denied, w4) := (if accessControlListConfig.(EnableDenyList)
                        then reconcileDeniedKafkaOwners accessControlListConfig.(DenyList) else ret tt) w3 in
  let '(expiresAtErrors, kafkas, w5) := reconcileKafkaExpiresAt kafkas w4 in
  let '(suspensionErrors, w6) := for_all_collect suspend_in_grace_period kafkas w5 in
  let '(expired, w7) := DeprovisionExpiredKafkas w6 in
  (errors_of EService listed ++ errors_of id counted ++ errors_of id capacity ++
   errors_of (fun e => EWrap "failed to deprovision kafka for denied owners %s" (EService e)) denied ++
   (if IsEmpty expiresAtErrors then [] else [EWrap "failed to update expires_at for kafka instances" (EList expiresAtErrors)]) ++
   suspensionErrors ++
   errors_of (fun e => EWrap "failed to deprovision expired Kafka instances" (EService e)) expired, w7).
End KafkaManager.

(** ** What the pass may do to the statuses *)
Definition general_effect (row row' : KafkaRequest) : Prop :=
  row'.(KR.ID) = row.(KR.ID) /\
  (row'.(KR.Status) = row.(KR.Status) \/
   (row'.(KR.Status) = KafkaRequestStatusSuspending /\ CanBeAutomaticallySuspended row = true) \/
   (row'.(KR.Status) = KafkaRequestStatusDeprovision /\ not_under_deletion row = true)).

Lemma suspendable_not_under_deletion k : CanBeAutomaticallySuspended k = true -> not_under_deletion k = true.
Proof.
  unfold CanBeAutomaticallySuspended, not_under_deletion. rewrite Contains_true, negb_true_iff, Contains_false.
  intros Hin. repeat (apply elem_of_cons in Hin as [->|Hin]; [vm_compute; set_solver|]). by apply not_elem_of_nil in Hin.
Qed.

(** The predicates of the effect look at the status only. *)
Lemma same_status_predicates a b :
  a.(KR.Status) = b.(KR.Status) ->
  CanBeAutomaticallySuspended a = CanBeAutomaticallySuspended b /\ not_under_deletion a = not_under_deletion b.
Proof. unfold CanBeAutomaticallySuspended, not_under_deletion. by intros ->. Qed.

#[export] Instance general_effect_preorder : PreOrder general_effect.
Proof.
  split; [intros row; split; [done|by left]|]. intros a b c [Hid1 H1] [Hid2 H2]. split; [congruence|].
  assert (CanBeAutomaticallySuspended b = true \/ not_under_deletion b = true ->
    b.(KR.Status) <> KafkaRequestStatusDeprovision) as Hdep.
  { intros Hb E. unfold CanBeAutomaticallySuspended, not_under_deletion in Hb. rewrite E in Hb. by destruct Hb. }
  assert (CanBeAutomaticallySuspended b = true -> b.(KR.Status) <> KafkaRequestStatusSuspending) as Hsus.
  { intros Hb E. unfold CanBeAutomaticallySuspended in Hb. by rewrite E in Hb. }
  destruct H1 as [E1|[[E1 P1]|[E1 P1]]].
  - destruct (same_status_predicates _ _ E1) as [Ea En]. rewrite Ea, En, E1 in H2. exact H2.
  - destruct H2 as [E2|[[E2 P2]|[E2 P2]]].
    + right; left. split; [congruence|done].
    + by destruct (Hsus P2).
    + right; right. split; [done|]. by apply suspendable_not_under_deletion.
  - destruct H2 as [E2|[[E2 P2]|[E2 P2]]].
    + right; right. split; [congruence|done].
    + destruct (Hdep (or_introl P2)). done.
    + destruct (Hdep (or_intror P2)). done.
Qed.

Lemma general_effect_ids l l' : Forall2 general_effect l l' -> map KR.ID l' = map KR.ID l.
Proof. induction 1 as [|row row' l l' [Hid _] _ IH]; simpl; [done|]. by rewrite Hid, IH. Qed.

(** The row of a Kafka in memory has its status, or is to be deprovisioned. *)
Definition current_or_deprovisioned {W} `{Database W} (w : W) (k : KafkaRequest) : Prop :=
  forall row, row ∈ (tables_of w).(kafkas) -> row.(KR.ID) = k.(KR.ID) ->
    row.(KR.Status) = k.(KR.Status) \/ row.(KR.Status) = KafkaRequestStatusDeprovision.

Section ManagerLemmas.
Context {W : Type} `{Database W} `{IdSource W} `{!KafkaExternals W}.
Context (dp : DataplaneClusterConfig) (pc : ProviderConfig) (cfg : KafkaConfig) (acl : AccessControlListConfig).
Context `{!ClusterLookup W cfg}.

Lemma update_rows_general t p f rows :
  (forall row, row ∈ rows -> p row = true -> general_effect row (f row)) ->
  Forall2 general_effect rows (update_rows (touch_kafka t) p f rows).
Proof.
  intros Hp. induction rows as [|row rows IH]; constructor.
  - destruct (p row) eqn:E; [|reflexivity]. destruct (Hp row) as [? ?]; [set_solver|done|]. by destruct (f row).
  - apply IH. intros ? ?. apply Hp. set_solver.
Qed.

Definition keeps_row_status (row row' : KafkaRequest) : Prop :=
  row'.(KR.ID) = row.(KR.ID) /\ row'.(KR.Status) = row.(KR.Status).

Definition keeps_or_deprovisions (row row' : KafkaRequest) : Prop :=
  row'.(KR.ID) = row.(KR.ID) /\
  (row'.(KR.Status) = row.(KR.Status) \/
   (row'.(KR.Status) = KafkaRequestStatusDeprovision /\ not_under_deletion row = true)).

Lemma denied_effect l w r w' :
  reconcileDeniedKafkaOwners l w = (r, w') ->
  Forall2 keeps_or_deprovisions (tables_of w).(kafkas) (tables_of w').(kafkas).
Proof.
  assert (forall rows, Forall2 keeps_or_deprovisions rows rows) as Hrefl
    by (intros rows; induction rows; constructor; [split; [done|by left]|done]).
  unfold reconcileDeniedKafkaOwners. destruct (IsEmpty l); [intros [= _ <-]; apply Hrefl|].
  unfold DeprovisionKafkaForUsers. intros ->%wrapped_update_run. destruct r; [|apply Hrefl]. simpl. clear Hrefl.
  induction (kafkas _) as [|row rows IH]; constructor; [|done].
  destruct (_ && _) eqn:E; [|split; [done|by left]]. apply andb_true_iff in E as [_ Hn]. split; [by destruct row|].
  right. by destruct row.
Qed.

Lemma expiry_effect k active w r k' w' :
  updateExpiresAtBasedOnQuotaEntitlement cfg k active w = (r, k', w') ->
  k'.(KR.ID) = k.(KR.ID) /\ k'.(KR.Status) = k.(KR.Status) /\
  Forall2 keeps_row_status (tables_of w).(kafkas) (tables_of w').(kafkas).
Proof.
  assert (forall rows, Forall2 keeps_row_status rows rows) as Hrefl
    by (intros rows; induction rows; constructor; done).
  unfold updateExpiresAtBasedOnQuotaEntitlement. destruct (entitlement_expiry _ _ _ _) as [[e|]|]; [|by intros [= _ <- <-]..].
  unfold updateKafkaExpirationDate, wrap_err. destruct (Updates k _ w) as [r0 w0] eqn:Hu. intros [= _ <- <-].
  split_and!; [by destruct k..|]. apply Updates_run in Hu as ->. destruct r0; [|apply Hrefl]. simpl. clear.
  induction (kafkas _) as [|row rows IH]; constructor; [|done]. case_match; by destruct row.
Qed.

Lemma keeps_row_status_trans l1 l2 l3 :
  Forall2 keeps_row_status l1 l2 -> Forall2 keeps_row_status l2 l3 -> Forall2 keeps_row_status l1 l3.
Proof. apply Forall2_trans. intros x y z [? ?] [? ?]. split; congruence. Qed.

Lemma cached_entitlement_run cache k w r w' :
  cached_entitlement cfg cache k w = (r, w') -> tables_of w' = tables_of w.
Proof.
  unfold cached_entitlement. destruct (cache !! _); [by intros [= _ <-]|].
  destruct (IsQuotaEntitlementActive cfg k w) as [r0 w0] eqn:Hq. intros [= _ <-].
  eapply read_only_run; [|exact Hq]. unfold IsQuotaEntitlementActive. solve_read_only.
Qed.

Lemma expires_at_effect cache ks w errs ks' w' :
  expires_at_loop cfg cache ks w = (errs, ks', w') ->
  map KR.ID ks' = map KR.ID ks /\ map KR.Status ks' = map KR.Status ks /\
  Forall2 keeps_row_status (tables_of w).(kafkas) (tables_of w').(kafkas).
Proof.
  revert cache w errs ks' w'. induction ks as [|k ks IH]; simpl; intros cache w errs ks' w' Hr.
  { injection Hr as _ <- <-. split_and!; [done..|]. induction (kafkas _); constructor; done. }
  destruct (reconcile_expires_at cfg cache k w) as [[[errs1 k1] cache1] w1] eqn:H1.
  destruct (expires_at_loop cfg cache1 ks w1) as [[errs2 ks2] w2] eqn:H2. injection Hr as _ <- <-.
  apply IH in H2 as (Hid2 & Hs2 & Hall2).
  assert (k1.(KR.ID) = k.(KR.ID) /\ k1.(KR.Status) = k.(KR.Status) /\
    Forall2 keeps_row_status (tables_of w).(kafkas) (tables_of w1).(kafkas)) as (Hid1 & Hs1 & Hall1).
  { assert (Forall2 keeps_row_status (tables_of w).(kafkas) (tables_of w).(kafkas)) as Hrefl
      by (clear; induction (kafkas _); constructor; done).
    unfold reconcile_expires_at in H1. destruct (Contains _ _); [by injection H1 as _ <- _ <-|].
    destruct (GetKafkaInstanceSize _ _ _) as [size|]; [|by injection H1 as _ <- _ <-].
    destruct (LifespanSeconds size); [by injection H1 as _ <- _ <-|].
    destruct (cached_entitlement _ _ _ w) as [[[active cache']|e] w3] eqn:Hc; apply cached_entitlement_run in Hc.
    - destruct (updateExpiresAtBasedOnQuotaEntitlement _ _ _ w3) as [[r k3] w4] eqn:He. injection H1 as _ <- _ <-.
      apply expiry_effect in He. by rewrite <- Hc.
    - injection H1 as _ <- _ <-. by rewrite Hc. }
  simpl. rewrite Hid1, Hs1, Hid2, Hs2. split_and!; [done..|]. by eapply keeps_row_status_trans.
Qed.
End ManagerLemmas.

Section SuspensionLemmas.
Context {W : Type} `{Database W} `{IdSource W} `{!KafkaExternals W}.
Context (cfg : KafkaConfig).

(** Whether the grace period before the expiry date has begun. *)
Definition in_grace_period (now : Z) (k : KafkaRequest) : Prop :=
  CanBeAutomaticallySuspended k = true /\
  exists t bm, k.(KR.ExpiresAt) = Some t /\ now <= t /\
    GetBillingModelByID cfg k.(KR.InstanceType) k.(KR.ActualKafkaBillingModel) = Ok bm /\
    Z.min (t - now) (2 ^ 63 - 1) <= bm.(GracePeriodDays) * Day.

(** One iteration either asks for the suspension, in the grace period, or
    does nothing. *)
Lemma suspend_in_grace_period_run k w r w' :
  suspend_in_grace_period cfg k w = (r, w') ->
  (in_grace_period (time_now w) k /\ exists st, UpdateStatus k.(KR.ID) KafkaRequestStatusSuspending w = (st, w') /\ is_ok st = is_ok r) \/
  (w' = w /\ (is_ok r = true -> ~ in_grace_period (time_now w) k)).
Proof.
  unfold suspend_in_grace_period. intros Hr. destruct (CanBeAutomaticallySuspended k) eqn:Hc; simpl in Hr.
  2:{ injection Hr as _ <-. right. split; [done|]. intros _ [? _]. congruence. }
  unfold bind at 1, get_time, IsExpired in Hr. destruct (KR.ExpiresAt k) as [t|] eqn:Ht.
  2:{ right. unfold bind, lift in Hr. destruct (GetBillingModelByID _ _ _); simpl in Hr; injection Hr as <- <-;
        (split; [done|]); intros _ (_ & t & bm & E & _); congruence. }
  destruct (Z.ltb_spec t (time_now w)).
  { injection Hr as _ <-. right. split; [done|]. intros _ (_ & t' & bm & E & Hle & _). assert (t' = t) by congruence. lia. }
  unfold bind at 1, lift in Hr. destruct (GetBillingModelByID _ _ _) as [bm|e] eqn:Hbm; simpl in Hr.
  2:{ injection Hr as <- <-. right. split; [done|]. done. }
  unfold LessThanOrEqual in Hr. simpl in Hr. destruct (Z.leb_spec (Z.min (t - time_now w) (2 ^ 63 - 1)) (bm.(GracePeriodDays) * Day)).
  - left. split; [split; [done|]; by exists t, bm|]. unfold wrap_err in Hr. destruct (UpdateStatus _ _ w) as [st w1].
    injection Hr as <- <-. exists st. split; [done|]. by destruct st as [[]|[? ?]].
  - injection Hr as <- <-. right. split; [done|]. intros _ (_ & t' & bm' & E & _ & E' & Hle). assert (t' = t) by congruence. assert (bm' = bm) by congruence. subst. lia.
Qed.

(** A Kafka is asked to suspend exactly in its grace period: when its
    status allows it, it has an expiry date that has not passed, and the time
    left is within the grace days of its billing model. *)
Theorem grace_period_suspension k w w' :
  suspend_in_grace_period cfg k w = (Ok tt, w') ->
  (in_grace_period (time_now w) k ->
     exists t, tables_of w' = mkTables (update_rows (touch_kafka t) (fun row => row.(KR.ID) =?s k.(KR.ID))
       (fun row => row <| KR.Status := KafkaRequestStatusSuspending |>) (tables_of w).(kafkas)) (tables_of w).(clusters)) /\
  (~ in_grace_period (time_now w) k -> tables_of w' = tables_of w).
Proof.
  intros [(Hg & st & Hu & Hok)|[-> Hn]]%suspend_in_grace_period_run.
  - split; [|done]. intros _. apply UpdateStatus_run in Hu. destruct st as [[]|]; [|done].
    destruct Hu as (k0 & w1 & _ & _ & _ & ->). by eexists.
  - split; [|done]. intros Hg. by destruct (Hn eq_refl).
Qed.

Lemma suspend_effect k w r w' :
  suspend_in_grace_period cfg k w = (r, w') -> NoDup (map KR.ID (tables_of w).(kafkas)) -> current_or_deprovisioned w k ->
  Forall2 general_effect (tables_of w).(kafkas) (tables_of w').(kafkas) /\
  (forall k', k'.(KR.ID) <> k.(KR.ID) -> current_or_deprovisioned w k' -> current_or_deprovisioned w' k').
Proof.
  intros [([Hc _] & st & Hu & _)|[-> _]]%suspend_in_grace_period_run Hnd Hcur; [|by split].
  split.
  - apply UpdateStatus_run in Hu. destruct st as [[]|[ex e]]; [|by destruct Hu as [-> _]].
    destruct Hu as (c & w1 & (Hne & Hin & Hid & _)%GetByID_ok & Hns & Hdep & ->). apply update_rows_general.
    intros row Hrow Hr%String.eqb_eq. split; [by destruct row|]. right; left. split; [by destruct row|].
    assert (row = c) as -> by (eapply same_id_same_row; [done|done|done|congruence]).
    destruct (Hcur c Hin Hid) as [E|E]; [|by specialize (Hdep E)].
    destruct (same_status_predicates _ _ E) as [-> _]. done.
  - intros k' Hne Hk' row' Hrow' Hid'. apply UpdateStatus_moved in Hu.
    apply list_elem_of_lookup in Hrow' as [i Hi]. eapply Forall2_lookup_r in Hu as (row & Hrow & Hm); [|exact Hi].
    destruct Hm as [->|(Hr & Hr' & _)]; [|congruence]. apply Hk'; [|done]. by eapply list_elem_of_lookup_2.
Qed.

Lemma suspend_loop ks w errs w' :
  for_all_collect (suspend_in_grace_period cfg) ks w = (errs, w') -> NoDup (map KR.ID ks) ->
  NoDup (map KR.ID (tables_of w).(kafkas)) -> Forall (current_or_deprovisioned w) ks ->
  Forall2 general_effect (tables_of w).(kafkas) (tables_of w').(kafkas).
Proof.
  revert w errs. induction ks as [|k ks IH]; simpl; intros w errs Hr Hnd Hrows Hcur; [by injection Hr as _ <-|].
  apply NoDup_cons in Hnd as [Hk Hnd]. apply Forall_cons in Hcur as [Hck Hcur].
  destruct (suspend_in_grace_period cfg k w) as [r w1] eqn:H1. destruct (for_all_collect _ ks w1) as [errs2 w2] eqn:H2.
  injection Hr as _ <-. apply suspend_effect in H1 as [H1 Hkeep]; [|done..].
  apply IH in H2; [by etrans|done|by rewrite (general_effect_ids _ _ H1)|].
  rewrite Forall_forall in Hcur |- *. intros k' Hk'. apply Hkeep; [|by apply Hcur].
  intros E. apply Hk. rewrite <- E. by apply list_elem_of_fmap_2.
Qed.

Lemma expired_effect w r w' :
  DeprovisionExpiredKafkas w = (r, w') -> NoDup (map KR.ID (tables_of w).(kafkas)) ->
  Forall2 general_effect (tables_of w).(kafkas) (tables_of w').(kafkas).
Proof.
  intros Hr Hnd. unfold DeprovisionExpiredKafkas in Hr. apply bind_inv in Hr as [(l & w1 & Hl & Hr)|(e & He & _)].
  2:{ apply wrap_err_err in He as (? & He & _). by rewrite (exec_err _ _ _ _ _ He). }
  apply wrap_err_ok in Hl. rewrite <- (read_only_run _ _ _ _ (select_kafkas_ro _) Hl) in *.
  apply exec_ok in Hl as [Hperm Ht]. unfold bind at 1, get_time in Hr. destruct (IsEmpty _); [by injection Hr as _ <-|].
  apply wrapped_update_run in Hr as ->. destruct r; [|done]. apply update_rows_general.
  intros row Hrow (k & Hid & Hk)%Contains_true%list_elem_of_fmap.
  apply list_elem_of_In, filter_In in Hk as [Hk%list_elem_of_In _]. rewrite Hperm in Hk.
  apply list_elem_of_In, filter_In in Hk as [Hk%list_elem_of_In [Hn _]%andb_true_iff]. rewrite <- Ht in Hk.
  rewrite (same_id_same_row _ row k Hnd Hrow Hk Hid). split; [by destruct k|]. right; right. by destruct k.
Qed.
End SuspensionLemmas.

Section ManagerProperties.
Context {W : Type} `{Database W} `{IdSource W} `{!KafkaExternals W}.
Context (dp : DataplaneClusterConfig) (pc : ProviderConfig) (cfg : KafkaConfig) (acl : AccessControlListConfig).
Context `{!ClusterLookup W cfg}.

Lemma metrics_ro : read_only setKafkaStatusCountMetric /\ read_only (updateClusterStatusCapacityMetrics dp pc cfg).
Proof.
  unfold setKafkaStatusCountMetric, Kafka_CountByStatus, updateClusterStatusCapacityMetrics. split; solve_read_only.
Qed.

Lemma keeps_or_deprovisions_general row row' : keeps_or_deprovisions row row' -> general_effect row row'.
Proof. intros [? [?|?]]; split; auto. Qed.

Lemma keeps_row_status_general row row' : keeps_row_status row row' -> general_effect row row'.
Proof. intros [? ?]. split; auto. Qed.

(** The Kafkas in memory stay current, or have been deprovisioned since. *)
Lemma current_after_expiry ks ks' w0 w1 w2 :
  Forall2 keeps_or_deprovisions (tables_of w0).(kafkas) (tables_of w1).(kafkas) ->
  Forall2 keeps_row_status (tables_of w1).(kafkas) (tables_of w2).(kafkas) ->
  map KR.ID ks' = map KR.ID ks -> map KR.Status ks' = map KR.Status ks ->
  Forall (fun k => snapshot_of k w0) ks -> Forall (current_or_deprovisioned w2) ks'.
Proof.
  intros H1 H2 Hid Hst Hs. apply Forall_forall. intros k' Hk'. apply list_elem_of_lookup in Hk' as [i Hi].
  assert (exists k, ks !! i = Some k /\ k.(KR.ID) = k'.(KR.ID) /\ k.(KR.Status) = k'.(KR.Status)) as (k & Hk & Hkid & Hkst).
  { assert (map KR.ID ks !! i = Some k'.(KR.ID)) as E1 by (by rewrite <- Hid, list_lookup_fmap, Hi).
    assert (map KR.Status ks !! i = Some k'.(KR.Status)) as E2 by (by rewrite <- Hst, list_lookup_fmap, Hi).
    rewrite list_lookup_fmap in E1, E2. destruct (ks !! i) as [k|]; [|done]. simpl in *. exists k. naive_solver. }
  rewrite Forall_lookup in Hs. destruct (Hs i k Hk) as [_ Hrow].
  intros row2 Hrow2 Hid2. apply list_elem_of_lookup in Hrow2 as [j Hj].
  eapply Forall2_lookup_r in H2 as (row1 & Hrow1 & [Hi1 Hs1]); [|exact Hj].
  eapply Forall2_lookup_r in H1 as (row0 & Hrow0 & [Hi0 Hs0]); [|exact Hrow1].
  assert (row0 = k) as -> by (apply Hrow; [by eapply list_elem_of_lookup_2|congruence]).
  destruct Hs0 as [E|[E _]]; [left|right]; congruence.
Qed.

Lemma KafkaManager_Reconcile_run w errs w' :
  KafkaManager_Reconcile dp pc cfg acl w = (errs, w') -> keyed (tables_of w) ->
  Forall2 general_effect (tables_of w).(kafkas) (tables_of w').(kafkas).
Proof.
  intros Hr Hkey. unfold KafkaManager_Reconcile in Hr. destruct metrics_ro as [Hro1 Hro2].
  destruct (select_lists (W := W) (fun _ => true) "unable to list kafka requests") as [Hro0 Hl]. fold ListAll in Hro0, Hl.
  destruct (ListAll w) as [lst w1] eqn:H1. pose proof (read_only_run _ _ _ _ Hro0 H1) as T1.
  destruct (setKafkaStatusCountMetric w1) as [cnt w2] eqn:H2. pose proof (read_only_run _ _ _ _ Hro1 H2) as T2.
  destruct (updateClusterStatusCapacityMetrics dp pc cfg w2) as [cap w3] eqn:H3. pose proof (read_only_run _ _ _ _ Hro2 H3) as T3.
  assert (tables_of w3 = tables_of w) as T by congruence. rewrite <- T in *. clear T1 T2 T3 H2 H3.
  match type of Hr with context [(if EnableDenyList acl then ?a else ?b) w3] => destruct ((if EnableDenyList acl then a else b) w3) as [den w4] eqn:H4 end.
  assert (Forall2 keeps_or_deprovisions (tables_of w3).(kafkas) (tables_of w4).(kafkas)) as G4.
  { destruct (EnableDenyList acl); [by eapply denied_effect|]. injection H4 as _ <-.
    clear. induction (kafkas _); constructor; [split; [done|by left]|done]. }
  destruct (reconcileKafkaExpiresAt cfg _ w4) as [[exps ks'] w5] eqn:H5.
  apply expires_at_effect in H5 as (Hids & Hsts & G5).
  destruct (for_all_collect _ ks' w5) as [susp w6] eqn:H6. destruct (DeprovisionExpiredKafkas w6) as [ex w7] eqn:H7.
  injection Hr as _ <-.
  assert (Forall2 general_effect (tables_of w3).(kafkas) (tables_of w5).(kafkas)) as G35.
  { etrans; [eapply Forall2_impl; [exact G4|apply keeps_or_deprovisions_general]|].
    eapply Forall2_impl; [exact G5|apply keeps_row_status_general]. }
  assert (NoDup (map KR.ID (listed lst)) /\ Forall (fun k => snapshot_of k w3) (listed lst)) as [Hndl Hsnap].
  { destruct lst as [l|]; [|split; constructor]. apply Hl in H1. rewrite <- T in H1.
    destruct (snapshots_of_query (fun _ => true) l w3) as [Hnd Hs]; [done..|]. split; [done|].
    eapply Forall_impl; [exact Hs|]. by intros ? [_ ?]. }
  destruct Hkey as [Hnd _].
  apply suspend_loop in H6; [|by rewrite Hids|by rewrite (general_effect_ids _ _ G35)|by eapply current_after_expiry].
  assert (Forall2 general_effect (tables_of w3).(kafkas) (tables_of w6).(kafkas)) as G36 by (by etrans).
  apply expired_effect in H7; [by etrans|]. by rewrite (general_effect_ids _ _ G36).
Qed.

(** A pass of the general worker changes the status of a Kafka only to
    suspending, from a status that allows automatic suspension, or to
    deprovision, from a status that is not under deletion; it creates and
    removes no Kafka. *)
Theorem general_pass_transitions w errs w' :
  KafkaManager_Reconcile dp pc cfg acl w = (errs, w') -> keyed (tables_of w) ->
  Forall2 general_effect (tables_of w).(kafkas) (tables_of w').(kafkas).
Proof. apply KafkaManager_Reconcile_run. Qed.
End ManagerProperties.

(** The capacity published for a cluster under dynamic scaling: the maximum
    is within the units of the cluster and within the limit of its region, the
    available capacity is never negative, and it is the part of the maximum that
    is not used (none when more is used than the maximum). *)
Theorem dynamic_capacity_figures pc c p limit :
  calculateAvailableAndMaxCapacityForDynamicScaling pc c = Ok p ->
  GetInstanceLimit pc c.(SU_Region) c.(SU_CloudProvider) c.(SU_InstanceType) = Ok limit ->
  in_int32 c.(SU_MaxUnits) -> 0 <= c.(SU_MaxUnits) -> in_int32 c.(SU_Count) -> 0 <= c.(SU_Count) ->
  (forall n, limit = Some n -> 0 <= n) ->
  p.(SU_MaxUnits) <= c.(SU_MaxUnits) /\ (forall n, limit = Some n -> p.(SU_MaxUnits) <= n) /\
  0 <= p.(SU_Count) /\ p.(SU_Count) + c.(SU_Count) = Z.max p.(SU_MaxUnits) c.(SU_Count).
Proof.
  unfold calculateAvailableAndMaxCapacityForDynamicScaling, getRegionInstanceTypeLimit. intros Hr Hl Hm Hm0 Hc Hc0 Hn.
  rewrite Hl in Hr. simpl in Hr. injection Hr as <-. simpl.
  set (lim := match limit with Some n => n | None => MaxInt64 end).
  assert (0 <= lim) as Hlim by (subst lim; destruct limit; [by apply Hn|done]).
  unfold in_int32 in *. rewrite !int32_id by (unfold in_int32; lia). split_and!; try lia.
  intros n ->. subst lim. lia.
Qed.

(** ** Witnesses *)
Module DemoManager.
Definition acl : AccessControlListConfig := mkAccessControlListConfig true ["mallory"].

(** [k1] is five days from its expiry date and belongs to the enterprise
    billing model, whose grace period is fourteen days; [k3] belongs to a
    denied owner. *)
Definition expiring : KafkaRequest :=
  Fixtures.k1 <| KR.ActualKafkaBillingModel := "enterprise" |> <| KR.ExpiresAt := Some (1000 + 5 * Day) |>.
Definition denied : KafkaRequest := Fixtures.k3 <| KR.Owner := "mallory" |>.
Definition world : MemDB.world unit :=
  MemDB.mkWorld (mkTables [expiring; Fixtures.k2; denied] (clusters Fixtures.db)) 1000 [] tt.

Lemma expiring_in_grace : in_grace_period Fixtures.kafka_config 1000 expiring.
Proof.
  split; [done|]. exists (1000 + 5 * Day), Fixtures.enterprise_model. split_and!; [done|vm_compute; done|done|vm_compute; done].
Defined.

Definition entry : KafkaStreamingUnitCountPerCluster :=
  mkKafkaStreamingUnitCountPerCluster "us-east-1" STANDARD "" "c1" 3 "aws" 5 ClusterReady ManagedDataPlaneClusterType.
End DemoManager.

Lemma grace_period_suspension_witness :
  exists w', suspend_in_grace_period Fixtures.kafka_config DemoManager.expiring DemoManager.world = (Ok tt, w') /\
    exists t, tables_of w' = mkTables (update_rows (touch_kafka t) (fun row => row.(KR.ID) =?s "k1")
      (fun row => row <| KR.Status := KafkaRequestStatusSuspending |>) (tables_of DemoManager.world).(kafkas))
      (tables_of DemoManager.world).(clusters).
Proof.
  eexists. split; [vm_compute; reflexivity|].
  refine (proj1 (grace_period_suspension Fixtures.kafka_config DemoManager.expiring DemoManager.world _ _) DemoManager.expiring_in_grace).
  vm_compute; reflexivity.
Defined.

(** The entitlements of the fixture are active, so the expiry date of [k1] is
    removed and it goes on; [k3] is deprovisioned. *)
Lemma general_pass_transitions_witness :
  let run := KafkaManager_Reconcile (Fixtures.dp_config AutoScaling) (Fixtures.provider_config (Some 5)) Fixtures.kafka_config
               DemoManager.acl DemoManager.world in
  map KR.Status (tables_of (snd run)).(kafkas) = [KafkaRequestStatusReady; KafkaRequestStatusDeleting; KafkaRequestStatusDeprovision] /\
  Forall2 general_effect (tables_of DemoManager.world).(kafkas) (tables_of (snd run)).(kafkas).
Proof.
  split; [vm_compute; reflexivity|].
  apply (general_pass_transitions (Fixtures.dp_config AutoScaling) (Fixtures.provider_config (Some 5)) Fixtures.kafka_config
    DemoManager.acl DemoManager.world (fst (KafkaManager_Reconcile (Fixtures.dp_config AutoScaling) (Fixtures.provider_config (Some 5))
      Fixtures.kafka_config DemoManager.acl DemoManager.world))); [apply surjective_pairing|].
  split; vm_compute; repeat constructor; set_solver.
Defined.

Lemma dynamic_capacity_figures_witness :
  exists p, calculateAvailableAndMaxCapacityForDynamicScaling (Fixtures.provider_config (Some 4)) DemoManager.entry = Ok p /\
    p.(SU_Count) + 3 = Z.max p.(SU_MaxUnits) 3.
Proof.
  eexists. split; [vm_compute; reflexivity|].
  refine (proj2 (proj2 (proj2 (dynamic_capacity_figures (Fixtures.provider_config (Some 4)) DemoManager.entry _ (Some 4) _ _ _ _ _ _ _))));
    [vm_compute; reflexivity | reflexivity | vm_compute; done | vm_compute; done | vm_compute; done | vm_compute; done
    | intros n [= <-]; done].
Defined.
