(* ===== verification/Promotion.v ===== *)
(** * Promotion to another billing model

    [src/internal/kafka/internal/workers/kafka_mgrs/promotion]: the chain of
    actions ([chain/reconciler_chain.go], [internal/actions]) and the worker
    that runs it ([promotion_kafkas_mgr.go]); and the quota list behind the
    general worker's cache of entitlements. *)
From S2P Require Import Prelude Arrays Errors Status Config Model Store Resources Providers Fixtures ClusterService Placement KafkaService QuotaList Transitions Workers KafkaManager.

(** The part of [QuotaService] that promotion calls; the reservation is given a
    copy of the request, so that only the subscription comes back. *)
Class PromotionQuota (W : Type) `{Database W} := {
  reserve_quota_if_not_already_reserved : KafkaRequest -> M W ServiceError string;
  delete_quota_for_billing_model : string -> KafkaBillingModel -> M W ServiceError unit;
  reserve_quota_if_not_already_reserved_ro : forall k, read_only (reserve_quota_if_not_already_reserved k);
  delete_quota_for_billing_model_ro : forall s bm, read_only (delete_quota_for_billing_model s bm)
}.
#[export] Hint Resolve reserve_quota_if_not_already_reserved_ro delete_quota_for_billing_model_ro : fleet.

(** The quota list implements it. *)
Definition quota_list_promotion {W} `{Database W} (MaxAllowedInstances : Z) (conf : QuotaManagementListConfig) (cfg : KafkaConfig)
  : PromotionQuota W.
Proof.
  refine {|
    reserve_quota_if_not_already_reserved := fun k => r <~ ReserveQuotaIfNotAlreadyReserved MaxAllowedInstances conf cfg k ;; ret r.1;
    delete_quota_for_billing_model := DeleteQuotaForBillingModel
  |}.
  - intros k. apply bind_read_only; [apply ReserveQuota_ro|intros a; apply ret_read_only].
  - intros s bm. apply ret_read_only.
Defined.

(** ** The chain *)
Record ActionResult (T : Type) := mkActionResult { hasValue : bool; value : T }.
Arguments mkActionResult {T}.
Arguments hasValue {T}.
Arguments value {T}.

Section Chain.
Context {W T : Type} `{Zero T}.

(** [PerformJob], with the request as it is left in memory. *)
Definition ReconcileAction : Type :=
  KafkaRequest -> ActionResult T -> W -> result error (ActionResult T * bool) * KafkaRequest * W.

Definition no_result : ActionResult T := mkActionResult false zero.
Definition SetValue (v : T) : ActionResult T := mkActionResult true v.

Fixpoint run_actions (actions : list ReconcileAction) (kafkaRequest : KafkaRequest) (finalResult : ActionResult T) (w : W)
  : result error T * KafkaRequest * W :=
  match actions with
  | [] => (Ok finalResult.(value), kafkaRequest, w)
  | action :: rest =>
      let '(r, kafkaRequest, w) := action kafkaRequest finalResult w in
      match r with
      | Err e => (Err e, kafkaRequest, w)
      | Ok (res, endPipeline) =>
          let finalResult := if res.(hasValue) then SetValue res.(value) else finalResult in
          if endPipeline : bool then (Ok finalResult.(value), kafkaRequest, w) else run_actions rest kafkaRequest finalResult w
      end
  end.

Definition Run (actions : list ReconcileAction) (kafkaRequest : KafkaRequest) (w : W) : result error T * KafkaRequest * W :=
  run_actions actions kafkaRequest no_result w.
End Chain.
Arguments ReconcileAction : clear implicits.

(** [PromotionContext] holds the subscription. *)
Definition PromotionContext : Type := string.
#[export] Instance PromotionContext_zero : Zero PromotionContext := "".

Section Promotion.
Context {W : Type} `{Database W} `{!KafkaExternals W} `{!PromotionQuota W}.
Context (kafkaConfig : KafkaConfig).

(** An action that leaves the request as it is. *)
Definition keeping (f : KafkaRequest -> ActionResult PromotionContext -> M W error (ActionResult PromotionContext * bool))
  : ReconcileAction W PromotionContext := fun kafkaRequest current w =>
  let '(r, w') := f kafkaRequest current w in (r, kafkaRequest, w').

Definition quota_service_type : string := kafkaConfig.(Config.Quota).(Quota_Type).

Definition ReserveDesiredQuotaAction : ReconcileAction W PromotionContext := keeping (fun kafkaRequest _ =>
  _ <~ lift (map_err (fun e => EService (general_svc "unable to check quota" e)) (get_quota_service quota_service_type)) ;;
  subscriptionID <~ wrap_err (fun e => EService (general_svc "unable to reserve quota" e))
                      (reserve_quota_if_not_already_reserved kafkaRequest) ;;
  ret (SetValue subscriptionID, false)).

Definition DeleteActualQuotaAction : ReconcileAction W PromotionContext := keeping (fun kafkaRequest _ =>
  _ <~ lift (map_err (fun e => EService (general_svc "unable to delete quota" e)) (get_quota_service quota_service_type)) ;;
  instanceType <~ lift (GetKafkaInstanceTypeByID kafkaConfig.(SupportedInstanceTypes) kafkaRequest.(KR.InstanceType)) ;;
  bm <~ lift (GetKafkaSupportedBillingModelByID instanceType kafkaRequest.(KR.ActualKafkaBillingModel)) ;;
  _ <~ wrap_err (fun e => EService (Build (Recoverable (Wrap e NewServiceErrorBuilder))))
         (delete_quota_for_billing_model kafkaRequest.(KR.SubscriptionId) bm) ;;
  ret (no_result, false)).

Definition promoted_fields (kafkaRequest : KafkaRequest) (subscriptionID : string) (row : KafkaRequest) : KafkaRequest :=
  row <| KR.PromotionStatus := "" |> <| KR.PromotionDetails := "" |>
      <| KR.ActualKafkaBillingModel := kafkaRequest.(KR.DesiredKafkaBillingModel) |>
      <| KR.SubscriptionId := subscriptionID |> <| KR.ExpiresAt := None |>.

(** The update assigns the fields of the request in memory too, before the
    statement is sent. *)
Definition UpdateKafkaRequestAction : ReconcileAction W PromotionContext := fun kafkaRequest currentResult w =>
  let fields := promoted_fields kafkaRequest currentResult.(value) in
  let '(r, w') := Updates kafkaRequest fields w in
  (match r with
   | Ok _ => Ok (currentResult, false)
   | Err err => Err (EService (Build (Recoverable (Wrap err NewServiceErrorBuilder))))
   end, fields kafkaRequest, w').

(** ** The worker *)
Definition promote (kafka : KafkaRequest) (w : W) : result error string * KafkaRequest * W :=
  Run [ReserveDesiredQuotaAction; DeleteActualQuotaAction; UpdateKafkaRequestAction] kafka w.

Definition failed_details (kafkaRequest : KafkaRequest) (promotionError : error) : KafkaRequest :=
  kafkaRequest <| KR.PromotionDetails := error_text promotionError |>
    <| KR.PromotionStatus := match promotionError with
                             | EService serviceError => if serviceError.(recoverable) then KafkaPromotionStatusPromoting else KafkaPromotionStatusFailed
                             | _ => KafkaPromotionStatusFailed
                             end |>.

Definition updateFailedPromotionDetails (kafkaRequest : KafkaRequest) (promotionError : error) : M W ServiceError unit :=
  Update (failed_details kafkaRequest promotionError).

(** One iteration; a failure to record the error is only logged. *)
Definition promote_one (kafka : KafkaRequest) : M W error unit := fun w =>
  let '(r, kafka, w1) := promote kafka w in
  match r with
  | Ok _ => (Ok tt, w1)
  | Err promotionError =>
      let '(_, w2) := updateFailedPromotionDetails kafka promotionError w1 in
      (Err (EWrap "failed to promote kafka with id '%s'" promotionError), w2)
  end.

Definition Promotion_Reconcile (w : W) : list error * W :=
  match ListKafkasToBePromoted w with
  | (Err err, w1) => ([EWrap "failed to list kafkas to promote" (EService err)], w1)
  | (Ok kafkasToPromote, w1) =>
      let '(promotionErrors, w2) := for_all_collect promote_one kafkasToPromote w1 in
      (AddErrors [] promotionErrors, w2)
  end.
End Promotion.

(** ** What a pass does to the rows *)

(** The outcomes for one Kafka.  The last is a promotion whose final update
    failed while the record of the failure was stored. *)
Inductive promotion_outcome (k k' : KafkaRequest) : Prop :=
| outcome_promoted :
    k'.(KR.ActualKafkaBillingModel) = k.(KR.DesiredKafkaBillingModel) -> k'.(KR.PromotionStatus) = KafkaPromotionStatusNoPromotion ->
    k'.(KR.ExpiresAt) = None -> promotion_outcome k k'
| outcome_not_promoted :
    k'.(KR.ActualKafkaBillingModel) = k.(KR.ActualKafkaBillingModel) -> k'.(KR.SubscriptionId) = k.(KR.SubscriptionId) ->
    k'.(KR.ExpiresAt) = k.(KR.ExpiresAt) -> k'.(KR.PromotionStatus) ∈ [KafkaPromotionStatusPromoting; KafkaPromotionStatusFailed] ->
    promotion_outcome k k'
| outcome_half_promoted :
    k'.(KR.ActualKafkaBillingModel) = k.(KR.DesiredKafkaBillingModel) -> k'.(KR.PromotionStatus) = KafkaPromotionStatusPromoting ->
    k'.(KR.ExpiresAt) = k.(KR.ExpiresAt) -> promotion_outcome k k'.

(** The columns that promotion leaves alone: all but those of the promotion and
    the time of the update. *)
Definition without_promotion (k : KafkaRequest) : KafkaRequest :=
  k <| KR.UpdatedAt := 0 |> <| KR.PromotionStatus := "" |> <| KR.PromotionDetails := "" |> <| KR.ActualKafkaBillingModel := "" |>
    <| KR.SubscriptionId := "" |> <| KR.ExpiresAt := None |>.
Definition promotion_frame (k k' : KafkaRequest) : Prop := without_promotion k' = without_promotion k.

Lemma pick_Z_same x : pick_Z x x = x.
Proof. unfold pick_Z. by destruct (_ =? _). Qed.
Lemma pick_json_same {A} (x : JSONCol A) : pick_json x x = x.
Proof. by destruct x. Qed.

(** Merging a copy of the row in which only these columns differ. *)
Lemma merge_frame t (new k : KafkaRequest) : without_promotion new = without_promotion k ->
  promotion_frame k (touch_kafka t (KR.merge_nonzero new k)).
Proof.
  destruct new, k. unfold promotion_frame, without_promotion, KR.merge_nonzero, touch_kafka. cbn. intros [= ]. subst.
  by rewrite !pick_string_same, !pick_Z_same, !pick_json_same, !orb_diag.
Qed.

Section PromotionFacts.
Context {W : Type} `{Database W} `{!KafkaExternals W} `{!PromotionQuota W}.
Context (cfg : KafkaConfig).

Lemma keeping_spec f k cur (w : W) r k' w' : keeping f k cur w = (r, k', w') -> k' = k /\ f k cur w = (r, w').
Proof. unfold keeping. destruct (f k cur w) as [r0 w0]. intros [= <- <- <-]. done. Qed.

(** The three ways a promotion ends. *)
Lemma promote_cases k (w : W) r k' w' :
  promote cfg k w = (r, k', w') ->
  (exists e, r = Err e /\ k' = k /\ tables_of w' = tables_of w) \/
  (exists sub w1, is_ok r = true /\ tables_of w1 = tables_of w /\ Updates k (promoted_fields k sub) w1 = (Ok tt, w')) \/
  (exists sub s, r = Err (EService s) /\ s.(recoverable) = true /\ k' = promoted_fields k sub k /\ tables_of w' = tables_of w).
Proof.
  unfold promote, Run. cbn [run_actions]. destruct (ReserveDesiredQuotaAction cfg k no_result w) as [[r1 k1] w1] eqn:H1.
  unfold ReserveDesiredQuotaAction in H1. apply keeping_spec in H1 as [-> H1]. assert (tables_of w1 = tables_of w) as Ht1 by (eapply read_only_run; [|exact H1]; solve_read_only).
  destruct r1 as [[res1 end1]|e1]; [|intros [= <- <- <-]; left; by exists e1].
  assert (exists sub, res1 = SetValue sub /\ end1 = false) as (sub & -> & ->) by (repeat run_ok H1; by eexists). cbn [hasValue value SetValue].
  destruct (DeleteActualQuotaAction cfg k _ w1) as [[r2 k2] w2] eqn:H2.
  unfold DeleteActualQuotaAction in H2. apply keeping_spec in H2 as [-> H2]. assert (tables_of w2 = tables_of w1) as Ht2 by (eapply read_only_run; [|exact H2]; solve_read_only).
  destruct r2 as [[res2 end2]|e2]; [|intros [= <- <- <-]; left; exists e2; split_and!; [done..|congruence]].
  assert (res2 = no_result /\ end2 = false) as [-> ->] by (by repeat run_ok H2). cbn [hasValue value no_result].
  unfold UpdateKafkaRequestAction. destruct (Updates k _ w2) as [[[]|e3] w3] eqn:H3; cbv beta iota zeta.
  - intros [= <- <- <-]. right. left. exists sub, w2. split_and!; [done|congruence|done].
  - intros [= <- <- <-]. right. right. eexists sub, _. split_and!; [done|done|done|]. apply Updates_run in H3. congruence.
Qed.

Lemma Updates_changed k f (w : W) r w' (R : KafkaRequest -> KafkaRequest -> Prop) :
  Updates k f w = (r, w') -> snapshot_of k w -> (f k).(KR.ID) = k.(KR.ID) -> (forall t, R k (touch_kafka t (f k))) ->
  Forall2 (changed k.(KR.ID) R) (tables_of w).(kafkas) (tables_of w').(kafkas).
Proof.
  intros ->%Updates_run [Hne Hs] Hid HR. destruct r; [|by apply same_kafkas_changed].
  simpl. assert (forall row, row ∈ (tables_of w).(kafkas) -> row.(KR.ID) = k.(KR.ID) -> row = k) as Hs' by done.
  revert Hs'. clear Hs. induction (kafkas _) as [|row rows IH]; intros Hs; constructor.
  - destruct (_ && _) eqn:Hd; [|by left]. apply designated_row in Hd as [Hr _]; [|done].
    assert (row = k) as -> by (apply Hs; [set_solver|congruence]). right. by split_and!.
  - apply IH. intros ? ?. apply Hs. set_solver.
Qed.

Lemma failed_status_listed k e : (failed_details k e).(KR.PromotionStatus) ∈ [KafkaPromotionStatusPromoting; KafkaPromotionStatusFailed].
Proof. unfold failed_details. simpl. destruct e as [| |s|]; [right; left|right; left| |right; left]. destruct (recoverable s); [left|right; left]. Qed.

Lemma pick_nonempty s old : s <> "" -> pick_string s old = s.
Proof. intros Hs%String.eqb_neq. unfold pick_string. by rewrite Hs. Qed.

(** The row with the failure recorded, from the request as it was read. *)
Lemma record_failure k e t :
  let k' := touch_kafka t (KR.merge_nonzero (failed_details k e) k) in promotion_frame k k' /\ promotion_outcome k k'.
Proof.
  cbv zeta. split; [by apply merge_frame|].
  apply outcome_not_promoted; simpl; rewrite ?pick_string_same; [done..| |].
  - by destruct (KR.ExpiresAt k).
  - rewrite pick_nonempty; [apply (failed_status_listed k e)|]. pose proof (failed_status_listed k e) as Hs. simpl in Hs. intros E. rewrite E in Hs. set_solver.
Qed.

(** The same after the fields of the request were assigned in memory. *)
Lemma record_half_promotion k sub s t :
  k.(KR.DesiredKafkaBillingModel) <> "" -> s.(recoverable) = true ->
  let k' := touch_kafka t (KR.merge_nonzero (failed_details (promoted_fields k sub k) (EService s)) k) in
  promotion_frame k k' /\ promotion_outcome k k'.
Proof.
  intros Hdes Hrec. cbv zeta. split; [by apply merge_frame|].
  apply outcome_half_promoted; simpl; [by rewrite pick_nonempty|by rewrite Hrec|done].
Qed.

Lemma promote_one_changed k (w : W) r w' :
  promote_one cfg k w = (r, w') -> snapshot_of k w -> k.(KR.DesiredKafkaBillingModel) <> "" ->
  Forall2 (changed k.(KR.ID) (fun row row' => promotion_frame row row' /\ promotion_outcome row row')) (tables_of w).(kafkas) (tables_of w').(kafkas).
Proof.
  intros Hr Hs Hdes. unfold promote_one in Hr. destruct (promote cfg k w) as [[r1 k1] w1] eqn:Hp.
  apply promote_cases in Hp as [(e & -> & -> & Ht)|[(sub & w0 & Hok & Ht & Hu)|(sub & s & -> & Hrec & -> & Ht)]].
  - unfold updateFailedPromotionDetails in Hr. destruct (Update _ w1) as [r2 w2] eqn:H2. injection Hr as _ <-. rewrite <- Ht.
    eapply Update_changed; [exact H2|unfold snapshot_of in *; by rewrite Ht|done|]. intros t. apply record_failure.
  - destruct r1; [|done]. injection Hr as _ <-. rewrite <- Ht. eapply Updates_changed; [exact Hu|unfold snapshot_of in *; by rewrite Ht|done|].
    intros t. split; [done|by apply outcome_promoted].
  - unfold updateFailedPromotionDetails in Hr. destruct (Update _ w1) as [r2 w2] eqn:H2. injection Hr as _ <-. rewrite <- Ht.
    eapply (Update_changed _ k); [exact H2|unfold snapshot_of in *; by rewrite Ht|done|]. intros t. by apply record_half_promotion.
Qed.
End PromotionFacts.

(** A deployment with the quota list. *)
Module PromotionExample.
#[global] Instance quota : PromotionQuota (MemDB.world unit) := quota_list_promotion 1 (QuotaExample.conf 6) Fixtures.kafka_config.

(** A Kafka waiting for promotion, and the statements that fail in one pass. *)
Definition waiting : KafkaRequest := Fixtures.k1 <| KR.ActualKafkaBillingModel := "enterprise" |> <| KR.DesiredKafkaBillingModel := "standard" |>
  <| KR.ExpiresAt := Some 5000 |>.
Definition world (faults : list bool) : MemDB.world unit := MemDB.mkWorld (mkTables [waiting; Fixtures.k2] []) 1000 faults tt.
End PromotionExample.

(** ** Properties *)

(** [C36] One pass of the promotion worker touches only Kafkas whose desired
    billing model differs from the actual one, that have not failed to be
    promoted before and that are in service, and of those only the actual
    billing model, the subscription, the expiration, the status and details of the
    promotion and the time of the update, every other column staying as it is.
    Such a Kafka is either promoted (desired model in use, promotion status and
    expiration cleared), or left on its old model, subscription and expiration
    with the failure recorded, or, when only the last update fails, left with the
    new model, the old expiration and the status [promoting].  Every Kafka is
    assumed to have a desired billing model, and the identifiers to be distinct. *)
Theorem promotion_pass_effect {W} `{Database W} `{!KafkaExternals W} `{!PromotionQuota W} cfg (w : W) errs w' :
  Promotion_Reconcile cfg w = (errs, w') -> keyed (tables_of w) ->
  Forall (fun k => k.(KR.DesiredKafkaBillingModel) <> "") (tables_of w).(kafkas) ->
  Forall2 (worked_on (fun k => k.(KR.ActualKafkaBillingModel) <> k.(KR.DesiredKafkaBillingModel) /\
                               k.(KR.PromotionStatus) <> KafkaPromotionStatusFailed /\
                               k.(KR.Status) ∈ [KafkaRequestStatusReady; KafkaRequestStatusSuspended; KafkaRequestStatusResuming])
             (fun k k' => promotion_frame k k' /\ promotion_outcome k k'))
    (tables_of w).(kafkas) (tables_of w').(kafkas).
Proof.
  intros Hr Hk Hdes. unfold Promotion_Reconcile in Hr. destruct (ListKafkasToBePromoted w) as [[l|e] w1] eqn:Hl.
  - destruct (for_all_collect _ l w1) as [errs1 w2] eqn:Hloop. injection Hr as _ <-.
    unfold ListKafkasToBePromoted in Hl. apply wrap_err_ok, exec_ok in Hl as [Hl Ht]. rewrite <- Ht in *.
    destruct (snapshots_of_query _ l w1 Hk Hl) as [Hnd Hs]. rewrite Forall_forall in Hs, Hdes.
    eapply (for_all_collect_changed _ (fun k k' => promotion_frame k k' /\ promotion_outcome k k')) in Hloop; [| |done|].
    + eapply Forall2_impl; [exact Hloop|]. intros row row' [->|(Hin & Hid & HR)]; [by left|]. right. split; [|done].
      destruct (Hs row Hin) as [Hp _]. split_bools. split_and!; [by apply String.eqb_neq|by apply String.eqb_neq|by apply Contains_true].
    + intros k w3 r w4 Hin Hone Hsnap. eapply promote_one_changed; [exact Hone|done|]. apply Hdes. rewrite Hl in Hin.
      by apply list_elem_of_In, filter_In in Hin as [?%list_elem_of_In _].
    + apply Forall_forall. intros k Hin. by apply Hs.
  - injection Hr as _ <-. apply (read_only_run ListKafkasToBePromoted) in Hl as ->; [|unfold ListKafkasToBePromoted; solve_read_only].
    clear. induction (kafkas _); constructor; [by left|done].
Qed.

Lemma promotion_pass_effect_witness :
  let w := PromotionExample.world [] in
  exists errs w', Promotion_Reconcile Fixtures.kafka_config w = (errs, w') /\
    Forall2 (worked_on (fun k => k.(KR.ActualKafkaBillingModel) <> k.(KR.DesiredKafkaBillingModel) /\
                                 k.(KR.PromotionStatus) <> KafkaPromotionStatusFailed /\
                                 k.(KR.Status) ∈ [KafkaRequestStatusReady; KafkaRequestStatusSuspended; KafkaRequestStatusResuming])
               (fun k k' => promotion_frame k k' /\ promotion_outcome k k'))
      [PromotionExample.waiting; Fixtures.k2] (tables_of w').(kafkas) /\
    map (fun k => (k.(KR.ActualKafkaBillingModel), k.(KR.ExpiresAt))) (tables_of w').(kafkas) = [("standard", None); ("standard", None)].
Proof.
  intros w. destruct (Promotion_Reconcile Fixtures.kafka_config w) as [errs w'] eqn:Hr. exists errs, w'. split; [done|]. split.
  - apply (promotion_pass_effect Fixtures.kafka_config w errs w' Hr); [split; [by apply (bool_decide_unpack _); vm_compute|repeat constructor; done]|repeat constructor; done].
  - change w' with (snd (errs, w')). rewrite <- Hr. vm_compute. reflexivity.
Defined.

(** When only the last update of a promotion fails, recording the failure
    stores the new billing model but keeps the expiration and the status
    [promoting]: desired and actual model agree, so later passes do not list
    the Kafka and leave it so. *)
Theorem half_promotion_is_never_finished :
  let pass w := snd (Promotion_Reconcile Fixtures.kafka_config w) in
  let w1 := pass (PromotionExample.world [false; false; true]) in
  map (fun k => (k.(KR.ActualKafkaBillingModel), k.(KR.PromotionStatus), k.(KR.ExpiresAt))) (tables_of w1).(kafkas)
    = [("standard", KafkaPromotionStatusPromoting, Some 5000); ("standard", KafkaPromotionStatusNoPromotion, None)] /\
  forall n, Nat.iter n pass w1 = w1.
Proof.
  cbv zeta. split; [vm_compute; reflexivity|]. induction n as [|n IH]; [done|]. change (Nat.iter (S n) ?f ?x) with (f (Nat.iter n f x)). rewrite IH. vm_compute. reflexivity.
Qed.
