(* ===== verification/Scanner.v ===== *)
(** * String scanners: [src/pkg/shared/utils/stringscanner]

    The scanner that splits the text of a search into tokens
    ([sql_string_scanner.go]) and the one that splits a string into characters
    ([simple_string_scanner.go]).

    Go ranges over the runes of a string, while lengths and positions count
    bytes.  A text is therefore the list of its runes, and [utf8_len] is the
    number of bytes that encode them.  A text is valid UTF-8: bytes that are not
    would be read as the replacement character. *)
From S2P Require Import Prelude.

Definition text := list Z.

#[export] Instance text_eq_dec : EqDecision text := _.

(** The number of bytes of the UTF-8 encoding. *)
Definition rune_len (c : Z) : Z :=
  if c <? 128 then 1 else if c <? 2048 then 2 else if c <? 65536 then 3 else 4.
Definition utf8_len (t : text) : Z := foldr (fun c n => rune_len c + n) 0 t.

(** The runes of an ASCII literal. *)
Fixpoint runes (s : string) : text :=
  match s with
  | EmptyString => []
  | String c s' => Z.of_N (N_of_ascii c) :: runes s'
  end.

Definition ascii_text (t : text) : Prop := Forall (fun c => 0 <= c < 128) t.

(** The characters that the scanner distinguishes. *)
Definition SPACE : Z := 32.
Definition QUOTE : Z := 39.
Definition OPEN : Z := 40.
Definition CLOSE : Z := 41.
Definition COMMA : Z := 44.
Definition LESS : Z := 60.
Definition EQUALS : Z := 61.
Definition GREATER : Z := 62.
Definition BACKSLASH : Z := 92.

Lemma utf8_len_ascii t : ascii_text t -> utf8_len t = Z.of_nat (length t).
Proof.
  induction 1 as [|c t Hc Ht IH]; simpl; [done|]. unfold rune_len.
  destruct (Z.ltb_spec c 128); lia.
Qed.

(** ** The SQL scanner *)
Inductive token_type := OP | BRACE | LITERAL | QUOTED_LITERAL | NO_TOKEN.

#[export] Instance token_type_eq_dec : EqDecision token_type.
Proof. solve_decision. Defined.

Record Token := mkToken {
  TokenType : token_type;
  Value : text;
  Position : Z
}.

Record scanner := mkScanner {
  sc_tokens : list Token;
  sc_pos : Z
}.

Definition NewSQLScanner : scanner := mkScanner [] (-1).

(** The variables of [Init]: the tokens sent so far, the characters of the
    current token, its type, and the two flags. *)
Record scan_state := mkScan {
  sent : list Token;
  pending : list Token;
  currentTokenType : token_type;
  quoted : bool;
  escaped : bool
}.

Definition sendCurrentTokens (s : scan_state) : scan_state :=
  let res := flat_map Value s.(pending) in
  let out := match res, s.(pending) with
             | _ :: _, first :: _ => s.(sent) ++ [mkToken s.(currentTokenType) res first.(Position)]
             | _, _ => s.(sent)
             end in
  mkScan out [] NO_TOKEN s.(quoted) s.(escaped).

(** Appends a character to the current token. *)
Definition push (ty : token_type) (c i : Z) (s : scan_state) : scan_state :=
  mkScan s.(sent) (s.(pending) ++ [mkToken ty [c] i]) s.(currentTokenType) s.(quoted) s.(escaped).

(** Sends a token of one character. *)
Definition send_char (ty : token_type) (c i : Z) (s : scan_state) : scan_state :=
  mkScan (s.(sent) ++ [mkToken ty [c] i]) s.(pending) s.(currentTokenType) s.(quoted) s.(escaped).

Definition set_type (ty : token_type) (s : scan_state) : scan_state :=
  mkScan s.(sent) s.(pending) ty s.(quoted) s.(escaped).
Definition set_quoted (b : bool) (s : scan_state) : scan_state :=
  mkScan s.(sent) s.(pending) s.(currentTokenType) b s.(escaped).
Definition set_escaped (b : bool) (s : scan_state) : scan_state :=
  mkScan s.(sent) s.(pending) s.(currentTokenType) s.(quoted) b.

(** Sends the current token unless it has one of the given types. *)
Definition send_unless (types : list token_type) (s : scan_state) : scan_state :=
  if existsb (fun ty => bool_decide (ty = s.(currentTokenType))) types then s else sendCurrentTokens s.

(** The body of the loop of [Init]. *)
Definition scan_char (i c : Z) (s : scan_state) : scan_state :=
  if c =? SPACE then
    if s.(quoted) then push LITERAL c i s else sendCurrentTokens s
  else if c =? COMMA then
    if s.(quoted) then push LITERAL c i s else send_char LITERAL c i (sendCurrentTokens s)
  else if (c =? OPEN) || (c =? CLOSE) then
    send_char BRACE c i (sendCurrentTokens s)
  else if (c =? EQUALS) || (c =? LESS) || (c =? GREATER) then
    set_type OP (push OP c i (send_unless [NO_TOKEN; OP] s))
  else if c =? BACKSLASH then
    if s.(quoted) then push QUOTED_LITERAL c i (set_escaped true s)
    else push LITERAL c i (set_type LITERAL (send_unless [NO_TOKEN; LITERAL; QUOTED_LITERAL] s))
  else if c =? QUOTE then
    if s.(quoted) then
      let s := push QUOTED_LITERAL c i s in
      set_escaped false
        (if s.(escaped) then s else set_type NO_TOKEN (set_quoted false (sendCurrentTokens s)))
    else push OP c i (set_type QUOTED_LITERAL (set_quoted true (sendCurrentTokens s)))
  else push LITERAL c i (set_type LITERAL (send_unless [NO_TOKEN; LITERAL; QUOTED_LITERAL] s)).

Fixpoint scan_text (i : Z) (txt : text) (s : scan_state) : scan_state :=
  match txt with
  | [] => s
  | c :: txt' => scan_text (i + rune_len c) txt' (scan_char i c s)
  end.

(** [Init] appends to the tokens of the scanner and leaves its position. *)
Definition Init (s : scanner) (txt : text) : scanner :=
  mkScanner (sendCurrentTokens (scan_text 0 txt (mkScan s.(sc_tokens) [] NO_TOKEN false false))).(sent) s.(sc_pos).

Definition Next (s : scanner) : bool * scanner :=
  if s.(sc_pos) <? Z.of_nat (length s.(sc_tokens)) - 1
  then (true, mkScanner s.(sc_tokens) (s.(sc_pos) + 1))
  else (false, s).

Definition Peek (s : scanner) : option Token :=
  if s.(sc_pos) <? Z.of_nat (length s.(sc_tokens)) - 1
  then s.(sc_tokens) !! Z.to_nat (s.(sc_pos) + 1) else None.

(** [None] is a panic. *)
Definition scanner_Token (s : scanner) : option Token :=
  if (s.(sc_pos) <? 0) || (Z.of_nat (length s.(sc_tokens)) <=? s.(sc_pos)) then None
  else s.(sc_tokens) !! Z.to_nat s.(sc_pos).

(** ** The character scanner

    It reads bytes; a byte converted to a string is the rune of its value. *)
Module SimpleScanner.
Inductive char_type := ALPHA | DIGIT | DECIMALPOINT | SYMBOL.

Record char_token := mkCharToken {
  CharType : char_type;
  Char : Z;
  CharPosition : Z
}.

Record simpleStringScanner := mkSimple {
  value : list Z;
  pos : Z
}.

Definition updateTokenType (c : Z) : char_type :=
  if ((97 <=? c) && (c <=? 122)) || ((65 <=? c) && (c <=? 90)) then ALPHA
  else if (48 <=? c) && (c <=? 57) then DIGIT
  else if c =? 46 then DECIMALPOINT
  else SYMBOL.

Definition simple_Init (bytes : list Z) : simpleStringScanner := mkSimple bytes (-1).

Definition simple_Next (s : simpleStringScanner) : bool * simpleStringScanner :=
  if s.(pos) <? Z.of_nat (length s.(value)) - 1 then (true, mkSimple s.(value) (s.(pos) + 1)) else (false, s).

Definition char_at (s : simpleStringScanner) (i : Z) : option char_token :=
  if i <? 0 then None
  else match s.(value) !! Z.to_nat i with
       | Some c => Some (mkCharToken (updateTokenType c) c i)
       | None => None
       end.

Definition simple_Peek (s : simpleStringScanner) : option char_token :=
  if s.(pos) <? Z.of_nat (length s.(value)) - 1 then char_at s (s.(pos) + 1) else None.

(** [None] is a panic. *)
Definition simple_Token (s : simpleStringScanner) : option char_token := char_at s s.(pos).
End SimpleScanner.

(** ** Reading all tokens

    The loop [for scanner.Next() { ... scanner.Token() ... }] visits the tokens
    from the position on, once each, and never panics. *)
Fixpoint drain (fuel : nat) (s : scanner) : option (list Token) :=
  match fuel with
  | O => None
  | S fuel' =>
      match Next s with
      | (false, _) => Some []
      | (true, s') =>
          match scanner_Token s', drain fuel' s' with
          | Some t, Some ts => Some (t :: ts)
          | _, _ => None
          end
      end
  end.

Lemma drain_step fuel s :
  drain (S fuel) s =
    match Next s with
    | (false, _) => Some []
    | (true, s') => match scanner_Token s', drain fuel s' with Some t, Some ts => Some (t :: ts) | _, _ => None end
    end.
Proof. done. Qed.

Lemma drain_spec tokens n p :
  (length tokens <= n + p)%nat -> (p <= length tokens)%nat ->
  drain (S n) (mkScanner tokens (Z.of_nat p - 1)) = Some (drop p tokens).
Proof.
  revert p. induction n as [|n IH]; intros p Hn Hp; rewrite drain_step; unfold Next; cbn [sc_pos sc_tokens];
    destruct (Z.ltb_spec (Z.of_nat p - 1) (Z.of_nat (length tokens) - 1)); [lia|by rewrite drop_ge by lia| |by rewrite drop_ge by lia].
  destruct (lookup_lt_is_Some_2 tokens p ltac:(lia)) as [t Ht].
  replace (Z.of_nat p - 1 + 1) with (Z.of_nat (S p) - 1) by lia.
  rewrite (IH (S p)) by lia. unfold scanner_Token. cbn [sc_pos sc_tokens].
  destruct (Z.ltb_spec (Z.of_nat (S p) - 1) 0); [lia|].
  destruct (Z.leb_spec (Z.of_nat (length tokens)) (Z.of_nat (S p) - 1)); [lia|]. cbn [orb].
  replace (Z.to_nat (Z.of_nat (S p) - 1)) with p by lia. by rewrite Ht, (drop_S _ _ _ Ht).
Qed.
