(* ===== verification/StateMachine.v ===== *)
(** * State machines over tokens: [src/pkg/shared/utils/state_machine]

    The states hold pointers to their successors; the machine that [Build]
    returns is the map of the states by name, and a pointer is a name.

    Go's [regexp] is modelled for the operators that the grammars use: classes of
    runes, sequences, alternatives and repetition, always matched against the
    whole token ([Build] anchors every pattern at both ends).  The matcher takes
    derivatives; [re_match_spec] relates it to the language of the pattern. *)
From S2P Require Import Prelude Errors Store Scanner.

(** ** Patterns *)
Inductive regex :=
| RNone
| REps
| RClass (p : Z -> bool)
| RSeq (a b : regex)
| RAlt (a b : regex)
| RStar (a : regex).

Inductive matches : regex -> text -> Prop :=
| m_eps : matches REps []
| m_class p c : p c = true -> matches (RClass p) [c]
| m_seq a b s t : matches a s -> matches b t -> matches (RSeq a b) (s ++ t)
| m_alt_l a b s : matches a s -> matches (RAlt a b) s
| m_alt_r a b s : matches b s -> matches (RAlt a b) s
| m_star_nil a : matches (RStar a) []
| m_star_cons a s t : matches a s -> matches (RStar a) t -> matches (RStar a) (s ++ t).

Fixpoint nullable (r : regex) : bool :=
  match r with
  | RNone | RClass _ => false
  | REps | RStar _ => true
  | RSeq a b => nullable a && nullable b
  | RAlt a b => nullable a || nullable b
  end.

Fixpoint deriv (c : Z) (r : regex) : regex :=
  match r with
  | RNone | REps => RNone
  | RClass p => if p c then REps else RNone
  | RSeq a b => if nullable a then RAlt (RSeq (deriv c a) b) (deriv c b) else RSeq (deriv c a) b
  | RAlt a b => RAlt (deriv c a) (deriv c b)
  | RStar a => RSeq (deriv c a) (RStar a)
  end.

Fixpoint re_match (r : regex) (s : text) : bool :=
  match s with
  | [] => nullable r
  | c :: s' => re_match (deriv c r) s'
  end.

Lemma nullable_spec r : nullable r = true <-> matches r [].
Proof.
  induction r as [| |p|a IHa b IHb|a IHa b IHb|a IHa]; simpl.
  - split; [done|]. by inversion 1.
  - split; [constructor|done].
  - split; [done|]. by inversion 1.
  - rewrite andb_true_iff, IHa, IHb. split.
    + intros [Ha Hb]. exact (m_seq _ _ [] [] Ha Hb).
    + inversion 1 as [| |? ? s t Ha Hb E1 E2| | | |]; subst. destruct s, t; done.
  - rewrite orb_true_iff, IHa, IHb. split; [intros [?|?]; [by apply m_alt_l | by apply m_alt_r]|].
    inversion 1; auto.
  - split; [constructor|done].
Qed.

Lemma star_cons a c s : matches (RStar a) (c :: s) -> exists s1 s2, s = s1 ++ s2 /\ matches a (c :: s1) /\ matches (RStar a) s2.
Proof.
  remember (RStar a) as r eqn:Hr. remember (c :: s) as l eqn:Hl. intros Hm. revert a Hr c s Hl.
  induction Hm as [| | | | | |a s1 t Hs IHs Ht IHt]; intros a0 Hr c0 s0 Hl; simplify_eq.
  destruct s1 as [|c1 s1]; simpl in *; [by apply (IHt a0)|]. simplify_eq. eauto.
Qed.

Lemma deriv_spec c r s : matches (deriv c r) s <-> matches r (c :: s).
Proof.
  revert s. induction r as [| |p|a IHa b IHb|a IHa b IHb|a IHa]; intros s; simpl.
  - split; inversion 1.
  - split; inversion 1.
  - destruct (p c) eqn:Hp; split; inversion 1; subst; try congruence; by constructor.
  - assert (matches (RSeq (deriv c a) b) s <-> exists s1 s2, s = s1 ++ s2 /\ matches a (c :: s1) /\ matches b s2) as Hseq.
    { split.
      - inversion 1 as [| |? ? s1 s2 H1 H2| | | |]; subst. exists s1, s2. by rewrite <- IHa.
      - intros (s1 & s2 & -> & H1 & H2). apply m_seq; [by apply IHa|done]. }
    assert (matches (RSeq a b) (c :: s) <->
            (exists s1 s2, s = s1 ++ s2 /\ matches a (c :: s1) /\ matches b s2) \/ (matches a [] /\ matches b (c :: s))) as Hcons.
    { split.
      - inversion 1 as [| |? ? s1 s2 H1 H2 E1 E2| | | |]; subst. destruct s1 as [|c' s1]; simpl in *; simplify_eq; eauto 6.
      - intros [(s1 & s2 & -> & H1 & H2)|[H1 H2]]; [exact (m_seq _ _ (c :: s1) s2 H1 H2)|exact (m_seq _ _ [] _ H1 H2)]. }
    rewrite Hcons. destruct (nullable a) eqn:Hn.
    + apply nullable_spec in Hn. split.
      * inversion 1; subst; [left; by apply Hseq|right; by rewrite <- IHb].
      * intros [?|[? ?]]; [apply m_alt_l; by apply Hseq|apply m_alt_r; by apply IHb].
    + rewrite Hseq. split; [by left|]. intros [?|[H1 _]]; [done|]. apply nullable_spec in H1. congruence.
  - split.
    + inversion 1; subst; [apply m_alt_l; by apply IHa|apply m_alt_r; by apply IHb].
    + inversion 1; subst; [apply m_alt_l; by apply IHa|apply m_alt_r; by apply IHb].
  - split.
    + inversion 1 as [| |? ? s1 s2 H1 H2| | | |]; subst. apply IHa in H1. exact (m_star_cons _ (c :: s1) s2 H1 H2).
    + intros (s1 & s2 & -> & H1 & H2)%star_cons. apply m_seq; [by apply IHa|done].
Qed.

Lemma re_match_spec r s : re_match r s = true <-> matches r s.
Proof.
  revert r. induction s as [|c s IH]; intros r; simpl; [apply nullable_spec|].
  by rewrite IH, deriv_spec.
Qed.

(** A literal, and letters in either case. *)
Fixpoint RText (t : text) : regex :=
  match t with
  | [] => REps
  | c :: t' => RSeq (RClass (Z.eqb c)) (RText t')
  end.
Definition fold_letter (c x : Z) : bool := (x =? c) || (x =? c - 32).
Fixpoint RFold (t : text) : regex :=
  match t with
  | [] => REps
  | c :: t' => RSeq (RClass (fold_letter c)) (RFold t')
  end.

(** ** Definitions of machines *)
Definition StartState : string := "__$$_START_$$__".
Definition EndState : string := "__$$_END_$$__".

Record StateDefinition := mkStateDefinition {
  SD_Name : string;
  SD_Family : string;
  SD_AcceptPattern : regex
}.
Definition TokenDefinition := StateDefinition.

Record TransitionDefinition := mkTransitionDefinition {
  TD_StateName : string;
  TD_ValidTransitions : list string
}.

Record StateMachineDefinition := mkStateMachineDefinition {
  SM_States : list StateDefinition;
  SM_Transitions : list TransitionDefinition
}.

Record TokenTransitions := mkTokenTransitions {
  TT_TokenName : string;
  TT_ValidTransitions : list string
}.

Record Grammar := mkGrammar {
  G_Tokens : list TokenDefinition;
  G_Transitions : list TokenTransitions
}.

Definition toStateTransitions (tt : TokenTransitions) : TransitionDefinition :=
  mkTransitionDefinition tt.(TT_TokenName) tt.(TT_ValidTransitions).

Definition toStateMachineDefinition (g : Grammar) : StateMachineDefinition :=
  mkStateMachineDefinition g.(G_Tokens) (map toStateTransitions g.(G_Transitions)).

(** ** Machines *)
Record State := mkState {
  tokenName : string;
  family : string;
  acceptPattern : regex;
  st_last : bool;
  isEof : bool;
  next : list string;
  handled : bool
}.

Definition machine := gmap string State.

(** The start state accepts the empty token and has no handler. *)
Definition newStartState : State := mkState "START" "" REps false false [] false.
Definition newEndState : State := mkState "END" "" REps false true [] false.

(** [Build] of the state builder. *)
Definition build_state (d : StateDefinition) : State :=
  mkState d.(SD_Name) d.(SD_Family) d.(SD_AcceptPattern) false false [] true.

(** [target] is the key under which the successor is found. *)
Definition addNextState (s : State) (target : string) (next_state : State) : State :=
  if next_state.(isEof)
  then mkState s.(tokenName) s.(family) s.(acceptPattern) true s.(isEof) s.(next) s.(handled)
  else mkState s.(tokenName) s.(family) s.(acceptPattern) s.(st_last) s.(isEof) (s.(next) ++ [target]) s.(handled).

(** A name that no state has is a nil pointer, and its use a panic: [None]. *)
Definition add_transition (name : string) (m : option machine) (target : string) : option machine :=
  m ← m; currentState ← m !! name; targetState ← m !! target;
  Some (<[ name := addNextState currentState target targetState ]> m).

Definition Build (definition : StateMachineDefinition) : option machine :=
  let stateMap : machine :=
    foldl (fun m d => <[ d.(SD_Name) := build_state d ]> m)
      (<[ EndState := newEndState ]> {[ StartState := newStartState ]}) definition.(SM_States) in
  foldl (fun m t => foldl (add_transition t.(TD_StateName)) m t.(TD_ValidTransitions))
    (Some stateMap) definition.(SM_Transitions).

Record ParsedToken := mkParsedToken {
  PT_Name : string;
  PT_Family : string;
  PT_Value : text
}.

Section Move.
Context {W : Type} (m : machine) (onNewToken : ParsedToken -> M W error unit).

Definition accept (s : State) (value : text) : bool := re_match s.(acceptPattern) value.

(** [Move], on the names of the successors. *)
Fixpoint move_to (candidates : list string) (value : text) : M W error string :=
  match candidates with
  | [] => throw (EPlain "unexpected token `%s`")
  | name :: rest =>
      match m !! name with
      | Some next =>
          if accept next value then
            _ <~ (if next.(handled) then onNewToken (mkParsedToken next.(tokenName) next.(family) value) else ret tt) ;;
            ret name
          else move_to rest value
      | None => throw (EPlain "runtime error: invalid memory address or nil pointer dereference")
      end
  end.

Definition Move (s : string) (value : text) : M W error string :=
  match m !! s with
  | Some state => move_to state.(next) value
  | None => throw (EPlain "runtime error: invalid memory address or nil pointer dereference")
  end.

Definition Eof (s : string) : bool :=
  match m !! s with Some state => state.(st_last) | None => false end.
End Move.

(** A successful move goes to a successor that accepts the token, after its
    handler. *)
Lemma Move_ok {W} m (h : ParsedToken -> M W error unit) s v w s' w' :
  Move m h s v w = (Ok s', w') ->
  exists st st', m !! s = Some st /\ s' ∈ st.(next) /\ m !! s' = Some st' /\ accept st' v = true /\
    (if st'.(handled) then h (mkParsedToken st'.(tokenName) st'.(family) v) w = (Ok tt, w') else w' = w).
Proof.
  unfold Move. destruct (m !! s) as [st|]; [|done]. intros Hm. exists st.
  enough (exists st', s' ∈ next st /\ m !! s' = Some st' /\ accept st' v = true /\
    (if st'.(handled) then h (mkParsedToken st'.(tokenName) st'.(family) v) w = (Ok tt, w') else w' = w)) by naive_solver.
  induction (next st) as [|name rest IH]; simpl in Hm; [done|].
  destruct (m !! name) as [st'|] eqn:Hn; [|done]. destruct (accept st' v) eqn:Ha.
  - apply bind_ok in Hm as ([] & w1 & Hh & Hr). injection Hr as <- <-. exists st'.
    split_and!; [set_solver|done|done|]. destruct (handled st'); [done|]. by injection Hh as <-.
  - destruct (IH Hm) as (st'' & ? & ?). exists st''. split; [set_solver|done].
Qed.

(** The successor that a token selects is the first that accepts it. *)
Definition accepts_in (m : machine) (v : text) (name : string) : bool :=
  match m !! name with Some st => accept st v | None => false end.

Lemma Move_first {W} m (h : ParsedToken -> M W error unit) s v w st s' st' w' :
  m !! s = Some st -> Forall (fun n => is_Some (m !! n)) st.(next) ->
  List.find (accepts_in m v) st.(next) = Some s' -> m !! s' = Some st' -> st'.(handled) = true ->
  h (mkParsedToken st'.(tokenName) st'.(family) v) w = (Ok tt, w') ->
  Move m h s v w = (Ok s', w').
Proof.
  intros Hs Hdef Hf Hs' Hh Htok. unfold Move. rewrite Hs.
  induction Hdef as [|n l [x Hx] Hdef IH]; simpl in *; [done|]. unfold accepts_in in Hf at 1. rewrite Hx in *.
  destruct (accept x v) eqn:Ha; [|by apply IH]. injection Hf as ->. rewrite Hx in Hs'. injection Hs' as ->.
  unfold bind. rewrite Hh, Htok. done.
Qed.
