(* ===== verification/QueryParser.v ===== *)
(** * The search language: [src/pkg/services/queryparser/query_parser.go]

    A search typed by a user becomes the [WHERE] clause of an SQL query.  The
    parser runs the tokens of the scanner through a state machine, and rebuilds
    the clause with placeholders for the values.

    [past_end] stands for what Go does when a slice of runes is cut beyond its
    length, which depends on the capacity the runtime gave it. *)
From S2P Require Import Prelude Arrays Errors Store Scanner StateMachine.

Definition validColumns : list text := map runes ["region"; "name"; "cloud_provider"; "status"; "owner"; "cluster_id"].

Definition braceTokenFamily : string := "BRACE".
Definition opTokenFamily : string := "OP".
Definition logicalOpTokenFamily : string := "LOGICAL".
Definition columnTokenFamily : string := "COLUMN".
Definition valueTokenFamily : string := "VALUE".
Definition quotedValueTokenFamily : string := "QUOTED".
Definition openBrace : string := "OPEN_BRACE".
Definition closedBrace : string := "CLOSED_BRACE".
Definition comma : string := "COMMA".
Definition column : string := "COLUMN".
Definition value : string := "VALUE".
Definition quotedValue : string := "QUOTED_VALUE".
Definition eq_ : string := "EQ".
Definition notEq : string := "NOT_EQ".
Definition like : string := "LIKE".
Definition ilike : string := "ILIKE".
Definition in_ : string := "IN".
Definition listOpenBrace : string := "LIST_OPEN_BRACE".
Definition quotedValueInList : string := "QUOTED_VALUE_IN_LIST".
Definition valueInList : string := "VALUE_IN_LIST".
Definition and_ : string := "AND".
Definition or_ : string := "OR".
Definition not_ : string := "NOT".
Definition MaximumComplexity : Z := 10.

Record DBQuery := mkDBQuery {
  Query : text;
  Values : list text;
  ValidColumns : list text;
  ColumnPrefix : text
}.

(** ** The patterns of the tokens *)
Definition letter (c : Z) : bool := ((65 <=? c) && (c <=? 90)) || ((97 <=? c) && (c <=? 122)).
Definition column_char (c : Z) : bool := letter c || ((48 <=? c) && (c <=? 57)) || (c =? 95).
Definition value_char (c : Z) : bool := negb (existsb (Z.eqb c) [SPACE; 94; OPEN; CLOSE]).

Definition open_pattern : regex := RText [OPEN].
Definition close_pattern : regex := RText [CLOSE].
Definition column_pattern : regex := RSeq (RClass letter) (RStar (RClass column_char)).
Definition value_pattern : regex := RSeq (RClass (fun c => negb (c =? QUOTE))) (RStar (RClass value_char)).
Definition quoted_pattern : regex :=
  RSeq (RClass (Z.eqb QUOTE))
    (RSeq (RStar (RAlt (RClass (fun c => negb (c =? QUOTE))) (RText [BACKSLASH; QUOTE]))) (RClass (Z.eqb QUOTE))).

Definition grammar : Grammar := mkGrammar
  [ mkStateDefinition openBrace braceTokenFamily open_pattern;
    mkStateDefinition closedBrace braceTokenFamily close_pattern;
    mkStateDefinition column columnTokenFamily column_pattern;
    mkStateDefinition value valueTokenFamily value_pattern;
    mkStateDefinition quotedValue quotedValueTokenFamily quoted_pattern;
    mkStateDefinition eq_ opTokenFamily (RText (runes "="));
    mkStateDefinition comma "" (RText (runes ","));
    mkStateDefinition notEq opTokenFamily (RText (runes "<>"));
    mkStateDefinition like opTokenFamily (RFold (runes "like"));
    mkStateDefinition ilike opTokenFamily (RFold (runes "ilike"));
    mkStateDefinition in_ opTokenFamily (RFold (runes "in"));
    mkStateDefinition listOpenBrace braceTokenFamily open_pattern;
    mkStateDefinition quotedValueInList quotedValueTokenFamily quoted_pattern;
    mkStateDefinition valueInList valueTokenFamily value_pattern;
    mkStateDefinition and_ logicalOpTokenFamily (RFold (runes "and"));
    mkStateDefinition or_ logicalOpTokenFamily (RFold (runes "or"));
    mkStateDefinition not_ logicalOpTokenFamily (RFold (runes "not")) ]
  [ mkTokenTransitions StartState [column; openBrace];
    mkTokenTransitions openBrace [column; openBrace];
    mkTokenTransitions column [eq_; notEq; like; ilike; in_; not_];
    mkTokenTransitions eq_ [quotedValue; value];
    mkTokenTransitions notEq [quotedValue; value];
    mkTokenTransitions like [quotedValue; value];
    mkTokenTransitions ilike [quotedValue; value];
    mkTokenTransitions quotedValue [or_; and_; closedBrace; EndState];
    mkTokenTransitions value [or_; and_; closedBrace; EndState];
    mkTokenTransitions closedBrace [or_; and_; closedBrace; EndState];
    mkTokenTransitions and_ [column; openBrace];
    mkTokenTransitions or_ [column; openBrace];
    mkTokenTransitions not_ [in_];
    mkTokenTransitions in_ [listOpenBrace];
    mkTokenTransitions listOpenBrace [quotedValueInList; valueInList];
    mkTokenTransitions quotedValueInList [comma; closedBrace];
    mkTokenTransitions valueInList [comma; closedBrace];
    mkTokenTransitions comma [quotedValueInList; valueInList] ].

Definition query_machine : machine := default ∅ (Build (toStateMachineDefinition grammar)).

(** ** The handler of the tokens *)

(** [p.dbqry] and the two counters that [initStateMachine] closes over. *)
Record parse_state := mkParse {
  dbqry : DBQuery;
  complexity : Z;
  openBraces : Z
}.

Definition text_lower (t : text) : text := map (fun c => if (65 <=? c) && (c <=? 90) then c + 32 else c) t.

(** [strings.ReplaceAll(value, `\'`, "'")]. *)
Fixpoint unescape (t : text) : text :=
  match t with
  | b :: (q :: t') as rest => if (b =? BACKSLASH) && (q =? QUOTE) then QUOTE :: unescape t' else b :: unescape rest
  | _ => t
  end.

(** [strings.Trim(q, " ")]. *)
Fixpoint trim_front (t : text) : text :=
  match t with
  | c :: t' => if c =? SPACE then trim_front t' else t
  | [] => []
  end.
Definition trim_spaces (t : text) : text := reverse (trim_front (reverse (trim_front t))).

Lemma unescape_cons b q t :
  unescape (b :: q :: t) = if (b =? BACKSLASH) && (q =? QUOTE) then QUOTE :: unescape t else b :: unescape (q :: t).
Proof. done. Qed.

Lemma unescape_ascii t : ascii_text t -> ascii_text (unescape t).
Proof.
  enough (forall n t, (length t <= n)%nat -> ascii_text t -> ascii_text (unescape t)) as Hn by eauto.
  clear. induction n as [|n IH]; intros [|b [|q t]] Hlen Ht; try done; [simpl in Hlen; lia..|].
  rewrite unescape_cons. inversion Ht as [|? ? Hb Ht1]; subst. inversion Ht1 as [|? ? Hq Ht2]; subst. simpl in Hlen.
  destruct ((b =? BACKSLASH) && (q =? QUOTE)); constructor; [done|apply IH; [lia|done]|done|apply IH; [simpl; lia|done]].
Qed.

Section Parser.
Context (past_end : text -> Z -> result error text).

(** [[]rune(tmp)[1 : len(tmp)-1]]: the bounds count bytes, the slice runes. *)
Definition remove_quotes (tmp : text) : result error text :=
  if 1 <? utf8_len tmp then
    let high := utf8_len tmp - 1 in
    if high <=? Z.of_nat (length tmp) then Ok (take (Z.to_nat (high - 1)) (drop 1 tmp))
    else past_end tmp high
  else Ok tmp.

Definition add_query (t : text) : M parse_state error unit := fun p =>
  let q := p.(dbqry) in
  (Ok tt, mkParse (mkDBQuery (q.(Query) ++ t) q.(Values) q.(ValidColumns) q.(ColumnPrefix)) p.(complexity) p.(openBraces)).

Definition add_value (v : text) : M parse_state error unit := fun p =>
  let q := p.(dbqry) in
  (Ok tt, mkParse (mkDBQuery q.(Query) (q.(Values) ++ [v]) q.(ValidColumns) q.(ColumnPrefix)) p.(complexity) p.(openBraces)).

Definition countOpenBraces (tok : text) : M parse_state error unit := fun p =>
  let n := if bool_decide (tok = [OPEN]) then p.(openBraces) + 1
           else if bool_decide (tok = [CLOSE]) then p.(openBraces) - 1 else p.(openBraces) in
  (if n <? 0 then Err (EPlain "unexpected ')'") else Ok tt, mkParse p.(dbqry) p.(complexity) n).

Definition count_join : M parse_state error unit := fun p =>
  let n := p.(complexity) + 1 in
  (if MaximumComplexity <? n then Err (EPlain "maximum number of permitted joins (%d) exceeded") else Ok tt,
   mkParse p.(dbqry) n p.(openBraces)).

Definition prefixed (prefix columnName : text) : text :=
  if negb (bool_decide (prefix = [])) && negb (bool_decide ((prefix ++ runes ".") `prefix_of` columnName))
  then prefix ++ runes "." ++ columnName else columnName.

Definition onNewToken (token : ParsedToken) : M parse_state error unit :=
  if token.(PT_Family) =?s braceTokenFamily then
    _ <~ countOpenBraces token.(PT_Value) ;; add_query token.(PT_Value)
  else if token.(PT_Family) =?s valueTokenFamily then
    _ <~ add_query (runes " ?") ;; add_value token.(PT_Value)
  else if token.(PT_Family) =?s quotedValueTokenFamily then
    _ <~ add_query (runes " ?") ;; v <~ lift (remove_quotes (unescape token.(PT_Value))) ;; add_value v
  else if token.(PT_Family) =?s logicalOpTokenFamily then
    _ <~ count_join ;; add_query (runes " " ++ token.(PT_Value) ++ runes " ")
  else if token.(PT_Family) =?s columnTokenFamily then
    fun p =>
      let columnName := text_lower token.(PT_Value) in
      if bool_decide (columnName ∈ p.(dbqry).(ValidColumns))
      then add_query (prefixed p.(dbqry).(ColumnPrefix) columnName) p
      else (Err (EPlain "invalid column name: '%s', valid values are: %v"), p)
  else add_query (runes " " ++ token.(PT_Value)).

(** ** Parsing *)
Fixpoint parse_tokens (state : string) (tokens : list Token) : M parse_state error string :=
  match tokens with
  | [] => ret state
  | t :: rest =>
      next <~ wrap_err (EWrap "[%d] error parsing the filter: %v") (Move query_machine onNewToken state t.(Value)) ;;
      parse_tokens next rest
  end.

(** The parser keeps its [DBQuery] between calls; the second component is what
    a call leaves in it. *)
Definition Parse (q : DBQuery) (sql : text) : result error DBQuery * DBQuery :=
  let scanner := Init NewSQLScanner sql in
  match drain (S (length scanner.(sc_tokens))) scanner with
  | None => (Err (EPlain "invalid scanner position %d"), q)
  | Some tokens =>
      match parse_tokens StartState tokens (mkParse q 0 0) with
      | (Err e, p) => (Err e, p.(dbqry))
      | (Ok state, p) =>
          if negb (Eof query_machine state) then (Err (EPlain "EOF encountered while parsing string"), p.(dbqry))
          else if 0 <? p.(openBraces) then (Err (EPlain "EOF while searching for closing brace ')'"), p.(dbqry))
          else
            let q' := mkDBQuery (trim_spaces p.(dbqry).(Query)) p.(dbqry).(Values)
                        p.(dbqry).(ValidColumns) p.(dbqry).(ColumnPrefix) in
            (Ok q', q')
      end
  end.
End Parser.

Definition NewQueryParserWithColumnPrefix (columnsPrefix : text) (columns : list text) : DBQuery :=
  mkDBQuery [] [] (match columns with [] => validColumns | _ => columns end) columnsPrefix.
Definition NewQueryParser (columns : list text) : DBQuery := NewQueryParserWithColumnPrefix [] columns.

Example parse_example :
  fst (Parse (fun _ _ => Ok []) (NewQueryParser []) (runes "(Name = 'it\'s, ok' or region in (a, 'b')) and owner like x%"))
  = Ok (mkDBQuery (runes "(name = ? or region in( ? , ?)) and owner like ?")
          (map runes ["it's, ok"; "a"; "b"; "x%"]) validColumns []).
Proof. vm_compute. reflexivity. Qed.

(** ** The machine, state by state *)
Definition entry (name fam : string) (pat : regex) (final : bool) (succ : list string) : option State :=
  Some (mkState name fam pat final false succ true).

Lemma start_state : query_machine !! StartState = Some (mkState "START" "" REps false false [column; openBrace] false).
Proof. vm_compute. reflexivity. Qed.
Lemma open_state : query_machine !! openBrace = entry openBrace braceTokenFamily open_pattern false [column; openBrace].
Proof. vm_compute. reflexivity. Qed.
Lemma closed_state : query_machine !! closedBrace = entry closedBrace braceTokenFamily close_pattern true [or_; and_; closedBrace].
Proof. vm_compute. reflexivity. Qed.
Lemma column_state : query_machine !! column = entry column columnTokenFamily column_pattern false [eq_; notEq; like; ilike; in_; not_].
Proof. vm_compute. reflexivity. Qed.
Lemma value_state : query_machine !! value = entry value valueTokenFamily value_pattern true [or_; and_; closedBrace].
Proof. vm_compute. reflexivity. Qed.
Lemma quoted_state : query_machine !! quotedValue = entry quotedValue quotedValueTokenFamily quoted_pattern true [or_; and_; closedBrace].
Proof. vm_compute. reflexivity. Qed.
Lemma eq_state : query_machine !! eq_ = entry eq_ opTokenFamily (RText (runes "=")) false [quotedValue; value].
Proof. vm_compute. reflexivity. Qed.
Lemma notEq_state : query_machine !! notEq = entry notEq opTokenFamily (RText (runes "<>")) false [quotedValue; value].
Proof. vm_compute. reflexivity. Qed.
Lemma like_state : query_machine !! like = entry like opTokenFamily (RFold (runes "like")) false [quotedValue; value].
Proof. vm_compute. reflexivity. Qed.
Lemma ilike_state : query_machine !! ilike = entry ilike opTokenFamily (RFold (runes "ilike")) false [quotedValue; value].
Proof. vm_compute. reflexivity. Qed.
Lemma comma_state : query_machine !! comma = entry comma "" (RText (runes ",")) false [quotedValueInList; valueInList].
Proof. vm_compute. reflexivity. Qed.
Lemma in_state : query_machine !! in_ = entry in_ opTokenFamily (RFold (runes "in")) false [listOpenBrace].
Proof. vm_compute. reflexivity. Qed.
Lemma list_open_state : query_machine !! listOpenBrace = entry listOpenBrace braceTokenFamily open_pattern false [quotedValueInList; valueInList].
Proof. vm_compute. reflexivity. Qed.
Lemma quoted_list_state : query_machine !! quotedValueInList = entry quotedValueInList quotedValueTokenFamily quoted_pattern false [comma; closedBrace].
Proof. vm_compute. reflexivity. Qed.
Lemma value_list_state : query_machine !! valueInList = entry valueInList valueTokenFamily value_pattern false [comma; closedBrace].
Proof. vm_compute. reflexivity. Qed.
Lemma and_state : query_machine !! and_ = entry and_ logicalOpTokenFamily (RFold (runes "and")) false [column; openBrace].
Proof. vm_compute. reflexivity. Qed.
Lemma or_state : query_machine !! or_ = entry or_ logicalOpTokenFamily (RFold (runes "or")) false [column; openBrace].
Proof. vm_compute. reflexivity. Qed.
Lemma not_state : query_machine !! not_ = entry not_ logicalOpTokenFamily (RFold (runes "not")) false [in_].
Proof. vm_compute. reflexivity. Qed.

(** Replaces the lookup of a named state by its entry. *)
Ltac known_state H :=
  match type of H with
  | query_machine !! StartState = _ => rewrite start_state in H
  | query_machine !! openBrace = _ => rewrite open_state in H
  | query_machine !! closedBrace = _ => rewrite closed_state in H
  | query_machine !! column = _ => rewrite column_state in H
  | query_machine !! value = _ => rewrite value_state in H
  | query_machine !! quotedValue = _ => rewrite quoted_state in H
  | query_machine !! eq_ = _ => rewrite eq_state in H
  | query_machine !! notEq = _ => rewrite notEq_state in H
  | query_machine !! like = _ => rewrite like_state in H
  | query_machine !! ilike = _ => rewrite ilike_state in H
  | query_machine !! comma = _ => rewrite comma_state in H
  | query_machine !! in_ = _ => rewrite in_state in H
  | query_machine !! listOpenBrace = _ => rewrite list_open_state in H
  | query_machine !! quotedValueInList = _ => rewrite quoted_list_state in H
  | query_machine !! valueInList = _ => rewrite value_list_state in H
  | query_machine !! and_ = _ => rewrite and_state in H
  | query_machine !! or_ = _ => rewrite or_state in H
  | query_machine !! not_ = _ => rewrite not_state in H
  end; unfold entry in H.

(** The same in the goal. *)
Ltac known_states :=
  repeat match goal with
  | |- context [query_machine !! StartState] => rewrite start_state
  | |- context [query_machine !! openBrace] => rewrite open_state
  | |- context [query_machine !! closedBrace] => rewrite closed_state
  | |- context [query_machine !! column] => rewrite column_state
  | |- context [query_machine !! value] => rewrite value_state
  | |- context [query_machine !! quotedValue] => rewrite quoted_state
  | |- context [query_machine !! eq_] => rewrite eq_state
  | |- context [query_machine !! notEq] => rewrite notEq_state
  | |- context [query_machine !! like] => rewrite like_state
  | |- context [query_machine !! ilike] => rewrite ilike_state
  | |- context [query_machine !! comma] => rewrite comma_state
  | |- context [query_machine !! in_] => rewrite in_state
  | |- context [query_machine !! listOpenBrace] => rewrite list_open_state
  | |- context [query_machine !! quotedValueInList] => rewrite quoted_list_state
  | |- context [query_machine !! valueInList] => rewrite value_list_state
  | |- context [query_machine !! and_] => rewrite and_state
  | |- context [query_machine !! or_] => rewrite or_state
  | |- context [query_machine !! not_] => rewrite not_state
  end; unfold entry.
#[local] Opaque query_machine.

(** ** The language

    Expressions over the tokens: comparisons of a known column with a value,
    membership of a list, parentheses, and the joins [and] and [or].  The index
    is the number of joins, counting [not]. *)
Definition is_value (v : text) : Prop := re_match quoted_pattern v = true \/ re_match value_pattern v = true.
Definition is_join (t : text) : Prop := re_match (RFold (runes "or")) t = true \/ re_match (RFold (runes "and")) t = true.
Definition is_in (t : text) : Prop := re_match (RFold (runes "in")) t = true.
Definition is_not (t : text) : Prop := re_match (RFold (runes "not")) t = true.
Definition is_comparison (t : text) : Prop :=
  re_match (RText (runes "=")) t = true \/ re_match (RText (runes "<>")) t = true \/
  re_match (RFold (runes "like")) t = true \/ re_match (RFold (runes "ilike")) t = true.

Section Language.
Context (columns : list text).

Definition is_column (c : text) : Prop := re_match column_pattern c = true /\ text_lower c ∈ columns.

Inductive items : list text -> Prop :=
| items_one v : is_value v -> items [v]
| items_more vs v : items vs -> is_value v -> items (vs ++ [[COMMA]; v]).

Inductive in_head : nat -> list text -> Prop :=
| head_in c i : is_column c -> is_in i -> in_head 0 [c; i]
| head_not_in c n i : is_column c -> is_not n -> is_in i -> in_head 1 [c; n; i].

Inductive expr : nat -> list text -> Prop :=
| expr_term k t : term k t -> expr k t
| expr_join k k' e j t : expr k e -> is_join j -> term k' t -> expr (S (k + k')) (e ++ j :: t)
with term : nat -> list text -> Prop :=
| term_compare c o v : is_column c -> is_comparison o -> is_value v -> term 0 [c; o; v]
| term_in k h vs : in_head k h -> items vs -> term k (h ++ [OPEN] :: vs ++ [[CLOSE]])
| term_paren k e : expr k e -> term k ([OPEN] :: e ++ [[CLOSE]]).

(** A prefix at which an operand may follow, at a level of parentheses. *)
Inductive half : nat -> list text -> Prop :=
| half_nil : half 0 []
| half_join k e j : expr k e -> is_join j -> half (S k) (e ++ [j]).

Inductive expects : nat -> nat -> list text -> Prop :=
| expects_top k l : half k l -> expects 0 k l
| expects_in n k k' l l' : expects n k l -> half k' l' -> expects (S n) (k + k') (l ++ [OPEN] :: l').

(** A prefix that ends with an operand. *)
Inductive complete : nat -> nat -> list text -> Prop :=
| complete_top k l : expr k l -> complete 0 k l
| complete_in n k k' l e : expects n k l -> expr k' e -> complete (S n) (k + k') (l ++ [OPEN] :: e).

Lemma half_term k k' l t : half k l -> term k' t -> expr (k + k') (l ++ t).
Proof.
  intros [|k0 e j He Hj] Ht; [by apply expr_term|]. rewrite <- app_assoc. simpl. by apply expr_join.
Qed.

Lemma expects_term n k k' l t : expects n k l -> term k' t -> complete n (k + k') (l ++ t).
Proof.
  intros [k0 l0 Hl|n0 k0 k1 l0 l1 Hl Hh] Ht; [apply complete_top; by apply half_term|].
  rewrite <- app_assoc, <- app_comm_cons, <- Nat.add_assoc. apply complete_in; [done|]. by apply half_term.
Qed.

Lemma complete_close n k l : complete (S n) k l -> complete n k (l ++ [[CLOSE]]).
Proof.
  inversion 1 as [|n0 k0 k1 l0 e Hl He]; subst. rewrite <- app_assoc. apply expects_term; [done|].
  simpl. by apply term_paren.
Qed.

Lemma complete_join n k l j : complete n k l -> is_join j -> expects n (S k) (l ++ [j]).
Proof.
  intros [k0 l0 Hl|n0 k0 k1 l0 e Hl He] Hj; [apply expects_top; by apply half_join|].
  rewrite <- app_assoc, <- app_comm_cons, plus_n_Sm. apply expects_in; [done|]. by apply half_join.
Qed.

Lemma expects_open n k l : expects n k l -> expects (S n) k (l ++ [[OPEN]]).
Proof. intros Hl. rewrite <- (Nat.add_0_r k). apply expects_in; [done|constructor]. Qed.

(** ** Where the machine stands after a prefix of the tokens *)
Inductive at_state : string -> nat -> nat -> list text -> Prop :=
| at_operand st n k l : st ∈ [StartState; openBrace; and_; or_] -> expects n k l -> at_state st n k l
| at_column n k l c : expects n k l -> is_column c -> at_state column n k (l ++ [c])
| at_comparison st n k l c o :
    st ∈ [eq_; notEq; like; ilike] -> expects n k l -> is_column c -> is_comparison o -> at_state st n k (l ++ [c; o])
| at_not n k l c o : expects n k l -> is_column c -> is_not o -> at_state not_ n (S k) (l ++ [c; o])
| at_in n k k' l h : expects n k l -> in_head k' h -> at_state in_ n (k + k') (l ++ h)
| at_list_open n k k' l h : expects n k l -> in_head k' h -> at_state listOpenBrace (S n) (k + k') (l ++ h ++ [[OPEN]])
| at_list_value st n k k' l h vs :
    st ∈ [quotedValueInList; valueInList] -> expects n k l -> in_head k' h -> items vs ->
    at_state st (S n) (k + k') (l ++ h ++ [OPEN] :: vs)
| at_comma n k k' l h vs :
    expects n k l -> in_head k' h -> items vs -> at_state comma (S n) (k + k') (l ++ h ++ [OPEN] :: vs ++ [[COMMA]])
| at_operand_end st n k l : st ∈ [value; quotedValue; closedBrace] -> complete n k l -> at_state st n k l.
End Language.

(** ** The clause that is built *)
Inductive fragment :=
| FOpen | FClose | FPlaceholder
| FColumn (c : text)
| FJoin (j : text)
| FOperator (o : text).

Definition render (prefix : text) (f : fragment) : text :=
  match f with
  | FOpen => [OPEN]
  | FClose => [CLOSE]
  | FPlaceholder => runes " ?"
  | FColumn c => prefixed prefix c
  | FJoin j => runes " " ++ j ++ runes " "
  | FOperator o => runes " " ++ o
  end.

(** What a fragment may hold: a column of the list, or a fixed word. *)
Definition safe_fragment (columns : list text) (f : fragment) : Prop :=
  match f with
  | FOpen | FClose | FPlaceholder => True
  | FColumn c => c ∈ columns
  | FJoin j => is_join j \/ is_not j
  | FOperator o => is_comparison o \/ is_in o \/ o = [COMMA]
  end.

Definition placeholders (fs : list fragment) : nat :=
  length (List.filter (fun f => match f with FPlaceholder => true | _ => false end) fs).

(** [p'] is [p] with one more fragment. *)
Definition extends (columns : list text) (p p' : parse_state) (f : fragment) : Prop :=
  safe_fragment columns f /\
  p'.(dbqry).(Query) = p.(dbqry).(Query) ++ render p.(dbqry).(ColumnPrefix) f /\
  p'.(dbqry).(ValidColumns) = p.(dbqry).(ValidColumns) /\ p'.(dbqry).(ColumnPrefix) = p.(dbqry).(ColumnPrefix) /\
  length p'.(dbqry).(Values) = (length p.(dbqry).(Values) + placeholders [f])%nat.

Section Handler.
Context (past_end : text -> Z -> result error text).

Lemma literal_match c v : re_match (RText [c]) v = true <-> v = [c].
Proof.
  rewrite re_match_spec. split.
  - simpl. inversion 1 as [| |? ? s t Hs Ht| | | |]; subst. inversion Hs as [|? x Hx| | | | |]; subst.
    inversion Ht; subst. apply Z.eqb_eq in Hx. by subst.
  - intros ->. simpl. apply (m_seq _ _ [c] []); constructor. apply Z.eqb_refl.
Qed.

Lemma handle_open nm columns p p' :
  onNewToken past_end (mkParsedToken nm braceTokenFamily [OPEN]) p = (Ok tt, p') ->
  extends columns p p' FOpen /\ p'.(openBraces) = p.(openBraces) + 1 /\ p'.(complexity) = p.(complexity).
Proof.
  unfold onNewToken. simpl. unfold bind, countOpenBraces. simpl.
  destruct (Z.ltb_spec (openBraces p + 1) 0); [done|]. intros [= <-]. unfold extends. simpl. split_and!; auto with lia.
Qed.

Lemma handle_close nm columns p p' :
  onNewToken past_end (mkParsedToken nm braceTokenFamily [CLOSE]) p = (Ok tt, p') ->
  extends columns p p' FClose /\ p'.(openBraces) = p.(openBraces) - 1 /\ 0 <= p'.(openBraces) /\
  p'.(complexity) = p.(complexity).
Proof.
  unfold onNewToken. simpl. unfold bind, countOpenBraces. simpl.
  destruct (Z.ltb_spec (openBraces p - 1) 0); [done|]. intros [= <-]. unfold extends. simpl. split_and!; auto with lia.
Qed.

Lemma handle_value nm fam v columns p p' :
  fam ∈ [valueTokenFamily; quotedValueTokenFamily] ->
  onNewToken past_end (mkParsedToken nm fam v) p = (Ok tt, p') ->
  extends columns p p' FPlaceholder /\ p'.(openBraces) = p.(openBraces) /\ p'.(complexity) = p.(complexity).
Proof.
  intros [->|[->|[]%elem_of_nil]%elem_of_cons]%elem_of_cons; unfold onNewToken; simpl; unfold bind; simpl.
  - intros [= <-]. unfold extends. simpl. rewrite length_app. auto 10.
  - unfold lift. destruct (remove_quotes past_end (unescape v)); [|done]. intros [= <-].
    unfold extends. simpl. rewrite length_app. auto 10.
Qed.

Lemma handle_join nm v columns p p' :
  is_join v \/ is_not v ->
  onNewToken past_end (mkParsedToken nm logicalOpTokenFamily v) p = (Ok tt, p') ->
  extends columns p p' (FJoin v) /\ p'.(openBraces) = p.(openBraces) /\ p'.(complexity) = p.(complexity) + 1 /\
  p'.(complexity) <= MaximumComplexity.
Proof.
  intros Hv. unfold onNewToken. simpl. unfold bind, count_join.
  destruct (Z.ltb_spec MaximumComplexity (complexity p + 1)); [done|]. intros [= <-].
  unfold extends. simpl. split_and!; auto with lia.
Qed.

Lemma handle_column nm v p p' :
  re_match column_pattern v = true ->
  onNewToken past_end (mkParsedToken nm columnTokenFamily v) p = (Ok tt, p') ->
  extends p.(dbqry).(ValidColumns) p p' (FColumn (text_lower v)) /\ is_column p.(dbqry).(ValidColumns) v /\
  p'.(openBraces) = p.(openBraces) /\ p'.(complexity) = p.(complexity).
Proof.
  intros Hv. unfold onNewToken. simpl. case_bool_decide as Hc; [|done]. intros [= <-].
  unfold extends, is_column. simpl. split_and!; auto with lia.
Qed.

Lemma handle_operator nm fam v columns p p' :
  fam ∈ [opTokenFamily; ""] -> is_comparison v \/ is_in v \/ v = [COMMA] ->
  onNewToken past_end (mkParsedToken nm fam v) p = (Ok tt, p') ->
  extends columns p p' (FOperator v) /\ p'.(openBraces) = p.(openBraces) /\ p'.(complexity) = p.(complexity).
Proof.
  intros [->|[->|[]%elem_of_nil]%elem_of_cons]%elem_of_cons Hv; unfold onNewToken; simpl; intros [= <-];
    unfold extends; simpl; auto 10.
Qed.
End Handler.

(** ** Soundness of a move *)

(** Splits a membership of a list of names. *)
Ltac split_names H :=
  rewrite !elem_of_cons, elem_of_nil in H; destruct_or! H; match type of H with ?x = _ => subst x | False => destruct H end.

(** Inverts a successful move from a state whose successors are known. *)
Ltac invert_move H :=
  let s := fresh "s" in let s' := fresh "s'" in
  let Hs := fresh "Hs" in let Hin := fresh "Hin" in let Hs' := fresh "Hs'" in
  apply Move_ok in H as (s & s' & Hs & Hin & Hs' & Hacc & Hhandler);
  known_state Hs; apply (inj Some) in Hs; subst s; cbn [next] in Hin; split_names Hin;
  known_state Hs'; apply (inj Some) in Hs'; subst s';
  unfold accept in Hacc; cbn [acceptPattern handled tokenName family] in Hacc, Hhandler.

Section Soundness.
Context (past_end : text -> Z -> result error text) (columns : list text).

(** The state of the parser after the tokens [l]. *)
Definition stands (st : string) (l : list text) (p : parse_state) : Prop :=
  exists n k, at_state columns st n k l /\ p.(openBraces) = Z.of_nat n /\ p.(complexity) = Z.of_nat k /\
    (Z.of_nat k <= MaximumComplexity) /\ p.(dbqry).(ValidColumns) = columns.

Definition advances (st' : string) (l : list text) (p p' : parse_state) : Prop :=
  stands st' l p' /\ exists f, extends columns p p' f.

Lemma advance st' l p p' n k f :
  at_state columns st' n k l -> extends columns p p' f -> p.(dbqry).(ValidColumns) = columns ->
  p'.(openBraces) = Z.of_nat n -> p'.(complexity) = Z.of_nat k -> Z.of_nat k <= MaximumComplexity ->
  advances st' l p p'.
Proof.
  intros Hst Hext Hcols Hn Hk Hmax. split; [|eauto]. exists n, k. split_and!; try done.
  destruct Hext as (_ & _ & -> & _). done.
Qed.

Lemma move_operand st l v p st' p' n k :
  st ∈ [StartState; openBrace; and_; or_] -> expects columns n k l ->
  p.(openBraces) = Z.of_nat n -> p.(complexity) = Z.of_nat k ->
  Z.of_nat k <= MaximumComplexity -> p.(dbqry).(ValidColumns) = columns ->
  Move query_machine (onNewToken past_end) st v p = (Ok st', p') -> advances st' (l ++ [v]) p p'.
Proof.
  intros Hst Hl Hn Hk Hmax Hcols Hm. split_names Hst; invert_move Hm.
  1,3,5,7: destruct (handle_column _ _ _ _ _ Hacc Hhandler) as (Hext & Hcol & Ho & Hx); rewrite Hcols in Hext, Hcol;
    eapply advance; [by apply at_column|done..|congruence|congruence|done].
  all: apply literal_match in Hacc as ->; destruct (handle_open _ _ columns _ _ Hhandler) as (Hext & Ho & Hx);
    eapply advance; [apply at_operand; [set_solver|by apply expects_open]|done..|lia|congruence|done].
Qed.

Lemma move_column l v p st' p' n k c :
  expects columns n k l -> is_column columns c ->
  p.(openBraces) = Z.of_nat n -> p.(complexity) = Z.of_nat k ->
  Z.of_nat k <= MaximumComplexity -> p.(dbqry).(ValidColumns) = columns ->
  Move query_machine (onNewToken past_end) column v p = (Ok st', p') -> advances st' ((l ++ [c]) ++ [v]) p p'.
Proof.
  intros Hl Hc Hn Hk Hmax Hcols Hm. rewrite <- app_assoc. invert_move Hm.
  1-4: edestruct (handle_operator past_end) as (Hext & Ho & Hx); [| |exact Hhandler|]; [set_solver|unfold is_comparison; tauto|];
    eapply advance; [apply at_comparison; [set_solver|done|done|unfold is_comparison; tauto]|exact Hext|done|congruence|congruence|done].
  - edestruct (handle_operator past_end) as (Hext & Ho & Hx); [| |exact Hhandler|]; [set_solver|by right; left|].
    eapply advance; [apply at_in; [done|by apply head_in]|exact Hext|done|congruence| |]; rewrite Nat.add_0_r; congruence || done.
  - edestruct (handle_join past_end) as (Hext & Ho & Hx & Hx'); [|exact Hhandler|]; [by right|].
    eapply advance; [by apply at_not|exact Hext|done|congruence|lia|lia].
Qed.

Lemma move_comparison st l v p st' p' n k c o :
  st ∈ [eq_; notEq; like; ilike] -> expects columns n k l -> is_column columns c -> is_comparison o ->
  p.(openBraces) = Z.of_nat n -> p.(complexity) = Z.of_nat k ->
  Z.of_nat k <= MaximumComplexity -> p.(dbqry).(ValidColumns) = columns ->
  Move query_machine (onNewToken past_end) st v p = (Ok st', p') -> advances st' ((l ++ [c; o]) ++ [v]) p p'.
Proof.
  intros Hst Hl Hc Ho Hn Hk Hmax Hcols Hm. rewrite <- app_assoc.
  assert (is_value v -> complete columns n k (l ++ [c; o] ++ [v])) as Hcomplete.
  { intros Hv. rewrite <- (Nat.add_0_r k). by apply expects_term, term_compare. }
  split_names Hst; invert_move Hm;
    (edestruct (handle_value past_end) as (Hext & Hob & Hx); [|exact Hhandler|]; [set_solver|]);
    (eapply advance; [apply at_operand_end; [set_solver|apply Hcomplete; by (left + right)]|exact Hext|done|congruence|congruence|done]).
Qed.

Lemma move_not l v p st' p' n k c o :
  expects columns n k l -> is_column columns c -> is_not o ->
  p.(openBraces) = Z.of_nat n -> p.(complexity) = Z.of_nat (S k) ->
  Z.of_nat (S k) <= MaximumComplexity -> p.(dbqry).(ValidColumns) = columns ->
  Move query_machine (onNewToken past_end) not_ v p = (Ok st', p') -> advances st' ((l ++ [c; o]) ++ [v]) p p'.
Proof.
  intros Hl Hc Ho Hn Hk Hmax Hcols Hm. rewrite <- app_assoc. invert_move Hm.
  edestruct (handle_operator past_end) as (Hext & Hob & Hx); [| |exact Hhandler|]; [set_solver|by right; left|].
  eapply advance; [apply at_in; [done|by apply head_not_in]|exact Hext|done|congruence|lia|lia].
Qed.

Lemma move_in l v p st' p' n k k' h :
  expects columns n k l -> in_head columns k' h ->
  p.(openBraces) = Z.of_nat n -> p.(complexity) = Z.of_nat (k + k') ->
  Z.of_nat (k + k') <= MaximumComplexity -> p.(dbqry).(ValidColumns) = columns ->
  Move query_machine (onNewToken past_end) in_ v p = (Ok st', p') -> advances st' ((l ++ h) ++ [v]) p p'.
Proof.
  intros Hl Hh Hn Hk Hmax Hcols Hm. rewrite <- app_assoc. invert_move Hm.
  apply literal_match in Hacc as ->. destruct (handle_open _ _ columns _ _ Hhandler) as (Hext & Ho & Hx).
  eapply advance; [by apply at_list_open|exact Hext|done|lia|congruence|done].
Qed.

(** The first value of a list, and a value after a comma. *)
Lemma move_list_item st l v p st' p' n k k' h vs :
  st ∈ [listOpenBrace; comma] -> expects columns n k l -> in_head columns k' h ->
  (is_value v -> items (vs ++ [v])) ->
  p.(openBraces) = Z.of_nat (S n) -> p.(complexity) = Z.of_nat (k + k') ->
  Z.of_nat (k + k') <= MaximumComplexity -> p.(dbqry).(ValidColumns) = columns ->
  Move query_machine (onNewToken past_end) st v p = (Ok st', p') ->
  advances st' (l ++ h ++ [OPEN] :: vs ++ [v]) p p'.
Proof.
  intros Hst Hl Hh Hvs Hn Hk Hmax Hcols Hm.
  split_names Hst; invert_move Hm;
    (edestruct (handle_value past_end) as (Hext & Hob & Hx); [|exact Hhandler|]; [set_solver|]);
    (eapply advance; [apply at_list_value; [set_solver|done|done|apply Hvs; by (left + right)]|exact Hext|done|congruence|congruence|done]).
Qed.

Lemma move_list_value st l v p st' p' n k k' h vs :
  st ∈ [quotedValueInList; valueInList] -> expects columns n k l -> in_head columns k' h -> items vs ->
  p.(openBraces) = Z.of_nat (S n) -> p.(complexity) = Z.of_nat (k + k') ->
  Z.of_nat (k + k') <= MaximumComplexity -> p.(dbqry).(ValidColumns) = columns ->
  Move query_machine (onNewToken past_end) st v p = (Ok st', p') ->
  advances st' ((l ++ h ++ [OPEN] :: vs) ++ [v]) p p'.
Proof.
  intros Hst Hl Hh Hvs Hn Hk Hmax Hcols Hm. rewrite <- !app_assoc, <- !app_comm_cons.
  split_names Hst; invert_move Hm; apply literal_match in Hacc as ->.
  1,3: (edestruct (handle_operator past_end) as (Hext & Hob & Hx); [| |exact Hhandler|]; [set_solver|by right; right|]);
    eapply advance; [by apply at_comma|exact Hext|done|congruence|congruence|done].
  all: destruct (handle_close _ _ columns _ _ Hhandler) as (Hext & Ho & _ & Hx);
    eapply advance; [apply at_operand_end; [set_solver|apply expects_term; [done|by apply term_in]]|exact Hext|done|lia|congruence|done].
Qed.

Lemma move_operand_end st l v p st' p' n k :
  st ∈ [value; quotedValue; closedBrace] -> complete columns n k l ->
  p.(openBraces) = Z.of_nat n -> p.(complexity) = Z.of_nat k ->
  Z.of_nat k <= MaximumComplexity -> p.(dbqry).(ValidColumns) = columns ->
  Move query_machine (onNewToken past_end) st v p = (Ok st', p') -> advances st' (l ++ [v]) p p'.
Proof.
  intros Hst Hl Hn Hk Hmax Hcols Hm. split_names Hst; invert_move Hm.
  3,6,9: apply literal_match in Hacc as ->; destruct (handle_close _ _ columns _ _ Hhandler) as (Hext & Ho & Hpos & Hx);
    destruct n as [|n]; [lia|];
    eapply advance; [apply at_operand_end; [set_solver|by apply complete_close]|exact Hext|done|lia|congruence|done].
  all: assert (is_join v) as Hj by (unfold is_join; tauto);
    (edestruct (handle_join past_end) as (Hext & Ho & Hx & Hx'); [|exact Hhandler|]; [by left|]);
    eapply advance; [apply at_operand; [set_solver|by apply complete_join]|exact Hext|done|congruence|lia|lia].
Qed.

Lemma move_stands st l v p st' p' :
  stands st l p -> Move query_machine (onNewToken past_end) st v p = (Ok st', p') -> advances st' (l ++ [v]) p p'.
Proof.
  intros (n & k & Hst & Hn & Hk & Hmax & Hcols) Hm.
  destruct Hst as [| | | | |n k k' l h Hl Hh| |n k k' l h vs Hl Hh Hvs|].
  - eauto using move_operand.
  - eauto using move_column.
  - eauto using move_comparison.
  - eauto using move_not.
  - eauto using move_in.
  - rewrite <- !app_assoc.
    apply (move_list_item listOpenBrace l v p st' p' n k k' h []); [by left|done|done|by apply items_one|done..].
  - eauto using move_list_value.
  - rewrite <- !app_assoc, <- !app_comm_cons.
    apply (move_list_item comma l v p st' p' n k k' h (vs ++ [[COMMA]])); [by right; left|done|done| |done..].
    intros Hv. rewrite <- app_assoc. by apply items_more.
  - eauto using move_operand_end.
Qed.
End Soundness.

(** ** Completeness *)

(** The texts that match a word in either case. *)
Fixpoint casings (t : text) : list text :=
  match t with
  | [] => [[]]
  | c :: t' => flat_map (fun s => [c :: s; c - 32 :: s]) (casings t')
  end.

Lemma fold_match t s : re_match (RFold t) s = true -> s ∈ casings t.
Proof.
  rewrite re_match_spec. revert s. induction t as [|c t IH]; intros s; simpl.
  - inversion 1. set_solver.
  - inversion 1 as [| |? ? s1 s2 H1 H2| | | |]; subst. inversion H1 as [|? x Hx| | | | |]; subst. simpl.
    apply IH in H2. apply list_elem_of_In, in_flat_map. exists s2. rewrite <- !list_elem_of_In. split; [done|].
    unfold fold_letter in Hx. apply orb_true_iff in Hx as [->%Z.eqb_eq| ->%Z.eqb_eq]; set_solver.
Qed.

(** The comparison patterns reject [in] and [not], and [in] rejects [not]. *)
Lemma word_rejected (word : text) (rejecting : list regex) v :
  forallb (fun s => forallb (fun r => negb (re_match r s)) rejecting) (casings word) = true ->
  re_match (RFold word) v = true -> Forall (fun r => re_match r v = false) rejecting.
Proof.
  rewrite forallb_forall. intros Hall Hv%fold_match%list_elem_of_In%Hall.
  rewrite forallb_forall in Hv. apply Forall_forall. intros r Hr%list_elem_of_In%Hv. by apply negb_true_iff.
Qed.

Section Completeness.
Context (past_end : text -> Z -> result error text) (columns : list text).

Fixpoint parse_values (state : string) (l : list text) : M parse_state error string :=
  match l with
  | [] => ret state
  | v :: rest =>
      next <~ wrap_err (EWrap "[%d] error parsing the filter: %v") (Move query_machine (onNewToken past_end) state v) ;;
      parse_values next rest
  end.

Lemma parse_tokens_values state tokens p :
  parse_tokens past_end state tokens p = parse_values state (map Value tokens) p.
Proof.
  revert state p. induction tokens as [|t tokens IH]; intros state p; simpl; [done|].
  unfold bind. destruct (wrap_err _ _ _) as [[next|e] p']; [|done]. apply IH.
Qed.

(** [p] accepts [k] more joins; [p'] is after [k] joins and [b] braces. *)
Definition roomy (p : parse_state) (k : nat) : Prop :=
  p.(dbqry).(ValidColumns) = columns /\ 0 <= p.(openBraces) /\ p.(complexity) + Z.of_nat k <= MaximumComplexity.
Definition after (p p' : parse_state) (k : nat) (b : Z) : Prop :=
  p'.(dbqry).(ValidColumns) = p.(dbqry).(ValidColumns) /\ p'.(openBraces) = p.(openBraces) + b /\
  p'.(complexity) = p.(complexity) + Z.of_nat k.

Definition runs (st : string) (l : list text) (p : parse_state) (k : nat) (b : Z) (ends : list string) : Prop :=
  exists st' p', parse_values st l p = (Ok st', p') /\ st' ∈ ends /\ after p p' k b.

Lemma after_trans p p1 p2 k1 k2 b1 b2 : after p p1 k1 b1 -> after p1 p2 k2 b2 -> after p p2 (k1 + k2) (b1 + b2).
Proof. unfold after. intros (-> & ? & ?) (-> & ? & ?). split_and!; [done|lia|lia]. Qed.

Lemma runs_app st l l' p k k' b b' mid ends :
  runs st l p k b mid ->
  (forall st1 p1, st1 ∈ mid -> after p p1 k b -> runs st1 l' p1 k' b' ends) ->
  runs st (l ++ l') p (k + k') (b + b') ends.
Proof.
  intros (st1 & p1 & H1 & Hmid & Ha) Hnext. destruct (Hnext st1 p1 Hmid Ha) as (st2 & p2 & H2 & Hend & Ha2).
  exists st2, p2. split_and!; [|done|by eapply after_trans]. clear -H1 H2. revert st p H1.
  induction l as [|v l IH]; intros st p H1; simpl in *; [by injection H1 as -> ->|].
  unfold bind in *. destruct (wrap_err _ _ _) as [[st3|e] p3]; [|done]. by apply IH.
Qed.

Lemma runs_one st v p k b ends st' p' :
  Move query_machine (onNewToken past_end) st v p = (Ok st', p') -> st' ∈ ends -> after p p' k b ->
  runs st [v] p k b ends.
Proof.
  intros Hm Hst Ha. exists st', p'. split_and!; [|done|done]. simpl. unfold bind, wrap_err. rewrite Hm. done.
Qed.

Lemma remove_quotes_ascii t : ascii_text t -> exists v, remove_quotes past_end (unescape t) = Ok v.
Proof.
  intros Ht. pose proof (unescape_ascii t Ht) as Hu.
  unfold remove_quotes. rewrite (utf8_len_ascii _ Hu).
  destruct (1 <? _); [|eauto]. destruct (Z.leb_spec (Z.of_nat (length (unescape t)) - 1) (Z.of_nat (length (unescape t)))); [eauto|lia].
Qed.

Lemma handled_open nm p : 0 <= p.(openBraces) ->
  exists p', onNewToken past_end (mkParsedToken nm braceTokenFamily [OPEN]) p = (Ok tt, p') /\ after p p' 0 1.
Proof.
  intros Ho. unfold onNewToken. simpl. unfold bind, countOpenBraces. simpl.
  destruct (Z.ltb_spec (openBraces p + 1) 0); [lia|]. eexists. split; [done|]. unfold after. simpl. auto with lia.
Qed.

Lemma handled_close nm p : 1 <= p.(openBraces) ->
  exists p', onNewToken past_end (mkParsedToken nm braceTokenFamily [CLOSE]) p = (Ok tt, p') /\ after p p' 0 (-1).
Proof.
  intros Ho. unfold onNewToken. simpl. unfold bind, countOpenBraces. simpl.
  destruct (Z.ltb_spec (openBraces p - 1) 0); [lia|]. eexists. split; [done|]. unfold after. simpl. auto with lia.
Qed.

Lemma handled_value nm fam v p : fam ∈ [valueTokenFamily; quotedValueTokenFamily] -> ascii_text v ->
  exists p', onNewToken past_end (mkParsedToken nm fam v) p = (Ok tt, p') /\ after p p' 0 0.
Proof.
  intros Hfam Hv. destruct (remove_quotes_ascii v Hv) as [u Hu].
  split_names Hfam; unfold onNewToken; simpl; unfold bind, lift; simpl; rewrite ?Hu; simpl;
    (eexists; split; [done|]; unfold after; simpl; auto with lia).
Qed.

Lemma handled_join nm v p : p.(complexity) + 1 <= MaximumComplexity ->
  exists p', onNewToken past_end (mkParsedToken nm logicalOpTokenFamily v) p = (Ok tt, p') /\ after p p' 1 0.
Proof.
  intros Hk. unfold onNewToken. simpl. unfold bind, count_join.
  destruct (Z.ltb_spec MaximumComplexity (complexity p + 1)); [lia|]. eexists. split; [done|]. unfold after. simpl. auto with lia.
Qed.

Lemma handled_column nm v p : text_lower v ∈ p.(dbqry).(ValidColumns) ->
  exists p', onNewToken past_end (mkParsedToken nm columnTokenFamily v) p = (Ok tt, p') /\ after p p' 0 0.
Proof.
  intros Hv. unfold onNewToken. simpl. rewrite bool_decide_true by done. eexists. split; [done|]. unfold after. simpl. auto with lia.
Qed.

Lemma handled_operator nm fam v p : fam ∈ [opTokenFamily; ""] ->
  exists p', onNewToken past_end (mkParsedToken nm fam v) p = (Ok tt, p') /\ after p p' 0 0.
Proof.
  intros Hfam. split_names Hfam; unfold onNewToken; simpl; (eexists; split; [done|]; unfold after; simpl; auto with lia).
Qed.

(** A token that some successor accepts is taken, when every successor that
    accepts it can handle it. *)
Definition takes (v : text) (p : parse_state) (k : nat) (b : Z) (ends : list string) (name : string) : Prop :=
  exists t, query_machine !! name = Some t /\ t.(handled) = true /\
    (accept t v = true -> name ∈ ends /\
       exists p', onNewToken past_end (mkParsedToken t.(tokenName) t.(family) v) p = (Ok tt, p') /\ after p p' k b).

Lemma run_any st s v p k b ends :
  query_machine !! st = Some s -> Forall (takes v p k b ends) s.(next) ->
  Exists (fun name => accepts_in query_machine v name = true) s.(next) -> runs st [v] p k b ends.
Proof.
  intros Hs Hall Hex.
  destruct (List.find (accepts_in query_machine v) (next s)) as [st'|] eqn:Hf.
  - pose proof (List.find_some _ _ Hf) as [Hin Hacc]. apply list_elem_of_In in Hin.
    rewrite Forall_forall in Hall. destruct (Hall st' Hin) as (t & Ht & Hh & Hok).
    unfold accepts_in in Hacc. rewrite Ht in Hacc. destruct (Hok Hacc) as (Hends & p' & Hp' & Ha).
    eapply runs_one; [eapply Move_first; [done| |exact Hf|exact Ht|done|exact Hp']|done|done].
    apply Forall_forall. intros n Hn. destruct (Hall n Hn) as (t' & Ht' & _). by exists t'.
  - apply Exists_exists in Hex as (n & Hn & Hacc). apply list_elem_of_In in Hn.
    by rewrite (List.find_none _ _ Hf n Hn) in Hacc.
Qed.

(** Opens [run_any] at a state whose successors are known. *)
Ltac run_from :=
  eapply run_any; [known_states; reflexivity|
    cbn [next]; repeat apply Forall_cons_2; try apply Forall_nil_2;
      (unfold takes; known_states; eexists; split; [reflexivity|]; split; [reflexivity|]);
      unfold accept; cbn [acceptPattern tokenName family]; intros Hacc|
    cbn [next]; rewrite !Exists_cons, Exists_nil; unfold accepts_in; known_states; unfold accept; cbn [acceptPattern]].

Lemma literal_clash c r v : re_match (RText [c]) v = true -> re_match r [c] = false -> re_match r v = true -> False.
Proof. intros ->%literal_match. congruence. Qed.

Lemma run_column st c p : st ∈ [StartState; openBrace; and_; or_] -> is_column columns c -> roomy p 0 -> runs st [c] p 0 0 [column].
Proof.
  intros Hst [Hc Hin] (Hcols & _ & _). rewrite <- Hcols in Hin.
  split_names Hst; run_from; try (split; [set_solver|by apply handled_column]); auto.
  all: exfalso; by eapply (literal_clash OPEN); [exact Hacc| |exact Hc].
Qed.

Lemma run_open st p : st ∈ [StartState; openBrace; and_; or_] -> roomy p 0 -> runs st [[OPEN]] p 0 1 [openBrace].
Proof.
  intros Hst (_ & Ho & _). split_names Hst; run_from; try done; try (split; [set_solver|by apply handled_open]).
  all: by right; left.
Qed.

(** The words of the language are told apart by their casings. *)
Definition comparisons : list regex := [RText (runes "="); RText (runes "<>"); RFold (runes "like"); RFold (runes "ilike")].

Lemma comparison_word o : is_comparison o -> re_match (RFold (runes "in")) o = false /\ re_match (RFold (runes "not")) o = false.
Proof.
  intros Ho. split; apply not_true_is_false; intros Hw; (eapply (word_rejected _ comparisons) in Hw; [|vm_compute; reflexivity]);
    unfold comparisons in Hw; rewrite !Forall_cons in Hw; unfold is_comparison in Ho; naive_solver congruence.
Qed.

Lemma run_comparison o p : is_comparison o -> runs column [o] p 0 0 [eq_; notEq; like; ilike].
Proof.
  intros Ho. destruct (comparison_word o Ho) as [Hin Hnot].
  run_from; [by (split; [set_solver|apply handled_operator; set_solver])..|congruence|congruence|unfold is_comparison in Ho; tauto].
Qed.

Lemma run_value st v p : st ∈ [eq_; notEq; like; ilike] -> is_value v -> ascii_text v -> runs st [v] p 0 0 [value; quotedValue].
Proof.
  intros Hst Hv Ha. split_names Hst; run_from; try (split; [set_solver|apply handled_value; [set_solver|done]]).
  all: unfold is_value in Hv; tauto.
Qed.

Lemma run_in i p : is_in i -> runs column [i] p 0 0 [in_].
Proof.
  intros Hi. pose proof (comparison_word i) as Hc. unfold is_in, is_comparison in *.
  run_from; [by (destruct Hc; [tauto|congruence])..|split; [set_solver|apply handled_operator; set_solver]| |tauto].
  exfalso. eapply (word_rejected _ [RFold (runes "in")]) in Hacc; [|vm_compute; reflexivity].
  rewrite Forall_singleton in Hacc. congruence.
Qed.

Lemma run_not n p : is_not n -> roomy p 1 -> runs column [n] p 1 0 [not_].
Proof.
  intros Hn (_ & _ & Hk). pose proof (comparison_word n) as Hc. unfold is_not, is_comparison in *.
  run_from; [by (destruct Hc; [tauto|congruence])..| |split; [set_solver|by apply handled_join]|tauto].
  exfalso. eapply (word_rejected _ [RFold (runes "not")]) in Hacc; [|vm_compute; reflexivity].
  rewrite Forall_singleton in Hacc. congruence.
Qed.

Lemma run_not_in i p : is_in i -> runs not_ [i] p 0 0 [in_].
Proof. intros Hi. run_from; [split; [set_solver|apply handled_operator; set_solver]|auto]. Qed.

Lemma run_list_open p : 0 <= p.(openBraces) -> runs in_ [[OPEN]] p 0 1 [listOpenBrace].
Proof. intros Ho. run_from; [split; [set_solver|by apply handled_open]|auto]. Qed.

Lemma run_item st v p : st ∈ [listOpenBrace; comma] -> is_value v -> ascii_text v -> runs st [v] p 0 0 [quotedValueInList; valueInList].
Proof.
  intros Hst Hv Ha. split_names Hst; run_from; try (split; [set_solver|apply handled_value; [set_solver|done]]).
  all: unfold is_value in Hv; tauto.
Qed.

Lemma run_comma st p : st ∈ [quotedValueInList; valueInList] -> runs st [[COMMA]] p 0 0 [comma].
Proof.
  intros Hst. split_names Hst; run_from; try (split; [set_solver|apply handled_operator; set_solver]); try done; auto.
Qed.

Lemma run_close st p : st ∈ [value; quotedValue; closedBrace; quotedValueInList; valueInList] -> 1 <= p.(openBraces) ->
  runs st [[CLOSE]] p 0 (-1) [closedBrace].
Proof.
  intros Hst Ho. split_names Hst; run_from; try (split; [set_solver|by apply handled_close]); try done; auto.
Qed.

Lemma run_join st j p : st ∈ [value; quotedValue; closedBrace] -> is_join j -> roomy p 1 -> runs st [j] p 1 0 [and_; or_].
Proof.
  intros Hst Hj (_ & _ & Hk). split_names Hst; run_from; try (split; [set_solver|by apply handled_join]); unfold is_join in Hj; try tauto.
  all: exfalso; apply literal_match in Hacc as ->; destruct Hj; done.
Qed.
(** Two runs in sequence, with the totals as the goal states them. *)
Lemma runs_seq st l l' p k k' b b' mid ends k0 b0 :
  runs st l p k b mid -> k0 = (k + k')%nat -> b0 = b + b' -> roomy p k0 -> 0 <= p.(openBraces) + b ->
  (forall st1 p1, st1 ∈ mid -> roomy p1 k' -> p1.(openBraces) = p.(openBraces) + b -> runs st1 l' p1 k' b' ends) ->
  runs st (l ++ l') p k0 b0 ends.
Proof.
  intros Hrun -> -> (Hcols & Ho & Hk) Hb Hnext. eapply runs_app; [done|]. intros st1 p1 Hst1 (Hc1 & Ho1 & Hk1).
  apply Hnext; [done| |done]. split_and!; [congruence|lia|lia].
Qed.

Lemma roomy_less p k k' : roomy p k -> (k' <= k)%nat -> roomy p k'.
Proof. intros (? & ? & ?) ?. split_and!; auto with lia. Qed.

Lemma run_items vs p : items vs -> Forall ascii_text vs -> roomy p 0 ->
  runs listOpenBrace vs p 0 0 [quotedValueInList; valueInList].
Proof.
  intros Hvs Hascii Hp. induction Hvs as [v Hv|vs v Hvs IH Hv].
  - rewrite Forall_singleton in Hascii. apply run_item; [set_solver|done|done].
  - apply Forall_app in Hascii as [Hascii Hv']. rewrite !Forall_cons in Hv'. destruct Hv' as (_ & Hv' & _).
    pose proof (proj1 (proj2 Hp)). eapply (runs_seq _ _ _ _ 0 0 0 0); [by apply IH|done..|lia|]. intros st1 p1 Hst1 Hp1 Ho1.
    eapply (runs_seq _ [_] [_] _ 0 0 0 0); [by apply run_comma|done..|lia|]. intros st2 p2 ->%list_elem_of_singleton Hp2 Ho2.
    apply run_item; [set_solver|done|done].
Qed.

Lemma run_head st k h p : st ∈ [StartState; openBrace; and_; or_] -> in_head columns k h -> roomy p k ->
  runs st h p k 0 [in_].
Proof.
  intros Hst Hh Hp. pose proof (proj1 (proj2 Hp)).
  destruct Hh as [c i Hc Hi|c n i Hc Hn Hi];
    (eapply (runs_seq _ [_] _ _ 0 _ 0 0); [apply run_column; [done|done|eapply roomy_less; [done|lia]]|done..|lia|]);
    intros st1 p1 ->%list_elem_of_singleton Hp1 Ho1; [by apply run_in|].
  eapply (runs_seq _ [_] _ _ 1 0 0 0); [by apply run_not|done..|lia|]. intros st2 p2 ->%list_elem_of_singleton Hp2 Ho2.
  by apply run_not_in.
Qed.

Lemma run_in_list st k h vs p : st ∈ [StartState; openBrace; and_; or_] -> in_head columns k h -> items vs ->
  Forall ascii_text vs -> roomy p k -> runs st (h ++ [OPEN] :: vs ++ [[CLOSE]]) p k 0 [closedBrace].
Proof.
  intros Hst Hh Hvs Ha Hp. pose proof (proj1 (proj2 Hp)).
  eapply (runs_seq _ _ _ _ k 0 0 0); [by apply run_head|lia|done|done|lia|]. intros st1 p1 ->%list_elem_of_singleton Hp1 Ho1.
  eapply (runs_seq _ [_] _ _ 0 0 1 (-1)); [apply run_list_open; lia|done..|lia|]. intros st2 p2 ->%list_elem_of_singleton Hp2 Ho2.
  eapply (runs_seq _ _ _ _ 0 0 0 (-1)); [by apply run_items|done..|lia|]. intros st3 p3 Hst3 Hp3 Ho3.
  apply run_close; [set_solver|lia].
Qed.

Scheme expr_mind := Minimality for expr Sort Prop with term_mind := Minimality for term Sort Prop.

(** The parser accepts the tokens of every expression it has room for. *)
Lemma run_expr k l : expr columns k l -> forall st p, st ∈ [StartState; openBrace; and_; or_] -> Forall ascii_text l ->
  roomy p k -> runs st l p k 0 [value; quotedValue; closedBrace].
Proof.
  revert k l. apply (expr_mind columns
    (fun k l => forall st p, st ∈ [StartState; openBrace; and_; or_] -> Forall ascii_text l ->
       roomy p k -> runs st l p k 0 [value; quotedValue; closedBrace])
    (fun k l => forall st p, st ∈ [StartState; openBrace; and_; or_] -> Forall ascii_text l ->
       roomy p k -> runs st l p k 0 [value; quotedValue; closedBrace])).
  - done.
  - intros k k' e j t _ IHe Hj _ IHt st p Hst [Hae [_ Hat]%Forall_cons]%Forall_app Hp. pose proof (proj1 (proj2 Hp)).
    eapply (runs_seq _ _ _ _ k (1 + k') 0 0); [apply IHe; [done|done|eapply roomy_less; [done|lia]]|lia|done|done|lia|].
    intros st1 p1 Hst1 Hp1 Ho1.
    eapply (runs_seq _ [_] _ _ 1 k' 0 0); [apply run_join; [set_solver|done|eapply roomy_less; [done|lia]]|lia|done|done|lia|].
    intros st2 p2 Hst2 Hp2 Ho2. apply IHt; [set_solver|done|done].
  - intros c o v Hc Ho Hv st p Hst Ha Hp. rewrite !Forall_cons in Ha. destruct Ha as (_ & _ & Ha & _).
    pose proof (proj1 (proj2 Hp)).
    eapply (runs_seq _ [_] _ _ 0 0 0 0); [by apply run_column|done..|lia|]. intros st1 p1 ->%list_elem_of_singleton Hp1 Ho1.
    eapply (runs_seq _ [_] _ _ 0 0 0 0); [by apply run_comparison|done..|lia|]. intros st2 p2 Hst2 Hp2 Ho2.
    destruct (run_value st2 v p2 Hst2 Hv Ha) as (st3 & p3 & Hrun & Hst3 & Ha3). exists st3, p3. split_and!; [done| |done]; clear -Hst3; set_solver.
  - intros k h vs Hh Hvs st p Hst Ha Hp. rewrite Forall_app, Forall_cons, Forall_app in Ha. destruct Ha as (_ & _ & Ha & _).
    destruct (run_in_list st k h vs p Hst Hh Hvs Ha Hp) as (st1 & p1 & Hrun & Hst1 & Ha1). exists st1, p1. split_and!; [done| |done]; clear -Hst1; set_solver.
  - intros k e _ IHe st p Hst Ha Hp. rewrite Forall_cons, Forall_app in Ha. destruct Ha as (_ & Ha & _). pose proof (proj1 (proj2 Hp)).
    eapply (runs_seq _ [_] _ _ 0 k 1 (-1)); [apply run_open; [done|eapply roomy_less; [done|lia]]|lia|done|done|lia|].
    intros st1 p1 ->%list_elem_of_singleton Hp1 Ho1.
    eapply (runs_seq _ _ _ _ k 0 0 (-1)); [apply IHe; [set_solver|done|done]|lia|done|done|lia|]. intros st2 p2 Hst2 Hp2 Ho2.
    destruct (run_close st2 p2) as (st3 & p3 & Hrun & Hst3 & Ha3); [set_solver|lia|]. exists st3, p3. split_and!; [done| |done]; clear -Hst3; set_solver.
Qed.
End Completeness.
