(* ===== verification/Search.v ===== *)
(** * Searches, from the text to the clause

    The theorems on [src/pkg/services/queryparser/query_parser.go] as a whole:
    the clause of an accepted search holds only known columns, fixed words and
    placeholders, one for each value; the accepted texts are those of the search
    language; a quoted value reaches the database as it was before quoting. *)
From S2P Require Import Prelude Arrays Errors Store Scanner StateMachine QueryParser.

#[local] Opaque query_machine.

(** The tokens of a text. *)
Definition tokens_of (sql : text) : list text := map Value (Init NewSQLScanner sql).(sc_tokens).

Lemma drain_init sql :
  drain (S (length (Init NewSQLScanner sql).(sc_tokens))) (Init NewSQLScanner sql) = Some (Init NewSQLScanner sql).(sc_tokens).
Proof. apply (drain_spec _ _ 0); simpl; lia. Qed.

(** ** The tokens of an ASCII text *)
Definition ascii_tokens (s : scan_state) : Prop :=
  Forall (fun t => ascii_text t.(Value)) s.(sent) /\ Forall (fun t => ascii_text t.(Value)) s.(pending).

Lemma ascii_send s : ascii_tokens s -> ascii_tokens (sendCurrentTokens s).
Proof.
  intros [Hs Hp]. split; [|constructor]. unfold sendCurrentTokens. simpl.
  assert (ascii_text (flat_map Value (pending s))) as Hres.
  { induction Hp as [|t l Ht Hl IH]; simpl; [constructor|]. unfold ascii_text. rewrite Forall_app. done. }
  destruct (flat_map Value (pending s)) eqn:Hf, (pending s); try done.
  apply Forall_app. split; [done|]. constructor; [exact Hres|constructor].
Qed.

Lemma ascii_push ty c i s : 0 <= c < 128 -> ascii_tokens s -> ascii_tokens (push ty c i s).
Proof. intros Hc [Hs Hp]. split; [done|]. apply Forall_app. split; [done|]. by repeat apply Forall_cons_2. Qed.
Lemma ascii_send_char ty c i s : 0 <= c < 128 -> ascii_tokens s -> ascii_tokens (send_char ty c i s).
Proof. intros Hc [Hs Hp]. split; [|done]. apply Forall_app. split; [done|]. by repeat apply Forall_cons_2. Qed.
Lemma ascii_set_type ty s : ascii_tokens s -> ascii_tokens (set_type ty s).
Proof. done. Qed.
Lemma ascii_set_quoted b s : ascii_tokens s -> ascii_tokens (set_quoted b s).
Proof. done. Qed.
Lemma ascii_set_escaped b s : ascii_tokens s -> ascii_tokens (set_escaped b s).
Proof. done. Qed.
Lemma ascii_send_unless types s : ascii_tokens s -> ascii_tokens (send_unless types s).
Proof. intros H. unfold send_unless. destruct (existsb _ _); [done|by apply ascii_send]. Qed.

Create HintDb scanning.
#[export] Hint Resolve ascii_send ascii_push ascii_send_char ascii_set_type ascii_set_quoted ascii_set_escaped ascii_send_unless : scanning.

Lemma ascii_scan_char i c s : 0 <= c < 128 -> ascii_tokens s -> ascii_tokens (scan_char i c s).
Proof.
  intros Hc Hs. unfold scan_char.
  repeat match goal with |- ascii_tokens (if ?b then _ else _) => destruct b end; auto 10 with scanning.
  apply ascii_set_escaped. destruct (escaped _); auto 10 with scanning.
Qed.

Lemma ascii_scan_text i txt s : ascii_text txt -> ascii_tokens s -> ascii_tokens (scan_text i txt s).
Proof.
  intros Htxt. revert i s. induction Htxt as [|c txt Hc Htxt IH]; intros i s Hs; simpl; [done|].
  by apply IH, ascii_scan_char.
Qed.

Lemma tokens_ascii sql : ascii_text sql -> Forall ascii_text (tokens_of sql).
Proof.
  intros Hsql. apply Forall_fmap. apply (ascii_send (scan_text 0 sql (mkScan [] [] NO_TOKEN false false))).
  apply ascii_scan_text; [done|]. by split; constructor.
Qed.

(** ** Soundness of a parse *)
Section Sound.
Context (past_end : text -> Z -> result error text) (columns : list text).

Definition clause (p p' : parse_state) (fs : list fragment) : Prop :=
  Forall (safe_fragment columns) fs /\
  p'.(dbqry).(Query) = p.(dbqry).(Query) ++ flat_map (render p.(dbqry).(ColumnPrefix)) fs /\
  p'.(dbqry).(ColumnPrefix) = p.(dbqry).(ColumnPrefix) /\
  length p'.(dbqry).(Values) = (length p.(dbqry).(Values) + placeholders fs)%nat.

Lemma parse_stands st l l' p st' p' :
  stands columns st l p -> parse_values past_end st l' p = (Ok st', p') ->
  stands columns st' (l ++ l') p' /\ exists fs, clause p p' fs.
Proof.
  revert st l p. induction l' as [|v l' IH]; intros st l p Hst Hrun; simpl in Hrun.
  - injection Hrun as -> ->. rewrite app_nil_r. split; [done|]. exists []. unfold clause. simpl. rewrite app_nil_r. auto with lia.
  - apply bind_ok in Hrun as (st1 & p1 & Hm & Hrun). unfold wrap_err in Hm.
    destruct (Move query_machine (onNewToken past_end) st v p) as [[st2|e] p2] eqn:Hmove; [|done]. injection Hm as -> ->.
    destruct (move_stands _ _ _ _ _ _ _ _ Hst Hmove) as (Hst1 & f & Hf & Hq & _ & Hpre & Hv).
    destruct (IH _ _ _ Hst1 Hrun) as (Hst' & fs & Hfs & Hq' & Hpre' & Hv').
    rewrite <- app_assoc in Hst'. split; [done|]. exists (f :: fs). unfold clause. split_and!.
    + by constructor.
    + rewrite Hq', Hq, Hpre, <- app_assoc. done.
    + congruence.
    + rewrite Hv', Hv. unfold placeholders. simpl. destruct f; simpl; lia.
Qed.

Lemma stands_start q : q.(ValidColumns) = columns -> stands columns StartState [] (mkParse q 0 0).
Proof. intros Hq. exists 0%nat, 0%nat. split_and!; try done. apply at_operand; [by left|]. by repeat constructor. Qed.

(** At a state that may end the text, with every brace closed, the tokens are
    an expression. *)
Lemma stands_end st l p :
  stands columns st l p -> Eof query_machine st = true -> p.(openBraces) <= 0 ->
  exists k, (k <= 10)%nat /\ expr columns k l.
Proof.
  intros (n & k & Hst & Hn & Hk & Hmax & Hcols) Heof Ho. exists k. split; [unfold MaximumComplexity in Hmax; lia|].
  unfold Eof in Heof. destruct Hst as [st n k l Hst| |st n k l c o Hst| | | |st n k k' l h vs Hst| |st n k l Hst Hl].
  1,3,7: split_names Hst; revert Heof; known_states; done.
  1-5: revert Heof; known_states; done.
  destruct Hl as [k l Hl|]; [done|lia].
Qed.
End Sound.

(** What an accepted search consists of. *)
Lemma parse_accepted past_end q sql q' :
  fst (Parse past_end q sql) = Ok q' ->
  exists st p, parse_values past_end StartState (tokens_of sql) (mkParse q 0 0) = (Ok st, p) /\
    Eof query_machine st = true /\ p.(openBraces) <= 0 /\
    q' = mkDBQuery (trim_spaces p.(dbqry).(Query)) p.(dbqry).(Values) p.(dbqry).(ValidColumns) p.(dbqry).(ColumnPrefix).
Proof.
  unfold Parse. rewrite drain_init, parse_tokens_values. fold (tokens_of sql).
  destruct (parse_values _ _ _ _) as [[st|e] p]; [|done].
  destruct (Eof query_machine st) eqn:Heof; [|done]. simpl.
  destruct (Z.ltb_spec 0 (openBraces p)); [done|]. intros [= <-]. eauto 10.
Qed.

(** A search that is accepted cannot inject SQL: whatever the text, the
    clause is made of parentheses, placeholders, columns of the parser's list,
    and the words and signs [and], [or], [not], [in], [like], [ilike], [=],
    [<>] and [,]; and there are as many values as placeholders. *)
Theorem search_query_safe past_end prefix cols sql q' :
  fst (Parse past_end (NewQueryParserWithColumnPrefix prefix cols) sql) = Ok q' ->
  exists fs, Forall (safe_fragment (match cols with [] => validColumns | _ => cols end)) fs /\
    q'.(Query) = trim_spaces (flat_map (render prefix) fs) /\ length q'.(Values) = placeholders fs.
Proof.
  intros (st & p & Hrun & _ & _ & ->)%parse_accepted. cbn [Query Values].
  set (columns := match cols with [] => validColumns | _ => cols end).
  destruct (parse_stands past_end columns _ [] _ _ _ _ (stands_start columns (NewQueryParserWithColumnPrefix prefix cols) eq_refl) Hrun)
    as (_ & fs & Hfs & Hq & _ & Hv).
  exists fs. split_and!; [done|by rewrite Hq|by rewrite Hv].
Qed.

Lemma search_query_safe_witness :
  exists q' fs, fst (Parse (fun _ _ => Ok []) (NewQueryParserWithColumnPrefix [] []) (runes "name = '; drop' or owner like y")) = Ok q' /\
    Forall (safe_fragment validColumns) fs /\
    q'.(Query) = trim_spaces (flat_map (render []) fs) /\ length q'.(Values) = placeholders fs.
Proof.
  exists (mkDBQuery (runes "name = ? or owner like ?") [runes "; drop"; runes "y"] validColumns []).
  edestruct (search_query_safe (fun _ _ => Ok []) [] [] (runes "name = '; drop' or owner like y")) as (fs & H);
    [vm_compute; reflexivity|]. exists fs. split; [vm_compute; reflexivity|exact H].
Defined.

(** [C34] The parser accepts exactly the search language: an ASCII text parses
    if and only if its tokens are an expression of the grammar (comparisons and
    membership of known columns, parentheses, joins) that counts at most ten, where
    each AND, each OR and each NOT of a NOT IN counts one.  The documentation of the
    API speaks of ten joins, AND and OR; the code counts NOT IN too, so that ten
    joins with a NOT IN are refused. *)
Theorem search_language_exact past_end prefix cols sql :
  ascii_text sql ->
  (exists q', fst (Parse past_end (NewQueryParserWithColumnPrefix prefix cols) sql) = Ok q') <->
  (exists k, (k <= 10)%nat /\ expr (match cols with [] => validColumns | _ => cols end) k (tokens_of sql)).
Proof.
  intros Hascii. set (columns := match cols with [] => validColumns | _ => cols end).
  set (q := NewQueryParserWithColumnPrefix prefix cols). split.
  - intros (q' & (st & p & Hrun & Heof & Ho & _)%parse_accepted).
    destruct (parse_stands past_end columns _ [] _ _ _ _ (stands_start columns q eq_refl) Hrun) as (Hst & _).
    by eapply stands_end.
  - intros (k & Hk & He).
    destruct (run_expr past_end columns k _ He StartState (mkParse q 0 0)) as (st & p & Hrun & Hst & _ & Ho & _);
      [by left|by apply tokens_ascii|split_and!; [done|done|simpl; unfold MaximumComplexity; lia]|].
    unfold Parse. rewrite drain_init, parse_tokens_values. fold (tokens_of sql). rewrite Hrun.
    assert (Eof query_machine st = true) as -> by (unfold Eof; split_names Hst; known_states; reflexivity).
    simpl. rewrite Ho. simpl. eauto.
Qed.

Lemma search_language_exact_witness :
  ascii_text (runes "name = x") /\
  ((exists q', fst (Parse (fun _ _ => Ok []) (NewQueryParserWithColumnPrefix [] []) (runes "name = x")) = Ok q') <->
   (exists k, (k <= 10)%nat /\ expr validColumns k (tokens_of (runes "name = x")))).
Proof.
  assert (ascii_text (runes "name = x")) as H by (repeat constructor; lia).
  split; [exact H|]. exact (search_language_exact (fun _ _ => Ok []) [] [] (runes "name = x") H).
Defined.

(** ** A quoted value comes back *)

(** The way a client quotes a value: quotes inside it are escaped. *)
Fixpoint escape (v : text) : text :=
  match v with
  | [] => []
  | c :: v' => if c =? QUOTE then BACKSLASH :: QUOTE :: escape v' else c :: escape v'
  end.
Definition quote (v : text) : text := QUOTE :: escape v ++ [QUOTE].

(** Characters that the scanner leaves inside a quoted token. *)
Definition quotable (c : Z) : bool := negb (existsb (Z.eqb c) [BACKSLASH; OPEN; CLOSE; EQUALS; LESS; GREATER]).
(** Characters that never end a token. *)
Definition plain (c : Z) : bool := quotable c && negb (existsb (Z.eqb c) [QUOTE; SPACE; COMMA]).

Definition literal_type (ty : token_type) : bool :=
  match ty with NO_TOKEN | LITERAL | QUOTED_LITERAL => true | _ => false end.

Definition pending_text (s : scan_state) : text := flat_map Value s.(pending).

(** [s'] is [s] with [t] added to the token under construction. *)
Definition grown (s s' : scan_state) (t : text) : Prop :=
  s'.(sent) = s.(sent) /\ pending_text s' = pending_text s ++ t /\ literal_type s'.(currentTokenType) = true /\
  s'.(quoted) = s.(quoted) /\ s'.(escaped) = s.(escaped).

Lemma grown_trans s s1 s2 t t' : grown s s1 t -> grown s1 s2 t' -> grown s s2 (t ++ t').
Proof.
  intros (H1 & H2 & _ & H3 & H4) (H1' & H2' & Hty & H3' & H4').
  split_and!; try congruence. by rewrite H2', H2, app_assoc.
Qed.

Lemma pending_push ty c i s : pending_text (push ty c i s) = pending_text s ++ [c].
Proof. unfold pending_text, push. simpl. by rewrite flat_map_app. Qed.

Lemma send_unless_literal s : literal_type s.(currentTokenType) = true -> send_unless [NO_TOKEN; LITERAL; QUOTED_LITERAL] s = s.
Proof. unfold send_unless. by destruct (currentTokenType s). Qed.

(** Splits a boolean test of characters into inequalities. *)
Ltac split_chars H :=
  repeat (rewrite ?negb_true_iff, ?orb_false_iff, ?andb_true_iff in H; simpl in H); destruct_and? H.

Lemma scan_plain i c s : plain c = true -> literal_type s.(currentTokenType) = true -> grown s (scan_char i c s) [c].
Proof.
  intros Hc Hty. unfold plain, quotable in Hc. split_chars Hc. unfold scan_char.
  repeat match goal with H : (_ =? _) = false |- _ => rewrite H; clear H end. simpl.
  rewrite send_unless_literal by done. split_and!; try done. by rewrite pending_push.
Qed.

Lemma scan_plain_text i txt s : forallb plain txt = true -> literal_type s.(currentTokenType) = true ->
  grown s (scan_text i txt s) txt.
Proof.
  revert i s. induction txt as [|c txt IH]; intros i s Htxt Hty; simpl in *.
  - split_and!; try done. by rewrite app_nil_r.
  - apply andb_true_iff in Htxt as [Hc Htxt]. pose proof (scan_plain i c s Hc Hty) as Hg.
    apply (grown_trans _ _ _ [c] txt Hg), IH; [done|by apply Hg].
Qed.

Lemma scan_quoted i c s : quotable c = true -> s.(quoted) = true -> s.(escaped) = false -> literal_type s.(currentTokenType) = true ->
  grown s (scan_text i (escape [c]) s) (escape [c]).
Proof.
  intros Hc Hq He Hty. simpl. destruct (c =? QUOTE) eqn:Hquote.
  - cbn [scan_text]. unfold scan_char, grown, pending_text. simpl. rewrite Hq. simpl. rewrite Hq. simpl.
    split_and!; try done. by rewrite !flat_map_app, <- app_assoc.
  - destruct (plain c) eqn:Hp; [by apply scan_plain|]. unfold plain in Hp. rewrite Hc in Hp. simpl in Hp. rewrite Hquote in Hp. simpl in Hp.
    cbn [scan_text]. unfold scan_char, grown. destruct (c =? SPACE) eqn:Hs; simpl; rewrite ?Hq.
    + split_and!; try done. apply pending_push.
    + destruct (c =? COMMA) eqn:Hcm; [|done]. split_and!; try done. apply pending_push.
Qed.

Lemma scan_text_app i t t' s : exists i', scan_text i (t ++ t') s = scan_text i' t' (scan_text i t s).
Proof. revert i s. induction t as [|c t IH]; intros i s; simpl; eauto. Qed.

Lemma escape_cons c v : escape (c :: v) = escape [c] ++ escape v.
Proof. simpl. by destruct (c =? QUOTE). Qed.

Lemma scan_quoted_text i v s : forallb quotable v = true -> s.(quoted) = true -> s.(escaped) = false ->
  literal_type s.(currentTokenType) = true -> grown s (scan_text i (escape v) s) (escape v).
Proof.
  revert i s. induction v as [|c v IH]; intros i s Hv Hq He Hty.
  - simpl. split_and!; try done. by rewrite app_nil_r.
  - simpl in Hv. apply andb_true_iff in Hv as [Hc Hv]. rewrite escape_cons.
    pose proof (scan_quoted i c s Hc Hq He Hty) as Hg.
    destruct (scan_text_app i (escape [c]) (escape v) s) as [i' ->]. eapply grown_trans; [exact Hg|].
    destruct Hg as (_ & _ & ? & ? & ?). apply IH; congruence.
Qed.

Lemma send_values s : pending_text s <> [] ->
  map Value (sendCurrentTokens s).(sent) = map Value s.(sent) ++ [pending_text s].
Proof.
  unfold pending_text, sendCurrentTokens. simpl. destruct (flat_map Value (pending s)) as [|c t] eqn:Hf; [done|].
  destruct (pending s) as [|first l]; [done|]. intros _. by rewrite map_app.
Qed.

Lemma scan_text_cons i c t s : scan_text i (c :: t) s = scan_text (i + rune_len c) t (scan_char i c s).
Proof. done. Qed.

Lemma send_nothing s : pending s = [] -> sent (sendCurrentTokens s) = sent s.
Proof. intros H. unfold sendCurrentTokens. by rewrite H. Qed.

Lemma scan_space i s : s.(quoted) = false -> scan_char i SPACE s = sendCurrentTokens s.
Proof. intros Hq. unfold scan_char. simpl. by rewrite Hq. Qed.
Lemma scan_equals i s : s.(currentTokenType) = NO_TOKEN -> scan_char i EQUALS s = set_type OP (push OP EQUALS i s).
Proof. intros Hty. unfold scan_char, send_unless. simpl. by rewrite Hty. Qed.
Lemma scan_open_quote i s : s.(quoted) = false ->
  scan_char i QUOTE s = push OP QUOTE i (set_type QUOTED_LITERAL (set_quoted true (sendCurrentTokens s))).
Proof. intros Hq. unfold scan_char. simpl. by rewrite Hq. Qed.
Lemma scan_close_quote i s : s.(quoted) = true -> s.(escaped) = false ->
  scan_char i QUOTE s = set_escaped false (set_type NO_TOKEN (set_quoted false (sendCurrentTokens (push QUOTED_LITERAL QUOTE i s)))).
Proof. intros Hq He. unfold scan_char. simpl. by rewrite Hq, He. Qed.

(** From the space before the sign to the end of the quoted value. *)
Lemma scan_comparison i v s : pending_text s <> [] -> s.(quoted) = false -> s.(escaped) = false -> forallb quotable v = true ->
  map Value (sendCurrentTokens (scan_text i (runes " = " ++ quote v) s)).(sent)
  = map Value s.(sent) ++ [pending_text s; runes "="; quote v].
Proof.
  intros Hp Hq He Hv. change (runes " = " ++ quote v) with ([SPACE; EQUALS; SPACE; QUOTE] ++ (escape v ++ [QUOTE])).
  cbn [app]. rewrite !scan_text_cons, (scan_space i s) by done. rewrite scan_equals by done. rewrite scan_space, scan_open_quote by done.
  set (s4 := push OP QUOTE _ _). set (i4 := _ + rune_len QUOTE).
  destruct (scan_text_app i4 (escape v) [QUOTE] s4) as [i5 ->].
  destruct (scan_quoted_text i4 v s4 Hv) as (Hs5 & Hp5 & Hty5 & Hq5 & He5); [done..|].
  set (s5 := scan_text i4 (escape v) s4) in *. cbn [scan_text].
  rewrite scan_close_quote by (rewrite ?Hq5, ?He5; done). rewrite send_nothing by done.
  change (sent (set_escaped false ?x)) with (sent x).
  cbn [sent set_escaped set_type set_quoted]. rewrite send_values by (rewrite pending_push; destruct (pending_text s5); discriminate).
  rewrite pending_push, Hp5. cbn [push sent]. rewrite Hs5. subst s4. cbn [push sent set_type set_quoted].
  rewrite send_nothing by done. rewrite send_values by done. cbn [sent set_type push]. rewrite send_values by done.
  rewrite <- !app_assoc. done.
Qed.

Lemma tokens_comparison c v : c <> [] -> forallb plain c = true -> forallb quotable v = true ->
  tokens_of (c ++ runes " = " ++ quote v) = [c; runes "="; quote v].
Proof.
  intros Hne Hc Hv. unfold tokens_of, Init. cbn [sc_tokens NewSQLScanner].
  destruct (scan_text_app 0 c (runes " = " ++ quote v) (mkScan [] [] NO_TOKEN false false)) as [i Happ].
  rewrite Happ. clear Happ.
  destruct (scan_plain_text 0 c (mkScan [] [] NO_TOKEN false false) Hc) as (Hs & Hp & _ & Hq & He); [done|].
  simpl in Hp. etransitivity; [apply scan_comparison; [congruence|done..]|]. by rewrite Hs, Hp.
Qed.

(** ** The parse of a comparison with a quoted value *)
Lemma star_class f s : matches (RStar (RClass f)) s -> forallb f s = true.
Proof.
  induction s as [|c s IH]; [done|]. intros (s1 & s2 & -> & Hc & Hs)%star_cons. inversion Hc as [|? x Hx| | | | |]; subst.
  simpl. rewrite Hx. by apply IH.
Qed.

Lemma column_text c : re_match column_pattern c = true -> c <> [] /\ forallb column_char c = true.
Proof.
  intros Hc%re_match_spec. inversion Hc as [| |? ? s t Hs Ht| | | |]; subst. inversion Hs as [|? x Hx| | | | |]; subst.
  split; [done|]. simpl. rewrite (star_class _ _ Ht). unfold column_char. by rewrite Hx.
Qed.

Lemma column_char_plain x : column_char x = true -> plain x = true /\ x <> SPACE.
Proof.
  unfold column_char, letter, plain, quotable. simpl.
  rewrite !orb_true_iff, !andb_true_iff, !Z.leb_le, Z.eqb_eq. intros Hx.
  assert (forall y, existsb (Z.eqb y) [BACKSLASH; OPEN; CLOSE; EQUALS; LESS; GREATER; QUOTE; SPACE; COMMA] = true -> x <> y) as Hne.
  { intros y Hy ->. unfold BACKSLASH, OPEN, CLOSE, EQUALS, LESS, GREATER, QUOTE, SPACE, COMMA in Hy. simpl in Hy.
    rewrite !orb_true_iff, !Z.eqb_eq in Hy. lia. }
  split; [|by apply Hne]. rewrite !negb_true_iff, !orb_false_iff, !Z.eqb_neq. split_and!; try done; by apply Hne.
Qed.

Lemma column_plain c : forallb column_char c = true -> forallb plain c = true.
Proof. rewrite !forallb_forall. intros H x Hx. by apply column_char_plain, H. Qed.

Lemma quote_matches v : forallb quotable v = true -> re_match quoted_pattern (quote v) = true.
Proof.
  intros Hv. apply re_match_spec. unfold quoted_pattern, quote.
  apply (m_seq _ _ [QUOTE] (escape v ++ [QUOTE])); [by constructor|]. apply m_seq; [|by constructor].
  induction v as [|c v IH]; simpl in *; [constructor|]. apply andb_true_iff in Hv as [Hc Hv].
  destruct (c =? QUOTE) eqn:Hq.
  - apply (m_star_cons _ [BACKSLASH; QUOTE]); [|by apply IH]. apply m_alt_r, (m_seq _ _ [BACKSLASH] [QUOTE]); [by constructor|].
    apply (m_seq _ _ [QUOTE] []); by constructor.
  - apply (m_star_cons _ [c]); [|by apply IH]. apply m_alt_l. constructor. by rewrite Hq.
Qed.

Lemma unescape_quote v : forallb quotable v = true -> unescape (quote v) = QUOTE :: v ++ [QUOTE].
Proof.
  intros Hv. unfold quote.
  assert (unescape (escape v ++ [QUOTE]) = v ++ [QUOTE]) as Hu.
  { induction v as [|c v IH]; [done|]. simpl in Hv. apply andb_true_iff in Hv as [Hc Hv]. simpl escape.
    destruct (c =? QUOTE) eqn:Hq.
    - apply Z.eqb_eq in Hq as ->. change ((BACKSLASH :: QUOTE :: escape v) ++ [QUOTE]) with (BACKSLASH :: QUOTE :: (escape v ++ [QUOTE])).
      rewrite unescape_cons. change (_ && _) with true. cbn iota. by rewrite IH.
    - assert ((c =? BACKSLASH) = false) as Hb by (unfold quotable in Hc; simpl in Hc; by destruct (c =? BACKSLASH)).
      rewrite <- app_comm_cons. destruct (escape v ++ [QUOTE]) as [|x t] eqn:He; [by destruct (escape v)|].
      rewrite unescape_cons, Hb. cbn [andb]. by rewrite IH. }
  destruct (escape v ++ [QUOTE]) as [|x t] eqn:He; [by destruct (escape v)|].
  rewrite unescape_cons. change (QUOTE =? BACKSLASH) with false. cbn [andb]. by rewrite Hu.
Qed.

Lemma remove_quotes_quote past_end v : ascii_text v -> forallb quotable v = true ->
  remove_quotes past_end (unescape (quote v)) = Ok v.
Proof.
  intros Ha Hv. rewrite unescape_quote by done. unfold remove_quotes.
  assert (utf8_len (QUOTE :: v ++ [QUOTE]) = Z.of_nat (length v) + 2) as ->.
  { rewrite utf8_len_ascii; [simpl; rewrite length_app; simpl; lia|].
    constructor; [done|]. apply Forall_app_2; [done|]. by constructor. }
  destruct (Z.ltb_spec 1 (Z.of_nat (length v) + 2)); [|lia].
  destruct (Z.leb_spec (Z.of_nat (length v) + 2 - 1) (Z.of_nat (length (QUOTE :: v ++ [QUOTE]))));
    [|simpl in *; rewrite length_app in *; simpl in *; lia].
  simpl. f_equal. replace (Z.to_nat (Z.of_nat (length v) + 2 - 1 - 1)) with (length v) by lia. apply take_app_length.
Qed.

Lemma trim_clause x t : x <> SPACE -> trim_spaces (x :: t ++ runes "?") = x :: t ++ runes "?".
Proof.
  intros Hx. unfold trim_spaces. simpl. rewrite (proj2 (Z.eqb_neq x SPACE) Hx).
  change (runes "?") with [63]. rewrite app_comm_cons, reverse_snoc. simpl. by rewrite reverse_cons, reverse_involutive.
Qed.

Lemma parse_step past_end st v l p st' p' :
  Move query_machine (onNewToken past_end) st v p = (Ok st', p') ->
  parse_values past_end st (v :: l) p = parse_values past_end st' l p'.
Proof. intros Hm. simpl. unfold bind, wrap_err. by rewrite Hm. Qed.

(** The three moves of the comparison. *)
Definition with_query (q : DBQuery) (t : text) (vs : list text) : DBQuery :=
  mkDBQuery (q.(Query) ++ t) (q.(Values) ++ vs) q.(ValidColumns) q.(ColumnPrefix).

Ltac one_move := unfold Move; known_states; cbn [next move_to]; known_states; unfold accept; cbn [acceptPattern].

Lemma move_start_column past_end q n b c : re_match column_pattern c = true -> text_lower c ∈ q.(ValidColumns) ->
  Move query_machine (onNewToken past_end) StartState c (mkParse q n b)
  = (Ok column, mkParse (with_query q (prefixed q.(ColumnPrefix) (text_lower c)) []) n b).
Proof.
  intros Hc Hin. one_move. rewrite Hc. unfold bind, with_query. simpl. unfold onNewToken. simpl.
  rewrite bool_decide_true by done. simpl. by rewrite app_nil_r.
Qed.

Lemma move_column_equals past_end q n b :
  Move query_machine (onNewToken past_end) column (runes "=") (mkParse q n b) = (Ok eq_, mkParse (with_query q (runes " =") []) n b).
Proof. one_move. simpl. unfold bind, with_query, onNewToken. simpl. by rewrite app_nil_r. Qed.

Lemma move_equals_quoted past_end q n b v : ascii_text v -> forallb quotable v = true ->
  Move query_machine (onNewToken past_end) eq_ (quote v) (mkParse q n b) = (Ok quotedValue, mkParse (with_query q (runes " ?") [v]) n b).
Proof.
  intros Ha Hv. pose proof (quote_matches v Hv) as Hm. pose proof (remove_quotes_quote past_end v Ha Hv) as Hr.
  revert Hm Hr. generalize (quote v) as t. intros t Hm Hr. one_move. rewrite Hm.
  unfold bind, with_query, onNewToken. simpl. unfold bind, lift. simpl. by rewrite Hr.
Qed.

Lemma parse_comparison past_end cols c txt st v :
  re_match column_pattern c = true -> text_lower c ∈ cols ->
  tokens_of (c ++ runes " = " ++ txt) = [c; runes "="; txt] ->
  (forall q n b, Move query_machine (onNewToken past_end) eq_ txt (mkParse q n b) = (Ok st, mkParse (with_query q (runes " ?") [v]) n b)) ->
  Eof query_machine st = true ->
  fst (Parse past_end (NewQueryParser cols) (c ++ runes " = " ++ txt)) = Ok (mkDBQuery (text_lower c ++ runes " = ?") [v] cols []).
Proof.
  intros Hc Hin Htok Hmove Heof. destruct (column_text c Hc) as [Hne Hcc].
  unfold Parse. rewrite drain_init, parse_tokens_values. fold (tokens_of (c ++ runes " = " ++ txt)). rewrite Htok.
  assert (NewQueryParser cols = mkDBQuery [] [] cols []) as -> by (clear -Hin; by destruct cols; [apply elem_of_nil in Hin|]).
  erewrite parse_step by (apply move_start_column; [exact Hc|exact Hin]). erewrite parse_step by apply move_column_equals.
  erewrite parse_step by apply Hmove. cbn [parse_values]. unfold ret. rewrite Heof. clear Hmove Heof Htok.
  unfold with_query. cbn -[trim_spaces runes]. rewrite <- app_assoc.
  destruct c as [|x t]; [done|]. simpl in Hcc. apply andb_true_iff in Hcc as [Hx _].
  replace (text_lower (x :: t) ++ runes " =" ++ runes " ?") with (text_lower (x :: t) ++ runes " = " ++ runes "?") by done.
  cbn [text_lower map app]. rewrite (app_assoc _ _ (runes "?")).
  rewrite trim_clause; [by rewrite <- app_assoc|]. destruct (column_char_plain x Hx) as [_ Hs].
  unfold SPACE in *. destruct ((65 <=? x) && (x <=? 90)) eqn:Hup; [|done]. rewrite andb_true_iff, !Z.leb_le in Hup. lia.
Qed.

(** A value without quotes is one token, and the value of the clause. *)
Lemma tokens_plain_comparison c v : c <> [] -> forallb plain c = true -> v <> [] -> forallb plain v = true ->
  tokens_of (c ++ runes " = " ++ v) = [c; runes "="; v].
Proof.
  intros Hne Hc Hnv Hv. unfold tokens_of, Init. cbn [sc_tokens NewSQLScanner].
  destruct (scan_text_app 0 c (runes " = " ++ v) (mkScan [] [] NO_TOKEN false false)) as [i Happ]. rewrite Happ. clear Happ.
  destruct (scan_plain_text 0 c (mkScan [] [] NO_TOKEN false false) Hc) as (Hs & Hp & _ & Hq & He); [done|].
  set (s := scan_text 0 c _) in *. simpl in Hp. change (runes " = " ++ v) with ([SPACE; EQUALS; SPACE] ++ v). cbn [app].
  rewrite !scan_text_cons, (scan_space i s), scan_equals, scan_space by done.
  set (s3 := sendCurrentTokens (set_type _ _)). set (i3 := _ + rune_len SPACE).
  destruct (scan_plain_text i3 v s3 Hv) as (Hs3 & Hp3 & _); [done|].
  change (pending_text s3) with (@nil Z) in Hp3. simpl in Hp3.
  rewrite send_values by congruence. rewrite Hs3, Hp3. subst s3. rewrite send_values by done. cbn [push sent set_type].
  rewrite send_values by congruence. by rewrite Hs, Hp.
Qed.

Lemma move_equals_value past_end q n b v : re_match quoted_pattern v = false -> re_match value_pattern v = true ->
  Move query_machine (onNewToken past_end) eq_ v (mkParse q n b) = (Ok value, mkParse (with_query q (runes " ?") [v]) n b).
Proof. intros Hq Hv. one_move. rewrite Hq, Hv. unfold bind, with_query, onNewToken. simpl. done. Qed.

Lemma plain_value_clause past_end cols c v :
  re_match column_pattern c = true -> text_lower c ∈ cols -> v <> [] -> forallb plain v = true ->
  re_match quoted_pattern v = false -> re_match value_pattern v = true ->
  fst (Parse past_end (NewQueryParser cols) (c ++ runes " = " ++ v)) = Ok (mkDBQuery (text_lower c ++ runes " = ?") [v] cols []).
Proof.
  intros Hc Hin Hne Hp Hq Hv. destruct (column_text c Hc) as [Hne' Hcc]. apply (parse_comparison _ _ _ _ value); [done|done| | |].
  - apply tokens_plain_comparison; [done|by apply column_plain|done..].
  - intros q n b. by apply move_equals_value.
  - unfold Eof. known_states. reflexivity.
Qed.

(** Quoting is undone: a comparison of a known column with a quoted value
    parses to the clause with one placeholder and to the value as it was before
    the client escaped its quotes.  The value is ASCII and holds neither
    backslashes nor the signs that the scanner splits at inside quotes. *)
Theorem quoted_value_roundtrip past_end cols c v :
  re_match column_pattern c = true -> text_lower c ∈ cols -> ascii_text v -> forallb quotable v = true ->
  fst (Parse past_end (NewQueryParser cols) (c ++ runes " = " ++ quote v))
  = Ok (mkDBQuery (text_lower c ++ runes " = ?") [v] cols []).
Proof.
  intros Hc Hin Ha Hv. destruct (column_text c Hc) as [Hne Hcc]. apply (parse_comparison _ _ _ _ quotedValue); [done|done| | |].
  - apply tokens_comparison; [done|by apply column_plain|done].
  - intros q n b. by apply move_equals_quoted.
  - unfold Eof. known_states. reflexivity.
Qed.

Lemma quoted_value_roundtrip_witness :
  fst (Parse (fun _ _ => Ok []) (NewQueryParser validColumns) (runes "Name = 'it\'s, ok'"))
  = Ok (mkDBQuery (runes "name = ?") [runes "it's, ok"] validColumns []).
Proof.
  apply (quoted_value_roundtrip (fun _ _ => Ok []) validColumns (runes "Name") (runes "it's, ok")).
  - reflexivity.
  - right. left.
  - repeat constructor; lia.
  - reflexivity.
Defined.

(** Outside those conditions the value is not kept: beyond ASCII the closing
    quote stays, because the bounds of the slice count bytes; and the signs of
    the operators split a quoted value. *)
Example non_ascii_keeps_quote :
  fst (Parse (fun _ _ => Ok []) (NewQueryParser []) (runes "name = " ++ quote [233]))
  = Ok (mkDBQuery (runes "name = ?") [[233; QUOTE]] validColumns []).
Proof. vm_compute. reflexivity. Qed.

Example signs_split_quoted : tokens_of (runes "name = 'a=b'") = map runes ["name"; "="; "'a"; "="; "b'"].
Proof. vm_compute. reflexivity. Qed.

(** ** The loop over the tokens *)

(** A text without the spaces outside quotes. *)
Fixpoint kept (quoted escaped : bool) (txt : text) : text :=
  match txt with
  | [] => []
  | c :: txt' =>
      if c =? SPACE then if quoted then c :: kept quoted escaped txt' else kept quoted escaped txt'
      else if c =? BACKSLASH then c :: kept quoted (quoted || escaped) txt'
      else if c =? QUOTE then c :: kept (if quoted then escaped else true) (if quoted then false else escaped) txt'
      else c :: kept quoted escaped txt'
  end.

Definition scanned (s : scan_state) : text := flat_map Value s.(sent) ++ flat_map Value s.(pending).
Definition solid (s : scan_state) : Prop := Forall (fun t => t.(Value) <> []) s.(sent).

Lemma scanned_send s : scanned (sendCurrentTokens s) = scanned s.
Proof.
  unfold scanned, sendCurrentTokens. simpl. rewrite app_nil_r. destruct (flat_map Value (pending s)) eqn:Hf; [by rewrite app_nil_r|].
  destruct (pending s); [done|]. rewrite flat_map_app. simpl. by rewrite app_nil_r.
Qed.
Lemma scanned_send_unless types s : scanned (send_unless types s) = scanned s.
Proof. unfold send_unless. destruct (existsb _ _); [done|apply scanned_send]. Qed.
Lemma scanned_push ty c i s : scanned (push ty c i s) = scanned s ++ [c].
Proof. unfold scanned. simpl. by rewrite flat_map_app, app_assoc. Qed.
Lemma scanned_send_char ty c i s : scanned (send_char ty c i (sendCurrentTokens s)) = scanned s ++ [c].
Proof. rewrite <- (scanned_send s). unfold scanned. simpl. by rewrite flat_map_app, !app_nil_r. Qed.

Lemma solid_send s : solid s -> solid (sendCurrentTokens s).
Proof.
  unfold solid, sendCurrentTokens. simpl. intros Hs. destruct (flat_map Value (pending s)) eqn:Hf, (pending s); try done.
  apply Forall_app. split; [done|]. by apply Forall_singleton.
Qed.
Lemma solid_send_unless types s : solid s -> solid (send_unless types s).
Proof. unfold send_unless. destruct (existsb _ _); [done|apply solid_send]. Qed.

Lemma send_unless_flags types s : quoted (send_unless types s) = quoted s /\ escaped (send_unless types s) = escaped s.
Proof. unfold send_unless. by destruct (existsb _ _). Qed.

(** One character of the scan: what is kept, and that no token is empty. *)
Lemma scan_char_kept i c s txt :
  solid s ->
  solid (scan_char i c s) /\
  scanned (scan_char i c s) ++ kept (quoted (scan_char i c s)) (escaped (scan_char i c s)) txt =
  scanned s ++ kept (quoted s) (escaped s) (c :: txt).
Proof.
  intros Hs. unfold scan_char. cbn [kept].
  assert (forall ty types, solid (send_unless types s) /\ scanned (push ty c i (send_unless types s)) = scanned s ++ [c]) as Hpu
    by (intros ty types; split; [by apply solid_send_unless|by rewrite scanned_push, scanned_send_unless]).
  destruct (c =? SPACE) eqn:Hsp.
  { destruct (quoted s) eqn:Hq; simpl; rewrite Hq.
    - split; [done|]. by rewrite scanned_push, <- app_assoc.
    - split; [by apply solid_send|]. by rewrite scanned_send. }
  destruct (c =? COMMA) eqn:Hco.
  { assert ((c =? BACKSLASH) = false /\ (c =? QUOTE) = false) as [-> ->] by (unfold COMMA, BACKSLASH, QUOTE in *; lia).
    destruct (quoted s) eqn:Hq; simpl; rewrite Hq; rewrite ?scanned_push, ?scanned_send_char, <- app_assoc; (split; [|done]); [done|].
    apply Forall_app. split; [by apply solid_send|by apply Forall_singleton]. }
  destruct ((c =? OPEN) || (c =? CLOSE)) eqn:Hbr.
  { assert ((c =? BACKSLASH) = false /\ (c =? QUOTE) = false) as [-> ->] by (unfold OPEN, CLOSE, BACKSLASH, QUOTE in *; lia).
    rewrite scanned_send_char, <- app_assoc. split; [|done]. apply Forall_app. split; [by apply solid_send|by apply Forall_singleton]. }
  destruct (send_unless_flags [NO_TOKEN; OP] s) as [Hq1 He1], (send_unless_flags [NO_TOKEN; LITERAL; QUOTED_LITERAL] s) as [Hq2 He2].
  destruct ((c =? EQUALS) || (c =? LESS) || (c =? GREATER)) eqn:Hop.
  { assert ((c =? BACKSLASH) = false /\ (c =? QUOTE) = false) as [-> ->] by (unfold EQUALS, LESS, GREATER, BACKSLASH, QUOTE in *; lia).
    simpl. rewrite Hq1, He1. destruct (Hpu OP [NO_TOKEN; OP]) as [Hso Hsc]. split; [exact Hso|].
    change (scanned (set_type OP ?x)) with (scanned x). by rewrite Hsc, <- app_assoc. }
  destruct (c =? BACKSLASH) eqn:Hbs.
  { destruct (quoted s) eqn:Hq; simpl.
    - rewrite Hq. split; [done|]. by rewrite scanned_push, <- app_assoc.
    - rewrite Hq2, He2. destruct (Hpu LITERAL [NO_TOKEN; LITERAL; QUOTED_LITERAL]) as [Hso Hsc]. split; [exact Hso|].
      change (scanned (push LITERAL c i (set_type LITERAL ?x))) with (scanned (push LITERAL c i x)). by rewrite Hsc, <- app_assoc. }
  destruct (c =? QUOTE) eqn:Hqu.
  { destruct (quoted s) eqn:Hq; simpl.
    - destruct (escaped s) eqn:He; simpl.
      + rewrite Hq. split; [done|]. change (scanned (set_escaped false ?x)) with (scanned x). by rewrite scanned_push, <- app_assoc.
      + split; [by apply (solid_send (push QUOTED_LITERAL c i s))|].
        change (scanned (set_escaped false (set_type NO_TOKEN (set_quoted false ?x)))) with (scanned x).
        by rewrite scanned_send, scanned_push, <- app_assoc.
    - split; [by apply solid_send|]. rewrite scanned_push.
      change (scanned (set_type QUOTED_LITERAL (set_quoted true ?x))) with (scanned x). by rewrite scanned_send, <- app_assoc. }
  simpl. rewrite Hq2, He2. destruct (Hpu LITERAL [NO_TOKEN; LITERAL; QUOTED_LITERAL]) as [Hso Hsc]. split; [exact Hso|].
  change (scanned (push LITERAL c i (set_type LITERAL ?x))) with (scanned (push LITERAL c i x)). by rewrite Hsc, <- app_assoc.
Qed.

Lemma scan_text_kept i txt s : solid s ->
  solid (scan_text i txt s) /\ scanned (scan_text i txt s) = scanned s ++ kept (quoted s) (escaped s) txt.
Proof.
  revert i s. induction txt as [|c txt IH]; intros i s Hs; [by rewrite app_nil_r|]. cbn [scan_text].
  destruct (scan_char_kept i c s txt Hs) as [Hs' Hk]. destruct (IH (i + rune_len c) _ Hs') as [Hs'' ->]. by split.
Qed.

Lemma kept_length q e txt : (length (kept q e txt) <= length txt)%nat.
Proof. revert q e. induction txt as [|c txt IH]; intros q e; simpl; [lia|]. repeat case_match; simpl; eauto using le_n_S, Nat.le_le_succ_r. Qed.

Lemma solid_length (l : list Token) : Forall (fun t => t.(Value) <> []) l -> (length l <= length (flat_map Value l))%nat.
Proof. induction 1 as [|t l Ht Hl IH]; simpl; [lia|]. rewrite length_app. destruct (Value t); [done|]. simpl. lia. Qed.

Lemma Init_kept sql :
  Forall (fun t => t.(Value) <> []) (Init NewSQLScanner sql).(sc_tokens) /\ flat_map Value (Init NewSQLScanner sql).(sc_tokens) = kept false false sql.
Proof.
  destruct (scan_text_kept 0 sql (mkScan [] [] NO_TOKEN false false)) as [Hs Hk]; [by constructor|].
  split; [by apply solid_send|]. pose proof (scanned_send (scan_text 0 sql (mkScan [] [] NO_TOKEN false false))) as Hn.
  rewrite Hk in Hn. unfold scanned in Hn. simpl in Hn. by rewrite app_nil_r in Hn.
Qed.

(** The loop of the parser over the tokens of a search ends after at most as
    many rounds as the text has characters, plus one, without a panic of the
    scanner, and the tokens it visits are the text without the spaces outside
    quotes: nothing else is lost or added. *)
Theorem token_loop_terminates sql fuel :
  (length sql < fuel)%nat ->
  exists tokens, drain fuel (Init NewSQLScanner sql) = Some tokens /\ flat_map Value tokens = kept false false sql.
Proof.
  intros Hf. destruct (Init_kept sql) as [Hso Hk]. exists (Init NewSQLScanner sql).(sc_tokens). split; [|exact Hk].
  destruct fuel as [|fuel]; [lia|]. apply (drain_spec _ fuel 0); [|lia].
  pose proof (solid_length _ Hso) as Hl. rewrite Hk in Hl.
  etransitivity; [exact Hl|]. etransitivity; [apply kept_length|lia].
Qed.

Lemma token_loop_terminates_witness :
  exists tokens, drain 20 (Init NewSQLScanner (runes "name = 'it is ok'")) = Some tokens /\
    flat_map Value tokens = runes "name='it is ok'".
Proof. apply (token_loop_terminates (runes "name = 'it is ok'") 20). simpl. lia. Defined.
