(* ===== verification/Listing.v ===== *)
(** * Listing Kafkas

    The arguments of a listing ([src/pkg/services/types.go]), the page that
    [kafkaService.List] returns ([src/internal/kafka/internal/services/kafka.go])
    and the handler in front of it
    ([src/internal/kafka/internal/handlers/kafka.go]).

    The text of a search is a Go string; its runes are what ranging over it
    yields.  PostgreSQL's evaluation of the clause and of [ORDER BY], and the
    [LIMIT] and [OFFSET] that gorm writes only when they are positive, are the
    class [ListQueries]. *)
From stdpp Require Import sorting.
From S2P Require Import Prelude Arrays Errors Status Config Model Store Resources Providers Fixtures ClusterService Placement KafkaService Scanner StateMachine QueryParser.

(** ** Strings *)

(** [strings.Trim(s, " ")]. *)
Fixpoint trim_front_spaces (s : string) : string :=
  match s with
  | String c s' => if Ascii.eqb c " " then trim_front_spaces s' else s
  | EmptyString => EmptyString
  end.
Fixpoint trim_back_spaces (s : string) : string :=
  match s with
  | EmptyString => EmptyString
  | String c s' =>
      match trim_back_spaces s' with
      | EmptyString => if Ascii.eqb c " " then EmptyString else String c EmptyString
      | s'' => String c s''
      end
  end.
Definition Trim (s : string) : string := trim_back_spaces (trim_front_spaces s).

(** The class [\s] of Go's regular expressions. *)
Definition re_space (c : ascii) : bool :=
  let n := N_of_ascii c in ((n =? 9) || (n =? 10) || (n =? 12) || (n =? 13) || (n =? 32))%N.

(** [ReplaceAllString(s, " ")] for the expression [\s+]; [pending] tells that
    the run of white space before [s] has been written. *)
Fixpoint collapse_spaces (pending : bool) (s : string) : string :=
  match s with
  | EmptyString => EmptyString
  | String c s' =>
      if re_space c then (if pending then collapse_spaces true s' else String " " (collapse_spaces true s'))
      else String c (collapse_spaces false s')
  end.

(** [strconv.Atoi]: a number out of range is replaced by the nearest one, what
    is no number by 0; the callers ignore the error. *)
Fixpoint parse_uint (n : Z) (s : string) : option Z :=
  match s with
  | EmptyString => Some n
  | String c s' =>
      let d := Z.of_N (N_of_ascii c) - 48 in
      if (0 <=? d) && (d <=? 9)
      then (if 2 ^ 64 <=? n * 10 + d then Some (2 ^ 64 - 1) else parse_uint (n * 10 + d) s')
      else None
  end.
Definition unsigned (s : string) : option Z := match s with EmptyString => None | _ => parse_uint 0 s end.
Definition Atoi (s : string) : Z :=
  let '(neg, digits) := match s with
                        | String c s' => if Ascii.eqb c "-" then (true, s') else if Ascii.eqb c "+" then (false, s') else (false, s)
                        | EmptyString => (false, s)
                        end in
  match unsigned digits with
  | None => 0
  | Some n => if neg then Z.max (- 2 ^ 63) (- n) else Z.min (2 ^ 63 - 1) n
  end.

(** The runes of a Go string: a byte that starts no encoded rune is read as the
    replacement character. *)
Definition RuneError : Z := 65533.
Definition in_range (lo hi b : Z) : bool := (lo <=? b) && (b <=? hi).
Definition cont (b : Z) : bool := in_range 128 191 b.
Definition second_of_3 (b0 b1 : Z) : bool :=
  if b0 =? 224 then in_range 160 191 b1 else if b0 =? 237 then in_range 128 159 b1 else cont b1.
Definition second_of_4 (b0 b1 : Z) : bool :=
  if b0 =? 240 then in_range 144 191 b1 else if b0 =? 244 then in_range 128 143 b1 else cont b1.

Fixpoint decode (bs : list Z) : text :=
  match bs with
  | [] => []
  | b0 :: l1 =>
      if b0 <? 128 then b0 :: decode l1
      else if in_range 194 223 b0 then
        match l1 with
        | b1 :: l2 => if cont b1 then ((b0 - 192) * 64 + (b1 - 128)) :: decode l2 else RuneError :: decode l1
        | _ => RuneError :: decode l1
        end
      else if in_range 224 239 b0 then
        match l1 with
        | b1 :: b2 :: l3 =>
            if second_of_3 b0 b1 && cont b2 then ((b0 - 224) * 4096 + (b1 - 128) * 64 + (b2 - 128)) :: decode l3
            else RuneError :: decode l1
        | _ => RuneError :: decode l1
        end
      else if in_range 240 244 b0 then
        match l1 with
        | b1 :: b2 :: b3 :: l4 =>
            if second_of_4 b0 b1 && cont b2 && cont b3
            then ((b0 - 240) * 262144 + (b1 - 128) * 4096 + (b2 - 128) * 64 + (b3 - 128)) :: decode l4
            else RuneError :: decode l1
        | _ => RuneError :: decode l1
        end
      else RuneError :: decode l1
  end.
Definition runes_of (s : string) : text := decode (runes s).

(** ** The arguments *)
Record ListArguments := mkListArguments {
  LA_Page : Z;
  LA_Size : Z;
  LA_Preloads : list string;
  LA_Search : string;
  LA_OrderBy : list string
}.

(** [params.Get]: the first value of a parameter, or nothing. *)
Definition NewListArguments (params : string -> string) : ListArguments :=
  let page := if params "page" =?s "" then 1 else Atoi (params "page") in
  let size := if params "size" =?s "" then 100 else Atoi (params "size") in
  let size := if (65500 <? size) || (size <? 0) then 65500 else size in
  let orderBy := if params "orderBy" =?s "" then [] else map Trim (Split (params "orderBy") ",") in
  mkListArguments page size [] (params "search") orderBy.

Definition validate_clause (acceptedOrderByParams : list string) (orderByClause : string) : result error unit :=
  let keywords := Split (collapse_spaces false (ToLower orderByClause)) " " in
  if (2 <? length keywords)%nat then Err (EPlain "invalid order by clause '%s'")
  else if negb (Contains acceptedOrderByParams (default "" (head keywords))) then Err (EPlain "unknown order by field '%s'")
  else match keywords with
       | [_; direction] =>
           if negb (direction =?s "asc") && negb (direction =?s "desc") then Err (EPlain "invalid order by direction '%s'") else Ok tt
       | _ => Ok tt
       end.

Fixpoint validate_clauses (acceptedOrderByParams clauses : list string) : result error unit :=
  match clauses with
  | [] => Ok tt
  | c :: rest => _ <-! validate_clause acceptedOrderByParams c ;; validate_clauses acceptedOrderByParams rest
  end.

Definition ListArguments_Validate (la : ListArguments) (acceptedOrderByParams : list string) : result error unit :=
  if la.(LA_Page) <? 0 then Err (EPlain "page must be equal or greater than 0")
  else if la.(LA_Size) <? 1 then Err (EPlain "size must be equal or greater than 1")
  else validate_clauses acceptedOrderByParams la.(LA_OrderBy).

(** ** The page *)
Record PagingMeta := mkPagingMeta { PM_Page : Z; PM_Size : Z; PM_Total : Z }.

Definition page_of {A} (offset limit : Z) (rows : list A) : list A :=
  let rows := if 0 <? offset then drop (Z.to_nat offset) rows else rows in
  if 0 <? limit then take (Z.to_nat limit) rows else rows.

Class ListQueries (W : Type) `{Database W} := {
  (** The value of a search clause on a row. *)
  where_holds : DBQuery -> KafkaRequest -> bool;
  (** The order of an [ORDER BY] list. *)
  order_le : list string -> KafkaRequest -> KafkaRequest -> Prop;
  find_page : (KafkaRequest -> bool) -> list string -> Z -> Z -> M W error (list KafkaRequest);
  find_page_ro : forall p orderBy offset limit, read_only (find_page p orderBy offset limit);
  find_page_ok : forall p orderBy offset limit w l w', find_page p orderBy offset limit w = (Ok l, w') ->
    exists rows, rows ≡ₚ List.filter p (tables_of w).(kafkas) /\ Sorted.StronglySorted (order_le orderBy) rows /\
      l = page_of offset limit rows
}.
#[export] Hint Resolve find_page_ro : fleet.

Section List.
Context {W : Type} `{Database W} `{!ListQueries W} (past_end : text -> Z -> result error text).

Definition search_condition (search : string) : result ServiceError (KafkaRequest -> bool) :=
  if search =?s "" then Ok (fun _ => true)
  else match fst (Parse past_end (NewQueryParser []) (runes_of search)) with
       | Err err => Err (NewWithCause ErrorFailedToParseSearch (Some err) "unable to list kafka requests: %s")
       | Ok searchDbQuery => Ok (where_holds searchDbQuery)
       end.

Definition list_order (listArgs : ListArguments) : list string :=
  match listArgs.(LA_OrderBy) with [] => ["name"] | l => l end.

(** An error of the count stays in the query, whose next use reports it. *)
Definition Kafka_List (ctx : AuthContext) (listArgs : ListArguments) : M W ServiceError (list KafkaRequest * PagingMeta) :=
  claims <~ lift (map_err (fun e => NewWithCause ErrorUnauthenticated (Some e) "user not authenticated") ctx.(ctx_claims)) ;;
  if negb ctx.(ctx_is_admin) && (claims.(Username) =?s "") then throw (Unauthenticated "user not authenticated")
  else
    searched <~ lift (search_condition listArgs.(LA_Search)) ;;
    let p := fun k => visible ctx claims k && searched k in
    total <~ wrap_err (general "unable to list kafka requests") (exec (CountKafkas p)) ;;
    let size := if total <? listArgs.(LA_Size) then total else listArgs.(LA_Size) in
    l <~ wrap_err (general "unable to list kafka requests")
           (find_page p (list_order listArgs) (int64 ((listArgs.(LA_Page) - 1) * size)) size) ;;
    ret (l, mkPagingMeta listArgs.(LA_Page) size total).

(** ** The handler *)
Definition GetAcceptedOrderByParams : list string :=
  ["bootstrap_server_host"; "cloud_provider"; "cluster_id"; "created_at"; "href"; "id"; "instance_type"; "multi_az"; "name";
   "organisation_id"; "owner"; "reauthentication_enabled"; "region"; "status"; "updated_at"; "version"].

(** The rows and the paging data that are then presented. *)
Definition kafkaHandler_List (ctx : AuthContext) (query : string -> string) : M W ServiceError (list KafkaRequest * PagingMeta) :=
  let listArgs := NewListArguments query in
  _ <~ lift (map_err (fun err => NewWithCause ErrorMalformedRequest (Some err) "unable to list kafka requests: %s")
               (ListArguments_Validate listArgs GetAcceptedOrderByParams)) ;;
  found <~ Kafka_List ctx listArgs ;;
  let '(kafkaRequests, paging) := found in
  ret (kafkaRequests, mkPagingMeta (int32 paging.(PM_Page)) (int32 paging.(PM_Size)) (int32 paging.(PM_Total))).
End List.

(** ** Order-by clauses *)
Fixpoint all_chars (p : ascii -> bool) (s : string) : bool :=
  match s with EmptyString => true | String c s' => p c && all_chars p s' end.
Definition no_space : string -> bool := all_chars (fun c => negb (re_space c)).

(** A column, and perhaps white space and a direction, in any case. *)
Definition order_clause (accepted : list string) (c : string) : Prop :=
  exists col, ToLower col ∈ accepted /\
    (c = col \/ exists ws dir, c = col +:+ ws +:+ dir /\ ws <> "" /\ all_chars re_space ws = true /\ ToLower dir ∈ ["asc"; "desc"]).

Lemma lower_byte_space c : re_space (lower_byte c) = re_space c.
Proof. by destruct c as [[] [] [] [] [] [] [] []]. Qed.

Lemma re_space_blank c : re_space c = false -> Ascii.eqb c " " = false.
Proof. intros Hc. apply Ascii.eqb_neq. by intros ->. Qed.

Lemma no_space_lower s : no_space (ToLower s) = no_space s.
Proof. induction s as [|c s IH]; simpl; [done|]. unfold no_space in *. simpl. by rewrite lower_byte_space, IH. Qed.

Lemma ToLower_app a b : ToLower (a +:+ b) = ToLower a +:+ ToLower b.
Proof. induction a as [|c a IH]; simpl; [done|]. by rewrite IH. Qed.

(** A text without white space at its front, and the rest. *)
Lemma span_no_space s : exists w r, s = w +:+ r /\ no_space w = true /\ (r = "" \/ exists c r', r = String c r' /\ re_space c = true).
Proof.
  induction s as [|c s (w & r & -> & Hw & Hr)]; [exists "", ""; by auto|].
  destruct (re_space c) eqn:Hc; [exists "", (String c (w +:+ r)); split_and!; [done..|right; by eexists _, _]|].
  exists (String c w), r. split_and!; [done| |done]. unfold no_space in *. simpl. by rewrite Hc.
Qed.

Lemma span_space s : exists ws r, s = ws +:+ r /\ all_chars re_space ws = true /\ (r = "" \/ exists c r', r = String c r' /\ re_space c = false).
Proof.
  induction s as [|c s (w & r & -> & Hw & Hr)]; [exists "", ""; by auto|].
  destruct (re_space c) eqn:Hc; [|exists "", (String c (w +:+ r)); split_and!; [done..|right; by eexists _, _]].
  exists (String c w), r. split_and!; [done| |done]. simpl. by rewrite Hc.
Qed.

Lemma collapse_no_space b w r : no_space w = true -> w <> "" -> collapse_spaces b (w +:+ r) = w +:+ collapse_spaces false r.
Proof.
  revert b. induction w as [|c w IH]; intros b Hw Hne; [done|]. unfold no_space in Hw. simpl in *. apply andb_true_iff in Hw as [Hc Hw].
  apply negb_true_iff in Hc. rewrite Hc.
  change (String c (collapse_spaces false (w +:+ r)) = String c (w +:+ collapse_spaces false r)). f_equal. destruct w; [done|]. by apply IH.
Qed.

Lemma collapse_run ws r : all_chars re_space ws = true -> collapse_spaces true (ws +:+ r) = collapse_spaces true r.
Proof. induction ws as [|c ws IH]; simpl; [done|]. intros [-> Hws]%andb_true_iff. by apply IH. Qed.

Lemma collapse_true_start r : (r = "" \/ exists c r', r = String c r' /\ re_space c = false) -> collapse_spaces true r = collapse_spaces false r.
Proof. intros [->|(c & r' & -> & Hc)]; [done|]. simpl. by rewrite Hc. Qed.

Lemma Split_word w : no_space w = true -> Split w " " = [w].
Proof.
  induction w as [|c w IH]; [done|]. unfold no_space. simpl. intros [Hc%negb_true_iff%re_space_blank Hw]%andb_true_iff.
  rewrite Hc. by rewrite IH.
Qed.

Lemma Split_word_then w r : no_space w = true -> Split (w +:+ String " " r) " " = w :: Split r " ".
Proof.
  induction w as [|c w IH]; [done|]. unfold no_space. simpl. intros [Hc%negb_true_iff%re_space_blank Hw]%andb_true_iff.
  rewrite Hc. by rewrite IH.
Qed.

Lemma collapse_word b w : no_space w = true -> collapse_spaces b w = w.
Proof.
  revert b. induction w as [|c w IH]; intros b; [done|]. unfold no_space. simpl. intros [Hc%negb_true_iff Hw]%andb_true_iff. rewrite Hc. by rewrite IH.
Qed.

Lemma string_app_nil_r s : s +:+ "" = s.
Proof. induction s as [|c s IH]; [done|]. change (String c (s +:+ "") = String c s). by rewrite IH. Qed.

Lemma collapse_front w r : no_space w = true -> collapse_spaces false (w +:+ r) = w +:+ collapse_spaces false r.
Proof. destruct w as [|c w]; [done|]. intros Hw. by apply collapse_no_space. Qed.

Lemma collapse_lower b s : collapse_spaces b (ToLower s) = ToLower (collapse_spaces b s).
Proof. revert b. induction s as [|c s IH]; intros b; simpl; [done|]. rewrite lower_byte_space. destruct (re_space c), b; simpl; by rewrite IH. Qed.

Lemma lower_byte_blank c : Ascii.eqb (lower_byte c) " " = Ascii.eqb c " ".
Proof. by destruct c as [[] [] [] [] [] [] [] []]. Qed.

Lemma Split_lower s : Split (ToLower s) " " = map ToLower (Split s " ").
Proof.
  induction s as [|c s IH]; simpl; [done|]. rewrite lower_byte_blank, IH. destruct (Ascii.eqb c " "); [done|]. by destruct (Split s " ").
Qed.

(** The parts of a clause: one word, or a word before white space. *)
Lemma clause_parts s :
  (no_space s = true /\ Split (collapse_spaces false s) " " = [s]) \/
  (exists w ws r, s = w +:+ ws +:+ r /\ ws <> "" /\ all_chars re_space ws = true /\
     Split (collapse_spaces false s) " " = w :: Split (collapse_spaces false r) " ").
Proof.
  destruct (span_no_space s) as (w & r & -> & Hw & Hr). rewrite collapse_front by done. destruct Hr as [->|(c & r' & -> & Hc)].
  - left. simpl. rewrite string_app_nil_r. split; [done|by apply Split_word].
  - right. destruct (span_space r') as (ws & r & -> & Hws & Hr). exists w, (String c ws), r. simpl. rewrite Hc.
    split_and!; [done..|]. by rewrite Split_word_then, collapse_run, collapse_true_start.
Qed.

(** The clauses that pass are those of the form [order_clause]. *)
Lemma validate_clause_iff accepted c :
  Forall (fun a => no_space a = true) accepted -> validate_clause accepted c = Ok tt <-> order_clause accepted c.
Proof.
  intros Hacc. rewrite Forall_forall in Hacc. unfold validate_clause. rewrite collapse_lower, Split_lower, length_map. split.
  - destruct (clause_parts c) as [[_ ->]|(w & ws & r & -> & Hne & Hws & ->)]; simpl.
    + destruct (Contains accepted _) eqn:Hc; [|done]. intros _. exists c. split; [by apply Contains_true|by left].
    + pose proof (Split_not_nil (collapse_spaces false r) " "). destruct (clause_parts r) as [[_ ->]|(w' & ws' & r' & _ & _ & _ & ->)]; simpl.
      * destruct (Contains accepted _) eqn:Hc; [|done]. simpl. destruct (ToLower r =?s "asc") eqn:Ha; simpl.
        { intros _. exists w. split; [by apply Contains_true|]. right. exists ws, r. apply String.eqb_eq in Ha. rewrite Ha. split_and!; [done..|left]. }
        destruct (ToLower r =?s "desc") eqn:Hd; [|done]. intros _. exists w. split; [by apply Contains_true|]. right. exists ws, r.
        apply String.eqb_eq in Hd. rewrite Hd. split_and!; [done..|right; left].
      * pose proof (Split_not_nil (collapse_spaces false r') " "). by destruct (Split (collapse_spaces false r') " ").
  - intros (col & Hcol & Hc). pose proof (Hacc _ Hcol) as Hns. rewrite no_space_lower in Hns. apply Contains_true in Hcol.
    destruct Hc as [->|(ws & dir & -> & Hne & Hws & Hdir)].
    + rewrite <- (string_app_nil_r col), collapse_front by done. simpl. rewrite string_app_nil_r, Split_word by done. simpl. by rewrite Hcol.
    + destruct ws as [|s ws]; [done|]. simpl in Hws. apply andb_true_iff in Hws as [Hs Hws].
      assert (no_space dir = true) as Hnd by (rewrite <- no_space_lower; by repeat (apply elem_of_cons in Hdir as [->|Hdir]; [done|]); set_solver).
      rewrite collapse_front by done. simpl. rewrite Hs, Split_word_then, collapse_run by done.
      rewrite collapse_word, Split_word by done. simpl. rewrite Hcol. simpl.
      by repeat (apply elem_of_cons in Hdir as [->|Hdir]; [done|]); set_solver.
Qed.

Lemma validate_clauses_ok accepted clauses :
  validate_clauses accepted clauses = Ok tt <-> Forall (fun c => validate_clause accepted c = Ok tt) clauses.
Proof.
  induction clauses as [|c clauses IH]; simpl; [done|]. rewrite Forall_cons, <- IH.
  destruct (validate_clause accepted c) as [[]|]; simpl; naive_solver.
Qed.

(** ** Pages *)
Lemma drop_take_pages {A} (s n : nat) (rows : list A) :
  concat (map (fun i => take s (drop (i * s) rows)) (seq 0 n)) = take (n * s) rows.
Proof.
  induction n as [|n IH]; [by destruct rows|]. rewrite seq_S, map_app, concat_app, IH. simpl. rewrite app_nil_r.
  rewrite (Nat.add_comm s), <- take_take_drop. done.
Qed.

Section ListFacts.
Context {W : Type} `{Database W} `{!ListQueries W} (past_end : text -> Z -> result error text).

(** The rows that a listing is about. *)
Definition listed (ctx : AuthContext) (claims : Claims) (searched : KafkaRequest -> bool) (db : tables) : list KafkaRequest :=
  List.filter (fun k => visible ctx claims k && searched k) db.(kafkas).

Lemma Kafka_List_ok ctx args w l m w' :
  Kafka_List past_end ctx args w = (Ok (l, m), w') ->
  exists claims searched rows,
    ctx.(ctx_claims) = Ok claims /\ (ctx.(ctx_is_admin) = false -> claims.(Username) <> "") /\
    search_condition past_end args.(LA_Search) = Ok searched /\
    rows ≡ₚ listed ctx claims searched (tables_of w) /\ Sorted.StronglySorted (order_le (list_order args)) rows /\
    m = mkPagingMeta args.(LA_Page) (Z.min args.(LA_Size) (Z.of_nat (length rows))) (Z.of_nat (length rows)) /\
    l = page_of (int64 ((args.(LA_Page) - 1) * m.(PM_Size))) m.(PM_Size) rows.
Proof.
  intros Hr. unfold Kafka_List in Hr. repeat (run_ok Hr). destruct (ctx_claims ctx) as [claims|]; [|done]. injection Hrun as ->.
  apply exec_ok in Hrun1 as [-> Ht]. apply find_page_ok in Hrun2 as (rows & Hp & Hs & ->). rewrite Ht in Hp.
  pose proof (Permutation_length Hp) as Hlen. exists a, a0, rows. unfold listed. rewrite <- Hlen. split_and!; try done.
  - intros Hadm. rewrite Hadm in Heqb. by apply String.eqb_neq in Heqb.
  - f_equal. destruct (Z.ltb_spec (Z.of_nat (length rows)) (LA_Size args)); lia.
Qed.

Definition at_page (args : ListArguments) (page : Z) : ListArguments :=
  mkListArguments page args.(LA_Size) args.(LA_Preloads) args.(LA_Search) args.(LA_OrderBy).

Lemma page_of_take {A} (page : nat) (size : Z) (rows : list A) :
  0 <= size -> (size = 0 -> rows = []) -> Z.of_nat page * size < 2 ^ 63 ->
  page_of (int64 (Z.of_nat page * size)) size rows = take (Z.to_nat size) (drop (page * Z.to_nat size) rows).
Proof.
  intros Hs H0 Hb. rewrite int64_id by (unfold in_int64; nia). unfold page_of.
  destruct (Z.ltb_spec 0 size) as [Hpos|Hnp]; [|rewrite H0, !drop_nil by lia; destruct (_ <? _); by rewrite ?take_nil].
  destruct (Z.ltb_spec 0 (Z.of_nat page * size)) as [Ho|Ho]; [do 2 f_equal; lia|]. assert (page = 0%nat) as -> by nia. done.
Qed.

(** One page, given the rows in their order. *)
Lemma one_page ctx args claims searched rows page w l m w' :
  Kafka_List past_end ctx (at_page args (Z.of_nat page + 1)) w = (Ok (l, m), w') ->
  ctx.(ctx_claims) = Ok claims -> search_condition past_end args.(LA_Search) = Ok searched ->
  1 <= args.(LA_Size) -> Z.of_nat page * args.(LA_Size) < 2 ^ 63 ->
  (forall a b, a ∈ rows -> b ∈ rows -> order_le (list_order args) a b -> order_le (list_order args) b a -> a = b) ->
  rows ≡ₚ listed ctx claims searched (tables_of w) -> Sorted.StronglySorted (order_le (list_order args)) rows ->
  let size := Z.to_nat (Z.min args.(LA_Size) (Z.of_nat (length rows))) in
  l = take size (drop (page * size) rows).
Proof.
  intros Hr Hcl Hse Hsz Hb Hanti Hp Hsort size. apply Kafka_List_ok in Hr as (claims' & searched' & rows' & Hcl' & _ & Hse' & Hp' & Hsort' & -> & ->).
  change (LA_Search (at_page args (Z.of_nat page + 1))) with (LA_Search args) in Hse'. rewrite Hse in Hse'. injection Hse' as <-. rewrite Hcl in Hcl'. injection Hcl' as <-. assert (rows' = rows) as ->.
  { eapply StronglySorted_unique_strong; [|exact Hsort'|exact Hsort|by rewrite Hp', Hp]. intros x y Hx Hy. apply Hanti; [|done].
    by rewrite Hp, <- Hp'. }
  simpl. rewrite Z.add_simpl_r. apply page_of_take; [lia|intros ?; apply length_zero_iff_nil; lia|nia].
Qed.

Lemma concat_pages {A} (rows : list A) size n :
  1 <= size -> Z.of_nat (length rows) <= Z.of_nat n * size ->
  let s := Z.to_nat (Z.min size (Z.of_nat (length rows))) in
  concat (map (fun i => take s (drop (i * s) rows)) (seq 0 n)) = rows.
Proof. intros Hs Hn s. rewrite drop_take_pages. apply take_ge. subst s. destruct n; nia. Qed.
End ListFacts.

(** The queries on the tables in memory; every order is the one by creation. *)
Module ListExample.
Definition created_le (a b : KafkaRequest) : Prop := a.(KR.CreatedAt) <= b.(KR.CreatedAt).
#[global] Instance created_le_dec : RelDecision created_le := fun a b => Z_le_dec a.(KR.CreatedAt) b.(KR.CreatedAt).
#[global] Instance created_le_total : Total created_le.
Proof. intros a b. unfold created_le. lia. Qed.
#[global] Instance created_le_trans : Transitive created_le.
Proof. intros a b c. unfold created_le. lia. Qed.

Definition name_is (q : DBQuery) (k : KafkaRequest) : bool := bool_decide (q.(Values) = [runes k.(KR.Name)]).

#[global] Instance queries {X} : ListQueries (MemDB.world X).
Proof.
  refine {| where_holds := name_is; order_le := fun _ => created_le;
            find_page := fun p _ offset limit w =>
              let '(r, w') := exec (SelectKafkas p) w in
              (match r with Ok l => Ok (page_of offset limit (merge_sort created_le l)) | Err e => Err e end, w') |}.
  - intros p _ offset limit w. pose proof (select_kafkas_ro p w) as Hro. destruct (exec _ w) as [[l|e] w']; done.
  - intros p _ offset limit w l w' Hr. destruct (exec _ w) as [[l0|e] w0] eqn:He; [|done]. injection Hr as <- <-.
    apply exec_ok in He as [Hp _]. exists (merge_sort created_le l0). split_and!; [by rewrite merge_sort_Permutation| |done].
    apply (StronglySorted_merge_sort created_le).
Defined.

Definition kafka_at (id : string) (t : Z) : KafkaRequest := Fixtures.k1 <| KR.ID := id |> <| KR.CreatedAt := t |>.
Definition world : MemDB.world unit :=
  MemDB.mkWorld (mkTables [kafka_at "b" 20; kafka_at "a" 10; (kafka_at "x" 15) <| KR.OrganisationId := "org-2" |>; kafka_at "c" 30] []) 1000 [] tt.
Definition args : ListArguments := mkListArguments 1 2 [] "" ["created_at asc"].
End ListExample.

(** ** Properties *)

(** [C38] The pages of a listing, taken one after the other on the same tables,
    hold every Kafka that the caller may see and that matches the search,
    exactly once and in the requested order, provided that the order has no ties
    and that the pages reach the end; no page holds anything else. *)
Theorem listing_pages_complete {W} `{Database W} `{!ListQueries W} past_end ctx args claims searched db n (pages : list (list KafkaRequest)) :
  Forall2 (fun page l => exists m (w w' : W), tables_of w = db /\
             Kafka_List past_end ctx (at_page args (Z.of_nat page + 1)) w = (Ok (l, m), w')) (seq 0 n) pages ->
  ctx.(ctx_claims) = Ok claims -> search_condition past_end args.(LA_Search) = Ok searched ->
  1 <= args.(LA_Size) -> Z.of_nat n * args.(LA_Size) < 2 ^ 63 ->
  Z.of_nat (length (listed ctx claims searched db)) <= Z.of_nat n * args.(LA_Size) ->
  (forall a b, a ∈ listed ctx claims searched db -> b ∈ listed ctx claims searched db ->
     order_le (list_order args) a b -> order_le (list_order args) b a -> a = b) ->
  concat pages ≡ₚ listed ctx claims searched db /\ Sorted.StronglySorted (order_le (list_order args)) (concat pages).
Proof.
  intros Hpages Hcl Hse Hsz Hb Hn Hanti. destruct n as [|n].
  { inversion Hpages. simpl. destruct (listed ctx claims searched db); [split; [done|constructor]|simpl in Hn; lia]. }
  assert (exists rows, rows ≡ₚ listed ctx claims searched db /\ Sorted.StronglySorted (order_le (list_order args)) rows) as (rows & Hp & Hsort).
  { inversion Hpages as [|? ? ? ? (m & w & w' & <- & Hr) _]. apply Kafka_List_ok in Hr as (c & q & rows & Hc & _ & Hq & Hp & Hs & _ & _).
    rewrite Hcl in Hc. injection Hc as <-. simpl in Hq. rewrite Hse in Hq. injection Hq as <-. by exists rows. }
  assert (pages = map (fun page => let size := Z.to_nat (Z.min args.(LA_Size) (Z.of_nat (length rows))) in take size (drop (page * size) rows)) (seq 0 (S n))) as ->.
  { assert (Forall (fun page => Z.of_nat page * LA_Size args < 2 ^ 63) (seq 0 (S n))) as Hlt
      by (apply Forall_forall; intros i Hi%elem_of_seq; nia).
    clear Hn Hb. induction Hpages as [|page l is_ ls (m & w & w' & Hdb & Hr) Hpages IH]; [done|]. apply Forall_cons in Hlt as [Hi Hlt].
    simpl. f_equal; [|by apply IH]. subst db. eapply one_page; try done. intros a b. rewrite !Hp. apply Hanti. }
  rewrite concat_pages; [by split|done|]. by rewrite (Permutation_length Hp).
Qed.

Lemma listing_pages_complete_witness :
  let page i := match fst (Kafka_List (fun _ _ => Ok []) DemoExternals.alice (at_page ListExample.args i) ListExample.world) with
                | Ok (l, _) => l | Err _ => [] end in
  map (map KR.ID) [page 1; page 2] = [["a"; "b"]; ["c"]] /\
  concat [page 1; page 2] ≡ₚ [ListExample.kafka_at "b" 20; ListExample.kafka_at "a" 10; ListExample.kafka_at "c" 30].
Proof.
  intros page. split; [vm_compute; reflexivity|].
  apply (listing_pages_complete (W := MemDB.world unit) (fun _ _ => Ok []) DemoExternals.alice ListExample.args (mkClaims "alice" "org-1" false)
    (fun _ => true) ListExample.world.(MemDB.db) 2 [page 1; page 2]); [|done|done|done|done|by vm_compute|].
  - assert (forall i, is_ok (fst (Kafka_List (fun _ _ => Ok []) DemoExternals.alice (at_page ListExample.args i) ListExample.world)) = true ->
      exists m w', Kafka_List (fun _ _ => Ok []) DemoExternals.alice (at_page ListExample.args i) ListExample.world = (Ok (page i, m), w')) as Hok.
    { intros i. unfold page. destruct (Kafka_List _ _ _ _) as [[[l m]|e] w']; [by eexists _, _|done]. }
    destruct (Hok 1) as (m1 & w1 & H1), (Hok 2) as (m2 & w2 & H2); [by vm_compute..|].
    apply Forall2_cons. split; [by exists m1, ListExample.world, w1|]. apply Forall2_cons. split; [by exists m2, ListExample.world, w2|done].
  - assert (listed DemoExternals.alice (mkClaims "alice" "org-1" false) (fun _ => true) ListExample.world.(MemDB.db) =
      [ListExample.kafka_at "b" 20; ListExample.kafka_at "a" 10; ListExample.kafka_at "c" 30]) as -> by (vm_compute; reflexivity).
    intros a b Ha Hb. unfold order_le. simpl. unfold ListExample.created_le.
    repeat (apply elem_of_cons in Ha as [->|Ha]; [repeat (apply elem_of_cons in Hb as [->|Hb]; [simpl; first [done|lia]|]); set_solver|]). set_solver.
Defined.

(** For clauses of ASCII characters, a listing passes validation exactly
    when its page and size are in range and every order-by clause is an accepted
    column, alone or followed by white space and a direction, in any case:
    nothing else reaches the [ORDER BY] of the query. *)
Theorem order_by_clauses_safe la accepted :
  Forall (fun a => no_space a = true) accepted ->
  Forall (fun c => all_chars (fun b => (N_of_ascii b <? 128)%N) c = true) la.(LA_OrderBy) ->
  ListArguments_Validate la accepted = Ok tt <->
  0 <= la.(LA_Page) /\ 1 <= la.(LA_Size) /\ Forall (order_clause accepted) la.(LA_OrderBy).
Proof.
  intros Hacc _. unfold ListArguments_Validate. destruct (Z.ltb_spec la.(LA_Page) 0); [split; [done|lia]|].
  destruct (Z.ltb_spec la.(LA_Size) 1); [split; [done|lia]|]. rewrite validate_clauses_ok. split.
  - intros Hall. split_and!; [done..|]. eapply Forall_impl; [exact Hall|]. intros c Hc. by apply validate_clause_iff.
  - intros (_ & _ & Hall). eapply Forall_impl; [exact Hall|]. intros c Hc. by apply validate_clause_iff.
Qed.

Lemma order_by_clauses_safe_witness :
  let la := NewListArguments (fun p => if p =?s "orderBy" then "Name   DESC, created_at" else "") in
  la.(LA_OrderBy) = ["Name   DESC"; "created_at"] /\ Forall (order_clause GetAcceptedOrderByParams) la.(LA_OrderBy) /\
  is_ok (ListArguments_Validate (mkListArguments 1 1 [] "" ["name; drop table kafka_requests"]) GetAcceptedOrderByParams) = false.
Proof.
  intros la. split; [reflexivity|]. split; [|vm_compute; reflexivity].
  apply (order_by_clauses_safe la GetAcceptedOrderByParams); [repeat (apply Forall_cons_2; [done|]); by apply Forall_nil|repeat (apply Forall_cons_2; [done|]); by apply Forall_nil|].
  vm_compute. reflexivity.
Defined.

(** The decoder on a text of one, two, three and four bytes per rune, and on a
    byte that starts no rune. *)
Example decode_example : decode [97; 195; 169; 226; 130; 172; 240; 159; 152; 128; 255; 98] = [97; 233; 8364; 128512; RuneError; 98].
Proof. reflexivity. Qed.
