(* ===== verification/LeaderElection.v ===== *)
(** * Leader election: [src/pkg/workers]

    [leader_election_mgr.go], the life cycle of a worker in [reconciler.go] and
    [worker_interface.go], and the leases of [src/pkg/api/leader_lease_types.go].

    Each replica of the service runs a manager that polls its workers; a worker
    runs while it holds the lease of its type.  Times are nanoseconds.  A lease
    always has an expiry: the migrations that create the rows set it, and so
    does every update.  [acquireLeaderLease] is a query followed, perhaps, by a
    transaction; the two halves are [acquire_read] and [acquire_write], and the
    two steps of a poll in the system of all replicas. *)
From S2P Require Import Prelude Errors Store.

Definition second : Z := 1000000000.

Record LeaderLease := mkLease {
  LL_ID : string;
  Leader : string;
  LeaseType : string;
  Expires : Z
}.

(** The index of a list by identifier; a later row replaces an earlier one. *)
Definition Index (l : list LeaderLease) : gmap string LeaderLease := foldl (fun index o => <[ o.(LL_ID) := o ]> index) ∅ l.

(** ** Workers and their reconcile loops *)
Inductive channel := NilChan | OpenChan | ClosedChan.

(** A [BaseWorker]; [HasTerminated] is a method that workers may override. *)
Record worker := mkWorker {
  GetID : string;
  GetWorkerType : string;
  HasTerminated : bool;
  IsRunning : bool;
  imStop : channel;
  syncTeardown : Z
}.

Definition new_worker (id ty : string) : worker := mkWorker id ty false false NilChan 0.

(** [Reconciler.Start]: a new stop channel, and a goroutine that will call
    [Done] once the channel is closed. *)
Definition Reconciler_Start (w : worker) : worker :=
  mkWorker w.(GetID) w.(GetWorkerType) w.(HasTerminated) true OpenChan (w.(syncTeardown) + 1).

(** [Reconciler.Stop] closes the channel and waits for the goroutine. *)
Definition Reconciler_Stop (w : worker) : result error worker :=
  match w.(imStop) with
  | ClosedChan => Ok (mkWorker w.(GetID) w.(GetWorkerType) w.(HasTerminated) false ClosedChan w.(syncTeardown))
  | OpenChan => Ok (mkWorker w.(GetID) w.(GetWorkerType) w.(HasTerminated) false ClosedChan (w.(syncTeardown) - 1))
  | NilChan => Err (EPlain "close of nil channel")
  end.

(** A loop exists exactly while the worker runs. *)
Definition worker_ok (w : worker) : bool :=
  if w.(IsRunning) then match w.(imStop) with OpenChan => w.(syncTeardown) =? 1 | _ => false end
  else match w.(imStop) with OpenChan => false | _ => w.(syncTeardown) =? 0 end.

(** ** Acquiring a lease *)
Definition isExpired (now : Z) (lease : LeaderLease) : bool := (lease.(Leader) =?s "") || (lease.(Expires) <? now).

Record leaderLeaseAcquisition := mkAcquisition {
  acquired : bool;
  currentLease : LeaderLease
}.

(** What the database may refuse during an acquisition.  The code does not look
    at the error of [Commit]. *)
Record faults := mkFaults {
  read_fault : option error;
  lock_fault : option error;
  update_fault : option error;
  commit_fault : bool
}.
Definition no_faults : faults := mkFaults None None None false.

Definition of_type (ty : string) (l : LeaderLease) : bool := l.(LeaseType) =?s ty.

(** The query that reads the lease; the table has one lease of each type. *)
Definition acquire_read (f : faults) (ty : string) (ls : list LeaderLease) : result error LeaderLease :=
  match f.(read_fault) with
  | Some e => Err (EWrap "failed to retrieve leader leases" e)
  | None =>
      match List.find (of_type ty) ls with
      | Some lease => Ok lease
      | None => Err (EPlain "expected to find a lease entry, found none for : %s")
      end
  end.

(** [Model(&lease).Updates(...)]: the row with the identifier of the lease that
    was read. *)
Definition set_leader (lease_id id : string) (expires : Z) (ls : list LeaderLease) : list LeaderLease :=
  map (fun l => if l.(LL_ID) =?s lease_id then mkLease l.(LL_ID) id l.(LeaseType) expires else l) ls.

Section Duration.
Context (leaderLeaseExpirationTime : Z).

(** What follows the query, which read [lease] at [now].  The transaction takes
    place at [now'], when other transactions hold the locks of the rows for
    which [locked] is true: these are skipped. *)
Definition acquire_write (f : faults) (now now' : Z) (workerId workerType : string) (lease : LeaderLease)
    (locked : LeaderLease -> bool) (ls : list LeaderLease) : result error leaderLeaseAcquisition * list LeaderLease :=
  let newExpiryTime := now + leaderLeaseExpirationTime in
  if isExpired now lease || ((lease.(Leader) =?s workerId) && (lease.(Expires) <? now + 30 * second)) then
    match f.(lock_fault) with
    | Some e => (Err (EWrap "failed to retrieve leader leases" e), ls)
    | None =>
        let leaseList := List.find (fun l => of_type workerType l && negb (locked l)) ls in
        if negb (bool_decide (is_Some leaseList)) && isExpired now' lease then (Ok (mkAcquisition false lease), ls)
        else
          match leaseList, f.(update_fault) with
          | Some _, Some e => (Err (EWrap "failed to update leader lease" e), ls)
          | Some _, None =>
              (Ok (mkAcquisition true lease), if f.(commit_fault) then ls else set_leader lease.(LL_ID) workerId newExpiryTime ls)
          | None, _ => (Ok (mkAcquisition true lease), ls)
          end
    end
  else (Ok (mkAcquisition (lease.(Leader) =?s workerId) lease), ls).

(** Without a pause between the two halves. *)
Definition acquireLeaderLease (f : faults) (now : Z) (workerId workerType : string) (ls : list LeaderLease)
  : result error leaderLeaseAcquisition * list LeaderLease :=
  match acquire_read f workerType ls with
  | Err e => (Err e, ls)
  | Ok lease => acquire_write f now now workerId workerType lease (fun _ => false) ls
  end.

Definition isWorkerLeader (f : faults) (now : Z) (w : worker) (ls : list LeaderLease) : bool * list LeaderLease :=
  match acquireLeaderLease f now w.(GetID) w.(GetWorkerType) ls with
  | (Err _, ls') => (false, ls')
  | (Ok a, ls') => (a.(acquired), ls')
  end.

(** ** The manager *)
Definition group_done (workerGrp : Z) : result error Z :=
  if workerGrp - 1 <? 0 then Err (EPlain "sync: negative WaitGroup counter") else Ok (workerGrp - 1).

Definition stop_worker (w : worker) (workerGrp : Z) : result error (worker * Z) :=
  w' <-! Reconciler_Stop w ;; grp <-! group_done workerGrp ;; Ok (w', grp).

(** Starts or stops a worker as the election says. *)
Definition obey (isLeader : bool) (w : worker) (workerGrp : Z) : result error (worker * Z) :=
  if isLeader && negb w.(IsRunning) then Ok (Reconciler_Start w, workerGrp + 1)
  else if negb isLeader && w.(IsRunning) then stop_worker w workerGrp
  else Ok (w, workerGrp).

(** [startWorkers]: the workers that are kept, the counter of the group and the
    leases.  [env] gives the faults and the time of the poll of each worker. *)
Fixpoint startWorkers (env : worker -> faults * Z) (workers : list worker) (workerGrp : Z) (ls : list LeaderLease)
  : result error (list worker * Z * list LeaderLease) :=
  match workers with
  | [] => Ok ([], workerGrp, ls)
  | w :: rest =>
      if w.(HasTerminated) then
        r <-! (if w.(IsRunning) then stop_worker w workerGrp else Ok (w, workerGrp)) ;; let '(_, grp) := r in
        startWorkers env rest grp ls
      else
        let '(f, now) := env w in
        let '(isLeader, ls') := isWorkerLeader f now w ls in
        r <-! obey isLeader w workerGrp ;; let '(w', grp) := r in
        r <-! startWorkers env rest grp ls' ;; let '(rest', grp', ls'') := r in
        Ok (w' :: rest', grp', ls'')
  end.

(** The loop of [Start] when the manager is torn down. *)
Fixpoint tear_down (workers : list worker) (workerGrp : Z) : result error (list worker * Z) :=
  match workers with
  | [] => Ok ([], workerGrp)
  | w :: rest =>
      r <-! (if w.(IsRunning) then stop_worker w workerGrp else Ok (w, workerGrp)) ;; let '(w', grp) := r in
      r <-! tear_down rest grp ;; let '(rest', grp') := r in
      Ok (w' :: rest', grp')
  end.

(** ** The group of running workers *)
Definition running (ws : list worker) : Z := Z.of_nat (length (List.filter IsRunning ws)).

Lemma running_cons w ws : running (w :: ws) = (if w.(IsRunning) then 1 else 0) + running ws.
Proof. unfold running. simpl. destruct (IsRunning w); simpl; lia. Qed.

Lemma running_nonneg ws : 0 <= running ws.
Proof. unfold running. lia. Qed.

Lemma stop_worker_ok w grp : worker_ok w = true -> w.(IsRunning) = true -> 1 <= grp ->
  exists w', stop_worker w grp = Ok (w', grp - 1) /\ worker_ok w' = true /\ w'.(IsRunning) = false /\
    w'.(GetID) = w.(GetID) /\ w'.(GetWorkerType) = w.(GetWorkerType).
Proof.
  unfold worker_ok, stop_worker, Reconciler_Stop, group_done. intros Hok Hrun Hgrp. rewrite Hrun in Hok.
  destruct (imStop w); try done. simpl. destruct (Z.ltb_spec (grp - 1) 0); [lia|].
  eexists. split; [reflexivity|]. simpl. split_and!; try done. apply Z.eqb_eq in Hok as ->. done.
Qed.

Lemma start_worker_ok w : worker_ok w = true -> w.(IsRunning) = false -> worker_ok (Reconciler_Start w) = true.
Proof.
  unfold worker_ok, Reconciler_Start. simpl. intros Hok Hrun. rewrite Hrun in Hok.
  destruct (imStop w); try done; apply Z.eqb_eq in Hok as ->; done.
Qed.

Lemma obey_ok b w grp : worker_ok w = true -> (w.(IsRunning) = true -> 1 <= grp) ->
  exists w', obey b w grp = Ok (w', grp + (if b then 1 else 0) - (if w.(IsRunning) then 1 else 0)) /\
    worker_ok w' = true /\ w'.(IsRunning) = b /\ w'.(GetID) = w.(GetID) /\ w'.(GetWorkerType) = w.(GetWorkerType).
Proof.
  intros Hok Hgrp. unfold obey. destruct b, (IsRunning w) eqn:Hrun; simpl.
  - exists w. rewrite Z.add_simpl_r. auto.
  - exists (Reconciler_Start w). rewrite Z.sub_0_r. auto using start_worker_ok.
  - destruct (stop_worker_ok w grp Hok Hrun (Hgrp eq_refl)) as (w' & -> & Hw'). exists w'. rewrite Z.add_0_r. auto.
  - exists w. rewrite Z.add_0_r, Z.sub_0_r. auto.
Qed.

Lemma startWorkers_group env ws k ls : Forall (fun w => worker_ok w = true) ws -> 0 <= k ->
  exists ws' ls', startWorkers env ws (k + running ws) ls = Ok (ws', k + running ws', ls') /\
    Forall (fun w => worker_ok w = true) ws' /\
    map GetID ws' = map GetID (List.filter (fun w => negb w.(HasTerminated)) ws).
Proof.
  intros Hok. revert k ls. induction Hok as [|w ws Hw Hok IH]; intros k ls Hk; simpl; [by exists [], ls|].
  rewrite running_cons. pose proof (running_nonneg ws). destruct (HasTerminated w); simpl.
  - destruct (IsRunning w) eqn:Hrun.
    + destruct (stop_worker_ok w (k + (1 + running ws)) Hw Hrun) as (w' & -> & _); [lia|]. simpl.
      replace (k + (1 + running ws) - 1) with (k + running ws) by lia. by apply IH.
    + simpl. by apply IH.
  - destruct (env w) as [f now], (isWorkerLeader f now w ls) as [b ls1].
    destruct (obey_ok b w (k + ((if IsRunning w then 1 else 0) + running ws)) Hw) as (w' & -> & Hw' & Hrun & Hid & _); [intros ->; lia|].
    simpl. destruct (IH (k + if b then 1 else 0) ls1) as (ws' & ls' & Hrest & Hok' & Hids); [destruct b; lia|].
    replace (_ - _) with (k + (if b then 1 else 0) + running ws) by (destruct b, (IsRunning w); lia).
    rewrite Hrest. simpl. exists (w' :: ws'), ls'. rewrite running_cons, Hrun. split; [do 3 f_equal; lia|].
    split; [by constructor|]. simpl. by rewrite Hid, Hids.
Qed.

Lemma tear_down_group ws k : Forall (fun w => worker_ok w = true) ws -> 0 <= k ->
  exists ws', tear_down ws (k + running ws) = Ok (ws', k) /\
    Forall (fun w => worker_ok w = true /\ w.(IsRunning) = false) ws' /\ map GetID ws' = map GetID ws.
Proof.
  intros Hok. revert k. induction Hok as [|w ws Hw Hok IH]; intros k Hk; simpl.
  - exists []. unfold running. simpl. rewrite Z.add_0_r. auto.
  - rewrite running_cons. pose proof (running_nonneg ws). destruct (IsRunning w) eqn:Hrun.
    + destruct (stop_worker_ok w (k + (1 + running ws)) Hw Hrun) as (w' & -> & Hw' & Hr' & Hid & _); [lia|]. simpl.
      replace (k + (1 + running ws) - 1) with (k + running ws) by lia.
      destruct (IH k Hk) as (ws' & -> & Hall & Hids). simpl. exists (w' :: ws'). simpl. rewrite Hid, Hids. auto.
    + rewrite Z.add_0_l. simpl. destruct (IH k Hk) as (ws' & -> & Hall & Hids). simpl. exists (w :: ws'). simpl. rewrite Hids. auto.
Qed.

(** The group that [Stop] waits for counts the running workers: no pass of
    the manager panics, whatever the election decides and the database refuses;
    the counter stays the number of running workers; terminated workers are
    dropped; and tearing the manager down brings the counter to zero, so that
    [Stop] returns. *)
Theorem manager_group_counts_running env ws ls :
  Forall (fun w => worker_ok w = true) ws ->
  exists ws' ls' stopped,
    startWorkers env ws (running ws) ls = Ok (ws', running ws', ls') /\
    Forall (fun w => worker_ok w = true) ws' /\
    map GetID ws' = map GetID (List.filter (fun w => negb w.(HasTerminated)) ws) /\
    tear_down ws' (running ws') = Ok (stopped, 0) /\ running stopped = 0 /\ map GetID stopped = map GetID ws'.
Proof.
  intros Hok. destruct (startWorkers_group env ws 0 ls Hok ltac:(lia)) as (ws' & ls' & Hstart & Hok' & Hids).
  destruct (tear_down_group ws' 0 Hok' ltac:(lia)) as (stopped & Htear & Hall & Hids').
  exists ws', ls', stopped. split_and!; try done.
  clear -Hall. induction Hall as [|w l [_ Hw] Hl IH]; [done|]. rewrite running_cons, Hw, IH. done.
Qed.

(** ** What a poll does to the leases *)
Lemma find_unlocked ty ls : List.find (fun l => of_type ty l && negb false) ls = List.find (of_type ty) ls.
Proof. induction ls as [|x ls IH]; simpl; [done|]. rewrite andb_true_r. by destruct (of_type _ x). Qed.

Lemma find_of_type_unlocked ty locked ls :
  (forall l, of_type ty l = true -> locked l = false) -> List.find (fun l => of_type ty l && negb (locked l)) ls = List.find (of_type ty) ls.
Proof. intros Hun. induction ls as [|x ls IH]; simpl; [done|]. destruct (of_type ty x) eqn:E; simpl; [by rewrite Hun|done]. Qed.

(** Whether the worker leads after an acquisition with this outcome. *)
Definition leads (r : result error leaderLeaseAcquisition) : bool := match r with Ok a => a.(acquired) | Err _ => false end.

(** The second half of an acquisition, when the lease that was read at [t0] is
    still the one in the table. *)
Lemma write_outcome f t0 t id ty lease locked ls r ls' :
  f.(commit_fault) = false -> (forall l, of_type ty l = true -> locked l = false) -> List.find (of_type ty) ls = Some lease ->
  acquire_write f t0 t id ty lease locked ls = (r, ls') ->
  (ls' = ls /\ (leads r = true -> lease.(Leader) = id /\ t0 + 30 * second <= lease.(Expires))) \/
  (leads r = true /\ (isExpired t0 lease = true \/ lease.(Leader) = id) /\
     ls' = set_leader lease.(LL_ID) id (t0 + leaderLeaseExpirationTime) ls).
Proof.
  intros Hcommit Hun Hl. unfold acquire_write. destruct (isExpired t0 lease || _) eqn:Htake.
  - destruct (lock_fault f); [intros [= <- <-]; by left|].
    rewrite find_of_type_unlocked, Hl, bool_decide_true by eauto. simpl. destruct (update_fault f); [intros [= <- <-]; by left|].
    rewrite Hcommit. intros [= <- <-]. right. split_and!; [done| |done].
    apply orb_true_iff in Htake as [?|[?%String.eqb_eq _]%andb_true_iff]; auto.
  - intros [= <- <-]. left. split; [done|]. simpl. intros Hid. apply String.eqb_eq in Hid. split; [done|].
    apply orb_false_iff in Htake as [_ Htake]. rewrite Hid, String.eqb_refl in Htake. simpl in Htake.
    by apply Z.ltb_ge in Htake.
Qed.

(** Tables of leases: distinct identifiers and one lease of each type. *)
Definition table_ok (ls : list LeaderLease) : Prop := NoDup (map LL_ID ls) /\ NoDup (map LeaseType ls).

Lemma set_leader_ids lid id e ls : map LL_ID (set_leader lid id e ls) = map LL_ID ls.
Proof. unfold set_leader. rewrite map_map. apply map_ext. intros l. by destruct (_ =?s _). Qed.
Lemma set_leader_types lid id e ls : map LeaseType (set_leader lid id e ls) = map LeaseType ls.
Proof. unfold set_leader. rewrite map_map. apply map_ext. intros l. by destruct (_ =?s _). Qed.

Lemma set_leader_ok lid id e ls : table_ok ls -> table_ok (set_leader lid id e ls).
Proof. unfold table_ok. by rewrite set_leader_ids, set_leader_types. Qed.

Lemma find_type ty ls l : List.find (of_type ty) ls = Some l -> l ∈ ls /\ l.(LeaseType) = ty.
Proof. intros [Hin%list_elem_of_In Hty%String.eqb_eq]%List.find_some. done. Qed.

Lemma find_set_same ty ls l id e : table_ok ls -> List.find (of_type ty) ls = Some l ->
  List.find (of_type ty) (set_leader l.(LL_ID) id e ls) = Some (mkLease l.(LL_ID) id ty e).
Proof.
  intros [Hids _] Hl. destruct (find_type _ _ _ Hl) as [_ Hty]. induction ls as [|x ls IH]; [done|].
  simpl in *. apply NoDup_cons in Hids as [Hx Hids]. destruct (of_type ty x) eqn:Hxt.
  - injection Hl as ->. rewrite String.eqb_refl. unfold of_type in *. simpl. rewrite Hty, String.eqb_refl. done.
  - destruct (String.eqb_spec (LL_ID x) (LL_ID l)) as [Heq|Hne].
    + exfalso. apply Hx. rewrite Heq. apply list_elem_of_fmap. exists l. split; [done|]. by apply (find_type ty).
    + rewrite Hxt. by apply IH.
Qed.

Lemma find_set_other ty ty' ls l id e : table_ok ls -> List.find (of_type ty) ls = Some l -> ty' <> ty ->
  List.find (of_type ty') (set_leader l.(LL_ID) id e ls) = List.find (of_type ty') ls.
Proof.
  intros [Hids _] Hl Hne. destruct (find_type _ _ _ Hl) as [Hin Hty]. clear Hl.
  induction ls as [|x ls IH]; [done|]. simpl in *. apply NoDup_cons in Hids as [Hx Hids].
  destruct (String.eqb_spec (LL_ID x) (LL_ID l)) as [Heq|Hneq].
  - assert (x = l) as ->.
    { apply elem_of_cons in Hin as [->|Hin]; [done|]. exfalso. apply Hx. rewrite Heq. apply list_elem_of_fmap. eauto. }
    unfold of_type at 1 3. simpl. rewrite Hty. destruct (String.eqb_spec ty ty') as [->|_]; [done|].
    clear IH Hin. induction ls as [|y ls IH]; [done|]. simpl in *. apply not_elem_of_cons in Hx as [Hy Hx].
    apply NoDup_cons in Hids as [_ Hids]. destruct (String.eqb_spec (LL_ID y) (LL_ID l)); [congruence|].
    destruct (of_type ty' y); [done|]. by apply IH.
  - apply elem_of_cons in Hin as [->|Hin]; [done|]. destruct (of_type ty' x); [done|]. by apply IH.
Qed.
End Duration.

(** ** The workers of all replicas

    Each worker comes with the time of its last poll, and [reads] holds, by the
    identifier of the worker, the lease that a poll under way has read and when.
    Time passes only as far as every running worker is polled in time and every
    poll is finished in time: that the tickers fire and that polls return within
    [period] is what the code counts on. *)
Record system := mkSystem {
  clock : Z;
  table : list LeaderLease;
  fleet : list (worker * Z);
  reads : gmap string (Z * LeaderLease)
}.

Section System.
Context (leaderLeaseExpirationTime period : Z).

Definition timely (t : Z) (fl : list (worker * Z)) : Prop :=
  forall w last, (w, last) ∈ fl -> w.(IsRunning) = true -> t <= last + period.
Definition prompt (t : Z) (rs : gmap string (Z * LeaderLease)) : Prop :=
  forall id t0 lease, rs !! id = Some (t0, lease) -> t <= t0 + period.

Definition ids (fl : list (worker * Z)) : list string := map (fun p => p.1.(GetID)) fl.

(** A poll is two steps, the query and the transaction, between which anything
    else may happen, with one proviso: the lease that was read is still in the
    table when the transaction begins, and its row is not locked.  The workers
    of one type are thus polled one after the other, those of different types in
    any order. *)
Inductive step : system -> system -> Prop :=
| step_time t' t ls fl rs : t <= t' -> timely t' fl -> prompt t' rs -> step (mkSystem t ls fl rs) (mkSystem t' ls fl rs)
| step_read t ls fl rs w last f lease :
    (w, last) ∈ fl -> w.(HasTerminated) = false -> acquire_read f w.(GetWorkerType) ls = Ok lease ->
    step (mkSystem t ls fl rs) (mkSystem t ls fl (<[ w.(GetID) := (t, lease) ]> rs))
| step_read_fails t ls pre w last post rs f e grp w' grp' :
    w.(HasTerminated) = false -> acquire_read f w.(GetWorkerType) ls = Err e -> obey false w grp = Ok (w', grp') ->
    step (mkSystem t ls (pre ++ (w, last) :: post) rs) (mkSystem t ls (pre ++ (w', t) :: post) rs)
| step_write t ls pre w last post rs f t0 lease locked r ls' grp w' grp' :
    rs !! w.(GetID) = Some (t0, lease) -> f.(commit_fault) = false ->
    List.find (of_type w.(GetWorkerType)) ls = Some lease -> (forall l, of_type w.(GetWorkerType) l = true -> locked l = false) ->
    acquire_write leaderLeaseExpirationTime f t0 t w.(GetID) w.(GetWorkerType) lease locked ls = (r, ls') ->
    obey (leads r) w grp = Ok (w', grp') ->
    step (mkSystem t ls (pre ++ (w, last) :: post) rs) (mkSystem t ls' (pre ++ (w', t0) :: post) (delete w.(GetID) rs))
| step_stop t ls pre w last post rs w' :
    Reconciler_Stop w = Ok w' ->
    step (mkSystem t ls (pre ++ (w, last) :: post) rs) (mkSystem t ls (pre ++ (w', last) :: post) rs)
| step_leave t ls pre w last post rs :
    step (mkSystem t ls (pre ++ (w, last) :: post) rs) (mkSystem t ls (pre ++ post) (delete w.(GetID) rs))
| step_join t ls fl rs w :
    w.(IsRunning) = false -> w.(GetID) <> "" -> w.(GetID) ∉ ids fl ->
    step (mkSystem t ls fl rs) (mkSystem t ls (fl ++ [(w, t)]) rs).

Definition initial (s : system) : Prop := table_ok s.(table) /\ s.(fleet) = [] /\ s.(reads) = ∅.
Definition reachable (s : system) : Prop := exists s0, initial s0 /\ rtc step s0 s.

(** A running worker holds the lease of its type until after its next poll. *)
Definition holds (t : Z) (ls : list LeaderLease) (w : worker) (last : Z) : Prop :=
  t <= last + period /\
  exists l, List.find (of_type w.(GetWorkerType)) ls = Some l /\ l.(Leader) = w.(GetID) /\ last + period <= l.(Expires).

Definition election_inv (s : system) : Prop :=
  table_ok s.(table) /\ NoDup (ids s.(fleet)) /\
  Forall (fun i => i <> "") (ids s.(fleet)) /\
  (forall w last, (w, last) ∈ s.(fleet) -> w.(IsRunning) = true -> holds s.(clock) s.(table) w last) /\
  (forall id t0 lease, s.(reads) !! id = Some (t0, lease) -> t0 <= s.(clock) <= t0 + period).

Lemma obey_fields b w grp w' grp' : obey b w grp = Ok (w', grp') ->
  w'.(GetID) = w.(GetID) /\ w'.(GetWorkerType) = w.(GetWorkerType) /\ w'.(IsRunning) = b.
Proof.
  unfold obey, stop_worker, Reconciler_Stop, group_done.
  destruct b, (IsRunning w) eqn:Hrun; simpl; [by intros [= <- <-]|by intros [= <- <-]| |by intros [= <- <-]].
  destruct (imStop w); simpl; try done; destruct (_ <? 0); simpl; try done; by intros [= <- <-].
Qed.

Lemma stop_fields w w' : Reconciler_Stop w = Ok w' ->
  w'.(GetID) = w.(GetID) /\ w'.(GetWorkerType) = w.(GetWorkerType) /\ w'.(IsRunning) = false.
Proof. unfold Reconciler_Stop. destruct (imStop w); intros [= <-]; done. Qed.

Lemma ids_app a b : ids (a ++ b) = ids a ++ ids b.
Proof. apply map_app. Qed.

Lemma ids_replace pre w last w' last' post : w'.(GetID) = w.(GetID) ->
  ids (pre ++ (w', last') :: post) = ids (pre ++ (w, last) :: post).
Proof. intros Hid. rewrite !ids_app. simpl. by rewrite Hid. Qed.

Lemma id_nonempty fl w last : Forall (fun i => i <> "") (ids fl) -> (w, last) ∈ fl -> w.(GetID) <> "".
Proof. rewrite Forall_forall. intros Hall Hin. apply Hall, list_elem_of_fmap. by exists (w, last). Qed.

Lemma entry_inv {A} (pre : list A) x post y : y ∈ pre ++ x :: post -> y = x \/ y ∈ pre ++ post.
Proof. rewrite !elem_of_app, elem_of_cons. tauto. Qed.
Lemma entry_other {A} (pre : list A) x post y : y ∈ pre ++ post -> y ∈ pre ++ x :: post.
Proof. rewrite !elem_of_app, elem_of_cons. tauto. Qed.

(** Workers with the same identifier are the same entry. *)
Lemma other_id pre w last post w2 last2 :
  NoDup (ids (pre ++ (w, last) :: post)) -> (w2, last2) ∈ pre ++ post -> w2.(GetID) <> w.(GetID).
Proof.
  rewrite ids_app. simpl. intros (_ & Hd & Hpost)%NoDup_app Hin Heq. apply NoDup_cons in Hpost as [Hw _].
  apply elem_of_app in Hin as [Hin|Hin].
  - apply (Hd (GetID w)); [|by left]. apply list_elem_of_fmap. by exists (w2, last2).
  - apply Hw. apply list_elem_of_fmap. by exists (w2, last2).
Qed.

Context (Hperiod : period <= 30 * second) (Hlease : period <= leaderLeaseExpirationTime) (Hpos : 0 <= period).

(** A transaction leaves the leases that the other running workers hold. *)
Lemma write_keeps_others t ls pre w last post rs f t0 lease locked r ls' w2 last2 :
  election_inv (mkSystem t ls (pre ++ (w, last) :: post) rs) -> t0 <= t -> f.(commit_fault) = false ->
  List.find (of_type w.(GetWorkerType)) ls = Some lease -> (forall l, of_type w.(GetWorkerType) l = true -> locked l = false) ->
  acquire_write leaderLeaseExpirationTime f t0 t w.(GetID) w.(GetWorkerType) lease locked ls = (r, ls') ->
  (w2, last2) ∈ pre ++ post -> w2.(IsRunning) = true ->
  holds t ls' w2 last2 /\ (leads r = true -> w2.(GetWorkerType) <> w.(GetWorkerType)).
Proof.
  intros (Htab & Hnd & Hne & Hholds & _) Ht0 Hf Hl Hun Hlead Hin Hrun. pose proof (other_id _ _ _ _ _ _ Hnd Hin) as Hid.
  assert ((w2, last2) ∈ pre ++ (w, last) :: post) as Hin' by (by apply entry_other).
  pose proof (id_nonempty _ _ _ Hne Hin') as Hne2.
  destruct (Hholds _ _ Hin' Hrun) as (Ht & l2 & Hl2 & Hleader & Hexp). simpl in *.
  destruct (write_outcome _ _ _ _ _ _ _ _ _ _ _ Hf Hun Hl Hlead) as [[-> Hb]|(_ & Hold & ->)].
  - split; [split; eauto|]. intros Htrue Hty. destruct (Hb Htrue) as (Hlid & _). rewrite Hty, Hl in Hl2. congruence.
  - assert (w2.(GetWorkerType) <> w.(GetWorkerType)) as Hty.
    { intros Hty. rewrite Hty, Hl in Hl2. injection Hl2 as <-. destruct Hold as [Hexpired|Hw]; [|congruence].
      unfold isExpired in Hexpired. apply orb_true_iff in Hexpired as [He%String.eqb_eq|He%Z.ltb_lt]; [congruence|lia]. }
    split; [|done]. split; [done|]. exists l2. rewrite (find_set_other (GetWorkerType w)) by done. done.
Qed.

Lemma write_holds t t0 ls w f lease locked r ls' w' : table_ok ls -> t <= t0 + period -> f.(commit_fault) = false ->
  List.find (of_type w.(GetWorkerType)) ls = Some lease -> (forall l, of_type w.(GetWorkerType) l = true -> locked l = false) ->
  acquire_write leaderLeaseExpirationTime f t0 t w.(GetID) w.(GetWorkerType) lease locked ls = (r, ls') -> leads r = true ->
  w'.(GetID) = w.(GetID) -> w'.(GetWorkerType) = w.(GetWorkerType) -> holds t ls' w' t0.
Proof.
  intros Htab Ht Hf Hl Hun Hlead Hb Hid Hty. split; [done|]. rewrite Hty, Hid.
  destruct (write_outcome _ _ _ _ _ _ _ _ _ _ _ Hf Hun Hl Hlead) as [[-> Hkept]|(_ & _ & ->)].
  - destruct (Hkept Hb) as (Hlid & Hexp). exists lease. split_and!; [done|done|lia].
  - eexists. split; [by apply find_set_same|]. simpl. split; [done|lia].
Qed.

(** Replacing the entry of a worker, or taking it out. *)
Lemma holds_replaced t ls pre (w : worker) (last : Z) post (w' : worker) (last' : Z) :
  (forall w2 last2, (w2, last2) ∈ pre ++ (w, last) :: post -> w2.(IsRunning) = true -> holds t ls w2 last2) -> w'.(IsRunning) = false ->
  forall w2 last2, (w2, last2) ∈ pre ++ (w', last') :: post -> w2.(IsRunning) = true -> holds t ls w2 last2.
Proof. intros Hh Hidle w2 last2 [[= -> ->]|Hin]%entry_inv Hrun; [congruence|]. by apply Hh; [apply entry_other|]. Qed.

Lemma ids_removed pre (w : worker) (last : Z) post :
  NoDup (ids (pre ++ (w, last) :: post)) -> Forall (fun i => i <> "") (ids (pre ++ (w, last) :: post)) ->
  NoDup (ids (pre ++ post)) /\ Forall (fun i => i <> "") (ids (pre ++ post)).
Proof.
  rewrite !ids_app. simpl. intros (Ha & Hd & Hb)%NoDup_app [Hf1 Hf2]%Forall_app. apply NoDup_cons in Hb as [_ Hb].
  apply Forall_cons in Hf2 as [_ Hf2]. split; [|by apply Forall_app]. apply NoDup_app. split_and!; [done| |done].
  intros i Hi Hi'. apply (Hd i Hi). by right.
Qed.

Lemma election_inv_step s s' : election_inv s -> step s s' -> election_inv s'.
Proof.
  intros Hinv Hstep. pose proof Hinv as (Htab & Hnd & Hne & Hholds & Hreads).
  destruct Hstep as [t' t ls fl rs Ht Htimely Hprompt|t ls fl rs w last f lease Hin Hterm Hread
    |t ls pre w last post rs f e grp w' grp' Hterm Hread Hobey
    |t ls pre w last post rs f t0 lease locked r ls' grp w' grp' Hrs Hf Hl Hun Hlead Hobey
    |t ls pre w last post rs w' Hstop|t ls pre w last post rs|t ls fl rs w Hrun Hid Hfresh]; simpl in *; unfold election_inv; simpl.
  - split_and!; try done.
    + intros w last Hin Hrun. destruct (Hholds w last Hin Hrun) as (_ & Hl). split; [by eapply Htimely|done].
    + intros id t0 lease Hid. destruct (Hreads _ _ _ Hid). split; [lia|by eapply Hprompt].
  - split_and!; [done..|]. intros id t0 l [[_ [= <- _]]|[_ Hid]]%lookup_insert_Some; [lia|by eapply Hreads].
  - destruct (obey_fields _ _ _ _ _ Hobey) as (Hid & Hty & Hrun'). rewrite (ids_replace _ w last) by done. split_and!; [done..| |done].
    by eapply holds_replaced.
  - destruct (obey_fields _ _ _ _ _ Hobey) as (Hid & Hty & Hrun'). destruct (Hreads _ _ _ Hrs) as [Ht0 Ht].
    rewrite (ids_replace _ w last) by done. split_and!; [|done..| |].
    + destruct (write_outcome _ _ _ _ _ _ _ _ _ _ _ Hf Hun Hl Hlead) as [[-> _]|(_ & _ & ->)]; [done|by apply set_leader_ok].
    + intros w2 last2 [[= -> ->]|Hin2]%entry_inv Hrun2; [|by eapply write_keeps_others].
      rewrite Hrun' in Hrun2. by eapply write_holds.
    + intros id t1 l1 [_ Hl1]%lookup_delete_Some. by eapply Hreads.
  - destruct (stop_fields _ _ Hstop) as (Hid & Hty & Hrun'). rewrite (ids_replace _ w last) by done. split_and!; [done..| |done].
    by eapply holds_replaced.
  - destruct (ids_removed _ _ _ _ Hnd Hne). split_and!; [done..| |].
    + intros w2 last2 Hin. apply Hholds. by apply entry_other.
    + intros id t1 l1 [_ Hl1]%lookup_delete_Some. by eapply Hreads.
  - rewrite ids_app. simpl. split_and!; [done| | | |done].
    + rewrite NoDup_app. split_and!; [done| |apply NoDup_singleton]. intros i Hi ->%list_elem_of_singleton. done.
    + apply Forall_app. split; [done|]. by constructor.
    + intros w2 last2 [Hin|[= -> ->]%list_elem_of_singleton]%elem_of_app Hrun2; [by apply Hholds|congruence].
Qed.

Lemma election_inv_reachable s : reachable s -> election_inv s.
Proof.
  intros (s0 & (Htab & Hfl & Hrs) & Hsteps). assert (election_inv s0) as Hinv.
  { unfold election_inv. rewrite Hfl, Hrs. simpl. split_and!; [done|constructor|constructor|by intros ? ? []%elem_of_nil|done]. }
  clear Htab Hfl Hrs. induction Hsteps as [|s0 s1 s2 H01 _ IH]; [done|]. by apply IH, (election_inv_step s0).
Qed.

(** ** The specification: a lock for each type of worker *)
Abbreviation locks := (gmap string string).

Inductive lock_step : locks -> locks -> Prop :=
| lock_acquire h ty id : h !! ty = None -> lock_step h (<[ ty := id ]> h)
| lock_release h ty id : h !! ty = Some id -> lock_step h (delete ty h).

(** The holder of the lock of a type is its running worker. *)
Definition abstracts (s : system) (h : locks) : Prop :=
  forall ty id, h !! ty = Some id <->
    exists w last, (w, last) ∈ s.(fleet) /\ w.(IsRunning) = true /\ w.(GetWorkerType) = ty /\ w.(GetID) = id.

(** The running workers of two fleets are the same. *)
Lemma abstracts_same s s' h :
  (forall ty id, (exists w last, (w, last) ∈ s.(fleet) /\ w.(IsRunning) = true /\ w.(GetWorkerType) = ty /\ w.(GetID) = id) <->
                 (exists w last, (w, last) ∈ s'.(fleet) /\ w.(IsRunning) = true /\ w.(GetWorkerType) = ty /\ w.(GetID) = id)) ->
  abstracts s h -> abstracts s' h.
Proof. intros Hsame Habs ty id. rewrite <- Hsame. apply Habs. Qed.

(** Running in a fleet with one entry set apart. *)
Lemma running_split pre (w : worker) (last : Z) post ty id :
  (exists w2 last2, (w2, last2) ∈ pre ++ (w, last) :: post /\ w2.(IsRunning) = true /\ w2.(GetWorkerType) = ty /\ w2.(GetID) = id) <->
  (w.(IsRunning) = true /\ w.(GetWorkerType) = ty /\ w.(GetID) = id) \/
  (exists w2 last2, (w2, last2) ∈ pre ++ post /\ w2.(IsRunning) = true /\ w2.(GetWorkerType) = ty /\ w2.(GetID) = id).
Proof.
  split.
  - intros (w2 & last2 & [[= -> ->]|Hin]%entry_inv & H); [by left|right; eauto].
  - intros [H|(w2 & last2 & Hin & H)]; [exists w, last|exists w2, last2]; (split; [|done]);
      [rewrite elem_of_app, elem_of_cons; auto|by apply entry_other].
Qed.

(** Taking a running worker out of the fleet releases its lock. *)
Lemma release_lock pre w last post t ls rs h :
  election_inv (mkSystem t ls (pre ++ (w, last) :: post) rs) -> abstracts (mkSystem t ls (pre ++ (w, last) :: post) rs) h ->
  w.(IsRunning) = true ->
  h !! w.(GetWorkerType) = Some w.(GetID) /\ abstracts (mkSystem t ls (pre ++ post) rs) (delete w.(GetWorkerType) h).
Proof.
  intros (_ & Hnd & _ & Hholds & _) Habs Hrun. simpl in *. split.
  - apply Habs. exists w, last. split; [|done]. simpl. rewrite elem_of_app, elem_of_cons. auto.
  - intros ty id. rewrite lookup_delete_Some, (Habs ty id). cbn [fleet]. rewrite running_split. split.
    + intros (Hty & [(_ & Hw & _)|H]); [congruence|done].
    + intros (w2 & last2 & Hin & Hrun2 & Hty & Hid). split; [|right; eauto 6]. intros Heq.
      assert ((w2, last2) ∈ pre ++ (w, last) :: post) as Hin2 by (by apply entry_other).
      assert ((w, last) ∈ pre ++ (w, last) :: post) as Hin1 by (rewrite elem_of_app, elem_of_cons; auto).
      destruct (Hholds _ _ Hin1 Hrun) as (_ & l & Hl & Hlid & _), (Hholds _ _ Hin2 Hrun2) as (_ & l2 & Hl2 & Hlid2 & _).
      apply (other_id _ _ _ _ _ _ Hnd Hin). rewrite Hty, <- Heq, Hl in Hl2. congruence.
Qed.

(** Adding a worker that does not run, or whose type nobody holds. *)
Lemma add_idle pre w last post t ls rs h :
  abstracts (mkSystem t ls (pre ++ post) rs) h -> w.(IsRunning) = false -> abstracts (mkSystem t ls (pre ++ (w, last) :: post) rs) h.
Proof.
  intros Habs Hrun ty id. cbn [fleet]. rewrite running_split, (Habs ty id), Hrun. cbn [fleet]. split; [by right|]. intros [[? _]|]; done.
Qed.

Lemma acquire_lock pre w last post t ls rs h :
  abstracts (mkSystem t ls (pre ++ post) rs) h -> w.(IsRunning) = true -> h !! w.(GetWorkerType) = None ->
  abstracts (mkSystem t ls (pre ++ (w, last) :: post) rs) (<[ w.(GetWorkerType) := w.(GetID) ]> h).
Proof.
  intros Habs Hrun Hnone ty id. cbn [fleet]. rewrite running_split, lookup_insert_Some, (Habs ty id). cbn [fleet]. split.
  - intros [[<- <-]|[_ H]]; [by left|by right].
  - intros [(_ & <- & <-)|H]; [by left|]. right. split; [|done]. intros <-. apply Habs in H. congruence.
Qed.

Lemma remove_idle pre w last post t ls rs h :
  abstracts (mkSystem t ls (pre ++ (w, last) :: post) rs) h -> w.(IsRunning) = false -> abstracts (mkSystem t ls (pre ++ post) rs) h.
Proof.
  intros Habs Hrun ty id. rewrite (Habs ty id). simpl. rewrite running_split, Hrun. simpl. split; [|by right]. by intros [[? _]|].
Qed.

Lemma abstracts_indep t t' ls ls' fl rs rs' h : abstracts (mkSystem t ls fl rs) h -> abstracts (mkSystem t' ls' fl rs') h.
Proof. done. Qed.

(** Removing the entry of a worker: at most one release. *)
Lemma take_out pre w last post t ls rs h :
  election_inv (mkSystem t ls (pre ++ (w, last) :: post) rs) -> abstracts (mkSystem t ls (pre ++ (w, last) :: post) rs) h ->
  exists h', rtc lock_step h h' /\ abstracts (mkSystem t ls (pre ++ post) rs) h'.
Proof.
  intros Hinv Habs. destruct (IsRunning w) eqn:Hrun.
  - destruct (release_lock _ _ _ _ _ _ _ _ Hinv Habs Hrun) as [Hh Habs']. exists (delete (GetWorkerType w) h).
    split; [|done]. apply rtc_once. by eapply lock_release.
  - exists h. split; [done|]. by eapply remove_idle.
Qed.

(** Every step of the fleet is a sequence of steps of the locks. *)
Lemma step_simulated s s' h : election_inv s -> step s s' -> abstracts s h ->
  exists h', rtc lock_step h h' /\ abstracts s' h'.
Proof.
  intros Hinv Hstep Habs.
  destruct Hstep as [t' t ls fl rs Ht Htimely Hprompt|t ls fl rs w last f lease Hin Hterm Hread
    |t ls pre w last post rs f e grp w' grp' Hterm Hread Hobey
    |t ls pre w last post rs f t0 lease locked r ls' grp w' grp' Hrs Hf Hl Hun Hlead Hobey
    |t ls pre w last post rs w' Hstop|t ls pre w last post rs|t ls fl rs w Hrun Hid Hfresh].
  - by exists h.
  - by exists h.
  - destruct (obey_fields _ _ _ _ _ Hobey) as (Hid & Hty & Hrun').
    destruct (take_out _ _ _ _ _ _ _ _ Hinv Habs) as (h1 & Hsteps & Habs1). exists h1. split; [done|]. by apply add_idle.
  - destruct (obey_fields _ _ _ _ _ Hobey) as (Hid & Hty & Hrun').
    destruct (take_out _ _ _ _ _ _ _ _ Hinv Habs) as (h1 & Hsteps & Habs1). destruct (leads r) eqn:Hb.
    + exists (<[ w'.(GetWorkerType) := w'.(GetID) ]> h1).
      assert (t0 <= t) as Ht0 by (destruct Hinv as (_ & _ & _ & _ & Hreads); by destruct (Hreads _ _ _ Hrs)).
      assert (h1 !! GetWorkerType w' = None) as Hnone.
      { destruct (h1 !! GetWorkerType w') as [id|] eqn:Hh; [|done]. apply Habs1 in Hh as (w2 & last2 & Hin & Hrun2 & Hty2 & _).
        destruct (write_keeps_others _ _ _ _ _ _ _ _ _ _ _ _ _ _ _ Hinv Ht0 Hf Hl Hun Hlead Hin Hrun2) as [_ Hne]. destruct (Hne Hb). congruence. }
      split; [eapply rtc_r; [done|by apply lock_acquire]|]. apply acquire_lock; [by eapply abstracts_indep|done|done].
    + exists h1. split; [done|]. apply add_idle; [by eapply abstracts_indep|done].
  - destruct (stop_fields _ _ Hstop) as (Hid & Hty & Hrun').
    destruct (take_out _ _ _ _ _ _ _ _ Hinv Habs) as (h1 & Hsteps & Habs1). exists h1. split; [done|]. by apply add_idle.
  - destruct (take_out _ _ _ _ _ _ _ _ Hinv Habs) as (h1 & Hsteps & Habs1). exists h1. by split.
  - exists h. split; [done|]. apply add_idle; [|done]. by rewrite app_nil_r.
Qed.
End System.

(** ** The theorems *)

(** [C6] The election implements a lock for each type of worker, provided that
    no other acquisition of the same type comes between the query and the
    transaction of an acquisition (the code does not read the lease again once it
    has locked it, so that overlapping polls of one type can elect two leaders:
    [stale_read_two_leaders]).  When polls come within thirty seconds of each
    other and within the duration of a lease, and finish within that time, the
    running workers of every reachable state are the holders that some history of
    acquisitions of free locks and of releases leaves.  Queries and transactions
    of different types interleave freely, workers crash, shut down and join, and
    the database may refuse anything but commits. *)
Theorem leader_election_refines_lock duration period s :
  period <= 30 * second -> period <= duration -> 0 <= period -> reachable duration period s ->
  exists h, rtc lock_step ∅ h /\ abstracts s h.
Proof.
  intros Hp Hd H0 (s0 & (Htab & Hfl & Hrs) & Hsteps).
  assert (election_inv period s0) as Hinv by (apply (election_inv_reachable duration); [done..|exists s0; repeat split; try apply Htab; done]).
  assert (abstracts s0 ∅) as Habs.
  { intros ty id. rewrite lookup_empty, Hfl. split; [done|]. intros (? & ? & []%elem_of_nil & _). }
  assert (exists h, rtc lock_step ∅ h /\ abstracts s0 h) as (h & Hh & Habs') by eauto using rtc_refl. clear Habs Htab Hfl Hrs.
  revert h Hh Habs'. induction Hsteps as [|s0 s1 s2 H01 _ IH]; intros h Hh Habs; [eauto|].
  destruct (step_simulated duration period _ _ _ Hinv H01 Habs) as (h1 & Hh1 & Habs1).
  apply (IH (election_inv_step duration period Hp Hd H0 _ _ Hinv H01) h1); [by etransitivity|done].
Qed.

(** At most one worker of each type runs, in all the replicas together. *)
Theorem one_leader_per_type duration period s w1 last1 w2 last2 :
  period <= 30 * second -> period <= duration -> 0 <= period -> reachable duration period s ->
  (w1, last1) ∈ s.(fleet) -> (w2, last2) ∈ s.(fleet) -> w1.(IsRunning) = true -> w2.(IsRunning) = true ->
  w1.(GetWorkerType) = w2.(GetWorkerType) -> w1.(GetID) = w2.(GetID).
Proof.
  intros Hp Hd H0 (_ & _ & _ & Hholds & _)%(election_inv_reachable duration period Hp Hd H0) Hin1 Hin2 Hrun1 Hrun2 Hty.
  destruct (Hholds _ _ Hin1 Hrun1) as (_ & l1 & Hl1 & <- & _), (Hholds _ _ Hin2 Hrun2) as (_ & l2 & Hl2 & <- & _).
  rewrite Hty, Hl2 in Hl1. congruence.
Qed.

(** Failover: when the lease of a type is free or has expired, the first
    healthy worker of that type that is polled takes it and runs, and the lease
    names it until [duration] later; the leases of other types stay. *)
Theorem expired_lease_is_taken duration now w ls l grp :
  table_ok ls -> List.find (of_type w.(GetWorkerType)) ls = Some l -> isExpired now l = true ->
  w.(IsRunning) = false ->
  exists ls', isWorkerLeader duration no_faults now w ls = (true, ls') /\
    obey true w grp = Ok (Reconciler_Start w, grp + 1) /\
    List.find (of_type w.(GetWorkerType)) ls' = Some (mkLease l.(LL_ID) w.(GetID) w.(GetWorkerType) (now + duration)) /\
    (forall ty, ty <> w.(GetWorkerType) -> List.find (of_type ty) ls' = List.find (of_type ty) ls).
Proof.
  intros Htab Hl Hexp Hrun. exists (set_leader l.(LL_ID) w.(GetID) (now + duration) ls).
  split_and!; [|unfold obey; by rewrite Hrun|by apply find_set_same|intros ty Hty; by apply (find_set_other (GetWorkerType w))].
  unfold isWorkerLeader, acquireLeaderLease, acquire_read. simpl. rewrite Hl. unfold acquire_write.
  rewrite Hexp, find_unlocked, Hl, bool_decide_true by eauto. done.
Qed.

(** A pass of a manager over its workers is a sequence of steps of the fleet:
    each poll is its two halves, one after the other. *)
Lemma poll_steps duration period f t w ls b ls' pre last post grp w' grp' :
  f.(commit_fault) = false -> w.(HasTerminated) = false -> isWorkerLeader duration f t w ls = (b, ls') -> obey b w grp = Ok (w', grp') ->
  rtc (step duration period) (mkSystem t ls (pre ++ (w, last) :: post) ∅) (mkSystem t ls' (pre ++ (w', t) :: post) ∅).
Proof.
  intros Hf Hterm Hlead Hobey. unfold isWorkerLeader, acquireLeaderLease in Hlead.
  destruct (acquire_read f (GetWorkerType w) ls) as [lease|e] eqn:Hread.
  - destruct (acquire_write _ _ _ _ _ _ _ _ _) as [r ls1] eqn:Hw. assert (b = leads r /\ ls' = ls1) as [-> ->] by (destruct r; by injection Hlead).
    assert (List.find (of_type (GetWorkerType w)) ls = Some lease) as Hl.
    { unfold acquire_read in Hread. destruct (read_fault f); [done|]. destruct (List.find _ _); [by injection Hread as ->|done]. }
    eapply rtc_l; [eapply step_read; [|done|exact Hread]; rewrite elem_of_app, elem_of_cons; auto|].
    replace ∅ with (delete (GetID w) (<[GetID w := (t, lease)]> (∅ : gmap string (Z * LeaderLease)))) at 2 by (by rewrite delete_insert_id).
    apply rtc_once. eapply step_write; [by rewrite lookup_insert_eq|done..].
  - injection Hlead as <- <-. apply rtc_once. by eapply step_read_fails.
Qed.

Lemma startWorkers_steps duration period env t fl : forall grp ls ws' grp' ls' pre post,
  (forall w, (env w).1.(commit_fault) = false /\ (env w).2 = t) ->
  startWorkers duration env (map fst fl) grp ls = Ok (ws', grp', ls') ->
  exists fl', map fst fl' = ws' /\
    rtc (step duration period) (mkSystem t ls (pre ++ fl ++ post) ∅) (mkSystem t ls' (pre ++ fl' ++ post) ∅).
Proof.
  induction fl as [|[w last] fl IH]; intros grp ls ws' grp' ls' pre post Henv Hstart; simpl in Hstart.
  - injection Hstart as <- <- <-. by exists [].
  - destruct (HasTerminated w) eqn:Hterm.
    + destruct (if IsRunning w then _ else _) as [[w1 grp1]|e]; [|done]. simpl in Hstart.
      destruct (IH _ _ _ _ _ pre post Henv Hstart) as (fl' & Hfl' & Hsteps). exists fl'. split; [done|].
      eapply rtc_l; [|exact Hsteps]. replace ∅ with (delete (GetID w) (∅ : gmap string (Z * LeaderLease))) at 2 by apply delete_empty.
      apply step_leave.
    + destruct (Henv w) as [Hf Ht]. destruct (env w) as [f now]. simpl in Hf, Ht. subst now.
      destruct (isWorkerLeader duration f t w ls) as [b ls1] eqn:Hlead.
      destruct (obey b w grp) as [[w1 grp1]|e] eqn:Hobey; [|done]. simpl in Hstart.
      destruct (startWorkers duration env (map fst fl) grp1 ls1) as [[[ws1 grp2] ls2]|e] eqn:Hrest; [|done].
      simpl in Hstart. injection Hstart as <- <- <-.
      destruct (IH _ _ _ _ _ (pre ++ [(w1, t)]) post Henv Hrest) as (fl' & Hfl' & Hsteps).
      exists ((w1, t) :: fl'). simpl. split; [by rewrite Hfl'|]. rewrite <- !app_assoc in Hsteps.
      etransitivity; [|exact Hsteps]. by eapply poll_steps.
Qed.

(** The lease that was read is not checked again under the lock: two
    workers that read the same expired lease both acquire it, one after the
    other, and both run until the first is polled again.  The exclusion above
    therefore needs the two halves of an acquisition to be uninterrupted. *)
Theorem stale_read_two_leaders duration t ls ty lease a b :
  table_ok ls -> acquire_read no_faults ty ls = Ok lease -> isExpired t lease = true ->
  exists ls1 ls2,
    acquire_write duration no_faults t t a ty lease (fun _ => false) ls = (Ok (mkAcquisition true lease), ls1) /\
    acquire_write duration no_faults t t b ty lease (fun _ => false) ls1 = (Ok (mkAcquisition true lease), ls2) /\
    List.find (of_type ty) ls1 = Some (mkLease lease.(LL_ID) a ty (t + duration)) /\
    List.find (of_type ty) ls2 = Some (mkLease lease.(LL_ID) b ty (t + duration)).
Proof.
  intros Htab Hread Hexp. unfold acquire_read in Hread. simpl in Hread.
  destruct (List.find (of_type ty) ls) as [l|] eqn:Hl; [|done]. injection Hread as ->.
  pose proof (find_set_same ty ls lease a (t + duration) Htab Hl) as Hl1.
  pose proof (find_set_same ty _ _ b (t + duration) (set_leader_ok lease.(LL_ID) a (t + duration) _ Htab) Hl1) as Hl2.
  exists (set_leader lease.(LL_ID) a (t + duration) ls).
  exists (set_leader lease.(LL_ID) b (t + duration) (set_leader lease.(LL_ID) a (t + duration) ls)).
  split_and!; [| |done|done]; unfold acquire_write; rewrite Hexp, find_unlocked, ?Hl, ?Hl1, bool_decide_true by eauto; done.
Qed.

(** ** Witnesses *)
Definition kafka_lease : LeaderLease := mkLease "l1" "" "kafka" 0.
Definition worker_a : worker := new_worker "a" "kafka".
Definition worker_b : worker := new_worker "b" "kafka".

(** Two workers join; the first reads the lease, and takes it five seconds
    later; the second then finds it taken. *)
Definition fleet_run : system :=
  mkSystem (5 * second) [mkLease "l1" "a" "kafka" (60 * second)] [(Reconciler_Start worker_a, 0); (worker_b, 5 * second)] ∅.

Lemma table_ok_one l : table_ok [l].
Proof. split; apply NoDup_singleton. Qed.

Lemma fleet_run_reachable : reachable (60 * second) (15 * second) fleet_run.
Proof.
  exists (mkSystem 0 [kafka_lease] [] ∅). split; [repeat split; apply table_ok_one|].
  eapply rtc_l; [apply (step_join _ _ 0 [kafka_lease] [] ∅ worker_a); [done|done|by intros ?%elem_of_nil]|].
  eapply rtc_l; [apply (step_join _ _ 0 [kafka_lease] [(worker_a, 0)] ∅ worker_b); [done|done|by intros [?|?%elem_of_nil]%elem_of_cons]|].
  eapply rtc_l; [by apply (step_read _ _ 0 [kafka_lease] _ ∅ worker_a 0 no_faults kafka_lease); [left|..]|].
  eapply rtc_l; [apply (step_time _ _ (5 * second)); [done| |]|].
  { intros w last [[= -> ->]|[[= -> ->]|[]%elem_of_nil]%elem_of_cons]%elem_of_cons Hrun; done. }
  { by intros id t0 lease [[_ [= <- _]]|[_ ?]]%lookup_insert_Some. }
  eapply rtc_l; [by apply (step_write _ _ (5 * second) [kafka_lease] [] worker_a 0 [(worker_b, 0)] _ no_faults 0 kafka_lease (fun _ => false)
    (Ok (mkAcquisition true kafka_lease)) [mkLease "l1" "a" "kafka" (60 * second)] 0 (Reconciler_Start worker_a) 1)|].
  exact (poll_steps (60 * second) (15 * second) no_faults (5 * second) worker_b [mkLease "l1" "a" "kafka" (60 * second)] false
    [mkLease "l1" "a" "kafka" (60 * second)] [(Reconciler_Start worker_a, 0)] 0 [] 1 worker_b 1 eq_refl eq_refl eq_refl eq_refl).
Qed.

Lemma leader_election_refines_lock_witness : exists h, rtc lock_step ∅ h /\ abstracts fleet_run h.
Proof. apply (leader_election_refines_lock (60 * second) (15 * second)); [done|done|done|apply fleet_run_reachable]. Defined.

Lemma one_leader_per_type_witness : (Reconciler_Start worker_a).(GetID) = "a" /\ "a" = (Reconciler_Start worker_a).(GetID).
Proof.
  split; [reflexivity|].
  apply (one_leader_per_type (60 * second) (15 * second) fleet_run (Reconciler_Start worker_a) 0 (Reconciler_Start worker_a) 0);
    [done|done|done|apply fleet_run_reachable|left|left|done|done|done].
Defined.

Lemma expired_lease_is_taken_witness :
  exists ls', isWorkerLeader (60 * second) no_faults 7 worker_a [kafka_lease] = (true, ls') /\
    obey true worker_a 0 = Ok (Reconciler_Start worker_a, 0 + 1) /\
    List.find (of_type "kafka") ls' = Some (mkLease "l1" "a" "kafka" (7 + 60 * second)) /\
    (forall ty, ty <> "kafka" -> List.find (of_type ty) ls' = List.find (of_type ty) [kafka_lease]).
Proof. apply (expired_lease_is_taken (60 * second) 7 worker_a [kafka_lease] kafka_lease 0); [apply table_ok_one|done|done|done]. Defined.

Lemma manager_group_counts_running_witness :
  Forall (fun w => worker_ok w = true) [worker_a; Reconciler_Start worker_b] /\
  exists ws' ls' stopped,
    startWorkers (60 * second) (fun _ => (no_faults, 7)) [worker_a; Reconciler_Start worker_b] 1 [kafka_lease] = Ok (ws', running ws', ls') /\
    tear_down ws' (running ws') = Ok (stopped, 0).
Proof.
  assert (Forall (fun w => worker_ok w = true) [worker_a; Reconciler_Start worker_b]) as H by (repeat constructor).
  split; [exact H|].
  destruct (manager_group_counts_running (60 * second) (fun _ => (no_faults, 7)) [worker_a; Reconciler_Start worker_b] [kafka_lease] H)
    as (ws' & ls' & stopped & H1 & _ & _ & H2 & _).
  exists ws', ls', stopped. split; [exact H1|exact H2].
Defined.

Lemma stale_read_two_leaders_witness :
  exists ls1 ls2,
    acquire_write (60 * second) no_faults 7 7 "a" "kafka" kafka_lease (fun _ => false) [kafka_lease] = (Ok (mkAcquisition true kafka_lease), ls1) /\
    acquire_write (60 * second) no_faults 7 7 "b" "kafka" kafka_lease (fun _ => false) ls1 = (Ok (mkAcquisition true kafka_lease), ls2) /\
    List.find (of_type "kafka") ls1 = Some (mkLease "l1" "a" "kafka" (7 + 60 * second)) /\
    List.find (of_type "kafka") ls2 = Some (mkLease "l1" "b" "kafka" (7 + 60 * second)).
Proof. apply (stale_read_two_leaders (60 * second) 7 [kafka_lease] "kafka" kafka_lease "a" "b"); [apply table_ok_one|done|done]. Defined.
