(* ===== verification/Validation.v ===== *)
(** * Requests and their validation

    The frame of the REST handlers ([src/pkg/handlers/framework.go]) and the
    validators they run before their action ([src/pkg/handlers/validation.go],
    [src/internal/kafka/internal/handlers/validation.go], and the promotion
    validators beside it).

    A validator is a computation that ends or throws.  A validator that is given
    the address of the payload reads it after the body was decoded; one that is
    given a field reads the payload as it was when the handler was set up.  The
    decoded body, or the error of the JSON decoder, is a part of the request. *)
From Stdlib Require Import QArith.
From S2P Require Import Prelude Arrays Errors Status Config Model Versions Store Resources Providers Fixtures ClusterService Placement KafkaService.
From S2P Require Import QuotaList Scanner StateMachine QueryParser Listing.

Open Scope Z_scope.

(** ** Claims: [src/pkg/auth/kfm_claims.go]

    The claims of a token that the handlers read.  A claim is absent or has the
    type that the code asserts it to have; an organisation that is not a string
    counts as absent. *)
Record KFMClaims := mkKFMClaims {
  tenantUsername : option string;
  alternateTenantUsername : option string;
  tenantUserId : option string;
  tenantId : option string;
  alternateTenantId : option string;
  tenantOrgAdmin : option bool
}.
Definition no_claims : KFMClaims := mkKFMClaims None None None None None None.

Definition GetUsername (c : KFMClaims) : result error string :=
  match c.(tenantUsername), c.(alternateTenantUsername) with
  | Some u, _ | None, Some u => Ok u
  | None, None => Err (EPlain "can't find neither '%s' or '%s' attribute in claims")
  end.

Definition GetAccountId (c : KFMClaims) : result error string :=
  match c.(tenantUserId) with Some id => Ok id | None => Err (EPlain "can't find '%s' attribute in claims") end.

Definition GetOrgId (c : KFMClaims) : result error string :=
  match c.(tenantId), c.(alternateTenantId) with
  | Some o, _ | None, Some o => Ok o
  | None, None => Err (EPlain "can't find neither '%s' or '%s' attribute in claims")
  end.

Definition Claims_IsOrgAdmin (c : KFMClaims) : bool := default false c.(tenantOrgAdmin).

(** [s, _ := f()]: the zero value in the place of an error. *)
Definition value_or_zero {E} (r : result E string) : string := match r with Ok s => s | Err _ => "" end.

(** What the services read of a context: [auth.GetClaimsFromContext],
    [auth.GetIsAdminFromContext] and the filtering by organisation. *)
Record RequestContext := mkRequestContext {
  rc_claims : result error KFMClaims;
  rc_is_admin : bool;
  rc_filter_by_organisation : bool
}.
Definition claims_of (c : KFMClaims) : Claims :=
  mkClaims (value_or_zero (GetUsername c)) (value_or_zero (GetOrgId c)) (Claims_IsOrgAdmin c).
Definition auth_context (ctx : RequestContext) : AuthContext :=
  mkAuthContext (match ctx.(rc_claims) with Ok c => Ok (claims_of c) | Err e => Err e end)
    ctx.(rc_is_admin) ctx.(rc_filter_by_organisation).

Definition getClaims (ctx : RequestContext) : result ServiceError KFMClaims :=
  map_err (fun _ => Unauthenticated "user not authenticated") ctx.(rc_claims).

(** [claims, _ := getClaims(ctx)]: without claims, an empty map. *)
Definition claims_or_none (ctx : RequestContext) : KFMClaims :=
  match ctx.(rc_claims) with Ok c => c | Err _ => no_claims end.

(** ** The frame of a handler *)
Record Request (Body : Type) := mkRequest {
  req_ctx : RequestContext;
  req_id : string;
  req_query : string -> string;
  req_body : result error Body
}.
Arguments mkRequest {Body}.
Arguments req_ctx {Body}.
Arguments req_id {Body}.
Arguments req_query {Body}.
Arguments req_body {Body}.

Definition StatusOK : Z := 200.
Definition StatusAccepted : Z := 202.
Definition StatusNoContent : Z := 204.

Section Frame.
Context {W : Type}.

Definition Validator : Type := M W ServiceError unit.

Record HandlerConfig (Body A : Type) := mkHandlerConfig {
  Validate : list (Body -> Validator);
  Action : Body -> M W ServiceError A
}.

(** The status and the body of the response, or the error that is written with
    its own status. *)
Definition run_validated {Body A} (cfg : HandlerConfig Body A) (payload : Body) (httpStatus : Z) : M W ServiceError (Z * A) :=
  _ <~ for_each (fun v => v payload) cfg.(Validate _ _) ;;
  a <~ cfg.(Action _ _) payload ;;
  ret (httpStatus, a).

Definition Handle {Body A} (r : Request Body) (cfg : HandlerConfig Body A) (httpStatus : Z) : M W ServiceError (Z * A) :=
  payload <~ lift (map_err (fun _ => MalformedRequest "invalid request format: %s") r.(req_body)) ;;
  run_validated cfg payload httpStatus.

(** The other entry points decode no body. *)
Definition HandleDelete {A} (cfg : HandlerConfig unit A) (httpStatus : Z) : M W ServiceError (Z * A) :=
  run_validated cfg tt httpStatus.
Definition HandleGet {A} (cfg : HandlerConfig unit A) : M W ServiceError (Z * A) := run_validated cfg tt StatusOK.
Definition HandleList {A} (cfg : HandlerConfig unit A) : M W ServiceError (Z * A) := run_validated cfg tt StatusOK.
End Frame.
Arguments Validator : clear implicits.
Arguments mkHandlerConfig {W Body A}.
Arguments Validate {W Body A}.
Arguments Action {W Body A}.

(** The status that a response is written with. *)
Definition response_status {A} (r : result ServiceError (Z * A)) : Z :=
  match r with Ok (code, _) => code | Err e => HttpCode e end.

(** ** Patterns of values *)
Definition lower_letter (c : Z) : bool := in_range 97 122 c.
Definition digit (c : Z) : bool := in_range 48 57 c.
Definition hex_digit (c : Z) : bool := digit c || in_range 97 102 c.
Definition alphanumeric (c : Z) : bool := letter c || digit c.

Fixpoint RTimes (n : nat) (r : regex) : regex := match n with O => REps | S n' => RSeq r (RTimes n' r) end.
(** [r{0,n}] and [r?]. *)
Fixpoint RUpTo (n : nat) (r : regex) : regex := match n with O => REps | S n' => RAlt REps (RSeq r (RUpTo n' r)) end.
Definition ROpt (r : regex) : regex := RAlt r REps.
Definition RPlus (r : regex) : regex := RSeq r (RStar r).

(** [^[a-z]([-a-z0-9]*[a-z0-9])?$] *)
Definition name_tail_char (c : Z) : bool := lower_letter c || digit c.
Definition name_char (c : Z) : bool := (c =? 45) || name_tail_char c.
Definition ValidKafkaClusterNameRegexp : regex :=
  RSeq (RClass lower_letter) (ROpt (RSeq (RStar (RClass name_char)) (RClass name_tail_char))).
Definition ValidServiceAccountNameRegexp : regex := ValidKafkaClusterNameRegexp.

Definition ValidUuidRegexp : regex :=
  let h := RClass hex_digit in let dash := RText [45] in
  RSeq (RTimes 8 h) (RSeq dash (RSeq (RTimes 4 h) (RSeq dash (RSeq (RTimes 4 h) (RSeq dash (RSeq (RTimes 4 h) (RSeq dash (RTimes 12 h)))))))).
Definition ValidClientIdUuidRegexp : regex := RSeq (RText (runes "srvc-acct-")) ValidUuidRegexp.

(** [^[a-zA-Z0-9.,\-\s]*$] *)
Definition ValidServiceAccountDescRegexp : regex :=
  RStar (RClass (fun c => alphanumeric c || existsb (Z.eqb c) [46; 44; 45; 9; 10; 12; 13; 32])).
Definition ValidAlphaNumeric : regex := RStar (RClass alphanumeric).

(** [^(?:[_a-z0-9](?:[_a-z0-9-]{0,61}[a-z0-9])?\.)+(?:[a-z](?:[a-z0-9-]{0,61}[a-z0-9])?)?$] *)
Definition ValidDnsName : regex :=
  let tail := RClass name_tail_char in
  let label := RSeq (RClass (fun c => (c =? 95) || name_tail_char c))
                 (RSeq (ROpt (RSeq (RUpTo 61 (RClass (fun c => (c =? 95) || name_char c))) tail)) (RText [46])) in
  RSeq (RPlus label) (ROpt (RSeq (RClass lower_letter) (ROpt (RSeq (RUpTo 61 (RClass name_char)) tail)))).

Definition MatchString (r : regex) (s : string) : bool := re_match r (runes_of s).

Definition MinRequiredFieldLength : Z := 1.
Definition MaxServiceAccountNameLength : Z := 50.
Definition MaxServiceAccountDescLength : Z := 255.
Definition MaxServiceAccountId : Z := 36.
Definition MaxServiceAccountClientId : Z := 47.
Definition MaxKafkaNameLength : Z := 32.
Definition ClusterIdLength : Z := 32.
Definition minimunNumberOfNodesForTheKafkaMachinePool : Z := 3.

Definition len (s : string) : Z := Z.of_nat (String.length s).

(** The length of the value without spaces around it, for a pointer that is not
    nil. *)
Definition stringSet (value : string) : bool := 0 <? len (Trim value).

(** ** Payloads *)
Record KafkaRequestPayload := mkKafkaRequestPayload {
  KRP_CloudProvider : string;
  KRP_Name : string;
  KRP_Region : string;
  KRP_ReauthenticationEnabled : option bool;
  KRP_Plan : string;
  KRP_BillingCloudAccountId : option string;
  KRP_Marketplace : option string;
  KRP_BillingModel : option string;
  KRP_ClusterId : option string
}.
#[export] Instance zero_KafkaRequestPayload : Zero KafkaRequestPayload := mkKafkaRequestPayload "" "" "" None "" None None None None.

Record KafkaUpdateRequest := mkKafkaUpdateRequest {
  KUR_Owner : option string;
  KUR_ReauthenticationEnabled : option bool
}.

Record AdminKafkaUpdateRequest := mkAdminKafkaUpdateRequest {
  AKU_StrimziVersion : string;
  AKU_KafkaVersion : string;
  AKU_KafkaIbpVersion : string;
  AKU_MaxDataRetentionSize : string;
  AKU_Suspended : option bool
}.

Record KafkaPromoteRequest := mkKafkaPromoteRequest {
  KPR_DesiredKafkaBillingModel : string;
  KPR_DesiredMarketplace : string;
  KPR_DesiredBillingCloudAccountId : string
}.

Record EnterpriseOsdClusterPayload := mkEnterpriseOsdClusterPayload {
  EOC_AccessKafkasViaPrivateNetwork : bool;
  EOC_ClusterId : string;
  EOC_ClusterIngressDnsName : string;
  EOC_KafkaMachinePoolNodeCount : Z
}.

(** ** The services that validators and handlers call

    The billing part of [QuotaService], [authorization.Authorization] and the
    account number that [account.AccountService] finds for an organisation. *)
Class HandlerServices (W : Type) `{Database W} := {
  validate_billing_account : string -> string -> string -> string -> option string -> M W ServiceError unit;
  check_user_valid : string -> string -> M W error bool;
  get_organization : string -> M W error (option string);
  validate_billing_account_ro : forall o t b c m, read_only (validate_billing_account o t b c m);
  check_user_valid_ro : forall u o, read_only (check_user_valid u o);
  get_organization_ro : forall f, read_only (get_organization f)
}.
#[export] Hint Resolve validate_billing_account_ro check_user_valid_ro get_organization_ro : fleet.

(** Quantities of [k8s.io/apimachinery/pkg/api/resource]: a quantity stands for
    a rational amount; its conversion to 64 bits tells whether it is exact, and
    is 0 when it is not; its value is the amount rounded up. *)
Class QuantityLib := {
  Quantity : Type;
  amount : Quantity -> Q;
  ParseQuantity : string -> result error Quantity;
  Quantity_Value : Quantity -> Z;
  AsInt64 : Quantity -> Z * bool;
  CmpInt64 : Quantity -> Z -> Z;
  AsInt64_exact : forall q n, AsInt64 q = (n, true) -> (amount q == inject_Z n)%Q;
  AsInt64_inexact : forall q n, AsInt64 q = (n, false) -> n = 0;
  CmpInt64_neg : forall q n, CmpInt64 q n < 0 <-> (amount q < inject_Z n)%Q
}.

(** [Quantity.ToInt64] of the configuration. *)
Definition ToInt64 `{QuantityLib} (q : string) : result error Z :=
  p <-! ParseQuantity q ;; Ok (Quantity_Value p).

(** ** The validators of [src/pkg/handlers/validation.go] *)
Section Common.
Context {W : Type}.

Definition require (b : bool) (e : ServiceError) : Validator W := if b then ret tt else throw e.

Definition ValidateAsyncEnabled {Body} (r : Request Body) (action : string) : Validator W :=
  require (r.(req_query) "async" =?s "true") SyncActionNotSupported.

Definition ValidateServiceAccountName (value field : string) : Validator W :=
  require (MatchString ValidServiceAccountNameRegexp value) (MalformedServiceAccountName "%s does not match %s").
Definition ValidateServiceAccountDesc (value field : string) : Validator W :=
  require (MatchString ValidServiceAccountDescRegexp value) (MalformedServiceAccountDesc "%s does not match %s").
Definition ValidateServiceAccountId (value field : string) : Validator W :=
  require (MatchString ValidUuidRegexp value) (MalformedServiceAccountId "%s does not match %s").
Definition ValidateExternalClusterId (value field : string) : Validator W :=
  require (MatchString ValidUuidRegexp value) (InvalidExternalClusterId "%s does not match %s").

Definition ValidateNotEmptyClusterId (value : option string) (field : string) : Validator W :=
  match value with
  | Some v => require (negb ((0 <? len v) && negb (MatchString ValidAlphaNumeric v))) (InvalidClusterId "%s does not match %s")
  | None => ret tt
  end.

Definition ValidateDnsName (value field : string) : Validator W :=
  require (MatchString ValidDnsName value) (InvalidDnsName "%s does not match %s").

Definition REDHAT_SSO : string := "redhat_sso".
Definition ValidateServiceAccountClientId (value field ssoProvider : string) : Validator W :=
  if ssoProvider =?s REDHAT_SSO then ret tt
  else require (MatchString ValidClientIdUuidRegexp value) (MalformedServiceAccountId "%s does not match %s").

Definition ValidateMaxLength (value field : string) (maxVal : option Z) : Validator W :=
  match maxVal with
  | Some m => require (negb (m <? len value)) (MaximumFieldLengthExceeded "%s is not valid, maximum length %d is required")
  | None => ret tt
  end.

Definition ValidateMinLength (value field : string) (min : Z) : Validator W :=
  require (negb (len value <? min)) (MinimumFieldLengthNotReached "%s is not valid, minimum length %d is required").

Definition ValidateLength (value field : string) (min : Z) (maxVal : option Z) : Validator W :=
  let min := if min <? 1 then 1 else min in
  _ <~ ValidateMaxLength value field maxVal ;;
  ValidateMinLength value field min.

(** [strconv.ParseInt(s, 10, 64)]: whether [s] is a number in range. *)
Definition parses_int64 (s : string) : bool :=
  let '(neg, digits) := match s with
                        | String c s' => if Ascii.eqb c "-" then (true, s') else if Ascii.eqb c "+" then (false, s') else (false, s)
                        | EmptyString => (false, s)
                        end in
  match unsigned digits with
  | None => false
  | Some n => if neg then n <=? 2 ^ 63 else n <? 2 ^ 63
  end.

Definition ValidateQueryParam (queryParams : string -> string) (field : string) : Validator W :=
  let fieldValue := queryParams field in
  if fieldValue =?s "" then throw (FailedToParseQueryParms "bad request, cannot parse query parameter '%s' '%s'")
  else require (parses_int64 fieldValue) (FailedToParseQueryParms "bad request, cannot parse query parameter '%s' '%s'").
End Common.

(** ** The validators of the Kafka handlers *)
#[export] Instance zero_Provider : Zero Provider := mkProvider "" false [].
#[export] Instance zero_Region : Zero Region := mkRegion "" false [].

Section Kafka.
Context {W : Type} `{Database W} `{!KafkaExternals W} `{!HandlerServices W} `{!ListQueries W}.
Context (past_end : text -> Z -> result error text).
Context (kafkaConfig : KafkaConfig) (providerConfig : ProviderConfig).

(** *** Claims *)
Definition ValidateKafkaClaimsOptions : Type := KFMClaims -> result ServiceError unit.

Definition ValidateUsername : ValidateKafkaClaimsOptions := fun claims =>
  match GetUsername claims with Ok _ => Ok tt | Err err => Err (New ErrorForbidden (error_text err)) end.
Definition ValidateOrganisationId : ValidateKafkaClaimsOptions := fun claims =>
  match GetOrgId claims with Ok _ => Ok tt | Err err => Err (New ErrorForbidden (error_text err)) end.

(** [err] is the error of the latest call: that of [getClaims] at first. *)
Fixpoint validate_claims (claims : KFMClaims) (err : result ServiceError unit) (validations : list ValidateKafkaClaimsOptions)
  : result ServiceError unit :=
  match validations with
  | [] => err
  | validation :: rest =>
      match validation claims with
      | Err e => Err e
      | Ok _ => validate_claims claims (Ok tt) rest
      end
  end.

Definition ValidateKafkaClaims (ctx : RequestContext) (validations : list ValidateKafkaClaimsOptions) : Validator W :=
  lift (validate_claims (claims_or_none ctx) (_ <-! getClaims ctx ;; Ok tt) validations).

(** *** Instance type, size, provider and region *)
Definition AssignInstanceType_of (claims : KFMClaims) : M W ServiceError string :=
  AssignInstanceType kafkaConfig (value_or_zero (GetUsername claims)) (value_or_zero (GetOrgId claims)).

Definition getInstanceTypeAndSize (ctx : RequestContext) (payload : KafkaRequestPayload) : M W ServiceError (string * string) :=
  claims <~ lift (getClaims ctx) ;;
  instanceType <~ AssignInstanceType_of claims ;;
  if stringSet payload.(KRP_Plan) then
    match Plan_GetInstanceType payload.(KRP_Plan) with
    | Err _ => throw (New ErrorBadRequest "unable to detect instance type in plan provided: %q")
    | Ok instTypeFromPlan =>
        if negb (instTypeFromPlan =?s instanceType) then throw (New ErrorBadRequest "unable to detect instance type in plan provided: %q")
        else
          size <~ lift (map_err (fun _ => New ErrorBadRequest "unable to detect instance size in plan provided: %q")
                          (Plan_GetSizeID payload.(KRP_Plan))) ;;
          _ <~ lift (map_err (fun _ => InstancePlanNotSupported "unsupported plan provided: %q")
                       (GetKafkaInstanceSize kafkaConfig instTypeFromPlan size)) ;;
          ret (instanceType, size)
    end
  else
    rSize <~ lift (map_err (fun _ => InstanceTypeNotSupported "unsupported kafka instance type: %q provided")
                     (GetFirstAvailableSize kafkaConfig instanceType)) ;;
    ret (instanceType, rSize.(Size_Id)).

Definition ValidateKafkaPlan (ctx : RequestContext) (payload : KafkaRequestPayload) : Validator W :=
  _ <~ getInstanceTypeAndSize ctx payload ;; ret tt.

Definition getCloudProviderAndRegion (ctx : RequestContext) (payload : KafkaRequestPayload) : M W ServiceError (string * string) :=
  let supportedProviders := providerConfig.(SupportedProviders) in
  let defaultProvider := match GetDefault supportedProviders with Ok p => p | Err _ => zero end in
  let providerName := FirstNonEmptyOrDefault defaultProvider.(Provider_Name) [payload.(KRP_CloudProvider)] in
  let found := ProviderList_GetByName supportedProviders providerName in
  let provider := default zero found in
  let dedicated := negb (StringEmptyPtr payload.(KRP_ClusterId)) in
  if bool_decide (found = None) && negb dedicated
  then throw (ProviderNotSupported "provider %s is not supported, supported providers are: %s")
  else if negb (StringEmpty payload.(KRP_Region)) && negb dedicated && negb (IsRegionSupported provider payload.(KRP_Region))
  then throw (RegionNotSupported "region %s is not supported for %s, supported regions are: %s")
  else
    claims <~ lift (getClaims ctx) ;;
    instanceType <~ wrap_err (general_svc "error assigning instance type: %s") (AssignInstanceType_of claims) ;;
    let region := if payload.(KRP_Region) =?s ""
                  then match GetDefaultRegion provider with Ok r => r | Err _ => zero end
                  else default zero (RegionList_GetByName provider.(Regions) payload.(KRP_Region)) in
    if negb dedicated && negb (IsInstanceTypeSupported region instanceType)
    then throw (InstanceTypeNotSupported "instance type %q not supported for region %q")
    else ret (providerName, region.(Region_Name)).

Definition ValidateCloudProvider (ctx : RequestContext) (payload : KafkaRequestPayload) (action : string) : Validator W :=
  _ <~ getCloudProviderAndRegion ctx payload ;; ret tt.

(** *** Billing *)
Definition Kafka_ValidateBillingAccount (externalId instanceType billingModelID billingCloudAccountId : string) (marketplace : option string)
  : M W ServiceError unit :=
  _ <~ quota_service kafkaConfig "unable to check quota during billing account validation" ;;
  validate_billing_account externalId instanceType billingModelID billingCloudAccountId marketplace.

Definition validateKafkaBillingModel (ctx : RequestContext) (payload : KafkaRequestPayload) : Validator W :=
  let billingModel := SafeString payload.(KRP_BillingModel) in
  let dedicated := negb (StringEmptyPtr payload.(KRP_ClusterId)) in
  let enterprise := StringEqualsIgnoreCase billingModel BillingModelEnterprise in
  if StringEmpty billingModel then ret tt
  else if dedicated && negb enterprise then throw (InvalidBillingAccount "invalid billing model: %q, only %q is allowed")
  else if negb dedicated && enterprise then throw (BadRequest "cluster_id must be supplied when selected billing model is: %q")
  else
    found <~ getInstanceTypeAndSize ctx payload ;;
    instanceTypeConfig <~ lift (map_err ToServiceError (GetKafkaInstanceTypeByID kafkaConfig.(SupportedInstanceTypes) found.1)) ;;
    _ <~ lift (map_err ToServiceError (GetKafkaSupportedBillingModelByID instanceTypeConfig billingModel)) ;;
    ret tt.

Definition ValidateBillingCloudAccountIdAndMarketplace (ctx : RequestContext) (payload : KafkaRequestPayload) : Validator W :=
  let account := SafeString payload.(KRP_BillingCloudAccountId) in
  let marketplace := SafeString payload.(KRP_Marketplace) in
  if (account =?s "") && (marketplace =?s "") then ret tt
  else if (account =?s "") && negb (marketplace =?s "") then throw (InvalidBillingAccount "no billing account provided for marketplace: %s")
  else
    claims <~ lift (getClaims ctx) ;;
    instanceType <~ wrap_err (general_svc "error assigning instance type: %s") (AssignInstanceType_of claims) ;;
    Kafka_ValidateBillingAccount (value_or_zero (GetOrgId claims)) instanceType (SafeString payload.(KRP_BillingModel)) account
      payload.(KRP_Marketplace).

(** *** Names *)
Definition ValidKafkaClusterName (value field : string) : Validator W :=
  require (MatchString ValidKafkaClusterNameRegexp value) (MalformedKafkaClusterName "%s does not match %s").

Definition ValidateKafkaClusterNameIsUnique (name : string) (ctx : RequestContext) : Validator W :=
  found <~ Kafka_List past_end (auth_context ctx) (mkListArguments 1 1 [] ("name = " +:+ name) []) ;;
  require (negb (0 <? found.2.(PM_Total))) DuplicateKafkaClusterName.

(** *** Updates by the owner or an administrator of the organisation *)
Definition validateUserIsKafkaOwnerOrOrgAdmin (ctx : RequestContext) (kafkaRequest : KafkaRequest) : Validator W :=
  claims <~ lift (getClaims ctx) ;;
  let username := value_or_zero (GetUsername claims) in
  let orgID := value_or_zero (GetOrgId claims) in
  require ((kafkaRequest.(KR.OrganisationId) =?s orgID) && (Claims_IsOrgAdmin claims || (kafkaRequest.(KR.Owner) =?s username)))
    (New ErrorUnauthorized "user not authorized to perform this action").

Definition ValidateKafkaUserFacingUpdateFields (ctx : RequestContext) (kafkaRequest : KafkaRequest) (kafkaUpdateReq : KafkaUpdateRequest)
  : Validator W :=
  claims <~ lift (getClaims ctx) ;;
  _ <~ validateUserIsKafkaOwnerOrOrgAdmin ctx kafkaRequest ;;
  match kafkaUpdateReq.(KUR_Owner) with
  | None => ret tt
  | Some owner =>
      _ <~ ValidateMinLength owner "owner" 1 ;;
      userValid <~ wrap_err (general "unable to update kafka request owner") (check_user_valid owner (value_or_zero (GetOrgId claims))) ;;
      require userValid (NewWithCause ErrorBadRequest None "user %s does not belong in your organization")
  end.

(** *** Updates by a service administrator *)
Definition ValidateKafkaUpdateFields (kafkaUpdateRequest : AdminKafkaUpdateRequest) : Validator W :=
  require (stringSet kafkaUpdateRequest.(AKU_StrimziVersion) || stringSet kafkaUpdateRequest.(AKU_KafkaVersion) ||
           stringSet kafkaUpdateRequest.(AKU_KafkaIbpVersion) || stringSet kafkaUpdateRequest.(AKU_MaxDataRetentionSize) ||
           bool_decide (is_Some kafkaUpdateRequest.(AKU_Suspended)))
    (FieldValidationError "failed to update Kafka Request. Expecting at least one of the following fields: strimzi_version, kafka_version, kafka_ibp_version, max_data_retention_size or suspended to be provided").

Definition ValidateMaxDataRetentionSize `{QuantityLib} (kafkaRequest : KafkaRequest) (kafkaUpdateReq : AdminKafkaUpdateRequest) : Validator W :=
  if stringSet kafkaUpdateReq.(AKU_MaxDataRetentionSize) then
    currentSize <~ lift (map_err (fun _ => FieldValidationError "failed to update Kafka Request. Unable to parse current storage size: %q")
                           (ParseQuantity kafkaRequest.(KR.MaxDataRetentionSize))) ;;
    requestedSize <~ lift (map_err (fun _ => FieldValidationError "failed to update Kafka Request. Unable to parse current requested size: %q")
                             (ParseQuantity kafkaUpdateReq.(AKU_MaxDataRetentionSize))) ;;
    let '(currSize, _) := AsInt64 currentSize in
    require (negb (CmpInt64 requestedSize currSize <? 0))
      (FieldValidationError "failed to update Kafka Request. Requested size: %q should be greater than current size: %q")
  else ret tt.

(** The versions that the update leads to. *)
Definition desired_strimzi (k : KafkaRequest) (u : AdminKafkaUpdateRequest) : string :=
  FirstNonEmptyOrDefault k.(KR.DesiredStrimziVersion) [u.(AKU_StrimziVersion)].
Definition desired_kafka (k : KafkaRequest) (u : AdminKafkaUpdateRequest) : string :=
  FirstNonEmptyOrDefault k.(KR.DesiredKafkaVersion) [u.(AKU_KafkaVersion)].
Definition desired_ibp (k : KafkaRequest) (u : AdminKafkaUpdateRequest) : string :=
  FirstNonEmptyOrDefault k.(KR.DesiredKafkaIBPVersion) [u.(AKU_KafkaIbpVersion)].

(** [if c, err := compare(...); err != nil { ... } else if c > 0 { ... }]. *)
Definition not_greater (comparison : result error Z) (unable greater : string) : Validator W :=
  c <~ lift (map_err (fun _ => New ErrorValidation unable) comparison) ;;
  require (negb (0 <? c)) (New ErrorValidation greater).

Definition available (check : result error bool) (reason : string) : Validator W :=
  ok <~ lift (map_err (fun err => Errors.Validation (error_text err)) check) ;;
  require ok (New ErrorValidation reason).

Definition validateVersionsCompatibility `{SemverLib} (kafkaRequest : KafkaRequest) (kafkaUpdateReq : AdminKafkaUpdateRequest) : Validator W :=
  let desiredStrimziVersion := desired_strimzi kafkaRequest kafkaUpdateReq in
  let desiredKafkaVersion := desired_kafka kafkaRequest kafkaUpdateReq in
  let desiredKafkaIBPVersion := desired_ibp kafkaRequest kafkaUpdateReq in
  found <~ wrap_err (general_svc "unable to find cluster associated with kafka request: %s") (FindClusterByID kafkaRequest.(KR.ClusterID)) ;;
  match found with
  | None => throw (New ErrorValidation "unable to get cluster for kafka %s")
  | Some cluster =>
      _ <~ available (IsStrimziKafkaVersionAvailableInCluster cluster desiredStrimziVersion desiredKafkaVersion desiredKafkaIBPVersion)
             "unable to update kafka: %s with kafka version: %s" ;;
      _ <~ available (CheckStrimziVersionReady cluster desiredStrimziVersion) "unable to update kafka: %s with strimzi version: %s" ;;
      let currentIBPVersion := default "" (FirstNonEmpty [kafkaRequest.(KR.ActualKafkaIBPVersion); desiredKafkaIBPVersion]) in
      _ <~ not_greater (buildAwareSemanticVersioningCompare currentIBPVersion desiredKafkaIBPVersion)
             "unable to compare actual ibp version: %s with desired ibp version: %s"
             "unable to downgrade kafka: %s ibp version: %s to a lower version: %s" ;;
      _ <~ not_greater (buildAwareSemanticVersioningCompare desiredKafkaIBPVersion desiredKafkaVersion)
             "unable to compare kafka ibp version: %s with kafka version: %s"
             "unable to update kafka: %s ibp version: %s with kafka version: %s" ;;
      let currentKafkaVersion := default "" (FirstNonEmpty [kafkaRequest.(KR.ActualKafkaVersion); desiredKafkaVersion]) in
      not_greater (checkIfMinorDowngrade currentKafkaVersion desiredKafkaVersion)
        "unable to compare desired kafka version: %s with actual kafka version: %s"
        "unable to downgrade kafka: %s version: %s to the following kafka version: %s"
  end.

Definition validateUpdateKafkaCanBeSuspended (kafkaRequest : KafkaRequest) : Validator W :=
  require (Contains [KafkaRequestStatusReady] kafkaRequest.(KR.Status))
    (New ErrorValidation "kafka instance with a status of %q cannot be suspended. Kafka instances can only be suspended in the following states: %s").

Definition validateUpdateKafkaCanBeResumed (kafkaRequest : KafkaRequest) : Validator W :=
  _ <~ require (Contains [KafkaRequestStatusSuspended] kafkaRequest.(KR.Status))
         (New ErrorValidation "kafka instance with a status of %q cannot be resumed. Kafka instances can only be resumed in the following states: %s") ;;
  match kafkaRequest.(KR.ExpiresAt) with
  | None => ret tt
  | Some expiresAt =>
      timeNow <~ get_time ;;
      kafkaBillingModelConfig <~ lift (map_err ToServiceError
        (GetBillingModelByID kafkaConfig kafkaRequest.(KR.InstanceType) kafkaRequest.(KR.ActualKafkaBillingModel))) ;;
      let durationGracePeriodDays := int64 (int64 (kafkaBillingModelConfig.(GracePeriodDays) * 86400) * Second) in
      let startOfGracePeriod := expiresAt - durationGracePeriodDays in
      require (negb (startOfGracePeriod <? timeNow))
        (New ErrorValidation "kafka instance with a status of %q cannot be resumed due to the instance is suspended and it is within its grace period: start of grace period: %s ")
  end.

Definition validateUpdateKafkaSuspended (kafkaRequest : KafkaRequest) (kafkaUpdateReq : AdminKafkaUpdateRequest) : Validator W :=
  match kafkaUpdateReq.(AKU_Suspended) with
  | None => ret tt
  | Some true => validateUpdateKafkaCanBeSuspended kafkaRequest
  | Some false => validateUpdateKafkaCanBeResumed kafkaRequest
  end.

(** The Kafka that a handler read before it was set up.  [Get] never returns
    neither a Kafka nor an error. *)
Definition validateGettingKafkaFromDatabase (fetched : result ServiceError KafkaRequest) : Validator W :=
  match fetched with Err err => throw err | Ok _ => ret tt end.

(** *** Promotion *)
Definition validateNoKafkaPromotionInProgress (kafkaRequest : KafkaRequest) : Validator W :=
  require (negb (kafkaRequest.(KR.PromotionStatus) =?s KafkaPromotionStatusPromoting))
    (GeneralError "promotion already in progress. kafka request %q is being promoted from kafka billing %q to %q").

Definition validateRequestedKafkaPromotionHasDifferentKafkaBillingModel (kafkaPromoteRequest : KafkaPromoteRequest) (kafkaRequest : KafkaRequest)
  : Validator W :=
  require (negb (kafkaPromoteRequest.(KPR_DesiredKafkaBillingModel) =?s kafkaRequest.(KR.ActualKafkaBillingModel)))
    (BadRequest "kafka request %q already has %q kafka billing model").

Definition validateKafkaRequestToPromoteHasAPromotableActualKafkaBillingModel (kafkaRequest : KafkaRequest) : Validator W :=
  require (kafkaRequest.(KR.ActualKafkaBillingModel) =?s "eval")
    (GeneralError "kafka request %q has a kafka billing model %q. Only kafka requests with a kafka billing model 'eval' can be promoted").

Definition acceptedKafkaStatusesForPromotion : list string :=
  [KafkaRequestStatusReady; KafkaRequestStatusSuspended; KafkaRequestStatusResuming].

Definition validateKafkaRequestToPromoteHasAPromotableStatus (kafkaRequest : KafkaRequest) : Validator W :=
  require (Contains acceptedKafkaStatusesForPromotion kafkaRequest.(KR.Status))
    (GeneralError "kafka request %q with status %q cannot be promoted: promotable status are: %+v").

Definition validateKafkaPromoteRequestHasValidDesiredBillingModel (kafkaPromoteRequest : KafkaPromoteRequest) : Validator W :=
  require (negb (negb (kafkaPromoteRequest.(KPR_DesiredKafkaBillingModel) =?s "standard") &&
                 negb (kafkaPromoteRequest.(KPR_DesiredKafkaBillingModel) =?s "marketplace")))
    (FieldValidationError "desired kafka billing model %q promotion destination is not allowed").

Record kafkaPromoteValidatorRequest := mkKafkaPromoteValidatorRequest {
  PVR_DesiredKafkaBillingModel : string;
  PVR_DesiredKafkaMarketplace : string;
  PVR_DesiredKafkaCloudAccountID : string;
  PVR_KafkaInstanceType : string
}.

Definition promotion_billing_model (r : kafkaPromoteValidatorRequest) : result error KafkaBillingModel :=
  kafkaInstanceTypeConfig <-! map_err (fun err => EService (general "error getting instance type: %s" err))
    (GetKafkaInstanceTypeByID kafkaConfig.(SupportedInstanceTypes) r.(PVR_KafkaInstanceType)) ;;
  map_err (fun err => EService (general "error getting kafka billing model: %s" err))
    (GetKafkaSupportedBillingModelByID kafkaInstanceTypeConfig r.(PVR_DesiredKafkaBillingModel)).

Definition amsKafkaPromoteValidator_Validate (r : kafkaPromoteValidatorRequest) : result error unit :=
  let marketplace := r.(PVR_DesiredKafkaBillingModel) =?s "marketplace" in
  if marketplace && (r.(PVR_DesiredKafkaMarketplace) =?s "")
  then Err (EService (BadRequest "marketplace attribute is mandatory when desired kafka billing model is 'marketplace'"))
  else if marketplace && (r.(PVR_DesiredKafkaCloudAccountID) =?s "")
  then Err (EService (BadRequest "billing cloud account id attribute is mandatory when desired kafka billing model is 'marketplace'"))
  else
    let desiredAMSBillingModel :=
      if marketplace then r.(PVR_DesiredKafkaBillingModel) +:+ "-" +:+ r.(PVR_DesiredKafkaMarketplace)
      else r.(PVR_DesiredKafkaBillingModel) in
    kafkaBillingModelConfig <-! promotion_billing_model r ;;
    if HasSupportForAMSBillingModel kafkaBillingModelConfig desiredAMSBillingModel then Ok tt
    else Err (EPlain "AMS billing model %q is not supported for kafka billing model %q in instance type %q").

Definition quotaManagementListKafkaPromoteValidator_Validate (r : kafkaPromoteValidatorRequest) : result error unit :=
  _ <-! promotion_billing_model r ;; Ok tt.

Definition GetValidator (quotaType : string) : result error (kafkaPromoteValidatorRequest -> result error unit) :=
  if quotaType =?s QuotaManagementListQuotaType then Ok quotaManagementListKafkaPromoteValidator_Validate
  else if quotaType =?s AMSQuotaType then Ok amsKafkaPromoteValidator_Validate
  else Err (EPlain "invalid quota type: %v").

Definition performing_promotion (err : error) : ServiceError := New (Code (ToServiceError err)) "error performing promotion: %s".

Definition validateKafkaPromoteRequestFields (kafkaPromoteRequest : KafkaPromoteRequest) (kafkaRequest : KafkaRequest) : Validator W :=
  _ <~ validateKafkaPromoteRequestHasValidDesiredBillingModel kafkaPromoteRequest ;;
  kafkaPromoteValidator <~ lift (map_err performing_promotion (GetValidator kafkaConfig.(Config.Quota).(Quota_Type))) ;;
  _ <~ lift (map_err performing_promotion (kafkaPromoteValidator
         (mkKafkaPromoteValidatorRequest kafkaPromoteRequest.(KPR_DesiredKafkaBillingModel) kafkaPromoteRequest.(KPR_DesiredMarketplace)
            kafkaPromoteRequest.(KPR_DesiredBillingCloudAccountId) kafkaRequest.(KR.InstanceType)))) ;;
  if kafkaPromoteRequest.(KPR_DesiredKafkaBillingModel) =?s "marketplace"
  then Kafka_ValidateBillingAccount kafkaRequest.(KR.OrganisationId) kafkaRequest.(KR.InstanceType)
         kafkaPromoteRequest.(KPR_DesiredKafkaBillingModel) kafkaPromoteRequest.(KPR_DesiredBillingCloudAccountId)
         (Some kafkaPromoteRequest.(KPR_DesiredMarketplace))
  else ret tt.

(** *** Enterprise clusters *)

(** An error of the query whose reason starts like the one of a missing cluster
    is ignored. *)
Definition ValidateClusterIdIsUnique (clusterId : string) : Validator W :=
  found <~ attempt (FindClusterByID clusterId) ;;
  match found with
  | Err err => if negb (HasPrefix (Reason err) "failed to find cluster") then throw err else ret tt
  | Ok cluster => require (bool_decide (cluster = None)) DuplicateClusterId
  end.

Definition validateKafkaMachinePoolNodeCount (clusterPayload : EnterpriseOsdClusterPayload) : Validator W :=
  let count := clusterPayload.(EOC_KafkaMachinePoolNodeCount) in
  if count <? minimunNumberOfNodesForTheKafkaMachinePool
  then throw (FieldValidationError "failed to register cluster. Kafka machine pool node count: %d should be greater or equal to %d")
  else require (Z.rem count 3 =? 0) (FieldValidationError "failed to register cluster. Kafka machine pool node count: %d should be in multiple of 3").

Definition validateEnterpriseClusterEligibleForDeregistration (ctx : RequestContext) (clusterID : string) : Validator W :=
  claims <~ lift (getClaims ctx) ;;
  orgID <~ lift (map_err (fun err => GeneralError (error_text err)) (GetOrgId claims)) ;;
  _ <~ require (Claims_IsOrgAdmin claims) (New ErrorUnauthorized "non admin user not authorized to perform this action") ;;
  found <~ FindClusterByID clusterID ;;
  match found with
  | None => throw (NotFound "cluster with id=%q not found")
  | Some cluster =>
      _ <~ require (cluster.(CL.OrganizationID) =?s orgID) (Forbidden "unable to deregister cluster from different organization") ;;
      require (cluster.(CL.ClusterType) =?s EnterpriseDataPlaneClusterType) (Forbidden "unable to deregister cluster whose type is not: %q")
  end.

Definition validateEnterpriseClusterHasNoKafkas (clusterID : string) : Validator W :=
  instanceCounts <~ wrap_err (fun _ => GeneralError "error querying kafka instances for clusterID: %v")
                      (FindKafkaInstanceCount kafkaConfig [clusterID]) ;;
  require (negb (existsb (fun c => (c.(KIC_ClusterID) =?s clusterID) && (0 <? c.(KIC_Count))) instanceCounts))
    (Forbidden "unable to deregister cluster with kafka instances").
End Kafka.

(** ** Validation writes nothing *)
Section ReadOnly.
Context {W : Type} `{Database W} `{!KafkaExternals W} `{!HandlerServices W} `{!ListQueries W}.
Context (past_end : text -> Z -> result error text).
Context (cfg : KafkaConfig) (pc : ProviderConfig).

Lemma require_ro b e : read_only (require (W := W) b e).
Proof. unfold require. solve_read_only. Qed.
#[local] Hint Resolve require_ro : fleet.

Lemma first_with_quota_ro owner org l : read_only (first_with_quota (W := W) owner org l).
Proof. induction l as [|[t bm] l IH]; simpl; solve_read_only. Qed.
#[local] Hint Resolve first_with_quota_ro : fleet.

Lemma AssignInstanceType_of_ro claims : read_only (AssignInstanceType_of (W := W) cfg claims).
Proof. unfold AssignInstanceType_of, AssignInstanceType, quota_service. solve_read_only. Qed.
#[local] Hint Resolve AssignInstanceType_of_ro : fleet.

Lemma getInstanceTypeAndSize_ro ctx p : read_only (getInstanceTypeAndSize (W := W) cfg ctx p).
Proof. unfold getInstanceTypeAndSize. solve_read_only. Qed.
Lemma getCloudProviderAndRegion_ro ctx p : read_only (getCloudProviderAndRegion (W := W) cfg pc ctx p).
Proof. unfold getCloudProviderAndRegion. solve_read_only. Qed.
#[local] Hint Resolve getInstanceTypeAndSize_ro getCloudProviderAndRegion_ro : fleet.

Lemma Kafka_List_ro ctx args : read_only (Kafka_List (W := W) past_end ctx args).
Proof. unfold Kafka_List. solve_read_only. Qed.
#[local] Hint Resolve Kafka_List_ro : fleet.

Lemma FindClusterByID_ro id : read_only (FindClusterByID (W := W) id).
Proof. unfold FindClusterByID. solve_read_only. Qed.
Lemma FindKafkaInstanceCount_ro ids : read_only (FindKafkaInstanceCount (W := W) cfg ids).
Proof. unfold FindKafkaInstanceCount. solve_read_only. Qed.
#[local] Hint Resolve FindClusterByID_ro FindKafkaInstanceCount_ro : fleet.

Lemma Kafka_ValidateBillingAccount_ro o t b c m : read_only (Kafka_ValidateBillingAccount (W := W) cfg o t b c m).
Proof. unfold Kafka_ValidateBillingAccount, quota_service. solve_read_only. Qed.
#[local] Hint Resolve Kafka_ValidateBillingAccount_ro : fleet.

Lemma ValidateAsyncEnabled_ro {Body} (r : Request Body) a : read_only (ValidateAsyncEnabled (W := W) r a).
Proof. apply require_ro. Qed.
Lemma ValidateMinLength_ro v f n : read_only (ValidateMinLength (W := W) v f n).
Proof. apply require_ro. Qed.
Lemma ValidateLength_ro v f n m : read_only (ValidateLength (W := W) v f n m).
Proof. unfold ValidateLength, ValidateMaxLength, ValidateMinLength. solve_read_only. Qed.
Lemma ValidateNotEmptyClusterId_ro v f : read_only (ValidateNotEmptyClusterId (W := W) v f).
Proof. unfold ValidateNotEmptyClusterId. solve_read_only. Qed.
Lemma ValidKafkaClusterName_ro v f : read_only (ValidKafkaClusterName (W := W) v f).
Proof. apply require_ro. Qed.
Lemma ValidateKafkaClusterNameIsUnique_ro n ctx : read_only (ValidateKafkaClusterNameIsUnique (W := W) past_end n ctx).
Proof. unfold ValidateKafkaClusterNameIsUnique. solve_read_only. Qed.
Lemma ValidateKafkaClaims_ro ctx l : read_only (ValidateKafkaClaims (W := W) ctx l).
Proof. apply lift_read_only. Qed.
Lemma ValidateCloudProvider_ro ctx p a : read_only (ValidateCloudProvider (W := W) cfg pc ctx p a).
Proof. unfold ValidateCloudProvider. solve_read_only. Qed.
Lemma ValidateKafkaPlan_ro ctx p : read_only (ValidateKafkaPlan (W := W) cfg ctx p).
Proof. unfold ValidateKafkaPlan. solve_read_only. Qed.
Lemma validateKafkaBillingModel_ro ctx p : read_only (validateKafkaBillingModel (W := W) cfg ctx p).
Proof. unfold validateKafkaBillingModel. solve_read_only. Qed.
Lemma ValidateBillingCloudAccountIdAndMarketplace_ro ctx p : read_only (ValidateBillingCloudAccountIdAndMarketplace (W := W) cfg ctx p).
Proof. unfold ValidateBillingCloudAccountIdAndMarketplace. solve_read_only. Qed.
Lemma validateUserIsKafkaOwnerOrOrgAdmin_ro ctx k : read_only (validateUserIsKafkaOwnerOrOrgAdmin (W := W) ctx k).
Proof. unfold validateUserIsKafkaOwnerOrOrgAdmin. solve_read_only. Qed.
#[local] Hint Resolve ValidateMinLength_ro validateUserIsKafkaOwnerOrOrgAdmin_ro : fleet.
Lemma ValidateKafkaUserFacingUpdateFields_ro ctx k u : read_only (ValidateKafkaUserFacingUpdateFields (W := W) ctx k u).
Proof. unfold ValidateKafkaUserFacingUpdateFields. solve_read_only. Qed.
Lemma ValidateKafkaUpdateFields_ro u : read_only (ValidateKafkaUpdateFields (W := W) u).
Proof. apply require_ro. Qed.
Lemma ValidateMaxDataRetentionSize_ro `{QuantityLib} k u : read_only (ValidateMaxDataRetentionSize (W := W) k u).
Proof. unfold ValidateMaxDataRetentionSize. solve_read_only. Qed.
Lemma validateVersionsCompatibility_ro `{SemverLib} k u : read_only (validateVersionsCompatibility (W := W) k u).
Proof. unfold validateVersionsCompatibility, available, not_greater. solve_read_only. Qed.
Lemma validateUpdateKafkaSuspended_ro k u : read_only (validateUpdateKafkaSuspended (W := W) cfg k u).
Proof. unfold validateUpdateKafkaSuspended, validateUpdateKafkaCanBeResumed, validateUpdateKafkaCanBeSuspended. solve_read_only. Qed.
Lemma validateGettingKafkaFromDatabase_ro r : read_only (validateGettingKafkaFromDatabase (W := W) r).
Proof. unfold validateGettingKafkaFromDatabase. solve_read_only. Qed.
Lemma validateKafkaPromoteRequestFields_ro p k : read_only (validateKafkaPromoteRequestFields (W := W) cfg p k).
Proof. unfold validateKafkaPromoteRequestFields, validateKafkaPromoteRequestHasValidDesiredBillingModel. solve_read_only. Qed.
Lemma ValidateClusterIdIsUnique_ro id : read_only (ValidateClusterIdIsUnique (W := W) id).
Proof. unfold ValidateClusterIdIsUnique. solve_read_only. Qed.
Lemma validateKafkaMachinePoolNodeCount_ro p : read_only (validateKafkaMachinePoolNodeCount (W := W) p).
Proof. unfold validateKafkaMachinePoolNodeCount. solve_read_only. Qed.
Lemma validateEnterpriseClusterEligibleForDeregistration_ro ctx id :
  read_only (validateEnterpriseClusterEligibleForDeregistration (W := W) ctx id).
Proof. unfold validateEnterpriseClusterEligibleForDeregistration. solve_read_only. Qed.
Lemma validateEnterpriseClusterHasNoKafkas_ro id : read_only (validateEnterpriseClusterHasNoKafkas (W := W) cfg id).
Proof. unfold validateEnterpriseClusterHasNoKafkas. solve_read_only. Qed.

(** A list of validators that passes, and one that does not. *)
Lemma for_each_ok {A} (f : A -> M W ServiceError unit) l w w' :
  (forall a, a ∈ l -> read_only (f a)) -> for_each f l w = (Ok tt, w') ->
  tables_of w' = tables_of w /\ forall a, a ∈ l -> exists w1 w2, tables_of w1 = tables_of w /\ f a w1 = (Ok tt, w2).
Proof.
  revert w. induction l as [|a l IH]; intros w Hro Hrun; simpl in Hrun; [run_ok Hrun; split; [done|set_solver]|].
  apply bind_ok in Hrun as ([] & w1 & Ha & Hrun). pose proof (read_only_run _ _ _ _ (Hro a (list_elem_of_here _ _)) Ha) as Ht.
  destruct (IH w1) as [Ht' Hl]; [set_solver|done|]. rewrite Ht in Ht', Hl. split; [done|].
  intros b [->|Hb]%elem_of_cons; [by exists w, w1|by apply Hl].
Qed.
End ReadOnly.
#[export] Hint Resolve require_ro AssignInstanceType_of_ro getInstanceTypeAndSize_ro getCloudProviderAndRegion_ro Kafka_List_ro FindClusterByID_ro
  FindKafkaInstanceCount_ro Kafka_ValidateBillingAccount_ro @ValidateAsyncEnabled_ro ValidateMinLength_ro ValidateLength_ro
  ValidateNotEmptyClusterId_ro ValidKafkaClusterName_ro ValidateKafkaClusterNameIsUnique_ro ValidateKafkaClaims_ro ValidateCloudProvider_ro
  ValidateKafkaPlan_ro validateKafkaBillingModel_ro ValidateBillingCloudAccountIdAndMarketplace_ro validateUserIsKafkaOwnerOrOrgAdmin_ro
  ValidateKafkaUserFacingUpdateFields_ro ValidateKafkaUpdateFields_ro ValidateMaxDataRetentionSize_ro validateVersionsCompatibility_ro
  validateUpdateKafkaSuspended_ro validateGettingKafkaFromDatabase_ro validateKafkaPromoteRequestFields_ro ValidateClusterIdIsUnique_ro
  validateKafkaMachinePoolNodeCount_ro validateEnterpriseClusterEligibleForDeregistration_ro validateEnterpriseClusterHasNoKafkas_ro : fleet.
