(* ===== verification/KafkaHandlers.v ===== *)
(** * The handlers of Kafkas

    [src/internal/kafka/internal/handlers/kafka.go], [admin_kafka.go] and
    [kafka_promote.go] beside it, with the presenters of their responses
    ([src/internal/kafka/internal/presenters/kafka.go], [admin_kafka.go],
    [object_reference.go]).

    A handler reads its Kafka before the frame decodes the body, and its action
    changes that copy before it writes the listed columns; the response shows
    the copy.  The revocation of a certificate is not modelled. *)
From Stdlib Require Import QArith.
From S2P Require Import Prelude Arrays Errors Status Config Model Versions Store Resources Providers Fixtures ClusterService Placement KafkaService.
From S2P Require Import QuotaList Transitions Scanner StateMachine QueryParser Search Listing Validation.

Open Scope Z_scope.

(** ** References *)
Record ObjectReference := mkObjectReference { Ref_Id : string; Ref_Kind : string; Ref_Href : string }.

Definition KindKafka : string := "Kafka".
Definition KindCloudRegion : string := "CloudRegion".
Definition KindCloudProvider : string := "CloudProvider".
Definition KindError : string := "Error".
Definition KindServiceAccount : string := "ServiceAccount".
Definition KindCluster : string := "Cluster".
Definition BasePath : string := "/api/kafkas_mgmt/v1".

(** The types that the presenters tell apart. *)
Inductive RefObject := RefKafka | RefCloudRegion | RefCloudProvider | RefServiceError | RefServiceAccount | RefCluster | RefOther.

Definition objectKind (o : RefObject) : string :=
  match o with
  | RefKafka => KindKafka
  | RefCloudRegion => KindCloudRegion
  | RefCloudProvider => KindCloudProvider
  | RefServiceError => KindError
  | RefServiceAccount => KindServiceAccount
  | RefCluster => KindCluster
  | RefOther => ""
  end.

Definition objectPath (id : string) (o : RefObject) : string :=
  match o with
  | RefKafka => BasePath +:+ "/kafkas/" +:+ id
  | RefServiceError => BasePath +:+ "/errors/" +:+ id
  | RefCluster => BasePath +:+ "/clusters/" +:+ id
  | RefServiceAccount => BasePath +:+ "/service_accounts/" +:+ id
  | RefCloudRegion | RefCloudProvider | RefOther => ""
  end.

Definition PresentReference (id : string) (o : RefObject) : ObjectReference :=
  if id =?s "" then mkObjectReference "" "" "" else mkObjectReference id (objectKind o) (objectPath id o).

(** [strings.TrimSuffix(s, "/")]. *)
Definition trim_slash (s : string) : string :=
  if HasSuffix s "/" then String.substring 0 (String.length s - 1) s else s.

(** ** The public view of a Kafka *)
Record PublicKafka := mkPublicKafka {
  PK_Id : string;
  PK_Kind : string;
  PK_Href : string;
  PK_Region : string;
  PK_Name : string;
  PK_CloudProvider : string;
  PK_MultiAz : bool;
  PK_Owner : string;
  PK_BootstrapServerHost : string;
  PK_AdminApiServerUrl : string;
  PK_Status : string;
  PK_CreatedAt : Z;
  PK_UpdatedAt : Z;
  PK_ExpiresAt : option Z;
  PK_FailedReason : string;
  PK_Version : string;
  PK_InstanceType : string;
  PK_ReauthenticationEnabled : bool;
  PK_MaxDataRetentionSizeBytes : Z;
  PK_BrowserUrl : string;
  PK_SizeId : string;
  PK_InstanceTypeName : string;
  PK_IngressThroughputPerSec : string;
  PK_EgressThroughputPerSec : string;
  PK_TotalMaxConnections : Z;
  PK_MaxPartitions : Z;
  PK_MaxDataRetentionPeriod : string;
  PK_MaxConnectionAttemptsPerSec : Z;
  PK_BillingCloudAccountId : string;
  PK_Marketplace : string;
  PK_BillingModel : string;
  PK_PromotionStatus : string;
  PK_PromotionDetails : string;
  PK_ClusterId : option string
}.

Definition setBootstrapServerHost (bootstrapServerHost : string) : string :=
  if negb (bootstrapServerHost =?s "") then bootstrapServerHost +:+ ":443" else bootstrapServerHost.

Definition getDisplayName (instanceType : string) (config : KafkaConfig) : result ServiceError string :=
  if negb (Trim instanceType =?s "") then
    kafkaInstanceType <-! map_err (general "unable to get kafka display name for '%s' instance type")
                            (GetKafkaInstanceTypeByID config.(SupportedInstanceTypes) instanceType) ;;
    Ok kafkaInstanceType.(Type_DisplayName)
  else Ok "".

Definition getClusterID (kafkaRequest : KafkaRequest) : option string :=
  if DesiredBillingModelIsEnterprise kafkaRequest then Some kafkaRequest.(KR.ClusterID) else None.

(** A size that is unknown is logged, and its values are left out. *)
Definition PresentKafkaRequest `{QuantityLib} (kafkaRequest : KafkaRequest) (kafkaConfig : KafkaConfig) : result ServiceError PublicKafka :=
  let reference := PresentReference kafkaRequest.(KR.ID) RefKafka in
  let instanceSize := match GetKafkaInstanceSize kafkaConfig kafkaRequest.(KR.InstanceType) kafkaRequest.(KR.SizeId) with
                      | Ok size => Some size | Err _ => None end in
  let of_size {A} (f : KafkaInstanceSize -> A) (zero : A) : A := match instanceSize with Some size => f size | None => zero end in
  displayName <-! getDisplayName kafkaRequest.(KR.InstanceType) kafkaConfig ;;
  maxDataRetentionSizeBytes <-! map_err (general "failed to get bytes value for max_data_retention_size")
                                  (ToInt64 kafkaRequest.(KR.MaxDataRetentionSize)) ;;
  Ok (mkPublicKafka reference.(Ref_Id) reference.(Ref_Kind) reference.(Ref_Href)
        kafkaRequest.(KR.Region) kafkaRequest.(KR.Name) kafkaRequest.(KR.CloudProvider) kafkaRequest.(KR.MultiAZ) kafkaRequest.(KR.Owner)
        (setBootstrapServerHost kafkaRequest.(KR.BootstrapServerHost)) kafkaRequest.(KR.AdminApiServerURL) kafkaRequest.(KR.Status)
        kafkaRequest.(KR.CreatedAt) kafkaRequest.(KR.UpdatedAt) kafkaRequest.(KR.ExpiresAt) kafkaRequest.(KR.FailedReason)
        kafkaRequest.(KR.ActualKafkaVersion) kafkaRequest.(KR.InstanceType) kafkaRequest.(KR.ReauthenticationEnabled)
        maxDataRetentionSizeBytes
        (trim_slash kafkaConfig.(BrowserUrl) +:+ "/" +:+ reference.(Ref_Id) +:+ "/details/dashboard")
        kafkaRequest.(KR.SizeId) displayName
        (of_size IngressThroughputPerSec "") (of_size EgressThroughputPerSec "")
        (int32 (of_size TotalMaxConnections 0)) (int32 (of_size MaxPartitions 0)) (of_size MaxDataRetentionPeriod "")
        (int32 (of_size MaxConnectionAttemptsPerSec 0))
        kafkaRequest.(KR.BillingCloudAccountId) kafkaRequest.(KR.Marketplace) kafkaRequest.(KR.ActualKafkaBillingModel)
        kafkaRequest.(KR.PromotionStatus) kafkaRequest.(KR.PromotionDetails) (getClusterID kafkaRequest)).

(** The payload as a new request. *)
Definition ConvertKafkaRequest (payload : KafkaRequestPayload) : KafkaRequest :=
  let kafka := zero <| KR.Region := payload.(KRP_Region) |> <| KR.Name := payload.(KRP_Name) |>
                    <| KR.CloudProvider := payload.(KRP_CloudProvider) |>
                    <| KR.BillingCloudAccountId := SafeString payload.(KRP_BillingCloudAccountId) |>
                    <| KR.Marketplace := SafeString payload.(KRP_Marketplace) |>
                    <| KR.DesiredKafkaBillingModel := SafeString payload.(KRP_BillingModel) |>
                    <| KR.ReauthenticationEnabled := default true payload.(KRP_ReauthenticationEnabled) |> in
  if negb (StringEmptyPtr payload.(KRP_ClusterId)) then
    let kafka := kafka <| KR.ClusterID := SafeString payload.(KRP_ClusterId) |> in
    if StringEmpty kafka.(KR.DesiredKafkaBillingModel) then kafka <| KR.DesiredKafkaBillingModel := BillingModelEnterprise |> else kafka
  else kafka.

(** ** The view of the administrators *)
Record PrivateKafka := mkPrivateKafka {
  AK_Id : string;
  AK_Kind : string;
  AK_Href : string;
  AK_Status : string;
  AK_CloudProvider : string;
  AK_MultiAz : bool;
  AK_Region : string;
  AK_Owner : string;
  AK_Name : string;
  AK_BootstrapServerHost : string;
  AK_CreatedAt : Z;
  AK_UpdatedAt : Z;
  AK_FailedReason : string;
  AK_DesiredKafkaVersion : string;
  AK_ActualKafkaVersion : string;
  AK_DesiredStrimziVersion : string;
  AK_ActualStrimziVersion : string;
  AK_DesiredKafkaIbpVersion : string;
  AK_ActualKafkaIbpVersion : string;
  AK_KafkaUpgrading : bool;
  AK_StrimziUpgrading : bool;
  AK_KafkaIbpUpgrading : bool;
  AK_OrganisationId : string;
  AK_SubscriptionId : string;
  AK_OwnerAccountId : string;
  AK_AccountNumber : string;
  AK_QuotaType : string;
  AK_Routes : list DataPlaneKafkaRoute;
  AK_RoutesCreated : bool;
  AK_ClusterId : string;
  AK_InstanceType : string;
  AK_Namespace : string;
  AK_SizeId : string;
  AK_MaxDataRetentionSizeBytes : Z
}.

Definition GetRoutesFromKafkaRequest (kafkaRequest : KafkaRequest) : list DataPlaneKafkaRoute :=
  match GetRoutes kafkaRequest with
  | Err _ => []
  | Ok routesArray => map (fun r => mkDataPlaneKafkaRoute r.(Domain) r.(Router)) routesArray
  end.

Definition PresentKafkaRequestAdminEndpoint {W} `{Database W} `{!HandlerServices W} `{QuantityLib} (kafkaRequest : KafkaRequest)
  : M W ServiceError PrivateKafka :=
  let reference := PresentReference kafkaRequest.(KR.ID) RefKafka in
  org <~ wrap_err (general "error presenting the request") (get_organization ("external_id='" +:+ kafkaRequest.(KR.OrganisationId) +:+ "'")) ;;
  match org with
  | None => throw (New ErrorGeneral "unable to find an organisation for external_id '%s'")
  | Some accountNumber =>
      maxDataRetentionSizeBytes <~ lift (map_err (general "failed to get bytes value for max_data_retention_size")
                                     (ToInt64 kafkaRequest.(KR.MaxDataRetentionSize))) ;;
      ret (mkPrivateKafka reference.(Ref_Id) reference.(Ref_Kind) reference.(Ref_Href) kafkaRequest.(KR.Status)
             kafkaRequest.(KR.CloudProvider) kafkaRequest.(KR.MultiAZ) kafkaRequest.(KR.Region) kafkaRequest.(KR.Owner)
             kafkaRequest.(KR.Name) (setBootstrapServerHost kafkaRequest.(KR.BootstrapServerHost)) kafkaRequest.(KR.CreatedAt)
             kafkaRequest.(KR.UpdatedAt) kafkaRequest.(KR.FailedReason)
             kafkaRequest.(KR.DesiredKafkaVersion) kafkaRequest.(KR.ActualKafkaVersion)
             kafkaRequest.(KR.DesiredStrimziVersion) kafkaRequest.(KR.ActualStrimziVersion)
             kafkaRequest.(KR.DesiredKafkaIBPVersion) kafkaRequest.(KR.ActualKafkaIBPVersion)
             kafkaRequest.(KR.KafkaUpgrading) kafkaRequest.(KR.StrimziUpgrading) kafkaRequest.(KR.KafkaIBPUpgrading)
             kafkaRequest.(KR.OrganisationId) kafkaRequest.(KR.SubscriptionId) kafkaRequest.(KR.OwnerAccountId) accountNumber
             kafkaRequest.(KR.QuotaType) (GetRoutesFromKafkaRequest kafkaRequest) kafkaRequest.(KR.RoutesCreated)
             kafkaRequest.(KR.ClusterID) kafkaRequest.(KR.InstanceType) kafkaRequest.(KR.Namespace) kafkaRequest.(KR.SizeId)
             maxDataRetentionSizeBytes)
  end.

(** ** The handlers *)
Section Handlers.
Context {W : Type} `{Database W} `{IdSource W} `{!KafkaExternals W} `{!HandlerServices W} `{!ListQueries W}.
Context `{SemverLib} `{QuantityLib}.
Context (past_end : text -> Z -> result error text).
Context (dp : DataplaneClusterConfig) (pc : ProviderConfig) (cfg : KafkaConfig).
Context `{!ClusterLookup W cfg}.

(** The copy of the Kafka that the handler read; the validator in front refuses
    the request when there is none. *)
Definition with_kafka {A} (fetched : result ServiceError KafkaRequest) (f : KafkaRequest -> M W ServiceError A) : M W ServiceError A :=
  match fetched with Ok k => f k | Err _ => throw nil_dereference end.

(** *** Creation *)

(** The errors of both lookups are dropped: the validators ran them before. *)
Definition create_request (ctx : RequestContext) (payload : KafkaRequestPayload) : M W ServiceError KafkaRequest :=
  let claims := claims_or_none ctx in
  let convKafka := (ConvertKafkaRequest payload) <| KR.Owner := value_or_zero (GetUsername claims) |>
                     <| KR.OrganisationId := value_or_zero (GetOrgId claims) |>
                     <| KR.OwnerAccountId := value_or_zero (GetAccountId claims) |> in
  typeAndSize <~ attempt (getInstanceTypeAndSize cfg ctx payload) ;;
  let '(instanceType, sizeId) := match typeAndSize with Ok p => p | Err _ => ("", "") end in
  let convKafka := convKafka <| KR.InstanceType := instanceType |> <| KR.SizeId := sizeId |> in
  providerAndRegion <~ attempt (getCloudProviderAndRegion cfg pc ctx payload) ;;
  let '(cloudProvider, region) := match providerAndRegion with Ok p => p | Err _ => ("", "") end in
  ret (convKafka <| KR.CloudProvider := cloudProvider |> <| KR.Region := region |>).

(** [unread] is the payload before the body is decoded. *)
Definition Create_config (r : Request KafkaRequestPayload) (unread : KafkaRequestPayload) : HandlerConfig KafkaRequestPayload PublicKafka :=
  let ctx := r.(req_ctx) in
  mkHandlerConfig
    [ (fun _ => ValidateAsyncEnabled r "creating kafka requests");
      (fun payload => ValidateLength payload.(KRP_Name) "name" MinRequiredFieldLength (Some MaxKafkaNameLength));
      (fun payload => ValidKafkaClusterName payload.(KRP_Name) "name");
      (fun payload => ValidateKafkaClusterNameIsUnique past_end payload.(KRP_Name) ctx);
      (fun _ => ValidateKafkaClaims ctx [ValidateUsername; ValidateOrganisationId]);
      (fun payload => ValidateCloudProvider cfg pc ctx payload "creating kafka requests");
      (fun _ => ValidateNotEmptyClusterId unread.(KRP_ClusterId) "cluster id");
      (fun payload => ValidateKafkaPlan cfg ctx payload);
      (fun payload => validateKafkaBillingModel cfg ctx payload);
      (fun payload => ValidateBillingCloudAccountIdAndMarketplace cfg ctx payload) ]
    (fun payload =>
       convKafka <~ create_request ctx payload ;;
       convKafka <~ RegisterKafkaJob dp pc cfg convKafka ;;
       lift (PresentKafkaRequest convKafka cfg)).

Definition kafkaHandler_Create (r : Request KafkaRequestPayload) : M W ServiceError (Z * PublicKafka) :=
  Handle r (Create_config r zero) StatusAccepted.

(** *** Reading and deleting *)
Definition kafkaHandler_Get (r : Request unit) : M W ServiceError (Z * PublicKafka) :=
  HandleGet (mkHandlerConfig [] (fun _ =>
    kafkaRequest <~ Kafka_Get (auth_context r.(req_ctx)) r.(req_id) ;;
    lift (PresentKafkaRequest kafkaRequest cfg))).

Definition Delete_config (r : Request unit) : HandlerConfig unit unit :=
  mkHandlerConfig [fun _ => ValidateAsyncEnabled r "deleting kafka requests"]
    (fun _ => RegisterKafkaDeprovisionJob (auth_context r.(req_ctx)) r.(req_id)).
Definition kafkaHandler_Delete (r : Request unit) : M W ServiceError (Z * unit) := HandleDelete (Delete_config r) StatusAccepted.

(** *** Updates by the owner *)
Definition user_updated (kafkaRequest : KafkaRequest) (u : KafkaUpdateRequest) : KafkaRequest :=
  let k := match u.(KUR_ReauthenticationEnabled) with Some b => kafkaRequest <| KR.ReauthenticationEnabled := b |> | None => kafkaRequest end in
  match u.(KUR_Owner) with Some o => k <| KR.Owner := o |> | None => k end.

Definition user_update_needed (kafkaRequest : KafkaRequest) (u : KafkaUpdateRequest) : bool :=
  match u.(KUR_ReauthenticationEnabled) with Some b => negb (Bool.eqb kafkaRequest.(KR.ReauthenticationEnabled) b) | None => false end ||
  match u.(KUR_Owner) with Some o => negb (kafkaRequest.(KR.Owner) =?s o) | None => false end.

Definition Update_config (r : Request KafkaUpdateRequest) (fetched : result ServiceError KafkaRequest)
  : HandlerConfig KafkaUpdateRequest PublicKafka :=
  mkHandlerConfig
    [ (fun _ => validateGettingKafkaFromDatabase fetched);
      (fun u => with_kafka fetched (fun k => ValidateKafkaUserFacingUpdateFields r.(req_ctx) k u)) ]
    (fun u => with_kafka fetched (fun k =>
       let kafkaRequest := user_updated k u in
       _ <~ (if user_update_needed k u
             then Updates kafkaRequest (fun row => row <| KR.ReauthenticationEnabled := kafkaRequest.(KR.ReauthenticationEnabled) |>
                                                       <| KR.Owner := kafkaRequest.(KR.Owner) |>)
             else ret tt) ;;
       lift (PresentKafkaRequest kafkaRequest cfg))).

Definition kafkaHandler_Update (r : Request KafkaUpdateRequest) : M W ServiceError (Z * PublicKafka) :=
  fetched <~ attempt (Kafka_Get (auth_context r.(req_ctx)) r.(req_id)) ;;
  Handle r (Update_config r fetched) StatusOK.

(** *** Updates by an administrator *)

(** [update(&field, value)]: the new value of the field. *)
Definition updated (val1 val2 : string) : string := if negb (val2 =?s "") && negb (val1 =?s val2) then val2 else val1.

Definition getStatusBasedOnSuspendedParam (susp : option bool) (kafka : KafkaRequest) : string :=
  match susp with
  | None => kafka.(KR.Status)
  | Some true => if kafka.(KR.Status) =?s KafkaRequestStatusReady then KafkaRequestStatusSuspending else kafka.(KR.Status)
  | Some false =>
      if (kafka.(KR.Status) =?s KafkaRequestStatusSuspended) || (kafka.(KR.Status) =?s KafkaRequestStatusSuspending)
      then KafkaRequestStatusResuming else kafka.(KR.Status)
  end.

Definition admin_updated (k : KafkaRequest) (u : AdminKafkaUpdateRequest) : KafkaRequest :=
  let k := k <| KR.DesiredKafkaVersion := updated k.(KR.DesiredKafkaVersion) u.(AKU_KafkaVersion) |>
             <| KR.DesiredStrimziVersion := updated k.(KR.DesiredStrimziVersion) u.(AKU_StrimziVersion) |>
             <| KR.DesiredKafkaIBPVersion := updated k.(KR.DesiredKafkaIBPVersion) u.(AKU_KafkaIbpVersion) |>
             <| KR.MaxDataRetentionSize := updated k.(KR.MaxDataRetentionSize) u.(AKU_MaxDataRetentionSize) |> in
  k <| KR.Status := updated k.(KR.Status) (getStatusBasedOnSuspendedParam u.(AKU_Suspended) k) |>.

Definition changes (val1 val2 : string) : bool := negb (val2 =?s "") && negb (val1 =?s val2).

Definition admin_update_required (k : KafkaRequest) (u : AdminKafkaUpdateRequest) : bool :=
  changes k.(KR.Status) (getStatusBasedOnSuspendedParam u.(AKU_Suspended) k) ||
  changes k.(KR.MaxDataRetentionSize) u.(AKU_MaxDataRetentionSize) || changes k.(KR.DesiredKafkaIBPVersion) u.(AKU_KafkaIbpVersion) ||
  changes k.(KR.DesiredStrimziVersion) u.(AKU_StrimziVersion) || changes k.(KR.DesiredKafkaVersion) u.(AKU_KafkaVersion).

(** [if current != wanted && wanted != "" && upgrading]. *)
Definition no_upgrade_in_progress (current wanted : string) (upgrading : bool) (reason : string) : Validator W :=
  require (negb (negb (current =?s wanted) && negb (wanted =?s "") && upgrading)) (New ErrorValidation reason).

Definition AdminUpdate_config (r : Request AdminKafkaUpdateRequest) (fetched : result ServiceError KafkaRequest)
  : HandlerConfig AdminKafkaUpdateRequest PrivateKafka :=
  mkHandlerConfig
    [ (fun _ => validateGettingKafkaFromDatabase fetched);
      (fun u => ValidateKafkaUpdateFields u);
      (fun u => with_kafka fetched (fun k => ValidateMaxDataRetentionSize k u));
      (fun _ => with_kafka fetched (fun k => require (Contains GetUpdateableStatuses k.(KR.Status))
         (New ErrorValidation "unable to update kafka in %s status. Supported statuses for update are: %v")));
      (fun u => with_kafka fetched (fun k => no_upgrade_in_progress k.(KR.DesiredKafkaVersion) u.(AKU_KafkaVersion) k.(KR.KafkaUpgrading)
         "unable to update kafka version. Another upgrade is already in progress"));
      (fun u => with_kafka fetched (fun k => no_upgrade_in_progress k.(KR.DesiredStrimziVersion) u.(AKU_StrimziVersion) k.(KR.StrimziUpgrading)
         "unable to update strimzi version. Another upgrade is already in progress"));
      (fun u => with_kafka fetched (fun k => no_upgrade_in_progress k.(KR.DesiredKafkaIBPVersion) u.(AKU_KafkaIbpVersion) k.(KR.KafkaIBPUpgrading)
         "unable to update ibp version. Another upgrade is already in progress"));
      (fun u => with_kafka fetched (fun k => validateVersionsCompatibility k u));
      (fun u => with_kafka fetched (fun k => validateUpdateKafkaSuspended cfg k u)) ]
    (fun u => with_kafka fetched (fun k =>
       let kafkaRequest := admin_updated k u in
       _ <~ (if admin_update_required k u then VerifyAndUpdateKafkaAdmin (auth_context r.(req_ctx)) kafkaRequest else ret tt) ;;
       PresentKafkaRequestAdminEndpoint kafkaRequest)).

Definition adminKafkaHandler_Update (r : Request AdminKafkaUpdateRequest) : M W ServiceError (Z * PrivateKafka) :=
  fetched <~ attempt (Kafka_Get (auth_context r.(req_ctx)) r.(req_id)) ;;
  Handle r (AdminUpdate_config r fetched) StatusOK.

Definition adminKafkaHandler_Get (r : Request unit) : M W ServiceError (Z * PrivateKafka) :=
  HandleGet (mkHandlerConfig [] (fun _ =>
    kafkaRequest <~ Kafka_Get (auth_context r.(req_ctx)) r.(req_id) ;;
    PresentKafkaRequestAdminEndpoint kafkaRequest)).

Definition adminKafkaHandler_Delete (r : Request unit) : M W ServiceError (Z * unit) := HandleDelete (Delete_config r) StatusAccepted.

Fixpoint present_all (l : list KafkaRequest) : M W ServiceError (list PrivateKafka) :=
  match l with
  | [] => ret []
  | k :: l' => p <~ PresentKafkaRequestAdminEndpoint k ;; ps <~ present_all l' ;; ret (p :: ps)
  end.

Definition adminKafkaHandler_List (r : Request unit) : M W ServiceError (Z * (list PrivateKafka * PagingMeta)) :=
  HandleList (mkHandlerConfig [] (fun _ =>
    found <~ kafkaHandler_List past_end (auth_context r.(req_ctx)) r.(req_query) ;;
    items <~ present_all found.1 ;;
    ret (items, found.2))).

(** *** Promotion *)
Definition promotion_fields (kafkaRequest : KafkaRequest) (p : KafkaPromoteRequest) (row : KafkaRequest) : KafkaRequest :=
  let marketplace := p.(KPR_DesiredKafkaBillingModel) =?s "marketplace" in
  let row := row <| KR.DesiredKafkaBillingModel := p.(KPR_DesiredKafkaBillingModel) |>
                 <| KR.PromotionStatus := KafkaPromotionStatusPromoting |>
                 <| KR.Marketplace := if marketplace then p.(KPR_DesiredMarketplace) else "" |>
                 <| KR.BillingCloudAccountId := if marketplace then p.(KPR_DesiredBillingCloudAccountId) else "" |> in
  if negb (kafkaRequest.(KR.PromotionDetails) =?s "") then row <| KR.PromotionDetails := "" |> else row.

Definition Promote_config (r : Request KafkaPromoteRequest) (fetched : result ServiceError KafkaRequest) : HandlerConfig KafkaPromoteRequest unit :=
  mkHandlerConfig
    [ (fun _ => ValidateAsyncEnabled r "promote a kafka request");
      (fun p => ValidateMinLength p.(KPR_DesiredKafkaBillingModel) "desired_kafka_billing_model" 1);
      (fun _ => validateGettingKafkaFromDatabase fetched);
      (fun _ => with_kafka fetched (fun k => validateUserIsKafkaOwnerOrOrgAdmin r.(req_ctx) k));
      (fun _ => with_kafka fetched (fun k => validateKafkaRequestToPromoteHasAPromotableActualKafkaBillingModel k));
      (fun _ => with_kafka fetched (fun k => validateKafkaRequestToPromoteHasAPromotableStatus k));
      (fun p => with_kafka fetched (fun k => validateRequestedKafkaPromotionHasDifferentKafkaBillingModel p k));
      (fun _ => with_kafka fetched (fun k => validateNoKafkaPromotionInProgress k));
      (fun p => with_kafka fetched (fun k => validateKafkaPromoteRequestFields cfg p k)) ]
    (fun p => with_kafka fetched (fun k => Updates k (promotion_fields k p))).

Definition kafkaPromoteHandler_Promote (r : Request KafkaPromoteRequest) : M W ServiceError (Z * unit) :=
  fetched <~ attempt (Kafka_Get (auth_context r.(req_ctx)) r.(req_id)) ;;
  Handle r (Promote_config r fetched) StatusAccepted.
End Handlers.

(** ** Names and searches *)
Lemma runes_app a b : runes (a +:+ b) = runes a ++ runes b.
Proof. induction a as [|c a IH]; [done|]. change (Z.of_N (N_of_ascii c) :: runes (a +:+ b) = Z.of_N (N_of_ascii c) :: runes a ++ runes b). by rewrite IH. Qed.

Lemma runes_inj a b : runes a = runes b -> a = b.
Proof.
  revert b. induction a as [|c a IH]; intros [|d b]; simpl; try done. intros [= Hc Hr]. f_equal; [|by apply IH].
  apply N2Z.inj, (f_equal ascii_of_N) in Hc. by rewrite !ascii_N_embedding in Hc.
Qed.

(** A rune below 128 comes from one byte. *)
Lemma decode_ascii bs : Forall (fun c => c < 128) (decode bs) -> decode bs = bs.
Proof.
  induction bs as [|b0 l1 IH]; [done|]. simpl. destruct (Z.ltb_spec b0 128); [intros [_ Hl]%Forall_cons; by rewrite IH|].
  unfold second_of_3, second_of_4, cont, in_range, RuneError.
  intros Hl. exfalso. revert Hl.
  repeat match goal with |- context [if ?b then _ else _] => destruct b eqn:?
                    | |- context [match ?l with [] => _ | _ :: _ => _ end] => destruct l end;
    intros [Hd _]%Forall_cons; split_bools; rewrite ?Z.leb_le, ?Z.eqb_eq, ?Z.eqb_neq in *; lia.
Qed.

Lemma ascii_decode bs : Forall (fun c => c < 128) bs -> decode bs = bs.
Proof. induction 1 as [|b l Hb Hl IH]; [done|]. simpl. rewrite (proj2 (Z.ltb_lt b 128) Hb). by rewrite IH. Qed.

(** The names that the pattern accepts. *)
Lemma valid_name_text t : re_match ValidKafkaClusterNameRegexp t = true ->
  exists c t', t = c :: t' /\ lower_letter c = true /\ forallb name_char t = true.
Proof.
  intros Hm%re_match_spec. inversion Hm as [| |? ? s u Hs Hu| | | |]; subst. inversion Hs as [|? c Hc| | | | |]; subst.
  exists c, u. split_and!; [done..|]. simpl. unfold name_char at 1, name_tail_char at 1. rewrite Hc, orb_true_r. simpl.
  inversion Hu as [| | |? ? ? Hu'|? ? ? Hu'| |]; subst; [|by inversion Hu'].
  inversion Hu' as [| |? ? s1 s2 H1 H2| | | |]; subst. rewrite forallb_app, (star_class _ _ H1). simpl.
  inversion H2 as [|? d Hd| | | | |]; subst. simpl. unfold name_char. by rewrite Hd, orb_true_r.
Qed.

Lemma name_char_facts c : name_char c = true -> 45 <= c < 128 /\ plain c = true /\ value_char c = true /\ c <> QUOTE.
Proof.
  unfold name_char, name_tail_char, lower_letter, digit, in_range. rewrite !orb_true_iff, !andb_true_iff, !Z.leb_le, Z.eqb_eq. intros Hc.
  assert (forall y, existsb (Z.eqb y) [BACKSLASH; OPEN; CLOSE; EQUALS; LESS; GREATER; QUOTE; SPACE; COMMA; 94] = true -> (c =? y) = false) as Hne.
  { intros y Hy. apply Z.eqb_neq. intros ->. unfold BACKSLASH, OPEN, CLOSE, EQUALS, LESS, GREATER, QUOTE, SPACE, COMMA in Hy. simpl in Hy.
    rewrite !orb_true_iff, !Z.eqb_eq in Hy. lia. }
  split_and!; [lia|lia| | |].
  - unfold plain, quotable. simpl. by rewrite !Hne.
  - unfold value_char. simpl. by rewrite !Hne.
  - by apply Z.eqb_neq, Hne.
Qed.

Lemma star_class_intro f s : forallb f s = true -> matches (RStar (RClass f)) s.
Proof. induction s as [|c s IH]; simpl; [constructor|]. intros [Hc Hs]%andb_true_iff. apply (m_star_cons _ [c]); [by constructor|by apply IH]. Qed.

Lemma valid_name_is_value t : re_match ValidKafkaClusterNameRegexp t = true ->
  t <> [] /\ forallb plain t = true /\ re_match quoted_pattern t = false /\ re_match value_pattern t = true.
Proof.
  intros (c & t' & -> & Hc & Hall)%valid_name_text. rewrite forallb_forall in Hall.
  assert (c <> QUOTE) as Hq by (apply name_char_facts, Hall; by left).
  split_and!; [done| | |].
  - apply forallb_forall. intros x Hx. by apply name_char_facts, Hall.
  - apply not_true_iff_false. intros Hm%re_match_spec. inversion Hm as [| |? ? s u Hs Hu E| | | |]; subst.
    inversion Hs as [|? d Hd| | | | |]; subst. apply Z.eqb_eq in Hd. simpl in *. congruence.
  - apply re_match_spec. apply (m_seq _ _ [c] t'); [constructor; by apply negb_true_iff, Z.eqb_neq|].
    apply star_class_intro, forallb_forall. intros x Hx. apply name_char_facts, Hall. by right.
Qed.

Lemma valid_name_runes name : MatchString ValidKafkaClusterNameRegexp name = true ->
  runes_of name = runes name /\ Forall (fun c => c < 128) (runes name).
Proof.
  unfold MatchString, runes_of. intros (c & t' & Ht & _ & Hall)%valid_name_text.
  assert (Forall (fun c => c < 128) (decode (runes name))) as Hlt.
  { apply Forall_forall. intros x Hx. rewrite forallb_forall in Hall. apply name_char_facts, Hall. by apply list_elem_of_In. }
  pose proof (decode_ascii _ Hlt) as Hd. by rewrite Hd in *.
Qed.

(** The clause that the uniqueness check asks the database for. *)
Definition name_clause_query (name : string) : DBQuery := mkDBQuery (runes "name = ?") [runes name] validColumns [].

Lemma name_search_clause {W} `{Database W} `{!ListQueries W} past_end name : MatchString ValidKafkaClusterNameRegexp name = true ->
  search_condition past_end ("name = " +:+ name) = Ok (where_holds (name_clause_query name)).
Proof.
  intros Hm. destruct (valid_name_runes name Hm) as [Hr Hlt]. unfold MatchString in Hm. rewrite Hr in Hm.
  destruct (valid_name_is_value _ Hm) as (Hne & Hp & Hq & Hv). unfold search_condition.
  change ("name = " +:+ name =?s "") with false. cbn iota.
  assert (runes_of ("name = " +:+ name) = runes "name" ++ runes " = " ++ runes name) as ->.
  { unfold runes_of. rewrite ascii_decode; [by rewrite runes_app|]. rewrite runes_app. apply Forall_app. split; [|done].
    repeat (constructor; [done|]). constructor. }
  change (NewQueryParser []) with (NewQueryParser validColumns).
  rewrite (plain_value_clause past_end validColumns (runes "name") (runes name)); [done|done|right; left|done..].
Qed.

(** What the clause means: PostgreSQL compares the column with the value. *)
Class NameColumn (W : Type) `{Database W} `{!ListQueries W} :=
  name_clause : forall name k, where_holds (name_clause_query name) k = (k.(KR.Name) =?s name).

(** ** Runs of handlers *)
Section FrameFacts.
Context {W : Type} `{Database W} {Body A : Type}.
Implicit Types (r : Request Body) (cfg : HandlerConfig (W := W) Body A).

Definition validators_read_only cfg : Prop := forall v p, v ∈ cfg.(Validate) -> read_only (v p).

Lemma run_validated_ok cfg p status w code a w' :
  run_validated cfg p status w = (Ok (code, a), w') -> validators_read_only cfg ->
  code = status /\
  (forall i v, cfg.(Validate) !! i = Some v -> exists w1 w2, tables_of w1 = tables_of w /\ v p w1 = (Ok tt, w2)) /\
  exists w1, tables_of w1 = tables_of w /\ cfg.(Action) p w1 = (Ok a, w').
Proof.
  intros Hrun Hro. unfold run_validated in Hrun. apply bind_ok in Hrun as ([] & w1 & Hv & Hrun).
  apply bind_ok in Hrun as (b & w2 & Ha & Hrun). run_ok Hrun.
  apply for_each_ok in Hv as [Ht Hv]; [|intros v Hin; by apply Hro].
  split_and!; [done| |by eauto]. intros i v Hi%list_elem_of_lookup_2. by apply Hv.
Qed.

Lemma for_each_validators_ro cfg p : validators_read_only cfg -> forall w, tables_of (snd (for_each (fun v => v p) cfg.(Validate) w)) = tables_of w.
Proof.
  unfold validators_read_only. induction (cfg.(Validate)) as [|v l IH]; intros Hro w; [done|]. simpl. unfold bind.
  pose proof (Hro v p (list_elem_of_here _ _) w) as Hv. destruct (v p w) as [[u|e] w1]; simpl in *; [|done].
  rewrite IH; [done|]. intros v' p' Hin. apply Hro. by right.
Qed.

(** A handler that fails failed before its action, or in it. *)
Lemma run_validated_err cfg p status w e w' :
  run_validated cfg p status w = (Err e, w') -> validators_read_only cfg ->
  tables_of w' = tables_of w \/ exists w1, tables_of w1 = tables_of w /\ cfg.(Action) p w1 = (Err e, w').
Proof.
  intros Hrun Hro. unfold run_validated in Hrun. pose proof (for_each_validators_ro cfg p Hro w) as Ht.
  apply bind_inv in Hrun as [([] & w1 & Hv & Hrun)|(e' & Hv & _)]; rewrite Hv in Ht; simpl in Ht; [|by left].
  right. exists w1. split; [done|]. by apply bind_inv in Hrun as [(a & w2 & _ & Hrun)|(e' & Ha & [= ->])].
Qed.

Lemma Handle_ok r cfg status w code a w' :
  Handle r cfg status w = (Ok (code, a), w') -> validators_read_only cfg ->
  exists p, r.(req_body) = Ok p /\ code = status /\
    (forall i v, cfg.(Validate) !! i = Some v -> exists w1 w2, tables_of w1 = tables_of w /\ v p w1 = (Ok tt, w2)) /\
    exists w1, tables_of w1 = tables_of w /\ cfg.(Action) p w1 = (Ok a, w').
Proof.
  intros Hrun Hro. unfold Handle in Hrun. apply bind_ok in Hrun as (p & w1 & Hp & Hrun). unfold lift in Hp. injection Hp as Hp <-.
  destruct (req_body r) as [p'|]; [|done]. injection Hp as ->. apply run_validated_ok in Hrun as (-> & Hv & Ha); [|done].
  exists p. done.
Qed.

Lemma Handle_err r cfg status w e w' :
  Handle r cfg status w = (Err e, w') -> validators_read_only cfg ->
  tables_of w' = tables_of w \/ exists p w1, r.(req_body) = Ok p /\ tables_of w1 = tables_of w /\ cfg.(Action) p w1 = (Err e, w').
Proof.
  intros Hrun Hro. unfold Handle in Hrun. apply bind_inv in Hrun as [(p & w1 & Hp & Hrun)|(e' & Hp & _)];
    unfold lift in Hp; injection Hp as Hp <-; [|by left].
  destruct (req_body r) as [p'|]; [|done]. injection Hp as ->.
  apply run_validated_err in Hrun as [?|(w2 & ? & ?)]; [by left|right; eauto|done].
Qed.
End FrameFacts.

(** Goes through a list of validators. *)
Ltac each_validator :=
  intros v p Hv; repeat (apply elem_of_cons in Hv as [->|Hv]; [|]); [..|by apply elem_of_nil in Hv].

Lemma require_ok {W} b e (w w' : W) : require b e w = (Ok tt, w') -> b = true /\ w' = w.
Proof. unfold require. destruct b; [|done]. by intros [= <-]. Qed.

Section CreateFacts.
Context {W : Type} `{Database W} `{IdSource W} `{!KafkaExternals W} `{!HandlerServices W} `{!ListQueries W}.
Context `{QuantityLib}.
Context (past_end : text -> Z -> result error text).
Context (dp : DataplaneClusterConfig) (pc : ProviderConfig) (cfg : KafkaConfig).
Context `{!ClusterLookup W cfg}.

Lemma Create_validators_ro r unread : validators_read_only (W := W) (Create_config past_end dp pc cfg r unread).
Proof. each_validator; eauto with fleet. Qed.

(** The validator of names lets a name pass only when no Kafka in sight has it. *)
Lemma name_check_ok `{!NameColumn W} name ctx w w' :
  ValidateKafkaClusterNameIsUnique (W := W) past_end name ctx w = (Ok tt, w') -> MatchString ValidKafkaClusterNameRegexp name = true ->
  exists claims, ctx.(rc_claims) = Ok claims /\
    Forall (fun k => visible (auth_context ctx) (claims_of claims) k = true -> k.(KR.Name) <> name) (tables_of w).(kafkas).
Proof.
  intros Hrun Hm. unfold ValidateKafkaClusterNameIsUnique in Hrun. apply bind_ok in Hrun as ([l m] & w1 & Hl & Hrun).
  apply require_ok in Hrun as [Ht _]. apply Kafka_List_ok in Hl as (claims & searched & rows & Hcl & _ & Hs & Hp & _ & -> & _).
  cbn [LA_Search] in Hs. rewrite name_search_clause in Hs by done. injection Hs as <-. simpl in Ht.
  simpl in Hcl. destruct (rc_claims ctx) as [c|] eqn:Hc; [|done]. injection Hcl as <-. exists c. split; [done|].
  apply Forall_forall. intros k Hk Hvis Hn. assert (rows = []) as -> by (destruct rows; [done|simpl in Ht; lia]).
  symmetry in Hp. apply Permutation_nil_r in Hp. unfold listed in Hp.
  assert (k ∈ List.filter (fun k => visible (auth_context ctx) (claims_of c) k && where_holds (name_clause_query name) k) (kafkas (tables_of w))) as Hin.
  { apply list_elem_of_In, filter_In. split; [by apply list_elem_of_In|]. by rewrite Hvis, name_clause, Hn, String.eqb_refl. }
  rewrite Hp in Hin. by apply elem_of_nil in Hin.
Qed.

Lemma create_request_ok ctx p w k w' :
  create_request (W := W) pc cfg ctx p w = (Ok k, w') ->
  tables_of w' = tables_of w /\ k.(KR.Name) = p.(KRP_Name) /\ k.(KR.Owner) = value_or_zero (GetUsername (claims_or_none ctx)) /\
  k.(KR.OrganisationId) = value_or_zero (GetOrgId (claims_or_none ctx)).
Proof.
  intros Hrun. assert (read_only (create_request (W := W) pc cfg ctx p)) as Hro.
  { unfold create_request. apply bind_read_only; [solve_read_only|]. intros ts. destruct (match ts with Ok p => p | Err _ => ("", "") end).
    apply bind_read_only; [solve_read_only|]. intros ps. by destruct (match ps with Ok p => p | Err _ => ("", "") end). }
  split; [by eapply read_only_run|]. unfold create_request in Hrun. apply bind_ok in Hrun as (ts & w1 & _ & Hrun).
  destruct (match ts with Ok p => p | Err _ => ("", "") end) as [ty sz]. apply bind_ok in Hrun as (ps & w2 & _ & Hrun).
  destruct (match ps with Ok p => p | Err _ => ("", "") end) as [cp rg]. run_ok Hrun.
  unfold ConvertKafkaRequest. simpl. by repeat case_match.
Qed.
End CreateFacts.

Section CreateProperties.
Context {W : Type} `{Database W} `{IdSource W} `{!KafkaExternals W} `{!HandlerServices W} `{!ListQueries W}.
Context `{QuantityLib}.
Context (past_end : text -> Z -> result error text).
Context (dp : DataplaneClusterConfig) (pc : ProviderConfig) (cfg : KafkaConfig).
Context `{!ClusterLookup W cfg}.

(** What registration keeps of the request, and what it takes from the size. *)
Lemma registered_fields req w k w' :
  RegisterKafkaJob dp pc cfg req w = (Ok k, w') ->
  k.(KR.Name) = req.(KR.Name) /\ k.(KR.Owner) = req.(KR.Owner) /\ k.(KR.OrganisationId) = req.(KR.OrganisationId) /\
  k.(KR.Status) = KafkaRequestStatusAccepted /\
  (exists t, tables_of w' = mkTables ((tables_of w).(kafkas) ++ [stamp_kafka t k]) (tables_of w).(clusters)) /\
  exists size, GetKafkaInstanceSize cfg k.(KR.InstanceType) k.(KR.SizeId) = Ok size /\ k.(KR.MaxDataRetentionSize) = MaxDataRetentionSize size.
Proof.
  intros (w1 & placed & w2 & sub & bm & w3 & size & Hcheck & Hplace & Hres & Hsize & -> & Hins)%RegisterKafkaJob_ok.
  pose proof (read_only_run _ _ _ _ (check_region_capacity_ro dp pc cfg _) Hcheck) as Ht1.
  pose proof (read_only_run _ _ _ _ (place_at_registration_ro dp cfg _) Hplace) as Ht2.
  pose proof (read_only_run _ _ _ _ (reserveQuota_ro cfg _) Hres) as Ht3.
  apply exec_ok in Hins as [_ Hins]. rewrite Ht3, Ht2, Ht1 in Hins.
  assert (placed.(KR.Name) = req.(KR.Name) /\ placed.(KR.Owner) = req.(KR.Owner) /\ placed.(KR.OrganisationId) = req.(KR.OrganisationId)) as (Hn & Ho & Hg).
  { destruct (identified_request_eq req w) as (i & p & Hreq). rewrite Hreq in Hplace.
    apply place_at_registration_ok in Hplace as [(-> & _)|(c & ? & _ & ->)]; [|case_match]; by destruct req. }
  unfold complete_registration in *. destruct (LifespanSeconds size); simpl in *; split_and!; try done; try (by eexists); exists size; done.
Qed.

Lemma presented_kafka k p : PresentKafkaRequest k cfg = Ok p -> p.(PK_Name) = k.(KR.Name) /\ p.(PK_Id) = k.(KR.ID) /\ p.(PK_Status) = k.(KR.Status).
Proof.
  unfold PresentKafkaRequest. destruct (getDisplayName _ _); [|done]. simpl. destruct (ToInt64 _); [|done]. simpl. intros [= <-]. simpl.
  unfold PresentReference. split_and!; try done. by case_str.
Qed.

(** In a configuration that passes validation, a registered Kafka can be shown. *)
Lemma registered_is_presentable isz vs req w k w' :
  config_validate ToInt64 isz vs cfg.(SupportedInstanceTypes) = Ok tt ->
  RegisterKafkaJob dp pc cfg req w = (Ok k, w') -> is_ok (PresentKafkaRequest k cfg) = true.
Proof.
  intros Hcfg (_ & _ & _ & _ & _ & size & Hsize & Hret)%registered_fields. unfold PresentKafkaRequest, getDisplayName.
  unfold GetKafkaInstanceSize in Hsize. destruct (GetKafkaInstanceTypeByID _ _) as [t|] eqn:Ht; [|done]. simpl in Hsize.
  assert (is_ok (ToInt64 (MaxDataRetentionSize size)) = true) as Hq.
  { unfold config_validate in Hcfg. apply types_validate_ok in Hcfg as (_ & _ & Hall). rewrite Forall_forall in Hall.
    unfold GetKafkaInstanceTypeByID in Ht. destruct (List.find _ _) as [t'|] eqn:Hf; [|done]. injection Ht as ->.
    apply find_some in Hf as [Hin _]. apply list_elem_of_In in Hin. specialize (Hall t Hin). apply type_validate_ok in Hall as (_ & _ & _ & Hsizes).
    unfold GetKafkaInstanceSizeByID in Hsize. destruct (List.find _ (Sizes t)) as [s|] eqn:Hfs; [|done]. injection Hsize as ->.
    apply find_some in Hfs as [Hins _]. apply list_elem_of_In in Hins. rewrite Forall_forall in Hsizes. specialize (Hsizes size Hins).
    revert Hsizes. unfold size_validate. repeat case_top. done. }
  destruct (negb _); simpl; rewrite Hret; by destruct (ToInt64 _).
Qed.

(** [C13] A creation that is accepted answers 202 and has inserted exactly one
    row: the name is well-formed, has at most 32 characters and is not the name
    of any Kafka that the caller can see; the row has that name, the owner and
    the organisation of the caller, and is accepted; and the response shows it. *)
Theorem accepted_creation_is_unique_and_owned `{!NameColumn W} r w code resp w' :
  kafkaHandler_Create past_end dp pc cfg r w = (Ok (code, resp), w') ->
  exists payload claims k t,
    code = 202 /\ r.(req_body) = Ok payload /\ r.(req_ctx).(rc_claims) = Ok claims /\ r.(req_query) "async" = "true" /\
    MatchString ValidKafkaClusterNameRegexp payload.(KRP_Name) = true /\ 1 <= len payload.(KRP_Name) <= 32 /\
    Forall (fun row => visible (auth_context r.(req_ctx)) (claims_of claims) row = true -> row.(KR.Name) <> payload.(KRP_Name)) (tables_of w).(kafkas) /\
    tables_of w' = mkTables ((tables_of w).(kafkas) ++ [stamp_kafka t k]) (tables_of w).(clusters) /\
    k.(KR.Name) = payload.(KRP_Name) /\ GetUsername claims = Ok k.(KR.Owner) /\ GetOrgId claims = Ok k.(KR.OrganisationId) /\
    k.(KR.Status) = KafkaRequestStatusAccepted /\
    resp.(PK_Name) = k.(KR.Name) /\ resp.(PK_Id) = k.(KR.ID) /\ resp.(PK_Status) = KafkaRequestStatusAccepted.
Proof.
  intros Hrun. apply Handle_ok in Hrun as (payload & Hb & -> & Hi & w1 & Ht & Ha); [|apply Create_validators_ro].
  destruct (Hi 0%nat _ eq_refl) as (wa & wb & _ & Hasync), (Hi 1%nat _ eq_refl) as (wc & wd & _ & Hlen), (Hi 2%nat _ eq_refl) as (we & wf & _ & Hname),
    (Hi 3%nat _ eq_refl) as (wg & wh & Htg & Huniq), (Hi 4%nat _ eq_refl) as (wi & wj & _ & Hclaims).
  apply require_ok in Hasync as [Hasync _]. apply String.eqb_eq in Hasync. apply require_ok in Hname as [Hname _].
  destruct (name_check_ok past_end _ _ _ _ Huniq Hname) as (claims & Hcl & Hall). rewrite Htg in Hall.
  unfold ValidateLength in Hlen. apply bind_ok in Hlen as ([] & wk & Hmax & Hmin).
  apply require_ok in Hmax as [Hmax _]. apply require_ok in Hmin as [Hmin _].
  apply bind_ok in Ha as (req & w2 & Hreq & Ha). apply bind_ok in Ha as (k & w3 & Hk & Ha).
  unfold lift in Ha. injection Ha as Hp <-. apply create_request_ok in Hreq as (Ht2 & Hn & Ho & Hg).
  apply registered_fields in Hk as (Hn' & Ho' & Hg' & Hst & (t & Hins) & _). rewrite Ht2, Ht in Hins.
  apply presented_kafka in Hp as (Hpn & Hpi & Hps). unfold ValidateKafkaClaims, lift in Hclaims. injection Hclaims as Hclaims _.
  unfold claims_or_none in *. rewrite Hcl in *. unfold validate_claims, ValidateUsername, ValidateOrganisationId in Hclaims.
  exists payload, claims, k, t. unfold MinRequiredFieldLength, MaxKafkaNameLength in *. simpl in Hmin. split_bools.
  apply Z.ltb_ge in Hmax, Hmin. rewrite Ho', Ho, Hg', Hg. split_and!; try done; try congruence.
  - by destruct (GetUsername claims).
  - destruct (GetUsername claims); [|done]. by destruct (GetOrgId claims).
Qed.

(** With a configuration that passes validation, a creation that is refused,
    whatever the reason, leaves the tables as they were: no Kafka is left behind
    by a request that the client was told had failed. *)
Theorem refused_creation_writes_nothing isz vs r w e w' :
  config_validate ToInt64 isz vs cfg.(SupportedInstanceTypes) = Ok tt ->
  kafkaHandler_Create past_end dp pc cfg r w = (Err e, w') -> tables_of w' = tables_of w.
Proof.
  intros Hcfg Hrun. apply Handle_err in Hrun as [Ht|(p & w1 & _ & Ht & Ha)]; [done| |apply Create_validators_ro].
  apply bind_inv in Ha as [(req & w2 & Hreq & Ha)|(e' & Hreq & _)].
  - apply create_request_ok in Hreq as (Ht2 & _). rewrite <- Ht, <- Ht2. apply bind_inv in Ha as [(k & w3 & Hk & Ha)|(e' & Hk & _)].
    + apply registered_is_presentable with (1 := Hcfg) in Hk. unfold lift in Ha. injection Ha as Hp _. by rewrite Hp in Hk.
    + by apply RegisterKafkaJob_err in Hk.
  - unfold create_request in Hreq. apply bind_inv in Hreq as [(ts & w2 & _ & Hreq)|(e1 & Hts & _)]; [|unfold attempt in Hts; by case_match].
    destruct (match ts with Ok p => p | Err _ => ("", "") end) as [ty sz].
    apply bind_inv in Hreq as [(ps & w3 & _ & Hreq)|(e1 & Hps & _)]; [|unfold attempt in Hps; by case_match].
    by destruct (match ps with Ok p => p | Err _ => ("", "") end).
Qed.
End CreateProperties.

(** ** Updates *)
Lemma updated_spec cur new : updated cur new = FirstNonEmptyOrDefault cur [new].
Proof. unfold updated, FirstNonEmptyOrDefault. simpl. unfold FindFirst. simpl. repeat case_str; simpl; subst; done. Qed.

Section UpdateFacts.
Context {W : Type} `{Database W} `{IdSource W} `{!KafkaExternals W} `{!HandlerServices W}.
Context `{SemverLib} `{QuantityLib}.
Context (cfg : KafkaConfig).

Lemma Kafka_Get_ro ctx id : read_only (Kafka_Get (W := W) ctx id).
Proof. unfold Kafka_Get. solve_read_only. Qed.

Lemma Kafka_Get_ok ctx id w k w' :
  Kafka_Get (W := W) ctx id w = (Ok k, w') ->
  k ∈ (tables_of w).(kafkas) /\ k.(KR.ID) = id /\ id <> "" /\ tables_of w' = tables_of w.
Proof.
  intros Hrun. unfold Kafka_Get in Hrun. repeat (run_ok Hrun).
  apply first_or_not_found_ok in Hrun as (Hk & Hp & Ht). apply andb_true_iff in Hp as [Hid _]. reflect_strings. done.
Qed.

Lemma with_kafka_ro {A} fetched (f : KafkaRequest -> M W ServiceError A) : (forall k, read_only (f k)) -> read_only (with_kafka fetched f).
Proof. intros Hf. destruct fetched; [apply Hf|apply throw_read_only]. Qed.

(** A handler that reads its Kafka first: when it succeeds, the Kafka was there. *)
Lemma fetched_ok {Body A} (r : Request Body) (hc : result ServiceError KafkaRequest -> HandlerConfig Body A) status (w : W) code a w' i :
  (fetched <~ attempt (Kafka_Get (auth_context r.(req_ctx)) r.(req_id)) ;; Handle r (hc fetched) status) w = (Ok (code, a), w') ->
  (forall fetched, validators_read_only (hc fetched)) ->
  (forall e, Validate (hc (Err e)) !! i = Some (fun _ => validateGettingKafkaFromDatabase (Err e))) ->
  exists k p, k ∈ (tables_of w).(kafkas) /\ k.(KR.ID) = r.(req_id) /\ k.(KR.ID) <> "" /\ r.(req_body) = Ok p /\ code = status /\
    (forall j v, Validate (hc (Ok k)) !! j = Some v -> exists w1 w2, tables_of w1 = tables_of w /\ v p w1 = (Ok tt, w2)) /\
    exists w1, tables_of w1 = tables_of w /\ Action (hc (Ok k)) p w1 = (Ok a, w').
Proof.
  intros Hrun Hro Hguard. apply bind_ok in Hrun as (fetched & w1 & Hf & Hrun). apply attempt_inv in Hf as (r0 & Hf & [= ->]).
  pose proof (read_only_run _ _ _ _ (Kafka_Get_ro _ _) Hf) as Ht. apply Handle_ok in Hrun as (p & Hb & -> & Hv & w2 & Ht2 & Ha); [|done].
  destruct r0 as [k|e].
  - apply Kafka_Get_ok in Hf as (Hk & Hid & Hne & _). exists k, p. rewrite Ht in Hv, Ht2. split_and!; try done; [congruence|by exists w2].
  - destruct (Hv i _ (Hguard e)) as (? & ? & _ & Hbad). discriminate Hbad.
Qed.

Lemma Update_validators_ro r fetched : validators_read_only (W := W) (Update_config cfg r fetched).
Proof. each_validator; eauto using with_kafka_ro with fleet. Qed.
Lemma AdminUpdate_validators_ro r fetched : validators_read_only (W := W) (AdminUpdate_config cfg r fetched).
Proof. each_validator; eauto using with_kafka_ro with fleet; apply with_kafka_ro; intros k; apply require_ro. Qed.
Lemma Promote_validators_ro r fetched : validators_read_only (W := W) (Promote_config cfg r fetched).
Proof. each_validator; eauto using with_kafka_ro with fleet; apply with_kafka_ro; intros k; apply require_ro. Qed.

Lemma owner_or_admin ctx k (w w' : W) :
  validateUserIsKafkaOwnerOrOrgAdmin ctx k w = (Ok tt, w') ->
  exists claims, ctx.(rc_claims) = Ok claims /\ k.(KR.OrganisationId) = value_or_zero (GetOrgId claims) /\
    (Claims_IsOrgAdmin claims = true \/ k.(KR.Owner) = value_or_zero (GetUsername claims)).
Proof.
  intros Hrun. unfold validateUserIsKafkaOwnerOrOrgAdmin in Hrun. apply bind_ok in Hrun as (claims & w1 & Hc & Hrun).
  unfold lift, getClaims in Hc. injection Hc as Hc _. destruct (rc_claims ctx) as [c|]; [|done]. injection Hc as ->.
  apply require_ok in Hrun as [Hb _]. exists claims. apply andb_true_iff in Hb as [Ho%String.eqb_eq Hb].
  split_and!; [done..|]. apply orb_true_iff in Hb as [?|?%String.eqb_eq]; auto.
Qed.

(** A run of [Updates] on the copy of a row, row by row. *)
Lemma Updates_rows k k0 f (w w' : W) :
  Updates k f w = (Ok tt, w') -> k.(KR.ID) = k0.(KR.ID) -> k.(KR.ID) <> "" -> k0 ∈ (tables_of w).(kafkas) ->
  NoDup (map KR.ID (tables_of w).(kafkas)) ->
  exists t, tables_of w' = mkTables (map (fun row => if (row.(KR.ID) =?s k.(KR.ID)) && not_under_deletion k0 then touch_kafka t (f row) else row)
                                       (tables_of w).(kafkas)) (tables_of w).(clusters).
Proof.
  intros ->%Updates_run Hid Hne Hk Hnd. exists (time_now w). f_equal. apply map_ext_in. intros row Hrow%list_elem_of_In.
  unfold designates, zero_or_eq. rewrite (proj2 (String.eqb_neq _ _) Hne). simpl.
  destruct (String.eqb_spec row.(KR.ID) k.(KR.ID)) as [E|]; [|done]. simpl.
  by rewrite (same_id_same_row _ row k0 Hnd Hrow Hk) by congruence.
Qed.
End UpdateFacts.

Section UpdateProperties.
Context {W : Type} `{Database W} `{IdSource W} `{!KafkaExternals W} `{!HandlerServices W}.
Context `{SemverLib} `{QuantityLib}.
Context (cfg : KafkaConfig).

(** A user's update that succeeds was made by the owner of the Kafka or by an
    administrator of its organisation; a new owner was found valid in the
    caller's organisation; and the only change is to that Kafka's owner and
    reauthentication setting, unless the Kafka is under deletion, when nothing
    changes. *)
Theorem user_update_authorised r w code resp w' :
  kafkaHandler_Update (W := W) cfg r w = (Ok (code, resp), w') -> NoDup (map KR.ID (tables_of w).(kafkas)) ->
  exists k u claims,
    k ∈ (tables_of w).(kafkas) /\ k.(KR.ID) = r.(req_id) /\ r.(req_body) = Ok u /\ r.(req_ctx).(rc_claims) = Ok claims /\
    k.(KR.OrganisationId) = value_or_zero (GetOrgId claims) /\
    (Claims_IsOrgAdmin claims = true \/ k.(KR.Owner) = value_or_zero (GetUsername claims)) /\
    (forall o, u.(KUR_Owner) = Some o -> o <> "" /\ exists w1 w2 : W, check_user_valid o k.(KR.OrganisationId) w1 = (Ok true, w2)) /\
    exists t, tables_of w' = tables_of w \/
      tables_of w' = mkTables (map (fun row => if (row.(KR.ID) =?s r.(req_id)) && not_under_deletion k
                                               then touch_kafka t (row <| KR.ReauthenticationEnabled := (user_updated k u).(KR.ReauthenticationEnabled) |>
                                                                       <| KR.Owner := (user_updated k u).(KR.Owner) |>)
                                               else row) (tables_of w).(kafkas)) (tables_of w).(clusters).
Proof.
  intros Hrun Hnd. eapply (fetched_ok r (Update_config cfg r) StatusOK w code resp w' 0) in Hrun
    as (k & u & Hk & Hid & Hne & Hb & -> & Hv & w1 & Ht & Ha); [|intros; apply Update_validators_ro|done].
  destruct (Hv 1%nat _ eq_refl) as (wa & wb & _ & Hauth). simpl in Hauth. unfold ValidateKafkaUserFacingUpdateFields in Hauth.
  apply bind_ok in Hauth as (claims & wc & Hc & Hauth). apply bind_ok in Hauth as ([] & wd & Hown & Hauth).
  apply owner_or_admin in Hown as (claims' & Hcl & Horg & Hadm).
  unfold lift, getClaims in Hc. rewrite Hcl in Hc. injection Hc as -> _.
  exists k, u, claims. split_and!; try done.
  - intros o Ho. rewrite Ho in Hauth. apply bind_ok in Hauth as ([] & we & Hmin & Hauth). apply require_ok in Hmin as [Hmin _].
    apply bind_ok in Hauth as (ok & wf & Hu & Hauth). apply wrap_err_ok in Hu. apply require_ok in Hauth as [-> _].
    split; [by intros ->|]. rewrite Horg. eauto.
  - simpl in Ha. apply bind_ok in Ha as ([] & w2 & Hupd & Ha). unfold lift in Ha. injection Ha as _ <-.
    destruct (user_update_needed k u); [|injection Hupd as <-; exists 0; by left].
    assert ((user_updated k u).(KR.ID) = k.(KR.ID)) as Hid' by (unfold user_updated; by repeat case_match).
    eapply Updates_rows in Hupd as (t & Ht'); [|exact Hid'|congruence|by rewrite Ht|by rewrite Ht].
    exists t. right. by rewrite Ht', Hid', Hid, Ht.
Qed.

(** A user's update that fails may have been written: the Kafka is presented
    after the update.  Before the action nothing is written. *)
Lemma user_update_refused r w e w' :
  kafkaHandler_Update (W := W) cfg r w = (Err e, w') -> NoDup (map KR.ID (tables_of w).(kafkas)) ->
  tables_of w' = tables_of w \/ exists k u, k ∈ (tables_of w).(kafkas) /\ r.(req_body) = Ok u /\ PresentKafkaRequest (user_updated k u) cfg = Err e.
Proof.
  intros Hrun Hnd. unfold kafkaHandler_Update in Hrun. apply bind_inv in Hrun as [(fetched & w1 & Hf & Hrun)|(e' & Hf & _)];
    [|unfold attempt in Hf; by case_match]. apply attempt_inv in Hf as (r0 & Hf & [= ->]).
  pose proof (read_only_run _ _ _ _ (Kafka_Get_ro _ _) Hf) as Ht.
  apply Handle_err in Hrun as [Hs|(u & w2 & Hb & Ht2 & Ha)]; [left; congruence| |apply Update_validators_ro].
  destruct r0 as [k|e0]; simpl in Ha; [|injection Ha as _ <-; left; congruence]. apply Kafka_Get_ok in Hf as (Hk & _).
  apply bind_inv in Ha as [([] & w3 & Hupd & Ha)|(e' & Hupd & _)].
  - right. exists k, u. unfold lift in Ha. by injection Ha as -> _.
  - left. destruct (user_update_needed k u); [|done]. apply Updates_run in Hupd. congruence.
Qed.
End UpdateProperties.

Section AdminProperties.
Context {W : Type} `{Database W} `{IdSource W} `{!KafkaExternals W} `{!HandlerServices W}.
Context `{SemverLib} `{QuantityLib}.
Context (cfg : KafkaConfig).

(** What an administrator may do to the status of a Kafka. *)
Definition admin_transition (suspended : option bool) (status status' : string) : Prop :=
  status' = status \/
  (suspended = Some true /\ status = KafkaRequestStatusReady /\ status' = KafkaRequestStatusSuspending) \/
  (suspended = Some false /\ status = KafkaRequestStatusSuspended /\ status' = KafkaRequestStatusResuming).

Lemma admin_status k u (w w' : W) :
  validateUpdateKafkaSuspended cfg k u w = (Ok tt, w') -> admin_transition u.(AKU_Suspended) k.(KR.Status) (admin_updated k u).(KR.Status).
Proof.
  unfold validateUpdateKafkaSuspended, admin_transition, admin_updated, updated, getStatusBasedOnSuspendedParam. simpl.
  destruct (AKU_Suspended u) as [[]|].
  - intros Hrun. apply require_ok in Hrun as [Hs _]. apply Contains_true, list_elem_of_singleton in Hs. rewrite Hs. simpl. auto.
  - intros Hrun. unfold validateUpdateKafkaCanBeResumed in Hrun. apply bind_ok in Hrun as ([] & w1 & Hs & _).
    apply require_ok in Hs as [Hs _]. apply Contains_true, list_elem_of_singleton in Hs. rewrite Hs. simpl. auto.
  - intros _. left. by case_match.
Qed.

(** The versions that an update leads to fit together and are offered by the
    cluster, and no upgrade goes backwards. *)
Definition versions_fit (k k' : KafkaRequest) (cluster : Cluster) : Prop :=
  IsStrimziKafkaVersionAvailableInCluster cluster k'.(KR.DesiredStrimziVersion) k'.(KR.DesiredKafkaVersion) k'.(KR.DesiredKafkaIBPVersion) = Ok true /\
  CheckStrimziVersionReady cluster k'.(KR.DesiredStrimziVersion) = Ok true /\
  (exists c, buildAwareSemanticVersioningCompare k'.(KR.DesiredKafkaIBPVersion) k'.(KR.DesiredKafkaVersion) = Ok c /\ c <= 0) /\
  (k.(KR.ActualKafkaIBPVersion) <> "" ->
     exists c, buildAwareSemanticVersioningCompare k.(KR.ActualKafkaIBPVersion) k'.(KR.DesiredKafkaIBPVersion) = Ok c /\ c <= 0) /\
  (k.(KR.ActualKafkaVersion) <> "" ->
     exists c, checkIfMinorDowngrade k.(KR.ActualKafkaVersion) k'.(KR.DesiredKafkaVersion) = Ok c /\ c <= 0).

Lemma available_ok check reason (w w' : W) : available check reason w = (Ok tt, w') -> check = Ok true.
Proof.
  intros Hrun. unfold available in Hrun. apply bind_ok in Hrun as (b & w1 & Hl & Hrun). apply require_ok in Hrun as [-> _].
  unfold lift in Hl. injection Hl as Hl _. by destruct check; [injection Hl as ->|].
Qed.

Lemma not_greater_ok cmp a b (w w' : W) : not_greater cmp a b w = (Ok tt, w') -> exists c, cmp = Ok c /\ c <= 0.
Proof.
  intros Hrun. unfold not_greater in Hrun. apply bind_ok in Hrun as (c & w1 & Hl & Hrun). apply require_ok in Hrun as [Hc _].
  unfold lift in Hl. injection Hl as Hl _. exists c. split; [by destruct cmp; [injection Hl as ->|]|]. lia.
Qed.

Lemma first_non_empty a b : a <> "" -> default "" (FirstNonEmpty [a; b]) = a.
Proof. intros Ha. unfold FirstNonEmpty, FindFirst. simpl. by rewrite (proj2 (String.eqb_neq a "") Ha). Qed.

Lemma versions_compatible k u (w w' : W) :
  validateVersionsCompatibility k u w = (Ok tt, w') ->
  exists cluster, cluster ∈ (tables_of w).(clusters) /\ cluster.(CL.ClusterID) = k.(KR.ClusterID) /\ versions_fit k (admin_updated k u) cluster.
Proof.
  intros Hrun. unfold validateVersionsCompatibility in Hrun. apply bind_ok in Hrun as (found & w1 & Hf & Hrun). apply wrap_err_ok in Hf.
  destruct found as [cluster|]; [|done]. unfold FindClusterByID in Hf. run_ok Hf. apply exec_ok in Hf as [[Hin Hid] _].
  apply bind_ok in Hrun as ([] & w2 & Ha & Hrun). apply bind_ok in Hrun as ([] & w3 & Hr & Hrun). apply bind_ok in Hrun as ([] & w4 & Hi & Hrun).
  apply bind_ok in Hrun as ([] & w5 & Hk & Hrun). apply available_ok in Ha, Hr. apply not_greater_ok in Hi, Hk, Hrun.
  exists cluster. reflect_strings. split_and!; [done..|]. unfold versions_fit, admin_updated, desired_strimzi, desired_kafka, desired_ibp in *. simpl.
  rewrite !updated_spec. split_and!; try done; intros Hne; by rewrite first_non_empty in * by done.
Qed.

Definition admin_columns (k' row : KafkaRequest) : KafkaRequest :=
  row <| KR.MaxDataRetentionSize := k'.(KR.MaxDataRetentionSize) |>
      <| KR.DesiredStrimziVersion := k'.(KR.DesiredStrimziVersion) |>
      <| KR.DesiredKafkaVersion := k'.(KR.DesiredKafkaVersion) |>
      <| KR.DesiredKafkaIBPVersion := k'.(KR.DesiredKafkaIBPVersion) |>
      <| KR.Status := k'.(KR.Status) |>.

Lemma VerifyAndUpdate_rows ctx k (w w' : W) :
  VerifyAndUpdateKafkaAdmin ctx k w = (Ok tt, w') -> k.(KR.ID) <> "" ->
  ctx.(ctx_is_admin) = true /\
  exists t, tables_of w' = mkTables (map (fun row => if row.(KR.ID) =?s k.(KR.ID) then touch_kafka t (admin_columns k row) else row)
                                       (tables_of w).(kafkas)) (tables_of w).(clusters).
Proof.
  intros Hrun Hne. unfold VerifyAndUpdateKafkaAdmin in Hrun. destruct (ctx_is_admin ctx); [|done]. simpl in Hrun.
  apply bind_ok in Hrun as (n & w1 & Hu & Hrun). run_ok Hrun. apply wrap_err_ok in Hu.
  rewrite (proj2 (String.eqb_neq _ _) Hne) in Hu. apply exec_ok in Hu as [_ ->]. split; [done|]. exists (time_now w). f_equal.
  apply map_ext. intros row. unfold designates, zero_or_eq. by rewrite (proj2 (String.eqb_neq _ _) Hne).
Qed.

(** An administrator's update that succeeds concerns a Kafka whose status
    allows updates; it moves the status at most from ready to suspending or
    from suspended to resuming, as asked; the versions that the Kafka is left
    with are offered together by its cluster, the protocol version is not above
    the Kafka version, and neither is below the one in use; and nothing else
    than these columns and the retention size changes, in that row only, which
    takes an administrator. *)
Theorem admin_update_effect r w code resp w' :
  adminKafkaHandler_Update (W := W) cfg r w = (Ok (code, resp), w') ->
  exists k u, k ∈ (tables_of w).(kafkas) /\ k.(KR.ID) = r.(req_id) /\ r.(req_body) = Ok u /\
    k.(KR.Status) ∈ GetUpdateableStatuses /\
    admin_transition u.(AKU_Suspended) k.(KR.Status) (admin_updated k u).(KR.Status) /\
    (exists cluster, cluster ∈ (tables_of w).(clusters) /\ cluster.(CL.ClusterID) = k.(KR.ClusterID) /\ versions_fit k (admin_updated k u) cluster) /\
    (tables_of w' = tables_of w \/
     r.(req_ctx).(rc_is_admin) = true /\
     exists t, tables_of w' = mkTables (map (fun row => if row.(KR.ID) =?s r.(req_id) then touch_kafka t (admin_columns (admin_updated k u) row) else row)
                                          (tables_of w).(kafkas)) (tables_of w).(clusters)).
Proof.
  intros Hrun. eapply (fetched_ok r (AdminUpdate_config cfg r) StatusOK w code resp w' 0) in Hrun
    as (k & u & Hk & Hid & Hne & Hb & -> & Hv & w1 & Ht & Ha); [|intros; apply AdminUpdate_validators_ro|done].
  destruct (Hv 3%nat _ eq_refl) as (wa & wb & _ & Hst), (Hv 7%nat _ eq_refl) as (wc & wd & Htc & Hver), (Hv 8%nat _ eq_refl) as (we & wf & _ & Hsus).
  simpl in Hst, Hver, Hsus. apply require_ok in Hst as [Hst%Contains_true _]. apply admin_status in Hsus. apply versions_compatible in Hver.
  rewrite Htc in Hver. exists k, u. split_and!; try done. simpl in Ha. apply bind_ok in Ha as ([] & w2 & Hupd & Ha).
  assert (tables_of w' = tables_of w2) as ->.
  { eapply read_only_run; [|exact Ha]. unfold PresentKafkaRequestAdminEndpoint. solve_read_only. }
  destruct (admin_update_required k u); [|injection Hupd as <-; by left]. right.
  apply VerifyAndUpdate_rows in Hupd as [Hadm (t & ->)]; [|done]. split; [done|]. exists t. rewrite Ht.
  change (KR.ID (admin_updated k u)) with (KR.ID k). by rewrite Hid.
Qed.

(** A requested retention size is never below the current one, when the current
    one has an exact 64-bit value. *)
Theorem retention_size_never_shrinks k u (w w' : W) cur req n :
  ValidateMaxDataRetentionSize k u w = (Ok tt, w') -> stringSet u.(AKU_MaxDataRetentionSize) = true ->
  ParseQuantity k.(KR.MaxDataRetentionSize) = Ok cur -> ParseQuantity u.(AKU_MaxDataRetentionSize) = Ok req -> AsInt64 cur = (n, true) ->
  (amount cur <= amount req)%Q.
Proof.
  intros Hrun Hset Hcur Hreq Hn. unfold ValidateMaxDataRetentionSize in Hrun. rewrite Hset, Hcur, Hreq in Hrun. simpl in Hrun.
  unfold bind, lift in Hrun. rewrite Hn in Hrun. apply require_ok in Hrun as [Hc%negb_true_iff%Z.ltb_ge _].
  rewrite (AsInt64_exact cur n Hn). apply Qnot_lt_le. intros Hlt. apply CmpInt64_neg in Hlt. lia.
Qed.

(** The size guard is void when the current size has no fast 64-bit form:
    the conversion then yields 0, and every size that is not negative is
    accepted, smaller ones included. *)
Theorem retention_guard_void_for_inexact_sizes k u (w : W) cur req n :
  ParseQuantity k.(KR.MaxDataRetentionSize) = Ok cur -> ParseQuantity u.(AKU_MaxDataRetentionSize) = Ok req -> AsInt64 cur = (n, false) ->
  (0 <= amount req)%Q -> ValidateMaxDataRetentionSize k u w = (Ok tt, w).
Proof.
  intros Hcur Hreq Hn Hpos. unfold ValidateMaxDataRetentionSize. destruct (stringSet _); [|done]. rewrite Hcur, Hreq. simpl.
  unfold bind, lift. rewrite Hn, (AsInt64_inexact cur n Hn). unfold require. destruct (Z.ltb_spec (CmpInt64 req 0) 0) as [Hlt|]; [|done].
  apply CmpInt64_neg in Hlt. exfalso. by apply (Qlt_not_le _ _ Hlt).
Qed.
End AdminProperties.

Section PromoteProperties.
Context {W : Type} `{Database W} `{IdSource W} `{!KafkaExternals W} `{!HandlerServices W}.
Context (cfg : KafkaConfig).

(** [C39] A promotion that is accepted is picked up: the Kafka was an evaluation
    instance of the caller (or of the caller's organisation, for its
    administrators) with a status that allows promotion and no promotion under
    way; afterwards only its row differs, it is marked as promoting to standard
    or marketplace, and when the promotion worker lists its work on these tables
    without an error it finds that row.  The rows have distinct identifiers. *)
Theorem accepted_promotion_reaches_the_worker r w code u w' :
  kafkaPromoteHandler_Promote (W := W) cfg r w = (Ok (code, u), w') -> NoDup (map KR.ID (tables_of w).(kafkas)) ->
  exists k p t, k ∈ (tables_of w).(kafkas) /\ k.(KR.ID) = r.(req_id) /\ r.(req_body) = Ok p /\ code = 202 /\
    k.(KR.ActualKafkaBillingModel) = "eval" /\ k.(KR.PromotionStatus) <> KafkaPromotionStatusPromoting /\
    Contains acceptedKafkaStatusesForPromotion k.(KR.Status) = true /\
    (promotion_fields k p k).(KR.PromotionStatus) = KafkaPromotionStatusPromoting /\
    (promotion_fields k p k).(KR.DesiredKafkaBillingModel) = p.(KPR_DesiredKafkaBillingModel) /\
    (p.(KPR_DesiredKafkaBillingModel) = "standard" \/ p.(KPR_DesiredKafkaBillingModel) = "marketplace") /\
    (exists claims, r.(req_ctx).(rc_claims) = Ok claims /\ k.(KR.OrganisationId) = value_or_zero (GetOrgId claims) /\
       (Claims_IsOrgAdmin claims = true \/ k.(KR.Owner) = value_or_zero (GetUsername claims))) /\
    tables_of w' = mkTables (map (fun row => if row.(KR.ID) =?s r.(req_id) then touch_kafka t (promotion_fields k p row) else row)
                               (tables_of w).(kafkas)) (tables_of w).(clusters) /\
    forall w2 l w3, tables_of w2 = tables_of w' -> ListKafkasToBePromoted (W := W) w2 = (Ok l, w3) ->
      touch_kafka t (promotion_fields k p k) ∈ l.
Proof.
  intros Hrun Hnd. eapply (fetched_ok r (Promote_config cfg r) StatusAccepted w code u w' 2) in Hrun
    as (k & p & Hk & Hid & Hne & Hb & -> & Hv & w1 & Ht & Ha); [|intros; apply Promote_validators_ro|done].
  destruct (Hv 3%nat _ eq_refl) as (? & ? & _ & Hown), (Hv 4%nat _ eq_refl) as (? & ? & _ & Heval), (Hv 5%nat _ eq_refl) as (? & ? & _ & Hst),
    (Hv 7%nat _ eq_refl) as (? & ? & _ & Hprog), (Hv 8%nat _ eq_refl) as (? & ? & _ & Hfields).
  simpl in Hown, Heval, Hst, Hprog, Hfields. apply owner_or_admin in Hown. apply require_ok in Heval as [Heval%String.eqb_eq _].
  apply require_ok in Hst as [Hst _]. apply require_ok in Hprog as [Hprog%negb_true_iff%String.eqb_neq _].
  apply bind_ok in Hfields as ([] & ? & Hbm & _). apply require_ok in Hbm as [Hbm _].
  assert (p.(KPR_DesiredKafkaBillingModel) = "standard" \/ p.(KPR_DesiredKafkaBillingModel) = "marketplace") as Hdes.
  { apply negb_true_iff, andb_false_iff in Hbm as [Hbm|Hbm]; apply negb_false_iff, String.eqb_eq in Hbm; auto. }
  assert (not_under_deletion k = true) as Hnot.
  { apply Contains_true in Hst. unfold not_under_deletion, acceptedKafkaStatusesForPromotion in *.
    by repeat (apply elem_of_cons in Hst as [->|Hst]; [done|]); apply elem_of_nil in Hst. }
  simpl in Ha. destruct u. eapply (Updates_rows k k) in Ha as (t & Ht'); [|done|done|by rewrite Ht|by rewrite Ht].
  rewrite Ht, Hnot in Ht'. exists k, p, t. split_and!; try done; try (unfold promotion_fields; by case_match).
  - rewrite Ht'. f_equal. apply map_ext. intros row. by rewrite andb_true_r, Hid.
  - intros w2 l w3 Hw2 Hlist. unfold ListKafkasToBePromoted in Hlist. apply wrap_err_ok in Hlist. apply exec_ok in Hlist as [Hl _].
    rewrite Hl, Hw2, Ht'. apply list_elem_of_In, filter_In. split.
    + apply list_elem_of_In. simpl. apply list_elem_of_fmap. exists k. split; [|done]. by rewrite String.eqb_refl.
    + assert (KR.Status (promotion_fields k p k) = k.(KR.Status)) as Hs by (unfold promotion_fields; by case_match).
      unfold touch_kafka. simpl. unfold promotion_fields in *. case_match; simpl in *; rewrite Heval; destruct Hdes as [->| ->]; simpl; exact Hst.
Qed.
End PromoteProperties.

(** ** A deployment *)
Module HandlerExample.
#[global] Instance quantities : QuantityLib.
Proof.
  refine {| Quantity := Z * bool; amount := fun q => inject_Z q.1;
            ParseQuantity := fun s => if s =?s "100Gi" then Ok (100 * 2 ^ 30, true) else if s =?s "50Gi" then Ok (50 * 2 ^ 30, true)
                                      else if s =?s "200Ti" then Ok (200 * 2 ^ 40, false)
                                      else if s =?s "30Mi" then Ok (30 * 2 ^ 20, true) else if s =?s "1Mi" then Ok (2 ^ 20, true)
                                      else Err (EPlain "quantities must match the regular expression");
            Quantity_Value := fst; AsInt64 := fun q => if q.2 then q else (0, false); CmpInt64 := fun q n => Z.sgn (q.1 - n) |}.
  - intros [n []] m; simpl; [intros [= ->]; reflexivity|done].
  - intros [n []] m; simpl; [done|by intros [= <-]].
  - intros [n b] m. simpl. rewrite <- Zlt_Qlt. lia.
Defined.

Definition quantity (n : Z) (exact : bool) : Quantity := (n, exact).

#[global] Instance services : HandlerServices (MemDB.world unit).
Proof.
  refine {| validate_billing_account := fun _ _ _ _ _ => ret tt; check_user_valid := fun u _ => ret (u =?s "bob");
            get_organization := fun _ => ret (Some "1234") |}; done.
Defined.

#[global] Instance name_column : NameColumn (MemDB.world unit).
Proof.
  intros name k. unfold where_holds. simpl. unfold ListExample.name_is. simpl. destruct (String.eqb_spec k.(KR.Name) name) as [->|Hne].
  - by rewrite bool_decide_true.
  - rewrite bool_decide_false; [done|]. intros [= Hr]. by apply runes_inj in Hr.
Qed.

Definition alice : KFMClaims := mkKFMClaims (Some "alice") None (Some "acc-1") (Some "org-1") None None.
Definition ctx : RequestContext := mkRequestContext (Ok alice) false true.
Definition admin_ctx : RequestContext := mkRequestContext (Ok alice) true false.
Definition async (p : string) : string := if p =?s "async" then "true" else "".
Definition request {Body} (ctx : RequestContext) (id : string) (body : Body) : Request Body := mkRequest ctx id async (Ok body).

Definition payload (name : string) : KafkaRequestPayload := mkKafkaRequestPayload "" name "" None "standard.x1" None None None None.
Abbreviation create p w :=
  (kafkaHandler_Create (fun _ _ => Ok []) (Fixtures.dp_config AutoScaling) (Fixtures.provider_config (Some 5)) Fixtures.kafka_config (request ctx "" p) w).

Definition sized (k : KafkaRequest) : KafkaRequest :=
  k <| KR.MaxDataRetentionSize := "100Gi" |> <| KR.DesiredStrimziVersion := "strimzi-0.23.0-1" |> <| KR.DesiredKafkaVersion := "2.8.1" |>
    <| KR.DesiredKafkaIBPVersion := "2.8" |>.
Definition world (k : KafkaRequest) : MemDB.world unit := MemDB.mkWorld (mkTables [k; Fixtures.k3] [Fixtures.c1]) 1000 [] tt.
Definition evaluating : MemDB.world unit := world (Fixtures.k1 <| KR.ActualKafkaBillingModel := "eval" |>).
End HandlerExample.

(** ** Witnesses *)
Import HandlerExample DecimalSemver.

Lemma accepted_creation_is_unique_and_owned_witness :
  exists payload claims k t resp w',
    create (HandlerExample.payload "orders") Fixtures.world = (Ok (202, resp), w') /\
    Forall (fun row => visible (auth_context ctx) (claims_of claims) row = true -> row.(KR.Name) <> payload.(KRP_Name)) Fixtures.db.(kafkas) /\
    w'.(MemDB.db) = mkTables (Fixtures.db.(kafkas) ++ [stamp_kafka t k]) Fixtures.db.(clusters) /\
    k.(KR.Name) = payload.(KRP_Name) /\ GetUsername claims = Ok k.(KR.Owner) /\ response_status (fst (create (HandlerExample.payload "k1") Fixtures.world)) = 409.
Proof.
  destruct (create (HandlerExample.payload "orders") Fixtures.world) as [[[code resp]|e] w'] eqn:Hrun; [|vm_compute in Hrun; discriminate Hrun].
  pose proof Hrun as Hfull. 
  apply (accepted_creation_is_unique_and_owned (fun _ _ => Ok []) (Fixtures.dp_config AutoScaling) (Fixtures.provider_config (Some 5))
    Fixtures.kafka_config (request ctx "" (HandlerExample.payload "orders")) Fixtures.world code resp w') in Hfull
    as (p & c & k & t & -> & _ & _ & _ & _ & _ & Hall & Ht & Hn & Ho & _).
  exists p, c, k, t, resp, w'. split_and!; try done; vm_compute; reflexivity.
Defined.

Lemma refused_creation_writes_nothing_witness :
  let '(r, w') := create (HandlerExample.payload "orders")
    (MemDB.mkWorld Fixtures.db 1000 (repeat false 3 ++ [true]) tt) in
  is_ok r = false /\ w'.(MemDB.db) = Fixtures.db.
Proof.
  destruct (create _ _) as [[[code resp]|e] w'] eqn:Hrun; [vm_compute in Hrun; discriminate Hrun|]. split; [done|].
  apply (refused_creation_writes_nothing (fun _ _ => Ok []) (Fixtures.dp_config AutoScaling) (Fixtures.provider_config (Some 5)) Fixtures.kafka_config
    (fun _ => Ok false) (fun _ => Ok tt) (request ctx "" (HandlerExample.payload "orders")) _ e w') in Hrun; [exact Hrun|].
  vm_compute. reflexivity.
Defined.

Lemma user_update_authorised_witness :
  exists k u claims,
    k ∈ [sized Fixtures.k1; Fixtures.k3] /\ k.(KR.ID) = "k1" /\ rc_claims ctx = Ok claims /\
    (Claims_IsOrgAdmin claims = true \/ k.(KR.Owner) = value_or_zero (GetUsername claims)) /\
    (forall o, u.(KUR_Owner) = Some o -> o <> "" /\ exists w1 w2 : MemDB.world unit, check_user_valid o k.(KR.OrganisationId) w1 = (Ok true, w2)).
Proof.
  destruct (kafkaHandler_Update Fixtures.kafka_config (request ctx "k1" (mkKafkaUpdateRequest (Some "bob") (Some false))) (world (sized Fixtures.k1)))
    as [[[code resp]|e] w'] eqn:Hrun; [|vm_compute in Hrun; discriminate Hrun].
  apply (user_update_authorised Fixtures.kafka_config (request ctx "k1" (mkKafkaUpdateRequest (Some "bob") (Some false)))
    (world (sized Fixtures.k1)) code resp w') in Hrun as (k & u & claims & Hk & Hid & _ & Hc & _ & Ho & Hv & _);
    [|apply (bool_decide_unpack _); vm_compute; exact I].
  exists k, u, claims. split_and!; done.
Defined.

(** Suspending a ready Kafka while its versions stay as they are. *)
Lemma admin_update_effect_witness :
  exists k u, k ∈ [sized Fixtures.k1; Fixtures.k3] /\ k.(KR.ID) = "k1" /\
    admin_transition u.(AKU_Suspended) k.(KR.Status) (admin_updated k u).(KR.Status) /\
    (admin_updated k u).(KR.Status) = KafkaRequestStatusSuspending.
Proof.
  destruct (adminKafkaHandler_Update Fixtures.kafka_config (request admin_ctx "k1" (mkAdminKafkaUpdateRequest "" "" "" "100Gi" (Some true)))
    (world (sized Fixtures.k1))) as [[[code resp]|e] w'] eqn:Hrun; [|vm_compute in Hrun; discriminate Hrun].
  apply (admin_update_effect Fixtures.kafka_config (request admin_ctx "k1" (mkAdminKafkaUpdateRequest "" "" "" "100Gi" (Some true)))
    (world (sized Fixtures.k1)) code resp w') in Hrun as (k & u & Hk & Hid & Hb & _ & Htr & _).
  exists k, u. simpl in Hb. injection Hb as <-. split_and!; try done.
  by apply elem_of_cons in Hk as [->|Hk%list_elem_of_singleton]; [|subst k].
Defined.

Lemma retention_size_never_shrinks_witness :
  (amount (quantity (100 * 2 ^ 30) true) <= amount (quantity (100 * 2 ^ 30) true))%Q /\
  is_ok (fst (ValidateMaxDataRetentionSize (sized Fixtures.k1) (mkAdminKafkaUpdateRequest "" "" "" "50Gi" None) Fixtures.world)) = false.
Proof.
  split; [|vm_compute; reflexivity].
  apply (retention_size_never_shrinks (sized Fixtures.k1) (mkAdminKafkaUpdateRequest "" "" "" "100Gi" None) Fixtures.world Fixtures.world
    (quantity (100 * 2 ^ 30) true) (quantity (100 * 2 ^ 30) true) (100 * 2 ^ 30)); vm_compute; reflexivity.
Defined.

Lemma retention_guard_void_for_inexact_sizes_witness :
  ValidateMaxDataRetentionSize (Fixtures.k1 <| KR.MaxDataRetentionSize := "200Ti" |>) (mkAdminKafkaUpdateRequest "" "" "" "1Mi" None) Fixtures.world
  = (Ok tt, Fixtures.world).
Proof.
  apply (retention_guard_void_for_inexact_sizes (Fixtures.k1 <| KR.MaxDataRetentionSize := "200Ti" |>)
    (mkAdminKafkaUpdateRequest "" "" "" "1Mi" None) Fixtures.world (quantity (200 * 2 ^ 40) false) (quantity (2 ^ 20) true) 0); [reflexivity..|].
  vm_compute. discriminate.
Defined.

Lemma accepted_promotion_reaches_the_worker_witness :
  exists k p t (w' : MemDB.world unit), k.(KR.ActualKafkaBillingModel) = "eval" /\ p.(KPR_DesiredKafkaBillingModel) = "standard" /\
    forall l w3, ListKafkasToBePromoted w' = (Ok l, w3) -> touch_kafka t (promotion_fields k p k) ∈ l.
Proof.
  destruct (kafkaPromoteHandler_Promote Fixtures.kafka_config (request ctx "k1" (mkKafkaPromoteRequest "standard" "" ""))
    evaluating) as [[[code u]|e] w'] eqn:Hrun; [|vm_compute in Hrun; discriminate Hrun].
  apply (accepted_promotion_reaches_the_worker Fixtures.kafka_config (request ctx "k1" (mkKafkaPromoteRequest "standard" "" ""))
    evaluating code u w') in Hrun
    as (k & p & t & _ & _ & Hb & _ & He & _ & _ & _ & _ & _ & _ & _ & Hl);
    [|apply (bool_decide_unpack _); vm_compute; exact I].
  simpl in Hb. injection Hb as <-. exists k, (mkKafkaPromoteRequest "standard" "" ""), t, w'. split_and!; try done. intros l w3. by apply Hl.
Defined.

(** ** What the handlers let through *)

(** A retention size of blanks is not validated, because it counts as not set,
    but it is stored, because it is not empty; the answer is an error, since the
    stored size cannot be shown. *)
Theorem blank_retention_size_is_stored :
  let u := mkAdminKafkaUpdateRequest "" "" "" "  " (Some true) in
  let '(r, w') := adminKafkaHandler_Update Fixtures.kafka_config (request admin_ctx "k1" u) (world (sized Fixtures.k1)) in
  response_status r = 500 /\ map KR.MaxDataRetentionSize w'.(MemDB.db).(kafkas) = ["  "; ""] /\
  map KR.Status w'.(MemDB.db).(kafkas) = [KafkaRequestStatusSuspending; KafkaRequestStatusAccepted].
Proof. vm_compute. done. Qed.

(** The cluster identifier of a creation is never validated: the validator is
    given the field before the body is decoded, when it is nil. *)
Theorem creation_cluster_id_not_validated r payload w :
  (Validate (Create_config (fun _ _ => Ok []) (Fixtures.dp_config AutoScaling) (Fixtures.provider_config None) Fixtures.kafka_config r zero) !! 6%nat
     = Some (fun _ : KafkaRequestPayload => ValidateNotEmptyClusterId (W := MemDB.world unit) None "cluster id")) /\
  ValidateNotEmptyClusterId (W := MemDB.world unit) None "cluster id" w = (Ok tt, w) /\
  (payload.(KRP_ClusterId) = Some "../c3" -> is_ok (fst (ValidateNotEmptyClusterId payload.(KRP_ClusterId) "cluster id" w)) = false).
Proof. split_and!; [done..|]. intros ->. vm_compute. done. Qed.

(** Two creations whose validations both run before their actions give two
    Kafkas of one organisation the same name: the check and the insertion are
    not one step, and the table has no constraint on names. *)
Theorem concurrent_creations_can_share_a_name :
  let c := Create_config (fun _ _ => Ok []) (Fixtures.dp_config AutoScaling) (Fixtures.provider_config (Some 9)) Fixtures.kafka_config
             (request ctx "" (payload "orders")) zero in
  let validate := for_each (fun v => v (payload "orders")) (Validate c) in
  let '(r, w') := (_ <~ validate ;; _ <~ validate ;; _ <~ Action c (payload "orders") ;; _ <~ Action c (payload "orders") ;; ret tt) Fixtures.world in
  is_ok r = true /\ map KR.Name w'.(MemDB.db).(kafkas) = ["k1"; "k2"; "k3"; "orders"; "orders"].
Proof. vm_compute. done. Qed.
