(* ===== verification/Lifecycle.v ===== *)
(** * The life of a Kafka across all handlers

    The handlers of the API, the reports of the data plane and the passes of the
    workers as one step relation on the worlds, each step being one run of a
    handler with whatever outcome, in any order and any number of times.  The
    invariants here hold in every world these runs can reach.

    Every writer of the table of Kafkas is a step: creation and deletion (through
    the service methods that their handlers call), the updates by owners and by
    administrators, the request for a promotion, the reports, and the workers.
    A run is not interrupted by another one: the workers of a deployment run on an
    elected leader and each loop is sequential, but a handler that is overtaken
    between its reading and its writing is not covered, and
    [update_status_leaves_deleting] shows what it could do. *)
From S2P Require Import Prelude Arrays Errors Status Config Model HostNames Store Fixtures ClusterService Placement KafkaService Transitions DataPlaneKafka Workers KafkaManager.
From S2P Require Import Versions QuotaList Promotion Scanner StateMachine QueryParser Search Listing Validation KafkaHandlers.

Section Lifecycle.
Context {W : Type} `{Database W} `{IdSource W} `{!KafkaExternals W} `{!QuotaDeletion W} `{!PromotionQuota W} `{!HandlerServices W}.
Context `{SemverLib} `{QuantityLib}.
Context (dp : DataplaneClusterConfig) (pc : ProviderConfig) (cfg : KafkaConfig) (acl : AccessControlListConfig).
Context `{!ClusterLookup W cfg}.

(** The identifier [id] is not issued again: the identifiers of the xid
    library are globally unique, and never empty. *)
Inductive fleet_step (id : string) : W -> W -> Prop :=
| step_register req w r w' :
    RegisterKafkaJob dp pc cfg req w = (r, w') -> new_id w <> "" -> new_id w <> id -> fleet_step id w w'
| step_deprovision ctx kafkaId w r w' : RegisterKafkaDeprovisionJob ctx kafkaId w = (r, w') -> fleet_step id w w'
| step_report clusterID reports w r w' : UpdateDataPlaneKafkaService cfg clusterID reports w = (r, w') -> fleet_step id w w'
| step_pipeline p w errs w' : pipeline_pass dp cfg p w = (errs, w') -> fleet_step id w w'
| step_routes w errs w' : CNAME_Reconcile cfg w = (errs, w') -> fleet_step id w w'
| step_certificates w errs w' : TLS_Reconcile cfg w = (errs, w') -> fleet_step id w w'
| step_general w errs w' : KafkaManager_Reconcile dp pc cfg acl w = (errs, w') -> fleet_step id w w'
| step_deleting w errs w' : Deleting_Reconcile cfg w = (errs, w') -> fleet_step id w w'
| step_user_update req w r w' : kafkaHandler_Update cfg req w = (r, w') -> fleet_step id w w'
| step_admin_update req w r w' : adminKafkaHandler_Update cfg req w = (r, w') -> fleet_step id w w'
| step_promote req w r w' : kafkaPromoteHandler_Promote cfg req w = (r, w') -> fleet_step id w w'
| step_promotion w errs w' : Promotion_Reconcile cfg w = (errs, w') -> fleet_step id w w'.

Definition reachable (id : string) : W -> W -> Prop := rtc (fleet_step id).

(** The Kafka is gone or under deletion. *)
Definition doomed (id : string) (db : tables) : Prop :=
  forall row, row ∈ db.(kafkas) -> row.(KR.ID) = id -> not_under_deletion row = false.

(** ** The steps that keep the rows *)
Lemma deprovision_spares ctx id : spares_deletion (RegisterKafkaDeprovisionJob ctx id).
Proof. unfold RegisterKafkaDeprovisionJob. solve_spares. Qed.

Lemma list_then_spares listing reason (work : list KafkaRequest -> W -> list error * W) w :
  read_only listing ->
  (forall l w, Forall2 deletion_kept (tables_of w).(kafkas) (tables_of (snd (work l w))).(kafkas)) ->
  Forall2 deletion_kept (tables_of w).(kafkas) (tables_of (snd (list_then listing reason work w))).(kafkas).
Proof.
  intros Hro Hwork. unfold list_then. pose proof (Hro w) as Ht. destruct (listing w) as [[l|e] w1]; simpl in Ht; rewrite <- Ht.
  - apply Hwork.
  - specialize (Hwork [] w1). by destruct (work [] w1).
Qed.

Lemma accepted_spares k : spares_deletion (reconcileAcceptedKafka dp cfg k).
Proof.
  unfold reconcileAcceptedKafka, markTheUnassignedKafkaAsFailedOrAllowRetryClusterPlacementReconciliation,
    markTheAssignedKafkaAsFailedOrAllowRetryStrimziVersionPickingReconciliation, duration_since_creation.
  pose proof (cluster_of_accepted_ro dp cfg k). solve_spares.
Qed.

Lemma prepare_spares k : spares_deletion (PrepareKafkaRequest cfg k).
Proof.
  unfold PrepareKafkaRequest. pose proof certificate_ready_ro. pose proof (AssignBootstrapServerHost_keeps cfg).
  solve_spares.
Qed.

Lemma preparing_spares k : spares_deletion (reconcilePreparingKafka cfg k).
Proof.
  unfold reconcilePreparingKafka, handleKafkaRequestCreationError, duration_since_creation. pose proof (prepare_spares k).
  solve_spares.
Qed.

Lemma provisioning_spares k : spares_deletion (reassignProvisioningKafka dp cfg k).
Proof. unfold reassignProvisioningKafka. pose proof (AssignBootstrapServerHost_keeps cfg). solve_spares. Qed.

Lemma canary_spares k : spares_deletion (reconcileCanaryServiceAccount k).
Proof. unfold reconcileCanaryServiceAccount. solve_spares. Qed.

Lemma routes_spares k : spares_deletion (reconcile_routes cfg k).
Proof. unfold reconcile_routes, ChangeKafkaCNAMErecords, GetCNAMERecordStatus, route53_client. solve_spares. Qed.

Lemma certificates_spares k : spares_deletion (ManagedKafkasRoutesTLSCertificate cfg k).
Proof. unfold ManagedKafkasRoutesTLSCertificate. solve_spares. Qed.

Lemma listing_ro s : read_only (ListByStatus [s] : M W _ _).
Proof. apply ListByStatus_lists. Qed.

Lemma pipeline_spares p w :
  Forall2 deletion_kept (tables_of w).(kafkas) (tables_of (snd (pipeline_pass dp cfg p w))).(kafkas).
Proof.
  destruct p; simpl; unfold Accepted_Reconcile, Preparing_Reconcile, Provisioning_Reconcile, Ready_Reconcile;
    try (destruct (negb _); [reflexivity|]); (apply list_then_spares; [apply listing_ro|]); intros l w1;
    apply for_all_collect_spares; intros k; try destruct (_ =?s _); try apply wrap_err_spares;
    auto using accepted_spares, preparing_spares, provisioning_spares, canary_spares, read_only_spares, ret_read_only.
Qed.

Lemma general_effect_kept row row' : general_effect row row' -> deletion_kept row row'.
Proof.
  intros [Hid Hs]. split; [done|]. intros Hd. destruct Hs as [E|[[E Hc]|[E Hn]]].
  - by destruct (same_status_predicates _ _ E) as [_ ->].
  - apply suspendable_not_under_deletion in Hc. congruence.
  - congruence.
Qed.

(** ** Updates and promotions *)

(** A handler wrote nothing, or all its validators passed and its action ran. *)
Lemma Handle_run {Body A} (r : Request Body) (c : HandlerConfig (W := W) Body A) status w res w' :
  Handle r c status w = (res, w') -> validators_read_only c ->
  tables_of w' = tables_of w \/ exists p w1 a, r.(req_body) = Ok p /\
    (forall i v, c.(Validate) !! i = Some v -> exists w1 w2, tables_of w1 = tables_of w /\ v p w1 = (Ok tt, w2)) /\
    tables_of w1 = tables_of w /\ c.(Action) p w1 = (a, w').
Proof.
  intros Hrun Hro. unfold Handle in Hrun. apply bind_inv in Hrun as [(p & w1 & Hp & Hrun)|(e' & Hp & _)];
    unfold lift in Hp; injection Hp as Hp <-; [|by left]. destruct (req_body r) as [p'|]; [|done]. injection Hp as ->.
  unfold run_validated in Hrun. pose proof (for_each_validators_ro c p Hro w) as Ht.
  apply bind_inv in Hrun as [([] & w1 & Hv & Hrun)|(e' & Hv & _)]; rewrite Hv in Ht; simpl in Ht; [|by left].
  apply for_each_ok in Hv as [_ Hv]; [|intros v Hin; by apply Hro]. right. exists p, w1.
  apply bind_inv in Hrun as [(a & w2 & Ha & [= _ <-])|(e' & Ha & _)]; eexists; split_and!; try done; intros i v Hi%list_elem_of_lookup_2; by apply Hv.
Qed.

Lemma Handle_spares {Body A} (r : Request Body) (c : HandlerConfig (W := W) Body A) status :
  validators_read_only c -> (forall p, spares_deletion (c.(Action) p)) -> spares_deletion (Handle r c status).
Proof.
  intros Hro Ha w. destruct (Handle r c status w) as [res w'] eqn:Hr. simpl.
  apply Handle_run in Hr as [->|(p & w1 & a & _ & _ & Ht & Hact)]; [reflexivity| |done]. rewrite <- Ht.
  specialize (Ha p w1). by rewrite Hact in Ha.
Qed.

Lemma user_update_spares req : spares_deletion (kafkaHandler_Update cfg req).
Proof.
  unfold kafkaHandler_Update. apply bind_spares; [apply attempt_spares, read_only_spares, Kafka_Get_ro|].
  intros fetched. apply Handle_spares; [apply Update_validators_ro|]. intros u. simpl. unfold with_kafka. solve_spares.
Qed.

Lemma promote_spares req : spares_deletion (kafkaPromoteHandler_Promote cfg req).
Proof.
  unfold kafkaPromoteHandler_Promote. apply bind_spares; [apply attempt_spares, read_only_spares, Kafka_Get_ro|].
  intros fetched. apply Handle_spares; [apply Promote_validators_ro|]. intros p. simpl. unfold with_kafka.
  destruct fetched as [k|e]; [|solve_spares]. apply Updates_spares. intros row. unfold promotion_fields. by case_match.
Qed.

(** The status that an administrator gives a Kafka under deletion is its own. *)
Lemma admin_update_kept req w r w' : adminKafkaHandler_Update cfg req w = (r, w') -> NoDup (map KR.ID (tables_of w).(kafkas)) ->
  Forall2 deletion_kept (tables_of w).(kafkas) (tables_of w').(kafkas).
Proof.
  intros Hrun Hnd. unfold adminKafkaHandler_Update in Hrun. apply bind_inv in Hrun as [(fetched & w1 & Hf & Hrun)|(e' & Hf & _)];
    [|unfold attempt in Hf; by case_match]. apply attempt_inv in Hf as (r0 & Hf & [= ->]).
  pose proof (read_only_run _ _ _ _ (Kafka_Get_ro _ _) Hf) as Ht. rewrite <- Ht in *.
  apply Handle_run in Hrun as [->|(u & w2 & a & _ & Hv & Ht2 & Hact)]; [reflexivity| |apply AdminUpdate_validators_ro].
  destruct r0 as [k|e]; simpl in Hact; [|injection Hact as _ <-; by rewrite Ht2].
  apply Kafka_Get_ok in Hf as (Hk & Hid & Hne & _). destruct (Hv 8%nat _ eq_refl) as (wa & wb & _ & Hsus). apply admin_status in Hsus.
  rewrite <- Ht2 in Hnd |- *. rewrite <- Ht, <- Ht2 in Hk. clear Hv Ht Ht2.
  assert (forall ws (x : result ServiceError unit), (if admin_update_required k u then VerifyAndUpdateKafkaAdmin (auth_context (req_ctx req)) (admin_updated k u) else ret tt) w2
    = (x, ws) -> Forall2 deletion_kept (kafkas (tables_of w2)) (kafkas (tables_of ws))) as Hstep.
  { intros ws [[]|e] Hx; destruct (admin_update_required k u); try (by injection Hx as <-); try done.
    - apply VerifyAndUpdate_rows in Hx as [_ (t & ->)]; [|change (KR.ID k <> ""); congruence]. apply (update_rows_deletion_kept t). intros row Hrow Hb%String.eqb_eq.
      assert (row = k) as -> by (by eapply same_id_same_row). split; [done|]. unfold not_under_deletion.
      assert (KR.Status (admin_columns (admin_updated k u) k) = KR.Status (admin_updated k u)) as Es by reflexivity. intros Hd.
      destruct Hsus as [E|[(_ & E & E')|(_ & E & E')]]; [|by rewrite E in Hd..].
      change (negb (Contains kafkaDeletionStatuses (KR.Status (admin_columns (admin_updated k u) k))) = false). by rewrite Es, E.
    - unfold VerifyAndUpdateKafkaAdmin in Hx. destruct (negb _); [by injection Hx as _ <-|].
      apply bind_inv in Hx as [(n & w3 & _ & [=])|(e' & Hx & _)]. apply wrap_err_err in Hx as (e0 & Hx & _).
      destruct (_ =?s ""); [by injection Hx as _ <-|]. by apply exec_err in Hx as ->. }
  apply bind_inv in Hact as [([] & w3 & Hu & Hp)|(e' & Hu & _)]; [|by eapply Hstep].
  apply Hstep in Hu. eapply read_only_run in Hp; [by rewrite Hp|]. unfold PresentKafkaRequestAdminEndpoint. solve_read_only.
Qed.

Lemma promote_one_spares k : spares_deletion (promote_one cfg k).
Proof.
  intros w. unfold promote_one. destruct (promote cfg k w) as [[r1 k1] w1] eqn:Hp.
  assert (Forall2 deletion_kept (tables_of w).(kafkas) (tables_of w1).(kafkas)) as Hk1.
  { apply promote_cases in Hp as [(e & _ & _ & ->)|[(sub & w0 & _ & <- & Hu)|(sub & s & _ & _ & _ & ->)]]; [done| |done].
    pose proof (Updates_spares k (promoted_fields k sub) (fun _ => eq_refl) w0) as Hs. by rewrite Hu in Hs. }
  destruct r1; [done|]. unfold updateFailedPromotionDetails. pose proof (Update_spares (failed_details k1 e) w1) as Hk2.
  destruct (Update _ w1) as [r2 w2]. simpl in *. by etrans.
Qed.

Lemma promotion_spares w : Forall2 deletion_kept (tables_of w).(kafkas) (tables_of (snd (Promotion_Reconcile cfg w))).(kafkas).
Proof.
  unfold Promotion_Reconcile. destruct (ListKafkasToBePromoted w) as [[l|e] w1] eqn:Hl;
    apply (read_only_run ListKafkasToBePromoted) in Hl as <-; try (unfold ListKafkasToBePromoted; solve_read_only); [|done].
  pose proof (for_all_collect_spares (promote_one cfg) l w1 promote_one_spares) as Hs. by destruct (for_all_collect _ l w1).
Qed.

(** ** The invariant *)
Lemma kept_invariant id db db' :
  Forall2 deletion_kept db.(kafkas) db'.(kafkas) -> keyed db -> doomed id db -> keyed db' /\ doomed id db'.
Proof.
  intros Hall [Hnd Hne] Hd. split.
  - split; [by rewrite (deletion_kept_ids _ _ Hall)|]. apply Forall_lookup. intros i row' Hi.
    eapply Forall2_lookup_r in Hall as (row & Hrow & [Hid _]); [|exact Hi]. rewrite Hid.
    rewrite Forall_lookup in Hne. by apply (Hne i).
  - intros row' Hrow' Hid'. apply list_elem_of_lookup in Hrow' as [i Hi].
    eapply Forall2_lookup_r in Hall as (row & Hrow & [Hid Hk]); [|exact Hi].
    apply Hk, Hd; [by eapply list_elem_of_lookup_2|congruence].
Qed.

Lemma subset_invariant id db db' p :
  db'.(kafkas) = List.filter p db.(kafkas) -> keyed db -> doomed id db -> keyed db' /\ doomed id db'.
Proof.
  intros Hf [Hnd Hne] Hd. unfold keyed, doomed. rewrite Hf. split; [split|].
  - by apply NoDup_map_filter.
  - rewrite Forall_forall in Hne |- *. intros k [Hk%list_elem_of_In _]%list_elem_of_In%filter_In. by apply Hne.
  - intros row [Hrow%list_elem_of_In _]%list_elem_of_In%filter_In. by apply Hd.
Qed.

Lemma register_invariant id req w r w' :
  RegisterKafkaJob dp pc cfg req w = (r, w') -> new_id w <> "" -> new_id w <> id ->
  keyed (tables_of w) -> doomed id (tables_of w) -> keyed (tables_of w') /\ doomed id (tables_of w').
Proof.
  intros Hr Hne Hnid Hkey Hd. destruct r as [k|e]; [|by rewrite (RegisterKafkaJob_err _ _ _ _ _ _ _ Hr)].
  apply RegisterKafkaJob_ok in Hr as (w1 & placed & w2 & sub & bm & w3 & size & Hcheck & Hplace & Hres & _ & -> & Hins).
  pose proof (read_only_run _ _ _ _ (check_region_capacity_ro dp pc cfg _) Hcheck) as Ht1.
  pose proof (read_only_run _ _ _ _ (place_at_registration_ro dp cfg _) Hplace) as Ht2.
  pose proof (read_only_run _ _ _ _ (reserveQuota_ro cfg _) Hres) as Ht3.
  apply exec_ok in Hins as [Hfresh ->]. rewrite Ht3, Ht2, Ht1 in *.
  set (k := complete_registration _ _ _ _) in *.
  assert (k.(KR.ID) = new_id w) as Hid.
  { transitivity placed.(KR.ID); [subst k; unfold complete_registration; by destruct (LifespanSeconds size)|].
    apply place_at_registration_ok in Hplace as [(-> & _)|(c & ? & _ & ->)]; [|case_match];
      unfold identified_request, set_multi_az; repeat case_match; by destruct req. }
  clearbody k. destruct Hkey as [Hnd Hnes]. unfold keyed, doomed. simpl. split; [split|].
  - rewrite map_app. simpl. apply NoDup_app. split_and!; [done| |apply NoDup_singleton].
    intros x (row & -> & Hrow)%list_elem_of_fmap Hx%list_elem_of_singleton. rewrite Forall_forall in Hfresh. by apply (Hfresh row).
  - apply Forall_app. split; [done|]. constructor; [|done]. simpl. congruence.
  - intros row [Hrow|Hrow%list_elem_of_singleton]%elem_of_app Hrid; [by apply Hd|]. rewrite Hrow in Hrid. simpl in Hrid. congruence.
Qed.

Lemma step_invariant id w w' :
  fleet_step id w w' -> keyed (tables_of w) -> doomed id (tables_of w) ->
  keyed (tables_of w') /\ doomed id (tables_of w').
Proof.
  intros Hstep Hkey Hd. destruct Hstep as [req w r w' Hr Hne Hnid|ctx kid w r w' Hr|cid reports w r w' Hr|p w errs w' Hr|
    w errs w' Hr|w errs w' Hr|w errs w' Hr|w errs w' Hr|req w r w' Hr|req w r w' Hr|req w r w' Hr|w errs w' Hr].
  - by eapply register_invariant.
  - eapply kept_invariant; [|done..]. pose proof (deprovision_spares ctx kid w) as Hs. by rewrite Hr in Hs.
  - eapply kept_invariant; [|done..]. eapply UpdateDataPlaneKafkaService_kept; [exact Hr|by destruct Hkey].
  - eapply kept_invariant; [|done..]. pose proof (pipeline_spares p w) as Hs. by rewrite Hr in Hs.
  - eapply kept_invariant; [|done..]. replace w' with (snd (CNAME_Reconcile cfg w)) by (by rewrite Hr).
    apply list_then_spares; [unfold ListKafkasWithRoutesNotCreated; solve_read_only|].
    intros l w1. apply for_all_collect_spares, routes_spares.
  - eapply kept_invariant; [|done..]. replace w' with (snd (TLS_Reconcile cfg w)) by (by rewrite Hr).
    apply list_then_spares; [unfold ListAll; solve_read_only|].
    intros l w1. apply for_all_collect_spares. intros k. apply wrap_err_spares, certificates_spares.
  - eapply kept_invariant; [|done..]. eapply Forall2_impl; [by eapply KafkaManager_Reconcile_run|apply general_effect_kept].
  - apply Deleting_Reconcile_run in Hr as [(gone & Hf & _) _]; [|done]. by eapply subset_invariant.
  - eapply kept_invariant; [|done..]. pose proof (user_update_spares req w) as Hs. by rewrite Hr in Hs.
  - eapply kept_invariant; [|done..]. eapply admin_update_kept; [exact Hr|by destruct Hkey].
  - eapply kept_invariant; [|done..]. pose proof (promote_spares req w) as Hs. by rewrite Hr in Hs.
  - eapply kept_invariant; [|done..]. pose proof (promotion_spares w) as Hs. by rewrite Hr in Hs.
Qed.

(** [C1] Deletion is final: a Kafka that is under deletion, or gone, stays so
    in every world that runs of the handlers that write Kafkas (creation,
    deletion, updates by owners and administrators, promotion requests), of the
    reports of the data plane and of the workers can reach, whatever their order
    and their failures, when no run is interrupted by another; the identifiers
    of the Kafkas stay distinct.  New Kafkas are assumed to get fresh
    identifiers. *)
Theorem deletion_is_final id w w' :
  reachable id w w' -> keyed (tables_of w) -> doomed id (tables_of w) ->
  keyed (tables_of w') /\ doomed id (tables_of w').
Proof.
  induction 1 as [w|w w1 w' Hstep _ IH]; [done|]. intros Hkey Hd.
  destruct (step_invariant id w w1 Hstep Hkey Hd) as [? ?]. by apply IH.
Qed.
End Lifecycle.

#[local] Existing Instance DecimalSemver.lib.

Lemma fixtures_doomed : doomed "k2" (tables_of Fixtures.world).
Proof.
  intros row Hrow. repeat (apply elem_of_cons in Hrow as [->|Hrow]; [done|]). by apply not_elem_of_nil in Hrow.
Defined.

(** A report that the deleting Kafka [k2] is ready, then an administrator who wants
    it resumed, a pass of the accepted worker, one of the promotion worker, and a
    deleting pass. *)
Lemma deletion_is_final_witness :
  exists w', reachable (Fixtures.dp_config AutoScaling) (Fixtures.provider_config None) Fixtures.kafka_config DemoManager.acl
      "k2" Fixtures.world w' /\ keyed (tables_of w') /\ doomed "k2" (tables_of w').
Proof.
  destruct (UpdateDataPlaneKafkaService Fixtures.kafka_config "c1" [DemoReports.report "k2" "" "True"] Fixtures.world) as [r1 w1] eqn:H1.
  destruct (adminKafkaHandler_Update Fixtures.kafka_config (HandlerExample.request HandlerExample.admin_ctx "k2"
    (mkAdminKafkaUpdateRequest "" "" "" "" (Some false))) w1) as [ra wa] eqn:Ha.
  destruct (pipeline_pass (Fixtures.dp_config AutoScaling) Fixtures.kafka_config AcceptedWorker wa) as [rb wb] eqn:Hb.
  destruct (Promotion_Reconcile Fixtures.kafka_config wb) as [r2 w2] eqn:H2.
  destruct (Deleting_Reconcile Fixtures.kafka_config w2) as [r3 w3] eqn:H3.
  assert (reachable (Fixtures.dp_config AutoScaling) (Fixtures.provider_config None) Fixtures.kafka_config DemoManager.acl
    "k2" Fixtures.world w3) as Hrun.
  { eapply rtc_l; [eapply step_report; exact H1|]. eapply rtc_l; [eapply step_admin_update; exact Ha|].
    eapply rtc_l; [eapply step_pipeline; exact Hb|]. eapply rtc_l; [eapply step_promotion; exact H2|].
    apply rtc_once. eapply step_deleting. exact H3. }
  exists w3. split; [exact Hrun|].
  exact (deletion_is_final (Fixtures.dp_config AutoScaling) (Fixtures.provider_config None) Fixtures.kafka_config DemoManager.acl
    "k2" Fixtures.world w3 Hrun fixtures_keyed fixtures_doomed).
Defined.
