(* ===== verification/Catalog.v ===== *)
(** * The catalogue: cloud providers, regions, instance types and sizes

    [src/internal/kafka/internal/services/cloud_providers.go] and
    [kafka_instance_types.go], the handlers of the same names, and the
    presenters of their responses ([presenters/cloudproviders.go],
    [presenters/kafka_instance_types.go]).

    The cache of the service and that of the handler are those of the go-cache
    library, kept in the world: an item is found from the moment it is stored
    until it expires. *)
From stdpp Require Import sorting.
From S2P Require Import Prelude Arrays Errors Status Config Model Store Resources Providers Fixtures ClusterService Placement KafkaService.
From S2P Require Import Validation KafkaHandlers.

Open Scope Z_scope.

(** ** Instance types and sizes *)
Definition AsSlice (itl : InstanceTypeMap) : list string := map fst itl.

Record SupportedKafkaBillingModel := mkSupportedKafkaBillingModel {
  SBM_Id : string;
  SBM_AmsResource : string;
  SBM_AmsProduct : string;
  SBM_AmsBillingModels : list string
}.

Record SupportedKafkaSize := mkSupportedKafkaSize {
  SKS_Id : string;
  SKS_DisplayName : string;
  SKS_IngressThroughputPerSec : Z;
  SKS_EgressThroughputPerSec : Z;
  SKS_TotalMaxConnections : Z;
  SKS_MaxDataRetentionSize : Z;
  SKS_MaxPartitions : Z;
  SKS_MaxDataRetentionPeriod : string;
  SKS_MaxConnectionAttemptsPerSec : Z;
  SKS_MaxMessageSize : Z;
  SKS_MinInSyncReplicas : Z;
  SKS_ReplicationFactor : Z;
  SKS_SupportedAzModes : option (list string);
  SKS_LifespanSeconds : option Z;
  SKS_QuotaConsumed : Z;
  SKS_DeprecatedQuotaType : string;
  SKS_CapacityConsumed : Z;
  SKS_MaturityStatus : string
}.

Record SupportedKafkaInstanceType := mkSupportedKafkaInstanceType {
  SIT_Id : string;
  SIT_DisplayName : string;
  SIT_SupportedBillingModels : list SupportedKafkaBillingModel;
  SIT_Sizes : list SupportedKafkaSize
}.

Definition GetSupportedBillingModels (supportedInstanceType : KafkaInstanceType) : list SupportedKafkaBillingModel :=
  map (fun bm => mkSupportedKafkaBillingModel bm.(BM_ID) bm.(AMSResource) bm.(AMSProduct) bm.(AMSBillingModels))
    (SupportedBillingModels supportedInstanceType).

(** [bytes, _ := q.ToInt64()]. *)
Definition bytes_of `{QuantityLib} (q : string) : Z := match ToInt64 q with Ok n => n | Err _ => 0 end.

Definition GetSupportedSizes `{QuantityLib} (supportedInstanceType : KafkaInstanceType) : list SupportedKafkaSize :=
  map (fun size => mkSupportedKafkaSize size.(Size_Id) size.(Size_DisplayName)
         (bytes_of size.(IngressThroughputPerSec)) (bytes_of size.(EgressThroughputPerSec)) (int32 size.(TotalMaxConnections))
         (bytes_of size.(MaxDataRetentionSize)) (int32 size.(MaxPartitions)) size.(MaxDataRetentionPeriod)
         (int32 size.(MaxConnectionAttemptsPerSec)) (bytes_of size.(MaxMessageSize)) (int32 size.(MinInSyncReplicas))
         (int32 size.(ReplicationFactor)) size.(SupportedAZModes) (option_map int32 size.(LifespanSeconds))
         (int32 size.(QuotaConsumed)) size.(DeprecatedQuotaType) (int32 size.(CapacityConsumed)) size.(MaturityStatus))
    (Sizes supportedInstanceType).

Definition PresentSupportedKafkaInstanceTypes `{QuantityLib} (supportedInstanceType : KafkaInstanceType) : SupportedKafkaInstanceType :=
  let reference := PresentReference supportedInstanceType.(Type_Id) RefOther in
  mkSupportedKafkaInstanceType reference.(Ref_Id) supportedInstanceType.(Type_DisplayName)
    (GetSupportedBillingModels supportedInstanceType) (GetSupportedSizes supportedInstanceType).

Definition by_type_id (a b : KafkaInstanceType) : Prop := String.le a.(Type_Id) b.(Type_Id).
#[export] Instance by_type_id_dec : RelDecision by_type_id := fun a b => decide (String.le a.(Type_Id) b.(Type_Id)).

Section InstanceTypes.
Context (providerConfig : ProviderConfig) (kafkaConfig : KafkaConfig).

(** The loop over the map of a region: its order is that of the list. *)
Fixpoint region_instance_types (types : list string) : result ServiceError (list KafkaInstanceType) :=
  match types with
  | [] => Ok []
  | k :: types' =>
      instanceType <-! map_err (fun _ => InstanceTypeNotSupported "instance type '%s' is unsupported")
                         (GetKafkaInstanceTypeByID kafkaConfig.(SupportedInstanceTypes) k) ;;
      rest <-! region_instance_types types' ;;
      Ok (mkKafkaInstanceType k instanceType.(Type_DisplayName) instanceType.(Sizes) instanceType.(SupportedBillingModels) :: rest)
  end.

(** The identifiers are distinct, so any sort gives the same list. *)
Definition GetSupportedKafkaInstanceTypesByRegion (providerId regionId : string) : result ServiceError (list KafkaInstanceType) :=
  match ProviderList_GetByName providerConfig.(SupportedProviders) providerId with
  | None => Err (ProviderNotSupported "cloud provider '%s' is unsupported")
  | Some provider =>
      match RegionList_GetByName provider.(Regions) regionId with
      | None => Err (RegionNotSupported "cloud region '%s' is unsupported")
      | Some region =>
          instanceTypeList <-! region_instance_types (AsSlice region.(SupportedInstanceTypesInRegion)) ;;
          Ok (merge_sort by_type_id instanceTypeList)
      end
  end.

Definition ListSupportedKafkaInstanceTypes {W} `{QuantityLib} (cloudProvider cloudRegion : string)
  : M W ServiceError (Z * list SupportedKafkaInstanceType) :=
  HandleGet (mkHandlerConfig
    [fun _ => ValidateLength cloudProvider "cloud_provider" MinRequiredFieldLength None;
     fun _ => ValidateLength cloudRegion "cloud_region" MinRequiredFieldLength None]
    (fun _ =>
       match GetSupportedKafkaInstanceTypesByRegion cloudProvider cloudRegion with
       | Err err => if IsInstanceTypeNotSupported err
                    then throw (general_svc "failed to get supported Kafka instance types" err) else throw err
       | Ok regionInstanceTypeList => ret (map PresentSupportedKafkaInstanceTypes regionInstanceTypeList)
       end)).
End InstanceTypes.

(** ** Cloud providers and their regions *)
Record CloudProviderWithRegions := mkCloudProviderWithRegions {
  CPR_ID : string;
  CPR_RegionList : list CloudProviderRegionInfo
}.

Record CloudProvider := mkCloudProvider {
  CP_Id : string;
  CP_DisplayName : string;
  CP_Name : string;
  CP_Enabled : bool
}.

(** A nil list of sizes is [None]. *)
Record RegionCapacityListItem := mkRegionCapacityListItem {
  RCI_InstanceType : string;
  RCI_AvailableSizes : option (list string)
}.

Record CloudRegion := mkCloudRegion {
  CR_Id : string;
  CR_DisplayName : string;
  CR_CloudProvider : string;
  CR_Enabled : bool;
  CR_SupportedInstanceTypes : list string;
  CR_Capacity : list RegionCapacityListItem
}.

Definition keyCloudProvidersWithRegions : string := "cloudProviderWithRegions".
Definition keyCloudProviderRegions : string := "cloudProviderRegions".
Definition cloudProvidersCacheKey : string := "cloudProviderList".

(** [patrickmn/go-cache]: what was stored last under a key, until it expires.
    Time does not pass between a write and the read that follows it at once. *)
Class GoCache (W V : Type) `{Database W} := {
  cache_get : string -> W -> option V;
  cache_set : string -> V -> W -> W;
  cache_set_same : forall k v w, cache_get k (cache_set k v w) = Some v;
  cache_set_other : forall k k' v w, k <> k' -> cache_get k' (cache_set k v w) = cache_get k' w;
  cache_set_tables : forall k v w, tables_of (cache_set k v w) = tables_of w
}.

(** The two types of values that the service stores in its cache. *)
Inductive CachedItem :=
| CachedProviders (l : list CloudProviderWithRegions)
| CachedRegions (l : list CloudRegion).

Definition CloudProviderIDToDisplayNameMapping (id : string) : option string :=
  if id =?s AWS then Some "Amazon Web Services"
  else if id =?s Azure then Some "Microsoft Azure"
  else if id =?s GCP then Some "Google Cloud Platform"
  else None.

Definition setDisplayName (providerID defaultDisplayName : string) : string :=
  default defaultDisplayName (CloudProviderIDToDisplayNameMapping providerID).

Definition by_provider_id (a b : CloudProviderWithRegions) : Prop := String.le a.(CPR_ID) b.(CPR_ID).
#[export] Instance by_provider_id_dec : RelDecision by_provider_id := fun a b => decide (String.le a.(CPR_ID) b.(CPR_ID)).

Section CloudProviders.
Context {W : Type} `{Database W} `{!GoCache W CachedItem}.
Context (GetProvider : string -> result error (ClusterProvider W)).

Definition getAvailableClusterProviderTypes : M W ServiceError (list string) :=
  l <~ wrap_err (general "Failed to list clusters providers")
         (exec (SelectClusters (fun c => negb (Contains ClusterDeletionStatuses c.(CL.Status))))) ;;
  ret (map fst (group_by CL.ProviderType l)).

Definition provider_list (providerType : string) : M W ServiceError (ClusterProvider W * list CloudProviderInfo) :=
  provider <~ lift (map_err (general "failed to find implementation") (GetProvider providerType)) ;;
  providerList <~ wrap_err (general "failed to retrieve cloud provider list") provider.(Provider_GetCloudProviders) ;;
  ret (provider, providerList).

(** The cause that is recorded when the regions cannot be read is [err], which
    is nil there. *)
Fixpoint collect_regions (provider : ClusterProvider W) (items : list CloudProviderInfo)
    (cloudProvidersToRegions : gmap string (list CloudProviderRegionInfo)) : M W ServiceError (gmap string (list CloudProviderRegionInfo)) :=
  match items with
  | [] => ret cloudProvidersToRegions
  | cp :: items' =>
      regions <~ wrap_err (fun _ => NewWithCause ErrorGeneral None "failed to retrieve cloud regions")
                   (provider.(Provider_GetCloudProviderRegions) cp) ;;
      collect_regions provider items'
        (match cloudProvidersToRegions !! cp.(CPI_ID) with
         | None => <[ cp.(CPI_ID) := regions ]> cloudProvidersToRegions
         | Some existingRegions => <[ cp.(CPI_ID) := Merge existingRegions regions ]> cloudProvidersToRegions
         end)
  end.

Fixpoint regions_of_types (types : list string) (m : gmap string (list CloudProviderRegionInfo))
  : M W ServiceError (gmap string (list CloudProviderRegionInfo)) :=
  match types with
  | [] => ret m
  | t :: types' =>
      found <~ provider_list t ;;
      m' <~ collect_regions found.1 found.2 m ;;
      regions_of_types types' m'
  end.

Definition GetCloudProvidersWithRegions : M W ServiceError (list CloudProviderWithRegions) :=
  results <~ getAvailableClusterProviderTypes ;;
  m <~ regions_of_types results ∅ ;;
  ret (merge_sort by_provider_id (map (fun '(key, regions) => mkCloudProviderWithRegions key regions) (map_to_list m))).

Definition cached {V} `{!GoCache W V} (key : string) : M W ServiceError (option V) := fun w => (Ok (cache_get key w), w).
Definition store {V} `{!GoCache W V} (key : string) (v : V) : M W ServiceError unit := fun w => (Ok tt, cache_set key v w).

(** An item of the other type is read as nil. *)
Definition convertToCloudProviderWithRegionsType (c : CachedItem) : list CloudProviderWithRegions :=
  match c with CachedProviders l => l | CachedRegions _ => [] end.
Definition convertToCloudProviderRegions (c : CachedItem) : list CloudRegion :=
  match c with CachedRegions l => l | CachedProviders _ => [] end.

Definition GetCachedCloudProvidersWithRegions : M W ServiceError (list CloudProviderWithRegions) :=
  found <~ cached keyCloudProvidersWithRegions ;;
  match found with
  | Some c => ret (convertToCloudProviderWithRegionsType c)
  | None =>
      cloudProviderWithRegions <~ GetCloudProvidersWithRegions ;;
      _ <~ store keyCloudProvidersWithRegions (CachedProviders cloudProviderWithRegions) ;;
      ret cloudProviderWithRegions
  end.

(** The identifiers that were collected already are those of [collected]. *)
Fixpoint collect_providers (items : list CloudProviderInfo) (collected : list CloudProvider) : list CloudProvider :=
  match items with
  | [] => collected
  | cp :: items' =>
      if Contains (map CP_Id collected) cp.(CPI_ID) then collect_providers items' collected
      else collect_providers items' (collected ++
             [mkCloudProvider cp.(CPI_ID) (setDisplayName (ParseCloudProviderID cp.(CPI_ID)) cp.(CPI_DisplayName)) cp.(CPI_Name) false])
  end.

Fixpoint providers_of_types (types : list string) (collected : list CloudProvider) : M W ServiceError (list CloudProvider) :=
  match types with
  | [] => ret collected
  | t :: types' => found <~ provider_list t ;; providers_of_types types' (collect_providers found.2 collected)
  end.

Definition Service_ListCloudProviders : M W ServiceError (list CloudProvider) :=
  results <~ getAvailableClusterProviderTypes ;; providers_of_types results [].

Definition Service_ListCloudProviderRegions (id : string) : M W ServiceError (list CloudRegion) :=
  cloudProviders <~ wrap_err (general_svc "failed to retrieve cloud provider regions") GetCloudProvidersWithRegions ;;
  match List.find (fun p => p.(CPR_ID) =?s id) cloudProviders with
  | Some p => ret (map (fun r => mkCloudRegion r.(CRI_ID) r.(CRI_DisplayName) r.(CRI_CloudProviderID) false [] []) p.(CPR_RegionList))
  | None => ret []
  end.

(** The cache is read under the identifier and written under a constant. *)
Definition ListCachedCloudProviderRegions (id : string) : M W ServiceError (list CloudRegion) :=
  found <~ cached id ;;
  match found with
  | Some c => ret (convertToCloudProviderRegions c)
  | None =>
      cloudProviderRegions <~ Service_ListCloudProviderRegions id ;;
      _ <~ store keyCloudProviderRegions (CachedRegions cloudProviderRegions) ;;
      ret cloudProviderRegions
  end.

End CloudProviders.

(** ** The handlers *)
Record PublicCloudProvider := mkPublicCloudProvider {
  PCP_Id : string;
  PCP_Kind : string;
  PCP_Name : string;
  PCP_DisplayName : string;
  PCP_Enabled : bool
}.

Record PublicRegionCapacityListItem := mkPublicRegionCapacityListItem {
  PRC_InstanceType : string;
  PRC_AvailableSizes : list string
}.

Record PublicCloudRegion := mkPublicCloudRegion {
  PCR_Id : string;
  PCR_Kind : string;
  PCR_DisplayName : string;
  PCR_Enabled : bool;
  PCR_Capacity : list PublicRegionCapacityListItem
}.

(** The lists of the public interface. *)
Record ListResponse (A : Type) := mkListResponse {
  LR_Kind : string;
  LR_Page : Z;
  LR_Size : Z;
  LR_Total : Z;
  LR_Items : list A
}.
Arguments mkListResponse {A}.
Arguments LR_Kind {A}.
Arguments LR_Page {A}.
Arguments LR_Size {A}.
Arguments LR_Total {A}.
Arguments LR_Items {A}.

Definition list_response {A} (kind : string) (items : list A) : ListResponse A :=
  mkListResponse kind 1 (int32 (Z.of_nat (length items))) (int32 (Z.of_nat (length items))) items.

Definition PresentCloudProvider (cloudProvider : CloudProvider) : PublicCloudProvider :=
  let reference := PresentReference cloudProvider.(CP_Id) RefCloudProvider in
  mkPublicCloudProvider reference.(Ref_Id) reference.(Ref_Kind) cloudProvider.(CP_Name) cloudProvider.(CP_DisplayName)
    cloudProvider.(CP_Enabled).

(** A nil list of sizes is shown as an empty one. *)
Definition GetRegionCapacityItems (capacityItems : list RegionCapacityListItem) : list PublicRegionCapacityListItem :=
  map (fun c => mkPublicRegionCapacityListItem c.(RCI_InstanceType) (default [] c.(RCI_AvailableSizes))) capacityItems.

Definition PresentCloudRegion (cloudRegion : CloudRegion) : PublicCloudRegion :=
  let reference := PresentReference cloudRegion.(CR_Id) RefCloudRegion in
  mkPublicCloudRegion reference.(Ref_Id) reference.(Ref_Kind) cloudRegion.(CR_DisplayName) cloudRegion.(CR_Enabled)
    (GetRegionCapacityItems cloudRegion.(CR_Capacity)).

Section CatalogHandlers.
Context {W : Type} `{Database W} `{!KafkaExternals W} `{!GoCache W CachedItem} `{!GoCache W (ListResponse PublicCloudProvider)}.
Context (GetProvider : string -> result error (ClusterProvider W)).
Context (dp : DataplaneClusterConfig) (pc : ProviderConfig) (cfg : KafkaConfig).

(** Only standard instances need a cluster in several zones. *)
Definition capacity_criteria (cloudRegion : CloudRegion) (instType : string) : FindClusterCriteria :=
  mkFindClusterCriteria cloudRegion.(CR_CloudProvider) cloudRegion.(CR_Id) (instType =?s STANDARD) "" instType "".

(** An error that is not general leaves the sizes empty. *)
Fixpoint region_capacities (cloudRegion : CloudRegion) (types : list string) : M W ServiceError (list RegionCapacityListItem) :=
  match types with
  | [] => ret []
  | instType :: types' =>
      availableSizes <~ attempt (GetAvailableSizesInRegion dp pc cfg (Some (capacity_criteria cloudRegion instType))) ;;
      sizes <~ match availableSizes with
               | Ok l => ret (Some l)
               | Err err => if Code err =? ErrorGeneral
                            then throw (GeneralError "unable to list cloud provider regions at this time") else ret None
               end ;;
      rest <~ region_capacities cloudRegion types' ;;
      ret (mkRegionCapacityListItem instType sizes :: rest)
  end.

Definition with_capacity (provider : Provider) (cloudRegion : CloudRegion) : M W ServiceError CloudRegion :=
  let region := default zero (RegionList_GetByName provider.(Regions) cloudRegion.(CR_Id)) in
  let types := AsSlice region.(SupportedInstanceTypesInRegion) in
  if negb (IsEmpty types) then
    capacities <~ region_capacities cloudRegion types ;;
    ret (mkCloudRegion cloudRegion.(CR_Id) cloudRegion.(CR_DisplayName) cloudRegion.(CR_CloudProvider) true types capacities)
  else ret cloudRegion.

Fixpoint present_regions (provider : Provider) (cloudRegions : list CloudRegion) : M W ServiceError (list PublicCloudRegion) :=
  match cloudRegions with
  | [] => ret []
  | cloudRegion :: rest =>
      cloudRegion <~ with_capacity provider cloudRegion ;;
      items <~ present_regions provider rest ;;
      ret (PresentCloudRegion cloudRegion :: items)
  end.

Definition cloudProvidersHandler_ListCloudProviderRegions (id : string) : M W ServiceError (Z * ListResponse PublicCloudRegion) :=
  HandleGet (mkHandlerConfig
    [fun _ => ValidateLength id "id" MinRequiredFieldLength None]
    (fun _ =>
       cloudRegions <~ ListCachedCloudProviderRegions GetProvider id ;;
       items <~ present_regions (default zero (ProviderList_GetByName pc.(SupportedProviders) id)) cloudRegions ;;
       ret (list_response "CloudRegionList" items))).

Definition with_enabled (cloudProvider : CloudProvider) : CloudProvider :=
  mkCloudProvider cloudProvider.(CP_Id) cloudProvider.(CP_DisplayName) cloudProvider.(CP_Name)
    (bool_decide (is_Some (ProviderList_GetByName pc.(SupportedProviders) cloudProvider.(CP_Id)))).

Definition cloudProvidersHandler_ListCloudProviders : M W ServiceError (Z * ListResponse PublicCloudProvider) :=
  HandleGet (mkHandlerConfig []
    (fun _ =>
       cachedCloudProviderList <~ cached cloudProvidersCacheKey ;;
       match cachedCloudProviderList with
       | Some l => ret l
       | None =>
           cloudProviders <~ Service_ListCloudProviders GetProvider ;;
           let cloudProviderList := list_response "CloudProviderList" (map (fun p => PresentCloudProvider (with_enabled p)) cloudProviders) in
           _ <~ store cloudProvidersCacheKey cloudProviderList ;;
           ret cloudProviderList
       end)).
End CatalogHandlers.

(** ** Facts *)
Section InstanceTypeFacts.
Context (pc : ProviderConfig) (cfg : KafkaConfig).

#[local] Instance by_type_id_trans : Transitive by_type_id.
Proof. intros a b c. unfold by_type_id. intros. by etrans. Qed.
#[local] Instance by_type_id_total : Total by_type_id.
Proof. intros a b. apply (total String.le). Qed.

Lemma region_instance_types_ok types l :
  region_instance_types cfg types = Ok l ->
  Forall2 (fun id t => exists it, GetKafkaInstanceTypeByID cfg.(SupportedInstanceTypes) id = Ok it /\
             t = mkKafkaInstanceType id it.(Type_DisplayName) it.(Sizes) it.(SupportedBillingModels)) types l.
Proof.
  revert l. induction types as [|k types IH]; intros l Hl; simpl in Hl; [injection Hl as <-; constructor|].
  destruct (GetKafkaInstanceTypeByID _ k) as [it|] eqn:Hit; [|done]. simpl in Hl.
  destruct (region_instance_types cfg types) as [rest|]; [|done]. injection Hl as <-. constructor; [by exists it|by apply IH].
Qed.

(** The instance types that are offered in a region are those of the
    region's configuration, each once and in the order of their identifiers, with
    the sizes and the billing models that the service is configured with. *)
Theorem region_instance_types_listed providerId regionId l :
  GetSupportedKafkaInstanceTypesByRegion pc cfg providerId regionId = Ok l ->
  exists provider region,
    ProviderList_GetByName pc.(SupportedProviders) providerId = Some provider /\
    RegionList_GetByName provider.(Regions) regionId = Some region /\
    map Type_Id l ≡ₚ AsSlice region.(SupportedInstanceTypesInRegion) /\ Sorted.StronglySorted by_type_id l /\
    Forall (fun t => exists it, GetKafkaInstanceTypeByID cfg.(SupportedInstanceTypes) t.(Type_Id) = Ok it /\
              t.(Sizes) = it.(Sizes) /\ t.(SupportedBillingModels) = it.(SupportedBillingModels)) l.
Proof.
  unfold GetSupportedKafkaInstanceTypesByRegion. destruct (ProviderList_GetByName _ _) as [provider|]; [|done].
  destruct (RegionList_GetByName _ _) as [region|] eqn:Hr; [|done]. intros Hl.
  destruct (region_instance_types cfg _) as [l0|] eqn:Hl0; [|done]. injection Hl as <-.
  apply region_instance_types_ok in Hl0. exists provider, region.
  split_and!; [done|done| |apply (StronglySorted_merge_sort by_type_id)|].
  - rewrite (merge_sort_Permutation by_type_id). clear -Hl0. induction Hl0 as [|id t types l (it & _ & ->) _ IH]; simpl; [done|by rewrite IH].
  - apply Forall_forall. intros t Ht. rewrite (merge_sort_Permutation by_type_id) in Ht.
    clear -Hl0 Ht. induction Hl0 as [|id t0 types l (it & Hit & ->) _ IH]; [by apply elem_of_nil in Ht|].
    apply elem_of_cons in Ht as [->|Ht]; [by exists it|by apply IH].
Qed.
End InstanceTypeFacts.

(** *** Merging *)
Lemma merge_regions_spec existing target source :
  (forall id, id ∈ existing <-> id ∈ map CRI_ID target) ->
  let merged := merge_regions existing target source in
  (NoDup (map CRI_ID target) -> NoDup (map CRI_ID merged)) /\
  (forall id, id ∈ map CRI_ID merged <-> id ∈ map CRI_ID target \/ id ∈ map CRI_ID source).
Proof.
  revert existing target. induction source as [|r source IH]; intros existing target Hex; simpl; [set_solver|].
  destruct (Contains existing (CRI_ID r)) eqn:Hc.
  - apply Contains_true, Hex in Hc. destruct (IH existing target Hex) as [Hnd Hin]. split; [done|]. intros id. rewrite Hin. set_solver.
  - apply Contains_false in Hc. rewrite Hex in Hc.
    destruct (IH (CRI_ID r :: existing) (target ++ [r])) as [Hnd Hin].
    { intros id. rewrite map_app. specialize (Hex id). set_solver. }
    split.
    + intros Ht. apply Hnd. rewrite map_app. apply NoDup_app. split_and!; [done|set_solver|apply NoDup_singleton].
    + intros id. rewrite Hin, map_app. set_solver.
Qed.

(** Merging two lists of regions keeps each identifier once. *)
Lemma Merge_spec target source :
  (NoDup (map CRI_ID target) -> NoDup (map CRI_ID (Merge target source))) /\
  (forall id, id ∈ map CRI_ID (Merge target source) <-> id ∈ map CRI_ID target \/ id ∈ map CRI_ID source).
Proof. by apply merge_regions_spec. Qed.

Lemma collect_providers_nodup items l : NoDup (map CP_Id l) -> NoDup (map CP_Id (collect_providers items l)).
Proof.
  revert l. induction items as [|cp items IH]; intros l Hl; simpl; [done|].
  destruct (Contains _ _) eqn:Hc; [by apply IH|]. apply IH. apply Contains_false in Hc. rewrite map_app.
  apply NoDup_app. split_and!; [done|set_solver|apply NoDup_singleton].
Qed.

(** *** The service only reads *)
Section CatalogFacts.
Context {W : Type} `{Database W} `{!KafkaExternals W} `{!GoCache W CachedItem} `{!GoCache W (ListResponse PublicCloudProvider)}.
Context (GetProvider : string -> result error (ClusterProvider W)).
Context (dp : DataplaneClusterConfig) (pc : ProviderConfig) (cfg : KafkaConfig).
Context (providers_lawful : forall t p, GetProvider t = Ok p -> ProviderLaws p).

Lemma available_sizes_ro criteria sizes : read_only (available_sizes (W := W) dp pc cfg criteria sizes).
Proof. induction sizes as [|s sizes IH]; simpl; [apply ret_read_only|]. pose proof (region_capacity_ro (W := W) dp pc cfg).
  pose proof (Placement_FindCluster_ro (W := W) dp cfg). solve_read_only. Qed.
Lemma GetAvailableSizesInRegion_ro criteria : read_only (GetAvailableSizesInRegion (W := W) dp pc cfg criteria).
Proof. unfold GetAvailableSizesInRegion. pose proof available_sizes_ro. solve_read_only. Qed.

Lemma getAvailableClusterProviderTypes_ro : read_only (getAvailableClusterProviderTypes (W := W)).
Proof. unfold getAvailableClusterProviderTypes. solve_read_only. Qed.

Lemma provider_list_ok t w p l w' :
  provider_list GetProvider t w = (Ok (p, l), w') ->
  GetProvider t = Ok p /\ p.(Provider_GetCloudProviders) w = (Ok l, w') /\ tables_of w' = tables_of w.
Proof.
  unfold provider_list. intros Hr. unfold lift, bind at 1 in Hr. destruct (GetProvider t) as [p0|] eqn:Hp; [|done]. simpl in Hr.
  apply bind_ok in Hr as (l0 & w1 & Hl & Hr). injection Hr as -> -> <-. apply wrap_err_ok in Hl.
  split_and!; [done..|]. exact (read_only_run _ _ _ _ (cloud_providers_ro (ProviderLaws := providers_lawful _ _ Hp)) Hl).
Qed.

Lemma collect_regions_ok p items m w m' w' :
  ProviderLaws p -> collect_regions p items m w = (Ok m', w') -> tables_of w' = tables_of w.
Proof.
  intros Hp. revert m w. induction items as [|cp items IH]; intros m w Hr; simpl in Hr; [by injection Hr as _ <-|].
  apply bind_ok in Hr as (rs & w1 & Hrs & Hr). apply wrap_err_ok in Hrs. rewrite (IH _ _ Hr).
  exact (read_only_run _ _ _ _ (cloud_regions_ro cp) Hrs).
Qed.

Lemma regions_of_types_ok types m w m' w' :
  regions_of_types GetProvider types m w = (Ok m', w') -> tables_of w' = tables_of w.
Proof.
  revert m w. induction types as [|t types IH]; intros m w Hr; simpl in Hr; [by injection Hr as _ <-|].
  apply bind_ok in Hr as ([p l] & w1 & Hpl & Hr). apply bind_ok in Hr as (m1 & w2 & Hc & Hr).
  apply provider_list_ok in Hpl as (Hp & _ & Ht). apply collect_regions_ok in Hc; [|by eapply providers_lawful].
  rewrite (IH _ _ Hr). congruence.
Qed.

Lemma GetCloudProvidersWithRegions_tables w l w' :
  GetCloudProvidersWithRegions GetProvider w = (Ok l, w') -> tables_of w' = tables_of w.
Proof.
  intros Hr. unfold GetCloudProvidersWithRegions in Hr. apply bind_ok in Hr as (types & w1 & Ht & Hr).
  apply bind_ok in Hr as (m & w2 & Hm & Hr). injection Hr as _ <-.
  rewrite (regions_of_types_ok _ _ _ _ _ Hm). exact (read_only_run _ _ _ _ getAvailableClusterProviderTypes_ro Ht).
Qed.

Lemma Service_ListCloudProviderRegions_ok id w l w' :
  Service_ListCloudProviderRegions GetProvider id w = (Ok l, w') ->
  tables_of w' = tables_of w /\ Forall (fun r => r.(CR_Enabled) = false /\ r.(CR_Capacity) = []) l.
Proof.
  intros Hr. unfold Service_ListCloudProviderRegions in Hr. apply bind_ok in Hr as (cps & w1 & Hc & Hr). apply wrap_err_ok in Hc.
  apply GetCloudProvidersWithRegions_tables in Hc. destruct (List.find _ cps); injection Hr as <- <-; (split; [done|]); [|constructor].
  apply Forall_map, Forall_true. done.
Qed.

(** *** Capacities *)
#[local] Arguments GetAvailableSizesInRegion : simpl never.

Definition sizes_answered (cr : CloudRegion) (db : tables) (t : string) (item : RegionCapacityListItem) : Prop :=
  item.(RCI_InstanceType) = t /\
  exists r w1 w2, tables_of w1 = db /\
    GetAvailableSizesInRegion (W := W) dp pc cfg (Some (capacity_criteria cr t)) w1 = (r, w2) /\
    match r with Ok l => item.(RCI_AvailableSizes) = Some l | Err e => Code e <> ErrorGeneral /\ item.(RCI_AvailableSizes) = None end.

Lemma region_capacities_ok cr types w l w' :
  region_capacities dp pc cfg cr types w = (Ok l, w') ->
  tables_of w' = tables_of w /\ Forall2 (sizes_answered cr (tables_of w)) types l.
Proof.
  revert w l. induction types as [|t types IH]; intros w l Hr; simpl in Hr; [injection Hr as <- <-; by split|].
  apply bind_ok in Hr as (r & w1 & Hs & Hr). apply attempt_inv in Hs as (r0 & Hs & [= ->]).
  pose proof (read_only_run _ _ _ _ (GetAvailableSizesInRegion_ro _) Hs) as Ht.
  apply bind_ok in Hr as (sizes & w2 & Hsz & Hr). apply bind_ok in Hr as (rest & w3 & Hrest & Hr). injection Hr as <- <-.
  assert (w2 = w1 /\ match r0 with Ok l => sizes = Some l | Err e => Code e <> ErrorGeneral /\ sizes = None end) as [-> Hm].
  { destruct r0 as [l0|e]; [by injection Hsz as <- <-|]. destruct (Z.eqb_spec (Code e) ErrorGeneral); [done|by injection Hsz as <- <-]. }
  apply IH in Hrest as [Ht2 Hrest]. rewrite Ht in Ht2, Hrest. split; [done|]. constructor; [|done].
  split; [done|]. by exists r0, w, w1.
Qed.

(** What the endpoint says about an instance type in a region whose limit is
    known: nothing is left, or the sizes up to one that still fits. *)
Definition offers (db : tables) (region provider : string) (t : string) (c : PublicRegionCapacityListItem) : Prop :=
  c.(PRC_InstanceType) = t /\
  forall limit, GetInstanceLimit pc region provider t = Ok (Some limit) ->
    let needs size := region_use cfg (mkFindClusterCriteria provider region (t =?s STANDARD) "" t "") db.(kafkas) + units cfg t (Size_Id size) in
    c.(PRC_AvailableSizes) = [] \/
    exists it offered bigger size, GetKafkaInstanceTypeByID cfg.(SupportedInstanceTypes) t = Ok it /\
      Sizes it = offered ++ bigger /\ c.(PRC_AvailableSizes) = map Size_Id offered /\ last offered = Some size /\ needs size <= limit /\
      (IsDataPlaneAutoScalingEnabled dp = true -> Forall (fun s => limit = 0 \/ limit < needs s) bigger).

Lemma answered_offers cr db t item :
  sizes_answered cr db t item ->
  offers db cr.(CR_Id) cr.(CR_CloudProvider) t (mkPublicRegionCapacityListItem item.(RCI_InstanceType) (default [] item.(RCI_AvailableSizes))).
Proof.
  intros (Ht & r & w1 & w2 & Hdb & Hr & Hm). split; [done|]. intros limit Hlim needs. simpl.
  destruct r as [l|e]; [|destruct Hm as [_ ->]; by left]. rewrite Hm. simpl. unfold GetAvailableSizesInRegion in Hr.
  unfold lift, bind at 1 in Hr. destruct (GetKafkaInstanceTypeByID _ _) as [it|] eqn:Hit; [|discriminate Hr]. simpl in Hr.
  apply (available_sizes_ok _ _ _ _ _ _ _ _ limit) in Hr as (bigger & offered & Hsplit & -> & Hfit & Hbig); [|done].
  rewrite Hdb in Hfit, Hbig. destruct offered as [|size offered]; [by left|right].
  exists it, (reverse (size :: offered)), (reverse bigger), size. split_and!; [done| |done|by rewrite last_reverse|by apply Hfit|].
  - by rewrite <- reverse_app, <- Hsplit, reverse_involutive.
  - intros Ha. apply Forall_reverse. eapply Forall_impl; [by apply Hbig|]. intros s [->|Hn]; [by left|right]. by apply Z.nle_gt in Hn.
Qed.

(** The configuration of a region, empty when there is none. *)
Definition configured_types (provider region : string) : list string :=
  AsSlice (default zero (RegionList_GetByName (default zero (ProviderList_GetByName pc.(SupportedProviders) provider)).(Regions) region))
    .(SupportedInstanceTypesInRegion).

Definition region_shown (id : string) (db : tables) (cr : CloudRegion) (item : PublicCloudRegion) : Prop :=
  item.(PCR_Id) = cr.(CR_Id) /\ item.(PCR_Enabled) = negb (IsEmpty (configured_types id cr.(CR_Id))) /\
  Forall2 (offers db cr.(CR_Id) cr.(CR_CloudProvider)) (configured_types id cr.(CR_Id)) item.(PCR_Capacity).

Lemma presented_region_id cr : (PresentCloudRegion cr).(PCR_Id) = cr.(CR_Id).
Proof. unfold PresentCloudRegion, PresentReference. simpl. by destruct (String.eqb_spec (CR_Id cr) "") as [->|]. Qed.

Lemma present_regions_ok id crs w items w' :
  Forall (fun r => r.(CR_Enabled) = false /\ r.(CR_Capacity) = []) crs ->
  present_regions dp pc cfg (default zero (ProviderList_GetByName pc.(SupportedProviders) id)) crs w = (Ok items, w') ->
  Forall2 (region_shown id (tables_of w)) crs items.
Proof.
  intros Hplain. revert w items. induction Hplain as [|cr crs [He Hc] _ IH]; intros w items Hr; simpl in Hr; [injection Hr as <- _; constructor|].
  apply bind_ok in Hr as (cr' & w1 & Hcap & Hr). apply bind_ok in Hr as (rest & w2 & Hrest & Hr). injection Hr as <- <-.
  unfold with_capacity in Hcap. fold (configured_types id (CR_Id cr)) in Hcap.
  assert (tables_of w1 = tables_of w /\ region_shown id (tables_of w) cr (PresentCloudRegion cr')) as [Ht Hshown].
  { unfold region_shown. destruct (configured_types id (CR_Id cr)) as [|t types] eqn:Htypes; simpl in Hcap.
    - injection Hcap as <- <-. rewrite presented_region_id. simpl. rewrite He, Hc. split_and!; try done.
    - apply bind_ok in Hcap as (caps & w3 & Hcaps & Hcap). injection Hcap as <- <-. rewrite presented_region_id. simpl.
      apply (region_capacities_ok cr (t :: types)) in Hcaps as [Ht Hcaps].
      split_and!; try done. unfold GetRegionCapacityItems. apply Forall2_fmap_r. eapply Forall2_impl; [exact Hcaps|].
      intros. by apply answered_offers. }
  constructor; [done|]. rewrite <- Ht. by eapply IH.
Qed.

(** What the regions endpoint promises can be had: the regions that it
    shows are those of the provider, a region is enabled exactly when the
    configuration offers an instance type there, every such type is listed, and
    the sizes shown for a type with a limit go up to one that still fits under
    it, beyond which (under dynamic scaling) none does. *)
Theorem shown_capacity_is_available id w code resp w' :
  cloudProvidersHandler_ListCloudProviderRegions GetProvider dp pc cfg id w = (Ok (code, resp), w') ->
  cache_get (V := CachedItem) id w = None ->
  code = StatusOK /\ id <> "" /\
  exists crs w1, Service_ListCloudProviderRegions GetProvider id w = (Ok crs, w1) /\
    Forall2 (region_shown id (tables_of w)) crs resp.(LR_Items) /\
    resp.(LR_Total) = int32 (Z.of_nat (length crs)).
Proof.
  intros Hrun Hmiss. unfold cloudProvidersHandler_ListCloudProviderRegions, HandleGet, run_validated in Hrun.
  apply bind_ok in Hrun as ([] & w1 & Hv & Hrun). apply bind_ok in Hrun as (a & w2 & Ha & Hrun). injection Hrun as <- -> <-.
  simpl in Hv. apply bind_ok in Hv as ([] & w3 & Hv & [= <-]). apply bind_ok in Hv as ([] & w4 & [= <-] & Hv).
  apply require_ok in Hv as [Hlen ->]. simpl in Ha. apply bind_ok in Ha as (crs & w5 & Hcrs & Ha).
  apply bind_ok in Ha as (items & w6 & Hitems & [= <- <-]).
  unfold ListCachedCloudProviderRegions in Hcrs. apply bind_ok in Hcrs as (c & w7 & [= <- <-] & Hcrs). rewrite Hmiss in Hcrs.
  apply bind_ok in Hcrs as (l & w8 & Hl & Hcrs). apply bind_ok in Hcrs as ([] & w9 & [= <-] & [= <- <-]).
  destruct (Service_ListCloudProviderRegions_ok _ _ _ _ Hl) as [Ht Hplain].
  apply present_regions_ok in Hitems; [|done]. rewrite cache_set_tables, Ht in Hitems.
  split; [done|]. split; [intros ->; by vm_compute in Hlen|].
  exists l, w8. split_and!; [done..|]. simpl. by rewrite (Forall2_length _ _ _ Hitems).
Qed.

(** The cache of regions is written under one constant key and read under
    the identifier of the provider.  So for every other identifier each request
    asks the providers again, and nothing is ever found in the cache; and a
    request for the provider whose identifier is that constant is answered with
    the regions of whichever provider was asked for last. *)
Theorem region_cache_key_mismatch id w l w' :
  (forall r w1, Service_ListCloudProviderRegions GetProvider id w = (r, w1) -> cache_get (V := CachedItem) id w1 = cache_get id w) ->
  id <> keyCloudProviderRegions -> cache_get (V := CachedItem) id w = None ->
  ListCachedCloudProviderRegions GetProvider id w = (Ok l, w') ->
  cache_get (V := CachedItem) id w' = None /\
  (exists w1, Service_ListCloudProviderRegions GetProvider id w = (Ok l, w1)) /\
  ListCachedCloudProviderRegions GetProvider keyCloudProviderRegions w' = (Ok l, w').
Proof.
  intros Hstable Hid Hmiss Hrun. unfold ListCachedCloudProviderRegions in Hrun.
  apply bind_ok in Hrun as (c & w1 & [= <- <-] & Hrun). rewrite Hmiss in Hrun.
  apply bind_ok in Hrun as (l0 & w2 & Hl & Hrun). apply bind_ok in Hrun as ([] & w3 & [= <-] & [= <- <-]).
  split_and!.
  - rewrite cache_set_other by done. by rewrite (Hstable _ _ Hl).
  - by exists w2.
  - unfold ListCachedCloudProviderRegions, bind, cached. by rewrite cache_set_same.
Qed.

Lemma providers_of_types_nodup types l w l' w' :
  NoDup (map CP_Id l) -> providers_of_types GetProvider types l w = (Ok l', w') -> NoDup (map CP_Id l').
Proof.
  revert l w. induction types as [|t types IH]; intros l w Hl Hr; simpl in Hr; [by injection Hr as <- _|].
  apply bind_ok in Hr as (found & w1 & _ & Hr). eapply IH; [|exact Hr]. by apply collect_providers_nodup.
Qed.

Lemma presented_provider_id p : (PresentCloudProvider p).(PCP_Id) = p.(CP_Id).
Proof. unfold PresentCloudProvider, PresentReference. simpl. by destruct (String.eqb_spec (CP_Id p) "") as [->|]. Qed.

(** The list of cloud providers names each provider once and marks as
    enabled exactly those of the configuration; until it expires, the list that
    was built is the one that is served again, with no query. *)
Theorem cloud_provider_listing w code resp w' :
  cloudProvidersHandler_ListCloudProviders GetProvider pc w = (Ok (code, resp), w') ->
  cache_get (V := ListResponse PublicCloudProvider) cloudProvidersCacheKey w = None ->
  NoDup (map PCP_Id resp.(LR_Items)) /\
  Forall (fun p => p.(PCP_Enabled) = true <-> p.(PCP_Id) ∈ map Provider_Name pc.(SupportedProviders)) resp.(LR_Items) /\
  cloudProvidersHandler_ListCloudProviders GetProvider pc w' = (Ok (StatusOK, resp), w').
Proof.
  intros Hrun Hmiss. unfold cloudProvidersHandler_ListCloudProviders, HandleGet, run_validated in Hrun. simpl in Hrun.
  apply bind_ok in Hrun as ([] & w1 & [= <-] & Hrun). apply bind_ok in Hrun as (a & w2 & Ha & Hrun). injection Hrun as _ -> <-.
  apply bind_ok in Ha as (c & w3 & [= <- <-] & Ha). rewrite Hmiss in Ha.
  apply bind_ok in Ha as (l & w4 & Hl & Ha). apply bind_ok in Ha as ([] & w5 & [= <-] & [= <- <-]). simpl.
  unfold Service_ListCloudProviders in Hl. apply bind_ok in Hl as (types & w6 & _ & Hl).
  apply providers_of_types_nodup in Hl; [|constructor]. split_and!.
  - rewrite map_map. erewrite map_ext; [exact Hl|]. intros p. by rewrite presented_provider_id.
  - apply Forall_map, Forall_forall. intros p _.
    change (PCP_Enabled (PresentCloudProvider (with_enabled pc p)) = true <->
            PCP_Id (PresentCloudProvider (with_enabled pc p)) ∈ map Provider_Name (SupportedProviders pc)).
    rewrite presented_provider_id. simpl. rewrite bool_decide_eq_true.
    unfold ProviderList_GetByName. split.
    + intros [q Hq]. apply List.find_some in Hq as [Hin Heq]. apply String.eqb_eq in Heq. rewrite <- Heq.
      apply list_elem_of_fmap_2. by apply list_elem_of_In.
    + intros (q & Heq & Hin)%list_elem_of_fmap. destruct (List.find _ _) eqn:Hf; [by eexists|].
      apply list_elem_of_In in Hin. pose proof (List.find_none _ _ Hf q Hin) as Hn. simpl in Hn.
      by rewrite <- Heq, String.eqb_refl in Hn.
  - unfold cloudProvidersHandler_ListCloudProviders, HandleGet, run_validated, bind, cached. simpl. by rewrite cache_set_same.
Qed.
End CatalogFacts.

(** ** A deployment with caches *)
Module CatalogExample.
Abbreviation world := (MemDB.world (gmap string CachedItem * gmap string (ListResponse PublicCloudProvider))).

Definition with_ext (w : world) x : world := MemDB.mkWorld w.(MemDB.db) w.(MemDB.clock) w.(MemDB.faults) x.

#[global] Instance service_cache : GoCache world CachedItem.
Proof.
  refine {| cache_get := fun k w => fst w.(MemDB.ext) !! k;
            cache_set := fun k v w => with_ext w (<[ k := v ]> (fst w.(MemDB.ext)), snd w.(MemDB.ext)) |}.
  - intros. simpl. apply lookup_insert_eq.
  - intros. simpl. by apply lookup_insert_ne.
  - done.
Defined.

#[global] Instance handler_cache : GoCache world (ListResponse PublicCloudProvider).
Proof.
  refine {| cache_get := fun k w => snd w.(MemDB.ext) !! k;
            cache_set := fun k v w => with_ext w (fst w.(MemDB.ext), <[ k := v ]> (snd w.(MemDB.ext))) |}.
  - intros. simpl. apply lookup_insert_eq.
  - intros. simpl. by apply lookup_insert_ne.
  - done.
Defined.

#[global] Instance externals : KafkaExternals world.
Proof.
  refine {|
    get_quota_service := fun _ => Ok tt;
    check_quota_defined := fun _ _ t _ => ret (t =?s STANDARD);
    reserve_quota := fun k => ret ("sub-" +:+ k.(KR.ID), mkReservedBilling "standard" k.(KR.Marketplace) k.(KR.BillingCloudAccountId));
    is_entitlement_active := fun _ => ret true;
    enable_authentication_on_kafka := true;
    create_service_account := fun r => ret (mkServiceAccount r.(SAR_ClientId) "secret");
    delete_service_account := fun _ => ret tt;
    automatic_certificate_management := false;
    get_certificate := fun _ _ => throw CertNotExist;
    manage_certificate := fun d => ret (d +:+ "/key", d +:+ "/crt");
    revoke_certificate := fun _ => ret tt;
    new_aws_client := fun _ => Ok tt;
    change_resource_record_sets := fun _ _ => ret (mkChangeInfo "change-1" "PENDING");
    get_change := fun id => ret (mkChangeInfo id "INSYNC");
    get_cluster_dns := fun id => ret ("apps." +:+ id +:+ ".example.org");
    dns_label_errors := fun _ => []
  |}; done.
Defined.

(** The standalone provider, on a cluster that needs no Kubernetes client. *)
Definition kube : KubeClient world :=
  mkKubeClient _ (fun _ => ret tt) (fun _ _ => ret tt) (fun _ _ => ret None) (fun _ _ _ => ret tt) (fun _ _ _ _ => ret tt).
#[global] Instance kube_laws : KubeClientLaws kube.
Proof. split; intros; apply ret_read_only. Qed.

Definition standalone : ClusterProvider world :=
  StandaloneProvider kube (ResourceFixtures.settings "") (NewClusterConfig []) (fun _ => Ok "{}").
Definition factory (t : string) : result error (ClusterProvider world) := Ok standalone.
Lemma catalog_factory_lawful t p : factory t = Ok p -> ProviderLaws p.
Proof. intros [= <-]. apply _. Qed.

Definition standalone_cluster (id : string) (multiAZ : bool) : Cluster :=
  CL.mkCluster ("row-" +:+ id) 10 10 "aws" id ("ext-" +:+ id) multiAZ "us-east-1" ClusterReady "" "" "apps.example.org"
    "" "" ClusterProviderStandalone None None JNull AllInstanceTypeSupport (Fixtures.capacity 2) ManagedDataPlaneClusterType "" false.
Definition world_with (cs : list Cluster) : world := MemDB.mkWorld (mkTables [Fixtures.k1; Fixtures.k3] cs) 1000 [] (∅, ∅).
Definition w0 : world := world_with [standalone_cluster "s1" true].

Abbreviation list_regions id w :=
  (cloudProvidersHandler_ListCloudProviderRegions factory (Fixtures.dp_config AutoScaling) (Fixtures.provider_config (Some 5))
    Fixtures.kafka_config id w).
End CatalogExample.

(** ** Witnesses *)
Import CatalogExample.

Lemma region_instance_types_listed_witness :
  exists l, GetSupportedKafkaInstanceTypesByRegion (Fixtures.provider_config None) Fixtures.kafka_config "aws" "us-east-1" = Ok l /\
    map Type_Id l ≡ₚ [STANDARD; DEVELOPER] /\ Sorted.StronglySorted by_type_id l /\ map Type_Id l = [DEVELOPER; STANDARD].
Proof.
  destruct (GetSupportedKafkaInstanceTypesByRegion (Fixtures.provider_config None) Fixtures.kafka_config "aws" "us-east-1") as [l|e] eqn:Hl;
    [|vm_compute in Hl; discriminate Hl].
  exists l. split; [done|].
  destruct (region_instance_types_listed (Fixtures.provider_config None) Fixtures.kafka_config "aws" "us-east-1" l Hl)
    as (p & r & Hp & Hr & Hperm & Hsorted & _).
  vm_compute in Hp. injection Hp as <-. vm_compute in Hr. injection Hr as <-. split_and!; [exact Hperm|exact Hsorted|].
  vm_compute in Hl. by injection Hl as <-.
Defined.

Lemma shown_capacity_is_available_witness :
  exists resp w', list_regions "aws" w0 = (Ok (200, resp), w') /\
    map (fun i => (i.(PCR_Id), i.(PCR_Enabled), map PRC_AvailableSizes i.(PCR_Capacity))) resp.(LR_Items) =
      [("us-east-1", true, [["x1"; "x2"]; ["x1"]])] /\
    exists crs, Forall2 (region_shown (Fixtures.dp_config AutoScaling) (Fixtures.provider_config (Some 5)) Fixtures.kafka_config "aws"
                           (tables_of w0)) crs resp.(LR_Items).
Proof.
  destruct (list_regions "aws" w0) as [[[code resp]|e] w'] eqn:Hrun; [|vm_compute in Hrun; discriminate Hrun].
  pose proof Hrun as Hfull. apply (shown_capacity_is_available factory _ _ _ catalog_factory_lawful) in Hfull as (-> & _ & crs & w1 & _ & Hshown & _);
    [|reflexivity].
  exists resp, w'. split_and!; [reflexivity| |by exists crs]. vm_compute in Hrun. by injection Hrun as <- _.
Defined.

Lemma region_cache_key_mismatch_witness :
  exists l w', ListCachedCloudProviderRegions factory "aws" w0 = (Ok l, w') /\ map CR_Id l = ["us-east-1"] /\
    cache_get (V := CachedItem) "aws" w' = None /\
    ListCachedCloudProviderRegions factory "cloudProviderRegions" w' = (Ok l, w').
Proof.
  destruct (ListCachedCloudProviderRegions factory "aws" w0) as [[l|e] w'] eqn:Hrun; [|vm_compute in Hrun; discriminate Hrun].
  pose proof Hrun as Hfull. apply (region_cache_key_mismatch factory) in Hfull as (Hmiss & _ & Hother); [|..].
  - exists l, w'. split_and!; [reflexivity| |exact Hmiss|exact Hother]. vm_compute in Hrun. by injection Hrun as <- _.
  - intros r w1 Hr. vm_compute in Hr. by injection Hr as _ <-.
  - discriminate.
  - reflexivity.
Defined.

Lemma cloud_provider_listing_witness :
  exists resp w', cloudProvidersHandler_ListCloudProviders factory (Fixtures.provider_config None) w0 = (Ok (200, resp), w') /\
    map (fun p => (p.(PCP_Id), p.(PCP_Enabled))) resp.(LR_Items) = [("aws", true)] /\ NoDup (map PCP_Id resp.(LR_Items)).
Proof.
  destruct (cloudProvidersHandler_ListCloudProviders factory (Fixtures.provider_config None) w0) as [[[code resp]|e] w'] eqn:Hrun;
    [|vm_compute in Hrun; discriminate Hrun].
  pose proof Hrun as Hfull. apply (cloud_provider_listing factory) in Hfull as (Hnd & _ & _); [|reflexivity].
  vm_compute in Hrun. injection Hrun as <- <- <-. eexists _, _. split_and!; [reflexivity|reflexivity|exact Hnd].
Defined.

(** A standalone cluster in one zone and one in several zones of the same
    region: the region is listed twice. *)
Theorem standalone_region_listed_twice :
  let w := world_with [standalone_cluster "s1" true; standalone_cluster "s2" false] in
  match fst (list_regions "aws" w) with
  | Ok (_, resp) => map PCR_Id resp.(LR_Items) = ["us-east-1"; "us-east-1"]
  | Err _ => False
  end.
Proof. vm_compute. reflexivity. Qed.

(** The error that is reported when the regions cannot be read has lost its
    cause. *)
Theorem region_error_has_no_cause {W} `{Database W} (p : ClusterProvider W) cp items m (w : W) err w' :
  p.(Provider_GetCloudProviderRegions) cp w = (Err err, w') ->
  collect_regions p (cp :: items) m w = (Err (NewWithCause ErrorGeneral None "failed to retrieve cloud regions"), w').
Proof. intros Hr. simpl. unfold bind, wrap_err. by rewrite Hr. Qed.

Lemma region_error_has_no_cause_witness :
  let broken := mkClusterProvider (fun _ => ret None) (fun s => ret s) (fun _ => ret true) (fun _ => ret "") (fun _ i => ret (Some i))
                  (fun _ r => ret r) (fun _ _ => ret tt) (fun _ => ret true) (fun _ _ => ret true) (fun _ _ => ret true) (fun _ _ => ret None)
                  (fun r => ret (Some r)) (ret []) (fun _ => throw (EPlain "")) (ret []) (fun _ => throw (EPlain "timeout")) (fun _ _ _ => ret tt) in
  collect_regions broken [mkCloudProviderInfo "aws" "aws" "aws"] ∅ w0 =
    (Err (NewWithCause ErrorGeneral None "failed to retrieve cloud regions"), w0).
Proof. intros broken. apply (region_error_has_no_cause broken _ [] ∅ w0 (EPlain "timeout") w0). reflexivity. Defined.
