(* ===== verification/ClusterHandlers.v ===== *)
(** * The handlers of enterprise clusters

    [src/internal/kafka/internal/handlers/cluster.go], with the presenters of
    its responses ([src/internal/kafka/internal/presenters/cluster.go]). *)
From S2P Require Import Prelude Arrays Errors Status Config Model Versions Store Resources Providers Fixtures ClusterService.
From S2P Require Import ClusterManager ClusterLifecycle Placement KafkaService QuotaList Scanner StateMachine QueryParser Listing.
From S2P Require Import Validation KafkaHandlers Catalog.

Open Scope Z_scope.

(** ** Presenters *)
Record EnterpriseClusterListItem := mkEnterpriseClusterListItem {
  ECL_Id : string;
  ECL_Kind : string;
  ECL_Href : string;
  ECL_AccessKafkasViaPrivateNetwork : bool;
  ECL_ClusterId : string;
  ECL_Status : string;
  ECL_CloudProvider : string;
  ECL_Region : string;
  ECL_MultiAz : bool
}.

Definition PresentEnterpriseClusterListItem (cluster : Cluster) : EnterpriseClusterListItem :=
  let reference := PresentReference cluster.(CL.ClusterID) RefCluster in
  mkEnterpriseClusterListItem cluster.(CL.ClusterID) reference.(Ref_Kind) reference.(Ref_Href) cluster.(CL.AccessKafkasViaPrivateNetwork)
    cluster.(CL.ClusterID) cluster.(CL.Status) cluster.(CL.CloudProvider) cluster.(CL.Region) cluster.(CL.MultiAZ).

(** The attributes of a list item, and the parameters of the operator. *)
Record EnterpriseClusterWithAddonParameters := mkEnterpriseClusterWithAddonParameters {
  ECA_Cluster : EnterpriseClusterListItem;
  ECA_FleetshardParameters : list AddonParameter
}.

Definition PresentEnterpriseClusterWithAddonParams (cluster : Cluster) (fleetShardParams : list AddonParameter)
  : EnterpriseClusterWithAddonParameters :=
  mkEnterpriseClusterWithAddonParameters (PresentEnterpriseClusterListItem cluster)
    (map (fun param => mkParameter param.(Param_Id) param.(Param_Value)) fleetShardParams).

Record EnterpriseClusterCapacityInformation := mkEnterpriseClusterCapacityInformation {
  ECC_KafkaMachinePoolNodeCount : Z;
  ECC_MaximumKafkaStreamingUnits : Z;
  ECC_RemainingKafkaStreamingUnits : Z;
  ECC_ConsumedKafkaStreamingUnits : Z
}.

(** The difference is taken in 32 bits. *)
Definition presentEnterpriseClusterCapacityInfo (consumed : Z) (stored : DynamicCapacityInfo) : EnterpriseClusterCapacityInformation :=
  mkEnterpriseClusterCapacityInformation stored.(MaxNodes) stored.(MaxUnits) (int32 (stored.(MaxUnits) - consumed)) consumed.

Definition presentEnterpriseClusterSupportedInstanceTypes `{QuantityLib} (kafkaConfig : KafkaConfig)
  : result error (list SupportedKafkaInstanceType) :=
  standardInstanceType <-! GetKafkaInstanceTypeByID kafkaConfig.(SupportedInstanceTypes) STANDARD ;;
  enterpriseBillingModel <-! GetKafkaSupportedBillingModelByID standardInstanceType BillingModelEnterprise ;;
  Ok [mkSupportedKafkaInstanceType standardInstanceType.(Type_Id) standardInstanceType.(Type_DisplayName)
        (GetSupportedBillingModels (mkKafkaInstanceType "" "" [] [enterpriseBillingModel]))
        (GetSupportedSizes (mkKafkaInstanceType "" "" standardInstanceType.(Sizes) []))].

Record EnterpriseCluster := mkEnterpriseCluster {
  EC_Cluster : EnterpriseClusterListItem;
  EC_SupportedInstanceTypes : list SupportedKafkaInstanceType;
  EC_CapacityInformation : EnterpriseClusterCapacityInformation
}.

Definition PresentEnterpriseCluster `{QuantityLib} (cluster : Cluster) (consumedStreamingUnitsInTheCluster : Z) (kafkaConfig : KafkaConfig)
  : result error EnterpriseCluster :=
  match RetrieveDynamicCapacityInfo cluster !! STANDARD with
  | Some storedCapacityInfo =>
      supportedInstanceTypes <-! presentEnterpriseClusterSupportedInstanceTypes kafkaConfig ;;
      Ok (mkEnterpriseCluster (PresentEnterpriseClusterListItem cluster) supportedInstanceTypes
            (presentEnterpriseClusterCapacityInfo consumedStreamingUnitsInTheCluster storedCapacityInfo))
  | None => Err (EPlain "cluster %q is missing capacity information")
  end.

(** ** The handlers *)
Section Handlers.
Context {W : Type} `{Database W} `{IdSource W} `{!ClusterSso W} `{!KafkaExternals W} `{!HandlerServices W} `{!ListQueries W} `{QuantityLib}.
Context (GetProvider : string -> result error (ClusterProvider W)).
Context (kafkaConfig : KafkaConfig) (addon : AddonConfig).

Definition validateOCMProviderAvailable (provider : result error (ClusterProvider W)) : Validator W :=
  match provider with
  | Err _ => throw (GeneralError "unexpected error occurred. failed to validate the request")
  | Ok _ => ret tt
  end.

(** The error of a provider, when it is one of the service's errors, keeps its
    code. *)
Definition ownership_error (err : error) : ServiceError :=
  match err with EService e => e | _ => general (error_text err) err end.

Definition registration_request (payload : EnterpriseOsdClusterPayload) (orgId : string) (clusterSpec : ClusterSpec) : Cluster :=
  CL.mkCluster "" 0 0 clusterSpec.(Spec_CloudProvider) payload.(EOC_ClusterId) clusterSpec.(Spec_ExternalID) clusterSpec.(Spec_MultiAZ)
    clusterSpec.(Spec_Region) ClusterAccepted "" "" payload.(EOC_ClusterIngressDnsName) "" "" ClusterProviderOCM None None JNull
    StandardTypeSupport (JDoc {[ StandardTypeSupport := mkDynamicCapacityInfo payload.(EOC_KafkaMachinePoolNodeCount) 0 0 ]})
    EnterpriseDataPlaneClusterType orgId payload.(EOC_AccessKafkasViaPrivateNetwork).

Definition register_cluster (cluster : Cluster) : M W ServiceError unit := fun w => RegisterClusterJob (new_id w) cluster w.

(** Without a provider the first validator fails, so the action runs with one. *)
Definition register_enterprise (provider : result error (ClusterProvider W)) (ctx : RequestContext) (payload : EnterpriseOsdClusterPayload)
  : M W ServiceError EnterpriseClusterWithAddonParameters :=
  provider <~ lift (map_err (fun _ => nil_dereference) provider) ;;
  clusterSpec <~ wrap_err (fun _ => GeneralError "failed to get cluster by ID: %s") (provider.(Provider_GetClusterSpec) payload.(EOC_ClusterId)) ;;
  claims <~ lift (getClaims ctx) ;;
  orgId <~ lift (map_err (fun err => GeneralError (error_text err)) (GetOrgId claims)) ;;
  _ <~ require (Claims_IsOrgAdmin claims) (New ErrorUnauthorized "non admin user not authorized to perform this action") ;;
  _ <~ wrap_err ownership_error
         (provider.(Provider_CheckIfOrganizationIsTheClusterOwner) orgId payload.(EOC_ClusterId) clusterSpec.(Spec_ExternalID)) ;;
  _ <~ require clusterSpec.(Spec_MultiAZ) (BadRequest "single AZ clusters are not supported") ;;
  _ <~ require (StringEqualsIgnoreCase clusterSpec.(Spec_Status) ClusterProvisioned)
         (BadRequest "cluster that are not yet fully provisioned are not accepted") ;;
  let clusterRequest := registration_request payload orgId clusterSpec in
  fsoParams <~ GetAddonParams addon clusterRequest ;;
  let clusterRequest := clusterRequest <| CL.ClientID := GetParam fsoParams KasFleetshardOperatorParamServiceAccountId |>
                                       <| CL.ClientSecret := GetParam fsoParams KasFleetshardOperatorParamServiceAccountSecret |> in
  _ <~ register_cluster clusterRequest ;;
  ret (PresentEnterpriseClusterWithAddonParams clusterRequest fsoParams).

Definition Register_config (r : Request EnterpriseOsdClusterPayload) : HandlerConfig EnterpriseOsdClusterPayload EnterpriseClusterWithAddonParameters :=
  let provider := GetProvider ClusterProviderOCM in
  mkHandlerConfig
    [ fun _ => validateOCMProviderAvailable provider;
      fun p => ValidateLength p.(EOC_ClusterId) "cluster id" ClusterIdLength (Some ClusterIdLength);
      fun p => ValidateNotEmptyClusterId (Some p.(EOC_ClusterId)) "cluster id";
      fun p => ValidateClusterIdIsUnique p.(EOC_ClusterId);
      fun p => ValidateDnsName p.(EOC_ClusterIngressDnsName) "cluster dns name";
      validateKafkaMachinePoolNodeCount ]
    (register_enterprise provider r.(req_ctx)).

Definition RegisterEnterpriseCluster (r : Request EnterpriseOsdClusterPayload) : M W ServiceError (Z * EnterpriseClusterWithAddonParameters) :=
  Handle r (Register_config r) StatusOK.

Definition clusterHandler_List (r : Request unit) : M W ServiceError (Z * ListResponse EnterpriseClusterListItem) :=
  HandleList (mkHandlerConfig []
    (fun _ =>
       clusters <~ ListEnterpriseClustersOfAnOrganization (auth_context r.(req_ctx)) ;;
       ret (list_response "ClusterList" (map PresentEnterpriseClusterListItem clusters)))).

Definition Deregister_config (r : Request unit) : HandlerConfig unit unit :=
  mkHandlerConfig
    [ fun _ => ValidateAsyncEnabled r "deleting enterprise cluster";
      fun _ => ValidateKafkaClaims r.(req_ctx) [ValidateOrganisationId];
      fun _ => validateEnterpriseClusterEligibleForDeregistration r.(req_ctx) r.(req_id);
      fun _ => validateEnterpriseClusterHasNoKafkas kafkaConfig r.(req_id) ]
    (fun _ => DeregisterClusterJob r.(req_id)).

Definition DeregisterEnterpriseCluster (r : Request unit) : M W ServiceError (Z * unit) :=
  HandleDelete (Deregister_config r) StatusAccepted.

(** The cluster of the caller's organisation that a request names. *)
Definition own_enterprise_cluster (orgID clusterID : string) : M W ServiceError Cluster :=
  found <~ FindClusterByID clusterID ;;
  match found with
  | Some cluster =>
      if negb (cluster.(CL.OrganizationID) =?s orgID) || negb (cluster.(CL.ClusterType) =?s EnterpriseDataPlaneClusterType)
      then throw (NotFound "enterprise data plane cluster with id='%v' not found within organization: %s")
      else ret cluster
  | None => throw (NotFound "enterprise data plane cluster with id='%v' not found within organization: %s")
  end.

Definition get_validators (r : Request unit) : list (unit -> Validator W) :=
  [ fun _ => ValidateNotEmptyClusterId (Some r.(req_id)) "cluster id";
    fun _ => ValidateKafkaClaims r.(req_ctx) [ValidateOrganisationId] ].

Definition clusterHandler_Get (r : Request unit) : M W ServiceError (Z * EnterpriseCluster) :=
  HandleGet (mkHandlerConfig (get_validators r)
    (fun _ =>
       let orgID := value_or_zero (GetOrgId (claims_or_none r.(req_ctx))) in
       cluster <~ own_enterprise_cluster orgID r.(req_id) ;;
       consumedCapacity <~ wrap_err (fun _ => GeneralError "failed to retrieve cluster %q consumed capacity info")
                             (ComputeConsumedStreamingUnitCountPerInstanceType kafkaConfig r.(req_id)) ;;
       let standardConsumedCapacity := default 0 (consumedCapacity !! STANDARD) in
       lift (map_err (fun _ => GeneralError "failed to present enterprise cluster due to %q")
               (PresentEnterpriseCluster cluster (int32 standardConsumedCapacity) kafkaConfig)))).

Definition GetEnterpriseClusterWithAddonParams (r : Request unit) : M W ServiceError (Z * EnterpriseClusterWithAddonParameters) :=
  HandleGet (mkHandlerConfig (get_validators r)
    (fun _ =>
       let claims := claims_or_none r.(req_ctx) in
       let orgID := value_or_zero (GetOrgId claims) in
       _ <~ require (Claims_IsOrgAdmin claims) (New ErrorUnauthorized "non admin user not authorized to perform this action") ;;
       cluster <~ own_enterprise_cluster orgID r.(req_id) ;;
       fsoParams <~ GetAddonParams addon cluster ;;
       ret (PresentEnterpriseClusterWithAddonParams cluster fsoParams))).
End Handlers.

(** ** Facts *)
Section ClusterFacts.
Context {W : Type} `{Database W} `{IdSource W} `{!ClusterSso W} `{!KafkaExternals W} `{!HandlerServices W} `{!ListQueries W} `{QuantityLib}.
Context (GetProvider : string -> result error (ClusterProvider W)).
Context (cfg : KafkaConfig) (addon : AddonConfig).

Lemma addon_params_ro c : read_only (GetAddonParams (W := W) addon c).
Proof. unfold GetAddonParams. solve_read_only. Qed.

Lemma validateOCMProviderAvailable_ro p : read_only (validateOCMProviderAvailable (W := W) p).
Proof. unfold validateOCMProviderAvailable. solve_read_only. Qed.

Lemma Register_validators_ro r : validators_read_only (W := W) (Register_config GetProvider addon r).
Proof. each_validator; eauto using validateOCMProviderAvailable_ro with fleet. Qed.
Lemma Deregister_validators_ro r : validators_read_only (W := W) (Deregister_config cfg r).
Proof. each_validator; eauto with fleet. Qed.
Lemma get_validators_ro r {A} (action : unit -> M W ServiceError A) : validators_read_only (mkHandlerConfig (get_validators r) action).
Proof. each_validator; eauto with fleet. Qed.

Lemma FindClusterByID_ok id (w : W) r w' :
  FindClusterByID id w = (Ok r, w') ->
  tables_of w' = tables_of w /\ id <> "" /\ first_sem (fun c => c.(CL.ClusterID) =?s id) (tables_of w).(clusters) r.
Proof.
  intros Hr. split; [exact (read_only_run _ _ _ _ (FindClusterByID_ro _) Hr)|]. unfold FindClusterByID in Hr.
  destruct (String.eqb_spec id ""); [done|]. split; [done|]. apply wrap_err_ok in Hr. by apply exec_ok in Hr as [? _].
Qed.

(** The identifier is free, unless it could not be looked up. *)
Lemma unique_id_ok id (w w' : W) :
  ValidateClusterIdIsUnique id w = (Ok tt, w') ->
  Forall (fun c => c.(CL.ClusterID) <> id) (tables_of w).(clusters) \/ exists err w1, FindClusterByID id w = (Err err, w1).
Proof.
  intros Hr. unfold ValidateClusterIdIsUnique in Hr. apply bind_ok in Hr as (found & w1 & Hf & Hr). apply attempt_inv in Hf as (r & Hf & [= ->]).
  destruct r as [c|err]; [left|right; eauto]. apply require_ok in Hr as [Hn _]. apply bool_decide_eq_true in Hn as ->.
  apply FindClusterByID_ok in Hf as (_ & _ & Hall). eapply Forall_impl; [exact Hall|]. intros c. simpl. by case_str.
Qed.

Lemma node_count_ok p (w w' : W) :
  validateKafkaMachinePoolNodeCount p w = (Ok tt, w') -> 3 <= p.(EOC_KafkaMachinePoolNodeCount) /\ (3 | p.(EOC_KafkaMachinePoolNodeCount)).
Proof.
  unfold validateKafkaMachinePoolNodeCount, minimunNumberOfNodesForTheKafkaMachinePool.
  destruct (Z.ltb_spec (EOC_KafkaMachinePoolNodeCount p) 3) as [|Hge]; [done|]. intros [Hm _]%require_ok. apply Z.eqb_eq in Hm.
  split; [done|]. apply Z.rem_divide; [done|exact Hm].
Qed.

Lemma exact_length s f n (w w' : W) : 1 <= n -> ValidateLength s f n (Some n) w = (Ok tt, w') -> len s = n.
Proof.
  intros Hn Hr. unfold ValidateLength in Hr. apply bind_ok in Hr as ([] & w1 & Hmax & Hmin).
  apply require_ok in Hmax as [Hmax _]. apply require_ok in Hmin as [Hmin _]. apply negb_true_iff, Z.ltb_ge in Hmax, Hmin.
  destruct (Z.ltb_spec n 1); lia.
Qed.

Lemma alphanumeric_id id f (w w' : W) :
  ValidateNotEmptyClusterId (Some id) f w = (Ok tt, w') -> id = "" \/ MatchString ValidAlphaNumeric id = true.
Proof.
  intros [Hn _]%require_ok. unfold len in Hn. destruct id as [|a id]; [by left|right]. apply negb_true_iff, andb_false_iff in Hn as [Hl|Hm].
  - apply Z.ltb_ge in Hl. simpl in Hl. lia.
  - by apply negb_false_iff in Hm.
Qed.

(** A request without a key is stored as a new row. *)
Lemma save_new_cluster t i c (rows : list Cluster) :
  c.(CL.ID) = "" -> i ∉ map CL.ID rows ->
  save_cluster t (Cluster_BeforeCreate i c) rows = rows ++ [stamp_cluster t ((Cluster_BeforeCreate i c) <| CL.StatusDetails := "" |>)] /\
  (Cluster_BeforeCreate i c).(CL.ID) = i.
Proof.
  intros Hc Hnew. set (b := Cluster_BeforeCreate i c).
  assert (CL.ID b = i) as Hb by (subst b; unfold Cluster_BeforeCreate; destruct c; simpl in Hc; subst; simpl; by repeat case_match).
  split; [|done]. unfold save_cluster. destruct (existsb _ _) eqn:E; [|done]. exfalso. apply existsb_exists in E as (x & Hx & Ex%String.eqb_eq).
  apply Hnew, list_elem_of_fmap. exists x. split; [|by apply list_elem_of_In]. rewrite Ex. by rewrite <- Hb.
Qed.

(** What a successful registration went through. *)
Lemma register_enterprise_ok provider ctx p w resp w' :
  ProviderLaws provider -> (forall w0 : W, new_id w0 ∉ map CL.ID (tables_of w0).(clusters)) ->
  register_enterprise addon (Ok provider) ctx p w = (Ok resp, w') ->
  exists claims orgId spec params i t wa wb wc wd,
    provider.(Provider_GetClusterSpec) p.(EOC_ClusterId) wc = (Ok spec, wd) /\
    ctx.(rc_claims) = Ok claims /\ GetOrgId claims = Ok orgId /\ Claims_IsOrgAdmin claims = true /\
    provider.(Provider_CheckIfOrganizationIsTheClusterOwner) orgId p.(EOC_ClusterId) spec.(Spec_ExternalID) wa = (Ok tt, wb) /\
    spec.(Spec_MultiAZ) = true /\ StringEqualsIgnoreCase spec.(Spec_Status) ClusterProvisioned = true /\
    let c := ((registration_request p orgId spec) <| CL.ClientID := GetParam params KasFleetshardOperatorParamServiceAccountId |>)
                                               <| CL.ClientSecret := GetParam params KasFleetshardOperatorParamServiceAccountSecret |> in
    tables_of w' = mkTables (tables_of w).(kafkas)
      ((tables_of w).(clusters) ++ [stamp_cluster t ((Cluster_BeforeCreate i c) <| CL.StatusDetails := "" |>)]) /\
    ~ i ∈ map CL.ID (tables_of w).(clusters) /\ CL.ID (Cluster_BeforeCreate i c) = i /\
    resp = PresentEnterpriseClusterWithAddonParams c params.
Proof.
  intros Hlaws Hfresh Hr. unfold register_enterprise in Hr. apply bind_ok in Hr as (q & w1 & [= -> ->] & Hr).
  apply bind_ok in Hr as (spec & w2 & Hspec & Hr). apply wrap_err_ok in Hspec.
  pose proof (read_only_run _ _ _ _ (get_spec_ro _) Hspec) as Ht2.
  apply bind_ok in Hr as (claims & w3 & Hcl & Hr). unfold lift, getClaims in Hcl. injection Hcl as Hcl ->.
  destruct (rc_claims ctx) as [cl|]; [|done]. injection Hcl as ->.
  apply bind_ok in Hr as (orgId & w4 & Ho & Hr). unfold lift in Ho. injection Ho as Ho ->.
  destruct (GetOrgId claims) as [o|] eqn:Horg; [|done]. injection Ho as ->.
  apply bind_ok in Hr as ([] & w5 & Hadm & Hr). apply require_ok in Hadm as [Hadm ->].
  apply bind_ok in Hr as ([] & w6 & Hown & Hr). apply wrap_err_ok in Hown.
  pose proof (read_only_run _ _ _ _ (owner_check_ro _ _ _) Hown) as Ht6.
  apply bind_ok in Hr as ([] & w7 & Haz & Hr). apply require_ok in Haz as [Haz ->].
  apply bind_ok in Hr as ([] & w8 & Hst & Hr). apply require_ok in Hst as [Hst ->].
  apply bind_ok in Hr as (params & w9 & Hps & Hr). pose proof (read_only_run _ _ _ _ (addon_params_ro _) Hps) as Ht9.
  apply bind_ok in Hr as ([] & w10 & Hsave & [= <- <-]). unfold register_cluster, RegisterClusterJob in Hsave.
  apply wrap_err_ok in Hsave. apply exec_ok in Hsave. simpl in Hsave.
  pose proof (Hfresh w9) as Hnew. rewrite Ht9, Ht6, Ht2 in Hsave, Hnew. match type of Hsave with context [Cluster_BeforeCreate _ ?c] =>
    destruct (save_new_cluster (time_now w9) (new_id w9) c (tables_of w1).(clusters)) as [Hrows Hid]; [by vm_compute|done|] end.
  rewrite Hrows in Hsave. eexists claims, orgId, spec, params, (new_id w9), (time_now w9), _, w6, _, _. cbv zeta. split_and!; done.
Qed.
Lemma consumed_nothing p ks :
  Forall (fun k => 0 < kafka_units cfg k) ks -> consumed cfg p ks <= 0 -> Forall (fun k => p k = false) ks.
Proof.
  unfold consumed. induction 1 as [|k ks Hk Hks IH]; simpl; intros Hle; [constructor|].
  assert (0 <= sum_of (kafka_units cfg) (List.filter p ks)) as Hnn.
  { apply sum_of_nonneg, Forall_forall. intros x Hx. apply list_elem_of_In, filter_In in Hx as [Hx _]. apply list_elem_of_In in Hx.
    rewrite Forall_forall in Hks. specialize (Hks x Hx). simpl in Hks. lia. }
  destruct (p k) eqn:Hp; simpl in Hle; [lia|]. constructor; [done|by apply IH].
Qed.

Lemma no_kafkas_left id (w w' : W) :
  validateEnterpriseClusterHasNoKafkas cfg id w = (Ok tt, w') -> Forall (fun k => 0 < kafka_units cfg k) (tables_of w).(kafkas) ->
  Forall (fun k => k.(KR.ClusterID) = id -> k.(KR.Status) = KafkaRequestStatusDeleting) (tables_of w).(kafkas).
Proof.
  intros Hr Hpos. unfold validateEnterpriseClusterHasNoKafkas in Hr. apply bind_ok in Hr as (l & w1 & Hl & Hr). apply wrap_err_ok in Hl.
  apply require_ok in Hr as [Hno _]. apply FindKafkaInstanceCount_ok in Hl as (_ & Hcounts & Hcover); [|done].
  specialize (Hcover id (list_elem_of_here _ _)). apply list_elem_of_fmap in Hcover as (c & -> & Hc). destruct (Hcounts c Hc) as [_ Hn].
  apply negb_true_iff in Hno. assert (KIC_Count c <= 0) as Hle.
  { apply Z.nlt_ge. intros Hlt. enough (existsb (fun x => (KIC_ClusterID x =?s KIC_ClusterID c) && (0 <? KIC_Count x)) l = true) by congruence.
    apply existsb_exists. exists c. rewrite String.eqb_refl. split; [by apply list_elem_of_In|by apply Z.ltb_lt]. }
  rewrite Hn in Hle. apply consumed_nothing in Hle; [|done]. eapply Forall_impl; [exact Hle|]. intros k Hk Heq. simpl in Hk.
  rewrite Heq, String.eqb_refl, andb_true_r in Hk. unfold consumes_resources in Hk. apply negb_false_iff, Contains_true in Hk.
  unfold kafkaStatusesThatNoLongerConsumeResourcesInTheDataPlane in Hk. by apply list_elem_of_singleton in Hk.
Qed.

Lemma eligible_for_deregistration ctx id (w w' : W) :
  validateEnterpriseClusterEligibleForDeregistration ctx id w = (Ok tt, w') ->
  exists claims c, ctx.(rc_claims) = Ok claims /\ GetOrgId claims = Ok c.(CL.OrganizationID) /\ Claims_IsOrgAdmin claims = true /\
    c ∈ (tables_of w).(clusters) /\ c.(CL.ClusterID) = id /\ c.(CL.ClusterType) = EnterpriseDataPlaneClusterType /\ id <> "".
Proof.
  intros Hr. unfold validateEnterpriseClusterEligibleForDeregistration in Hr.
  apply bind_ok in Hr as (claims & w1 & Hcl & Hr). unfold lift, getClaims in Hcl. injection Hcl as Hcl ->.
  destruct (rc_claims ctx) as [cl|]; [|done]. injection Hcl as ->.
  apply bind_ok in Hr as (orgId & w2 & Ho & Hr). unfold lift in Ho. injection Ho as Ho ->.
  destruct (GetOrgId claims) as [o|] eqn:Horg; [|done]. injection Ho as ->.
  apply bind_ok in Hr as ([] & w3 & Hadm & Hr). apply require_ok in Hadm as [Hadm ->].
  apply bind_ok in Hr as (found & w4 & Hf & Hr). apply FindClusterByID_ok in Hf as (_ & Hid & Hf). destruct found as [c|]; [|done].
  destruct Hf as [Hin Heq]. apply bind_ok in Hr as ([] & w5 & Hog & Hr). apply require_ok in Hog as [Hog ->]. apply require_ok in Hr as [Hty _].
  apply String.eqb_eq in Heq, Hog, Hty. exists claims, c. split_and!; congruence || done.
Qed.

Lemma DeregisterClusterJob_ok id (w w' : W) :
  id <> "" -> DeregisterClusterJob id w = (Ok tt, w') ->
  exists t, tables_of w' = mkTables (tables_of w).(kafkas)
    (update_rows (touch_cluster t) (fun c => c.(CL.ClusterID) =?s id) (fun c => c <| CL.Status := ClusterDeprovisioning |>)
       (tables_of w).(clusters)).
Proof.
  intros Hid Hr. unfold DeregisterClusterJob, ClusterService_UpdateStatus in Hr. apply wrap_err_ok in Hr. simpl in Hr.
  destruct (String.eqb_spec id ""); [done|]. apply bind_ok in Hr as (n' & w1 & Hx & [= <-]). apply wrap_err_ok in Hx.
  apply exec_ok in Hx as [_ Hx]. by eexists.
Qed.

Lemma own_enterprise_cluster_ok org id (w : W) c w' :
  own_enterprise_cluster org id w = (Ok c, w') ->
  tables_of w' = tables_of w /\ c ∈ (tables_of w).(clusters) /\ c.(CL.ClusterID) = id /\ c.(CL.OrganizationID) = org /\
  c.(CL.ClusterType) = EnterpriseDataPlaneClusterType.
Proof.
  intros Hr. unfold own_enterprise_cluster in Hr. apply bind_ok in Hr as (found & w1 & Hf & Hr).
  apply FindClusterByID_ok in Hf as (Ht & _ & Hf). destruct found as [c0|]; [|done]. destruct Hf as [Hin Heq]. apply String.eqb_eq in Heq.
  destruct (String.eqb_spec (CL.OrganizationID c0) org); [|done]. destruct (String.eqb_spec (CL.ClusterType c0) EnterpriseDataPlaneClusterType); [|done].
  injection Hr as <- <-. done.
Qed.

(** The claims that the validators of a read let through. *)
Lemma organisation_claims ctx (w w' : W) :
  ValidateKafkaClaims ctx [ValidateOrganisationId] w = (Ok tt, w') -> exists org, GetOrgId (claims_or_none ctx) = Ok org.
Proof.
  unfold ValidateKafkaClaims, lift. intros [= Hc _]. unfold validate_claims, ValidateOrganisationId in Hc.
  destruct (GetOrgId (claims_or_none ctx)) as [o|]; [by exists o|done].
Qed.
End ClusterFacts.

(** ** Properties *)
Section ClusterProperties.
Context {W : Type} `{Database W} `{IdSource W} `{!ClusterSso W} `{!KafkaExternals W} `{!HandlerServices W} `{!ListQueries W} `{QuantityLib}.
Context (GetProvider : string -> result error (ClusterProvider W)).
Context (cfg : KafkaConfig) (addon : AddonConfig).

(** [C14] A registration that is accepted was asked for by an administrator of
    an organisation that owns the cluster; the provider reports the cluster as
    provisioned and in several zones; the number of nodes is a positive multiple
    of three; and the one change is a new row for that cluster, accepted,
    dedicated to the organisation, with the nodes as its capacity.  The
    identifier of the cluster was free, unless looking it up failed.  Generated
    keys are taken to be new. *)
Theorem enterprise_registration_effect r w code resp w' :
  (forall t p, GetProvider t = Ok p -> ProviderLaws p) -> (forall w0 : W, new_id w0 ∉ map CL.ID (tables_of w0).(clusters)) ->
  RegisterEnterpriseCluster GetProvider addon r w = (Ok (code, resp), w') ->
  exists payload provider claims orgId spec row,
    r.(req_body) = Ok payload /\ GetProvider ClusterProviderOCM = Ok provider /\
    r.(req_ctx).(rc_claims) = Ok claims /\ GetOrgId claims = Ok orgId /\ Claims_IsOrgAdmin claims = true /\
    (exists wa wb, provider.(Provider_GetClusterSpec) payload.(EOC_ClusterId) wa = (Ok spec, wb)) /\
    (exists wa wb, provider.(Provider_CheckIfOrganizationIsTheClusterOwner) orgId payload.(EOC_ClusterId) spec.(Spec_ExternalID) wa = (Ok tt, wb)) /\
    StringEqualsIgnoreCase spec.(Spec_Status) ClusterProvisioned = true /\ spec.(Spec_MultiAZ) = true /\
    len payload.(EOC_ClusterId) = 32 /\ MatchString ValidAlphaNumeric payload.(EOC_ClusterId) = true /\
    3 <= payload.(EOC_KafkaMachinePoolNodeCount) /\ (3 | payload.(EOC_KafkaMachinePoolNodeCount)) /\
    (Forall (fun row => row.(CL.ClusterID) <> payload.(EOC_ClusterId)) (tables_of w).(clusters) \/
     exists w1 err w2, tables_of w1 = tables_of w /\ FindClusterByID payload.(EOC_ClusterId) w1 = (Err err, w2)) /\
    tables_of w' = mkTables (tables_of w).(kafkas) ((tables_of w).(clusters) ++ [row]) /\ ~ row.(CL.ID) ∈ map CL.ID (tables_of w).(clusters) /\
    row.(CL.ClusterID) = payload.(EOC_ClusterId) /\ row.(CL.ExternalID) = spec.(Spec_ExternalID) /\ row.(CL.OrganizationID) = orgId /\
    row.(CL.ClusterType) = EnterpriseDataPlaneClusterType /\ row.(CL.Status) = ClusterAccepted /\ row.(CL.MultiAZ) = true /\
    RetrieveDynamicCapacityInfo row !! STANDARD = Some (mkDynamicCapacityInfo payload.(EOC_KafkaMachinePoolNodeCount) 0 0) /\
    resp.(ECA_Cluster).(ECL_Status) = ClusterAccepted /\ resp.(ECA_Cluster).(ECL_ClusterId) = payload.(EOC_ClusterId).
Proof.
  intros Hlaws Hfresh Hrun. apply Handle_ok in Hrun as (p & Hb & -> & Hv & w1 & Ht & Ha); [|apply Register_validators_ro].
  destruct (Hv 0%nat _ eq_refl) as (wa & wb & _ & Hprov), (Hv 1%nat _ eq_refl) as (wc & wd & _ & Hlen),
    (Hv 2%nat _ eq_refl) as (we & wf & _ & Halpha), (Hv 3%nat _ eq_refl) as (wg & wh & Htg & Huniq), (Hv 5%nat _ eq_refl) as (wi & wj & _ & Hcount).
  simpl in Hprov, Ha. destruct (GetProvider ClusterProviderOCM) as [provider|] eqn:Hp; [|done].
  apply register_enterprise_ok in Ha
    as (claims & orgId & spec & params & i & t & wx & wy & wu & wv & Hspec & Hcl & Ho & Hadm & Hown & Haz & Hst & Hw & Hnew & Hid & ->);
    [|by eapply Hlaws|done].
  apply exact_length in Hlen; [|done]. apply alphanumeric_id in Halpha as [Hz|Halpha]; [by rewrite Hz in Hlen|].
  apply node_count_ok in Hcount as [Hge Hdiv]. apply unique_id_ok in Huniq.
  rewrite Ht in Hw, Hnew. rewrite <- Hid in Hnew. eexists p, provider, claims, orgId, spec, _.
  split_and!; [done..|by exists wu, wv|by exists wx, wy|done|done|done|done|done|done| |exact Hw|exact Hnew|done|done|done|done|done|done
    |apply lookup_singleton_eq|done|done].
  rewrite Htg in Huniq. destruct Huniq as [|(err & w2 & Herr)]; [by left|right]. by exists wg, err, w2.
Qed.

(** A cluster is deregistered only at the request of an administrator of
    the organisation that it is dedicated to; when every Kafka's size consumes
    some capacity, no Kafka that holds resources is left on it; and the one change
    is that the cluster is set to deprovisioning. *)
Theorem deregistration_only_of_empty_own_clusters r w code u w' :
  DeregisterEnterpriseCluster cfg r w = (Ok (code, u), w') ->
  Forall (fun k => 0 < kafka_units cfg k) (tables_of w).(kafkas) ->
  code = StatusAccepted /\
  exists claims orgId c t,
    r.(req_ctx).(rc_claims) = Ok claims /\ GetOrgId claims = Ok orgId /\ Claims_IsOrgAdmin claims = true /\
    c ∈ (tables_of w).(clusters) /\ c.(CL.ClusterID) = r.(req_id) /\ c.(CL.OrganizationID) = orgId /\
    c.(CL.ClusterType) = EnterpriseDataPlaneClusterType /\
    Forall (fun k => k.(KR.ClusterID) = r.(req_id) -> k.(KR.Status) = KafkaRequestStatusDeleting) (tables_of w).(kafkas) /\
    tables_of w' = mkTables (tables_of w).(kafkas)
      (update_rows (touch_cluster t) (fun c => c.(CL.ClusterID) =?s r.(req_id)) (fun c => c <| CL.Status := ClusterDeprovisioning |>)
         (tables_of w).(clusters)).
Proof.
  intros Hrun Hpos. apply run_validated_ok in Hrun as (-> & Hv & w1 & Ht & Ha); [|apply Deregister_validators_ro]. split; [done|].
  destruct (Hv 2%nat _ eq_refl) as (wa & wb & Hta & Helig), (Hv 3%nat _ eq_refl) as (wc & wd & Htc & Hempty).
  apply eligible_for_deregistration in Helig as (claims & c & Hcl & Ho & Hadm & Hin & Hid & Hty & Hne). rewrite Hta in Hin.
  apply no_kafkas_left in Hempty; [|by rewrite Htc]. rewrite Htc in Hempty. destruct u.
  apply DeregisterClusterJob_ok in Ha as [t Ha]; [|done]. rewrite Ht in Ha. exists claims, (CL.OrganizationID c), c, t. by split_and!.
Qed.

(** The view of an enterprise cluster is given to its own organisation
    only, and its capacity is exact when the counts fit in 32 bits: what is
    consumed is what the standard Kafkas on the cluster that hold resources
    consume, and what remains is the difference with the maximum. *)
Theorem enterprise_cluster_view_exact r w code resp w' :
  clusterHandler_Get cfg r w = (Ok (code, resp), w') ->
  let consumed := consumed cfg (fun k => (k.(KR.ClusterID) =?s r.(req_id)) && consumes_resources k && (k.(KR.InstanceType) =?s STANDARD))
                    (tables_of w).(kafkas) in
  tables_of w' = tables_of w /\
  exists c info, c ∈ (tables_of w).(clusters) /\ c.(CL.ClusterID) = r.(req_id) /\ c.(CL.ClusterType) = EnterpriseDataPlaneClusterType /\
    GetOrgId (claims_or_none r.(req_ctx)) = Ok c.(CL.OrganizationID) /\
    RetrieveDynamicCapacityInfo c !! STANDARD = Some info /\
    resp.(EC_Cluster) = PresentEnterpriseClusterListItem c /\
    resp.(EC_CapacityInformation).(ECC_KafkaMachinePoolNodeCount) = info.(MaxNodes) /\
    resp.(EC_CapacityInformation).(ECC_MaximumKafkaStreamingUnits) = info.(MaxUnits) /\
    (in_int32 consumed -> in_int32 (info.(MaxUnits) - consumed) ->
     resp.(EC_CapacityInformation).(ECC_ConsumedKafkaStreamingUnits) = consumed /\
     resp.(EC_CapacityInformation).(ECC_RemainingKafkaStreamingUnits) = info.(MaxUnits) - consumed).
Proof.
  intros Hrun total. apply run_validated_ok in Hrun as (-> & Hv & w1 & Ht & Ha); [|apply get_validators_ro].
  destruct (Hv 1%nat _ eq_refl) as (wa & wb & _ & Hcl). apply organisation_claims in Hcl as [org Horg].
  simpl in Ha. rewrite Horg in Ha. simpl in Ha. apply bind_ok in Ha as (c & w2 & Hc & Ha).
  apply own_enterprise_cluster_ok in Hc as (Ht2 & Hin & Hid & Ho & Hty). apply bind_ok in Ha as (m & w3 & Hm & Ha). apply wrap_err_ok in Hm.
  apply (ComputeConsumed_ok _ _ _ _ _ STANDARD) in Hm as [Ht3 Hm]. unfold lift in Ha. injection Ha as Ha ->.
  rewrite Ht2, Ht in Hm. fold total in Hm. rewrite Hm in Ha. unfold PresentEnterpriseCluster in Ha.
  destruct (RetrieveDynamicCapacityInfo c !! STANDARD) as [info|] eqn:Hinfo; [|done].
  destruct (presentEnterpriseClusterSupportedInstanceTypes cfg) as [types|]; [|done]. injection Ha as <-. rewrite Ht in Hin.
  split; [congruence|]. exists c, info. split_and!; try done; [congruence|]. intros Hfit Hfit'. simpl.
  rewrite (int32_id total) by done. by rewrite int32_id.
Qed.

(** The parameters of the operator, among them the credentials of its
    service account, are shown to administrators of the organisation that the
    cluster is dedicated to, and to nobody else. *)
Theorem addon_credentials_only_for_own_admins r w code resp w' :
  GetEnterpriseClusterWithAddonParams addon r w = (Ok (code, resp), w') ->
  exists claims c, r.(req_ctx).(rc_claims) = Ok claims /\ Claims_IsOrgAdmin claims = true /\
    GetOrgId claims = Ok c.(CL.OrganizationID) /\ c ∈ (tables_of w).(clusters) /\ c.(CL.ClusterID) = r.(req_id) /\
    c.(CL.ClusterType) = EnterpriseDataPlaneClusterType /\ tables_of w' = tables_of w /\
    (has_credentials c = true -> resp.(ECA_FleetshardParameters) = buildAddonParams addon c None).
Proof.
  intros Hrun. apply run_validated_ok in Hrun as (-> & Hv & w1 & Ht & Ha); [|apply get_validators_ro].
  destruct (Hv 1%nat _ eq_refl) as (wa & wb & _ & Hcl). apply organisation_claims in Hcl as [org Horg].
  simpl in Ha. rewrite Horg in Ha. simpl in Ha. apply bind_ok in Ha as ([] & w2 & Hadm & Ha). apply require_ok in Hadm as [Hadm ->].
  apply bind_ok in Ha as (c & w3 & Hc & Ha). apply own_enterprise_cluster_ok in Hc as (Ht2 & Hin & Hid & Ho & Hty). rewrite Ht in Ht2, Hin.
  apply bind_ok in Ha as (params & w4 & Hps & [= <- <-]). pose proof (read_only_run _ _ _ _ (addon_params_ro _ _) Hps) as Ht4.
  unfold claims_or_none in *. destruct (rc_claims (req_ctx r)) as [claims|]; [|done].
  exists claims, c. split_and!; try done; try congruence. intros Hcred. unfold GetAddonParams in Hps. rewrite Hcred in Hps. injection Hps as <- _.
  simpl. unfold PresentEnterpriseClusterWithAddonParams. simpl. unfold buildAddonParams. by rewrite Hcred.
Qed.

(** The listing shows exactly the enterprise clusters of the caller's
    organisation. *)
Theorem enterprise_listing_exact r w code resp w' :
  clusterHandler_List r w = (Ok (code, resp), w') ->
  exists claims, r.(req_ctx).(rc_claims) = Ok claims /\
    map ECL_ClusterId resp.(LR_Items) ≡ₚ
      map CL.ClusterID (List.filter (fun c => (c.(CL.OrganizationID) =?s value_or_zero (GetOrgId claims)) &&
                                              (c.(CL.ClusterType) =?s EnterpriseDataPlaneClusterType)) (tables_of w).(clusters)).
Proof.
  intros Hrun. unfold clusterHandler_List, HandleList, run_validated in Hrun. simpl in Hrun.
  apply bind_ok in Hrun as ([] & w1 & [= <-] & Hrun). apply bind_ok in Hrun as (a & w2 & Ha & [= _ <- _]).
  apply bind_ok in Ha as (l & w3 & Hl & [= <- _]). simpl. unfold ListEnterpriseClustersOfAnOrganization in Hl.
  apply bind_ok in Hl as (claims & w4 & Hcl & Hl). unfold lift in Hcl. injection Hcl as Hcl ->. simpl in Hcl.
  destruct (rc_claims (req_ctx r)) as [cl|]; [|done]. injection Hcl as <-. exists cl. split; [done|].
  destruct (Username _ =?s ""); [done|]. apply bind_ok in Hl as (rows & w5 & Hrows & [= <- _]). apply wrap_err_ok in Hrows.
  apply exec_ok in Hrows as [Hrows _]. rewrite !map_map. simpl. by rewrite Hrows.
Qed.
End ClusterProperties.

(** The check that the identifier of a cluster is free passes whenever the
    database cannot be read: the message of that error starts with the words that
    the check takes for a missing cluster. *)
Theorem unique_id_check_swallows_database_errors {W} `{Database W} id (w : W) err w' :
  id <> "" -> FindClusterByID id w = (Err err, w') -> ValidateClusterIdIsUnique id w = (Ok tt, w').
Proof.
  intros Hid Hf. unfold ValidateClusterIdIsUnique, bind, attempt. rewrite Hf. unfold FindClusterByID in Hf.
  destruct (String.eqb_spec id ""); [done|]. unfold wrap_err in Hf. destruct (exec _ w) as [[c|e] w1]; [done|]. injection Hf as <- <-. reflexivity.
Qed.

(** ** A deployment *)
Module ClusterExample.
Import LifeExample HandlerExample.

Definition admin_claims : KFMClaims := mkKFMClaims (Some "carol") None (Some "acc-2") (Some "org-1") None (Some true).
Definition ctx : RequestContext := mkRequestContext (Ok admin_claims) false true.
Definition cluster_id : string := "0123456789abcdef0123456789abcdef".
Definition payload (nodes : Z) : EnterpriseOsdClusterPayload := mkEnterpriseOsdClusterPayload true cluster_id "apps.example.org" nodes.
Definition registration (nodes : Z) : Request EnterpriseOsdClusterPayload := HandlerExample.request ctx "" (payload nodes).
Definition lawful := factory_lawful true.

(** "c3" is an enterprise cluster of "org-1"; in the second world it holds a
    Kafka that is being deleted. *)
Definition busy : MemDB.world unit := MemDB.mkWorld (mkTables [Fixtures.k4 <| KR.Status := KafkaRequestStatusReady |>] [Fixtures.c3]) 1000 [] tt.
Definition emptied : MemDB.world unit := MemDB.mkWorld (mkTables [Fixtures.k4 <| KR.Status := KafkaRequestStatusDeleting |>] [Fixtures.c3]) 1000 [] tt.
Definition for_c3 : Request unit := HandlerExample.request ctx "c3" tt.
End ClusterExample.

(** ** Witnesses *)
Import LifeExample HandlerExample ClusterExample.

Lemma enterprise_registration_effect_witness :
  exists resp w' row spec,
    RegisterEnterpriseCluster (factory true) addon (registration 6) Fixtures.world = (Ok (200, resp), w') /\
    w'.(MemDB.db) = mkTables Fixtures.db.(kafkas) (Fixtures.db.(clusters) ++ [row]) /\
    row.(CL.ClusterID) = cluster_id /\ row.(CL.OrganizationID) = "org-1" /\
    StringEqualsIgnoreCase spec.(Spec_Status) ClusterProvisioned = true /\
    response_status (fst (RegisterEnterpriseCluster (factory true) addon (registration 4) Fixtures.world)) = 400.
Proof.
  destruct (RegisterEnterpriseCluster (factory true) addon (registration 6) Fixtures.world) as [[[code resp]|e] w'] eqn:Hrun;
    [|vm_compute in Hrun; discriminate Hrun].
  pose proof Hrun as Hfull.
  apply (enterprise_registration_effect (factory true) addon _ _ _ _ _ lawful (fun w0 => proj2 (fresh_id_fresh w0))) in Hfull
    as (p & provider & claims & orgId & spec & row & Hb & _ & Hcl & Ho & _ & _ & _ & Hst & _ & _ & _ & _ & _ & _ & Ht & _ & Hid & _ & Horg & _).
  injection Hb as <-. injection Hcl as <-. vm_compute in Ho. injection Ho as <-.
  assert (code = 200) as -> by (vm_compute in Hrun; by injection Hrun as <- _ _).
  exists resp, w', row, spec. split_and!; [reflexivity|exact Ht|exact Hid|exact Horg|exact Hst|vm_compute; reflexivity].
Defined.

Lemma deregistration_only_of_empty_own_clusters_witness :
  exists w', DeregisterEnterpriseCluster Fixtures.kafka_config for_c3 emptied = (Ok (202, tt), w') /\
    Forall (fun k => k.(KR.ClusterID) = "c3" -> k.(KR.Status) = KafkaRequestStatusDeleting) emptied.(MemDB.db).(kafkas) /\
    response_status (fst (DeregisterEnterpriseCluster Fixtures.kafka_config for_c3 busy)) = 403.
Proof.
  destruct (DeregisterEnterpriseCluster Fixtures.kafka_config for_c3 emptied) as [[[code []]|e] w'] eqn:Hrun;
    [|vm_compute in Hrun; discriminate Hrun].
  apply (deregistration_only_of_empty_own_clusters Fixtures.kafka_config) in Hrun as (-> & claims & org & c & t & _ & _ & _ & _ & _ & _ & _ & Hk & _);
    [|vm_compute; repeat constructor].
  exists w'. split_and!; [reflexivity|exact Hk|vm_compute; reflexivity].
Defined.

Lemma enterprise_cluster_view_exact_witness :
  exists resp w', clusterHandler_Get Fixtures.kafka_config for_c3 busy = (Ok (200, resp), w') /\
    resp.(EC_CapacityInformation) = mkEnterpriseClusterCapacityInformation 3 2 0 2 /\ w'.(MemDB.db) = busy.(MemDB.db).
Proof.
  destruct (clusterHandler_Get Fixtures.kafka_config for_c3 busy) as [[[code resp]|e] w'] eqn:Hrun; [|vm_compute in Hrun; discriminate Hrun].
  pose proof Hrun as Hfull. apply (enterprise_cluster_view_exact Fixtures.kafka_config) in Hfull as (Ht & _).
  vm_compute in Hrun. injection Hrun as <- <- <-. eexists _, _. split_and!; [reflexivity|reflexivity|exact Ht].
Defined.

Lemma addon_credentials_only_for_own_admins_witness :
  exists resp w', GetEnterpriseClusterWithAddonParams addon for_c3 busy = (Ok (200, resp), w') /\
    (exists claims, rc_claims ctx = Ok claims /\ Claims_IsOrgAdmin claims = true) /\
    response_status (fst (GetEnterpriseClusterWithAddonParams addon (HandlerExample.request HandlerExample.ctx "c3" tt) busy)) = 403.
Proof.
  destruct (GetEnterpriseClusterWithAddonParams addon for_c3 busy) as [[[code resp]|e] w'] eqn:Hrun; [|vm_compute in Hrun; discriminate Hrun].
  pose proof Hrun as Hfull. apply (addon_credentials_only_for_own_admins addon) in Hfull as (claims & c & Hcl & Hadm & _).
  assert (code = 200) as -> by (vm_compute in Hrun; by injection Hrun as <- _ _).
  exists resp, w'. split_and!; [reflexivity|by exists claims|vm_compute; reflexivity].
Defined.

Lemma enterprise_listing_exact_witness :
  exists resp w', clusterHandler_List (HandlerExample.request ctx "" tt) Fixtures.world = (Ok (200, resp), w') /\
    map ECL_ClusterId resp.(LR_Items) ≡ₚ ["c3"].
Proof.
  destruct (clusterHandler_List (HandlerExample.request ctx "" tt) Fixtures.world) as [[[code resp]|e] w'] eqn:Hrun;
    [|vm_compute in Hrun; discriminate Hrun].
  pose proof Hrun as Hfull. apply enterprise_listing_exact in Hfull as (claims & Hcl & Hperm). injection Hcl as <-.
  assert (code = 200) as -> by (vm_compute in Hrun; by injection Hrun as <- _ _).
  exists resp, w'. split; [reflexivity|exact Hperm].
Defined.

(** A cluster with the same identifier exists, and the first statement fails. *)
Lemma unique_id_check_swallows_database_errors_witness :
  let w := MemDB.mkWorld Fixtures.db 1000 [true] tt in
  exists w', ValidateClusterIdIsUnique "c3" w = (Ok tt, w') /\ Fixtures.c3 ∈ Fixtures.db.(clusters).
Proof.
  intros w. destruct (FindClusterByID "c3" w) as [r w'] eqn:Hf. destruct r as [c|err]; [vm_compute in Hf; discriminate Hf|].
  exists w'. split; [apply (unique_id_check_swallows_database_errors "c3" w err w'); [discriminate|exact Hf]|]. simpl. set_solver.
Defined.
