(* ===== verification/AmsQuota.v ===== *)
(** * Quota from the account management service

    [src/internal/kafka/internal/services/quota/ams_quota_service.go], the chain
    of resolvers that finds the billing model of a request
    ([quota/internal/utils]), and the filter of the quota costs
    ([GetQuotaCosts] of [src/pkg/client/ocm/client.go]).

    The requests to the account management service are operations of a class.
    A request for a Kafka that the resolvers change is returned next to their
    result; what they changed before an error is not read again.  A resolver
    keeps the quota costs that it has read: the cache is passed along. *)
From S2P Require Import Prelude Arrays Errors Status Config Model Store Resources Providers Fixtures ClusterService Placement KafkaService.
From S2P Require Import QuotaList Transitions Workers KafkaManager Promotion.

Open Scope Z_scope.

(** ** Objects of the service *)
Record RelatedResource := mkRelatedResource {
  RR_ResourceName : string;
  RR_ResourceType : string;
  RR_Product : string;
  RR_BillingModel : string;
  RR_Cost : Z
}.

Record CloudAccount := mkCloudAccount {
  CA_CloudAccountID : string;
  CA_CloudProviderID : string
}.

Record AmsQuotaCost := mkAmsQuotaCost {
  AQ_QuotaID : string;
  AQ_Allowed : Z;
  AQ_Consumed : Z;
  AQ_RelatedResources : list RelatedResource;
  AQ_CloudAccounts : list CloudAccount
}.

Record Subscription := mkSubscription {
  Sub_ID : string;
  Sub_ClusterBillingModel : string
}.

Record ReservedResource := mkReservedResource {
  RS_ResourceType : option string;
  RS_ResourceName : string;
  RS_Count : Z;
  RS_BillingModel : string;
  RS_BillingMarketplaceAccount : string
}.

Record ClusterAuthorizationRequest := mkClusterAuthorizationRequest {
  AR_AccountUsername : string;
  AR_CloudProviderID : string;
  AR_ProductID : string;
  AR_Managed : bool;
  AR_ClusterID : string;
  AR_ExternalClusterID : string;
  AR_Disconnected : bool;
  AR_BYOC : bool;
  AR_AvailabilityZone : string;
  AR_Reserve : bool;
  AR_Resources : list ReservedResource
}.

Record ClusterAuthorizationResponse := mkClusterAuthorizationResponse {
  AP_Allowed : bool;
  AP_SubscriptionID : string
}.

(** A subscription that does not exist is [None]. *)
Class AmsClient (W : Type) `{Database W} := {
  ams_organisation_id : string -> M W error string;
  ams_list_quota_costs : string -> bool -> bool -> M W error (list AmsQuotaCost);
  ams_cluster_authorization : ClusterAuthorizationRequest -> M W error ClusterAuthorizationResponse;
  ams_find_subscriptions : string -> M W error (list Subscription);
  ams_get_subscription : string -> M W error (option Subscription);
  ams_delete_subscription : string -> M W error unit;

  ams_organisation_id_ro : forall x, read_only (ams_organisation_id x);
  ams_list_quota_costs_ro : forall x a b, read_only (ams_list_quota_costs x a b);
  ams_cluster_authorization_ro : forall r, read_only (ams_cluster_authorization r);
  ams_find_subscriptions_ro : forall q, read_only (ams_find_subscriptions q);
  ams_get_subscription_ro : forall i, read_only (ams_get_subscription i);
  ams_delete_subscription_ro : forall i, read_only (ams_delete_subscription i)
}.
#[export] Hint Resolve ams_organisation_id_ro ams_list_quota_costs_ro ams_cluster_authorization_ro ams_find_subscriptions_ro
  ams_get_subscription_ro ams_delete_subscription_ro : fleet.

(** ** The filter of quota costs *)
Record QuotaCostRelatedResourceFilter := mkQuotaCostRelatedResourceFilter {
  QF_ResourceName : option string;
  QF_ResourceType : option string;
  QF_Product : option string;
  QF_BillingModel : option string
}.

Definition nil_or_equal (want : option string) (have : string) : bool :=
  match want with None => true | Some x => have =?s x end.

Definition IsMatch (qcf : QuotaCostRelatedResourceFilter) (relatedResource : RelatedResource) : bool :=
  nil_or_equal qcf.(QF_ResourceName) relatedResource.(RR_ResourceName) &&
  nil_or_equal qcf.(QF_ResourceType) relatedResource.(RR_ResourceType) &&
  nil_or_equal qcf.(QF_Product) relatedResource.(RR_Product) &&
  nil_or_equal qcf.(QF_BillingModel) relatedResource.(RR_BillingModel).

Definition AMSRelatedResourceBillingModelMarketplace : string := "marketplace".
Definition AMSRelatedResourceBillingModelStandard : string := "standard".
Definition supportedAMSRelatedResourceBillingModels : list string :=
  [AMSRelatedResourceBillingModelMarketplace; AMSRelatedResourceBillingModelStandard].

(** The values of [amsv1.BillingModel]. *)
Definition BillingModelStandard : string := "standard".
Definition BillingModelMarketplace : string := "marketplace".
Definition BillingModelMarketplaceAWS : string := "marketplace-aws".
Definition BillingModelMarketplaceAzure : string := "marketplace-azure".

(** ** The resolvers *)
Record BillingModelDetails := mkBillingModelDetails {
  BMD_KafkaBillingModel : KafkaBillingModel;
  BMD_AMSBillingModel : string
}.

Definition QuotaCache : Type := gmap string (list AmsQuotaCost).

Definition CloudProviderAWS : string := "aws".
Definition CloudProviderRHM : string := "rhm".
Definition CloudProviderAzure : string := "azure".
Definition supportedCloudProviders : list string := [CloudProviderAWS; CloudProviderRHM; CloudProviderAzure].

Definition getMarketplaceBillingModelForCloudProvider (cloudProvider : string) : result error string :=
  if cloudProvider =?s CloudProviderAWS then Ok BillingModelMarketplaceAWS
  else if cloudProvider =?s CloudProviderRHM then Ok BillingModelMarketplace
  else if cloudProvider =?s CloudProviderAzure then Ok BillingModelMarketplaceAzure
  else Err (EService (InvalidBillingAccount "unsupported cloud provider")).

Definition getCloudAccounts (quotaCosts : list AmsQuotaCost) : list CloudAccount := flat_map AQ_CloudAccounts quotaCosts.

Definition hasSufficientMarketplaceQuota (quotaCosts : list AmsQuotaCost) (consumedSize : Z) : bool :=
  existsb (fun quotaCost =>
    existsb (fun rr => (rr.(RR_BillingModel) =?s BillingModelMarketplace) &&
                       ((rr.(RR_Cost) =? 0) || (quotaCost.(AQ_Consumed) + consumedSize <=? quotaCost.(AQ_Allowed))))
      quotaCost.(AQ_RelatedResources)) quotaCosts.

Definition isRelatedResourceMatch (qc : AmsQuotaCost) (kafkaBillingModel : KafkaBillingModel) (requiredSize : Z) (rr : RelatedResource) : bool :=
  ((qc.(AQ_Consumed) + requiredSize <=? qc.(AQ_Allowed)) || (rr.(RR_Cost) =? 0)) &&
  HasSupportForAMSBillingModel kafkaBillingModel rr.(RR_BillingModel).

(** The billing model of the first resource that matches. *)
Fixpoint first_related (kafkaBillingModel : KafkaBillingModel) (requiredSize : Z) (quotaCosts : list AmsQuotaCost) : option string :=
  match quotaCosts with
  | [] => None
  | qc :: rest =>
      match List.find (isRelatedResourceMatch qc kafkaBillingModel requiredSize) qc.(AQ_RelatedResources) with
      | Some rr => Some rr.(RR_BillingModel)
      | None => first_related kafkaBillingModel requiredSize rest
      end
  end.

Definition with_models (kbm : KafkaBillingModel) (id : string) (models : list string) : KafkaBillingModel :=
  mkKafkaBillingModel id kbm.(AMSResource) kbm.(AMSProduct) models kbm.(GracePeriodDays).

Section AmsQuota.
Context {W : Type} `{Database W} `{!AmsClient W}.
Context (kafkaConfig : KafkaConfig).

Definition GetQuotaCosts (organizationID : string) (fetchRelatedResources fetchCloudAccounts : bool)
    (relatedResourceFilters : list QuotaCostRelatedResourceFilter) : M W error (list AmsQuotaCost) :=
  quotaCostList <~ ams_list_quota_costs organizationID fetchRelatedResources fetchCloudAccounts ;;
  ret (if negb fetchRelatedResources || IsEmpty relatedResourceFilters then quotaCostList
       else List.filter (fun qc => existsb (fun rr => existsb (fun f => IsMatch f rr) relatedResourceFilters) qc.(AQ_RelatedResources)) quotaCostList).

Definition GetQuotaCostsForProduct (organizationID resourceName product : string) : M W error (list AmsQuotaCost) :=
  GetQuotaCosts organizationID true true [mkQuotaCostRelatedResourceFilter (Some resourceName) None (Some product) None].

(** The costs, from the cache or from the service. *)
Definition cached_costs (cache : QuotaCache) (organizationID resourceName product : string) : M W error (list AmsQuotaCost * QuotaCache) :=
  let key := organizationID +:+ resourceName +:+ product in
  match cache !! key with
  | Some quotaList => ret (quotaList, cache)
  | None =>
      quotaList <~ GetQuotaCostsForProduct organizationID resourceName product ;;
      ret (quotaList, <[ key := quotaList ]> cache)
  end.

Definition model_costs (cache : QuotaCache) (orgID : string) (kbm : KafkaBillingModel) : M W error (list AmsQuotaCost * QuotaCache) :=
  wrap_err (fun _ => EService (InsufficientQuotaError "%v: error getting quotas for product %s"))
    (cached_costs cache orgID kbm.(AMSResource) kbm.(AMSProduct)).

(** *** The simple resolver *)
Definition resolveMarketplaceType (cache : QuotaCache) (orgID : string) (kafka : KafkaRequest) (kbm : KafkaBillingModel) (amsBillingModel : string)
  : M W error (string * KafkaRequest) :=
  costs <~ model_costs cache orgID kbm ;;
  match getCloudAccounts costs.1 with
  | [cloudAccount] =>
      if (amsBillingModel =?s BillingModelMarketplace) && Contains supportedCloudProviders cloudAccount.(CA_CloudProviderID) then
        billingModel <~ lift (getMarketplaceBillingModelForCloudProvider cloudAccount.(CA_CloudProviderID)) ;;
        ret (billingModel, kafka <| KR.BillingCloudAccountId := cloudAccount.(CA_CloudAccountID) |>
                                 <| KR.Marketplace := cloudAccount.(CA_CloudProviderID) |>)
      else ret (amsBillingModel, kafka)
  | _ => ret (amsBillingModel, kafka)
  end.

Fixpoint try_models (cache : QuotaCache) (orgID : string) (kafka : KafkaRequest) (requiredSize : Z) (models : list KafkaBillingModel)
  : M W error (BillingModelDetails * KafkaRequest) :=
  match models with
  | [] => throw (EService (InsufficientQuotaError "no quota available for any of the matched kafka billing models %v"))
  | kbm :: rest =>
      costs <~ model_costs cache orgID kbm ;;
      match first_related kbm requiredSize costs.1 with
      | None => try_models costs.2 orgID kafka requiredSize rest
      | Some amsBillingModel =>
          if HasSupportForMarketplace kbm then
            refined <~ resolveMarketplaceType costs.2 orgID kafka kbm amsBillingModel ;;
            ret (mkBillingModelDetails kbm refined.1, refined.2)
          else ret (mkBillingModelDetails kbm amsBillingModel, kafka)
      end
  end.

(** The size that is asked for is the capacity that the instance consumes. *)
Definition simple_resolve (cache : QuotaCache) (orgID : string) (kafka : KafkaRequest) (models : list KafkaBillingModel)
  : M W error (BillingModelDetails * KafkaRequest) :=
  kafkaInstanceSize <~ lift (map_err (fun err => EService (general "Error reserving quota" err))
                               (GetKafkaInstanceSize kafkaConfig kafka.(KR.InstanceType) kafka.(KR.SizeId))) ;;
  try_models cache orgID kafka kafkaInstanceSize.(CapacityConsumed) models.

Definition model_if_defined (kafka : KafkaRequest) (id : string) : list KafkaBillingModel :=
  match GetBillingModelByID kafkaConfig kafka.(KR.InstanceType) id with Ok kbm => [kbm] | Err _ => [] end.

Definition simpleBillingModelResolver_Resolve (orgID : string) (kafka : KafkaRequest) : M W error (BillingModelDetails * KafkaRequest) :=
  simple_resolve ∅ orgID kafka (model_if_defined kafka "standard" ++ model_if_defined kafka "marketplace").

(** *** The resolver of billing accounts *)
Definition cloud_account_resolve (cache : QuotaCache) (orgID : string) (kafka : KafkaRequest) (kbm : KafkaBillingModel)
  : M W error (BillingModelDetails * KafkaRequest) :=
  kafkaInstanceSize <~ lift (map_err (fun err => EService (general "error reserving quota" err))
                               (GetKafkaInstanceSize kafkaConfig kafka.(KR.InstanceType) kafka.(KR.SizeId))) ;;
  costs <~ model_costs cache orgID kbm ;;
  match List.find (fun a => (a.(CA_CloudAccountID) =?s kafka.(KR.BillingCloudAccountId)) &&
                            ((kafka.(KR.Marketplace) =?s "") || (a.(CA_CloudProviderID) =?s kafka.(KR.Marketplace))))
          (getCloudAccounts costs.1) with
  | None => throw (EService (InsufficientQuotaError "no matching marketplace quota found for product %s"))
  | Some cloudAccount =>
      if negb (hasSufficientMarketplaceQuota costs.1 kafkaInstanceSize.(QuotaConsumed))
      then throw (EService (InsufficientQuotaError "quota does not support marketplace billing or has insufficient quota"))
      else
        billingModel <~ lift (getMarketplaceBillingModelForCloudProvider cloudAccount.(CA_CloudProviderID)) ;;
        if negb (HasSupportForAMSBillingModel kbm billingModel)
        then throw (EService (InsufficientQuotaError "specified cloud account supports %s, while requested kafka billing model (%s) only supports %v"))
        else ret (mkBillingModelDetails kbm billingModel, kafka <| KR.Marketplace := cloudAccount.(CA_CloudProviderID) |>)
  end.

Definition cloudAccountBillingModelResolver_Resolve (orgID : string) (kafka : KafkaRequest) : M W error (BillingModelDetails * KafkaRequest) :=
  kbm <~ lift (GetBillingModelByID kafkaConfig kafka.(KR.InstanceType) "marketplace") ;;
  cloud_account_resolve ∅ orgID kafka kbm.

(** *** The resolver of a desired billing model *)
Definition detectAMSBillingModel (orgID : string) (kafka : KafkaRequest) (kbm : KafkaBillingModel) : M W error (string * KafkaRequest) :=
  if negb (kafka.(KR.BillingCloudAccountId) =?s "") then
    if negb (HasSupportForMarketplace kbm)
    then throw (EService (InsufficientQuotaError "marketplace is not supported by billing mode '%s'. Supported ams billing models are %v"))
    else
      found <~ cloud_account_resolve ∅ orgID kafka kbm ;;
      ret (found.1.(BMD_AMSBillingModel), found.2)
  else
    found <~ simple_resolve ∅ orgID kafka
               ((if HasSupportForStandard kbm then [with_models kbm "standard" ["standard"]] else []) ++
                (if HasSupportForMarketplace kbm then [with_models kbm "marketplace" ["marketplace"]] else [])) ;;
    ret (found.1.(BMD_AMSBillingModel), found.2).

Definition kafkaBillingModelResolver_Resolve (orgID : string) (kafka : KafkaRequest) : M W error (BillingModelDetails * KafkaRequest) :=
  kbm <~ lift (GetBillingModelByID kafkaConfig kafka.(KR.InstanceType) kafka.(KR.DesiredKafkaBillingModel)) ;;
  if negb (kafka.(KR.Marketplace) =?s "") && negb (HasSupportForMarketplace kbm)
  then throw (EService (InsufficientQuotaError "marketplace value '%s' is not compatible with billing model '%s'"))
  else
    match kbm.(AMSBillingModels) with
    | [only] => ret (mkBillingModelDetails kbm only, kafka)
    | models =>
        if negb (kafka.(KR.Marketplace) =?s "") then
          let amsMarketplace := "marketplace-" +:+ kafka.(KR.Marketplace) in
          if AnyMatch models (StringEqualsIgnoreCasePredicate amsMarketplace)
          then ret (mkBillingModelDetails kbm amsMarketplace, kafka)
          else throw (EService (InsufficientQuotaError "ams marketplace '%s' is not supported by billing mode '%s'. Supported marketplaces are %v"))
        else
          found <~ detectAMSBillingModel orgID kafka kbm ;;
          ret (mkBillingModelDetails kbm found.1, found.2)
    end.

(** The first resolver that supports the request.  The cache of a resolution
    starts empty. *)
Definition Resolve (orgID : string) (kafka : KafkaRequest) : M W error (BillingModelDetails * KafkaRequest) :=
  if negb (kafka.(KR.DesiredKafkaBillingModel) =?s "") then kafkaBillingModelResolver_Resolve orgID kafka
  else if (kafka.(KR.BillingCloudAccountId) =?s "") && (kafka.(KR.Marketplace) =?s "") then simpleBillingModelResolver_Resolve orgID kafka
  else if negb (kafka.(KR.BillingCloudAccountId) =?s "") then cloudAccountBillingModelResolver_Resolve orgID kafka
  else throw (EService (GeneralError "no billing model resolver found for the received kafka request")).

(** ** The service *)
Definition getAMSReservedResourceResourceType (cloudProviderID : string) : string :=
  if cloudProviderID =?s AWS then "cluster.aws" else if cloudProviderID =?s GCP then "cluster.gcp" else "".
Definition getAMSClusterAuthorizationRequestAvailabilityZone (multiAZ : bool) : string := if multiAZ then "multi" else "single".

(** The resource as [ReserveQuota] leaves it; the count of the base builder is
    overwritten. *)
Definition reserved_resource (kafka : KafkaRequest) (kbm : KafkaBillingModel) (count : Z) (bm : string) : ReservedResource :=
  let resourceType := getAMSReservedResourceResourceType (ParseCloudProviderID kafka.(KR.CloudProvider)) in
  mkReservedResource (if negb (resourceType =?s "") then Some resourceType else None) kbm.(AMSResource) count bm kafka.(KR.BillingCloudAccountId).

Definition billingModelMatches (computedBillingModel requestedBillingModel : string) (kbm : KafkaBillingModel) : bool :=
  ((requestedBillingModel =?s "") || StringEqualsIgnoreCase kbm.(BM_ID) requestedBillingModel) && HasSupportForAMSBillingModel kbm computedBillingModel.

Definition getClusterID (kafka : KafkaRequest) : string :=
  if kafka.(KR.DesiredKafkaBillingModel) =?s "eval" then kafka.(KR.ID) +:+ "-eval" else kafka.(KR.ID).

Definition getBillingModel (kafka : KafkaRequest) : M W error (BillingModelDetails * KafkaRequest) :=
  orgID <~ wrap_err (fun err => EService (general "error checking quota: failed to get organization with external id %v" err))
             (ams_organisation_id kafka.(KR.OrganisationId)) ;;
  wrap_err (fun err => EService (NewWithCause ErrorInsufficientQuota (Some err) "unable to detect billing model")) (Resolve orgID kafka).

Definition authorization_request (kafka : KafkaRequest) (kbm : KafkaBillingModel) (rr : ReservedResource) : ClusterAuthorizationRequest :=
  mkClusterAuthorizationRequest kafka.(KR.Owner) kafka.(KR.CloudProvider) kbm.(AMSProduct) true (getClusterID kafka) (getClusterID kafka)
    false false (getAMSClusterAuthorizationRequestAvailabilityZone kafka.(KR.MultiAZ)) true [rr].

(** On GCP the Red Hat marketplace is asked for by its former name. *)
Definition billing_model_for_provider (kafka : KafkaRequest) (bm : string) : string :=
  if (kafka.(KR.CloudProvider) =?s GCP) && (bm =?s "marketplace-rhm") then "marketplace" else bm.

Definition Ams_ReserveQuota (kafka : KafkaRequest) : M W ServiceError (string * KafkaRequest) :=
  kafkaInstanceSize <~ lift (map_err (general "error reserving quota")
                               (GetKafkaInstanceSize kafkaConfig kafka.(KR.InstanceType) kafka.(KR.SizeId))) ;;
  found <~ wrap_err (fun err => let svcErr := ToServiceError err in NewWithCause (Code svcErr) (Some (EService svcErr)) "error getting billing model")
             (getBillingModel kafka) ;;
  let '(mkBillingModelDetails kbm bm, kafka) := found in
  if bm =?s "" then throw (InsufficientQuotaError "error getting billing model: No available billing model found")
  else if negb (billingModelMatches bm kafka.(KR.DesiredKafkaBillingModel) kbm)
  then throw (InvalidBillingAccount "requested billing model does not match assigned. requested: %s, assigned: %s")
  else
    let kafka := kafka <| KR.DesiredKafkaBillingModel := kbm.(BM_ID) |> in
    let bm := billing_model_for_provider kafka bm in
    if (kafka.(KR.CloudProvider) =?s GCP) && negb (bm =?s BillingModelStandard) && negb (bm =?s BillingModelMarketplace)
    then throw (GeneralError "failed to reserve quota: unsupported billing model %q for Kafka %q in cloud provider %q")
    else
      resp <~ wrap_err (general "error reserving quota")
                (ams_cluster_authorization
                   (authorization_request kafka kbm (reserved_resource kafka kbm kafkaInstanceSize.(QuotaConsumed) bm))) ;;
      if negb resp.(AP_Allowed) then throw (InsufficientQuotaError "Insufficient Quota")
      else ret (resp.(AP_SubscriptionID), kafka <| KR.ActualKafkaBillingModel := kbm.(BM_ID) |>).

Definition Ams_ReserveQuotaIfNotAlreadyReserved (kafka : KafkaRequest) : M W ServiceError (string * KafkaRequest) :=
  instanceType <~ lift (map_err (fun _ => GeneralError "failed checking current quota: %v")
                          (GetKafkaInstanceTypeByID kafkaConfig.(SupportedInstanceTypes) kafka.(KR.InstanceType))) ;;
  kbm <~ lift (map_err (fun _ => GeneralError "failed checking current quota: %v")
                 (GetKafkaSupportedBillingModelByID instanceType kafka.(KR.DesiredKafkaBillingModel))) ;;
  subscriptions <~ wrap_err (fun _ => GeneralError "failed checking current quota: %v")
                     (ams_find_subscriptions ("cluster_id='" +:+ getClusterID kafka +:+ "'")) ;;
  match subscriptions with
  | subscription :: _ =>
      if negb (HasSupportForAMSBillingModel kbm subscription.(Sub_ClusterBillingModel))
      then throw (GeneralError "failed checking current quota. Expected billing model to be one of %v, but found %q")
      else ret (subscription.(Sub_ID), kafka)
  | [] => Ams_ReserveQuota kafka
  end.

Definition Ams_DeleteQuota (subscriptionID : string) : M W ServiceError unit :=
  if subscriptionID =?s "" then ret tt
  else wrap_err (fun _ => GeneralError "failed to delete the quota: %v") (ams_delete_subscription subscriptionID).

Definition Ams_GetSubscriptionByID (subscriptionID : string) : M W ServiceError (option Subscription) :=
  wrap_err (general "error getting the subscriptions for id '%s'") (ams_get_subscription subscriptionID).

Definition Ams_DeleteQuotaForBillingModel (subscriptionID : string) (kbm : KafkaBillingModel) : M W ServiceError unit :=
  if subscriptionID =?s "" then ret tt
  else
    found <~ wrap_err (fun _ => GeneralError "failed to delete the quota: %v") (Ams_GetSubscriptionByID subscriptionID) ;;
    match found with
    | None => ret tt
    | Some subscription =>
        if HasSupportForAMSBillingModel kbm subscription.(Sub_ClusterBillingModel) then Ams_DeleteQuota subscriptionID else ret tt
    end.

(** The loops over the costs and their resources: whether one is supported, and
    the last billing model that was not. *)
Fixpoint scan_resources (last : string) (rrs : list RelatedResource) : bool * string :=
  match rrs with
  | [] => (false, last)
  | rr :: rest => if Contains supportedAMSRelatedResourceBillingModels rr.(RR_BillingModel) then (true, last) else scan_resources rr.(RR_BillingModel) rest
  end.
Fixpoint scan_costs (last : string) (quotaCosts : list AmsQuotaCost) : bool * string :=
  match quotaCosts with
  | [] => (false, last)
  | qc :: rest =>
      if 0 <? qc.(AQ_Allowed) then
        let '(found, last) := scan_resources last qc.(AQ_RelatedResources) in
        if found then (true, last) else scan_costs last rest
      else scan_costs last rest
  end.

Definition hasConfiguredQuotaCost (organizationID : string) (kbm : KafkaBillingModel) : M W error bool :=
  quotaCosts <~ GetQuotaCostsForProduct organizationID kbm.(AMSResource) kbm.(AMSProduct) ;;
  let '(found, foundUnsupportedBillingModel) := scan_costs "" quotaCosts in
  if found then ret true
  else if negb (foundUnsupportedBillingModel =?s "")
  then throw (EService (GeneralError "product %s only has unsupported allowed billing models. Last one found: %s"))
  else ret false.

Definition Ams_CheckIfQuotaIsDefinedForInstanceType (username externalId instanceType : string) (kbm : KafkaBillingModel) : M W ServiceError bool :=
  orgID <~ wrap_err (general "error checking quota: failed to get organization with external id %v") (ams_organisation_id externalId) ;;
  wrap_err (general "error checking quota: failed to get assigned quota of type %v for organization with id %v") (hasConfiguredQuotaCost orgID kbm).

(** Whether an account of a quota cost is the one that was given. *)
Definition account_matches (billingCloudAccountId : string) (marketplace : option string) (a : CloudAccount) : bool :=
  (a.(CA_CloudAccountID) =?s billingCloudAccountId) && nil_or_equal marketplace a.(CA_CloudProviderID).

Definition validateBillingAccount (organisationId instanceType : string) (kbm : KafkaBillingModel) (billingCloudAccountId : string)
    (marketplace : option string) : M W ServiceError unit :=
  orgID <~ wrap_err (general "error checking quota: failed to get organization with external id %v") (ams_organisation_id organisationId) ;;
  quotaCosts <~ wrap_err (general "error checking quota: failed to get assigned quota for %s/%s to organization with id %v")
                  (GetQuotaCostsForProduct orgID kbm.(AMSResource) kbm.(AMSProduct)) ;;
  let billingAccounts := getCloudAccounts quotaCosts in
  let matchingBillingAccounts := Z.of_nat (length (List.filter (account_matches billingCloudAccountId marketplace) billingAccounts)) in
  if IsEmpty billingAccounts then throw (InvalidBillingAccount "no billing accounts available in quota")
  else if 1 <? matchingBillingAccounts
  then throw (InvalidBillingAccount "multiple matching billing accounts found, only one expected. Available billing accounts: %v")
  else if matchingBillingAccounts =? 0
  then throw (InvalidBillingAccount "no matching billing account found. Provided: %s, Available: %v")
  else ret tt.

(** The first model that validates; a resource and product that were tried
    already are not tried again. *)
Fixpoint any_model_validates (organisationId instanceType billingCloudAccountId : string) (marketplace : option string)
    (history : list string) (models : list KafkaBillingModel) : M W ServiceError bool :=
  match models with
  | [] => ret false
  | kbm :: rest =>
      let key := kbm.(AMSResource) +:+ kbm.(AMSProduct) in
      if Contains history key then any_model_validates organisationId instanceType billingCloudAccountId marketplace history rest
      else
        r <~ attempt (validateBillingAccount organisationId instanceType kbm billingCloudAccountId marketplace) ;;
        match r with
        | Ok _ => ret true
        | Err _ => any_model_validates organisationId instanceType billingCloudAccountId marketplace (key :: history) rest
        end
  end.

Definition Ams_ValidateBillingAccount (organisationId instanceType billingModelID billingCloudAccountId : string) (marketplace : option string)
  : M W ServiceError unit :=
  models <~ lift (map_err (general "error checking quota: %v")
              (if negb (billingModelID =?s "")
               then kbm <-! GetBillingModelByID kafkaConfig instanceType billingModelID ;; Ok [kbm]
               else GetBillingModels kafkaConfig instanceType)) ;;
  ok <~ any_model_validates organisationId instanceType billingCloudAccountId marketplace [] models ;;
  if ok then ret tt else throw (InvalidBillingAccount "we have not been able to validate your billingAccountID").

Definition amsBillingModelToAMSBillingModelCategory (amsBillingModel : string) (kbm : KafkaBillingModel) : option string :=
  if StringEqualsIgnoreCase amsBillingModel AMSRelatedResourceBillingModelMarketplace
  then if HasSupportForMarketplace kbm then Some AMSRelatedResourceBillingModelMarketplace else None
  else if StringHasPrefixIgnoreCase amsBillingModel "marketplace-"
  then if HasSupportForAMSBillingModel kbm amsBillingModel then Some AMSRelatedResourceBillingModelMarketplace else None
  else if StringEqualsIgnoreCase amsBillingModel AMSRelatedResourceBillingModelStandard
  then if HasSupportForStandard kbm then Some AMSRelatedResourceBillingModelStandard else None
  else None.

(** A nil [*ServiceError] that is returned as an [error] is not a nil error. *)
Definition typed_nil : error := EPlain "<nil>".

Definition entitled (quotaCost : AmsQuotaCost) : bool :=
  negb ((quotaCost.(AQ_Allowed) <? quotaCost.(AQ_Consumed)) && (quotaCost.(AQ_Allowed) =? 0)).

Definition Ams_IsQuotaEntitlementActive (kafka : KafkaRequest) : M W error bool :=
  kbm <~ lift (GetBillingModelByID kafkaConfig kafka.(KR.InstanceType) kafka.(KR.ActualKafkaBillingModel)) ;;
  found <~ wrap_err EService (Ams_GetSubscriptionByID kafka.(KR.SubscriptionId)) ;;
  match found with
  | None => throw typed_nil
  | Some subscription =>
      match amsBillingModelToAMSBillingModelCategory subscription.(Sub_ClusterBillingModel) kbm with
      | None => ret false
      | Some clusterBillingModel =>
          orgID <~ ams_organisation_id kafka.(KR.OrganisationId) ;;
          quotaCosts <~ GetQuotaCosts orgID true false
                          [mkQuotaCostRelatedResourceFilter (Some kbm.(AMSResource)) None (Some kbm.(AMSProduct)) (Some clusterBillingModel)] ;;
          match quotaCosts with
          | [] => ret false
          | [quotaCost] => ret (entitled quotaCost)
          | _ => throw (EPlain "more than 1 quota cost was returned for organisation %q with the following filter: {ResourceName: %q, Product: %q, BillingModel: %q}")
          end
      end
  end.
End AmsQuota.

(** ** Facts *)
Section AmsFacts.
Context {W : Type} `{Database W} `{!AmsClient W}.
Context (cfg : KafkaConfig).

Lemma GetQuotaCostsForProduct_ro org r p : read_only (GetQuotaCostsForProduct (W := W) org r p).
Proof. unfold GetQuotaCostsForProduct, GetQuotaCosts. solve_read_only. Qed.
#[local] Hint Resolve GetQuotaCostsForProduct_ro : fleet.
Lemma model_costs_ro c org kbm : read_only (model_costs (W := W) c org kbm).
Proof. unfold model_costs, cached_costs. solve_read_only. Qed.
#[local] Hint Resolve model_costs_ro : fleet.
Lemma try_models_ro c org k n l : read_only (try_models (W := W) c org k n l).
Proof.
  revert c. induction l as [|kbm l IH]; intros c; simpl; [solve_read_only|].
  apply bind_read_only; [solve_read_only|]. intros costs. destruct (first_related _ _ _); [|done]. unfold resolveMarketplaceType. solve_read_only.
Qed.
#[local] Hint Resolve try_models_ro : fleet.
Lemma cloud_account_resolve_ro c org k kbm : read_only (cloud_account_resolve (W := W) cfg c org k kbm).
Proof. unfold cloud_account_resolve. solve_read_only. Qed.
#[local] Hint Resolve cloud_account_resolve_ro : fleet.
Lemma Resolve_ro org k : read_only (Resolve (W := W) cfg org k).
Proof.
  unfold Resolve, kafkaBillingModelResolver_Resolve, simpleBillingModelResolver_Resolve, cloudAccountBillingModelResolver_Resolve,
    detectAMSBillingModel, simple_resolve. solve_read_only.
Qed.
#[local] Hint Resolve Resolve_ro : fleet.
Lemma Ams_ReserveQuota_ro k : read_only (Ams_ReserveQuota (W := W) cfg k).
Proof. unfold Ams_ReserveQuota, getBillingModel. solve_read_only. Qed.
#[local] Hint Resolve Ams_ReserveQuota_ro : fleet.
Lemma Ams_ReserveQuotaIfNotAlreadyReserved_ro k : read_only (Ams_ReserveQuotaIfNotAlreadyReserved (W := W) cfg k).
Proof. unfold Ams_ReserveQuotaIfNotAlreadyReserved. solve_read_only. Qed.
Lemma Ams_DeleteQuotaForBillingModel_ro s bm : read_only (Ams_DeleteQuotaForBillingModel (W := W) s bm).
Proof. unfold Ams_DeleteQuotaForBillingModel, Ams_GetSubscriptionByID, Ams_DeleteQuota. solve_read_only. Qed.
Lemma Ams_Check_ro u o t bm : read_only (Ams_CheckIfQuotaIsDefinedForInstanceType (W := W) u o t bm).
Proof. unfold Ams_CheckIfQuotaIsDefinedForInstanceType, hasConfiguredQuotaCost. solve_read_only. Qed.
Lemma Ams_IsQuotaEntitlementActive_ro k : read_only (Ams_IsQuotaEntitlementActive (W := W) cfg k).
Proof. unfold Ams_IsQuotaEntitlementActive, Ams_GetSubscriptionByID, GetQuotaCosts. solve_read_only. Qed.

Lemma GetBillingModelByID_elem t id kbm :
  GetBillingModelByID cfg t id = Ok kbm ->
  exists it, GetKafkaInstanceTypeByID cfg.(SupportedInstanceTypes) t = Ok it /\ kbm ∈ SupportedBillingModels it /\
    StringEqualsIgnoreCase kbm.(BM_ID) id = true.
Proof.
  unfold GetBillingModelByID, GetKafkaSupportedBillingModelByID. destruct (GetKafkaInstanceTypeByID _ t) as [it|]; [|done]. simpl.
  unfold FindFirst. destruct (FindFirst_from_spec 0 (SupportedBillingModels it) (fun x => StringEqualsIgnoreCase (BM_ID x) id) ltac:(lia))
    as [(pre & v & post & Hl & _ & Hp & ->)|[_ ->]]; [|done].
  destruct (negb (_ =? -1)); [|done]. intros [= <-]. exists it. rewrite Hl. split_and!; [done|set_solver|done].
Qed.

(** What a resolver may change of a request. *)
Definition billing_only (k k' : KafkaRequest) : Prop :=
  exists m a, k' = k <| KR.BillingCloudAccountId := a |> <| KR.Marketplace := m |>.
Lemma billing_only_refl k : billing_only k k.
Proof. exists k.(KR.Marketplace), k.(KR.BillingCloudAccountId). by destruct k. Qed.

Lemma try_models_ok c org k n l w d k' w' :
  try_models c org k n l w = (Ok (d, k'), w') -> d.(BMD_KafkaBillingModel) ∈ l /\ billing_only k k'.
Proof.
  revert c w. induction l as [|kbm l IH]; intros c w Hr; simpl in Hr; [done|].
  apply bind_ok in Hr as (costs & w1 & _ & Hr). destruct (first_related _ _ _) as [bm|].
  - destruct (HasSupportForMarketplace kbm).
    + apply bind_ok in Hr as ([bm' k0] & w2 & Hm & [= <- <- _]). split; [left|]. unfold resolveMarketplaceType in Hm.
      apply bind_ok in Hm as (costs' & w3 & _ & Hm). destruct (getCloudAccounts _) as [|a [|]]; [injection Hm as _ <- _; apply billing_only_refl| |injection Hm as _ <- _; apply billing_only_refl].
      destruct (_ && _); [|injection Hm as _ <- _; apply billing_only_refl].
      apply bind_ok in Hm as (x & w4 & _ & [= _ <- _]). by eexists _, _.
    + injection Hr as <- <- _. split; [left|apply billing_only_refl].
  - apply IH in Hr as [Hin ?]. split; [by right|done].
Qed.

Lemma cloud_account_resolve_ok c org k kbm w d k' w' :
  cloud_account_resolve cfg c org k kbm w = (Ok (d, k'), w') -> d.(BMD_KafkaBillingModel) = kbm /\ billing_only k k'.
Proof.
  intros Hr. unfold cloud_account_resolve in Hr. apply bind_ok in Hr as (size & w1 & _ & Hr). apply bind_ok in Hr as (costs & w2 & _ & Hr).
  destruct (List.find _ _) as [a|]; [|done]. destruct (negb _); [done|]. apply bind_ok in Hr as (bm & w3 & _ & Hr).
  destruct (negb _); [done|]. injection Hr as <- <- _. split; [done|]. exists a.(CA_CloudProviderID), k.(KR.BillingCloudAccountId). by destruct k.
Qed.

(** The billing model that is found is one of the instance type, and the one
    that was asked for if there is one. *)
Lemma Resolve_ok org k w d k' w' :
  Resolve cfg org k w = (Ok (d, k'), w') ->
  billing_only k k' /\
  exists it, GetKafkaInstanceTypeByID cfg.(SupportedInstanceTypes) k.(KR.InstanceType) = Ok it /\
    d.(BMD_KafkaBillingModel) ∈ SupportedBillingModels it.
Proof.
  intros Hr. unfold Resolve in Hr. destruct (negb (KR.DesiredKafkaBillingModel k =?s "")).
  - unfold kafkaBillingModelResolver_Resolve in Hr. apply bind_ok in Hr as (kbm & w1 & Hk & Hr). unfold lift in Hk. injection Hk as Hk <-.
    apply GetBillingModelByID_elem in Hk as (it & Hit & Hin & _). destruct (negb _ && negb _); [done|].
    assert (billing_only k k' /\ d.(BMD_KafkaBillingModel) = kbm) as [Hb ->]; [|by eauto].
    assert (forall w, (found <~ detectAMSBillingModel cfg org k kbm;; ret (mkBillingModelDetails kbm found.1, found.2)) w = (Ok (d, k'), w') ->
      billing_only k k' /\ d.(BMD_KafkaBillingModel) = kbm) as Hdetect.
    { intros w0 H0. apply bind_ok in H0 as ([bm k0] & w2 & Hd & [= <- <- _]). split; [|done]. unfold detectAMSBillingModel in Hd.
      destruct (negb (KR.BillingCloudAccountId k =?s "")); [destruct (negb (HasSupportForMarketplace kbm)); [done|]|]; apply bind_ok in Hd as ([d0 k1] & w3 & Hd & [= _ <- _]).
      - by apply cloud_account_resolve_ok in Hd as [_ ?].
      - unfold simple_resolve in Hd. apply bind_ok in Hd as (size & w4 & _ & Hd). by apply try_models_ok in Hd as [_ ?]. }
    destruct (AMSBillingModels kbm) as [|m1 [|m2 ms]].
    + destruct (negb _); [destruct (AnyMatch _ _); [|done]; injection Hr as <- <- _; split; [apply billing_only_refl|done]|by eapply Hdetect].
    + injection Hr as <- <- _. split; [apply billing_only_refl|done].
    + destruct (negb _); [destruct (AnyMatch _ _); [|done]; injection Hr as <- <- _; split; [apply billing_only_refl|done]|by eapply Hdetect].
  - destruct (_ && _).
    + unfold simpleBillingModelResolver_Resolve, simple_resolve in Hr. apply bind_ok in Hr as (size & w1 & _ & Hr).
      apply try_models_ok in Hr as [Hin Hb]. split; [done|]. unfold model_if_defined in Hin.
      apply elem_of_app in Hin as [Hin|Hin]; destruct (GetBillingModelByID cfg _ _) as [kbm|] eqn:Hk; try set_solver;
        apply list_elem_of_singleton in Hin as ->; apply GetBillingModelByID_elem in Hk as (it & ? & ? & _); eauto.
    + destruct (negb _); [|done]. unfold cloudAccountBillingModelResolver_Resolve in Hr. apply bind_ok in Hr as (kbm & w1 & Hk & Hr).
      unfold lift in Hk. injection Hk as Hk <-. apply GetBillingModelByID_elem in Hk as (it & ? & ? & _).
      apply cloud_account_resolve_ok in Hr as [-> ?]. eauto.
Qed.
End AmsFacts.

(** ** Properties *)
Section AmsProperties.
Context {W : Type} `{Database W} `{!AmsClient W}.
Context (cfg : KafkaConfig).

(** [C17] A reservation that is granted is for the quota that the size consumes,
    under a billing model of the instance type that matches the one asked for and
    that the service accepts for it (on GCP, standard or marketplace only); it is
    made for the owner, under the identifier of the Kafka, marked when it is an
    evaluation.  Of the request it changes the billing fields only, and the desired
    and the actual billing model agree afterwards. *)
Theorem ams_reservation_effect k w sub k' w' :
  Ams_ReserveQuota cfg k w = (Ok (sub, k'), w') ->
  exists it kbm bm size req rr w1 m a,
    GetKafkaInstanceTypeByID cfg.(SupportedInstanceTypes) k.(KR.InstanceType) = Ok it /\ kbm ∈ SupportedBillingModels it /\
    (k.(KR.DesiredKafkaBillingModel) = "" \/ StringEqualsIgnoreCase kbm.(BM_ID) k.(KR.DesiredKafkaBillingModel) = true) /\
    HasSupportForAMSBillingModel kbm bm = true /\
    GetKafkaInstanceSize cfg k.(KR.InstanceType) k.(KR.SizeId) = Ok size /\
    ams_cluster_authorization req w1 = (Ok (mkClusterAuthorizationResponse true sub), w') /\
    req.(AR_Resources) = [rr] /\ rr.(RS_Count) = size.(QuotaConsumed) /\ rr.(RS_ResourceName) = kbm.(AMSResource) /\
    req.(AR_ProductID) = kbm.(AMSProduct) /\ req.(AR_AccountUsername) = k.(KR.Owner) /\ req.(AR_Reserve) = true /\
    rr.(RS_BillingModel) = billing_model_for_provider k bm /\
    (k.(KR.CloudProvider) = GCP -> rr.(RS_BillingModel) ∈ [BillingModelStandard; BillingModelMarketplace]) /\
    req.(AR_ClusterID) = (if kbm.(BM_ID) =?s "eval" then k.(KR.ID) +:+ "-eval" else k.(KR.ID)) /\
    k' = k <| KR.BillingCloudAccountId := a |> <| KR.Marketplace := m |>
           <| KR.DesiredKafkaBillingModel := kbm.(BM_ID) |> <| KR.ActualKafkaBillingModel := kbm.(BM_ID) |> /\
    tables_of w' = tables_of w.
Proof.
  intros Hr. pose proof (read_only_run _ _ _ _ (Ams_ReserveQuota_ro cfg k) Hr) as Ht. unfold Ams_ReserveQuota in Hr.
  apply bind_ok in Hr as (size & w1 & Hs & Hr). unfold lift in Hs. injection Hs as Hs <-.
  destruct (GetKafkaInstanceSize cfg _ _) as [size'|] eqn:Hsize; [|done]. injection Hs as ->.
  apply bind_ok in Hr as ([[kbm bm] k1] & w2 & Hf & Hr). apply wrap_err_ok in Hf. unfold getBillingModel in Hf.
  apply bind_ok in Hf as (org & w3 & _ & Hf). apply wrap_err_ok in Hf. apply Resolve_ok in Hf as ((m & a & ->) & it & Hit & Hin). simpl in Hin.
  destruct (bm =?s ""); [done|]. destruct (billingModelMatches _ _ _) eqn:Hmatch; [|done]. unfold billingModelMatches in Hmatch.
  apply andb_true_iff in Hmatch as [Hmatch Hsup]. simpl in Hr, Hmatch.
  set (k2 := k <| KR.BillingCloudAccountId := a |> <| KR.Marketplace := m |> <| KR.DesiredKafkaBillingModel := kbm.(BM_ID) |>) in Hr.
  destruct ((KR.CloudProvider k =?s GCP) && negb (billing_model_for_provider k2 bm =?s BillingModelStandard) &&
            negb (billing_model_for_provider k2 bm =?s BillingModelMarketplace)) eqn:Hgcp; [done|].
  apply bind_ok in Hr as ([allowed sub'] & w4 & Hauth & Hr). apply wrap_err_ok in Hauth. simpl in Hr. destruct allowed; [|done].
  injection Hr as -> <- ->.
  eexists it, kbm, bm, size, _, _, w2, m, a. split_and!; [done|done| |done|reflexivity|exact Hauth|reflexivity|done|done|done|done|done|done| |done|done|done].
  - apply orb_true_iff in Hmatch as [Hz|?]; [left; by apply String.eqb_eq|by right].
  - intros Hg. simpl. rewrite Hg, String.eqb_refl in Hgcp. simpl in Hgcp. apply andb_false_iff in Hgcp as [Hz|Hz]; apply negb_false_iff, String.eqb_eq in Hz;
      rewrite Hz; set_solver.
Qed.

(** A subscription that exists already for the Kafka under the desired
    billing model is used as it is: nothing is reserved a second time, and the
    request is left alone.  One under another billing model is an error, and only
    when there is none is quota reserved. *)
Theorem existing_reservation_is_reused k w it kbm s rest w1 :
  GetKafkaInstanceTypeByID cfg.(SupportedInstanceTypes) k.(KR.InstanceType) = Ok it ->
  GetKafkaSupportedBillingModelByID it k.(KR.DesiredKafkaBillingModel) = Ok kbm ->
  ams_find_subscriptions ("cluster_id='" +:+ getClusterID k +:+ "'") w = (Ok (s :: rest), w1) ->
  (HasSupportForAMSBillingModel kbm s.(Sub_ClusterBillingModel) = true ->
   Ams_ReserveQuotaIfNotAlreadyReserved cfg k w = (Ok (s.(Sub_ID), k), w1)) /\
  (HasSupportForAMSBillingModel kbm s.(Sub_ClusterBillingModel) = false ->
   exists e, Ams_ReserveQuotaIfNotAlreadyReserved cfg k w = (Err e, w1)).
Proof.
  intros Hit Hbm Hs. unfold Ams_ReserveQuotaIfNotAlreadyReserved, bind, lift, wrap_err. rewrite Hit. cbn [map_err]. rewrite Hbm. cbn [map_err]. rewrite Hs.
  cbn [map_err]. split; intros ->; [done|by eexists].
Qed.

(** Deleting the quota of one billing model leaves a subscription that was
    reserved under another one alone. *)
Theorem only_own_quota_is_deleted id kbm w s w1 :
  id <> "" -> ams_get_subscription id w = (Ok (Some s), w1) ->
  Ams_DeleteQuotaForBillingModel id kbm w =
    if HasSupportForAMSBillingModel kbm s.(Sub_ClusterBillingModel) then Ams_DeleteQuota id w1 else (Ok tt, w1).
Proof.
  intros Hid Hs. unfold Ams_DeleteQuotaForBillingModel, Ams_GetSubscriptionByID, bind, wrap_err. apply String.eqb_neq in Hid as ->. rewrite Hs.
  cbn [map_err]. by destruct (HasSupportForAMSBillingModel _ _).
Qed.

Lemma scan_resources_true last rrs :
  fst (scan_resources last rrs) = true <-> exists rr, rr ∈ rrs /\ rr.(RR_BillingModel) ∈ supportedAMSRelatedResourceBillingModels.
Proof.
  revert last. induction rrs as [|rr rrs IH]; intros last; simpl; [set_solver|].
  destruct (Contains _ _) eqn:Hc; simpl.
  - apply Contains_true in Hc. split; [|done]. intros _. exists rr. set_solver.
  - apply Contains_false in Hc. rewrite IH. set_solver.
Qed.

Lemma scan_costs_true last qcs :
  fst (scan_costs last qcs) = true <->
  exists qc rr, qc ∈ qcs /\ 0 < qc.(AQ_Allowed) /\ rr ∈ qc.(AQ_RelatedResources) /\ rr.(RR_BillingModel) ∈ supportedAMSRelatedResourceBillingModels.
Proof.
  revert last. induction qcs as [|qc qcs IH]; intros last; simpl; [set_solver|].
  destruct (Z.ltb_spec 0 (AQ_Allowed qc)) as [Hpos|Hle].
  - destruct (scan_resources last (AQ_RelatedResources qc)) as [found last'] eqn:Hs.
    pose proof (scan_resources_true last (AQ_RelatedResources qc)) as Hsr. rewrite Hs in Hsr. simpl in Hsr. destruct found; simpl.
    + split; [|done]. intros _. destruct (proj1 Hsr eq_refl) as (rr & ? & ?). exists qc, rr. set_solver.
    + rewrite IH. split; [set_solver|]. intros (qc' & rr & [->|Hq]%elem_of_cons & ? & ? & ?); [|by eauto 10]. enough (false = true) by done. apply Hsr. eauto.
  - rewrite IH. split; [set_solver|]. intros (qc' & rr & [->|Hq]%elem_of_cons & ? & ? & ?); [lia|eauto 10].
Qed.

(** Quota is defined for a billing model exactly when the organisation is allowed
    some of its product under a billing model that the service supports. *)
Theorem quota_defined_iff_allowed org kbm w b w' :
  hasConfiguredQuotaCost org kbm w = (Ok b, w') ->
  exists qcs w1, GetQuotaCostsForProduct org kbm.(AMSResource) kbm.(AMSProduct) w = (Ok qcs, w1) /\
    (b = true <-> exists qc rr, qc ∈ qcs /\ 0 < qc.(AQ_Allowed) /\ rr ∈ qc.(AQ_RelatedResources) /\
                    rr.(RR_BillingModel) ∈ supportedAMSRelatedResourceBillingModels).
Proof.
  intros Hr. unfold hasConfiguredQuotaCost in Hr. apply bind_ok in Hr as (qcs & w1 & Hq & Hr). exists qcs, w1. split; [done|].
  rewrite <- (scan_costs_true ""). destruct (scan_costs "" qcs) as [[] last]; simpl in *; [by injection Hr as <- _|].
  destruct (negb _); [done|by injection Hr as <- _].
Qed.

(** When neither a billing model nor an account is given, the model that is found
    has quota left for the capacity of the instance, or costs nothing. *)
Lemma first_related_spec kbm n qcs bm :
  first_related kbm n qcs = Some bm ->
  exists qc rr, qc ∈ qcs /\ rr ∈ qc.(AQ_RelatedResources) /\ rr.(RR_BillingModel) = bm /\ HasSupportForAMSBillingModel kbm bm = true /\
    (qc.(AQ_Consumed) + n <= qc.(AQ_Allowed) \/ rr.(RR_Cost) = 0).
Proof.
  induction qcs as [|qc qcs IH]; simpl; [done|]. destruct (List.find _ _) as [rr|] eqn:Hf.
  - intros [= <-]. apply find_some in Hf as [Hin Hm]. apply andb_true_iff in Hm as [Hm Hsup]. apply orb_true_iff in Hm.
    exists qc, rr. split_and!; [set_solver|by apply list_elem_of_In|done|done|]. rewrite Z.leb_le, Z.eqb_eq in Hm. done.
  - intros (qc' & rr & ? & ? & ?)%IH. exists qc', rr. set_solver.
Qed.
End AmsProperties.

(** The service behind the interfaces of the Kafka service and of promotion. *)
Definition ams_externals {W} `{Database W} `{!AmsClient W} (cfg : KafkaConfig) (E : KafkaExternals W) : KafkaExternals W.
Proof.
  refine {|
    get_quota_service := fun t => _ <-! GetQuotaService t ;; Ok tt;
    check_quota_defined := Ams_CheckIfQuotaIsDefinedForInstanceType;
    reserve_quota := fun k => r <~ Ams_ReserveQuota cfg k ;;
                              ret (r.1, mkReservedBilling r.2.(KR.ActualKafkaBillingModel) r.2.(KR.Marketplace) r.2.(KR.BillingCloudAccountId));
    is_entitlement_active := Ams_IsQuotaEntitlementActive cfg;
    enable_authentication_on_kafka := E.(enable_authentication_on_kafka);
    create_service_account := E.(create_service_account);
    delete_service_account := E.(delete_service_account);
    automatic_certificate_management := E.(automatic_certificate_management);
    get_certificate := E.(get_certificate);
    manage_certificate := E.(manage_certificate);
    revoke_certificate := E.(revoke_certificate);
    new_aws_client := E.(new_aws_client);
    change_resource_record_sets := E.(change_resource_record_sets);
    get_change := E.(get_change);
    get_cluster_dns := E.(get_cluster_dns);
    dns_label_errors := E.(dns_label_errors)
  |}; try solve [eauto with fleet].
  - intros. apply Ams_Check_ro.
  - intros k. apply bind_read_only; [apply Ams_ReserveQuota_ro|intros a; apply ret_read_only].
  - intros k. apply Ams_IsQuotaEntitlementActive_ro.
Defined.

Definition ams_promotion {W} `{Database W} `{!AmsClient W} (cfg : KafkaConfig) : PromotionQuota W.
Proof.
  refine {|
    reserve_quota_if_not_already_reserved := fun k => r <~ Ams_ReserveQuotaIfNotAlreadyReserved cfg k ;; ret r.1;
    delete_quota_for_billing_model := Ams_DeleteQuotaForBillingModel
  |}.
  - intros k. apply bind_read_only; [apply Ams_ReserveQuotaIfNotAlreadyReserved_ro|intros a; apply ret_read_only].
  - intros. apply Ams_DeleteQuotaForBillingModel_ro.
Defined.

Section Entitlement.
Context {W : Type} `{Database W} `{!AmsClient W}.
Context (cfg : KafkaConfig).

(** The entitlement of a Kafka whose subscription was reserved under a
    billing model of its own is active unless the organisation has no quota of
    that kind, or its allowance fell to zero while something is consumed; an
    allowance that is merely exceeded does not end it. *)
Theorem ams_entitlement_exact k w kbm s w1 category org w2 qcs w3 :
  GetBillingModelByID cfg k.(KR.InstanceType) k.(KR.ActualKafkaBillingModel) = Ok kbm ->
  ams_get_subscription k.(KR.SubscriptionId) w = (Ok (Some s), w1) ->
  amsBillingModelToAMSBillingModelCategory s.(Sub_ClusterBillingModel) kbm = Some category ->
  ams_organisation_id k.(KR.OrganisationId) w1 = (Ok org, w2) ->
  GetQuotaCosts org true false
    [mkQuotaCostRelatedResourceFilter (Some kbm.(AMSResource)) None (Some kbm.(AMSProduct)) (Some category)] w2 = (Ok qcs, w3) ->
  match qcs with
  | [] => Ams_IsQuotaEntitlementActive cfg k w = (Ok false, w3)
  | [qc] => exists b, Ams_IsQuotaEntitlementActive cfg k w = (Ok b, w3) /\ (b = false <-> qc.(AQ_Allowed) = 0 /\ 0 < qc.(AQ_Consumed))
  | _ => is_ok (fst (Ams_IsQuotaEntitlementActive cfg k w)) = false
  end.
Proof.
  intros Hbm Hs Hcat Horg Hq. unfold Ams_IsQuotaEntitlementActive, Ams_GetSubscriptionByID, bind, lift, wrap_err.
  rewrite Hbm, Hs. cbn [map_err]. rewrite Hcat, Horg, Hq. destruct qcs as [|qc [|]]; [done| |done].
  exists (entitled qc). split; [done|]. unfold entitled. rewrite negb_false_iff, andb_true_iff, Z.ltb_lt, Z.eqb_eq. lia.
Qed.

(** A Kafka whose subscription no longer exists never expires.  The code
    means to report an entitlement that is not active, but it returns a nil
    pointer as an error, which is not nil: the check fails, the worker that sets
    the dates reports an error and leaves the Kafka without a date, whatever its
    cache holds for other organisations. *)
Theorem lost_subscription_never_expires (E : KafkaExternals W) k cache w kbm size w1 :
  GetBillingModelByID cfg k.(KR.InstanceType) k.(KR.ActualKafkaBillingModel) = Ok kbm ->
  ams_get_subscription k.(KR.SubscriptionId) w = (Ok None, w1) ->
  is_ok (GetQuotaService cfg.(Config.Quota).(Quota_Type)) = true ->
  GetKafkaInstanceSize cfg k.(KR.InstanceType) k.(KR.SizeId) = Ok size -> size.(LifespanSeconds) = None ->
  Contains GetDeletingStatuses k.(KR.Status) = false -> cache !! org_billing_model k = None ->
  Ams_IsQuotaEntitlementActive cfg k w = (Err typed_nil, w1) /\
  exists e, reconcile_expires_at (KafkaExternals0 := ams_externals cfg E) cfg cache k w = ([e], k, cache, w1) /\
    tables_of w1 = tables_of w.
Proof.
  intros Hbm Hs Hq Hsize Hlife Hdel Hcache.
  assert (Ams_IsQuotaEntitlementActive cfg k w = (Err typed_nil, w1)) as Hact.
  { unfold Ams_IsQuotaEntitlementActive, Ams_GetSubscriptionByID, bind, lift, wrap_err. rewrite Hbm, Hs. reflexivity. }
  split; [done|]. exists (EWrap "failed to get quota entitlement status of kafka instance %q" typed_nil).
  split; [|exact (read_only_run _ _ _ _ (ams_get_subscription_ro _) Hs)].
  unfold reconcile_expires_at. rewrite Hdel, Hsize, Hlife. unfold cached_entitlement. rewrite Hcache.
  assert (IsQuotaEntitlementActive (KafkaExternals0 := ams_externals cfg E) cfg k w = (Err typed_nil, w1)) as ->; [|done].
  unfold IsQuotaEntitlementActive. unfold bind, lift, wrap_err. simpl.
  destruct (GetQuotaService _); [|done]. simpl. exact Hact.
Qed.
End Entitlement.

(** ** A deployment *)
Module AmsExample.
Definition cost (allowed consumed : Z) : AmsQuotaCost :=
  mkAmsQuotaCost "q1" allowed consumed [mkRelatedResource "rhosak" "cluster.aws" "RHOSAK" "standard" 1] [].

(** One standard quota; the Kafka "k1" has a subscription, and the subscription
    "gone" was deleted. *)
#[global] Instance client : AmsClient (MemDB.world unit).
Proof.
  refine {|
    ams_organisation_id := fun ext => ret ("id-" +:+ ext);
    ams_list_quota_costs := fun _ _ _ => ret [cost 5 2];
    ams_cluster_authorization := fun r => ret (mkClusterAuthorizationResponse true ("sub-" +:+ r.(AR_ClusterID)));
    ams_find_subscriptions := fun q => ret (if q =?s "cluster_id='k1'" then [mkSubscription "sub-k1" "standard"] else []);
    ams_get_subscription := fun i => ret (if i =?s "gone" then None else Some (mkSubscription i "standard"));
    ams_delete_subscription := fun _ => ret tt
  |}; intros; apply ret_read_only.
Defined.

Definition fresh : KafkaRequest :=
  (Fixtures.kafka "k9" "" KafkaRequestStatusAccepted STANDARD "x2") <| KR.DesiredKafkaBillingModel := "" |> <| KR.ActualKafkaBillingModel := "" |>.
Definition orphan : KafkaRequest := Fixtures.k1 <| KR.SubscriptionId := "gone" |>.
Definition w0 : MemDB.world unit := MemDB.mkWorld (mkTables [orphan] [Fixtures.c1]) 1000 [] tt.
End AmsExample.

(** ** Witnesses *)
Import AmsExample.

Lemma ams_reservation_effect_witness :
  exists k' w', Ams_ReserveQuota Fixtures.kafka_config fresh w0 = (Ok ("sub-k9", k'), w') /\
    k'.(KR.ActualKafkaBillingModel) = "standard" /\
    exists size, GetKafkaInstanceSize Fixtures.kafka_config STANDARD "x2" = Ok size /\ size.(QuotaConsumed) = 2.
Proof.
  destruct (Ams_ReserveQuota Fixtures.kafka_config fresh w0) as [[[sub k']|e] w'] eqn:Hrun; [|vm_compute in Hrun; discriminate Hrun].
  pose proof Hrun as Hfull. apply (ams_reservation_effect Fixtures.kafka_config) in Hfull
    as (it & kbm & bm & size & req & rr & w1 & m & a & _ & _ & _ & _ & Hsize & _).
  exists k', w'. vm_compute in Hrun. injection Hrun as <- <- <-. split_and!; [reflexivity|reflexivity|].
  exists size. split; [exact Hsize|]. vm_compute in Hsize. by injection Hsize as <-.
Defined.

Lemma existing_reservation_is_reused_witness :
  Ams_ReserveQuotaIfNotAlreadyReserved Fixtures.kafka_config Fixtures.k1 w0 = (Ok ("sub-k1", Fixtures.k1), w0).
Proof.
  refine (proj1 (existing_reservation_is_reused Fixtures.kafka_config Fixtures.k1 w0 _ _ (mkSubscription "sub-k1" "standard") [] w0 _ _ _) _);
    vm_compute; reflexivity.
Defined.

Lemma only_own_quota_is_deleted_witness :
  let marketplace := mkKafkaBillingModel "marketplace" "rhosak" "RHOSAK" ["marketplace-aws"] 0 in
  Ams_DeleteQuotaForBillingModel "sub-k1" marketplace w0 = (Ok tt, w0).
Proof.
  intros marketplace.
  exact (only_own_quota_is_deleted "sub-k1" marketplace w0 (mkSubscription "sub-k1" "standard") w0 ltac:(discriminate) eq_refl).
Defined.

Lemma quota_defined_iff_allowed_witness :
  exists w', hasConfiguredQuotaCost "id-org-1" Fixtures.standard_model w0 = (Ok true, w') /\
    exists qc rr, 0 < qc.(AQ_Allowed) /\ rr ∈ qc.(AQ_RelatedResources).
Proof.
  destruct (hasConfiguredQuotaCost "id-org-1" Fixtures.standard_model w0) as [[b|e] w'] eqn:Hrun; [|vm_compute in Hrun; discriminate Hrun].
  pose proof Hrun as Hfull. apply quota_defined_iff_allowed in Hfull as (qcs & w1 & _ & Hiff).
  assert (b = true) as -> by (vm_compute in Hrun; by injection Hrun as <- _).
  exists w'. split; [reflexivity|]. destruct (proj1 Hiff eq_refl) as (qc & rr & _ & Hpos & Hin & _). by exists qc, rr.
Defined.

Lemma ams_entitlement_exact_witness :
  exists b, Ams_IsQuotaEntitlementActive Fixtures.kafka_config (Fixtures.k1 <| KR.SubscriptionId := "sub-k1" |>) w0 = (Ok b, w0) /\
    (b = false <-> AQ_Allowed (cost 5 2) = 0 /\ 0 < AQ_Consumed (cost 5 2)).
Proof.
  apply (ams_entitlement_exact Fixtures.kafka_config (Fixtures.k1 <| KR.SubscriptionId := "sub-k1" |>) w0 Fixtures.standard_model
    (mkSubscription "sub-k1" "standard") w0 "standard" "id-org-1" w0 [cost 5 2] w0); vm_compute; reflexivity.
Defined.

Lemma lost_subscription_never_expires_witness :
  exists e, reconcile_expires_at (KafkaExternals0 := ams_externals Fixtures.kafka_config DemoExternals.externals) Fixtures.kafka_config ∅ orphan w0 =
    ([e], orphan, ∅, w0).
Proof.
  destruct (lost_subscription_never_expires Fixtures.kafka_config DemoExternals.externals orphan ∅ w0 Fixtures.standard_model (Fixtures.size "x2" 2 None) w0)
    as (_ & e & Hr & _); [vm_compute; reflexivity..|]. exists e. exact Hr.
Defined.
