(* ===== verification/ConnectorModel.v ===== *)
(** * Connectors: entities and phases

    The entities of the connector fleet manager
    ([src/internal/connector/internal/api/dbapi]) and the phase machines of its
    clusters, namespaces and connectors
    ([src/internal/connector/internal/services/phase]).  Go string types are
    [string], as in [Status].

    The time stamps of [db.Model], which no operation modelled here reads, are
    left out; [DeletedAt.Valid] is the field [Deleted]. *)
From S2P Require Import Prelude Arrays Errors Status Config Model Store.

Open Scope Z_scope.

(** ** Constants *)
Definition ConnectorUnassigned : string := "unassigned".
Definition ConnectorReady : string := "ready".
Definition ConnectorStopped : string := "stopped".
Definition ConnectorDeleted : string := "deleted".

Definition ConnectorStatusPhaseAssigning : string := "assigning".
Definition ConnectorStatusPhaseAssigned : string := "assigned".
Definition ConnectorStatusPhaseUpdating : string := "updating".
Definition ConnectorStatusPhaseStopped : string := "stopped".
Definition ConnectorStatusPhaseProvisioning : string := "provisioning".
Definition ConnectorStatusPhaseReady : string := "ready".
Definition ConnectorStatusPhaseFailed : string := "failed".
Definition ConnectorStatusPhaseDeprovisioning : string := "deprovisioning".
Definition ConnectorStatusPhaseDeleting : string := "deleting".
Definition ConnectorStatusPhaseDeleted : string := "deleted".

Definition ValidDesiredStates : list string :=
  [ConnectorUnassigned; ConnectorReady; ConnectorStopped; ConnectorDeleted].
Definition AgentConnectorStatusPhase : list string :=
  [ConnectorStatusPhaseProvisioning; ConnectorStatusPhaseDeprovisioning; ConnectorStatusPhaseStopped;
   ConnectorStatusPhaseReady; ConnectorStatusPhaseFailed; ConnectorStatusPhaseDeleted].

Definition ConnectorClusterPhaseDisconnected : string := "disconnected".
Definition ConnectorClusterPhaseReady : string := "ready".
Definition ConnectorClusterPhaseDeleting : string := "deleting".
Definition ConnectorClusterOrgIdAnnotation : string := "cos.bf2.org/organisation-id".
Definition ConnectorTypePricingTierAnnotation : string := "cos.bf2.org/pricing-tier".

Definition ConnectorNamespacePhaseDisconnected : string := "disconnected".
Definition ConnectorNamespacePhaseReady : string := "ready".
Definition ConnectorNamespacePhaseDeleting : string := "deleting".
Definition ConnectorNamespacePhaseDeleted : string := "deleted".
Definition AllConnectorNamespaceStatus : list string :=
  [ConnectorNamespacePhaseDisconnected; ConnectorNamespacePhaseReady;
   ConnectorNamespacePhaseDeleting; ConnectorNamespacePhaseDeleted].

(** ** Entities *)
Record Condition := mkCondition {
  Condition_Type : string;
  Condition_Reason : string;
  Condition_Message : string;
  Condition_Status : string;
  Condition_LastTransitionTime : string
}.
Record OperatorStatus := mkOperatorStatus {
  Operator_Id : string;
  Operator_Type : string;
  Operator_Version : string;
  Operator_Namespace : string;
  Operator_Status : string
}.
Record ConnectorClusterPlatform := mkConnectorClusterPlatform {
  PlatformID : string;
  Platform_Type : string;
  Platform_Version : string
}.
#[export] Instance Condition_eq_dec : EqDecision Condition.
Proof. solve_decision. Defined.
#[export] Instance OperatorStatus_eq_dec : EqDecision OperatorStatus.
Proof. solve_decision. Defined.
#[export] Instance ConnectorClusterPlatform_eq_dec : EqDecision ConnectorClusterPlatform.
Proof. solve_decision. Defined.

(** A key and its value. *)
Definition Annotation : Type := string * string.

Module CC.
Record Status := mkStatus {
  Phase : string;
  Version : string;
  Platform : ConnectorClusterPlatform;
  Conditions : list Condition;
  Operators : list OperatorStatus
}.
#[export] Instance Status_eq_dec : EqDecision Status.
Proof. solve_decision. Defined.

Record ConnectorCluster := mkConnectorCluster {
  ID : string;
  Deleted : bool;
  Owner : string;
  OrganisationId : string;
  Name : string;
  ClientId : string;
  ClientSecret : string;
  Annotations : list Annotation;
  status : Status
}.

Definition eta_status (s : Status) : Status :=
  mkStatus (Phase s) (Version s) (Platform s) (Conditions s) (Operators s).
#[export] Instance set_Phase : Setter Phase := ltac:(build_setter eta_status).
#[export] Instance set_Version : Setter Version := ltac:(build_setter eta_status).

Definition eta (c : ConnectorCluster) : ConnectorCluster :=
  mkConnectorCluster (ID c) (Deleted c) (Owner c) (OrganisationId c) (Name c) (ClientId c) (ClientSecret c) (Annotations c) (status c).
#[export] Instance set_Deleted : Setter Deleted := ltac:(build_setter eta).
#[export] Instance set_Name : Setter Name := ltac:(build_setter eta).
#[export] Instance set_ClientId : Setter ClientId := ltac:(build_setter eta).
#[export] Instance set_ClientSecret : Setter ClientSecret := ltac:(build_setter eta).
#[export] Instance set_Annotations : Setter Annotations := ltac:(build_setter eta).
#[export] Instance set_status : Setter status := ltac:(build_setter eta).

Definition with_phase (p : string) (c : ConnectorCluster) : ConnectorCluster :=
  c <| status := c.(status) <| Phase := p |> |>.
End CC.
Export (hints) CC.
Abbreviation ConnectorCluster := CC.ConnectorCluster.
Abbreviation ConnectorClusterStatus := CC.Status.

Module NS.
Record Status := mkStatus {
  Phase : string;
  Version : string;
  ConnectorsDeployed : Z;
  Conditions : list Condition
}.
#[export] Instance Status_eq_dec : EqDecision Status.
Proof. solve_decision. Defined.

Record ConnectorNamespace := mkConnectorNamespace {
  ID : string;
  Deleted : bool;
  Name : string;
  ClusterId : string;
  Owner : string;
  version : Z;
  Expiration : option Z;
  Annotations : list Annotation;
  TenantUserId : option string;
  TenantOrganisationId : option string;
  status : Status
}.

Definition eta_status (s : Status) : Status :=
  mkStatus (Phase s) (Version s) (ConnectorsDeployed s) (Conditions s).
#[export] Instance set_Phase : Setter Phase := ltac:(build_setter eta_status).
#[export] Instance set_Version : Setter Version := ltac:(build_setter eta_status).
#[export] Instance set_ConnectorsDeployed : Setter ConnectorsDeployed := ltac:(build_setter eta_status).
#[export] Instance set_Conditions : Setter Conditions := ltac:(build_setter eta_status).

Definition eta (n : ConnectorNamespace) : ConnectorNamespace :=
  mkConnectorNamespace (ID n) (Deleted n) (Name n) (ClusterId n) (Owner n) (version n) (Expiration n) (Annotations n)
    (TenantUserId n) (TenantOrganisationId n) (status n).
#[export] Instance set_Deleted : Setter Deleted := ltac:(build_setter eta).
#[export] Instance set_Name : Setter Name := ltac:(build_setter eta).
#[export] Instance set_ClusterId : Setter ClusterId := ltac:(build_setter eta).
#[export] Instance set_version : Setter version := ltac:(build_setter eta).
#[export] Instance set_Expiration : Setter Expiration := ltac:(build_setter eta).
#[export] Instance set_Annotations : Setter Annotations := ltac:(build_setter eta).
#[export] Instance set_status : Setter status := ltac:(build_setter eta).

Definition with_phase (p : string) (n : ConnectorNamespace) : ConnectorNamespace :=
  n <| status := n.(status) <| Phase := p |> |>.
End NS.
Export (hints) NS.
Abbreviation ConnectorNamespace := NS.ConnectorNamespace.
Abbreviation ConnectorNamespaceStatus := NS.Status.

Record KafkaConnectionSettings := mkKafkaConnectionSettings { KafkaID : string; BootstrapServer : string }.
Record SchemaRegistryConnectionSettings := mkSchemaRegistryConnectionSettings { SchemaRegistryID : string; Url : string }.
(** [ClientSecret] is not a column. *)
Record ServiceAccount := mkServiceAccount {
  ServiceAccount_ClientId : string;
  ServiceAccount_ClientSecret : string;
  ClientSecretRef : string
}.

Module CS.
Record ConnectorStatus := mkConnectorStatus {
  ID : string;
  Deleted : bool;
  NamespaceID : option string;
  Phase : string
}.
Definition eta (s : ConnectorStatus) : ConnectorStatus := mkConnectorStatus (ID s) (Deleted s) (NamespaceID s) (Phase s).
#[export] Instance set_ID : Setter ID := ltac:(build_setter eta).
#[export] Instance set_Deleted : Setter Deleted := ltac:(build_setter eta).
#[export] Instance set_NamespaceID : Setter NamespaceID := ltac:(build_setter eta).
#[export] Instance set_Phase : Setter Phase := ltac:(build_setter eta).
End CS.
Export (hints) CS.
Abbreviation ConnectorStatus := CS.ConnectorStatus.
Definition no_status : ConnectorStatus := CS.mkConnectorStatus "" false None "".

Module CO.
Record Connector := mkConnector {
  ID : string;
  Deleted : bool;
  NamespaceId : option string;
  CloudProvider : string;
  Region : string;
  MultiAZ : bool;
  Name : string;
  Owner : string;
  OrganisationId : string;
  Version : Z;
  Annotations : list Annotation;
  ConnectorTypeId : string;
  ConnectorSpec : string;
  DesiredState : string;
  Channel : string;
  Kafka : KafkaConnectionSettings;
  SchemaRegistry : SchemaRegistryConnectionSettings;
  ServiceAccount : ServiceAccount;
  Status : ConnectorStatus
}.
Definition eta (c : Connector) : Connector :=
  mkConnector (ID c) (Deleted c) (NamespaceId c) (CloudProvider c) (Region c) (MultiAZ c) (Name c) (Owner c)
    (OrganisationId c) (Version c) (Annotations c) (ConnectorTypeId c) (ConnectorSpec c) (DesiredState c) (Channel c)
    (Kafka c) (SchemaRegistry c) (ServiceAccount c) (Status c).
#[export] Instance set_Deleted : Setter Deleted := ltac:(build_setter eta).
#[export] Instance set_NamespaceId : Setter NamespaceId := ltac:(build_setter eta).
#[export] Instance set_Version : Setter Version := ltac:(build_setter eta).
#[export] Instance set_DesiredState : Setter DesiredState := ltac:(build_setter eta).
#[export] Instance set_Status : Setter Status := ltac:(build_setter eta).
#[export] Instance set_Owner : Setter Owner := ltac:(build_setter eta).
#[export] Instance set_OrganisationId : Setter OrganisationId := ltac:(build_setter eta).

Definition with_phase (p : string) (c : Connector) : Connector :=
  c <| Status := c.(Status) <| CS.Phase := p |> |>.
End CO.
Export (hints) CO.
Abbreviation Connector := CO.Connector.

Module CD.
Record ConnectorDeployment := mkConnectorDeployment {
  ID : string;
  Deleted : bool;
  Version : Z;
  ConnectorID : string;
  OperatorID : string;
  ConnectorVersion : Z;
  ConnectorShardMetadataID : Z;
  ClusterID : string;
  NamespaceID : string;
  AllowUpgrade : bool
}.
Definition eta (d : ConnectorDeployment) : ConnectorDeployment :=
  mkConnectorDeployment (ID d) (Deleted d) (Version d) (ConnectorID d) (OperatorID d) (ConnectorVersion d)
    (ConnectorShardMetadataID d) (ClusterID d) (NamespaceID d) (AllowUpgrade d).
#[export] Instance set_Deleted : Setter Deleted := ltac:(build_setter eta).
#[export] Instance set_Version : Setter Version := ltac:(build_setter eta).
#[export] Instance set_ConnectorVersion : Setter ConnectorVersion := ltac:(build_setter eta).
End CD.
Export (hints) CD.
Abbreviation ConnectorDeployment := CD.ConnectorDeployment.

Module CDS.
Record ConnectorDeploymentStatus := mkConnectorDeploymentStatus {
  ID : string;
  Deleted : bool;
  Phase : string;
  Version : Z;
  Conditions : string;
  Operators : string;
  UpgradeAvailable : bool
}.
Definition eta (d : ConnectorDeploymentStatus) : ConnectorDeploymentStatus :=
  mkConnectorDeploymentStatus (ID d) (Deleted d) (Phase d) (Version d) (Conditions d) (Operators d) (UpgradeAvailable d).
#[export] Instance set_Deleted : Setter Deleted := ltac:(build_setter eta).
End CDS.
Export (hints) CDS.
Abbreviation ConnectorDeploymentStatus := CDS.ConnectorDeploymentStatus.

(** The associated rows of a type (channels, labels, annotations, capabilities)
    are kept with it. *)
Module CT.
Record ConnectorType := mkConnectorType {
  ID : string;
  Deleted : bool;
  Version : string;
  Name : string;
  Description : string;
  Deprecated : bool;
  JsonSchema : string;
  Channels : list string;
  IconHref : string;
  Labels : list string;
  Annotations : list Annotation;
  Capabilities : list string;
  Checksum : option string;
  FeaturedRank : Z
}.
Definition eta (t : ConnectorType) : ConnectorType :=
  mkConnectorType (ID t) (Deleted t) (Version t) (Name t) (Description t) (Deprecated t) (JsonSchema t) (Channels t) (IconHref t)
    (Labels t) (Annotations t) (Capabilities t) (Checksum t) (FeaturedRank t).
#[export] Instance set_Deleted : Setter Deleted := ltac:(build_setter eta).
#[export] Instance set_Deprecated : Setter Deprecated := ltac:(build_setter eta).
#[export] Instance set_Channels : Setter Channels := ltac:(build_setter eta).
#[export] Instance set_Labels : Setter Labels := ltac:(build_setter eta).
#[export] Instance set_Annotations : Setter Annotations := ltac:(build_setter eta).
#[export] Instance set_Capabilities : Setter Capabilities := ltac:(build_setter eta).
#[export] Instance set_Checksum : Setter Checksum := ltac:(build_setter eta).
End CT.
Export (hints) CT.
Abbreviation ConnectorType := CT.ConnectorType.

Module SM.
Record ConnectorShardMetadata := mkConnectorShardMetadata {
  ID : Z;
  ConnectorTypeId : string;
  Channel : string;
  Revision : Z;
  LatestRevision : option Z;
  ShardMetadata : string
}.
Definition eta (m : ConnectorShardMetadata) : ConnectorShardMetadata :=
  mkConnectorShardMetadata (ID m) (ConnectorTypeId m) (Channel m) (Revision m) (LatestRevision m) (ShardMetadata m).
#[export] Instance set_ID : Setter ID := ltac:(build_setter eta).
#[export] Instance set_LatestRevision : Setter LatestRevision := ltac:(build_setter eta).
End SM.
Export (hints) SM.
Abbreviation ConnectorShardMetadata := SM.ConnectorShardMetadata.

(** ** The state machine library

    [github.com/looplab/fsm] is third-party code.  An event that the table has
    no entry for in the current state is refused; an event whose destination is
    the current state gives [NoTransitionError]; any other event moves the
    machine.  When several descriptions name the same event and source, the last
    one is used. *)
Record EventDesc := mkEventDesc { Event_Name : string; Src : list string; Dst : string }.

Inductive EventOutcome := Moved (state : string) | NoTransitionError | EventRefused (reason : string).

Definition names (o s : string) (e : EventDesc) : bool := (Event_Name e =?s o) && existsb (String.eqb s) (Src e).
Definition transition (events : list EventDesc) (current event : string) : option string :=
  option_map Dst (last (List.filter (names event current) events)).

Class StateMachineLibrary := {
  fsm_Event : list EventDesc -> string -> string -> EventOutcome;
  fsm_Event_spec : forall events current event,
    match transition events current event with
    | Some dst => fsm_Event events current event = (if dst =?s current then NoTransitionError else Moved dst)
    | None => exists reason, fsm_Event events current event = EventRefused reason
    end
}.

(** The machine of the witnesses. *)
#[export] Program Instance looplab : StateMachineLibrary := {|
  fsm_Event events current event :=
    match transition events current event with
    | Some dst => if dst =?s current then NoTransitionError else Moved dst
    | None => EventRefused ("event " +:+ event +:+ " inappropriate in current state " +:+ current)
    end
|}.
Next Obligation. intros events current event. cbn. destruct (transition events current event); eauto. Qed.

(** ** The tables *)
Definition ConnectCluster : string := "connect".
Definition DisconnectCluster : string := "disconnect".
Definition DeleteCluster : string := "delete".

Definition clusterEvents : list EventDesc :=
  [ mkEventDesc ConnectCluster [ConnectorClusterPhaseDisconnected; ConnectorClusterPhaseReady] ConnectorClusterPhaseReady;
    mkEventDesc ConnectCluster [ConnectorClusterPhaseDeleting] ConnectorClusterPhaseDeleting;
    mkEventDesc DisconnectCluster [ConnectorClusterPhaseDisconnected; ConnectorClusterPhaseReady] ConnectorClusterPhaseDisconnected;
    mkEventDesc DeleteCluster [ConnectorClusterPhaseDisconnected; ConnectorClusterPhaseReady; ConnectorClusterPhaseDeleting] ConnectorClusterPhaseDeleting ].

Definition CreateNamespace : string := "create".
Definition ConnectNamespace : string := "connect".
Definition DisconnectNamespace : string := "disconnect".
Definition DeleteNamespace : string := "delete".

Definition namespaceEvents : list (string * list EventDesc) :=
  [ (ConnectorClusterPhaseDisconnected,
     [ mkEventDesc CreateNamespace [""] ConnectorNamespacePhaseDisconnected;
       mkEventDesc DisconnectNamespace [ConnectorNamespacePhaseDisconnected; ConnectorNamespacePhaseReady] ConnectorNamespacePhaseDisconnected;
       mkEventDesc DeleteNamespace [ConnectorNamespacePhaseDisconnected] ConnectorNamespacePhaseDeleted;
       mkEventDesc DeleteNamespace [ConnectorNamespacePhaseDeleting] ConnectorNamespacePhaseDeleting ]);
    (ConnectorClusterPhaseReady,
     [ mkEventDesc CreateNamespace [""] ConnectorNamespacePhaseDisconnected;
       mkEventDesc ConnectNamespace [ConnectorNamespacePhaseDisconnected; ConnectorNamespacePhaseReady] ConnectorNamespacePhaseReady;
       mkEventDesc ConnectNamespace [ConnectorNamespacePhaseDeleting] ConnectorNamespacePhaseDeleting;
       mkEventDesc DisconnectNamespace [ConnectorNamespacePhaseDisconnected; ConnectorNamespacePhaseReady] ConnectorNamespacePhaseDisconnected;
       mkEventDesc DeleteNamespace [ConnectorNamespacePhaseDisconnected] ConnectorNamespacePhaseDeleted;
       mkEventDesc DeleteNamespace [ConnectorNamespacePhaseReady; ConnectorNamespacePhaseDeleting] ConnectorNamespacePhaseDeleting ]);
    (ConnectorClusterPhaseDeleting,
     [ mkEventDesc ConnectNamespace [ConnectorNamespacePhaseDisconnected; ConnectorNamespacePhaseReady; ConnectorNamespacePhaseDeleting] ConnectorNamespacePhaseDeleting;
       mkEventDesc DeleteNamespace [ConnectorNamespacePhaseDisconnected; ConnectorNamespacePhaseReady; ConnectorNamespacePhaseDeleting] ConnectorNamespacePhaseDeleting;
       mkEventDesc DeleteNamespace [ConnectorNamespacePhaseDeleted] ConnectorNamespacePhaseDeleted ]) ].

Definition CreateConnector : string := "create".
Definition AssignConnector : string := "assign".
Definition UnassignConnector : string := "unassign".
Definition UpdateConnector : string := "update".
Definition StopConnector : string := "stop".
Definition RestartConnector : string := "restart".
Definition DeleteConnector : string := "delete".

Definition connectorEvents : list (string * list EventDesc) :=
  [ (ConnectorNamespacePhaseDisconnected,
     [ mkEventDesc CreateConnector [ConnectorUnassigned; ConnectorReady] ConnectorReady;
       mkEventDesc AssignConnector [ConnectorUnassigned; ConnectorReady] ConnectorReady;
       mkEventDesc UnassignConnector [ConnectorUnassigned; ConnectorReady; ConnectorStopped] ConnectorUnassigned;
       mkEventDesc UpdateConnector [ConnectorUnassigned] ConnectorUnassigned;
       mkEventDesc UpdateConnector [ConnectorReady] ConnectorReady;
       mkEventDesc UpdateConnector [ConnectorStopped] ConnectorStopped;
       mkEventDesc StopConnector [ConnectorStopped; ConnectorReady] ConnectorStopped;
       mkEventDesc DeleteConnector [ConnectorUnassigned; ConnectorReady; ConnectorStopped; ConnectorDeleted] ConnectorDeleted ]);
    (ConnectorNamespacePhaseReady,
     [ mkEventDesc CreateConnector [ConnectorUnassigned; ConnectorReady] ConnectorReady;
       mkEventDesc AssignConnector [ConnectorUnassigned] ConnectorReady;
       mkEventDesc UnassignConnector [ConnectorUnassigned; ConnectorReady; ConnectorStopped] ConnectorUnassigned;
       mkEventDesc UpdateConnector [ConnectorUnassigned] ConnectorUnassigned;
       mkEventDesc UpdateConnector [ConnectorReady] ConnectorReady;
       mkEventDesc UpdateConnector [ConnectorStopped] ConnectorStopped;
       mkEventDesc RestartConnector [ConnectorStopped; ConnectorReady] ConnectorReady;
       mkEventDesc StopConnector [ConnectorStopped; ConnectorReady] ConnectorStopped;
       mkEventDesc DeleteConnector [ConnectorUnassigned; ConnectorReady; ConnectorStopped; ConnectorDeleted] ConnectorDeleted ]);
    (ConnectorNamespacePhaseDeleting,
     [ mkEventDesc UnassignConnector [ConnectorUnassigned; ConnectorReady; ConnectorStopped] ConnectorUnassigned;
       mkEventDesc DeleteConnector [ConnectorUnassigned; ConnectorReady; ConnectorStopped; ConnectorDeleted] ConnectorDeleted ]) ].

Definition ConnectorStartingPhase : list (string * string) :=
  [ (CreateConnector, ConnectorStatusPhaseAssigning);
    (AssignConnector, ConnectorStatusPhaseAssigning);
    (UnassignConnector, ConnectorStatusPhaseDeleting);
    (RestartConnector, ConnectorStatusPhaseAssigned);
    (StopConnector, ConnectorStatusPhaseAssigned);
    (UpdateConnector, ConnectorStatusPhaseUpdating);
    (DeleteConnector, ConnectorStatusPhaseDeleting) ].

(** ** Operations

    Each returns whether the phase changed and the entity with its new phase;
    Go updates the entity in place.  The [updatePhase] functions run in the
    caller's monad; they are modelled where they are passed. *)
Section Perform.
Context `{StateMachineLibrary}.

Definition table_of (tables : list (string * list EventDesc)) (phase : string) : list EventDesc :=
  default [] (map_lookup tables phase).

Definition ClusterFSM_Perform (operation : string) (c : ConnectorCluster) : result ServiceError (bool * ConnectorCluster) :=
  match fsm_Event clusterEvents c.(CC.status).(CC.Phase) operation with
  | Moved s => Ok (true, CC.with_phase s c)
  | NoTransitionError => Ok (false, c)
  | EventRefused _ => Err (BadRequest "cannot perform Cluster operation [%s] because %s")
  end.

Definition NamespaceFSM_Perform (cluster : ConnectorCluster) (operation : string) (n : ConnectorNamespace) :
    result ServiceError (bool * ConnectorNamespace) :=
  match fsm_Event (table_of namespaceEvents cluster.(CC.status).(CC.Phase)) n.(NS.status).(NS.Phase) operation with
  | Moved s => Ok (true, NS.with_phase s n)
  | NoTransitionError => Ok (false, n)
  | EventRefused _ => Err (BadRequest "cannot perform Namespace operation [%s] in Cluster phase [%s] because %s")
  end.

Definition ConnectorFSM_Perform (namespace : ConnectorNamespace) (operation : string) (c : Connector) :
    result ServiceError (bool * Connector) :=
  match fsm_Event (table_of connectorEvents namespace.(NS.status).(NS.Phase)) c.(CO.DesiredState) operation with
  | Moved s =>
      let c := c <| CO.DesiredState := s |> in
      Ok (true, match map_lookup ConnectorStartingPhase operation with Some p => CO.with_phase p c | None => c end)
  | NoTransitionError => Ok (false, c)
  | EventRefused _ => Err (BadRequest "cannot perform Connector operation [%s] in Namespace phase [%s] because %s")
  end.

(** The functions of [updatePhase] run, in order, when the phase changed. *)
Definition perform {W X} (fsm : X -> result ServiceError (bool * X)) (updatePhase : list (X -> M W ServiceError unit)) (x : X) :
    M W ServiceError (bool * X) :=
  p <~ lift (fsm x) ;;
  _ <~ (if fst p then for_each (fun f => f (snd p)) updatePhase else ret tt) ;;
  ret p.

Definition PerformClusterOperation {W} (cluster : ConnectorCluster) (operation : string)
    (updatePhase : list (ConnectorCluster -> M W ServiceError unit)) : M W ServiceError (bool * ConnectorCluster) :=
  perform (ClusterFSM_Perform operation) updatePhase cluster.
Definition PerformNamespaceOperation {W} (cluster : ConnectorCluster) (namespace : ConnectorNamespace) (operation : string)
    (updatePhase : list (ConnectorNamespace -> M W ServiceError unit)) : M W ServiceError (bool * ConnectorNamespace) :=
  perform (NamespaceFSM_Perform cluster operation) updatePhase namespace.
Definition PerformConnectorOperation {W} (namespace : ConnectorNamespace) (connector : Connector) (operation : string)
    (updatePhase : list (Connector -> M W ServiceError unit)) : M W ServiceError (bool * Connector) :=
  perform (ConnectorFSM_Perform namespace operation) updatePhase connector.
End Perform.

(** ** What the tables say *)
Section Tables.
Context `{StateMachineLibrary}.

(** An event that succeeds ends in the destination the table gives. *)
Lemma fsm_event_dst events current event :
  match fsm_Event events current event with
  | Moved s => transition events current event = Some s /\ s <> current
  | NoTransitionError => transition events current event = Some current
  | EventRefused _ => transition events current event = None
  end.
Proof.
  pose proof (fsm_Event_spec events current event) as Hs.
  destruct (transition events current event) as [dst|]; [|by destruct Hs as [? ->]].
  rewrite Hs. destruct (dst =?s current) eqn:E; [by apply String.eqb_eq in E as -> |].
  by apply String.eqb_neq in E.
Qed.

Lemma transition_in events current event dst : transition events current event = Some dst ->
  exists e, e ∈ events /\ names event current e = true /\ Dst e = dst.
Proof.
  unfold transition. destruct (last _) as [e|] eqn:E; [|done]. intros [= <-]. exists e.
  apply last_Some_elem_of in E. rewrite list_elem_of_In, filter_In, <- list_elem_of_In in E. naive_solver.
Qed.

(** A property of all descriptions of a table holds of every event that succeeds. *)
Lemma transition_all (P : EventDesc -> bool) events current event dst :
  forallb P events = true -> transition events current event = Some dst ->
  exists e, P e = true /\ event = Event_Name e /\ current ∈ Src e /\ dst = Dst e.
Proof.
  intros HP (e & He & Hn & <-)%transition_in. exists e. apply andb_true_iff in Hn as [Hn Hs].
  rewrite forallb_forall in HP. apply list_elem_of_In in He.
  apply String.eqb_eq in Hn. apply existsb_exists in Hs as (s & Hs & ->%String.eqb_eq).
  rewrite <- list_elem_of_In in Hs. naive_solver.
Qed.

Lemma cluster_perform_ok operation c b c' : ClusterFSM_Perform operation c = Ok (b, c') ->
  transition clusterEvents c.(CC.status).(CC.Phase) operation = Some c'.(CC.status).(CC.Phase) /\
  c' = CC.with_phase c'.(CC.status).(CC.Phase) c /\ b = negb (c'.(CC.status).(CC.Phase) =?s c.(CC.status).(CC.Phase)).
Proof.
  unfold ClusterFSM_Perform. pose proof (fsm_event_dst clusterEvents c.(CC.status).(CC.Phase) operation) as Hd.
  destruct (fsm_Event _ _ _) as [s| |]; [| |done]; intros [= <- <-]; simpl.
  - destruct Hd as [-> Hne]. split_and!; try done. apply String.eqb_neq in Hne. by rewrite Hne.
  - rewrite Hd, String.eqb_refl. by destruct c as [? ? ? ? ? ? ? ? []].
Qed.

Lemma namespace_perform_ok cluster operation n b n' : NamespaceFSM_Perform cluster operation n = Ok (b, n') ->
  transition (table_of namespaceEvents cluster.(CC.status).(CC.Phase)) n.(NS.status).(NS.Phase) operation = Some n'.(NS.status).(NS.Phase) /\
  n' = NS.with_phase n'.(NS.status).(NS.Phase) n /\ b = negb (n'.(NS.status).(NS.Phase) =?s n.(NS.status).(NS.Phase)).
Proof.
  unfold NamespaceFSM_Perform. set (t := table_of _ _). pose proof (fsm_event_dst t n.(NS.status).(NS.Phase) operation) as Hd.
  destruct (fsm_Event _ _ _) as [s| |]; [| |done]; intros [= <- <-]; simpl.
  - destruct Hd as [-> Hne]. split_and!; try done. apply String.eqb_neq in Hne. by rewrite Hne.
  - rewrite Hd, String.eqb_refl. by destruct n as [? ? ? ? ? ? ? ? ? ? []].
Qed.

(** The tables agree with their reference: what each operation demands. *)
Definition connector_next (namespacePhase state operation : string) : option string :=
  let live := existsb (String.eqb state) [ConnectorUnassigned; ConnectorReady; ConnectorStopped] in
  let serving := negb (namespacePhase =?s ConnectorNamespacePhaseDeleting) in
  if operation =?s DeleteConnector then Some ConnectorDeleted
  else if negb live then None
  else if operation =?s UnassignConnector then Some ConnectorUnassigned
  else if negb serving then None
  else if operation =?s UpdateConnector then Some state
  else if operation =?s CreateConnector then (if state =?s ConnectorStopped then None else Some ConnectorReady)
  else if operation =?s AssignConnector then
    (if (state =?s ConnectorUnassigned) || ((state =?s ConnectorReady) && (namespacePhase =?s ConnectorNamespacePhaseDisconnected))
     then Some ConnectorReady else None)
  else if operation =?s StopConnector then (if state =?s ConnectorUnassigned then None else Some ConnectorStopped)
  else if operation =?s RestartConnector then
    (if negb (state =?s ConnectorUnassigned) && (namespacePhase =?s ConnectorNamespacePhaseReady) then Some ConnectorReady else None)
  else None.

Definition connector_operations : list string :=
  [CreateConnector; AssignConnector; UnassignConnector; UpdateConnector; StopConnector; RestartConnector; DeleteConnector].
Definition live_namespace_phases : list string :=
  [ConnectorNamespacePhaseDisconnected; ConnectorNamespacePhaseReady; ConnectorNamespacePhaseDeleting].

Lemma connector_table_exact :
  forallb (fun p => forallb (fun s => forallb (fun o =>
    bool_decide (transition (table_of connectorEvents p) s o = connector_next p s o)) connector_operations) ValidDesiredStates)
    live_namespace_phases = true.
Proof. vm_compute. reflexivity. Qed.

(** [C19] The table of the connector operations is the reference
    [connector_next]: for every phase of a namespace that is not deleted, every
    desired state and every operation, the operation succeeds exactly when the
    reference allows it; the connector then has the state of the reference, and
    if the state changed, the phase that the operation starts in; all else of
    the connector is kept. *)
Theorem connector_operation_exact namespace operation c :
  namespace.(NS.status).(NS.Phase) ∈ live_namespace_phases ->
  c.(CO.DesiredState) ∈ ValidDesiredStates -> operation ∈ connector_operations ->
  match connector_next namespace.(NS.status).(NS.Phase) c.(CO.DesiredState) operation with
  | Some s =>
      ConnectorFSM_Perform namespace operation c =
      Ok (if s =?s c.(CO.DesiredState) then (false, c)
          else (true, CO.with_phase (default "" (map_lookup ConnectorStartingPhase operation)) (c <| CO.DesiredState := s |>)))
  | None => exists e, ConnectorFSM_Perform namespace operation c = Err e /\ HttpCode e = StatusBadRequest
  end.
Proof.
  intros Hp Hs Ho. pose proof connector_table_exact as Ht. rewrite forallb_forall in Ht.
  specialize (Ht _ (proj1 (list_elem_of_In _ _) Hp)). rewrite forallb_forall in Ht.
  specialize (Ht _ (proj1 (list_elem_of_In _ _) Hs)). rewrite forallb_forall in Ht.
  specialize (Ht _ (proj1 (list_elem_of_In _ _) Ho)). apply bool_decide_eq_true in Ht.
  unfold ConnectorFSM_Perform. pose proof (fsm_event_dst (table_of connectorEvents namespace.(NS.status).(NS.Phase)) c.(CO.DesiredState) operation) as Hd.
  assert (exists p, map_lookup ConnectorStartingPhase operation = Some p) as [p Hp'].
  { revert Ho. unfold connector_operations. set_unfold. intros Ho.
    repeat destruct Ho as [-> | Ho]; try (eexists; reflexivity); done. }
  rewrite Ht in Hd. destruct (fsm_Event _ _ _) as [s| |].
  - destruct Hd as [-> Hne]. apply String.eqb_neq in Hne. by rewrite Hne, Hp'.
  - by rewrite Hd, String.eqb_refl.
  - rewrite Hd. by eexists.
Qed.
End Tables.

(** ** Deletion is final

    A cluster, one of its namespaces and a connector of that namespace, under
    the operations of the three machines and the agent's confirmation that a
    namespace is gone. *)
Section Life.
Context `{StateMachineLibrary}.

Record fleet := mkFleet { f_cluster : ConnectorCluster; f_namespace : ConnectorNamespace; f_connector : Connector }.

Inductive fleet_step : fleet -> fleet -> Prop :=
| step_cluster operation b c c' n k :
    ClusterFSM_Perform operation c = Ok (b, c') -> fleet_step (mkFleet c n k) (mkFleet c' n k)
| step_namespace operation b c n n' k :
    NamespaceFSM_Perform c operation n = Ok (b, n') -> fleet_step (mkFleet c n k) (mkFleet c n' k)
| step_connector operation b c n k k' :
    ConnectorFSM_Perform n operation k = Ok (b, k') -> fleet_step (mkFleet c n k) (mkFleet c n k')
| step_confirmed c n k :
    n.(NS.status).(NS.Phase) = ConnectorNamespacePhaseDeleting ->
    fleet_step (mkFleet c n k) (mkFleet c (NS.with_phase ConnectorNamespacePhaseDeleted n) k).

Definition ending_namespace (n : ConnectorNamespace) : bool :=
  existsb (String.eqb n.(NS.status).(NS.Phase)) [ConnectorNamespacePhaseDeleting; ConnectorNamespacePhaseDeleted].
Definition released (k : Connector) : bool :=
  existsb (String.eqb k.(CO.DesiredState)) [ConnectorUnassigned; ConnectorDeleted].

(** What has begun to end: each conjunct is kept by every step. *)
Definition ended (f f' : fleet) : Prop :=
  (f.(f_cluster).(CC.status).(CC.Phase) = ConnectorClusterPhaseDeleting ->
   f'.(f_cluster).(CC.status).(CC.Phase) = ConnectorClusterPhaseDeleting) /\
  (ending_namespace f.(f_namespace) = true -> ending_namespace f'.(f_namespace) = true) /\
  (f.(f_namespace).(NS.status).(NS.Phase) = ConnectorNamespacePhaseDeleted ->
   f'.(f_namespace).(NS.status).(NS.Phase) = ConnectorNamespacePhaseDeleted) /\
  (f.(f_connector).(CO.DesiredState) = ConnectorDeleted -> f'.(f_connector).(CO.DesiredState) = ConnectorDeleted) /\
  (ending_namespace f.(f_namespace) = true -> released f.(f_connector) = true -> released f'.(f_connector) = true).

(** One description of a table keeps an ended phase ended. *)
Definition keeps (ended_states : list string) (e : EventDesc) : bool :=
  forallb (fun s => implb (existsb (String.eqb s) ended_states) (existsb (String.eqb (Dst e)) ended_states)) (Src e).

Lemma keeps_transition ended_states events current event dst :
  forallb (keeps ended_states) events = true -> transition events current event = Some dst ->
  existsb (String.eqb current) ended_states = true -> existsb (String.eqb dst) ended_states = true.
Proof.
  intros Hk (e & He & _ & Hs & ->)%(transition_all (keeps ended_states)); [|done]. intros Hc.
  unfold keeps in He. rewrite forallb_forall in He. specialize (He current (proj1 (list_elem_of_In _ _) Hs)).
  by rewrite Hc in He.
Qed.

(** A Go map of tables: a property of all tables holds of the one looked up. *)
Lemma table_of_all (P : EventDesc -> bool) tables phase :
  forallb (fun t => forallb P (snd t)) tables = true -> forallb P (table_of tables phase) = true.
Proof.
  unfold table_of. induction tables as [|[p t] tables IH]; simpl; [done|]. intros [Ht Hts]%andb_true_iff.
  by destruct (p =?s phase); simpl; [|apply IH].
Qed.

Lemma one_state s d : existsb (String.eqb s) [d] = true <-> s = d.
Proof. simpl. rewrite orb_false_r. apply String.eqb_eq. Qed.

Lemma connector_perform_state n operation k b k' : ConnectorFSM_Perform n operation k = Ok (b, k') ->
  transition (table_of connectorEvents n.(NS.status).(NS.Phase)) k.(CO.DesiredState) operation = Some k'.(CO.DesiredState).
Proof.
  unfold ConnectorFSM_Perform. set (t := table_of _ _). pose proof (fsm_event_dst t k.(CO.DesiredState) operation) as Hd.
  destruct (fsm_Event _ _ _) as [s| |]; [|intros [= <- <-]; done|done]. destruct Hd as [-> _].
  destruct (map_lookup ConnectorStartingPhase operation); intros [= <- <-]; done.
Qed.

(** In a namespace that ends, no operation asks for a connector to run. *)
Lemma released_kept n operation k b k' : ending_namespace n = true ->
  ConnectorFSM_Perform n operation k = Ok (b, k') -> released k = true -> released k' = true.
Proof.
  intros Hn Hp%connector_perform_state Hr. unfold released in *. refine (keeps_transition _ _ _ _ _ _ Hp Hr).
  revert Hn. unfold ending_namespace. simpl. rewrite orb_false_r, orb_true_iff, !String.eqb_eq.
  intros [-> | ->]; reflexivity.
Qed.

Lemma step_ended f f' : fleet_step f f' -> ended f f'.
Proof.
  destruct 1 as [operation b c c' n k Hp|operation b c n n' k Hp|operation b c n k k' Hp|c n k Hp]; unfold ended; simpl;
    split_and!; try done.
  - apply cluster_perform_ok in Hp as (Ht & _). rewrite <- !one_state. by refine (keeps_transition _ _ _ _ _ _ Ht).
  - apply namespace_perform_ok in Hp as (Ht & _). by refine (keeps_transition _ _ _ _ _ (table_of_all _ _ _ _) Ht).
  - apply namespace_perform_ok in Hp as (Ht & _). rewrite <- !one_state.
    by refine (keeps_transition _ _ _ _ _ (table_of_all _ _ _ _) Ht).
  - apply connector_perform_state in Hp. rewrite <- !one_state.
    by refine (keeps_transition _ _ _ _ _ (table_of_all _ _ _ _) Hp).
  - intros Hn. by apply (released_kept _ _ _ _ _ Hn Hp).
Qed.

#[export] Instance ended_preorder : PreOrder ended.
Proof. split; [done|]. unfold ended. intros x y z. naive_solver. Qed.

(** Deletion is final: in every sequence of operations on a cluster, a
    namespace and a connector, a cluster that is being deleted stays so, a
    namespace that is being deleted can only become deleted and then stays
    deleted, a connector whose desired state is [deleted] keeps it, and a
    connector that was released in a namespace that ends is never asked to run
    again. *)
Theorem connector_deletion_is_final f f' : rtc fleet_step f f' -> ended f f'.
Proof. induction 1 as [|x y z Hs _ IH]; [reflexivity|]. etrans; [by apply step_ended | done]. Qed.
End Life.

Module ConnectorExample.
Definition platform : ConnectorClusterPlatform := mkConnectorClusterPlatform "" "" "".
Definition cluster : ConnectorCluster :=
  CC.mkConnectorCluster "cluster-1" false "alice" "org-1" "First" "client-1" "s3cret" []
    (CC.mkStatus ConnectorClusterPhaseReady "" platform [] []).
Definition namespace : ConnectorNamespace :=
  NS.mkConnectorNamespace "ns-1" false "space" "cluster-1" "alice" 3 None [] None (Some "org-1")
    (NS.mkStatus ConnectorNamespacePhaseReady "" 0 []).
Definition connector : Connector :=
  CO.mkConnector "co-1" false (Some "ns-1") "" "" false "Source" "alice" "org-1" 5 [] "log_sink_0.1" "{}" ConnectorReady "stable"
    (mkKafkaConnectionSettings "k-1" "k-1.example.org:443") (mkSchemaRegistryConnectionSettings "" "")
    (mkServiceAccount "sa-1" "" "ref-1") (CS.mkConnectorStatus "co-1" false (Some "ns-1") ConnectorStatusPhaseReady).
End ConnectorExample.

Lemma connector_operation_exact_witness :
  ConnectorFSM_Perform ConnectorExample.namespace StopConnector ConnectorExample.connector =
  Ok (true, CO.with_phase ConnectorStatusPhaseAssigned (ConnectorExample.connector <| CO.DesiredState := ConnectorStopped |>)).
Proof.
  apply (connector_operation_exact ConnectorExample.namespace StopConnector ConnectorExample.connector);
    vm_compute; set_solver.
Defined.

Lemma connector_deletion_is_final_witness :
  ended (mkFleet (CC.with_phase ConnectorClusterPhaseDeleting ConnectorExample.cluster) ConnectorExample.namespace ConnectorExample.connector)
    (mkFleet (CC.with_phase ConnectorClusterPhaseDeleting ConnectorExample.cluster)
       (NS.with_phase ConnectorNamespacePhaseDeleting ConnectorExample.namespace)
       (CO.with_phase ConnectorStatusPhaseDeleting (ConnectorExample.connector <| CO.DesiredState := ConnectorUnassigned |>))).
Proof.
  apply (connector_deletion_is_final (H := looplab)). eapply rtc_l.
  - eapply (step_namespace ConnectNamespace). reflexivity.
  - eapply rtc_once. eapply (step_connector UnassignConnector). reflexivity.
Defined.
