(* ===== verification/ConnectorStore.v ===== *)
(** * Connectors: the database and the transactions of a request

    The tables of the connector fleet manager, the database as an instance of
    the class [ConnectorDB] (PostgreSQL and gorm are third-party code), gorm's
    transactions, and the transaction that travels in a context together with
    the actions to run after its commit ([src/pkg/db/context.go],
    [src/pkg/services/util.go], [InDBTransaction] of
    [src/internal/connector/internal/workers/connector_mgr.go]).

    The services obtain their connections from the connection factory and never
    use the transaction of the context, so that its outcome decides about the
    actions only: statements that succeeded stay. *)
From S2P Require Import Prelude Arrays Errors Status Config Model Store ConnectorModel.

Open Scope Z_scope.

(** ** Tables *)
Record ctables := mkCtables {
  cclusters : list ConnectorCluster;
  namespaces : list ConnectorNamespace;
  connectors : list Connector;
  connector_statuses : list ConnectorStatus;
  deployments : list ConnectorDeployment;
  deployment_statuses : list ConnectorDeploymentStatus;
  connector_types : list ConnectorType;
  shard_metadata : list ConnectorShardMetadata
}.
Definition eta_ctables (t : ctables) : ctables :=
  mkCtables (cclusters t) (namespaces t) (connectors t) (connector_statuses t) (deployments t) (deployment_statuses t)
    (connector_types t) (shard_metadata t).
#[export] Instance set_cclusters : Setter cclusters := ltac:(build_setter eta_ctables).
#[export] Instance set_namespaces : Setter namespaces := ltac:(build_setter eta_ctables).
#[export] Instance set_connectors : Setter connectors := ltac:(build_setter eta_ctables).
#[export] Instance set_connector_statuses : Setter connector_statuses := ltac:(build_setter eta_ctables).
#[export] Instance set_deployments : Setter deployments := ltac:(build_setter eta_ctables).
#[export] Instance set_deployment_statuses : Setter deployment_statuses := ltac:(build_setter eta_ctables).
#[export] Instance set_connector_types : Setter connector_types := ltac:(build_setter eta_ctables).
#[export] Instance set_shard_metadata : Setter shard_metadata := ltac:(build_setter eta_ctables).

(** gorm adds [deleted_at IS NULL] to the queries of a model and turns a
    deletion into an update of that column. *)
Definition live_clusters (t : ctables) : list ConnectorCluster := List.filter (fun c => negb c.(CC.Deleted)) t.(cclusters).
Definition live_namespaces (t : ctables) : list ConnectorNamespace := List.filter (fun n => negb n.(NS.Deleted)) t.(namespaces).
Definition live_connectors (t : ctables) : list Connector := List.filter (fun c => negb c.(CO.Deleted)) t.(connectors).
Definition live_statuses (t : ctables) : list ConnectorStatus := List.filter (fun s => negb s.(CS.Deleted)) t.(connector_statuses).
Definition live_types (t : ctables) : list ConnectorType := List.filter (fun c => negb c.(CT.Deleted)) t.(connector_types).
Definition live_deployments (t : ctables) : list ConnectorDeployment := List.filter (fun d => negb d.(CD.Deleted)) t.(deployments).

(** [UPDATE ... SET ... WHERE p]. *)
Definition amend {Row} (p : Row -> bool) (f : Row -> Row) (rows : list Row) : list Row :=
  map (fun r => if p r then f r else r) rows.
Definition affected {Row} (p : Row -> bool) (rows : list Row) : Z := Z.of_nat (length (List.filter p rows)).

(** The version triggers
    ([src/internal/connector/internal/migrations/add_connector_tables.go] and
    [202206060000_fix_connector_namespace_version_trigger.go]): every row that is
    written takes the next value of a sequence. *)
Fixpoint amend_versioned {Row} (setv : Z -> Row -> Row) (p : Row -> bool) (f : Row -> Row) (v : Z) (rows : list Row) : list Row :=
  match rows with
  | [] => []
  | r :: rows' =>
      if p r then setv v (f r) :: amend_versioned setv p f (v + 1) rows'
      else r :: amend_versioned setv p f v rows'
  end.

Definition ns_version (v : Z) (n : ConnectorNamespace) : ConnectorNamespace := n <| NS.version := v |>.
Definition co_version (v : Z) (c : Connector) : Connector := c <| CO.Version := v |>.
Definition de_version (v : Z) (d : ConnectorDeployment) : ConnectorDeployment := d <| CD.Version := v |>.

(** Inserts the row, or replaces the one with its key. *)
Definition upsert {Row} (key : Row -> string) (r : Row) (rows : list Row) : list Row :=
  if existsb (fun r' => key r' =?s key r) rows
  then map (fun r' => if key r' =?s key r then r else r') rows
  else rows ++ [r].

(** ** The interface

    Statements are functions of the tables.  A query without an order may
    return its rows in any order.  A change is given the next value of the
    version sequences and may violate a constraint ([None]); a statement can fail
    at any time and then leaves the tables as they were; that there is no row is
    not an error of a query for all rows.  [db_end] begins or ends
    a transaction of a connection, and [db_restore] is the effect of rolling back
    to the tables a transaction began with. *)
Class ConnectorDB (D : Type) := {
  ctables_of : D -> ctables;
  cnow : D -> Z;
  next_version : D -> Z;
  db_select : forall {R}, (ctables -> list R) -> M D error (list R);
  db_value : forall {A}, (ctables -> A) -> M D error A;
  db_change : forall {A}, (Z -> ctables -> option (A * ctables)) -> M D error A;
  db_end : M D error unit;
  db_restore : ctables -> D -> D;
  db_select_ok : forall R (q : ctables -> list R) d l d', db_select q d = (Ok l, d') -> l ≡ₚ q (ctables_of d) /\ ctables_of d' = ctables_of d;
  db_select_err : forall R (q : ctables -> list R) d e d', db_select q d = (Err e, d') -> ctables_of d' = ctables_of d;
  db_select_fails : forall R (q : ctables -> list R) d e d', db_select q d = (Err e, d') -> e <> EPlain "record not found";
  db_value_ok : forall A (q : ctables -> A) d a d', db_value q d = (Ok a, d') -> a = q (ctables_of d) /\ ctables_of d' = ctables_of d;
  db_value_err : forall A (q : ctables -> A) d e d', db_value q d = (Err e, d') -> ctables_of d' = ctables_of d;
  db_change_ok : forall A (u : Z -> ctables -> option (A * ctables)) d a d', db_change u d = (Ok a, d') ->
    u (next_version d) (ctables_of d) = Some (a, ctables_of d');
  db_change_err : forall A (u : Z -> ctables -> option (A * ctables)) d e d', db_change u d = (Err e, d') -> ctables_of d' = ctables_of d;
  db_end_tables : forall d, ctables_of (snd (db_end d)) = ctables_of d;
  db_restore_tables : forall t d, ctables_of (db_restore t d) = t;
  namespace_versions_used : forall d n, n ∈ (ctables_of d).(namespaces) -> n.(NS.version) < next_version d
}.

(** ** The world

    The database, and what the code keeps beside it: the actions that wait for
    the commit of the context's transaction, the signals sent on the bus, the
    connectors whose secrets were removed from the vault, the service accounts
    that the identity provider was asked to remove, and [lastVersion] of the
    connector worker. *)
Inductive PostCommitAction :=
| Notify (signal : string)
| SaveLastVersion (v : Z)
| DeleteConnectorSecrets (c : Connector).

Record cworld (D : Type) := mkCworld {
  cdb : D;
  postCommitActions : list PostCommitAction;
  signals : list string;
  purged : list Connector;
  removed_accounts : list string;
  lastVersion : Z
}.
Arguments mkCworld {D}.
Arguments cdb {D}.
Arguments postCommitActions {D}.
Arguments signals {D}.
Arguments purged {D}.
Arguments removed_accounts {D}.
Arguments lastVersion {D}.

Section World.
Context {D : Type} `{ConnectorDB D}.
Abbreviation W := (cworld D).

Definition tables_in (w : W) : ctables := ctables_of w.(cdb).
Definition with_db (d : D) (w : W) : W :=
  mkCworld d w.(postCommitActions) w.(signals) w.(purged) w.(removed_accounts) w.(lastVersion).
Definition with_actions (l : list PostCommitAction) (w : W) : W :=
  mkCworld w.(cdb) l w.(signals) w.(purged) w.(removed_accounts) w.(lastVersion).

Definition on_db {A} (m : M D error A) : M W error A := fun w =>
  let '(r, d) := m w.(cdb) in (r, with_db d w).

Definition select {R} (q : ctables -> list R) : M W error (list R) := on_db (db_select q).
Definition value {A} (q : ctables -> A) : M W error A := on_db (db_value q).
Definition change {A} (u : Z -> ctables -> option (A * ctables)) : M W error A := on_db (db_change u).
Definition now {E} : M W E Z := fun w => (Ok (cnow w.(cdb)), w).

(** [gorm.DB.Transaction]: an error of the function or of the commit rolls back.
    [of_db] makes the error of the database one of the function's, with what the
    function has returned by then. *)
Definition TransactionE {E A} (of_db : option A -> error -> E) (m : M W E A) : M W E A := fun w =>
  match on_db db_end w with
  | (Err e, w0) => (Err (of_db None e), w0)
  | (Ok _, w0) =>
      match m w0 with
      | (Err e, w1) => (Err e, with_db (db_restore (tables_in w) w1.(cdb)) w1)
      | (Ok a, w1) =>
          match on_db db_end w1 with
          | (Ok _, w2) => (Ok a, w2)
          | (Err e, w2) => (Err (of_db (Some a) e), with_db (db_restore (tables_in w) w2.(cdb)) w2)
          end
      end
  end.
Definition Transaction {A} (m : M W error A) : M W error A := TransactionE (fun _ e => e) m.

(** A transaction whose function issues its changes on other connections: there
    is nothing to roll back. *)
Definition ReadTransaction {A} (m : M W error A) : M W error A :=
  _ <~ on_db db_end ;; a <~ m ;; _ <~ on_db db_end ;; ret a.

(** ** The transaction of a context: [src/pkg/db/context.go] *)
Definition AddPostCommitAction {E} (a : PostCommitAction) : M W E unit := fun w =>
  (Ok tt, with_actions (w.(postCommitActions) ++ [a]) w).

Definition run_action (a : PostCommitAction) (w : W) : W :=
  match a with
  | Notify s => mkCworld w.(cdb) w.(postCommitActions) (w.(signals) ++ [s]) w.(purged) w.(removed_accounts) w.(lastVersion)
  | SaveLastVersion v => mkCworld w.(cdb) w.(postCommitActions) w.(signals) w.(purged) w.(removed_accounts) v
  | DeleteConnectorSecrets c => mkCworld w.(cdb) w.(postCommitActions) w.(signals) (w.(purged) ++ [c]) w.(removed_accounts) w.(lastVersion)
  end.
Definition run_actions (l : list PostCommitAction) (w : W) : W := foldl (fun w a => run_action a w) w l.

Definition Begin : M W error unit := wrap_err (fun _ => EPlain "could not begin transaction: %v") (on_db db_end).
Definition Resolve (markedForRollback : bool) : M W error unit := fun w =>
  let actions := w.(postCommitActions) in
  match on_db db_end (with_actions [] w) with
  | (Err _, w1) => (Err (EPlain (if markedForRollback then "could not rollback transaction: %v" else "could not commit transaction: %v")), w1)
  | (Ok _, w1) => (Ok tt, if markedForRollback then w1 else run_actions actions w1)
  end.

(** The error of [f], as a service error. *)
Definition as_service_error (e : error) : ServiceError := match e with EService s => s | _ => GeneralError "%v" end.

Definition InDBTransaction (f : M W error unit) : M W ServiceError unit := fun w =>
  match Begin w with
  | (Err _, w0) => (Err (GeneralError "failed to create tx: %v"), w0)
  | (Ok _, w0) =>
      let '(r, w1) := f w0 in
      match Resolve (negb (is_ok r)) w1 with
      | (Err _, w2) => (Err (GeneralError "failed to resolve tx: %v"), w2)
      | (Ok _, w2) => (map_err as_service_error r, w2)
      end
  end.
End World.

(** ** [src/pkg/services/util.go] *)
Definition record_not_found : error := EPlain "record not found".
Definition IsRecordNotFoundError (e : error) : bool := match e with EPlain s => s =?s "record not found" | _ => false end.

Definition HandleGetError (e : error) : ServiceError :=
  if IsRecordNotFoundError e then NotFound "%s with %s='%v' not found"
  else NewWithCause ErrorGeneral (Some e) "unable to find %s with %s='%v'".
Definition HandleGoneError : ServiceError := New ErrorGone "%s with %s='%v' has been deleted".
Definition HandleDeleteError (e : error) : ServiceError := NewWithCause ErrorGeneral (Some e) "unable to delete %s with %s='%v'".
Definition HandleCreateError (e : error) : ServiceError :=
  if StrContains (error_text e) "violates unique constraint" then Conflict "this %s already exists"
  else GeneralError ("unable to create %s: " +:+ error_text e).
Definition HandleUpdateError (e : error) : ServiceError :=
  if StrContains (error_text e) "violates unique constraint" then Conflict "changes to %s conflict with existing records"
  else GeneralError ("unable to update %s: " +:+ error_text e).

(** [First]: a row of the query, or [gorm.ErrRecordNotFound]. *)
Definition first {D} `{ConnectorDB D} {R} (q : ctables -> list R) : M (cworld D) error R :=
  l <~ select q ;;
  match l with x :: _ => ret x | [] => throw record_not_found end.

(** ** Facts about statements and transactions *)
Section Facts.
Context {D : Type} `{ConnectorDB D}.
Abbreviation W := (cworld D).

(** What a statement leaves alone. *)
Definition rest (w : W) : list PostCommitAction * list string * list Connector * list string * Z :=
  (w.(postCommitActions), w.(signals), w.(purged), w.(removed_accounts), w.(lastVersion)).

Lemma select_ok {R} (q : ctables -> list R) w l w' : select q w = (Ok l, w') ->
  l ≡ₚ q (tables_in w) /\ tables_in w' = tables_in w /\ rest w' = rest w.
Proof.
  unfold select, on_db. destruct (db_select q (cdb w)) as [r d] eqn:E. intros [= -> <-].
  by apply db_select_ok in E as [? ?].
Qed.
Lemma select_err {R} (q : ctables -> list R) w e w' : select q w = (Err e, w') -> tables_in w' = tables_in w /\ rest w' = rest w.
Proof.
  unfold select, on_db. destruct (db_select q (cdb w)) as [r d] eqn:E. intros [= -> <-].
  by apply db_select_err in E.
Qed.

Lemma value_ok {A} (q : ctables -> A) w a w' : value q w = (Ok a, w') ->
  a = q (tables_in w) /\ tables_in w' = tables_in w /\ rest w' = rest w.
Proof.
  unfold value, on_db. destruct (db_value q (cdb w)) as [r d] eqn:E. intros [= -> <-].
  by apply db_value_ok in E as [? ?].
Qed.
Lemma value_err {A} (q : ctables -> A) w e w' : value q w = (Err e, w') -> tables_in w' = tables_in w /\ rest w' = rest w.
Proof.
  unfold value, on_db. destruct (db_value q (cdb w)) as [r d] eqn:E. intros [= -> <-].
  by apply db_value_err in E.
Qed.

Lemma change_ok {A} (u : Z -> ctables -> option (A * ctables)) w a w' : change u w = (Ok a, w') ->
  u (next_version w.(cdb)) (tables_in w) = Some (a, tables_in w') /\ rest w' = rest w.
Proof.
  unfold change, on_db. destruct (db_change u (cdb w)) as [r d] eqn:E. intros [= -> <-].
  by apply db_change_ok in E.
Qed.
Lemma change_err {A} (u : Z -> ctables -> option (A * ctables)) w e w' : change u w = (Err e, w') ->
  tables_in w' = tables_in w /\ rest w' = rest w.
Proof.
  unfold change, on_db. destruct (db_change u (cdb w)) as [r d] eqn:E. intros [= -> <-].
  by apply db_change_err in E.
Qed.

Lemma end_run w r w' : on_db db_end w = (r, w') -> tables_in w' = tables_in w /\ rest w' = rest w.
Proof.
  unfold on_db. pose proof (db_end_tables (cdb w)) as Ht. destruct (db_end (cdb w)) as [r0 d]. by intros [= <- <-].
Qed.

Lemma first_ok {R} (q : ctables -> list R) w x w' : first q w = (Ok x, w') ->
  x ∈ q (tables_in w) /\ tables_in w' = tables_in w /\ rest w' = rest w.
Proof.
  unfold first. intros (l & w1 & Hs & Hx)%bind_ok. apply select_ok in Hs as (Hp & Ht & Hr).
  destruct l as [|y l]; [done|]. injection Hx as -> ->. split; [|done]. rewrite <- Hp. left.
Qed.

Lemma first_err {R} (q : ctables -> list R) w e w' : first q w = (Err e, w') -> tables_in w' = tables_in w /\ rest w' = rest w.
Proof.
  unfold first. intros [(l & w1 & Hs & Hx)|(e0 & Hs & _)]%bind_inv; [|by eapply select_err].
  apply select_ok in Hs as (_ & Ht & Hr). destruct l; [|done]. by injection Hx as _ ->.
Qed.

(** A query that finds nothing had nothing to find. *)
Lemma first_none {R} (q : ctables -> list R) w e w' : first q w = (Err e, w') -> IsRecordNotFoundError e = true ->
  q (tables_in w) = [].
Proof.
  unfold first. intros [(l & w1 & Hs & Hx)|(e0 & Hs & [= <-])]%bind_inv Hnf.
  - apply select_ok in Hs as (Hp & _). destruct l; [by apply Permutation_nil_l in Hp | done].
  - exfalso. unfold select, on_db in Hs. destruct (db_select q (cdb w)) as [r d] eqn:E. injection Hs as -> <-.
    apply db_select_fails in E. destruct e as [s| | |]; try done. simpl in Hnf. apply String.eqb_eq in Hnf as ->. done.
Qed.

(** A transaction that ends well did what its function did. *)
Lemma TransactionE_ok {E A} (of_db : option A -> error -> E) (m : M W E A) w a w' : TransactionE of_db m w = (Ok a, w') ->
  exists w0 w1, tables_in w0 = tables_in w /\ rest w0 = rest w /\ m w0 = (Ok a, w1) /\
    tables_in w' = tables_in w1 /\ rest w' = rest w1.
Proof.
  unfold TransactionE. destruct (on_db db_end w) as [[[]|e] w0] eqn:E0; [|done]. apply end_run in E0 as [Ht Hr].
  destruct (m w0) as [[a0|e] w1] eqn:Em; [|done].
  destruct (on_db db_end w1) as [[[]|e] w2] eqn:E1; [|done]. apply end_run in E1 as [Ht1 Hr1].
  intros [= <- <-]. exists w0, w1. by rewrite Em.
Qed.

(** A transaction that fails changes no table. *)
Lemma TransactionE_err {E A} (of_db : option A -> error -> E) (m : M W E A) w e w' :
  TransactionE of_db m w = (Err e, w') -> tables_in w' = tables_in w.
Proof.
  unfold TransactionE. destruct (on_db db_end w) as [[[]|e0] w0] eqn:E0; apply end_run in E0 as [Ht Hr].
  2: { intros [= _ <-]. done. }
  destruct (m w0) as [[a0|e1] w1] eqn:Em; [|intros [= _ <-]; apply db_restore_tables].
  destruct (on_db db_end w1) as [[[]|e2] w2] eqn:E1; [done|]. intros [= _ <-]. apply db_restore_tables.
Qed.

Lemma Transaction_ok {A} (m : M W error A) w a w' : Transaction m w = (Ok a, w') ->
  exists w0 w1, tables_in w0 = tables_in w /\ rest w0 = rest w /\ m w0 = (Ok a, w1) /\
    tables_in w' = tables_in w1 /\ rest w' = rest w1.
Proof. apply TransactionE_ok. Qed.
Lemma Transaction_err {A} (m : M W error A) w e w' : Transaction m w = (Err e, w') -> tables_in w' = tables_in w.
Proof. apply TransactionE_err. Qed.

Lemma run_actions_tables l (w : W) : tables_in (run_actions l w) = tables_in w.
Proof. revert w. induction l as [|a l IH]; intros w; simpl; [done|]. rewrite IH. by destruct a. Qed.

(** The context's transaction changes no table by itself: what the function did
    stays, whatever the outcome. *)
Lemma InDBTransaction_tables f w r w' : InDBTransaction f w = (r, w') ->
  tables_in w' = tables_in w \/
  exists w0 r1 w1, tables_in w0 = tables_in w /\ rest w0 = rest w /\ f w0 = (r1, w1) /\ tables_in w' = tables_in w1.
Proof.
  unfold InDBTransaction, Begin. destruct (wrap_err _ _ w) as [[[]|e] w0] eqn:Eb; unfold wrap_err in Eb;
    destruct (on_db db_end w) as [r0 w00] eqn:E0; apply end_run in E0 as [Ht Hr]; injection Eb as _ <-.
  2: { intros [= _ <-]. by left. }
  destruct (f w00) as [r1 w1] eqn:Ef. intros Hrun. right. exists w00, r1, w1. split_and!; try done.
  revert Hrun. unfold Resolve. destruct (on_db db_end (with_actions [] w1)) as [[[]|e2] w2] eqn:E2;
    apply end_run in E2 as [Ht2 _]; intros [= _ <-]; [|done].
  destruct (negb (is_ok r1)); [done|]. by rewrite run_actions_tables.
Qed.
End Facts.

(** Facts about rows. *)
Lemma amend_elem {Row} p (f : Row -> Row) rows r :
  r ∈ amend p f rows <-> exists r0, r0 ∈ rows /\ r = (if p r0 then f r0 else r0).
Proof. unfold amend. rewrite list_elem_of_fmap. naive_solver. Qed.

Lemma amend_versioned_elem {Row} setv p (f : Row -> Row) v rows r :
  r ∈ amend_versioned setv p f v rows ->
  exists r0, r0 ∈ rows /\ ((p r0 = false /\ r = r0) \/ (p r0 = true /\ exists v', v <= v' /\ r = setv v' (f r0))).
Proof.
  revert v. induction rows as [|r0 rows IH]; intros v; simpl; [set_solver|].
  destruct (p r0) eqn:Ep; intros [->|Hin]%elem_of_cons.
  - exists r0. split; [left|]. right. split; [done|]. exists v. split; [lia|done].
  - apply IH in Hin as (r1 & Hr1 & Hcase). exists r1. split; [by right|].
    destruct Hcase as [?|(Hp & v' & Hv & ->)]; [by left|]. right. split; [done|]. exists v'. split; [lia|done].
  - exists r0. split; [left|]. by left.
  - apply IH in Hin as (r1 & Hr1 & Hcase). exists r1. split; [by right|done].
Qed.

(** Every row is kept or rewritten. *)
Lemma amend_versioned_covers {Row} setv p (f : Row -> Row) v rows r0 : r0 ∈ rows ->
  exists r, r ∈ amend_versioned setv p f v rows /\
    ((p r0 = false /\ r = r0) \/ (p r0 = true /\ exists v', v <= v' /\ r = setv v' (f r0))).
Proof.
  revert v. induction rows as [|r1 rows IH]; intros v; simpl; [set_solver|].
  intros [->|Hin]%elem_of_cons.
  - destruct (p r1) eqn:Ep; (eexists; split; [left|]); [right | by left]. split; [done|]. exists v. split; [lia|done].
  - destruct (p r1) eqn:Ep; [destruct (IH (v + 1) Hin) as (r & Hr & Hc) | destruct (IH v Hin) as (r & Hr & Hc)];
      exists r; (split; [by right|]); [|done].
    destruct Hc as [?|(Hp & v' & Hv & ->)]; [by left|]. right. split; [done|]. exists v'. split; [lia|done].
Qed.

(** ** A database in memory, for the witnesses *)
Module MemC.
Record mem := mkMem { m_tables : ctables; m_clock : Z; m_faults : list bool }.

Definition refused : error := EPlain "connection refused".
Definition used (m : mem) : mem := mkMem m.(m_tables) m.(m_clock) (tail m.(m_faults)).
Definition run {A} (f : mem -> result error A * mem) : M mem error A := fun m =>
  match m.(m_faults) with
  | true :: _ => (Err refused, used m)
  | _ => f (used m)
  end.

Definition max_version (t : ctables) : Z :=
  foldr Z.max 0 (map NS.version t.(namespaces) ++ map CO.Version t.(connectors) ++ map CD.Version t.(deployments)).

Lemma max_version_bound l x : x ∈ l -> x <= foldr Z.max 0 l.
Proof. induction l as [|y l IH]; simpl; [set_solver|]. intros [->|Hin]%elem_of_cons; [lia|]. apply IH in Hin. lia. Qed.

#[export] Instance mem_db : ConnectorDB mem.
Proof.
  refine {| ctables_of := m_tables; cnow := m_clock; next_version m := max_version m.(m_tables) + 1;
    db_select R q := run (fun m => (Ok (q m.(m_tables)), m));
    db_value A q := run (fun m => (Ok (q m.(m_tables)), m));
    db_change A u := run (fun m => match u (max_version m.(m_tables) + 1) m.(m_tables) with
                                   | Some (a, t) => (Ok a, mkMem t m.(m_clock) m.(m_faults))
                                   | None => (Err (EPlain "duplicate key value violates unique constraint"), m)
                                   end);
    db_end := run (fun m => (Ok tt, m));
    db_restore t m := mkMem t m.(m_clock) m.(m_faults) |}.
  1-3: intros R q d l d'; unfold run; destruct (m_faults d) as [|[] ?]; intros [= <-]; subst; done.
  1-2: intros R q d l d'; unfold run; destruct (m_faults d) as [|[] ?]; intros [= <-]; subst; done.
  1-2: intros R u d l d'; unfold run; destruct (m_faults d) as [|[] ?]; [|intros [= <-]; subst; done|];
    simpl; destruct (u _ _) as [[? ?]|]; intros [= <-]; subst; done.
  - intros d. unfold run. by destruct (m_faults d) as [|[] ?].
  - done.
  - intros d n Hn. assert (NS.version n <= max_version (m_tables d)); [|lia]. unfold max_version. apply max_version_bound.
    apply elem_of_app. left. apply list_elem_of_fmap. by exists n.
Defined.

Definition world_of (t : ctables) : cworld mem := mkCworld (mkMem t 1000 []) [] [] [] [] 0.
Definition faulty (w : cworld mem) (l : list bool) : cworld mem :=
  with_db (mkMem w.(cdb).(m_tables) w.(cdb).(m_clock) l) w.
End MemC.
Export (hints) MemC.
