(* ===== verification/ConnectorNamespaces.v ===== *)
(** * Connectors: the namespace service

    [src/internal/connector/internal/services/connector_namespaces.go], with the
    quota configuration it reads
    ([src/internal/connector/internal/config/connectors_quota.go]) and the
    conversion of requests to rows
    ([src/internal/connector/internal/presenters/connector_namespace.go]).  The
    annotations of a namespace, a table of their own, are kept with their row. *)
From S2P Require Import Prelude Arrays Errors Status Config Model Store ConnectorModel ConnectorStore.

Open Scope Z_scope.

(** ** Configuration *)
Definition AnnotationProfileKey : string := "cos.bf2.org/profile".
Definition EvaluationProfileName : string := "evaluation-profile".
Definition DefaultProfileName : string := "default-profile".

Record NamespaceQuota := mkNamespaceQuota {
  Quota_Connectors : Z;
  MemoryRequests : string;
  MemoryLimits : string;
  CPURequests : string;
  CPULimits : string
}.
#[export] Instance zero_quota : Zero NamespaceQuota := mkNamespaceQuota 0 "" "" "" "".

Record ConnectorsQuotaConfig := mkConnectorsQuotaConfig {
  connectorsQuotaMap : list (string * NamespaceQuota);
  EvalNamespaceQuotaProfile : string;
  DefaultNamespaceQuotaProfile : string
}.
Definition GetNamespaceQuota (c : ConnectorsQuotaConfig) (profileName : string) : NamespaceQuota * bool :=
  match map_lookup c.(connectorsQuotaMap) profileName with Some q => (q, true) | None => (zero, false) end.
Definition GetEvalNamespaceQuota (c : ConnectorsQuotaConfig) : NamespaceQuota * bool :=
  GetNamespaceQuota c c.(EvalNamespaceQuotaProfile).

Record ConnectorsConfig := mkConnectorsConfig {
  ConnectorEvalDuration : Z;
  ConnectorEvalOrganizations : list string;
  ConnectorEnableUnassignedConnectors : bool
}.

(** ** Requests to rows *)
Definition CONNECTORNAMESPACETENANTKIND_USER : string := "user".
Definition CONNECTORNAMESPACETENANTKIND_ORGANISATION : string := "organisation".

Record ConnectorNamespaceRequest := mkConnectorNamespaceRequest {
  NR_Name : string;
  NR_Annotations : list Annotation;
  NR_ClusterId : string;
  NR_Kind : string
}.

Definition new_namespace (id name clusterId owner : string) (annotations : list Annotation) (user org : option string) : ConnectorNamespace :=
  NS.mkConnectorNamespace id false name clusterId owner 0 None annotations user org
    (NS.mkStatus ConnectorNamespacePhaseDisconnected "" 0 []).

Definition ConvertConnectorNamespaceRequest (newID : string) (r : ConnectorNamespaceRequest) (userID organisationID : string) :
    result ServiceError ConnectorNamespace :=
  let row := new_namespace newID r.(NR_Name) r.(NR_ClusterId) userID r.(NR_Annotations) in
  if r.(NR_Kind) =?s CONNECTORNAMESPACETENANTKIND_USER then Ok (row (Some userID) None)
  else if r.(NR_Kind) =?s CONNECTORNAMESPACETENANTKIND_ORGANISATION then
    if organisationID =?s "" then Err (BadRequest "missing organization for tenant organisation namespace")
    else Ok (row None (Some organisationID))
  else Err (BadRequest "invalid tenant kind: %s").

Definition ConvertConnectorNamespaceEvalRequest (newID name : string) (annotations : list Annotation) (userID : string) : ConnectorNamespace :=
  new_namespace newID name "" userID annotations (Some userID) None.

(** ** Statements *)
Definition one_of (l : list string) (s : string) : bool := existsb (String.eqb s) l.
Definition ending_phases : list string := [ConnectorNamespacePhaseDeleting; ConnectorNamespacePhaseDeleted].

(** An insertion: the key is new, the cluster has a row, and no live namespace of
    the cluster has the name (unique index). *)
Definition insert_namespace (n : ConnectorNamespace) (v : Z) (t : ctables) : option (unit * ctables) :=
  if existsb (fun n' => n'.(NS.ID) =?s n.(NS.ID)) t.(namespaces)
     || negb (existsb (fun c => c.(CC.ID) =?s n.(NS.ClusterId)) t.(cclusters))
     || existsb (fun n' => (n'.(NS.Name) =?s n.(NS.Name)) && (n'.(NS.ClusterId) =?s n.(NS.ClusterId))) (live_namespaces t)
  then None
  else Some (tt, t <| namespaces := t.(namespaces) ++ [ns_version v n] |>).

(** [Updates] with a struct assigns the fields that are not zero; the associated
    annotations are inserted, and those with a known key are left as they are. *)
Definition merge_annotations (new old : list Annotation) : list Annotation :=
  old ++ List.filter (fun a => negb (existsb (fun b => fst b =?s fst a) old)) new.
Definition pick_list {A} (new old : list A) : list A := match new with [] => old | _ => new end.
Definition merge_namespace (new old : ConnectorNamespace) : ConnectorNamespace :=
  NS.mkConnectorNamespace old.(NS.ID) old.(NS.Deleted)
    (pick_string new.(NS.Name) old.(NS.Name)) (pick_string new.(NS.ClusterId) old.(NS.ClusterId))
    (pick_string new.(NS.Owner) old.(NS.Owner)) (pick_Z new.(NS.version) old.(NS.version))
    (pick_option new.(NS.Expiration) old.(NS.Expiration)) (merge_annotations new.(NS.Annotations) old.(NS.Annotations))
    (pick_option new.(NS.TenantUserId) old.(NS.TenantUserId)) (pick_option new.(NS.TenantOrganisationId) old.(NS.TenantOrganisationId))
    (NS.mkStatus (pick_string new.(NS.status).(NS.Phase) old.(NS.status).(NS.Phase))
       (pick_string new.(NS.status).(NS.Version) old.(NS.status).(NS.Version)) 0
       (pick_list new.(NS.status).(NS.Conditions) old.(NS.status).(NS.Conditions))).

(** The trigger runs when the name or the phase is assigned. *)
Definition update_namespaces (versioned : bool) (p : ConnectorNamespace -> bool) (f : ConnectorNamespace -> ConnectorNamespace)
    (v : Z) (t : ctables) : option (Z * ctables) :=
  let p' n := negb n.(NS.Deleted) && p n in
  Some (affected p' t.(namespaces),
        t <| namespaces := (if versioned then amend_versioned ns_version p' f v else amend p' f) t.(namespaces) |>).

Definition set_phase (phase : string) (p : ConnectorNamespace -> bool) : Z -> ctables -> option (Z * ctables) :=
  update_namespaces true p (NS.with_phase phase).

Definition soft_delete_namespaces (p : ConnectorNamespace -> bool) (v : Z) (t : ctables) : option (unit * ctables) :=
  Some (tt, t <| namespaces := amend (fun n => negb n.(NS.Deleted) && p n) (fun n => n <| NS.Deleted := true |>) t.(namespaces) |>).

(** ** The service *)
Section Service.
Context {D : Type} `{ConnectorDB D} `{StateMachineLibrary}.
Context (connectorsConfig : ConnectorsConfig) (quotaConfig : ConnectorsQuotaConfig).
(** [rand.Intn] *)
Context (Intn : nat -> nat).
Abbreviation W := (cworld D).
Abbreviation S A := (M W ServiceError A).

Definition by_id (id : string) (n : ConnectorNamespace) : bool := n.(NS.ID) =?s id.

(** The profile of an evaluation namespace replaces the first one requested. *)
Fixpoint set_profile (profile : string) (l : list Annotation) : list Annotation :=
  match l with
  | [] => [(AnnotationProfileKey, profile)]
  | (k, v) :: l' => if k =?s AnnotationProfileKey then (k, profile) :: l' else (k, v) :: set_profile profile l'
  end.

Definition SetEvalClusterId (request : ConnectorNamespace) : S ConnectorNamespace :=
  availableClusters <~ wrap_err (fun _ => GeneralError "failed to get ready eval cluster id: %v")
    (select (fun t => map CC.ID (List.filter (fun c =>
      one_of connectorsConfig.(ConnectorEvalOrganizations) c.(CC.OrganisationId)
      && (c.(CC.status).(CC.Phase) =?s ConnectorClusterPhaseReady)) (live_clusters t)))) ;;
  id <~ match availableClusters with
        | [] => throw (GeneralError "no ready eval clusters")
        | [id] => ret id
        | l => ret (nth (Intn (length l)) l "")
        end ;;
  t <~ now ;;
  ret (request <| NS.ClusterId := id |> <| NS.Expiration := Some (t + connectorsConfig.(ConnectorEvalDuration)) |>
       <| NS.Annotations := set_profile quotaConfig.(EvalNamespaceQuotaProfile) request.(NS.Annotations) |>).

Fixpoint validateAnnotations (l : list Annotation) : result ServiceError unit :=
  match l with
  | [] => Ok tt
  | (k, v) :: l' =>
      if (k =?s AnnotationProfileKey) && negb (snd (GetNamespaceQuota quotaConfig v)) then Err (BadRequest "invalid profile %s")
      else validateAnnotations l'
  end.

Definition Create (request : ConnectorNamespace) : S ConnectorNamespace :=
  _ <~ lift (validateAnnotations request.(NS.Annotations)) ;;
  _ <~ wrap_err HandleCreateError (change (insert_namespace request)) ;;
  wrap_err HandleGetError (first (fun t => List.filter (by_id request.(NS.ID)) (live_namespaces t))).

Definition names_or_phase (n : ConnectorNamespace) : bool :=
  negb (n.(NS.Name) =?s "") || negb (n.(NS.status).(NS.Phase) =?s "").
Definition Update (request : ConnectorNamespace) : S ConnectorNamespace :=
  if request.(NS.version) =? 0 then throw (BadRequest "resource version is required") else
  rowsAffected <~ wrap_err HandleUpdateError
    (change (update_namespaces (names_or_phase request)
      (fun n => by_id request.(NS.ID) n && (n.(NS.version) =? request.(NS.version))) (merge_namespace request))) ;;
  if rowsAffected =? 0 then throw (Conflict "resource version changed") else
  row <~ wrap_err HandleGetError (first (fun t => List.filter (by_id request.(NS.ID)) (live_namespaces t))) ;;
  ret (request <| NS.version := row.(NS.version) |>).

(** The live deployments per namespace. *)
Definition deployed_in (id : string) (t : ctables) : Z :=
  affected (fun d => d.(CD.NamespaceID) =?s id) (live_deployments t).
Definition setConnectorsDeployed (l : list ConnectorNamespace) : S (list ConnectorNamespace) :=
  match l with
  | [] => ret []
  | _ =>
    let ids := map NS.ID l in
    rows <~ wrap_err HandleGetError (select (fun t =>
      group_by CD.NamespaceID (List.filter (fun d => one_of ids d.(CD.NamespaceID)) (live_deployments t)))) ;;
    ret (map (fun n => n <| NS.status := n.(NS.status) <| NS.ConnectorsDeployed := int32 (map_get rows n.(NS.ID)) |> |>) l)
  end.

(** A zero key adds no condition to the query. *)
Definition Get (namespaceID : string) : S ConnectorNamespace :=
  r <~ wrap_err HandleGetError (first (fun t => List.filter (fun n => (namespaceID =?s "") || by_id namespaceID n) t.(namespaces))) ;;
  if r.(NS.Deleted) then throw HandleGoneError else
  l <~ setConnectorsDeployed [r] ;;
  ret (default r (head l)).

(** *** Deletion *)
Definition DeleteNamespaces (query : ConnectorNamespace -> bool) : S Z :=
  found <~ wrap_err HandleGetError (select (fun t => List.filter query (live_namespaces t))) ;;
  let count := Z.of_nat (length found) in
  if count =? 0 then ret count else
  _ <~ wrap_err HandleUpdateError (change (set_phase ConnectorNamespacePhaseDeleting (fun n =>
    one_of (map NS.ID found) n.(NS.ID) && negb (one_of ending_phases n.(NS.status).(NS.Phase))))) ;;
  _ <~ AddPostCommitAction (Notify "reconcile:connector_namespace") ;;
  ret count.

Definition Delete (namespaceId : string) : S unit :=
  wrap_err HandleDeleteError (Transaction (wrap_err EService (
    resource <~ wrap_err HandleGetError (first (fun t => List.filter (by_id namespaceId) (live_namespaces t))) ;;
    cluster <~ wrap_err HandleGetError (first (fun t =>
      List.filter (fun c => c.(CC.ID) =?s resource.(NS.ClusterId)) (live_clusters t))) ;;
    _ <~ PerformNamespaceOperation cluster resource DeleteNamespace
           [fun _ => _ <~ DeleteNamespaces (by_id namespaceId) ;; ret tt] ;;
    ret tt))).

(** Connectors of a set of namespaces that are to run. *)
Definition released_states : list string := [ConnectorDeleted; ConnectorUnassigned].
Definition runs_in (ids : list string) (c : Connector) : bool :=
  match c.(CO.NamespaceId) with Some id => one_of ids id | None => false end && negb (one_of released_states c.(CO.DesiredState)).

Definition update_connectors (p : Connector -> bool) (f : Connector -> Connector) (v : Z) (t : ctables) : option (Z * ctables) :=
  let p' c := negb c.(CO.Deleted) && p c in
  Some (affected p' t.(connectors), t <| connectors := amend_versioned co_version p' f v t.(connectors) |>).
Definition update_statuses (p : ConnectorStatus -> bool) (f : ConnectorStatus -> ConnectorStatus) (v : Z) (t : ctables) : option (Z * ctables) :=
  let p' s := negb s.(CS.Deleted) && p s in
  Some (affected p' t.(connector_statuses), t <| connector_statuses := amend p' f t.(connector_statuses) |>).

Definition deleteNamespaceConnectors (query : ConnectorNamespace -> bool) : S Z :=
  found <~ wrap_err HandleGetError (select (fun t => List.filter query (live_namespaces t))) ;;
  let count := Z.of_nat (length found) in
  if count =? 0 then ret count else
  connectorIds <~ wrap_err HandleGetError (select (fun t =>
    map CO.ID (List.filter (runs_in (map NS.ID found)) (live_connectors t)))) ;;
  match connectorIds with
  | [] => ret count
  | _ =>
    let connectorDesiredState :=
      if connectorsConfig.(ConnectorEnableUnassignedConnectors) then ConnectorUnassigned else ConnectorDeleted in
    _ <~ wrap_err HandleUpdateError (change (update_connectors (fun c => one_of connectorIds c.(CO.ID))
           (fun c => c <| CO.DesiredState := connectorDesiredState |>))) ;;
    _ <~ wrap_err HandleUpdateError (change (update_statuses
           (fun s => one_of connectorIds s.(CS.ID)
                     && negb (one_of [ConnectorStatusPhaseDeleting; ConnectorStatusPhaseDeleted] s.(CS.Phase)))
           (fun s => s <| CS.Phase := ConnectorStatusPhaseDeleting |>))) ;;
    _ <~ AddPostCommitAction (Notify "reconcile:connector") ;;
    ret count
  end.

(** *** The reconcilers of the namespace worker *)
Definition expired (t : Z) (n : ConnectorNamespace) : bool :=
  match n.(NS.Expiration) with Some e => e <? t | None => false end && negb (one_of ending_phases n.(NS.status).(NS.Phase)).

Definition ReconcileExpiredNamespaces : S Z :=
  wrap_err HandleUpdateError (Transaction (wrap_err EService (
    t <~ now ;;
    r <~ attempt (DeleteNamespaces (expired t)) ;;
    match r with
    | Ok count => ret count
    | Err e => if Is404 e then ret 0 else throw (HandleUpdateError (EService e))
    end))).

Definition is_deleting (n : ConnectorNamespace) : bool := n.(NS.status).(NS.Phase) =?s ConnectorNamespacePhaseDeleting.
Definition is_deleted (n : ConnectorNamespace) : bool := n.(NS.status).(NS.Phase) =?s ConnectorNamespacePhaseDeleted.
Definition in_namespace (id : string) (o : option string) : bool := match o with Some id' => id' =?s id | None => false end.

(** No connector, deleted ones included, was ever in the namespace, and the agent
    never reported it. *)
Definition never_used (t : ctables) (n : ConnectorNamespace) : bool :=
  is_deleting n && (n.(NS.status).(NS.Version) =?s "") && negb n.(NS.Deleted)
  && negb (existsb (fun c => in_namespace n.(NS.ID) c.(CO.NamespaceId)) t.(connectors)).

Definition ReconcileUnusedDeletingNamespaces : S Z :=
  wrap_err HandleUpdateError (Transaction (wrap_err EService (
    namespaceIds <~ wrap_err HandleGetError (select (fun t => map NS.ID (List.filter (never_used t) t.(namespaces)))) ;;
    let count := Z.of_nat (length namespaceIds) in
    if count =? 0 then ret count else
    _ <~ wrap_err HandleUpdateError (change (set_phase ConnectorNamespacePhaseDeleted (fun n => one_of namespaceIds n.(NS.ID)))) ;;
    ret count))).

Definition has_running_connector (t : ctables) (n : ConnectorNamespace) : bool :=
  is_deleting n && negb n.(NS.Deleted)
  && existsb (fun c => in_namespace n.(NS.ID) c.(CO.NamespaceId) && negb (one_of released_states c.(CO.DesiredState))) (live_connectors t).

Definition ReconcileUsedDeletingNamespaces : S Z :=
  wrap_err HandleUpdateError (Transaction (wrap_err EService (
    namespaceIds <~ wrap_err HandleGetError (select (fun t => map NS.ID (List.filter (has_running_connector t) t.(namespaces)))) ;;
    let count := Z.of_nat (length namespaceIds) in
    if count =? 0 then ret count else
    wrap_err (fun e => HandleUpdateError (EService e)) (deleteNamespaceConnectors (fun n => one_of namespaceIds n.(NS.ID)))))).

(** No live connector status refers to the namespace. *)
Definition no_status_in (t : ctables) (n : ConnectorNamespace) : bool :=
  negb (existsb (fun s => in_namespace n.(NS.ID) s.(CS.NamespaceID)) (live_statuses t)).
Definition empty_deleted (t : ctables) (n : ConnectorNamespace) : bool := is_deleted n && negb n.(NS.Deleted) && no_status_in t n.

Definition ReconcileDeletedNamespaces : S Z :=
  wrap_err HandleDeleteError (Transaction (wrap_err EService (
    namespaceIds <~ wrap_err HandleGetError (select (fun t => map NS.ID (List.filter (empty_deleted t) t.(namespaces)))) ;;
    let count := Z.of_nat (length namespaceIds) in
    if count =? 0 then ret count else
    _ <~ wrap_err HandleDeleteError (change (soft_delete_namespaces (fun n => one_of namespaceIds n.(NS.ID)))) ;;
    ret count))).

(** *** Reports of the agent

    The queries run in a transaction, the update on a connection of its own.  A
    row is read without [ConnectorsDeployed], which is not a column. *)
Definition read_namespace (n : ConnectorNamespace) : ConnectorNamespace :=
  n <| NS.status := n.(NS.status) <| NS.ConnectorsDeployed := 0 |> |>.

Definition UpdateConnectorNamespaceStatus (namespaceID : string) (status : ConnectorNamespaceStatus) : S unit :=
  if status.(NS.Version) =?s "" then throw (BadRequest "missing required property version") else
  wrap_err HandleUpdateError (ReadTransaction (wrap_err EService (
    row <~ wrap_err HandleGetError (first (fun t => List.filter (by_id namespaceID) t.(namespaces))) ;;
    if row.(NS.Deleted) then throw HandleGoneError else
    cluster <~ wrap_err HandleGetError (first (fun t =>
      List.filter (fun c => c.(CC.ID) =?s row.(NS.ClusterId)) (live_clusters t))) ;;
    p <~ PerformNamespaceOperation cluster (read_namespace row) ConnectNamespace [] ;;
    let updated := fst p in
    let namespace := snd p in
    q <~ (if status.(NS.Phase) =?s ConnectorNamespacePhaseDeleted then
            l <~ setConnectorsDeployed [namespace] ;;
            let namespace := default namespace (head l) in
            if (namespace.(NS.status).(NS.Phase) =?s ConnectorNamespacePhaseDeleting)
               && (namespace.(NS.status).(NS.ConnectorsDeployed) =? 0)
            then ret (true, NS.with_phase ConnectorNamespacePhaseDeleted namespace)
            else throw (BadRequest "invalid namespace phase update from %s to %s, or namespace not empty")
          else ret (updated, namespace)) ;;
    let updated := fst q in
    let namespace := snd q in
    let status := status <| NS.Phase := namespace.(NS.status).(NS.Phase) |> in
    let namespace := namespace <| NS.status := namespace.(NS.status) <| NS.ConnectorsDeployed := status.(NS.ConnectorsDeployed) |> |> in
    if updated || negb (bool_decide (namespace.(NS.status) = status)) then
      _ <~ Update (NS.mkConnectorNamespace namespaceID false "" "" "" namespace.(NS.version) None [] None None
             (NS.mkStatus (if updated then status.(NS.Phase) else "") status.(NS.Version) 0 status.(NS.Conditions))) ;;
      ret tt
    else ret tt))).

(** The namespaces of a cluster that the agent has nothing left in. *)
Definition GetEmptyDeletingNamespaces (clusterId : string) : S (list ConnectorNamespace) :=
  wrap_err HandleGetError (select (fun t => List.filter (fun n =>
    (n.(NS.ClusterId) =?s clusterId) && is_deleting n && negb n.(NS.Deleted) && no_status_in t n) t.(namespaces))).

(** *** Tenancy and quota *)
(** The query selects the key and the tenants only: [DeletedAt] keeps its zero
    value. *)
Definition tenant_columns (n : ConnectorNamespace) : ConnectorNamespace :=
  NS.mkConnectorNamespace n.(NS.ID) false "" "" "" 0 None [] n.(NS.TenantUserId) n.(NS.TenantOrganisationId) (NS.mkStatus "" "" 0 []).
Definition GetNamespaceTenant (namespaceId : string) : S ConnectorNamespace :=
  row <~ wrap_err HandleGetError (first (fun t => List.filter (by_id namespaceId) t.(namespaces))) ;;
  let namespace := tenant_columns row in
  if namespace.(NS.Deleted) then throw HandleGoneError else ret namespace.

Definition profiles_of (namespaceId : string) (t : ctables) : list string :=
  map snd (List.filter (fun a => fst a =?s AnnotationProfileKey) (flat_map NS.Annotations (List.filter (by_id namespaceId) t.(namespaces)))).
Definition CheckConnectorQuota (namespaceId : string) : S unit :=
  profileName <~ wrap_err (fun _ => FailedToCheckQuota "error reading Connector namespace annotation with namespace id %s: %s")
    (first (profiles_of namespaceId)) ;;
  let quota := fst (GetNamespaceQuota quotaConfig profileName) in
  if 0 <? quota.(Quota_Connectors) then
    count <~ wrap_err HandleGetError (value (fun t => affected (fun c => in_namespace namespaceId c.(CO.NamespaceId)) (live_connectors t))) ;;
    if quota.(Quota_Connectors) <=? count
    then throw (InsufficientQuotaError "the maximum number of allowed connectors has been reached") else ret tt
  else ret tt.

Definition eval_namespaces (userId : string) (t : ctables) : list ConnectorNamespace :=
  flat_map (fun n => map (fun _ => n) (List.filter (fun c =>
      (c.(CC.ID) =?s n.(NS.ClusterId)) && one_of connectorsConfig.(ConnectorEvalOrganizations) c.(CC.OrganisationId)) (live_clusters t)))
    (List.filter (fun n => in_namespace userId n.(NS.TenantUserId) && match n.(NS.Expiration) with Some _ => true | None => false end) (live_namespaces t)).
Definition CanCreateEvalNamespace (userId : string) : S unit :=
  count <~ wrap_err (fun _ => FailedToCheckQuota "error reading connector namespace with tenant user id %s: %s")
    (value (fun t => Z.of_nat (length (eval_namespaces userId t)))) ;;
  if 0 <? count then throw (InsufficientQuotaError "Evaluation Connector Namespace already exists for user %s") else ret tt.

(** *** The namespace of a new cluster *)
Definition defaultNamespaceName : string := "default-connector-namespace".
Definition CreateDefaultNamespace (newID : string) (c : ConnectorCluster) : S ConnectorNamespace :=
  let kind := if c.(CC.OrganisationId) =?s "" then CONNECTORNAMESPACETENANTKIND_USER else CONNECTORNAMESPACETENANTKIND_ORGANISATION in
  n <~ lift (ConvertConnectorNamespaceRequest newID
         (mkConnectorNamespaceRequest defaultNamespaceName [(AnnotationProfileKey, DefaultProfileName)] c.(CC.ID) kind)
         c.(CC.Owner) c.(CC.OrganisationId)) ;;
  Create n.
End Service.

(** ** What the operations do *)
Lemma one_of_spec l s : one_of l s = true <-> s ∈ l.
Proof.
  unfold one_of. rewrite existsb_exists. setoid_rewrite <- list_elem_of_In. split.
  - by intros (x & Hx & ->%String.eqb_eq).
  - intros Hs. exists s. by rewrite String.eqb_refl.
Qed.

Lemma amend_versioned_ext {Row} setv (p q : Row -> bool) f v rows : (forall r, r ∈ rows -> p r = q r) ->
  amend_versioned setv p f v rows = amend_versioned setv q f v rows.
Proof.
  revert v. induction rows as [|r rows IH]; intros v Hpq; simpl; [done|].
  rewrite <- (Hpq r) by left. destruct (p r); f_equal; apply IH; intros; apply Hpq; by right.
Qed.

Lemma amend_ext {Row} (p q : Row -> bool) f rows : (forall r, r ∈ rows -> p r = q r) -> amend p f rows = amend q f rows.
Proof.
  intros Hpq. unfold amend. apply map_ext_in. intros r Hr%list_elem_of_In. by rewrite Hpq.
Qed.

Lemma unique_by_id (l : list ConnectorNamespace) a b : NoDup (map NS.ID l) -> a ∈ l -> b ∈ l -> a.(NS.ID) = b.(NS.ID) -> a = b.
Proof.
  induction l as [|x l IH]; simpl; [set_solver|]. intros [Hx Hnd]%NoDup_cons Ha Hb Heq.
  apply elem_of_cons in Ha as [->|Ha]; apply elem_of_cons in Hb as [->|Hb]; [done| | |by apply IH].
  - exfalso. apply Hx. rewrite Heq. apply list_elem_of_fmap. eauto.
  - exfalso. apply Hx. rewrite <- Heq. apply list_elem_of_fmap. eauto.
Qed.

(** The identifiers of the rows that a query returned single out these rows. *)
Lemma selected_ids (p : ConnectorNamespace -> bool) rows l n :
  NoDup (map NS.ID rows) -> l ≡ₚ map NS.ID (List.filter p rows) -> n ∈ rows -> one_of l n.(NS.ID) = p n.
Proof.
  intros Hnd Hl Hn. apply eq_iff_eq_true. rewrite one_of_spec, Hl, list_elem_of_fmap.
  setoid_rewrite list_elem_of_In. setoid_rewrite filter_In. setoid_rewrite <- list_elem_of_In. split.
  - intros (m & Heq & Hm & Hp). by rewrite (unique_by_id _ _ _ Hnd Hn Hm).
  - eauto.
Qed.

Section ServiceFacts.
Context {D : Type} `{ConnectorDB D} `{StateMachineLibrary}.
Context (connectorsConfig : ConnectorsConfig) (quotaConfig : ConnectorsQuotaConfig).
Abbreviation W := (cworld D).

Lemma DeleteNamespaces_ok query w n w' : DeleteNamespaces query w = (Ok n, w') ->
  exists found, found ≡ₚ List.filter query (live_namespaces (tables_in w)) /\
    ((found = [] /\ n = 0 /\ tables_in w' = tables_in w /\ rest w' = rest w) \/
     (found <> [] /\ n = Z.of_nat (length found) /\
      (exists v, tables_in w' = (tables_in w) <| namespaces := amend_versioned ns_version
         (fun m => negb m.(NS.Deleted) && (one_of (map NS.ID found) m.(NS.ID) && negb (one_of ending_phases m.(NS.status).(NS.Phase))))
         (NS.with_phase ConnectorNamespacePhaseDeleting) v (tables_in w).(namespaces) |>) /\
      w'.(postCommitActions) = w.(postCommitActions) ++ [Notify "reconcile:connector_namespace"])).
Proof.
  unfold DeleteNamespaces. intros Hrun. apply bind_ok in Hrun as (found & w1 & Hs & Hrun).
  apply wrap_err_ok, select_ok in Hs as (Hp & Ht & Hr). exists found. split; [done|].
  destruct found as [|f0 found].
  - injection Hrun as <- <-. by left.
  - right. split; [done|]. replace (Z.of_nat (length (f0 :: found)) =? 0) with false in Hrun by (simpl; lia).
    apply bind_ok in Hrun as (k & w2 & Hc & Hrun). apply wrap_err_ok, change_ok in Hc as [Hc Hr1]. injection Hc as _ Hc.
    unfold AddPostCommitAction, bind, ret in Hrun. injection Hrun as <- <-. split; [done|]. split.
    + exists (next_version (cdb w1)). unfold tables_in in *. simpl. rewrite <- Hc, Ht. done.
    + simpl. unfold rest in *. congruence.
Qed.

Definition deleting_row (id : string) (m : ConnectorNamespace) : bool :=
  negb m.(NS.Deleted) && (by_id id m && negb (one_of ending_phases m.(NS.status).(NS.Phase))).

Lemma found_ids id found (t : ctables) m : found ≡ₚ List.filter (by_id id) (live_namespaces t) -> found <> [] ->
  one_of (map NS.ID found) m.(NS.ID) = by_id id m.
Proof.
  intros Hp Hne. apply eq_iff_eq_true. rewrite one_of_spec, list_elem_of_fmap. unfold by_id. rewrite String.eqb_eq.
  assert (forall x, x ∈ found -> x.(NS.ID) = id) as Hid.
  { intros x Hx. rewrite Hp, list_elem_of_In, filter_In in Hx. destruct Hx as [_ Hx]. by apply String.eqb_eq. }
  split; [intros (x & -> & Hx); by apply Hid|]. destruct found as [|x found]; [done|]. intros ->. exists x.
  split; [symmetry; apply Hid; left | left].
Qed.

Lemma in_live_namespaces t n : n ∈ live_namespaces t <-> n ∈ t.(namespaces) /\ n.(NS.Deleted) = false.
Proof. unfold live_namespaces. rewrite list_elem_of_In, filter_In, <- list_elem_of_In, negb_true_iff. done. Qed.
Lemma in_live_clusters t c : c ∈ live_clusters t <-> c ∈ t.(cclusters) /\ c.(CC.Deleted) = false.
Proof. unfold live_clusters. rewrite list_elem_of_In, filter_In, <- list_elem_of_In, negb_true_iff. done. Qed.

Definition deletion_effect (id : string) (w w' : W) : Prop :=
  exists n c dst,
    n ∈ (tables_in w).(namespaces) /\ n.(NS.Deleted) = false /\ n.(NS.ID) = id /\
    c ∈ (tables_in w).(cclusters) /\ c.(CC.Deleted) = false /\ c.(CC.ID) = n.(NS.ClusterId) /\
    transition (table_of namespaceEvents c.(CC.status).(CC.Phase)) n.(NS.status).(NS.Phase) DeleteNamespace = Some dst /\
    if dst =?s n.(NS.status).(NS.Phase) then tables_in w' = tables_in w /\ rest w' = rest w
    else (exists v, tables_in w' = (tables_in w) <| namespaces :=
            amend_versioned ns_version (deleting_row id) (NS.with_phase ConnectorNamespacePhaseDeleting) v (tables_in w).(namespaces) |>) /\
         w'.(postCommitActions) = w.(postCommitActions) ++ [Notify "reconcile:connector_namespace"].

Lemma Delete_ok id w u w' : Delete id w = (Ok u, w') -> deletion_effect id w w'.
Proof.
  intros Hrun.
  apply wrap_err_ok, Transaction_ok in Hrun as (w0 & w1 & Ht0 & Hr0 & Hrun & Ht1 & Hr1). apply wrap_err_ok in Hrun.
  apply bind_ok in Hrun as (n & w2 & Hn & Hrun). apply wrap_err_ok, first_ok in Hn as (Hn & Ht2 & Hr2).
  apply bind_ok in Hrun as (c & w3 & Hc & Hrun). apply wrap_err_ok, first_ok in Hc as (Hc & Ht3 & Hr3).
  apply list_elem_of_In, filter_In in Hn as [Hn Hid]. apply list_elem_of_In, in_live_namespaces in Hn as [Hn Hnd].
  apply list_elem_of_In, filter_In in Hc as [Hc Hcid]. apply list_elem_of_In, in_live_clusters in Hc as [Hc Hcd].
  apply String.eqb_eq in Hid, Hcid. rewrite Ht2, Ht0 in Hc. rewrite Ht0 in Hn.
  apply bind_ok in Hrun as (p & w4 & Hp & Hrun). injection Hrun as _ <-.
  unfold PerformNamespaceOperation, perform in Hp. apply bind_ok in Hp as (q & w5 & Hq & Hp). injection Hq as Hq <-.
  destruct q as [b n']. apply namespace_perform_ok in Hq as (Htr & _ & Hb).
  exists n, c, n'.(NS.status).(NS.Phase). split_and!; try done.
  assert (tables_in w3 = tables_in w) as Ht by congruence. assert (rest w3 = rest w) as Hr by congruence.
  destruct (n'.(NS.status).(NS.Phase) =?s _); subst b; simpl in Hp.
  - injection Hp as _ <-. by rewrite Ht1, Hr1.
  - apply bind_ok in Hp as (u1 & w6 & Hp & Hu1). injection Hu1 as _ <-. apply bind_ok in Hp as (u2 & w7 & Hp & Hu2).
    injection Hu2 as _ <-. apply bind_ok in Hp as (k & w8 & Hp & Hu3). injection Hu3 as _ <-.
    apply DeleteNamespaces_ok in Hp as (found & Hf & Hcase). rewrite Ht in *.
    destruct Hcase as [(-> & _)|(Hne & _ & (v & Hv) & Ha)].
    { exfalso. symmetry in Hf. apply Permutation_nil_r in Hf. assert (n ∈ List.filter (by_id id) (live_namespaces (tables_in w))) as Hin.
      { apply list_elem_of_In, filter_In. split; [apply list_elem_of_In, in_live_namespaces; done|]. by apply String.eqb_eq. }
      rewrite Hf in Hin. by apply not_elem_of_nil in Hin. }
    split.
    + exists v. rewrite Ht1, Hv, (amend_versioned_ext _ _ (deleting_row id)); [done|].
      intros m _. unfold deleting_row. by rewrite (found_ids id found (tables_in w)).
    + unfold rest in *. congruence.
Qed.

(** Deleting a namespace succeeds only for a live namespace of a live
    cluster whose phase allows it.  When the machine leaves the phase as it is,
    nothing is written; otherwise exactly the live row of that identifier goes to
    [deleting], with a new version, unless it is already ending, and the
    namespace worker is notified after the commit; connectors are not touched.
    A deletion that fails changes no table, and is answered with status 500
    whatever the cause. *)
Theorem namespace_deletion_exact id w r w' : Delete id w = (r, w') ->
  match r with
  | Ok _ => deletion_effect id w w'
  | Err e => tables_in w' = tables_in w /\ HttpCode e = StatusInternalServerError
  end.
Proof.
  intros Hrun. destruct r as [u|e]; [by eapply Delete_ok|].
  apply wrap_err_err in Hrun as (e0 & Hrun & ->). split; [by eapply Transaction_err | done].
Qed.

(** *** The worker's passes *)
Lemma amend_versioned_none {Row} setv (p : Row -> bool) f v rows : (forall r, r ∈ rows -> p r = false) ->
  amend_versioned setv p f v rows = rows.
Proof.
  intros Hp. revert v. induction rows as [|r rows IH]; intros v; simpl; [done|]. rewrite (Hp r) by left. f_equal.
  apply IH. intros; apply Hp; by right.
Qed.

Lemma same_namespaces t : t <| namespaces := t.(namespaces) |> = t.
Proof. by destruct t. Qed.

Lemma no_ids (p : ConnectorNamespace -> bool) rows l : l ≡ₚ map NS.ID (List.filter p rows) -> (Z.of_nat (length l) =? 0) = true ->
  forall n, n ∈ rows -> p n = false.
Proof.
  intros Hl Hz n Hn. destruct l; [|done]. symmetry in Hl. apply Permutation_nil_r in Hl.
  destruct (p n) eqn:Ep; [|done]. assert (n ∈ List.filter p rows) as Hin by (apply list_elem_of_In, filter_In; rewrite <- list_elem_of_In; done).
  apply map_eq_nil in Hl. rewrite Hl in Hin. by apply not_elem_of_nil in Hin.
Qed.

(** The shape the passes share: select identifiers, then change the rows. *)
Lemma pass_ok {E'} (wrap_get : error -> E') (p : ctables -> ConnectorNamespace -> bool) {A} (k : list string -> M W E' A) w a w' :
  (ids <~ wrap_err wrap_get (select (fun t => map NS.ID (List.filter (p t) t.(namespaces)))) ;; k ids) w = (Ok a, w') ->
  exists ids w1, ids ≡ₚ map NS.ID (List.filter (p (tables_in w)) (tables_in w).(namespaces)) /\ tables_in w1 = tables_in w /\
    rest w1 = rest w /\ k ids w1 = (Ok a, w').
Proof.
  intros Hrun. apply bind_ok in Hrun as (ids & w1 & Hs & Hrun). apply wrap_err_ok, select_ok in Hs as (Hp & Ht & Hr).
  exists ids, w1. done.
Qed.

Lemma reconcile_unused_ok w n w' : NoDup (map NS.ID (tables_in w).(namespaces)) ->
  ReconcileUnusedDeletingNamespaces w = (Ok n, w') ->
  exists v, tables_in w' = (tables_in w) <| namespaces := amend_versioned ns_version (never_used (tables_in w))
    (NS.with_phase ConnectorNamespacePhaseDeleted) v (tables_in w).(namespaces) |>.
Proof.
  intros Hnd Hrun. apply wrap_err_ok, Transaction_ok in Hrun as (w0 & w1 & Ht0 & _ & Hrun & Ht1 & _).
  apply wrap_err_ok, pass_ok in Hrun as (ids & w2 & Hids & Ht2 & _ & Hrun). rewrite Ht0 in *. rewrite Ht1.
  destruct (_ =? 0) eqn:E0.
  - injection Hrun as _ <-. exists 0. rewrite amend_versioned_none, same_namespaces by (by eapply no_ids). congruence.
  - apply bind_ok in Hrun as (k & w3 & Hc & Hrun). injection Hrun as _ <-. apply wrap_err_ok, change_ok in Hc as [Hc _].
    injection Hc as _ Hc. exists (next_version (cdb w2)). rewrite <- Hc, Ht2.
    rewrite (amend_versioned_ext _ _ (never_used (tables_in w))); [done|]. intros m Hm.
    rewrite (selected_ids _ _ _ _ Hnd Hids Hm). unfold never_used. by destruct (NS.Deleted m), (is_deleting m), (_ =?s _).
Qed.

Lemma reconcile_deleted_ok w n w' : NoDup (map NS.ID (tables_in w).(namespaces)) ->
  ReconcileDeletedNamespaces w = (Ok n, w') ->
  tables_in w' = (tables_in w) <| namespaces :=
    map (fun m => if empty_deleted (tables_in w) m then m <| NS.Deleted := true |> else m) (tables_in w).(namespaces) |> /\
  n = affected (empty_deleted (tables_in w)) (tables_in w).(namespaces).
Proof.
  intros Hnd Hrun. apply wrap_err_ok, Transaction_ok in Hrun as (w0 & w1 & Ht0 & _ & Hrun & Ht1 & _).
  apply wrap_err_ok, pass_ok in Hrun as (ids & w2 & Hids & Ht2 & _ & Hrun). rewrite Ht0 in *. rewrite Ht1.
  assert (Z.of_nat (length ids) = affected (empty_deleted (tables_in w)) (tables_in w).(namespaces)) as Hlen.
  { unfold affected. by rewrite (Permutation_length Hids), length_map. }
  destruct (_ =? 0) eqn:E0.
  - injection Hrun as <- <-. split; [|done]. rewrite (map_ext_in _ (fun m => m)), map_id, same_namespaces; [congruence|].
    intros m Hm%list_elem_of_In. by rewrite (no_ids _ _ _ Hids E0).
  - apply bind_ok in Hrun as (k & w3 & Hc & Hrun). injection Hrun as <- <-. apply wrap_err_ok, change_ok in Hc as [Hc _].
    injection Hc as _ Hc. split; [|done]. rewrite <- Hc, Ht2. rewrite (amend_ext _ (empty_deleted (tables_in w))); [done|].
    intros m Hm. rewrite (selected_ids _ _ _ _ Hnd Hids Hm). unfold empty_deleted. by destruct (NS.Deleted m), (is_deleted m).
Qed.

(** [C12] A pass over the deleted namespaces removes exactly those that are in
    phase [deleted], are not removed yet, and that no live connector status refers
    to; every other row, and every other table, stays as it is. *)
Theorem only_empty_deleted_namespaces_removed w n w' : NoDup (map NS.ID (tables_in w).(namespaces)) ->
  ReconcileDeletedNamespaces w = (Ok n, w') ->
  tables_in w' = (tables_in w) <| namespaces :=
    map (fun m => if empty_deleted (tables_in w) m then m <| NS.Deleted := true |> else m) (tables_in w).(namespaces) |> /\
  n = affected (empty_deleted (tables_in w)) (tables_in w).(namespaces).
Proof. apply reconcile_deleted_ok. Qed.

(** *** A namespace that was never used goes away *)
Lemma amend_versioned_ids p f v rows : (forall n, (f n).(NS.ID) = n.(NS.ID)) ->
  map NS.ID (amend_versioned ns_version p f v rows) = map NS.ID rows.
Proof.
  intros Hf. revert v. induction rows as [|n rows IH]; intros v; simpl; [done|].
  destruct (p n); simpl; rewrite IH; [by rewrite Hf | done].
Qed.

(** What a deletion asks for ends in an ending phase. *)
Lemma deletion_ends phase current dst : transition (table_of namespaceEvents phase) current DeleteNamespace = Some dst ->
  one_of ending_phases dst = true.
Proof.
  intros (e & He & Hn & _ & ->)%(transition_all (fun e => negb (Event_Name e =?s DeleteNamespace) || one_of ending_phases (Dst e))).
  - by rewrite <- Hn, String.eqb_refl in He.
  - by apply table_of_all.
Qed.

Lemma in_ending n : one_of ending_phases n.(NS.status).(NS.Phase) = true -> is_deleting n = true \/ is_deleted n = true.
Proof.
  unfold one_of, is_deleting, is_deleted. simpl. rewrite orb_false_r. apply orb_true_iff.
Qed.

(** A row that the agent never reported, and that nothing refers to. *)
Definition abandoned (id : string) (t : ctables) (n : ConnectorNamespace) : Prop :=
  n ∈ t.(namespaces) /\ n.(NS.Deleted) = false /\ n.(NS.ID) = id /\ n.(NS.status).(NS.Version) = "" /\
  existsb (fun c => in_namespace id c.(CO.NamespaceId)) t.(connectors) = false /\
  existsb (fun s => in_namespace id s.(CS.NamespaceID)) t.(connector_statuses) = false.

Lemma abandoned_no_status id t n : abandoned id t n -> no_status_in t n = true.
Proof.
  intros (_ & _ & <- & _ & _ & Hs). unfold no_status_in. apply negb_true_iff. apply not_true_iff_false.
  rewrite existsb_exists. intros (x & Hx & Hi). apply filter_In in Hx as [Hx _]. apply not_true_iff_false in Hs. apply Hs.
  apply existsb_exists. eauto.
Qed.

(** Rewriting the namespaces with a new phase keeps a row abandoned. *)
Lemma abandoned_amend id t n p phase v : abandoned id t n ->
  exists m, abandoned id (t <| namespaces := amend_versioned ns_version p (NS.with_phase phase) v t.(namespaces) |>) m /\
    m.(NS.status).(NS.Phase) = (if p n then phase else n.(NS.status).(NS.Phase)).
Proof.
  intros (Hn & Hd & Hid & Hv & Hc & Hs).
  destruct (amend_versioned_covers ns_version p (NS.with_phase phase) v _ n Hn) as (m & Hm & [[Hp ->]|(Hp & v' & _ & ->)]);
    (eexists; split; [split; [exact Hm | done] | by rewrite Hp]).
Qed.

(** [C37] The deletion of a namespace that no agent has ever reported on (its
    status still has the empty version it was created with) and that no
    connector and no connector status refers to completes without an agent: after
    the deletion was accepted, one pass over the unused namespaces and one over
    the deleted ones remove its row.  A namespace that an agent has reported on
    waits for the report that it is gone, and is outside this statement. *)
Theorem unused_namespace_is_removed id n w w1 n1 w2 n2 w3 :
  NoDup (map NS.ID (tables_in w).(namespaces)) -> abandoned id (tables_in w) n ->
  Delete id w = (Ok tt, w1) -> ReconcileUnusedDeletingNamespaces w1 = (Ok n1, w2) -> ReconcileDeletedNamespaces w2 = (Ok n2, w3) ->
  exists m, m ∈ (tables_in w3).(namespaces) /\ m.(NS.ID) = id /\ m.(NS.Deleted) = true.
Proof.
  intros Hnd Ha Hdel Hun Hre.
  assert (exists m, abandoned id (tables_in w1) m /\ one_of ending_phases m.(NS.status).(NS.Phase) = true /\
    NoDup (map NS.ID (tables_in w1).(namespaces))) as (m & Hm & Hend & Hnd1).
  { apply Delete_ok in Hdel as (n' & c & dst & Hn' & _ & Hid' & _ & _ & _ & Htr & Hcase).
    assert (n' = n) as -> by (eapply (unique_by_id _ _ _ Hnd); [done | apply Ha | rewrite Hid'; symmetry; apply Ha]).
    apply deletion_ends in Htr. destruct (dst =?s _) eqn:Ed.
    - apply String.eqb_eq in Ed as ->. destruct Hcase as [-> _]. by exists n.
    - destruct Hcase as [[v ->] _].
      destruct (abandoned_amend id _ n (deleting_row id) ConnectorNamespacePhaseDeleting v Ha) as (m & Hm & Hph).
      exists m. split_and!; [done| |simpl; by rewrite amend_versioned_ids]. rewrite Hph. destruct (deleting_row id n) eqn:Er; [done|].
      unfold deleting_row, by_id in Er. destruct Ha as (_ & Hd & Hid & _). rewrite Hd, Hid, String.eqb_refl in Er.
      by apply negb_false_iff. }
  apply reconcile_unused_ok in Hun as [v Hun]; [|done].
  destruct (abandoned_amend id _ m (never_used (tables_in w1)) ConnectorNamespacePhaseDeleted v Hm) as (m2 & Hm2 & Hph).
  rewrite <- Hun in Hm2. apply reconcile_deleted_ok in Hre as [-> _].
  2: { rewrite Hun. simpl. by rewrite amend_versioned_ids. }
  exists (m2 <| NS.Deleted := true |>). split; [|split; [apply Hm2 | done]].
  apply list_elem_of_fmap. exists m2. split; [|apply Hm2].
  assert (empty_deleted (tables_in w2) m2 = true) as ->; [|done].
  unfold empty_deleted. rewrite (abandoned_no_status id _ _ Hm2). destruct Hm2 as (_ & -> & _). rewrite !andb_true_r.
  unfold is_deleted. rewrite Hph. destruct (never_used (tables_in w1) m) eqn:Eu; [done|].
  apply in_ending in Hend as [Hg|Hg]; [|done]. destruct Hm as (_ & Hd & Hid & Hver & Hc & _).
  unfold never_used in Eu. by rewrite Hg, Hd, Hver, Hid, Hc in Eu.
Qed.

(** *** Updates are optimistic *)
Definition same_version (r n : ConnectorNamespace) : bool :=
  negb n.(NS.Deleted) && (by_id r.(NS.ID) n && (n.(NS.version) =? r.(NS.version))).

Lemma affected_none {Row} (p : Row -> bool) rows : affected p rows = 0 -> forall r, r ∈ rows -> p r = false.
Proof.
  unfold affected. intros Hl r Hr. destruct (p r) eqn:Ep; [|done].
  assert (r ∈ List.filter p rows) as Hin by (apply list_elem_of_In, filter_In; by rewrite <- list_elem_of_In).
  destruct (List.filter p rows); [by apply not_elem_of_nil in Hin | done].
Qed.

Lemma affected_some {Row} (p : Row -> bool) rows : affected p rows <> 0 -> exists r, r ∈ rows /\ p r = true.
Proof.
  unfold affected. destruct (List.filter p rows) as [|r l] eqn:E; [done|]. intros _. exists r.
  assert (r ∈ List.filter p rows) as Hin by (rewrite E; left). by rewrite list_elem_of_In, filter_In, <- list_elem_of_In in Hin.
Qed.

Lemma Update_ok r w r' w' : Update r w = (Ok r', w') ->
  r.(NS.version) <> 0 /\ rest w' = rest w /\ (exists n, n ∈ (tables_in w).(namespaces) /\ same_version r n = true) /\
  tables_in w' = (tables_in w) <| namespaces :=
    (if names_or_phase r then amend_versioned ns_version (same_version r) (merge_namespace r) (next_version w.(cdb))
     else amend (same_version r) (merge_namespace r)) (tables_in w).(namespaces) |>.
Proof.
  unfold Update. destruct (NS.version r =? 0) eqn:E0; [done|]. intros Hrun.
  apply bind_ok in Hrun as (k & w1 & Hc & Hrun). apply wrap_err_ok, change_ok in Hc as [Hc Hr1]. injection Hc as Hk Hc.
  destruct (k =? 0) eqn:Ek; [done|]. apply bind_ok in Hrun as (row & w2 & Hf & Hrun). injection Hrun as _ <-.
  apply wrap_err_ok, first_ok in Hf as (_ & Ht2 & Hr2). split; [lia|]. split; [congruence|]. split; [|by rewrite Ht2, <- Hc].
  apply affected_some. intros Hz. apply Z.eqb_neq in Ek. apply Ek. rewrite <- Hk. exact Hz.
Qed.

(** Updates of a namespace are optimistic: once a version was used to
    rename a namespace or to change its phase, another update that names the same
    version is refused, and changes no table. *)
Theorem stale_namespace_update_refused r w r' w' r2 res w'' :
  Update r w = (Ok r', w') -> names_or_phase r = true ->
  r2.(NS.ID) = r.(NS.ID) -> r2.(NS.version) = r.(NS.version) -> Update r2 w' = (res, w'') ->
  tables_in w'' = tables_in w' /\ exists e, res = Err e.
Proof.
  intros Hok Hph Hid Hv Hrun. apply Update_ok in Hok as (Hv0 & _ & _ & Ht). rewrite Hph in Ht.
  assert (forall n, n ∈ (tables_in w').(namespaces) -> same_version r2 n = false) as Hnone.
  { intros n Hn. rewrite Ht in Hn. apply amend_versioned_elem in Hn as (n0 & Hn0 & Hcase). unfold same_version in *.
    rewrite Hid, Hv. destruct Hcase as [[Hs ->]|(Hs & v' & Hv' & ->)]; [done|].
    apply namespace_versions_used in Hn0. apply andb_true_iff in Hs as [_ [_ Hs]%andb_true_iff].
    simpl. replace (v' =? NS.version r) with false by lia. by rewrite !andb_false_r. }
  revert Hrun. unfold Update. destruct (NS.version r2 =? 0) eqn:E0; [lia|]. intros Hrun.
  apply bind_inv in Hrun as [(k & w1 & Hc & Hrun)|(e & Hc & ->)].
  2: { apply wrap_err_err in Hc as (e0 & Hc & _). apply change_err in Hc as [Hc _]. eauto. }
  apply wrap_err_ok, change_ok in Hc as [Hc _]. injection Hc as Hk Hc.
  destruct (k =? 0) eqn:Ek.
  - injection Hrun as <- <-. split; [|eauto]. rewrite <- Hc. destruct (names_or_phase r2).
    + rewrite amend_versioned_none by exact Hnone. apply same_namespaces.
    + rewrite (amend_ext _ (fun _ => false)) by exact Hnone. unfold amend. rewrite map_id. apply same_namespaces.
  - exfalso. apply Z.eqb_neq in Ek. rewrite <- Hk in Ek. apply affected_some in Ek as (n & Hn & Hp).
    pose proof (Hnone n Hn) as Hf. unfold same_version in Hf. congruence.
Qed.

(** *** Reports of the agent *)
Lemma map_lookup_in {V} (l : list (string * V)) k v : map_lookup l k = Some v -> (k, v) ∈ l.
Proof.
  induction l as [|[k' v'] l IH]; simpl; [done|]. destruct (k' =?s k) eqn:E.
  - apply String.eqb_eq in E as ->. intros [= ->]. left.
  - intros Hl. right. by apply IH.
Qed.
Lemma map_lookup_none {V} (l : list (string * V)) k : map_lookup l k = None -> k ∉ map fst l.
Proof.
  induction l as [|[k' v'] l IH]; simpl; [set_solver|]. destruct (k' =?s k) eqn:E; [done|].
  apply String.eqb_neq in E. set_solver.
Qed.

Lemma indicator_sum id (l : list ConnectorDeployment) :
  foldr (fun d acc => indicator id d.(CD.NamespaceID) + acc) 0 l = affected (fun d => d.(CD.NamespaceID) =?s id) l.
Proof.
  unfold affected, indicator. induction l as [|d l IH]; simpl; [done|]. rewrite IH.
  case_decide as E; [by rewrite E, String.eqb_refl; simpl; lia|]. apply String.eqb_neq in E. by rewrite E.
Qed.

(** The count of the grouped query is the number of live deployments. *)
Lemma deployed_count ids (t : ctables) rows id : id ∈ ids ->
  rows ≡ₚ group_by CD.NamespaceID (List.filter (fun d => one_of ids d.(CD.NamespaceID)) (live_deployments t)) ->
  map_get rows id = deployed_in id t.
Proof.
  intros Hid Hp. unfold deployed_in.
  assert (affected (fun d => d.(CD.NamespaceID) =?s id) (live_deployments t) =
          affected (fun d => d.(CD.NamespaceID) =?s id) (List.filter (fun d => one_of ids d.(CD.NamespaceID)) (live_deployments t))) as ->.
  { clear Hp. unfold affected. f_equal. f_equal. induction (live_deployments t) as [|d l IH]; simpl; [done|].
    destruct (CD.NamespaceID d =?s id) eqn:E.
    - apply String.eqb_eq in E as Hd. rewrite Hd, (proj2 (one_of_spec ids id) Hid). simpl. rewrite E. by f_equal.
    - destruct (one_of ids _); simpl; [rewrite E|]; exact IH. }
  set (l := List.filter _ _) in *. unfold map_get. destruct (map_lookup rows id) as [n|] eqn:E.
  - apply map_lookup_in in E. rewrite Hp in E. apply group_by_count in E as ->. apply indicator_sum.
  - apply map_lookup_none in E. symmetry. unfold affected. destruct (List.filter _ l) as [|d fl] eqn:Ef; [done|]. exfalso. apply E.
    rewrite Hp. apply group_by_keys, list_elem_of_fmap. exists d.
    assert (d ∈ List.filter (fun d => d.(CD.NamespaceID) =?s id) l) as Hd by (rewrite Ef; left).
    apply list_elem_of_In, filter_In in Hd as [Hd Heq]. apply String.eqb_eq in Heq. by rewrite list_elem_of_In.
Qed.

Lemma deployed_one n w l w' : setConnectorsDeployed [n] w = (Ok l, w') ->
  l = [n <| NS.status := n.(NS.status) <| NS.ConnectorsDeployed := int32 (deployed_in n.(NS.ID) (tables_in w)) |> |>] /\
  tables_in w' = tables_in w /\ rest w' = rest w.
Proof.
  intros Hrun. apply bind_ok in Hrun as (rows & w1 & Hs & Hrun). injection Hrun as <- <-.
  apply wrap_err_ok, select_ok in Hs as (Hp & Ht & Hr). split; [|done]. simpl.
  rewrite (deployed_count [NS.ID n] (tables_in w)); [done | set_solver | done].
Qed.

Lemma ReadTransaction_ok {A} (m : M W error A) w a w' : ReadTransaction m w = (Ok a, w') ->
  exists w0 w1, tables_in w0 = tables_in w /\ m w0 = (Ok a, w1) /\ tables_in w' = tables_in w1.
Proof.
  unfold ReadTransaction. intros Hrun. apply bind_ok in Hrun as (u & w0 & H1 & Hrun). apply end_run in H1 as [Ht0 _].
  apply bind_ok in Hrun as (a' & w1 & Hm & Hrun). apply bind_ok in Hrun as (u' & w2 & H2 & Hrun). apply end_run in H2 as [Ht2 _].
  injection Hrun as <- <-. by exists w0, w1.
Qed.

(** The update that a report makes. *)
Definition report (id : string) (version : Z) (phase agent : string) (conditions : list Condition) : ConnectorNamespace :=
  NS.mkConnectorNamespace id false "" "" "" version None [] None None (NS.mkStatus phase agent 0 conditions).

Definition reported_phase (dst : string) (status : ConnectorNamespaceStatus) : string :=
  if status.(NS.Phase) =?s ConnectorNamespacePhaseDeleted then ConnectorNamespacePhaseDeleted else dst.

(** The rows after a report was written. *)
Lemma report_rows id n phase agent conditions u w r' w' : NoDup (map NS.ID (tables_in w).(namespaces)) ->
  n ∈ (tables_in w).(namespaces) -> n.(NS.ID) = id -> n.(NS.Deleted) = false -> agent <> "" -> phase <> "" ->
  (u = false -> n.(NS.status).(NS.Phase) = phase) ->
  Update (report id n.(NS.version) (if u then phase else "") agent conditions) w = (Ok r', w') ->
  tables_in w' = (tables_in w) <| namespaces := (tables_in w').(namespaces) |> /\
  (exists m, m ∈ (tables_in w').(namespaces) /\ m.(NS.ID) = id /\ m.(NS.Deleted) = false /\
     m.(NS.status).(NS.Phase) = phase /\ m.(NS.status).(NS.Version) = agent) /\
  (forall m, m ∈ (tables_in w').(namespaces) -> m.(NS.ID) <> id -> m ∈ (tables_in w).(namespaces)).
Proof.
  intros Hnd Hn Hid Hd Ha Hph Hu Hup. set (r := report id n.(NS.version) (if u then phase else "") agent conditions) in *.
  apply Update_ok in Hup as (_ & _ & _ & Ht).
  assert (same_version r n = true) as Hs.
  { unfold same_version, by_id. simpl. by rewrite Hd, Hid, String.eqb_refl, Z.eqb_refl. }
  apply String.eqb_neq in Ha, Hph. assert ((merge_namespace r n).(NS.status).(NS.Phase) = phase) as Hp.
  { simpl. unfold pick_string. destruct u; simpl; [by rewrite Hph | by apply Hu]. }
  assert ((merge_namespace r n).(NS.status).(NS.Version) = agent) as Hv by (simpl; unfold pick_string; by rewrite Ha).
  split; [by rewrite Ht|]. rewrite Ht. clear Ht. destruct (names_or_phase r); simpl; split.
  - destruct (amend_versioned_covers ns_version (same_version r) (merge_namespace r) (next_version (cdb w)) _ n Hn)
      as (m & Hm & [[Hf _]|(_ & v & _ & ->)]); [congruence|]. eexists. by split_and!.
  - intros m (m0 & Hm0 & [[_ ->]|(Hs0 & v & _ & ->)])%amend_versioned_elem Hne; [done|]. exfalso. apply Hne.
    unfold same_version in Hs0. apply andb_true_iff in Hs0 as [_ [Hs0 _]%andb_true_iff]. by apply String.eqb_eq in Hs0.
  - exists (merge_namespace r n). split_and!; try done. apply amend_elem. exists n. by rewrite Hs.
  - intros m (m0 & Hm0 & ->)%amend_elem Hne. destruct (same_version r m0) eqn:Hs0; [|done]. exfalso. apply Hne.
    unfold same_version in Hs0. apply andb_true_iff in Hs0 as [_ [Hs0 _]%andb_true_iff]. by apply String.eqb_eq in Hs0.
Qed.

Lemma namespace_dst_named phase current o dst : transition (table_of namespaceEvents phase) current o = Some dst -> dst <> "".
Proof.
  intros (e & He & _ & _ & ->)%(transition_all (fun e => negb (Dst e =?s ""))); [|by apply table_of_all].
  apply negb_true_iff in He. by apply String.eqb_neq.
Qed.

(** The agent does not set the phase of a namespace: a report that is
    accepted is about a live namespace of a live cluster whose phase allows the
    agent to connect, and gives the phase that the machine gives; [deleted] is
    accepted only where that phase is [deleting] and, at that moment, no live
    deployment is in the namespace.  Other namespaces and tables stay as they
    are. *)
Theorem agent_report_exact id status w w' : NoDup (map NS.ID (tables_in w).(namespaces)) ->
  UpdateConnectorNamespaceStatus id status w = (Ok tt, w') ->
  exists n c dst,
    n ∈ (tables_in w).(namespaces) /\ n.(NS.Deleted) = false /\ n.(NS.ID) = id /\
    c ∈ (tables_in w).(cclusters) /\ c.(CC.Deleted) = false /\ c.(CC.ID) = n.(NS.ClusterId) /\
    transition (table_of namespaceEvents c.(CC.status).(CC.Phase)) n.(NS.status).(NS.Phase) ConnectNamespace = Some dst /\
    (status.(NS.Phase) = ConnectorNamespacePhaseDeleted ->
       dst = ConnectorNamespacePhaseDeleting /\ int32 (deployed_in id (tables_in w)) = 0) /\
    tables_in w' = (tables_in w) <| namespaces := (tables_in w').(namespaces) |> /\
    (exists m, m ∈ (tables_in w').(namespaces) /\ m.(NS.ID) = id /\ m.(NS.Deleted) = false /\
       m.(NS.status).(NS.Phase) = reported_phase dst status /\ m.(NS.status).(NS.Version) = status.(NS.Version)) /\
    (forall m, m ∈ (tables_in w').(namespaces) -> m.(NS.ID) <> id -> m ∈ (tables_in w).(namespaces)).
Proof.
  intros Hnd. unfold UpdateConnectorNamespaceStatus. destruct (NS.Version status =?s "") eqn:Ev; [done|]. intros Hrun.
  apply String.eqb_neq in Ev. apply wrap_err_ok, ReadTransaction_ok in Hrun as (w0 & w1 & Ht0 & Hrun & Ht1). apply wrap_err_ok in Hrun.
  apply bind_ok in Hrun as (n & w2 & Hn & Hrun). apply wrap_err_ok, first_ok in Hn as (Hn & Ht2 & _).
  destruct (NS.Deleted n) eqn:Hd; [done|]. apply bind_ok in Hrun as (c & w3 & Hc & Hrun). apply wrap_err_ok, first_ok in Hc as (Hc & Ht3 & _).
  apply list_elem_of_In, filter_In in Hn as [Hn Hid]. apply list_elem_of_In in Hn.
  apply list_elem_of_In, filter_In in Hc as [Hc Hcid]. apply list_elem_of_In, in_live_clusters in Hc as [Hc Hcd].
  apply String.eqb_eq in Hid, Hcid. apply bind_ok in Hrun as (p & w4 & Hp & Hrun).
  unfold PerformNamespaceOperation, perform in Hp. apply bind_ok in Hp as (p' & w5 & Hq & Hp). injection Hq as Hq <-.
  assert (p' = p /\ w3 = w4) as [-> ->] by (destruct (fst p'); simpl in Hp; unfold bind, ret in Hp; by simplify_eq). clear Hp.
  destruct p as [b n']. apply namespace_perform_ok in Hq as (Htr & Hn' & Hb). simpl in Htr, Hb, Hrun.
  rewrite Ht2, Ht0 in Ht3. rewrite Ht2, Ht0 in Hc. rewrite Ht0 in Hn. rewrite Ht1.
  set (dst := n'.(NS.status).(NS.Phase)) in *.
  assert (NS.version n' = NS.version n /\ NS.ID n' = id) as [Hver Hid'] by (rewrite Hn'; done).
  exists n, c, dst. do 7 (split; [done|]). pose proof (namespace_dst_named _ _ _ _ Htr) as Hne.
  apply bind_ok in Hrun as (q & w6 & Hq & Hrun).
  assert (exists u m, q = (u, m) /\ m.(NS.status).(NS.Phase) = reported_phase dst status /\ m.(NS.version) = n.(NS.version) /\
    tables_in w6 = tables_in w /\ (u = false -> n.(NS.status).(NS.Phase) = reported_phase dst status /\
      m.(NS.status).(NS.Version) = n.(NS.status).(NS.Version)) /\
    (status.(NS.Phase) = ConnectorNamespacePhaseDeleted -> dst = ConnectorNamespacePhaseDeleting /\ int32 (deployed_in id (tables_in w)) = 0))
    as (u & m & -> & Hmp & Hmv & Ht6 & Hu & Hdel).
  { unfold reported_phase. destruct (NS.Phase status =?s _) eqn:Es.
    - apply bind_ok in Hq as (l & w7 & Hl & Hq). apply deployed_one in Hl as (-> & Ht7 & _). simpl in Hq. fold dst in Hq.
      destruct (_ && _) eqn:Eg; [|done]. injection Hq as <- <-. apply andb_true_iff in Eg as [Eg1%String.eqb_eq Eg2%Z.eqb_eq].
      rewrite Hid', Ht3 in Eg2. eexists _, _. split; [reflexivity|]. split_and!; try done; congruence.
    - injection Hq as <- <-. exists b, n'. split; [done|]. apply String.eqb_neq in Es. split_and!; try done.
      intros ->. symmetry in Hb. apply negb_false_iff, String.eqb_eq in Hb. split; [done|]. rewrite Hn'. done. }
  split; [done|]. simpl in Hrun. rewrite <- Ht6 in *.
  assert (reported_phase dst status <> "") as Hrp .
  { unfold reported_phase. destruct (NS.Phase status =?s ConnectorNamespacePhaseDeleted); [discriminate | exact Hne]. }
  destruct (u || _) eqn:Eu.
  - apply bind_ok in Hrun as (r' & w8 & Hup & Hrun). injection Hrun as <-. rewrite Hmp in Hup.
    rewrite Hmv in Hup. refine (report_rows id n _ _ _ u _ r' w8 Hnd Hn Hid Hd Ev Hrp _ Hup). intros Hf. by apply Hu.
  - injection Hrun as <-. apply orb_false_iff in Eu as [-> Eu]. apply negb_false_iff, bool_decide_eq_true in Eu.
    destruct (Hu eq_refl) as [Hp1 Hp2]. split; [symmetry; apply same_namespaces|]. split; [|done].
    exists n. split_and!; try done. rewrite <- Hp2. apply (f_equal NS.Version) in Eu. exact Eu.
Qed.

(** A namespace takes another connector only below its quota: the check
    succeeds only if the namespace has a profile that sets no limit, or the live
    connectors of the namespace are fewer than the limit. *)
Theorem connector_quota_enforced id w w' : CheckConnectorQuota quotaConfig id w = (Ok tt, w') ->
  exists profile, profile ∈ profiles_of id (tables_in w) /\
    let quota := (fst (GetNamespaceQuota quotaConfig profile)).(Quota_Connectors) in
    quota <= 0 \/ affected (fun c => in_namespace id c.(CO.NamespaceId)) (live_connectors (tables_in w)) < quota.
Proof.
  unfold CheckConnectorQuota. intros Hrun. apply bind_ok in Hrun as (p & w1 & Hp & Hrun).
  apply wrap_err_ok, first_ok in Hp as (Hp & Ht1 & _). exists p. split; [done|]. simpl.
  destruct (0 <? _) eqn:E0 in Hrun; [|left; lia]. right. apply bind_ok in Hrun as (k & w2 & Hv & Hrun).
  apply wrap_err_ok, value_ok in Hv as (-> & _ & _). rewrite Ht1 in Hrun. destruct (_ <=? _) eqn:E1; [done|]. lia.
Qed.
End ServiceFacts.

(** ** Witnesses *)
Module NamespaceExample.
Import MemC.
Definition ns (id name phase : string) : ConnectorNamespace :=
  NS.mkConnectorNamespace id false name "cluster-1" "alice" 3 None [(AnnotationProfileKey, EvaluationProfileName)] None (Some "org-1")
    (NS.mkStatus phase "" 0 []).
Definition rows : list ConnectorNamespace :=
  [ns "ns-1" "space" ConnectorNamespacePhaseReady; ns "ns-2" "other" ConnectorNamespacePhaseDeleted].
Definition tables : ctables :=
  mkCtables [ConnectorExample.cluster] rows [ConnectorExample.connector <| CO.Status := no_status |>]
    [CS.mkConnectorStatus "co-1" false (Some "ns-1") ConnectorStatusPhaseReady] [] [] [] [].
Definition w0 : cworld mem := world_of tables.
Definition deleting : cworld mem := world_of (tables <| namespaces := [ns "ns-1" "space" ConnectorNamespacePhaseDeleting] |>).
(** A namespace as it is created, before any report. *)
Definition created : ConnectorNamespace := ns "ns-1" "space" ConnectorNamespacePhaseDisconnected.
Definition unused : cworld mem := world_of (tables <| namespaces := [created] |> <| connectors := [] |> <| connector_statuses := [] |>).
Definition gone : ConnectorNamespaceStatus := NS.mkStatus ConnectorNamespacePhaseDeleted "1.2" 0 [].
Definition renamed : ConnectorNamespace := (report "ns-1" 3 "" "" []) <| NS.Name := "renamed" |>.
Definition quotas : ConnectorsQuotaConfig :=
  mkConnectorsQuotaConfig [(EvaluationProfileName, mkNamespaceQuota 4 "1Gi" "2Gi" "1" "2")] EvaluationProfileName DefaultProfileName.
End NamespaceExample.

Lemma namespace_deletion_exact_witness :
  deletion_effect "ns-1" NamespaceExample.w0 (snd (Delete "ns-1" NamespaceExample.w0)).
Proof.
  refine (namespace_deletion_exact "ns-1" NamespaceExample.w0 (Ok tt) (snd (Delete "ns-1" NamespaceExample.w0)) _).
  vm_compute. reflexivity.
Defined.

Lemma only_empty_deleted_namespaces_removed_witness :
  map NS.Deleted (tables_in (snd (ReconcileDeletedNamespaces NamespaceExample.w0))).(namespaces) = [false; true].
Proof.
  destruct (only_empty_deleted_namespaces_removed NamespaceExample.w0 1 (snd (ReconcileDeletedNamespaces NamespaceExample.w0))) as [Ht _].
  - apply (bool_decide_unpack _). vm_compute. exact I.
  - vm_compute. reflexivity.
  - rewrite Ht. vm_compute. reflexivity.
Defined.

Lemma unused_namespace_is_removed_witness :
  exists m, m ∈ (tables_in (snd (ReconcileDeletedNamespaces (snd (ReconcileUnusedDeletingNamespaces (snd (Delete "ns-1" NamespaceExample.unused))))))).(namespaces) /\
    m.(NS.ID) = "ns-1" /\ m.(NS.Deleted) = true.
Proof.
  apply (unused_namespace_is_removed "ns-1" NamespaceExample.created NamespaceExample.unused
    (snd (Delete "ns-1" NamespaceExample.unused)) 1 (snd (ReconcileUnusedDeletingNamespaces (snd (Delete "ns-1" NamespaceExample.unused)))) 1);
    try (vm_compute; reflexivity).
  - apply (bool_decide_unpack _). vm_compute. exact I.
  - split; [vm_compute; left | split_and!; reflexivity].
Defined.

Lemma stale_namespace_update_refused_witness :
  exists e, fst (Update NamespaceExample.renamed (snd (Update NamespaceExample.renamed NamespaceExample.w0))) = Err e.
Proof.
  refine (proj2 (stale_namespace_update_refused NamespaceExample.renamed NamespaceExample.w0 _
    (snd (Update NamespaceExample.renamed NamespaceExample.w0)) NamespaceExample.renamed _
    (snd (Update NamespaceExample.renamed (snd (Update NamespaceExample.renamed NamespaceExample.w0)))) _ _ _ _ _));
    vm_compute; reflexivity.
Defined.

Lemma agent_report_exact_witness :
  exists m, m ∈ (tables_in (snd (UpdateConnectorNamespaceStatus "ns-1" NamespaceExample.gone NamespaceExample.deleting))).(namespaces) /\
    m.(NS.status).(NS.Phase) = ConnectorNamespacePhaseDeleted.
Proof.
  destruct (agent_report_exact "ns-1" NamespaceExample.gone NamespaceExample.deleting
    (snd (UpdateConnectorNamespaceStatus "ns-1" NamespaceExample.gone NamespaceExample.deleting)))
    as (n & c & dst & _ & _ & _ & _ & _ & _ & _ & _ & _ & (m & Hm & _ & _ & Hp & _) & _).
  - apply (bool_decide_unpack _). vm_compute. exact I.
  - vm_compute. reflexivity.
  - exists m. split; [exact Hm | exact Hp].
Defined.

Lemma connector_quota_enforced_witness : fst (CheckConnectorQuota NamespaceExample.quotas "ns-1" NamespaceExample.w0) = Ok tt /\
  exists profile, profile ∈ profiles_of "ns-1" (tables_in NamespaceExample.w0).
Proof.
  split; [vm_compute; reflexivity|].
  destruct (connector_quota_enforced NamespaceExample.quotas "ns-1" NamespaceExample.w0
    (snd (CheckConnectorQuota NamespaceExample.quotas "ns-1" NamespaceExample.w0))) as (p & Hp & _); [vm_compute; reflexivity|].
  exists p. exact Hp.
Defined.
