(* ===== verification/ConnectorClusters.v ===== *)
(** * Connectors: the cluster service

    [src/internal/connector/internal/services/connector_cluster.go] and
    [connector_deployment.go].  The identity provider
    ([DeleteServiceAccountInternal], [GetKafkaClientSecret]) is a parameter; that
    it was asked to remove an account is recorded in the world. *)
From S2P Require Import Prelude Arrays Errors Status Config Model Store ConnectorModel ConnectorStore ConnectorNamespaces.

Open Scope Z_scope.

(** ** Statements *)
Definition insert_cluster (c : ConnectorCluster) (v : Z) (t : ctables) : option (unit * ctables) :=
  if existsb (fun c' => c'.(CC.ID) =?s c.(CC.ID)) t.(cclusters) then None
  else Some (tt, t <| cclusters := t.(cclusters) ++ [c <| CC.Annotations := [] |>] |>).

Definition update_clusters (p : ConnectorCluster -> bool) (f : ConnectorCluster -> ConnectorCluster) (v : Z) (t : ctables) :
    option (Z * ctables) :=
  let p' c := negb c.(CC.Deleted) && p c in
  Some (affected p' t.(cclusters), t <| cclusters := amend p' f t.(cclusters) |>).

(** The annotations are a table of their own, without deletion marks. *)
Definition set_cluster_annotations (id : string) (f : list Annotation -> list Annotation) (v : Z) (t : ctables) : option (unit * ctables) :=
  Some (tt, t <| cclusters := amend (fun c => c.(CC.ID) =?s id) (fun c => c <| CC.Annotations := f c.(CC.Annotations) |>) t.(cclusters) |>).

Definition soft_delete_clusters (p : ConnectorCluster -> bool) (v : Z) (t : ctables) : option (unit * ctables) :=
  Some (tt, t <| cclusters := amend (fun c => negb c.(CC.Deleted) && p c) (fun c => c <| CC.Deleted := true |>) t.(cclusters) |>).

Definition delete_deployments (p : ConnectorDeployment -> bool) (v : Z) (t : ctables) : option (unit * ctables) :=
  Some (tt, t <| deployments :=
    amend_versioned de_version (fun d => negb d.(CD.Deleted) && p d) (fun d => d <| CD.Deleted := true |>) v t.(deployments) |>).
Definition delete_deployment_statuses (p : ConnectorDeploymentStatus -> bool) (v : Z) (t : ctables) : option (unit * ctables) :=
  Some (tt, t <| deployment_statuses :=
    amend (fun d => negb d.(CDS.Deleted) && p d) (fun d => d <| CDS.Deleted := true |>) t.(deployment_statuses) |>).

(** [Save]: the row of that key is replaced, or a new one inserted. *)
Definition save_deployment (d : ConnectorDeployment) (v : Z) (t : ctables) : option (unit * ctables) :=
  Some (tt, t <| deployments := upsert CD.ID (de_version v d) t.(deployments) |>).
Definition save_status (s : ConnectorStatus) (v : Z) (t : ctables) : option (unit * ctables) :=
  Some (tt, t <| connector_statuses := upsert CS.ID s t.(connector_statuses) |>).

(** [Save] under the condition that the stored version is not newer: the row of
    that key is replaced; when there is a row that the condition excludes, the
    insertion that follows violates the primary key. *)
Definition save_deployment_status (s : ConnectorDeploymentStatus) (v : Z) (t : ctables) : option (unit * ctables) :=
  if existsb (fun r => negb r.(CDS.Deleted) && (r.(CDS.ID) =?s s.(CDS.ID)) && (r.(CDS.Version) <=? s.(CDS.Version))) t.(deployment_statuses)
  then Some (tt, t <| deployment_statuses :=
         amend (fun r => negb r.(CDS.Deleted) && (r.(CDS.ID) =?s s.(CDS.ID)) && (r.(CDS.Version) <=? s.(CDS.Version))) (fun _ => s) t.(deployment_statuses) |>)
  else if existsb (fun r => r.(CDS.ID) =?s s.(CDS.ID)) t.(deployment_statuses) then None
  else Some (tt, t <| deployment_statuses := t.(deployment_statuses) ++ [s] |>).

Definition merge_deployment (new old : ConnectorDeployment) : ConnectorDeployment :=
  CD.mkConnectorDeployment old.(CD.ID) old.(CD.Deleted) (pick_Z new.(CD.Version) old.(CD.Version))
    (pick_string new.(CD.ConnectorID) old.(CD.ConnectorID)) (pick_string new.(CD.OperatorID) old.(CD.OperatorID))
    (pick_Z new.(CD.ConnectorVersion) old.(CD.ConnectorVersion))
    (pick_Z new.(CD.ConnectorShardMetadataID) old.(CD.ConnectorShardMetadataID))
    (pick_string new.(CD.ClusterID) old.(CD.ClusterID)) (pick_string new.(CD.NamespaceID) old.(CD.NamespaceID))
    (new.(CD.AllowUpgrade) || old.(CD.AllowUpgrade)).

(** [Updates] of a cluster: the fields that are not zero. *)
Definition merge_platform (new old : ConnectorClusterPlatform) : ConnectorClusterPlatform :=
  mkConnectorClusterPlatform (pick_string new.(PlatformID) old.(PlatformID)) (pick_string new.(Platform_Type) old.(Platform_Type))
    (pick_string new.(Platform_Version) old.(Platform_Version)).
Definition merge_cluster_status (new old : ConnectorClusterStatus) : ConnectorClusterStatus :=
  CC.mkStatus (pick_string new.(CC.Phase) old.(CC.Phase)) (pick_string new.(CC.Version) old.(CC.Version))
    (merge_platform new.(CC.Platform) old.(CC.Platform)) (pick_list new.(CC.Conditions) old.(CC.Conditions))
    (pick_list new.(CC.Operators) old.(CC.Operators)).
Definition merge_cluster (new old : ConnectorCluster) : ConnectorCluster :=
  CC.mkConnectorCluster old.(CC.ID) old.(CC.Deleted) (pick_string new.(CC.Owner) old.(CC.Owner))
    (pick_string new.(CC.OrganisationId) old.(CC.OrganisationId)) (pick_string new.(CC.Name) old.(CC.Name))
    (pick_string new.(CC.ClientId) old.(CC.ClientId)) (pick_string new.(CC.ClientSecret) old.(CC.ClientSecret))
    old.(CC.Annotations) (merge_cluster_status new.(CC.status) old.(CC.status)).

(** gorm refuses to create an empty slice of rows. *)
Definition empty_slice : error := EPlain "empty slice found".

(** The identity provider. *)
Class ConnectorAccounts := {
  delete_account : string -> result ServiceError unit;
  account_secret : string -> result ServiceError string;
  register_account : string -> result ServiceError (string * string)
}.

(** ** The service *)
Section ClusterService.
Context {D : Type} `{ConnectorDB D} `{StateMachineLibrary} `{ConnectorAccounts}.
Context (quotaConfig : ConnectorsQuotaConfig).
Abbreviation W := (cworld D).
Abbreviation S A := (M W ServiceError A).

Definition cluster_id (id : string) (c : ConnectorCluster) : bool := c.(CC.ID) =?s id.

(** *** Deployments *)
Definition deleteConnectorDeployment (id : string) : M W ServiceError unit :=
  _ <~ wrap_err HandleDeleteError (change (delete_deployments (fun d => d.(CD.ID) =?s id))) ;;
  wrap_err HandleDeleteError (change (delete_deployment_statuses (fun d => d.(CDS.ID) =?s id))).

(** A live deployment of a connector that is deleted. *)
Definition dangling (t : ctables) (d : ConnectorDeployment) : bool :=
  negb d.(CD.Deleted) && existsb (fun c => (c.(CO.ID) =?s d.(CD.ConnectorID)) && c.(CO.Deleted)) t.(connectors).
Definition CleanupDeployments : S unit :=
  results <~ wrap_err (fun _ => GeneralError "unable to list connector deployment who's connectors have been deleted: %s")
    (select (fun t => map CD.ID (List.filter (dangling t) t.(deployments)))) ;;
  for_each (fun id =>
    _ <~ wrap_err (fun _ => GeneralError "unable to delete connector deployment status who's connectors have been deleted: %s")
           (change (delete_deployment_statuses (fun d => d.(CDS.ID) =?s id))) ;;
    wrap_err (fun _ => GeneralError "unable to delete connector deployment who's connectors have been deleted: %s")
      (change (delete_deployments (fun d => d.(CD.ID) =?s id)))) results.

Definition SaveDeployment (d : ConnectorDeployment) : S ConnectorDeployment :=
  _ <~ wrap_err HandleCreateError (change (save_deployment d)) ;;
  row <~ wrap_err HandleGetError (first (fun t => List.filter (fun r => r.(CD.ID) =?s d.(CD.ID)) (live_deployments t))) ;;
  _ <~ (if d.(CD.ClusterID) =?s "" then ret tt
        else AddPostCommitAction (Notify ("/kafka_connector_clusters/" +:+ d.(CD.ClusterID) +:+ "/deployments"))) ;;
  ret (d <| CD.Version := row.(CD.Version) |>).

Definition UpdateDeployment (d : ConnectorDeployment) : S unit :=
  _ <~ wrap_err HandleUpdateError (change (fun v t =>
    let p r := negb r.(CD.Deleted) && (r.(CD.ID) =?s d.(CD.ID)) in
    Some (affected p t.(deployments), t <| deployments := amend_versioned de_version p (merge_deployment d) v t.(deployments) |>))) ;;
  ret tt.

Definition GetDeploymentByConnectorId (connectorID : string) : S ConnectorDeployment :=
  wrap_err HandleGetError (first (fun t => List.filter (fun d => d.(CD.ConnectorID) =?s connectorID) (live_deployments t))).
Definition GetDeployment (id : string) : S ConnectorDeployment :=
  d <~ wrap_err HandleGetError (first (fun t => List.filter (fun d => d.(CD.ID) =?s id) t.(deployments))) ;;
  if d.(CD.Deleted) then throw HandleGoneError else ret d.

Definition UpdateConnectorDeploymentStatus (status : ConnectorDeploymentStatus) : S unit :=
  deployment <~ GetDeployment status.(CDS.ID) ;;
  _ <~ wrap_err (fun _ => Conflict "failed to update deployment status: %s, probably a stale deployment status version was used: %d")
         (change (save_deployment_status status)) ;;
  _ <~ wrap_err HandleGetError (first (fun t => List.filter (fun c => c.(CO.ID) =?s deployment.(CD.ConnectorID)) (live_connectors t))) ;;
  _ <~ wrap_err HandleGetError (first (fun t => List.filter (fun s => s.(CS.ID) =?s deployment.(CD.ConnectorID)) (live_statuses t))) ;;
  _ <~ (if status.(CDS.Phase) =?s ConnectorStatusPhaseDeleted then deleteConnectorDeployment status.(CDS.ID) else ret tt) ;;
  _ <~ wrap_err HandleUpdateError (change (update_statuses (fun s => s.(CS.ID) =?s deployment.(CD.ConnectorID))
         (fun s => s <| CS.Phase := pick_string status.(CDS.Phase) s.(CS.Phase) |>))) ;;
  ret tt.

(** The namespace of a connector that its owner may use, when it is ready.  The
    query without an organisation names a column that the table does not have
    ([tenant_owner_id]); the database refuses it. *)
Definition available (owner orgID : string) (id : option string) (n : ConnectorNamespace) : bool :=
  in_namespace n.(NS.ID) id && (in_namespace orgID n.(NS.TenantOrganisationId) || in_namespace owner n.(NS.TenantUserId))
  && (n.(NS.status).(NS.Phase) =?s ConnectorNamespacePhaseReady).
Definition FindAvailableNamespace (owner orgID : string) (namespaceID : option string) : S (option ConnectorNamespace) :=
  if orgID =?s "" then throw (HandleGetError (EPlain "column tenant_owner_id does not exist")) else
  l <~ wrap_err HandleGetError (select (fun t => List.filter (available owner orgID namespaceID) (live_namespaces t))) ;;
  ret (head l).

(** *** Clusters *)
Definition CreateCluster (newID : string) (c : ConnectorCluster) : S unit :=
  _ <~ wrap_err HandleCreateError (Transaction (
    _ <~ change (insert_cluster c) ;;
    match c.(CC.Annotations) with
    | [] => throw empty_slice
    | l => change (set_cluster_annotations c.(CC.ID) (fun _ => l))
    end)) ;;
  _ <~ CreateDefaultNamespace quotaConfig newID c ;;
  ret tt.

Definition GetCluster (id : string) : S ConnectorCluster :=
  c <~ wrap_err HandleGetError (first (fun t => List.filter (fun c => (id =?s "") || cluster_id id c) t.(cclusters))) ;;
  if c.(CC.Deleted) then throw HandleGoneError else ret c.

Definition DeleteClusterById (id : string) : S unit :=
  clusterDeleted <~ wrap_err HandleDeleteError (Transaction (wrap_err EService (
    resource <~ wrap_err HandleGetError (first (fun t => List.filter (cluster_id id) (live_clusters t))) ;;
    p <~ PerformClusterOperation resource DeleteCluster
           [fun cluster => _ <~ wrap_err HandleUpdateError (change (update_clusters (cluster_id cluster.(CC.ID))
              (CC.with_phase cluster.(CC.status).(CC.Phase)))) ;; ret tt] ;;
    ret (fst p : bool)))) ;;
  if clusterDeleted : bool then AddPostCommitAction (Notify "reconcile:connector_cluster") else ret tt.

Definition UpdateCluster (c : ConnectorCluster) : S unit :=
  wrap_err HandleUpdateError (Transaction (
    _ <~ change (set_cluster_annotations c.(CC.ID) (fun _ => [])) ;;
    _ <~ match c.(CC.Annotations) with
         | [] => throw (EService (GeneralError "failed to update connector cluster annotations %q: %v"))
         | l => change (set_cluster_annotations c.(CC.ID) (fun _ => l))
         end ;;
    _ <~ change (update_clusters (cluster_id c.(CC.ID)) (merge_cluster c)) ;;
    ret tt)).

Definition UpdateConnectorClusterStatus (id : string) (status : ConnectorClusterStatus) : S unit :=
  resource <~ wrap_err HandleGetError (first (fun t => List.filter (cluster_id id) (live_clusters t))) ;;
  p <~ PerformClusterOperation resource ConnectCluster [] ;;
  let updated := fst p in
  let resource := snd p in
  let status := status <| CC.Phase := resource.(CC.status).(CC.Phase) |> in
  if updated || negb (bool_decide (resource.(CC.status) = status)) then
    _ <~ (if updated then AddPostCommitAction (Notify "reconcile:connector") else ret tt) ;;
    _ <~ wrap_err (fun e => NewWithCause ErrorGeneral (Some e) "failed to update status")
      (change (update_clusters (cluster_id id) (fun c => c <| CC.status := merge_cluster_status status c.(CC.status) |>))) ;;
    ret tt
  else ret tt.

Definition GetConnectorClusterStatus (id : string) : S ConnectorClusterStatus :=
  c <~ wrap_err HandleGetError (first (fun t => List.filter (cluster_id id) (live_clusters t))) ;;
  let s := c.(CC.status) in
  ret (CC.mkStatus s.(CC.Phase) s.(CC.Version) (mkConnectorClusterPlatform "" "" "") s.(CC.Conditions) s.(CC.Operators)).

(** [Limit(1).Find]: no row gives the zero value. *)
Definition GetClientID (clusterID : string) : S string :=
  l <~ wrap_err HandleGetError (select (fun t => map CC.ClientId (List.filter (cluster_id clusterID) t.(cclusters)))) ;;
  ret (default "" (head l)).

(** Only the organisation is selected: [DeletedAt] keeps its zero value, and no
    row gives an empty organisation. *)
Definition GetClusterOrg (id : string) : S string :=
  l <~ wrap_err HandleGetError (select (fun t => map CC.OrganisationId (List.filter (cluster_id id) t.(cclusters)))) ;;
  ret (default "" (head l)).

Definition ResetServiceAccount (c : ConnectorCluster) : S ConnectorCluster :=
  secret <~ lift (account_secret c.(CC.ClientId)) ;;
  _ <~ wrap_err HandleGetError (change (update_clusters (cluster_id c.(CC.ID))
         (fun r => r <| CC.ClientId := pick_string c.(CC.ClientId) r.(CC.ClientId) |> <| CC.ClientSecret := pick_string secret r.(CC.ClientSecret) |>))) ;;
  ret (c <| CC.ClientSecret := secret |>).

(** *** The reconcilers of the cluster worker

    They return the number of clusters and the errors. *)
Definition DeleteServiceAccountInternal {E} (id : string) : M W E (result ServiceError unit) := fun w =>
  (Ok (delete_account id),
   mkCworld w.(cdb) w.(postCommitActions) w.(signals) w.(purged) (w.(removed_accounts) ++ [id]) w.(lastVersion)).

Fixpoint remove_accounts {E} (ids : list string) : M W E (list ServiceError) :=
  match ids with
  | [] => ret []
  | id :: ids' =>
      r <~ DeleteServiceAccountInternal id ;;
      errs <~ remove_accounts ids' ;;
      ret (match r with Ok _ => errs | Err _ => GeneralError "failed to remove connector service account %s: %s" :: errs end)
  end.

(** Errors of the identity provider do not stop the removal; an error of the
    database adds to them and rolls back. *)
Definition ReconcileEmptyDeletingClusters (clusterIds : list string) : M W ServiceError (Z * list ServiceError) := fun w =>
  let failed errs e := (errs, EService (HandleDeleteError e)) in
  match TransactionE (fun a e => (default [] a, e)) (
    clientIds <~ wrap_err (failed [])
      (select (fun t => map CC.ClientId (List.filter (fun c => one_of clusterIds c.(CC.ID)) (live_clusters t)))) ;;
    errs <~ remove_accounts clientIds ;;
    _ <~ wrap_err (failed errs) (change (soft_delete_clusters (fun c => one_of clusterIds c.(CC.ID)))) ;;
    ret errs) w with
  | (Ok errs, w') => (Ok (Z.of_nat (length clusterIds), errs), w')
  | (Err (errs, e), w') => (Ok (0, errs ++ [HandleDeleteError e]), w')
  end.

Definition ReconcileNonEmptyDeletingClusters (clusterIds : list string) : M W ServiceError (Z * list ServiceError) := fun w =>
  match Transaction (wrap_err EService (DeleteNamespaces (fun n =>
    one_of clusterIds n.(NS.ClusterId) && negb (one_of ending_phases n.(NS.status).(NS.Phase))))) w with
  | (Ok _, w') => (Ok (Z.of_nat (length clusterIds), []), w')
  | (Err e, w') => (Ok (0, [HandleDeleteError e]), w')
  end.

(** The clusters joined with their live namespaces: the query sees whether there
    is one. *)
Definition GetClusterIds (query : ConnectorCluster -> bool -> bool) : M W error (list string) :=
  wrap_err (fun e => EService (HandleGetError e)) (select (fun t => map CC.ID (List.filter (fun c =>
    query c (existsb (fun n => n.(NS.ClusterId) =?s c.(CC.ID)) (live_namespaces t))) t.(cclusters)))).
End ClusterService.
