(* ===== verification/Connectors.v ===== *)
(** * Connectors: the connector service

    [src/internal/connector/internal/services/connectors.go]: creation, reading
    with the tenancy of the caller, update, deletion, and the iteration the
    worker uses.  The vault is reached only by actions after a commit.  A
    connector and its status are rows of two tables; the row of a connector
    carries no status. *)
From stdpp Require Import sorting.
From S2P Require Import Prelude Arrays Errors Status Config Model Store Validation.
From S2P Require Import ConnectorModel ConnectorStore ConnectorNamespaces ConnectorClusters.

Open Scope Z_scope.

(** ** Statements *)
(** The columns of a connector. *)
Definition connector_row (c : Connector) : Connector :=
  CO.mkConnector c.(CO.ID) c.(CO.Deleted) c.(CO.NamespaceId) c.(CO.CloudProvider) c.(CO.Region) c.(CO.MultiAZ) c.(CO.Name)
    c.(CO.Owner) c.(CO.OrganisationId) c.(CO.Version) c.(CO.Annotations) c.(CO.ConnectorTypeId) c.(CO.ConnectorSpec)
    c.(CO.DesiredState) c.(CO.Channel) c.(CO.Kafka) c.(CO.SchemaRegistry)
    (mkServiceAccount c.(CO.ServiceAccount).(ServiceAccount_ClientId) "" c.(CO.ServiceAccount).(ClientSecretRef)) no_status.

Definition has_status (s : ConnectorStatus) : bool :=
  negb (s.(CS.ID) =?s "") || negb (s.(CS.Phase) =?s "") || match s.(CS.NamespaceID) with Some _ => true | None => false end.

(** A creation inserts the associated status as well, unless it is zero or there
    is one. *)
Definition insert_connector (c : Connector) (v : Z) (t : ctables) : option (unit * ctables) :=
  if existsb (fun r => r.(CO.ID) =?s c.(CO.ID)) t.(connectors) then None
  else
    let s := c.(CO.Status) <| CS.ID := c.(CO.ID) |> in
    let known := existsb (fun r => r.(CS.ID) =?s c.(CO.ID)) t.(connector_statuses) in
    Some (tt, t <| connectors := t.(connectors) ++ [co_version v (connector_row c)] |>
                <| connector_statuses := t.(connector_statuses) ++ (if has_status c.(CO.Status) && negb known then [s] else []) |>).

Definition merge_connector (new old : Connector) : Connector :=
  CO.mkConnector old.(CO.ID) old.(CO.Deleted) (pick_option new.(CO.NamespaceId) old.(CO.NamespaceId))
    (pick_string new.(CO.CloudProvider) old.(CO.CloudProvider)) (pick_string new.(CO.Region) old.(CO.Region))
    (new.(CO.MultiAZ) || old.(CO.MultiAZ)) (pick_string new.(CO.Name) old.(CO.Name)) (pick_string new.(CO.Owner) old.(CO.Owner))
    (pick_string new.(CO.OrganisationId) old.(CO.OrganisationId)) old.(CO.Version) new.(CO.Annotations)
    (pick_string new.(CO.ConnectorTypeId) old.(CO.ConnectorTypeId)) (pick_string new.(CO.ConnectorSpec) old.(CO.ConnectorSpec))
    (pick_string new.(CO.DesiredState) old.(CO.DesiredState)) (pick_string new.(CO.Channel) old.(CO.Channel))
    (mkKafkaConnectionSettings (pick_string new.(CO.Kafka).(KafkaID) old.(CO.Kafka).(KafkaID))
       (pick_string new.(CO.Kafka).(BootstrapServer) old.(CO.Kafka).(BootstrapServer)))
    (mkSchemaRegistryConnectionSettings (pick_string new.(CO.SchemaRegistry).(SchemaRegistryID) old.(CO.SchemaRegistry).(SchemaRegistryID))
       (pick_string new.(CO.SchemaRegistry).(Url) old.(CO.SchemaRegistry).(Url)))
    (mkServiceAccount (pick_string new.(CO.ServiceAccount).(ServiceAccount_ClientId) old.(CO.ServiceAccount).(ServiceAccount_ClientId)) ""
       (pick_string new.(CO.ServiceAccount).(ClientSecretRef) old.(CO.ServiceAccount).(ClientSecretRef))) no_status.

(** The annotations, a table of their own, are removed whatever the state of the
    connector. *)
Definition remove_annotations (id : string) (v : Z) (t : ctables) : option (unit * ctables) :=
  Some (tt, t <| connectors := amend (fun c => c.(CO.ID) =?s id)
    (fun c => CO.mkConnector c.(CO.ID) c.(CO.Deleted) c.(CO.NamespaceId) c.(CO.CloudProvider) c.(CO.Region) c.(CO.MultiAZ) c.(CO.Name)
       c.(CO.Owner) c.(CO.OrganisationId) c.(CO.Version) [] c.(CO.ConnectorTypeId) c.(CO.ConnectorSpec) c.(CO.DesiredState)
       c.(CO.Channel) c.(CO.Kafka) c.(CO.SchemaRegistry) c.(CO.ServiceAccount) c.(CO.Status)) t.(connectors) |>).

(** [Updates] with full saving of the associations: the status is written in
    full, unless it is zero. *)
Definition update_connector (c : Connector) (v : Z) (t : ctables) : option (Z * ctables) :=
  let p r := negb r.(CO.Deleted) && ((r.(CO.ID) =?s c.(CO.ID)) && (r.(CO.Version) =? c.(CO.Version))) in
  Some (affected p t.(connectors),
        t <| connectors := amend_versioned co_version p (merge_connector c) v t.(connectors) |>
          <| connector_statuses := if has_status c.(CO.Status) then upsert CS.ID (c.(CO.Status) <| CS.ID := c.(CO.ID) |>) t.(connector_statuses)
                                   else t.(connector_statuses) |>).

Definition delete_connectors (id : string) (v : Z) (t : ctables) : option (unit * ctables) :=
  Some (tt, t <| connectors := amend_versioned co_version (fun c => negb c.(CO.Deleted) && (c.(CO.ID) =?s id))
                                 (fun c => c <| CO.Deleted := true |>) v t.(connectors) |>).
Definition delete_statuses (id : string) (v : Z) (t : ctables) : option (unit * ctables) :=
  Some (tt, t <| connector_statuses := amend (fun s => negb s.(CS.Deleted) && (s.(CS.ID) =?s id))
                                         (fun s => s <| CS.Deleted := true |>) t.(connector_statuses) |>).

Definition by_version (a b : Connector) : Prop := a.(CO.Version) <= b.(CO.Version).
#[export] Instance by_version_dec : RelDecision by_version.
Proof. intros a b. unfold by_version. apply Z.le_dec. Defined.

(** ** The service *)
Section ConnectorService.
Context {D : Type} `{ConnectorDB D}.
Abbreviation W := (cworld D).
Abbreviation S A := (M W ServiceError A).

Definition connector_id (id : string) (c : Connector) : bool := c.(CO.ID) =?s id.
Definition live_connector (id : string) (t : ctables) : list Connector := List.filter (connector_id id) (live_connectors t).

Definition SaveStatus (s : ConnectorStatus) : S unit :=
  wrap_err (fun _ => GeneralError "failed to update: %s") (change (save_status s)).

Definition CreateConnectorRow (c : Connector) : S Connector :=
  _ <~ wrap_err (fun _ => GeneralError "failed to create connector: %v") (change (insert_connector c)) ;;
  row <~ wrap_err HandleGetError (first (live_connector c.(CO.ID))) ;;
  let status := c.(CO.Status) <| CS.ID := c.(CO.ID) |> <| CS.Phase := ConnectorStatusPhaseAssigning |> in
  _ <~ wrap_err (fun _ => GeneralError "failed to save status: %v") (change (save_status status)) ;;
  _ <~ AddPostCommitAction (Notify "reconcile:connector") ;;
  ret (row <| CO.Status := status |>).

(** The caller's view. *)
Definition visible (ctx : RequestContext) (t : ctables) (c : Connector) : bool :=
  let claims := claims_or_none ctx in
  let owner := value_or_zero (GetUsername claims) in
  let orgId := value_or_zero (GetOrgId claims) in
  if ctx.(rc_is_admin) then true
  else if ctx.(rc_filter_by_organisation) then
    match c.(CO.NamespaceId) with
    | None => (c.(CO.Owner) =?s owner) || (c.(CO.OrganisationId) =?s orgId)
    | Some id => existsb (fun n => (n.(NS.ID) =?s id) && (in_namespace owner n.(NS.TenantUserId) || in_namespace orgId n.(NS.TenantOrganisationId)))
                   (live_namespaces t)
    end
  else c.(CO.Owner) =?s owner.

Definition authenticated (ctx : RequestContext) : result ServiceError unit :=
  match ctx.(rc_claims) with
  | Err e => Err (NewWithCause ErrorUnauthenticated (Some e) "user not authenticated")
  | Ok c => if ctx.(rc_is_admin) then Ok tt
            else if value_or_zero (GetUsername c) =?s "" then Err (Unauthenticated "user not authenticated") else Ok tt
  end.

(** The row with the status joined to it; a status that is missing is zero. *)
Definition with_status (t : ctables) (c : Connector) : Connector :=
  c <| CO.Status := default no_status (List.find (fun s => s.(CS.ID) =?s c.(CO.ID)) t.(connector_statuses)) |>.

Definition GetConnector (ctx : RequestContext) (id : string) : S Connector :=
  _ <~ lift (authenticated ctx) ;;
  c <~ wrap_err HandleGetError (first (fun t => map (with_status t) (List.filter (fun c => connector_id id c && visible ctx t c) t.(connectors)))) ;;
  if c.(CO.Deleted) then throw HandleGoneError else ret c.

Definition DeleteConnectorRow (id : string) : S unit :=
  if id =?s "" then throw (Validation "id is undefined") else
  resource <~ wrap_err HandleGetError (first (live_connector id)) ;;
  _ <~ wrap_err (fun _ => GeneralError "unable to delete connector with id %s: %s") (change (delete_connectors resource.(CO.ID))) ;;
  _ <~ wrap_err HandleGetError (change (delete_statuses id)) ;;
  AddPostCommitAction (DeleteConnectorSecrets resource).

Definition UpdateConnectorRow (c : Connector) : S Connector :=
  if c.(CO.Version) =? 0 then throw (BadRequest "resource version is required") else
  _ <~ wrap_err ToServiceError (Transaction (wrap_err EService (
    _ <~ wrap_err HandleUpdateError (change (remove_annotations c.(CO.ID))) ;;
    rowsAffected <~ wrap_err HandleUpdateError (change (update_connector c)) ;;
    if rowsAffected =? 0 then throw (Conflict "resource version changed") else ret tt))) ;;
  _ <~ AddPostCommitAction (Notify "reconcile:connector") ;;
  wrap_err HandleGetError (first (fun t => map (with_status t) (live_connector c.(CO.ID) t))).

Definition ForceDelete `{StateMachineLibrary} `{ConnectorAccounts} (id : string) : S unit :=
  _ <~ wrap_err HandleDeleteError (Transaction (wrap_err EService (
    r <~ attempt (first (fun t => map CD.ID (List.filter (fun d => d.(CD.ConnectorID) =?s id) (live_deployments t)))) ;;
    match r with
    | Ok deploymentId => if deploymentId =?s "" then ret tt else deleteConnectorDeployment deploymentId
    | Err e => if IsRecordNotFoundError e then ret tt else throw (HandleGetError e)
    end))) ;;
  DeleteConnectorRow id.

(** *** Iteration

    The live connectors that satisfy the query, in the order of their versions,
    each with its status loaded again; every one is tried. *)
Definition phase_of (t : ctables) (c : Connector) : option string :=
  option_map CS.Phase (List.find (fun s => s.(CS.ID) =?s c.(CO.ID)) t.(connector_statuses)).

Fixpoint each_row (f : Connector -> S unit) (rows : list Connector) (w : W) : list error * W :=
  match rows with
  | [] => ([], w)
  | c :: rows' =>
      let '(r, w1) := first (fun t => List.filter (fun s => s.(CS.ID) =?s c.(CO.ID)) (live_statuses t)) w in
      let '(status, errs1) := match r with
                              | Ok s => (s, [])
                              | Err _ => (no_status <| CS.ID := c.(CO.ID) |>, [EService (GeneralError "unable to load connector status: %s")])
                              end in
      let '(r2, w2) := f (c <| CO.Status := status |>) w1 in
      let '(errs, w3) := each_row f rows' w2 in
      (errs1 ++ match r2 with Ok _ => errs | Err e => EService e :: errs end, w3)
  end.

Definition ForEach (f : Connector -> S unit) (query : Connector -> option string -> bool) (w : W) : list error * W :=
  match value (fun t => merge_sort by_version (List.filter (fun c => query c (phase_of t c)) (live_connectors t))) w with
  | (Err e, w1) => (if IsRecordNotFoundError e then [] else [EService (GeneralError "unable to list connectors: %s")], w1)
  | (Ok rows, w1) => each_row f rows w1
  end.
End ConnectorService.
