(* ===== verification/ConnectorTypes.v ===== *)
(** * Connectors: the catalogue of types

    [src/internal/connector/internal/services/connector_types.go] except its
    listings, the conversion of a catalogue entry
    ([src/internal/connector/internal/presenters/connector_type.go]) and the worker
    that stores the configured catalogue at start
    ([src/internal/connector/internal/workers/connector_type_mgr.go]).

    Revisions of the shard metadata of a type and channel are kept; each row says
    which revision is the latest one, unless it is the latest itself. *)
From S2P Require Import Prelude Arrays Errors Status Config Model Store.
From S2P Require Import ConnectorModel ConnectorStore ConnectorNamespaces ConnectorClusters Connectors.

Open Scope Z_scope.

(** ** The configured catalogue

    A schema and a shard metadata are given by what [json.Marshal] makes of them,
    and the metadata also by its entry [connector_revision]: a number of JSON,
    truncated, or another value. *)
Record PublicConnectorType := mkPublicConnectorType {
  PT_Id : string;
  PT_Name : string;
  PT_Version : string;
  PT_Deprecated : bool;
  PT_Description : string;
  PT_FeaturedRank : Z;
  PT_IconHref : string;
  PT_Labels : list string;
  PT_Channels : list string;
  PT_Capabilities : list string;
  PT_Annotations : list Annotation;
  PT_Schema : result error string
}.
Inductive RevisionEntry := RevisionNumber (n : Z) | RevisionOther.
Record ConnectorChannelConfig := mkConnectorChannelConfig {
  connector_revision : option RevisionEntry;
  channel_json : result error string
}.
Record ConnectorCatalogEntry := mkConnectorCatalogEntry {
  CE_Channels : list (string * ConnectorChannelConfig);
  CE_ConnectorType : PublicConnectorType
}.
Record CatalogConfig := mkCatalogConfig {
  CatalogEntries : list ConnectorCatalogEntry;
  CatalogChecksums : list (string * string)
}.

Definition ConvertConnectorType (from : PublicConnectorType) : result error ConnectorType :=
  schema <-! from.(PT_Schema) ;;
  Ok (CT.mkConnectorType from.(PT_Id) false from.(PT_Version) from.(PT_Name) from.(PT_Description) from.(PT_Deprecated) schema
        from.(PT_Channels) from.(PT_IconHref) from.(PT_Labels) from.(PT_Annotations) from.(PT_Capabilities) None from.(PT_FeaturedRank)).

Definition GetShardMetadataRevision (c : ConnectorChannelConfig) : result error Z :=
  match c.(connector_revision) with
  | Some (RevisionNumber n) => Ok n
  | Some RevisionOther => Err (EPlain "connector_revision in shard metadata was not an int but a %v")
  | None => Err (EPlain "connector_revision not found in shard metadata")
  end.

(** ** Statements *)
Definition type_id (id : string) (t : ConnectorType) : bool := t.(CT.ID) =?s id.

(** The primary key is checked against removed rows too. *)
Definition insert_type (c : ConnectorType) (v : Z) (t : ctables) : option (unit * ctables) :=
  if existsb (type_id c.(CT.ID)) t.(connector_types) then None
  else Some (tt, t <| connector_types := t.(connector_types) ++ [c] |>).

Definition amend_types (p : ConnectorType -> bool) (f : ConnectorType -> ConnectorType) (v : Z) (t : ctables) : option (unit * ctables) :=
  Some (tt, t <| connector_types := amend p f t.(connector_types) |>).
Definition live_type (id : string) (t : ConnectorType) : bool := negb t.(CT.Deleted) && type_id id t.

(** Associated rows are added unless they are there. *)
Definition add_new (new old : list string) : list string := old ++ List.filter (fun x => negb (one_of old x)) new.
Definition merge_type (new old : ConnectorType) : ConnectorType :=
  CT.mkConnectorType old.(CT.ID) old.(CT.Deleted) (pick_string new.(CT.Version) old.(CT.Version)) (pick_string new.(CT.Name) old.(CT.Name))
    (pick_string new.(CT.Description) old.(CT.Description)) (new.(CT.Deprecated) || old.(CT.Deprecated))
    (pick_string new.(CT.JsonSchema) old.(CT.JsonSchema)) (add_new new.(CT.Channels) old.(CT.Channels))
    (pick_string new.(CT.IconHref) old.(CT.IconHref)) (add_new new.(CT.Labels) old.(CT.Labels))
    (merge_annotations new.(CT.Annotations) old.(CT.Annotations)) (add_new new.(CT.Capabilities) old.(CT.Capabilities))
    (pick_option new.(CT.Checksum) old.(CT.Checksum)) (pick_Z new.(CT.FeaturedRank) old.(CT.FeaturedRank)).

(** The annotations of the live connectors of a type. *)
Definition set_connector_annotations (f : list Annotation -> list Annotation) (c : Connector) : Connector :=
  CO.mkConnector c.(CO.ID) c.(CO.Deleted) c.(CO.NamespaceId) c.(CO.CloudProvider) c.(CO.Region) c.(CO.MultiAZ) c.(CO.Name) c.(CO.Owner)
    c.(CO.OrganisationId) c.(CO.Version) (f c.(CO.Annotations)) c.(CO.ConnectorTypeId) c.(CO.ConnectorSpec) c.(CO.DesiredState)
    c.(CO.Channel) c.(CO.Kafka) c.(CO.SchemaRegistry) c.(CO.ServiceAccount) c.(CO.Status).
Definition of_type (id : string) (c : Connector) : bool := negb c.(CO.Deleted) && (c.(CO.ConnectorTypeId) =?s id).
Definition delete_type_annotations (id : string) (keys : list string) (v : Z) (t : ctables) : option (unit * ctables) :=
  Some (tt, t <| connectors := amend (of_type id)
    (set_connector_annotations (List.filter (fun a => negb (one_of keys (fst a))))) t.(connectors) |>).
(** An annotation of that key violates the primary key. *)
Definition copy_type_annotations (id : string) (v : Z) (t : ctables) : option (unit * ctables) :=
  let annotations := flat_map CT.Annotations (List.filter (type_id id) t.(connector_types)) in
  if existsb (fun c => of_type id c && existsb (fun a => existsb (fun b => fst b =?s fst a) c.(CO.Annotations)) annotations) t.(connectors) then None
  else Some (tt, t <| connectors := amend (of_type id) (set_connector_annotations (fun l => l ++ annotations)) t.(connectors) |>).

(** Metadata of the same type and channel. *)
Definition same_group (typeId channel : string) (m : ConnectorShardMetadata) : bool :=
  (m.(SM.ConnectorTypeId) =?s typeId) && (m.(SM.Channel) =?s channel).
Definition group_of (m m' : ConnectorShardMetadata) : bool := same_group m.(SM.ConnectorTypeId) m.(SM.Channel) m'.
Definition max_revision (l : list ConnectorShardMetadata) : option Z :=
  match map SM.Revision l with [] => None | r :: rs => Some (foldr Z.max r rs) end.
Definition insert_metadata (m : ConnectorShardMetadata) (v : Z) (t : ctables) : option (unit * ctables) :=
  Some (tt, t <| shard_metadata := t.(shard_metadata) ++ [m <| SM.ID := v |>] |>).
Definition set_latest (m : ConnectorShardMetadata) (v : Z) (t : ctables) : option (unit * ctables) :=
  Some (tt, t <| shard_metadata := amend (fun m' => group_of m m' && (m'.(SM.Revision) <? m.(SM.Revision)))
    (fun m' => m' <| SM.LatestRevision := Some m.(SM.Revision) |>) t.(shard_metadata) |>).

(** ** The service *)
Section TypesService.
Context {D : Type} `{ConnectorDB D}.
Context (config : CatalogConfig).
Abbreviation W := (cworld D).
Abbreviation S A := (M W ServiceError A).

Definition updateConnectorAnnotations (old : ConnectorType) : S unit :=
  _ <~ wrap_err (fun _ => GeneralError "failed to delete old connector annotations related to type %q: %v")
         (change (delete_type_annotations old.(CT.ID) (map fst old.(CT.Annotations)))) ;;
  wrap_err (fun _ => GeneralError "failed to create new connector annotations related to type %q: %v")
    (change (copy_type_annotations old.(CT.ID))).

Definition update_type (resource : ConnectorType) : S unit :=
  let tid := resource.(CT.ID) in
  let failed reason (_ : error) := GeneralError reason in
  _ <~ wrap_err (failed "failed to remove connector type annotations %q: %v") (change (amend_types (type_id tid) (fun t => t <| CT.Annotations := [] |>))) ;;
  _ <~ wrap_err (failed "failed to remove connector type labels %q: %v") (change (amend_types (type_id tid) (fun t => t <| CT.Labels := [] |>))) ;;
  _ <~ wrap_err (failed "failed to remove connector type channels %q: %v") (change (amend_types (type_id tid) (fun t => t <| CT.Channels := [] |>))) ;;
  _ <~ wrap_err (failed "failed to remove connector type capabilities %q: %v") (change (amend_types (type_id tid) (fun t => t <| CT.Capabilities := [] |>))) ;;
  wrap_err (failed "failed to update connector type %q: %v") (change (amend_types (live_type tid) (merge_type resource))).

Definition find_type (id : string) : M W error ConnectorType := first (fun t => List.filter (type_id id) (live_types t)).

Definition CreateType (resource : ConnectorType) : S ConnectorType :=
  let tid := resource.(CT.ID) in
  if tid =?s "" then throw (Errors.Validation "connector type id is undefined") else
  wrap_err (fun e => match e with EService s => s | _ => GeneralError "failed to create/update connector type %q: %v" end)
    (Transaction (wrap_err EService (
      found <~ attempt (find_type tid) ;;
      _ <~ match found with
           | Err e =>
               if IsRecordNotFoundError e
               then wrap_err (fun _ => GeneralError "failed to create connector type %q: %v") (change (insert_type resource))
               else throw (NewWithCause ErrorGeneral (Some e) "unable to find connector type")
           | Ok old => _ <~ update_type resource ;; updateConnectorAnnotations old
           end ;;
      wrap_err HandleGetError (find_type tid)))).

Definition GetType (id : string) : S ConnectorType :=
  if id =?s "" then throw (Errors.Validation "typeId is empty") else
  r <~ wrap_err HandleGetError (first (fun t => List.filter (type_id id) t.(connector_types))) ;;
  if r.(CT.Deleted) then throw HandleGoneError else ret r.

(** *** Shard metadata

    Statements on connections of their own.  The identifier that is returned for
    a new row is that of the row that was not found. *)
Definition PutConnectorShardMetadata (m : ConnectorShardMetadata) : S Z :=
  found <~ attempt (first (fun t => List.filter (fun m' => group_of m m' && (m'.(SM.Revision) =? m.(SM.Revision))) t.(shard_metadata))) ;;
  match found with
  | Ok row => ret row.(SM.ID)
  | Err e =>
      if negb (IsRecordNotFoundError e) then throw (NewWithCause ErrorGeneral (Some e) "unable to save connector shard metadata") else
      current <~ wrap_err (fun _ => GeneralError "failed to find max(revision) of connector shard metadata %v: %v")
        (value (fun t => max_revision (List.filter (group_of m) t.(shard_metadata)))) ;;
      let latest := match current with Some r => if m.(SM.Revision) <? r then Some r else None | None => None end in
      let m := m <| SM.LatestRevision := latest |> in
      _ <~ wrap_err (fun _ => GeneralError "failed to create connector shard metadata %v: %v") (change (insert_metadata m)) ;;
      _ <~ match latest with
           | None => wrap_err (fun _ => GeneralError "failed to update other connectors shard metadata with the latest revision from: %v")
                       (change (set_latest m))
           | Some _ => ret tt
           end ;;
      ret 0
  end.

(** A condition on a field that is zero is left out. *)
Definition by_field (value field : string) : bool := (value =?s "") || (field =?s value).
Definition GetConnectorShardMetadata (typeId channel : string) (revision : Z) : S ConnectorShardMetadata :=
  wrap_err (fun e => if IsRecordNotFoundError e then NotFound "connector type shard metadata (ConnectorTypeId: %s, Channel: %s, Revision: %v) not found."
                     else GeneralError "unable to get connector type shard metadata (ConnectorTypeId: %s, Channel: %s, Revision: %v): %s")
    (first (fun t => List.filter (fun m => by_field typeId m.(SM.ConnectorTypeId) && by_field channel m.(SM.Channel)
                                           && ((revision =? 0) || (m.(SM.Revision) =? revision))) t.(shard_metadata))).
Definition newest (l : list ConnectorShardMetadata) : list ConnectorShardMetadata :=
  List.filter (fun m => forallb (fun m' => m'.(SM.Revision) <=? m.(SM.Revision)) l) l.
Definition GetLatestConnectorShardMetadata (typeId channel : string) : S ConnectorShardMetadata :=
  wrap_err (fun e => if IsRecordNotFoundError e then NotFound "connector type shard metadata not found"
                     else GeneralError "unable to get connector type shard metadata: %s")
    (first (fun t => newest (List.filter (fun m => by_field typeId m.(SM.ConnectorTypeId) && by_field channel m.(SM.Channel)) t.(shard_metadata)))).

(** *** The catalogue *)
Fixpoint reconcile_channels (f : string -> string -> ConnectorChannelConfig -> S unit) (id : string) (l : list (string * ConnectorChannelConfig)) : S unit :=
  match l with
  | [] => ret tt
  | (channel, ccc) :: l' => _ <~ f id channel ccc ;; reconcile_channels f id l'
  end.

Definition reconcile_entry (f : string -> string -> ConnectorChannelConfig -> S unit) (entry : ConnectorCatalogEntry) : S unit :=
  connectorType <~ lift (map_err (fun _ => GeneralError "failed to convert connector type %s: %v") (ConvertConnectorType entry.(CE_ConnectorType))) ;;
  _ <~ CreateType connectorType ;;
  _ <~ reconcile_channels f entry.(CE_ConnectorType).(PT_Id) entry.(CE_Channels) ;;
  let id := connectorType.(CT.ID) in
  wrap_err (fun _ => GeneralError "failed to update connector type %s checksum: %v")
    (change (amend_types (live_type id) (fun t => t <| CT.Checksum := Some (default "" (map_lookup config.(CatalogChecksums) id)) |>))).

Definition ForEachConnectorCatalogEntry (f : string -> string -> ConnectorChannelConfig -> S unit) : S unit :=
  for_each (reconcile_entry f) config.(CatalogEntries).

Definition CatalogEntriesReconciled : S bool :=
  let typeIds := map fst config.(CatalogChecksums) in
  connectorTypes <~ wrap_err HandleGetError (select (fun t => List.filter (fun c => one_of typeIds c.(CT.ID)) (live_types t))) ;;
  if negb (length config.(CatalogChecksums) =? length connectorTypes)%nat then ret false else
  ret (forallb (fun c => match c.(CT.Checksum) with
                         | Some sum => sum =?s default "" (map_lookup config.(CatalogChecksums) c.(CT.ID))
                         | None => false
                         end) connectorTypes).

(** Types that are used and no longer in the catalogue. *)
Definition getDeprecatedTypes (usedConnectorTypeIDs notToBeDeletedIDs : list string) : list string :=
  List.filter (fun k => negb (one_of notToBeDeletedIDs k)) usedConnectorTypeIDs.

(** The slice starts with as many empty strings as there are entries. *)
Definition notToBeDeleted : list string :=
  repeat "" (length config.(CatalogEntries)) ++ map (fun e => e.(CE_ConnectorType).(PT_Id)) config.(CatalogEntries).
Definition DeleteOrDeprecateRemovedTypes : S unit :=
  used <~ wrap_err (fun _ => GeneralError "failed to find active connectors: %v")
    (select (fun t => remove_dups (map CO.ConnectorTypeId (live_connectors t)))) ;;
  let deprecatedIds := getDeprecatedTypes used notToBeDeleted in
  _ <~ match deprecatedIds with
       | [] => ret tt
       | _ => wrap_err (fun _ => GeneralError "failed to deprecate connector types with ids %v : %v")
                (change (amend_types (fun t => negb t.(CT.Deleted) && one_of deprecatedIds t.(CT.ID)) (fun t => t <| CT.Deprecated := true |>)))
       end ;;
  wrap_err (fun _ => GeneralError "failed to delete connector type with ids %v : %v")
    (change (amend_types (fun t => negb t.(CT.Deleted) && negb (one_of (notToBeDeleted ++ used) t.(CT.ID))) (fun t => t <| CT.Deleted := true |>))).

(** *** The worker of the catalogue *)
Definition ReconcileConnectorCatalogEntry (id channel : string) (c : ConnectorChannelConfig) : S unit :=
  revision <~ lift (map_err (fun _ => GeneralError "failed to convert connector type %s, channel %s. Error in loaded connector type shard metadata %+v: %v")
                      (GetShardMetadataRevision c)) ;;
  json <~ lift (map_err (fun _ => GeneralError "failed to convert connector type %s, channel %s: %v") c.(channel_json)) ;;
  _ <~ PutConnectorShardMetadata (SM.mkConnectorShardMetadata 0 id channel revision None json) ;;
  ret tt.

(** One pass: the errors, and whether the catalogue is now stored. *)
Definition startup_pass : S unit :=
  _ <~ DeleteOrDeprecateRemovedTypes ;;
  _ <~ ForEachConnectorCatalogEntry ReconcileConnectorCatalogEntry ;;
  CleanupDeployments.
Definition ConnectorTypeManager_Reconcile (startupReconcileDone : bool) (w : W) : list error * bool * W :=
  if startupReconcileDone then ([], true, w)
  else match startup_pass w with
       | (Err e, w') => ([EService e], false, w')
       | (Ok _, w') => ([], true, w')
       end.
End TypesService.

(** ** The latest revisions *)

(** A row without a latest revision is the newest of its type and channel; the
    others name the newest. *)
Definition latest_ok (l : list ConnectorShardMetadata) : Prop := forall m, m ∈ l ->
  match m.(SM.LatestRevision) with
  | None => forall m', m' ∈ l -> group_of m m' = true -> m'.(SM.Revision) <= m.(SM.Revision)
  | Some r => m.(SM.Revision) < r /\ (exists m', m' ∈ l /\ group_of m m' = true /\ m'.(SM.Revision) = r) /\
      forall m', m' ∈ l -> group_of m m' = true -> m'.(SM.Revision) <= r
  end.

Lemma max_revision_spec l :
  match max_revision l with
  | Some r => (exists m, m ∈ l /\ m.(SM.Revision) = r) /\ forall m, m ∈ l -> m.(SM.Revision) <= r
  | None => l = []
  end.
Proof.
  destruct l as [|m l]; [done|]. unfold max_revision. simpl.
  induction l as [|m' l IH]; simpl.
  - split; [exists m; set_solver|]. intros x [->|Hx]%elem_of_cons; [lia | set_solver].
  - destruct IH as [(x & Hx & Hr) Hle]. split.
    + destruct (Z.max_spec m'.(SM.Revision) (foldr Z.max m.(SM.Revision) (map SM.Revision l))) as [[_ ->]|[_ ->]].
      * exists x. split; [|done]. set_solver.
      * exists m'. split; [set_solver | done].
    + intros y Hy. assert (y = m' \/ y ∈ m :: l) as [->|Hy'] by set_solver; [lia|]. apply Hle in Hy'. lia.
Qed.

Lemma group_of_spec m m' : group_of m m' = true <-> m'.(SM.ConnectorTypeId) = m.(SM.ConnectorTypeId) /\ m'.(SM.Channel) = m.(SM.Channel).
Proof. unfold group_of, same_group. rewrite andb_true_iff, !String.eqb_eq. done. Qed.

(** A new latest revision changes neither the group nor the revision of a row. *)
Lemma relabel_group (b : bool) r y z : group_of z (if b then y <| SM.LatestRevision := Some r |> else y) = group_of z y.
Proof. by destruct b. Qed.
Lemma relabel_revision (b : bool) r y : (if b then y <| SM.LatestRevision := Some r |> else y).(SM.Revision) = y.(SM.Revision).
Proof. by destruct b. Qed.

(** Revisions of a group, for a row [m] that is not in the table. *)
Section Put.
Context (l : list ConnectorShardMetadata) (m : ConnectorShardMetadata).
Hypothesis Hl : latest_ok l.
Hypothesis Hnew : forall m', m' ∈ l -> group_of m m' = true -> m'.(SM.Revision) <> m.(SM.Revision).

Lemma in_group m' : m' ∈ List.filter (group_of m) l <-> m' ∈ l /\ group_of m m' = true.
Proof. by rewrite list_elem_of_In, filter_In, <- list_elem_of_In. Qed.

(** An older revision: it names the newest, and no other row changes. *)
Lemma put_older r id : max_revision (List.filter (group_of m) l) = Some r -> m.(SM.Revision) < r ->
  latest_ok (l ++ [m <| SM.LatestRevision := Some r |> <| SM.ID := id |>]).
Proof.
  intros Hmax Hlt. pose proof (max_revision_spec (List.filter (group_of m) l)) as Hspec. rewrite Hmax in Hspec.
  destruct Hspec as [(x & Hx & Hxr) Hle]. apply in_group in Hx as [Hx Hxg].
  intros y Hy. apply elem_of_app in Hy as [Hy|Hy].
  - specialize (Hl y Hy). destruct (y.(SM.LatestRevision)) as [ry|].
    + destruct Hl as (Hlt' & (z & Hz & Hzg & Hzr) & Hb). split; [done|]. split; [exists z; set_solver|].
      intros z' [Hz'|Hz'%list_elem_of_singleton]%elem_of_app Hg; [by apply Hb|]. subst z'. simpl in *. rewrite group_of_spec in Hg, Hxg, Hzg. simpl in Hg.
      assert (x.(SM.Revision) <= ry) by (apply Hb; [done|]; rewrite group_of_spec; naive_solver congruence). lia.
    + intros z' [Hz'|Hz'%list_elem_of_singleton]%elem_of_app Hg; [by apply Hl|]. subst z'. simpl in *. rewrite group_of_spec in Hg, Hxg. simpl in Hg.
      assert (x.(SM.Revision) <= y.(SM.Revision)) by (apply Hl; [done|]; rewrite group_of_spec; naive_solver congruence). lia.
  - apply list_elem_of_singleton in Hy as ->. simpl. split; [done|]. split; [exists x; set_solver|].
    intros z' [Hz'|Hz'%list_elem_of_singleton]%elem_of_app Hg; [|subst z'; simpl; lia]. apply Hle. apply in_group. done.
Qed.

(** A newer revision: the others name it. *)
Lemma put_newer id : (forall m', m' ∈ l -> group_of m m' = true -> m'.(SM.Revision) <= m.(SM.Revision)) ->
  latest_ok (amend (fun m' => group_of m m' && (m'.(SM.Revision) <? m.(SM.Revision))) (fun m' => m' <| SM.LatestRevision := Some m.(SM.Revision) |>)
    (l ++ [m <| SM.LatestRevision := None |> <| SM.ID := id |>])).
Proof.
  intros Hle. set (p := fun m' => _ && _). set (row := m <| SM.LatestRevision := None |> <| SM.ID := id |>).
  assert (p row = false) as Hprow by (unfold p, row; simpl; rewrite Z.ltb_irrefl; by rewrite andb_false_r).
  assert (forall y, y ∈ l -> p y = group_of m y) as Hp.
  { intros y Hy. unfold p. destruct (group_of m y) eqn:Eg; [|done]. specialize (Hnew y Hy Eg). specialize (Hle y Hy Eg). simpl. lia. }
  assert (forall y, y ∈ amend p (fun m' => m' <| SM.LatestRevision := Some m.(SM.Revision) |>) (l ++ [row]) ->
    exists y0, (y0 ∈ l \/ y0 = row) /\ y = (if p y0 then y0 <| SM.LatestRevision := Some m.(SM.Revision) |> else y0)) as Hinv.
  { intros y (y0 & Hy0 & ->)%amend_elem. exists y0. split; [|done]. set_solver. }
  assert (forall y0, (y0 ∈ l \/ y0 = row) ->
    (if p y0 then y0 <| SM.LatestRevision := Some m.(SM.Revision) |> else y0)
      ∈ amend p (fun m' => m' <| SM.LatestRevision := Some m.(SM.Revision) |>) (l ++ [row])) as Hin.
  { intros y0 Hy0. apply amend_elem. exists y0. split; [set_solver|done]. }
  intros y (y0 & [Hy0| ->] & ->)%Hinv; [|rewrite Hprow; simpl].
  - destruct (p y0) eqn:Ep.
    + rewrite (Hp y0 Hy0) in Ep. specialize (Hle y0 Hy0 Ep). specialize (Hnew y0 Hy0 Ep). rewrite group_of_spec in Ep. simpl.
      split; [lia|]. split.
      * exists row. split; [specialize (Hin row (or_intror eq_refl)); by rewrite Hprow in Hin|]. split; [|done]. apply group_of_spec. simpl. naive_solver congruence.
      * intros z (z0 & [Hz0| ->] & ->)%Hinv; rewrite relabel_group, relabel_revision; [|done]. intros Hg%group_of_spec.
        assert (group_of m z0 = true) as Hmz by (apply group_of_spec; simpl in Hg; naive_solver congruence).
        pose proof (Hp z0 Hz0) as Hpz. rewrite Hmz in Hpz. unfold p in Hpz. apply andb_true_iff in Hpz as [_ Hpz]. lia.
    + rewrite (Hp y0 Hy0) in Ep. pose proof (Hl y0 Hy0) as Hold.
      assert (group_of y0 row = false) as Hrow.
      { apply not_true_iff_false. intros Hg%group_of_spec. apply not_true_iff_false in Ep. apply Ep. apply group_of_spec. simpl in Hg. naive_solver congruence. }
      destruct (y0.(SM.LatestRevision)) as [ry|].
      * destruct Hold as (Hlt & (z & Hz & Hzg & Hzr) & Hb). split; [done|]. split.
        -- eexists. split; [apply (Hin z); by left|]. by rewrite relabel_group, relabel_revision.
        -- intros z' (z0 & [Hz0| ->] & ->)%Hinv; rewrite relabel_group, relabel_revision; [by apply Hb | by rewrite Hrow].
      * intros z' (z0 & [Hz0| ->] & ->)%Hinv; rewrite relabel_group, relabel_revision; [by apply Hold | by rewrite Hrow].
  - intros z' (z0 & [Hz0| ->] & ->)%Hinv; rewrite relabel_group, relabel_revision; [|simpl; lia]. intros Hg%group_of_spec. apply Hle; [done|]. by apply group_of_spec.
Qed.
End Put.

Section Metadata.
Context {D : Type} `{ConnectorDB D}.
Abbreviation W := (cworld D).

(** What a row that is stored says, apart from its key and the latest revision. *)
Definition same_metadata (m m' : ConnectorShardMetadata) : Prop := group_of m m' = true /\ m'.(SM.Revision) = m.(SM.Revision).

Lemma put_inserts (m : ConnectorShardMetadata) latest w (w' : W) :
  latest_ok (tables_in w).(shard_metadata) ->
  (forall m', m' ∈ (tables_in w).(shard_metadata) -> group_of m m' = true -> m'.(SM.Revision) <> m.(SM.Revision)) ->
  latest = match max_revision (List.filter (group_of m) (tables_in w).(shard_metadata)) with
           | Some r => if m.(SM.Revision) <? r then Some r else None
           | None => None
           end ->
  (exists v t1, insert_metadata (m <| SM.LatestRevision := latest |>) v (tables_in w) = Some (tt, t1) /\
     match latest with
     | None => exists v', set_latest (m <| SM.LatestRevision := None |>) v' t1 = Some (tt, tables_in w')
     | Some _ => tables_in w' = t1
     end) ->
  latest_ok (tables_in w').(shard_metadata) /\ exists m', m' ∈ (tables_in w').(shard_metadata) /\ same_metadata m m'.
Proof.
  intros Hl Hnew Hlatest (v & t1 & [= <-] & Hrest).
  pose proof (max_revision_spec (List.filter (group_of m) (tables_in w).(shard_metadata))) as Hspec.
  assert (forall id o, same_metadata m (m <| SM.LatestRevision := o |> <| SM.ID := id |>)) as Hsame
    by (intros; split; [by apply group_of_spec | done]).
  destruct latest as [r|].
  - destruct (max_revision _) as [r'|] eqn:Em; [|done]. destruct (_ <? _) eqn:Elt; [|done]. injection Hlatest as <-. rewrite Hrest. simpl. split.
    + apply put_older; [done|done|done|lia].
    + eexists. split; [apply elem_of_app; right; left|]. apply Hsame.
  - destruct Hrest as (v' & [= <-]). simpl. split.
    + apply (put_newer _ m Hl Hnew v). intros m' Hin Hg. destruct (max_revision _) as [r'|] eqn:Em.
      * destruct (_ <? _) eqn:Elt in Hlatest; [done|]. destruct Hspec as [_ Hle].
        assert (m'.(SM.Revision) <= r') by (apply Hle; by apply in_group). lia.
      * assert (m' ∈ List.filter (group_of m) (tables_in w).(shard_metadata)) as Hf by (by apply in_group).
        rewrite Hspec in Hf. by apply not_elem_of_nil in Hf.
    + eexists. split; [|apply (Hsame v None)]. apply amend_elem. eexists. split; [apply elem_of_app; right; left|].
      simpl. by rewrite Z.ltb_irrefl, andb_false_r.
Qed.

(** [C18] Storing a revision of the shard metadata of a type and channel keeps
    the record of the latest revisions true: each row names the newest revision
    of its type and channel, or is the newest; and the revision is then stored. *)
Theorem latest_revision_maintained m w id w' : latest_ok (tables_in w).(shard_metadata) -> PutConnectorShardMetadata m w = (Ok id, w') ->
  latest_ok (tables_in w').(shard_metadata) /\ exists m', m' ∈ (tables_in w').(shard_metadata) /\ same_metadata m m'.
Proof.
  intros Hl Hrun. unfold PutConnectorShardMetadata in Hrun. apply bind_ok in Hrun as (found & w1 & Hf & Hrun).
  unfold attempt in Hf. destruct (first _ w) as [r0 w0] eqn:E. injection Hf as <- <-. destruct r0 as [row|e].
  - injection Hrun as _ <-. apply first_ok in E as (Hin & Ht & _). rewrite Ht. split; [done|].
    apply list_elem_of_In, filter_In in Hin as [Hin [Hg Hr]%andb_true_iff]. exists row. split; [by apply list_elem_of_In|]. split; [done|lia].
  - destruct (IsRecordNotFoundError e) eqn:En; [|done]. simpl in Hrun. pose proof (first_none _ _ _ _ E En) as Hnone.
    apply first_err in E as [Ht _].
    assert (forall m', m' ∈ (tables_in w).(shard_metadata) -> group_of m m' = true -> m'.(SM.Revision) <> m.(SM.Revision)) as Hnew.
    { intros m' Hin Hg Hr. apply list_elem_of_In in Hin. assert (In m' []) as []. rewrite <- Hnone. apply filter_In. split; [done|].
      rewrite Hg. simpl. by apply Z.eqb_eq. }
    apply bind_ok in Hrun as (cur & w2 & Hc & Hrun). apply wrap_err_ok, value_ok in Hc as (-> & Ht2 & _). rewrite Ht in Hrun, Ht2.
    apply bind_ok in Hrun as (u & w3 & Hi & Hrun). apply wrap_err_ok, change_ok in Hi as [Hi _]. destruct u.
    apply bind_ok in Hrun as (u & w4 & Hs & Hrun). injection Hrun as _ <-. rewrite Ht2 in Hi.
    apply (put_inserts m _ w w4 Hl Hnew eq_refl). exists (next_version (cdb w2)), (tables_in w3). split; [exact Hi|].
    revert Hs. destruct u. destruct (max_revision _) as [r|]; [destruct (_ <? r); [by intros [= <-]|]|];
      (intros [Hs _]%wrap_err_ok%change_ok; by exists (next_version (cdb w3))).
Qed.
End Metadata.

(** ** Types that left the catalogue *)
Section Retirement.
Context {D : Type} `{ConnectorDB D}.
Context (config : CatalogConfig).
Abbreviation W := (cworld D).

Definition in_use (t : ctables) (id : string) : bool := existsb (fun c => c.(CO.ConnectorTypeId) =?s id) (live_connectors t).
Definition retire (t : ctables) (c : ConnectorType) : ConnectorType :=
  if c.(CT.Deleted) || one_of (notToBeDeleted config) c.(CT.ID) then c
  else if in_use t c.(CT.ID) then c <| CT.Deprecated := true |> else c <| CT.Deleted := true |>.

Lemma used_spec t used id : used ≡ₚ remove_dups (map CO.ConnectorTypeId (live_connectors t)) -> one_of used id = in_use t id.
Proof.
  intros Hu. apply eq_iff_eq_true. rewrite one_of_spec, Hu, elem_of_remove_dups, list_elem_of_fmap. unfold in_use. rewrite existsb_exists.
  setoid_rewrite <- list_elem_of_In. setoid_rewrite String.eqb_eq. naive_solver.
Qed.

Lemma deprecated_spec used id : one_of (getDeprecatedTypes used (notToBeDeleted config)) id = one_of used id && negb (one_of (notToBeDeleted config) id).
Proof.
  apply eq_iff_eq_true. rewrite andb_true_iff, !one_of_spec. unfold getDeprecatedTypes. by rewrite list_elem_of_In, filter_In, <- list_elem_of_In.
Qed.

Definition deprecated_ids (used : list string) : list string := getDeprecatedTypes used (notToBeDeleted config).
Lemma retire_rows t used T : used ≡ₚ remove_dups (map CO.ConnectorTypeId (live_connectors t)) ->
  amend (fun c => negb c.(CT.Deleted) && negb (one_of (notToBeDeleted config ++ used) c.(CT.ID))) (fun c => c <| CT.Deleted := true |>)
    (amend (fun c => negb c.(CT.Deleted) && one_of (deprecated_ids used) c.(CT.ID)) (fun c => c <| CT.Deprecated := true |>) T)
  = map (retire t) T.
Proof.
  intros Hu. unfold amend. rewrite map_map. apply map_ext. intros c. unfold retire, deprecated_ids.
  rewrite deprecated_spec, (used_spec _ _ _ Hu).
  assert (one_of (notToBeDeleted config ++ used) c.(CT.ID) = one_of (notToBeDeleted config) c.(CT.ID) || in_use t c.(CT.ID)) as Happ
    by (rewrite <- (used_spec _ _ _ Hu); apply existsb_app).
  destruct (CT.Deleted c) eqn:Ed; simpl; [by rewrite Ed|].
  destruct (one_of (notToBeDeleted config) (CT.ID c)) eqn:El; simpl; [by rewrite andb_false_r, Ed, Happ|].
  destruct (in_use t (CT.ID c)) eqn:Eu; simpl; rewrite ?Ed, Happ; done.
Qed.

(** Before the catalogue is stored, a pass over the stored types removes
    exactly those that left the catalogue and that no live connector uses, marks
    those that left it and are used as deprecated, and changes nothing else. *)
Theorem removed_types_exact w u w' : DeleteOrDeprecateRemovedTypes config w = (Ok u, w') ->
  tables_in w' = (tables_in w) <| connector_types := map (retire (tables_in w)) (tables_in w).(connector_types) |>.
Proof.
  intros Hrun. apply bind_ok in Hrun as (used & w1 & Hu & Hrun). apply wrap_err_ok, select_ok in Hu as (Hu & Ht & _).
  apply bind_ok in Hrun as (u1 & w2 & Hd & Hrun). apply wrap_err_ok, change_ok in Hrun as [Hrun _]. injection Hrun as _ <-.
  assert (tables_in w2 = (tables_in w) <| connector_types :=
    amend (fun t => negb t.(CT.Deleted) && one_of (getDeprecatedTypes used (notToBeDeleted config)) t.(CT.ID)) (fun t => t <| CT.Deprecated := true |>)
      (tables_in w).(connector_types) |>) as ->.
  { destruct (getDeprecatedTypes used (notToBeDeleted config)) as [|d ds].
    - injection Hd as _ <-. rewrite Ht. unfold amend. simpl. rewrite (map_ext _ (fun c => c)), map_id; [by destruct (tables_in w)|].
      intros c. by rewrite andb_false_r.
    - apply wrap_err_ok, change_ok in Hd as [Hd _]. injection Hd as _ <-. by rewrite Ht. }
  pose proof (retire_rows _ _ (tables_in w).(connector_types) Hu) as Hrows. revert Hrows. generalize (retire (tables_in w)). intros f Hrows.
  destruct (tables_in w) as [ccs nss cos sts dps dss tys sms].
  exact (f_equal (fun x => mkCtables ccs nss cos sts dps dss x sms) Hrows).
Qed.
End Retirement.

(** ** The catalogue is stored *)
Section Startup.
Context {D : Type} `{ConnectorDB D}.
Context (config : CatalogConfig).
Abbreviation W := (cworld D).
Abbreviation S A := (M W ServiceError A).

(** Only rows of the type [id] change, and none is added. *)
Definition only_type (id : string) (T T' : list ConnectorType) : Prop :=
  map CT.ID T' = map CT.ID T /\ forall c, c.(CT.ID) <> id -> c ∈ T -> c ∈ T'.

Lemma only_refl id T : only_type id T T.
Proof. by split. Qed.
Lemma only_trans id T T1 T2 : only_type id T T1 -> only_type id T1 T2 -> only_type id T T2.
Proof. intros [Hi Ho] [Hi1 Ho1]. split; [congruence|]. eauto. Qed.

Lemma only_amend id p f T : (forall c, (f c).(CT.ID) = c.(CT.ID)) -> (forall c, p c = true -> c.(CT.ID) = id) -> only_type id T (amend p f T).
Proof.
  intros Hf Hp. split.
  - unfold amend. rewrite map_map. apply map_ext. intros c. destruct (p c); [apply Hf | done].
  - intros c Hc Hin. apply amend_elem. exists c. split; [done|]. destruct (p c) eqn:E; [by apply Hp in E | done].
Qed.

Lemma type_id_eq id c : type_id id c = true -> c.(CT.ID) = id.
Proof. apply String.eqb_eq. Qed.
Lemma live_type_eq id c : live_type id c = true -> c.(CT.ID) = id.
Proof. intros [_ Hid]%andb_true_iff. by apply type_id_eq. Qed.

Lemma amend_types_ok id p f reason w u w' : (forall c, (f c).(CT.ID) = c.(CT.ID)) -> (forall c, p c = true -> c.(CT.ID) = id) ->
  wrap_err (fun _ => GeneralError reason) (change (amend_types p f)) w = (Ok u, w') ->
  only_type id (tables_in w).(connector_types) (tables_in (w' : W)).(connector_types).
Proof.
  intros Hf Hp Hrun. apply wrap_err_ok, change_ok in Hrun as [Hrun _]. injection Hrun as _ <-. by apply only_amend.
Qed.

Lemma update_type_ok c w u w' : update_type c w = (Ok u, w') ->
  only_type c.(CT.ID) (tables_in w).(connector_types) (tables_in (w' : W)).(connector_types).
Proof.
  intros Hrun. unfold update_type in Hrun. do 4 (let Ha := fresh "Ha" in apply bind_ok in Hrun as (? & ? & Ha & Hrun);
    apply (amend_types_ok c.(CT.ID)) in Ha; [|done|apply type_id_eq]).
  apply (amend_types_ok c.(CT.ID)) in Hrun; [|done|apply live_type_eq]. eauto using only_trans.
Qed.

(** A step of the pass that leaves the types alone. *)
Definition same_types {A} (m : S A) : Prop := forall w a w', m w = (Ok a, w') -> (tables_in w').(connector_types) = (tables_in w).(connector_types).

Lemma update_annotations_types c : same_types (updateConnectorAnnotations c).
Proof.
  intros w u w' Hrun. apply bind_ok in Hrun as (u1 & w1 & Ha & Hrun). apply wrap_err_ok, change_ok in Ha as [Ha _]. injection Ha as _ Ha.
  apply wrap_err_ok, change_ok in Hrun as [Hrun _]. unfold copy_type_annotations in Hrun. destruct (existsb _ _); [done|].
  injection Hrun as _ Hrun. rewrite <- Hrun, <- Ha. done.
Qed.

(** The rows that [CreateType] leaves. *)
Lemma CreateType_ok c w c' w' : NoDup (map CT.ID (tables_in w).(connector_types)) -> CreateType c w = (Ok c', w') ->
  NoDup (map CT.ID (tables_in w').(connector_types)) /\
  (forall x, x.(CT.ID) <> c.(CT.ID) -> x ∈ (tables_in w).(connector_types) -> x ∈ (tables_in (w' : W)).(connector_types)) /\
  exists x, x ∈ (tables_in w').(connector_types) /\ x.(CT.ID) = c.(CT.ID) /\ x.(CT.Deleted) = false.
Proof.
  intros Hnd Hrun. unfold CreateType in Hrun. destruct (_ =?s ""); [done|].
  apply wrap_err_ok, Transaction_ok in Hrun as (w0 & w1 & Ht0 & _ & Hrun & Ht1 & _). apply wrap_err_ok in Hrun. rewrite Ht1. rewrite <- Ht0 in *.
  apply bind_ok in Hrun as (found & w2 & Hf & Hrun). unfold attempt in Hf. destruct (find_type _ w0) as [r w3] eqn:Er. injection Hf as <- <-.
  assert (tables_in w3 = tables_in w0) as Ht3 by (destruct r; [by apply first_ok in Er as (_ & ? & _) | by apply first_err in Er as [? _]]).
  apply bind_ok in Hrun as (u & w4 & Hm & Hrun). apply wrap_err_ok, first_ok in Hrun as (Hin & Ht4 & _). rewrite Ht4. split_and!.
  3: { apply list_elem_of_In, filter_In in Hin as [Hin Hid]. apply filter_In in Hin as [Hin Hdel]. exists c'. split; [by apply list_elem_of_In|].
       split; [by apply type_id_eq | by apply negb_true_iff]. }
  all: destruct r as [old|e].
  1, 3: apply bind_ok in Hm as (u1 & w5 & Hu & Ha); apply update_type_ok in Hu as [Hi Ho]; apply update_annotations_types in Ha;
    rewrite Ht3 in *; rewrite Ha; first [by rewrite Hi | done].
  all: destruct (IsRecordNotFoundError e); [|done]; apply wrap_err_ok, change_ok in Hm as [Hm _]; unfold insert_type in Hm;
    destruct (existsb _ _) eqn:Ex; [done|]; injection Hm as _ <-; rewrite Ht3 in *; simpl.
  - rewrite map_app. apply NoDup_app. split; [done|]. split; [|apply NoDup_singleton].
    intros x (y & -> & Hy)%list_elem_of_fmap Hx%list_elem_of_singleton. apply not_true_iff_false in Ex. apply Ex. apply existsb_exists.
    exists y. split; [by apply list_elem_of_In|]. by apply String.eqb_eq.
  - intros x Hx Hxin. apply elem_of_app. by left.
Qed.

Lemma put_types m : same_types (PutConnectorShardMetadata m).
Proof.
  intros w id w' Hrun. unfold PutConnectorShardMetadata in Hrun. apply bind_ok in Hrun as (found & w1 & Hf & Hrun).
  unfold attempt in Hf. destruct (first _ w) as [r0 w0] eqn:E. injection Hf as <- <-.
  assert (tables_in w0 = tables_in w) as Ht by (destruct r0; [by apply first_ok in E as (_ & ? & _) | by apply first_err in E as [? _]]).
  destruct r0 as [row|e]; [injection Hrun as _ <-; by rewrite Ht|]. destruct (negb _); [done|].
  apply bind_ok in Hrun as (cur & w2 & Hc & Hrun). apply wrap_err_ok, value_ok in Hc as (_ & Ht2 & _).
  apply bind_ok in Hrun as (u & w3 & Hi & Hrun). apply wrap_err_ok, change_ok in Hi as [Hi _]. injection Hi as _ Hi.
  apply bind_ok in Hrun as (u' & w4 & Hs & Hrun). injection Hrun as _ <-.
  assert ((tables_in w3).(connector_types) = (tables_in w).(connector_types)) as Ht3 by (rewrite <- Hi, Ht2, Ht; done).
  rewrite <- Ht3. revert Hs. destruct cur as [r|]; [destruct (_ <? r); [by intros [= _ <-]|]|];
    intros [Hs _]%wrap_err_ok%change_ok; injection Hs as _ <-; done.
Qed.

Lemma channels_types id l : same_types (reconcile_channels (D := D) ReconcileConnectorCatalogEntry id l).
Proof.
  induction l as [|[ch c] l IH]; intros w u w' Hrun; simpl in Hrun; [by injection Hrun as _ <-|].
  apply bind_ok in Hrun as (u1 & w1 & Hc & Hrun). apply IH in Hrun. rewrite Hrun. unfold ReconcileConnectorCatalogEntry in Hc.
  apply bind_ok in Hc as (rev & w2 & Hr & Hc). injection Hr as _ <-. apply bind_ok in Hc as (json & w3 & Hj & Hc). injection Hj as _ <-.
  apply bind_ok in Hc as (id' & w4 & Hp & Hc). injection Hc as _ <-. by eapply put_types.
Qed.

Lemma cleanup_types : same_types (CleanupDeployments (D := D)).
Proof.
  intros w u w' Hrun. apply bind_ok in Hrun as (ids & w1 & Hs & Hrun). apply wrap_err_ok, select_ok in Hs as (_ & Ht & _). rewrite <- Ht.
  clear Ht w. revert w1 Hrun. induction ids as [|id ids IH]; intros w1 Hrun; [by injection Hrun as _ <-|].
  apply bind_ok in Hrun as (u1 & w2 & Hd & Hrun). apply IH in Hrun. rewrite Hrun.
  apply bind_ok in Hd as (u2 & w3 & Hx & Hy). apply wrap_err_ok, change_ok in Hx as [Hx _]. injection Hx as _ Hx.
  apply wrap_err_ok, change_ok in Hy as [Hy _]. injection Hy as _ Hy. by rewrite <- Hy, <- Hx.
Qed.

(** The types that are stored with their checksums. *)
Definition expected_checksum (id : string) : string := default "" (map_lookup config.(CatalogChecksums) id).
Definition stored (ids : list string) (T : list ConnectorType) : Prop :=
  NoDup (map CT.ID T) /\ forall id, id ∈ ids -> exists c, c ∈ T /\ c.(CT.ID) = id /\ c.(CT.Deleted) = false /\ c.(CT.Checksum) = Some (expected_checksum id).

Lemma entry_stored ids e w u w' : stored ids (tables_in w).(connector_types) ->
  reconcile_entry config ReconcileConnectorCatalogEntry e w = (Ok u, w') ->
  stored (e.(CE_ConnectorType).(PT_Id) :: ids) (tables_in (w' : W)).(connector_types).
Proof.
  intros [Hnd Hst] Hrun. unfold reconcile_entry in Hrun. apply bind_ok in Hrun as (ct & w1 & Hct & Hrun).
  injection Hct as Hct <-. assert (ct.(CT.ID) = e.(CE_ConnectorType).(PT_Id)) as Hid.
  { revert Hct. unfold ConvertConnectorType. destruct (PT_Schema _); [|done]. by intros [= <-]. }
  apply bind_ok in Hrun as (c & w2 & Hc & Hrun). apply CreateType_ok in Hc as (Hnd2 & Ho & x & Hx & Hxid & Hxd); [|done].
  apply bind_ok in Hrun as (u1 & w3 & Hch & Hrun). apply channels_types in Hch. rewrite <- Hch in Hnd2, Ho, Hx.
  apply wrap_err_ok, change_ok in Hrun as [Hrun _]. injection Hrun as _ <-. simpl. rewrite Hid in *. split.
  - destruct (only_amend e.(CE_ConnectorType).(PT_Id) (live_type e.(CE_ConnectorType).(PT_Id))
      (fun t => t <| CT.Checksum := Some (default "" (map_lookup config.(CatalogChecksums) e.(CE_ConnectorType).(PT_Id))) |>)
      (tables_in w3).(connector_types)) as [-> _]; [done|apply live_type_eq|done].
  - intros id Hin. destruct (decide (id = e.(CE_ConnectorType).(PT_Id))) as [->|Hne].
    + eexists. split; [apply amend_elem; exists x; split; [done|reflexivity]|].
      assert (live_type (PT_Id (CE_ConnectorType e)) x = true) as -> by (unfold live_type, type_id; by rewrite Hxd, Hxid, String.eqb_refl). done.
    + apply elem_of_cons in Hin as [?|Hin]; [done|]. destruct (Hst id Hin) as (y & Hy & Hyid & Hyd & Hyc). exists y. split_and!; try done.
      apply amend_elem. exists y. split; [apply Ho; [congruence|done]|]. unfold live_type, type_id. rewrite Hyid.
      apply String.eqb_neq in Hne. by rewrite Hne, andb_false_r.
Qed.

Lemma entries_stored es ids w u w' : stored ids (tables_in w).(connector_types) ->
  for_each (reconcile_entry config ReconcileConnectorCatalogEntry) es w = (Ok u, w') ->
  stored (rev (map (fun e => e.(CE_ConnectorType).(PT_Id)) es) ++ ids) (tables_in (w' : W)).(connector_types).
Proof.
  revert ids w. induction es as [|e es IH]; intros ids w Hst Hrun; simpl in *; [by injection Hrun as _ <-|].
  apply bind_ok in Hrun as (u1 & w1 & He & Hrun). eapply entry_stored in He; [|done]. eapply IH in Hrun; [|done].
  by rewrite <- app_assoc.
Qed.

Lemma forallb_all {A} (p : A -> bool) l : (forall a, a ∈ l -> p a = true) -> forallb p l = true.
Proof. intros Hp. apply forallb_forall. intros a Ha%list_elem_of_In. by apply Hp. Qed.

Lemma unique_type (T : list ConnectorType) a b : NoDup (map CT.ID T) -> a ∈ T -> b ∈ T -> a.(CT.ID) = b.(CT.ID) -> a = b.
Proof.
  induction T as [|x T IH]; simpl; [set_solver|]. intros [Hx Hnd]%NoDup_cons Ha Hb Heq.
  apply elem_of_cons in Ha as [->|Ha]; apply elem_of_cons in Hb as [->|Hb]; [done| | |by apply IH].
  - exfalso. apply Hx. rewrite Heq. apply list_elem_of_fmap. eauto.
  - exfalso. apply Hx. rewrite <- Heq. apply list_elem_of_fmap. eauto.
Qed.

Lemma filter_twice {A} (p q : A -> bool) l : List.filter p (List.filter q l) = List.filter (fun x => q x && p x) l.
Proof. induction l as [|x l IH]; simpl; [done|]. destruct (q x); simpl; [destruct (p x)|]; by rewrite IH. Qed.

(** Rows with distinct keys that cover the checksums are as many. *)
Lemma stored_count T : NoDup (map fst config.(CatalogChecksums)) -> stored (map fst config.(CatalogChecksums)) T ->
  length (List.filter (fun c => one_of (map fst config.(CatalogChecksums)) c.(CT.ID)) (List.filter (fun c => negb c.(CT.Deleted)) T))
  = length config.(CatalogChecksums).
Proof.
  intros Hnd [HT Hst]. rewrite filter_twice. rewrite <- (length_map CT.ID), <- (length_map fst config.(CatalogChecksums)).
  apply Permutation_length, NoDup_Permutation; [|done|].
  - clear Hst. induction T as [|c T IH]; simpl; [constructor|]. simpl in HT. apply NoDup_cons in HT as [Hc HT].
    destruct (negb _ && _); simpl; [|by apply IH]. apply NoDup_cons. split; [|by apply IH].
    intros (x & Hx & Hin)%list_elem_of_fmap. apply Hc. rewrite Hx. apply list_elem_of_fmap. exists x. split; [done|].
    apply list_elem_of_In, filter_In in Hin as [Hin _]. by apply list_elem_of_In.
  - intros id. rewrite list_elem_of_fmap. setoid_rewrite list_elem_of_In at 1. setoid_rewrite filter_In. setoid_rewrite <- list_elem_of_In. split.
    + intros (c & -> & _ & [_ Hone]%andb_true_iff). by apply one_of_spec in Hone.
    + intros Hid. destruct (Hst id Hid) as (c & Hc & Hcid & Hcd & _). exists c. split; [done|]. split; [done|].
      rewrite Hcd, Hcid. simpl. by apply one_of_spec.
Qed.

(** When the pass of the catalogue worker succeeds, the check that every
    replica waits for before it serves requests is true: each type of the
    catalogue is stored, once and not removed, with the checksum of its entry.
    The configuration has one checksum per entry. *)
Theorem startup_opens_the_service w u w' b w'' :
  NoDup (map CT.ID (tables_in w).(connector_types)) ->
  NoDup (map fst config.(CatalogChecksums)) ->
  map fst config.(CatalogChecksums) ⊆ map (fun e => e.(CE_ConnectorType).(PT_Id)) config.(CatalogEntries) ->
  startup_pass config w = (Ok u, w') -> CatalogEntriesReconciled config w' = (Ok b, w'') -> b = true.
Proof.
  intros Hnd Hck Hsub Hrun Hq. unfold startup_pass in Hrun. apply bind_ok in Hrun as (u1 & w1 & Hd & Hrun). apply removed_types_exact in Hd.
  apply bind_ok in Hrun as (u2 & w2 & He & Hrun). apply cleanup_types in Hrun.
  assert (stored [] (tables_in w1).(connector_types)) as Hst0.
  { split; [|set_solver]. rewrite Hd. simpl. rewrite map_map, (map_ext _ CT.ID); [done|]. intros c. unfold retire.
    destruct (_ || _); [done|]. by destruct (in_use _ _). }
  apply (entries_stored _ _ _ _ _ Hst0) in He. rewrite <- Hrun in He.
  assert (stored (map fst config.(CatalogChecksums)) (tables_in w').(connector_types)) as Hst.
  { destruct He as [Hn Hall]. split; [done|]. intros id Hid. apply Hall. rewrite app_nil_r.
    apply list_elem_of_In, in_rev. rewrite rev_involutive. apply list_elem_of_In. by apply Hsub. }
  unfold CatalogEntriesReconciled in Hq. apply bind_ok in Hq as (l & w3 & Hl & Hq). apply wrap_err_ok, select_ok in Hl as (Hl & _).
  pose proof (stored_count _ Hck Hst) as Hcount. unfold live_types in Hl. rewrite (Permutation_length Hl), Hcount, Nat.eqb_refl in Hq.
  injection Hq as <- _. apply forallb_all. intros c Hc. rewrite Hl, list_elem_of_In, filter_In in Hc. destruct Hc as [Hc Hone].
  apply filter_In in Hc as [Hc _]. apply list_elem_of_In in Hc. apply one_of_spec in Hone.
  destruct (proj2 Hst _ Hone) as (y & Hy & Hyid & _ & Hyc). rewrite (unique_type _ _ _ (proj1 Hst) Hc Hy (eq_sym Hyid)), Hyc.
  rewrite Hyid. by apply String.eqb_eq.
Qed.
End Startup.

(** ** A catalogue of two types *)
Module TypesExample.
Definition public_type (id : string) : PublicConnectorType :=
  mkPublicConnectorType id (id ++ " connector") "0.1" false "" 0 "" ["sink"] ["stable"] [] [("tier", "gold")] (Ok "{}").
Definition entry (id : string) (rev : Z) : ConnectorCatalogEntry :=
  mkConnectorCatalogEntry [("stable", mkConnectorChannelConfig (Some (RevisionNumber rev)) (Ok "{}"))] (public_type id).
Definition config : CatalogConfig := mkCatalogConfig [entry "s3" 2; entry "http" 1] [("s3", "sum-s3"); ("http", "sum-http")].

Definition stored_type (id : string) (deleted : bool) : ConnectorType :=
  CT.mkConnectorType id deleted "0.1" (id ++ " connector") "" false "{}" ["stable"] "" [] [] [] None 0.
Definition row (id : Z) (rev : Z) (latest : option Z) : ConnectorShardMetadata := SM.mkConnectorShardMetadata id "s3" "stable" rev latest "{}".
Definition tables (types : list ConnectorType) (md : list ConnectorShardMetadata) : ctables := mkCtables [] [] [] [] [] [] types md.
Definition start : cworld MemC.mem := MemC.world_of (tables [stored_type "http" false; stored_type "ftp" false] [row 1 1 None]).
Definition metadata_of (w : cworld MemC.mem) : list (Z * option Z) :=
  map (fun m => (m.(SM.Revision), m.(SM.LatestRevision))) (tables_in w).(shard_metadata).

(** The pass adds a type, amends one and removes one. *)
Example startup_pass_example :
  map (fun c => (c.(CT.ID), c.(CT.Deleted), c.(CT.Checksum))) (tables_in (snd (startup_pass config start))).(connector_types)
  = [("http", false, Some "sum-http"); ("ftp", true, None); ("s3", false, Some "sum-s3")]
  /\ metadata_of (snd (startup_pass config start)) = [(1, Some 2); (2, None); (1, None)].
Proof. vm_compute. done. Qed.

End TypesExample.
Import TypesExample.

Lemma start_latest_ok : latest_ok (tables_in start).(shard_metadata).
Proof. intros m ->%list_elem_of_singleton. simpl. intros m' ->%list_elem_of_singleton _. simpl. lia. Qed.

Lemma latest_revision_maintained_witness :
  latest_ok (tables_in (snd (PutConnectorShardMetadata (row 0 2 None) start))).(shard_metadata)
  /\ metadata_of (snd (PutConnectorShardMetadata (row 0 2 None) start)) = [(1, Some 2); (2, None)].
Proof.
  split; [|vm_compute; reflexivity].
  refine (proj1 (latest_revision_maintained (row 0 2 None) start 0 _ start_latest_ok _)). vm_compute. reflexivity.
Defined.

Lemma removed_types_exact_witness :
  map (fun c => (c.(CT.ID), c.(CT.Deleted))) (tables_in (snd (DeleteOrDeprecateRemovedTypes config start))).(connector_types)
  = [("http", false); ("ftp", true)].
Proof.
  rewrite (removed_types_exact config start tt (snd (DeleteOrDeprecateRemovedTypes config start))); vm_compute; reflexivity.
Defined.

Lemma startup_opens_the_service_witness :
  fst (CatalogEntriesReconciled config start) = Ok false
  /\ fst (CatalogEntriesReconciled config (snd (startup_pass config start))) = Ok true.
Proof.
  split; [vm_compute; reflexivity|].
  destruct (CatalogEntriesReconciled config (snd (startup_pass config start))) as [r w''] eqn:E.
  assert (exists b, r = Ok b) as [b ->] by (vm_compute in E; injection E as <- _; eauto).
  rewrite (startup_opens_the_service config start tt (snd (startup_pass config start)) b w''); [reflexivity| | | | |exact E].
  - apply (bool_decide_unpack _). vm_compute. exact I.
  - apply (bool_decide_unpack _). vm_compute. exact I.
  - exact (fun x Hx => Hx).
  - vm_compute. reflexivity.
Defined.

(** A type that was removed because no connector used it and that comes
    back to the catalogue cannot be stored: the insertion meets the removed row,
    no later pass removes it, and the service is never opened. *)
Theorem readded_type_blocks_startup :
  let w := MemC.world_of (tables [stored_type "s3" true] []) in
  (exists e, fst (startup_pass config w) = Err e)
  /\ (exists e, fst (startup_pass config (snd (startup_pass config w))) = Err e)
  /\ fst (CatalogEntriesReconciled config (snd (startup_pass config (snd (startup_pass config w))))) = Ok false.
Proof. vm_compute. split_and!; eauto. Qed.

(** When the statement that relabels the older revisions fails after the
    new revision was inserted, the pass that follows finds the revision and
    succeeds without relabelling: two rows then say that they are the latest. *)
Theorem interrupted_metadata_update_is_never_repaired :
  let interrupted := snd (PutConnectorShardMetadata (row 0 2 None) (MemC.faulty start [false; false; false; true])) in
  (exists e, fst (PutConnectorShardMetadata (row 0 2 None) (MemC.faulty start [false; false; false; true])) = Err e)
  /\ (exists id, fst (PutConnectorShardMetadata (row 0 2 None) interrupted) = Ok id)
  /\ metadata_of (snd (PutConnectorShardMetadata (row 0 2 None) interrupted)) = [(1, None); (2, None)].
Proof. vm_compute. split_and!; eauto. Qed.
