(* ===== verification/ConnectorWorkers.v ===== *)
(** * Connectors: the workers

    [src/internal/connector/internal/workers]: the connector, namespace and
    cluster managers.  A pass runs each reconciler in the transaction of the
    worker's context ([InDBTransaction]); what a reconciler wrote before it failed
    stays. *)
From stdpp Require Import sorting.
From S2P Require Import Prelude Arrays Errors Status Config Model Store.
From S2P Require Import ConnectorModel ConnectorStore ConnectorNamespaces ConnectorClusters Connectors ConnectorTypes.

Open Scope Z_scope.

Section Workers.
Context {D : Type} `{ConnectorDB D} `{StateMachineLibrary} `{ConnectorAccounts}.
Context `{IdSource (cworld D)}.
Context (connectorsConfig : ConnectorsConfig).
Abbreviation W := (cworld D).

(** [errors.Wrapf]. *)
Definition wrapf (msg : string) (e : ServiceError) : error := EWrap msg (EService e).

(** ** Connectors *)
Definition reconcileAssigning (connector : Connector) : M W error unit :=
  namespace <~ wrap_err (wrapf "failed to find namespace for connector request %s")
    (FindAvailableNamespace connector.(CO.Owner) connector.(CO.OrganisationId) connector.(CO.NamespaceId)) ;;
  match namespace with
  | None => ret tt
  | Some namespace =>
      shardMetadata <~ wrap_err (wrapf "failed to get latest channel version for connector request %s")
        (GetLatestConnectorShardMetadata connector.(CO.ConnectorTypeId) connector.(CO.Channel)) ;;
      _ <~ wrap_err (wrapf "failed to update connector status %s with namespace details")
        (SaveStatus (CS.mkConnectorStatus connector.(CO.ID) false (Some namespace.(NS.ID)) ConnectorStatusPhaseAssigned)) ;;
      newID <~ (fun w => (Ok (new_id w), w)) ;;
      _ <~ wrap_err (wrapf "failed to create connector deployment for connector %s")
        (SaveDeployment (CD.mkConnectorDeployment newID false 0 connector.(CO.ID) "" connector.(CO.Version) shardMetadata.(SM.ID)
           namespace.(NS.ClusterId) namespace.(NS.ID) false)) ;;
      ret tt
  end.

Definition clear_namespace (id : string) : M W error Z :=
  change (update_connectors (fun c => c.(CO.ID) =?s id) (fun c => c <| CO.NamespaceId := None |>)).

Definition reconcileUnassigned (connector : Connector) : M W error unit :=
  let status := connector.(CO.Status) <| CS.Phase := ConnectorStatusPhaseAssigning |> <| CS.NamespaceID := None |> in
  _ <~ wrap_err (EWrap "failed to update namespace_id for connector %s") (clear_namespace connector.(CO.ID)) ;;
  wrap_err (wrapf "failed to update phase to assigning for connector %s") (SaveStatus status).

Definition reconcileDeleting (connector : Connector) : M W error unit :=
  r <~ attempt (GetDeploymentByConnectorId connector.(CO.ID)) ;;
  match r with
  | Ok _ => ret tt
  | Err e =>
      if Is404 e then
        _ <~ wrap_err (EWrap "failed to update namespace_id for connector %s") (clear_namespace connector.(CO.ID)) ;;
        wrap_err EService (SaveStatus (connector.(CO.Status) <| CS.Phase := ConnectorStatusPhaseDeleted |>))
      else throw (EService e)
  end.

Definition reconcileDeleted (connector : Connector) : M W error unit :=
  wrap_err EService (DeleteConnectorRow connector.(CO.ID)).

(** The version is recorded after the commit, whatever the outcome; when the
    outcome is an error the transaction is rolled back, and nothing is recorded. *)
Definition reconcileConnectorUpdate (connector : Connector) : M W error unit :=
  r <~ attempt (
    deployment <~ wrap_err EService (GetDeploymentByConnectorId connector.(CO.ID)) ;;
    if deployment.(CD.ConnectorVersion) =? connector.(CO.Version) then ret tt
    else
      _ <~ wrap_err (wrapf "failed to update connector version in deployment for connector %s")
             (SaveDeployment (deployment <| CD.ConnectorVersion := connector.(CO.Version) |>)) ;;
      ret tt) ;;
  _ <~ AddPostCommitAction (SaveLastVersion connector.(CO.Version)) ;;
  lift r.

Definition doReconcile (reconcileFunc : Connector -> M W error unit) (query : Connector -> option string -> bool) (w : W) : list error * W :=
  ForEach (fun connector => InDBTransaction (reconcileFunc connector)) query w.

Definition phase_is (p : string) (phase : option string) : bool := match phase with Some q => q =?s p | None => false end.
Definition assigning_query (c : Connector) (phase : option string) : bool :=
  (c.(CO.DesiredState) =?s ConnectorReady) && phase_is ConnectorStatusPhaseAssigning phase
  && match c.(CO.NamespaceId) with Some _ => true | None => false end.
Definition unassigned_query (c : Connector) (phase : option string) : bool :=
  (c.(CO.DesiredState) =?s ConnectorUnassigned) && phase_is ConnectorStatusPhaseDeleted phase.
Definition deleting_query (c : Connector) (phase : option string) : bool :=
  (c.(CO.DesiredState) =?s ConnectorDeleted) && phase_is ConnectorStatusPhaseDeleting phase.
Definition deleted_query (c : Connector) (phase : option string) : bool :=
  (c.(CO.DesiredState) =?s ConnectorDeleted)
  && (phase_is ConnectorStatusPhaseAssigning phase || phase_is ConnectorStatusPhaseDeleted phase).
Definition updated_query (lastVersion : Z) (c : Connector) (phase : option string) : bool :=
  (lastVersion <? c.(CO.Version))
  && match phase with
     | Some p => negb (one_of [ConnectorStatusPhaseAssigning; ConnectorStatusPhaseDeleting; ConnectorStatusPhaseDeleted] p)
     | None => false
     end.

(** The five reconcilers of a pass, in this order.  The context of the worker is
    created in the first pass. *)
Definition with_context (have_context : bool) (pass : W -> list error * W) (w : W) : list error * W :=
  if have_context then pass w
  else match on_db db_end w with (Err e, w1) => ([e], w1) | (Ok _, w1) => pass w1 end.

Definition then_ (p q : W -> list error * W) (w : W) : list error * W :=
  let '(e1, w1) := p w in let '(e2, w2) := q w1 in (e1 ++ e2, w2).

Definition ConnectorManager_Reconcile (have_context : bool) : W -> list error * W :=
  with_context have_context
    (then_ (doReconcile reconcileAssigning assigning_query)
    (then_ (doReconcile reconcileUnassigned unassigned_query)
    (then_ (doReconcile reconcileDeleting deleting_query)
    (then_ (doReconcile reconcileDeleted deleted_query)
           (fun w => doReconcile reconcileConnectorUpdate (updated_query w.(lastVersion)) w))))).

(** ** Namespaces *)
Definition namespace_pass (reconcileFunc : M W ServiceError Z) (w : W) : list error * W :=
  match InDBTransaction (wrap_err EService (_ <~ reconcileFunc ;; ret tt)) w with
  | (Ok _, w1) => ([], w1)
  | (Err e, w1) => ([EService e], w1)
  end.

Definition NamespaceManager_Reconcile (have_context : bool) : W -> list error * W :=
  with_context have_context
    (then_ (namespace_pass ReconcileExpiredNamespaces)
    (then_ (namespace_pass ReconcileUnusedDeletingNamespaces)
    (then_ (namespace_pass (ReconcileUsedDeletingNamespaces connectorsConfig))
           (namespace_pass ReconcileDeletedNamespaces)))).

(** ** Clusters *)
Definition cluster_pass (reconcileFunc : list string -> M W ServiceError (Z * list ServiceError))
    (query : ConnectorCluster -> bool -> bool) (w : W) : list error * W :=
  match GetClusterIds query w with
  | (Err e, w1) => ([e], w1)
  | (Ok clusterIds, w1) =>
      match clusterIds with
      | [] => ([], w1)
      | _ =>
          (* the errors are collected inside, the outcome of the transaction is logged *)
          match Begin w1 with
          | (Err _, w2) => ([], w2)
          | (Ok _, w2) =>
              match reconcileFunc clusterIds w2 with
              | (Ok (_, serrs), w3) =>
                  let '(_, w4) := Resolve (match serrs with [] => false | _ => true end) w3 in (map EService serrs, w4)
              | (Err e, w3) => ([EService e], w3)
              end
          end
      end
  end.

Definition empty_deleting_query (c : ConnectorCluster) (has_namespace : bool) : bool :=
  (c.(CC.status).(CC.Phase) =?s ConnectorClusterPhaseDeleting) && negb c.(CC.Deleted) && negb has_namespace.
Definition nonempty_deleting_query (c : ConnectorCluster) (has_namespace : bool) : bool :=
  (c.(CC.status).(CC.Phase) =?s ConnectorClusterPhaseDeleting) && negb c.(CC.Deleted) && has_namespace.

Definition ClusterManager_Reconcile (have_context : bool) : W -> list error * W :=
  with_context have_context
    (then_ (cluster_pass ReconcileEmptyDeletingClusters empty_deleting_query)
           (cluster_pass ReconcileNonEmptyDeletingClusters nonempty_deleting_query)).
End Workers.
