(* ===== verification/ConnectorSystem.v ===== *)
(** * Connectors: the workers together

    What a pass of each worker does, and an invariant of the system that the
    three workers, the agents and the deletions of users keep: no namespace is
    removed under a connector. *)
From stdpp Require Import sorting.
From S2P Require Import Prelude Arrays Errors Status Config Model Store.
From S2P Require Import ConnectorModel ConnectorStore ConnectorNamespaces ConnectorClusters Connectors ConnectorTypes ConnectorWorkers.

Open Scope Z_scope.

Section Assignment.
Context {D : Type} `{ConnectorDB D} `{StateMachineLibrary} `{ConnectorAccounts} `{IdSource (cworld D)}.
Abbreviation W := (cworld D).

Lemma SaveStatus_ok s (w : W) u w' : SaveStatus s w = (Ok u, w') ->
  tables_in w' = (tables_in w) <| connector_statuses := upsert CS.ID s (tables_in w).(connector_statuses) |> /\ rest w' = rest w.
Proof. intros Hrun. apply wrap_err_ok, change_ok in Hrun as [Hc Hr]. by injection Hc as _ <-. Qed.

Lemma SaveDeployment_ok d (w : W) d' w' : SaveDeployment d w = (Ok d', w') ->
  exists v, tables_in w' = (tables_in w) <| deployments := upsert CD.ID (de_version v d) (tables_in w).(deployments) |>.
Proof.
  intros Hrun. apply bind_ok in Hrun as (u & w1 & Hc & Hrun). apply wrap_err_ok, change_ok in Hc as [Hc _]. injection Hc as _ Hc.
  apply bind_ok in Hrun as (r & w2 & Hf & Hrun). apply wrap_err_ok, first_ok in Hf as (_ & Ht & _).
  exists (next_version (cdb w)). rewrite Hc, <- Ht. destruct (_ =?s _); by injection Hrun as _ <-.
Qed.

(** The shard metadata of a connector's type and channel. *)
Definition metadata_of (c : Connector) (t : ctables) : list ConnectorShardMetadata :=
  List.filter (fun m => by_field c.(CO.ConnectorTypeId) m.(SM.ConnectorTypeId) && by_field c.(CO.Channel) m.(SM.Channel)) t.(shard_metadata).

(** What an assignment that ends well did. *)
Definition assignment_effect (c : Connector) (w w' : W) : Prop :=
  let t := tables_in w in
  ((forall n, n ∈ live_namespaces t -> available c.(CO.Owner) c.(CO.OrganisationId) c.(CO.NamespaceId) n = false) /\ tables_in w' = t) \/
  exists n meta newID v,
    n ∈ live_namespaces t /\ available c.(CO.Owner) c.(CO.OrganisationId) c.(CO.NamespaceId) n = true /\
    meta ∈ newest (metadata_of c t) /\
    tables_in w' = t
      <| connector_statuses := upsert CS.ID (CS.mkConnectorStatus c.(CO.ID) false (Some n.(NS.ID)) ConnectorStatusPhaseAssigned) t.(connector_statuses) |>
      <| deployments := upsert CD.ID (CD.mkConnectorDeployment newID false v c.(CO.ID) "" c.(CO.Version) meta.(SM.ID) n.(NS.ClusterId) n.(NS.ID) false) t.(deployments) |>.

(** [C33] A connector that waits for its assignment is deployed only into its own
    namespace, when that namespace is live and ready and belongs to the
    connector's owner or organisation: its status becomes [assigned] with that
    namespace, and a deployment of the connector's version, for the latest shard
    metadata of its type and channel, is created on the namespace's cluster.
    While there is no such namespace, nothing is written. *)
Theorem assignment_exact c w w' : reconcileAssigning c w = (Ok tt, w') -> assignment_effect c w w'.
Proof.
  intros Hrun. apply bind_ok in Hrun as (o & w1 & Hf & Hrun). apply wrap_err_ok in Hf. unfold FindAvailableNamespace in Hf.
  destruct (_ =?s ""); [done|]. apply bind_ok in Hf as (l & w2 & Hs & Hf). injection Hf as <- <-.
  apply wrap_err_ok, select_ok in Hs as (Hp & Ht & _). unfold assignment_effect. destruct l as [|n l]; simpl in Hrun.
  - left. injection Hrun as <-. split; [|done]. intros n Hn. destruct (available _ _ _ n) eqn:E; [|done].
    symmetry in Hp. apply Permutation_nil_r in Hp. assert (n ∈ List.filter (available (CO.Owner c) (CO.OrganisationId c) (CO.NamespaceId c)) (live_namespaces (tables_in w))) as Hin
      by (apply list_elem_of_In, filter_In; by rewrite <- list_elem_of_In).
    rewrite Hp in Hin. by apply not_elem_of_nil in Hin.
  - right. assert (n ∈ List.filter (available (CO.Owner c) (CO.OrganisationId c) (CO.NamespaceId c)) (live_namespaces (tables_in w))) as Hin
      by (rewrite <- Hp; left).
    apply list_elem_of_In, filter_In in Hin as [Hin Hav]. apply bind_ok in Hrun as (meta & w3 & Hm & Hrun).
    apply wrap_err_ok, wrap_err_ok, first_ok in Hm as (Hm & Htm & _). rewrite Ht in Hm. apply bind_ok in Hrun as (u & w4 & Hst & Hrun). apply wrap_err_ok, SaveStatus_ok in Hst as [Hst _].
    apply bind_ok in Hrun as (newID & w5 & Hid & Hrun). injection Hid as Hid <-. apply bind_ok in Hrun as (d & w6 & Hd & Hrun).
    injection Hrun as <-. apply wrap_err_ok, SaveDeployment_ok in Hd as [v Hd]. exists n, meta, newID, v. split; [by apply list_elem_of_In|].
    split; [done|]. split; [exact Hm | rewrite Hd, Hst, Htm, Ht; done].
Qed.

(** A connector without an organisation is never assigned: the query for
    its namespace names a column that does not exist, so that every attempt fails
    and writes nothing. *)
Theorem personal_connector_never_assigned c w r w' : c.(CO.OrganisationId) = "" -> reconcileAssigning c w = (r, w') ->
  w' = w /\ exists e, r = Err e.
Proof.
  intros Ho. unfold reconcileAssigning, FindAvailableNamespace, bind, wrap_err. rewrite Ho. simpl. intros [= <- <-]. eauto.
Qed.
End Assignment.

(** ** The cluster worker *)
Section Clusters.
Context {D : Type} `{ConnectorDB D} `{StateMachineLibrary} `{ConnectorAccounts}.
Abbreviation W := (cworld D).

Definition empty_deleting (t : ctables) (c : ConnectorCluster) : bool :=
  empty_deleting_query c (existsb (fun n => n.(NS.ClusterId) =?s c.(CC.ID)) (live_namespaces t)).

Lemma unique_cluster (l : list ConnectorCluster) a b : NoDup (map CC.ID l) -> a ∈ l -> b ∈ l -> a.(CC.ID) = b.(CC.ID) -> a = b.
Proof.
  induction l as [|x l IH]; simpl; [set_solver|]. intros [Hx Hnd]%NoDup_cons Ha Hb Heq.
  apply elem_of_cons in Ha as [->|Ha]; apply elem_of_cons in Hb as [->|Hb]; [done| | |by apply IH].
  - exfalso. apply Hx. rewrite Heq. apply list_elem_of_fmap. eauto.
  - exfalso. apply Hx. rewrite <- Heq. apply list_elem_of_fmap. eauto.
Qed.

Lemma remove_accounts_run {E} ids (w : W) : exists errs,
  remove_accounts (E := E) ids w =
  (Ok errs, mkCworld w.(cdb) w.(postCommitActions) w.(signals) w.(purged) (w.(removed_accounts) ++ ids) w.(lastVersion)).
Proof.
  revert w. induction ids as [|id ids IH]; intros w; simpl.
  - exists []. rewrite app_nil_r. by destruct w.
  - unfold bind, DeleteServiceAccountInternal. edestruct IH as [errs He]. rewrite He. eexists. simpl. by rewrite <- app_assoc.
Qed.

Lemma Resolve_run b (w : W) r w' : Resolve b w = (r, w') -> tables_in w' = tables_in w /\ w'.(removed_accounts) = w.(removed_accounts).
Proof.
  unfold Resolve. destruct (on_db db_end (with_actions [] w)) as [[[]|e] w1] eqn:E; apply end_run in E as [Ht Hr];
    unfold rest in Hr; simpl in Hr; injection Hr as _ _ _ Hr _; intros [= _ <-]; [|done].
  destruct b; [done|]. rewrite run_actions_tables. split; [done|]. rewrite <- Hr. clear Ht Hr.
  generalize (postCommitActions w). intros l. revert w1. induction l as [|a l IH]; intros w1; simpl; [done|].
  rewrite IH. by destruct a.
Qed.

(** The cluster worker removes exactly the live clusters that are being
    deleted and have no live namespace, or none of them, and asks the identity
    provider to remove the accounts of these clusters before their rows; no other
    table is touched. *)
Theorem only_empty_deleting_clusters_removed w errs w' : NoDup (map CC.ID (tables_in w).(cclusters)) ->
  cluster_pass ReconcileEmptyDeletingClusters empty_deleting_query w = (errs, w') ->
  let t := tables_in w in
  tables_in w' = t \/
  (tables_in w' = t <| cclusters := map (fun c => if empty_deleting t c then c <| CC.Deleted := true |> else c) t.(cclusters) |> /\
   exists accounts, w'.(removed_accounts) = w.(removed_accounts) ++ accounts /\
     accounts ≡ₚ map CC.ClientId (List.filter (empty_deleting t) t.(cclusters))).
Proof.
  intros Hnd. unfold cluster_pass. destruct (GetClusterIds _ w) as [[ids|e] w1] eqn:Eg.
  2: { intros [= _ <-]. left. apply wrap_err_err in Eg as (e0 & Eg & _). by apply select_err in Eg as [? _]. }
  apply wrap_err_ok, select_ok in Eg as (Hids & Ht1 & Hr1).
  assert (forall c, c ∈ (tables_in w).(cclusters) -> one_of ids c.(CC.ID) = empty_deleting (tables_in w) c) as Hsel.
  { intros c Hc. apply eq_iff_eq_true. rewrite one_of_spec, Hids, list_elem_of_fmap.
    setoid_rewrite list_elem_of_In. setoid_rewrite filter_In. setoid_rewrite <- list_elem_of_In. split.
    - intros (c' & Heq & Hc' & Hp). by rewrite (unique_cluster _ _ _ Hnd Hc Hc').
    - eauto. }
  destruct ids as [|i ids]; [intros [= _ <-]; by left|].
  destruct (Begin w1) as [[[]|e] w2] eqn:Eb; unfold Begin, wrap_err in Eb; destruct (on_db db_end w1) as [r0 w20] eqn:E0;
    apply end_run in E0 as [Ht2 Hr2]; injection Eb as _ <-; [|intros [= _ <-]; left; congruence].
  destruct (ReconcileEmptyDeletingClusters (i :: ids) w20) as [[[cnt serrs]|e] w3] eqn:Er.
  2: { unfold ReconcileEmptyDeletingClusters in Er. destruct (TransactionE _ _ _) as [[?|[? ?]] ?]; discriminate Er. }
  destruct (Resolve _ w3) as [r4 w4] eqn:E4. apply Resolve_run in E4 as [Ht4 Hr4]. intros [= _ <-]. simpl. rewrite Ht4, Hr4.
  unfold ReconcileEmptyDeletingClusters in Er. destruct (TransactionE _ _ w20) as [[errs0|[errs0 e0]] w5] eqn:Et.
  2: { injection Er as _ _ <-. apply TransactionE_err in Et. left. congruence. }
  injection Er as _ _ <-. apply TransactionE_ok in Et as (w6 & w7 & Ht6 & Hr6 & Hm & Ht7 & Hr7). right.
  apply bind_ok in Hm as (clientIds & w8 & Hs & Hm). apply wrap_err_ok, select_ok in Hs as (Hcl & Ht8 & Hr8).
  apply bind_ok in Hm as (errs1 & w9 & Ha & Hm).
  destruct (remove_accounts_run (E := list ServiceError * error) clientIds w8) as [errs2 Ha2]. rewrite Ha2 in Ha. injection Ha as _ <-.
  apply bind_ok in Hm as (u & w10 & Hc & Hm). injection Hm as _ <-. apply wrap_err_ok, change_ok in Hc as [Hc Hr10]. injection Hc as _ Hc.
  assert (tables_in w8 = tables_in w) as Htw by congruence.
  split.
  - lazymatch type of Hc with context [tables_in (mkCworld ?d ?a ?b ?c ?e ?f)] =>
      change (tables_in (mkCworld d a b c e f)) with (tables_in w8) in Hc end.
    rewrite Ht7, <- Hc, Htw. rewrite (amend_ext _ (empty_deleting (tables_in w))); [done|].
    intros c Hcin. pose proof (Hsel c Hcin) as Hsc. simpl in Hsc. rewrite Hsc. unfold empty_deleting, empty_deleting_query.
    destruct (CC.Deleted c); simpl; [by rewrite andb_false_r | done].
  - exists clientIds. split; [unfold rest in *; simpl in *; congruence|]. rewrite Hcl, Ht6, Ht2, Ht1.
    unfold live_clusters. rewrite filter_twice. erewrite filter_ext_in; [done|]. intros c Hcin%list_elem_of_In.
    rewrite Hsel by done. unfold empty_deleting, empty_deleting_query.
    destruct (CC.Deleted c); simpl; [by rewrite andb_false_r | done].
Qed.
End Clusters.

(** ** No namespace is removed under a connector *)
Definition live_namespace (id : string) (t : ctables) : Prop := exists n, n ∈ live_namespaces t /\ n.(NS.ID) = id.
Definition settled (t : ctables) : Prop :=
  forall s id, s ∈ live_statuses t -> s.(CS.NamespaceID) = Some id -> live_namespace id t.

Lemma in_live_statuses t s : s ∈ live_statuses t <-> s ∈ t.(connector_statuses) /\ s.(CS.Deleted) = false.
Proof. unfold live_statuses. rewrite list_elem_of_In, filter_In, <- list_elem_of_In, negb_true_iff. done. Qed.

(** Statements that keep the invariant: those that leave the references and the
    removal marks alone. *)
Definition same_refs (f : ConnectorStatus -> ConnectorStatus) : Prop :=
  forall s, (f s).(CS.NamespaceID) = s.(CS.NamespaceID) /\ (f s).(CS.Deleted) = s.(CS.Deleted).
Definition same_marks (f : ConnectorNamespace -> ConnectorNamespace) : Prop :=
  forall n, (f n).(NS.ID) = n.(NS.ID) /\ (f n).(NS.Deleted) = n.(NS.Deleted).

Lemma live_namespace_amend p f t id : same_marks f -> live_namespace id t ->
  live_namespace id (t <| namespaces := amend p f t.(namespaces) |>).
Proof.
  intros Hf (n & Hn & Hid). apply in_live_namespaces in Hn as [Hn Hd].
  exists (if p n then f n else n). rewrite in_live_namespaces. split_and!.
  - apply amend_elem. eauto.
  - destruct (p n); [by rewrite (proj2 (Hf n))|done].
  - destruct (p n); [by rewrite (proj1 (Hf n))|done].
Qed.

Lemma live_namespace_amend_versioned p f v t id : same_marks f -> live_namespace id t ->
  live_namespace id (t <| namespaces := amend_versioned ns_version p f v t.(namespaces) |>).
Proof.
  intros Hf (n & Hn & Hid). apply in_live_namespaces in Hn as [Hn Hd].
  destruct (amend_versioned_covers ns_version p f v _ n Hn) as (m & Hm & Hcase). exists m. rewrite in_live_namespaces.
  destruct Hcase as [[_ ->]|(_ & v' & _ & ->)]; [done|]. simpl. rewrite (proj1 (Hf n)), (proj2 (Hf n)). done.
Qed.

Lemma settled_namespaces t rows : settled t ->
  (forall id, live_namespace id t -> live_namespace id (t <| namespaces := rows |>)) -> settled (t <| namespaces := rows |>).
Proof. intros Hs Hr s id Hin Hid. apply Hr. by apply (Hs s id). Qed.

Lemma settled_statuses t rows : settled t ->
  (forall s id, s ∈ rows -> s.(CS.Deleted) = false -> s.(CS.NamespaceID) = Some id -> live_namespace id t) ->
  settled (t <| connector_statuses := rows |>).
Proof. intros Hs Hr s id Hin Hid. apply in_live_statuses in Hin as [Hin Hd]. by apply (Hr s id). Qed.

Lemma settled_amend_statuses p f t : same_refs f -> settled t -> settled (t <| connector_statuses := amend p f t.(connector_statuses) |>).
Proof.
  intros Hf Hs. apply settled_statuses; [done|]. intros s id (s0 & Hin & ->)%amend_elem Hd Hid. apply (Hs s0 id).
  - apply in_live_statuses. split; [done|]. destruct (p s0); [by rewrite <- (proj2 (Hf s0))|done].
  - destruct (p s0); [by rewrite <- (proj1 (Hf s0))|done].
Qed.

Lemma upsert_elem {Row} key (r x : Row) rows : x ∈ upsert key r rows -> x = r \/ x ∈ rows.
Proof.
  unfold upsert. destruct (existsb _ _).
  - rewrite list_elem_of_fmap. intros (y & -> & Hy). destruct (_ =?s _); auto.
  - rewrite elem_of_app. set_solver.
Qed.

(** A status that is saved must refer to a live namespace, or to none. *)
Lemma settled_save s t : settled t -> (forall id, s.(CS.NamespaceID) = Some id -> live_namespace id t) ->
  settled (t <| connector_statuses := upsert CS.ID s t.(connector_statuses) |>).
Proof.
  intros Hs Hn. apply settled_statuses; [done|]. intros s0 id [->|Hin]%upsert_elem Hd Hid; [by apply Hn|].
  apply (Hs s0 id); [by apply in_live_statuses | done].
Qed.

(** ** Computations that keep the invariant *)
Section Keeps.
Context {D : Type} `{ConnectorDB D}.
Abbreviation W := (cworld D).

Definition keeps_settled {E A} (m : M W E A) : Prop := forall w, settled (tables_in w) -> settled (tables_in (snd (m w))).

Lemma ks_ret {E A} (a : A) : keeps_settled (ret a : M W E A).
Proof. by intros w. Qed.
Lemma ks_throw {E A} (e : E) : keeps_settled (throw e : M W E A).
Proof. by intros w. Qed.
Lemma ks_lift {E A} (r : result E A) : keeps_settled (lift r : M W E A).
Proof. by intros w. Qed.
Lemma ks_now {E} : keeps_settled (now : M W E Z).
Proof. by intros w. Qed.
Lemma ks_action {E} a : keeps_settled (AddPostCommitAction a : M W E unit).
Proof. by intros w. Qed.
Lemma ks_bind {E A B} (m : M W E A) (k : A -> M W E B) :
  keeps_settled m -> (forall a, keeps_settled (k a)) -> keeps_settled (bind m k).
Proof.
  intros Hm Hk w Hs. unfold bind. specialize (Hm w Hs). destruct (m w) as [[a|e] w1]; simpl in *; [by apply Hk|done].
Qed.
Lemma ks_wrap {E E' A} (f : E -> E') (m : M W E A) : keeps_settled m -> keeps_settled (wrap_err f m).
Proof. intros Hm w Hs. unfold wrap_err. specialize (Hm w Hs). by destruct (m w). Qed.
Lemma ks_attempt {E E' A} (m : M W E A) : keeps_settled m -> keeps_settled (attempt (E' := E') m).
Proof. intros Hm w Hs. unfold attempt. specialize (Hm w Hs). by destruct (m w). Qed.
Lemma ks_for_each {E A} (f : A -> M W E unit) l : (forall a, keeps_settled (f a)) -> keeps_settled (for_each f l).
Proof. intros Hf. induction l; simpl; [apply ks_ret | by apply ks_bind]. Qed.
Lemma ks_select {R} (q : ctables -> list R) : keeps_settled (select q).
Proof.
  intros w Hs. destruct (select q w) as [[l|e] w1] eqn:E; simpl; [apply select_ok in E as (_ & -> & _) | apply select_err in E as [-> _]]; done.
Qed.
Lemma ks_value {A} (q : ctables -> A) : keeps_settled (value q).
Proof.
  intros w Hs. destruct (value q w) as [[l|e] w1] eqn:E; simpl; [apply value_ok in E as (_ & -> & _) | apply value_err in E as [-> _]]; done.
Qed.
Lemma ks_first {R} (q : ctables -> list R) : keeps_settled (first q).
Proof. apply ks_bind; [apply ks_select|]. intros []; [apply ks_throw | apply ks_ret]. Qed.
Lemma ks_end : keeps_settled (on_db db_end : M W error unit).
Proof. intros w Hs. destruct (on_db db_end w) as [r w1] eqn:E. simpl. by apply end_run in E as [-> _]. Qed.

Definition stmt_settled {A} (u : Z -> ctables -> option (A * ctables)) : Prop :=
  forall v t a t', settled t -> u v t = Some (a, t') -> settled t'.
Lemma ks_change {A} (u : Z -> ctables -> option (A * ctables)) : stmt_settled u -> keeps_settled (change u).
Proof.
  intros Hu w Hs. destruct (change u w) as [[a|e] w1] eqn:E; simpl; [apply change_ok in E as [E _]; by eapply Hu | by apply change_err in E as [-> _]].
Qed.
Lemma ks_transaction {E A} (of_db : option A -> error -> E) (m : M W E A) : keeps_settled m -> keeps_settled (TransactionE of_db m).
Proof.
  intros Hm w Hs. destruct (TransactionE of_db m w) as [[a|e] w1] eqn:Et; simpl; [|by rewrite (TransactionE_err _ _ _ _ _ Et)].
  apply TransactionE_ok in Et as (w0 & w2 & Ht0 & _ & Hr & -> & _). specialize (Hm w0). rewrite Ht0, Hr in Hm. by apply Hm.
Qed.
Lemma ks_read_transaction {A} (m : M W error A) : keeps_settled m -> keeps_settled (ReadTransaction m).
Proof. intros Hm. apply ks_bind; [apply ks_end|]. intros _. apply ks_bind; [done|]. intros a. apply ks_bind; [apply ks_end | intros; apply ks_ret]. Qed.

(** *** The statements *)
Lemma st_update_namespaces b p f : same_marks f -> stmt_settled (update_namespaces b p f).
Proof.
  intros Hf v t a t' Hs [= _ <-]. apply settled_namespaces; [done|]. intros id Hid.
  destruct b; [by apply live_namespace_amend_versioned | by apply live_namespace_amend].
Qed.
Lemma st_update_connectors p f : stmt_settled (update_connectors p f).
Proof. by intros v t a t' Hs [= _ <-]. Qed.
Lemma st_update_statuses p f : same_refs f -> stmt_settled (update_statuses p f).
Proof. intros Hf v t a t' Hs [= _ <-]. by apply settled_amend_statuses. Qed.
Lemma st_delete_connectors id : stmt_settled (delete_connectors id).
Proof. by intros v t a t' Hs [= _ <-]. Qed.
Lemma st_delete_statuses id : stmt_settled (delete_statuses id).
Proof.
  intros v t a t' Hs [= _ <-]. apply settled_statuses; [done|]. intros s i (s0 & Hin & ->)%amend_elem Hd Hi.
  destruct (_ && _); [done|]. apply (Hs s0 i); [by apply in_live_statuses | done].
Qed.
Lemma st_save_deployment d : stmt_settled (save_deployment d).
Proof. by intros v t a t' Hs [= _ <-]. Qed.
Lemma st_delete_deployments p : stmt_settled (delete_deployments p).
Proof. by intros v t a t' Hs [= _ <-]. Qed.
Lemma st_delete_deployment_statuses p : stmt_settled (delete_deployment_statuses p).
Proof. by intros v t a t' Hs [= _ <-]. Qed.
Lemma st_save_deployment_status s : stmt_settled (save_deployment_status s).
Proof.
  intros v t a t' Hs. unfold save_deployment_status. destruct (existsb _ _); [by intros [= _ <-]|].
  destruct (existsb _ _); [done | by intros [= _ <-]].
Qed.
Lemma st_update_clusters p f : stmt_settled (update_clusters p f).
Proof. by intros v t a t' Hs [= _ <-]. Qed.
Lemma st_delete_clusters p : stmt_settled (soft_delete_clusters p).
Proof. by intros v t a t' Hs [= _ <-]. Qed.
Lemma st_save_detached s : s.(CS.NamespaceID) = None -> stmt_settled (save_status s).
Proof. intros Hn v t a t' Hs [= _ <-]. apply settled_save; [done|]. by rewrite Hn. Qed.
End Keeps.

Lemma with_phase_marks p : same_marks (NS.with_phase p).
Proof. by intros n. Qed.
Lemma merge_marks r : same_marks (merge_namespace r).
Proof. by intros n. Qed.

Create HintDb settled.
#[export] Hint Resolve ks_ret ks_throw ks_lift ks_now ks_action ks_select ks_value ks_first ks_end
  st_update_namespaces st_update_connectors st_delete_connectors st_delete_statuses st_save_deployment st_delete_deployments
  st_delete_deployment_statuses st_save_deployment_status st_update_clusters st_delete_clusters with_phase_marks merge_marks : settled.

(** Follows the structure of a computation. *)
Ltac solve_settled :=
  intros;
  repeat first
    [ progress intros
    | match goal with |- keeps_settled (match ?x with _ => _ end) => destruct x end
    | match goal with |- keeps_settled (bind _ _) => apply ks_bind end
    | match goal with |- keeps_settled (attempt _) => apply ks_attempt end
    | match goal with |- keeps_settled (wrap_err _ _) => apply ks_wrap end
    | match goal with |- keeps_settled (for_each _ _) => apply ks_for_each end
    | match goal with |- keeps_settled (TransactionE _ _) => apply ks_transaction end
    | match goal with |- keeps_settled (Transaction _) => apply ks_transaction end
    | match goal with |- keeps_settled (ReadTransaction _) => apply ks_read_transaction end
    | match goal with |- keeps_settled (change (set_phase _ _)) => apply ks_change, st_update_namespaces end
    | match goal with |- keeps_settled (change (update_statuses _ _)) => apply ks_change, st_update_statuses; done end
    | match goal with |- keeps_settled (change _) => apply ks_change end
    | solve [eauto 3 with settled] ].

(** ** The operations keep the invariant *)
Section System.
Context {D : Type} `{ConnectorDB D} `{StateMachineLibrary} `{ConnectorAccounts} `{IdSource (cworld D)}.
Context (connectorsConfig : ConnectorsConfig).
Abbreviation W := (cworld D).

Lemma ks_perform {X} fsm (updatePhase : list (X -> M W ServiceError unit)) x :
  Forall (fun f => forall y, keeps_settled (f y)) updatePhase -> keeps_settled (perform fsm updatePhase x).
Proof.
  intros Hf. apply ks_bind; [apply ks_lift|]. intros p. apply ks_bind; [|intros; apply ks_ret]. destruct (fst p); [|apply ks_ret].
  induction Hf; simpl; [apply ks_ret | by apply ks_bind].
Qed.

Lemma ks_DeleteNamespaces q : keeps_settled (DeleteNamespaces q : M W ServiceError Z).
Proof. unfold DeleteNamespaces. solve_settled. Qed.
Lemma ks_Delete id : keeps_settled (Delete id : M W ServiceError unit).
Proof.
  unfold Delete. solve_settled. apply ks_perform. repeat constructor. intros. apply ks_bind; [apply ks_DeleteNamespaces | intros; apply ks_ret].
Qed.
Lemma ks_Update r : keeps_settled (Update r : M W ServiceError ConnectorNamespace).
Proof. unfold Update. solve_settled. Qed.
Lemma ks_deployed l : keeps_settled (setConnectorsDeployed l : M W ServiceError (list ConnectorNamespace)).
Proof. unfold setConnectorsDeployed. solve_settled. Qed.
Lemma ks_report id s : keeps_settled (UpdateConnectorNamespaceStatus id s : M W ServiceError unit).
Proof.
  unfold UpdateConnectorNamespaceStatus. solve_settled; try apply ks_deployed; try apply ks_Update. by apply ks_perform.
Qed.
Lemma ks_expired : keeps_settled (ReconcileExpiredNamespaces : M W ServiceError Z).
Proof. unfold ReconcileExpiredNamespaces. solve_settled; apply ks_DeleteNamespaces. Qed.
Lemma ks_unused : keeps_settled (ReconcileUnusedDeletingNamespaces : M W ServiceError Z).
Proof. unfold ReconcileUnusedDeletingNamespaces. solve_settled. Qed.
Lemma ks_used : keeps_settled (ReconcileUsedDeletingNamespaces connectorsConfig : M W ServiceError Z).
Proof. unfold ReconcileUsedDeletingNamespaces, deleteNamespaceConnectors. solve_settled. Qed.

Lemma ks_removed : keeps_settled (ReconcileDeletedNamespaces : M W ServiceError Z).
Proof.
  apply ks_wrap, ks_transaction, ks_wrap. intros w Hs.
  match goal with |- settled (tables_in (snd (?m w))) => destruct (m w) as [r w1] eqn:E end. simpl.
  apply bind_inv in E as [(ids & w2 & Hq & E)|(e & Hq & _)].
  2: { apply wrap_err_err in Hq as (e0 & Hq & _). by apply select_err in Hq as [-> _]. }
  apply wrap_err_ok, select_ok in Hq as (Hids & Ht & _). cbv zeta in E.
  destruct (Z.of_nat (length ids) =? 0); [injection E as _ <-; by rewrite Ht|].
  apply bind_inv in E as [(u & w3 & Hc & E)|(e & Hc & _)].
  2: { apply wrap_err_err in Hc as (e0 & Hc & _). apply change_err in Hc as [-> _]. by rewrite Ht. }
  injection E as _ <-. apply wrap_err_ok, change_ok in Hc as [Hc _]. injection Hc as _ <-. rewrite Ht.
  intros s id Hin Hid. destruct (Hs s id Hin Hid) as (n & Hn & Hnid). apply in_live_namespaces in Hn as [Hn Hd].
  exists n. rewrite in_live_namespaces. split; [|done]. split; [|done]. apply amend_elem. exists n. split; [done|].
  destruct (one_of ids (NS.ID n)) eqn:Eo; [|by rewrite andb_false_r]. exfalso.
  apply one_of_spec in Eo. rewrite Hids, list_elem_of_fmap in Eo. destruct Eo as (m & Heq & Hm).
  apply list_elem_of_In, filter_In in Hm as [_ Hm]. unfold empty_deleted in Hm. apply andb_true_iff in Hm as [_ Hm].
  unfold no_status_in in Hm. apply negb_true_iff, not_true_iff_false in Hm. apply Hm. apply existsb_exists. exists s.
  split; [by apply list_elem_of_In|]. unfold in_namespace. rewrite Hid. apply String.eqb_eq. congruence.
Qed.

Lemma ks_DeleteCluster id : keeps_settled (DeleteClusterById id : M W ServiceError unit).
Proof. unfold DeleteClusterById. solve_settled. apply ks_perform. repeat constructor. solve_settled. Qed.
Lemma ks_cluster_report id s : keeps_settled (UpdateConnectorClusterStatus id s : M W ServiceError unit).
Proof. unfold UpdateConnectorClusterStatus. solve_settled. by apply ks_perform. Qed.
Lemma ks_deployment_report s : keeps_settled (UpdateConnectorDeploymentStatus s : M W ServiceError unit).
Proof. unfold UpdateConnectorDeploymentStatus, GetDeployment, deleteConnectorDeployment. solve_settled. Qed.
Lemma ks_SaveDeployment d : keeps_settled (SaveDeployment d : M W ServiceError ConnectorDeployment).
Proof. unfold SaveDeployment. solve_settled. Qed.
Lemma ks_DeleteConnectorRow id : keeps_settled (DeleteConnectorRow id : M W ServiceError unit).
Proof. unfold DeleteConnectorRow. solve_settled. Qed.
Lemma ks_remove_accounts {E} ids : keeps_settled (remove_accounts ids : M W E (list ServiceError)).
Proof. intros w Hs. by destruct (remove_accounts_run (E := E) ids w) as [errs ->]. Qed.

(** *** The transaction of a worker *)
Lemma in_transaction f (w : W) : (forall w0, tables_in w0 = tables_in w -> settled (tables_in (snd (f w0)))) ->
  settled (tables_in w) -> settled (tables_in (snd (InDBTransaction f w))).
Proof.
  intros Hf Hs. destruct (InDBTransaction f w) as [r w'] eqn:E. simpl.
  apply InDBTransaction_tables in E as [->|(w0 & r1 & w1 & Ht0 & _ & Hr & ->)]; [done|].
  specialize (Hf w0 Ht0). by rewrite Hr in Hf.
Qed.

(** *** Connectors *)
Definition status_live (c : Connector) (t : ctables) : Prop :=
  forall id, c.(CO.Status).(CS.NamespaceID) = Some id -> live_namespace id t.

Lemma save_attached s (w : W) : settled (tables_in w) -> (forall id, s.(CS.NamespaceID) = Some id -> live_namespace id (tables_in w)) ->
  settled (tables_in (snd (SaveStatus s w))).
Proof.
  intros Hs Hn. destruct (SaveStatus s w) as [[u|e] w'] eqn:E; simpl.
  - apply SaveStatus_ok in E as [-> _]. by apply settled_save.
  - apply wrap_err_err in E as (e0 & E & _). by apply change_err in E as [-> _].
Qed.

Lemma assigning_settled c (w : W) : settled (tables_in w) -> settled (tables_in (snd (reconcileAssigning c w))).
Proof.
  intros Hs. unfold reconcileAssigning. unfold bind at 1. unfold wrap_err at 1. unfold FindAvailableNamespace.
  destruct (_ =?s ""); [done|]. unfold bind at 1.
  destruct (wrap_err HandleGetError _ w) as [[l|e] w1] eqn:E; simpl.
  2: { apply wrap_err_err in E as (e0 & E & _). by apply select_err in E as [-> _]. }
  apply wrap_err_ok, select_ok in E as (Hp & Ht & _). rewrite <- Ht in Hs. destruct l as [|n l]; simpl; [done|].
  unfold bind at 1. destruct (wrap_err _ (GetLatestConnectorShardMetadata _ _) w1) as [[meta|e] w1'] eqn:Em.
  2: { apply wrap_err_err in Em as (e0 & Em & _). apply wrap_err_err in Em as (e1 & Em & _). apply first_err in Em as [Em _]. simpl. by rewrite Em. }
  apply wrap_err_ok, wrap_err_ok, first_ok in Em as (_ & Htm & _). rewrite <- Htm in Hs. rewrite <- Htm in Ht. clear Htm w1. rename w1' into w1.
  unfold bind at 1.
  pose proof (save_attached (CS.mkConnectorStatus (CO.ID c) false (Some (NS.ID n)) ConnectorStatusPhaseAssigned) w1 Hs) as Hsave.
  unfold wrap_err at 1. destruct (SaveStatus _ w1) as [[u|e] w2]; simpl in *.
  - apply ks_bind; [by intros w3|..]; [|apply Hsave].
    + intros newID. apply ks_bind; [apply ks_wrap, ks_SaveDeployment | intros; apply ks_ret].
    + intros id [= <-]. exists n. split; [|done]. rewrite Ht.
      assert (n ∈ List.filter (available (CO.Owner c) (CO.OrganisationId c) (CO.NamespaceId c)) (live_namespaces (tables_in w))) as Hin by (rewrite <- Hp; left).
      apply list_elem_of_In, filter_In in Hin as [Hin _]. by apply list_elem_of_In.
  - apply Hsave. intros id [= <-]. exists n. split; [|done]. rewrite Ht.
    assert (n ∈ List.filter (available (CO.Owner c) (CO.OrganisationId c) (CO.NamespaceId c)) (live_namespaces (tables_in w))) as Hin by (rewrite <- Hp; left).
    apply list_elem_of_In, filter_In in Hin as [Hin _]. by apply list_elem_of_In.
Qed.

Lemma unassigned_settled c (w : W) : settled (tables_in w) -> settled (tables_in (snd (reconcileUnassigned c w))).
Proof.
  apply ks_bind; [apply ks_wrap, ks_change, st_update_connectors|]. intros _. apply ks_wrap. intros w0 Hs0.
  apply save_attached; [done|]. done.
Qed.

Lemma deleting_settled c (w : W) : status_live c (tables_in w) -> settled (tables_in w) -> settled (tables_in (snd (reconcileDeleting c w))).
Proof.
  intros Hl Hs. unfold reconcileDeleting. unfold bind at 1, attempt. destruct (GetDeploymentByConnectorId _ w) as [r w1] eqn:E.
  assert (tables_in w1 = tables_in w) as Ht.
  { unfold GetDeploymentByConnectorId in E. destruct r as [d|e]; [apply wrap_err_ok, first_ok in E; by destruct E as (_ & ? & _)|].
    apply wrap_err_err in E as (e0 & E & _). by apply first_err in E as [? _]. }
  rewrite <- Ht in Hs, Hl. destruct r as [d|e]; [done|]. destruct (Is404 e); [|done].
  unfold bind at 1, wrap_err at 1. destruct (clear_namespace (CO.ID c) w1) as [[k|e0] w2] eqn:Ec.
  - apply change_ok in Ec as [Ec _]. injection Ec as _ Ec.
    pose proof (save_attached ((CO.Status c) <| CS.Phase := ConnectorStatusPhaseDeleted |>) w2) as Hsave.
    unfold wrap_err. destruct (SaveStatus _ w2) as [r w3]. simpl in *. apply Hsave; rewrite <- Ec; [exact Hs | exact Hl].
  - simpl. by apply change_err in Ec as [-> _].
Qed.

Lemma connector_update_settled c (w : W) : settled (tables_in w) -> settled (tables_in (snd (reconcileConnectorUpdate c w))).
Proof.
  revert w. change (keeps_settled (reconcileConnectorUpdate c)). unfold reconcileConnectorUpdate, GetDeploymentByConnectorId.
  solve_settled. apply ks_SaveDeployment.
Qed.

(** Each row is reconciled with a status that was just loaded. *)
Lemma each_row_settled f rows (w : W) :
  (forall c w0, status_live c (tables_in w0) -> settled (tables_in w0) -> settled (tables_in (snd (f c w0)))) ->
  settled (tables_in w) -> settled (tables_in (snd (each_row f rows w))).
Proof.
  intros Hf. revert w. induction rows as [|c rows IH]; intros w Hs; simpl; [done|].
  destruct (first _ w) as [r w1] eqn:E.
  assert (tables_in w1 = tables_in w /\ forall s, r = Ok s -> s ∈ live_statuses (tables_in w)) as [Ht Hr].
  { destruct r as [s|e]; [apply first_ok in E as (Hin & Ht & _) | apply first_err in E as [Ht _]; done].
    split; [done|]. intros s0 [= ->]. apply list_elem_of_In, filter_In in Hin as [Hin _]. by apply list_elem_of_In. }
  rewrite <- Ht in Hs. destruct r as [s|e].
  - specialize (Hf (c <| CO.Status := s |>) w1). destruct (f _ w1) as [r2 w2]. simpl in Hf.
    specialize (IH w2). destruct (each_row f rows w2) as [errs w3]. simpl in *. apply IH, Hf; [|done].
    intros id Hid. apply (Hs s id); [|done]. rewrite Ht. by apply Hr.
  - specialize (Hf (c <| CO.Status := no_status <| CS.ID := CO.ID c |> |>) w1). destruct (f _ w1) as [r2 w2]. simpl in Hf.
    specialize (IH w2). destruct (each_row f rows w2) as [errs w3]. simpl in *. by apply IH, Hf.
Qed.

Lemma connector_pass_settled f query (w : W) :
  (forall c w0, status_live c (tables_in w0) -> settled (tables_in w0) -> settled (tables_in (snd (f c w0)))) ->
  settled (tables_in w) -> settled (tables_in (snd (doReconcile f query w))).
Proof.
  intros Hf Hs. unfold doReconcile, ForEach. destruct (value _ w) as [[rows|e] w1] eqn:E.
  - apply value_ok in E as (_ & Ht & _). rewrite <- Ht in Hs. apply each_row_settled; [|done].
    intros c w0 Hl Hs0. apply in_transaction; [|done]. intros w2 Ht2. apply Hf; by rewrite Ht2.
  - simpl. by apply value_err in E as [-> _].
Qed.

Definition pass_settled (p : W -> list error * W) : Prop := forall w, settled (tables_in w) -> settled (tables_in (snd (p w))).

Lemma then_settled p q : pass_settled p -> pass_settled q -> pass_settled (then_ p q).
Proof.
  intros Hp Hq w Hs. unfold then_. specialize (Hp w Hs). destruct (p w) as [e1 w1]. specialize (Hq w1 Hp).
  by destruct (q w1) as [e2 w2].
Qed.
Lemma context_settled b p : pass_settled p -> pass_settled (with_context b p).
Proof.
  intros Hp w Hs. unfold with_context. destruct b; [by apply Hp|].
  destruct (on_db db_end w) as [[[]|e] w1] eqn:E; apply end_run in E as [Ht _]; rewrite <- Ht in Hs; [by apply Hp | done].
Qed.
Lemma namespace_pass_settled f : keeps_settled f -> pass_settled (namespace_pass f).
Proof.
  intros Hf w Hs. unfold namespace_pass. set (g := wrap_err EService _).
  assert (keeps_settled g) as Hg by (apply ks_wrap, ks_bind; [done | intros; apply ks_ret]).
  pose proof (in_transaction g w (fun w0 Ht => Hg w0 (eq_ind_r settled Hs Ht)) Hs) as Hw.
  by destruct (InDBTransaction g w) as [[[]|e] w1].
Qed.

Lemma cluster_pass_settled f query : (forall ids, keeps_settled (f ids)) -> pass_settled (cluster_pass f query).
Proof.
  intros Hf w Hs. unfold cluster_pass. destruct (GetClusterIds query w) as [[ids|e] w1] eqn:E.
  2: { simpl. apply wrap_err_err in E as (e0 & E & _). by apply select_err in E as [-> _]. }
  apply wrap_err_ok, select_ok in E as (_ & Ht & _). rewrite <- Ht in Hs. destruct ids as [|i ids]; [done|].
  destruct (Begin w1) as [[[]|e] w2] eqn:Eb; unfold Begin, wrap_err in Eb; destruct (on_db db_end w1) as [r0 w20] eqn:E0;
    apply end_run in E0 as [Ht2 _]; injection Eb as _ <-; rewrite <- Ht2 in Hs; [|done].
  specialize (Hf (i :: ids) w20 Hs). destruct (f (i :: ids) w20) as [[[cnt serrs]|e] w3]; [|done].
  destruct (Resolve _ w3) as [r4 w4] eqn:E4. apply Resolve_run in E4 as [Ht4 _]. simpl in *. by rewrite Ht4.
Qed.

Lemma ks_empty_clusters ids : keeps_settled (ReconcileEmptyDeletingClusters ids : M W ServiceError _).
Proof.
  intros w Hs. unfold ReconcileEmptyDeletingClusters.
  match goal with |- context [TransactionE ?o ?m w] => assert (keeps_settled (TransactionE o m)) as Hk end.
  { apply ks_transaction. solve_settled; apply ks_remove_accounts. }
  specialize (Hk w Hs). by destruct (TransactionE _ _ w) as [[errs|[errs e]] w1].
Qed.
Lemma ks_nonempty_clusters ids : keeps_settled (ReconcileNonEmptyDeletingClusters ids : M W ServiceError _).
Proof.
  intros w Hs. unfold ReconcileNonEmptyDeletingClusters.
  match goal with |- context [Transaction ?m w] => assert (keeps_settled (Transaction m)) as Hk end.
  { apply ks_transaction, ks_wrap, ks_DeleteNamespaces. }
  specialize (Hk w Hs). by destruct (Transaction _ w) as [[n|e] w1].
Qed.

(** ** The system *)
Inductive connector_step : W -> W -> Prop :=
| run_connectors b errs w w' : ConnectorManager_Reconcile b w = (errs, w') -> connector_step w w'
| run_namespaces b errs w w' : NamespaceManager_Reconcile connectorsConfig b w = (errs, w') -> connector_step w w'
| run_clusters b errs w w' : ClusterManager_Reconcile b w = (errs, w') -> connector_step w w'
| delete_namespace id r w w' : Delete id w = (r, w') -> connector_step w w'
| delete_cluster id r w w' : DeleteClusterById id w = (r, w') -> connector_step w w'
| report_cluster id s r w w' : UpdateConnectorClusterStatus id s w = (r, w') -> connector_step w w'
| report_namespace id s r w w' : UpdateConnectorNamespaceStatus id s w = (r, w') -> connector_step w w'
| report_deployment s r w w' : UpdateConnectorDeploymentStatus s w = (r, w') -> connector_step w w'.

Lemma connector_step_settled w w' : connector_step w w' -> settled (tables_in w) -> settled (tables_in w').
Proof.
  assert (forall A (m : M W ServiceError A) r w w', keeps_settled m -> m w = (r, w') -> settled (tables_in w) -> settled (tables_in w')) as Hm.
  { intros A m r v v' Hk Hr Hs. specialize (Hk v Hs). by rewrite Hr in Hk. }
  assert (forall p errs w w', pass_settled p -> p w = (errs, w') -> settled (tables_in w) -> settled (tables_in w')) as Hp.
  { intros p errs v v' Hk Hr Hs. specialize (Hk v Hs). by rewrite Hr in Hk. }
  intros Hstep Hs. destruct Hstep as [???? Hr|???? Hr|???? Hr|???? Hr|???? Hr|????? Hr|????? Hr|???? Hr].
  1-3: refine (Hp _ _ _ _ _ Hr Hs).
  4-8: refine (Hm _ _ _ _ _ _ Hr Hs).
  - apply context_settled. repeat apply then_settled; intros v Hv; apply connector_pass_settled; try done; intros;
      auto using assigning_settled, unassigned_settled, deleting_settled, connector_update_settled.
    by apply (ks_wrap EService _ (ks_DeleteConnectorRow _)).
  - apply context_settled. repeat apply then_settled; apply namespace_pass_settled; auto using ks_expired, ks_unused, ks_used, ks_removed.
  - apply context_settled. apply then_settled; apply cluster_pass_settled; intros; [apply ks_empty_clusters | apply ks_nonempty_clusters].
  - apply ks_Delete.
  - apply ks_DeleteCluster.
  - apply ks_cluster_report.
  - apply ks_report.
  - apply ks_deployment_report.
Qed.

(** [C11] No namespace is removed under a connector: if every live connector
    status refers to a live namespace, this stays so under every sequence of
    passes of the three workers, reports of the agents and deletions of
    namespaces and clusters, whatever statements fail on the way. *)
Theorem connectors_keep_their_namespace w w' : rtc connector_step w w' -> settled (tables_in w) -> settled (tables_in w').
Proof. induction 1; [done|]. intros Hs. by eapply IHrtc, connector_step_settled. Qed.
End System.

(** ** Witnesses *)
Module SystemExample.
Import MemC.
#[export] Instance ids : IdSource (cworld mem) := fun w => "dep-" +:+ pretty (length (tables_in w).(deployments)).
#[export] Instance accounts : ConnectorAccounts := 
  {| delete_account _ := Ok tt; account_secret _ := Ok "s3cret"; register_account id := Ok ("sa-" +:+ id, "s3cret") |}.
Definition metadata : ConnectorShardMetadata := SM.mkConnectorShardMetadata 7 "log_sink_0.1" "stable" 4 None "{}".
Definition config : ConnectorsConfig := mkConnectorsConfig 0 [] false.

Definition row (id : string) (version : Z) : Connector :=
  CO.mkConnector id false (Some "ns-1") "" "" false "Source" "alice" "org-1" version [] "log_sink_0.1" "{}" ConnectorReady "stable"
    (mkKafkaConnectionSettings "k-1" "k-1.example.org:443") (mkSchemaRegistryConnectionSettings "" "")
    (mkServiceAccount "sa-1" "" "ref-1") no_status.
Definition status (id phase : string) (ns : option string) : ConnectorStatus := CS.mkConnectorStatus id false ns phase.
Definition deployment (id connector : string) (version : Z) : ConnectorDeployment :=
  CD.mkConnectorDeployment id false 1 connector "" version 7 "cluster-1" "ns-1" false.

Definition tables : ctables :=
  mkCtables [ConnectorExample.cluster] [ConnectorExample.namespace] [row "co-1" 5]
    [status "co-1" ConnectorStatusPhaseAssigning None] [] [] [] [metadata].
Definition waiting : cworld mem := world_of tables.
Definition emptied : cworld mem :=
  world_of (tables <| namespaces := [] |> <| cclusters := [CC.with_phase ConnectorClusterPhaseDeleting ConnectorExample.cluster] |>).

(** Two connectors that changed; the deployment of the first is not there yet. *)
Definition changed : cworld mem :=
  world_of (mkCtables [ConnectorExample.cluster] [ConnectorExample.namespace] [row "co-1" 5; row "co-2" 6]
    [status "co-1" ConnectorStatusPhaseUpdating (Some "ns-1"); status "co-2" ConnectorStatusPhaseUpdating (Some "ns-1")]
    [deployment "dep-2" "co-2" 4] [] [] [metadata]).
Definition reconcile (w : cworld mem) : list error * cworld mem := ConnectorManager_Reconcile true w.
Definition arrived (w : cworld mem) : cworld mem :=
  with_db (mkMem ((tables_in w) <| deployments := (tables_in w).(deployments) ++ [deployment "dep-1" "co-1" 4] |>) 1000 []) w.
End SystemExample.
Export (hints) SystemExample.

Lemma assignment_exact_witness :
  assignment_effect (SystemExample.row "co-1" 5) SystemExample.waiting
    (snd (reconcileAssigning (SystemExample.row "co-1" 5) SystemExample.waiting)).
Proof. apply assignment_exact. vm_compute. reflexivity. Defined.

Lemma personal_connector_never_assigned_witness : exists e,
  fst (reconcileAssigning ((SystemExample.row "co-1" 5) <| CO.OrganisationId := "" |>) SystemExample.waiting) = Err e.
Proof.
  eapply (personal_connector_never_assigned ((SystemExample.row "co-1" 5) <| CO.OrganisationId := "" |>)
    SystemExample.waiting _ SystemExample.waiting); [reflexivity | vm_compute; reflexivity].
Defined.

Lemma only_empty_deleting_clusters_removed_witness :
  tables_in (snd (cluster_pass ReconcileEmptyDeletingClusters empty_deleting_query SystemExample.emptied)) = tables_in SystemExample.emptied \/
  exists accounts, (snd (cluster_pass ReconcileEmptyDeletingClusters empty_deleting_query SystemExample.emptied)).(removed_accounts) = [] ++ accounts /\
    accounts ≡ₚ map CC.ClientId (List.filter (empty_deleting (tables_in SystemExample.emptied)) (tables_in SystemExample.emptied).(cclusters)).
Proof.
  destruct (only_empty_deleting_clusters_removed SystemExample.emptied
    (fst (cluster_pass ReconcileEmptyDeletingClusters empty_deleting_query SystemExample.emptied))
    (snd (cluster_pass ReconcileEmptyDeletingClusters empty_deleting_query SystemExample.emptied))) as [Ht|(_ & Ha)].
  - apply (bool_decide_unpack _). vm_compute. exact I.
  - vm_compute. reflexivity.
  - by left.
  - right. exact Ha.
Defined.

Lemma connectors_keep_their_namespace_witness :
  settled (tables_in (snd (NamespaceManager_Reconcile SystemExample.config true (snd (SystemExample.reconcile SystemExample.waiting))))).
Proof.
  apply (connectors_keep_their_namespace SystemExample.config SystemExample.waiting).
  - eapply rtc_l; [eapply (run_connectors SystemExample.config true); vm_compute; reflexivity|].
    eapply rtc_once. eapply (run_namespaces SystemExample.config true). vm_compute. reflexivity.
  - intros s id Hin Hid. vm_compute in Hin. apply list_elem_of_singleton in Hin. subst s. discriminate Hid.
Defined.

(** ** A failed update is forgotten *)

(** The worker keeps the version of the last connector it reconciled.  When
    the update of a connector fails and that of one with a later version succeeds
    in the same pass, the next pass starts behind both: although the deployment of
    the first connector is there by then, it never learns of the connector's new
    version. *)
Theorem failed_connector_update_is_forgotten :
  let w1 := snd (SystemExample.reconcile SystemExample.changed) in
  let w2 := snd (SystemExample.reconcile (SystemExample.arrived w1)) in
  length (fst (SystemExample.reconcile SystemExample.changed)) = 1%nat /\ w1.(lastVersion) = 6 /\
  fst (SystemExample.reconcile (SystemExample.arrived w1)) = [] /\
  map (fun d => (d.(CD.ConnectorID), d.(CD.ConnectorVersion))) (tables_in w2).(deployments) = [("co-2", 6); ("co-1", 4)].
Proof. vm_compute. split_and!; reflexivity. Qed.
