(* ===== verification/ConnectorHandlers.v ===== *)
(** * Connectors: authorisation and REST handlers

    The validation builder ([src/pkg/handlers/validation_builder.go]), the
    authorisation of a caller ([src/internal/connector/internal/services/authz]),
    the checks of annotations, and the handlers of namespaces, of clusters, of the
    agents and of administrators, with the deletion of a connector and the checks
    of its patches ([src/internal/connector/internal/handlers]).

    A validator may assign to the payload ([WithDefault]), so that it returns the
    payload it leaves; the values that are validated are addresses of fields and
    never nil.  A map of annotations is the list of its pairs in the order in
    which the code ranges over them. *)
From S2P Require Import Prelude Arrays Errors Status Config Model Store Resources Scanner StateMachine QueryParser Listing Validation.
From S2P Require Import ConnectorModel ConnectorStore ConnectorNamespaces ConnectorClusters Connectors ConnectorWorkers ConnectorSystem.

Open Scope Z_scope.

(** ** The frame of the handlers *)
Definition StatusCreated : Z := 201.

Section Builder.
Context {W : Type}.
Abbreviation S A := (M W ServiceError A).

Definition Check (Body : Type) : Type := Body -> S Body.

Fixpoint run_checks {Body} (l : list (Check Body)) (payload : Body) : S Body :=
  match l with
  | [] => ret payload
  | c :: l' => payload <~ c payload ;; run_checks l' payload
  end.

Definition respond {Body A} (checks : list (Check Body)) (action : Body -> S A) (httpStatus : Z) (payload : Body) : S (Z * A) :=
  payload <~ run_checks checks payload ;;
  a <~ action payload ;;
  ret (httpStatus, a).

Definition HandleBody {Body A} (body : result error Body) (checks : list (Check Body)) (action : Body -> S A) (httpStatus : Z) : S (Z * A) :=
  payload <~ lift (map_err (fun _ => MalformedRequest "invalid request format: %s") body) ;;
  respond checks action httpStatus payload.
Definition HandleNoBody {A} (checks : list (Check unit)) (action : S A) (httpStatus : Z) : S (Z * A) :=
  respond checks (fun _ => action) httpStatus tt.

(** *** The builder *)
Definition ValidateOption : Type := string -> string -> S string.

Fixpoint Validation (field value : string) (options : list ValidateOption) : S string :=
  match options with
  | [] => ret value
  | option :: options' => value <~ option field value ;; Validation field value options'
  end.

Definition WithDefault (d : string) : ValidateOption := fun _ value => ret (if value =?s "" then d else value).
Definition MinLen (min : Z) : ValidateOption := fun field value =>
  if len value <? min then throw (MinimumFieldLengthNotReached "%s is not valid. Minimum length %d is required.") else ret value.
Definition MaxLen (max : Z) : ValidateOption := fun field value =>
  if max <? len value then throw (MaximumFieldLengthExceeded "%s is not valid. Maximum length %d is required.") else ret value.
Definition IsOneOf (options : list string) : ValidateOption := fun field value =>
  if one_of options value then ret value else throw (BadRequest "%s is not valid. Must be one of: %s").
Definition Matches (r : regex) : ValidateOption := fun field value =>
  if value =?s "" then throw (MinimumFieldLengthNotReached "%s is not valid. Minimum length %d is required.")
  else if MatchString r value then ret value else throw (BadRequest "%s is not valid. Must match regex: %s").

(** A variable of the path, and a field of the payload. *)
Definition path_check {Body} (field value : string) (options : list ValidateOption) : Check Body := fun payload =>
  _ <~ Validation field value options ;; ret payload.
Definition field_check {Body} (field : string) (get : Body -> string) (set : string -> Body -> Body) (options : list ValidateOption) : Check Body :=
  fun payload => value <~ Validation field (get payload) options ;; ret (set value payload).
(** Any other validator. *)
Definition plain_check {Body} (v : S unit) : Check Body := fun payload => _ <~ v ;; ret payload.
End Builder.
Arguments Check : clear implicits.

Definition maxConnectorNamespaceIdLength : Z := 32.
Definition maxConnectorNamespaceNameLength : Z := 63.
Definition maxConnectorClusterIdLength : Z := 32.
Definition maxConnectorClusterNameLength : Z := 100.
Definition maxConnectorIdLength : Z := 32.

(** Letters, digits, dashes, dots and underscores, with a letter or digit at both
    ends; or nothing. *)
Definition namespaceNamePattern : regex :=
  let inner := RClass (fun c => alphanumeric c || existsb (Z.eqb c) [45; 46; 95]) in
  ROpt (RSeq (ROpt (RSeq (RClass alphanumeric) (RStar inner))) (RClass alphanumeric)).

(** ** Annotations: [connector_validation.go]

    The syntax of keys and values is that of
    [k8s.io/apimachinery/pkg/util/validation], which lists what is wrong. *)
Class LabelSyntax := {
  IsQualifiedName : string -> list string;
  IsValidLabelValue : string -> list string
}.

Definition reservedDomains : list string := ["kubernetes.io/"; "k8s.io/"; "openshift.io/"].
Definition reservedAnnotations : list string := [ConnectorClusterOrgIdAnnotation; ConnectorTypePricingTierAnnotation].

Section AnnotationChecks.
Context `{LabelSyntax}.

Fixpoint validateAnnotations (annotations : list Annotation) : result ServiceError unit :=
  match annotations with
  | [] => Ok tt
  | (k, v) :: annotations' =>
      match IsQualifiedName k, IsValidLabelValue v with
      | _ :: _, _ => Err (BadRequest "invalid annotation key %s: %s")
      | [], _ :: _ => Err (BadRequest "invalid annotation value %s: %s")
      | [], [] =>
          if existsb (fun d => StrContains k d) reservedDomains
          then Err (BadRequest "cannot use reserved annotation %s from domain %s")
          else validateAnnotations annotations'
      end
  end.

Definition has_key (k : string) (annotations : list Annotation) : bool := existsb (fun a => fst a =?s k) annotations.
Definition validateCreateAnnotations (annotations : list Annotation) : result ServiceError unit :=
  _ <-! validateAnnotations annotations ;;
  if existsb (fun k => has_key k annotations) reservedAnnotations
  then Err (BadRequest "cannot override reserved annotation %s") else Ok tt.

(** The zero value and [false] for a missing key. *)
Definition annotation_at (annotations : list Annotation) (k : string) : string * bool :=
  match map_lookup annotations k with Some v => (v, true) | None => ("", false) end.
Definition validatePatchAnnotations (patched existing : list Annotation) : result ServiceError unit :=
  _ <-! validateAnnotations patched ;;
  if existsb (fun k => negb (bool_decide (annotation_at existing k = annotation_at patched k))) reservedAnnotations
  then Err (BadRequest "cannot override reserved annotation %s") else Ok tt.
End AnnotationChecks.

(** ** Authorisation: [authz_service.go] *)
Definition unauthenticatedError : ServiceError := Unauthenticated "user not authenticated".
Definition unauthorizedError : ServiceError := Unauthorized "user not authorized".

(** A user with the error of its creation. *)
Record ValidationUser := mkValidationUser { user_claims : KFMClaims; user_err : option ServiceError }.
Definition GetValidationUser (ctx : RequestContext) : ValidationUser :=
  mkValidationUser (claims_or_none ctx) (match ctx.(rc_claims) with Ok _ => None | Err _ => Some unauthenticatedError end).
Definition GetUser (ctx : RequestContext) : result ServiceError KFMClaims := map_err (fun _ => unauthenticatedError) ctx.(rc_claims).

Definition IsOrgAdmin (u : ValidationUser) : bool := Claims_IsOrgAdmin u.(user_claims).
Definition UserId (u : ValidationUser) : string := value_or_zero (GetUsername u.(user_claims)).
Definition OrgId (u : ValidationUser) : string := value_or_zero (GetOrgId u.(user_claims)).

Section Authorisation.
Context {D : Type} `{ConnectorDB D} `{ConnectorAccounts}.
Context (connectorsConfig : ConnectorsConfig) (quotaConfig : ConnectorsQuotaConfig).
Abbreviation W := (cworld D).
Abbreviation S A := (M W ServiceError A).

Definition authenticated_or {A} (u : ValidationUser) (m : S A) : S A := match u.(user_err) with Some e => throw e | None => m end.

Definition AuthorizedOrgAdmin (u : ValidationUser) : S unit :=
  authenticated_or u (if IsOrgAdmin u then ret tt else throw unauthorizedError).

Definition AuthorizedClusterAdmin (u : ValidationUser) : ValidateOption (W := W) := fun _ value =>
  authenticated_or u (
    orgID <~ GetClusterOrg value ;;
    if negb (OrgId u =?s orgID) then throw (NotFound "connector cluster with id='%s' not found")
    else if negb (IsOrgAdmin u) then throw unauthorizedError else ret value).

Definition AuthorizedClusterUser (u : ValidationUser) : ValidateOption (W := W) := fun _ value =>
  authenticated_or u (
    orgID <~ GetClusterOrg value ;;
    if negb (OrgId u =?s orgID) then throw (NotFound "connector cluster with id='%s' not found") else ret value).

(** [tenant != nil && id != *tenant] *)
Definition differs (tenant : option string) (id : string) : bool := match tenant with Some t => negb (id =?s t) | None => false end.

Definition AuthorizedNamespaceAdmin (u : ValidationUser) : ValidateOption (W := W) := fun _ value =>
  authenticated_or u (
    namespace <~ GetNamespaceTenant value ;;
    if differs namespace.(NS.TenantUserId) (UserId u) then throw (NotFound "Connector namespace with id='%s' not found")
    else match namespace.(NS.TenantOrganisationId) with
         | Some org => if negb (IsOrgAdmin u && (OrgId u =?s org)) then throw unauthorizedError else ret value
         | None => ret value
         end).

Definition AuthorizedNamespaceUser (u : ValidationUser) (errorCode : Z) : ValidateOption (W := W) := fun _ value =>
  authenticated_or u (
    if value =?s "" then ret value else
    namespace <~ wrap_err (fun serr => New errorCode serr.(Reason)) (GetNamespaceTenant value) ;;
    if differs namespace.(NS.TenantUserId) (UserId u) || differs namespace.(NS.TenantOrganisationId) (OrgId u)
    then throw (New errorCode "Connector namespace with id='%s' not found") else ret value).

Definition AuthorizedCreateEvalNamespace (u : ValidationUser) : S unit :=
  authenticated_or u (CanCreateEvalNamespace connectorsConfig (UserId u)).

Definition ValidateNamespaceConnectorQuota (u : ValidationUser) : ValidateOption (W := W) := fun _ value =>
  authenticated_or u (if value =?s "" then ret value else _ <~ CheckConnectorQuota quotaConfig value ;; ret value).

(** An agent names its cluster, which must not be removed. *)
Definition validateConnectorClusterId : ValidateOption (W := W) := fun _ value => _ <~ GetCluster value ;; ret value.
End Authorisation.

(** ** Presenters *)
Record ConnectorReference := mkConnectorReference { CR_Id : string; CR_Kind : string; CR_Href : string }.

(** The types that the presenters tell apart; a deployment carries its cluster. *)
Inductive ConnectorObject :=
| ObjConnector | ObjConnectorAdminView | ObjCluster | ObjNamespace | ObjType | ObjTypeAdminView | ObjServiceError
| ObjDeployment (clusterID : string) | ObjDeploymentAdminView (clusterID : string).

Definition objectKind (o : ConnectorObject) : string :=
  match o with
  | ObjConnector => "Connector" | ObjConnectorAdminView => "ConnectorAdminView" | ObjCluster => "ConnectorCluster"
  | ObjNamespace => "ConnectorNamespace" | ObjType => "ConnectorType" | ObjTypeAdminView => "ConnectorTypeAdminView"
  | ObjServiceError => "Error" | ObjDeployment _ => "ConnectorDeployment" | ObjDeploymentAdminView _ => "ConnectorDeploymentAdminView"
  end.
Definition objectPath (id : string) (o : ConnectorObject) : string :=
  match o with
  | ObjConnector => "/api/connector_mgmt/v1/kafka_connectors/" +:+ id
  | ObjConnectorAdminView => "/api/connector_mgmt/v1/admin/kafka_connectors/" +:+ id
  | ObjType => "/api/connector_mgmt/v1/kafka_connector_types/" +:+ id
  | ObjTypeAdminView => "/api/connector_mgmt/v1/admin/kafka_connector_types/" +:+ id
  | ObjCluster => "/api/connector_mgmt/v1/kafka_connector_clusters/" +:+ id
  | ObjDeployment c => "/api/connector_mgmt/v1/agent/kafka_connector_clusters/" +:+ c +:+ "/deployments/" +:+ id
  | ObjDeploymentAdminView c => "/api/connector_mgmt/v1/admin/kafka_connector_clusters/" +:+ c +:+ "/deployments/" +:+ id
  | ObjNamespace => "/api/connector_mgmt/v1/kafka_connector_namespaces/" +:+ id
  | ObjServiceError => ""
  end.
(** [PresentReferenceWith]: no reference without an identifier. *)
Definition PresentReference (id : string) (o : ConnectorObject) : ConnectorReference :=
  if id =?s "" then mkConnectorReference "" "" "" else mkConnectorReference id (objectKind o) (objectPath id o).

(** Assignment to a key of a map. *)
Fixpoint set_annotation (k v : string) (m : list Annotation) : list Annotation :=
  match m with
  | [] => [(k, v)]
  | (k', v') :: m' => if k' =?s k then (k, v) :: m' else (k', v') :: set_annotation k v m'
  end.
Definition PresentAnnotations (l : list Annotation) : list Annotation :=
  foldl (fun m a => set_annotation (fst a) (snd a) m) [] l.

Definition getError (conditions : list Condition) : string :=
  Join (map (fun c => c.(Condition_Reason) +:+ ": " +:+ c.(Condition_Message))
    (List.filter (fun c => HasSuffix c.(Condition_Type) "Failure") conditions)) "; ".

(** The views of a namespace; an expiration is the time that its text stands
    for. *)
Record NamespaceView := mkNamespaceView {
  NV_Reference : ConnectorReference;
  NV_Owner : string;
  NV_ResourceVersion : Z;
  NV_Quota : NamespaceQuota;
  NV_Name : string;
  NV_ClusterId : string;
  NV_TenantKind : string;
  NV_TenantId : string;
  NV_Annotations : list Annotation;
  NV_State : string;
  NV_Version : string;
  NV_ConnectorsDeployed : Z;
  NV_Error : string;
  NV_Expiration : option Z
}.

(** The quota of the profile, the last one when there are several. *)
Definition presented_quota (quotaConfig : ConnectorsQuotaConfig) (annotations : list Annotation) : NamespaceQuota :=
  foldl (fun q a => if fst a =?s AnnotationProfileKey then fst (GetNamespaceQuota quotaConfig (snd a)) else q) zero annotations.

Definition namespace_view (reference : ConnectorReference) (quotaConfig : ConnectorsQuotaConfig) (n : ConnectorNamespace) : NamespaceView :=
  let '(kind, id) := match n.(NS.TenantOrganisationId), n.(NS.TenantUserId) with
                     | Some o, _ => (CONNECTORNAMESPACETENANTKIND_ORGANISATION, o)
                     | None, Some u => (CONNECTORNAMESPACETENANTKIND_USER, u)
                     | None, None => ("", "")
                     end in
  mkNamespaceView reference n.(NS.Owner) n.(NS.version) (presented_quota quotaConfig n.(NS.Annotations)) n.(NS.Name) n.(NS.ClusterId)
    kind id (PresentAnnotations n.(NS.Annotations)) n.(NS.status).(NS.Phase) n.(NS.status).(NS.Version)
    n.(NS.status).(NS.ConnectorsDeployed) (getError n.(NS.status).(NS.Conditions)) n.(NS.Expiration).

Definition PresentConnectorNamespace (quotaConfig : ConnectorsQuotaConfig) (n : ConnectorNamespace) : NamespaceView :=
  namespace_view (PresentReference n.(NS.ID) ObjNamespace) quotaConfig n.
Definition PresentPrivateConnectorNamespace (quotaConfig : ConnectorsQuotaConfig) (n : ConnectorNamespace) : NamespaceView :=
  namespace_view (PresentReference n.(NS.ID) ObjNamespace) quotaConfig n.
Definition PresentConnectorNamespaceDeployment (quotaConfig : ConnectorsQuotaConfig) (n : ConnectorNamespace) : NamespaceView :=
  namespace_view
    (if n.(NS.ID) =?s "" then mkConnectorReference "" "" ""
     else mkConnectorReference n.(NS.ID) "ConnectorNamespaceDeployment"
            ("/api/connector_mgmt/v1/agent/kafka_connector_clusters/" +:+ n.(NS.ClusterId) +:+ "/namespaces/" +:+ n.(NS.ID)))
    quotaConfig n.

Record ClusterView := mkClusterView {
  CV_Reference : ConnectorReference;
  CV_Owner : string;
  CV_Name : string;
  CV_Annotations : list Annotation;
  CV_State : string
}.
Definition PresentConnectorCluster (c : ConnectorCluster) : ClusterView :=
  mkClusterView (PresentReference c.(CC.ID) ObjCluster) c.(CC.Owner) c.(CC.Name) (PresentAnnotations c.(CC.Annotations)) c.(CC.status).(CC.Phase).

Record ClusterAdminView := mkClusterAdminView {
  CA_View : ClusterView;
  CA_Conditions : list Condition;
  CA_Operators : list OperatorStatus;
  CA_Platform : ConnectorClusterPlatform
}.
Definition PresentPrivateConnectorCluster (c : ConnectorCluster) : ClusterAdminView :=
  mkClusterAdminView (PresentConnectorCluster c) c.(CC.status).(CC.Conditions) c.(CC.status).(CC.Operators) c.(CC.status).(CC.Platform).

(** ** Payloads *)
Record ConnectorNamespaceEvalRequest := mkConnectorNamespaceEvalRequest { NE_Name : string; NE_Annotations : list Annotation }.
Record ConnectorNamespacePatchRequest := mkConnectorNamespacePatchRequest { NP_Name : string; NP_Annotations : list Annotation }.
Record ConnectorClusterRequest := mkConnectorClusterRequest { CQ_Name : string; CQ_Annotations : list Annotation }.
(** The expiration is a text in the format of RFC 3339. *)
Record ConnectorNamespaceWithTenantRequest := mkConnectorNamespaceWithTenantRequest {
  NT_Name : string;
  NT_Annotations : list Annotation;
  NT_ClusterId : string;
  NT_Expiration : string;
  NT_TenantKind : string;
  NT_TenantId : string
}.

(** Reports of an agent. *)
Record NamespaceReport := mkNamespaceReport {
  NR_Id : string;
  NR_Phase : string;
  NR_Version : string;
  NR_ConnectorsDeployed : Z;
  NR_Conditions : list Condition
}.
Record ClusterReport := mkClusterReport {
  RC_Phase : string;
  RC_Version : string;
  RC_Conditions : list Condition;
  RC_Platform : ConnectorClusterPlatform;
  RC_Operators : list OperatorStatus;
  RC_Namespaces : list NamespaceReport
}.
Definition ConvertConnectorNamespaceDeploymentStatus (from : NamespaceReport) : ConnectorNamespaceStatus :=
  NS.mkStatus from.(NR_Phase) from.(NR_Version) from.(NR_ConnectorsDeployed) from.(NR_Conditions).
(** The version of the agent is not among the fields that are copied. *)
Definition ConvertConnectorClusterStatus (from : ClusterReport) : ConnectorClusterStatus :=
  CC.mkStatus from.(RC_Phase) "" from.(RC_Platform) from.(RC_Conditions) from.(RC_Operators).

Definition AgentRequestConnectorClusterStatus : list string := [ConnectorClusterPhaseReady].

(** The operators are given by their identifiers; [conditions] and [operators]
    are the JSON texts of these parts of the report. *)
Record DeploymentReport := mkDeploymentReport {
  RD_Phase : string;
  RD_ResourceVersion : Z;
  RD_Assigned : string;
  RD_Available : string;
  RD_conditions : string;
  RD_operators : string
}.
Definition ConvertConnectorDeploymentStatus (from : DeploymentReport) : ConnectorDeploymentStatus :=
  CDS.mkConnectorDeploymentStatus "" false from.(RD_Phase) from.(RD_ResourceVersion) from.(RD_conditions) from.(RD_operators)
    (negb (from.(RD_Available) =?s "") && negb (from.(RD_Available) =?s from.(RD_Assigned))).

Definition ConvertConnectorClusterRequest (id : string) (from : ConnectorClusterRequest) (userID orgID : string) : ConnectorCluster :=
  CC.mkConnectorCluster id false userID orgID from.(CQ_Name) "" "" from.(CQ_Annotations)
    (CC.mkStatus ConnectorClusterPhaseDisconnected "" (mkConnectorClusterPlatform "" "" "") [] []).

(** [time.Parse(time.RFC3339, s)] is [parse_time]. *)
Definition ConvertConnectorNamespaceWithTenantRequest (parse_time : string -> result error Z) (newID : string)
    (r : ConnectorNamespaceWithTenantRequest) : result ServiceError ConnectorNamespace :=
  expiration <-! (if r.(NT_Expiration) =?s "" then Ok None
                  else match parse_time r.(NT_Expiration) with
                       | Ok t => Ok (Some t)
                       | Err _ => Err (BadRequest "invalid namespace expiration '%s': %s")
                       end) ;;
  let row user org := (new_namespace newID r.(NT_Name) r.(NT_ClusterId) "" r.(NT_Annotations) user org) <| NS.Expiration := expiration |> in
  if r.(NT_TenantKind) =?s CONNECTORNAMESPACETENANTKIND_USER then Ok (row (Some r.(NT_TenantId)) None)
  else if r.(NT_TenantKind) =?s CONNECTORNAMESPACETENANTKIND_ORGANISATION then Ok (row None (Some r.(NT_TenantId)))
  else Err (BadRequest "invalid kind %s").

(** ** Listing namespaces

    The value of a search clause on a row and the order of an [ORDER BY] list
    are the database's. *)
Class NamespaceQueries := {
  ns_where : DBQuery -> ConnectorNamespace -> bool;
  ns_order : list string -> list ConnectorNamespace -> list ConnectorNamespace
}.

(** [strings.ReplaceAll(s, old, new)] for a non-empty [old]; [skip] runes belong
    to an occurrence that was replaced. *)
Fixpoint text_prefix (p s : text) : bool :=
  match p, s with
  | [], _ => true
  | _, [] => false
  | a :: p', b :: s' => (a =? b) && text_prefix p' s'
  end.
Fixpoint replace_all (skip : nat) (old new s : text) : text :=
  match s with
  | [] => []
  | c :: s' =>
      match skip with
      | Datatypes.S k => replace_all k old new s'
      | O => if text_prefix old s then new ++ replace_all (length old - 1) old new s' else c :: replace_all 0 old new s'
      end
  end.
Definition ReplaceAll (s old new : text) : text := replace_all 0 old new s.

Definition GetValidNamespaceColumns : list string :=
  ["id"; "created_at"; "updated_at"; "name"; "cluster_id"; "owner"; "expiration"; "tenant_user_id"; "tenant_organisation_id"; "state"].

Section Listing.
Context {D : Type} `{ConnectorDB D} `{NamespaceQueries} (past_end : text -> Z -> result error text).
Abbreviation S A := (M (cworld D) ServiceError A).

(** The state is the column [status_phase]. *)
Definition state_column (q : DBQuery) : DBQuery :=
  mkDBQuery (ReplaceAll q.(Query) (runes "connector_namespaces.state") (runes "connector_namespaces.status_phase"))
    q.(Values) q.(ValidColumns) q.(ColumnPrefix).
Definition namespace_parser : DBQuery := NewQueryParserWithColumnPrefix (runes "connector_namespaces") (map runes GetValidNamespaceColumns).

Definition namespace_condition (search : string) : result ServiceError (ConnectorNamespace -> bool) :=
  if search =?s "" then Ok (fun _ => true)
  else match fst (Parse past_end namespace_parser (runes_of search)) with
       | Err err => Err (NewWithCause ErrorFailedToParseSearch (Some err) "Unable to list connector namespace requests: %s")
       | Ok q => Ok (ns_where (state_column q))
       end.

Definition namespace_order (listArgs : ListArguments) : list string :=
  match listArgs.(LA_OrderBy) with
  | [] => ["name ASC"]
  | l => map (fun o => String.string_of_list_ascii (map (fun z => ascii_of_N (Z.to_N z)) (ReplaceAll (runes o) (runes "state") (runes "status_phase")))) l
  end.

Definition ListNamespaces (clusterIDs : list string) (listArgs : ListArguments) (gtVersion : Z) : S (list ConnectorNamespace * PagingMeta) :=
  _ <~ lift (map_err (fun e => NewWithCause ErrorMalformedRequest (Some e) "Unable to list connector namespace requests: %s")
               (ListArguments_Validate listArgs GetValidNamespaceColumns)) ;;
  searched <~ lift (namespace_condition listArgs.(LA_Search)) ;;
  let p n := match clusterIDs with [] => true | _ => one_of clusterIDs n.(NS.ClusterId) end && searched n
             && ((gtVersion =? 0) || (gtVersion <? n.(NS.version))) in
  let failed (_ : error) := GeneralError "failed to get connector namespaces: %v" in
  total <~ wrap_err failed (value (fun t => affected p (live_namespaces t))) ;;
  let size := if total <? listArgs.(LA_Size) then total else listArgs.(LA_Size) in
  rows <~ wrap_err failed (value (fun t =>
    page_of (int64 ((listArgs.(LA_Page) - 1) * size)) size (ns_order (namespace_order listArgs) (List.filter p (live_namespaces t))))) ;;
  l <~ setConnectorsDeployed rows ;;
  ret (l, mkPagingMeta listArgs.(LA_Page) size total).
End Listing.

(** ** The handlers *)
Section Handlers.
Context {D : Type} `{ConnectorDB D} `{StateMachineLibrary} `{ConnectorAccounts} `{LabelSyntax} `{NamespaceQueries}.
Context (past_end : text -> Z -> result error text).
Context (connectorsConfig : ConnectorsConfig) (quotaConfig : ConnectorsQuotaConfig).
Abbreviation W := (cworld D).
Abbreviation S A := (M W ServiceError A).

(** *** Namespaces: [connector_namespace.go]

    [petname] is the generated part of a default name.  The annotations that the
    creation validates are those of the payload before it is decoded. *)
Definition generateNamespaceName (petname : string) : string := petname +:+ "-namespace".
Definition name_options (petname : string) : list (ValidateOption (W := W)) :=
  [WithDefault (generateNamespaceName petname); MaxLen maxConnectorNamespaceNameLength; Matches namespaceNamePattern].
Definition unread_annotations : list Annotation := [].

Definition tenant_kinds : list string := [CONNECTORNAMESPACETENANTKIND_USER; CONNECTORNAMESPACETENANTKIND_ORGANISATION].

Definition namespace_Create_action (user : ValidationUser) (newID : string) (resource : ConnectorNamespaceRequest) : S NamespaceView :=
  if negb (one_of tenant_kinds resource.(NR_Kind))
  then throw (HandleCreateError (EService (MinimumFieldLengthNotReached "%s is not valid. Must be one of: [%s, %s]")))
  else if (resource.(NR_Kind) =?s CONNECTORNAMESPACETENANTKIND_ORGANISATION) && negb (IsOrgAdmin user) then throw unauthorizedError
  else
    convResource <~ lift (ConvertConnectorNamespaceRequest newID resource (UserId user) (OrgId user)) ;;
    row <~ Create quotaConfig convResource ;;
    ret (PresentConnectorNamespace quotaConfig row).

Definition namespace_Create (r : Request ConnectorNamespaceRequest) (petname newID : string) : S (Z * NamespaceView) :=
  let user := GetValidationUser r.(req_ctx) in
  HandleBody r.(req_body)
    [ field_check "name" NR_Name (fun v p => mkConnectorNamespaceRequest v p.(NR_Annotations) p.(NR_ClusterId) p.(NR_Kind)) (name_options petname);
      field_check "cluster_id" NR_ClusterId (fun v p => mkConnectorNamespaceRequest p.(NR_Name) p.(NR_Annotations) v p.(NR_Kind))
        [MinLen 1; MaxLen maxConnectorClusterIdLength; AuthorizedClusterUser user];
      plain_check (lift (validateCreateAnnotations unread_annotations)) ]
    (namespace_Create_action user newID) StatusCreated.

Definition namespace_CreateEvaluation (Intn : nat -> nat) (r : Request ConnectorNamespaceEvalRequest) (petname newID : string) : S (Z * NamespaceView) :=
  let user := GetValidationUser r.(req_ctx) in
  HandleBody r.(req_body)
    [ field_check "name" NE_Name (fun v p => mkConnectorNamespaceEvalRequest v p.(NE_Annotations)) (name_options petname);
      plain_check (lift (validateCreateAnnotations unread_annotations));
      plain_check (AuthorizedCreateEvalNamespace connectorsConfig user) ]
    (fun resource =>
      claims <~ lift (GetUser r.(req_ctx)) ;;
      let convResource := ConvertConnectorNamespaceEvalRequest newID resource.(NE_Name) resource.(NE_Annotations) (value_or_zero (GetUsername claims)) in
      convResource <~ SetEvalClusterId connectorsConfig quotaConfig Intn convResource ;;
      row <~ Create quotaConfig convResource ;;
      ret (PresentConnectorNamespace quotaConfig row)) StatusCreated.

Definition namespace_id_check {Body} (id : string) (option : ValidateOption (W := W)) : Check W Body :=
  path_check "connector_namespace_id" id [MinLen 1; MaxLen maxConnectorNamespaceIdLength; option].

Definition namespace_Get (r : Request unit) : S (Z * NamespaceView) :=
  HandleNoBody [namespace_id_check r.(req_id) (AuthorizedNamespaceUser (GetValidationUser r.(req_ctx)) ErrorNotFound)]
    (n <~ Get r.(req_id) ;; ret (PresentConnectorNamespace quotaConfig n)) StatusOK.

(** The row with the fields of the patch, when the patch has any. *)
Definition patched_namespace (resource : ConnectorNamespacePatchRequest) (existing : ConnectorNamespace) : option ConnectorNamespace :=
  if (resource.(NP_Name) =?s "") && match resource.(NP_Annotations) with [] => true | _ => false end then None
  else
    let n := if resource.(NP_Name) =?s "" then existing else existing <| NS.Name := resource.(NP_Name) |> in
    Some (match resource.(NP_Annotations) with [] => n | l => n <| NS.Annotations := l |> end).

Definition namespace_Update_action (id : string) (resource : ConnectorNamespacePatchRequest) : S unit :=
  existing <~ Get id ;;
  _ <~ lift (validatePatchAnnotations resource.(NP_Annotations) (PresentAnnotations existing.(NS.Annotations))) ;;
  match patched_namespace resource existing with
  | None => ret tt
  | Some n => _ <~ Update n ;; ret tt
  end.
Definition namespace_Update (r : Request ConnectorNamespacePatchRequest) : S (Z * unit) :=
  HandleBody r.(req_body) [namespace_id_check r.(req_id) (AuthorizedNamespaceAdmin (GetValidationUser r.(req_ctx)))]
    (namespace_Update_action r.(req_id)) StatusNoContent.

Definition namespace_Delete (r : Request unit) : S (Z * unit) :=
  HandleNoBody [namespace_id_check r.(req_id) (AuthorizedNamespaceAdmin (GetValidationUser r.(req_ctx)))] (Delete r.(req_id)) StatusNoContent.

(** The search that the listing runs for the caller. *)
Definition tenant_search (userId organisationId search : string) : string :=
  let userQuery := "tenant_user_id = '" +:+ userId +:+ "' OR tenant_organisation_id = '" +:+ organisationId +:+ "'" in
  if search =?s "" then userQuery else search +:+ " AND (" +:+ userQuery +:+ ")".

Definition presented_list {A B} (present : A -> B) (found : list A * PagingMeta) : list B * PagingMeta :=
  let p := snd found in (map present (fst found), mkPagingMeta (int32 p.(PM_Page)) (int32 p.(PM_Size)) (int32 p.(PM_Total))).

Definition namespace_List (r : Request unit) : S (Z * (list NamespaceView * PagingMeta)) :=
  HandleNoBody [] (
    let a := NewListArguments r.(req_query) in
    claims <~ lift (GetUser r.(req_ctx)) ;;
    let search := tenant_search (value_or_zero (GetUsername claims)) (value_or_zero (GetOrgId claims)) a.(LA_Search) in
    found <~ ListNamespaces past_end [] (mkListArguments a.(LA_Page) a.(LA_Size) a.(LA_Preloads) search a.(LA_OrderBy)) 0 ;;
    ret (presented_list (PresentConnectorNamespace quotaConfig) found)) StatusOK.

(** *** Clusters: [connector_cluster.go] *)
Definition addSystemAnnotations (annotations : list Annotation) (user : ValidationUser) : list Annotation :=
  set_annotation ConnectorClusterOrgIdAnnotation (OrgId user) annotations.

(** A failed creation asks the identity provider to remove the account; an error
    of that is only logged. *)
Definition cluster_Create (r : Request ConnectorClusterRequest) (newID namespaceID : string) : S (Z * ClusterView) :=
  let user := GetValidationUser r.(req_ctx) in
  HandleBody r.(req_body)
    [ field_check "name" CQ_Name (fun v p => mkConnectorClusterRequest v p.(CQ_Annotations))
        [WithDefault "New Cluster"; MinLen 1; MaxLen maxConnectorClusterNameLength];
      plain_check (lift (validateCreateAnnotations unread_annotations));
      plain_check (AuthorizedOrgAdmin user) ]
    (fun resource =>
      let resource := mkConnectorClusterRequest resource.(CQ_Name) (addSystemAnnotations resource.(CQ_Annotations) user) in
      let convResource := ConvertConnectorClusterRequest newID resource (UserId user) (OrgId user) in
      acc <~ lift (map_err (fun _ => GeneralError "failed to create service account for connector cluster %s due to error: %v")
                     (register_account convResource.(CC.ID))) ;;
      let convResource := convResource <| CC.ClientId := fst acc |> <| CC.ClientSecret := snd acc |> in
      created <~ attempt (CreateCluster quotaConfig namespaceID convResource) ;;
      match created with
      | Err e => _ <~ DeleteServiceAccountInternal convResource.(CC.ClientId) ;; throw e
      | Ok _ => ret (PresentConnectorCluster convResource)
      end) StatusAccepted.

Definition cluster_id_check {Body} (id : string) (options : list (ValidateOption (W := W))) : Check W Body :=
  path_check "connector_cluster_id" id ([MinLen 1; MaxLen maxConnectorClusterIdLength] ++ options).

Definition cluster_Get (r : Request unit) : S (Z * ClusterView) :=
  HandleNoBody [cluster_id_check r.(req_id) [AuthorizedClusterUser (GetValidationUser r.(req_ctx))]]
    (c <~ GetCluster r.(req_id) ;; ret (PresentConnectorCluster c)) StatusOK.

Definition cluster_Update_action (id : string) (resource : ConnectorClusterRequest) : S unit :=
  existing <~ GetCluster id ;;
  match resource.(CQ_Annotations) with
  | [] => throw (BadRequest "annotations cannot be nil/empty.")
  | annotations =>
      _ <~ lift (validatePatchAnnotations annotations (PresentAnnotations existing.(CC.Annotations))) ;;
      UpdateCluster (existing <| CC.Name := resource.(CQ_Name) |> <| CC.Annotations := annotations |>)
  end.
Definition cluster_Update (r : Request ConnectorClusterRequest) : S (Z * unit) :=
  HandleBody r.(req_body)
    [ cluster_id_check r.(req_id) [AuthorizedClusterAdmin (GetValidationUser r.(req_ctx))];
      field_check "name" CQ_Name (fun v p => mkConnectorClusterRequest v p.(CQ_Annotations)) [MinLen 1; MaxLen maxConnectorClusterNameLength] ]
    (cluster_Update_action r.(req_id)) StatusNoContent.

Definition cluster_Delete (r : Request unit) : S (Z * unit) :=
  HandleNoBody [cluster_id_check r.(req_id) [AuthorizedClusterAdmin (GetValidationUser r.(req_ctx))]] (DeleteClusterById r.(req_id)) StatusNoContent.

Definition cluster_GetNamespaces (r : Request unit) : S (Z * (list NamespaceView * PagingMeta)) :=
  HandleNoBody [cluster_id_check r.(req_id) [AuthorizedClusterUser (GetValidationUser r.(req_ctx))]]
    (found <~ ListNamespaces past_end [r.(req_id)] (NewListArguments r.(req_query)) 0 ;;
     ret (presented_list (PresentConnectorNamespace quotaConfig) found)) StatusOK.

(** *** Agents: [connector_agent.go] *)
(** Every element is tried; the errors are collected. *)
Fixpoint collect {A} (f : A -> S unit) (l : list A) : S (list ServiceError) :=
  match l with
  | [] => ret []
  | a :: l' =>
      r <~ attempt (f a) ;;
      errs <~ collect f l' ;;
      ret (match r with Ok _ => errs | Err e => e :: errs end)
  end.

Definition Notify_now (signal : string) : S unit := fun w =>
  (Ok tt, mkCworld w.(cdb) w.(postCommitActions) (w.(signals) ++ [signal]) w.(purged) w.(removed_accounts) w.(lastVersion)).

Definition CONNECTOR_MGMT_ERROR_CODE_PREFIX : string := "CONNECTOR-MGMT".
Definition consolidated (errs : list ServiceError) : ServiceError :=
  GeneralError (String.string_of_list_ascii (map (fun z => ascii_of_N (Z.to_N z))
    (ReplaceAll (runes (Join (map Error errs) ";")) (runes ERROR_CODE_PREFIX) (runes CONNECTOR_MGMT_ERROR_CODE_PREFIX)))).

(** The namespaces that the report does not mention are gone from the cluster. *)
Definition unreported (reports : list NamespaceReport) (n : ConnectorNamespace) : bool := negb (one_of (map NR_Id reports) n.(NS.ID)).

Definition agent_report_action (id : string) (resource : ClusterReport) : S unit :=
  _ <~ UpdateConnectorClusterStatus id (ConvertConnectorClusterStatus resource) ;;
  namespaceList <~ GetEmptyDeletingNamespaces id ;;
  errs1 <~ collect (fun s => UpdateConnectorNamespaceStatus s.(NR_Id) (ConvertConnectorNamespaceDeploymentStatus s)) resource.(RC_Namespaces) ;;
  errs2 <~ match List.filter (unreported resource.(RC_Namespaces)) namespaceList with
           | [] => ret []
           | deletingNamespaces =>
               errs <~ collect (fun n => _ <~ Update (NS.with_phase ConnectorNamespacePhaseDeleted n) ;; ret tt) deletingNamespaces ;;
               _ <~ Notify_now "reconcile:connector_namespace" ;;
               ret errs
           end ;;
  match errs1 ++ errs2 with [] => ret tt | errs => throw (consolidated errs) end.

Definition agent_UpdateConnectorClusterStatus (r : Request ClusterReport) : S (Z * unit) :=
  HandleBody r.(req_body)
    [ cluster_id_check r.(req_id) [validateConnectorClusterId];
      field_check "phase" RC_Phase
        (fun v p => mkClusterReport v p.(RC_Version) p.(RC_Conditions) p.(RC_Platform) p.(RC_Operators) p.(RC_Namespaces))
        [IsOneOf AgentRequestConnectorClusterStatus] ]
    (agent_report_action r.(req_id)) StatusNoContent.

(** The identifier of the request is the one of the cluster. *)
Definition doGetNamespace (present : ConnectorNamespace -> NamespaceView) (r : Request unit) (namespaceId : string) : S (Z * NamespaceView) :=
  HandleNoBody
    [ cluster_id_check r.(req_id) [validateConnectorClusterId];
      path_check "namespace_id" namespaceId [MinLen 1; MaxLen maxConnectorNamespaceIdLength] ]
    (n <~ Get namespaceId ;;
     if negb (n.(NS.ClusterId) =?s r.(req_id)) then throw (NotFound "Connector namespace %s not found")
     else ret (present n)) StatusOK.
Definition agent_GetNamespace : Request unit -> string -> S (Z * NamespaceView) := doGetNamespace (PresentConnectorNamespace quotaConfig).
Definition agent_GetAgentNamespace : Request unit -> string -> S (Z * NamespaceView) :=
  doGetNamespace (PresentConnectorNamespaceDeployment quotaConfig).

(** [strconv.ParseInt(v, 10, 0)] with its error ignored. *)
Definition gt_version (query : string -> string) : Z := if query "gt_version" =?s "" then 0 else Atoi (query "gt_version").
Definition agent_GetAgentNamespaces (r : Request unit) : S (Z * (list NamespaceView * PagingMeta)) :=
  HandleNoBody [cluster_id_check r.(req_id) [validateConnectorClusterId]]
    (found <~ ListNamespaces past_end [r.(req_id)] (NewListArguments r.(req_query)) (gt_version r.(req_query)) ;;
     ret (presented_list (PresentConnectorNamespaceDeployment quotaConfig) found)) StatusOK.

Definition agent_UpdateDeploymentStatus (r : Request DeploymentReport) (deploymentId : string) : S (Z * unit) :=
  HandleBody r.(req_body)
    [ cluster_id_check r.(req_id) [validateConnectorClusterId];
      path_check "deployment_id" deploymentId [MinLen 1; MaxLen maxConnectorIdLength];
      field_check "phase" RD_Phase
        (fun v p => mkDeploymentReport v p.(RD_ResourceVersion) p.(RD_Assigned) p.(RD_Available) p.(RD_conditions) p.(RD_operators))
        [IsOneOf AgentConnectorStatusPhase] ]
    (fun resource =>
      let s := ConvertConnectorDeploymentStatus resource in
      UpdateConnectorDeploymentStatus (CDS.mkConnectorDeploymentStatus deploymentId s.(CDS.Deleted) s.(CDS.Phase) s.(CDS.Version)
        s.(CDS.Conditions) s.(CDS.Operators) s.(CDS.UpgradeAvailable))) StatusNoContent.

Definition agent_UpdateNamespaceStatus (r : Request NamespaceReport) (namespaceId : string) : S (Z * unit) :=
  HandleBody r.(req_body)
    [ cluster_id_check r.(req_id) [validateConnectorClusterId];
      path_check "namespace_id" namespaceId [MinLen 1; MaxLen maxConnectorNamespaceIdLength] ]
    (fun resource => UpdateConnectorNamespaceStatus namespaceId (ConvertConnectorNamespaceDeploymentStatus resource)) StatusNoContent.

(** *** Connectors: [connectors.go] *)
Definition stateToOperationsMap : list (string * string) :=
  [(ConnectorUnassigned, UnassignConnector); (ConnectorReady, AssignConnector); (ConnectorStopped, StopConnector)].

Definition getOperation (current patched : string) : result ServiceError string :=
  match map_lookup stateToOperationsMap patched with
  | None => Err (BadRequest "Unsupported patch desired state %s")
  | Some operation =>
      Ok (if patched =?s current then UpdateConnector
          else if (operation =?s AssignConnector) && (current =?s ConnectorStopped) then RestartConnector else operation)
  end.

(** The connector, with what the operation makes of it. *)
Definition ValidateConnectorOperation (connector : Connector) (operation : string) (updatePhase : list (Connector -> S unit)) : S Connector :=
  match connector.(CO.NamespaceId) with
  | Some id =>
      namespace <~ Get id ;;
      p <~ PerformConnectorOperation namespace connector operation updatePhase ;;
      ret (snd p)
  | None =>
      if one_of [CreateConnector; UpdateConnector; DeleteConnector] operation then ret connector
      else throw (Errors.Validation "Invalid operation %s for connector with id %s in state %s")
  end.

(** The fields that a patch may not change. *)
Record Immutable := mkImmutable { Im_ConnectorTypeId : string; Im_NamespaceId : string; Im_Channel : string }.
Definition validateConnectorImmutableProperties (patch originalResource : Immutable) : result ServiceError unit :=
  let changed get name := if get patch =?s get originalResource then [] else [name] in
  match changed Im_ConnectorTypeId "connector_type_id" ++ changed Im_NamespaceId "namespace_id" ++ changed Im_Channel "channel" with
  | [] => Ok tt
  | _ =>
      let e := BadRequest "An attempt was made to modify one or more immutable field(s): %s" in
      Err (mkServiceError e.(Code) e.(Reason) 409 e.(cause) e.(recoverable))
  end.

Definition save_connector (ctx : RequestContext) (c : Connector) : S unit :=
  _ <~ SaveStatus c.(CO.Status) ;; _ <~ UpdateConnectorRow c ;; ret tt.
Definition HandleConnectorDelete (ctx : RequestContext) (connectorId : string) : S unit :=
  c <~ GetConnector ctx connectorId ;;
  match c.(CO.NamespaceId) with
  | Some _ => _ <~ ValidateConnectorOperation c DeleteConnector [save_connector ctx] ;; ret tt
  | None => save_connector ctx ((CO.with_phase ConnectorStatusPhaseDeleted c) <| CO.DesiredState := ConnectorDeleted |>)
  end.

Definition connector_id_check {Body} (id : string) : Check W Body := path_check "connector_id" id [MinLen 1; MaxLen maxConnectorIdLength].
Definition connector_Delete (r : Request unit) : S (Z * unit) :=
  HandleNoBody [connector_id_check r.(req_id)] (HandleConnectorDelete r.(req_ctx) r.(req_id)) StatusNoContent.

(** *** Administrators: [connector_admin.go] *)
Definition parseBoolParam (s : string) : bool := one_of ["1"; "t"; "T"; "TRUE"; "true"; "True"] s.
Definition isEvalOrg (id : string) : bool := one_of connectorsConfig.(ConnectorEvalOrganizations) id.

Definition admin_GetConnectorCluster (r : Request unit) : S (Z * ClusterAdminView) :=
  HandleNoBody [cluster_id_check r.(req_id) []] (c <~ GetCluster r.(req_id) ;; ret (PresentPrivateConnectorCluster c)) StatusOK.
Definition admin_GetClusterNamespaces (r : Request unit) : S (Z * (list NamespaceView * PagingMeta)) :=
  HandleNoBody [cluster_id_check r.(req_id) []]
    (found <~ ListNamespaces past_end [r.(req_id)] (NewListArguments r.(req_query)) 0 ;;
     ret (presented_list (PresentPrivateConnectorNamespace quotaConfig) found)) StatusOK.
Definition admin_GetConnectorNamespaces (r : Request unit) : S (Z * (list NamespaceView * PagingMeta)) :=
  HandleNoBody []
    (found <~ ListNamespaces past_end [] (NewListArguments r.(req_query)) 0 ;;
     ret (presented_list (PresentPrivateConnectorNamespace quotaConfig) found)) StatusOK.
Definition admin_GetConnectorNamespace (r : Request unit) : S (Z * NamespaceView) :=
  HandleNoBody [path_check "namespace_id" r.(req_id) [MinLen 1; MaxLen maxConnectorNamespaceIdLength]]
    (n <~ Get r.(req_id) ;; ret (PresentPrivateConnectorNamespace quotaConfig n)) StatusOK.

Definition admin_create_action (Intn : nat -> nat) (parse_time : string -> result error Z) (ctx : RequestContext) (newID : string)
    (resource : ConnectorNamespaceWithTenantRequest) : S NamespaceView :=
  n <~ lift (ConvertConnectorNamespaceWithTenantRequest parse_time newID resource) ;;
  n <~ match n.(NS.TenantUserId) with
       | Some user =>
           let n := NS.mkConnectorNamespace n.(NS.ID) n.(NS.Deleted) n.(NS.Name) n.(NS.ClusterId) user n.(NS.version) n.(NS.Expiration)
                      n.(NS.Annotations) n.(NS.TenantUserId) n.(NS.TenantOrganisationId) n.(NS.status) in
           clusterOrgId <~ GetClusterOrg n.(NS.ClusterId) ;;
           if match n.(NS.Expiration) with Some _ => true | None => false end && isEvalOrg clusterOrgId then
             _ <~ CanCreateEvalNamespace connectorsConfig n.(NS.Owner) ;;
             if n.(NS.ClusterId) =?s "" then SetEvalClusterId connectorsConfig quotaConfig Intn n else ret n
           else ret n
       | None =>
           claims <~ lift (GetUser ctx) ;;
           ret (NS.mkConnectorNamespace n.(NS.ID) n.(NS.Deleted) n.(NS.Name) n.(NS.ClusterId) (value_or_zero (GetUsername claims)) n.(NS.version)
                  n.(NS.Expiration) n.(NS.Annotations) n.(NS.TenantUserId) n.(NS.TenantOrganisationId) n.(NS.status))
       end ;;
  row <~ Create quotaConfig n ;;
  ret (PresentPrivateConnectorNamespace quotaConfig row).
Definition admin_CreateConnectorNamespace (Intn : nat -> nat) (parse_time : string -> result error Z)
    (r : Request ConnectorNamespaceWithTenantRequest) (petname newID : string) : S (Z * NamespaceView) :=
  let with_name v p := mkConnectorNamespaceWithTenantRequest v p.(NT_Annotations) p.(NT_ClusterId) p.(NT_Expiration) p.(NT_TenantKind) p.(NT_TenantId) in
  let with_cluster v p := mkConnectorNamespaceWithTenantRequest p.(NT_Name) p.(NT_Annotations) v p.(NT_Expiration) p.(NT_TenantKind) p.(NT_TenantId) in
  HandleBody r.(req_body)
    [ field_check "name" NT_Name with_name (name_options petname);
      field_check "cluster_id" NT_ClusterId with_cluster [MinLen 1; MaxLen maxConnectorClusterIdLength] ]
    (admin_create_action Intn parse_time r.(req_ctx) newID) StatusCreated.

Definition admin_DeleteConnectorNamespace (r : Request unit) : S (Z * unit) :=
  HandleNoBody [path_check "namespace_id" r.(req_id) [MinLen 1; MaxLen maxConnectorNamespaceIdLength]]
    (if parseBoolParam (r.(req_query) "force") then
       namespace <~ Get r.(req_id) ;;
       UpdateConnectorNamespaceStatus r.(req_id) (namespace.(NS.status) <| NS.Phase := ConnectorNamespacePhaseDeleted |>)
     else Delete r.(req_id)) StatusNoContent.

Definition admin_DeleteConnector (r : Request unit) : S (Z * unit) :=
  HandleNoBody [connector_id_check r.(req_id)]
    (if parseBoolParam (r.(req_query) "force") then ForceDelete r.(req_id) else HandleConnectorDelete r.(req_ctx) r.(req_id)) StatusNoContent.
End Handlers.

(** ** Checks only read *)
Create HintDb reading.
Section Reading.
Context {D : Type} `{ConnectorDB D}.
Abbreviation W := (cworld D).

Definition reads {E A} (m : M W E A) : Prop := forall w r w', m w = (r, w') -> tables_in w' = tables_in w.

Lemma reads_ret {E A} (a : A) : reads (ret a : M W E A).
Proof. by intros w r w' [= _ <-]. Qed.
Lemma reads_throw {E A} (e : E) : reads (throw e : M W E A).
Proof. by intros w r w' [= _ <-]. Qed.
Lemma reads_lift {E A} (r : result E A) : reads (lift r : M W E A).
Proof. by intros w r' w' [= _ <-]. Qed.
Lemma reads_bind {E A B} (m : M W E A) (k : A -> M W E B) : reads m -> (forall a, reads (k a)) -> reads (bind m k).
Proof.
  intros Hm Hk w r w'. unfold bind. destruct (m w) as [[a|e] w1] eqn:Em; apply Hm in Em.
  - intros Hr%Hk. congruence.
  - by intros [= _ <-].
Qed.
Lemma reads_wrap {E E' A} (f : E -> E') (m : M W E A) : reads m -> reads (wrap_err f m).
Proof. intros Hm w r w'. unfold wrap_err. destruct (m w) as [x w1] eqn:Em. intros [= _ <-]. by eapply Hm. Qed.
Lemma reads_select {R} (q : ctables -> list R) : reads (select q).
Proof. intros w [l|e] w' Hr; [by apply select_ok in Hr as (_ & ? & _) | by apply select_err in Hr as [? _]]. Qed.
Lemma reads_value {A} (q : ctables -> A) : reads (value q).
Proof. intros w [l|e] w' Hr; [by apply value_ok in Hr as (_ & ? & _) | by apply value_err in Hr as [? _]]. Qed.
Lemma reads_first {R} (q : ctables -> list R) : reads (first q).
Proof. intros w [l|e] w' Hr; [by apply first_ok in Hr as (_ & ? & _) | by apply first_err in Hr as [? _]]. Qed.
Lemma reads_if {E A} (b : bool) (m n : M W E A) : reads m -> reads n -> reads (if b then m else n).
Proof. by destruct b. Qed.
End Reading.
#[export] Hint Resolve reads_ret reads_throw reads_lift reads_bind reads_wrap reads_select reads_value reads_first reads_if : reading.

Ltac solve_reads :=
  repeat first
    [ progress intros
    | solve [eauto with reading]
    | apply reads_bind | apply reads_wrap | apply reads_if
    | match goal with |- reads (match ?x with _ => _ end) => destruct x end ].

Section ReadingChecks.
Context {D : Type} `{ConnectorDB D} `{ConnectorAccounts}.
Context (connectorsConfig : ConnectorsConfig) (quotaConfig : ConnectorsQuotaConfig).
Abbreviation W := (cworld D).

Lemma reads_tenant id : reads (GetNamespaceTenant (D := D) id).
Proof. unfold GetNamespaceTenant. solve_reads. Qed.
Lemma reads_org id : reads (GetClusterOrg (D := D) id).
Proof. unfold GetClusterOrg. solve_reads. Qed.
Lemma reads_cluster id : reads (GetCluster (D := D) id).
Proof. unfold GetCluster. solve_reads. Qed.
Lemma reads_Get id : reads (Get (D := D) id).
Proof. unfold Get, setConnectorsDeployed. solve_reads. Qed.
Lemma reads_quota id : reads (CheckConnectorQuota (D := D) quotaConfig id).
Proof. unfold CheckConnectorQuota. solve_reads. Qed.
Lemma reads_eval id : reads (CanCreateEvalNamespace (D := D) connectorsConfig id).
Proof. unfold CanCreateEvalNamespace. solve_reads. Qed.
End ReadingChecks.
#[export] Hint Resolve reads_tenant reads_org reads_cluster reads_Get reads_quota reads_eval : reading.

Section Frame.
Context {D : Type} `{ConnectorDB D} `{ConnectorAccounts}.
Abbreviation W := (cworld D).
Abbreviation S A := (M W ServiceError A).

Definition option_reads (o : ValidateOption (W := W)) : Prop := forall f v, reads (o f v).
Lemma Validation_reads field value options : Forall option_reads options -> reads (Validation field value options : S string).
Proof.
  intros Hall. revert value. induction Hall as [|o options Ho _ IH]; intros value; simpl; [apply reads_ret|].
  apply reads_bind; [apply Ho | exact IH].
Qed.

Lemma path_check_reads {Body} field value options p : Forall option_reads options -> reads (path_check (Body := Body) field value options p : S Body).
Proof. intros. apply reads_bind; [by apply Validation_reads|]. intros. apply reads_ret. Qed.

Lemma MinLen_reads n : option_reads (MinLen n).
Proof. intros f v. unfold MinLen. solve_reads. Qed.
Lemma MaxLen_reads n : option_reads (MaxLen n).
Proof. intros f v. unfold MaxLen. solve_reads. Qed.

Lemma MinLen_ok n f v v' (w w' : W) : MinLen n f v w = (Ok v', w') -> v' = v /\ w' = w /\ n <= len v.
Proof. unfold MinLen. destruct (len v <? n) eqn:E; [done|]. intros [= -> ->]. split; [done|]. split; [done|]. lia. Qed.
Lemma MaxLen_ok n f v v' (w w' : W) : MaxLen n f v w = (Ok v', w') -> v' = v /\ w' = w /\ len v <= n.
Proof. unfold MaxLen. destruct (n <? len v) eqn:E; [done|]. intros [= -> ->]. split; [done|]. split; [done|]. lia. Qed.

(** An identifier of the path that passes its bounds and one more option. *)
Lemma id_check_ok {Body} field id max (o : ValidateOption (W := W)) (p p' : Body) w w' :
  path_check field id [MinLen 1; MaxLen max; o] p w = (Ok p', w') ->
  p' = p /\ id <> "" /\ exists v, o field id w = (Ok v, w').
Proof.
  unfold path_check, Validation. intros Hrun. apply bind_ok in Hrun as (v & w1 & Hrun & Hp). injection Hp as <- <-.
  apply bind_ok in Hrun as (v1 & w2 & H1 & Hrun). apply MinLen_ok in H1 as (-> & -> & Hmin).
  apply bind_ok in Hrun as (v2 & w3 & H2 & Hrun). apply MaxLen_ok in H2 as (-> & -> & _).
  apply bind_ok in Hrun as (v3 & w4 & H3 & Hrun). injection Hrun as <- <-.
  split; [done|]. split; [|eauto]. intros ->. unfold len in Hmin. simpl in Hmin. lia.
Qed.

(** The checks in front of an action stop the request, and then nothing is
    written, or let it pass. *)
Definition checks_read {Body} (checks : list (Check W Body)) : Prop := Forall (fun c => forall p, reads (c p)) checks.

Lemma run_checks_reads {Body} (checks : list (Check W Body)) p : checks_read checks -> reads (run_checks checks p).
Proof.
  intros Hall. revert p. induction Hall as [|c checks Hc _ IH]; intros p; simpl; [apply reads_ret|].
  apply reads_bind; [apply Hc | exact IH].
Qed.

Lemma guarded {Body A} (body : result error Body) (checks : list (Check W Body)) (action : Body -> S A) status w r w' :
  checks_read checks -> HandleBody body checks action status w = (r, w') ->
  (tables_in w' = tables_in w /\ exists e, r = Err e) \/
  exists p p' w1, body = Ok p /\ run_checks checks p w = (Ok p', w1) /\ tables_in w1 = tables_in w /\
    exists r', action p' w1 = (r', w') /\ r = match r' with Ok a => Ok (status, a) | Err e => Err e end.
Proof.
  intros Hc Hrun. unfold HandleBody, bind at 1, lift in Hrun. destruct body as [p|e]; simpl in Hrun; [|left; injection Hrun as <- <-; eauto].
  unfold respond, bind, ret in Hrun.
  destruct (run_checks checks p w) as [[p'|e] w1] eqn:Ec; pose proof (run_checks_reads _ _ Hc _ _ _ Ec) as Ht.
  - right. exists p, p', w1. split_and!; try done. destruct (action p' w1) as [[a|e] w2] eqn:Ea; injection Hrun as <- <-; eauto.
  - left. injection Hrun as <- <-. eauto.
Qed.

Lemma run_one {Body} (c : Check W Body) p w p' w' : run_checks [c] p w = (Ok p', w') -> c p w = (Ok p', w').
Proof. simpl. intros (p1 & w1 & Hc & Hr)%bind_ok. by injection Hr as <- <-. Qed.
End Frame.
#[export] Hint Resolve MinLen_reads MaxLen_reads : reading.

(** ** Tenancy of namespaces *)
Section Tenancy.
Context {D : Type} `{ConnectorDB D} `{StateMachineLibrary} `{ConnectorAccounts} `{LabelSyntax} `{NamespaceQueries}.
Context (quotaConfig : ConnectorsQuotaConfig).
Abbreviation W := (cworld D).

(** The caller is the user that a namespace belongs to, or an administrator of
    the organisation that it belongs to. *)
Definition administers (ctx : RequestContext) (n : ConnectorNamespace) : Prop :=
  exists claims, ctx.(rc_claims) = Ok claims /\
    (forall u, n.(NS.TenantUserId) = Some u -> value_or_zero (GetUsername claims) = u) /\
    (forall o, n.(NS.TenantOrganisationId) = Some o -> value_or_zero (GetOrgId claims) = o /\ Claims_IsOrgAdmin claims = true).

Lemma authenticated_ok {A} ctx (m : M W ServiceError A) w a w' : authenticated_or (GetValidationUser ctx) m w = (Ok a, w') ->
  exists claims, ctx.(rc_claims) = Ok claims /\ m w = (Ok a, w').
Proof.
  unfold authenticated_or, GetValidationUser. simpl. destruct (rc_claims ctx) as [c|e]; [|done]. eauto.
Qed.

Lemma namespace_admin_ok ctx f id w v w' : AuthorizedNamespaceAdmin (GetValidationUser ctx) f id w = (Ok v, w') ->
  exists n, n ∈ (tables_in w).(namespaces) /\ n.(NS.ID) = id /\ administers ctx n.
Proof.
  intros Hrun. apply authenticated_ok in Hrun as (claims & Hc & Hrun). apply bind_ok in Hrun as (n & w1 & Hn & Hrun).
  unfold GetNamespaceTenant in Hn. apply bind_ok in Hn as (row & w2 & Hrow & Hn). injection Hn as <- <-.
  apply wrap_err_ok, first_ok in Hrow as (Hrow & _). apply list_elem_of_In, filter_In in Hrow as [Hrow Hid].
  apply String.eqb_eq in Hid. exists row. split; [by apply list_elem_of_In|]. split; [done|]. exists claims. split; [done|].
  simpl in Hrun. unfold differs in Hrun.
  assert (UserId (GetValidationUser ctx) = value_or_zero (GetUsername claims)) as Hu by (unfold UserId, GetValidationUser, claims_or_none; by rewrite Hc).
  assert (OrgId (GetValidationUser ctx) = value_or_zero (GetOrgId claims)) as Ho by (unfold OrgId, GetValidationUser, claims_or_none; by rewrite Hc).
  assert (IsOrgAdmin (GetValidationUser ctx) = Claims_IsOrgAdmin claims) as Ha by (unfold IsOrgAdmin, GetValidationUser, claims_or_none; by rewrite Hc).
  rewrite Hu, Ho, Ha in Hrun. split.
  - intros u Eu. rewrite Eu in Hrun. destruct (value_or_zero (GetUsername claims) =?s u) eqn:E; [by apply String.eqb_eq in E | done].
  - intros o Eo. rewrite Eo in Hrun. destruct (match NS.TenantUserId row with Some _ => _ | None => _ end); [done|].
    destruct (Claims_IsOrgAdmin claims); [|done]. simpl in Hrun. destruct (_ =?s o) eqn:E; [by apply String.eqb_eq in E | done].
Qed.

Lemma namespace_admin_reads u : option_reads (D := D) (AuthorizedNamespaceAdmin u).
Proof. intros f v. unfold AuthorizedNamespaceAdmin, authenticated_or. solve_reads. Qed.
Lemma cluster_admin_reads u : option_reads (D := D) (AuthorizedClusterAdmin u).
Proof. intros f v. unfold AuthorizedClusterAdmin, authenticated_or. solve_reads. Qed.

Lemma namespace_guard_reads {Body} id u p : reads (namespace_id_check (D := D) (Body := Body) id (AuthorizedNamespaceAdmin u) p).
Proof. apply path_check_reads. repeat constructor; auto using MinLen_reads, MaxLen_reads, namespace_admin_reads. Qed.

(** [C16] A request to change or to delete a namespace writes nothing unless the
    caller is authenticated and administers the namespace named in the path: its
    user, when it belongs to a user, and an administrator of its organisation,
    when it belongs to an organisation. *)
Theorem namespace_changed_only_by_its_tenant (update : Request ConnectorNamespacePatchRequest) (delete : Request unit) w :
  (forall r w', namespace_Update update w = (r, w') ->
     tables_in w' = tables_in w \/
     exists n, n ∈ (tables_in w).(namespaces) /\ n.(NS.ID) = update.(req_id) /\ administers update.(req_ctx) n) /\
  (forall r w', namespace_Delete delete w = (r, w') ->
     tables_in w' = tables_in w \/
     exists n, n ∈ (tables_in w).(namespaces) /\ n.(NS.ID) = delete.(req_id) /\ administers delete.(req_ctx) n).
Proof.
  split; intros r w' Hrun; [|apply (guarded (Ok tt)) in Hrun; [|repeat constructor; intros; apply namespace_guard_reads]];
    [apply guarded in Hrun; [|repeat constructor; intros; apply namespace_guard_reads]|];
    (destruct Hrun as [[Ht _]|(p & p' & w1 & _ & Hc%run_one & _)]; [by left|]);
    right; apply id_check_ok in Hc as (_ & _ & v & Hv); by eapply namespace_admin_ok.
Qed.

(** *** Clusters *)
Definition administers_cluster (ctx : RequestContext) (org : string) : Prop :=
  exists claims, ctx.(rc_claims) = Ok claims /\ value_or_zero (GetOrgId claims) = org /\ Claims_IsOrgAdmin claims = true.

Lemma cluster_admin_ok ctx f id w v w' c : AuthorizedClusterAdmin (GetValidationUser ctx) f id w = (Ok v, w') ->
  NoDup (map CC.ID (tables_in w).(cclusters)) -> c ∈ (tables_in w).(cclusters) -> c.(CC.ID) = id ->
  administers_cluster ctx c.(CC.OrganisationId).
Proof.
  intros Hrun Hnd Hin Hid. apply authenticated_ok in Hrun as (claims & Hc & Hrun). apply bind_ok in Hrun as (org & w1 & Hn & Hrun).
  unfold GetClusterOrg in Hn. apply bind_ok in Hn as (l & w2 & Hl & Hn). injection Hn as <- <-.
  apply wrap_err_ok, select_ok in Hl as (Hl & _).
  assert (default "" (head l) = c.(CC.OrganisationId)) as Horg.
  { destruct l as [|o l].
    - apply Permutation_nil_l, eq_sym, map_eq_nil in Hl. assert (c ∈ List.filter (cluster_id id) (tables_in w).(cclusters)) as Hf
        by (apply list_elem_of_In, filter_In; split; [by apply list_elem_of_In | by apply String.eqb_eq]).
      rewrite Hl in Hf. by apply not_elem_of_nil in Hf.
    - assert (o ∈ map CC.OrganisationId (List.filter (cluster_id id) (cclusters (tables_in w)))) as Ho by (rewrite <- Hl; left).
      apply list_elem_of_fmap in Ho as (c' & -> & Hcl). apply list_elem_of_In, filter_In in Hcl as [Hcl Hid'].
      apply String.eqb_eq in Hid'. apply list_elem_of_In in Hcl. simpl. by rewrite (unique_cluster _ _ _ Hnd Hcl Hin) by congruence. }
  rewrite Horg in Hrun. unfold OrgId, IsOrgAdmin, GetValidationUser, claims_or_none in Hrun. rewrite Hc in Hrun. simpl in Hrun.
  exists claims. split; [done|]. destruct (_ =?s _) eqn:E; [|done]. apply String.eqb_eq in E. by destruct (Claims_IsOrgAdmin claims).
Qed.

Lemma cluster_guard_reads {Body} id u p : reads (cluster_id_check (D := D) (Body := Body) id [AuthorizedClusterAdmin u] p).
Proof. apply path_check_reads. repeat constructor; auto using MinLen_reads, MaxLen_reads, cluster_admin_reads. Qed.
Lemma field_check_reads {Body} field get set options (p : Body) : Forall option_reads options ->
  reads (field_check field get set options p : M W ServiceError Body).
Proof. intros. apply reads_bind; [by apply Validation_reads|]. intros. apply reads_ret. Qed.

Lemma pick_self (s : string) : pick_string s s = s.
Proof. unfold pick_string. by destruct (s =?s ""). Qed.
Lemma pick_list_self {A} (l : list A) : pick_list l l = l.
Proof. by destruct l. Qed.

(** A copy that differs in its name and annotations only. *)
Lemma merge_renamed name annotations c : name <> "" ->
  merge_cluster (c <| CC.Name := name |> <| CC.Annotations := annotations |>) (c <| CC.Annotations := annotations |>)
  = c <| CC.Name := name |> <| CC.Annotations := annotations |>.
Proof.
  intros Hn. destruct c as [? ? ? ? ? ? ? ? [? ? [? ? ?] ? ?]]. unfold merge_cluster, merge_cluster_status, merge_platform, set. simpl.
  rewrite !pick_self, !pick_list_self. unfold pick_string. destruct (name =?s "") eqn:E; [by apply String.eqb_eq in E | done].
Qed.

(** The rows of the cluster get the name and the annotations. *)
Definition renamed (id name : string) (annotations : list Annotation) (c : ConnectorCluster) : ConnectorCluster :=
  if c.(CC.ID) =?s id then c <| CC.Name := name |> <| CC.Annotations := annotations |> else c.

Lemma UpdateCluster_renames c name annotations w u w' : name <> "" -> annotations <> [] ->
  NoDup (map CC.ID (tables_in w).(cclusters)) -> c ∈ (tables_in w).(cclusters) -> c.(CC.Deleted) = false ->
  UpdateCluster (c <| CC.Name := name |> <| CC.Annotations := annotations |>) w = (Ok u, w') ->
  tables_in w' = (tables_in w) <| cclusters := map (renamed c.(CC.ID) name annotations) (tables_in w).(cclusters) |>.
Proof.
  intros Hname Hann Hnd Hin Hdel Hrun. apply wrap_err_ok, Transaction_ok in Hrun as (w0 & w1 & Ht0 & _ & Hrun & Ht1 & _).
  apply bind_ok in Hrun as (u1 & w2 & Hs1 & Hrun). apply change_ok in Hs1 as [Hs1 _]. injection Hs1 as _ Hs1.
  apply bind_ok in Hrun as (u2 & w3 & Hs2 & Hrun). simpl in Hs2. destruct annotations as [|a annotations]; [done|].
  apply change_ok in Hs2 as [Hs2 _]. injection Hs2 as _ Hs2.
  apply bind_ok in Hrun as (k & w4 & Hs3 & Hrun). injection Hrun as _ <-. apply change_ok in Hs3 as [Hs3 _]. injection Hs3 as _ Hs3.
  rewrite Ht1, <- Hs3, <- Hs2, <- Hs1, Ht0. destruct (tables_in w) as [rows nss cos sts dps dss tys sms]. simpl in *.
  refine (f_equal (fun x => mkCtables x nss cos sts dps dss tys sms) _). simpl.
  unfold amend. rewrite !map_map. cbv beta. apply map_ext_in. intros c' Hc'%list_elem_of_In. unfold renamed, cluster_id, set.
  destruct (CC.ID c' =?s CC.ID c) eqn:E.
  - pose proof E as E'. apply String.eqb_eq in E'. rewrite (unique_cluster _ _ _ Hnd Hc' Hin E'). simpl. rewrite !String.eqb_refl. simpl.
    rewrite Hdel. simpl. apply (merge_renamed name (a :: annotations) c Hname).
  - by rewrite E, E, andb_false_r.
Qed.

Lemma GetCluster_ok id w c w' : id <> "" -> GetCluster id w = (Ok c, w') ->
  c ∈ (tables_in w).(cclusters) /\ c.(CC.ID) = id /\ c.(CC.Deleted) = false /\ tables_in w' = tables_in w.
Proof.
  intros Hid Hrun. unfold GetCluster in Hrun. apply bind_ok in Hrun as (row & w1 & Hf & Hrun). apply wrap_err_ok, first_ok in Hf as (Hf & Ht & _).
  destruct (CC.Deleted row) eqn:Ed; [done|]. injection Hrun as <- <-. apply list_elem_of_In, filter_In in Hf as [Hin Hp].
  apply String.eqb_neq in Hid. rewrite Hid in Hp. apply String.eqb_eq in Hp. split; [by apply list_elem_of_In | done].
Qed.

Lemma name_field_ok {Body} field get set n m (p p' : Body) (w w' : W) :
  field_check field get set [MinLen n; MaxLen m] p w = (Ok p', w') -> p' = set (get p) p /\ w' = w /\ n <= len (get p) <= m.
Proof.
  unfold field_check, Validation. intros Hrun. apply bind_ok in Hrun as (v & w1 & Hrun & Hp). injection Hp as <- <-.
  apply bind_ok in Hrun as (v1 & w2 & Hv1 & Hrun). apply MinLen_ok in Hv1 as (-> & -> & Hmin).
  apply bind_ok in Hrun as (v2 & w3 & Hv2 & Hrun). apply MaxLen_ok in Hv2 as (-> & -> & Hmax). by injection Hrun as <- <-.
Qed.

(** The system annotations are the same. *)
Definition reserved_kept (existing patched : list Annotation) : Prop :=
  forall k, k ∈ reservedAnnotations -> annotation_at patched k = annotation_at (PresentAnnotations existing) k.

Lemma patch_annotations_ok patched existing u : validatePatchAnnotations patched (PresentAnnotations existing) = Ok u -> reserved_kept existing patched.
Proof.
  unfold validatePatchAnnotations. destruct (validateAnnotations patched); simpl; [|done].
  destruct (_ || _) eqn:E; [done|]. intros _ k Hk. rewrite orb_false_r in E. apply orb_false_iff in E as [E1 E2].
  rewrite negb_false_iff, bool_decide_eq_true in E1, E2.
  unfold reservedAnnotations in Hk. rewrite !elem_of_cons in Hk. destruct Hk as [->|[->|Hk]]; [done|done|]. by apply not_elem_of_nil in Hk.
Qed.

Lemma cluster_update_action_ok id body w x w' : id <> "" -> body.(CQ_Name) <> "" -> NoDup (map CC.ID (tables_in w).(cclusters)) ->
  cluster_Update_action id body w = (x, w') ->
  match x with
  | Err _ => tables_in w' = tables_in w
  | Ok _ => exists c, c ∈ (tables_in w).(cclusters) /\ c.(CC.ID) = id /\ c.(CC.Deleted) = false /\ body.(CQ_Annotations) <> [] /\
      reserved_kept c.(CC.Annotations) body.(CQ_Annotations) /\
      tables_in w' = (tables_in w) <| cclusters := map (renamed id body.(CQ_Name) body.(CQ_Annotations)) (tables_in w).(cclusters) |>
  end.
Proof.
  intros Hid Hname Hnd Hrun. unfold cluster_Update_action in Hrun. apply bind_inv in Hrun as [(c & w1 & Hc & Hrun)|(e & Hc & ->)].
  2: { by eapply reads_cluster. }
  apply GetCluster_ok in Hc as (Hin & Hcid & Hdel & Ht); [|done].
  destruct (CQ_Annotations body) as [|a ann] eqn:Ea; [injection Hrun as <- <-; done|]. rewrite <- Ea in Hrun.
  apply bind_inv in Hrun as [(u & w2 & Hv & Hrun)|(e & Hv & ->)]; injection Hv as Hv <-; [|done].
  destruct x as [u'|e]; [|apply wrap_err_err in Hrun as (e' & Hrun & _); apply Transaction_err in Hrun; congruence].
  exists c. split_and!; try done; [by rewrite <- Ea; apply patch_annotations_ok in Hv|].
  apply UpdateCluster_renames in Hrun; rewrite ?Ht in *; try done; [by rewrite Hrun, Hcid, <- Ea | by rewrite Ea].
Qed.

(** [C15] A request to change a cluster succeeds only for an administrator of the
    cluster's organisation, for a live cluster, with a name of 1 to 100 bytes and
    annotations that leave the reserved ones as they are; it then sets the name
    and the annotations of that cluster and nothing else.  A request that fails
    changes no table. *)
Theorem cluster_update_exact (r : Request ConnectorClusterRequest) w x w' : NoDup (map CC.ID (tables_in w).(cclusters)) ->
  cluster_Update r w = (x, w') ->
  match x with
  | Err _ => tables_in w' = tables_in w
  | Ok (code, _) => code = StatusNoContent /\ exists body c, r.(req_body) = Ok body /\
      c ∈ (tables_in w).(cclusters) /\ c.(CC.ID) = r.(req_id) /\ c.(CC.Deleted) = false /\
      administers_cluster r.(req_ctx) c.(CC.OrganisationId) /\
      1 <= len body.(CQ_Name) <= maxConnectorClusterNameLength /\ reserved_kept c.(CC.Annotations) body.(CQ_Annotations) /\
      tables_in w' = (tables_in w) <| cclusters := map (renamed r.(req_id) body.(CQ_Name) body.(CQ_Annotations)) (tables_in w).(cclusters) |>
  end.
Proof.
  intros Hnd Hrun. apply guarded in Hrun.
  2: { repeat constructor; intros; [apply cluster_guard_reads | apply field_check_reads; repeat constructor; auto using MinLen_reads, MaxLen_reads]. }
  destruct Hrun as [[Ht (e & ->)]|(p & p' & w1 & Hb & Hc & Ht & r' & Ha & ->)]; [done|].
  simpl in Hc. apply bind_ok in Hc as (p1 & w2 & Hc1 & Hc). apply bind_ok in Hc as (p2 & w3 & Hc2 & Hc). injection Hc as <- <-.
  apply id_check_ok in Hc1 as (-> & Hid & v & Hv). apply name_field_ok in Hc2 as (-> & -> & Hlen).
  assert (p.(CQ_Name) <> "") as Hname by (intros E; rewrite E in Hlen; unfold len in Hlen; simpl in Hlen; lia).
  apply cluster_update_action_ok in Ha; rewrite ?Ht in *; try done. destruct r' as [u|e]; [|done].
  split; [done|]. destruct Ha as (c & Hin & Hcid & Hdel & _ & Hkept & Htab). exists p, c. split_and!; try done; try lia.
  by eapply cluster_admin_ok.
Qed.
End Tenancy.

(** ** Deleting a connector *)
Section ConnectorDeletion.
Context {D : Type} `{ConnectorDB D} `{StateMachineLibrary} `{ConnectorAccounts}.
Abbreviation W := (cworld D).

Lemma UpdateConnectorRow_ok c w c' w' : UpdateConnectorRow c w = (Ok c', w') ->
  exists v t1, let p r := negb r.(CO.Deleted) && ((r.(CO.ID) =?s c.(CO.ID)) && (r.(CO.Version) =? c.(CO.Version))) in
    remove_annotations c.(CO.ID) v (tables_in w) = Some (tt, t1) /\
    (exists r, r ∈ t1.(connectors) /\ p r = true) /\
    exists v' k, update_connector c v' t1 = Some (k, tables_in w').
Proof.
  unfold UpdateConnectorRow. destruct (CO.Version c =? 0); [done|]. intros Hrun. apply bind_ok in Hrun as (u & w1 & Ht & Hrun).
  apply wrap_err_ok, Transaction_ok in Ht as (w2 & w3 & Hw2 & _ & Ht & Hw3 & _). apply wrap_err_ok in Ht.
  apply bind_ok in Ht as (u1 & w4 & Hr & Ht). apply wrap_err_ok, change_ok in Hr as [Hr _]. rewrite Hw2 in Hr. destruct u1.
  apply bind_ok in Ht as (k & w5 & Hu & Ht). apply wrap_err_ok, change_ok in Hu as [Hu _].
  destruct (k =? 0) eqn:Ek; [done|]. injection Ht as _ <-.
  apply bind_ok in Hrun as (u2 & w6 & Ha & Hrun). injection Ha as _ <-. apply wrap_err_ok, first_ok in Hrun as (_ & Hw & _).
  exists (next_version (cdb w2)), (tables_in w4). split; [done|]. split.
  - apply affected_some. intros Hz. injection Hu as Hk _. apply Z.eqb_neq in Ek. apply Ek. by rewrite <- Hk.
  - exists (next_version (cdb w4)), k. rewrite Hu, Hw. do 2 f_equal. symmetry. exact Hw3.
Qed.

(** Rows of other connectors are those of before. *)
Definition others_kept (id : string) (t t' : ctables) : Prop :=
  forall x, x.(CO.ID) <> id -> x ∈ t.(connectors) <-> x ∈ t'.(connectors).

Lemma remove_annotations_others id v t t' : remove_annotations id v t = Some (tt, t') -> others_kept id t t'.
Proof.
  intros [= <-] x Hx. simpl. rewrite amend_elem. split.
  - intros Hin. exists x. split; [done|]. apply String.eqb_neq in Hx. by rewrite Hx.
  - intros (r & Hr & ->). destruct (CO.ID r =?s id) eqn:E; [|done]. apply String.eqb_eq in E. by destruct Hx.
Qed.

Lemma update_connector_others c v t k t' : update_connector c v t = Some (k, t') -> others_kept c.(CO.ID) t t'.
Proof.
  intros [= _ <-] x Hx. simpl. split.
  - intros Hin. destruct (amend_versioned_covers co_version
      (fun r => negb r.(CO.Deleted) && ((r.(CO.ID) =?s c.(CO.ID)) && (r.(CO.Version) =? c.(CO.Version)))) (merge_connector c) v _ _ Hin)
      as (y & Hy & [[_ ->]|(Hp & _)]); [done|].
    apply andb_true_iff in Hp as [_ Hp]. apply andb_true_iff in Hp as [Hp _]. by apply String.eqb_eq in Hp.
  - intros (r & Hr & [[_ ->]|(Hp & v' & _ & ->)])%amend_versioned_elem; [done|].
    apply andb_true_iff in Hp as [_ Hp]. apply andb_true_iff in Hp as [Hp _]. by apply String.eqb_eq in Hp.
Qed.

(** The connector is to be deleted, and its status says so. *)
Definition deletion_requested (id phase : string) (t : ctables) : Prop :=
  (exists x, x ∈ t.(connectors) /\ x.(CO.ID) = id /\ x.(CO.Deleted) = false /\ x.(CO.DesiredState) = ConnectorDeleted) /\
  (exists s, s ∈ t.(connector_statuses) /\ s.(CS.ID) = id /\ s.(CS.Phase) = phase).

Lemma upsert_has {Row} key (r : Row) rows : r ∈ upsert key r rows.
Proof.
  unfold upsert. destruct (existsb _ _) eqn:E; [|set_solver]. apply existsb_exists in E as (x & Hx & Hk).
  apply list_elem_of_fmap. exists x. rewrite Hk. split; [done|]. by apply list_elem_of_In.
Qed.

Lemma save_connector_ok ctx c w w' : c.(CO.DesiredState) = ConnectorDeleted -> c.(CO.Status).(CS.Phase) <> "" ->
  save_connector ctx c w = (Ok tt, w') ->
  deletion_requested c.(CO.ID) c.(CO.Status).(CS.Phase) (tables_in w') /\ others_kept c.(CO.ID) (tables_in w) (tables_in w') /\
  (tables_in w').(cclusters) = (tables_in w).(cclusters) /\ (tables_in w').(namespaces) = (tables_in w).(namespaces) /\
  (tables_in w').(deployments) = (tables_in w).(deployments).
Proof.
  intros Hd Hph Hrun. apply bind_ok in Hrun as (u & w1 & Hs & Hrun). apply SaveStatus_ok in Hs as [Ht1 _].
  apply bind_ok in Hrun as (c' & w2 & Hu & Hrun). injection Hrun as <-.
  apply UpdateConnectorRow_ok in Hu as (v & t1 & Hr & (r & Hin & Hp) & v' & k & Hu).
  pose proof (remove_annotations_others _ _ _ _ Hr) as Ho1. pose proof (update_connector_others _ _ _ _ _ Hu) as Ho2.
  injection Hr as <-. injection Hu as _ Hu. rewrite Ht1 in Hu, Hin, Ho1, Ho2. split; [|split].
  - split.
    + destruct (amend_versioned_covers co_version
        (fun r => negb r.(CO.Deleted) && ((r.(CO.ID) =?s c.(CO.ID)) && (r.(CO.Version) =? c.(CO.Version)))) (merge_connector c) v' _ _ Hin)
        as (y & Hy & [[Hf _]|(_ & v1 & _ & ->)]); [by rewrite Hp in Hf|].
      exists (co_version v1 (merge_connector c r)). split; [rewrite <- Hu; exact Hy|].
      apply andb_true_iff in Hp as [Hdel Hp]. apply andb_true_iff in Hp as [Hid _]. apply String.eqb_eq in Hid.
      simpl. split; [done|]. split; [by destruct (CO.Deleted r)|]. by rewrite Hd.
    + exists (c.(CO.Status) <| CS.ID := c.(CO.ID) |>). split; [|done]. rewrite <- Hu. simpl.
      assert (has_status c.(CO.Status) = true) as ->; [|apply upsert_has].
      unfold has_status. apply String.eqb_neq in Hph. rewrite Hph. by rewrite orb_true_r.
  - intros x Hx. rewrite (Ho1 x Hx). apply Ho2. done.
  - rewrite <- Hu. split_and!; try done; by destruct (tables_in w).
Qed.

Lemma delete_dst phase current dst : transition (table_of connectorEvents phase) current DeleteConnector = Some dst -> dst = ConnectorDeleted.
Proof.
  intros (e & He & Hn & _ & ->)%(transition_all (fun e => negb (Event_Name e =?s DeleteConnector) || (Dst e =?s ConnectorDeleted))).
  - rewrite <- Hn, String.eqb_refl in He. by apply String.eqb_eq.
  - by apply table_of_all.
Qed.

Lemma GetConnector_ok ctx id w c w' : GetConnector ctx id w = (Ok c, w') ->
  exists row, row ∈ (tables_in w).(connectors) /\ row.(CO.ID) = id /\ row.(CO.Deleted) = false /\
    visible ctx (tables_in w) row = true /\ c = with_status (tables_in w) row /\ tables_in w' = tables_in w.
Proof.
  intros Hrun. apply bind_ok in Hrun as (u & w1 & Ha & Hrun). injection Ha as _ <-.
  apply bind_ok in Hrun as (x & w2 & Hf & Hrun). apply wrap_err_ok, first_ok in Hf as (Hf & Ht & _).
  destruct (CO.Deleted x) eqn:Ed; [done|]. injection Hrun as <- <-. apply list_elem_of_fmap in Hf as (row & -> & Hrow).
  apply list_elem_of_In, filter_In in Hrow as [Hrow Hp]. apply andb_true_iff in Hp as [Hid Hv]. apply String.eqb_eq in Hid.
  exists row. split_and!; try done. by apply list_elem_of_In.
Qed.

(** The machine, asked to delete: nothing to do, or both states are set. *)
Lemma delete_perform n c b c' : ConnectorFSM_Perform n DeleteConnector c = Ok (b, c') ->
  if c.(CO.DesiredState) =?s ConnectorDeleted then b = false
  else b = true /\ c' = CO.with_phase ConnectorStatusPhaseDeleting (c <| CO.DesiredState := ConnectorDeleted |>).
Proof.
  unfold ConnectorFSM_Perform. set (t := table_of _ _). pose proof (fsm_event_dst t c.(CO.DesiredState) DeleteConnector) as Hd.
  destruct (fsm_Event _ _ _) as [s| |]; [| |done]; intros [= <- <-].
  - destruct Hd as [Hs Hne]. apply delete_dst in Hs as ->. destruct (_ =?s _) eqn:E; [|done]. by apply String.eqb_eq in E.
  - apply delete_dst in Hd. by rewrite Hd, String.eqb_refl.
Qed.

(** What a deletion of the row [row] leaves. *)
Definition connector_deletion (row : Connector) (t t' : ctables) : Prop :=
  others_kept row.(CO.ID) t t' /\
  t'.(cclusters) = t.(cclusters) /\ t'.(namespaces) = t.(namespaces) /\ t'.(deployments) = t.(deployments) /\
  match row.(CO.NamespaceId) with
  | None => deletion_requested row.(CO.ID) ConnectorStatusPhaseDeleted t'
  | Some _ => if row.(CO.DesiredState) =?s ConnectorDeleted then t' = t
              else deletion_requested row.(CO.ID) ConnectorStatusPhaseDeleting t'
  end.

Lemma handle_delete_ok ctx id w w' : HandleConnectorDelete ctx id w = (Ok tt, w') ->
  exists row, row ∈ (tables_in w).(connectors) /\ row.(CO.ID) = id /\ row.(CO.Deleted) = false /\
    visible ctx (tables_in w) row = true /\ connector_deletion row (tables_in w) (tables_in w').
Proof.
  intros Hrun. apply bind_ok in Hrun as (c & w1 & Hg & Hrun). apply GetConnector_ok in Hg as (row & Hin & Hid & Hdel & Hv & -> & Ht).
  exists row. split_and!; try done. unfold connector_deletion, with_status in *. simpl in Hrun.
  destruct (CO.NamespaceId row) as [nsid|] eqn:En.
  - apply bind_ok in Hrun as (c' & w2 & Hop & Hrun). injection Hrun as <-. unfold ValidateConnectorOperation in Hop. simpl in Hop.
    rewrite En in Hop. apply bind_ok in Hop as (n & w3 & Hn & Hop). apply reads_Get in Hn.
    apply bind_ok in Hop as (p & w4 & Hp & Hop). injection Hop as _ <-.
    unfold PerformConnectorOperation, perform in Hp. apply bind_ok in Hp as (q & w5 & Hq & Hp). injection Hq as Hq <-.
    destruct q as [b c1]. apply delete_perform in Hq. simpl in Hq, Hp. destruct (CO.DesiredState row =?s ConnectorDeleted).
    + subst b. injection Hp as _ <-. rewrite Hn, Ht. split_and!; try done.
    + destruct Hq as [-> ->]. simpl in Hp. apply bind_ok in Hp as (u1 & w6 & Hp & Hu1). injection Hu1 as _ <-.
      apply bind_ok in Hp as ([] & w7 & Hp & Hu2). injection Hu2 as _ <-. apply save_connector_ok in Hp as (Hr & Ho & Hc & Hns & Hd); [|done|done].
      rewrite Hn, Ht in *. split_and!; done.
  - apply save_connector_ok in Hrun as (Hr & Ho & Hc & Hns & Hd); [|done|done]. rewrite Ht in *. split_and!; done.
Qed.

(** A deletion that is answered with 204 was for a connector that the
    caller may see and that is not removed.  Outside of a namespace the connector
    is to be deleted and its phase is [deleted]; in a namespace its phase is
    [deleting], unless its deletion had been asked for before, and then nothing
    changes.  No other connector, cluster, namespace or deployment is touched. *)
Theorem connector_deletion_exact (r : Request unit) w code u w' : connector_Delete r w = (Ok (code, u), w') ->
  code = StatusNoContent /\
  exists row, row ∈ (tables_in w).(connectors) /\ row.(CO.ID) = r.(req_id) /\ row.(CO.Deleted) = false /\
    visible r.(req_ctx) (tables_in w) row = true /\ connector_deletion row (tables_in w) (tables_in w').
Proof.
  intros Hrun. apply (guarded (Ok tt)) in Hrun.
  2: { repeat constructor. intros. apply path_check_reads. repeat constructor; auto using MinLen_reads, MaxLen_reads. }
  destruct Hrun as [[_ (e & He)]|(p & p' & w1 & _ & _ & Ht & r' & Ha & Hr)]; [done|]. destruct r' as [[]|]; [|done]. injection Hr as -> _.
  split; [done|]. apply handle_delete_ok in Ha. by rewrite Ht in Ha.
Qed.
End ConnectorDeletion.

(** ** Reports about namespaces that are gone *)
Section AgentReports.
Context {D : Type} `{ConnectorDB D} `{StateMachineLibrary} `{ConnectorAccounts}.
Abbreviation W := (cworld D).

Lemma collect_none {A} (f : A -> M W ServiceError unit) l w w' : collect f l w = (Ok [], w') ->
  forall (P : W -> Prop) a, a ∈ l ->
    (forall w1 w2, f a w1 = (Ok tt, w2) -> P w2) -> (forall b w1 w2, b ∈ l -> f b w1 = (Ok tt, w2) -> P w1 -> P w2) -> P w'.
Proof.
  intros Hrun P a Ha Hset Hkeep.
  assert (forall l0 w1, (forall b, b ∈ l0 -> b ∈ l) -> collect f l0 w1 = (Ok [], w') -> (a ∈ l0 \/ P w1) -> P w') as Hgen; [|eauto].
  induction l0 as [|b l0 IH]; intros w1 Hsub Hr Hcase; simpl in Hr.
  - injection Hr as <-. destruct Hcase as [Hc|]; [by apply not_elem_of_nil in Hc | done].
  - apply bind_ok in Hr as (r1 & w2 & Hf & Hr). unfold attempt in Hf. destruct (f b w1) as [r2 w3] eqn:Ef. injection Hf as <- <-.
    apply bind_ok in Hr as (errs & w4 & Hl & Hr). injection Hr as Hr <-. destruct r2 as [[]|e]; [|done]. subst errs.
    apply (IH w3); [intros; apply Hsub; by right | done |]. destruct Hcase as [[->|Hc]%elem_of_cons|Hp]; [right; by eapply Hset | by left |].
    right. eapply Hkeep; [apply Hsub; by left|done|done].
Qed.

Definition is_gone (id : string) (w : W) : Prop :=
  exists n, n ∈ (tables_in w).(namespaces) /\ n.(NS.ID) = id /\ n.(NS.status).(NS.Phase) = ConnectorNamespacePhaseDeleted.

Lemma mark_deleted n w u w' : Update (NS.with_phase ConnectorNamespacePhaseDeleted n) w = (Ok u, w') ->
  is_gone n.(NS.ID) w' /\ forall id, is_gone id w -> is_gone id w'.
Proof.
  intros Hrun. apply Update_ok in Hrun as (_ & _ & (m & Hm & Hsame) & Ht).
  replace (names_or_phase _) with true in Ht by (unfold names_or_phase; simpl; by rewrite orb_true_r).
  assert (forall x, x ∈ (tables_in w).(namespaces) -> exists y, y ∈ (tables_in w').(namespaces) /\ y.(NS.ID) = x.(NS.ID) /\
    (y.(NS.status).(NS.Phase) = ConnectorNamespacePhaseDeleted \/
     (same_version (NS.with_phase ConnectorNamespacePhaseDeleted n) x = false /\ y = x))) as Hcov.
  { intros x Hx. destruct (amend_versioned_covers ns_version (same_version (NS.with_phase ConnectorNamespacePhaseDeleted n))
      (merge_namespace (NS.with_phase ConnectorNamespacePhaseDeleted n)) (next_version (cdb w)) _ _ Hx)
      as (y & Hy & [[Hs ->]|(Hs & v & _ & ->)]); (eexists; split; [rewrite Ht; exact Hy|]); [|by split; [|left]].
    split; [done|]. by right. }
  split.
  - destruct (Hcov m Hm) as (y & Hy & Hyid & [Hph|[Hf _]]); [|by rewrite Hsame in Hf]. exists y. split; [done|]. split; [|done].
    rewrite Hyid. unfold same_version in Hsame. apply andb_true_iff in Hsame as [_ Hsame]. apply andb_true_iff in Hsame as [Hsame _].
    by apply String.eqb_eq in Hsame.
  - intros id (x & Hx & <- & Hph). destruct (Hcov x Hx) as (y & Hy & Hyid & [Hyp|[_ ->]]); [by exists y | by exists x].
Qed.

(** After an agent's report that is answered with 204, every namespace of
    the cluster that was being deleted, that no connector used any more when the
    reported statuses were about to be stored, and that the report does not
    mention is in phase [deleted]; the namespace worker then removes it. *)
Theorem unreported_namespaces_are_deleted id resource w w' : agent_report_action id resource w = (Ok tt, w') ->
  exists w1, (exists s, UpdateConnectorClusterStatus id s w = (Ok tt, w1)) /\
  forall n, n ∈ (tables_in w1).(namespaces) -> n.(NS.ClusterId) = id -> is_deleting n = true -> n.(NS.Deleted) = false ->
    no_status_in (tables_in w1) n = true -> n.(NS.ID) ∉ map NR_Id resource.(RC_Namespaces) -> is_gone n.(NS.ID) w'.
Proof.
  intros Hrun. unfold agent_report_action in Hrun. apply bind_ok in Hrun as ([] & w1 & Hc & Hrun). exists w1. split; [eauto|].
  apply bind_ok in Hrun as (l & w2 & Hl & Hrun). apply wrap_err_ok, select_ok in Hl as (Hl & _).
  apply bind_ok in Hrun as (errs1 & w3 & _ & Hrun). apply bind_ok in Hrun as (errs2 & w4 & He2 & Hrun).
  destruct (errs1 ++ errs2) eqn:Ee; [|done]. apply app_eq_nil in Ee as [-> ->]. injection Hrun as <-.
  intros n Hn Hcl Hdl Hnd Hns Hrep.
  assert (n ∈ List.filter (unreported resource.(RC_Namespaces)) l) as Hin.
  { apply list_elem_of_In, filter_In. split.
    - apply list_elem_of_In. rewrite Hl. apply list_elem_of_In, filter_In. split; [by apply list_elem_of_In|].
      apply String.eqb_eq in Hcl. by rewrite Hcl, Hdl, Hnd, Hns.
    - unfold unreported. destruct (one_of _ _) eqn:E; [by apply one_of_spec in E | done]. }
  destruct (List.filter _ l) as [|n0 dl]; [by apply not_elem_of_nil in Hin|].
  apply bind_ok in He2 as (errs & w5 & Hcol & He2). apply bind_ok in He2 as (u & w6 & Hno & He2). injection He2 as -> <-.
  unfold Notify_now in Hno. injection Hno as _ <-. change (is_gone (NS.ID n) w5).
  eapply (collect_none _ _ _ _ Hcol (is_gone n.(NS.ID)) n Hin).
  - intros wa wb (r & wc & Hu & Hr)%bind_ok. injection Hr as <-. by apply mark_deleted in Hu as [? _].
  - intros b wa wb _ (r & wc & Hu & Hr)%bind_ok. injection Hr as <-. apply mark_deleted in Hu as [_ Hkept]. apply Hkept.
Qed.
End AgentReports.

(** ** What goes wrong *)

(** [OR] binds weakest in a condition of SQL: a comparison of the name in front
    of it is an alternative on its own. *)
Definition or_binds_weakest `{NamespaceQueries} : Prop := forall v q n,
  ns_where (mkDBQuery (runes "connector_namespaces.name = ? or " ++ q.(Query)) (v :: q.(Values)) q.(ValidColumns) q.(ColumnPrefix)) n
  = bool_decide (runes_of n.(NS.Name) = v) || ns_where q n.

Definition escaping_search : string := tenant_search "alice" "org-1" "name = 'a' or name = 'b'".
Definition tenant_alternative : DBQuery :=
  mkDBQuery (runes "connector_namespaces.name = ? AND (connector_namespaces.tenant_user_id = ? OR connector_namespaces.tenant_organisation_id = ?)")
    (map runes ["b"; "alice"; "org-1"]) (map runes GetValidNamespaceColumns) (runes "connector_namespaces").

Lemma escaping_query past_end : exists q, fst (Parse past_end namespace_parser (runes_of escaping_search)) = Ok q /\
  state_column q = mkDBQuery (runes "connector_namespaces.name = ? or " ++ tenant_alternative.(Query)) (runes "a" :: tenant_alternative.(Values))
    tenant_alternative.(ValidColumns) tenant_alternative.(ColumnPrefix).
Proof. eexists. split; vm_compute; reflexivity. Qed.

(** The tenancy condition of a listing is appended to the search without
    braces around the search: when Alice searches for [name = 'a' or name = 'b'],
    the condition that her listing puts on the rows holds of every namespace
    called [a], whatever user or organisation it belongs to. *)
Theorem namespace_search_escapes_tenancy `{NamespaceQueries} past_end p n : or_binds_weakest ->
  namespace_condition past_end (tenant_search "alice" "org-1" "name = 'a' or name = 'b'") = Ok p -> n.(NS.Name) = "a" -> p n = true.
Proof.
  intros Hor Hp Hn. destruct (escaping_query past_end) as (q & Hq & Hs).
  assert (tenant_search "alice" "org-1" "name = 'a' or name = 'b'" = escaping_search) as He by reflexivity. rewrite He in Hp.
  assert ((escaping_search =?s "") = false) as Hne by reflexivity.
  assert (namespace_condition past_end escaping_search = Ok (ns_where (state_column q))) as Hc
    by (unfold namespace_condition; rewrite Hne, Hq; reflexivity).
  rewrite Hc in Hp. injection Hp as <-. rewrite Hs, Hor, Hn. apply orb_true_iff. left. by apply bool_decide_eq_true.
Qed.

Module ApiExample.
Import MemC.
(** A syntax that accepts no annotation. *)
#[export] Instance strict : LabelSyntax := {| IsQualifiedName _ := ["invalid"]; IsValidLabelValue _ := ["invalid"] |}.
Definition lenient : LabelSyntax := {| IsQualifiedName _ := []; IsValidLabelValue _ := [] |}.

Fixpoint name_alternatives (values : list text) (query : text) (n : ConnectorNamespace) : bool :=
  let p := runes "connector_namespaces.name = ? or " in
  match values with
  | v :: values' => if text_prefix p query then bool_decide (runes_of n.(NS.Name) = v) || name_alternatives values' (drop (length p) query) n else false
  | [] => false
  end.
#[export] Instance queries : NamespaceQueries := {| ns_where q := name_alternatives q.(Values) q.(Query); ns_order _ l := l |}.

Definition claims (user org : string) (admin : bool) : KFMClaims := mkKFMClaims (Some user) None None (Some org) None (Some admin).
Definition ctx : RequestContext := mkRequestContext (Ok (claims "alice" "org-1" true)) false true.
Definition mallory : RequestContext := mkRequestContext (Ok (claims "mallory" "org-2" true)) false true.
Definition no_query (p : string) : string := "".
Definition request {Body} (c : RequestContext) (id : string) (body : Body) : Request Body := mkRequest c id no_query (Ok body).

Definition cluster2 : ConnectorCluster :=
  CC.mkConnectorCluster "cluster-2" false "bob" "org-2" "Second" "client-2" "s3cret" [] (CC.mkStatus ConnectorClusterPhaseReady "" ConnectorExample.platform [] []).
Definition idle : ConnectorNamespace :=
  NS.mkConnectorNamespace "ns-9" false "idle" "cluster-1" "alice" 4 None [] None (Some "org-1") (NS.mkStatus ConnectorNamespacePhaseDeleting "agent-1" 0 []).
Definition tables : ctables :=
  mkCtables [ConnectorExample.cluster <| CC.Annotations := [("team", "x")] |>; cluster2] [ConnectorExample.namespace; idle] [SystemExample.row "co-1" 5]
    [SystemExample.status "co-1" ConnectorStatusPhaseReady (Some "ns-1")] [SystemExample.deployment "dep-1" "co-1" 5] [] [] [].
Definition w0 : cworld mem := world_of tables.
Definition quotas : ConnectorsQuotaConfig := mkConnectorsQuotaConfig [(DefaultProfileName, zero)] EvaluationProfileName DefaultProfileName.

Definition rename : Request ConnectorClusterRequest := request ctx "cluster-1" (mkConnectorClusterRequest "Renamed" [("team", "y")]).
Definition remove : Request unit := request ctx "co-1" tt.
Definition report : ClusterReport := mkClusterReport ConnectorClusterPhaseReady "agent-2" [] ConnectorExample.platform [] [].
Definition reserved_request : Request ConnectorClusterRequest :=
  request ctx "" (mkConnectorClusterRequest "" [(ConnectorTypePricingTierAnnotation, "free"); ("kubernetes.io/os", "x")]).
Definition foreign_report : Request DeploymentReport := request mallory "cluster-2" (mkDeploymentReport ConnectorStatusPhaseDeleted 9 "" "" "[]" "{}").
Definition forced : Request unit := mkRequest ctx "ns-1" (fun p => if p =?s "force" then "true" else "") (Ok tt).
End ApiExample.
Export (hints) ApiExample.

(** The annotations of a new cluster are not validated: the validator is
    given the map of the payload before the body is decoded.  With a syntax that
    accepts no annotation at all, an administrator creates a cluster with a
    reserved annotation and one of a reserved domain, and both are stored. *)
Theorem creation_annotations_not_validated :
  exists code view w', cluster_Create ApiExample.quotas ApiExample.reserved_request "cluster-3" "ns-3" ApiExample.w0 = (Ok (code, view), w') /\
    map CC.Annotations (List.filter (cluster_id "cluster-3") (tables_in w').(cclusters)) =
      [[(ConnectorTypePricingTierAnnotation, "free"); ("kubernetes.io/os", "x"); (ConnectorClusterOrgIdAnnotation, "org-1")]].
Proof. do 3 eexists. split; vm_compute; reflexivity. Qed.

(** The agent of one cluster may report for the deployments of another one:
    only the cluster that the path names is looked up, and it is not compared
    with the cluster of the deployment, which the report removes. *)
Theorem agent_reports_for_foreign_deployments :
  exists code u w', agent_UpdateDeploymentStatus ApiExample.foreign_report "dep-1" ApiExample.w0 = (Ok (code, u), w') /\
    map CD.ClusterID (tables_in ApiExample.w0).(deployments) = ["cluster-1"] /\
    live_deployments (tables_in ApiExample.w0) <> [] /\ live_deployments (tables_in w') = [].
Proof. do 3 eexists. split_and!; vm_compute; done. Qed.

(** An administrator's forced deletion of a namespace that is in use is
    refused with status 500: it takes the path of an agent's report, which lets
    only an empty namespace that is being deleted become [deleted]. *)
Theorem forced_namespace_deletion_is_refused :
  exists e w', admin_DeleteConnectorNamespace ApiExample.forced (MemC.world_of (ApiExample.tables <| namespaces :=
      [ConnectorExample.namespace <| NS.status := NS.mkStatus ConnectorNamespacePhaseReady "agent-1" 0 [] |>] |>)) = (Err e, w') /\
    HttpCode e = StatusInternalServerError /\
    map (fun n => n.(NS.status).(NS.Phase)) (tables_in w').(namespaces) = [ConnectorNamespacePhaseReady].
Proof. do 2 eexists. split_and!; vm_compute; reflexivity. Qed.

(** When the default namespace of a new cluster cannot be created, the
    request fails and the identity provider is asked to remove the account, but
    the row of the cluster, which refers to the account, stays. *)
Theorem failed_cluster_creation_leaves_a_cluster :
  exists e w', cluster_Create (mkConnectorsQuotaConfig [] "" "") ApiExample.reserved_request "cluster-3" "ns-3" ApiExample.w0 = (Err e, w') /\
    w'.(removed_accounts) = ["sa-cluster-3"] /\ map CC.ClientId (List.filter (cluster_id "cluster-3") (live_clusters (tables_in w'))) = ["sa-cluster-3"].
Proof. do 2 eexists. split_and!; vm_compute; reflexivity. Qed.

(** ** Witnesses *)
Lemma namespace_changed_only_by_its_tenant_witness :
  is_ok (fst (namespace_Delete (ApiExample.request ApiExample.ctx "ns-1" tt) ApiExample.w0)) = true /\
  tables_in (snd (namespace_Delete (ApiExample.request ApiExample.mallory "ns-1" tt) ApiExample.w0)) = tables_in ApiExample.w0.
Proof.
  split; [vm_compute; reflexivity|].
  destruct (proj2 (namespace_changed_only_by_its_tenant (ApiExample.request ApiExample.mallory "ns-1" (mkConnectorNamespacePatchRequest "x" []))
    (ApiExample.request ApiExample.mallory "ns-1" tt) ApiExample.w0)
    (fst (namespace_Delete (ApiExample.request ApiExample.mallory "ns-1" tt) ApiExample.w0))
    (snd (namespace_Delete (ApiExample.request ApiExample.mallory "ns-1" tt) ApiExample.w0))) as [Ht|_];
    [vm_compute; reflexivity | exact Ht | vm_compute; reflexivity].
Defined.

Lemma cluster_update_exact_witness :
  map CC.Name (tables_in (snd (cluster_Update (H2 := ApiExample.lenient) ApiExample.rename ApiExample.w0))).(cclusters) = ["Renamed"; "Second"].
Proof.
  assert (NoDup (map CC.ID (tables_in ApiExample.w0).(cclusters))) as Hnd by (vm_compute; repeat constructor; set_solver).
  assert (fst (cluster_Update (H2 := ApiExample.lenient) ApiExample.rename ApiExample.w0) = Ok (StatusNoContent, tt)) as Hok by (vm_compute; reflexivity).
  generalize (cluster_update_exact (H2 := ApiExample.lenient) ApiExample.rename ApiExample.w0
    (fst (cluster_Update (H2 := ApiExample.lenient) ApiExample.rename ApiExample.w0))
    (snd (cluster_Update (H2 := ApiExample.lenient) ApiExample.rename ApiExample.w0)) Hnd (surjective_pairing _)).
  rewrite Hok. intros (_ & body & c & Hb & _ & _ & _ & _ & _ & _ & Ht). injection Hb as <-. rewrite Ht. vm_compute. reflexivity.
Defined.

Lemma connector_deletion_exact_witness :
  deletion_requested "co-1" ConnectorStatusPhaseDeleting (tables_in (snd (connector_Delete ApiExample.remove ApiExample.w0))).
Proof.
  destruct (connector_deletion_exact ApiExample.remove ApiExample.w0 StatusNoContent tt (snd (connector_Delete ApiExample.remove ApiExample.w0)))
    as (_ & row & Hin & Hid & _ & _ & Hd); [vm_compute; reflexivity|].
  apply list_elem_of_singleton in Hin as ->. exact (proj2 (proj2 (proj2 (proj2 Hd)))).
Defined.

Lemma unreported_namespaces_are_deleted_witness :
  is_gone "ns-9" (snd (agent_report_action "cluster-1" ApiExample.report ApiExample.w0)).
Proof.
  destruct (unreported_namespaces_are_deleted "cluster-1" ApiExample.report ApiExample.w0
    (snd (agent_report_action "cluster-1" ApiExample.report ApiExample.w0))) as (w1 & (s & Hs) & Hall); [vm_compute; reflexivity|].
  eexists (NS.mkConnectorNamespace "ns-9" false "idle" "cluster-1" "alice" _ None [] None (Some "org-1") (NS.mkStatus ConnectorNamespacePhaseDeleted "agent-1" 0 [])).
  split; [|split; reflexivity]. vm_compute. right. left.
Defined.

Lemma namespace_search_escapes_tenancy_witness :
  exists p, namespace_condition (fun _ _ => Ok []) (tenant_search "alice" "org-1" "name = 'a' or name = 'b'") = Ok p /\
    p (ConnectorExample.namespace <| NS.Name := "a" |> ) = true.
Proof.
  destruct (namespace_condition (fun _ _ => Ok []) (tenant_search "alice" "org-1" "name = 'a' or name = 'b'")) as [p|e] eqn:E.
  - exists p. split; [reflexivity|]. refine (namespace_search_escapes_tenancy (fun _ _ => Ok []) p _ _ E _); [|reflexivity].
    intros v q n. reflexivity.
  - exfalso. vm_compute in E. discriminate E.
Defined.
