(* ===== verification/Secrets.v ===== *)
(** * Secrets inside JSON documents

    [src/pkg/shared/secrets/secrets.go]: the fields of a JSON schema that hold
    passwords, and the function that visits these fields of a document and
    changes them.  The libraries for JSON ([ajson], [encoding/json]) and for
    schemas ([jsonschema]) are the class [JsonLibrary].

    A document is read again from the text that was written, so that documents
    are compared by what is found at their paths ([same_document]): the order of
    the members of an object and the spelling of a number are lost. *)
From S2P Require Import Prelude Arrays Errors Status Config Model Store.

Open Scope Z_scope.

(** ** Documents *)
Inductive Node :=
| JNull
| JBool (b : bool)
| JNumber (text : string)
| JString (s : string)
| JArray (elements : list Node)
| JObject (members : list (string * Node)).

(** The node that the keys lead to. *)
Fixpoint value_at (p : list string) (n : Node) : option Node :=
  match p with
  | [] => Some n
  | k :: p' => match n with JObject m => map_lookup m k ≫= value_at p' | _ => None end
  end.

Fixpoint over_member (k : string) (f : Node -> Node) (m : list (string * Node)) : list (string * Node) :=
  match m with
  | [] => []
  | (k', n) :: m' => if k' =?s k then (k', f n) :: m' else (k', n) :: over_member k f m'
  end.
(** The document in which the node at the path is [v]: nodes are changed in
    place. *)
Fixpoint replace_at (p : list string) (v : Node) (n : Node) : Node :=
  match p with
  | [] => v
  | k :: p' => match n with JObject m => JObject (over_member k (replace_at p' v) m) | _ => n end
  end.

Inductive Head := HNull | HBool (b : bool) | HNumber | HString (s : string) | HArray | HObject.
Definition head (n : Node) : Head :=
  match n with
  | JNull => HNull | JBool b => HBool b | JNumber _ => HNumber | JString s => HString s | JArray _ => HArray | JObject _ => HObject
  end.
Definition same_document (n n' : Node) : Prop := forall p, head <$> value_at p n = head <$> value_at p n'.

#[export] Instance same_document_equiv : Equivalence same_document.
Proof. split; [by intros n p | by intros n n' Hs p | by intros n1 n2 n3 H1 H2 p; rewrite H1]. Qed.

(** ** Schemas: the fields of [jsonschema.Schema] that are read *)
Inductive Schema := mkSchema
  (Types : list string) (Format : string) (Properties : list (string * Schema)) (OneOf AnyOf : list Schema).
Definition Types (s : Schema) : list string := let '(mkSchema t _ _ _ _) := s in t.
Definition Format (s : Schema) : string := let '(mkSchema _ f _ _ _) := s in f.

(** ** The libraries

    [compile] is [AddResource] with [Compile].  [JSONPath] gives the paths of the
    nodes that are selected, and none when it fails.  A path in brackets whose
    keys are plain selects the node the keys lead to.  [SetObject] and [SetNull]
    give the node its new value.  What one JSON library writes is what another
    one reads. *)
Definition quote : string := String (Ascii.ascii_of_nat 34) "".
Definition bracket (text : string) : string := "[" +:+ text +:+ "]".

Definition letter (c : Ascii.ascii) : bool :=
  let n := Ascii.nat_of_ascii c in ((65 <=? n) && (n <=? 90) || (97 <=? n) && (n <=? 122) || (n =? 95))%nat.
Definition digit_or_mark (c : Ascii.ascii) : bool :=
  let n := Ascii.nat_of_ascii c in ((48 <=? n) && (n <=? 57) || (n =? 45) || (n =? 46))%nat.
Fixpoint all_chars (p : Ascii.ascii -> bool) (s : string) : bool :=
  match s with EmptyString => true | String c s' => p c && all_chars p s' end.
(** Letters, digits, dashes, dots and underscores after a letter, but not the name
    that counts elements. *)
Definition plain_key (k : string) : bool :=
  match k with
  | EmptyString => false
  | String c k' => letter c && all_chars (fun c => letter c || digit_or_mark c) k' && negb (k =?s "length")
  end.
Definition plain_path (p : list string) : string := foldr (fun k s => bracket (quote +:+ k +:+ quote) +:+ s) "" p.

Class JsonLibrary := {
  compile : string -> result error Schema;
  ajson_Unmarshal : string -> result error Node;
  ajson_Marshal : Node -> result error string;
  JSONPath : Node -> string -> list (list string);
  SetObject : list (string * Node) -> Node -> result error Node;
  SetNull : Node -> result error Node;
  json_Marshal : Node -> result error string;
  json_Unmarshal : string -> result error Node;
  map_range : list string -> list string;
  JSONPath_plain : forall root p, Forall (fun k => plain_key k = true) p ->
    JSONPath root ("$" +:+ plain_path p) = match value_at p root with Some _ => [p] | None => [] end;
  SetObject_ok : forall m n n', SetObject m n = Ok n' -> n' = JObject m;
  SetNull_ok : forall n n', SetNull n = Ok n' -> n' = JNull;
  ajson_text : forall n s, ajson_Marshal n = Ok s -> exists n', ajson_Unmarshal s = Ok n' /\ same_document n n';
  json_text : forall n s, json_Marshal n = Ok s -> exists n', ajson_Unmarshal s = Ok n' /\ same_document n n';
  ajson_empty : forall n, ajson_Unmarshal "" <> Ok n;
  readers_agree : forall s n n', ajson_Unmarshal s = Ok n -> json_Unmarshal s = Ok n' -> same_document n n';
  json_empty : json_Unmarshal "{}" = Ok (JObject []);
  map_range_perm : forall l, map_range l ≡ₚ l
}.
Lemma read_not_empty `{JsonLibrary} s n : ajson_Unmarshal s = Ok n -> s <> "".
Proof. intros Hs ->. by apply ajson_empty in Hs. Qed.
Lemma json_not_empty `{JsonLibrary} n s : json_Marshal n = Ok s -> s <> "".
Proof. intros (n' & Hn & _)%json_text. by eapply read_not_empty. Qed.

(** [json.Marshal] of a string: quotes and backslashes are escaped, so are control
    characters, the characters of HTML and the line separators of JavaScript. *)
Definition hex_digit (n : nat) : string := default "" (["0";"1";"2";"3";"4";"5";"6";"7";"8";"9";"a";"b";"c";"d";"e";"f"] !! n).
Definition escape (c : Ascii.ascii) : string :=
  let n := Ascii.nat_of_ascii c in
  if ((n =? 34) || (n =? 92))%nat then "\" +:+ String c ""
  else if (n =? 10)%nat then "\n" else if (n =? 13)%nat then "\r" else if (n =? 9)%nat then "\t"
  else if ((n <? 32) || existsb (Nat.eqb n) [38; 60; 62])%nat then "\u00" +:+ hex_digit (n / 16) +:+ hex_digit (n mod 16)
  else String c "".
Fixpoint escaped (s : string) : string :=
  match s with
  | EmptyString => ""
  | String c s' =>
      match s' with
      | String c1 (String c2 s'') =>
          if ((Ascii.nat_of_ascii c =? 226) && (Ascii.nat_of_ascii c1 =? 128) && (Ascii.nat_of_ascii c2 =? 168))%nat then "\u2028" +:+ escaped s''
          else if ((Ascii.nat_of_ascii c =? 226) && (Ascii.nat_of_ascii c1 =? 128) && (Ascii.nat_of_ascii c2 =? 169))%nat then "\u2029" +:+ escaped s''
          else escape c +:+ escaped s'
      | _ => escape c +:+ escaped s'
      end
  end.
Definition json_string (s : string) : string := quote +:+ escaped s +:+ quote.

(** ** The password fields of a schema *)
Definition isTypeAndFormat (s : Schema) (t format : string) : bool :=
  (Format s =?s format) && bool_decide (Types s = [t]).

(** A choice between a password and an object. *)
Definition password_choice (s : Schema) : bool :=
  let '(mkSchema _ _ _ oneOf _) := s in
  match oneOf with
  | [a; b] =>
      (isTypeAndFormat a "string" "password" && isTypeAndFormat b "object" "")
      || (isTypeAndFormat b "string" "password" && isTypeAndFormat a "object" "")
  | _ => false
  end.

(** The results are a set: the same path may be found twice. *)
Fixpoint findPathsMatching (matcher : Schema -> bool) (s : Schema) (p : string) : list string :=
  if matcher s then [p]
  else
    let '(mkSchema _ _ properties oneOf anyOf) := s in
    (fix members l := match l with
                      | [] => []
                      | (n, v) :: l' => findPathsMatching matcher v (p +:+ bracket (json_string n)) ++ members l'
                      end) properties
    ++ (fix branches l := match l with [] => [] | v :: l' => findPathsMatching matcher v p ++ branches l' end) oneOf
    ++ (fix branches l := match l with [] => [] | v :: l' => findPathsMatching matcher v p ++ branches l' end) anyOf.

(** ** Visiting the fields of a document *)
Section Modify.
Context `{JsonLibrary} {W : Type}.

Definition getPathsToPasswordFields (schemaBytes : string) : result error (list string) :=
  schema <-! compile schemaBytes ;;
  Ok (map_range (remove_dups (findPathsMatching password_choice schema ""))).

(** The function is given a node and returns what it makes of it. *)
Fixpoint visit_nodes (f : Node -> M W error Node) (nodes : list (list string)) (root : Node) : M W error Node :=
  match nodes with
  | [] => ret root
  | p :: nodes' =>
      match value_at p root with
      | None => visit_nodes f nodes' root
      | Some n => n' <~ f n ;; visit_nodes f nodes' (replace_at p n' root)
      end
  end.
Fixpoint visit_fields (f : Node -> M W error Node) (fields : list string) (root : Node) : M W error Node :=
  match fields with
  | [] => ret root
  | field :: fields' =>
      root <~ visit_nodes f (JSONPath root ("$" +:+ field)) root ;;
      visit_fields f fields' root
  end.

Definition modifySecrets (schemaBytes doc : string) (f : Node -> M W error Node) : M W error string :=
  fields <~ lift (getPathsToPasswordFields schemaBytes) ;;
  root <~ lift (ajson_Unmarshal doc) ;;
  root <~ visit_fields f fields root ;;
  lift (ajson_Marshal root).
Definition ModifySecrets : string -> string -> (Node -> M W error Node) -> M W error string := modifySecrets.
End Modify.

(** ** Paths *)
Lemma value_at_app p r n : value_at (p ++ r) n = value_at p n ≫= value_at r.
Proof.
  revert n. induction p as [|k p IH]; intros n; [done|]. destruct n; try done. simpl.
  destruct (map_lookup members k); simpl; [apply IH | done].
Qed.

Lemma over_member_lookup k f m k' :
  map_lookup (over_member k f m) k' = if k =?s k' then f <$> map_lookup m k' else map_lookup m k'.
Proof.
  induction m as [|[k0 n] m IH]; simpl; [by destruct (k =?s k')|].
  destruct (k0 =?s k) eqn:E; simpl; [apply String.eqb_eq in E as ->|rewrite IH].
  - by destruct (k =?s k') eqn:E'.
  - destruct (k0 =?s k') eqn:E'; [|done]. apply String.eqb_eq in E' as ->. by rewrite String.eqb_sym, E.
Qed.

Lemma replace_at_same p v n x : value_at p n = Some x -> value_at p (replace_at p v n) = Some v.
Proof.
  revert n. induction p as [|k p IH]; intros n; [done|]. destruct n; try done. simpl.
  rewrite over_member_lookup, String.eqb_refl. destruct (map_lookup members k); simpl; [apply IH | done].
Qed.

(** A path that neither leads to the changed node nor through it. *)
Lemma replace_at_apart p v n q : ~ p `prefix_of` q -> ~ q `prefix_of` p -> value_at q (replace_at p v n) = value_at q n.
Proof.
  revert n q. induction p as [|k p IH]; intros n q Hp Hq; [destruct Hp; apply prefix_nil|].
  destruct q as [|k' q]; [destruct Hq; apply prefix_nil|]. destruct n; try done. simpl. rewrite over_member_lookup.
  destruct (k =?s k') eqn:E; [|done]. apply String.eqb_eq in E as ->. destruct (map_lookup members k'); [|done]. simpl.
  apply IH; intros Hpre; [apply Hp | apply Hq]; by apply prefix_cons.
Qed.

(** Nodes above the changed one stay the objects they are. *)
Lemma replace_at_head p v n q : ~ p `prefix_of` q -> head <$> value_at q (replace_at p v n) = head <$> value_at q n.
Proof.
  revert n q. induction p as [|k p IH]; intros n q Hp; [destruct Hp; apply prefix_nil|].
  destruct n; try done. destruct q as [|k' q]; [done|]. simpl. rewrite over_member_lookup.
  destruct (k =?s k') eqn:E; [|done]. apply String.eqb_eq in E as ->. destruct (map_lookup members k'); [|done]. simpl.
  apply IH. intros Hpre. apply Hp. by apply prefix_cons.
Qed.

(** ** Visiting nodes *)
Section Visits.
Context {W : Type} (f : Node -> M W error Node).

(** Null, or an object without members. *)
Definition hidden (n : Node) : Prop := n = JNull \/ n = JObject [].
Definition hides : Prop := forall n w n' w', f n w = (Ok n', w') -> hidden n'.

Lemma hidden_no_child n k p : hidden n -> value_at (k :: p) n = None.
Proof. by intros [-> | ->]. Qed.

(** A path at which nothing is left to hide. *)
Definition clean (q : list string) (root : Node) : Prop := forall n, value_at q root = Some n -> hidden n.

Lemma clean_replace q k v root x : clean q root -> value_at k root = Some x -> hidden v -> clean q (replace_at k v root).
Proof.
  intros Hq Hk Hv n. destruct (decide (k `prefix_of` q)) as [[r ->]|Hkq].
  - rewrite value_at_app, (replace_at_same _ _ _ _ Hk). simpl. destruct r as [|y r]; [by intros [= <-]|]. by rewrite hidden_no_child.
  - destruct (decide (q `prefix_of` k)) as [[[|y r] ->]|Hqk].
    + by rewrite app_nil_r in Hkq.
    + rewrite value_at_app in Hk. destruct (value_at q root) as [m|] eqn:Em; [|done]. cbn [mbind option_bind] in Hk.
      by rewrite hidden_no_child in Hk by (by apply Hq).
    + rewrite replace_at_apart by done. apply Hq.
Qed.

(** Nothing is left at the visited paths, whatever their order and even when one
    lies inside another. *)
Lemma visit_hidden ks root w root' w' : hides -> visit_nodes f ks root w = (Ok root', w') ->
  (forall q, clean q root -> clean q root') /\ Forall (fun k => clean k root') ks.
Proof.
  intros Hf. revert root w. induction ks as [|k ks IH]; intros root w; simpl; [by intros [= <- _]|].
  destruct (value_at k root) as [x|] eqn:Ek.
  - intros (n1 & w1 & Hn1 & Hv)%bind_ok. pose proof (Hf _ _ _ _ Hn1) as Hh1. destruct (IH _ _ Hv) as [Hkeep Hall].
    split; [eauto using clean_replace|]. constructor; [|done]. apply Hkeep. intros n.
    rewrite (replace_at_same _ _ _ _ Ek). by intros [= <-].
  - intros Hv. destruct (IH _ _ Hv) as [Hkeep Hall]. split; [done|]. constructor; [|done]. apply Hkeep. intros n. by rewrite Ek.
Qed.

(** Paths none of which leads through another. *)
Definition prefix_free (ks : list (list string)) : Prop := forall k k', k ∈ ks -> k' ∈ ks -> k `prefix_of` k' -> k = k'.

(** What a visit of such paths does, for an invariant of the state that the
    function keeps and a relation between the old and the new node that later
    calls keep. *)
Lemma visit_each (Inv : W -> Prop) (Q : Node -> Node -> W -> Prop) ks root w root' w' :
  (forall n w n' w', Inv w -> f n w = (Ok n', w') -> Inv w' /\ Q n n' w' /\ forall a b, Q a b w -> Q a b w') ->
  prefix_free ks -> NoDup ks -> Inv w -> visit_nodes f ks root w = (Ok root', w') ->
  Inv w' /\ (forall a b, Q a b w -> Q a b w') /\
  (forall k, k ∈ ks -> forall n, value_at k root = Some n -> exists n', value_at k root' = Some n' /\ Q n n' w') /\
  (forall k, k ∈ ks -> value_at k root = None -> value_at k root' = None) /\
  (forall q, (forall k, k ∈ ks -> ~ k `prefix_of` q /\ ~ q `prefix_of` k) -> value_at q root' = value_at q root) /\
  forall q, (forall k, k ∈ ks -> ~ k `prefix_of` q) -> head <$> value_at q root' = head <$> value_at q root.
Proof.
  intros Hf. revert root w. induction ks as [|k ks IH]; intros root w Hpf Hnd Hinv; simpl.
  { intros [= <- <-]. split_and!; [done|done|set_solver|set_solver|done|done]. }
  apply NoDup_cons in Hnd as [Hnk Hnd]. assert (prefix_free ks) as Hpf' by (intros ? ? ? ?; apply Hpf; by right).
  destruct (value_at k root) as [x|] eqn:Ek.
  - intros (n1 & w1 & Hn1 & Hv)%bind_ok. destruct (Hf _ _ _ _ Hinv Hn1) as (Hinv1 & Hq1 & Hmono1).
    destruct (IH _ _ Hpf' Hnd Hinv1 Hv) as (Hinv' & Hmono & Hks & Hno & Hex & Hrest).
    assert (forall k', k' ∈ ks -> ~ k' `prefix_of` k /\ ~ k `prefix_of` k') as Hapart.
    { intros k' Hk'. split; intros Hpre; apply Hnk; [rewrite <- (Hpf k' k) | rewrite (Hpf k k')]; set_solver. }
    split_and!; [done|naive_solver| | | |].
    + intros k' [->|Hk']%elem_of_cons n Hn.
      * rewrite Ek in Hn. injection Hn as <-. exists n1. split; [|by apply Hmono].
        rewrite Hex by done. by eapply replace_at_same.
      * apply (Hks k' Hk' n). rewrite replace_at_apart; naive_solver.
    + intros k' [->|Hk']%elem_of_cons Hn; [congruence|]. apply Hno; [done|]. rewrite replace_at_apart; naive_solver.
    + intros q Hq. destruct (Hq k) as [? ?]; [left|]. rewrite Hex, replace_at_apart; [done|done|done|]. intros k' Hk'. apply Hq. by right.
    + intros q Hq. rewrite Hrest by set_solver. apply replace_at_head. set_solver.
  - intros Hv. destruct (IH _ _ Hpf' Hnd Hinv Hv) as (Hinv' & Hmono & Hks & Hno & Hex & Hrest).
    split_and!; [done|done| | |intros q Hq; apply Hex; set_solver|intros q Hq; apply Hrest; set_solver].
    + intros k' [->|Hk']%elem_of_cons n Hn; [congruence | by apply (Hks k')].
    + intros k' [->|Hk']%elem_of_cons Hn; [|by apply Hno]. rewrite Hex; [done|].
      intros k' Hk'. split; intros Hpre; apply Hnk; [rewrite <- (Hpf k' k) | rewrite (Hpf k k')]; set_solver.
Qed.
End Visits.

(** ** The fields of a schema with plain names *)
Section SchemaInd.
Context (P : Schema -> Prop)
  (Hs : forall t f props one any, Forall (fun nv => P (snd nv)) props -> Forall P one -> Forall P any -> P (mkSchema t f props one any)).
Fixpoint schema_induction (s : Schema) : P s :=
  let '(mkSchema t f props one any) := s in
  let branches := fix branches (l : list Schema) : Forall P l :=
    match l with [] => Forall_nil_2 P | v :: l' => Forall_cons_2 P v l' (schema_induction v) (branches l') end in
  Hs t f props one any
    ((fix members (l : list (string * Schema)) : Forall (fun nv => P (snd nv)) l :=
        match l with [] => Forall_nil_2 _ | (n, v) :: l' => Forall_cons_2 (fun nv => P (snd nv)) (n, v) l' (schema_induction v) (members l') end) props)
    (branches one) (branches any).
End SchemaInd.

Fixpoint plain_schema (s : Schema) : bool :=
  let '(mkSchema _ _ props one any) := s in
  forallb (fun nv => plain_key (fst nv) && plain_schema (snd nv)) props && forallb plain_schema one && forallb plain_schema any.

(** The fields as lists of keys. *)
Fixpoint find_keys (matcher : Schema -> bool) (s : Schema) (p : list string) : list (list string) :=
  if matcher s then [p]
  else
    let '(mkSchema _ _ properties oneOf anyOf) := s in
    concat (map (fun nv => find_keys matcher (snd nv) (p ++ [fst nv])) properties)
    ++ concat (map (fun v => find_keys matcher v p) oneOf) ++ concat (map (fun v => find_keys matcher v p) anyOf).
Definition password_paths (s : Schema) : list (list string) := find_keys password_choice s [].

Lemma plain_char_escape c : letter c || digit_or_mark c = true -> escape c = String c "" /\ Ascii.nat_of_ascii c <> 226%nat /\ Ascii.nat_of_ascii c <> 34%nat.
Proof. destruct c as [[] [] [] [] [] [] [] []]; vm_compute; intuition (congruence || lia). Qed.

Lemma plain_chars k : plain_key k = true -> all_chars (fun c => letter c || digit_or_mark c) k = true.
Proof. destruct k as [|c k]; [done|]. cbn -[letter digit_or_mark String.eqb]. rewrite !andb_true_iff. by intros [[-> ->] _]. Qed.

Lemma escaped_plain k : all_chars (fun c => letter c || digit_or_mark c) k = true -> escaped k = k.
Proof.
  induction k as [|c k IH]; [done|]. cbn [all_chars]. intros [Hc Hk]%andb_true_iff.
  destruct (plain_char_escape c Hc) as (He & H226%Nat.eqb_neq & _).
  assert (escaped (String c k) = escape c +:+ escaped k) as ->; [|by rewrite He, IH].
  cbn -[escape]. rewrite H226. simpl. by destruct k as [|? [|? ?]].
Qed.

Lemma json_string_plain k : plain_key k = true -> json_string k = quote +:+ k +:+ quote.
Proof. intros Hk. unfold json_string. by rewrite escaped_plain by by apply plain_chars. Qed.

Lemma string_app_nil (s : string) : s +:+ "" = s.
Proof. induction s as [|c s IH]; [done|]. exact (f_equal (String c) IH). Qed.
Lemma string_app_assoc (s t u : string) : s +:+ (t +:+ u) = (s +:+ t) +:+ u.
Proof. induction s as [|c s IH]; [done|]. exact (f_equal (String c) IH). Qed.

Lemma plain_path_snoc p k : plain_path (p ++ [k]) = plain_path p +:+ bracket (quote +:+ k +:+ quote).
Proof.
  induction p as [|x p IH]; [unfold plain_path; cbn [foldr app]; by rewrite string_app_nil|].
  unfold plain_path in *. cbn [foldr app]. by rewrite IH, string_app_assoc.
Qed.

(** The code finds the fields. *)
Lemma find_paths_keys matcher s : plain_schema s = true -> forall p,
  findPathsMatching matcher s (plain_path p) = map plain_path (find_keys matcher s p).
Proof.
  induction s as [t f props one any Hprops Hone Hany] using schema_induction. cbn [plain_schema].
  rewrite !andb_true_iff, !forallb_forall. intros [[Pp Po] Pa] p. cbn [findPathsMatching find_keys].
  destruct (matcher _); [done|]. rewrite !map_app. f_equal; [|f_equal].
  - clear Hone Hany Po Pa. induction Hprops as [|[n v] l Hv Hl IH]; [done|]. cbn [map concat fst snd]. rewrite map_app.
    destruct (andb_prop _ _ (Pp (n, v) (or_introl eq_refl))) as [Hn Hs]. rewrite json_string_plain, <- plain_path_snoc by done. f_equal; [by apply Hv|].
    apply IH. intros nv Hin. apply Pp. by right.
  - clear Hprops Hany Pp Pa. induction Hone as [|v l Hv Hl IH]; [done|]. cbn [map concat]. rewrite map_app.
    f_equal; [apply Hv, Po; by left | apply IH; intros x Hx; apply Po; by right].
  - clear Hprops Hone Pp Po. induction Hany as [|v l Hv Hl IH]; [done|]. cbn [map concat]. rewrite map_app.
    f_equal; [apply Hv, Pa; by left | apply IH; intros x Hx; apply Pa; by right].
Qed.

Lemma find_keys_plain matcher s : plain_schema s = true -> forall p, Forall (fun k => plain_key k = true) p ->
  Forall (Forall (fun k => plain_key k = true)) (find_keys matcher s p).
Proof.
  induction s as [t f props one any Hprops Hone Hany] using schema_induction. cbn [plain_schema].
  rewrite !andb_true_iff, !forallb_forall. intros [[Pp Po] Pa] p Hp. cbn [find_keys].
  destruct (matcher _); [by constructor|]. rewrite !Forall_app, !Forall_concat, !Forall_fmap. split_and!.
  - rewrite Forall_forall in Hprops |- *. intros [n v] Hin. destruct (andb_prop _ _ (Pp (n, v) (proj1 (list_elem_of_In _ _) Hin))) as [Hn Hs].
    apply (Hprops _ Hin); [done|]. apply Forall_app. split; [done | by constructor].
  - rewrite Forall_forall in Hone |- *. intros v Hin. apply (Hone _ Hin); [|done]. apply Po. by apply list_elem_of_In.
  - rewrite Forall_forall in Hany |- *. intros v Hin. apply (Hany _ Hin); [|done]. apply Pa. by apply list_elem_of_In.
Qed.

(** A key ends at the first quote. *)
Lemma quoted_inj k k' r r' : all_chars (fun c => letter c || digit_or_mark c) k = true -> all_chars (fun c => letter c || digit_or_mark c) k' = true ->
  k +:+ (quote +:+ r) = k' +:+ (quote +:+ r') -> k = k' /\ r = r'.
Proof.
  revert k'. induction k as [|c k IH]; intros [|c' k']; cbn [all_chars]; rewrite ?andb_true_iff.
  - intros _ _ Heq. injection Heq as Heq. split; [done | exact Heq].
  - intros _ [Hc _] Heq. injection Heq as <- _. by vm_compute in Hc.
  - intros [Hc _] _ Heq. injection Heq as -> _. by vm_compute in Hc.
  - intros [_ Hk] [_ Hk'] Heq. injection Heq as <- Heq. by destruct (IH _ Hk Hk' Heq) as [-> ->].
Qed.

Lemma plain_path_cons k p : plain_path (k :: p) = "[" +:+ (quote +:+ (k +:+ (quote +:+ ("]" +:+ plain_path p)))).
Proof. unfold plain_path at 1, bracket. cbn [foldr]. fold (plain_path p). by rewrite <- !string_app_assoc. Qed.

Lemma plain_path_inj p q : Forall (fun k => plain_key k = true) p -> Forall (fun k => plain_key k = true) q -> plain_path p = plain_path q -> p = q.
Proof.
  revert q. induction p as [|k p IH]; intros [|k' q] Hp Hq; rewrite ?plain_path_cons; [done|done|done|].
  apply Forall_cons in Hp as [Hk Hp]. apply Forall_cons in Hq as [Hk' Hq]. intros [= Heq].
  apply quoted_inj in Heq as [-> Heq]; [|by apply plain_chars..]. injection Heq as Heq. by rewrite (IH _ Hp Hq Heq).
Qed.

(** A list of texts of paths is the list of the texts of some of the paths. *)
Lemma choose_paths (ks : list (list string)) (l : list string) : (forall x, x ∈ l -> x ∈ map plain_path ks) ->
  exists ks', l = map plain_path ks' /\ ks' ⊆ ks.
Proof.
  induction l as [|x l IH]; intros Hl; [exists []; split; [done | by intros y ?%elem_of_nil]|]. destruct IH as (ks' & -> & Hsub); [intros y Hy; apply Hl; by right|].
  assert (x ∈ map plain_path ks) as (k & -> & Hk)%list_elem_of_fmap by (apply Hl; left). exists (k :: ks'). split; [done|]. intros y [->|Hy]%elem_of_cons; [done | by apply Hsub].
Qed.

Section Modified.
Context `{JsonLibrary} {W : Type}.

Lemma visit_fields_plain (f : Node -> M W error Node) ks root w : Forall (Forall (fun k => plain_key k = true)) ks ->
  visit_fields f (map plain_path ks) root w = visit_nodes f ks root w.
Proof.
  intros Hks. revert root w. induction Hks as [|k ks Hk Hks IH]; intros root w; [done|]. cbn [map visit_fields visit_nodes].
  rewrite JSONPath_plain by done. unfold bind. destruct (value_at k root) as [n|] eqn:Ek; cbn [visit_nodes].
  - rewrite Ek. unfold bind. destruct (f n w) as [[n'|e] w1]; [apply IH | done].
  - apply IH.
Qed.

(** What the function keeps, the visit keeps, whatever the schema and the paths. *)
Lemma modify_invariant (P : W -> Prop) schemaBytes doc (f : Node -> M W error Node) w r w' :
  (forall n w r w', P w -> f n w = (r, w') -> P w') -> P w -> ModifySecrets schemaBytes doc f w = (r, w') -> P w'.
Proof.
  intros Hf Hw. assert (forall ps root w r w', P w -> visit_nodes f ps root w = (r, w') -> P w') as Hnodes.
  { clear -Hf. induction ps as [|p ps IH]; intros root w r w' Hw; simpl; [by intros [= _ <-]|].
    destruct (value_at p root); [|by apply IH]. intros [(n' & w1 & H1%Hf & Hv)|(e & H1%Hf & _)]%bind_inv; [by eapply IH|done..]. }
  assert (forall fields root w r w', P w -> visit_fields f fields root w = (r, w') -> P w') as Hfields.
  { clear -Hnodes. induction fields as [|x fields IH]; intros root w r w' Hw; simpl; [by intros [= _ <-]|].
    intros [(root' & w1 & H1%Hnodes & Hr)|(e & H1%Hnodes & _)]%bind_inv; [by eapply IH|done..]. }
  unfold ModifySecrets, modifySecrets. intros [(fields & w1 & [= _ <-] & Hr)|(e & [= _ <-] & _)]%bind_inv; [|done].
  apply bind_inv in Hr as [(root & w1 & [= _ <-] & Hr)|(e & [= _ <-] & _)]; [|done].
  apply bind_inv in Hr as [(root' & w1 & H1%Hfields & Hr)|(e & H1%Hfields & _)]; [by injection Hr as _ <-|done..].
Qed.

(** [modifySecrets] visits the password fields of the document, each once. *)
Lemma modify_ok schemaBytes schema doc f w text (w' : W) : compile schemaBytes = Ok schema -> plain_schema schema = true ->
  ModifySecrets schemaBytes doc f w = (Ok text, w') ->
  exists ks root root', (forall k, k ∈ ks <-> k ∈ password_paths schema) /\ NoDup ks /\ ajson_Unmarshal doc = Ok root /\
    visit_nodes f ks root w = (Ok root', w') /\ ajson_Marshal root' = Ok text.
Proof.
  intros Hc Hplain Hrun. unfold ModifySecrets, modifySecrets, getPathsToPasswordFields in Hrun. rewrite Hc in Hrun. cbn [rbind] in Hrun.
  pose proof (find_keys_plain password_choice schema Hplain [] (Forall_nil_2 _)) as Hall. fold (password_paths schema) in Hall.
  change "" with (plain_path []) in Hrun. rewrite (find_paths_keys _ _ Hplain) in Hrun. fold (password_paths schema) in Hrun.
  apply bind_ok in Hrun as (fields & w1 & [= <- <-] & Hrun). apply bind_ok in Hrun as (root & w1 & [= Hroot <-] & Hrun).
  apply bind_ok in Hrun as (root' & w1 & Hv & [= Ht ->]).
  pose proof (map_range_perm (remove_dups (map plain_path (password_paths schema)))) as Hperm.
  destruct (choose_paths (password_paths schema) (map_range (remove_dups (map plain_path (password_paths schema))))) as (ks & Hks & Hsub).
  { intros x. rewrite Hperm, elem_of_remove_dups. done. }
  exists ks, root, root'. rewrite Hks in Hv, Hperm. assert (Forall (Forall (fun k => plain_key k = true)) ks) as Hplain_ks.
  { rewrite Forall_forall in Hall |- *. intros k Hk. by apply Hall, Hsub. }
  rewrite visit_fields_plain in Hv by done. split_and!; try done.
  - intros k. split; [apply Hsub|]. intros Hk.
    assert (plain_path k ∈ map plain_path ks) as (k' & Heq & Hk')%list_elem_of_fmap.
    { rewrite Hperm, elem_of_remove_dups. apply list_elem_of_fmap. eauto. }
    apply plain_path_inj in Heq as ->; [done| |]; [by eapply Forall_forall in Hall | by eapply Forall_forall in Hplain_ks].
  - apply (NoDup_fmap_1 plain_path). rewrite Hperm. apply NoDup_remove_dups.
Qed.
End Modified.

(** ** Libraries, for the witnesses

    A document is written as the bits of the number that encodes it. *)
Module JsonExample.
Fixpoint to_tree (n : Node) : gen_tree string :=
  match n with
  | JNull => GenNode 0 []
  | JBool b => GenNode (if b then 1 else 2) []
  | JNumber t => GenNode 3 [GenLeaf t]
  | JString s => GenNode 4 [GenLeaf s]
  | JArray l => GenNode 5 (map to_tree l)
  | JObject m => GenNode 6 (map (fun kv => GenNode 7 [GenLeaf (fst kv); to_tree (snd kv)]) m)
  end.
Fixpoint of_tree (t : gen_tree string) : Node :=
  match t with
  | GenNode 1 _ => JBool true
  | GenNode 2 _ => JBool false
  | GenNode 3 [GenLeaf t] => JNumber t
  | GenNode 4 [GenLeaf s] => JString s
  | GenNode 5 l => JArray (map of_tree l)
  | GenNode 6 l => JObject (map (fun t => match t with GenNode 7 [GenLeaf k; v] => (k, of_tree v) | _ => ("", JNull) end) l)
  | _ => JNull
  end.
Fixpoint of_to_tree (n : Node) : of_tree (to_tree n) = n.
Proof.
  destruct n as [|[]|t|s|l|m]; try reflexivity; simpl; f_equal.
  - induction l as [|x l IH]; [reflexivity|]. simpl. f_equal; [apply of_to_tree | exact IH].
  - induction m as [|[k v] m IH]; [reflexivity|]. simpl. f_equal; [f_equal; apply of_to_tree | exact IH].
Defined.

Fixpoint bits (p : positive) : string :=
  match p with xH => "" | xO p' => String "0" (bits p') | xI p' => String "1" (bits p') end.
Fixpoint number (s : string) : positive :=
  match s with EmptyString => xH | String c s' => if Ascii.eqb c "0" then xO (number s') else xI (number s') end.
Lemma number_bits p : number (bits p) = p.
Proof. induction p as [p IH|p IH|]; simpl; by rewrite ?IH. Qed.

Definition write (n : Node) : result error string := Ok (String "J" (bits (encode (to_tree n)))).
Definition read (s : string) : result error Node :=
  match s with
  | "{}" => Ok (JObject [])
  | String "J" s' => match decode (number s') with Some t => Ok (of_tree t) | None => Err (EPlain "invalid character") end
  | _ => Err (EPlain "unexpected end of JSON input")
  end.
Lemma read_write n s : write n = Ok s -> read s = Ok n.
Proof. intros [= <-]. simpl. by rewrite number_bits, decode_encode, of_to_tree. Qed.

(** Keys in brackets and quotes; [acc] is the key that is being read. *)
Fixpoint parse_path (acc : option string) (s : string) : option (list string) :=
  match s, acc with
  | EmptyString, None => Some []
  | EmptyString, Some _ => None
  | String c s', None =>
      match s' with String c' s'' => if Ascii.eqb c "[" && (Ascii.nat_of_ascii c' =? 34)%nat then parse_path (Some "") s'' else None | _ => None end
  | String c s', Some k =>
      if (Ascii.nat_of_ascii c =? 34)%nat
      then match s' with String c' s'' => if Ascii.eqb c' "]" then cons k <$> parse_path None s'' else None | _ => None end
      else parse_path (Some (k +:+ String c "")) s'
  end.

Lemma parse_key acc k r : all_chars (fun c => letter c || digit_or_mark c) k = true ->
  parse_path (Some acc) (k +:+ (quote +:+ ("]" +:+ r))) = cons (acc +:+ k) <$> parse_path None r.
Proof.
  revert acc. induction k as [|c k IH]; intros acc; [by rewrite string_app_nil|]. cbn [all_chars]. intros [Hc Hk]%andb_true_iff.
  destruct (plain_char_escape c Hc) as (_ & _ & Hq%Nat.eqb_neq).
  change (String c k +:+ (quote +:+ ("]" +:+ r))) with (String c (k +:+ (quote +:+ ("]" +:+ r)))). cbn [parse_path]. rewrite Hq, IH by done.
  by rewrite <- string_app_assoc.
Qed.
Lemma parse_plain p : Forall (fun k => plain_key k = true) p -> parse_path None (plain_path p) = Some p.
Proof.
  induction 1 as [|k p Hk Hp IH]; [done|]. rewrite plain_path_cons.
  change (parse_path (Some "") (k +:+ (quote +:+ ("]" +:+ plain_path p))) = Some (k :: p)). rewrite parse_key, IH by by apply plain_chars. done.
Qed.

Definition select (root : Node) (path : string) : list (list string) :=
  match path with
  | String "$" s => match parse_path None s with Some p => match value_at p root with Some _ => [p] | None => [] end | None => [] end
  | _ => []
  end.

Lemma select_plain root p : Forall (fun k => plain_key k = true) p ->
  select root ("$" +:+ plain_path p) = match value_at p root with Some _ => [p] | None => [] end.
Proof.
  intros Hp%parse_plain. transitivity (match parse_path None (plain_path p) with
    | Some p => match value_at p root with Some _ => [p] | None => [] end | None => [] end); [reflexivity|]. by rewrite Hp.
Qed.

(** A source with a user name, a password, the token of a proxy and a field with a
    dotted name; every text of a schema stands for this one. *)
Definition password_schema : Schema :=
  mkSchema [] "" [] [mkSchema ["string"] "password" [] [] []; mkSchema ["object"] "" [] [] []] [].
Definition source_schema : Schema :=
  mkSchema ["object"] "" [("user", mkSchema ["string"] "" [] [] []); ("password", password_schema);
    ("proxy", mkSchema ["object"] "" [("token", password_schema)] [] []); ("kafka.secret", password_schema)] [] [].

#[export] Program Instance library : JsonLibrary := {|
  compile s := match read s with Ok _ => Ok source_schema | Err e => Err e end;
  ajson_Unmarshal := read; ajson_Marshal := write; JSONPath := select;
  SetObject m n := Ok (JObject m); SetNull n := Ok JNull; json_Marshal := write; json_Unmarshal := read; map_range := id |}.
Next Obligation. exact select_plain. Qed.
Next Obligation. by intros m n n' [= <-]. Qed.
Next Obligation. by intros n n' [= <-]. Qed.
Next Obligation. intros n s Hw. exists n. split; [by apply read_write | done]. Qed.
Next Obligation. intros n s Hw. exists n. split; [by apply read_write | done]. Qed.
Next Obligation. done. Qed.
Next Obligation. intros s n n' H1 H2. rewrite H1 in H2. injection H2 as ->. done. Qed.
Next Obligation. done. Qed.
Next Obligation. done. Qed.
End JsonExample.
Export (hints) JsonExample.
