(* ===== verification/Middlewares.v ===== *)
(** * The middlewares of authorisation: [src/pkg/auth], [src/pkg/acl] and
    [src/internal/kafka/internal/acl]

    The claims of a token as the JSON object they are, the accessors of
    [kfm_claims.go], and every middleware that decides whether a request
    reaches its handler.  A handler is a computation over an exchange: the
    world of the services together with what has been written to the client
    and to the audit log.  A type assertion that does not hold is a panic.

    The verification of the signature and of the issuer of a token, the cache
    of the terms middleware and the client of the account service are
    third-party code and parameters. *)
From S2P Require Import Prelude Arrays Errors Status Config Model Store ClusterService QuotaList Validation Secrets.

(** ** Claims *)
Inductive value :=
| VNull
| VBool (b : bool)
| VNumber (n : Z)
| VString (s : string)
| VArray (l : list value)
| VObject (fields : list (string * value)).

Definition MapClaims : Type := gmap string value.

Inductive panic := TypeAssertion | NilPointer.

(** [m[k]], [nil] when the key is absent or holds a JSON null. *)
Definition claim (c : MapClaims) (k : string) : option value :=
  match c !! k with Some VNull | None => None | Some v => Some v end.

Fixpoint member (fields : list (string * value)) (k : string) : option value :=
  match fields with
  | [] => None
  | (k', v) :: rest => if k' =?s k then Some v else member rest k
  end.

(** [v.(string)] and [v.(bool)], without the comma. *)
Definition assert_string (v : value) : result panic string :=
  match v with VString s => Ok s | _ => Err TypeAssertion end.
Definition assert_bool (v : value) : result panic bool :=
  match v with VBool b => Ok b | _ => Err TypeAssertion end.

(** The keys, variables that flags may set: [context_config.go]. *)
Record ContextConfig := mkContextConfig {
  tenantUsernameClaim : string;
  tenantIdClaim : string;
  tenantOrgAdminClaim : string;
  alternateTenantUsernameClaim : string;
  tenantUserIdClaim : string;
  clientIDclaim : string;
  alternateTenantIdClaim : string
}.
Definition NewContextConfig : ContextConfig :=
  mkContextConfig "username" "org_id" "is_org_admin" "preferred_username" "account_id" "clientId" "rh-org-id".

Section Claims.
Context (keys : ContextConfig).

Definition attribute_missing : error := EPlain "can't find '%s' attribute in claims".
Definition attributes_missing : error := EPlain "can't find neither '%s' or '%s' attribute in claims".

(** [FindFirst] over the two claims, with the predicate [x != nil]. *)
Definition Claims_GetUsername (c : MapClaims) : result panic (result error string) :=
  match claim c keys.(tenantUsernameClaim), claim c keys.(alternateTenantUsernameClaim) with
  | Some v, _ | None, Some v => s <-! assert_string v ;; Ok (Ok s)
  | None, None => Ok (Err attributes_missing)
  end.

Definition Claims_GetAccountId (c : MapClaims) : result panic (result error string) :=
  match claim c keys.(tenantUserIdClaim) with
  | Some v => s <-! assert_string v ;; Ok (Ok s)
  | None => Ok (Err attribute_missing)
  end.

Definition Claims_GetClientID (c : MapClaims) : result panic (result error string) :=
  match claim c keys.(clientIDclaim) with
  | Some v => s <-! assert_string v ;; Ok (Ok s)
  | None => Ok (Err attribute_missing)
  end.

(** The organisation is read with the comma: another type is skipped. *)
Definition Claims_GetOrgId (c : MapClaims) : result error string :=
  match claim c keys.(tenantIdClaim) with
  | Some (VString o) => Ok o
  | _ => match claim c keys.(alternateTenantIdClaim) with
         | Some (VString o) => Ok o
         | _ => Err attributes_missing
         end
  end.

Definition RawClaims_IsOrgAdmin (c : MapClaims) : result panic bool :=
  match claim c keys.(tenantOrgAdminClaim) with
  | Some v => assert_bool v
  | None => Ok false
  end.
End Claims.

(** [getRealmRolesClaim] and [hasRole]. *)
Fixpoint assert_strings (l : list value) : result panic (list string) :=
  match l with
  | [] => Ok []
  | v :: rest => s <-! assert_string v ;; ss <-! assert_strings rest ;; Ok (s :: ss)
  end.

Definition getRealmRolesClaim (c : MapClaims) : result panic (list string) :=
  match c !! "realm_access" with
  | Some (VObject roles) =>
      match member roles "roles" with
      | Some (VArray arr) => assert_strings arr
      | _ => Ok []
      end
  | _ => Ok []
  end.

Definition hasRole (roles : list string) (roleName : string) : bool :=
  AnyMatch roles (StringEqualsIgnoreCasePredicate roleName).

(** ** Requests, exchanges and handlers *)
Record HttpRequest := mkHttpRequest {
  Method : string;
  RequestURI : string;
  RemoteAddr : string;
  Body : string;
  Vars : gmap string string;
  (** The token that the authentication handler left in the context; [None] for
      no token, or a token without claims. *)
  Token : result error (option MapClaims);
  contextIsAdmin : option bool;
  contextFilterByOrganisation : option bool
}.
Definition eta_HttpRequest r := mkHttpRequest (Method r) (RequestURI r) (RemoteAddr r) (Body r) (Vars r) (Token r) (contextIsAdmin r) (contextFilterByOrganisation r).
#[export] Instance set_contextIsAdmin : Setter contextIsAdmin := ltac:(build_setter eta_HttpRequest).
#[export] Instance set_contextFilter : Setter contextFilterByOrganisation := ltac:(build_setter eta_HttpRequest).

Definition GetIsAdminFromContext (r : HttpRequest) : bool := default false r.(contextIsAdmin).
Definition SetIsAdminContext (r : HttpRequest) (isAdmin : bool) : HttpRequest := r <| contextIsAdmin := Some isAdmin |>.
Definition GetFilterByOrganisationFromContext (r : HttpRequest) : bool := default false r.(contextFilterByOrganisation).
Definition SetFilterByOrganisationContext (r : HttpRequest) (filterByOrganisation : bool) : HttpRequest :=
  r <| contextFilterByOrganisation := Some filterByOrganisation |>.

(** A nil map reads as an empty one. *)
Definition GetClaimsFromContext (r : HttpRequest) : result error MapClaims :=
  match r.(Token) with
  | Err e => Err (EWrap "failed to get jwt token from context: %v" e)
  | Ok None => Ok ∅
  | Ok (Some claims) => Ok claims
  end.

(** What a handler writes: a status, with an error or with the value whose JSON
    text is the body. *)
Definition document : Type := { A : Set & A }.
Record Response := mkResponse { resp_status : Z; resp_error : option ServiceError; resp_body : option document }.

(** The body is a reader, which the line of the audit log shows without its
    content. *)
Record auditInfo := mkAuditInfo {
  audit_Type : string;
  audit_Username : string;
  audit_Method : string;
  audit_RequestURI : string;
  audit_Body : option string;
  audit_RemoteAddr : string;
  ResponseStatusCode : Z
}.

Record Exchange (W : Type) := mkExchange {
  world : W;
  (** The calls of [WriteHeader], in their order. *)
  written : list Response;
  audit : list string
}.
Arguments mkExchange {W}.
Arguments world {W}.
Arguments written {W}.
Arguments audit {W}.

(** The status the client receives is that of the first call. *)
Definition sent_status {W} (x : Exchange W) : option Z := resp_status <$> x.(written) !! 0%nat.

Section Handlers.
Context {W : Type}.

Definition Handler : Type := HttpRequest -> M (Exchange W) panic unit.
Definition Middleware : Type := Handler -> Handler.

Definition respond (resp : Response) : M (Exchange W) panic unit :=
  fun x => (Ok tt, mkExchange x.(world) (x.(written) ++ [resp]) x.(audit)).
Definition HandleError (err : ServiceError) : M (Exchange W) panic unit := respond (mkResponse (HttpCode err) (Some err) None).
Definition log_line (line : string) : M (Exchange W) panic unit :=
  fun x => (Ok tt, mkExchange x.(world) x.(written) (x.(audit) ++ [line])).

(** A computation of the services, its outcome as a value. *)
Definition in_world {E A} (m : M W E A) : M (Exchange W) panic (result E A) :=
  fun x => let '(r, w') := m x.(world) in (Ok r, mkExchange w' x.(written) x.(audit)).
Definition pure {A} (r : result panic A) : M (Exchange W) panic A := lift r.

Context (keys : ContextConfig).

(** ** Require an issuer, an organisation: [require_issuer_middleware.go],
    [require_org_id_middleware.go] *)
Section Issuer.
(** [jwt.MapClaims.VerifyIssuer]. *)
Context (VerifyIssuer : MapClaims -> string -> bool -> bool).

Definition RequireIssuer (issuers : list string) (code : Z) : Middleware := fun next request =>
  match GetClaimsFromContext request with
  | Err _ => HandleError (New code "")
  | Ok claims =>
      let issuerAccepted := AnyMatch issuers (fun issuer => VerifyIssuer claims issuer true) in
      if negb issuerAccepted then HandleError (New code "") else next request
  end.
End Issuer.

Definition RequireOrgID (code : Z) : Middleware := fun next request =>
  match GetClaimsFromContext request with
  | Err _ => HandleError (New code "")
  | Ok claims =>
      let orgID := value_or_zero (Claims_GetOrgId keys claims) in
      if orgID =?s "" then HandleError (New code "") else next request
  end.

(** ** Roles: [roles_authz.go], [roles_authz_middleware.go] *)
Record RolesConfiguration := mkRolesConfiguration { HTTPMethod : string; RoleNames : list string }.

(** The last entry of a method wins. *)
Definition GetRoleMapping (config : list RolesConfiguration) : gmap string (list string) :=
  fold_left (fun roleMapping c => <[c.(HTTPMethod) := c.(RoleNames)]> roleMapping) config ∅.

Definition allowedHTTPMethods : list string := ["GET"; "POST"; "PUT"; "PATCH"; "DELETE"].
Definition validateRolesConfiguration (configs : list RolesConfiguration) : result error unit :=
  first_error (fun c => if negb (Contains allowedHTTPMethods c.(HTTPMethod))
                        then Err (EPlain "invalid http method used %q, expected to be one of [%s]") else Ok tt) configs.

Definition RequireRealmRole (roleName : string) (code : Z) : Middleware := fun next request =>
  match GetClaimsFromContext request with
  | Err _ => HandleError (New code "")
  | Ok claims =>
      roles <~ pure (getRealmRolesClaim claims) ;;
      if hasRole roles roleName then next request else HandleError (New code "")
  end.

Definition RequireRolesForMethods (config : list RolesConfiguration) (code : Z) : Middleware := fun next request =>
  match GetRoleMapping config !! request.(Method) with
  | None => HandleError (New code "")
  | Some allowedRoles =>
      match GetClaimsFromContext request with
      | Err _ => HandleError (New code "")
      | Ok claims =>
          realmRoles <~ pure (getRealmRolesClaim claims) ;;
          if existsb (hasRole realmRoles) allowedRoles then next (SetIsAdminContext request true)
          else HandleError (New code "")
      end
  end.

(** ** The agents of the data plane: [operator_authz_middleware.go]

    The failed look-up of the client answers the request and goes on. *)
Section Agents.
Context (GetClientID : string -> M W error string).

Definition checkClusterId (clusterIdVar : string) : Middleware := fun next request =>
  let clusterId := default "" (request.(Vars) !! clusterIdVar) in
  match GetClaimsFromContext request with
  | Err _ => HandleError (NotFound "")
  | Ok claims =>
      saved <~ in_world (GetClientID clusterId) ;;
      savedClientId <~ match saved with
                       | Ok id => ret id
                       | Err _ => _ <~ HandleError (GeneralError "unable to get clientID for cluster with ID '%s'") ;; ret ""
                       end ;;
      clientID <~ pure (Claims_GetClientID keys claims) ;;
      match clientID with
      | Err _ => HandleError (NotFound "")
      | Ok clientID => if clientID =?s savedClientId then next request else HandleError (NotFound "")
      end
  end.
End Agents.

(** ** Terms: [require_terms_acceptance_middleware.go] *)
Section Terms.
Context (cache_Get : string -> W -> option bool) (cache_Set : string -> bool -> W -> W).
Context (GetRequiresTermsAcceptance : string -> M W error bool).

Definition put (f : W -> W) : M (Exchange W) panic unit :=
  fun x => (Ok tt, mkExchange (f x.(world)) x.(written) x.(audit)).

Definition RequireTermsAcceptance (enabled : bool) (code : Z) : Middleware := fun next request =>
  if enabled then
    match GetClaimsFromContext request with
    | Err err => HandleError (NewWithCause code (Some err) "")
    | Ok claims =>
        u <~ pure (Claims_GetUsername keys claims) ;;
        let username := value_or_zero u in
        fun x =>
          match cache_Get username x.(world) with
          | Some termsRequired =>
              if termsRequired then HandleError (New code "required terms have not been accepted") x else next request x
          | None =>
              (answer <~ in_world (GetRequiresTermsAcceptance username) ;;
               match answer with
               | Err err => HandleError (NewWithCause code (Some err) "")
               | Ok termsRequired =>
                   _ <~ put (cache_Set username termsRequired) ;;
                   if termsRequired then HandleError (New code "required terms have not been accepted") else next request
               end) x
          end
    end
  else next request.
End Terms.

(** ** The access control lists: [access_control_list.go],
    [access_control_list_middleware.go] *)
Record AccessControlListConfig := mkAccessControlListConfig {
  DenyList : list string;
  AccessList : list string;
  EnableDenyList : bool;
  EnableAccessList : bool
}.
Definition IsUserDenied (deniedAccounts : list string) (username : string) : bool := Contains deniedAccounts username.
Definition IsOrganisationAccepted (acceptedOrganisations : list string) (orgId : string) : bool := Contains acceptedOrganisations orgId.

Definition Authorize (config : AccessControlListConfig) : Middleware := fun next r =>
  match GetClaimsFromContext r with
  | Err err => HandleError (NewWithCause ErrorForbidden (Some err) "")
  | Ok claims =>
      u <~ pure (Claims_GetUsername keys claims) ;;
      let username := value_or_zero u in
      if config.(EnableDenyList) && IsUserDenied config.(DenyList) username
      then HandleError (New ErrorForbidden "user '%s' is not authorized to access the service.")
      else
        let orgId := value_or_zero (Claims_GetOrgId keys claims) in
        if config.(EnableAccessList) && negb (IsOrganisationAccepted config.(AccessList) orgId)
        then HandleError (New ErrorServiceIsUnderMaintenance "organisation '%s' is not authorized to access the service during the current service maintenance.")
        else next (SetFilterByOrganisationContext r (negb (orgId =?s "")))
  end.

(** ** Enterprise clusters: [enterprise_clusters_access_control_middleware.go] *)
Section Enterprise.
Context (CheckIfQuotaIsDefinedForInstanceType : string -> string -> string -> KafkaBillingModel -> M W ServiceError bool).

Record EnterpriseClustersAccessControlMiddleware := mkEnterpriseMiddleware {
  enterpriseBillingModel : option KafkaBillingModel;
  quotaService : option string
}.

Definition NewEnterpriseClustersAccessControlMiddleware (kafkaConfig : KafkaConfig) (quotaType : string) : EnterpriseClustersAccessControlMiddleware :=
  mkEnterpriseMiddleware
    (match GetKafkaInstanceTypeByID kafkaConfig.(SupportedInstanceTypes) STANDARD with
     | Err _ => None
     | Ok standard => match GetKafkaSupportedBillingModelByID standard BillingModelEnterprise with Ok bm => Some bm | Err _ => None end
     end)
    (match GetQuotaService quotaType with Ok t => Some t | Err _ => None end).

Definition Enterprise_Authorize (middleware : EnterpriseClustersAccessControlMiddleware) : Middleware := fun next r =>
  match middleware.(enterpriseBillingModel), middleware.(quotaService) with
  | None, _ => HandleError (New ErrorGeneral "enterprise billing model configuration error")
  | Some _, None => HandleError (New ErrorGeneral "quota service configuration error")
  | Some billingModel, Some _ =>
      match GetClaimsFromContext r with
      | Err err => HandleError (NewWithCause ErrorUnauthorized (Some err) "")
      | Ok claims =>
          let orgId := value_or_zero (Claims_GetOrgId keys claims) in
          u <~ pure (Claims_GetUsername keys claims) ;;
          let username := value_or_zero u in
          answer <~ in_world (CheckIfQuotaIsDefinedForInstanceType username orgId STANDARD billingModel) ;;
          match answer with
          | Err e => HandleError (NewWithCause ErrorGeneral (Some (EService e)) "")
          | Ok hasQuota =>
              if negb hasQuota then HandleError (New ErrorUnauthorized "organization '%s' is not authorized to access the service")
              else next r
          end
      end
  end.
End Enterprise.

(** ** Audit: [audit_log_middleware.go], [formatter_json.go]

    [FormatObject] is [json.Marshal] of the structure: the members marked
    [omitempty] are left out when they are empty, and the body, a structure of
    package [net/http] without exported fields, is the empty object.
    [GetResponseStatusCode] is the status of the last [WriteHeader] of the
    handler, zero when it called none. *)
Section Audit.
Definition json_member (name text : string) : list string := [json_string name +:+ ":" +:+ text].
Definition json_member_omitempty (name s : string) : list string := if s =?s "" then [] else json_member name (json_string s).
Definition audit_text (info : auditInfo) : string :=
  "{" +:+ Join (json_member "type" (json_string info.(audit_Type)) ++ json_member "username" (json_string info.(audit_Username)) ++
    json_member_omitempty "request_method" info.(audit_Method) ++ json_member_omitempty "request_url" info.(audit_RequestURI) ++
    match info.(audit_Body) with Some _ => json_member "request_body" "{}" | None => [] end ++
    json_member_omitempty "request_remote_ip" info.(audit_RemoteAddr) ++
    (if info.(ResponseStatusCode) =? 0 then [] else json_member "response_status_code" (pretty info.(ResponseStatusCode)))) "," +:+ "}".
Definition FormatObject (info : auditInfo) : result error string := Ok (audit_text info).

Definition LogObject (info : auditInfo) : M (Exchange W) panic (result error unit) :=
  match FormatObject info with
  | Err e => ret (Err e)
  | Ok line => _ <~ log_line line ;; ret (Ok tt)
  end.

Definition status_since (n : nat) (x : Exchange W) : Z :=
  match last (drop n x.(written)) with Some resp => resp.(resp_status) | None => 0 end.

Definition AuditLog (code : Z) : Middleware := fun next request =>
  match GetClaimsFromContext request with
  | Err _ => HandleError (New code "")
  | Ok claims =>
      u <~ pure (Claims_GetUsername keys claims) ;;
      let info := mkAuditInfo "audit" (value_or_zero u) request.(Method) request.(RequestURI) (Some request.(Body)) request.(RemoteAddr) 0 in
      logged <~ LogObject info ;;
      match logged with
      | Err _ => HandleError (New code "")
      | Ok _ => fun x =>
          (_ <~ next request ;;
           fun x' => (_ <~ LogObject (mkAuditInfo "audit" "" "" "" None "" (status_since (length x.(written)) x')) ;; ret tt) x') x
      end
  end.
End Audit.
End Handlers.
Arguments Handler : clear implicits.
Arguments Middleware : clear implicits.

(** ** The claims as the services see them

    [Validation.v] reads a token whose claims have the types that the code
    asserts; [typed_claims] is that reading, and the accessors agree. *)
Section Typed.
Context (keys : ContextConfig).

Definition string_claim (c : MapClaims) (k : string) : option string :=
  match claim c k with Some (VString s) => Some s | _ => None end.
Definition bool_claim (c : MapClaims) (k : string) : option bool :=
  match claim c k with Some (VBool b) => Some b | _ => None end.

Definition typed_claims (c : MapClaims) : KFMClaims :=
  mkKFMClaims (string_claim c keys.(tenantUsernameClaim)) (string_claim c keys.(alternateTenantUsernameClaim))
    (string_claim c keys.(tenantUserIdClaim)) (string_claim c keys.(tenantIdClaim)) (string_claim c keys.(alternateTenantIdClaim))
    (bool_claim c keys.(tenantOrgAdminClaim)).

Definition string_or_absent (c : MapClaims) (k : string) : bool :=
  match claim c k with None | Some (VString _) => true | Some _ => false end.
Definition bool_or_absent (c : MapClaims) (k : string) : bool :=
  match claim c k with None | Some (VBool _) => true | Some _ => false end.

(** The claims that the code asserts to be strings, or a boolean. *)
Definition well_typed (c : MapClaims) : bool :=
  string_or_absent c keys.(tenantUsernameClaim) && string_or_absent c keys.(alternateTenantUsernameClaim) &&
  string_or_absent c keys.(tenantUserIdClaim) && string_or_absent c keys.(clientIDclaim) &&
  bool_or_absent c keys.(tenantOrgAdminClaim).

Definition request_context (r : HttpRequest) : RequestContext :=
  mkRequestContext (match GetClaimsFromContext r with Ok c => Ok (typed_claims c) | Err e => Err e end)
    (GetIsAdminFromContext r) (GetFilterByOrganisationFromContext r).

Lemma typed_username c : well_typed c = true -> Claims_GetUsername keys c = Ok (GetUsername (typed_claims c)).
Proof.
  unfold well_typed, string_or_absent. intros Ht. unfold Claims_GetUsername, GetUsername, typed_claims, string_claim. simpl.
  repeat rewrite andb_true_iff in Ht. destruct Ht as [[[[Hu Ha] _] _] _].
  destruct (claim c (tenantUsernameClaim keys)) as [[]|]; try done. by destruct (claim c (alternateTenantUsernameClaim keys)) as [[]|].
Qed.

Lemma typed_org c : Claims_GetOrgId keys c = GetOrgId (typed_claims c).
Proof.
  unfold Claims_GetOrgId, GetOrgId, typed_claims, string_claim. simpl.
  destruct (claim c (tenantIdClaim keys)) as [[]|]; try done; by destruct (claim c (alternateTenantIdClaim keys)) as [[]|].
Qed.

(** The accessors panic on no claims but the ill-typed, and agree with those of
    the services on the others. *)
Theorem claims_accessors_total c :
  well_typed c = true ->
  Claims_GetUsername keys c = Ok (GetUsername (typed_claims c)) /\
  Claims_GetAccountId keys c = Ok (GetAccountId (typed_claims c)) /\
  Claims_GetOrgId keys c = GetOrgId (typed_claims c) /\
  RawClaims_IsOrgAdmin keys c = Ok (Claims_IsOrgAdmin (typed_claims c)) /\
  (exists id, Claims_GetClientID keys c = Ok id).
Proof.
  intros Ht. split; [by apply typed_username|]. pose proof (typed_org c). unfold well_typed, string_or_absent, bool_or_absent in Ht.
  repeat rewrite andb_true_iff in Ht. destruct Ht as [[[_ Hu] Hc] Hb].
  unfold Claims_GetAccountId, GetAccountId, RawClaims_IsOrgAdmin, Claims_IsOrgAdmin, Claims_GetClientID, typed_claims, string_claim, bool_claim. simpl.
  destruct (claim c (tenantUserIdClaim keys)) as [[]|]; try done; destruct (claim c (clientIDclaim keys)) as [[]|]; try done;
    destruct (claim c (tenantOrgAdminClaim keys)) as [[]|]; try done; split_and!; try done; by eexists.
Qed.
End Typed.

(** ** Roles *)
Lemma role_mapping_from (m : gmap string (list string)) (config : list RolesConfiguration) meth :
  fold_left (fun m c => <[HTTPMethod c := RoleNames c]> m) config m !! meth =
  match List.find (fun c => HTTPMethod c =?s meth) (rev config) with Some c => Some (RoleNames c) | None => m !! meth end.
Proof.
  revert m. induction config as [|c config IH] using rev_ind; intros m; [done|].
  rewrite fold_left_app, rev_app_distr. simpl. destruct (String.eqb_spec (HTTPMethod c) meth) as [<-|Hne].
  - by rewrite lookup_insert_eq.
  - rewrite lookup_insert_ne by done. apply IH.
Qed.

(** The mapping holds, for a method, the roles of its last entry. *)
Lemma role_mapping (config : list RolesConfiguration) meth :
  GetRoleMapping config !! meth = RoleNames <$> List.find (fun c => HTTPMethod c =?s meth) (rev config).
Proof. unfold GetRoleMapping. rewrite role_mapping_from, lookup_empty. by destruct (List.find _ (rev config)). Qed.

Lemma mapped_method (config : list RolesConfiguration) meth roles :
  GetRoleMapping config !! meth = Some roles -> mkRolesConfiguration meth roles ∈ config.
Proof.
  rewrite role_mapping. intros (c & Hc & ->)%fmap_Some. apply List.find_some in Hc as [Hin Heq].
  apply String.eqb_eq in Heq as <-. destruct c. simpl. apply list_elem_of_In. by apply in_rev.
Qed.

(** A validated configuration maps no other methods. *)
Lemma validated_methods (config : list RolesConfiguration) meth roles :
  validateRolesConfiguration config = Ok tt -> GetRoleMapping config !! meth = Some roles -> meth ∈ allowedHTTPMethods.
Proof.
  intros Hv Hm%mapped_method. unfold validateRolesConfiguration in Hv. induction config as [|c config IH]; [by apply elem_of_nil in Hm|].
  simpl in Hv. destruct (Contains allowedHTTPMethods (HTTPMethod c)) eqn:Hc; simpl in Hv; [|done].
  apply elem_of_cons in Hm as [<-|Hm]; [|by apply IH]. by apply Contains_true in Hc.
Qed.

(** ** What each middleware lets through *)
Section Gates.
Context {W : Type} (keys : ContextConfig).
Implicit Types (next : Handler W) (x : Exchange W) (r : HttpRequest).

Definition org_of (c : MapClaims) : string := value_or_zero (Claims_GetOrgId keys c).
Definition username_of (c : MapClaims) : string := value_or_zero (GetUsername (typed_claims keys c)).

Definition issuer_accepted (VerifyIssuer : MapClaims -> string -> bool -> bool) (issuers : list string) r : bool :=
  match GetClaimsFromContext r with Ok c => existsb (fun issuer => VerifyIssuer c issuer true) issuers | Err _ => false end.

Definition listed (config : AccessControlListConfig) (c : MapClaims) : bool :=
  negb (config.(EnableDenyList) && Contains config.(DenyList) (username_of c)) &&
  (negb config.(EnableAccessList) || Contains config.(AccessList) (org_of c)).

Definition role_granted (config : list RolesConfiguration) r : bool :=
  match GetRoleMapping config !! r.(Method), GetClaimsFromContext r with
  | Some allowedRoles, Ok c =>
      match getRealmRolesClaim c with
      | Ok roles => existsb (fun allowed => existsb (fun role => EqualFold role allowed) roles) allowedRoles
      | Err _ => false
      end
  | _, _ => false
  end.

(** The token has claims, and the assertions on them hold. *)
Definition typed_request r : Prop :=
  exists c roles, GetClaimsFromContext r = Ok c /\ well_typed keys c = true /\ getRealmRolesClaim c = Ok roles.

Lemma RequireIssuer_gate V issuers code next r x :
  RequireIssuer V issuers code next r x = if issuer_accepted V issuers r then next r x else HandleError (New code "") x.
Proof.
  unfold RequireIssuer, issuer_accepted. destruct (GetClaimsFromContext r) as [c|e]; [|done].
  rewrite AnyMatch_existsb. by destruct (existsb _ _).
Qed.

Lemma RequireOrgID_gate code next r x c :
  GetClaimsFromContext r = Ok c ->
  RequireOrgID keys code next r x = if org_of c =?s "" then HandleError (New code "") x else next r x.
Proof. intros Hc. unfold RequireOrgID. rewrite Hc. unfold org_of. by destruct (_ =?s _). Qed.

Lemma Authorize_gate config next r x c :
  GetClaimsFromContext r = Ok c -> well_typed keys c = true ->
  if listed config c then Authorize keys config next r x = next (SetFilterByOrganisationContext r (negb (org_of c =?s ""))) x
  else exists e, HttpCode e = StatusForbidden /\ Authorize keys config next r x = HandleError e x.
Proof.
  intros Hc Ht. unfold Authorize, listed. rewrite Hc. unfold pure, bind, lift. rewrite (typed_username keys c Ht).
  unfold IsUserDenied, IsOrganisationAccepted, org_of, username_of.
  destruct (EnableDenyList config && Contains (DenyList config) _); simpl; [eexists; split; [|reflexivity]; reflexivity|].
  destruct (EnableAccessList config), (Contains (AccessList config) _); simpl; try done; eexists; (split; [|reflexivity]); reflexivity.
Qed.

Lemma hasRole_existsb roles name : hasRole roles name = existsb (fun role => EqualFold role name) roles.
Proof. unfold hasRole. by rewrite AnyMatch_existsb. Qed.

Lemma Roles_gate config code next r x c roles :
  GetClaimsFromContext r = Ok c -> getRealmRolesClaim c = Ok roles ->
  RequireRolesForMethods config code next r x =
    if role_granted config r then next (SetIsAdminContext r true) x else HandleError (New code "") x.
Proof.
  intros Hc Hr. unfold RequireRolesForMethods, role_granted. rewrite Hc. destruct (GetRoleMapping config !! Method r) as [allowed|]; [|done].
  unfold pure, bind, lift. rewrite Hr.
  assert (existsb (hasRole roles) allowed = existsb (fun a => existsb (fun role => EqualFold role a) roles) allowed) as ->.
  { induction allowed as [|a l IH]; [done|]. simpl. by rewrite hasRole_existsb, IH. }
  by destruct (existsb _ allowed).
Qed.

Lemma RequireRealmRole_gate name code next r x c roles :
  GetClaimsFromContext r = Ok c -> getRealmRolesClaim c = Ok roles ->
  RequireRealmRole name code next r x =
    if existsb (fun role => EqualFold role name) roles then next r x else HandleError (New code "") x.
Proof.
  intros Hc Hr. unfold RequireRealmRole. rewrite Hc. unfold pure, bind, lift. rewrite Hr, hasRole_existsb. by destruct (existsb _ _).
Qed.

(** *** Agents *)
Definition client_of (c : MapClaims) : option string := string_claim c keys.(clientIDclaim).

Lemma typed_client c : well_typed keys c = true ->
  Claims_GetClientID keys c = Ok (match client_of c with Some id => Ok id | None => Err attribute_missing end).
Proof.
  unfold well_typed, string_or_absent, client_of, string_claim, Claims_GetClientID. rewrite !andb_true_iff. intros [[_ Hc] _].
  by destruct (claim c (clientIDclaim keys)) as [[]|].
Qed.

(** The registered client is let through, any other is told that there is
    nothing there; without a failure of the look-up, exactly one answer. *)
Lemma checkClusterId_known GetClientID var next r x c id w' :
  GetClaimsFromContext r = Ok c -> well_typed keys c = true ->
  GetClientID (default "" (r.(Vars) !! var)) x.(world) = (Ok id, w') ->
  checkClusterId keys GetClientID var next r x =
    if bool_decide (client_of c = Some id) then next r (mkExchange w' x.(written) x.(audit))
    else HandleError (NotFound "") (mkExchange w' x.(written) x.(audit)).
Proof.
  intros Hc Ht Hid. unfold checkClusterId, in_world, pure, bind, lift, ret. rewrite Hc, Hid, (typed_client c Ht).
  destruct (client_of c) as [s|]; [|by rewrite bool_decide_false by done].
  destruct (String.eqb_spec s id) as [->|Hne]; [by rewrite bool_decide_true|]. rewrite bool_decide_false by congruence. done.
Qed.

(** After a failed look-up the error is written and the check goes on with an
    empty client. *)
Lemma checkClusterId_failed GetClientID var next r x c e w' :
  GetClaimsFromContext r = Ok c -> well_typed keys c = true ->
  GetClientID (default "" (r.(Vars) !! var)) x.(world) = (Err e, w') ->
  let err := GeneralError "unable to get clientID for cluster with ID '%s'" in
  let x' := mkExchange w' (x.(written) ++ [mkResponse 500 (Some err) None]) x.(audit) in
  checkClusterId keys GetClientID var next r x =
    if bool_decide (client_of c = Some "") then next r x' else HandleError (NotFound "") x'.
Proof.
  intros Hc Ht Hid err x'. unfold checkClusterId, in_world, pure, bind, lift, ret. rewrite Hc, Hid, (typed_client c Ht). simpl.
  destruct (client_of c) as [s|]; [|by rewrite bool_decide_false by done].
  destruct (String.eqb_spec s "") as [->|Hne]; [by rewrite bool_decide_true|]. rewrite bool_decide_false by congruence. done.
Qed.

(** *** Terms *)
Section Terms.
Context (cache_Get : string -> W -> option bool) (cache_Set : string -> bool -> W -> W).
Context (GetRequiresTermsAcceptance : string -> M W error bool).
(** An entry that was just set is found. *)
Context (get_set : forall u b w, cache_Get u (cache_Set u b w) = Some b).
Let guard := RequireTermsAcceptance keys cache_Get cache_Set GetRequiresTermsAcceptance true.

Lemma terms_cached code next r x c b :
  GetClaimsFromContext r = Ok c -> well_typed keys c = true -> cache_Get (username_of c) x.(world) = Some b ->
  guard code next r x = if b then HandleError (New code "required terms have not been accepted") x else next r x.
Proof.
  intros Hc Ht Hg. unfold guard, RequireTermsAcceptance. rewrite Hc. unfold pure, bind, lift. rewrite (typed_username keys c Ht).
  fold (username_of c). rewrite Hg. by destruct b.
Qed.

Lemma terms_asked code next r x c b w' :
  GetClaimsFromContext r = Ok c -> well_typed keys c = true -> cache_Get (username_of c) x.(world) = None ->
  GetRequiresTermsAcceptance (username_of c) x.(world) = (Ok b, w') ->
  let x' := mkExchange (cache_Set (username_of c) b w') x.(written) x.(audit) in
  guard code next r x = if b then HandleError (New code "required terms have not been accepted") x' else next r x'.
Proof.
  intros Hc Ht Hg Ha x'. unfold guard, RequireTermsAcceptance. rewrite Hc. unfold pure, bind, lift. rewrite (typed_username keys c Ht).
  fold (username_of c). rewrite Hg. unfold in_world. rewrite Ha. by destruct b.
Qed.

Lemma terms_unknown code next r x c e w' :
  GetClaimsFromContext r = Ok c -> well_typed keys c = true -> cache_Get (username_of c) x.(world) = None ->
  GetRequiresTermsAcceptance (username_of c) x.(world) = (Err e, w') ->
  guard code next r x = HandleError (NewWithCause code (Some e) "") (mkExchange w' x.(written) x.(audit)).
Proof.
  intros Hc Ht Hg Ha. unfold guard, RequireTermsAcceptance. rewrite Hc. unfold pure, bind, lift. rewrite (typed_username keys c Ht).
  fold (username_of c). rewrite Hg. unfold in_world. by rewrite Ha.
Qed.

(** The first answer of the account service decides the requests that follow,
    of the same user name and while the entry is kept: neither an acceptance
    nor a withdrawal of it is seen, and the service is not asked again. *)
Theorem terms_decision_is_cached code next next' r r' x c c' b w' :
  GetClaimsFromContext r = Ok c -> well_typed keys c = true ->
  GetClaimsFromContext r' = Ok c' -> well_typed keys c' = true -> username_of c' = username_of c ->
  cache_Get (username_of c) x.(world) = None ->
  GetRequiresTermsAcceptance (username_of c) x.(world) = (Ok b, w') ->
  let x' := mkExchange (cache_Set (username_of c) b w') x.(written) x.(audit) in
  guard code next r x = (if b then HandleError (New code "required terms have not been accepted") x' else next r x') /\
  guard code next' r' x' = (if b then HandleError (New code "required terms have not been accepted") x' else next' r' x').
Proof.
  intros Hc Ht Hc' Ht' Hu Hg Ha x'. split; [by apply terms_asked|]. apply (terms_cached _ _ _ _ c'); [done..|].
  rewrite Hu. unfold x'. simpl. apply get_set.
Qed.
End Terms.
End Gates.
