(* ===== verification/Routes.v ===== *)
(** * Routes: [src/internal/kafka/internal/routes/route_loader.go] and
    [src/internal/connector/internal/routes/route_loader.go]

    The two tables of routes, each route with the middlewares that its routers
    put before its handler, and what a request must satisfy to reach the
    handler.  The router runs the middlewares of a router in the order of their
    [Use], those of an enclosing router first (package mux, third-party code,
    which also selects the route of a request).  The outermost router adds the
    metrics, the transaction and the compression to every route; they decide
    nothing about admission and are left out. *)
From S2P Require Import Prelude Arrays Errors Status Config Model Store Fixtures ClusterService KafkaService QuotaList Listing Validation KafkaHandlers ClusterHandlers Middlewares.

(** ** Routers *)
Inductive Guard :=
| GIssuer (issuers : list string) (code : Z)
| GOrgID (code : Z)
| GAuthorize
| GTerms (code : Z)
| GRoles (code : Z)
| GAudit (code : Z)
| GEnterprise
| GClusterId (clusterIdVar : string).

Record Router := mkRouter { rt_prefix : string; rt_guards : list Guard }.
(** [parent.PathPrefix(prefix).Subrouter()], followed by its calls of [Use]. *)
Definition Subrouter (parent : Router) (prefix : string) (guards : list Guard) : Router :=
  mkRouter (parent.(rt_prefix) +:+ prefix) (parent.(rt_guards) ++ guards).

Record Route := mkRoute { route_method : string; route_path : string; route_handler : string; route_guards : list Guard }.
Definition HandleFunc (router : Router) (path handler method : string) : Route :=
  mkRoute method (router.(rt_prefix) +:+ path) handler router.(rt_guards).

Definition MethodGet : string := "GET".
Definition MethodPost : string := "POST".
Definition MethodPut : string := "PUT".
Definition MethodPatch : string := "PATCH".
Definition MethodDelete : string := "DELETE".

(** What the route loaders read of the configuration. *)
Record options := mkOptions {
  TokenIssuerURL : string;
  RealmValidIssuerURI : string;
  AdminValidIssuerURI : string;
  ConnectorNamespaceLifecycleAPI : bool
}.

(** [UseOperatorAuthorisationMiddleware] *)
Definition UseOperatorAuthorisationMiddleware (jwkValidIssuerURI clusterIdVar : string) : list Guard :=
  [GClusterId clusterIdVar; GIssuer [jwkValidIssuerURI] ErrorNotFound].

(** The guards of the admin routers of both services. *)
Definition admin_guards (s : options) : list Guard :=
  [GIssuer [s.(AdminValidIssuerURI)] ErrorNotFound; GRoles ErrorNotFound; GAudit ErrorNotFound].

Definition buildApiBaseRouter (s : options) : list Route :=
  let requireOrgID := GOrgID ErrorUnauthenticated in
  let requireIssuer := GIssuer [s.(TokenIssuerURL)] ErrorUnauthenticated in
  let requireTermsAcceptance := GTerms ErrorTermsNotAccepted in
  let apiRouter := mkRouter "/api/kafkas_mgmt" [] in
  let apiV1Router := Subrouter apiRouter "/v1" [] in
  let errors := Subrouter apiV1Router "/errors" [] in
  let ssoProvider := Subrouter apiV1Router "/sso_providers" [] in
  let kafkas := Subrouter apiV1Router "/kafkas" [requireIssuer; requireOrgID; GAuthorize] in
  let kafkasCreate := Subrouter kafkas "" [requireTermsAcceptance] in
  let promote := Subrouter kafkas "/{id}/promote" [] in
  let metrics := Subrouter kafkas "/{id}/metrics" [] in
  let federate := Subrouter apiV1Router "/kafkas/{id}/metrics/federate"
                    [GIssuer [s.(TokenIssuerURL); s.(RealmValidIssuerURI)] ErrorUnauthenticated; requireOrgID; GAuthorize] in
  let serviceAccounts := Subrouter apiV1Router "/service_accounts" [requireIssuer; requireOrgID; GAuthorize] in
  let cloudProviders := Subrouter apiV1Router "/cloud_providers" [] in
  let instanceTypes := Subrouter apiV1Router "/instance_types/{cloud_provider}/{cloud_region}" [requireIssuer; requireOrgID; GAuthorize] in
  let clusterRouter := Subrouter apiV1Router "/clusters" [GEnterprise] in
  let agents := Subrouter apiV1Router "/agent-clusters" (UseOperatorAuthorisationMiddleware s.(RealmValidIssuerURI) "id") in
  let observatorium := Subrouter apiV1Router "/obs-proxy-verification" [GIssuer [s.(RealmValidIssuerURI)] ErrorNotFound] in
  let admin := Subrouter apiV1Router "/admin" (admin_guards s) in
  [ HandleFunc apiV1Router "/openapi" "OpenAPIHandler.Get" MethodGet;
    HandleFunc errors "" "errorsHandler.List" MethodGet;
    HandleFunc errors "/{id}" "errorsHandler.Get" MethodGet;
    HandleFunc ssoProvider "" "serviceAccountsHandler.GetSsoProviders" MethodGet;
    HandleFunc kafkas "/{id}" "kafkaHandler.Get" MethodGet;
    HandleFunc kafkas "/{id}" "kafkaHandler.Delete" MethodDelete;
    HandleFunc kafkas "/{id}" "kafkaHandler.Update" MethodPatch;
    HandleFunc kafkas "" "kafkaHandler.List" MethodGet;
    HandleFunc kafkasCreate "" "kafkaHandler.Create" MethodPost;
    HandleFunc promote "" "kafkaPromoteHandler.Promote" MethodPost;
    HandleFunc metrics "/query_range" "metricsHandler.GetMetricsByRangeQuery" MethodGet;
    HandleFunc metrics "/query" "metricsHandler.GetMetricsByInstantQuery" MethodGet;
    HandleFunc federate "" "metricsHandler.FederateMetrics" MethodGet;
    HandleFunc serviceAccounts "" "serviceAccountsHandler.GetServiceAccountByClientId" MethodGet;
    HandleFunc serviceAccounts "" "serviceAccountsHandler.ListServiceAccounts" MethodGet;
    HandleFunc serviceAccounts "" "serviceAccountsHandler.CreateServiceAccount" MethodPost;
    HandleFunc serviceAccounts "/{id}" "serviceAccountsHandler.DeleteServiceAccount" MethodDelete;
    HandleFunc serviceAccounts "/{id}/reset_credentials" "serviceAccountsHandler.ResetServiceAccountCredential" MethodPost;
    HandleFunc serviceAccounts "/{id}" "serviceAccountsHandler.GetServiceAccountById" MethodGet;
    HandleFunc cloudProviders "" "cloudProvidersHandler.ListCloudProviders" MethodGet;
    HandleFunc cloudProviders "/{id}/regions" "cloudProvidersHandler.ListCloudProviderRegions" MethodGet;
    HandleFunc instanceTypes "" "supportedKafkaInstanceTypesHandler.ListSupportedKafkaInstanceTypes" MethodGet;
    HandleFunc clusterRouter "" "clusterHandler.RegisterEnterpriseCluster" MethodPost;
    HandleFunc clusterRouter "" "clusterHandler.List" MethodGet;
    HandleFunc clusterRouter "/{id}" "clusterHandler.DeregisterEnterpriseCluster" MethodDelete;
    HandleFunc clusterRouter "/{id}" "clusterHandler.Get" MethodGet;
    HandleFunc clusterRouter "/{id}/addon_parameters" "clusterHandler.GetEnterpriseClusterWithAddonParams" MethodGet;
    HandleFunc agents "/{id}" "dataPlaneClusterHandler.GetDataPlaneClusterConfig" MethodGet;
    HandleFunc agents "/{id}/status" "dataPlaneClusterHandler.UpdateDataPlaneClusterStatus" MethodPut;
    HandleFunc agents "/{id}/kafkas/status" "dataPlaneKafkaHandler.UpdateKafkaStatuses" MethodPut;
    HandleFunc agents "/{id}/kafkas" "dataPlaneKafkaHandler.GetAll" MethodGet;
    HandleFunc observatorium "/{cluster_external_id}" "observatoriumProxyHandler.ValidateTokenAndExternalClusterID" MethodPost;
    HandleFunc admin "/kafkas" "adminKafkaHandler.List" MethodGet;
    HandleFunc admin "/kafkas/{id}" "adminKafkaHandler.Get" MethodGet;
    HandleFunc admin "/kafkas/{id}" "adminKafkaHandler.Delete" MethodDelete;
    HandleFunc admin "/kafkas/{id}" "adminKafkaHandler.Update" MethodPatch;
    HandleFunc admin "/kafkas/{id}/revoke_tls_certificate" "adminKafkaHandler.RevokeCertificateOfAKafka" MethodPost;
    HandleFunc apiRouter "" "apiMetadata.ServeHTTP" MethodGet;
    HandleFunc apiV1Router "" "v1Metadata.ServeHTTP" MethodGet ].

Definition AddRoutes (s : options) : list Route :=
  let authorizeMiddleware := GAuthorize in
  let requireOrgID := GOrgID ErrorUnauthenticated in
  let apiRouter := mkRouter "/api/connector_mgmt" [] in
  let apiV1Router := Subrouter apiRouter "/v1" [] in
  let errors := Subrouter apiV1Router "/errors" [] in
  let types := Subrouter apiV1Router "/kafka_connector_types" [authorizeMiddleware; requireOrgID] in
  let connectors := Subrouter apiV1Router "/kafka_connectors" [authorizeMiddleware; requireOrgID] in
  let clusters := Subrouter apiV1Router "/kafka_connector_clusters" [authorizeMiddleware; requireOrgID] in
  let namespaces := Subrouter apiV1Router "/kafka_connector_namespaces" [authorizeMiddleware; requireOrgID] in
  let agentRouter := Subrouter apiV1Router "/agent/kafka_connector_clusters/{connector_cluster_id}"
                       (UseOperatorAuthorisationMiddleware s.(RealmValidIssuerURI) "connector_cluster_id") in
  let adminRouter := Subrouter apiV1Router "/admin" (admin_guards s) in
  [ HandleFunc apiV1Router "/openapi" "OpenAPIHandler.Get" MethodGet;
    HandleFunc errors "" "ErrorsHandler.List" MethodGet;
    HandleFunc errors "/{id}" "ErrorsHandler.Get" MethodGet;
    HandleFunc types "/labels" "ConnectorTypesHandler.ListLabels" MethodGet;
    HandleFunc types "/{connector_type_id}" "ConnectorTypesHandler.Get" MethodGet;
    HandleFunc types "" "ConnectorTypesHandler.List" MethodGet;
    HandleFunc connectors "" "ConnectorsHandler.Create" MethodPost;
    HandleFunc connectors "" "ConnectorsHandler.List" MethodGet;
    HandleFunc connectors "/{connector_id}" "ConnectorsHandler.Get" MethodGet;
    HandleFunc connectors "/{connector_id}" "ConnectorsHandler.Patch" MethodPatch;
    HandleFunc connectors "/{connector_id}" "ConnectorsHandler.Delete" MethodDelete;
    HandleFunc clusters "" "ConnectorClusterHandler.Create" MethodPost;
    HandleFunc clusters "" "ConnectorClusterHandler.List" MethodGet;
    HandleFunc clusters "/{connector_cluster_id}" "ConnectorClusterHandler.Get" MethodGet;
    HandleFunc clusters "/{connector_cluster_id}" "ConnectorClusterHandler.Update" MethodPut;
    HandleFunc clusters "/{connector_cluster_id}" "ConnectorClusterHandler.Delete" MethodDelete;
    HandleFunc clusters "/{connector_cluster_id}/addon_parameters" "ConnectorClusterHandler.GetAddonParameters" MethodGet;
    HandleFunc clusters "/{connector_cluster_id}/namespaces" "ConnectorClusterHandler.GetNamespaces" MethodGet;
    HandleFunc namespaces "" "ConnectorNamespaceHandler.List" MethodGet;
    HandleFunc namespaces "/eval" "ConnectorNamespaceHandler.CreateEvaluation" MethodPost;
    HandleFunc namespaces "/{connector_namespace_id}" "ConnectorNamespaceHandler.Get" MethodGet ] ++
  (if s.(ConnectorNamespaceLifecycleAPI) then
     [ HandleFunc namespaces "" "ConnectorNamespaceHandler.Create" MethodPost;
       HandleFunc namespaces "/{connector_namespace_id}" "ConnectorNamespaceHandler.Update" MethodPatch;
       HandleFunc namespaces "/{connector_namespace_id}" "ConnectorNamespaceHandler.Delete" MethodDelete ]
   else
     [ HandleFunc namespaces "" "api.SendMethodNotAllowed" MethodPost;
       HandleFunc namespaces "/{connector_namespace_id}" "api.SendMethodNotAllowed" MethodPatch;
       HandleFunc namespaces "/{connector_namespace_id}" "api.SendMethodNotAllowed" MethodDelete ]) ++
  [ HandleFunc agentRouter "/status" "ConnectorClusterHandler.UpdateConnectorClusterStatus" MethodPut;
    HandleFunc agentRouter "/deployments" "ConnectorClusterHandler.ListDeployments" MethodGet;
    HandleFunc agentRouter "/deployments/{deployment_id}" "ConnectorClusterHandler.GetDeployment" MethodGet;
    HandleFunc agentRouter "/namespaces" "ConnectorClusterHandler.GetAgentNamespaces" MethodGet;
    HandleFunc agentRouter "/namespaces/{namespace_id}" "ConnectorClusterHandler.GetAgentNamespace" MethodGet;
    HandleFunc agentRouter "/namespaces/{namespace_id}/status" "ConnectorClusterHandler.UpdateNamespaceStatus" MethodPut;
    HandleFunc agentRouter "/deployments/{deployment_id}/status" "ConnectorClusterHandler.UpdateDeploymentStatus" MethodPut;
    HandleFunc adminRouter "/kafka_connector_clusters" "ConnectorAdminHandler.ListConnectorClusters" MethodGet;
    HandleFunc adminRouter "/kafka_connector_clusters/{connector_cluster_id}" "ConnectorAdminHandler.GetConnectorCluster" MethodGet;
    HandleFunc adminRouter "/kafka_connector_clusters/{connector_cluster_id}/namespaces" "ConnectorAdminHandler.GetClusterNamespaces" MethodGet;
    HandleFunc adminRouter "/kafka_connector_clusters/{connector_cluster_id}/connectors" "ConnectorAdminHandler.GetClusterConnectors" MethodGet;
    HandleFunc adminRouter "/kafka_connector_clusters/{connector_cluster_id}/deployments" "ConnectorAdminHandler.GetClusterDeployments" MethodGet;
    HandleFunc adminRouter "/kafka_connector_clusters/{connector_cluster_id}/deployments/{deployment_id}" "ConnectorAdminHandler.GetConnectorDeployment" MethodGet;
    HandleFunc adminRouter "/kafka_connector_clusters/{connector_cluster_id}/deployments/{deployment_id}" "ConnectorAdminHandler.PatchConnectorDeployment" MethodPatch;
    HandleFunc adminRouter "/kafka_connector_namespaces" "ConnectorAdminHandler.GetConnectorNamespaces" MethodGet;
    HandleFunc adminRouter "/kafka_connector_namespaces" "ConnectorAdminHandler.CreateConnectorNamespace" MethodPost;
    HandleFunc adminRouter "/kafka_connector_namespaces/{namespace_id}" "ConnectorAdminHandler.GetConnectorNamespace" MethodGet;
    HandleFunc adminRouter "/kafka_connector_namespaces/{namespace_id}" "ConnectorAdminHandler.DeleteConnectorNamespace" MethodDelete;
    HandleFunc adminRouter "/kafka_connector_namespaces/{namespace_id}/connectors" "ConnectorAdminHandler.GetNamespaceConnectors" MethodGet;
    HandleFunc adminRouter "/kafka_connector_namespaces/{namespace_id}/deployments" "ConnectorAdminHandler.GetNamespaceDeployments" MethodGet;
    HandleFunc adminRouter "/kafka_connectors/{connector_id}" "ConnectorAdminHandler.GetConnector" MethodGet;
    HandleFunc adminRouter "/kafka_connectors/{connector_id}" "ConnectorAdminHandler.DeleteConnector" MethodDelete;
    HandleFunc adminRouter "/kafka_connectors/{connector_id}" "ConnectorAdminHandler.PatchConnector" MethodPatch;
    HandleFunc adminRouter "/kafka_connector_types" "ConnectorAdminHandler.ListConnectorTypes" MethodGet;
    HandleFunc adminRouter "/kafka_connector_types/{connector_type_id}" "ConnectorAdminHandler.GetConnectorType" MethodGet;
    HandleFunc apiRouter "" "apiMetadata.ServeHTTP" MethodGet;
    HandleFunc apiV1Router "" "v1Metadata.ServeHTTP" MethodGet ].

(** ** Serving a request *)
Record Services (W : Type) := mkServices {
  keys : ContextConfig;
  VerifyIssuer : MapClaims -> string -> bool -> bool;
  acl_config : AccessControlListConfig;
  roles_config : list RolesConfiguration;
  EnableTermsAcceptance : bool;
  cache_Get : string -> W -> option bool;
  cache_Set : string -> bool -> W -> W;
  GetRequiresTermsAcceptance : string -> M W error bool;
  enterprise : EnterpriseClustersAccessControlMiddleware;
  CheckQuota : string -> string -> string -> KafkaBillingModel -> M W ServiceError bool;
  AgentClientID : string -> M W error string
}.
Arguments keys {W}.
Arguments VerifyIssuer {W}.
Arguments acl_config {W}.
Arguments roles_config {W}.
Arguments EnableTermsAcceptance {W}.
Arguments cache_Get {W}.
Arguments cache_Set {W}.
Arguments GetRequiresTermsAcceptance {W}.
Arguments enterprise {W}.
Arguments CheckQuota {W}.
Arguments AgentClientID {W}.

Section Serving.
Context {W : Type} (S : Services W) (s : options).
Implicit Types (h : Handler W) (x : Exchange W) (r : HttpRequest) (route : Route).

Definition run_guard (g : Guard) : Middleware W :=
  match g with
  | GIssuer issuers code => RequireIssuer S.(VerifyIssuer) issuers code
  | GOrgID code => RequireOrgID S.(keys) code
  | GAuthorize => Authorize S.(keys) S.(acl_config)
  | GTerms code => RequireTermsAcceptance S.(keys) S.(cache_Get) S.(cache_Set) S.(GetRequiresTermsAcceptance) S.(EnableTermsAcceptance) code
  | GRoles code => RequireRolesForMethods S.(roles_config) code
  | GAudit code => AuditLog S.(keys) code
  | GEnterprise => Enterprise_Authorize S.(keys) S.(CheckQuota) S.(enterprise)
  | GClusterId var => checkClusterId S.(keys) S.(AgentClientID) var
  end.

(** The first guard is the outermost handler. *)
Definition serve (route : Route) (h : Handler W) : Handler W := fold_right run_guard h route.(route_guards).

(** ** The groups of routes *)
Definition all_routes : list Route := buildApiBaseRouter s ++ AddRoutes s.
Definition agent_route route : bool :=
  HasPrefix route.(route_path) "/api/kafkas_mgmt/v1/agent-clusters" || HasPrefix route.(route_path) "/api/connector_mgmt/v1/agent/".
(** The API of the users of Kafka instances. *)
Definition user_route route : bool :=
  HasPrefix route.(route_path) "/api/kafkas_mgmt/v1/kafkas" || HasPrefix route.(route_path) "/api/kafkas_mgmt/v1/service_accounts" ||
  HasPrefix route.(route_path) "/api/kafkas_mgmt/v1/instance_types".
Definition federate_path : string := "/api/kafkas_mgmt/v1/kafkas/{id}/metrics/federate".
Definition user_issuers route : list string :=
  if route.(route_path) =?s federate_path then [s.(TokenIssuerURL); s.(RealmValidIssuerURI)] else [s.(TokenIssuerURL)].
Definition connector_route route : bool := HasPrefix route.(route_path) "/api/connector_mgmt/v1/kafka_connector".
Definition enterprise_route route : bool := HasPrefix route.(route_path) "/api/kafkas_mgmt/v1/clusters".
Definition agent_var route : string :=
  if HasPrefix route.(route_path) "/api/kafkas_mgmt" then "id" else "connector_cluster_id".

(** A property of the guards of the routes of a group, decided on the table. *)
Definition guards_are (group : Route -> bool) (guards : Route -> list Guard) (l : list Route) : Prop :=
  Forall (fun route => group route = true -> route.(route_guards) = guards route) l.

Lemma guards_of (group : Route -> bool) (guards : Route -> list Guard) l route :
  guards_are group guards l -> route ∈ l -> group route = true -> route.(route_guards) = guards route.
Proof. intros HF Hin Hg. by apply (proj1 (Forall_forall _ _) HF). Qed.

Fixpoint table_ok (group : Route -> bool) (guards : Route -> list Guard) (l : list Route) : Prop :=
  match l with
  | [] => True
  | route :: l' => if group route then route.(route_guards) = guards route /\ table_ok group guards l' else table_ok group guards l'
  end.
Lemma table_ok_guards group guards l : table_ok group guards l -> guards_are group guards l.
Proof.
  induction l as [|route l IH]; simpl; intros Hl; [constructor|]. destruct (group route) eqn:Hg.
  - destruct Hl as [He Hl]. constructor; [done|by apply IH].
  - constructor; [by rewrite Hg|by apply IH].
Qed.

Ltac decide_table :=
  apply table_ok_guards; unfold all_routes, AddRoutes; destruct (ConnectorNamespaceLifecycleAPI s); vm_compute; repeat split.


Lemma agent_table :
  guards_are agent_route (fun route => UseOperatorAuthorisationMiddleware s.(RealmValidIssuerURI) (agent_var route)) all_routes.
Proof. decide_table. Qed.

Definition creates_kafka route : bool := route.(route_handler) =?s "kafkaHandler.Create".
Lemma user_table :
  guards_are user_route
    (fun route => [GIssuer (user_issuers route) ErrorUnauthenticated; GOrgID ErrorUnauthenticated; GAuthorize] ++
                  (if creates_kafka route then [GTerms ErrorTermsNotAccepted] else [])) all_routes.
Proof. decide_table. Qed.

Lemma connector_table : guards_are connector_route (fun _ => [GAuthorize; GOrgID ErrorUnauthenticated]) all_routes.
Proof. decide_table. Qed.

Lemma enterprise_table : guards_are enterprise_route (fun _ => [GEnterprise]) all_routes.
Proof. decide_table. Qed.

(** ** What reaches a handler *)
Definition refused (err : ServiceError) x : result panic unit * Exchange W :=
  (Ok tt, mkExchange x.(world) (x.(written) ++ [mkResponse (HttpCode err) (Some err) None]) x.(audit)).





(** The API of the users is reached with a token of a trusted issuer, of a user
    that is not denied and with a non-empty organisation that is accepted; its
    handlers always filter by that organisation.  A request to create an
    instance is then asked for the terms; the others are refused as
    unauthenticated or forbidden. *)
Theorem user_api_admission route h r x c :
  route ∈ all_routes -> user_route route = true ->
  GetClaimsFromContext r = Ok c -> well_typed S.(keys) c = true ->
  if issuer_accepted S.(VerifyIssuer) (user_issuers route) r && negb (org_of S.(keys) c =?s "") && listed S.(keys) S.(acl_config) c
  then serve route h r x =
         (if creates_kafka route then run_guard (GTerms ErrorTermsNotAccepted) h else h) (SetFilterByOrganisationContext r true) x
  else exists err, (HttpCode err = StatusUnauthorized \/ HttpCode err = StatusForbidden) /\ serve route h r x = refused err x.
Proof.
  intros Hin Hu Hc Ht. unfold serve. rewrite (guards_of _ _ _ _ user_table Hin Hu), fold_right_app. simpl.
  rewrite RequireIssuer_gate. destruct (issuer_accepted _ _ r); simpl; [|eexists; split; [|reflexivity]; by left].
  rewrite (RequireOrgID_gate _ _ _ _ _ c Hc). destruct (org_of (keys S) c =?s "") eqn:Horg; simpl; [eexists; split; [|reflexivity]; by left|].
  match goal with |- context[Authorize _ _ ?n r x] => pose proof (Authorize_gate (keys S) (acl_config S) n r x c Hc Ht) as Ha end.
  destruct (listed _ _ c).
  - rewrite Ha, Horg. by destruct (creates_kafka route).
  - destruct Ha as (e & He & ->). exists e. by split; [right|].
Qed.

(** The handlers for the agents are reached with the client of the cluster and
    the issuer of the agents. *)
Theorem agent_api_admission route h r x c id w' :
  route ∈ all_routes -> agent_route route = true ->
  GetClaimsFromContext r = Ok c -> well_typed S.(keys) c = true ->
  S.(AgentClientID) (default "" (r.(Vars) !! agent_var route)) x.(world) = (Ok id, w') ->
  serve route h r x =
    if bool_decide (client_of S.(keys) c = Some id) && issuer_accepted S.(VerifyIssuer) [s.(RealmValidIssuerURI)] r
    then h r (mkExchange w' x.(written) x.(audit))
    else refused (New ErrorNotFound "") (mkExchange w' x.(written) x.(audit)).
Proof.
  intros Hin Ha Hc Ht Hid. unfold serve. rewrite (guards_of _ _ _ _ agent_table Hin Ha). simpl.
  rewrite (checkClusterId_known _ _ _ _ _ _ c id w' Hc Ht Hid). destruct (bool_decide _); [|done]. rewrite RequireIssuer_gate.
  by destruct (issuer_accepted _ _ r).
Qed.

(** When the client cannot be looked up the error is written and the request
    goes on: it is answered a second time, or, when its token has an empty
    client, it reaches the handler. *)
Theorem agent_lookup_failure_goes_on route h r x c e w' :
  route ∈ all_routes -> agent_route route = true ->
  GetClaimsFromContext r = Ok c -> well_typed S.(keys) c = true ->
  S.(AgentClientID) (default "" (r.(Vars) !! agent_var route)) x.(world) = (Err e, w') ->
  exists x', x'.(world) = w' /\ map resp_status x'.(written) = map resp_status x.(written) ++ [StatusInternalServerError] /\
    serve route h r x =
      if bool_decide (client_of S.(keys) c = Some "") && issuer_accepted S.(VerifyIssuer) [s.(RealmValidIssuerURI)] r
      then h r x' else refused (New ErrorNotFound "") x'.
Proof.
  intros Hin Ha Hc Ht Hid. unfold serve. rewrite (guards_of _ _ _ _ agent_table Hin Ha). simpl.
  rewrite (checkClusterId_failed _ _ _ _ _ _ c e w' Hc Ht Hid).
  exists (mkExchange w' (written x ++ [mkResponse 500 (Some (GeneralError "unable to get clientID for cluster with ID '%s'")) None]) (audit x)).
  split; [done|]. split; [simpl; by rewrite List.map_app|]. destruct (bool_decide _); [|done]. rewrite RequireIssuer_gate.
  by destruct (issuer_accepted _ _ r).
Qed.

(** The connector API asks for no issuer: any verified token with an accepted
    user and organisation is served. *)
Theorem connector_api_admission route h r x c :
  route ∈ all_routes -> connector_route route = true ->
  GetClaimsFromContext r = Ok c -> well_typed S.(keys) c = true ->
  if listed S.(keys) S.(acl_config) c && negb (org_of S.(keys) c =?s "")
  then serve route h r x = h (SetFilterByOrganisationContext r true) x
  else exists err, (HttpCode err = StatusUnauthorized \/ HttpCode err = StatusForbidden) /\ serve route h r x = refused err x.
Proof.
  intros Hin Hu Hc Ht. unfold serve. rewrite (guards_of _ _ _ _ connector_table Hin Hu). simpl.
  match goal with |- context[Authorize _ _ ?n r x] => pose proof (Authorize_gate (keys S) (acl_config S) n r x c Hc Ht) as Ha end.
  destruct (listed _ _ c); simpl; [|destruct Ha as (e & He & ->); exists e; by split; [right|]].
  rewrite Ha, (RequireOrgID_gate (keys S) _ _ (SetFilterByOrganisationContext r _) _ c Hc). destruct (org_of (keys S) c =?s "") eqn:Horg; simpl; [eexists; split; [|reflexivity]; by left|done].
Qed.

(** Enterprise clusters are for the users with a quota for standard instances
    under the enterprise billing model. *)
Theorem enterprise_api_admission route h r x c bm t b w' :
  route ∈ all_routes -> enterprise_route route = true ->
  GetClaimsFromContext r = Ok c -> well_typed S.(keys) c = true ->
  S.(enterprise) = mkEnterpriseMiddleware (Some bm) (Some t) ->
  S.(CheckQuota) (username_of S.(keys) c) (org_of S.(keys) c) STANDARD bm x.(world) = (Ok b, w') ->
  let x' := mkExchange w' x.(written) x.(audit) in
  serve route h r x =
    if b then h r x' else refused (New ErrorUnauthorized "organization '%s' is not authorized to access the service") x'.
Proof.
  intros Hin He Hc Ht Hm Hq x'. unfold serve. rewrite (guards_of _ _ _ _ enterprise_table Hin He). simpl.
  unfold Enterprise_Authorize. rewrite Hm, Hc. simpl. unfold pure, bind, lift. rewrite (typed_username _ c Ht).
  fold (username_of (keys S) c) (org_of (keys S) c). unfold in_world. rewrite Hq. by destruct b.
Qed.

(** The routes that any verified token reaches, with nothing asked. *)
Theorem unguarded_routes :
  map (fun route => (route.(route_method), route.(route_path))) (List.filter (fun route => match route.(route_guards) with [] => true | _ => false end) all_routes) =
  map (fun p => (MethodGet, p))
    ["/api/kafkas_mgmt/v1/openapi"; "/api/kafkas_mgmt/v1/errors"; "/api/kafkas_mgmt/v1/errors/{id}"; "/api/kafkas_mgmt/v1/sso_providers";
     "/api/kafkas_mgmt/v1/cloud_providers"; "/api/kafkas_mgmt/v1/cloud_providers/{id}/regions"; "/api/kafkas_mgmt"; "/api/kafkas_mgmt/v1";
     "/api/connector_mgmt/v1/openapi"; "/api/connector_mgmt/v1/errors"; "/api/connector_mgmt/v1/errors/{id}"; "/api/connector_mgmt"; "/api/connector_mgmt/v1"].
Proof. unfold all_routes, AddRoutes. destruct (ConnectorNamespaceLifecycleAPI s); vm_compute; reflexivity. Qed.
End Serving.

(** ** From the request to the rows *)

(** The end of [handlers.Handle]: the result or the error is written. *)
Definition write_result {W} {A : Set} (action : HttpRequest -> M W ServiceError (Z * A)) : Handler W := fun r =>
  outcome <~ in_world (action r) ;;
  match outcome with
  | Ok (code, result) => respond (mkResponse code None (Some (existT A result)))
  | Err err => HandleError err
  end.

Section EndToEnd.
Context {W : Type} `{Database W} `{!KafkaExternals W} `{!HandlerServices W}.
Context `{QuantityLib} (S : Services W) (s : options) (cfg : KafkaConfig).
Implicit Types (x : Exchange W) (r : HttpRequest).

Definition get_kafka_route : Route :=
  HandleFunc (mkRouter "/api/kafkas_mgmt/v1/kafkas" [GIssuer [s.(TokenIssuerURL)] ErrorUnauthenticated; GOrgID ErrorUnauthenticated; GAuthorize])
    "/{id}" "kafkaHandler.Get" MethodGet.
Lemma get_kafka_route_in : get_kafka_route ∈ all_routes s.
Proof. unfold all_routes. apply elem_of_app. left. unfold buildApiBaseRouter. do 4 right. left. Qed.

(** The handler [Get] on the request that the middlewares hand to it. *)
Definition get_kafka : Handler W :=
  write_result (fun r => kafkaHandler_Get cfg (mkRequest (request_context S.(keys) r) (default "" (r.(Vars) !! "id")) (fun _ => "") (Ok tt))).

Lemma kafka_get_visible ctx id w k w' :
  Kafka_Get (W := W) ctx id w = (Ok k, w') ->
  exists claims, ctx.(ctx_claims) = Ok claims /\ k ∈ (tables_of w).(kafkas) /\ k.(KR.ID) = id /\ visible ctx claims k = true.
Proof.
  unfold Kafka_Get. intros Hrun. destruct (id =?s ""); [done|]. apply bind_ok in Hrun as (claims & w1 & Hc & Hrun).
  unfold lift in Hc. injection Hc as Hc ->. destruct (ctx_claims ctx) as [cl|]; [|done]. injection Hc as ->. exists claims. split; [done|].
  destruct (_ && _); [done|]. apply first_or_not_found_ok in Hrun as (Hin & Hp & _). apply andb_true_iff in Hp as [Hid Hv].
  by reflect_strings.
Qed.

Lemma get_kafka_ok r x x' resp :
  get_kafka r x = (Ok tt, x') -> x.(written) = [] -> x'.(written) = [resp] -> resp.(resp_error) = None ->
  exists k p w', Kafka_Get (auth_context (request_context S.(keys) r)) (default "" (r.(Vars) !! "id")) x.(world) = (Ok k, w') /\
    PresentKafkaRequest k cfg = Ok p /\ resp = mkResponse StatusOK None (Some (existT PublicKafka p)).
Proof.
  unfold get_kafka, write_result, in_world, kafkaHandler_Get, HandleGet, run_validated, bind. simpl. unfold ret, lift. intros Hrun Hnil Hw Hok.
  destruct (Kafka_Get _ _ (world x)) as [[k|e] w'] eqn:Hk.
  - destruct (PresentKafkaRequest k cfg) as [p|e] eqn:Hp; injection Hrun as <-; simpl in Hw; rewrite Hnil in Hw; injection Hw as <-; [|done].
    by exists k, p, w'.
  - injection Hrun as <-. simpl in Hw. rewrite Hnil in Hw. by injection Hw as <-.
Qed.

(** [C20] [GET /kafkas/{id}], from the middlewares of the route to the body of the
    answer: a user that is answered with anything but an error presented a token
    of the user realm, is not denied, and is shown, as the whole body, the view of
    the one instance with that identifier, which belongs to the user's own
    non-empty organisation.  The claims that the code asserts to be strings are
    taken to be strings (others end in a panic), and nothing before the user
    routes marks the caller as an administrator. *)
Theorem shown_kafka_is_own r x x' resp :
  (forall c, GetClaimsFromContext r = Ok c -> well_typed S.(keys) c = true) -> GetIsAdminFromContext r = false -> x.(written) = [] ->
  serve S get_kafka_route get_kafka r x = (Ok tt, x') -> x'.(written) = [resp] -> resp.(resp_error) = None ->
  exists c k p, GetClaimsFromContext r = Ok c /\
    issuer_accepted S.(VerifyIssuer) [s.(TokenIssuerURL)] r = true /\ listed S.(keys) S.(acl_config) c = true /\
    k ∈ (tables_of x.(world)).(kafkas) /\ k.(KR.ID) = default "" (r.(Vars) !! "id") /\
    k.(KR.OrganisationId) = org_of S.(keys) c /\ org_of S.(keys) c <> "" /\
    PresentKafkaRequest k cfg = Ok p /\ resp = mkResponse StatusOK None (Some (existT PublicKafka p)).
Proof.
  intros Hty Hadm Hnil Hrun Hw Hok. destruct (GetClaimsFromContext r) as [c|e] eqn:Hc.
  2: { unfold serve, get_kafka_route, HandleFunc in Hrun. simpl in Hrun. rewrite RequireIssuer_gate in Hrun. unfold issuer_accepted in Hrun.
       rewrite Hc in Hrun. injection Hrun as <-. simpl in Hw. rewrite Hnil in Hw. by injection Hw as <-. }
  pose proof (Hty c eq_refl) as Ht.
  pose proof (user_api_admission S s get_kafka_route get_kafka r x c get_kafka_route_in eq_refl Hc Ht) as Ha.
  change (user_issuers s get_kafka_route) with [TokenIssuerURL s] in Ha. change (creates_kafka get_kafka_route) with false in Ha.
  destruct (_ && _ && _) eqn:Hall.
  2: { destruct Ha as (err & _ & Ha). rewrite Ha in Hrun. injection Hrun as <-. simpl in Hw. rewrite Hnil in Hw. by injection Hw as <-. }
  rewrite !andb_true_iff, negb_true_iff, String.eqb_neq in Hall. destruct Hall as [[Hi Ho] Hl].
  rewrite Hrun in Ha. symmetry in Ha. apply (get_kafka_ok _ _ _ resp) in Ha as (k & p & w' & Hk & Hp & Hresp); [|done..].
  apply kafka_get_visible in Hk as (claims & Hcl & Hin & Hid & Hv). exists c, k, p. split_and!; try done.
  unfold visible, auth_context, request_context in Hv, Hcl. simpl in Hv, Hcl. unfold GetIsAdminFromContext in Hadm, Hv. simpl in Hv. rewrite Hadm in Hv.
  change (GetClaimsFromContext (SetFilterByOrganisationContext r true)) with (GetClaimsFromContext r) in Hcl. rewrite Hc in Hcl.
  injection Hcl as <-. apply String.eqb_eq in Hv. rewrite Hv. simpl. unfold org_of. by rewrite typed_org.
Qed.

Lemma GetClientID_ro id : read_only (GetClientID (W := W) id).
Proof. unfold GetClientID. solve_read_only. Qed.

Lemma kafka_paths : Forall (fun route => HasPrefix route.(route_path) "/api/kafkas_mgmt" = true) (buildApiBaseRouter s).
Proof.
  rewrite Forall_forall. intros route Hin%list_elem_of_In. revert route Hin.
  apply (proj1 (List.forallb_forall (fun route => HasPrefix route.(route_path) "/api/kafkas_mgmt") _)). vm_compute. reflexivity.
Qed.

(** A cluster that is not registered has the empty client: a token of the
    agents' realm with an empty client claim is served for it. *)
Theorem unknown_cluster_admits_empty_client route h r x c :
  S.(AgentClientID) = (fun id => wrap_err EService (GetClientID id)) ->
  route ∈ buildApiBaseRouter s -> agent_route route = true ->
  GetClaimsFromContext r = Ok c -> well_typed S.(keys) c = true -> client_of S.(keys) c = Some "" ->
  issuer_accepted S.(VerifyIssuer) [s.(RealmValidIssuerURI)] r = true ->
  Forall (fun cl => Some cl.(CL.ClusterID) <> r.(Vars) !! "id") (tables_of x.(world)).(clusters) ->
  exists x', tables_of x'.(world) = tables_of x.(world) /\ serve S route h r x = h r x'.
Proof.
  intros Hsvc Hin Ha Hc Ht Hcl Hiss Hunk.
  assert (route ∈ all_routes s) as Hin' by (apply elem_of_app; by left).
  assert (agent_var route = "id") as Hvar.
  { unfold agent_var. by rewrite (proj1 (Forall_forall _ _) kafka_paths _ Hin). }
  destruct (S.(AgentClientID) (default "" (r.(Vars) !! agent_var route)) x.(world)) as [[id|e] w'] eqn:Hrun.
  - pose proof Hrun as Hrun'. rewrite Hsvc, Hvar in Hrun'. apply wrap_err_ok in Hrun'.
    assert (tables_of w' = tables_of (world x)) as Htab by exact (read_only_run _ _ _ _ (GetClientID_ro _) Hrun').
    apply bind_ok in Hrun' as (found & w1 & Hf & Hrun'). apply FindClusterByID_ok in Hf as (_ & Hne & Hf).
    assert (found = None) as ->.
    { destruct found as [cl|]; [|done]. destruct Hf as [Hin1 Heq]. apply String.eqb_eq in Heq.
      exfalso. apply (proj1 (Forall_forall _ _) Hunk cl Hin1). rewrite Heq. destruct (Vars r !! "id"); [done|by destruct Hne]. }
    injection Hrun' as <- <-. rewrite (agent_api_admission S s route h r x c "" w1 Hin' Ha Hc Ht Hrun).
    rewrite bool_decide_true by done. rewrite Hiss. eexists; split; [|reflexivity]; exact Htab.
  - pose proof Hrun as Hrun'. rewrite Hsvc in Hrun'. unfold wrap_err in Hrun'.
    destruct (GetClientID _ (world x)) as [g w1] eqn:Hg. injection Hrun' as _ ->.
    pose proof (read_only_run _ _ _ _ (GetClientID_ro _) Hg) as Htab.
    destruct (agent_lookup_failure_goes_on S s route h r x c e w' Hin' Ha Hc Ht Hrun) as (x' & Hx & _ & Hs).
    rewrite bool_decide_true, Hiss in Hs by done. exists x'. by rewrite Hx.
Qed.
End EndToEnd.

(** ** A deployment *)
Module RoutesExample.
Definition opts : options := mkOptions "https://sso.example.org" "https://agents.example.org" "https://admins.example.org" true.

Definition claims (iss user org client : string) (roles : list string) : MapClaims :=
  <["iss" := VString iss]> (<["username" := VString user]> (<["org_id" := VString org]> (<["clientId" := VString client]>
    {[ "realm_access" := VObject [("roles", VArray (map VString roles))] ]}))).

Definition request (method : string) (id : string) (c : MapClaims) : HttpRequest :=
  mkHttpRequest method "/" "10.0.0.1" "" {[ "id" := id ]} (Ok (Some c)) None None.

Definition services : Services (MemDB.world unit) :=
  mkServices _ NewContextConfig
    (fun c issuer _ => match string_claim c "iss" with Some i => i =?s issuer | None => false end)
    (mkAccessControlListConfig ["mallory"] [] true false)
    [mkRolesConfiguration MethodGet ["kafka-read"; "kafka-full"]; mkRolesConfiguration MethodDelete ["kafka-full"]]
    true (fun _ _ => None) (fun _ _ w => w) (fun _ => ret false)
    (NewEnterpriseClustersAccessControlMiddleware Fixtures.kafka_config QuotaManagementListQuotaType)
    (fun _ _ _ _ => ret true)
    (fun id => wrap_err EService (GetClientID id)).

Definition stored : MemDB.world unit := HandlerExample.world (HandlerExample.sized Fixtures.k1).
Definition start (w : MemDB.world unit) : Exchange (MemDB.world unit) := mkExchange w [] [].
Definition alice_token : MapClaims := claims "https://sso.example.org" "alice" "org-1" "" [].
Definition agent_token : MapClaims := claims "https://agents.example.org" "" "" "" [].

(** A database that refuses its first statement. *)
Definition failing : MemDB.world unit := MemDB.mkWorld Fixtures.db 1000 [true] tt.

Definition get_kafkas_route : Route :=
  HandleFunc (mkRouter "/api/kafkas_mgmt/v1/agent-clusters" (UseOperatorAuthorisationMiddleware "https://agents.example.org" "id")) "/{id}/kafkas" "dataPlaneKafkaHandler.GetAll" MethodGet.
Definition seen : Handler (MemDB.world unit) := fun r => respond (mkResponse StatusNoContent None None).
End RoutesExample.
Import RoutesExample.

Lemma shown_kafka_is_own_witness :
  exists x' p, serve services (get_kafka_route opts) (get_kafka services Fixtures.kafka_config) (request MethodGet "k1" alice_token) (start stored) = (Ok tt, x') /\
    x'.(written) = [mkResponse StatusOK None (Some (existT PublicKafka p))] /\ p.(PK_Id) = "k1" /\
    exists k, k ∈ (MemDB.db stored).(kafkas) /\ k.(KR.OrganisationId) = "org-1" /\ PresentKafkaRequest k Fixtures.kafka_config = Ok p.
Proof.
  destruct (serve services (get_kafka_route opts) (get_kafka services Fixtures.kafka_config) (request MethodGet "k1" alice_token) (start stored))
    as [res x'] eqn:Hrun. pose proof Hrun as Hv. vm_compute in Hv. injection Hv as Hres Hx. subst res x'.
  destruct (shown_kafka_is_own services opts Fixtures.kafka_config (request MethodGet "k1" alice_token) (start stored) _ _
    ltac:(intros c [= <-]; reflexivity) eq_refl eq_refl Hrun eq_refl eq_refl) as (c & k & p & [= <-] & _ & _ & Hk & Hid & Ho & _ & Hp & Hresp).
  eexists _, p. split; [reflexivity|]. split; [exact (f_equal (fun y => [y]) Hresp)|]. split; [|exists k; split_and!; [exact Hk| |exact Hp]].
  - apply presented_kafka in Hp as (_ & -> & _). exact Hid.
  - rewrite Ho. vm_compute. reflexivity.
Defined.




Lemma user_api_admission_witness :
  serve services (get_kafka_route opts) seen (request MethodGet "k1" alice_token) (start stored) =
    seen (SetFilterByOrganisationContext (request MethodGet "k1" alice_token) true) (start stored).
Proof.
  pose proof (user_api_admission services opts (get_kafka_route opts) seen (request MethodGet "k1" alice_token) (start stored) alice_token
    (get_kafka_route_in opts) eq_refl eq_refl eq_refl) as Ha.
  change (issuer_accepted _ _ _ && _ && _) with true in Ha. exact Ha.
Defined.

Lemma agents_route : get_kafkas_route ∈ buildApiBaseRouter opts.
Proof. unfold buildApiBaseRouter. do 30 right. left. Qed.

(** The answer is a failure, and the handler has run. *)
Lemma agent_lookup_failure_goes_on_witness :
  exists x', serve services get_kafkas_route seen (request MethodGet "c1" agent_token) (start failing) = (Ok tt, x') /\
    map resp_status x'.(written) = [500; 204].
Proof.
  destruct (AgentClientID services "c1" failing) as [res w'] eqn:Hrun. pose proof Hrun as Hv. vm_compute in Hv. injection Hv as <- <-.
  destruct (agent_lookup_failure_goes_on services opts get_kafkas_route seen (request MethodGet "c1" agent_token) (start failing) agent_token _ _
    ltac:(apply elem_of_app; left; exact agents_route) eq_refl eq_refl eq_refl Hrun) as (x' & _ & Hw & Hs).
  change (bool_decide _ && _) with true in Hs. eexists. split; [exact Hs|]. simpl. by rewrite List.map_app, Hw.
Defined.

Lemma unknown_cluster_admits_empty_client_witness :
  exists x', serve services get_kafkas_route seen (request MethodGet "c9" agent_token) (start stored) =
    seen (request MethodGet "c9" agent_token) x'.
Proof.
  destruct (unknown_cluster_admits_empty_client services opts get_kafkas_route seen (request MethodGet "c9" agent_token) (start stored) agent_token
    eq_refl agents_route eq_refl eq_refl eq_refl eq_refl eq_refl) as (x' & _ & Hs).
  - repeat constructor; discriminate.
  - exists x'. exact Hs.
Defined.

Lemma claims_accessors_total_witness :
  Claims_GetUsername NewContextConfig alice_token = Ok (Ok "alice") /\ Claims_GetOrgId NewContextConfig alice_token = Ok "org-1".
Proof.
  destruct (claims_accessors_total NewContextConfig alice_token eq_refl) as (Hu & _ & Ho & _). rewrite Hu, Ho. split; vm_compute; reflexivity.
Defined.
