(* ===== verification/Certificates.v ===== *)
(** * TLS certificates of the Kafka routes:
    [src/internal/kafka/internal/services/kafkatlscertmgmt], with its
    configuration [src/internal/kafka/internal/config/kafka_tls_certificate_management.go]
    and the handler that revokes a certificate.

    The service keeps certificates in a storage, an interface of package
    certmagic with two implementations here: a map in memory and the secrets
    manager of AWS behind a cache.  certmagic itself, the secrets manager and
    its cache are third-party code and parameters.  Go's mutexes are modelled:
    a lock may block, and unlocking a free mutex is fatal. *)
From Stdlib Require QArith.QArith_base.
From S2P Require Import Prelude Arrays Errors Status Config Model Store Fixtures ClusterService KafkaService Validation KafkaHandlers.

(** ** Reasons: [certificate_revocation_reason.go] *)
Definition CertificateRevocationReason : Type := Z.
Definition Unspecified : CertificateRevocationReason := 0.
Definition KeyCompromise : CertificateRevocationReason := 1.
Definition CACompromise : CertificateRevocationReason := 2.
Definition AffiliationChanged : CertificateRevocationReason := 3.
Definition Superseded : CertificateRevocationReason := 4.
Definition CessationOfOperation : CertificateRevocationReason := 5.
Definition CertificateHold : CertificateRevocationReason := 6.
Definition RemoveFromCRL : CertificateRevocationReason := 8.
Definition PrivilegeWithdrawn : CertificateRevocationReason := 9.
Definition AACompromise : CertificateRevocationReason := 10.

Definition AsInt (reason : CertificateRevocationReason) : Z := reason.

Definition availableReasons : gmap Z CertificateRevocationReason :=
  list_to_map (map (fun r => (AsInt r, r))
    [Unspecified; AACompromise; AffiliationChanged; CACompromise; Superseded; CessationOfOperation; RemoveFromCRL;
     PrivilegeWithdrawn; CertificateHold; KeyCompromise]).

Definition ParseReason (reason : Z) : result error CertificateRevocationReason :=
  match availableReasons !! reason with
  | Some r => Ok r
  | None => Err (EPlain "reason '%d' not known. See https://www.rfc-editor.org/rfc/rfc5280#section-5.3.1 for the available reasons")
  end.

(** ** Configuration *)
Definition InMemoryTLSCertStorageType : string := "in-memory".
Definition SecureTLSCertStorageType : string := "secure-storage".
Definition FileTLSCertStorageType : string := "file".
Definition ManualCertificateManagement : string := "manual".
Definition AutomaticCertificateManagement : string := "automatic".

Definition validStorageTypes : list string := [InMemoryTLSCertStorageType; FileTLSCertStorageType; SecureTLSCertStorageType].
Definition validCertificateManagementStrategies : list string := [ManualCertificateManagement; AutomaticCertificateManagement].

Record ManualCertificateManagementConfig := mkManualConfig {
  KafkaTLSCert : string;
  KafkaTLSKey : string;
  KafkaTLSCertFilePath : string;
  KafkaTLSKeyFilePath : string
}.
Record AutomaticCertificateManagementConfig := mkAutomaticConfig {
  RenewalWindowRatio : QArith_base.Q;
  EmailToSendNotificationTo : string;
  AcmeIssuerAccountKeyFilePath : string;
  CertificateCacheTTL : Z;
  AcmeIssuerAccountKey : string;
  MustStaple : bool
}.
Record KafkaTLSCertificateManagementConfig := mkTLSConfig {
  CertificateManagementStrategy : string;
  StorageType : string;
  EnableKafkaExternalCertificate : bool;
  ManualConfig : ManualCertificateManagementConfig;
  AutomaticConfig : AutomaticCertificateManagementConfig
}.

(** The two calls of the validator library are parameters; a missing path is an
    error of the second. *)
Definition TLSConfig_Validate (validate_automatic : AutomaticCertificateManagementConfig -> result error unit)
    (validate_manual : ManualCertificateManagementConfig -> result error unit) (c : KafkaTLSCertificateManagementConfig) : result error unit :=
  if negb (Contains validStorageTypes c.(StorageType)) then Err (EPlain "invalid storage type %q supplied. Valid storage types are %v")
  else if negb (Contains validCertificateManagementStrategies c.(CertificateManagementStrategy))
  then Err (EPlain "invalid certificate management strategy %q supplied. Valid strategies are %v")
  else
    _ <-! (if (c.(CertificateManagementStrategy) =?s AutomaticCertificateManagement) && c.(EnableKafkaExternalCertificate)
           then map_err (EWrap "error validating the automatic kafka tls certificate management configuration") (validate_automatic c.(AutomaticConfig))
           else Ok tt) ;;
    if (c.(CertificateManagementStrategy) =?s ManualCertificateManagement) && c.(EnableKafkaExternalCertificate)
    then map_err (EWrap "error validating the manual kafka tls certificate management configuration") (validate_manual c.(ManualConfig))
    else Ok tt.

(** The manual certificate is read whatever the strategy, for the Kafkas whose
    references are not there yet.  [ReadFileValueString] is a parameter. *)
Definition TLSConfig_ReadFiles (ReadFileValueString : string -> result error string) (c : KafkaTLSCertificateManagementConfig)
  : result error KafkaTLSCertificateManagementConfig :=
  let m := c.(ManualConfig) in let a := c.(AutomaticConfig) in
  key <-! (if c.(CertificateManagementStrategy) =?s AutomaticCertificateManagement
           then ReadFileValueString a.(AcmeIssuerAccountKeyFilePath) else Ok a.(AcmeIssuerAccountKey)) ;;
  let a := mkAutomaticConfig a.(RenewalWindowRatio) a.(EmailToSendNotificationTo) a.(AcmeIssuerAccountKeyFilePath) a.(CertificateCacheTTL) key a.(MustStaple) in
  if c.(EnableKafkaExternalCertificate) then
    cert <-! ReadFileValueString m.(KafkaTLSCertFilePath) ;;
    tlsKey <-! ReadFileValueString m.(KafkaTLSKeyFilePath) ;;
    Ok (mkTLSConfig c.(CertificateManagementStrategy) c.(StorageType) c.(EnableKafkaExternalCertificate)
          (mkManualConfig cert tlsKey m.(KafkaTLSCertFilePath) m.(KafkaTLSKeyFilePath)) a)
  else Ok (mkTLSConfig c.(CertificateManagementStrategy) c.(StorageType) c.(EnableKafkaExternalCertificate) m a).

(** ** The storage *)
Record KeyInfo := mkKeyInfo { Key : string; Modified : Z; KeySize : Z; IsTerminal : bool }.
#[export] Instance KeyInfo_zero : Zero KeyInfo := mkKeyInfo "" 0 0 false.

(** The outcomes of a call that takes or frees a mutex. *)
Inductive lock_outcome := Acquired | Blocks | LockNotExist.
Inductive unlock_outcome := Released | FatalUnlock | UnlockNotExist.

(** [certmagic.Storage]. *)
Record Storage (W : Type) := mkStorage {
  st_Store : string -> string -> M W error unit;
  st_Load : string -> M W CertificateError string;
  st_Delete : string -> M W error unit;
  st_Exists : string -> W -> bool * W;
  st_List : string -> M W error (list string);
  st_Stat : string -> M W CertificateError KeyInfo;
  st_Lock : string -> W -> lock_outcome * W;
  st_Unlock : string -> W -> unlock_outcome * W
}.
Arguments mkStorage {W}.
Arguments st_Store {W}.
Arguments st_Load {W}.
Arguments st_Delete {W}.
Arguments st_Exists {W}.
Arguments st_List {W}.
Arguments st_Stat {W}.
Arguments st_Lock {W}.
Arguments st_Unlock {W}.

(** ** In memory: [memory_storage.go]

    An item points to a mutex of its own; [Store] makes a new one. *)
Record inMemoryStorageItem := mkItem { item_value : string; item_mu : nat; item_lastModified : Z }.
Record inMemoryStorage := mkInMemory {
  store : gmap string inMemoryStorageItem;
  (** The mutexes that were made, and whether each is held. *)
  mutexes : list bool;
  memory_clock : Z
}.
Definition newInMemoryStorage (now : Z) : inMemoryStorage := mkInMemory ∅ [] now.

Definition mutex_lock (i : nat) (s : inMemoryStorage) : lock_outcome * inMemoryStorage :=
  match s.(mutexes) !! i with
  | Some false => (Acquired, mkInMemory s.(store) (<[i := true]> s.(mutexes)) s.(memory_clock))
  | _ => (Blocks, s)
  end.
Definition mutex_unlock (i : nat) (s : inMemoryStorage) : unlock_outcome * inMemoryStorage :=
  match s.(mutexes) !! i with
  | Some true => (Released, mkInMemory s.(store) (<[i := false]> s.(mutexes)) s.(memory_clock))
  | _ => (FatalUnlock, s)
  end.

Definition Memory_Lock (key : string) (s : inMemoryStorage) : lock_outcome * inMemoryStorage :=
  match s.(store) !! key with
  | None => (LockNotExist, s)
  | Some item => mutex_lock item.(item_mu) s
  end.
Definition Memory_Unlock (key : string) (s : inMemoryStorage) : unlock_outcome * inMemoryStorage :=
  match s.(store) !! key with
  | None => (UnlockNotExist, s)
  | Some item => mutex_unlock item.(item_mu) s
  end.

Definition Memory_Store (key value : string) : M inMemoryStorage error unit := fun s =>
  (Ok tt, mkInMemory (<[key := mkItem value (length s.(mutexes)) s.(memory_clock)]> s.(store)) (s.(mutexes) ++ [false]) s.(memory_clock)).
Definition Memory_Load (key : string) : M inMemoryStorage CertificateError string := fun s =>
  match s.(store) !! key with
  | None => (Err CertNotExist, s)
  | Some obj => (Ok obj.(item_value), s)
  end.
Definition Memory_Delete (key : string) : M inMemoryStorage error unit := fun s =>
  (Ok tt, mkInMemory (delete key s.(store)) s.(mutexes) s.(memory_clock)).
Definition Memory_Exists (key : string) (s : inMemoryStorage) : bool * inMemoryStorage := (bool_decide (is_Some (s.(store) !! key)), s).
(** The order of a map is not fixed. *)
Definition Memory_List (prefix : string) : M inMemoryStorage error (list string) := fun s =>
  (Ok (List.filter (fun k => HasPrefix k prefix) (map fst (map_to_list s.(store)))), s).
Definition Memory_Stat (key : string) : M inMemoryStorage CertificateError KeyInfo := fun s =>
  match s.(store) !! key with
  | None => (Ok zero, s)
  | Some obj => (Ok (mkKeyInfo key obj.(item_lastModified) (Z.of_nat (String.length obj.(item_value))) (HasSuffix key "/")), s)
  end.

Definition memory_storage : Storage inMemoryStorage :=
  mkStorage Memory_Store Memory_Load Memory_Delete Memory_Exists Memory_List Memory_Stat Memory_Lock Memory_Unlock.

(** ** The secrets manager: [secure_storage.go] *)
Inductive AwsError := ResourceExistsException | ResourceNotFoundException | OtherAwsError (e : error).
Definition aws_error (e : AwsError) : error :=
  match e with
  | ResourceExistsException => EPlain "ResourceExistsException"
  | ResourceNotFoundException => EPlain "ResourceNotFoundException"
  | OtherAwsError e => e
  end.

(** What the storage calls of the AWS packages. *)
Record SecretManager (W : Type) := mkSecretManager {
  CreateSecret : string -> string -> M W AwsError unit;
  UpdateSecret : string -> string -> M W AwsError unit;
  DeleteSecret : string -> bool -> M W AwsError unit;
  (** The pages of the secrets whose name matches the filter. *)
  ListSecretsPages : string -> M W AwsError (list (list (option string)));
  LastChangedDate : string -> M W AwsError Z;
  (** [secretcache.Cache.GetSecretBinary] *)
  GetSecretBinary : string -> M W AwsError string;
  (** [storageItemLocks], the state of each mutex. *)
  item_locks : W -> gmap string bool;
  set_item_locks : gmap string bool -> W -> W
}.
Arguments mkSecretManager {W}.
Arguments CreateSecret {W}.
Arguments UpdateSecret {W}.
Arguments DeleteSecret {W}.
Arguments ListSecretsPages {W}.
Arguments LastChangedDate {W}.
Arguments GetSecretBinary {W}.
Arguments item_locks {W}.
Arguments set_item_locks {W}.

Section Secure.
Context {W : Type} (secretPrefix : string) (client : SecretManager W).

Definition constructAWSSecretManagerKeysPrefix : string := secretPrefix +:+ "/".
Definition constructSecretName (key : string) : string := constructAWSSecretManagerKeysPrefix +:+ key.

(** The mutex of a key is made the first time, and kept. *)
Definition Secure_Lock (key : string) (w : W) : lock_outcome * W :=
  let locks := client.(item_locks) w in
  let locks := match locks !! key with Some _ => locks | None => <[key := false]> locks end in
  match locks !! key with
  | Some false => (Acquired, client.(set_item_locks) (<[key := true]> locks) w)
  | _ => (Blocks, client.(set_item_locks) locks w)
  end.
Definition Secure_Unlock (key : string) (w : W) : unlock_outcome * W :=
  match client.(item_locks) w !! key with
  | None => (UnlockNotExist, w)
  | Some true => (Released, client.(set_item_locks) (<[key := false]> (client.(item_locks) w)) w)
  | Some false => (FatalUnlock, w)
  end.

Definition Secure_Store (key value : string) : M W error unit :=
  let name := constructSecretName key in
  created <~ attempt (client.(CreateSecret) name value) ;;
  match created with
  | Ok _ => ret tt
  | Err ResourceExistsException => wrap_err aws_error (client.(UpdateSecret) name value)
  | Err e => throw (aws_error e)
  end.

Definition Secure_Load (key : string) : M W CertificateError string :=
  result <~ attempt (client.(GetSecretBinary) (constructSecretName key)) ;;
  match result with
  | Ok value => ret value
  | Err ResourceNotFoundException => throw CertNotExist
  | Err e => throw (CertOther (aws_error e))
  end.

Definition Secure_Delete (key : string) : M W error unit :=
  wrap_err aws_error (client.(DeleteSecret) (constructSecretName key) true).

(** Any error of [Load] reads as absence. *)
Definition Secure_Exists (key : string) (w : W) : bool * W :=
  let '(r, w') := Secure_Load key w in (is_ok r, w').

Definition Secure_List (prefix : string) : M W error (list string) :=
  pages <~ wrap_err aws_error (client.(ListSecretsPages) (constructSecretName prefix)) ;;
  ret (flat_map (fun page => flat_map (fun entry =>
         match entry with Some name => [TrimPrefix name constructAWSSecretManagerKeysPrefix] | None => [] end) page) pages).

Definition Secure_Stat (key : string) : M W CertificateError KeyInfo :=
  result <~ Secure_Load key ;;
  modified <~ wrap_err (fun e => CertOther (aws_error e)) (client.(LastChangedDate) (constructSecretName key)) ;;
  ret (mkKeyInfo key modified (Z.of_nat (String.length result)) (HasSuffix key "/")).

Definition secure_storage : Storage W :=
  mkStorage Secure_Store Secure_Load Secure_Delete Secure_Exists Secure_List Secure_Stat Secure_Lock Secure_Unlock.
End Secure.

(** ** The service: [kafka_tls_certificate_management_service.go] *)
Record CertificateManagementOutput := mkCertificateManagementOutput { Output_TLSCertRef : string; Output_TLSKeyRef : string }.
Record GetCertificateRequest := mkGetCertificateRequest { TLSCertRef : string; TLSKeyRef : string }.
Definition areCertRefsDefined (req : GetCertificateRequest) : bool :=
  negb (StringEmpty req.(TLSCertRef) || StringEmpty req.(TLSKeyRef)).
Record Certificate := mkCertificate { TLSCert : string; TLSKey : string }.

(** [certMagicClientWrapper]: certmagic's [ManageAsync] and [RevokeCert], and
    the keys its storage uses for a domain. *)
Record CertMagic (W : Type) := mkCertMagic {
  ManageAsync : list string -> M W error unit;
  RevokeCert : string -> Z -> M W error unit;
  GetCerticateRefs : string -> CertificateManagementOutput
}.
Arguments mkCertMagic {W}.
Arguments ManageAsync {W}.
Arguments RevokeCert {W}.
Arguments GetCerticateRefs {W}.

Section Service.
Context {W : Type} (config : KafkaTLSCertificateManagementConfig) (storage : Storage W) (magic : CertMagic W).

Definition IsKafkaExternalCertificateEnabled : bool := config.(EnableKafkaExternalCertificate).
Definition IsAutomaticCertificateManagementEnabled : bool := config.(CertificateManagementStrategy) =?s AutomaticCertificateManagement.

Definition GetCertificate (request : GetCertificateRequest) : M W CertificateError Certificate :=
  if negb IsAutomaticCertificateManagementEnabled || negb (areCertRefsDefined request)
  then ret (mkCertificate config.(ManualConfig).(KafkaTLSCert) config.(ManualConfig).(KafkaTLSKey))
  else
    tlsCertValue <~ storage.(st_Load) request.(TLSCertRef) ;;
    tlsKeyValue <~ storage.(st_Load) request.(TLSKeyRef) ;;
    ret (mkCertificate tlsCertValue tlsKeyValue).

Definition wildcard (domain : string) : string := "*." +:+ domain.

Definition ManageCertificate (domain : string) : M W error CertificateManagementOutput :=
  if config.(CertificateManagementStrategy) =?s ManualCertificateManagement then ret (mkCertificateManagementOutput "" "")
  else
    _ <~ magic.(ManageAsync) [wildcard domain] ;;
    ret (magic.(GetCerticateRefs) (wildcard domain)).

Definition RevokeCertificate (domain : string) (reason : CertificateRevocationReason) : M W error unit :=
  if config.(CertificateManagementStrategy) =?s ManualCertificateManagement then ret tt
  else
    let refs := magic.(GetCerticateRefs) (wildcard domain) in
    fun w =>
      let '(exists_, w') := storage.(st_Exists) refs.(Output_TLSCertRef) w in
      if negb exists_ then (Ok tt, w')
      else magic.(RevokeCert) (wildcard domain) (AsInt reason) w'.
End Service.

(** [NewKafkaTLSCertificateManagementService] picks the storage; an unknown type
    leaves none. *)
Definition pick_storage {W} (StorageType : string) (file memory secure : Storage W) : option (Storage W) :=
  if StorageType =?s FileTLSCertStorageType then Some file
  else if StorageType =?s InMemoryTLSCertStorageType then Some memory
  else if StorageType =?s SecureTLSCertStorageType then Some secure
  else None.

(** ** The handler [RevokeCertificateOfAKafka]: [admin_kafka.go] *)
Section Revocation.
Context {W : Type} `{Database W} `{!KafkaExternals W} `{!HandlerServices W}.
Context (config : KafkaTLSCertificateManagementConfig) (storage : Storage W) (magic : CertMagic W).

Definition revoke_action (fetched : result ServiceError KafkaRequest) (revocationReason : Z) : M W ServiceError unit :=
  with_kafka fetched (fun kafkaRequest =>
    reason <~ lift (map_err (fun err => NewWithCause ErrorBadRequest (Some err) (error_text err)) (ParseReason revocationReason)) ;;
    wrap_err (fun err => NewWithCause ErrorGeneral (Some err) (error_text err))
      (RevokeCertificate config storage magic kafkaRequest.(KR.KafkasRoutesBaseDomainName) reason)).

Definition RevokeCertificateOfAKafka (r : Request Z) : M W ServiceError (Z * unit) :=
  fetched <~ attempt (Kafka_Get (auth_context r.(req_ctx)) r.(req_id)) ;;
  Handle r (mkHandlerConfig [fun _ => validateGettingKafkaFromDatabase fetched] (revoke_action fetched)) StatusNoContent.
End Revocation.

(** ** Facts *)

Lemma reasons_lookup (l : list CertificateRevocationReason) n :
  list_to_map (M := gmap Z CertificateRevocationReason) (map (fun r => (AsInt r, r)) l) !! n = if bool_decide (n ∈ l) then Some n else None.
Proof.
  induction l as [|a l IH]; [done|]. simpl. unfold AsInt at 1. destruct (decide (a = n)) as [->|Hne].
  - rewrite lookup_insert_eq, bool_decide_true; [done|left].
  - rewrite lookup_insert_ne, IH by done. destruct (decide (n ∈ l)).
    + rewrite !bool_decide_true; [done|by right|done].
    + rewrite !bool_decide_false; [done| |done]. rewrite elem_of_cons. naive_solver.
Qed.

(** The reasons are the ten of RFC 5280, and parsing is the inverse of
    [AsInt]. *)
Theorem ParseReason_exact n r :
  ParseReason n = Ok r <-> n = AsInt r /\ n ∈ [0; 1; 2; 3; 4; 5; 6; 8; 9; 10].
Proof.
  unfold ParseReason, availableReasons. rewrite reasons_lookup. set (l := [Unspecified; AACompromise; _; _; _; _; _; _; _; _]).
  assert (n ∈ l <-> n ∈ [0; 1; 2; 3; 4; 5; 6; 8; 9; 10]) as Hl.
  { unfold l. rewrite !elem_of_cons, !elem_of_nil. unfold Unspecified, AACompromise, AffiliationChanged, CACompromise, Superseded, CessationOfOperation,
      RemoveFromCRL, PrivilegeWithdrawn, CertificateHold, KeyCompromise. intuition lia. }
  unfold AsInt. case_bool_decide as Hd; split; [intros [= <-]; split; [done|by apply Hl]|by intros [-> _]|done|intros [_ Hin]; by apply Hl in Hin].
Qed.

Lemma validated_storage {W} va vm (c : KafkaTLSCertificateManagementConfig) (f m s : Storage W) :
  TLSConfig_Validate va vm c = Ok tt -> exists st, pick_storage c.(StorageType) f m s = Some st.
Proof.
  unfold TLSConfig_Validate. destruct (Contains validStorageTypes _) eqn:Hc; [|done]. intros _. apply Contains_true in Hc.
  unfold validStorageTypes in Hc. rewrite !elem_of_cons, elem_of_nil in Hc. destruct Hc as [->|[->|[->|[]]]]; by eexists.
Qed.

(** *** What a storage keeps *)

(** The contents of a storage as a map, and the effect of its operations when
    they do not fail. *)
Class StorageSpec {W : Type} (st : Storage W) := {
  contents : W -> gmap string string;
  store_ok : forall k v w w', st.(st_Store) k v w = (Ok tt, w') -> contents w' = <[k := v]> (contents w);
  load_ok : forall k v w w', st.(st_Load) k w = (Ok v, w') -> contents w !! k = Some v /\ contents w' = contents w;
  load_absent : forall k w w', st.(st_Load) k w = (Err CertNotExist, w') -> contents w !! k = None /\ contents w' = contents w;
  delete_ok : forall k w w', st.(st_Delete) k w = (Ok tt, w') -> contents w' = delete k (contents w)
}.
Arguments contents {W} st {_}.

#[export] Instance memory_storage_spec : StorageSpec memory_storage.
Proof.
  refine {| contents := fun s => item_value <$> s.(store) |}; simpl.
  - intros k v w w' [= <-]. simpl. by rewrite fmap_insert.
  - intros k v w w'. unfold Memory_Load. rewrite lookup_fmap. destruct (store w !! k); by intros [= <- <-].
  - intros k w w'. unfold Memory_Load. rewrite lookup_fmap. destruct (store w !! k); by intros [= <-].
  - intros k w w' [= <-]. simpl. by rewrite fmap_delete.
Defined.

Section ServiceFacts.
Context {W : Type} (config : KafkaTLSCertificateManagementConfig) (st : Storage W) (magic : CertMagic W) `{!StorageSpec st}.

(** The certificate of the storage is handed out in automatic mode and when
    both references are known, the manual one otherwise; a reference that is
    not there is reported as such. *)
Theorem GetCertificate_exact req w r w' :
  GetCertificate config st req w = (r, w') ->
  if IsAutomaticCertificateManagementEnabled config && areCertRefsDefined req then
    match r with
    | Ok c => contents st w !! req.(TLSCertRef) = Some c.(TLSCert) /\ contents st w !! req.(TLSKeyRef) = Some c.(TLSKey)
    | Err CertNotExist => contents st w !! req.(TLSCertRef) = None \/ contents st w !! req.(TLSKeyRef) = None
    | Err (CertOther _) => True
    end
  else r = Ok (mkCertificate config.(ManualConfig).(KafkaTLSCert) config.(ManualConfig).(KafkaTLSKey)) /\ w' = w.
Proof.
  unfold GetCertificate. destruct (IsAutomaticCertificateManagementEnabled config), (areCertRefsDefined req); simpl; try by intros [= <- <-].
  unfold bind. destruct (st_Load st (TLSCertRef req) w) as [[cert|[]] w1] eqn:H1; [|intros [= <- <-]..]; [|by apply load_absent in H1 as [? _]; left|done].
  apply load_ok in H1 as [H1 Hw]. destruct (st_Load st (TLSKeyRef req) w1) as [[key|[]] w2] eqn:H2; intros [= <- <-]; [| |done].
  - apply load_ok in H2 as [H2 _]. rewrite Hw in H2. done.
  - apply load_absent in H2 as [H2 _]. rewrite Hw in H2. by right.
Qed.
End ServiceFacts.

(** *** Names *)
Lemma substring_full s : String.substring 0 (String.length s) s = s.
Proof. induction s as [|c s IH]; simpl; [done|by rewrite IH]. Qed.

Lemma trim_prefix_app p s : TrimPrefix (p +:+ s) p = s.
Proof.
  unfold TrimPrefix. assert (HasPrefix (p +:+ s) p = true) as ->.
  { unfold HasPrefix. induction p as [|a p IH]; simpl; [by destruct s|]. by destruct (ascii_dec a a). }
  induction p as [|a p IH]; [|exact IH]. change ("" +:+ s) with s. simpl. rewrite Nat.sub_0_r. apply substring_full.
Qed.

(** *** Locks *)

(** In memory, storing a value replaces the mutex of its key: whoever held it
    loses it, so that a second holder gets in and the first one's unlock
    frees the lock of the second, or is fatal when there is none. *)
Theorem memory_store_drops_the_lock s key v s1 s2 :
  Memory_Lock key s = (Acquired, s1) -> Memory_Store key v s1 = (Ok tt, s2) ->
  fst (Memory_Unlock key s2) = FatalUnlock /\
  exists s3, Memory_Lock key s2 = (Acquired, s3) /\ fst (Memory_Unlock key s3) = Released.
Proof.
  intros Hl [= <-]. unfold Memory_Unlock, Memory_Lock, mutex_lock, mutex_unlock. simpl. rewrite lookup_insert_eq. simpl.
  rewrite !list_lookup_middle by done. split; [done|]. eexists. split; [reflexivity|]. simpl. rewrite lookup_insert_eq. simpl.
  rewrite list_lookup_insert_eq by (rewrite length_app; simpl; lia). done.
Qed.

(** A key that holds no value yet cannot be locked, although the lock is taken
    before the value is made. *)
Theorem memory_lock_needs_a_value s key : s.(store) !! key = None -> Memory_Lock key s = (LockNotExist, s).
Proof. unfold Memory_Lock. by intros ->. Qed.

Section SecureFacts.
Context {W : Type} (secretPrefix : string) (client : SecretManager W).
Context (locks_set : forall l w, client.(item_locks) (client.(set_item_locks) l w) = l).

(** The mutex of a key outlives its values: between a lock and its unlock,
    every other lock of the key blocks and the keys are independent. *)
Theorem secure_lock_exclusive key w w1 :
  Secure_Lock client key w = (Acquired, w1) ->
  fst (Secure_Lock client key w1) = Blocks /\
  (exists w2, Secure_Unlock client key w1 = (Released, w2) /\ fst (Secure_Lock client key w2) = Acquired) /\
  (forall key', key' <> key -> client.(item_locks) w1 !! key' = client.(item_locks) w !! key').
Proof.
  unfold Secure_Lock. intros Hl.
  set (locks := match item_locks client w !! key with Some _ => item_locks client w | None => <[key:=false]> (item_locks client w) end) in *.
  assert (forall key', key' <> key -> locks !! key' = item_locks client w !! key') as Hk.
  { intros key' Hne. unfold locks. destruct (item_locks client w !! key); [done|]. by rewrite lookup_insert_ne. }
  destruct (locks !! key) as [[]|] eqn:Hkey; try done. injection Hl as <-. rewrite locks_set, !lookup_insert_eq. split; [done|]. split.
  - unfold Secure_Unlock. rewrite locks_set, lookup_insert_eq. eexists. split; [reflexivity|]. rewrite locks_set, !lookup_insert_eq. done.
  - intros key' Hne. rewrite lookup_insert_ne by done. by apply Hk.
Qed.

(** The name of a secret determines its key, as [List] reads it back. *)
Lemma secret_name_roundtrip key : TrimPrefix (constructSecretName secretPrefix key) (constructAWSSecretManagerKeysPrefix secretPrefix) = key.
Proof. apply trim_prefix_app. Qed.

(** Storing a secret: it is made, or overwritten when the name is taken, as the
    secrets manager documents. *)
Context (secrets : W -> gmap string string).
Context (create_new : forall n v w r w', client.(CreateSecret) n v w = (r, w') ->
           match r with
           | Ok _ => secrets w' = <[n := v]> (secrets w)
           | Err _ => secrets w' = secrets w
           end).
Context (update_old : forall n v w r w', client.(UpdateSecret) n v w = (r, w') ->
           match r with Ok _ => secrets w' = <[n := v]> (secrets w) | Err _ => secrets w' = secrets w end).

Theorem secure_store_upsert key v w r w' :
  Secure_Store secretPrefix client key v w = (r, w') ->
  match r with
  | Ok _ => secrets w' = <[constructSecretName secretPrefix key := v]> (secrets w)
  | Err _ => secrets w' = secrets w
  end.
Proof.
  unfold Secure_Store, bind, attempt. destruct (CreateSecret client _ v w) as [c w1] eqn:Hc. apply create_new in Hc.
  destruct c as [[]|[| |e]]; try (intros [= <- <-]; done). unfold wrap_err.
  destruct (UpdateSecret client _ v w1) as [u w2] eqn:Hu. apply update_old in Hu. intros [= <- <-]. rewrite Hc in Hu. by destruct u.
Qed.
End SecureFacts.

(** *** Revocation *)

(** A revocation reaches the certificate authority for the wildcard of the
    domain, with the reason, when the certificate is in the storage. *)
Theorem RevokeCertificate_exact {W} config (st : Storage W) magic domain reason w :
  RevokeCertificate config st magic domain reason w =
    if config.(CertificateManagementStrategy) =?s ManualCertificateManagement then (Ok tt, w)
    else let '(present, w') := st.(st_Exists) (magic.(GetCerticateRefs) ("*." +:+ domain)).(Output_TLSCertRef) w in
         if present then magic.(RevokeCert) ("*." +:+ domain) reason w' else (Ok tt, w').
Proof.
  unfold RevokeCertificate. destruct (_ =?s _); [done|]. unfold wildcard. destruct (st_Exists st _ w) as [[] w']; done.
Qed.

(** With the secrets manager, a failure to read the certificate, whatever its
    cause, counts as its absence: the revocation is reported as done and the
    authority is not asked. *)
Theorem revocation_skipped_when_storage_fails {W} config prefix (client : SecretManager W) magic domain reason w e w' :
  (config.(CertificateManagementStrategy) =?s ManualCertificateManagement) = false ->
  client.(GetSecretBinary) (constructSecretName prefix (magic.(GetCerticateRefs) ("*." +:+ domain)).(Output_TLSCertRef)) w = (Err e, w') ->
  RevokeCertificate config (secure_storage prefix client) magic domain reason w = (Ok tt, w').
Proof.
  intros Hs Hg. rewrite RevokeCertificate_exact, Hs. simpl. unfold Secure_Exists, Secure_Load, bind, attempt. rewrite Hg. by destruct e.
Qed.

Section RevocationFacts.
Context {W : Type} `{Database W} `{!KafkaExternals W} `{!HandlerServices W}.
Context (config : KafkaTLSCertificateManagementConfig) (st : Storage W) (magic : CertMagic W).

(** What a revocation that is answered with success did: the Kafka exists, the
    reason is one of RFC 5280, and the service was asked for the domain of the
    Kafka's routes. *)
Theorem accepted_revocation r w code u w' :
  RevokeCertificateOfAKafka config st magic r w = (Ok (code, u), w') ->
  code = StatusNoContent /\
  exists k reason wa, r.(req_body) = Ok reason /\ reason ∈ [0; 1; 2; 3; 4; 5; 6; 8; 9; 10] /\
    k ∈ (tables_of w).(kafkas) /\ k.(KR.ID) = r.(req_id) /\ tables_of wa = tables_of w /\
    RevokeCertificate config st magic k.(KR.KafkasRoutesBaseDomainName) reason wa = (Ok tt, w').
Proof.
  unfold RevokeCertificateOfAKafka. intros Hrun.
  apply (fetched_ok r (fun fetched => mkHandlerConfig [fun _ => validateGettingKafkaFromDatabase fetched] (revoke_action config st magic fetched))
    StatusNoContent w code u w' 0%nat) in Hrun as (k & reason & Hin & Hid & _ & Hb & -> & _ & wa & Ht & Ha).
  - split; [done|]. exists k, reason, wa. simpl in Ha. apply bind_ok in Ha as (rs & w1 & Hp & Ha). unfold lift in Hp. injection Hp as Hp <-.
    destruct (ParseReason reason) as [r0|] eqn:Hpr; [|done]. injection Hp as ->. apply ParseReason_exact in Hpr as [-> Hin']. apply wrap_err_ok in Ha.
    destruct u. unfold AsInt in *. by split_and!.
  - intros fetched. each_validator; eauto with fleet.
  - done.
Qed.
End RevocationFacts.

(** ** Witnesses *)
Module CertificateExample.
Definition config (strategy : string) : KafkaTLSCertificateManagementConfig :=
  mkTLSConfig strategy InMemoryTLSCertStorageType true (mkManualConfig "manual-crt" "manual-key" "crt" "key")
    (mkAutomaticConfig (QArith_base.Qmake 1 3) "ops@example.org" "acme" 600 "" false).
Definition refs (d : string) : CertificateManagementOutput := mkCertificateManagementOutput (d +:+ ".crt") (d +:+ ".key").
Definition stored : inMemoryStorage :=
  snd (Memory_Store "*.a.org.key" "KEY" (snd (Memory_Store "*.a.org.crt" "CRT" (newInMemoryStorage 5)))).
Definition request : GetCertificateRequest := mkGetCertificateRequest "*.a.org.crt" "*.a.org.key".

(** A secrets manager that keeps its secrets in a map, and refuses to read
    them while its last component is set. *)
Definition aws : Type := gmap string string * gmap string bool * bool.
Definition manager : SecretManager aws :=
  mkSecretManager
    (fun n v '(m, l, f) => if decide (is_Some (m !! n)) then (Err ResourceExistsException, (m, l, f)) else (Ok tt, (<[n := v]> m, l, f)))
    (fun n v '(m, l, f) => (Ok tt, (<[n := v]> m, l, f)))
    (fun n _ '(m, l, f) => (Ok tt, (delete n m, l, f)))
    (fun p w => (Ok [[Some p]], w))
    (fun _ w => (Ok 0, w))
    (fun n '(m, l, f) => if (f : bool) then (Err (OtherAwsError (EPlain "AccessDeniedException")), (m, l, f))
                         else match m !! n with Some v => (Ok v, (m, l, f)) | None => (Err ResourceNotFoundException, (m, l, f)) end)
    (fun w => w.1.2) (fun l w => (w.1.1, l, w.2)).
Definition magic {W} : CertMagic W := mkCertMagic (fun _ => ret tt) (fun _ _ => throw (EPlain "revoked")) refs.

Definition present : Storage (MemDB.world unit) :=
  mkStorage (fun _ _ => ret tt) (fun _ => ret "CRT") (fun _ => ret tt) (fun _ w => (true, w)) (fun _ => ret []) (fun _ => ret zero)
    (fun _ w => (Acquired, w)) (fun _ w => (Released, w)).
Definition quiet : CertMagic (MemDB.world unit) := mkCertMagic (fun _ => ret tt) (fun _ _ => ret tt) refs.
Definition admin_request : Request Z := HandlerExample.request HandlerExample.admin_ctx "k1" KeyCompromise.
End CertificateExample.
Import CertificateExample.

Lemma GetCertificate_exact_witness :
  contents memory_storage stored !! "*.a.org.crt" = Some "CRT" /\ contents memory_storage stored !! "*.a.org.key" = Some "KEY".
Proof.
  exact (GetCertificate_exact (config AutomaticCertificateManagement) memory_storage request stored (Ok (mkCertificate "CRT" "KEY")) stored eq_refl).
Defined.

Lemma memory_store_drops_the_lock_witness :
  fst (Memory_Unlock "*.a.org.crt" (snd (Memory_Store "*.a.org.crt" "CRT2" (snd (Memory_Lock "*.a.org.crt" stored))))) = FatalUnlock.
Proof.
  destruct (Memory_Lock "*.a.org.crt" stored) as [o s1] eqn:Hl. pose proof Hl as Hv. vm_compute in Hv. injection Hv as <- <-.
  exact (proj1 (memory_store_drops_the_lock stored "*.a.org.crt" "CRT2" _ _ Hl eq_refl)).
Defined.

Lemma secure_lock_exclusive_witness :
  fst (Secure_Lock manager "k" (snd (Secure_Lock manager "k" (∅, ∅, false)))) = Blocks.
Proof.
  destruct (Secure_Lock manager "k" (∅, ∅, false)) as [o w1] eqn:Hl. pose proof Hl as Hv. vm_compute in Hv. injection Hv as <- <-.
  exact (proj1 (secure_lock_exclusive manager (fun _ _ => eq_refl) "k" (∅, ∅, false) _ Hl)).
Defined.

Lemma secure_store_upsert_witness :
  exists w', Secure_Store "prod" manager "k" "v2" ({[ "prod/k" := "v1" ]}, ∅, false) = (Ok tt, w') /\ w'.1.1 !! "prod/k" = Some "v2".
Proof.
  destruct (Secure_Store "prod" manager "k" "v2" ({[ "prod/k" := "v1" ]}, ∅, false)) as [r w'] eqn:Hr. pose proof Hr as Hv. vm_compute in Hv.
  injection Hv as <- <-. eexists. split; [reflexivity|].
  rewrite (secure_store_upsert "prod" manager (fun w => w.1.1)) with (r := Ok tt) (key := "k") (v := "v2") (w := ({[ "prod/k" := "v1" ]}, ∅, false));
    [vm_compute; reflexivity| | |exact Hr].
  - intros n v [[m l] f] res w'. simpl. destruct (decide _); by intros [= <- <-].
  - intros n v [[m l] f] res w'. simpl. by intros [= <- <-].
Defined.

(** The certificate is there, the authority would have been asked. *)
Lemma revocation_skipped_when_storage_fails_witness :
  let w : aws := ({[ "prod/*.a.org.crt" := "CRT" ]}, ∅, true) in
  RevokeCertificate (config AutomaticCertificateManagement) (secure_storage "prod" manager) magic "a.org" KeyCompromise w = (Ok tt, w) /\
  fst (RevokeCertificate (config AutomaticCertificateManagement) (secure_storage "prod" manager) magic "a.org" KeyCompromise (w.1, false)) =
    Err (EPlain "revoked").
Proof.
  intros w. split; [|vm_compute; reflexivity].
  exact (revocation_skipped_when_storage_fails (config AutomaticCertificateManagement) "prod" manager magic "a.org" KeyCompromise w _ w eq_refl eq_refl).
Defined.

Lemma accepted_revocation_witness :
  exists k, k ∈ Fixtures.db.(kafkas) /\ k.(KR.ID) = "k1".
Proof.
  destruct (RevokeCertificateOfAKafka (config AutomaticCertificateManagement) present quiet admin_request Fixtures.world) as [res w'] eqn:Hrun.
  pose proof Hrun as Hv. vm_compute in Hv. injection Hv as <- <-.
  destruct (accepted_revocation (config AutomaticCertificateManagement) present quiet admin_request Fixtures.world _ _ _ Hrun)
    as (_ & k & reason & wa & _ & _ & Hin & Hid & _). exists k. split; [exact Hin|exact Hid].
Defined.
