(* ===== verification/ManagedKafkas.v ===== *)
(** * What the data plane is told and tells: the custom resources of the Kafka
    service ([src/internal/kafka/internal/services/kafka.go]), their
    presentation ([presenters/managedkafka.go]) and the handlers for the agents
    ([handlers/data_plane_kafka.go], [handlers/data_plane_cluster.go]) with
    the conversions of their reports
    ([presenters/data_plane_kafka_status.go], [data_plane_cluster_status.go]). *)
From S2P Require Import Prelude Arrays Errors Status Config Model Versions Store Resources Fixtures Providers ClusterService KafkaService.
From S2P Require Import DataPlaneKafka DataPlaneCluster Validation KafkaHandlers ClusterHandlers Certificates.

(** ** The custom resource: [managedkafka_types.go] *)
Definition ManagedKafkaBf2DeploymentLabelKey : string := "bf2.org/deployment".
Definition ManagedKafkaBf2DeploymentLabelValueReserved : string := "reserved".
Definition ManagedKafkaBf2SuspendedLabelKey : string := "bf2.org/suspended".

Record Capacity := mkCapacity {
  Cap_IngressPerSec : string;
  Cap_EgressPerSec : string;
  Cap_TotalMaxConnections : Z;
  Cap_MaxDataRetentionSize : string;
  Cap_MaxPartitions : Z;
  Cap_MaxDataRetentionPeriod : string;
  Cap_MaxConnectionAttemptsPerSec : Z
}.
Record VersionsSpec := mkVersionsSpec { V_Kafka : string; V_Strimzi : string; V_KafkaIBP : string }.
Record OAuthSpec := mkOAuthSpec {
  TokenEndpointURI : string;
  JwksEndpointURI : string;
  ValidIssuerEndpointURI : string;
  UserNameClaim : string;
  TlsTrustedCertificate : option string;
  CustomClaimCheck : string;
  FallBackUserNameClaim : string;
  MaximumSessionLifetime : Z
}.
#[export] Instance OAuthSpec_zero : Zero OAuthSpec := mkOAuthSpec "" "" "" "" None "" "" 0.
Record TlsSpec := mkTlsSpec { Tls_Cert : string; Tls_Key : string }.
Record MKServiceAccount := mkMKServiceAccount { MSA_Name : string; MSA_Principal : string; MSA_Password : string }.
Record ManagedKafka := mkManagedKafka {
  MK_Id : string;
  MK_Kind : string;
  MK_APIVersion : string;
  MK_Name : string;
  MK_Namespace : string;
  MK_Annotations : gmap string string;
  MK_Labels : gmap string string;
  MK_Capacity : Capacity;
  MK_OAuth : OAuthSpec;
  MK_BootstrapServerHost : string;
  MK_Tls : option TlsSpec;
  MK_Versions : VersionsSpec;
  MK_Deleted : bool;
  MK_Owners : list string;
  MK_ServiceAccounts : list MKServiceAccount
}.
#[export] Instance ManagedKafka_zero : Zero ManagedKafka :=
  mkManagedKafka "" "" "" "" "" ∅ ∅ (mkCapacity "" "" 0 "" 0 "" 0) zero "" None (mkVersionsSpec "" "" "") false [] [].

(** What the service reads of the single sign-on configuration. *)
Record KeycloakConfig := mkKeycloakConfig {
  EnableAuthenticationOnKafka : bool;
  KC_UserNameClaim : string;
  KC_FallBackUserNameClaim : string;
  SelectSSOProvider : string;
  TLSTrustedCertificatesValue : string;
  Realm_TokenEndpointURI : string;
  Realm_JwksEndpointURI : string;
  Realm_ValidIssuerURI : string
}.
Definition REDHAT_SSO : string := "redhat_sso".

Definition GetSuspendedStatuses : list string := [KafkaRequestStatusSuspending; KafkaRequestStatusSuspended].

Definition BuildCustomClaimCheck (kafkaRequest : KafkaRequest) (ssoconfigProvider : string) : string :=
  let org := kafkaRequest.(KR.OrganisationId) in
  if ssoconfigProvider =?s REDHAT_SSO
  then "@.rh-org-id == '" +:+ org +:+ "'|| @.org_id == '" +:+ org +:+ "' || @.clientId == '" +:+ kafkaRequest.(KR.CanaryServiceAccountClientID) +:+ "'"
  else "@.rh-org-id == '" +:+ org +:+ "'|| @.org_id == '" +:+ org +:+ "'".

(** [fmt.Sprintf("%t", b)] and [strconv.Itoa]. *)
Definition format_bool (b : bool) : string := if b then "true" else "false".
Definition Itoa (z : Z) : string := pretty z.

Definition buildKafkaOwner (kafkaRequest : KafkaRequest) (kafkaConfig : KafkaConfig) : list string :=
  if kafkaConfig.(EnableKafkaOwnerConfig) then kafkaRequest.(KR.Owner) :: kafkaConfig.(KafkaOwnerList) else [kafkaRequest.(KR.Owner)].

Definition annotations (id placementId : string) : gmap string string :=
  <["bf2.org/id" := id]> {[ "bf2.org/placementId" := placementId ]}.

Definition buildManagedKafkaCR (kafkaRequest : KafkaRequest) (kafkaConfig : KafkaConfig) (keycloak : KeycloakConfig)
    (certificates : Certificate) (enableKafkaExternalCertificate : bool) : result ServiceError ManagedKafka :=
  k <-! map_err (general "unable to list kafka request") (GetKafkaInstanceSize kafkaConfig kafkaRequest.(KR.InstanceType) kafkaRequest.(KR.SizeId)) ;;
  let labels : gmap string string :=
    <["bf2.org/kafkaInstanceProfileQuotaConsumed" := Itoa k.(QuotaConsumed)]>
    (<["bf2.org/kafkaInstanceProfileType" := kafkaRequest.(KR.InstanceType)]>
    {[ ManagedKafkaBf2SuspendedLabelKey := format_bool (Contains GetSuspendedStatuses kafkaRequest.(KR.Status)) ]}) in
  Ok (mkManagedKafka kafkaRequest.(KR.ID) "ManagedKafka" "managedkafka.bf2.org/v1alpha1" kafkaRequest.(KR.Name) kafkaRequest.(KR.Namespace)
        (annotations kafkaRequest.(KR.ID) kafkaRequest.(KR.PlacementId)) labels
        (mkCapacity k.(IngressThroughputPerSec) k.(EgressThroughputPerSec) k.(TotalMaxConnections) kafkaRequest.(KR.MaxDataRetentionSize)
           k.(MaxPartitions) k.(MaxDataRetentionPeriod) k.(MaxConnectionAttemptsPerSec))
        (if keycloak.(EnableAuthenticationOnKafka)
         then mkOAuthSpec keycloak.(Realm_TokenEndpointURI) keycloak.(Realm_JwksEndpointURI) keycloak.(Realm_ValidIssuerURI)
                keycloak.(KC_UserNameClaim)
                (if negb (keycloak.(TLSTrustedCertificatesValue) =?s "") then Some keycloak.(TLSTrustedCertificatesValue) else None)
                (BuildCustomClaimCheck kafkaRequest keycloak.(SelectSSOProvider)) keycloak.(KC_FallBackUserNameClaim)
                (if kafkaRequest.(KR.ReauthenticationEnabled) then 299000 else 0)
         else zero)
        kafkaRequest.(KR.BootstrapServerHost)
        (if enableKafkaExternalCertificate then Some (mkTlsSpec certificates.(TLSCert) certificates.(TLSKey)) else None)
        (mkVersionsSpec kafkaRequest.(KR.DesiredKafkaVersion) kafkaRequest.(KR.DesiredStrimziVersion) kafkaRequest.(KR.DesiredKafkaIBPVersion))
        (kafkaRequest.(KR.Status) =?s KafkaRequestStatusDeprovision)
        (buildKafkaOwner kafkaRequest kafkaConfig)
        (if keycloak.(EnableAuthenticationOnKafka)
         then [mkMKServiceAccount "canary" kafkaRequest.(KR.CanaryServiceAccountClientID) kafkaRequest.(KR.CanaryServiceAccountClientSecret)]
         else [])).

Definition buildReservedManagedKafkaCR (kafkaConfig : KafkaConfig) (kafkaID instanceType streamingBaseUnit : string)
    (desiredStrimziVersion : StrimziVersion) : result ServiceError ManagedKafka :=
  kafkaInstanceSize <-! map_err (general "unable to list kafka request") (GetKafkaInstanceSize kafkaConfig instanceType streamingBaseUnit) ;;
  match GetLatestKafkaVersion desiredStrimziVersion with
  | None => Err (GeneralError "no available Kafka versions in Strimzi version %s")
  | Some desiredKafkaVersion =>
      match GetLatestKafkaIBPVersion desiredStrimziVersion with
      | None => Err (GeneralError "no available Kafka IBP versions in Strimzi version %s")
      | Some desiredKafkaIBPVersion =>
          let labels : gmap string string :=
            <["bf2.org/kafkaInstanceProfileQuotaConsumed" := Itoa kafkaInstanceSize.(QuotaConsumed)]>
            (<["bf2.org/kafkaInstanceProfileType" := instanceType]>
            {[ ManagedKafkaBf2DeploymentLabelKey := ManagedKafkaBf2DeploymentLabelValueReserved ]}) in
          Ok (mkManagedKafka kafkaID "ManagedKafka" "managedkafka.bf2.org/v1alpha1" kafkaID kafkaID (annotations kafkaID kafkaID) labels
                (mkCapacity kafkaInstanceSize.(IngressThroughputPerSec) kafkaInstanceSize.(EgressThroughputPerSec)
                   kafkaInstanceSize.(TotalMaxConnections) kafkaInstanceSize.(MaxDataRetentionSize) kafkaInstanceSize.(MaxPartitions)
                   kafkaInstanceSize.(MaxDataRetentionPeriod) kafkaInstanceSize.(MaxConnectionAttemptsPerSec))
                zero (kafkaID +:+ "-dummyhost") None
                (mkVersionsSpec desiredKafkaVersion.(KafkaVersion_Version) desiredStrimziVersion.(Version) desiredKafkaIBPVersion.(KafkaIBPVersion_Version))
                false [] [])
      end
  end.

(** A loop that builds one element after the other and returns the first
    error. *)
Fixpoint build_all {E A B} (f : A -> result E B) (l : list A) : result E (list B) :=
  match l with
  | [] => Ok []
  | a :: l' => b <-! f a ;; bs <-! build_all f l' ;; Ok (b :: bs)
  end.

Section Service.
Context {W : Type} `{Database W}.
Context (kafkaConfig : KafkaConfig) (dataplaneClusterConfig : DataplaneClusterConfig) (keycloak : KeycloakConfig).
Context (tlsConfig : KafkaTLSCertificateManagementConfig) (storage : Storage W).

Definition managed_by (clusterID : string) (k : KafkaRequest) : bool :=
  (k.(KR.ClusterID) =?s clusterID) && Contains kafkaManagedCRStatuses k.(KR.Status) && negb (k.(KR.BootstrapServerHost) =?s "").

Definition cert_error (e : CertificateError) : error := match e with CertNotExist => EPlain "file does not exist" | CertOther e => e end.

Definition build_managed (kafkaRequest : KafkaRequest) : M W ServiceError ManagedKafka :=
  certificate <~ (if IsKafkaExternalCertificateEnabled tlsConfig
                  then wrap_err (fun e => general "failed to find kafka %q certificates" (cert_error e))
                         (GetCertificate tlsConfig storage
                            (mkGetCertificateRequest kafkaRequest.(KR.KafkasRoutesBaseDomainTLSCrtRef) kafkaRequest.(KR.KafkasRoutesBaseDomainTLSKeyRef)))
                  else ret (mkCertificate "" "")) ;;
  lift (buildManagedKafkaCR kafkaRequest kafkaConfig keycloak certificate (IsKafkaExternalCertificateEnabled tlsConfig)).

Fixpoint build_managed_all (l : list KafkaRequest) : M W ServiceError (list ManagedKafka) :=
  match l with
  | [] => ret []
  | k :: l' => mk <~ build_managed k ;; res <~ build_managed_all l' ;; ret (mk :: res)
  end.

Definition GetManagedKafkaByClusterID (clusterID : string) : M W ServiceError (list ManagedKafka) :=
  kafkaRequestList <~ wrap_err (general "unable to list kafka requests") (exec (SelectKafkas (managed_by clusterID))) ;;
  build_managed_all kafkaRequestList.

Definition reserved_id (supportedInstanceType : string) (i : Z) : string := "reserved-kafka-" +:+ supportedInstanceType +:+ "-" +:+ Itoa i.

(** The loop [for i := 1; i <= num; i++]. *)
Definition one_to (num : Z) : list Z := map Z.of_nat (seq 1 (Z.to_nat num)).

Definition reserved_of (strimzi : StrimziVersion) (supportedInstanceType : string) : result ServiceError (list ManagedKafka) :=
  match ForInstanceType dataplaneClusterConfig.(DP_NodePrewarmingConfig) supportedInstanceType with
  | None => Ok []
  | Some conf =>
      build_all (fun i => buildReservedManagedKafkaCR kafkaConfig (reserved_id supportedInstanceType i) supportedInstanceType conf.(BaseStreamingUnitSize) strimzi)
        (one_to conf.(NumReservedInstances))
  end.

Definition GenerateReservedManagedKafkasByClusterID (clusterID : string) : M W ServiceError (list ManagedKafka) :=
  found <~ FindClusterByID clusterID ;;
  match found with
  | None => throw (GeneralError "failed to generate reserved managed kafkas for clusterID %s: clusterID not found")
  | Some cluster =>
      if negb (cluster.(CL.Status) =?s ClusterReady) then ret []
      else
        latest <~ lift (map_err (general "failed to generate reserved managed kafkas for clusterID %s: error finding ready strimzi versions")
                          (GetLatestAvailableAndReadyStrimziVersion cluster)) ;;
        match latest with
        | None => throw (GeneralError "failed to generate reserved managed kafkas for clusterID %s: no ready strimzi versions found")
        | Some strimzi =>
            groups <~ lift (build_all (reserved_of strimzi) (GetSupportedInstanceTypes cluster)) ;;
            ret (concat groups)
        end
  end.

(** *** Component versions *)
Record KafkaComponentVersions := mkKafkaComponentVersions {
  CV_ID : string;
  CV_ClusterID : string;
  CV_DesiredStrimziVersion : string;
  CV_ActualStrimziVersion : string;
  CV_StrimziUpgrading : bool;
  CV_DesiredKafkaVersion : string;
  CV_ActualKafkaVersion : string;
  CV_KafkaUpgrading : bool;
  CV_DesiredKafkaIBPVersion : string;
  CV_ActualKafkaIBPVersion : string;
  CV_KafkaIBPUpgrading : bool
}.

Definition ListComponentVersions : M W ServiceError (list KafkaComponentVersions) :=
  results <~ wrap_err (general "failed to list component versions") (exec (SelectKafkas (fun _ => true))) ;;
  ret (map (fun k => mkKafkaComponentVersions k.(KR.ID) k.(KR.ClusterID) k.(KR.DesiredStrimziVersion) k.(KR.ActualStrimziVersion)
    k.(KR.StrimziUpgrading) k.(KR.DesiredKafkaVersion) k.(KR.ActualKafkaVersion) k.(KR.KafkaUpgrading) k.(KR.DesiredKafkaIBPVersion)
    k.(KR.ActualKafkaIBPVersion) k.(KR.KafkaIBPUpgrading)) results).
End Service.

(** ** Presentation: [presenters/managedkafka.go]

    The generated types of the private API, flattened. *)
Record PrivateManagedKafka := mkPrivateManagedKafka {
  PMK_Id : string;
  PMK_Kind : string;
  PMK_Name : string;
  PMK_Namespace : string;
  PMK_Bf2OrgId : string;
  PMK_Bf2OrgPlacementId : string;
  PMK_ProfileType : string;
  PMK_ProfileQuotaConsumed : string;
  PMK_Deployment : string;
  PMK_Suspended : string;
  PMK_Capacity : Capacity;
  PMK_Oauth : OAuthSpec;
  PMK_Tls : option TlsSpec;
  PMK_BootstrapServerHost : string;
  PMK_Versions : VersionsSpec;
  PMK_Deleted : bool;
  PMK_Owners : list string;
  PMK_ServiceAccounts : list MKServiceAccount
}.
#[export] Instance PrivateManagedKafka_zero : Zero PrivateManagedKafka :=
  mkPrivateManagedKafka "" "" "" "" "" "" "" "" "" "" (mkCapacity "" "" 0 "" 0 "" 0) zero None "" (mkVersionsSpec "" "" "") false [] [].

(** [m[k]] of a map of strings. *)
Definition entry (m : gmap string string) (k : string) : string := default "" (m !! k).

Definition getServiceAccounts (from : list MKServiceAccount) : list MKServiceAccount :=
  map (fun a => mkMKServiceAccount a.(MSA_Name) a.(MSA_Principal) a.(MSA_Password)) from.
Definition getOpenAPIManagedKafkaEndpointTLS (from : option TlsSpec) : option TlsSpec :=
  match from with Some t => Some (mkTlsSpec t.(Tls_Cert) t.(Tls_Key)) | None => None end.
Definition getOpenAPIManagedKafkaOAuthTLSTrustedCertificate (from : OAuthSpec) : option string :=
  match from.(TlsTrustedCertificate) with Some c => Some c | None => None end.

Definition PresentManagedKafka (from : ManagedKafka) : PrivateManagedKafka :=
  let cap := from.(MK_Capacity) in
  mkPrivateManagedKafka (entry from.(MK_Annotations) "bf2.org/id") from.(MK_Kind) from.(MK_Name) from.(MK_Namespace)
    (entry from.(MK_Annotations) "bf2.org/id") (entry from.(MK_Annotations) "bf2.org/placementId")
    (entry from.(MK_Labels) "bf2.org/kafkaInstanceProfileType") (entry from.(MK_Labels) "bf2.org/kafkaInstanceProfileQuotaConsumed")
    (entry from.(MK_Labels) ManagedKafkaBf2DeploymentLabelKey) (entry from.(MK_Labels) ManagedKafkaBf2SuspendedLabelKey)
    (mkCapacity cap.(Cap_IngressPerSec) cap.(Cap_EgressPerSec) (int32 cap.(Cap_TotalMaxConnections)) cap.(Cap_MaxDataRetentionSize)
       (int32 cap.(Cap_MaxPartitions)) cap.(Cap_MaxDataRetentionPeriod) (int32 cap.(Cap_MaxConnectionAttemptsPerSec)))
    (mkOAuthSpec from.(MK_OAuth).(TokenEndpointURI) from.(MK_OAuth).(JwksEndpointURI) from.(MK_OAuth).(ValidIssuerEndpointURI)
       from.(MK_OAuth).(UserNameClaim) (getOpenAPIManagedKafkaOAuthTLSTrustedCertificate from.(MK_OAuth))
       from.(MK_OAuth).(CustomClaimCheck) from.(MK_OAuth).(FallBackUserNameClaim) from.(MK_OAuth).(MaximumSessionLifetime))
    (getOpenAPIManagedKafkaEndpointTLS from.(MK_Tls)) from.(MK_BootstrapServerHost)
    (mkVersionsSpec from.(MK_Versions).(V_Kafka) from.(MK_Versions).(V_Strimzi) from.(MK_Versions).(V_KafkaIBP))
    from.(MK_Deleted) from.(MK_Owners) (getServiceAccounts from.(MK_ServiceAccounts)).

(** ** Reports: the private types and their conversions *)
Record PrivateKafkaStatus := mkPrivateKafkaStatus {
  PKS_Conditions : list DataPlaneKafkaStatusCondition;
  PKS_Routes : option (list DataPlaneKafkaRouteRequest);
  PKS_Versions : VersionsSpec;
  PKS_AdminServerURI : string
}.

(** The entries of the decoded map, in the order of an iteration. *)
Definition ConvertDataPlaneKafkaStatus (status : list (string * PrivateKafkaStatus)) : list DataPlaneKafkaStatus :=
  map (fun '(k, v) => mkDataPlaneKafkaStatus k v.(PKS_Conditions) (default [] v.(PKS_Routes)) v.(PKS_Versions).(V_Kafka)
         v.(PKS_Versions).(V_Strimzi) v.(PKS_Versions).(V_KafkaIBP) v.(PKS_AdminServerURI)) status.

Record PrivateStrimzi := mkPrivateStrimzi {
  PS_Version : string;
  PS_Ready : bool;
  PS_KafkaVersions : list string;
  PS_KafkaIbpVersions : list string
}.
Record PrivateCapacity := mkPrivateCapacity { PC_MaxUnits : Z; PC_RemainingUnits : Z }.
Record DataPlaneClusterUpdateStatusRequest := mkClusterReport {
  CR_Conditions : list DataPlaneClusterStatusCondition;
  CR_Strimzi : list PrivateStrimzi;
  CR_Capacity : gmap string PrivateCapacity
}.

Section Reports.
Context `{SemverLib}.

Definition getAvailableStrimziVersions (status : DataPlaneClusterUpdateStatusRequest) : result error (list StrimziVersion) :=
  StrimziVersionsDeepSort (map (fun val =>
    mkStrimziVersion val.(PS_Version) val.(PS_Ready) (map mkKafkaVersion val.(PS_KafkaVersions)) (map mkKafkaIBPVersion val.(PS_KafkaIbpVersions)))
    status.(CR_Strimzi)).

(** [MaxNodes] is not reported. *)
Definition ConvertDataPlaneClusterStatus (status : DataPlaneClusterUpdateStatusRequest) : result error DataPlaneClusterStatus :=
  availableStrimziVersions <-! getAvailableStrimziVersions status ;;
  Ok (mkDataPlaneClusterStatus status.(CR_Conditions) availableStrimziVersions
        ((fun c => mkDynamicCapacityInfo 0 c.(PC_MaxUnits) c.(PC_RemainingUnits)) <$> status.(CR_Capacity))).

(** The first incomplete version is reported with its index. *)
Definition strimzi_error (s : PrivateStrimzi) : option string :=
  if s.(PS_Version) =?s "" then Some ".status.strimzi[%d].version cannot be empty"
  else if (length s.(PS_KafkaVersions) =? 0)%nat then Some ".status.strimzi[%d].kafkaVersions cannot be empty"
  else if (length s.(PS_KafkaIbpVersions) =? 0)%nat then Some ".status.strimzi[%d].kafkaIbpVersions cannot be empty"
  else None.
Definition validateStrimzi (request : DataPlaneClusterUpdateStatusRequest) : result ServiceError unit :=
  first_error (fun s => match strimzi_error s with Some reason => Err (FieldValidationError reason) | None => Ok tt end) request.(CR_Strimzi).
End Reports.

Record AgentConfig := mkAgentConfig {
  AC_AccessToken : option string;
  AC_Channel : string;
  AC_Repository : string;
  AC_Tag : string;
  AC_MaxNodes : gmap string Z;
  AC_Private : bool
}.
Definition PresentDataPlaneClusterConfig (config : DataPlaneClusterConfig) : AgentConfig :=
  mkAgentConfig (Some config.(Observability).(DP_AccessToken)) config.(Observability).(DP_Channel) config.(Observability).(DP_Repository)
    config.(Observability).(DP_Tag) (MaxNodes <$> config.(Config_DynamicCapacityInfo)) config.(Private).

(** ** The handlers of the agents *)
Section AgentHandlers.
Context {W : Type} `{Database W} `{IdSource W} `{!KafkaExternals W} `{SemverLib}.
Context (kafkaConfig : KafkaConfig) (dataplaneClusterConfig : DataplaneClusterConfig) (keycloak : KeycloakConfig).
Context (tlsConfig : KafkaTLSCertificateManagementConfig) (storage : Storage W) (obs : ObservabilityConfiguration).

Definition MinRequiredFieldLength : Z := 1.

Definition GetAll (r : Request unit) : M W ServiceError (Z * list PrivateManagedKafka) :=
  HandleGet (mkHandlerConfig [fun _ => ValidateLength r.(req_id) "id" MinRequiredFieldLength None] (fun _ =>
    managedKafkas <~ GetManagedKafkaByClusterID kafkaConfig keycloak tlsConfig storage r.(req_id) ;;
    reservedManagedKafkas <~ GenerateReservedManagedKafkasByClusterID kafkaConfig dataplaneClusterConfig r.(req_id) ;;
    ret (map PresentManagedKafka (managedKafkas ++ reservedManagedKafkas)))).

Definition UpdateKafkaStatuses (r : Request (list (string * PrivateKafkaStatus))) : M W ServiceError (Z * unit) :=
  Handle r (mkHandlerConfig [] (fun data =>
    _ <~ UpdateDataPlaneKafkaService kafkaConfig r.(req_id) (ConvertDataPlaneKafkaStatus data) ;; ret tt)) StatusOK.

Definition ClusterStatus_config (r : Request DataPlaneClusterUpdateStatusRequest) : HandlerConfig DataPlaneClusterUpdateStatusRequest unit :=
  mkHandlerConfig
    [fun _ => ValidateLength r.(req_id) "id" MinRequiredFieldLength None; fun request => lift (validateStrimzi request)]
    (fun request =>
       status <~ lift (map_err (fun err => Validation (error_text err)) (ConvertDataPlaneClusterStatus request)) ;;
       UpdateDataPlaneClusterStatus r.(req_id) status).
Definition handler_UpdateDataPlaneClusterStatus (r : Request DataPlaneClusterUpdateStatusRequest) : M W ServiceError (Z * unit) :=
  Handle r (ClusterStatus_config r) StatusNoContent.

Definition handler_GetDataPlaneClusterConfig (r : Request unit) : M W ServiceError (Z * AgentConfig) :=
  HandleGet (mkHandlerConfig [fun _ => ValidateLength r.(req_id) "id" MinRequiredFieldLength None] (fun _ =>
    config <~ GetDataPlaneClusterConfig obs r.(req_id) ;;
    ret (PresentDataPlaneClusterConfig config))).
End AgentHandlers.

(** ** Facts *)
Lemma build_all_ok {E A B} (f : A -> result E B) l bs : build_all f l = Ok bs -> Forall2 (fun a b => f a = Ok b) l bs.
Proof.
  revert bs. induction l as [|a l IH]; simpl; intros bs Hb; [injection Hb as <-; constructor|].
  destruct (f a) as [b|] eqn:Hf; [|done]. simpl in Hb. destruct (build_all f l) as [bs'|]; [|done]. injection Hb as <-.
  constructor; [done|by apply IH].
Qed.

(** What an item of the answer says of its Kafka instance. *)
Definition shows (k : KafkaRequest) (p : PrivateManagedKafka) : Prop :=
  p.(PMK_Id) = k.(KR.ID) /\ p.(PMK_Name) = k.(KR.Name) /\ p.(PMK_Namespace) = k.(KR.Namespace) /\
  p.(PMK_Bf2OrgPlacementId) = k.(KR.PlacementId) /\ p.(PMK_Deployment) = "" /\
  (p.(PMK_Deleted) = true <-> k.(KR.Status) = KafkaRequestStatusDeprovision) /\
  (p.(PMK_Suspended) = "true" <-> k.(KR.Status) = KafkaRequestStatusSuspending \/ k.(KR.Status) = KafkaRequestStatusSuspended) /\
  p.(PMK_Versions) = mkVersionsSpec k.(KR.DesiredKafkaVersion) k.(KR.DesiredStrimziVersion) k.(KR.DesiredKafkaIBPVersion) /\
  p.(PMK_BootstrapServerHost) = k.(KR.BootstrapServerHost) /\ head p.(PMK_Owners) = Some k.(KR.Owner) /\
  p.(PMK_Capacity).(Cap_MaxDataRetentionSize) = k.(KR.MaxDataRetentionSize).

Lemma built_shows k cfg kc cert ext mk : buildManagedKafkaCR k cfg kc cert ext = Ok mk -> shows k (PresentManagedKafka mk).
Proof.
  unfold buildManagedKafkaCR. destruct (GetKafkaInstanceSize cfg _ _) as [size|]; [|done]. simpl. intros [= <-].
  unfold shows, PresentManagedKafka, annotations, entry, buildKafkaOwner. cbn [MK_Annotations MK_Kind MK_Name MK_Namespace MK_Labels MK_Capacity MK_OAuth MK_Tls
    MK_BootstrapServerHost MK_Versions MK_Deleted MK_Owners MK_ServiceAccounts PMK_Id PMK_Name PMK_Namespace PMK_Bf2OrgPlacementId PMK_Deployment PMK_Deleted
    PMK_Suspended PMK_Versions PMK_BootstrapServerHost PMK_Owners PMK_Capacity Cap_MaxDataRetentionSize V_Kafka V_Strimzi V_KafkaIBP].
  unfold ManagedKafkaBf2DeploymentLabelKey, ManagedKafkaBf2SuspendedLabelKey. rewrite String.eqb_eq. split_and!; try done.
  - assert (forall b, format_bool b = "true" <-> b = true) as Hb by (intros []; done).
    etransitivity; [apply Hb|]. rewrite Contains_true. unfold GetSuspendedStatuses. rewrite !elem_of_cons, elem_of_nil. tauto.
  - by destruct (EnableKafkaOwnerConfig cfg).
Qed.

Section ManagedFacts.
Context {W : Type} `{Database W}.
Context (cfg : KafkaConfig) (dp : DataplaneClusterConfig) (kc : KeycloakConfig) (tls : KafkaTLSCertificateManagementConfig) (storage : Storage W).

Lemma build_managed_all_ok l w res w' :
  build_managed_all cfg kc tls storage l w = (Ok res, w') -> Forall2 shows l (map PresentManagedKafka res).
Proof.
  revert w res w'. induction l as [|k l IH]; simpl; intros w res w' Hr; [injection Hr as <- <-; constructor|].
  apply bind_ok in Hr as (mk & w1 & Hk & Hr). apply bind_ok in Hr as (rest & w2 & Hrest & Hr). injection Hr as <- <-.
  constructor; [|by apply IH in Hrest]. apply bind_ok in Hk as (cert & w3 & _ & Hk). unfold lift in Hk. injection Hk as Hk _.
  by apply built_shows in Hk.
Qed.

Lemma managed_kafkas_ok clusterID w res w' :
  GetManagedKafkaByClusterID cfg kc tls storage clusterID w = (Ok res, w') ->
  exists l, l ≡ₚ List.filter (managed_by clusterID) (tables_of w).(kafkas) /\ Forall2 shows l (map PresentManagedKafka res).
Proof.
  unfold GetManagedKafkaByClusterID. intros Hr. apply bind_ok in Hr as (l & w1 & Hl & Hr). apply wrap_err_ok, exec_ok in Hl as [Hl _].
  exists l. split; [exact Hl|]. by apply build_managed_all_ok in Hr.
Qed.

(** *** Reserved instances *)
Lemma reserved_built id t unit strimzi mk :
  buildReservedManagedKafkaCR cfg id t unit strimzi = Ok mk ->
  MK_Id mk = id /\ (PresentManagedKafka mk).(PMK_Id) = id /\ (PresentManagedKafka mk).(PMK_Deployment) = "reserved" /\ MK_Deleted mk = false.
Proof.
  unfold buildReservedManagedKafkaCR. destruct (GetKafkaInstanceSize cfg t unit); [|done]. simpl.
  destruct (GetLatestKafkaVersion _); [|done]. destruct (GetLatestKafkaIBPVersion _); [|done]. by intros [= <-].
Qed.

Definition num_reserved (t : string) : Z :=
  match ForInstanceType dp.(DP_NodePrewarmingConfig) t with Some conf => conf.(NumReservedInstances) | None => 0 end.

Lemma reserved_of_ids strimzi t res :
  reserved_of cfg dp strimzi t = Ok res ->
  map (fun mk => PMK_Id (PresentManagedKafka mk)) res = map (reserved_id t) (one_to (num_reserved t)).
Proof.
  unfold reserved_of, num_reserved. destruct (ForInstanceType _ t) as [conf|]; [|by intros [= <-]].
  intros Hb%build_all_ok. induction Hb as [|i mk l res Hi _ IH]; [done|]. cbn [map]. apply reserved_built in Hi as (_ & -> & _). by rewrite IH.
Qed.

Lemma reserved_of_items strimzi t res :
  reserved_of cfg dp strimzi t = Ok res ->
  Forall (fun p => p.(PMK_Deployment) = "reserved" /\ p.(PMK_Deleted) = false) (map PresentManagedKafka res).
Proof.
  unfold reserved_of. destruct (ForInstanceType _ t) as [conf|]; [|by intros [= <-]].
  intros Hb%build_all_ok. induction Hb as [|i mk l res Hi _ IH]; [constructor|]. cbn [map].
  apply reserved_built in Hi as (_ & _ & Hd & Hdel). by constructor.
Qed.

(** The reserved instances are generated for a ready cluster that has a ready
    Strimzi version. *)
Lemma generate_items clusterID w res w' c :
  GenerateReservedManagedKafkasByClusterID cfg dp clusterID w = (Ok res, w') ->
  (forall c', c' ∈ (tables_of w).(clusters) -> c'.(CL.ClusterID) = clusterID -> c' = c) ->
  Forall (fun p => p.(PMK_Deployment) = "reserved" /\ p.(PMK_Deleted) = false) (map PresentManagedKafka res) /\
  (c.(CL.Status) = ClusterReady -> exists strimzi, GetLatestAvailableAndReadyStrimziVersion c = Ok (Some strimzi)).
Proof.
  unfold GenerateReservedManagedKafkasByClusterID. intros Hr Hc. apply bind_ok in Hr as (found & w1 & Hf & Hr).
  apply FindClusterByID_ok in Hf as (_ & _ & Hf). destruct found as [c0|]; [|done]. destruct Hf as [Hin Hid%String.eqb_eq].
  rewrite (Hc c0 Hin Hid) in Hr. destruct (String.eqb_spec (CL.Status c) ClusterReady); simpl in Hr; [|by injection Hr as <- <-].
  apply bind_ok in Hr as (latest & w2 & Hlat & Hr). unfold lift in Hlat. injection Hlat as Hlat _.
  destruct (GetLatestAvailableAndReadyStrimziVersion c) as [o|]; [|done]. injection Hlat as ->. destruct latest as [strimzi|]; [|done].
  split; [|by exists strimzi].
  apply bind_ok in Hr as (groups & w3 & Hg & Hr). unfold lift in Hg. injection Hg as Hg _. injection Hr as <- <-. apply build_all_ok in Hg.
  induction Hg as [|t g ts gs Ht _ IH]; [constructor|]. cbn [concat]. rewrite List.map_app. apply Forall_app. split; [|exact IH].
  by eapply reserved_of_items.
Qed.

Lemma generate_ids clusterID w res w' c :
  GenerateReservedManagedKafkasByClusterID cfg dp clusterID w = (Ok res, w') ->
  (forall c', c' ∈ (tables_of w).(clusters) -> c'.(CL.ClusterID) = clusterID -> c' = c) ->
  map (fun mk => PMK_Id (PresentManagedKafka mk)) res =
    if c.(CL.Status) =?s ClusterReady then flat_map (fun t => map (reserved_id t) (one_to (num_reserved t))) (GetSupportedInstanceTypes c) else [].
Proof.
  unfold GenerateReservedManagedKafkasByClusterID. intros Hr Hc. apply bind_ok in Hr as (found & w1 & Hf & Hr).
  apply FindClusterByID_ok in Hf as (_ & _ & Hf). destruct found as [c0|]; [|done]. destruct Hf as [Hin Hid%String.eqb_eq].
  rewrite (Hc c0 Hin Hid) in Hr. destruct (CL.Status c =?s ClusterReady); simpl in Hr; [|by injection Hr as <- <-].
  apply bind_ok in Hr as (latest & w2 & _ & Hr). destruct latest as [strimzi|]; [|done].
  apply bind_ok in Hr as (groups & w3 & Hg & Hr). unfold lift in Hg. injection Hg as Hg _. injection Hr as <- <-. apply build_all_ok in Hg.
  induction Hg as [|t g ts gs Ht _ IH]; [done|]. cbn [concat flat_map]. rewrite List.map_app, IH. by rewrite (reserved_of_ids _ _ _ Ht).
Qed.
End ManagedFacts.

(** *** Identifiers of reserved instances, there and back *)
Fixpoint no_dash (s : string) : bool :=
  match s with EmptyString => true | String c s' => negb (Ascii.eqb c "-") && no_dash s' end.

Lemma Split_cons s : exists a l, Split s "-" = a :: l.
Proof. induction s as [|c s (a & l & IH)]; simpl; [by eexists _, _|]. destruct (Ascii.eqb c "-"); [by eexists _, _|]. rewrite IH. by eexists _, _. Qed.

Lemma Split_app t s : no_dash t = true -> Split (t +:+ "-" +:+ s) "-" = t :: Split s "-".
Proof.
  induction t as [|c t IH]; intros Hn; [done|]. cbn [no_dash] in Hn. apply andb_true_iff in Hn as [Hc Hn]. apply negb_true_iff in Hc.
  change ((String c t) +:+ "-" +:+ s) with (String c (t +:+ "-" +:+ s)). cbn [Split]. by rewrite Hc, IH.
Qed.

(** A report on a reserved instance is attributed to the instance type it was
    generated for. *)
Lemma reserved_id_type ks t i : no_dash t = true -> ks.(KafkaClusterId) = reserved_id t i -> reserved_type ks = Some t.
Proof.
  intros Hn Hid. unfold reserved_type, getManagedKafkaDeploymentType. rewrite Hid.
  assert (HasPrefix (reserved_id t i) "reserved-" = true) as -> by done.
  unfold reserved_id. change ("reserved-kafka-" +:+ t +:+ "-" +:+ Itoa i) with ("reserved" +:+ "-" +:+ "kafka" +:+ "-" +:+ t +:+ "-" +:+ Itoa i).
  rewrite !Split_app by done. destruct (Split_cons (Itoa i)) as (a & l & ->). done.
Qed.

Lemma filter_counts ids (reports : list DataPlaneKafkaStatus) t s :
  Forall2 (fun id rep => rep.(KafkaClusterId) = id /\ getManagedKafkaStatus rep = s) ids reports ->
  forall type_of : string -> option string, (forall rep, rep ∈ reports -> reserved_type rep = type_of rep.(KafkaClusterId)) ->
  length (List.filter (counts_for t s) reports) = length (List.filter (fun id => bool_decide (type_of id = Some t)) ids).
Proof.
  intros HF type_of Hty. induction HF as [|id rep ids reports [Hid Hst] _ IH]; [done|]. simpl.
  unfold counts_for at 1. rewrite (bool_decide_true (getManagedKafkaStatus rep = s)), andb_true_r by done.
  rewrite Hty by left. rewrite Hid. assert (forall rep, rep ∈ reports -> reserved_type rep = type_of rep.(KafkaClusterId)) as Hty' by (intros rep' Hin; apply Hty; by right).
  destruct (bool_decide _); simpl; by rewrite IH.
Qed.

(** The instance type that an identifier is attributed to. *)
Definition id_type (id : string) : option string := reserved_type (mkDataPlaneKafkaStatus id [] [] "" "" "" "").

Lemma count_one_type t a (l : list Z) : no_dash a = true ->
  length (List.filter (fun id => bool_decide (id_type id = Some t)) (map (reserved_id a) l)) = if bool_decide (a = t) then length l else 0%nat.
Proof.
  intros Hd. assert (forall i, id_type (reserved_id a i) = Some a) as Hty by (intros i; by apply (reserved_id_type _ a i)).
  induction l as [|i l IH]; [by destruct (bool_decide (a = t))|]. cbn [map List.filter]. rewrite Hty.
  destruct (decide (a = t)) as [->|Hne].
  - rewrite (bool_decide_true (Some t = Some t)) by done. rewrite bool_decide_true in * by done. cbn [length]. by rewrite IH.
  - rewrite (bool_decide_false (Some a = Some t)) by congruence. rewrite bool_decide_false in * by done. exact IH.
Qed.

Lemma count_reserved_ids (num : string -> Z) types t :
  NoDup types -> forallb no_dash types = true ->
  length (List.filter (fun id => bool_decide (id_type id = Some t)) (flat_map (fun t => map (reserved_id t) (one_to (num t))) types)) =
    if bool_decide (t ∈ types) then Z.to_nat (num t) else 0%nat.
Proof.
  induction types as [|a types IH]; intros Hnd Hd; [done|]. apply NoDup_cons in Hnd as [Hna Hnd]. simpl in Hd. apply andb_true_iff in Hd as [Hd Hds].
  cbn [flat_map]. rewrite List.filter_app, length_app, IH, count_one_type by done.
  assert (length (one_to (num a)) = Z.to_nat (num a)) as -> by (unfold one_to; by rewrite List.length_map, List.length_seq).
  destruct (decide (a = t)) as [->|Hne].
  - rewrite (bool_decide_true (t = t)), (bool_decide_false (t ∈ types)), (bool_decide_true (t ∈ t :: types)) by (done || by left). lia.
  - rewrite (bool_decide_false (a = t)) by done. destruct (decide (t ∈ types)).
    + rewrite !bool_decide_true by (done || by right). lia.
    + rewrite !bool_decide_false; [lia| |done]. rewrite elem_of_cons. naive_solver.
Qed.

Section RoundTrip.
Context {W : Type} `{Database W} `{IdSource W} `{!KafkaExternals W}.
Context (cfg : KafkaConfig) (dp : DataplaneClusterConfig).

(** [C23] The reserved instances that the agent of a ready cluster is told to keep,
    when it reports all of them with one status, are counted under that status
    and their instance type: as many as the configuration asks for. *)
Theorem reserved_kafkas_round_trip clusterID w res w1 c reports s w2 info errs w3 t :
  GenerateReservedManagedKafkasByClusterID cfg dp clusterID w = (Ok res, w1) ->
  (forall c', c' ∈ (tables_of w).(clusters) -> c'.(CL.ClusterID) = clusterID -> c' = c) ->
  c.(CL.Status) = ClusterReady -> NoDup (GetSupportedInstanceTypes c) -> forallb no_dash (GetSupportedInstanceTypes c) = true ->
  Forall2 (fun mk rep => rep.(KafkaClusterId) = (PresentManagedKafka mk).(PMK_Id) /\ getManagedKafkaStatus rep = s) res reports ->
  tables_of w2 = tables_of w -> UpdateDataPlaneKafkaService cfg clusterID reports w2 = (Ok (info, errs), w3) ->
  t ∈ GetSupportedInstanceTypes c ->
  count_of info t s = Z.max 0 (num_reserved dp t).
Proof.
  intros Hgen Hc Hready Hnd Hdash HF Htab Hup Ht.
  rewrite (reserved_counts_exact cfg clusterID reports w2 info errs w3 t s Hup).
  2: { rewrite Htab. intros c' Hin Hid. by rewrite (Hc c' Hin Hid). }
  pose proof (generate_ids cfg dp clusterID w res w1 c Hgen Hc) as Hids. rewrite Hready, String.eqb_refl in Hids.
  assert (Forall2 (fun id rep => rep.(KafkaClusterId) = id /\ getManagedKafkaStatus rep = s) (map (fun mk => PMK_Id (PresentManagedKafka mk)) res) reports) as HF'.
  { apply Forall2_fmap_l. exact HF. }
  rewrite (filter_counts _ _ t s HF' id_type) by done.
  rewrite Hids, count_reserved_ids by done. rewrite bool_decide_true by done. lia.
Qed.
End RoundTrip.

(** *** Failures *)
Section Failures.
Context {W : Type} `{Database W} `{IdSource W} `{!KafkaExternals W} `{SemverLib}.
Context (cfg : KafkaConfig) (dp : DataplaneClusterConfig) (kc : KeycloakConfig) (tls : KafkaTLSCertificateManagementConfig) (storage : Storage W).
(** The storage of the certificates is not in the tables. *)
Context (load_ro : forall k, read_only (st_Load storage k)).

Lemma GetCertificate_ro req : read_only (GetCertificate tls storage req).
Proof. unfold GetCertificate. solve_read_only. Qed.

Lemma build_managed_ro l : read_only (build_managed_all cfg kc tls storage l).
Proof.
  induction l as [|k l IH]; simpl; [solve_read_only|]. apply bind_read_only; [|intros mk; apply bind_read_only; [exact IH|intros ?; solve_read_only]].
  unfold build_managed. apply bind_read_only; [|intros ?; solve_read_only]. destruct (IsKafkaExternalCertificateEnabled tls); [|solve_read_only].
  apply wrap_err_read_only, GetCertificate_ro.
Qed.

Lemma get_all_ok r w code items w' :
  GetAll cfg dp kc tls storage r w = (Ok (code, items), w') ->
  code = StatusOK /\ exists wa wb wc mks rs, tables_of wa = tables_of w /\ tables_of wb = tables_of w /\
    GetManagedKafkaByClusterID cfg kc tls storage r.(req_id) wa = (Ok mks, wb) /\
    GenerateReservedManagedKafkasByClusterID cfg dp r.(req_id) wb = (Ok rs, wc) /\
    items = map PresentManagedKafka (mks ++ rs).
Proof.
  unfold GetAll, HandleGet, run_validated. intros Hrun. apply bind_ok in Hrun as ([] & w0 & Hv & Hrun). simpl in Hv.
  apply bind_ok in Hv as ([] & w0' & Hv & Hret). injection Hret as ->.
  pose proof (read_only_run _ _ _ _ (ValidateLength_ro _ _ _ _) Hv) as Ht0. apply bind_ok in Hrun as (a & w1 & Ha & Hrun). injection Hrun as <- <- _.
  split; [done|]. simpl in Ha. apply bind_ok in Ha as (mks & w2 & Hm & Ha). apply bind_ok in Ha as (rs & w3 & Hg & Ha). injection Ha as <- _.
  eexists _, w2, w3, mks, rs. split_and!; [exact Ht0| |done..]. rewrite <- Ht0. unfold GetManagedKafkaByClusterID in Hm.
  refine (read_only_run _ _ _ _ _ Hm). apply bind_read_only; [solve_read_only|intros; apply build_managed_ro].
Qed.

(** [C22] What the agent of a cluster is told when it asks for its instances and
    gets an answer: first one item for each instance of that cluster whose host
    name is known and whose status is provisioning, ready, failed, suspending,
    suspended, resuming or deprovision, and for no other instance, with its
    identity, its desired versions, whether it is to be deleted and whether it is
    to be suspended; then, for a ready cluster, the reserved instances that the
    configuration asks for, marked as reserved.  A ready cluster gets an answer
    only when it has a ready Strimzi version; reading the certificates changes no
    table, and the identifier of the cluster is its own. *)
Theorem managed_kafkas_exact r w code items w' c :
  GetAll cfg dp kc tls storage r w = (Ok (code, items), w') ->
  (forall c', c' ∈ (tables_of w).(clusters) -> c'.(CL.ClusterID) = r.(req_id) -> c' = c) ->
  code = StatusOK /\
  exists l told reserved, items = told ++ reserved /\
    l ≡ₚ List.filter (fun k => (k.(KR.ClusterID) =?s r.(req_id)) && negb (k.(KR.BootstrapServerHost) =?s "") &&
            Contains ["provisioning"; "ready"; "failed"; "suspending"; "suspended"; "resuming"; "deprovision"] k.(KR.Status)) (tables_of w).(kafkas) /\
    Forall2 shows l told /\
    map PMK_Id reserved =
      (if c.(CL.Status) =?s ClusterReady then flat_map (fun t => map (reserved_id t) (one_to (num_reserved dp t))) (GetSupportedInstanceTypes c) else []) /\
    Forall (fun p => p.(PMK_Deployment) = "reserved" /\ p.(PMK_Deleted) = false) reserved /\
    (c.(CL.Status) = ClusterReady -> exists strimzi, GetLatestAvailableAndReadyStrimziVersion c = Ok (Some strimzi)).
Proof using load_ro.
  intros Hrun Huniq. apply get_all_ok in Hrun as (-> & wa & wb & wc & mks & rs & Hta & Htb & Hm & Hg & ->). split; [done|].
  apply managed_kafkas_ok in Hm as (l & Hl & HF). rewrite <- Htb in Huniq. destruct (generate_items _ _ _ _ _ _ c Hg Huniq) as [Hres Hst].
  exists l, (map PresentManagedKafka mks), (map PresentManagedKafka rs). split_and!; [apply List.map_app| |done| |done|done].
  - rewrite Hl, Hta. apply Permutation_refl', List.filter_ext. intros k. unfold managed_by.
    assert (forall s, Contains kafkaManagedCRStatuses s =
      Contains ["provisioning"; "ready"; "failed"; "suspending"; "suspended"; "resuming"; "deprovision"] s) as ->.
    { intros s. apply eq_true_iff_eq. rewrite !Contains_true. unfold kafkaManagedCRStatuses. set_solver. }
    by rewrite <- !andb_assoc, (andb_comm (Contains _ _)).
  - rewrite List.map_map. by apply (generate_ids _ _ _ _ _ _ c Hg Huniq).
Qed.

(** A ready cluster that has no ready Strimzi version is told of nothing: its
    instances are withheld with the reserved ones, those to be deleted
    included. *)
Theorem no_ready_strimzi_withholds_all r w c :
  c ∈ (tables_of w).(clusters) ->
  (forall c', c' ∈ (tables_of w).(clusters) -> c'.(CL.ClusterID) = r.(req_id) -> c' = c) -> c.(CL.ClusterID) = r.(req_id) ->
  c.(CL.Status) = ClusterReady -> GetLatestAvailableAndReadyStrimziVersion c = Ok None ->
  exists e w', GetAll cfg dp kc tls storage r w = (Err e, w').
Proof.
  intros Hin Huniq Hid Hready Hnone. destruct (GetAll cfg dp kc tls storage r w) as [[[code l]|e] w'] eqn:Hrun; [exfalso|by eexists _, _].
  apply get_all_ok in Hrun as (_ & wa & wb & wc & mks & rs & _ & Htb & _ & Hg & _). rewrite <- Htb in Huniq.
  destruct (generate_items _ _ _ _ _ _ c Hg Huniq) as [_ Hst]. destruct (Hst Hready) as [strimzi Hs]. congruence.
Qed.

(** An incomplete Strimzi version refuses the report of a cluster before
    anything is written. *)
Theorem incomplete_report_refused (r : Request DataPlaneClusterUpdateStatusRequest) body v w :
  r.(req_body) = Ok body -> v ∈ body.(CR_Strimzi) ->
  (v.(PS_Version) = "" \/ v.(PS_KafkaVersions) = [] \/ v.(PS_KafkaIbpVersions) = []) ->
  exists e w', handler_UpdateDataPlaneClusterStatus r w = (Err e, w') /\ tables_of w' = tables_of w.
Proof.
  intros Hb Hv Hbad. assert (exists e, validateStrimzi body = Err e) as [e He].
  { unfold validateStrimzi. induction (CR_Strimzi body) as [|a l IH]; [by apply elem_of_nil in Hv|]. simpl.
    apply elem_of_cons in Hv as [->|Hv].
    - unfold strimzi_error. destruct (String.eqb_spec (PS_Version a) ""); [by eexists|]. destruct (PS_KafkaVersions a); [by eexists|].
      destruct (PS_KafkaIbpVersions a); [by eexists|]. naive_solver.
    - destruct (strimzi_error a); [by eexists|]. by apply IH. }
  unfold handler_UpdateDataPlaneClusterStatus, Handle. rewrite Hb. simpl. unfold bind at 1, lift at 1.
  unfold run_validated, ClusterStatus_config. simpl. unfold bind, lift. rewrite He.
  destruct (ValidateLength _ _ _ _ w) as [[[]|e'] w'] eqn:Hl; pose proof (read_only_run _ _ _ _ (ValidateLength_ro _ _ _ _) Hl); by eexists _, _.
Qed.
End Failures.

(** ** Witnesses *)
Module ManagedExample.
Definition keycloak : KeycloakConfig :=
  mkKeycloakConfig true "preferred_username" "clientId" "mas_sso" "" "https://sso/token" "https://sso/jwks" "https://sso".
Definition tls : KafkaTLSCertificateManagementConfig := CertificateExample.config ManualCertificateManagement.
Definition dp : DataplaneClusterConfig := Fixtures.dp_config AutoScaling.
Definition hosted (k : KafkaRequest) : KafkaRequest := k <| KR.BootstrapServerHost := k.(KR.ID) +:+ ".example.org" |>.
Definition k2 : KafkaRequest := hosted (Fixtures.k2 <| KR.Status := KafkaRequestStatusDeprovision |>).
Definition world (c : Cluster) : MemDB.world unit := MemDB.mkWorld (mkTables [hosted Fixtures.k1; k2; Fixtures.k3] [c; Fixtures.c2]) 1000 [] tt.
Definition bare_cluster : Cluster := Fixtures.c1 <| CL.AvailableStrimziVersions := JDoc [] |>.
Definition report (id : string) : DataPlaneKafkaStatus := mkDataPlaneKafkaStatus id [mkCondition "Ready" "" "True" ""] [] "" "" "" "".
Definition get_all (id : string) : Request unit := HandlerExample.request HandlerExample.ctx id tt.
Definition bad_report : DataPlaneClusterUpdateStatusRequest := mkClusterReport [] [mkPrivateStrimzi "strimzi-0.23.0-1" true ["2.8.1"] []] ∅.
End ManagedExample.
Import ManagedExample DecimalSemver.

Lemma unique_c1 (c c' : Cluster) : c.(CL.ClusterID) = "c1" -> c' ∈ [c; Fixtures.c2] -> c'.(CL.ClusterID) = "c1" -> c' = c.
Proof. intros Hc Hin Hid. apply elem_of_cons in Hin as [->|Hin]; [done|]. apply list_elem_of_singleton in Hin as ->. discriminate Hid. Qed.

(** The instance to be deleted is sent, the one without a cluster is not; one
    instance is kept in reserve. *)
Lemma managed_kafkas_exact_witness :
  exists items w' told reserved, GetAll Fixtures.kafka_config dp keycloak tls CertificateExample.present (get_all "c1") (world Fixtures.c1) = (Ok (200, items), w') /\
    items = told ++ reserved /\ map PMK_Deleted items = [false; true; false] /\ map PMK_Id reserved = ["reserved-kafka-standard-1"] /\
    exists l, Forall2 shows l told.
Proof.
  destruct (GetAll Fixtures.kafka_config dp keycloak tls CertificateExample.present (get_all "c1") (world Fixtures.c1)) as [[[code items]|e] w'] eqn:Hrun;
    [|vm_compute in Hrun; discriminate Hrun].
  pose proof Hrun as Hv. vm_compute in Hv. injection Hv as _ Hitems _.
  destruct (managed_kafkas_exact Fixtures.kafka_config dp keycloak tls CertificateExample.present ltac:(by intros k w) (get_all "c1") _ _ _ _ Fixtures.c1 Hrun
    (fun c' => unique_c1 Fixtures.c1 c' eq_refl)) as (-> & l & told & reserved & Hsplit & _ & HF & Hids & _ & _).
  exists items, w', told, reserved. split_and!; [reflexivity|exact Hsplit|by rewrite <- Hitems| |by exists l].
  rewrite Hids. vm_compute. reflexivity.
Defined.

Lemma reserved_kafkas_round_trip_witness :
  exists info errs w', UpdateDataPlaneKafkaService Fixtures.kafka_config "c1" [report "reserved-kafka-standard-1"] (world Fixtures.c1) = (Ok (info, errs), w') /\
    count_of info STANDARD statusReady = 1.
Proof.
  destruct (GenerateReservedManagedKafkasByClusterID Fixtures.kafka_config dp "c1" (world Fixtures.c1)) as [res w1] eqn:Hgen.
  assert (is_ok res = true) as Hg by (replace res with (fst (res, w1)) by done; rewrite <- Hgen; vm_compute; reflexivity).
  destruct res as [res|e]; [|discriminate Hg].
  pose proof (generate_ids Fixtures.kafka_config dp "c1" _ _ _ Fixtures.c1 Hgen (fun c' => unique_c1 Fixtures.c1 c' eq_refl)) as Hids.
  destruct (UpdateDataPlaneKafkaService Fixtures.kafka_config "c1" [report "reserved-kafka-standard-1"] (world Fixtures.c1)) as [r w3] eqn:Hrun.
  assert (is_ok r = true) as Hok by (replace r with (fst (r, w3)) by done; rewrite <- Hrun; vm_compute; reflexivity).
  destruct r as [[info errs]|e]; [|discriminate Hok]. exists info, errs, w3. split; [reflexivity|].
  rewrite (reserved_kafkas_round_trip Fixtures.kafka_config dp "c1" _ _ _ Fixtures.c1 [report "reserved-kafka-standard-1"] statusReady (world Fixtures.c1) info errs w3 STANDARD Hgen).
  - vm_compute. reflexivity.
  - exact (fun c' => unique_c1 Fixtures.c1 c' eq_refl).
  - reflexivity.
  - vm_compute. repeat constructor; set_solver.
  - reflexivity.
  - destruct res as [|mk [|mk' res]]; [discriminate Hids| |discriminate Hids]. injection Hids as Hmk. constructor; [|constructor].
    split; [symmetry; exact Hmk|reflexivity].
  - reflexivity.
  - exact Hrun.
  - vm_compute. repeat constructor.
Defined.

Lemma no_ready_strimzi_withholds_all_witness :
  exists e w', GetAll Fixtures.kafka_config dp keycloak tls CertificateExample.present (get_all "c1") (world bare_cluster) = (Err e, w') /\ HttpCode e = 500.
Proof.
  destruct (no_ready_strimzi_withholds_all Fixtures.kafka_config dp keycloak tls CertificateExample.present ltac:(by intros k w) (get_all "c1") (world bare_cluster) bare_cluster)
    as (e & w' & Hrun).
  - left.
  - exact (fun c' => unique_c1 bare_cluster c' eq_refl).
  - reflexivity.
  - reflexivity.
  - reflexivity.
  - exists e, w'. split; [exact Hrun|]. vm_compute in Hrun. injection Hrun as <- _. reflexivity.
Defined.

Lemma incomplete_report_refused_witness :
  exists e w', handler_UpdateDataPlaneClusterStatus (HandlerExample.request HandlerExample.ctx "c1" bad_report) (world Fixtures.c1) = (Err e, w') /\
    HttpCode e = 400.
Proof.
  destruct (incomplete_report_refused (HandlerExample.request HandlerExample.ctx "c1" bad_report) bad_report
    (mkPrivateStrimzi "strimzi-0.23.0-1" true ["2.8.1"] []) (world Fixtures.c1)) as (e & w' & Hrun & _).
  - reflexivity.
  - left.
  - right. right. reflexivity.
  - exists e, w'. split; [exact Hrun|]. vm_compute in Hrun. injection Hrun as <- _. reflexivity.
Defined.
