(* ===== verification/SignalBus.v ===== *)
(** * The signal bus and the reconcilers:
    [src/pkg/services/signalbus] and [src/pkg/workers/reconciler.go]

    A subscription is a channel of capacity one; the bus keeps, for each
    signal, a slice of subscriptions.  Slices share their arrays with the
    copies that are taken of them: [Notify] reads the slice under the lock and
    walks it after the lock is released, while [close] and [Subscribe] write
    the same array.  The arrays are therefore modelled.

    The reconciler is the loop that runs a worker: one reconciliation at a
    time, after a tick, a signal or a request to wake up. *)
From S2P Require Import Prelude Errors.

(** ** Slices of subscriptions *)
Record slice := mkSlice { sl_array : nat; sl_len : nat }.

Record signalBus := mkBus {
  signals : gmap string slice;
  (** The arrays that were allocated, each with its whole capacity; a cell that
      was never written is nil. *)
  arrays : list (list (option nat));
  (** The channel of each subscription: whether it holds a message. *)
  channels : list bool;
  sub_names : list string;
  (** [closeOnce] of each subscription. *)
  closed : list bool
}.
Definition NewSignalBus : signalBus := mkBus ∅ [] [] [] [].

Definition cell (bus : signalBus) (s : slice) (i : nat) : option nat := a ← bus.(arrays) !! s.(sl_array); x ← a !! i; x.
Definition elements (bus : signalBus) (s : slice) : list nat := omap (cell bus s) (seq 0 s.(sl_len)).
Definition subscribers (bus : signalBus) (name : string) : list nat :=
  match bus.(signals) !! name with Some s => elements bus s | None => [] end.

Definition set_cell (arrays : list (list (option nat))) (a i : nat) (v : option nat) : list (list (option nat)) :=
  match arrays !! a with Some cells => <[a := <[i := v]> cells]> arrays | None => arrays end.

(** [sub.c <- true] in a select with a default. *)
Definition send (bus : signalBus) (sub : nat) : signalBus :=
  mkBus bus.(signals) bus.(arrays) (<[sub := true]> bus.(channels)) bus.(sub_names) bus.(closed).

Section Bus.
(** The capacity of an array that is made for so many elements: the runtime
    decides, and leaves enough room. *)
Context (grow : nat -> nat).

(** [append(subs, sub)] *)
Definition append (bus : signalBus) (s : option slice) (sub : nat) : list (list (option nat)) * slice :=
  match s with
  | None => (bus.(arrays) ++ [<[0%nat := Some sub]> (replicate (grow 1) None)], mkSlice (length bus.(arrays)) 1)
  | Some s =>
      match bus.(arrays) !! s.(sl_array) with
      | None => (bus.(arrays), s)
      | Some cells =>
          if (s.(sl_len) <? length cells)%nat
          then (<[s.(sl_array) := <[s.(sl_len) := Some sub]> cells]> bus.(arrays), mkSlice s.(sl_array) (S s.(sl_len)))
          else
            let n := S s.(sl_len) in
            (bus.(arrays) ++ [take s.(sl_len) cells ++ <[0%nat := Some sub]> (replicate (grow n - s.(sl_len)) None)],
             mkSlice (length bus.(arrays)) n)
      end
  end.

Definition Subscribe (bus : signalBus) (name : string) : nat * signalBus :=
  let sub := length bus.(channels) in
  let '(arrays, s) := append bus (bus.(signals) !! name) sub in
  (sub, mkBus (<[name := s]> bus.(signals)) arrays (bus.(channels) ++ [false]) (bus.(sub_names) ++ [name]) (bus.(closed) ++ [false])).
End Bus.

(** The loop of [close]: the range is that of the slice at its start, the
    elements are read as the loop reaches them, and [subs] shrinks. *)
Fixpoint close_loop (idx : list nat) (name : string) (sub : nat) (subs : slice) (bus : signalBus) : signalBus :=
  match idx with
  | [] => bus
  | i :: rest =>
      if decide (cell bus subs i = Some sub) then
        let lastIdx := (subs.(sl_len) - 1)%nat in
        if (lastIdx =? 0)%nat then
          close_loop rest name sub subs (mkBus (delete name bus.(signals)) bus.(arrays) bus.(channels) bus.(sub_names) bus.(closed))
        else
          let arrays := set_cell bus.(arrays) subs.(sl_array) i (cell bus subs lastIdx) in
          let subs := mkSlice subs.(sl_array) lastIdx in
          close_loop rest name sub subs (mkBus (<[name := subs]> bus.(signals)) arrays bus.(channels) bus.(sub_names) bus.(closed))
      else close_loop rest name sub subs bus
  end.

Definition close (bus : signalBus) (sub : nat) : signalBus :=
  match bus.(sub_names) !! sub with
  | None => bus
  | Some name =>
      match bus.(signals) !! name with
      | None => bus
      | Some subs => close_loop (seq 0 subs.(sl_len)) name sub subs bus
      end
  end.

(** [Subscription.Close], once. *)
Definition Close (bus : signalBus) (sub : nat) : signalBus :=
  match bus.(closed) !! sub with
  | Some false => close (mkBus bus.(signals) bus.(arrays) bus.(channels) bus.(sub_names) (<[sub := true]> bus.(closed))) sub
  | _ => bus
  end.

(** [IsSignaled], or a receive from [Signal] that does not block. *)
Definition IsSignaled (bus : signalBus) (sub : nat) : bool * signalBus :=
  match bus.(channels) !! sub with
  | Some true => (true, mkBus bus.(signals) bus.(arrays) (<[sub := false]> bus.(channels)) bus.(sub_names) bus.(closed))
  | _ => (false, bus)
  end.

(** [Notify]: the copy of the slice, then one element after the other. *)
Record notifier := mkNotifier { nt_slice : slice; nt_next : nat }.
Definition notify_start (bus : signalBus) (name : string) : option notifier :=
  (fun s => mkNotifier s 0) <$> bus.(signals) !! name.
Definition notify_next (bus : signalBus) (n : notifier) : signalBus * option notifier :=
  if (n.(nt_next) <? n.(nt_slice).(sl_len))%nat then
    (match cell bus n.(nt_slice) n.(nt_next) with Some sub => send bus sub | None => bus end, Some (mkNotifier n.(nt_slice) (S n.(nt_next))))
  else (bus, None).

(** Without other goroutines in between. *)
Fixpoint notify_all (subs : list nat) (bus : signalBus) : signalBus :=
  match subs with [] => bus | sub :: rest => notify_all rest (send bus sub) end.
Definition Notify (bus : signalBus) (name : string) : signalBus := notify_all (subscribers bus name) bus.

(** ** The bus over PostgreSQL: [pg_signalbus.go] *)
Section Postgres.
(** [SELECT pg_notify('signalbus', name)]: sent to every listening process, or
    a failure that is only logged. *)
Context {DB : Type} (pg_notify : string -> DB -> result error unit * DB).
Definition Pg_Notify (name : string) (db : DB) : DB := snd (pg_notify name db).

(** What the select of [waitForNotification] may find. *)
Inductive wait_event :=
| StopClosed
| Notified (extra : option string)
| NinetySeconds (ping : result error unit).

(** [(exit, err)] and the events that are left; [None] while it waits. *)
Fixpoint waitForNotification (events : list wait_event) (bus : signalBus) : option (bool * option error * signalBus * list wait_event) :=
  match events with
  | [] => None
  | StopClosed :: rest => Some (true, None, bus, rest)
  | Notified None :: rest => Some (false, Some (EPlain "postgres listner channel closed"), bus, rest)
  | Notified (Some name) :: rest => Some (false, None, Notify bus name, rest)
  | NinetySeconds (Err e) :: rest => Some (false, Some e, bus, rest)
  | NinetySeconds (Ok _) :: rest => waitForNotification rest bus
  end.

(** [run], after a successful [Listen]; at most one round per event. *)
Fixpoint run_rounds (fuel : nat) (events : list wait_event) (bus : signalBus) : option bool * signalBus :=
  match fuel with
  | O => (None, bus)
  | S fuel' =>
      match waitForNotification events bus with
      | None => (None, bus)
      | Some (exit, err, bus', rest) =>
          match err with
          | Some _ => (Some false, bus')
          | None => if (exit : bool) then (Some true, bus') else run_rounds fuel' rest bus'
          end
      end
  end.
Definition run (events : list wait_event) (bus : signalBus) : option bool * signalBus := run_rounds (S (length events)) events bus.
End Postgres.

(** ** The invariant *)

(** The first cells of the array of a slice hold its subscriptions. *)
Definition holds (bus : signalBus) (s : slice) (ids : list nat) : Prop :=
  exists cells, bus.(arrays) !! s.(sl_array) = Some cells /\ (s.(sl_len) <= length cells)%nat /\ take s.(sl_len) cells = map Some ids.

Record wf (bus : signalBus) : Prop := {
  wf_names : length bus.(sub_names) = length bus.(channels);
  wf_closed : length bus.(closed) = length bus.(channels);
  (** A signal has at least one subscription; each of them is of that signal
      and open, and is there once. *)
  wf_slices : forall name s, bus.(signals) !! name = Some s ->
    exists ids, holds bus s ids /\ ids <> [] /\ NoDup ids /\
      Forall (fun id => bus.(sub_names) !! id = Some name /\ bus.(closed) !! id = Some false) ids;
  (** No two signals share an array. *)
  wf_apart : forall n1 n2 s1 s2, bus.(signals) !! n1 = Some s1 -> bus.(signals) !! n2 = Some s2 -> n1 <> n2 -> s1.(sl_array) <> s2.(sl_array);
  (** Every open subscription is on the list of its signal. *)
  wf_open : forall id name, bus.(sub_names) !! id = Some name -> bus.(closed) !! id = Some false -> id ∈ subscribers bus name
}.

Lemma holds_length bus s ids : holds bus s ids -> length ids = s.(sl_len).
Proof.
  intros (cells & _ & Hle & Ht). assert (length (take (sl_len s) cells) = length (map Some ids)) as Hl by by rewrite Ht.
  rewrite List.length_map, length_take in Hl. lia.
Qed.

Lemma holds_cell bus s ids i : holds bus s ids -> (i < s.(sl_len))%nat -> cell bus s i = ids !! i.
Proof.
  intros Hh Hi. pose proof (holds_length _ _ _ Hh) as Hn. destruct Hh as (cells & Ha & Hle & Ht).
  unfold cell. rewrite Ha. simpl. assert (take (sl_len s) cells !! i = Some <$> (ids !! i)) as Hc by (by rewrite Ht, list_lookup_fmap).
  rewrite lookup_take_lt in Hc by done. destruct (ids !! i) as [x|] eqn:Hx; simpl in Hc; [by rewrite Hc|].
  apply lookup_ge_None in Hx. lia.
Qed.

Lemma omap_ext_in {A B} (f g : A -> option B) (l : list A) : (forall a, a ∈ l -> f a = g a) -> omap f l = omap g l.
Proof.
  induction l as [|a l IH]; intros Hfg; [done|]. simpl. rewrite (Hfg a) by left.
  destruct (g a); [f_equal|]; (apply IH; intros b' Hb; apply Hfg; by right).
Qed.

Lemma omap_seq_lookup {A} (l : list A) : omap (fun i => l !! i) (seq 0 (length l)) = l.
Proof.
  cut (forall n (m : list A), length m = n -> omap (fun i => (m ++ l) !! i) (seq n (length l)) = l); [intros Hc; apply (Hc 0%nat []); done|].
  induction l as [|a l IH]; intros n m Hm; [done|].
  assert ((m ++ a :: l) !! n = Some a) as Ha by (rewrite lookup_app_r, Hm, Nat.sub_diag by lia; done).
  simpl. rewrite Ha. f_equal. transitivity (omap (fun i => ((m ++ [a]) ++ l) !! i) (seq (S n) (length l))).
  - apply omap_ext_in. intros i _. by rewrite <- app_assoc.
  - apply IH. rewrite length_app. simpl. lia.
Qed.

Lemma holds_elements bus s ids : holds bus s ids -> elements bus s = ids.
Proof.
  intros Hh. rewrite <- (omap_seq_lookup ids), (holds_length _ _ _ Hh). unfold elements.
  apply omap_ext_in. intros i Hi%elem_of_seq. apply (holds_cell _ _ _ _ Hh). lia.
Qed.

Lemma NewSignalBus_wf : wf NewSignalBus.
Proof. split; done. Qed.

(** What a slice holds depends on its array only. *)
Lemma holds_arrays bus bus' s ids :
  bus'.(arrays) !! s.(sl_array) = bus.(arrays) !! s.(sl_array) -> holds bus s ids -> holds bus' s ids.
Proof. intros Ha (cells & Hc & Hr). exists cells. by rewrite Ha. Qed.

Lemma slice_allocated bus s ids : holds bus s ids -> (s.(sl_array) < length bus.(arrays))%nat.
Proof. intros (cells & Hc & _). by apply lookup_lt_Some in Hc. Qed.

Lemma subscribers_holds bus name s ids : bus.(signals) !! name = Some s -> holds bus s ids -> subscribers bus name = ids.
Proof. intros Hs Hh. unfold subscribers. rewrite Hs. by apply holds_elements. Qed.

(** A name keeps its subscribers when its slice and its array stay. *)
Lemma subscribers_kept bus bus' name :
  wf bus -> bus'.(signals) !! name = bus.(signals) !! name ->
  (forall s, bus.(signals) !! name = Some s -> bus'.(arrays) !! s.(sl_array) = bus.(arrays) !! s.(sl_array)) ->
  subscribers bus' name = subscribers bus name.
Proof.
  intros Hwf Hs Ha. unfold subscribers at 1. rewrite Hs. destruct (signals bus !! name) as [s|] eqn:Hl; [|unfold subscribers; by rewrite Hl].
  destruct (wf_slices _ Hwf _ _ Hl) as (ids & Hh & _). rewrite (subscribers_holds _ _ _ _ Hl Hh). apply holds_elements.
  apply (holds_arrays bus); [by apply Ha|done].
Qed.

Section SubscribeFacts.
Context (grow : nat -> nat) (grow_room : forall n, (n <= grow n)%nat).

(** Appending leaves the other arrays as they are. *)
Lemma append_holds bus o ids sub :
  match o with Some s => holds bus s ids | None => ids = [] end ->
  let '(arrays', s') := append grow bus o sub in
  holds (mkBus bus.(signals) arrays' bus.(channels) bus.(sub_names) bus.(closed)) s' (ids ++ [sub]) /\
  (forall a, (a < length bus.(arrays))%nat -> match o with Some s => a <> s.(sl_array) | None => True end -> arrays' !! a = bus.(arrays) !! a) /\
  match o with Some s => s'.(sl_array) = s.(sl_array) \/ s'.(sl_array) = length bus.(arrays) | None => s'.(sl_array) = length bus.(arrays) end.
Proof.
  intros Ho. destruct o as [s|]; simpl.
  - pose proof (holds_length _ _ _ Ho) as Hn. destruct Ho as (cells & Hc & Hle & Ht). rewrite Hc.
    destruct (Nat.ltb_spec (sl_len s) (length cells)) as [Hlt|Hge].
    + split; [|split; [intros a _ Ha; by rewrite list_lookup_insert_ne|by left]].
      exists (<[sl_len s:=Some sub]> cells). simpl. split; [apply list_lookup_insert_eq; by apply lookup_lt_Some in Hc|].
      rewrite length_insert. split; [lia|]. rewrite map_app. simpl. rewrite <- Ht.
      rewrite (take_S_r _ _ (Some sub)) by by apply list_lookup_insert_eq. by rewrite take_insert_ge.
    + split; [|split; [intros a Ha _; by apply lookup_app_l|by right]].
      eexists. simpl. split; [by apply list_lookup_middle|]. pose proof (grow_room (S (sl_len s))) as Hg.
      rewrite length_app, length_insert, length_replicate, length_take. split; [lia|]. rewrite map_app. simpl. rewrite <- Ht.
      destruct (grow (S (sl_len s)) - sl_len s)%nat as [|m] eqn:Hm; [lia|]. simpl.
      rewrite take_app_ge by (rewrite length_take; lia). rewrite length_take, Nat.min_l by lia.
      replace (S (sl_len s) - sl_len s)%nat with 1%nat by lia. done.
  - subst ids. split; [|split; [intros a Ha _; by apply lookup_app_l|done]].
    eexists. simpl. split; [by apply list_lookup_middle|]. pose proof (grow_room 1) as Hg. rewrite length_insert, length_replicate. split; [lia|].
    destruct (grow 1); [lia|]. done.
Qed.

(** A subscription is appended to the list of its signal; no other list
    changes, and the invariant is kept. *)
Theorem Subscribe_exact bus name sub bus' :
  wf bus -> Subscribe grow bus name = (sub, bus') ->
  wf bus' /\ subscribers bus' name = subscribers bus name ++ [sub] /\
  (forall other, other <> name -> subscribers bus' other = subscribers bus other) /\
  sub = length bus.(channels) /\ bus'.(channels) = bus.(channels) ++ [false].
Proof.
  intros Hwf Hsub. unfold Subscribe in Hsub. destruct (append grow bus (signals bus !! name) (length (channels bus))) as [arrays' s'] eqn:Happ.
  injection Hsub as <- <-. set (bus' := mkBus _ _ _ _ _).
  assert (exists ids, subscribers bus name = ids /\ NoDup ids /\
    Forall (fun id => bus.(sub_names) !! id = Some name /\ bus.(closed) !! id = Some false) ids /\
    match signals bus !! name with Some s => holds bus s ids | None => ids = [] end) as (ids & Hids & Hnd & Hall & Ho).
  { destruct (signals bus !! name) as [s|] eqn:Hl.
    - destruct (wf_slices _ Hwf _ _ Hl) as (ids & Hh & _ & Hnd & Hall). exists ids. split_and!; try done. by apply (subscribers_holds _ _ s).
    - exists []. split_and!; try done; [unfold subscribers; by rewrite Hl|constructor]. }
  pose proof (append_holds bus _ ids (length (channels bus)) Ho) as Hap. rewrite Happ in Hap. destruct Hap as (Hh & Harr & Hs').
  assert (holds bus' s' (ids ++ [length (channels bus)])) as Hh' by (apply (holds_arrays (mkBus (signals bus) arrays' (channels bus) (sub_names bus) (closed bus))); done).
  pose proof (wf_names _ Hwf) as Hln. pose proof (wf_closed _ Hwf) as Hlc.
  assert (forall other s, other <> name -> signals bus !! other = Some s -> arrays' !! sl_array s = arrays bus !! sl_array s /\ sl_array s <> sl_array s') as Hother.
  { intros other s Hne Hl. destruct (wf_slices _ Hwf _ _ Hl) as (ids2 & Hh2 & _). pose proof (slice_allocated _ _ _ Hh2) as Hlt.
    destruct (signals bus !! name) as [s0|] eqn:Hl0; [pose proof (wf_apart _ Hwf _ _ _ _ Hl Hl0 Hne) as Hap|]; (split; [by apply Harr|]);
      [destruct Hs' as [->| ->]; [done|lia]|rewrite Hs'; lia]. }
  assert (forall other, other <> name -> subscribers bus' other = subscribers bus other) as Hkeep.
  { intros other Hne. apply subscribers_kept; [done|simpl; by rewrite lookup_insert_ne|]. intros s Hl. by apply (Hother other). }
  assert (subscribers bus' name = ids ++ [length (channels bus)]) as Hnew by (apply (subscribers_holds _ _ s'); [simpl; by rewrite lookup_insert_eq|done]).
  split; [|by rewrite Hids]. split; simpl.
  - rewrite !length_app. simpl. lia.
  - rewrite !length_app. simpl. lia.
  - intros n s Hl. destruct (decide (n = name)) as [->|Hne].
    + rewrite lookup_insert_eq in Hl. injection Hl as <-. exists (ids ++ [length (channels bus)]). split_and!; [done|by destruct ids| |].
      * apply NoDup_app. split_and!; [done| |apply NoDup_singleton]. intros id Hid Hin. apply list_elem_of_singleton in Hin as ->.
        apply (proj1 (Forall_forall _ _) Hall) in Hid as [Hn _]. apply lookup_lt_Some in Hn. lia.
      * apply Forall_app. split; [|constructor; [|constructor]].
        -- eapply Forall_impl; [exact Hall|]. intros id [Hn Hc]. split; by apply lookup_app_l_Some.
        -- rewrite <- Hln at 1. rewrite <- Hlc. by rewrite !list_lookup_middle.
    + rewrite lookup_insert_ne in Hl by done. destruct (wf_slices _ Hwf _ _ Hl) as (ids2 & Hh2 & Hne2 & Hnd2 & Hall2). exists ids2. split_and!; try done.
      * apply (holds_arrays bus); [by apply (Hother n)|done].
      * eapply Forall_impl; [exact Hall2|]. intros id [Hn Hc]. split; by apply lookup_app_l_Some.
  - intros n1 n2 s1 s2 H1 H2 Hne. destruct (decide (n1 = name)) as [->|Hn1], (decide (n2 = name)) as [->|Hn2]; try done.
    + rewrite lookup_insert_eq in H1. rewrite lookup_insert_ne in H2 by done. injection H1 as <-. apply not_eq_sym. by apply (Hother n2).
    + rewrite lookup_insert_eq in H2. rewrite lookup_insert_ne in H1 by done. injection H2 as <-. by apply (Hother n1).
    + rewrite lookup_insert_ne in H1, H2 by done. by apply (wf_apart _ Hwf n1 n2).
  - intros id n Hn Hc. apply lookup_app_Some in Hn as [Hn|[Hge Hn]].
    + rewrite lookup_app_l in Hc by (apply lookup_lt_Some in Hn; lia). pose proof (wf_open _ Hwf id n Hn Hc) as Hin.
      destruct (decide (n = name)) as [->|Hne]; [rewrite Hnew, Hids in *; apply elem_of_app; by left|by rewrite Hkeep].
    + apply list_lookup_singleton_Some in Hn as [Hz <-]. assert (id = length (channels bus)) as -> by lia. rewrite Hnew. apply elem_of_app. right. left.
Qed.
End SubscribeFacts.

(** *** Closing *)
Lemma close_loop_skip idx rest name sub subs bus :
  (forall i, i ∈ idx -> cell bus subs i <> Some sub) -> close_loop (idx ++ rest) name sub subs bus = close_loop rest name sub subs bus.
Proof.
  induction idx as [|i idx IH]; intros Hno; [done|]. simpl. rewrite decide_False by (apply Hno; left). apply IH. intros j Hj. apply Hno. by right.
Qed.

(** The last element takes the place of the one that is removed. *)
Definition swap_remove (ids : list nat) (p : nat) : list nat :=
  match last ids with Some l => take (length ids - 1) (<[p := l]> ids) | None => [] end.

Lemma swap_remove_perm l1 sub l2 : (sub :: swap_remove (l1 ++ sub :: l2) (length l1)) ≡ₚ l1 ++ sub :: l2.
Proof.
  unfold swap_remove. destruct l2 as [|x l2 _] using rev_ind.
  - rewrite last_snoc, insert_app_r_alt, Nat.sub_diag by lia. simpl. rewrite length_app. simpl.
    replace (length l1 + 1 - 1)%nat with (length l1) by lia. rewrite take_app_length. apply Permutation_cons_append.
  - rewrite (app_comm_cons l2), app_assoc, last_snoc. rewrite insert_app_l by (rewrite length_app; simpl; lia).
    rewrite insert_app_r_alt, Nat.sub_diag by lia. simpl. rewrite length_app. simpl.
    replace (length (l1 ++ sub :: l2) + 1 - 1)%nat with (length (l1 ++ x :: l2)) by (rewrite !length_app; simpl; lia).
    rewrite take_app_length. rewrite <- !app_assoc. simpl. solve_Permutation.
Qed.

Section CloseFacts.
Context (bus : signalBus) (Hwf : wf bus) (sub : nat) (name : string) (s : slice) (l1 l2 : list nat).
Let ids := l1 ++ sub :: l2.
Context (Hs : bus.(signals) !! name = Some s) (Hh : holds bus s ids) (Hnd : NoDup ids) (Hnm : bus.(sub_names) !! sub = Some name).

(** The bus that [close] leaves. *)
Definition removed : signalBus :=
  match l1 ++ l2 with
  | [] => mkBus (delete name bus.(signals)) bus.(arrays) bus.(channels) bus.(sub_names) bus.(closed)
  | _ => mkBus (<[name := mkSlice s.(sl_array) (s.(sl_len) - 1)]> bus.(signals))
           (set_cell bus.(arrays) s.(sl_array) (length l1) (last ids)) bus.(channels) bus.(sub_names) bus.(closed)
  end.

Lemma sub_position i : ids !! i = Some sub <-> i = length l1.
Proof.
  split; [|intros ->; by apply list_lookup_middle]. intros Hi. apply (proj1 (NoDup_alt ids) Hnd i (length l1) sub Hi). by apply list_lookup_middle.
Qed.

Lemma close_removed : close bus sub = removed.
Proof.
  unfold close. rewrite Hnm, Hs. pose proof (holds_length _ _ _ Hh) as Hn. unfold ids in Hn at 1. rewrite length_app in Hn. simpl in Hn.
  replace (sl_len s) with (length l1 + S (length l2))%nat by lia. rewrite seq_app. simpl. rewrite close_loop_skip.
  2: { intros i Hi%elem_of_seq. rewrite (holds_cell _ _ _ _ Hh) by lia. rewrite sub_position. lia. }
  simpl. rewrite decide_True by (rewrite (holds_cell _ _ _ _ Hh) by lia; by apply sub_position).
  assert (forall bus', (forall i, (length l1 < i < sl_len s)%nat -> cell bus' s i = cell bus s i) ->
    forall subs, sl_array subs = sl_array s -> close_loop (seq (S (length l1)) (length l2)) name sub subs bus' = bus') as Hrest.
  { intros bus' Hcells subs Hsub. rewrite <- (app_nil_r (seq _ _)). rewrite close_loop_skip; [done|]. intros i Hi%elem_of_seq.
    replace (cell bus' subs i) with (cell bus' s i) by (unfold cell; by rewrite Hsub). rewrite Hcells by lia.
    rewrite (holds_cell _ _ _ _ Hh) by lia. rewrite sub_position. lia. }
  unfold removed. destruct (l1 ++ l2) as [|x l] eqn:Hl.
  - assert (length l1 = 0 /\ length l2 = 0)%nat as [H1 H2] by (apply (f_equal length) in Hl; rewrite length_app in Hl; simpl in Hl; lia).
    replace (sl_len s - 1)%nat with 0%nat by lia. simpl. by apply Hrest.
  - assert (0 < length l1 + length l2)%nat as Hpos by (apply (f_equal length) in Hl; rewrite length_app in Hl; simpl in Hl; lia).
    destruct (Nat.eqb_spec (sl_len s - 1) 0) as [|Hne]; [lia|].
    rewrite (holds_cell _ _ _ _ Hh) by lia. replace (ids !! (sl_len s - 1)%nat) with (last ids).
    2: { rewrite last_lookup. f_equal. rewrite (holds_length _ _ _ Hh). lia. }
    rewrite Hrest; [done| |done]. intros i Hi. unfold cell. simpl. unfold set_cell. destruct Hh as (cells & Hc & Hle & _). rewrite Hc.
    rewrite list_lookup_insert_eq by by apply lookup_lt_Some in Hc. simpl. by rewrite list_lookup_insert_ne by lia.
Qed.

Lemma removed_others other : other <> name -> subscribers removed other = subscribers bus other.
Proof.
  intros Hne. apply subscribers_kept; [done| |].
  - unfold removed. destruct (l1 ++ l2); simpl; [by rewrite lookup_delete_ne|by rewrite lookup_insert_ne].
  - intros s2 Hl2. unfold removed. destruct (l1 ++ l2); [done|]. simpl. unfold set_cell.
    destruct (arrays bus !! sl_array s) as [cells|] eqn:Hc; [|done]. rewrite list_lookup_insert_ne; [done|].
    apply (wf_apart _ Hwf name other s s2 Hs Hl2). congruence.
Qed.

Lemma removed_holds : l1 ++ l2 <> [] ->
  holds removed (mkSlice s.(sl_array) (s.(sl_len) - 1)) (swap_remove ids (length l1)) /\
  removed.(signals) !! name = Some (mkSlice s.(sl_array) (s.(sl_len) - 1)).
Proof.
  intros Hl. unfold removed. destruct (l1 ++ l2) as [|x l]; [done|]. simpl. split; [|by rewrite lookup_insert_eq].
  pose proof (holds_length _ _ _ Hh) as Hn. assert (length ids = length l1 + S (length l2))%nat as Hlen by (unfold ids; by rewrite length_app).
  destruct Hh as (cells & Hc & Hle & Ht). unfold set_cell. rewrite Hc. eexists. simpl.
  split; [apply list_lookup_insert_eq; by apply lookup_lt_Some in Hc|]. rewrite length_insert. split; [lia|].
  assert (is_Some (last ids)) as [lst Hlast].
  { rewrite last_lookup. apply lookup_lt_is_Some. lia. }
  unfold swap_remove. rewrite Hlast. rewrite <- (firstn_map Some), Hn. rewrite list_fmap_insert. change (Some <$> ids) with (map Some ids). rewrite <- Ht.
  rewrite <- take_insert_lt by lia. rewrite take_take. f_equal. lia.
Qed.
End CloseFacts.

Definition with_closed (c : list bool) (bus : signalBus) : signalBus :=
  mkBus bus.(signals) bus.(arrays) bus.(channels) bus.(sub_names) c.

Lemma close_loop_flags c idx name sub subs bus :
  close_loop idx name sub subs (with_closed c bus) = with_closed c (close_loop idx name sub subs bus).
Proof.
  revert subs bus. induction idx as [|i idx IH]; intros subs bus; [done|]. simpl.
  change (cell (with_closed c bus) subs i) with (cell bus subs i). destruct (decide (cell bus subs i = Some sub)); [|apply IH].
  destruct (_ =? _)%nat; rewrite <- IH; done.
Qed.

Lemma close_flags c bus sub : close (with_closed c bus) sub = with_closed c (close bus sub).
Proof.
  unfold close. simpl. destruct (sub_names bus !! sub); [|done]. destruct (signals bus !! s); [|done]. apply close_loop_flags.
Qed.

(** The subscription is found where the invariant says. *)
Lemma open_position bus sub name :
  wf bus -> bus.(sub_names) !! sub = Some name -> bus.(closed) !! sub = Some false ->
  exists s l1 l2, bus.(signals) !! name = Some s /\ holds bus s (l1 ++ sub :: l2) /\ NoDup (l1 ++ sub :: l2) /\
    subscribers bus name = l1 ++ sub :: l2 /\
    Forall (fun id => bus.(sub_names) !! id = Some name /\ bus.(closed) !! id = Some false) (l1 ++ sub :: l2).
Proof.
  intros Hwf Hn Hc. pose proof (wf_open _ Hwf sub name Hn Hc) as Hin. unfold subscribers in Hin.
  destruct (signals bus !! name) as [s|] eqn:Hs; [|by apply elem_of_nil in Hin]. destruct (wf_slices _ Hwf _ _ Hs) as (ids & Hh & _ & Hnd & Hall).
  rewrite (holds_elements _ _ _ Hh) in Hin. apply list_elem_of_split in Hin as (l1 & l2 & ->). exists s, l1, l2. split_and!; try done.
  by apply (subscribers_holds _ _ s).
Qed.

Lemma removed_slice bus sub name s l1 l2 n s' :
  bus.(signals) !! name = Some s -> (removed bus sub name s l1 l2).(signals) !! n = Some s' ->
  exists s0, bus.(signals) !! n = Some s0 /\ s'.(sl_array) = s0.(sl_array) /\ (n <> name -> s' = s0) /\ (n = name -> l1 ++ l2 <> []).
Proof.
  intros Hs. unfold removed. destruct (l1 ++ l2) as [|x l]; simpl; destruct (decide (n = name)) as [->|Hne].
  - by rewrite lookup_delete_eq.
  - rewrite lookup_delete_ne by done. intros Hl. by exists s'.
  - rewrite lookup_insert_eq. intros [= <-]. by exists s.
  - rewrite lookup_insert_ne by done. intros Hl. by exists s'.
Qed.

Lemma removed_wf bus sub name s l1 l2 :
  let r := removed bus sub name s l1 l2 in
  wf bus -> bus.(signals) !! name = Some s -> holds bus s (l1 ++ sub :: l2) -> bus.(sub_names) !! sub = Some name -> bus.(closed) !! sub = Some false ->
  Forall (fun id => bus.(sub_names) !! id = Some name /\ bus.(closed) !! id = Some false) (l1 ++ sub :: l2) ->
  r.(channels) = bus.(channels) -> r.(sub_names) = bus.(sub_names) ->
  (forall other, other <> name -> subscribers r other = subscribers bus other) ->
  (forall id, id ∈ subscribers bus name -> id <> sub -> id ∈ subscribers r name) ->
  sub ∉ subscribers r name -> NoDup (subscribers r name) -> (forall id, id ∈ sub :: subscribers r name -> id ∈ l1 ++ sub :: l2) ->
  wf (with_closed (<[sub := true]> bus.(closed)) r).
Proof.
  intros r Hwf Hs Hh Hn Hc Hall Hch Hnames Hothers Hkeep Hout Hnd Hsub. pose proof (wf_names _ Hwf). pose proof (wf_closed _ Hwf).
  assert (forall n id, id <> sub -> bus.(sub_names) !! id = Some n /\ bus.(closed) !! id = Some false ->
    r.(sub_names) !! id = Some n /\ <[sub := true]> bus.(closed) !! id = Some false) as Hflag.
  { intros n id Hne [H1 H2]. rewrite Hnames, list_lookup_insert_ne by done. done. }
  split; simpl.
  - rewrite Hch, Hnames. done.
  - rewrite Hch, length_insert. done.
  - intros n s' Hl. destruct (removed_slice bus sub name s l1 l2 n s' Hs Hl) as (s0 & Hl0 & Ha & Hother & Hself). destruct (decide (n = name)) as [->|Hne].
    + destruct (removed_holds bus sub name s l1 l2 Hh (Hself eq_refl)) as [Hh' Hs']. fold r in Hh', Hs'. rewrite Hl in Hs'. injection Hs' as ->.
      pose proof (subscribers_holds r name _ _ Hl Hh') as Hsv. rewrite Hsv in *. eexists. split_and!; [exact Hh'| |done|].
      * intros Hnil. apply (f_equal length) in Hnil. rewrite (holds_length _ _ _ Hh') in Hnil. simpl in Hnil.
        pose proof (holds_length _ _ _ Hh) as Hlen. rewrite length_app in Hlen. simpl in Hlen. apply (Hself eq_refl). apply length_zero_iff_nil. rewrite length_app. lia.
      * apply Forall_forall. intros id Hid. apply (Hflag name); [intros ->; done|]. apply (proj1 (Forall_forall _ _) Hall). apply Hsub. by right.
    + rewrite (Hother Hne) in *. destruct (wf_slices _ Hwf _ _ Hl0) as (ids & Hh0 & Hne0 & Hnd0 & Hall0). exists ids. split_and!; try done.
      * apply (holds_arrays bus); [|done]. simpl. unfold r, removed. destruct (l1 ++ l2); [done|]. simpl. unfold set_cell.
        destruct (arrays bus !! sl_array s) as [cells|]; [|done]. rewrite list_lookup_insert_ne; [done|]. apply (wf_apart _ Hwf name n s s0 Hs Hl0). congruence.
      * apply Forall_forall. intros id Hid. apply (proj1 (Forall_forall _ _) Hall0) in Hid as Hid'. apply Hflag; [|done]. intros ->. destruct Hid' as [Hid' _]. congruence.
  - intros n1 n2 s1 s2 H1 H2 Hne. destruct (removed_slice bus sub name s l1 l2 n1 s1 Hs H1) as (s1' & H1' & -> & _).
    destruct (removed_slice bus sub name s l1 l2 n2 s2 Hs H2) as (s2' & H2' & -> & _). by apply (wf_apart _ Hwf n1 n2).
  - intros id n Hid Hopen. rewrite Hnames in Hid. change (subscribers (with_closed _ r) n) with (subscribers r n).
    assert (id <> sub) as Hne. { intros ->. rewrite list_lookup_insert_eq in Hopen by by apply lookup_lt_Some in Hc. done. }
    rewrite list_lookup_insert_ne in Hopen by done. pose proof (wf_open _ Hwf id n Hid Hopen) as Hin.
    destruct (decide (n = name)) as [->|Hnn]; [by apply Hkeep|by rewrite Hothers].
Qed.

(** Closing takes an open subscription off the list of its signal, leaves every
    other subscription on its list, and closing again does nothing. *)
Theorem Close_exact bus sub name :
  wf bus -> bus.(sub_names) !! sub = Some name -> bus.(closed) !! sub = Some false ->
  wf (Close bus sub) /\ (sub :: subscribers (Close bus sub) name) ≡ₚ subscribers bus name /\
  (forall other, other <> name -> subscribers (Close bus sub) other = subscribers bus other) /\
  (Close bus sub).(channels) = bus.(channels) /\ Close (Close bus sub) sub = Close bus sub.
Proof.
  intros Hwf Hn Hc. destruct (open_position bus sub name Hwf Hn Hc) as (s & l1 & l2 & Hs & Hh & Hnd & Hsubs & Hall).
  pose proof (close_removed bus sub name s l1 l2 Hs Hh Hnd Hn) as Hr. set (r := removed bus sub name s l1 l2) in *.
  assert (Close bus sub = with_closed (<[sub := true]> bus.(closed)) r) as HC.
  { unfold Close. rewrite Hc. rewrite <- Hr, <- close_flags. done. }
  assert (r.(channels) = bus.(channels) /\ r.(sub_names) = bus.(sub_names)) as [Hch Hnames] by (unfold r, removed; by destruct (l1 ++ l2)).
  assert (forall n, subscribers (Close bus sub) n = subscribers r n) as Hview by (intros n; by rewrite HC).
  assert ((sub :: subscribers r name) ≡ₚ l1 ++ sub :: l2) as Hperm.
  { destruct (l1 ++ l2) as [|x l] eqn:Hl.
    - apply app_eq_nil in Hl as [-> ->]. unfold r, removed, subscribers. simpl. by rewrite lookup_delete_eq.
    - destruct (removed_holds bus sub name s l1 l2 Hh) as [Hh' Hs']; [by rewrite Hl|]. unfold r.
      rewrite (subscribers_holds _ _ _ _ Hs' Hh'). apply swap_remove_perm. }
  assert (forall other, other <> name -> subscribers r other = subscribers bus other) as Hothers by (intros other; by apply removed_others).
  assert ((sub ∉ subscribers r name) /\ NoDup (subscribers r name)) as [Hout Hnd'].
  { rewrite <- Hperm in Hnd. by apply NoDup_cons in Hnd. }
  split_and!; [|by rewrite Hview, Hsubs|by intros; rewrite Hview, Hothers|by rewrite HC|].
  2: { unfold Close at 1. rewrite HC. simpl. rewrite list_lookup_insert_eq; [done|]. by apply lookup_lt_Some in Hc. }
  rewrite HC. apply removed_wf; try done.
  - intros id Hid Hne. assert (id ∈ sub :: subscribers r name) as Hin by (rewrite Hperm; by rewrite <- Hsubs).
    by apply elem_of_cons in Hin as [->|].
  - intros id Hid. by rewrite <- Hperm.
Qed.

(** *** Notifying *)
Lemma send_channels bus sub id : (send bus sub).(channels) !! id = if decide (id = sub) then (fun _ => true) <$> bus.(channels) !! id else bus.(channels) !! id.
Proof.
  simpl. destruct (decide (id = sub)) as [->|Hne]; [|by rewrite list_lookup_insert_ne].
  destruct (channels bus !! sub) as [b|] eqn:Hb; simpl; [apply list_lookup_insert_eq; by apply lookup_lt_Some in Hb|].
  rewrite list_insert_ge; [done|]. by apply lookup_ge_None.
Qed.

Lemma notify_all_exact subs bus :
  (notify_all subs bus).(signals) = bus.(signals) /\ (notify_all subs bus).(arrays) = bus.(arrays) /\
  (notify_all subs bus).(sub_names) = bus.(sub_names) /\ (notify_all subs bus).(closed) = bus.(closed) /\
  length (notify_all subs bus).(channels) = length bus.(channels) /\
  forall id, (notify_all subs bus).(channels) !! id = if decide (id ∈ subs) then (fun _ => true) <$> bus.(channels) !! id else bus.(channels) !! id.
Proof.
  revert bus. induction subs as [|sub subs IH]; intros bus; [by split_and!|]. cbn [notify_all].
  destruct (IH (send bus sub)) as (H1 & H2 & H3 & H4 & H5 & H6). rewrite H1, H2, H3, H4, H5. split_and!; try done; [simpl; by rewrite length_insert|].
  intros id. rewrite H6, send_channels. destruct (decide (id = sub)) as [->|Hne].
  - rewrite (decide_True (P := sub ∈ sub :: subs)) by left. destruct (decide (sub ∈ subs)); [|done]. by destruct (channels bus !! sub).
  - destruct (decide (id ∈ subs)); [rewrite decide_True by (by right)|rewrite decide_False]; try done. rewrite elem_of_cons. naive_solver.
Qed.

(** A notification that nothing interrupts leaves a message with every
    subscriber of the signal and with no one else; the bus is otherwise
    unchanged. *)
Theorem Notify_exact bus name :
  wf bus ->
  wf (Notify bus name) /\ (forall n, subscribers (Notify bus name) n = subscribers bus n) /\
  forall id b, bus.(channels) !! id = Some b -> (Notify bus name).(channels) !! id = Some (b || bool_decide (id ∈ subscribers bus name)).
Proof.
  intros Hwf. unfold Notify. destruct (notify_all_exact (subscribers bus name) bus) as (H1 & H2 & H3 & H4 & H5 & H6).
  set (bus' := notify_all _ bus) in *.
  assert (forall n, subscribers bus' n = subscribers bus n) as Hsub by (intros n; unfold subscribers, elements, cell; by rewrite H1, H2).
  split_and!; [|done|].
  - split.
    + rewrite H3, H5. apply (wf_names _ Hwf).
    + rewrite H4, H5. apply (wf_closed _ Hwf).
    + intros n s Hl. rewrite H1 in Hl. destruct (wf_slices _ Hwf n s Hl) as (ids & Hh & Hr). exists ids. rewrite H3, H4. split; [|done].
      apply (holds_arrays bus); [by rewrite H2|done].
    + intros n1 n2 s1 s2. rewrite H1. apply (wf_apart _ Hwf).
    + intros id n. rewrite H3, H4, Hsub. apply (wf_open _ Hwf).
  - intros id b Hb. rewrite H6, Hb. destruct (decide (id ∈ subscribers bus name)); simpl.
    + rewrite bool_decide_true by done. by rewrite orb_true_r.
    + rewrite bool_decide_false by done. by rewrite orb_false_r.
Qed.

(** ** Goroutines

    One notification in progress, and the calls of others between its sends. *)
Inductive bus_step (grow : nat -> nat) : signalBus * option notifier -> signalBus * option notifier -> Prop :=
| step_send bus n bus' n' : notify_next bus n = (bus', n') -> bus_step grow (bus, Some n) (bus', n')
| step_subscribe bus n name sub bus' : Subscribe grow bus name = (sub, bus') -> bus_step grow (bus, n) (bus', n)
| step_close bus n sub : bus_step grow (bus, n) (Close bus sub, n).

(** The same without closing. *)
Inductive open_step (grow : nat -> nat) : signalBus * option notifier -> signalBus * option notifier -> Prop :=
| open_send bus n bus' n' : notify_next bus n = (bus', n') -> open_step grow (bus, Some n) (bus', n')
| open_subscribe bus n name sub bus' : Subscribe grow bus name = (sub, bus') -> open_step grow (bus, n) (bus', n).

Section InFlight.
Context (grow : nat -> nat) (grow_room : forall n, (n <= grow n)%nat).
Context (s0 : slice) (ids : list nat).

(** What holds while the notification walks its copy [s0] of the slice. *)
Definition in_flight (st : signalBus * option notifier) : Prop :=
  let '(bus, n) := st in
  wf bus /\ holds bus s0 ids /\ Forall (fun id => (id < length bus.(channels))%nat) ids /\
  (forall name s, bus.(signals) !! name = Some s -> s.(sl_array) = s0.(sl_array) -> (s0.(sl_len) <= s.(sl_len))%nat) /\
  match n with
  | Some n => n.(nt_slice) = s0 /\ forall i id, (i < n.(nt_next))%nat -> ids !! i = Some id -> bus.(channels) !! id = Some true
  | None => forall id, id ∈ ids -> bus.(channels) !! id = Some true
  end.

(** The slice of a signal after [append] in terms of the one before. *)
Lemma append_keeps bus name sub bus' :
  wf bus -> Subscribe grow bus name = (sub, bus') -> holds bus s0 ids ->
  (forall n s, bus.(signals) !! n = Some s -> s.(sl_array) = s0.(sl_array) -> (s0.(sl_len) <= s.(sl_len))%nat) ->
  holds bus' s0 ids /\ (forall n s, bus'.(signals) !! n = Some s -> s.(sl_array) = s0.(sl_array) -> (s0.(sl_len) <= s.(sl_len))%nat).
Proof.
  intros Hwf Hs Hh Hlen. unfold Subscribe in Hs. destruct (append grow bus (signals bus !! name) (length (channels bus))) as [arrays' s'] eqn:Happ.
  injection Hs as _ <-. pose proof (slice_allocated _ _ _ Hh) as Hlt. destruct Hh as (cells & Hc & Hle & Ht).
  assert ((exists cells', arrays' !! sl_array s0 = Some cells' /\ (sl_len s0 <= length cells')%nat /\ take (sl_len s0) cells' = map Some ids) /\
          (sl_array s' = sl_array s0 -> (sl_len s0 <= sl_len s')%nat)) as [Ha Hb].
  { unfold append in Happ. destruct (signals bus !! name) as [s|] eqn:Hl.
    - destruct (arrays bus !! sl_array s) as [cs|] eqn:Hcs; [|injection Happ as <- <-; split; [by exists cells|by apply (Hlen name)]].
      destruct (Nat.ltb_spec (sl_len s) (length cs)) as [Hlt2|Hge]; injection Happ as <- <-; simpl.
      + split; [|intros Heq; pose proof (Hlen name s Hl Heq); lia]. destruct (decide (sl_array s = sl_array s0)) as [Heq|Hne].
        * rewrite Heq in *. rewrite Hc in Hcs. injection Hcs as <-. exists (<[sl_len s:=Some (length (channels bus))]> cells).
          rewrite list_lookup_insert_eq by done. rewrite length_insert. split_and!; [done|done|].
          rewrite take_insert_ge by (pose proof (Hlen name s Hl Heq); lia). done.
        * exists cells. by rewrite list_lookup_insert_ne.
      + split; [exists cells; by rewrite lookup_app_l|lia].
    - injection Happ as <- <-. simpl. split; [exists cells; by rewrite lookup_app_l|lia]. }
  split; [exact Ha|]. intros n s Hl Heq. simpl in Hl. destruct (decide (n = name)) as [->|Hne].
  - rewrite lookup_insert_eq in Hl. injection Hl as <-. by apply Hb.
  - rewrite lookup_insert_ne in Hl by done. by apply (Hlen n).
Qed.

Lemma in_flight_step st st' : in_flight st -> open_step grow st st' -> in_flight st'.
Proof.
  intros Hin Hst. destruct Hst as [bus n bus' n' Hn|bus n name sub bus' Hs].
  - destruct Hin as (Hwf & Hh & Hrange & Hlen & Hsl & Hsent). unfold notify_next in Hn. rewrite Hsl in Hn. pose proof (holds_length _ _ _ Hh) as Hnl.
    destruct (Nat.ltb_spec (nt_next n) (sl_len s0)) as [Hlt|Hge].
    + rewrite (holds_cell _ _ _ _ Hh Hlt) in Hn. destruct (ids !! nt_next n) as [id|] eqn:Hid; [|apply lookup_ge_None in Hid; lia].
      injection Hn as <- <-. destruct (notify_all_exact [id] bus) as (H1 & H2 & H3 & H4 & H5 & H6). simpl in H1, H2, H3, H4, H5, H6.
      assert (wf (send bus id)) as Hwf'.
      { split; try exact (wf_apart _ Hwf).
        - simpl. rewrite length_insert. apply (wf_names _ Hwf).
        - simpl. rewrite length_insert. apply (wf_closed _ Hwf).
        - exact (wf_slices _ Hwf).
        - exact (wf_open _ Hwf). }
      split_and!; [done|exact Hh|simpl; by rewrite length_insert|exact Hlen|done|]. intros i x Hi Hx. rewrite send_channels.
      assert (x < length (channels bus))%nat as Hxr by (apply (proj1 (Forall_forall _ _) Hrange); by apply list_elem_of_lookup_2 in Hx).
      destruct (decide (x = id)) as [->|Hne]; [apply lookup_lt_is_Some in Hxr as [b ->]; done|]. apply (Hsent i); [|done]. simpl in Hi.
      destruct (decide (i = nt_next n)) as [->|]; [congruence|lia].
    + injection Hn as <- <-. split_and!; try done. intros x Hx. apply list_elem_of_lookup in Hx as [i Hi]. apply (Hsent i); [|done].
      apply lookup_lt_Some in Hi as Hi'. lia.
  - destruct Hin as (Hwf & Hh & Hrange & Hlen & Hn). destruct (append_keeps bus name sub bus' Hwf Hs Hh Hlen) as [Hh' Hlen'].
    destruct (Subscribe_exact grow grow_room bus name sub bus' Hwf Hs) as (Hwf' & _ & _ & _ & Hch).
    assert (forall id b, channels bus !! id = Some b -> channels bus' !! id = Some b) as Hkeep by (intros id b Hb; rewrite Hch; by apply lookup_app_l_Some).
    split_and!; try done.
    + rewrite Hch, length_app. eapply Forall_impl; [exact Hrange|]. simpl. lia.
    + destruct n as [n|]; [destruct Hn as [Hsl Hsent]; split; [done|]; intros i id Hi Hid; apply Hkeep; by apply (Hsent i)|].
      intros id Hid. by apply Hkeep, Hn.
Qed.
End InFlight.

Section Delivery.
Context (grow : nat -> nat) (grow_room : forall n, (n <= grow n)%nat).

(** The sends of a notification always come to an end: by themselves they
    are [Notify]. *)
Lemma sends_finish bus s ids i :
  holds bus s ids -> (i <= s.(sl_len))%nat ->
  rtc (open_step grow) (bus, Some (mkNotifier s i)) (notify_all (drop i ids) bus, None).
Proof.
  intros Hh Hi. pose proof (holds_length _ _ _ Hh) as Hn. remember (sl_len s - i)%nat as m eqn:Hm. revert bus i Hh Hi Hm.
  induction m as [|m IH]; intros bus i Hh Hi Hm.
  - assert (drop i ids = []) as -> by (apply drop_ge; lia). apply rtc_once, open_send. unfold notify_next. simpl.
    destruct (Nat.ltb_spec i (sl_len s)); [lia|done].
  - destruct (ids !! i) as [id|] eqn:Hid; [|apply lookup_ge_None in Hid; lia]. rewrite (drop_S _ _ _ Hid). simpl.
    eapply rtc_l; [|apply (IH (send bus id) (S i)); [done|lia|lia]]. apply open_send. unfold notify_next. simpl.
    destruct (Nat.ltb_spec i (sl_len s)); [|lia]. by rewrite (holds_cell _ _ _ _ Hh), Hid.
Qed.

Theorem Notify_is_its_sends bus name n :
  wf bus -> notify_start bus name = Some n -> rtc (open_step grow) (bus, Some n) (Notify bus name, None).
Proof.
  intros Hwf Hst. unfold notify_start in Hst. destruct (signals bus !! name) as [s|] eqn:Hl; [|done]. injection Hst as <-.
  destruct (wf_slices _ Hwf _ _ Hl) as (ids & Hh & _). unfold Notify. rewrite (subscribers_holds _ _ _ _ Hl Hh).
  apply (sends_finish bus s ids 0 Hh). lia.
Qed.

(** [C30] New subscriptions do not disturb a notification in progress: whoever was
    subscribed when it began has been sent its message when it ends. *)
Theorem notification_survives_subscriptions bus name n bus' :
  wf bus -> notify_start bus name = Some n -> rtc (open_step grow) (bus, Some n) (bus', None) ->
  forall id, id ∈ subscribers bus name -> bus'.(channels) !! id = Some true.
Proof.
  intros Hwf Hst Hrun. unfold notify_start in Hst. destruct (signals bus !! name) as [s|] eqn:Hl; [|done]. injection Hst as <-.
  destruct (wf_slices _ Hwf _ _ Hl) as (ids & Hh & _ & _ & Hall). rewrite (subscribers_holds _ _ _ _ Hl Hh).
  assert (in_flight s ids (bus, Some (mkNotifier s 0))) as H0.
  { split_and!; try done.
    - eapply Forall_impl; [exact Hall|]. intros id [Hn _]. apply lookup_lt_Some in Hn. by rewrite <- (wf_names _ Hwf).
    - intros n' s' Hl' Heq. destruct (decide (n' = name)) as [->|Hne]; [by rewrite Hl in Hl'; injection Hl' as <-|].
      by destruct (wf_apart _ Hwf _ _ _ _ Hl' Hl Hne).
    - intros i id Hi. simpl in Hi. lia. }
  assert (forall st st', rtc (open_step grow) st st' -> in_flight s ids st -> in_flight s ids st') as Hinv.
  { intros st st' Hr. induction Hr as [|st st1 st2 Hs _ IH]; [done|]. intros Hi. apply IH. by apply (in_flight_step grow grow_room s ids st). }
  apply (Hinv _ _ Hrun) in H0 as (_ & _ & _ & _ & Hdone). done.
Qed.
End Delivery.

(** ** A lost signal

    With a subscription closed and another one opened while a notification is
    in progress, the last subscriber is moved behind the notification and its
    old place is overwritten: it stays subscribed and gets no message. *)
Module LostSignal.
(** Capacities are doubled. *)
Fixpoint double_from (fuel c n : nat) : nat :=
  match fuel with O => n | S fuel' => if (n <=? c)%nat then c else double_from fuel' (2 * c) n end.
Definition grow (n : nat) : nat := double_from n 1 n.
Definition subscribed (k : nat) : signalBus := Nat.iter k (fun bus => snd (Subscribe grow bus "reconcile")) NewSignalBus.
Definition three : signalBus := subscribed 3.
(** The first send, the close of the first subscription, a fourth one. *)
Definition after_first : signalBus := send three 0.
Definition after_close : signalBus := Close after_first 0.
Definition after_fourth : signalBus := snd (Subscribe grow after_close "reconcile").
Definition at_end : signalBus := send (send after_fourth 1) 3.
End LostSignal.

Lemma double_room fuel c n : (n <= LostSignal.double_from fuel c n)%nat.
Proof. revert c. induction fuel as [|fuel IH]; intros c; simpl; [done|]. destruct (Nat.leb_spec n c); [done|apply IH]. Qed.

Lemma subscribed_wf k : wf (LostSignal.subscribed k).
Proof.
  induction k as [|k IH]; [exact NewSignalBus_wf|]. unfold LostSignal.subscribed. rewrite Nat.iter_succ. fold (LostSignal.subscribed k).
  destruct (Subscribe LostSignal.grow (LostSignal.subscribed k) "reconcile") as [sub bus'] eqn:Hs. simpl.
  refine (proj1 (Subscribe_exact LostSignal.grow _ _ _ _ _ IH Hs)). intros n. apply double_room.
Qed.

Theorem notification_can_be_lost :
  exists bus n bus' id,
    wf bus /\ notify_start bus "reconcile" = Some n /\ id ∈ subscribers bus "reconcile" /\
    rtc (bus_step LostSignal.grow) (bus, Some n) (bus', None) /\
    id ∈ subscribers bus' "reconcile" /\ bus'.(channels) !! id = Some false.
Proof.
  exists LostSignal.three, (mkNotifier (mkSlice 2 3) 0), LostSignal.at_end, 2%nat.
  split; [apply subscribed_wf|]. split; [vm_compute; reflexivity|]. split; [vm_compute; repeat constructor|]. split.
  - eapply (rtc_l _ _ (LostSignal.after_first, Some (mkNotifier (mkSlice 2 3) 1))); [apply step_send; vm_compute; reflexivity|].
    eapply (rtc_l _ _ (LostSignal.after_close, Some (mkNotifier (mkSlice 2 3) 1))); [apply step_close|].
    eapply (rtc_l _ _ (LostSignal.after_fourth, Some (mkNotifier (mkSlice 2 3) 1))); [apply (step_subscribe _ _ _ "reconcile" 3); vm_compute; reflexivity|].
    eapply (rtc_l _ _ (send LostSignal.after_fourth 1, Some (mkNotifier (mkSlice 2 3) 2))); [apply step_send; vm_compute; reflexivity|].
    eapply (rtc_l _ _ (LostSignal.at_end, Some (mkNotifier (mkSlice 2 3) 3))); [apply step_send; vm_compute; reflexivity|].
    apply rtc_once, step_send. vm_compute. reflexivity.
  - split; [vm_compute; repeat constructor|vm_compute; reflexivity].
Qed.

(** ** Witnesses *)
Lemma Subscribe_exact_witness : subscribers (LostSignal.subscribed 3) "reconcile" = subscribers (LostSignal.subscribed 2) "reconcile" ++ [2%nat].
Proof.
  destruct (Subscribe LostSignal.grow (LostSignal.subscribed 2) "reconcile") as [sub bus'] eqn:Hs.
  assert (bus' = LostSignal.subscribed 3 /\ sub = 2%nat) as [-> ->] by (vm_compute in Hs; injection Hs as <- <-; vm_compute; split; reflexivity).
  exact (proj1 (proj2 (Subscribe_exact LostSignal.grow (fun n => double_room n 1 n) _ _ _ _ (subscribed_wf 2) Hs))).
Defined.

Lemma Close_exact_witness :
  (0%nat :: subscribers (Close LostSignal.three 0) "reconcile") ≡ₚ [0; 1; 2]%nat /\ subscribers (Close LostSignal.three 0) "reconcile" = [2; 1]%nat.
Proof.
  split; [|vm_compute; reflexivity]. exact (proj1 (proj2 (Close_exact LostSignal.three 0 "reconcile" (subscribed_wf 3) eq_refl eq_refl))).
Defined.

Lemma Notify_exact_witness : (Notify LostSignal.three "reconcile").(channels) !! 2%nat = Some true.
Proof.
  destruct (Notify_exact LostSignal.three "reconcile" (subscribed_wf 3)) as (_ & _ & Hc). rewrite (Hc 2%nat false eq_refl). vm_compute. reflexivity.
Defined.

(** A fourth subscription during the notification. *)
Lemma notification_survives_subscriptions_witness :
  exists bus', rtc (open_step LostSignal.grow) (LostSignal.three, Some (mkNotifier (mkSlice 2 3) 0)) (bus', None) /\
    (bus'.(channels) !! 2%nat = Some true).
Proof.
  set (four := snd (Subscribe LostSignal.grow (send LostSignal.three 0) "reconcile")).
  assert (rtc (open_step LostSignal.grow) (LostSignal.three, Some (mkNotifier (mkSlice 2 3) 0)) (send (send four 1) 2, None)) as Hrun.
  { eapply (rtc_l _ _ (send LostSignal.three 0, Some (mkNotifier (mkSlice 2 3) 1))); [apply open_send; vm_compute; reflexivity|].
    eapply (rtc_l _ _ (four, Some (mkNotifier (mkSlice 2 3) 1))); [apply (open_subscribe _ _ _ "reconcile" 3); vm_compute; reflexivity|].
    eapply (rtc_l _ _ (send four 1, Some (mkNotifier (mkSlice 2 3) 2))); [apply open_send; vm_compute; reflexivity|].
    eapply (rtc_l _ _ (send (send four 1) 2, Some (mkNotifier (mkSlice 2 3) 3))); [apply open_send; vm_compute; reflexivity|].
    apply rtc_once, open_send. vm_compute. reflexivity. }
  exists (send (send four 1) 2). split; [exact Hrun|].
  refine (notification_survives_subscriptions LostSignal.grow (fun n => double_room n 1 n) LostSignal.three "reconcile" _ _ (subscribed_wf 3) _ Hrun 2%nat _).
  - vm_compute. reflexivity.
  - vm_compute. repeat constructor.
Defined.
