(* ===== verification/Reconciler.v ===== *)
(** * The loop of a reconciler: [src/pkg/workers/reconciler.go]

    [Start] makes a channel of capacity one for the requests to wake up and
    runs a goroutine that reconciles once, then after every request, tick and
    signal until the worker is stopped.  [Wakeup] leaves a request; with
    [wait] it sends a wait group along and blocks until the reconciliation
    that took it is over.  The reconciliation itself is the worker's; here it
    is counted. *)
From S2P Require Import Prelude.

(** A call of [Wakeup(true)]: how many reconciliations had begun when it was
    made, the channel it sends to (channels are numbered by the calls of
    [Start]; 0 is the nil channel), and the reconciliation that released it. *)
Record waiter := mkWaiter { wt_called : nat; wt_channel : nat; wt_released : option nat }.

Inductive loop_state :=
| NotStarted
| Waiting
(** Reconciling, with the wait group of the request if there is one. *)
| Reconciling (wg : option nat)
| Exited.

Record reconciler := mkReconciler {
  channel : nat;
  (** The request in the channel: none, or one with or without a wait group. *)
  wakeup : option (option nat);
  loop : loop_state;
  stop_closed : bool;
  (** How many reconciliations have begun. *)
  begun : nat;
  (** How many are over. *)
  finished : nat;
  waiters : list waiter;
  (** The calls of [Wakeup(true)] that have not been able to send. *)
  sending : list nat
}.
Definition NewReconciler : reconciler := mkReconciler 0 None NotStarted false 0 0 [] [].

(** [Start]: a new channel, a new stop channel, and the first
    reconciliation. *)
Definition Start (r : reconciler) : reconciler :=
  mkReconciler (S r.(channel)) None (Reconciling None) false (S r.(begun)) r.(finished) r.(waiters) r.(sending).

(** [Wakeup(false)]: dropped when the channel is full, or nil. *)
Definition Wakeup_nowait (r : reconciler) : reconciler :=
  match r.(channel), r.(wakeup) with
  | S _, None => mkReconciler r.(channel) (Some None) r.(loop) r.(stop_closed) r.(begun) r.(finished) r.(waiters) r.(sending)
  | _, _ => r
  end.

(** [Wakeup(true)], up to the send. *)
Definition Wakeup_wait (r : reconciler) : reconciler :=
  mkReconciler r.(channel) r.(wakeup) r.(loop) r.(stop_closed) r.(begun) r.(finished)
    (r.(waiters) ++ [mkWaiter r.(begun) r.(channel) None]) (r.(sending) ++ [length r.(waiters)]).

(** The send [r.wakeup <- wg] of a call, when there is room. *)
Definition can_send (r : reconciler) (i : nat) : Prop :=
  i ∈ r.(sending) /\ r.(wakeup) = None /\ r.(channel) <> 0%nat /\ exists w, r.(waiters) !! i = Some w /\ w.(wt_channel) = r.(channel).
Definition do_send (r : reconciler) (i : nat) : reconciler :=
  mkReconciler r.(channel) (Some (Some i)) r.(loop) r.(stop_closed) r.(begun) r.(finished) r.(waiters) (filter (fun j => j <> i) r.(sending)).

(** [runReconcile] begins. *)
Definition begin_run (r : reconciler) (wg : option nat) (channel_left : option (option nat)) : reconciler :=
  mkReconciler r.(channel) channel_left (Reconciling wg) r.(stop_closed) (S r.(begun)) r.(finished) r.(waiters) r.(sending).

(** [runReconcile] is over; then [wg.Done()]. *)
Definition end_run (r : reconciler) (wg : option nat) : reconciler :=
  mkReconciler r.(channel) r.(wakeup) Waiting r.(stop_closed) r.(begun) (S r.(finished))
    (match wg with
     | Some i => alter (fun w => mkWaiter w.(wt_called) w.(wt_channel) (Some r.(begun))) i r.(waiters)
     | None => r.(waiters)
     end) r.(sending).

(** [Stop]: the stop channel is closed, once. *)
Definition Stop (r : reconciler) : reconciler :=
  mkReconciler r.(channel) r.(wakeup) r.(loop) true r.(begun) r.(finished) r.(waiters) r.(sending).
Definition exit_loop (r : reconciler) : reconciler :=
  mkReconciler r.(channel) r.(wakeup) Exited r.(stop_closed) r.(begun) r.(finished) r.(waiters) r.(sending).

(** What the goroutines may do.  The select of the loop takes any of its
    channels that is ready; a worker is started when it does not run. *)
Inductive rstep : reconciler -> reconciler -> Prop :=
| rs_start r : r.(loop) = NotStarted \/ r.(loop) = Exited -> rstep r (Start r)
| rs_nowait r : rstep r (Wakeup_nowait r)
| rs_wait r : rstep r (Wakeup_wait r)
| rs_send r i : can_send r i -> rstep r (do_send r i)
| rs_wakeup r wg : r.(loop) = Waiting -> r.(wakeup) = Some wg -> rstep r (begin_run r wg None)
| rs_tick r : r.(loop) = Waiting -> rstep r (begin_run r None r.(wakeup))
| rs_signal r : r.(loop) = Waiting -> rstep r (begin_run r None r.(wakeup))
| rs_end r wg : r.(loop) = Reconciling wg -> rstep r (end_run r wg)
| rs_stop r : rstep r (Stop r)
| rs_exit r : r.(loop) = Waiting -> r.(stop_closed) = true -> rstep r (exit_loop r).

Definition reachable (r : reconciler) : Prop := rtc rstep NewReconciler r.

(** ** The invariant *)

(** A wait group that the loop may still release. *)
Definition live (r : reconciler) (i : nat) (started : bool) : Prop :=
  exists w, r.(waiters) !! i = Some w /\ w.(wt_released) = None /\ w.(wt_channel) = r.(channel) /\
    if started then (w.(wt_called) < r.(begun))%nat else (w.(wt_called) <= r.(begun))%nat.

Record rinv (r : reconciler) : Prop := {
  (** A call is released by a reconciliation that began after it and is over. *)
  inv_released : forall i w k, r.(waiters) !! i = Some w -> w.(wt_released) = Some k -> (w.(wt_called) < k <= r.(finished))%nat;
  (** One reconciliation at a time. *)
  inv_runs : r.(begun) = (match r.(loop) with Reconciling _ => S r.(finished) | _ => r.(finished) end);
  inv_called : forall i w, r.(waiters) !! i = Some w -> (w.(wt_called) <= r.(begun) /\ w.(wt_channel) <= r.(channel))%nat;
  inv_channel : forall i, r.(wakeup) = Some (Some i) -> live r i false;
  inv_running : forall i, r.(loop) = Reconciling (Some i) -> live r i true;
  (** A wait group is in one place. *)
  inv_sending : forall i, i ∈ r.(sending) -> exists w, r.(waiters) !! i = Some w /\ w.(wt_released) = None /\
                  r.(wakeup) <> Some (Some i) /\ r.(loop) <> Reconciling (Some i);
  inv_apart : forall i, r.(wakeup) = Some (Some i) -> r.(loop) <> Reconciling (Some i);
  inv_started : r.(loop) <> NotStarted -> r.(channel) <> 0%nat
}.

Section Preservation.
Context (r : reconciler) (Hi : rinv r).

Lemma start_inv : r.(loop) = NotStarted \/ r.(loop) = Exited -> rinv (Start r).
Proof.
  intros Hl. split; simpl; try done.
  - exact (inv_released _ Hi).
  - pose proof (inv_runs _ Hi) as Hr. destruct Hl as [Hl|Hl]; rewrite Hl in Hr; by rewrite Hr.
  - intros i w Hw. pose proof (inv_called _ Hi i w Hw). lia.
  - intros i Hin. destruct (inv_sending _ Hi i Hin) as (w & Hw & Hn & _). exists w. by split_and!.
Qed.

Lemma nowait_inv : rinv (Wakeup_nowait r).
Proof.
  unfold Wakeup_nowait. destruct (channel r) as [|n] eqn:Hc; [done|]. destruct (wakeup r) as [x|] eqn:Hw; [done|]. rewrite <- Hc.
  destruct Hi as [H1 Hruns H2 H3 H4 H5 H6 H7]. split; simpl; try done.
  intros i Hin. destruct (H5 i Hin) as (w & Ha & Hb & _ & Hd). exists w. by split_and!.
Qed.

Lemma wait_inv : rinv (Wakeup_wait r).
Proof.
  assert (forall i st, live r i st -> live (Wakeup_wait r) i st) as Hlive.
  { intros i st (w & Hw & Hr). exists w. split; [by apply lookup_app_l_Some|done]. }
  destruct Hi as [H1 Hruns H2 H3 H4 H5 H6 H7]. split; simpl; [|done| |by eauto..| |done|done].
  - intros i w k Hw Hk. apply lookup_app_Some in Hw as [Hw|[_ Hw]]; [by apply (H1 i w k)|]. by apply list_lookup_singleton_Some in Hw as [_ <-].
  - intros i w Hw. apply lookup_app_Some in Hw as [Hw|[_ Hw]]; [by apply (H2 i w)|]. by apply list_lookup_singleton_Some in Hw as [_ <-].
  - intros i Hin. apply elem_of_app in Hin as [Hin|Hin].
    + destruct (H5 i Hin) as (w & Ha & Hr). exists w. split; [by apply lookup_app_l_Some|done].
    + apply list_elem_of_singleton in Hin as ->. eexists. split; [by apply list_lookup_middle|]. split; [done|].
      split; [intros Hw; destruct (H3 _ Hw) as (w & Hw' & _)|intros Hl; destruct (H4 _ Hl) as (w & Hw' & _)]; apply lookup_lt_Some in Hw'; lia.
Qed.

Lemma send_inv i : can_send r i -> rinv (do_send r i).
Proof.
  intros (Hin & Hw0 & Hc0 & w & Hw & Hwc). destruct Hi as [H1 Hruns H2 H3 H4 H5 H6 H7]. destruct (H5 i Hin) as (w1 & Hw1 & Hn1 & _ & Hl1).
  rewrite Hw in Hw1. injection Hw1 as <-. split; simpl; try done.
  - intros j [= <-]. exists w. split_and!; try done. by apply (H2 i w).
  - intros j Hj. apply list_elem_of_filter in Hj as [Hne Hj]. destruct (H5 j Hj) as (w2 & Ha & Hb & _ & Hd). exists w2. split_and!; try done. congruence.
  - intros j [= <-]. done.
Qed.

Lemma begin_inv wg left :
  r.(loop) = Waiting -> (wg = None /\ left = r.(wakeup)) \/ (r.(wakeup) = Some wg /\ left = None) -> rinv (begin_run r wg left).
Proof.
  intros Hl Hwg. destruct Hi as [H1 Hruns H2 H3 H4 H5 H6 H7]. split; simpl.
  - exact H1.
  - rewrite Hl in Hruns. by rewrite Hruns.
  - intros i w Hw. pose proof (H2 i w Hw). lia.
  - intros i ->. destruct Hwg as [[_ Hwg]|[_ Hwg]]; [|done]. destruct (H3 i (eq_sym Hwg)) as (w & Ha & Hb & Hc & Hd). exists w. split_and!; try done. simpl in *. lia.
  - intros i [= ->]. destruct Hwg as [[Hwg _]|[Hwg _]]; [done|]. destruct (H3 i Hwg) as (w & Ha & Hb & Hc & Hd). exists w. split_and!; try done. simpl in *. lia.
  - intros i Hin. destruct (H5 i Hin) as (w & Ha & Hb & Hc & _). exists w. split_and!; try done.
    + destruct Hwg as [[_ ->]|[_ ->]]; done.
    + destruct Hwg as [[-> _]|[Hwg _]]; congruence.
  - intros i ->. destruct Hwg as [[-> _]|[_ Hwg]]; done.
  - intros _. apply H7. by rewrite Hl.
Qed.

Lemma end_inv wg : r.(loop) = Reconciling wg -> rinv (end_run r wg).
Proof.
  intros Hl. destruct Hi as [H1 Hruns H2 H3 H4 H5 H6 H7]. assert (channel r <> 0%nat) as Hnz by (apply H7; by rewrite Hl).
  destruct wg as [i|].
  2: { rewrite Hl in Hruns. split; simpl; try done. { intros j w k Hw Hk. pose proof (H1 j w k Hw Hk). lia. } intros j Hin. destruct (H5 j Hin) as (w & Ha & Hb & Hd & _). exists w. by split_and!. }
  destruct (H4 i Hl) as (w0 & Hw0 & Hn0 & Hc0 & Hlt).
  assert (forall j, j <> i -> waiters (end_run r (Some i)) !! j = waiters r !! j) as Hother by (intros j Hne; simpl; by rewrite list_lookup_alter_ne).
  assert (waiters (end_run r (Some i)) !! i = Some (mkWaiter (wt_called w0) (wt_channel w0) (Some (begun r)))) as Hself by (simpl; by rewrite list_lookup_alter_eq, Hw0).
  split.
  - intros j w k Hw Hk. destruct (decide (j = i)) as [->|Hne].
    + rewrite Hself in Hw. injection Hw as <-. injection Hk as <-. rewrite Hl in Hruns. simpl in *. lia.
    + rewrite Hother in Hw by done. pose proof (H1 j w k Hw Hk). simpl. lia.
  - simpl. by rewrite Hl in Hruns.
  - intros j w Hw. destruct (decide (j = i)) as [->|Hne].
    + rewrite Hself in Hw. injection Hw as <-. by apply (H2 i w0).
    + rewrite Hother in Hw by done. by apply (H2 j w).
  - intros j Hj. destruct (H3 j Hj) as (w & Hw & Hr). exists w. rewrite Hother; [done|]. intros ->. by apply (H6 i Hj).
  - done.
  - intros j Hin. destruct (H5 j Hin) as (w & Hw & Hn & Hc & Hd). exists w. rewrite Hother by congruence. by split_and!.
  - done.
  - intros _. apply H7. by rewrite Hl.
Qed.
End Preservation.

Lemma rinv_step r r' : rinv r -> rstep r r' -> rinv r'.
Proof.
  intros Hi Hs. destruct Hs as [r Hl|r|r|r i Hc|r wg Hl Hw|r Hl|r Hl|r wg Hl|r|r Hl Hc].
  - by apply start_inv.
  - by apply nowait_inv.
  - by apply wait_inv.
  - by apply send_inv.
  - apply begin_inv; try done. by right.
  - apply begin_inv; try done. by left.
  - apply begin_inv; try done. by left.
  - by apply end_inv.
  - destruct Hi. by split.
  - destruct Hi as [H1 Hruns H2 H3 H4 H5 H6 H7]. split; try done.
    + simpl. by rewrite Hl in Hruns.
    + intros i Hin. destruct (H5 i Hin) as (w & Ha & Hb & Hd & _). exists w. by split_and!.
    + intros _. apply H7. by rewrite Hl.
Qed.

Lemma reachable_inv r : reachable r -> rinv r.
Proof.
  intros Hr. unfold reachable in Hr. assert (rinv NewReconciler) as H0 by (split; simpl; try done; intros i Hin; by apply elem_of_nil in Hin).
  revert H0. induction Hr as [|a b c Hs _ IH]; [done|]. intros Ha. apply IH. by apply (rinv_step a).
Qed.

(** [C31] [Wakeup(true)] returns only after a reconciliation that began after the
    call is over: the reconciliation [k] that released the call is not among the
    [wt_called] that had begun when it was made, and is among the [finished] that
    have returned.  The reconciliations of a worker run one at a time, so that the
    first [finished] are those that are over and at most one more has begun. *)
Theorem wakeup_waits_for_a_later_run r i w k :
  reachable r -> r.(waiters) !! i = Some w -> w.(wt_released) = Some k ->
  (w.(wt_called) < k <= r.(finished))%nat /\ (r.(finished) <= r.(begun) <= S r.(finished))%nat /\
  (r.(loop) = Reconciling (Some i) -> False).
Proof.
  intros Hr Hw Hk. apply reachable_inv in Hr. split; [by apply (inv_released _ Hr i w k)|]. split; [pose proof (inv_runs _ Hr); case_match; lia|].
  intros Hl. destruct (inv_running _ Hr i Hl) as (w' & Hw' & Hn & _). congruence.
Qed.

(** A waiter whose channel the loop no longer reads. *)
Definition abandoned (r : reconciler) (i : nat) : Prop :=
  exists w, r.(waiters) !! i = Some w /\ w.(wt_released) = None /\
    ((w.(wt_channel) < r.(channel))%nat \/ w.(wt_channel) = 0%nat \/ (w.(wt_channel) = r.(channel) /\ r.(loop) = Exited)).

Lemma nowait_frame r : (Wakeup_nowait r).(waiters) = r.(waiters) /\ (Wakeup_nowait r).(channel) = r.(channel) /\ (Wakeup_nowait r).(loop) = r.(loop).
Proof. unfold Wakeup_nowait. destruct (channel r) eqn:Hc; [done|]. by destruct (wakeup r). Qed.

Lemma abandoned_step r r' i : rinv r -> abandoned r i -> rstep r r' -> abandoned r' i.
Proof.
  intros Hi (w & Hw & Hn & Hwhy) Hs.
  assert (r.(loop) <> Exited -> (w.(wt_channel) < r.(channel))%nat \/ w.(wt_channel) = 0%nat) as Hold by (intros Hl; destruct Hwhy as [?|[?|[? ?]]]; [by left|by right|done]).
  assert (forall r1, r1.(waiters) = r.(waiters) -> r1.(channel) = r.(channel) -> r.(loop) <> Exited -> abandoned r1 i) as Hkeep.
  { intros r1 Ha Hb Hl. exists w. rewrite Ha, Hb. split_and!; try done. destruct (Hold Hl); [by left|by right; left]. }
  destruct Hs as [r Hl|r|r|r j Hc|r wg Hl Hwk|r Hl|r Hl|r wg Hl|r|r Hl Hc]; try (apply Hkeep; [done|done|by rewrite Hl]).
  - exists w. split_and!; try done. simpl. lia.
  - exists w. destruct (nowait_frame r) as (-> & -> & ->). done.
  - exists w. split; [by apply lookup_app_l_Some|done].
  - by exists w.
  - destruct wg as [j|]; [|apply Hkeep; [done|done|by rewrite Hl]]. destruct (inv_running _ Hi j Hl) as (w' & Hw' & _ & Hc' & Hlt).
    assert (r.(loop) <> Exited) as Hne by by rewrite Hl. destruct (decide (j = i)) as [->|Hji].
    + rewrite Hw in Hw'. injection Hw' as <-. pose proof (inv_started _ Hi) as Hst. rewrite Hl in Hst. specialize (Hst ltac:(done)).
      destruct (Hold Hne); lia.
    + exists w. split; [simpl; by rewrite list_lookup_alter_ne|]. split; [done|]. simpl. destruct (Hold Hne); [by left|by right; left].
  - by exists w.
Qed.

(** After the loop has ended, and before it is first started, a call of
    [Wakeup(true)] is never released, whether its request is in the channel or
    it still waits to send it; a later [Start] makes a new channel and does
    not help. *)
Theorem wakeup_of_a_stopped_reconciler_blocks r r' i w :
  reachable r -> r.(waiters) !! i = Some w -> w.(wt_released) = None -> w.(wt_channel) = r.(channel) ->
  r.(loop) = Exited \/ r.(loop) = NotStarted /\ r.(channel) = 0%nat ->
  rtc rstep r r' -> exists w', r'.(waiters) !! i = Some w' /\ w'.(wt_released) = None.
Proof.
  intros Hreach Hw Hn Hc Hstop Hrun. assert (abandoned r i) as Hab by (exists w; split_and!; try done; destruct Hstop as [He|[_ H0]]; [right; by right|right; left; congruence]).
  apply reachable_inv in Hreach. revert Hreach Hab. clear Hw Hn Hc Hstop.
  induction Hrun as [r|r r1 r2 Hs _ IH]; intros Hi Hab; [destruct Hab as (w' & ? & ? & _); by exists w'|].
  apply IH; [by apply (rinv_step r)|by apply (abandoned_step r)].
Qed.

(** A running loop serves the request in its channel. *)
Theorem wakeup_is_served r i :
  reachable r -> r.(wakeup) = Some (Some i) -> r.(loop) = Waiting ->
  exists r' w, rtc rstep r r' /\ r'.(waiters) !! i = Some w /\ w.(wt_released) = Some (S r.(begun)).
Proof.
  intros Hreach Hw Hl. apply reachable_inv in Hreach. destruct (inv_channel _ Hreach i Hw) as (w & Hi & _).
  exists (end_run (begin_run r (Some i) None) (Some i)). eexists. split; [|split].
  - eapply rtc_l; [by apply (rs_wakeup r (Some i))|]. by apply rtc_once, rs_end.
  - simpl. by rewrite list_lookup_alter_eq, Hi.
  - done.
Qed.

(** ** Witnesses *)
Module ReconcilerExample.
Definition started : reconciler := Start NewReconciler.
Definition asked : reconciler := do_send (Wakeup_wait started) 0.
Definition served : reconciler := end_run (begin_run (end_run asked None) (Some 0%nat) None) (Some 0%nat).
Definition stopped : reconciler := exit_loop (end_run (Stop started) None).
Definition too_late : reconciler := Wakeup_wait stopped.

Lemma asked_reachable : reachable asked.
Proof.
  eapply (rtc_l _ _ started); [apply rs_start; by left|]. eapply (rtc_l _ _ (Wakeup_wait started)); [apply rs_wait|].
  apply rtc_once, rs_send. split_and!; [left|done|done|]. by eexists.
Qed.
Lemma served_reachable : reachable served.
Proof.
  unfold reachable. transitivity asked; [exact asked_reachable|]. eapply rtc_l; [by apply (rs_end asked None)|].
  eapply rtc_l; [by apply (rs_wakeup (end_run asked None) (Some 0%nat))|]. by apply rtc_once, rs_end.
Qed.
Lemma too_late_reachable : reachable too_late.
Proof.
  eapply (rtc_l _ _ started); [apply rs_start; by left|]. eapply rtc_l; [apply rs_stop|]. eapply rtc_l; [by apply (rs_end (Stop started) None)|].
  eapply rtc_l; [by apply rs_exit|]. apply rtc_once, rs_wait.
Qed.
End ReconcilerExample.
Import ReconcilerExample.

(** The call was made during the first reconciliation; the second one
    releases it. *)
Lemma wakeup_waits_for_a_later_run_witness : (1 < 2 <= served.(finished))%nat.
Proof. exact (proj1 (wakeup_waits_for_a_later_run served 0 (mkWaiter 1 1 (Some 2%nat)) 2 served_reachable eq_refl eq_refl)). Defined.

(** Starting the reconciler again does not release the call. *)
Lemma wakeup_of_a_stopped_reconciler_blocks_witness :
  exists w', (Start too_late).(waiters) !! 0%nat = Some w' /\ w'.(wt_released) = None.
Proof.
  exact (wakeup_of_a_stopped_reconciler_blocks too_late (Start too_late) 0 (mkWaiter 1 1 None) too_late_reachable eq_refl eq_refl eq_refl
    (or_introl eq_refl) (rtc_once _ _ (rs_start too_late (or_intror eq_refl)))).
Defined.

Lemma wakeup_is_served_witness :
  exists r' w, rtc rstep (end_run asked None) r' /\ r'.(waiters) !! 0%nat = Some w /\ w.(wt_released) = Some 2%nat.
Proof.
  refine (wakeup_is_served (end_run asked None) 0 _ eq_refl eq_refl). eapply rtc_r; [exact asked_reachable|]. by apply rs_end.
Defined.
