(* ===== verification/Keycloak.v ===== *)
(** * Service accounts in Keycloak: [src/pkg/client/keycloak/client.go] and
    [src/pkg/services/sso/keycloak_service.go]

    The client over the gocloak library and [masService], the service on top
    of it.  gocloak and the Keycloak server behind it are an instance of the
    class [GoCloak]: the calls that the client makes, and what the server
    documents of each.  The pointers of [gocloak.Client] that the code follows
    without a test ([ID], [ClientID], [Attributes]) are values here: the server
    always sends these members. *)
From S2P Require Import Prelude Arrays Errors Store Validation.

(** ** The library *)

(** The errors of gocloak: its calls return [*gocloak.APIError]; the code also
    asks for [gocloak.APIError], which is another type. *)
Inductive kc_error :=
| APIErrorPointer (code : Z) (e : error)
| APIErrorValue (code : Z) (e : error)
| KcOther (e : error).

Definition kc_cause (e : kc_error) : error :=
  match e with APIErrorPointer _ e | APIErrorValue _ e | KcOther e => e end.

Record ProtocolMapper := mkProtocolMapper {
  PMap_Name : string;
  PMap_Protocol : string;
  PMap_ProtocolMapper : string;
  PMap_Config : gmap string string
}.

(** [gocloak.Client], the members that the code sets or reads. *)
Record Client := mkClient {
  C_ID : string;
  C_ClientID : string;
  C_Name : option string;
  C_Description : option string;
  C_Attributes : gmap string string;
  C_ServiceAccountsEnabled : bool;
  C_StandardFlowEnabled : bool;
  C_AuthorizationServicesEnabled : bool;
  C_ProtocolMappers : list ProtocolMapper;
  C_RedirectURIs : option (list string);
  C_Protocol : string;
  C_PublicClient : bool;
  C_DirectAccessGrantsEnabled : bool
}.
(** The server chooses the internal identifier. *)
Definition with_id (id : string) (c : Client) : Client :=
  mkClient id c.(C_ClientID) c.(C_Name) c.(C_Description) c.(C_Attributes) c.(C_ServiceAccountsEnabled) c.(C_StandardFlowEnabled)
    c.(C_AuthorizationServicesEnabled) c.(C_ProtocolMappers) c.(C_RedirectURIs) c.(C_Protocol) c.(C_PublicClient) c.(C_DirectAccessGrantsEnabled).

(** [gocloak.User], the user of a service account. *)
Record User := mkUser { U_ID : string; U_Attributes : gmap string (list string) }.

(** [gocloak.Role]; the server chooses its identifier. *)
Record Role := mkRole { R_ID : option string; R_Name : string }.

Record GetClientsParams := mkGetClientsParams {
  P_ClientID : option string;
  P_First : option Z;
  P_Max : option Z;
  P_SearchableAttributes : option string
}.

(** A query of one attribute, [key:value]. *)
Fixpoint split_colon (s : string) : option (string * string) :=
  match s with
  | EmptyString => None
  | String c s' =>
      if (c =? ":")%char then Some ("", s')
      else match split_colon s' with Some (k, v) => Some (String c k, v) | None => None end
  end.
Definition attribute_matches (q : string) (c : Client) : bool :=
  match split_colon q with
  | Some (k, v) => match c.(C_Attributes) !! k with Some x => x =?s v | None => false end
  | None => false
  end.
Definition selected (p : GetClientsParams) (c : Client) : bool :=
  match p.(P_ClientID) with Some id => c.(C_ClientID) =?s id | None => true end &&
  match p.(P_SearchableAttributes) with Some q => attribute_matches q c | None => true end.
Definition page_of {A} (first max : option Z) (l : list A) : list A :=
  let l := drop (Z.to_nat (default 0 first)) l in
  match max with Some m => take (Z.to_nat m) l | None => l end.

(** Blanks and quotes separate the pairs of a query. *)
Fixpoint one_pair (s : string) : bool :=
  match s with
  | EmptyString => true
  | String c s' => negb (is_space c) && negb (Ascii.eqb c (Ascii.ascii_of_nat 34)) && one_pair s'
  end.
Definition plain_query (p : GetClientsParams) : bool :=
  match p.(P_SearchableAttributes) with Some q => one_pair q | None => true end.

Definition without (id : string) (l : list Client) : list Client := List.filter (fun c => negb (c.(C_ID) =?s id)) l.

(** The clock, [jwt.Parse] and [cache.Cache], which both clients use for their
    token. *)
Class TokenCache (W : Type) := {
  kc_now : W -> Z;
  (** The claim [exp] of a text that parses as a token. *)
  jwt_exp : string -> option (option Z);
  (** A key, a value and the duration after which it expires. *)
  cache_get : string -> W -> option string;
  cache_set : string -> string -> Z -> W -> W;
  cache_get_set : forall k v d w, cache_get k (cache_set k v d w) = Some v
}.

(** [kc_clients realm w] are the clients of a realm in the order in which the
    server lists them.  A call that changes them and fails may have been
    carried out all the same. *)
Class GoCloak (W : Type) `{TokenCache W} := {
  kc_clients : string -> W -> list Client;
  (** [uuid.New] *)
  kc_uuid : W -> string;
  (** [time.Time.Format] and [time.Parse] with the layout RFC 3339. *)
  format_time : Z -> string;
  parse_time : string -> result error Z;

  gc_CreateClient : string -> string -> Client -> M W kc_error string;
  gc_GetClients : string -> string -> GetClientsParams -> M W kc_error (list Client);
  gc_GetClient : string -> string -> string -> M W kc_error Client;
  gc_GetToken : string -> string -> string -> string -> M W kc_error string;
  gc_GetClientSecret : string -> string -> string -> M W kc_error (option string);
  gc_DeleteClient : string -> string -> string -> M W kc_error unit;
  gc_GetClientServiceAccount : string -> string -> string -> M W kc_error User;
  gc_UpdateUser : string -> string -> User -> M W kc_error unit;
  gc_RegenerateClientSecret : string -> string -> string -> M W kc_error string;
  gc_GetRealmRole : string -> string -> string -> M W kc_error Role;
  gc_CreateRealmRole : string -> string -> Role -> M W kc_error string;
  gc_GetRealmRolesByUserID : string -> string -> string -> M W kc_error (list Role);
  gc_AddRealmRoleToUser : string -> string -> string -> list Role -> M W kc_error unit;

  cache_set_clients : forall k v d w realm, kc_clients realm (cache_set k v d w) = kc_clients realm w;
  GetClients_ok : forall token realm p w l w', plain_query p = true ->
    gc_GetClients token realm p w = (Ok l, w') -> l = page_of p.(P_First) p.(P_Max) (List.filter (selected p) (kc_clients realm w));
  GetClient_ok : forall token realm id w c w',
    gc_GetClient token realm id w = (Ok c, w') -> c ∈ kc_clients realm w /\ c.(C_ID) = id;
  CreateClient_ok : forall token realm c w id w', gc_CreateClient token realm c w = (Ok id, w') ->
    kc_clients realm w' ≡ₚ with_id id c :: kc_clients realm w /\
    Forall (fun c' => c'.(C_ID) <> id /\ c'.(C_ClientID) <> c.(C_ClientID)) (kc_clients realm w);
  CreateClient_err : forall token realm c w e w', gc_CreateClient token realm c w = (Err e, w') ->
    kc_clients realm w' = kc_clients realm w \/ exists id, kc_clients realm w' ≡ₚ with_id id c :: kc_clients realm w;
  DeleteClient_ok : forall token realm id w w',
    gc_DeleteClient token realm id w = (Ok tt, w') -> kc_clients realm w' = without id (kc_clients realm w);
  DeleteClient_err : forall token realm id w e w', gc_DeleteClient token realm id w = (Err e, w') ->
    kc_clients realm w' = kc_clients realm w \/ kc_clients realm w' = without id (kc_clients realm w);
  GetClients_steady : forall token realm p w realm', kc_clients realm' (snd (gc_GetClients token realm p w)) = kc_clients realm' w;
  GetClient_steady : forall token realm id w realm', kc_clients realm' (snd (gc_GetClient token realm id w)) = kc_clients realm' w;
  GetToken_steady : forall realm i g s w realm', kc_clients realm' (snd (gc_GetToken realm i g s w)) = kc_clients realm' w;
  GetClientSecret_steady : forall token realm id w realm', kc_clients realm' (snd (gc_GetClientSecret token realm id w)) = kc_clients realm' w;
  GetClientServiceAccount_steady : forall token realm id w realm',
    kc_clients realm' (snd (gc_GetClientServiceAccount token realm id w)) = kc_clients realm' w;
  UpdateUser_steady : forall token realm u w realm', kc_clients realm' (snd (gc_UpdateUser token realm u w)) = kc_clients realm' w;
  RegenerateClientSecret_steady : forall token realm id w realm',
    kc_clients realm' (snd (gc_RegenerateClientSecret token realm id w)) = kc_clients realm' w
}.

(** ** Configuration: [config.go] *)
Definition MAS_SSO : string := "mas_sso".
Definition REDHAT_SSO : string := "redhat_sso".
Definition INTERNAL_SSO_REALM : string := "internal_sso".

Record KeycloakRealmConfig := mkRealmConfig {
  Realm_BaseURL : string;
  Realm : string;
  Realm_ClientID : string;
  Realm_ClientSecret : string;
  Realm_GrantType : string;
  Realm_TokenEndpointURI : string;
  Realm_JwksEndpointURI : string;
  Realm_ValidIssuerURI : string;
  Realm_APIEndpointURI : string;
  Realm_Scope : string
}.
Record KeycloakConfig := mkKeycloakConfig {
  KafkaRealm : KeycloakRealmConfig;
  OSDClusterIDPRealm : KeycloakRealmConfig;
  RedhatSSORealm : KeycloakRealmConfig;
  AdminAPISSORealm : KeycloakRealmConfig;
  MaxAllowedServiceAccounts : Z;
  MaxLimitForGetClients : Z;
  SelectSSOProvider : string;
  ServiceAccounttLimitCheckSkipOrgIdList : list string
}.
Definition SSOProviderRealm (kc : KeycloakConfig) : KeycloakRealmConfig :=
  let provider := kc.(SelectSSOProvider) in
  if provider =?s MAS_SSO then kc.(KafkaRealm)
  else if provider =?s REDHAT_SSO then kc.(RedhatSSORealm)
  else if provider =?s INTERNAL_SSO_REALM then kc.(AdminAPISSORealm)
  else kc.(KafkaRealm).

Definition setTokenEndpoints (realmConfig : KeycloakRealmConfig) : KeycloakRealmConfig :=
  let r := realmConfig.(Realm_BaseURL) +:+ "/auth/realms/" +:+ realmConfig.(Realm) in
  mkRealmConfig realmConfig.(Realm_BaseURL) realmConfig.(Realm) realmConfig.(Realm_ClientID) realmConfig.(Realm_ClientSecret)
    realmConfig.(Realm_GrantType) (r +:+ "/protocol/openid-connect/token") (r +:+ "/protocol/openid-connect/certs") r
    realmConfig.(Realm_APIEndpointURI) realmConfig.(Realm_Scope).

(** ** The client: [client.go] *)
Definition protocol : string := "openid-connect".
Definition mapper : string := "oidc-usermodel-attribute-mapper".
Definition OrgKey : string := "rh-org-id".
Definition UserKey : string := "rh-user-id".
(** Seconds. *)
Definition cacheCleanupInterval : Z := 300.

Record ClientRepresentation := mkClientRepresentation {
  CRep_Name : string;
  CRep_ClientID : string;
  CRep_ServiceAccountsEnabled : bool;
  CRep_StandardFlowEnabled : bool;
  CRep_Attributes : gmap string string;
  CRep_AuthorizationServicesEnabled : bool;
  CRep_ProtocolMappers : list ProtocolMapper;
  CRep_Description : string;
  CRep_RedirectURIs : option (list string)
}.

Definition ClientConfig (client : ClientRepresentation) : Client :=
  mkClient "" client.(CRep_ClientID) (Some client.(CRep_Name)) (Some client.(CRep_Description)) client.(CRep_Attributes)
    client.(CRep_ServiceAccountsEnabled) client.(CRep_StandardFlowEnabled) client.(CRep_AuthorizationServicesEnabled)
    client.(CRep_ProtocolMappers) client.(CRep_RedirectURIs) protocol false false.

Definition CreateProtocolMapperConfig (name : string) : list ProtocolMapper :=
  [mkProtocolMapper name protocol mapper
     (list_to_map [("access.token.claim", "true"); ("claim.name", name); ("id.token.claim", "true"); ("jsonType.label", "String");
                   ("user.attribute", name); ("userinfo.token.claim", "true")])].

Definition IsSameOrg (client : Client) (orgId : string) : bool :=
  if orgId =?s "" then false else default "" (client.(C_Attributes) !! OrgKey) =?s orgId.
Definition IsOwner (client : Client) (userId : string) : bool :=
  if userId =?s "" then false
  else match client.(C_Attributes) !! UserKey with Some rhUserId => rhUserId =?s userId | None => false end.

Section Token.
Context {W : Type} `{TokenCache W}.
Definition IsJWTTokenExpired (accessToken : string) (w : W) : bool :=
  match jwt_exp accessToken with
  | Some (Some expTime) => expTime <? kc_now w
  | _ => true
  end.
Definition GetCachedToken (tokenKey : string) (w : W) : result error string :=
  match cache_get tokenKey w with
  | Some ct => Ok ct
  | None => Err (EPlain "failed to retrieve cached token")
  end.
End Token.

Section KcClient.
Context {W : Type} `{GoCloak W} (config : KeycloakConfig) (realmConfig : KeycloakRealmConfig).
Abbreviation K A := (M W kc_error A).

Definition CreateClient (client : Client) (accessToken : string) : K string :=
  gc_CreateClient accessToken realmConfig.(Realm) client.

Definition getClient (clientId accessToken : string) : K (list Client) :=
  gc_GetClients accessToken realmConfig.(Realm) (mkGetClientsParams (Some clientId) None None None).

(** [nil] when no client has the identifier. *)
Definition GetClient (clientId accessToken : string) : K (option Client) :=
  clients <~ getClient clientId accessToken ;;
  ret (List.find (fun c => c.(C_ClientID) =?s clientId) clients).

Definition IsClientExist (clientId accessToken : string) : K string :=
  if clientId =?s "" then throw (KcOther (EPlain "clientId cannot be empty"))
  else
    clients <~ getClient clientId accessToken ;;
    ret (match List.find (fun c => c.(C_ClientID) =?s clientId) clients with Some client => client.(C_ID) | None => "" end).

Definition GetClientById (internalId accessToken : string) : K Client := gc_GetClient accessToken realmConfig.(Realm) internalId.
Definition DeleteClient (internalClientID accessToken : string) : K unit := gc_DeleteClient accessToken realmConfig.(Realm) internalClientID.

Definition GetClientSecret (internalClientId accessToken : string) : K string :=
  resp <~ gc_GetClientSecret accessToken realmConfig.(Realm) internalClientId ;;
  match resp with
  | None => throw (KcOther (EPlain "failed to retrieve credentials"))
  | Some value => ret value
  end.

Definition GetClients (accessToken : string) (first max : Z) (attribute : string) : K (list Client) :=
  let max := if max =? 0 then config.(MaxLimitForGetClients) else max in
  gc_GetClients accessToken realmConfig.(Realm) (mkGetClientsParams None (Some first) (if 0 <? max then Some max else None) (Some attribute)).

Definition GetClientServiceAccount (accessToken internalClient : string) : K User :=
  gc_GetClientServiceAccount accessToken realmConfig.(Realm) internalClient.
Definition UpdateServiceAccountUser (accessToken : string) (serviceAccountUser : User) : K unit :=
  gc_UpdateUser accessToken realmConfig.(Realm) serviceAccountUser.
Definition RegenerateClientSecret (accessToken id : string) : K string :=
  gc_RegenerateClientSecret accessToken realmConfig.(Realm) id.

(** *** Roles; [nil] for a role that is not there *)
Definition isNotFoundError (err : kc_error) : bool := match err with APIErrorPointer code _ => code =? StatusNotFound | _ => false end.
Definition GetRealmRole (accessToken roleName : string) : K (option Role) :=
  r <~ attempt (gc_GetRealmRole accessToken realmConfig.(Realm) roleName) ;;
  match r with
  | Err err => if isNotFoundError err then ret None else throw err
  | Ok r => ret (Some r)
  end.
Definition CreateRealmRole (accessToken roleName : string) : K Role :=
  _ <~ gc_CreateRealmRole accessToken realmConfig.(Realm) (mkRole None roleName) ;;
  gc_GetRealmRole accessToken realmConfig.(Realm) roleName.
Definition UserHasRealmRole (accessToken userId roleName : string) : K (option Role) :=
  roles <~ gc_GetRealmRolesByUserID accessToken realmConfig.(Realm) userId ;;
  ret (List.find (fun r => r.(R_Name) =?s roleName) roles).
Definition AddRealmRoleToUser (accessToken userId : string) (role : Role) : K unit :=
  gc_AddRealmRoleToUser accessToken realmConfig.(Realm) userId [role].

(** *** The token of the service *)
Definition cachedTokenKey : string := realmConfig.(Realm_ValidIssuerURI) +:+ realmConfig.(Realm_ClientID).
Definition GetToken : M W error string := fun w =>
  let cachedToken := value_or_zero (GetCachedToken cachedTokenKey w) in
  if negb (cachedToken =?s "") && negb (IsJWTTokenExpired cachedToken w) then (Ok cachedToken, w)
  else
    (tokenResp <~ wrap_err (fun err => EWrap "failed to get new token from gocloak with error" (kc_cause err))
                    (gc_GetToken realmConfig.(Realm) realmConfig.(Realm_ClientID) realmConfig.(Realm_GrantType) realmConfig.(Realm_ClientSecret)) ;;
     fun w' => (Ok tokenResp, cache_set cachedTokenKey tokenResp cacheCleanupInterval w')) w.
End KcClient.

(** ** The service: [keycloak_service.go] *)
Definition rhOrgId : string := "rh-org-id".
Definition rhUserId : string := "rh-user-id".
Definition username : string := "username".
Definition created_at : string := "created_at".
Definition UserServiceAccountPrefix : string := "srvc-acct-".
Definition kasAgentServiceAccountPrefix : string := "kas-fleetshard".
Definition connectorAgentServiceAccountPrefix : string := "connector-fleetshard".

(** [api.ServiceAccount] and the requests for one. *)
Record ServiceAccount := mkServiceAccount {
  SA_ID : string;
  SA_ClientID : string;
  SA_ClientSecret : string;
  SA_Name : string;
  SA_CreatedBy : string;
  SA_Description : string;
  SA_CreatedAt : Z
}.
Record ServiceAccountRequest := mkServiceAccountRequest { SAR_Name : string; SAR_Description : string }.
Record CompleteServiceAccountRequest := mkCompleteRequest {
  CSR_Owner : string;
  CSR_OwnerAccountId : string;
  CSR_OrgId : string;
  CSR_ClientId : string;
  CSR_Name : string;
  CSR_Description : string
}.

Definition buildAgentOperatorServiceAccountId (prefix agentClusterId : string) : string := prefix +:+ "-agent-" +:+ agentClusterId.

(** [time.Time{}], and the time that an attribute denotes. *)
Definition zero_time : Z := 0.
Definition creation_time {W} `{GoCloak W} (att : gmap string string) : Z :=
  match parse_time (default "" (att !! "created_at")) with Ok t => t | Err _ => zero_time end.

Definition handleKeyCloakGetClientError (err : kc_error) (id : string) : ServiceError :=
  match err with
  | APIErrorPointer code _ =>
      if code =? StatusNotFound then NewWithCause ErrorServiceAccountNotFound (Some (kc_cause err)) "service account not found %s"
      else NewWithCause ErrorFailedToGetServiceAccount (Some (kc_cause err)) "failed to get the service account %s"
  | _ => NewWithCause ErrorFailedToGetServiceAccount (Some (kc_cause err)) "failed to get the service account %s"
  end.

Section Mas.
Context {W : Type} `{GoCloak W} (config : KeycloakConfig) (realmConfig : KeycloakRealmConfig).
Abbreviation S A := (M W ServiceError A).

Definition sso_err {A} (code : Z) (reason : string) (m : M W kc_error A) : S A :=
  wrap_err (fun err => NewWithCause code (Some (kc_cause err)) reason) m.
Definition user_claims (ctx : RequestContext) : S KFMClaims :=
  lift (map_err (fun err => NewWithCause ErrorUnauthenticated (Some err) "user not authenticated") ctx.(rc_claims)).
Definition is_user_account (c : Client) : bool := HasPrefix c.(C_ClientID) UserServiceAccountPrefix.

(** *** Clients of clusters *)
Definition DeRegisterClientInSSO (accessToken clientId : string) : S unit :=
  found <~ attempt (IsClientExist realmConfig clientId accessToken) ;;
  let internalClientID := value_or_zero found in
  if internalClientID =?s "" then ret tt
  else sso_err ErrorFailedToDeleteSSOClient "failed to delete the sso client" (DeleteClient realmConfig internalClientID accessToken).

Definition cluster_client (clusterId clusterOathCallbackURI : string) : ClientRepresentation :=
  mkClientRepresentation clusterId clusterId false true ∅ false [] "" (Some [clusterOathCallbackURI]).
Definition RegisterClientInSSO (accessToken clusterId clusterOathCallbackURI : string) : S string :=
  internalClientId <~ sso_err ErrorFailedToGetSSOClient "failed to get sso client with id: %s" (IsClientExist realmConfig clusterId accessToken) ;;
  if negb (internalClientId =?s "") then
    secretValue <~ attempt (GetClientSecret realmConfig internalClientId accessToken) ;;
    ret (value_or_zero secretValue)
  else
    internalClient <~ sso_err ErrorFailedToCreateSSOClient "failed to create sso client"
                        (CreateClient realmConfig (ClientConfig (cluster_client clusterId clusterOathCallbackURI)) accessToken) ;;
    sso_err ErrorFailedToGetSSOClientSecret "failed to get sso client secret" (GetClientSecret realmConfig internalClient accessToken).

Definition IsKafkaClientExist (accessToken clientId : string) : S unit :=
  _ <~ sso_err ErrorFailedToGetSSOClient "failed to get sso client with id: %s" (IsClientExist realmConfig clientId accessToken) ;;
  ret tt.

Definition GetKafkaClientSecret (accessToken clientId : string) : S string :=
  internalClientID <~ sso_err ErrorFailedToGetSSOClient "failed to get sso client with id: %s" (IsClientExist realmConfig clientId accessToken) ;;
  sso_err ErrorFailedToGetSSOClientSecret "failed to get sso client secret" (GetClientSecret realmConfig internalClientID accessToken).

(** *** Creation *)
Definition createServiceAccountIfNotExists (token : string) (clientRep : ClientRepresentation) : S ServiceAccount :=
  client <~ sso_err ErrorGeneral "failed to check if client exists." (GetClient realmConfig clientRep.(CRep_ClientID) token) ;;
  internalClientId <~
    match client with
    | None => sso_err ErrorFailedToCreateServiceAccount "failed to create service account" (CreateClient realmConfig (ClientConfig clientRep) token)
    | Some client => ret client.(C_ID)
    end ;;
  clientSecret <~ sso_err ErrorFailedToGetSSOClientSecret "failed to get service account secret" (GetClientSecret realmConfig internalClientId token) ;;
  ret (mkServiceAccount internalClientId clientRep.(CRep_ClientID) clientSecret clientRep.(CRep_Name) "" clientRep.(CRep_Description) zero_time).

Definition account_representation (request : CompleteServiceAccountRequest) (createdAt : string) : ClientRepresentation :=
  mkClientRepresentation request.(CSR_Name) request.(CSR_ClientId) true false
    (list_to_map [(rhOrgId, request.(CSR_OrgId)); (rhUserId, request.(CSR_OwnerAccountId)); (username, request.(CSR_Owner)); (created_at, createdAt)])
    false (CreateProtocolMapperConfig rhOrgId ++ CreateProtocolMapperConfig rhUserId ++ CreateProtocolMapperConfig username)
    request.(CSR_Description) None.

Definition CreateServiceAccountInternal (accessToken : string) (request : CompleteServiceAccountRequest) : S ServiceAccount := fun w =>
  let createdAt := format_time (kc_now w) in
  (serviceAcc <~ createServiceAccountIfNotExists accessToken (account_representation request createdAt) ;;
   serviceAccountUser <~ sso_err ErrorFailedToGetServiceAccount "failed to fetch service account"
                           (GetClientServiceAccount realmConfig accessToken serviceAcc.(SA_ID)) ;;
   _ <~ sso_err ErrorFailedToCreateServiceAccount "failed to create service account"
          (UpdateServiceAccountUser realmConfig accessToken
             (mkUser serviceAccountUser.(U_ID)
                (list_to_map [(rhOrgId, [request.(CSR_OrgId)]); (rhUserId, [request.(CSR_OwnerAccountId)]); (username, [request.(CSR_Owner)])]))) ;;
   ret (mkServiceAccount serviceAcc.(SA_ID) serviceAcc.(SA_ClientID) serviceAcc.(SA_ClientSecret) serviceAcc.(SA_Name) request.(CSR_Owner)
          serviceAcc.(SA_Description) (match parse_time createdAt with Ok t => t | Err _ => zero_time end))) w.

Definition org_query (orgId : string) : string := "rh-org-id:" +:+ orgId.

Definition checkAllowedServiceAccountsLimits (accessToken : string) (maxAllowed : Z) (orgId : string) : M W kc_error bool :=
  if Contains config.(ServiceAccounttLimitCheckSkipOrgIdList) orgId then ret true
  else
    clients <~ GetClients config realmConfig accessToken 0 (-1) (org_query orgId) ;;
    let serviceAccountCount := Z.of_nat (length (List.filter is_user_account clients)) in
    ret (negb (maxAllowed <=? serviceAccountCount)).

Definition buildServiceAccountIdentifier (w : W) : string := UserServiceAccountPrefix +:+ kc_uuid w.

Definition CreateServiceAccount (accessToken : string) (serviceAccountRequest : ServiceAccountRequest) (ctx : RequestContext) : S ServiceAccount :=
  claims <~ user_claims ctx ;;
  let orgId := value_or_zero (GetOrgId claims) in
  let ownerAccountId := value_or_zero (GetAccountId claims) in
  let owner := value_or_zero (GetUsername claims) in
  isAllowed <~ sso_err ErrorGeneral "failed to create service account"
                 (checkAllowedServiceAccountsLimits accessToken config.(MaxAllowedServiceAccounts) orgId) ;;
  if negb (isAllowed : bool) then throw (MaxLimitForServiceAccountReached "max allowed number:%d of service accounts for user in org:%s has reached")
  else fun w =>
    CreateServiceAccountInternal accessToken
      (mkCompleteRequest owner ownerAccountId orgId (buildServiceAccountIdentifier w) serviceAccountRequest.(SAR_Name)
         serviceAccountRequest.(SAR_Description)) w.

(** *** Reading *)
Definition present_client (c : Client) : ServiceAccount :=
  mkServiceAccount c.(C_ID) c.(C_ClientID) "" (SafeString c.(C_Name)) (default "" (c.(C_Attributes) !! "username"))
    (SafeString c.(C_Description)) (creation_time c.(C_Attributes)).

Definition ListServiceAcc (accessToken : string) (ctx : RequestContext) (first max : Z) : S (list ServiceAccount) :=
  claims <~ user_claims ctx ;;
  let orgId := value_or_zero (GetOrgId claims) in
  clients <~ sso_err ErrorGeneral "failed to collect service accounts" (GetClients config realmConfig accessToken first max (org_query orgId)) ;;
  ret (map present_client (List.filter is_user_account clients)).

Definition getServiceAccount (ctx : RequestContext) (getClientFunc : M W kc_error (option Client)) (key : string) : S ServiceAccount :=
  claims <~ user_claims ctx ;;
  c <~ wrap_err (fun err => handleKeyCloakGetClientError err key) getClientFunc ;;
  match c with
  | None => throw (NewWithCause ErrorServiceAccountNotFound None "service account not found %s")
  | Some c =>
      if negb (is_user_account c) then throw (NewWithCause ErrorServiceAccountNotFound None "service account not found %s")
      else
        let orgId := value_or_zero (GetOrgId claims) in
        let userId := value_or_zero (GetAccountId claims) in
        let createdBy := value_or_zero (GetUsername claims) in
        if IsSameOrg c orgId && IsOwner c userId then
          ret (mkServiceAccount c.(C_ID) c.(C_ClientID) "" (SafeString c.(C_Name)) createdBy (SafeString c.(C_Description)) (creation_time c.(C_Attributes)))
        else throw (NewWithCause ErrorForbidden None "failed to get service account")
  end.
Definition GetServiceAccountByClientId (accessToken : string) (ctx : RequestContext) (clientId : string) : S ServiceAccount :=
  getServiceAccount ctx (GetClient realmConfig clientId accessToken) clientId.
Definition GetServiceAccountById (accessToken : string) (ctx : RequestContext) (id : string) : S ServiceAccount :=
  getServiceAccount ctx (c <~ GetClientById realmConfig id accessToken ;; ret (Some c)) id.

(** *** Deletion and new credentials *)
Definition may_change (claims : KFMClaims) (c : Client) : bool :=
  IsSameOrg c (value_or_zero (GetOrgId claims)) && (IsOwner c (value_or_zero (GetAccountId claims)) || Claims_IsOrgAdmin claims).

Definition DeleteServiceAccount (accessToken : string) (ctx : RequestContext) (id : string) : S unit :=
  claims <~ user_claims ctx ;;
  c <~ wrap_err (fun err => handleKeyCloakGetClientError err id) (GetClientById realmConfig id accessToken) ;;
  if negb (is_user_account c) then throw (NewWithCause ErrorServiceAccountNotFound None "service account not found %s")
  else if may_change claims c then
    sso_err ErrorFailedToDeleteServiceAccount "failed to delete service account" (DeleteClient realmConfig id accessToken)
  else throw (NewWithCause ErrorForbidden None "failed to delete service account").

Definition ResetServiceAccountCredentials (accessToken : string) (ctx : RequestContext) (id : string) : S ServiceAccount :=
  claims <~ user_claims ctx ;;
  c <~ wrap_err (fun err => handleKeyCloakGetClientError err id) (GetClientById realmConfig id accessToken) ;;
  if negb (is_user_account c) then throw (NewWithCause ErrorServiceAccountNotFound None "service account not found %s")
  else if may_change claims c then
    value <~ sso_err ErrorGeneral "failed to reset service account credentials" (RegenerateClientSecret realmConfig accessToken id) ;;
    ret (mkServiceAccount c.(C_ID) c.(C_ClientID) value (SafeString c.(C_Name)) (default "" (c.(C_Attributes) !! "username"))
           (SafeString c.(C_Description)) (creation_time c.(C_Attributes)))
  else throw (NewWithCause ErrorForbidden None "failed to reset service account credentials").

(** The code asserts [gocloak.APIError], not a pointer to it; without success
    the code of the zero value is 0. *)
Definition value_code (err : kc_error) : option Z := match err with APIErrorValue code _ => Some code | _ => None end.
Definition DeleteServiceAccountInternal (accessToken serviceAccountId : string) : S unit :=
  found <~ attempt (IsClientExist realmConfig serviceAccountId accessToken) ;;
  match found with
  | Err err =>
      if default 0 (value_code err) =? StatusNotFound then ret tt
      else throw (NewWithCause ErrorFailedToGetSSOClient (Some (kc_cause err)) "failed to get sso client with id: %s")
  | Ok id =>
      deleted <~ attempt (DeleteClient realmConfig id accessToken) ;;
      match deleted with
      | Err err =>
          match value_code err with
          | Some code =>
              if negb (code =? StatusNotFound) then throw (NewWithCause ErrorFailedToDeleteServiceAccount (Some (kc_cause err)) "failed to delete service account")
              else ret tt
          | None => ret tt
          end
      | Ok _ => ret tt
      end
  end.

(** *** The accounts of the agents *)
Definition agent_representation (serviceAccountId agentClusterId : string) : ClientRepresentation :=
  mkClientRepresentation serviceAccountId serviceAccountId true false ∅ false [] ("service account for agent on cluster " +:+ agentClusterId) None.
Definition registerAgentServiceAccount (accessToken serviceAccountId agentClusterId : string) : S ServiceAccount :=
  createServiceAccountIfNotExists accessToken (agent_representation serviceAccountId agentClusterId).
Definition deregisterAgentServiceAccount (accessToken prefix agentClusterId : string) : S unit :=
  let serviceAccountId := buildAgentOperatorServiceAccountId prefix agentClusterId in
  internalServiceAccountId <~ sso_err ErrorFailedToGetSSOClient "failed to get sso client with id: %s" (IsClientExist realmConfig serviceAccountId accessToken) ;;
  if internalServiceAccountId =?s "" then ret tt
  else sso_err ErrorFailedToDeleteServiceAccount "failed to delete service account: %s" (DeleteClient realmConfig internalServiceAccountId accessToken).

Definition RegisterKasFleetshardOperatorServiceAccount (accessToken agentClusterId : string) : S ServiceAccount :=
  registerAgentServiceAccount accessToken (buildAgentOperatorServiceAccountId kasAgentServiceAccountPrefix agentClusterId) agentClusterId.
Definition DeRegisterKasFleetshardOperatorServiceAccount (accessToken agentClusterId : string) : S unit :=
  deregisterAgentServiceAccount accessToken kasAgentServiceAccountPrefix agentClusterId.
Definition RegisterConnectorFleetshardOperatorServiceAccount (accessToken agentClusterId : string) : S ServiceAccount :=
  registerAgentServiceAccount accessToken (buildAgentOperatorServiceAccountId connectorAgentServiceAccountPrefix agentClusterId) agentClusterId.
Definition DeRegisterConnectorFleetshardOperatorServiceAccount (accessToken agentClusterId : string) : S unit :=
  deregisterAgentServiceAccount accessToken connectorAgentServiceAccountPrefix agentClusterId.
End Mas.

(** ** Calls that leave the clients as they are *)
Section Steady.
Context {W : Type} `{GoCloak W} (config : KeycloakConfig) (realmConfig : KeycloakRealmConfig).
Implicit Types (w : W) (c : Client) (token : string).
Abbreviation clients w := (kc_clients realmConfig.(Realm) w).

Definition steady {E A} (m : M W E A) : Prop := forall w, clients (snd (m w)) = clients w.

Lemma steady_run {E A} (m : M W E A) w r w' : steady m -> m w = (r, w') -> clients w' = clients w.
Proof. intros Hm Hrun. specialize (Hm w). by rewrite Hrun in Hm. Qed.
Lemma ret_steady {E A} (a : A) : steady (ret a : M W E A).
Proof. by intros w. Qed.
Lemma throw_steady {E A} (e : E) : steady (throw e : M W E A).
Proof. by intros w. Qed.
Lemma lift_steady {E A} (r : result E A) : steady (lift r : M W E A).
Proof. by intros w. Qed.
Lemma bind_keeps_clients {E A B} (m : M W E A) (k : A -> M W E B) : steady m -> (forall a, steady (k a)) -> steady (bind m k).
Proof.
  intros Hm Hk w. specialize (Hm w). unfold bind. destruct (m w) as [[a|e] w1]; simpl in *; [|done]. by rewrite (Hk a w1).
Qed.
Lemma wrap_err_keeps_clients {E E' A} (f : E -> E') (m : M W E A) : steady m -> steady (wrap_err f m).
Proof. intros Hm w. specialize (Hm w). unfold wrap_err. by destruct (m w). Qed.
Lemma attempt_steady {E E' A} (m : M W E A) : steady m -> steady (attempt (E' := E') m).
Proof. intros Hm w. specialize (Hm w). unfold attempt. by destruct (m w). Qed.

Ltac solve_steady :=
  repeat first [ apply ret_steady | apply throw_steady | apply lift_steady | apply wrap_err_keeps_clients | apply attempt_steady
               | apply bind_keeps_clients; [|intros] | case_match ].

Lemma getClient_steady id token : steady (getClient realmConfig id token).
Proof. intros w. apply GetClients_steady. Qed.
Lemma client_lookup_steady id token : steady (GetClient realmConfig id token).
Proof. unfold GetClient. solve_steady. apply getClient_steady. Qed.
Lemma IsClientExist_steady id token : steady (IsClientExist realmConfig id token).
Proof. unfold IsClientExist. case_goal; solve_steady. apply getClient_steady. Qed.
Lemma GetClientById_steady id token : steady (GetClientById realmConfig id token).
Proof. intros w. apply GetClient_steady. Qed.
Lemma secret_steady id token : steady (GetClientSecret realmConfig id token).
Proof. unfold GetClientSecret. solve_steady. intros w. apply GetClientSecret_steady. Qed.
Lemma page_steady token first max q : steady (GetClients config realmConfig token first max q).
Proof. intros w. apply GetClients_steady. Qed.
Lemma account_user_steady token id : steady (GetClientServiceAccount realmConfig token id).
Proof. intros w. apply GetClientServiceAccount_steady. Qed.
Lemma user_update_steady token u : steady (UpdateServiceAccountUser realmConfig token u).
Proof. intros w. apply UpdateUser_steady. Qed.
Lemma regenerate_steady token id : steady (RegenerateClientSecret realmConfig token id).
Proof. intros w. apply RegenerateClientSecret_steady. Qed.

Lemma limits_steady token max org : steady (checkAllowedServiceAccountsLimits config realmConfig token max org).
Proof. unfold checkAllowedServiceAccountsLimits. case_goal; solve_steady. apply page_steady. Qed.

(** The client that a query by identifier finds. *)
Lemma getClient_ok id token w l w' :
  getClient realmConfig id token w = (Ok l, w') -> l = List.filter (fun c => c.(C_ClientID) =?s id) (clients w).
Proof.
  intros Hrun. apply (GetClients_ok _ _ (mkGetClientsParams (Some id) None None None)) in Hrun as ->; [|done]. unfold page_of. simpl. rewrite drop_0.
  apply List.filter_ext. intros c. unfold selected. simpl. apply andb_true_r.
Qed.
Lemma find_filter (p : Client -> bool) l : List.find p (List.filter p l) = List.find p l.
Proof. induction l as [|c l IH]; simpl; [done|]. destruct (p c) eqn:Hp; simpl; [by rewrite Hp|done]. Qed.
Lemma client_lookup_ok id token w r w' :
  GetClient realmConfig id token w = (Ok r, w') -> r = List.find (fun c => c.(C_ClientID) =?s id) (clients w) /\ clients w' = clients w.
Proof.
  intros Hrun. split; [|by eapply steady_run, Hrun; apply client_lookup_steady].
  unfold GetClient in Hrun. apply bind_ok in Hrun as (l & w1 & Hg & Hrun). apply getClient_ok in Hg as ->. injection Hrun as <- _. apply find_filter.
Qed.
Lemma page_ok token org w l w' :
  one_pair org = true -> GetClients config realmConfig token 0 (-1) (org_query org) w = (Ok l, w') ->
  l = List.filter (attribute_matches (org_query org)) (clients w).
Proof.
  intros Hp Hrun. unfold GetClients in Hrun. simpl in Hrun. apply GetClients_ok in Hrun as ->; [|by unfold plain_query].
  unfold page_of. simpl. by rewrite drop_0.
Qed.
Lemma attribute_matches_org org c : attribute_matches (org_query org) c = true <-> c.(C_Attributes) !! OrgKey = Some org.
Proof.
  unfold attribute_matches, org_query, OrgKey. simpl. destruct (C_Attributes c !! "rh-org-id") as [x|]; [|split; done].
  rewrite String.eqb_eq. split; [by intros -> | by intros [= ->]].
Qed.
End Steady.

(** ** What the service guarantees *)
Section Guarantees.
Context {W : Type} `{GoCloak W} (config : KeycloakConfig) (realmConfig : KeycloakRealmConfig).
Implicit Types (w : W) (c : Client) (token : string) (ctx : RequestContext).
Abbreviation clients w := (kc_clients realmConfig.(Realm) w).

(** The accounts of users in an organisation. *)
Definition accounts_of (org : string) (l : list Client) : Z :=
  Z.of_nat (length (List.filter (fun c => is_user_account c && attribute_matches (org_query org) c) l)).

Lemma accounts_of_perm org l l' : l ≡ₚ l' -> accounts_of org l = accounts_of org l'.
Proof.
  intros Hl. unfold accounts_of. f_equal. apply Permutation_length.
  induction Hl; simpl; repeat case_match; eauto using Permutation.
Qed.
Lemma accounts_of_cons org c l : accounts_of org l <= accounts_of org (c :: l) <= accounts_of org l + 1.
Proof. unfold accounts_of. simpl. case_match; simpl; lia. Qed.
Lemma filter_both {A} (p q : A -> bool) l : List.filter p (List.filter q l) = List.filter (fun x => p x && q x) l.
Proof. induction l as [|x l IH]; simpl; [done|]. destruct (q x); simpl; [by rewrite IH, andb_true_r|by rewrite andb_false_r]. Qed.

Lemma limits_ok token max org w b w' :
  one_pair org = true -> Contains config.(ServiceAccounttLimitCheckSkipOrgIdList) org = false ->
  checkAllowedServiceAccountsLimits config realmConfig token max org w = (Ok b, w') ->
  b = negb (max <=? accounts_of org (clients w)) /\ clients w' = clients w.
Proof.
  intros Hp Hskip Hrun. split; [|by eapply (steady_run realmConfig), Hrun; apply limits_steady].
  unfold checkAllowedServiceAccountsLimits in Hrun. rewrite Hskip in Hrun. apply bind_ok in Hrun as (l & w1 & Hg & Hrun).
  apply page_ok in Hg as ->; [|done]. injection Hrun as <- _. by rewrite filter_both.
Qed.

(** Creating an account, whatever its outcome, adds at most one client. *)
Lemma creation_adds_one token rep w r w' :
  createServiceAccountIfNotExists realmConfig token rep w = (r, w') ->
  clients w' = clients w \/ exists id, clients w' ≡ₚ with_id id (ClientConfig rep) :: clients w.
Proof.
  unfold createServiceAccountIfNotExists, sso_err, wrap_err, bind. intros Hrun.
  destruct (GetClient realmConfig _ _ w) as [r1 w1] eqn:H1. pose proof (steady_run realmConfig _ _ _ _ (client_lookup_steady realmConfig _ _) H1) as E1.
  destruct r1 as [[c|]|e]; simpl in Hrun; [| |by injection Hrun as _ <-; left].
  - destruct (GetClientSecret realmConfig _ _ w1) as [r2 w2] eqn:H2. pose proof (steady_run realmConfig _ _ _ _ (secret_steady realmConfig _ _) H2) as E2.
    left. rewrite <- E1, <- E2. by destruct r2; injection Hrun as _ <-.
  - destruct (CreateClient realmConfig _ _ w1) as [[id|e] w2] eqn:H2; simpl in Hrun.
    + destruct (GetClientSecret realmConfig _ _ w2) as [r3 w3] eqn:H3. pose proof (steady_run realmConfig _ _ _ _ (secret_steady realmConfig _ _) H3) as E3.
      right. exists id. apply CreateClient_ok in H2 as [H2 _]. rewrite <- E1, <- H2, <- E3. by destruct r3; injection Hrun as _ <-.
    + injection Hrun as _ <-. rewrite <- E1. by apply CreateClient_err in H2.
Qed.

Lemma internal_creation_adds_one token req w r w' :
  CreateServiceAccountInternal realmConfig token req w = (r, w') ->
  clients w' = clients w \/ exists id, clients w' ≡ₚ with_id id (ClientConfig (account_representation req (format_time (kc_now w)))) :: clients w.
Proof.
  unfold CreateServiceAccountInternal. set (rep := account_representation _ _). intros Hrun.
  destruct (createServiceAccountIfNotExists realmConfig token rep w) as [r1 w1] eqn:H1. pose proof (creation_adds_one _ _ _ _ _ H1) as Hone.
  enough (clients w' = clients w1) as -> by done.
  unfold bind at 1 in Hrun. rewrite H1 in Hrun. destruct r1 as [sa|e]; [|by injection Hrun as _ <-]. revert Hrun. apply steady_run.
  apply bind_keeps_clients; [apply wrap_err_keeps_clients, account_user_steady|intros u].
  apply bind_keeps_clients; [apply wrap_err_keeps_clients, user_update_steady|intros ?; apply ret_steady].
Qed.

(** [C25] With Keycloak as the provider of service accounts, creating one never
    takes an organisation beyond the number of accounts that it is allowed,
    whatever the outcome of the creation and of the calls to the server; an
    organisation that is over it already does not grow.  This is one creation at a
    time: nothing is created for the organisation between the count and the
    creation.  The organisation is not on the list of those exempt from the limit,
    and its identifier has no blanks and no quotes, so that the search of the server
    finds its accounts.  With sso.redhat.com the code checks no limit. *)
Theorem service_accounts_within_limit token req ctx claims w r w' :
  ctx.(rc_claims) = Ok claims -> one_pair (value_or_zero (GetOrgId claims)) = true ->
  Contains config.(ServiceAccounttLimitCheckSkipOrgIdList) (value_or_zero (GetOrgId claims)) = false ->
  CreateServiceAccount config realmConfig token req ctx w = (r, w') ->
  let org := value_or_zero (GetOrgId claims) in
  accounts_of org (clients w') <= Z.max (accounts_of org (clients w)) config.(MaxAllowedServiceAccounts).
Proof.
  intros Hc Hp Hskip Hrun. set (org := value_or_zero (GetOrgId claims)) in *. simpl.
  unfold CreateServiceAccount, user_claims, lift, bind in Hrun. rewrite Hc in Hrun. simpl in Hrun. fold org in Hrun. unfold sso_err, wrap_err in Hrun.
  destruct (checkAllowedServiceAccountsLimits _ _ _ _ _ w) as [[b|e] w1] eqn:H1; simpl in Hrun.
  - apply limits_ok in H1 as [-> E1]; [|done..]. destruct (Z.leb_spec (MaxAllowedServiceAccounts config) (accounts_of org (clients w))); simpl in Hrun.
    + injection Hrun as _ <-. rewrite E1. lia.
    + apply internal_creation_adds_one in Hrun as [->|[id ->%(accounts_of_perm org)]]; rewrite E1; [lia|].
      pose proof (accounts_of_cons org (with_id id (ClientConfig (account_representation
        (mkCompleteRequest (value_or_zero (GetUsername claims)) (value_or_zero (GetAccountId claims)) org (buildServiceAccountIdentifier w1) (SAR_Name req) (SAR_Description req))
        (format_time (kc_now w1))))) (clients w)). lia.
  - injection Hrun as _ <-. erewrite (steady_run realmConfig _ _ _ _ (limits_steady config realmConfig _ _ _) H1). lia.
Qed.

(** A service account is deleted only for its owner or for an administrator of
    its organisation, and then it alone: the other clients, the ones of the agents
    and of the canaries among them, stay. *)
Theorem deletion_by_owner_or_admin token ctx id w r w' :
  DeleteServiceAccount realmConfig token ctx id w = (r, w') ->
  let authorised := exists claims c, ctx.(rc_claims) = Ok claims /\ c ∈ clients w /\ c.(C_ID) = id /\
                      is_user_account c = true /\ may_change claims c = true in
  match r with
  | Ok _ => authorised /\ clients w' = without id (clients w)
  | Err _ => clients w' = clients w \/ (authorised /\ clients w' = without id (clients w))
  end.
Proof.
  intros Hrun authorised. unfold DeleteServiceAccount, user_claims, lift, bind, sso_err, wrap_err in Hrun.
  destruct (rc_claims ctx) as [claims|e] eqn:Hc; simpl in Hrun; [|by injection Hrun as <- <-; left].
  destruct (GetClientById realmConfig id token w) as [[c|e] w1] eqn:H1; simpl in Hrun;
    pose proof (steady_run realmConfig _ _ _ _ (GetClientById_steady realmConfig id token) H1) as E1; [|by injection Hrun as <- <-; left].
  apply GetClient_ok in H1 as [Hin Hid].
  destruct (is_user_account c) eqn:Hu; simpl in Hrun; [|by injection Hrun as <- <-; left].
  destruct (may_change claims c) eqn:Hm; simpl in Hrun; [|by injection Hrun as <- <-; left].
  assert authorised as Ha by (exists claims, c; done).
  destruct (DeleteClient realmConfig id token w1) as [[[]|e] w2] eqn:H2; injection Hrun as <- <-.
  - split; [done|]. rewrite <- E1. by apply DeleteClient_ok in H2.
  - rewrite <- E1. apply DeleteClient_err in H2 as [H2|H2]; [by left|right; done].
Qed.

(** The request that [CreateServiceAccount] completes for a user. *)
Definition requested_by (claims : KFMClaims) (clientId name description : string) : CompleteServiceAccountRequest :=
  mkCompleteRequest (value_or_zero (GetUsername claims)) (value_or_zero (GetAccountId claims)) (value_or_zero (GetOrgId claims)) clientId name description.
Definition no_secret (sa : ServiceAccount) : ServiceAccount :=
  mkServiceAccount sa.(SA_ID) sa.(SA_ClientID) "" sa.(SA_Name) sa.(SA_CreatedBy) sa.(SA_Description) sa.(SA_CreatedAt).

Lemma find_none (p : Client -> bool) l : Forall (fun c => p c = false) l -> List.find p l = None.
Proof. induction 1 as [|c l Hc _ IH]; simpl; [done|]. by rewrite Hc. Qed.
Lemma find_some_in (p : Client -> bool) l c : List.find p l = Some c -> c ∈ l /\ p c = true.
Proof. intros Hf. apply List.find_some in Hf as [Hin Hp]. split; [by apply list_elem_of_In|done]. Qed.
Lemma find_only_client (p : Client -> bool) l c :
  c ∈ l -> p c = true -> (forall c', c' ∈ l -> p c' = true -> c' = c) -> List.find p l = Some c.
Proof.
  intros Hin Hp Hu. destruct (List.find p l) as [c'|] eqn:Hf.
  - apply find_some_in in Hf as [Hin' Hp']. by rewrite (Hu _ Hin' Hp').
  - exfalso. pose proof (List.find_none _ _ Hf c) as Hn. rewrite Hn in Hp; [done|]. by apply list_elem_of_In.
Qed.

(** The client that a successful creation leaves behind. *)
Lemma creation_ok token rep w sa w' :
  createServiceAccountIfNotExists realmConfig token rep w = (Ok sa, w') ->
  sa.(SA_ClientID) = rep.(CRep_ClientID) /\ sa.(SA_Name) = rep.(CRep_Name) /\ sa.(SA_Description) = rep.(CRep_Description) /\
  match List.find (fun c => c.(C_ClientID) =?s rep.(CRep_ClientID)) (clients w) with
  | Some c => sa.(SA_ID) = c.(C_ID) /\ clients w' = clients w
  | None => clients w' ≡ₚ with_id sa.(SA_ID) (ClientConfig rep) :: clients w /\
            Forall (fun c => c.(C_ID) <> sa.(SA_ID) /\ c.(C_ClientID) <> rep.(CRep_ClientID)) (clients w)
  end.
Proof.
  unfold createServiceAccountIfNotExists, sso_err. intros Hrun.
  apply bind_ok in Hrun as (client & w1 & Hg & Hrun). apply wrap_err_ok, client_lookup_ok in Hg as [-> E1].
  apply bind_ok in Hrun as (id & w2 & Hc & Hrun). apply bind_ok in Hrun as (secret & w3 & Hs & Hrun). injection Hrun as <- <-. simpl.
  apply wrap_err_ok in Hs. apply (steady_run realmConfig _ _ _ _ (secret_steady realmConfig _ _)) in Hs. rewrite Hs.
  split_and!; [done..|]. destruct (List.find _ (clients w)) as [c|].
  - by injection Hc as <- <-.
  - apply wrap_err_ok, CreateClient_ok in Hc. by rewrite <- E1.
Qed.

(** An account that was created for a user is the one that the user gets back
    for its identifier, with everything but its secret. *)
Theorem created_account_is_found token claims ctx clientId name description w sa w' c w'' :
  ctx.(rc_claims) = Ok claims -> value_or_zero (GetOrgId claims) <> "" -> value_or_zero (GetAccountId claims) <> "" ->
  HasPrefix clientId UserServiceAccountPrefix = true -> Forall (fun c => c.(C_ClientID) <> clientId) (clients w) ->
  CreateServiceAccountInternal realmConfig token (requested_by claims clientId name description) w = (Ok sa, w') ->
  gc_GetClient token realmConfig.(Realm) sa.(SA_ID) w' = (Ok c, w'') ->
  GetServiceAccountById realmConfig token ctx sa.(SA_ID) w' = (Ok (no_secret sa), w'').
Proof.
  intros Hc Horg Hacc Hpre Hnew Hrun Hget. unfold CreateServiceAccountInternal in Hrun. set (rep := account_representation _ _) in Hrun.
  apply bind_ok in Hrun as (sa0 & w1 & H1 & Hrun). apply creation_ok in H1 as (Hcid & Hname & Hdesc & H1).
  rewrite find_none in H1 by (eapply Forall_impl; [exact Hnew|]; intros c' Hc'; by apply String.eqb_neq). destruct H1 as [Hcl Hother].
  apply bind_ok in Hrun as (u & w2 & H2 & Hrun). apply wrap_err_ok, (steady_run realmConfig _ _ _ _ (account_user_steady realmConfig _ _)) in H2.
  apply bind_ok in Hrun as (? & w3 & H3 & Hrun). apply wrap_err_ok, (steady_run realmConfig _ _ _ _ (user_update_steady realmConfig _ _)) in H3.
  injection Hrun as <- <-. simpl in *.
  assert (c = with_id (SA_ID sa0) (ClientConfig rep)) as ->.
  { pose proof (GetClient_ok _ _ _ _ _ _ Hget) as [Hin Hid]. rewrite H3, H2, Hcl in Hin. apply elem_of_cons in Hin as [->|Hin]; [done|].
    rewrite Forall_forall in Hother. by destruct (Hother _ Hin). }
  unfold GetServiceAccountById, getServiceAccount, user_claims, lift, bind, wrap_err, GetClientById. rewrite Hc. simpl. rewrite Hget. simpl.
  unfold is_user_account, IsSameOrg, IsOwner, creation_time, no_secret, OrgKey, UserKey. simpl. rewrite Hpre. simpl.
  apply String.eqb_neq in Horg, Hacc. rewrite Horg, Hacc. unfold rhOrgId, rhUserId, username, created_at.
  repeat (rewrite lookup_insert_eq || rewrite lookup_insert_ne by done). simpl. rewrite !String.eqb_refl. simpl.
  rewrite Hcid, Hname, Hdesc. done.
Qed.

(** Registering the account of an agent twice gives the same account, and the
    second registration adds no client. *)
Theorem agent_registration_idempotent token clusterId w1 sa1 w2 sa2 w3 :
  RegisterKasFleetshardOperatorServiceAccount realmConfig token clusterId w1 = (Ok sa1, w2) ->
  RegisterKasFleetshardOperatorServiceAccount realmConfig token clusterId w2 = (Ok sa2, w3) ->
  sa2.(SA_ID) = sa1.(SA_ID) /\ sa2.(SA_ClientID) = sa1.(SA_ClientID) /\ clients w3 = clients w2.
Proof.
  unfold RegisterKasFleetshardOperatorServiceAccount, registerAgentServiceAccount. set (id := buildAgentOperatorServiceAccountId _ _).
  intros (Hc1 & _ & _ & H1)%creation_ok (Hc2 & _ & _ & H2)%creation_ok. simpl in *. rewrite Hc1, Hc2.
  assert (exists c, List.find (fun c => C_ClientID c =?s id) (clients w2) = Some c /\ C_ID c = SA_ID sa1) as (c & Hf & Hid).
  { destruct (List.find _ (clients w1)) as [c|] eqn:Hf.
    - destruct H1 as [-> ->]. by exists c.
    - destruct H1 as [Hperm Hother]. exists (with_id (SA_ID sa1) (ClientConfig (agent_representation id clusterId))). split; [|done].
      apply find_only_client; [rewrite Hperm; left|apply String.eqb_refl|].
      intros c' Hin Hp. rewrite Hperm in Hin. apply elem_of_cons in Hin as [|Hin]; [done|]. rewrite Forall_forall in Hother.
      apply String.eqb_eq in Hp. by destruct (Hother _ Hin). }
  rewrite Hf in H2. destruct H2 as [-> ->]. by rewrite Hid.
Qed.

(** The deletion of an internal account reports success when the server
    refuses it: the error is a pointer, and the code asserts a value. *)
Theorem failed_internal_deletion_is_success token serviceAccountId id code e w w1 w2 :
  IsClientExist realmConfig serviceAccountId token w = (Ok id, w1) ->
  gc_DeleteClient token realmConfig.(Realm) id w1 = (Err (APIErrorPointer code e), w2) ->
  DeleteServiceAccountInternal realmConfig token serviceAccountId w = (Ok tt, w2).
Proof.
  intros H1 H2. unfold DeleteServiceAccountInternal, bind, attempt, DeleteClient. rewrite H1. simpl. by rewrite H2.
Qed.

(** A token is taken from the cache only while it is valid, and a token that
    is valid is asked for once. *)
Theorem token_is_valid_or_new w t w' :
  GetToken realmConfig w = (Ok t, w') ->
  (w' = w /\ t <> "" /\ IsJWTTokenExpired t w = false) \/
  (exists w1, gc_GetToken realmConfig.(Realm) realmConfig.(Realm_ClientID) realmConfig.(Realm_GrantType) realmConfig.(Realm_ClientSecret) w = (Ok t, w1) /\
     w' = cache_set (cachedTokenKey realmConfig) t cacheCleanupInterval w1 /\
     (t <> "" -> IsJWTTokenExpired t w' = false -> GetToken realmConfig w' = (Ok t, w'))).
Proof.
  unfold GetToken at 1. set (cached := value_or_zero _). destruct (_ && _) eqn:Hb; intros Hrun.
  - apply andb_true_iff in Hb as [Hne%negb_true_iff Hv%negb_true_iff]. injection Hrun as <- <-. left. by apply String.eqb_neq in Hne.
  - apply bind_ok in Hrun as (t' & w1 & Ht & Hrun). apply wrap_err_ok in Ht. injection Hrun as -> <-. right. exists w1. split_and!; [done..|].
    intros Hne Hv. unfold GetToken, GetCachedToken. rewrite cache_get_set. simpl. apply String.eqb_neq in Hne. by rewrite Hne, Hv.
Qed.

(** A user is shown accounts of the own organisation only, and never a secret. *)
Theorem listed_accounts_are_of_the_organisation token ctx claims first max w l w' sa :
  ctx.(rc_claims) = Ok claims -> one_pair (value_or_zero (GetOrgId claims)) = true ->
  ListServiceAcc config realmConfig token ctx first max w = (Ok l, w') -> sa ∈ l ->
  exists c, c ∈ clients w /\ c.(C_Attributes) !! OrgKey = Some (value_or_zero (GetOrgId claims)) /\ is_user_account c = true /\
    sa = present_client c /\ sa.(SA_ClientSecret) = "".
Proof.
  intros Hc Hp Hrun Hsa. unfold ListServiceAcc, user_claims, lift in Hrun. rewrite Hc in Hrun. apply bind_ok in Hrun as (? & w0 & [= <- <-] & Hrun).
  apply bind_ok in Hrun as (cs & w1 & Hg & Hrun). injection Hrun as <- <-. apply wrap_err_ok, GetClients_ok in Hg as ->; [|by unfold plain_query].
  apply list_elem_of_fmap in Hsa as (c & -> & Hin). exists c. rewrite list_elem_of_In, List.filter_In in Hin. destruct Hin as [Hin Hu].
  assert (c ∈ List.filter (selected (mkGetClientsParams None (Some first) None (Some (org_query (value_or_zero (GetOrgId claims)))))) (clients w)) as Hin'.
  { apply list_elem_of_In in Hin. unfold page_of in Hin. simpl in Hin.
    destruct (0 <? _); [apply subseteq_take in Hin|]; by apply subseteq_drop in Hin. }
  rewrite list_elem_of_In, List.filter_In in Hin'. destruct Hin' as [Hin' Hs]. apply list_elem_of_In in Hin'.
  unfold selected in Hs. simpl in Hs. split_and!; [done| |done..]. by apply attribute_matches_org.
Qed.
End Guarantees.

(** ** A server in memory *)
Module KeycloakExample.
(** The clients, the tokens in the cache, the calls so far, and whether
    deletions are refused. *)
Record world := mkWorld { w_clients : list Client; w_cache : gmap string string; w_calls : nat; w_refuses : bool }.
Definition set_clients (l : list Client) (w : world) : world := mkWorld l w.(w_cache) (S w.(w_calls)) w.(w_refuses).
Definition same {A} (r : result kc_error A) : M world kc_error A := fun w => (r, w).
Definition not_found : kc_error := APIErrorPointer StatusNotFound (EPlain "404 Not Found").

#[export, refine] Instance tokens : TokenCache world := {
  kc_now w := 1000 + Z.of_nat w.(w_calls);
  jwt_exp t := if t =?s "valid" then Some (Some 5000) else Some None;
  cache_get k w := w.(w_cache) !! k;
  cache_set k v _ w := mkWorld w.(w_clients) (<[k := v]> w.(w_cache)) w.(w_calls) w.(w_refuses)
}.
Proof. intros k v d w. apply lookup_insert_eq. Defined.

#[export, refine] Instance server : GoCloak world := {
  kc_clients _ w := w.(w_clients);
  kc_uuid w := "uuid-" +:+ pretty w.(w_calls);
  format_time t := pretty t;
  parse_time s := if s =?s "" then Err (EPlain "parsing time") else Ok 7;
  gc_CreateClient _ _ c := fun w =>
    let id := "id-" +:+ pretty w.(w_calls) in
    if existsb (fun c' => (c'.(C_ID) =?s id) || (c'.(C_ClientID) =?s c.(C_ClientID))) w.(w_clients)
    then (Err (APIErrorPointer StatusConflict (EPlain "409 Conflict")), w)
    else (Ok id, set_clients (with_id id c :: w.(w_clients)) w);
  gc_GetClients _ _ p := fun w => (Ok (page_of p.(P_First) p.(P_Max) (List.filter (selected p) w.(w_clients))), w);
  gc_GetClient _ _ id := fun w =>
    match List.find (fun c => c.(C_ID) =?s id) w.(w_clients) with Some c => (Ok c, w) | None => (Err not_found, w) end;
  gc_GetToken _ _ _ _ := same (Ok "valid");
  gc_GetClientSecret _ _ _ := same (Ok (Some "secret"));
  gc_DeleteClient _ _ id := fun w =>
    if w.(w_refuses) then (Err (APIErrorPointer StatusInternalServerError (EPlain "500")), w)
    else (Ok tt, set_clients (without id w.(w_clients)) w);
  gc_GetClientServiceAccount _ _ id := same (Ok (mkUser id ∅));
  gc_UpdateUser _ _ _ := same (Ok tt);
  gc_RegenerateClientSecret _ _ _ := same (Ok "new secret");
  gc_GetRealmRole _ _ _ := same (Err not_found);
  gc_CreateRealmRole _ _ _ := same (Ok "role");
  gc_GetRealmRolesByUserID _ _ _ := same (Ok []);
  gc_AddRealmRoleToUser _ _ _ _ := same (Ok tt)
}.
Proof.
  - done.
  - intros token realm p w l w' _ Hrun. by injection Hrun as <- _.
  - intros token realm id w c w' Hrun. destruct (List.find _ _) as [c'|] eqn:Hf; [|done]. injection Hrun as -> _.
    apply find_some_in in Hf as [Hin Hid]. by apply String.eqb_eq in Hid.
  - intros token realm c w id w' Hrun. cbv zeta in Hrun. destruct (existsb _ _) eqn:He; [done|]. injection Hrun as <- <-. split; [done|].
    apply Forall_forall. intros c' Hin. split; intros Heq; apply not_true_iff_false in He; apply He, existsb_exists; exists c';
      (split; [by apply list_elem_of_In|]); rewrite Heq, String.eqb_refl; [done|apply orb_true_r].
  - intros token realm c w e w' Hrun. cbv zeta in Hrun. destruct (existsb _ _); [|done]. injection Hrun as _ <-. by left.
  - intros token realm id w w' Hrun. destruct (w_refuses w); [done|]. by injection Hrun as <-.
  - intros token realm id w e w' Hrun. destruct (w_refuses w); [|done]. injection Hrun as _ <-. by left.
  - done.
  - intros token realm id w realm'. simpl. by destruct (List.find _ _).
  - done.
  - done.
  - done.
  - done.
  - done.
Defined.

Definition realm : KeycloakRealmConfig := mkRealmConfig "https://sso.example.org" "rhoas" "kas" "s" "client_credentials" "" "" "https://sso.example.org/auth/realms/rhoas" "" "".
Definition config : KeycloakConfig := mkKeycloakConfig realm realm realm realm 2 100 MAS_SSO ["vip"].
Definition alice : KFMClaims := mkKFMClaims (Some "alice") None (Some "acc-1") (Some "org-1") None None.
Definition admin : KFMClaims := mkKFMClaims (Some "carol") None (Some "acc-9") (Some "org-1") None (Some true).
Definition ctx (c : KFMClaims) : RequestContext := mkRequestContext (Ok c) false false.
Definition empty : world := mkWorld [] ∅ 0 false.
Definition request : ServiceAccountRequest := mkServiceAccountRequest "my-account" "for tests".
(** The worlds after one and after two accounts of alice. *)
Definition after_one : world := snd (CreateServiceAccount config realm "t" request (ctx alice) empty).
Definition after_two : world := snd (CreateServiceAccount config realm "t" request (ctx alice) after_one).
(** A run that ends without an error, by its projections. *)
Definition value_of {E A} (d : A) (r : result E A) : A := match r with Ok a => a | Err _ => d end.
Lemma run_projections {E A} (d : A) (p : result E A * world) : is_ok (fst p) = true -> p = (Ok (value_of d (fst p)), snd p).
Proof. by destruct p as [[a|e] w]. Defined.
Definition nobody : ServiceAccount := mkServiceAccount "" "" "" "" "" "" 0.
Definition registered : result ServiceError ServiceAccount * world := RegisterKasFleetshardOperatorServiceAccount realm "t" "c1" after_two.
Definition registered_again : result ServiceError ServiceAccount * world := RegisterKasFleetshardOperatorServiceAccount realm "t" "c1" (snd registered).
Definition made : result ServiceError ServiceAccount * world := CreateServiceAccountInternal realm "t" (requested_by alice "srvc-acct-x" "n" "d") empty.
Definition account (id org : string) : Client :=
  mkClient id ("srvc-acct-" +:+ id) (Some "n") None {[OrgKey := org]} true false false [] None protocol false false.
Definition refusing : world := mkWorld [account "a" "org-1"; account "b" "org-2"; account "c" "org-1"] ∅ 9 true.

Example third_is_refused :
  fst (CreateServiceAccount config realm "t" request (ctx alice) after_two) =
    Err (MaxLimitForServiceAccountReached "max allowed number:%d of service accounts for user in org:%s has reached").
Proof. vm_compute. reflexivity. Qed.
End KeycloakExample.

Import KeycloakExample.

Lemma service_accounts_within_limit_witness :
  accounts_of "org-1" (w_clients after_one) = 1 /\ accounts_of "org-1" (w_clients after_two) <= 2.
Proof.
  split; [vm_compute; reflexivity|]. etransitivity; [|instantiate (1 := Z.max (accounts_of "org-1" (w_clients after_one)) 2); vm_compute; discriminate].
  exact (service_accounts_within_limit config realm "t" request (ctx alice) alice after_one
           (fst (CreateServiceAccount config realm "t" request (ctx alice) after_one)) after_two
           eq_refl eq_refl eq_refl (surjective_pairing _)).
Defined.

Lemma deletion_by_owner_or_admin_witness :
  is_ok (fst (DeleteServiceAccount realm "t" (ctx admin) "id-0" after_two)) = true /\
  w_clients (snd (DeleteServiceAccount realm "t" (ctx admin) "id-0" after_two)) = without "id-0" (w_clients after_two).
Proof.
  pose proof (deletion_by_owner_or_admin realm "t" (ctx admin) "id-0" after_two _ _ (surjective_pairing _)) as H.
  assert (is_ok (fst (DeleteServiceAccount realm "t" (ctx admin) "id-0" after_two)) = true) as Hok by (vm_compute; reflexivity).
  split; [exact Hok|]. destruct (fst _) as [u|e]; [exact (proj2 H)|discriminate Hok].
Defined.

Lemma created_account_is_found_witness :
  is_ok (fst made) = true /\
  GetServiceAccountById realm "t" (ctx alice) (SA_ID (value_of nobody (fst made))) (snd made) = (Ok (no_secret (value_of nobody (fst made))), snd made).
Proof.
  assert (is_ok (fst made) = true) as Hok by (vm_compute; reflexivity). split; [exact Hok|].
  pose (found := gc_GetClient "t" realm.(Realm) (SA_ID (value_of nobody (fst made))) (snd made)).
  assert (is_ok (fst found) = true) as Hfound by (vm_compute; reflexivity).
  apply (created_account_is_found realm "t" alice (ctx alice) "srvc-acct-x" "n" "d" empty _ _ (value_of (ClientConfig (agent_representation "" "")) (fst found)));
    [reflexivity|discriminate|discriminate|reflexivity|constructor|apply (run_projections nobody made Hok)|].
  change (snd made) with (snd found) at 2. apply (run_projections _ found Hfound).
Defined.

Lemma agent_registration_idempotent_witness :
  is_ok (fst registered) = true /\ is_ok (fst registered_again) = true /\
  SA_ID (value_of nobody (fst registered_again)) = SA_ID (value_of nobody (fst registered)).
Proof.
  assert (is_ok (fst registered) = true) as H1 by (vm_compute; reflexivity).
  assert (is_ok (fst registered_again) = true) as H2 by (vm_compute; reflexivity).
  split; [exact H1|]. split; [exact H2|].
  exact (proj1 (agent_registration_idempotent realm "t" "c1" after_two _ _ _ _ (run_projections nobody registered H1) (run_projections nobody registered_again H2))).
Defined.

Lemma failed_internal_deletion_is_success_witness :
  DeleteServiceAccountInternal realm "t" "srvc-acct-a" refusing = (Ok tt, refusing) /\ length (w_clients refusing) = 3%nat.
Proof.
  split; [|vm_compute; reflexivity].
  apply (failed_internal_deletion_is_success realm "t" "srvc-acct-a" "a" StatusInternalServerError (EPlain "500") refusing refusing refusing);
    vm_compute; reflexivity.
Defined.

Lemma token_is_valid_or_new_witness : exists w', GetToken realm empty = (Ok "valid", w') /\ GetToken realm w' = (Ok "valid", w').
Proof.
  exists (snd (GetToken realm empty)). assert (GetToken realm empty = (Ok "valid", snd (GetToken realm empty))) as Hrun by (vm_compute; reflexivity).
  split; [exact Hrun|]. destruct (token_is_valid_or_new realm _ _ _ Hrun) as [(He & _ & Hv)|(w1 & _ & _ & Hagain)].
  - rewrite He. rewrite He in Hrun. exact Hrun.
  - apply Hagain; [discriminate|vm_compute; reflexivity].
Defined.

Lemma listed_accounts_are_of_the_organisation_witness :
  exists l, ListServiceAcc config realm "t" (ctx alice) 0 0 refusing = (Ok l, refusing) /\ length l = 2%nat /\
    forall sa, sa ∈ l -> sa.(SA_ClientSecret) = "".
Proof.
  assert (exists l, ListServiceAcc config realm "t" (ctx alice) 0 0 refusing = (Ok l, refusing) /\ length l = 2%nat) as (l & Hrun & Hl)
    by (eexists; split; vm_compute; reflexivity).
  exists l. split; [exact Hrun|]. split; [exact Hl|]. intros sa Hin.
  destruct (listed_accounts_are_of_the_organisation config realm "t" (ctx alice) alice 0 0 refusing l refusing sa eq_refl
              ltac:(vm_compute; reflexivity) Hrun Hin) as (c & _ & _ & _ & _ & Hs). exact Hs.
Defined.
