(* ===== verification/RedHatSso.v ===== *)
(** * Service accounts at sso.redhat.com: [src/pkg/client/redhatsso/client.go]
    and [src/pkg/services/sso/redhatsso_service.go]

    The client over the generated service-account API and [redhatssoService].
    The API, a package of the SDK, is the class [ServiceAccountsApi]. *)
From S2P Require Import Prelude Arrays Errors Store Validation Keycloak.

(** ** The API *)

(** [serviceaccountsclient.ServiceAccountData]. *)
Record ServiceAccountData := mkServiceAccountData {
  D_Id : option string;
  D_ClientId : option string;
  D_Secret : option string;
  D_Name : option string;
  D_Description : option string;
  D_CreatedBy : option string;
  D_CreatedAt : option Z
}.

(** [GenericOpenAPIError] with its body, or another error. *)
Inductive rh_error := OpenAPIError (body : option string) (e : error) | RhOther (e : error).
Definition rh_cause (e : rh_error) : error := match e with OpenAPIError _ e | RhOther e => e end.

Record redhatssoError := mkRedhatssoError { rhe_Error : string; rhe_ErrorDescription : string }.

Definition with_data_id (id : string) (d : ServiceAccountData) : bool := default "" d.(D_Id) =?s id.
Definition without_account (id : string) (l : list ServiceAccountData) : list ServiceAccountData :=
  List.filter (fun d => negb (with_data_id id d)) l.

(** The accounts that a token shows, and the calls.  A call ends with the status
    of the response, if there was one, and a value or an error. *)
Class ServiceAccountsApi (W : Type) `{TokenCache W} := {
  rh_accounts : W -> list ServiceAccountData;
  (** [json.Unmarshal] of the body of an error. *)
  unmarshal_error : string -> result error redhatssoError;
  (** The request for a token: the status and the decoded token. *)
  post_token : list (string * string) -> M W error (Z * result error string);
  api_GetServiceAccounts : string -> Z -> Z -> M W rh_error (list ServiceAccountData);
  api_GetServiceAccount : string -> string -> W -> (option Z * result rh_error ServiceAccountData) * W;
  api_CreateServiceAccount : string -> string -> string -> M W rh_error ServiceAccountData;
  api_DeleteServiceAccount : string -> string -> M W rh_error unit;
  api_UpdateServiceAccount : string -> string -> string -> string -> M W rh_error ServiceAccountData;
  api_ResetServiceAccountSecret : string -> string -> M W rh_error ServiceAccountData;

  GetServiceAccounts_ok : forall token first max w l w', 0 <= first -> 0 < max ->
    api_GetServiceAccounts token first max w = (Ok l, w') -> l = take (Z.to_nat max) (drop (Z.to_nat first) (rh_accounts w));
  GetServiceAccounts_steady : forall token first max w, rh_accounts (snd (api_GetServiceAccounts token first max w)) = rh_accounts w;
  DeleteServiceAccount_ok : forall token id w w',
    api_DeleteServiceAccount token id w = (Ok tt, w') -> rh_accounts w' = without_account id (rh_accounts w);
  DeleteServiceAccount_err : forall token id w e w', api_DeleteServiceAccount token id w = (Err e, w') ->
    rh_accounts w' = rh_accounts w \/ rh_accounts w' = without_account id (rh_accounts w)
}.

(** ** The client: [client.go] *)
Section SsoClient.
Context {W : Type} `{ServiceAccountsApi W} (realmConfig : KeycloakRealmConfig).

(** Seconds. *)
Definition rh_cacheCleanupInterval : Z := 299.
Definition rh_cachedTokenKey : string := realmConfig.(Realm) +:+ realmConfig.(Realm_ClientID).
Definition token_parameters : list (string * string) :=
  [("grant_type", "client_credentials"); ("scope", realmConfig.(Realm_Scope)); ("client_id", realmConfig.(Realm_ClientID));
   ("client_secret", realmConfig.(Realm_ClientSecret))].
Definition rhSSOClient_GetToken : M W error string := fun w =>
  let cachedToken := value_or_zero (GetCachedToken rh_cachedTokenKey w) in
  if negb (cachedToken =?s "") && negb (IsJWTTokenExpired cachedToken w) then (Ok cachedToken, w)
  else
    (resp <~ post_token token_parameters ;;
     let '(StatusCode, tokenData) := resp in
     if negb (StatusCode =? StatusOK) then throw (EPlain "error getting token [%d]")
     else
       AccessToken <~ lift tokenData ;;
       fun w' => (Ok AccessToken, cache_set rh_cachedTokenKey AccessToken rh_cacheCleanupInterval w')) w.

(** The numbers are sent with 32 bits. *)
Definition rhSSOClient_GetServiceAccounts (accessToken : string) (first max : Z) : M W rh_error (list ServiceAccountData) :=
  api_GetServiceAccounts accessToken (int32 first) (int32 max).

(** [(account, found, err)]: [None] when there is none. *)
Definition rhSSOClient_GetServiceAccount (accessToken clientId : string) : M W rh_error (option ServiceAccountData) := fun w =>
  let '((StatusCode, serviceAccount), w') := api_GetServiceAccount accessToken clientId w in
  if bool_decide (StatusCode = Some StatusNotFound) then (Ok None, w')
  else match serviceAccount with Ok d => (Ok (Some d), w') | Err e => (Err e, w') end.

Definition rhSSOClient_CreateServiceAccount (accessToken name description : string) : M W rh_error ServiceAccountData :=
  api_CreateServiceAccount accessToken name description.
Definition rhSSOClient_DeleteServiceAccount (accessToken clientId : string) : M W rh_error unit :=
  api_DeleteServiceAccount accessToken clientId.
Definition rhSSOClient_UpdateServiceAccount (accessToken clientId name description : string) : M W rh_error ServiceAccountData :=
  api_UpdateServiceAccount accessToken clientId name description.
Definition rhSSOClient_RegenerateClientSecret (accessToken id : string) : M W rh_error ServiceAccountData :=
  api_ResetServiceAccountSecret accessToken id.
End SsoClient.

(** *** [getConfiguration]

    It writes the configuration of one call, with its token, to a field of the
    client and then returns the field.  The steps of the calls that share a
    client, each with its own token, in the order in which they happen. *)
Inductive configuration_step :=
| WriteConfiguration (call : nat)
| ReadConfiguration (call : nat).
Definition authorization (token : string) : string := "Bearer " +:+ token.
(** The field, and the header that each call that has read it will send. *)
Definition getConfiguration_step (tokens : nat -> string) (st : string * gmap nat string) (step : configuration_step) : string * gmap nat string :=
  match step with
  | WriteConfiguration call => (authorization (tokens call), st.2)
  | ReadConfiguration call => (st.1, <[call := st.1]> st.2)
  end.
Definition getConfiguration_run (tokens : nat -> string) (steps : list configuration_step) : string * gmap nat string :=
  foldl (getConfiguration_step tokens) ("", ∅) steps.
(** One call after the other. *)
Definition in_turn (calls : list nat) : list configuration_step :=
  flat_map (fun call => [WriteConfiguration call; ReadConfiguration call]) calls.

(** ** The service: [redhatsso_service.go] *)
Definition ServiceAccountLimitExceeded : string := "service_account_limit_exceeded".
Definition ServiceAccountNotFound : string := "service_account_not_found".
Definition ServiceAccountUserNotFound : string := "service_account_user_not_found".
Definition ServiceAccountAccessInvalid : string := "service_account_access_invalid".

Definition convertServiceAccountDataToAPIServiceAccount (data : ServiceAccountData) : ServiceAccount :=
  mkServiceAccount (SafeString data.(D_Id)) (SafeString data.(D_ClientId)) (SafeString data.(D_Secret)) (SafeString data.(D_Name))
    (SafeString data.(D_CreatedBy)) (SafeString data.(D_Description)) (default 0 data.(D_CreatedAt)).

Section RedHat.
Context {W : Type} `{ServiceAccountsApi W} (config : KeycloakConfig).
Abbreviation S A := (M W ServiceError A).

Definition parseRedhatssoError (e : rh_error) : result error redhatssoError :=
  match e with
  | OpenAPIError (Some body) _ => unmarshal_error body
  | _ => Err (EPlain "not an OpenAPI error")
  end.
Definition getErrorDescription (e : rh_error) (defaultDesc : string) : string :=
  match parseRedhatssoError e with Ok rhErr => rhErr.(rhe_ErrorDescription) | Err _ => defaultDesc end.
Definition with_cause (code : Z) (err : rh_error) (reason : string) : ServiceError := NewWithCause code (Some (rh_cause err)) reason.
(** The error is described by the server if it can be. *)
Definition described {A} (code : Z) (defaultDesc : string) (m : M W rh_error A) : S A :=
  wrap_err (fun err => with_cause code err (getErrorDescription err defaultDesc)) m.

Definition rh_RegisterClientInSSO (accessToken clusterId clusterOathCallbackURI : string) : S string :=
  throw (New ErrorGeneral "RegisterClientInSSO Not implemented").
Definition rh_DeRegisterClientInSSO (accessToken clientId : string) : S unit :=
  described ErrorFailedToDeleteSSOClient "failed to delete the sso client" (rhSSOClient_DeleteServiceAccount accessToken clientId).

Definition rh_IsKafkaClientExist (accessToken clientId : string) : S unit :=
  found <~ described ErrorFailedToGetSSOClient "failed to get sso client with id: %s" (rhSSOClient_GetServiceAccount accessToken clientId) ;;
  match found with
  | None => throw (New ErrorNotFound "sso client with id: %s not found")
  | Some _ => ret tt
  end.

Definition creation_error (err : rh_error) : ServiceError :=
  let general := with_cause ErrorFailedToCreateServiceAccount err (getErrorDescription err "failed to create service account") in
  match parseRedhatssoError err with
  | Ok rhErr =>
      if rhErr.(rhe_Error) =?s ServiceAccountLimitExceeded then MaxLimitForServiceAccountReached "Max allowed number:%d of service accounts for user has reached"
      else if rhErr.(rhe_Error) =?s ServiceAccountAccessInvalid then with_cause ErrorForbidden err "failed to create agent service account"
      else general
  | Err _ => general
  end.
Definition rh_CreateServiceAccount (accessToken : string) (serviceAccountRequest : ServiceAccountRequest) (ctx : RequestContext) : S ServiceAccount :=
  serviceAccount <~ wrap_err creation_error
                      (rhSSOClient_CreateServiceAccount accessToken serviceAccountRequest.(SAR_Name) serviceAccountRequest.(SAR_Description)) ;;
  ret (convertServiceAccountDataToAPIServiceAccount serviceAccount).

Definition deletion_error (err : rh_error) : ServiceError :=
  let general := with_cause ErrorFailedToDeleteServiceAccount err "failed to delete service account" in
  match parseRedhatssoError err with
  | Ok rhErr =>
      if rhErr.(rhe_Error) =?s ServiceAccountNotFound then with_cause ErrorServiceAccountNotFound err "service account not found %s"
      else if rhErr.(rhe_Error) =?s ServiceAccountAccessInvalid then with_cause ErrorForbidden err "service account not found %s"
      else general
  | Err _ => general
  end.
Definition rh_DeleteServiceAccount (accessToken : string) (ctx : RequestContext) (clientId : string) : S unit :=
  wrap_err deletion_error (rhSSOClient_DeleteServiceAccount accessToken clientId).

Definition reset_error (err : rh_error) : ServiceError :=
  let general := with_cause ErrorGeneral err "failed to reset service account credentials" in
  match parseRedhatssoError err with
  | Ok rhErr =>
      if rhErr.(rhe_Error) =?s ServiceAccountNotFound then with_cause ErrorServiceAccountNotFound err "service account not found %s"
      else if rhErr.(rhe_Error) =?s ServiceAccountAccessInvalid then with_cause ErrorForbidden err "failed to reset service account credentials"
      else general
  | Err _ => general
  end.
Definition rh_ResetServiceAccountCredentials (accessToken : string) (ctx : RequestContext) (clientId : string) : S ServiceAccount :=
  serviceAccount <~ wrap_err reset_error (rhSSOClient_RegenerateClientSecret accessToken clientId) ;;
  ret (convertServiceAccountDataToAPIServiceAccount serviceAccount).

Definition rh_ListServiceAcc (accessToken : string) (ctx : RequestContext) (first max : Z) : S (list ServiceAccount) :=
  accounts <~ wrap_err (fun err => with_cause ErrorGeneral err "failed to collect service accounts") (rhSSOClient_GetServiceAccounts accessToken first max) ;;
  ret (map convertServiceAccountDataToAPIServiceAccount accounts).

Definition rh_GetServiceAccountByClientId (accessToken : string) (ctx : RequestContext) (clientId : string) : S ServiceAccount :=
  found <~ wrap_err (fun err => with_cause ErrorGeneral err "error retrieving service account with clientId %s") (rhSSOClient_GetServiceAccount accessToken clientId) ;;
  match found with
  | None => throw (NewWithCause ErrorServiceAccountNotFound None "service account not found clientId %s")
  | Some serviceAccount => ret (convertServiceAccountDataToAPIServiceAccount serviceAccount)
  end.
Definition rh_GetServiceAccountById (accessToken : string) (ctx : RequestContext) (id : string) : S ServiceAccount :=
  rh_GetServiceAccountByClientId accessToken ctx id.

(** *** The accounts of the agents; [context.Background()] has no claims *)
Definition Background : RequestContext := mkRequestContext (Err (EPlain "no token in context")) false false.
Definition rh_registerAgentServiceAccount (accessToken agentClusterId : string) : S ServiceAccount :=
  rh_CreateServiceAccount accessToken (mkServiceAccountRequest agentClusterId ("service account for agent on cluster " +:+ agentClusterId)) Background.
Definition if_registered (accessToken agentClusterId : string) (delete : S unit) : S unit :=
  found <~ wrap_err (fun err => with_cause ErrorFailedToGetSSOClient err "failed to get sso client with id: %s") (rhSSOClient_GetServiceAccount accessToken agentClusterId) ;;
  match found with None => ret tt | Some _ => delete end.
Definition rh_RegisterKasFleetshardOperatorServiceAccount (accessToken agentClusterId : string) : S ServiceAccount :=
  rh_registerAgentServiceAccount accessToken agentClusterId.
Definition rh_DeRegisterKasFleetshardOperatorServiceAccount (accessToken agentClusterId : string) : S unit :=
  if_registered accessToken agentClusterId (rh_DeleteServiceAccount accessToken Background agentClusterId).
Definition rh_RegisterConnectorFleetshardOperatorServiceAccount (accessToken agentClusterId : string) : S ServiceAccount :=
  rh_registerAgentServiceAccount accessToken agentClusterId.
Definition rh_DeRegisterConnectorFleetshardOperatorServiceAccount (accessToken agentClusterId : string) : S unit :=
  if_registered accessToken agentClusterId
    (wrap_err (fun err => with_cause ErrorFailedToDeleteServiceAccount err "failed to delete service account: %s") (rhSSOClient_DeleteServiceAccount accessToken agentClusterId)).

(** *** Secrets and internal accounts *)

(** The cause of both errors at the end is [err], which is nil there. *)
Definition rh_GetKafkaClientSecret (accessToken clientId : string) : S string :=
  found <~ wrap_err (fun err => with_cause ErrorFailedToGetSSOClient err "failed to get sso client with id: %s") (rhSSOClient_GetServiceAccount accessToken clientId) ;;
  match found with
  | Some serviceAccount =>
      svcData <~ wrap_err (fun _ => NewWithCause ErrorFailedToGetSSOClientSecret None "failed to get sso client secret")
                   (rhSSOClient_RegenerateClientSecret accessToken (SafeString serviceAccount.(D_Id))) ;;
      ret (SafeString svcData.(D_Secret))
  | None => throw (NewWithCause ErrorFailedToGetSSOClientSecret None "failed to get sso client secret")
  end.

Definition rh_CreateServiceAccountInternal (accessToken : string) (request : CompleteServiceAccountRequest) : S ServiceAccount :=
  rh_CreateServiceAccount accessToken (mkServiceAccountRequest request.(CSR_ClientId) request.(CSR_Description)) Background.

Definition internal_page : Z := 100.
Definition named (clientId : string) (account : ServiceAccountData) : bool := clientId =?s SafeString account.(D_ClientId).
(** The loop over the pages; [None] when the fuel does not suffice. *)
Fixpoint delete_internal (fuel : nat) (accessToken clientId : string) (first : Z) : S (option unit) :=
  match fuel with
  | O => ret None
  | Datatypes.S fuel' =>
      accounts <~ wrap_err (fun err => with_cause ErrorGeneral err "failed to collect internal service accounts")
                    (rhSSOClient_GetServiceAccounts accessToken first internal_page) ;;
      match accounts with
      | [] => ret (Some tt)
      | _ =>
          match List.find (named clientId) accounts with
          | Some account => _ <~ rh_DeleteServiceAccount accessToken Background (SafeString account.(D_Id)) ;; ret (Some tt)
          | None => delete_internal fuel' accessToken clientId (first + internal_page)
          end
      end
  end.
Definition is_internal (clientId : string) : bool :=
  HasPrefix clientId "canary" || HasPrefix clientId "kas-fleetshard-agent" || HasPrefix clientId "connector-fleetshard-agent".
Definition rh_DeleteServiceAccountInternal (fuel : nat) (accessToken clientId : string) : S (option unit) :=
  if is_internal clientId then delete_internal fuel accessToken clientId 0
  else _ <~ rh_DeleteServiceAccount accessToken Background clientId ;; ret (Some tt).
End RedHat.

(** ** The loop over the pages *)
Section Pages.
Context {W : Type} `{ServiceAccountsApi W}.
Implicit Types (w : W) (token clientId : string).

Lemma find_app (p : ServiceAccountData -> bool) l l' :
  List.find p (l ++ l') = match List.find p l with Some a => Some a | None => List.find p l' end.
Proof. induction l as [|a l IH]; simpl; [done|]. by destruct (p a). Qed.

(** The next page ends the search or moves it on. *)
Lemma find_page (p : ServiceAccountData -> bool) (l : list ServiceAccountData) (n m : nat) :
  List.find p (take n l) = None ->
  match List.find p (take m (drop n l)) with
  | Some a => List.find p l = Some a
  | None => List.find p (take (n + m) l) = None
  end.
Proof.
  intros Hn. destruct (List.find p (take m (drop n l))) as [a|] eqn:Hp.
  - rewrite <- (take_drop n l), find_app, Hn, <- (take_drop m (drop n l)), find_app. by rewrite Hp.
  - rewrite <- (take_drop n (take (n + m) l)), find_app, take_take, Nat.min_l by lia. rewrite Hn, skipn_firstn_comm.
    by replace (n + m - n)%nat with m by lia.
Qed.

Definition deletion_outcome clientId w (r : result ServiceError (option unit)) w' : Prop :=
  match r, List.find (named clientId) (rh_accounts w) with
  | Ok None, _ => False
  | Ok (Some _), Some a => rh_accounts w' = without_account (SafeString a.(D_Id)) (rh_accounts w)
  | Ok (Some _), None => rh_accounts w' = rh_accounts w
  | Err _, Some a => rh_accounts w' = rh_accounts w \/ rh_accounts w' = without_account (SafeString a.(D_Id)) (rh_accounts w)
  | Err _, None => rh_accounts w' = rh_accounts w
  end.

Lemma delete_internal_from fuel token clientId (n : nat) w r w' :
  let len := Z.of_nat (length (rh_accounts w)) in
  len <= 2 ^ 31 - 101 -> Z.of_nat n < len + internal_page -> len - Z.of_nat n + internal_page <= internal_page * Z.of_nat fuel ->
  List.find (named clientId) (take n (rh_accounts w)) = None ->
  delete_internal fuel token clientId (Z.of_nat n) w = (r, w') -> deletion_outcome clientId w r w'.
Proof.
  revert n w r w'. induction fuel as [|fuel IH]; intros n w r w' len Hlen Hn Hfuel Hnone Hrun; unfold internal_page in *; [lia|].
  simpl in Hrun. unfold rhSSOClient_GetServiceAccounts in Hrun. rewrite int32_id in Hrun by (unfold in_int32; lia).
  unfold internal_page in Hrun. rewrite (int32_id 100) in Hrun by done. unfold wrap_err, bind in Hrun.
  destruct (api_GetServiceAccounts token (Z.of_nat n) 100 w) as [[l|e] w1] eqn:Hp; pose proof (GetServiceAccounts_steady token (Z.of_nat n) 100 w) as E1;
    rewrite Hp in E1; simpl in E1, Hrun; [|injection Hrun as <- <-; unfold deletion_outcome; rewrite E1; by case_match; [left|]].
  apply GetServiceAccounts_ok in Hp; [|lia..]. rewrite Nat2Z.id in Hp. change (Z.to_nat 100) with 100%nat in Hp.
  pose proof (find_page (named clientId) (rh_accounts w) n 100 Hnone) as Hfind. rewrite <- Hp in Hfind.
  destruct l as [|a l]; [|destruct (List.find (named clientId) (a :: l)) as [b|] eqn:Hb].
  - injection Hrun as <- <-. unfold deletion_outcome.
    assert (List.find (named clientId) (rh_accounts w) = None) as ->; [|done].
    rewrite <- Hfind. f_equal. symmetry. apply take_ge. apply (f_equal length) in Hp. rewrite length_take, length_drop in Hp. cbn [length] in Hp. lia.
  - unfold rh_DeleteServiceAccount, rhSSOClient_DeleteServiceAccount, wrap_err in Hrun. unfold deletion_outcome. rewrite Hfind, <- E1.
    destruct (api_DeleteServiceAccount token _ w1) as [[[]|e] w2] eqn:Hd; injection Hrun as <- <-; simpl.
    + by apply DeleteServiceAccount_ok in Hd.
    + by apply DeleteServiceAccount_err in Hd.
  - replace (Z.of_nat n + 100) with (Z.of_nat (n + 100)) in Hrun by lia.
    assert (n < length (rh_accounts w))%nat as Hlt by (apply (f_equal length) in Hp; rewrite length_take, length_drop in Hp; cbn [length] in Hp; lia).
    unfold deletion_outcome. rewrite <- E1. apply (IH (n + 100)%nat w1 r w'); rewrite ?E1; unfold internal_page; [lia..|done|done].
Qed.

(** [C32] The deletion of an internal account reads the pages of accounts until the
    one that bears its client identifier, deletes that one, and ends: one page more than
    the accounts fill is enough, as long as their number fits the 32 bits in
    which the position is sent. *)
Theorem internal_deletion_ends fuel token clientId w r w' :
  let len := Z.of_nat (length (rh_accounts w)) in
  is_internal clientId = true -> len <= 2 ^ 31 - 101 -> len + internal_page <= internal_page * Z.of_nat fuel ->
  rh_DeleteServiceAccountInternal fuel token clientId w = (r, w') -> deletion_outcome clientId w r w'.
Proof.
  intros len Hi Hlen Hfuel. unfold rh_DeleteServiceAccountInternal. rewrite Hi.
  apply (delete_internal_from fuel token clientId 0); fold len; unfold internal_page in *; [lia..|done].
Qed.

(** The agents' accounts are looked up by the identifier of their cluster,
    whereas the server has chosen theirs: an account that is not found counts
    as removed. *)
Lemma agent_account_not_found token clusterId d w w1 :
  api_GetServiceAccount token clusterId w = ((Some StatusNotFound, d), w1) ->
  rh_DeRegisterKasFleetshardOperatorServiceAccount token clusterId w = (Ok tt, w1).
Proof.
  intros Hg. unfold rh_DeRegisterKasFleetshardOperatorServiceAccount, if_registered, rhSSOClient_GetServiceAccount, wrap_err, bind. by rewrite Hg.
Qed.

(** The error of the server decides the status of a refused deletion: 404 for
    an account that it does not know, 403 for one that the token gives no access
    to, 500 for all the rest, texts that are not JSON among them. *)
Theorem refused_deletion_status err :
  HttpCode (deletion_error err) =
  match parseRedhatssoError err with
  | Ok rhErr =>
      if rhErr.(rhe_Error) =?s ServiceAccountNotFound then StatusNotFound
      else if rhErr.(rhe_Error) =?s ServiceAccountAccessInvalid then StatusForbidden
      else StatusInternalServerError
  | Err _ => StatusInternalServerError
  end.
Proof. unfold deletion_error. repeat case_match; reflexivity. Qed.
End Pages.

(** ** The shared configuration *)
Section Configuration.
Context (tokens : nat -> string).

Lemma in_turn_other calls conf sent call :
  call ∉ calls -> snd (foldl (getConfiguration_step tokens) (conf, sent) (in_turn calls)) !! call = sent !! call.
Proof.
  revert conf sent. induction calls as [|c calls IH]; intros conf sent Hc; simpl; [done|].
  apply not_elem_of_cons in Hc as [Hne Hc]. rewrite IH by done. by rewrite lookup_insert_ne.
Qed.
Lemma in_turn_read calls conf sent call :
  call ∈ calls -> NoDup calls ->
  snd (foldl (getConfiguration_step tokens) (conf, sent) (in_turn calls)) !! call = Some (authorization (tokens call)).
Proof.
  revert conf sent. induction calls as [|c calls IH]; intros conf sent Hin Hnd; [by apply elem_of_nil in Hin|].
  apply NoDup_cons in Hnd as [Hc Hnd]. simpl. destruct (decide (call = c)) as [->|Hne].
  - rewrite in_turn_other by done. apply lookup_insert_eq.
  - apply IH; [set_solver|done].
Qed.

(** Calls that follow each other carry their own tokens. *)
Theorem calls_in_turn_carry_their_tokens calls call :
  NoDup calls -> call ∈ calls -> (getConfiguration_run tokens (in_turn calls)).2 !! call = Some (authorization (tokens call)).
Proof. intros Hnd Hin. by apply in_turn_read. Qed.

(** Two calls that overlap do not: the first one is sent with the token of the
    second, in whose name the server then acts. *)
Theorem overlapping_call_carries_another_token :
  (getConfiguration_run tokens [WriteConfiguration 1; WriteConfiguration 2; ReadConfiguration 1; ReadConfiguration 2]).2 !! 1%nat
    = Some (authorization (tokens 2%nat)).
Proof. unfold getConfiguration_run. simpl. rewrite lookup_insert_ne by done. apply lookup_insert_eq. Qed.
End Configuration.

(** ** A server in memory *)
Module RedHatExample.
Record world := mkWorld { w_accounts : list ServiceAccountData; w_cache : gmap string string; w_made : nat }.

#[export, refine] Instance tokens : TokenCache world := {
  kc_now w := 1000;
  jwt_exp t := if t =?s "valid" then Some (Some 5000) else None;
  cache_get k w := w.(w_cache) !! k;
  cache_set k v _ w := mkWorld w.(w_accounts) (<[k := v]> w.(w_cache)) w.(w_made)
}.
Proof. intros k v d w. apply lookup_insert_eq. Defined.

(** The server chooses the identifiers. *)
Definition account (n : nat) (name : string) : ServiceAccountData :=
  mkServiceAccountData (Some ("srvc-acct-" +:+ pretty n)) (Some ("srvc-acct-" +:+ pretty n)) None (Some name) (Some "") (Some "kas") (Some 1).
Definition refusal : rh_error := OpenAPIError (Some ServiceAccountNotFound) (EPlain "404 Not Found").
#[export, refine] Instance server : ServiceAccountsApi world := {
  rh_accounts := w_accounts;
  unmarshal_error body := Ok (mkRedhatssoError body body);
  post_token _ := ret (StatusOK, Ok "valid");
  api_GetServiceAccounts _ first max := fun w => (Ok (take (Z.to_nat max) (drop (Z.to_nat first) w.(w_accounts))), w);
  api_GetServiceAccount _ id := fun w =>
    match List.find (with_data_id id) w.(w_accounts) with
    | Some d => ((Some StatusOK, Ok d), w)
    | None => ((Some StatusNotFound, Err refusal), w)
    end;
  api_CreateServiceAccount _ name _ := fun w =>
    let d := account w.(w_made) name in (Ok d, mkWorld (w.(w_accounts) ++ [d]) w.(w_cache) (S w.(w_made)));
  api_DeleteServiceAccount _ id := fun w =>
    match List.find (with_data_id id) w.(w_accounts) with
    | Some _ => (Ok tt, mkWorld (without_account id w.(w_accounts)) w.(w_cache) w.(w_made))
    | None => (Err refusal, w)
    end;
  api_UpdateServiceAccount _ id _ _ := fun w =>
    match List.find (with_data_id id) w.(w_accounts) with Some d => (Ok d, w) | None => (Err refusal, w) end;
  api_ResetServiceAccountSecret _ id := fun w =>
    match List.find (with_data_id id) w.(w_accounts) with Some d => (Ok d, w) | None => (Err refusal, w) end
}.
Proof.
  - intros token first max w l w' _ _ Hrun. by injection Hrun as <- _.
  - done.
  - intros token id w w' Hrun. destruct (List.find _ _); [|done]. by injection Hrun as <-.
  - intros token id w e w' Hrun. destruct (List.find _ _); [done|]. injection Hrun as _ <-. by left.
Defined.

(** A canary behind a page of other accounts. *)
Definition crowd : world :=
  mkWorld (map (fun n => account n "other") (seq 0 100) ++
           [mkServiceAccountData (Some "b") (Some "canary-1") None None None None None; account 900 "last"]) ∅ 901.
Definition registered : world := snd (rh_RegisterKasFleetshardOperatorServiceAccount "t" "cluster-1" (mkWorld [] ∅ 0)).
End RedHatExample.
Import RedHatExample.

Definition crowd_run : result ServiceError (option unit) * world := rh_DeleteServiceAccountInternal 3 "t" "canary-1" crowd.
Lemma internal_deletion_ends_witness :
  fst crowd_run = Ok (Some tt) /\ rh_accounts (snd crowd_run) = without_account (SafeString (Some "b")) (rh_accounts crowd).
Proof.
  assert (is_internal "canary-1" = true) as H1 by (vm_compute; reflexivity).
  assert (Z.of_nat (length (rh_accounts crowd)) <= 2 ^ 31 - 101) as H2 by (vm_compute; discriminate).
  assert (Z.of_nat (length (rh_accounts crowd)) + internal_page <= internal_page * Z.of_nat 3) as H3 by (vm_compute; discriminate).
  assert (fst crowd_run = Ok (Some tt)) as Hok by (vm_compute; reflexivity).
  assert (List.find (named "canary-1") (rh_accounts crowd) = Some (mkServiceAccountData (Some "b") (Some "canary-1") None None None None None)) as Hf
    by (vm_compute; reflexivity).
  assert (rh_DeleteServiceAccountInternal 3 "t" "canary-1" crowd = (fst crowd_run, snd crowd_run)) as Hrun by apply surjective_pairing.
  pose proof (internal_deletion_ends 3 "t" "canary-1" crowd (fst crowd_run) (snd crowd_run) H1 H2 H3 Hrun) as H.
  split; [exact Hok|]. unfold deletion_outcome in H. rewrite Hok, Hf in H. cbn [D_Id] in H. rewrite H. reflexivity.
Defined.

Definition two_tokens (call : nat) : string := if (call =? 1)%nat then "alice" else "bob".
Lemma calls_in_turn_carry_their_tokens_witness :
  (getConfiguration_run two_tokens (in_turn [1%nat; 2%nat])).2 !! 1%nat = Some "Bearer alice".
Proof. apply (calls_in_turn_carry_their_tokens two_tokens [1%nat; 2%nat] 1%nat); [by repeat constructor; set_solver|set_solver]. Defined.

(** An agent that is registered and deregistered keeps its account. *)
Theorem agent_account_is_left_behind :
  length (w_accounts registered) = 1%nat /\
  rh_DeRegisterKasFleetshardOperatorServiceAccount "t" "cluster-1" registered = (Ok tt, registered).
Proof. split; [vm_compute; reflexivity|]. apply (agent_account_not_found "t" "cluster-1" (Err refusal)). vm_compute. reflexivity. Qed.
