(* ===== verification/ServiceAccounts.v ===== *)
(** * Service accounts for users: the proxy that picks the token
    ([src/pkg/services/sso/keycloak_service_proxy.go]), the choice of the provider
    ([keycloak_service_builder.go]), and the handlers with their presenters
    ([src/internal/kafka/internal/handlers/service_accounts.go],
    [presenters/serviceaccounts.go]) *)
From S2P Require Import Prelude Arrays Errors Store Listing Validation KafkaHandlers Keycloak RedHatSso.

(** ** The interface of the two providers: [keycloakServiceInternal] *)
Record keycloakServiceInternal (W : Type) := mkServiceInternal {
  svc_config : KeycloakConfig;
  svc_realm : KeycloakRealmConfig;
  svc_DeRegisterClientInSSO : string -> string -> M W ServiceError unit;
  svc_RegisterClientInSSO : string -> string -> string -> M W ServiceError string;
  svc_IsKafkaClientExist : string -> string -> M W ServiceError unit;
  svc_CreateServiceAccount : string -> ServiceAccountRequest -> RequestContext -> M W ServiceError ServiceAccount;
  svc_DeleteServiceAccount : string -> RequestContext -> string -> M W ServiceError unit;
  svc_ResetServiceAccountCredentials : string -> RequestContext -> string -> M W ServiceError ServiceAccount;
  svc_ListServiceAcc : string -> RequestContext -> Z -> Z -> M W ServiceError (list ServiceAccount);
  svc_RegisterKasFleetshardOperatorServiceAccount : string -> string -> M W ServiceError ServiceAccount;
  svc_DeRegisterKasFleetshardOperatorServiceAccount : string -> string -> M W ServiceError unit;
  svc_GetServiceAccountById : string -> RequestContext -> string -> M W ServiceError ServiceAccount;
  svc_GetServiceAccountByClientId : string -> RequestContext -> string -> M W ServiceError ServiceAccount;
  svc_RegisterConnectorFleetshardOperatorServiceAccount : string -> string -> M W ServiceError ServiceAccount;
  svc_DeRegisterConnectorFleetshardOperatorServiceAccount : string -> string -> M W ServiceError unit;
  svc_GetKafkaClientSecret : string -> string -> M W ServiceError string;
  svc_CreateServiceAccountInternal : string -> CompleteServiceAccountRequest -> M W ServiceError ServiceAccount;
  svc_DeleteServiceAccountInternal : string -> string -> M W ServiceError unit
}.
Arguments mkServiceInternal {W}.
Arguments svc_config {W}.
Arguments svc_realm {W}.
Arguments svc_DeRegisterClientInSSO {W}.
Arguments svc_RegisterClientInSSO {W}.
Arguments svc_IsKafkaClientExist {W}.
Arguments svc_CreateServiceAccount {W}.
Arguments svc_DeleteServiceAccount {W}.
Arguments svc_ResetServiceAccountCredentials {W}.
Arguments svc_ListServiceAcc {W}.
Arguments svc_RegisterKasFleetshardOperatorServiceAccount {W}.
Arguments svc_DeRegisterKasFleetshardOperatorServiceAccount {W}.
Arguments svc_GetServiceAccountById {W}.
Arguments svc_GetServiceAccountByClientId {W}.
Arguments svc_RegisterConnectorFleetshardOperatorServiceAccount {W}.
Arguments svc_DeRegisterConnectorFleetshardOperatorServiceAccount {W}.
Arguments svc_GetKafkaClientSecret {W}.
Arguments svc_CreateServiceAccountInternal {W}.
Arguments svc_DeleteServiceAccountInternal {W}.

Section Providers.
Context {W : Type} `{TokenCache W} `{!GoCloak W} `{!ServiceAccountsApi W}.

Definition masService (config : KeycloakConfig) (realm : KeycloakRealmConfig) : keycloakServiceInternal W :=
  mkServiceInternal config realm (DeRegisterClientInSSO realm) (RegisterClientInSSO realm) (IsKafkaClientExist realm)
    (CreateServiceAccount config realm) (DeleteServiceAccount realm) (ResetServiceAccountCredentials realm) (ListServiceAcc config realm)
    (RegisterKasFleetshardOperatorServiceAccount realm) (DeRegisterKasFleetshardOperatorServiceAccount realm)
    (GetServiceAccountById realm) (GetServiceAccountByClientId realm) (RegisterConnectorFleetshardOperatorServiceAccount realm)
    (DeRegisterConnectorFleetshardOperatorServiceAccount realm) (GetKafkaClientSecret realm) (CreateServiceAccountInternal realm)
    (DeleteServiceAccountInternal realm).

(** One page more than the accounts fill, which is enough by
    [delete_internal_from] of [RedHatSso.v]. *)
Definition internal_deletion (token clientId : string) : M W ServiceError unit := fun w =>
  let fuel := (length (rh_accounts w) / 100 + 2)%nat in
  (ended <~ rh_DeleteServiceAccountInternal fuel token clientId ;;
   match ended with Some _ => ret tt | None => throw (GeneralError "") end) w.

Definition redhatssoService (config : KeycloakConfig) (realm : KeycloakRealmConfig) : keycloakServiceInternal W :=
  mkServiceInternal config realm rh_DeRegisterClientInSSO rh_RegisterClientInSSO rh_IsKafkaClientExist rh_CreateServiceAccount
    rh_DeleteServiceAccount rh_ResetServiceAccountCredentials rh_ListServiceAcc rh_RegisterKasFleetshardOperatorServiceAccount
    rh_DeRegisterKasFleetshardOperatorServiceAccount rh_GetServiceAccountById rh_GetServiceAccountByClientId
    rh_RegisterConnectorFleetshardOperatorServiceAccount rh_DeRegisterConnectorFleetshardOperatorServiceAccount rh_GetKafkaClientSecret
    rh_CreateServiceAccountInternal internal_deletion.
End Providers.

(** ** The proxy *)
Record keycloakServiceProxy (W : Type) := mkProxy { getToken : M W error string; service : keycloakServiceInternal W }.
Arguments mkProxy {W}.
Arguments getToken {W}.
Arguments service {W}.

Section Proxy.
(** [authentication.TokenFromContext]: the raw token of the request. *)
Context {W : Type} (TokenFromContext : RequestContext -> result error string).
Abbreviation S A := (M W ServiceError A).
Implicit Type r : keycloakServiceProxy W.

Definition token_error (err : error) : ServiceError := NewWithCause ErrorGeneral (Some err) "error getting access token".
Definition retrieveToken r : S string := wrap_err token_error r.(getToken).
Definition retrieveUserToken (ctx : RequestContext) : S string := lift (map_err token_error (TokenFromContext ctx)).
Definition tokenForServiceAPIHandler (ctx : RequestContext) r : S string :=
  if r.(service).(svc_config).(SelectSSOProvider) =?s REDHAT_SSO then retrieveUserToken ctx else retrieveToken r.

Definition proxy_DeRegisterClientInSSO r (clientId : string) : S unit :=
  token <~ retrieveToken r ;; r.(service).(svc_DeRegisterClientInSSO) token clientId.
Definition proxy_RegisterClientInSSO r (clusterId clusterOathCallbackURI : string) : S string :=
  token <~ retrieveToken r ;; r.(service).(svc_RegisterClientInSSO) token clusterId clusterOathCallbackURI.
Definition proxy_IsKafkaClientExist r (clientId : string) : S unit :=
  token <~ retrieveToken r ;; r.(service).(svc_IsKafkaClientExist) token clientId.
Definition proxy_CreateServiceAccount r (serviceAccountRequest : ServiceAccountRequest) (ctx : RequestContext) : S ServiceAccount :=
  token <~ tokenForServiceAPIHandler ctx r ;; r.(service).(svc_CreateServiceAccount) token serviceAccountRequest ctx.
Definition proxy_DeleteServiceAccount r (ctx : RequestContext) (clientId : string) : S unit :=
  token <~ tokenForServiceAPIHandler ctx r ;; r.(service).(svc_DeleteServiceAccount) token ctx clientId.
Definition proxy_ResetServiceAccountCredentials r (ctx : RequestContext) (clientId : string) : S ServiceAccount :=
  token <~ tokenForServiceAPIHandler ctx r ;; r.(service).(svc_ResetServiceAccountCredentials) token ctx clientId.
Definition proxy_ListServiceAcc r (ctx : RequestContext) (first max : Z) : S (list ServiceAccount) :=
  token <~ tokenForServiceAPIHandler ctx r ;; r.(service).(svc_ListServiceAcc) token ctx first max.
Definition proxy_RegisterKasFleetshardOperatorServiceAccount r (agentClusterId : string) : S ServiceAccount :=
  token <~ retrieveToken r ;; r.(service).(svc_RegisterKasFleetshardOperatorServiceAccount) token agentClusterId.
Definition proxy_DeRegisterKasFleetshardOperatorServiceAccount r (agentClusterId : string) : S unit :=
  token <~ retrieveToken r ;; r.(service).(svc_DeRegisterKasFleetshardOperatorServiceAccount) token agentClusterId.
Definition proxy_GetServiceAccountById r (ctx : RequestContext) (id : string) : S ServiceAccount :=
  token <~ tokenForServiceAPIHandler ctx r ;; r.(service).(svc_GetServiceAccountById) token ctx id.
Definition proxy_GetServiceAccountByClientId r (ctx : RequestContext) (clientId : string) : S ServiceAccount :=
  token <~ tokenForServiceAPIHandler ctx r ;; r.(service).(svc_GetServiceAccountByClientId) token ctx clientId.
Definition proxy_RegisterConnectorFleetshardOperatorServiceAccount r (agentClusterId : string) : S ServiceAccount :=
  token <~ retrieveToken r ;; r.(service).(svc_RegisterConnectorFleetshardOperatorServiceAccount) token agentClusterId.
Definition proxy_DeRegisterConnectorFleetshardOperatorServiceAccount r (agentClusterId : string) : S unit :=
  token <~ retrieveToken r ;; r.(service).(svc_DeRegisterConnectorFleetshardOperatorServiceAccount) token agentClusterId.
Definition proxy_GetKafkaClientSecret r (clientId : string) : S string :=
  token <~ retrieveToken r ;; r.(service).(svc_GetKafkaClientSecret) token clientId.
Definition proxy_CreateServiceAccountInternal r (request : CompleteServiceAccountRequest) : S ServiceAccount :=
  token <~ retrieveToken r ;; r.(service).(svc_CreateServiceAccountInternal) token request.
Definition proxy_DeleteServiceAccountInternal r (clientId : string) : S unit :=
  token <~ retrieveToken r ;; r.(service).(svc_DeleteServiceAccountInternal) token clientId.
End Proxy.

(** ** The choice of the provider: [build] *)
Definition build {W} `{TokenCache W} `{!GoCloak W} `{!ServiceAccountsApi W} (providerName : string) (keycloakConfig : KeycloakConfig)
    (realmConfig : option KeycloakRealmConfig) : keycloakServiceProxy W :=
  if (providerName =?s MAS_SSO) || match realmConfig with Some _ => true | None => false end then
    let realmConfig := setTokenEndpoints (default keycloakConfig.(KafkaRealm) realmConfig) in
    mkProxy (GetToken realmConfig) (masService keycloakConfig realmConfig)
  else
    let realmConfig := default keycloakConfig.(RedhatSSORealm) realmConfig in
    mkProxy (rhSSOClient_GetToken realmConfig) (redhatssoService keycloakConfig realmConfig).

(** ** Presentation: [presenters/serviceaccounts.go] *)
Record PublicServiceAccount := mkPublicServiceAccount {
  PSA_Id : string;
  PSA_Kind : string;
  PSA_Href : string;
  PSA_Name : string;
  PSA_Description : string;
  PSA_ClientId : string;
  PSA_ClientSecret : string;
  PSA_DeprecatedOwner : string;
  PSA_CreatedBy : string;
  PSA_CreatedAt : Z
}.
Record ServiceAccountListItem := mkServiceAccountListItem {
  Item_Id : string;
  Item_Kind : string;
  Item_Href : string;
  Item_ClientId : string;
  Item_Name : string;
  Item_DeprecatedOwner : string;
  Item_CreatedBy : string;
  Item_CreatedAt : Z;
  Item_Description : string
}.
Record SsoProvider := mkSsoProvider {
  Provider_Name : string;
  Provider_BaseUrl : string;
  Provider_Jwks : string;
  Provider_TokenUrl : string;
  Provider_ValidIssuer : string
}.
Definition ConvertServiceAccountRequest (account : ServiceAccountRequest) : ServiceAccountRequest :=
  mkServiceAccountRequest account.(SAR_Name) account.(SAR_Description).
Definition PresentServiceAccount (account : ServiceAccount) : PublicServiceAccount :=
  let reference := PresentReference account.(SA_ID) RefServiceAccount in
  mkPublicServiceAccount reference.(Ref_Id) reference.(Ref_Kind) reference.(Ref_Href) account.(SA_Name) account.(SA_Description)
    account.(SA_ClientID) account.(SA_ClientSecret) account.(SA_CreatedBy) account.(SA_CreatedBy) account.(SA_CreatedAt).
Definition PresentServiceAccountListItem (account : ServiceAccount) : ServiceAccountListItem :=
  let ref := PresentReference account.(SA_ID) RefServiceAccount in
  mkServiceAccountListItem ref.(Ref_Id) ref.(Ref_Kind) ref.(Ref_Href) account.(SA_ClientID) account.(SA_Name) account.(SA_CreatedBy)
    account.(SA_CreatedBy) account.(SA_CreatedAt) account.(SA_Description).
Definition PresentSsoProvider (provider : SsoProvider) : SsoProvider :=
  mkSsoProvider provider.(Provider_Name) provider.(Provider_BaseUrl) provider.(Provider_Jwks) provider.(Provider_TokenUrl) provider.(Provider_ValidIssuer).

(** ** The handlers: [handlers/service_accounts.go] *)
Section Handlers.
Context {W : Type} (TokenFromContext : RequestContext -> result error string) (s : keycloakServiceProxy W).
Abbreviation S A := (M W ServiceError A).

Definition handleParams (params : string -> string) : Z * Z :=
  (if params "page" =?s "" then 0 else Atoi (params "page"), if params "size" =?s "" then 0 else Atoi (params "size")).

Definition accounts_ListServiceAccounts (r : Request unit) : S (Z * list ServiceAccountListItem) :=
  HandleList (mkHandlerConfig [] (fun _ =>
    let '(Page, Size) := handleParams r.(req_query) in
    let Size := if Size =? 0 then s.(service).(svc_config).(MaxLimitForGetClients) else Size in
    sa <~ proxy_ListServiceAcc TokenFromContext s r.(req_ctx) Page Size ;;
    ret (map PresentServiceAccountListItem sa))).

Definition accounts_CreateServiceAccount (r : Request ServiceAccountRequest) : S (Z * PublicServiceAccount) :=
  Handle r (mkHandlerConfig
    [ (fun p => ValidateLength p.(SAR_Name) "name" MinRequiredFieldLength (Some MaxServiceAccountNameLength));
      (fun p => ValidateMaxLength p.(SAR_Description) "description" (Some MaxServiceAccountDescLength));
      (fun p => ValidateServiceAccountName p.(SAR_Name) "name");
      (fun p => ValidateServiceAccountDesc p.(SAR_Description) "description") ]
    (fun p =>
       serviceAccount <~ proxy_CreateServiceAccount TokenFromContext s (ConvertServiceAccountRequest p) r.(req_ctx) ;;
       ret (PresentServiceAccount serviceAccount))) StatusAccepted.

Definition id_validators (id : string) : list (unit -> Validator W) :=
  [ (fun _ => ValidateLength id "id" MinRequiredFieldLength (Some MaxServiceAccountId)); (fun _ => ValidateServiceAccountId id "id") ].

Definition accounts_DeleteServiceAccount (r : Request unit) : S (Z * unit) :=
  HandleDelete (mkHandlerConfig (id_validators r.(req_id))
    (fun _ => proxy_DeleteServiceAccount TokenFromContext s r.(req_ctx) r.(req_id))) StatusNoContent.

Definition accounts_ResetServiceAccountCredential (r : Request unit) : S (Z * PublicServiceAccount) :=
  HandleGet (mkHandlerConfig (id_validators r.(req_id))
    (fun _ => sa <~ proxy_ResetServiceAccountCredentials TokenFromContext s r.(req_ctx) r.(req_id) ;; ret (PresentServiceAccount sa))).

Definition accounts_GetServiceAccountById (r : Request unit) : S (Z * PublicServiceAccount) :=
  HandleGet (mkHandlerConfig (id_validators r.(req_id))
    (fun _ => sa <~ proxy_GetServiceAccountById TokenFromContext s r.(req_ctx) r.(req_id) ;; ret (PresentServiceAccount sa))).

Definition accounts_GetServiceAccountByClientId (r : Request unit) : S (Z * list ServiceAccountListItem) :=
  let clientId := r.(req_query) "client_id" in
  HandleList (mkHandlerConfig
    [ (fun _ => ValidateLength clientId "client_id" MinRequiredFieldLength (Some MaxServiceAccountClientId));
      (fun _ => ValidateServiceAccountClientId clientId "client_id" s.(service).(svc_config).(SelectSSOProvider)) ]
    (fun _ =>
       found <~ attempt (proxy_GetServiceAccountByClientId TokenFromContext s r.(req_ctx) clientId) ;;
       match found with
       | Err err => if Code err =? ErrorServiceAccountNotFound then ret [] else throw err
       | Ok sa => ret [PresentServiceAccountListItem sa]
       end)).

Definition accounts_GetSsoProviders (r : Request unit) : S (Z * SsoProvider) :=
  HandleGet (mkHandlerConfig [] (fun _ =>
    let config := s.(service).(svc_realm) in
    ret (PresentSsoProvider (mkSsoProvider s.(service).(svc_config).(SelectSSOProvider) config.(Realm_BaseURL) config.(Realm_JwksEndpointURI)
           config.(Realm_TokenEndpointURI) config.(Realm_ValidIssuerURI))))).
End Handlers.

(** ** From the request to the server *)
Section Composition.
Context {W : Type} `{TokenCache W} `{!GoCloak W} `{!ServiceAccountsApi W}.
Context (TokenFromContext : RequestContext -> result error string) (config : KeycloakConfig).
Implicit Types (w : W) (ctx : RequestContext).

(** The token of the service is fetched without touching the clients. *)
Lemma service_token_steady realm realm' w r w' : GetToken realm w = (r, w') -> kc_clients realm' w' = kc_clients realm' w.
Proof.
  unfold GetToken. destruct (_ && _); [by injection 1 as _ <-|]. unfold bind, wrap_err.
  pose proof (GetToken_steady (Realm realm) (Realm_ClientID realm) (Realm_GrantType realm) (Realm_ClientSecret realm) w realm') as Hs.
  destruct (gc_GetToken _ _ _ _ w) as [[t|e] w1]; simpl in *; injection 1 as _ <-; [by rewrite cache_set_clients|done].
Qed.

Abbreviation mas := (build (W := W) MAS_SSO config None).
Abbreviation realm := (setTokenEndpoints config.(KafkaRealm)).

Lemma token_for_handler_steady (s : keycloakServiceProxy W) ctx w r w' :
  s = mas -> tokenForServiceAPIHandler TokenFromContext ctx s w = (r, w') ->
  kc_clients realm.(Realm) w' = kc_clients realm.(Realm) w.
Proof.
  intros ->. unfold tokenForServiceAPIHandler. case_goal; [by injection 1 as _ <-|]. unfold retrieveToken, wrap_err. simpl.
  destruct (GetToken _ w) as [t w1] eqn:Ht. injection 1 as _ <-. by eapply service_token_steady.
Qed.

Lemma validated_ok {Body A} (validators : list (Body -> Validator W)) (action : Body -> M W ServiceError A) payload status w a w' :
  (forall v, v ∈ validators -> forall w0, snd (v payload w0) = w0) ->
  run_validated (mkHandlerConfig validators action) payload status w = (Ok a, w') ->
  a.1 = status /\ action payload w = (Ok a.2, w').
Proof.
  unfold run_validated. simpl. intros Hro Hrun. apply bind_ok in Hrun as (? & w1 & Hv & Hrun). apply bind_ok in Hrun as (out & w2 & Ha & Hrun).
  injection Hrun as <- <-. split; [done|]. simpl. enough (w1 = w) as -> by done. clear Ha. revert w Hv.
  induction validators as [|v l IH]; simpl; intros w Hv; [by injection Hv as _ <-|].
  apply bind_ok in Hv as ([] & w0 & Hv & Hl). assert (w0 = w) as ->.
  { specialize (Hro v ltac:(left) w). by rewrite Hv in Hro. }
  apply IH; [|done]. intros v' Hin. apply Hro. by right.
Qed.

Lemma id_validators_pure id v w : v ∈ id_validators (W := W) id -> snd (v tt w) = w.
Proof.
  unfold id_validators. intros Hin. apply elem_of_cons in Hin as [->|Hin]; [|apply list_elem_of_singleton in Hin as ->].
  - unfold ValidateLength, ValidateMaxLength, ValidateMinLength, require, bind.
    destruct (negb _); simpl; [|done]. by destruct (negb _).
  - unfold ValidateServiceAccountId, require. by case_goal.
Qed.

(** [C24] With Keycloak as the provider of service accounts ([mas_sso]), a deletion
    that a user is told has happened has: the account was one of a user, in the
    organisation of the caller, who owns it or administers the organisation, and
    it alone is gone from the server.  With sso.redhat.com the code checks neither
    the organisation nor the owner, and leaves that to the provider, which it calls
    with the caller's own token. *)
Theorem accepted_account_deletion (r : Request unit) status w w' :
  accounts_DeleteServiceAccount TokenFromContext mas r w = (Ok (status, tt), w') ->
  status = StatusNoContent /\
  (exists claims c, r.(req_ctx).(rc_claims) = Ok claims /\ c ∈ kc_clients realm.(Realm) w /\ c.(C_ID) = r.(req_id) /\
     is_user_account c = true /\ may_change claims c = true) /\
  kc_clients realm.(Realm) w' = without r.(req_id) (kc_clients realm.(Realm) w).
Proof.
  intros Hrun. apply validated_ok in Hrun as [Hs Ha]; [|intros v Hin w0; by apply (id_validators_pure r.(req_id) v)]. simpl in Hs, Ha. split; [done|].
  unfold proxy_DeleteServiceAccount in Ha. apply bind_ok in Ha as (token & w1 & Ht & Ha). apply (token_for_handler_steady mas) in Ht; [|done].
  rewrite <- Ht. by apply (deletion_by_owner_or_admin realm token) in Ha.
Qed.

(** An identifier that is not a UUID is refused before any server is asked. *)
Theorem malformed_account_id_is_refused (r : Request unit) (s : keycloakServiceProxy W) w :
  MatchString ValidUuidRegexp r.(req_id) = false ->
  exists err, accounts_DeleteServiceAccount TokenFromContext s r w = (Err err, w) /\
    accounts_ResetServiceAccountCredential TokenFromContext s r w = (Err err, w) /\
    accounts_GetServiceAccountById TokenFromContext s r w = (Err err, w) /\ IsClientErrorClass err = true.
Proof.
  intros Hm. unfold accounts_DeleteServiceAccount, accounts_ResetServiceAccountCredential, accounts_GetServiceAccountById, HandleDelete, HandleGet, run_validated.
  simpl. unfold ValidateLength, ValidateMaxLength, ValidateMinLength, ValidateServiceAccountId, require, bind. rewrite Hm. simpl.
  destruct (negb _); simpl; [destruct (negb _); simpl|]; eexists; split_and!; reflexivity.
Qed.

(** With sso.redhat.com, what a user does with service accounts is done with the
    token of the user, and with that of the service for Keycloak; without a token no server is
    asked. *)
Theorem account_token (s : keycloakServiceProxy W) ctx id w :
  proxy_DeleteServiceAccount TokenFromContext s ctx id w =
  if s.(service).(svc_config).(SelectSSOProvider) =?s REDHAT_SSO then
    match TokenFromContext ctx with
    | Ok userToken => s.(service).(svc_DeleteServiceAccount) userToken ctx id w
    | Err err => (Err (token_error err), w)
    end
  else
    match s.(getToken) w with
    | (Ok token, w1) => s.(service).(svc_DeleteServiceAccount) token ctx id w1
    | (Err err, w1) => (Err (token_error err), w1)
    end.
Proof.
  unfold proxy_DeleteServiceAccount, tokenForServiceAPIHandler, retrieveUserToken, retrieveToken, lift, wrap_err, bind.
  case_goal; [by destruct (TokenFromContext ctx)|]. by destruct (getToken s w) as [[t|e] w1].
Qed.

(** The fuel of the internal deletion suffices. *)
Lemma internal_deletion_fuel token clientId w :
  Z.of_nat (length (rh_accounts w)) <= 2 ^ 31 - 101 ->
  fst (rh_DeleteServiceAccountInternal (length (rh_accounts w) / 100 + 2)%nat token clientId w) <> Ok None.
Proof.
  intros Hlen Hnone. destruct (rh_DeleteServiceAccountInternal _ token clientId w) as [r w'] eqn:Hrun. simpl in Hnone. subst r.
  destruct (is_internal clientId) eqn:Hi.
  - unfold rh_DeleteServiceAccountInternal in Hrun. rewrite Hi in Hrun. apply (delete_internal_from _ token clientId 0) in Hrun; [done|done| | |done];
      unfold internal_page; pose proof (Nat.div_mod (length (rh_accounts w)) 100 ltac:(done));
      pose proof (Nat.mod_upper_bound (length (rh_accounts w)) 100 ltac:(done)); lia.
  - unfold rh_DeleteServiceAccountInternal in Hrun. rewrite Hi in Hrun. unfold bind, rh_DeleteServiceAccount, wrap_err in Hrun.
    by destruct (rhSSOClient_DeleteServiceAccount _ _ w) as [[]].
Qed.
End Composition.

(** ** An example *)
Module AccountsExample.
Import KeycloakExample.
(** Keycloak is the provider; the other API answers nothing. *)
Definition down : rh_error := RhOther (EPlain "connection refused").
#[export, refine] Instance no_redhat : ServiceAccountsApi world := {
  rh_accounts _ := [];
  unmarshal_error _ := Err (EPlain "no body");
  post_token _ := throw (EPlain "connection refused");
  api_GetServiceAccounts _ _ _ := throw down;
  api_GetServiceAccount _ _ := fun w => ((None, Err down), w);
  api_CreateServiceAccount _ _ _ := throw down;
  api_DeleteServiceAccount _ _ := throw down;
  api_UpdateServiceAccount _ _ _ _ := throw down;
  api_ResetServiceAccountSecret _ _ := throw down
}.
Proof. all: try done. intros token id w e w' Hrun. by left. Defined.

Definition uuid : string := "01234567-89ab-cdef-0123-456789abcdef".
Definition stored : world := mkWorld [account uuid "org-1"; account "b" "org-1"] ∅ 3 false.
Definition user_token (_ : RequestContext) : result error string := Ok "user token".
Definition handler : keycloakServiceProxy world := build MAS_SSO config None.
Definition delete_request (id : string) : Request unit := mkRequest (ctx admin) id (fun _ => "") (Ok tt).
Definition deletion : result ServiceError (Z * unit) * world := accounts_DeleteServiceAccount user_token handler (delete_request uuid) stored.
End AccountsExample.
Import KeycloakExample AccountsExample.

Lemma accepted_account_deletion_witness :
  fst deletion = Ok (StatusNoContent, tt) /\ w_clients (snd deletion) = without uuid (w_clients stored).
Proof.
  assert (fst deletion = Ok (StatusNoContent, tt)) as Hok by (vm_compute; reflexivity). split; [exact Hok|].
  assert (accounts_DeleteServiceAccount user_token handler (delete_request uuid) stored = (Ok (StatusNoContent, tt), snd deletion)) as Hrun
    by (rewrite <- Hok; apply surjective_pairing).
  exact (proj2 (proj2 (accepted_account_deletion user_token config (delete_request uuid) StatusNoContent stored (snd deletion) Hrun))).
Defined.

Lemma malformed_account_id_is_refused_witness :
  exists err, accounts_DeleteServiceAccount user_token handler (delete_request "x") stored = (Err err, stored) /\ IsClientErrorClass err = true.
Proof.
  destruct (malformed_account_id_is_refused user_token (delete_request "x") handler stored ltac:(vm_compute; reflexivity)) as (err & H1 & _ & _ & H2).
  exists err. split; [exact H1|exact H2].
Defined.
