(* ===== verification/Vault.v ===== *)
(** * The vault of the connector secrets

    [src/internal/connector/internal/services/vault]: the interface
    [VaultService], the vault in memory ([vault_service_tmp.go]), the vault on
    the AWS Secrets Manager ([vault_service_aws.go]) and the configuration
    ([config.go]).  What a client may rely on is the class [VaultService]; both
    vaults are instances of it.  The counting of the metrics is left out. *)
From stdpp Require Import gmap strings.
From S2P Require Import Prelude Arrays Errors Store.

Open Scope Z_scope.

(** ** The interface

    [secret_of] is what the vault keeps under a name.  A vault may fail at any
    time; whatever the outcome, a call touches only the secret it names, and a
    secret that is there is read as it was written.  A traversal stops when the function answers [false]; its result is the list of
    names and owners that were passed to the function. *)
Class VaultService (V : Type) := {
  SetSecretString : string -> string -> string -> M V error unit;
  GetSecretString : string -> M V error string;
  DeleteSecretString : string -> M V error unit;
  ForEachSecret : (string -> string -> bool) -> M V error (list (string * string));
  Kind : string;
  secret_of : V -> string -> option string;
  set_ok : forall name value owner v v', SetSecretString name value owner v = (Ok tt, v') -> secret_of v' name = Some value;
  set_others : forall name value owner v r v' n, SetSecretString name value owner v = (r, v') -> n <> name -> secret_of v' n = secret_of v n;
  get_value : forall name v x v' y, GetSecretString name v = (Ok x, v') -> secret_of v name = Some y -> x = y;
  get_keeps : forall name v r v' n, GetSecretString name v = (r, v') -> secret_of v' n = secret_of v n;
  delete_ok : forall name v v', DeleteSecretString name v = (Ok tt, v') -> secret_of v' name = None;
  delete_others : forall name v r v' n, DeleteSecretString name v = (r, v') -> n <> name -> secret_of v' n = secret_of v n
}.

Definition KindTmp : string := "tmp".
Definition KindAws : string := "aws".
Definition DefaultRegion : string := "us-east-1".
Definition NotFoundInVault : error := EPlain "not found".

(** The elements up to and including the first one that the function refuses. *)
Fixpoint visited (f : string -> string -> bool) (l : list (string * string)) : list (string * string) * bool :=
  match l with
  | [] => ([], true)
  | (name, owner) :: l' =>
      if f name owner then let '(seen, go) := visited f l' in ((name, owner) :: seen, go) else ([(name, owner)], false)
  end.

(** ** The vault in memory: [vault_service_tmp.go]

    Every operation holds the mutex of the service. *)
Module Tmp.
Record tmpSecret := mkTmpSecret { name : string; value : string; owningResource : string }.
Record TmpVaultService := mkTmpVaultService {
  secrets : gmap string tmpSecret;
  deleteCounter : Z;
  insertCounter : Z;
  updateCounter : Z;
  getCounter : Z;
  missCounter : Z
}.
Definition eta (k : TmpVaultService) : TmpVaultService :=
  mkTmpVaultService (secrets k) (deleteCounter k) (insertCounter k) (updateCounter k) (getCounter k) (missCounter k).
#[export] Instance set_secrets : Setter secrets := ltac:(build_setter eta).
#[export] Instance set_deleteCounter : Setter deleteCounter := ltac:(build_setter eta).
#[export] Instance set_insertCounter : Setter insertCounter := ltac:(build_setter eta).
#[export] Instance set_updateCounter : Setter updateCounter := ltac:(build_setter eta).
#[export] Instance set_getCounter : Setter getCounter := ltac:(build_setter eta).
#[export] Instance set_missCounter : Setter missCounter := ltac:(build_setter eta).

Record Counters := mkCounters { Deletes : Z; Inserts : Z; Updates : Z; Gets : Z; Misses : Z }.

Definition NewTmpVaultService : TmpVaultService := mkTmpVaultService ∅ 0 0 0 0 0.
Definition ResetCounters (k : TmpVaultService) : TmpVaultService := mkTmpVaultService (secrets k) 0 0 0 0 0.
Definition counters (k : TmpVaultService) : Counters :=
  mkCounters (deleteCounter k) (insertCounter k) (updateCounter k) (getCounter k) (missCounter k).

Definition tmp_SetSecretString (n v owner : string) : M TmpVaultService error unit := fun k =>
  let k := match k.(secrets) !! n with
           | Some _ => k <| updateCounter := int64 (k.(updateCounter) + 1) |>
           | None => k <| insertCounter := int64 (k.(insertCounter) + 1) |>
           end in
  (Ok tt, k <| secrets := <[n := mkTmpSecret n v owner]> k.(secrets) |>).

Definition tmp_GetSecretString (n : string) : M TmpVaultService error string := fun k =>
  match k.(secrets) !! n with
  | Some entry => (Ok entry.(value), k <| getCounter := int64 (k.(getCounter) + 1) |>)
  | None => (Err NotFoundInVault, k <| missCounter := int64 (k.(missCounter) + 1) |>)
  end.

Definition tmp_DeleteSecretString (n : string) : M TmpVaultService error unit := fun k =>
  match k.(secrets) !! n with
  | Some _ => (Ok tt, k <| deleteCounter := int64 (k.(deleteCounter) + 1) |> <| secrets := delete n k.(secrets) |>)
  | None => (Err NotFoundInVault, k)
  end.

(** Go's order of a map is arbitrary; [range] is the one of this traversal. *)
Definition tmp_ForEachSecret (range : list tmpSecret -> list tmpSecret) (f : string -> string -> bool) :
    M TmpVaultService error (list (string * string)) := fun k =>
  (Ok (fst (visited f (map (fun s => (s.(name), s.(owningResource))) (range (map snd (map_to_list k.(secrets))))))), k).

Definition secret_in (k : TmpVaultService) (n : string) : option string := value <$> k.(secrets) !! n.

#[export] Program Instance tmp_vault : VaultService TmpVaultService := {|
  Vault.SetSecretString := tmp_SetSecretString; Vault.GetSecretString := tmp_GetSecretString;
  Vault.DeleteSecretString := tmp_DeleteSecretString; Vault.ForEachSecret := tmp_ForEachSecret id; Kind := KindTmp; secret_of := secret_in |}.
Next Obligation.
  intros n x owner k k'. unfold tmp_SetSecretString, secret_in. intros [= <-]. destruct (secrets k !! n); cbn; by rewrite lookup_insert_eq.
Qed.
Next Obligation.
  intros n x owner k r k' m. unfold tmp_SetSecretString, secret_in. intros [= _ <-] Hne.
  destruct (secrets k !! n); cbn; by rewrite lookup_insert_ne by done.
Qed.
Next Obligation.
  intros n k x k' y. unfold tmp_GetSecretString, secret_in. destruct (secrets k !! n); [|done]. intros [= <- _] [= <-]. done.
Qed.
Next Obligation. intros n k r k' m. unfold tmp_GetSecretString, secret_in. by destruct (secrets k !! n); intros [= _ <-]. Qed.
Next Obligation.
  intros n k k'. unfold tmp_DeleteSecretString, secret_in. destruct (secrets k !! n); intros [= <-]. cbn. by rewrite lookup_delete_eq.
Qed.
Next Obligation.
  intros n k r k' m. unfold tmp_DeleteSecretString, secret_in. destruct (secrets k !! n); intros [= _ <-] Hne; [|done].
  cbn. by rewrite lookup_delete_ne by done.
Qed.
End Tmp.
Export (hints) Tmp.

(** ** The vault on AWS: [vault_service_aws.go]

    The client of the Secrets Manager and its cache are third-party code.
    [ListSecretsPages] gives the pages it found and the error it ended with, if
    any; with a filter the names begin with the filter's value.  The cache may hold
    a secret that was removed; a name is never used twice, so that it does not hold
    an old value of a secret that is there. *)
Record SecretListEntry := mkSecretListEntry { entry_Name : option string; entry_Tags : list (string * string) }.
Class SecretsManager (C : Type) := {
  CreateSecret : string -> string -> list (string * string) -> M C error unit;
  cache_GetSecretString : string -> M C error string;
  DeleteSecret : string -> M C error unit;
  ListSecretsPages : option string -> C -> list (list SecretListEntry) * option error * C;
  aws_secret : C -> string -> option string;
  create_ok : forall name value tags c c', CreateSecret name value tags c = (Ok tt, c') -> aws_secret c' name = Some value;
  create_others : forall name value tags c r c' n, CreateSecret name value tags c = (r, c') -> n <> name -> aws_secret c' n = aws_secret c n;
  cache_value : forall name c x c' y, cache_GetSecretString name c = (Ok x, c') -> aws_secret c name = Some y -> x = y;
  cache_keeps : forall name c r c' n, cache_GetSecretString name c = (r, c') -> aws_secret c' n = aws_secret c n;
  remove_ok : forall name c c', DeleteSecret name c = (Ok tt, c') -> aws_secret c' name = None;
  remove_others : forall name c r c' n, DeleteSecret name c = (r, c') -> n <> name -> aws_secret c' n = aws_secret c n
}.

Module Aws.
Definition OwnerResourceTagKey : string := "owner-resource".

Record VaultConfig := mkConfig {
  Config_Kind : string;
  AccessKey : string;
  AccessKeyFile : string;
  SecretAccessKey : string;
  SecretAccessKeyFile : string;
  SecretPrefix : string;
  SecretPrefixEnable : bool;
  Region : string
}.
Definition vault_NewConfig : VaultConfig :=
  mkConfig KindTmp "" "secrets/vault/aws_access_key_id" "" "secrets/vault/aws_secret_access_key" "managed-connectors" false DefaultRegion.
Definition vault_Validate (c : VaultConfig) : result error unit :=
  if (c.(Config_Kind) =?s KindAws) && (c.(SecretPrefixEnable) && (c.(SecretPrefix) =?s ""))
  then Err (EPlain "error validating AWS vault config, vault-secret-prefix must be set to a non-empty value if vault-secret-prefix-enable is true")
  else Ok tt.
(** [read] is [shared.ReadFileValueString]: the content of a file. *)
Definition vault_ReadFiles (read : string -> result error string) (c : VaultConfig) : result error VaultConfig :=
  if c.(Config_Kind) =?s KindAws then
    access <-! read c.(AccessKeyFile) ;;
    secret <-! read c.(SecretAccessKeyFile) ;;
    Ok (mkConfig c.(Config_Kind) access c.(AccessKeyFile) secret c.(SecretAccessKeyFile) c.(SecretPrefix) c.(SecretPrefixEnable) c.(Region))
  else Ok c.

Record awsVaultService := mkAwsVaultService { secretPrefixEnable : bool; secretPrefix : string }.
(** [session] is the outcome of opening the session and its cache. *)
Definition NewAwsVaultService (session : VaultConfig -> result error unit) (vaultConfig : VaultConfig) : result error awsVaultService :=
  _ <-! session vaultConfig ;;
  Ok (mkAwsVaultService vaultConfig.(SecretPrefixEnable) (vaultConfig.(SecretPrefix) +:+ "/")).

Definition getVaultSecretName (k : awsVaultService) (name : string) : string :=
  if k.(secretPrefixEnable) then k.(secretPrefix) +:+ name else name.

Fixpoint getTag (tags : list (string * string)) (key : string) : string :=
  match tags with
  | [] => ""
  | (k, v) :: tags' => if k =?s key then v else getTag tags' key
  end.

Section Service.
Context {C : Type} `{SecretsManager C} (k : awsVaultService).

Definition aws_GetSecretString (name : string) : M C error string := cache_GetSecretString (getVaultSecretName k name).
Definition aws_SetSecretString (name value owningResource : string) : M C error unit :=
  CreateSecret (getVaultSecretName k name) value (if owningResource =?s "" then [] else [(OwnerResourceTagKey, owningResource)]).
Definition aws_DeleteSecretString (name : string) : M C error unit := DeleteSecret (getVaultSecretName k name).

(** The pages up to the one where the function stops. *)
Fixpoint visited_pages (f : string -> string -> bool) (pages : list (list SecretListEntry)) : list (string * string) * bool :=
  match pages with
  | [] => ([], true)
  | page :: pages' =>
      let '(seen, go) := visited f (map (fun e => (default "" e.(entry_Name), getTag e.(entry_Tags) OwnerResourceTagKey)) page) in
      if go then let '(seen', go') := visited_pages f pages' in (seen ++ seen', go') else (seen, false)
  end.
Definition aws_ForEachSecret (f : string -> string -> bool) : M C error (list (string * string)) := fun c =>
  let '(pages, failure, c') := ListSecretsPages (if k.(secretPrefixEnable) then Some k.(secretPrefix) else None) c in
  let '(seen, go) := visited_pages f pages in
  match failure with
  | Some e => if go then (Err e, c') else (Ok seen, c')
  | None => (Ok seen, c')
  end.

(** Names of the vault are told apart by their names on AWS. *)
Lemma getVaultSecretName_inj n m : getVaultSecretName k n = getVaultSecretName k m -> n = m.
Proof. unfold getVaultSecretName. destruct (secretPrefixEnable k); [|done]. apply (inj (String.append _)). Qed.

#[export] Program Instance aws_vault : VaultService C := {|
  Vault.SetSecretString := aws_SetSecretString; Vault.GetSecretString := aws_GetSecretString;
  Vault.DeleteSecretString := aws_DeleteSecretString; Vault.ForEachSecret := aws_ForEachSecret; Kind := KindAws;
  secret_of c n := aws_secret c (getVaultSecretName k n) |}.
Next Obligation. intros n x owner c c'. apply create_ok. Qed.
Next Obligation. intros n x owner c r c' m Hs Hne. eapply create_others; [exact Hs|]. by intros ?%getVaultSecretName_inj. Qed.
Next Obligation. intros n c x c' y. apply cache_value. Qed.
Next Obligation. intros n c r c' m. apply cache_keeps. Qed.
Next Obligation. intros n c c'. apply remove_ok. Qed.
Next Obligation. intros n c r c' m Hs Hne. eapply remove_others; [exact Hs|]. by intros ?%getVaultSecretName_inj. Qed.
End Service.
End Aws.

(** [NewVaultService], by the kind of the configuration. *)
Inductive vault_choice := ChosenAws (k : Aws.awsVaultService) | ChosenTmp (k : Tmp.TmpVaultService).
Definition NewVaultService (session : Aws.VaultConfig -> result error unit) (vaultConfig : Aws.VaultConfig) : result error vault_choice :=
  let kind := vaultConfig.(Aws.Config_Kind) in
  if kind =?s KindAws then k <-! Aws.NewAwsVaultService session vaultConfig ;; Ok (ChosenAws k)
  else if kind =?s KindTmp then Ok (ChosenTmp Tmp.NewTmpVaultService)
  else Err (EPlain "invalid vault kind: %s").

(** ** What the counters count *)
Module TmpFacts.
(** The number of secrets and the two counters that change it. *)
Definition balanced (k : Tmp.TmpVaultService) : Prop :=
  Z.of_nat (size k.(Tmp.secrets)) = k.(Tmp.insertCounter) - k.(Tmp.deleteCounter).

Inductive vault_call :=
| CallSet (name value owner : string)
| CallGet (name : string)
| CallDelete (name : string).
Definition call (c : vault_call) (k : Tmp.TmpVaultService) : Tmp.TmpVaultService :=
  match c with
  | CallSet n v o => snd (Tmp.tmp_SetSecretString n v o k)
  | CallGet n => snd (Tmp.tmp_GetSecretString n k)
  | CallDelete n => snd (Tmp.tmp_DeleteSecretString n k)
  end.
Definition calls (l : list vault_call) : Tmp.TmpVaultService := foldl (fun k c => call c k) Tmp.NewTmpVaultService l.

Lemma int64_step z n : 0 <= z <= n -> n + 1 < 2 ^ 63 -> int64 (z + 1) = z + 1.
Proof. intros ? ?. apply int64_id. unfold in_int64. lia. Qed.

(** The counters never exceed the number of calls, and the vault stays balanced. *)
Lemma calls_balanced l : Z.of_nat (length l) + 1 < 2 ^ 63 ->
  let k := calls l in
  balanced k /\ 0 <= k.(Tmp.insertCounter) <= Z.of_nat (length l) /\ 0 <= k.(Tmp.deleteCounter) <= Z.of_nat (length l).
Proof.
  induction l as [|c l IH] using rev_ind; intros Hlen; simpl; [unfold calls, balanced; simpl; rewrite map_size_empty; lia|].
  rewrite length_app in Hlen |- *. simpl in Hlen |- *. unfold calls. rewrite foldl_app. simpl. fold (calls l).
  destruct IH as (Hb & Hi & Hd); [lia|]. unfold balanced in *. destruct c as [n v o|n|n]; simpl.
  - destruct (Tmp.secrets (calls l) !! n) eqn:E; simpl; rewrite map_size_insert, E; simpl; rewrite ?(int64_step _ (Z.of_nat (length l))) by lia; lia.
  - unfold Tmp.tmp_GetSecretString. destruct (Tmp.secrets (calls l) !! n); simpl; lia.
  - unfold Tmp.tmp_DeleteSecretString. destruct (Tmp.secrets (calls l) !! n) eqn:E; simpl; [|lia].
    rewrite map_size_delete, E. simpl. rewrite (int64_step _ (Z.of_nat (length l))) by lia.
    assert (0 < size (Tmp.secrets (calls l)))%nat; [|lia].
    destruct (size (Tmp.secrets (calls l))) eqn:Es; [|lia]. apply map_size_empty_inv in Es. rewrite Es in E. by rewrite lookup_empty in E.
Qed.
End TmpFacts.
