(* ===== verification/ConnectorSecrets.v ===== *)
(** * Connectors: secrets, presentation and the handlers of connectors

    [src/internal/connector/internal/handlers/connector_secrets.go]: the secrets
    of a connector are moved to the vault and replaced by references before the
    row is written, and taken out before a connector is shown.  With it the
    presenters of connectors ([presenters/connector.go],
    [presenters/connector_request.go]), the handlers that create, read, change
    and list connectors ([handlers/connectors.go]), the validation of a
    configuration ([handlers/connector_validation.go]) and the removal of secrets
    after a deletion ([services/connectors.go]).

    The world is that of the services together with the vault, the supply of
    identifiers and the lists of secrets that wait for the commit of the request's
    transaction. *)
From S2P Require Import Prelude Arrays Errors Status Config Model Store Validation Vault Secrets.
From S2P Require Import ConnectorModel ConnectorStore ConnectorNamespaces ConnectorClusters Connectors ConnectorTypes ConnectorSystem ConnectorHandlers.

Open Scope Z_scope.

(** ** The world *)
(** [api.NewID]: identifiers are unique and not empty. *)
Class KeyIds := {
  NewID : nat -> string;
  NewID_inj : Inj (=) (=) NewID;
  NewID_nonempty : forall n, NewID n <> ""
}.

Record sworld (D V : Type) := mkSworld {
  services : cworld D;
  vault : V;
  ids_used : nat;
  staleSecrets : list (list string)
}.
Arguments mkSworld {D V}.
Arguments services {D V}.
Arguments vault {D V}.
Arguments ids_used {D V}.
Arguments staleSecrets {D V}.

#[export] Instance set_ConnectorSpec : Setter CO.ConnectorSpec := ltac:(build_setter CO.eta).
#[export] Instance set_ServiceAccount : Setter CO.ServiceAccount := ltac:(build_setter CO.eta).

(** ** Public types

    The configuration of a connector is a map from names to JSON values; a nil
    map is [JNull].  The time stamps are left out, as in the rows. *)
Record ConnectorRequest := mkConnectorRequest {
  RQ_Name : string;
  RQ_ConnectorTypeId : string;
  RQ_NamespaceId : string;
  RQ_Channel : string;
  RQ_DesiredState : string;
  RQ_Annotations : list Annotation;
  RQ_Kafka : KafkaConnectionSettings;
  RQ_SchemaRegistry : SchemaRegistryConnectionSettings;
  RQ_ClientId : string;
  RQ_ClientSecret : string;
  RQ_Connector : Node
}.
Definition eta_request (r : ConnectorRequest) : ConnectorRequest :=
  mkConnectorRequest (RQ_Name r) (RQ_ConnectorTypeId r) (RQ_NamespaceId r) (RQ_Channel r) (RQ_DesiredState r) (RQ_Annotations r)
    (RQ_Kafka r) (RQ_SchemaRegistry r) (RQ_ClientId r) (RQ_ClientSecret r) (RQ_Connector r).
#[export] Instance set_RQ_Name : Setter RQ_Name := ltac:(build_setter eta_request).
#[export] Instance set_RQ_ConnectorTypeId : Setter RQ_ConnectorTypeId := ltac:(build_setter eta_request).
#[export] Instance set_RQ_NamespaceId : Setter RQ_NamespaceId := ltac:(build_setter eta_request).
#[export] Instance set_RQ_Channel : Setter RQ_Channel := ltac:(build_setter eta_request).
#[export] Instance set_RQ_DesiredState : Setter RQ_DesiredState := ltac:(build_setter eta_request).
#[export] Instance set_RQ_Annotations : Setter RQ_Annotations := ltac:(build_setter eta_request).
#[export] Instance set_RQ_Kafka : Setter RQ_Kafka := ltac:(build_setter eta_request).
#[export] Instance set_RQ_ClientId : Setter RQ_ClientId := ltac:(build_setter eta_request).
#[export] Instance set_RQ_ClientSecret : Setter RQ_ClientSecret := ltac:(build_setter eta_request).

Record PublicConnector := mkPublicConnector {
  PC_Id : string;
  PC_Kind : string;
  PC_Href : string;
  PC_Owner : string;
  PC_Name : string;
  PC_ResourceVersion : Z;
  PC_NamespaceId : string;
  PC_ConnectorTypeId : string;
  PC_Connector : Node;
  PC_Annotations : list Annotation;
  PC_State : string;
  PC_Error : string;
  PC_DesiredState : string;
  PC_Channel : string;
  PC_Kafka : KafkaConnectionSettings;
  PC_SchemaRegistry : SchemaRegistryConnectionSettings;
  PC_ClientId : string;
  PC_ClientSecret : string
}.
Definition eta_public (c : PublicConnector) : PublicConnector :=
  mkPublicConnector (PC_Id c) (PC_Kind c) (PC_Href c) (PC_Owner c) (PC_Name c) (PC_ResourceVersion c) (PC_NamespaceId c) (PC_ConnectorTypeId c)
    (PC_Connector c) (PC_Annotations c) (PC_State c) (PC_Error c) (PC_DesiredState c) (PC_Channel c) (PC_Kafka c) (PC_SchemaRegistry c)
    (PC_ClientId c) (PC_ClientSecret c).
#[export] Instance set_PC_Name : Setter PC_Name := ltac:(build_setter eta_public).
#[export] Instance set_PC_NamespaceId : Setter PC_NamespaceId := ltac:(build_setter eta_public).
#[export] Instance set_PC_Connector : Setter PC_Connector := ltac:(build_setter eta_public).
#[export] Instance set_PC_Annotations : Setter PC_Annotations := ltac:(build_setter eta_public).
#[export] Instance set_PC_Error : Setter PC_Error := ltac:(build_setter eta_public).
#[export] Instance set_PC_DesiredState : Setter PC_DesiredState := ltac:(build_setter eta_public).
#[export] Instance set_PC_Kafka : Setter PC_Kafka := ltac:(build_setter eta_public).
#[export] Instance set_PC_SchemaRegistry : Setter PC_SchemaRegistry := ltac:(build_setter eta_public).
#[export] Instance set_PC_ClientId : Setter PC_ClientId := ltac:(build_setter eta_public).
#[export] Instance set_PC_ClientSecret : Setter PC_ClientSecret := ltac:(build_setter eta_public).

(** What [encoding/json] makes of these types, the patches of
    [github.com/evanphx/json-patch], and the schemas of
    [github.com/xeipuuv/gojsonschema]. *)
Class PatchLibrary := {
  marshal_connector : PublicConnector -> result error string;
  unmarshal_request : string -> result error ConnectorRequest;
  unmarshal_spec : string -> result error string;
  unmarshal_conditions : string -> result error (list Condition);
  JsonPatch : Type;
  DecodePatch : string -> result error JsonPatch;
  ApplyPatch : JsonPatch -> string -> result error string;
  CreateMergePatch : string -> string -> result error string;
  MergePatch : string -> string -> result error string;
  LoadedSchema : Type;
  NewSchema : Node -> result error LoadedSchema;
  schema_Validate : LoadedSchema -> Node -> result error (list string)
}.

(** ** Presenters *)
(** The slice of a message panics when its end comes before its start. *)
Definition marked_message (message : string) : option string :=
  match String.index 0 "error.message" message, String.index 0 "failure.count" message with
  | Some start, Some end_ =>
      if (end_ <? start + 14)%nat then None else Some (String.substring (start + 14) (end_ - (start + 14)) message)
  | _, _ => Some message
  end.
(** [None] for a panic. *)
Definition getStatusError (conditions : list Condition) : option string :=
  match List.find (fun c => c.(Condition_Type) =?s "Ready") conditions with
  | Some c =>
      if c.(Condition_Status) =?s "False"
      then option_map (fun finalError => c.(Condition_Reason) +:+ ": " +:+ finalError) (marked_message c.(Condition_Message))
      else Some ""
  | None => Some ""
  end.

Section Presenters.
Context `{JsonLibrary} `{PatchLibrary}.

Definition ConvertConnectorAnnotations (id : string) (annotations : list Annotation) : list Annotation := annotations.
Definition optional (s : string) : option string := if s =?s "" then None else Some s.

Definition ConvertConnectorRequest (id : string) (from : ConnectorRequest) : result ServiceError Connector :=
  spec <-! map_err (fun _ => BadRequest "invalid connector spec: %v") (json_Marshal from.(RQ_Connector)) ;;
  Ok (CO.mkConnector id false (optional from.(RQ_NamespaceId)) "" "" false from.(RQ_Name) "" "" 0
        (ConvertConnectorAnnotations id from.(RQ_Annotations)) from.(RQ_ConnectorTypeId) spec from.(RQ_DesiredState) from.(RQ_Channel)
        from.(RQ_Kafka) from.(RQ_SchemaRegistry) (mkServiceAccount from.(RQ_ClientId) from.(RQ_ClientSecret) "") no_status).

Definition ConvertConnector (from : PublicConnector) : result ServiceError Connector :=
  spec <-! map_err (fun _ => BadRequest "invalid connector spec: %v") (json_Marshal from.(PC_Connector)) ;;
  Ok (CO.mkConnector from.(PC_Id) false (optional from.(PC_NamespaceId)) "" "" false from.(PC_Name) from.(PC_Owner) "" from.(PC_ResourceVersion)
        (ConvertConnectorAnnotations from.(PC_Id) from.(PC_Annotations)) from.(PC_ConnectorTypeId) spec from.(PC_DesiredState) from.(PC_Channel)
        from.(PC_Kafka) from.(PC_SchemaRegistry) (mkServiceAccount from.(PC_ClientId) from.(PC_ClientSecret) "")
        (no_status <| CS.Phase := from.(PC_State) |>)).

Definition PresentConnectorAnnotations (annotations : list Annotation) : list Annotation := PresentAnnotations annotations.

(** [api.JSON.Unmarshal] into an empty map, which an absent text leaves alone. *)
Definition json_object (text : string) : result error Node := if text =?s "" then Ok (JObject []) else json_Unmarshal text.

Definition PresentConnector (from : Connector) : result ServiceError PublicConnector :=
  spec <-! map_err (fun _ => BadRequest "invalid connector spec: %v") (json_object from.(CO.ConnectorSpec)) ;;
  let reference := PresentReference from.(CO.ID) ObjConnector in
  Ok (mkPublicConnector reference.(CR_Id) reference.(CR_Kind) reference.(CR_Href) from.(CO.Owner) from.(CO.Name) from.(CO.Version)
        (default "" from.(CO.NamespaceId)) from.(CO.ConnectorTypeId) spec (PresentConnectorAnnotations from.(CO.Annotations))
        from.(CO.Status).(CS.Phase) "" from.(CO.DesiredState) from.(CO.Channel) from.(CO.Kafka) from.(CO.SchemaRegistry)
        from.(CO.ServiceAccount).(ServiceAccount_ClientId) from.(CO.ServiceAccount).(ServiceAccount_ClientSecret)).

(** The message for the conditions of a deployment, if there are any. *)
Definition status_error (conditions : option string) : result ServiceError (option string) :=
  match conditions with
  | None => Ok (Some "")
  | Some text =>
      l <-! map_err (fun _ => GeneralError "invalid conditions: %v") (unmarshal_conditions text) ;;
      Ok (getStatusError l)
  end.

(** [None] for a panic. *)
Definition PresentConnectorWithError (from : Connector) (conditions : option string) : result ServiceError (option PublicConnector) :=
  connector <-! PresentConnector from ;;
  message <-! status_error conditions ;;
  Ok (option_map (fun m => connector <| PC_Error := m |>) message).

Record ConnectorAdminView := mkConnectorAdminView {
  CAV_Reference : ConnectorReference;
  CAV_Id : string;
  CAV_Owner : string;
  CAV_Name : string;
  CAV_ResourceVersion : Z;
  CAV_NamespaceId : string;
  CAV_ConnectorTypeId : string;
  CAV_State : string;
  CAV_Error : string;
  CAV_DesiredState : string;
  CAV_Channel : string;
  CAV_Annotations : list Annotation
}.
Definition PresentConnectorAdminView (from : Connector) (conditions : option string) : result ServiceError (option ConnectorAdminView) :=
  let state := from.(CO.Status).(CS.Phase) in
  message <-! (if one_of [ConnectorStatusPhaseFailed; ConnectorStatusPhaseStopped] state then status_error conditions else Ok (Some "")) ;;
  Ok (option_map (fun m => mkConnectorAdminView (PresentReference from.(CO.ID) ObjConnectorAdminView) from.(CO.ID) from.(CO.Owner) from.(CO.Name)
        from.(CO.Version) (default "" from.(CO.NamespaceId)) from.(CO.ConnectorTypeId) state m from.(CO.DesiredState) from.(CO.Channel)
        (PresentConnectorAnnotations from.(CO.Annotations))) message).
End Presenters.

(** ** Secrets: [connector_secrets.go] *)
Definition OwningResourcePrefix : string := "/v1/connector/".

Section Handlers.
Context `{JsonLibrary} `{PatchLibrary} `{KeyIds}.
Context {D V : Type} `{ConnectorDB D} `{StateMachineLibrary} `{ConnectorAccounts} `{LabelSyntax} `{VaultService V}.
Context (connectorsConfig : ConnectorsConfig) (quotaConfig : ConnectorsQuotaConfig).
Abbreviation SW := (sworld D V).
Abbreviation S A := (M SW ServiceError A).

Definition on_services {E A} (m : M (cworld D) E A) : M SW E A := fun w =>
  let '(r, s) := m w.(services) in (r, mkSworld s w.(vault) w.(ids_used) w.(staleSecrets)).
Definition on_vault {E A} (m : M V E A) : M SW E A := fun w =>
  let '(r, v) := m w.(vault) in (r, mkSworld w.(services) v w.(ids_used) w.(staleSecrets)).
Definition new_id {E} : M SW E string := fun w =>
  (Ok (NewID w.(ids_used)), mkSworld w.(services) w.(vault) (w.(ids_used) + 1) w.(staleSecrets)).
(** A post-commit action that removes secrets. *)
Definition remove_after_commit {E} (refs : list string) : M SW E unit := fun w =>
  (Ok tt, mkSworld w.(services) w.(vault) w.(ids_used) (w.(staleSecrets) ++ [refs])).

(** Objects lose their members, other values become null. *)
Definition hide_secret {W} (node : Node) : M W error Node :=
  match node with
  | JObject _ => lift (SetObject [] node)
  | JNull => ret node
  | _ => lift (SetNull node)
  end.
Definition stripSecretReferences {W} (resource : Connector) (ct : ConnectorType) : M W ServiceError Connector :=
  let resource := resource <| CO.ServiceAccount := mkServiceAccount resource.(CO.ServiceAccount).(ServiceAccount_ClientId) "" "" |> in
  if resource.(CO.ConnectorSpec) =?s "" then ret resource else
  updated <~ wrap_err (fun _ => GeneralError "could not remove connector secrets: %v")
               (ModifySecrets ct.(CT.JsonSchema) resource.(CO.ConnectorSpec) hide_secret) ;;
  ret (resource <| CO.ConnectorSpec := updated |>).

Definition store_secret (resourceID value : string) : M SW error string :=
  keyId <~ new_id ;;
  _ <~ on_vault (SetSecretString keyId value (OwningResourcePrefix +:+ resourceID)) ;;
  ret keyId.

Definition secret_reference (keyId : string) : list (string * Node) := [("kind", JString Kind); ("ref", JString keyId)].
Definition move_secret (resourceID : string) (errorOnObject : bool) (node : Node) : M SW error Node :=
  match node with
  | JString s => keyId <~ store_secret resourceID s ;; lift (SetObject (secret_reference keyId) node)
  | JNull => ret node
  | _ => if errorOnObject then throw (EService (BadRequest "secret field must be set to a string: ")) else ret node
  end.

(** An error that is a service error already stays the same. *)
Definition secrets_error (e : error) : ServiceError :=
  match e with EService err => err | _ => GeneralError "could not store connectors secrets in the vault: %v" end.

Definition move_client_secret (resource : Connector) : S Connector :=
  let account := resource.(CO.ServiceAccount) in
  if account.(ServiceAccount_ClientSecret) =?s "" then ret resource else
  keyId <~ wrap_err (fun _ => GeneralError "could not store kafka client secret in the vault: %v")
             (store_secret resource.(CO.ID) account.(ServiceAccount_ClientSecret)) ;;
  ret (resource <| CO.ServiceAccount := mkServiceAccount account.(ServiceAccount_ClientId) "" keyId |>).

Definition moveSecretsToVault (resource : Connector) (ct : ConnectorType) (errorOnObject : bool) : S Connector :=
  resource <~ move_client_secret resource ;;
  if resource.(CO.ConnectorSpec) =?s "" then ret resource else
  updated <~ wrap_err secrets_error
               (ModifySecrets ct.(CT.JsonSchema) resource.(CO.ConnectorSpec) (move_secret resource.(CO.ID) errorOnObject)) ;;
  ret (resource <| CO.ConnectorSpec := updated |>).

(** The reference of an object that has one. *)
Definition reference_of (node : Node) : list string :=
  match node with JObject m => match map_lookup m "ref" with Some (JString key) => [key] | _ => [] end | _ => [] end.
Definition collect_ref (node : Node) : M (list string) error Node := fun result => (Ok node, result ++ reference_of node).

Definition getSecretRefs (resource : Connector) (ct : ConnectorType) : result ServiceError (list string) :=
  let ref := resource.(CO.ServiceAccount).(ClientSecretRef) in
  let found := if ref =?s "" then [] else [ref] in
  if resource.(CO.ConnectorSpec) =?s "" then Ok found else
  match ModifySecrets ct.(CT.JsonSchema) resource.(CO.ConnectorSpec) collect_ref found with
  | (Ok _, refs) => Ok refs
  | (Err e, _) => Err (secrets_error e)
  end.

(** A set is filled, emptied and read in any order. *)
Definition StringListSubtract (l items : list string) : list string :=
  map_range (List.filter (fun x => negb (one_of items x)) (remove_dups l)).

(** Errors of the vault are only logged. *)
Fixpoint delete_secrets (refs : list string) (v : V) : V :=
  match refs with [] => v | s :: refs' => delete_secrets refs' (snd (DeleteSecretString s v)) end.

(** What runs after the deletion of a connector is committed
    ([services/connectors.go], [Delete]). *)
Definition delete_reference (node : Node) : M V error Node := fun v => (Ok node, delete_secrets (reference_of node) v).
Definition DeleteSecretsOf (resource : Connector) : M SW error unit :=
  _ <~ (let ref := resource.(CO.ServiceAccount).(ClientSecretRef) in
        if ref =?s "" then ret tt else _ <~ attempt (on_vault (DeleteSecretString ref)) ;; ret tt) ;;
  if resource.(CO.ConnectorSpec) =?s "" then ret tt else
  ct <~ attempt (on_services (GetType resource.(CO.ConnectorTypeId))) ;;
  match ct with
  | Err _ => ret tt
  | Ok ct => _ <~ attempt (on_vault (ModifySecrets ct.(CT.JsonSchema) resource.(CO.ConnectorSpec) delete_reference)) ;; ret tt
  end.

(** ** Validation: [connector_validation.go], [json_schema_validation.go] *)
Definition ValidateJsonSchema (schemaDom document : Node) : result ServiceError unit :=
  schema <-! map_err (fun _ => BadRequest "invalid %s: %v") (NewSchema schemaDom) ;;
  errs <-! map_err (fun _ => BadRequest "invalid %s: %v") (schema_Validate schema document) ;;
  match errs with [] => Ok tt | _ => Err (BadRequest "%s not conform to the %s. %d errors encountered.  1st error: %s") end.

Definition JsonSchemaAsMap (ct : ConnectorType) : result ServiceError Node :=
  if ct.(CT.JsonSchema) =?s "" then Ok JNull
  else map_err (fun _ => GeneralError "failed to convert json schema for connector type %q: %v") (json_Unmarshal ct.(CT.JsonSchema)).

Definition connectorValidationFunction (connectorTypeId channel : string) (configuration : Node) : S unit :=
  ct <~ wrap_err (fun _ => BadRequest "YYY invalid connector type id %v : %s") (on_services (GetType connectorTypeId)) ;;
  if negb (one_of ct.(CT.Channels) channel) then throw (BadRequest "channel is not valid. Must be one of: %s") else
  schemaDom <~ lift (JsonSchemaAsMap ct) ;;
  lift (ValidateJsonSchema schemaDom configuration).
Definition validateConnectorRequest (r : ConnectorRequest) : S unit :=
  connectorValidationFunction r.(RQ_ConnectorTypeId) r.(RQ_Channel) r.(RQ_Connector).
Definition validateConnector (c : PublicConnector) : S unit :=
  connectorValidationFunction c.(PC_ConnectorTypeId) c.(PC_Channel) c.(PC_Connector).

(** A validation option of the services. *)
Definition service_option (o : ValidateOption (W := cworld D)) : ValidateOption (W := SW) := fun field value => on_services (o field value).

(** ** Creation *)
Definition maxKafkaNameLength : Z := 32.
Definition maxConnectorTypeIdLength : Z := 63.
Definition no_namespace (ns : option string) : bool := match ns with None => true | Some n => n =?s "" end.

Definition Create_action (ctx : RequestContext) (resource : ConnectorRequest) : S PublicConnector :=
  let user := GetValidationUser ctx in
  ct <~ wrap_err (fun _ => BadRequest "invalid connector type id: %s") (on_services (GetType resource.(RQ_ConnectorTypeId))) ;;
  newID <~ new_id ;;
  let annotations := foldl (fun m a => set_annotation (fst a) (snd a) m) (addSystemAnnotations resource.(RQ_Annotations) user) ct.(CT.Annotations) in
  convResource <~ lift (ConvertConnectorRequest newID (resource <| RQ_Annotations := annotations |>)) ;;
  let convResource := convResource <| CO.Owner := UserId user |> <| CO.OrganisationId := OrgId user |> in
  if negb connectorsConfig.(ConnectorEnableUnassignedConnectors) && no_namespace convResource.(CO.NamespaceId)
  then throw (MinimumFieldLengthNotReached "namespace_id is not valid. Minimum length 1 is required.") else
  convResource <~ on_services (ValidateConnectorOperation convResource CreateConnector []) ;;
  convResource <~ moveSecretsToVault convResource ct true ;;
  convResource <~ on_services (CreateConnectorRow convResource) ;;
  convResource <~ stripSecretReferences convResource ct ;;
  lift (PresentConnector convResource).

Definition connector_Create (r : Request ConnectorRequest) : S (Z * PublicConnector) :=
  let user := GetValidationUser r.(req_ctx) in
  HandleBody r.(req_body)
    [ plain_check (ValidateAsyncEnabled r "creating connector");
      field_check "channel" RQ_Channel (fun v p => p <| RQ_Channel := v |>) [WithDefault "stable"; MaxLen 40];
      field_check "name" RQ_Name (fun v p => p <| RQ_Name := v |>) [WithDefault "New Connector"; MinLen 1; MaxLen 100];
      field_check "kafka.id" (fun p => p.(RQ_Kafka).(KafkaID)) (fun v p => p <| RQ_Kafka := mkKafkaConnectionSettings v p.(RQ_Kafka).(BootstrapServer) |>)
        [MinLen 1; MaxLen maxKafkaNameLength];
      field_check "kafka.url" (fun p => p.(RQ_Kafka).(BootstrapServer)) (fun v p => p <| RQ_Kafka := mkKafkaConnectionSettings p.(RQ_Kafka).(KafkaID) v |>)
        [MinLen 1];
      field_check "service_account.client_id" RQ_ClientId (fun v p => p <| RQ_ClientId := v |>) [MinLen 1];
      field_check "service_account.client_secret" RQ_ClientSecret (fun v p => p <| RQ_ClientSecret := v |>) [MinLen 1];
      field_check "connector_type_id" RQ_ConnectorTypeId (fun v p => p <| RQ_ConnectorTypeId := v |>) [MinLen 1; MaxLen maxConnectorTypeIdLength];
      field_check "desired_state" RQ_DesiredState (fun v p => p <| RQ_DesiredState := v |>) [WithDefault "ready"; IsOneOf ValidDesiredStates];
      (fun p => _ <~ validateConnectorRequest p ;; ret p);
      field_check "namespace_id" RQ_NamespaceId (fun v p => p <| RQ_NamespaceId := v |>)
        [MaxLen maxConnectorNamespaceIdLength; service_option (AuthorizedNamespaceUser user ErrorBadRequest);
         service_option (ValidateNamespaceConnectorQuota quotaConfig user)];
      plain_check (lift (validateCreateAnnotations unread_annotations)) ]
    (Create_action r.(req_ctx)) StatusAccepted.

(** ** Reading *)
(** The row with its status, joined with the conditions of the live deployments
    of the connector ([selectConnectorWithConditions]). *)
Definition deployment_conditions (t : ctables) (d : ConnectorDeployment) : option string :=
  option_map CDS.Conditions (List.find (fun s => (s.(CDS.ID) =?s d.(CD.ID)) && negb s.(CDS.Deleted)) t.(deployment_statuses)).
Definition with_conditions (t : ctables) (c : Connector) : list (Connector * option string) :=
  match List.filter (fun d => d.(CD.ConnectorID) =?s c.(CO.ID)) (live_deployments t) with
  | [] => [(with_status t c, None)]
  | l => map (fun d => (with_status t c, deployment_conditions t d)) l
  end.
Definition GetWithConditions (ctx : RequestContext) (id : string) : M (cworld D) ServiceError (Connector * option string) :=
  _ <~ lift (authenticated ctx) ;;
  found <~ wrap_err HandleGetError
             (first (fun t => concat (map (with_conditions t) (List.filter (fun c => connector_id id c && visible ctx t c) t.(connectors))))) ;;
  if (fst found).(CO.Deleted) then throw HandleGoneError else ret found.

(** A connector of an unknown type is shown without its configuration. *)
Definition shown (resource : Connector) : S Connector :=
  ct <~ attempt (on_services (GetType resource.(CO.ConnectorTypeId))) ;;
  match ct with
  | Err _ => ret (CO.with_phase "bad-connector-type" (resource <| CO.ConnectorSpec := "{}" |>))
  | Ok ct => stripSecretReferences resource ct
  end.

Definition Get_action (ctx : RequestContext) (id : string) : S (option PublicConnector) :=
  found <~ on_services (GetWithConditions ctx id) ;;
  resource <~ shown (fst found) ;;
  lift (PresentConnectorWithError resource (snd found)).
Definition service_check {Body} (c : Check (cworld D) Body) : Check SW Body := fun payload => on_services (c payload).
Definition connector_Get (r : Request unit) : S (Z * option PublicConnector) :=
  HandleNoBody [service_check (connector_id_check r.(req_id))] (Get_action r.(req_ctx) r.(req_id)) StatusOK.

(** The items of a page; [None] when the presentation of one of them panics. *)
Fixpoint presented_connectors (resources : list (Connector * option string)) : S (option (list PublicConnector)) :=
  match resources with
  | [] => ret (Some [])
  | (resource, conditions) :: resources' =>
      resource <~ shown resource ;;
      converted <~ wrap_err (fun _ => GeneralError "internal error") (lift (PresentConnectorWithError resource conditions)) ;;
      match converted with
      | None => ret None
      | Some item => items <~ presented_connectors resources' ;; ret (option_map (cons item) items)
      end
  end.

(** ** Patches *)
Definition APPLICATION_JSON : string := "application/json".
Definition JSON_PATCH : string := "application/json-patch+json".
Definition MERGE_PATCH : string := "application/merge-patch+json".

Definition refuse_members {W} (node : Node) : M W error Node :=
  match node with
  | JObject (_ :: _) => throw (EPlain "attempting to change opaque connector secret")
  | _ => ret node
  end.
Definition validateConnectorPatch (bytes : string) (ct : ConnectorType) : result ServiceError unit :=
  spec <-! map_err (fun _ => BadRequest "invalid patch: %v") (unmarshal_spec bytes) ;;
  if spec =?s "" then Ok tt else
  _ <-! map_err (fun _ => BadRequest "invalid patch: %v") (fst (ModifySecrets ct.(CT.JsonSchema) spec refuse_members tt)) ;;
  Ok tt.

Definition convertToMergePatch (patchBytes resourceJson : string) : result error string :=
  patchObj <-! map_err (fun _ => EService (BadRequest "invalid json patch: %v")) (DecodePatch patchBytes) ;;
  patched <-! map_err (fun _ => EService (GeneralError "failed to apply patch: %v")) (ApplyPatch patchObj resourceJson) ;;
  map_err (fun _ => EService (GeneralError "failed to apply patch: %v")) (CreateMergePatch resourceJson patched).

Definition PatchResource (resourceJson patchType patchBytes : string) : result ServiceError ConnectorRequest :=
  patched <-! (if one_of [MERGE_PATCH; APPLICATION_JSON] patchType
               then map_err (fun _ => BadRequest "invalid merge patch: %v") (MergePatch resourceJson patchBytes)
               else Err (BadRequest "bad Content-Type, must be one of: application/json-patch+json, application/merge-patch+json (or equivalently application/json).")) ;;
  map_err (fun _ => GeneralError "failed to decode patched resource: %v") (unmarshal_request patched).

Definition getResourceJson (resource : PublicConnector) : result ServiceError string :=
  map_err (fun _ => GeneralError "failed to encode to json") (marshal_connector resource).

(** [reflect.DeepEqual] on documents and maps, whose order does not matter. *)
Fixpoint same_nodes (eq : Node -> Node -> bool) (l l' : list Node) : bool :=
  match l, l' with
  | [], [] => true
  | a :: l, b :: l' => eq a b && same_nodes eq l l'
  | _, _ => false
  end.
Fixpoint deep_equal (a b : Node) {struct a} : bool :=
  match a, b with
  | JNull, JNull => true
  | JBool x, JBool y => Bool.eqb x y
  | JNumber x, JNumber y => x =?s y
  | JString x, JString y => x =?s y
  | JArray l, JArray l' => same_nodes deep_equal l l'
  | JObject m, JObject m' =>
      (length m =? length m')%nat
      && forallb (fun kv => match map_lookup m' (fst kv) with Some v => deep_equal (snd kv) v | None => false end) m
  | _, _ => false
  end.
Definition same_annotations (a b : list Annotation) : bool :=
  (length a =? length b)%nat && forallb (fun kv => bool_decide (map_lookup b (fst kv) = Some (snd kv))) a.
Definition same_kafka (a b : KafkaConnectionSettings) : bool := (a.(KafkaID) =?s b.(KafkaID)) && (a.(BootstrapServer) =?s b.(BootstrapServer)).
Definition same_registry (a b : SchemaRegistryConnectionSettings) : bool := (a.(SchemaRegistryID) =?s b.(SchemaRegistryID)) && (a.(Url) =?s b.(Url)).
Definition same_connector (a b : PublicConnector) : bool :=
  (a.(PC_Id) =?s b.(PC_Id)) && (a.(PC_Kind) =?s b.(PC_Kind)) && (a.(PC_Href) =?s b.(PC_Href)) && (a.(PC_Owner) =?s b.(PC_Owner))
  && (a.(PC_Name) =?s b.(PC_Name)) && (a.(PC_ResourceVersion) =? b.(PC_ResourceVersion)) && (a.(PC_NamespaceId) =?s b.(PC_NamespaceId))
  && (a.(PC_ConnectorTypeId) =?s b.(PC_ConnectorTypeId)) && deep_equal a.(PC_Connector) b.(PC_Connector)
  && same_annotations a.(PC_Annotations) b.(PC_Annotations) && (a.(PC_State) =?s b.(PC_State)) && (a.(PC_Error) =?s b.(PC_Error))
  && (a.(PC_DesiredState) =?s b.(PC_DesiredState)) && (a.(PC_Channel) =?s b.(PC_Channel)) && same_kafka a.(PC_Kafka) b.(PC_Kafka)
  && same_registry a.(PC_SchemaRegistry) b.(PC_SchemaRegistry) && (a.(PC_ClientId) =?s b.(PC_ClientId)) && (a.(PC_ClientSecret) =?s b.(PC_ClientSecret)).

Definition immutable_of_request (r : ConnectorRequest) : Immutable := mkImmutable r.(RQ_ConnectorTypeId) r.(RQ_NamespaceId) r.(RQ_Channel).
Definition immutable_of (c : PublicConnector) : Immutable := mkImmutable c.(PC_ConnectorTypeId) c.(PC_NamespaceId) c.(PC_Channel).

(** The merge patch that the body stands for, and the resource with it. *)
Definition read_patch (contentType : string) (body : result error string) (resource : PublicConnector) (ct : ConnectorType) :
    result ServiceError ConnectorRequest :=
  patchBytes <-! map_err (fun _ => BadRequest "failed to get patch bytes") body ;;
  resourceJson <-! getResourceJson resource ;;
  p <-! (if contentType =?s JSON_PATCH
         then merge <-! map_err (fun _ => BadRequest "failed to convert to merge patch: %v") (convertToMergePatch patchBytes resourceJson) ;;
              Ok (merge, MERGE_PATCH)
         else Ok (patchBytes, contentType)) ;;
  _ <-! validateConnectorPatch (fst p) ct ;;
  PatchResource resourceJson (snd p) (fst p).

(** The fields that the user may change. *)
Definition patched_resource (operation : string) (patch : ConnectorRequest) (desiredState : string) (resource : PublicConnector) : PublicConnector :=
  let resource := resource <| PC_DesiredState := desiredState |> <| PC_Name := patch.(RQ_Name) |> <| PC_Connector := patch.(RQ_Connector) |>
    <| PC_Annotations := patch.(RQ_Annotations) |> <| PC_Kafka := patch.(RQ_Kafka) |> <| PC_ClientId := patch.(RQ_ClientId) |>
    <| PC_ClientSecret := patch.(RQ_ClientSecret) |> <| PC_SchemaRegistry := patch.(RQ_SchemaRegistry) |> in
  if connectorsConfig.(ConnectorEnableUnassignedConnectors)
     && ((operation =?s AssignConnector) && negb (patch.(RQ_NamespaceId) =?s "") && (resource.(PC_NamespaceId) =?s "")
         || (operation =?s UnassignConnector) && (patch.(RQ_NamespaceId) =?s "") && negb (resource.(PC_NamespaceId) =?s ""))
  then resource <| PC_NamespaceId := patch.(RQ_NamespaceId) |> else resource.

Definition adminPath (connectorId : string) : string := "/api/connector_mgmt/v1/admin/kafka_connectors" +:+ "/" +:+ connectorId.

Definition revalidate (ctx : RequestContext) (urlPath connectorId : string) (patch : ConnectorRequest) (originalResource resource : PublicConnector) : S unit :=
  let user := GetValidationUser ctx in
  for_each (fun v : S unit => v)
    ([ (_ <~ Validation "name" resource.(PC_Name) [MinLen 1; MaxLen 100] ;; ret tt);
       (_ <~ Validation "connector_type_id" resource.(PC_ConnectorTypeId) [MinLen 1; MaxLen maxConnectorTypeIdLength] ;; ret tt);
       (_ <~ Validation "service_account.client_id" resource.(PC_ClientId) [MinLen 1] ;; ret tt);
       (_ <~ Validation "desired_state" resource.(PC_DesiredState) [IsOneOf ValidDesiredStates] ;; ret tt);
       lift (validateConnectorImmutableProperties (immutable_of_request patch) (immutable_of originalResource));
       lift (validatePatchAnnotations resource.(PC_Annotations) originalResource.(PC_Annotations));
       validateConnector resource ]
     ++ (if urlPath =?s adminPath connectorId then []
         else [_ <~ Validation "namespace_id" resource.(PC_NamespaceId)
                      [MaxLen maxConnectorNamespaceIdLength; service_option (AuthorizedNamespaceUser user ErrorBadRequest)] ;; ret tt])).

(** The update of the row: secrets, phase, row, and the secrets that are no
    longer referred to. *)
Definition save_patch (dbresource : Connector) (ct : ConnectorType) (operation : string) (originalState : string)
    (originalSecrets : list string) (resource : PublicConnector) : S PublicConnector :=
  p <~ lift (ConvertConnector resource) ;;
  p <~ moveSecretsToVault p ct false ;;
  p <~ (if originalState =?s ConnectorStatusPhaseAssigning then ret p else
          let status := dbresource.(CO.Status) <| CS.Phase := default "" (map_lookup ConnectorStartingPhase operation) |> in
          _ <~ on_services (SaveStatus status) ;;
          ret (CO.with_phase status.(CS.Phase) p)) ;;
  p <~ on_services (UpdateConnectorRow p) ;;
  newSecrets <~ lift (map_err (fun _ => GeneralError "could not get existing secrets: %v") (getSecretRefs p ct)) ;;
  let stale := StringListSubtract originalSecrets newSecrets in
  _ <~ (match stale with [] => ret tt | _ => remove_after_commit stale end) ;;
  p <~ stripSecretReferences p ct ;;
  lift (PresentConnector p).

(** The callback of the operation copies the state that the operation gives the
    connector, which is the old one unless the operation changed it.  The error of
    [getOperation] is not looked at; its operation is then empty. *)
Definition Patch_action (ctx : RequestContext) (urlPath connectorId contentType : string) (body : result error string) : S PublicConnector :=
  found <~ on_services (GetWithConditions ctx connectorId) ;;
  let dbresource := fst found in
  originalResource <~ lift (PresentConnector dbresource) ;;
  ct <~ wrap_err (fun _ => BadRequest "invalid connector type id: %s") (on_services (GetType dbresource.(CO.ConnectorTypeId))) ;;
  originalSecrets <~ lift (map_err (fun _ => GeneralError "could not get existing secrets: %v") (getSecretRefs dbresource ct)) ;;
  patch <~ lift (read_patch contentType body originalResource ct) ;;
  let operation := match getOperation originalResource.(PC_DesiredState) patch.(RQ_DesiredState) with Ok o => o | Err _ => "" end in
  if (operation =?s UnassignConnector) && negb connectorsConfig.(ConnectorEnableUnassignedConnectors)
  then throw (FieldValidationError "Unsupported connector state %s") else
  dbresource <~ on_services (ValidateConnectorOperation dbresource operation [fun _ => ret tt]) ;;
  let resource := patched_resource operation patch dbresource.(CO.DesiredState) originalResource in
  _ <~ revalidate ctx urlPath connectorId patch originalResource resource ;;
  if same_connector originalResource resource then ret originalResource
  else save_patch dbresource ct operation originalResource.(PC_State) originalSecrets resource.

Definition connector_Patch (ctx : RequestContext) (urlPath connectorId contentType : string) (body : result error string) : S (Z * PublicConnector) :=
  HandleNoBody
    [ service_check (connector_id_check connectorId);
      path_check "Content-Type header" contentType [IsOneOf [APPLICATION_JSON; JSON_PATCH; MERGE_PATCH]] ]
    (Patch_action ctx urlPath connectorId contentType body) StatusAccepted.

(** The actions of a request that was committed. *)
Definition committed (w : SW) : SW :=
  mkSworld w.(services) (delete_secrets (concat w.(staleSecrets)) w.(vault)) w.(ids_used) [].
End Handlers.

(** ** Secrets in answers *)
Definition hidden_at (root : Node) (k : list string) : Prop := forall n, value_at k root = Some n ->
  (head n = HNull \/ head n = HObject) /\ forall x, value_at (k ++ [x]) root = None.

Lemma clean_hidden k root : clean k root -> hidden_at root k.
Proof.
  intros Hc n Hn. pose proof (Hc n Hn) as Hh. split; [destruct Hh as [-> | ->]; auto|].
  intros x. rewrite value_at_app, Hn. cbn [mbind option_bind]. by apply hidden_no_child.
Qed.

Lemma hidden_same root root' k : same_document root root' -> hidden_at root k -> hidden_at root' k.
Proof.
  intros Hs Hh n Hn. pose proof (Hs k) as Hk. rewrite Hn in Hk. destruct (value_at k root) as [m|] eqn:Em; [|done].
  injection Hk as Hk. destruct (Hh m Em) as [Hhead Hnone]. split; [by rewrite <- Hk|].
  intros x. pose proof (Hs (k ++ [x])) as Hx. rewrite Hnone in Hx. by destruct (value_at (k ++ [x]) root').
Qed.

Lemma hidden_empty k : hidden_at (JObject []) k.
Proof. apply clean_hidden. intros n. destruct k; [intros [= <-]; by right | done]. Qed.

Section Answers.
Context `{JsonLibrary} `{PatchLibrary} `{KeyIds}.
Context {D V : Type} `{ConnectorDB D} `{StateMachineLibrary} `{ConnectorAccounts} `{LabelSyntax} `{VaultService V}.
Context (connectorsConfig : ConnectorsConfig) (quotaConfig : ConnectorsQuotaConfig).
Abbreviation SW := (sworld D V).

Lemma hide_secret_hides {W} : hides (hide_secret (W := W)).
Proof.
  intros n w n' w'. destruct n; simpl; try (intros [= Hn _]; left; by eapply SetNull_ok).
  - intros [= <- _]. by left.
  - intros [= Hn _]. right. by eapply SetObject_ok.
Qed.

(** The fields are hidden without any effect. *)
Lemma hide_secret_pure {W} n (w : W) r w' : hide_secret n w = (r, w') -> w' = w.
Proof. destruct n; simpl; by intros [= _ <-]. Qed.
Lemma modify_keeps {W} schema doc (w : W) r w' : ModifySecrets schema doc hide_secret w = (r, w') -> w' = w.
Proof. apply (modify_invariant (fun x => x = w)); [|done]. by intros n w1 r1 w2 -> ->%hide_secret_pure. Qed.

(** A stripped connector differs in its secrets only, and has none left. *)
Lemma strip_ok {W} c ct schema (w : W) c' w' : compile ct.(CT.JsonSchema) = Ok schema -> plain_schema schema = true ->
  stripSecretReferences c ct w = (Ok c', w') ->
  c'.(CO.ServiceAccount).(ServiceAccount_ClientSecret) = "" /\ c'.(CO.ConnectorTypeId) = c.(CO.ConnectorTypeId) /\ c'.(CO.ID) = c.(CO.ID) /\
  (c'.(CO.ConnectorSpec) = "" \/ exists root, ajson_Unmarshal c'.(CO.ConnectorSpec) = Ok root /\ forall k, k ∈ password_paths schema -> hidden_at root k).
Proof.
  intros Hc Hplain Hs. unfold stripSecretReferences in Hs. destruct (_ =?s "") eqn:Ee.
  - injection Hs as <- _. split_and!; try done. left. by apply String.eqb_eq.
  - apply bind_ok in Hs as (text & w1 & Hm & Hs). injection Hs as <- _. split_and!; try done. right.
    apply wrap_err_ok in Hm. destruct (modify_ok _ _ _ _ _ _ _ Hc Hplain Hm) as (ks & root & root' & Hks & _ & _ & Hv & Ht).
    apply visit_hidden in Hv as [_ Hv]; [|apply hide_secret_hides]. destruct (ajson_text _ _ Ht) as (root'' & Hr & Hsame).
    exists root''. split; [exact Hr|]. intros k Hk%Hks. apply (hidden_same root'); [done|]. apply clean_hidden. by eapply Forall_forall in Hv.
Qed.

(** What is shown of a stripped connector. *)
Lemma stripped_shown {W} c ct schema (w : W) c' w' pc : compile ct.(CT.JsonSchema) = Ok schema -> plain_schema schema = true ->
  stripSecretReferences c ct w = (Ok c', w') -> PresentConnector c' = Ok pc ->
  pc.(PC_ClientSecret) = "" /\ pc.(PC_ConnectorTypeId) = c.(CO.ConnectorTypeId) /\
  forall k, k ∈ password_paths schema -> hidden_at pc.(PC_Connector) k.
Proof.
  intros Hc Hplain Hs Hp. destruct (strip_ok _ _ _ _ _ _ Hc Hplain Hs) as (Hcs & Hty & _ & Hspec).
  unfold PresentConnector, json_object in Hp. destruct (CO.ConnectorSpec c' =?s "") eqn:Ee.
  - injection Hp as <-. split_and!; [done|done|]. intros k _. apply hidden_empty.
  - destruct Hspec as [Hspec|(root & Hr & Hroot)]; [by rewrite Hspec in Ee|].
    destruct (json_Unmarshal (CO.ConnectorSpec c')) as [spec|] eqn:Ej; [|done]. injection Hp as <-. split_and!; [done|done|].
    intros k Hk. apply (hidden_same root); [by eapply readers_agree | by apply Hroot].
Qed.

(** The run of a service inside the handlers. *)
Lemma on_services_ok {E A} (m : M (cworld D) E A) (w : SW) a w' : on_services m w = (Ok a, w') ->
  exists s, m w.(services) = (Ok a, s) /\ w' = mkSworld s w.(vault) w.(ids_used) w.(staleSecrets).
Proof. unfold on_services. destruct (m (services w)) as [r s]. intros [= -> <-]. eauto. Qed.
Lemma on_services_run {E A} (m : M (cworld D) E A) (w : SW) r w' : on_services m w = (r, w') ->
  exists s, m w.(services) = (r, s) /\ w' = mkSworld s w.(vault) w.(ids_used) w.(staleSecrets).
Proof. unfold on_services. destruct (m (services w)) as [r' s]. intros [= -> <-]. eauto. Qed.

Lemma GetType_ok id (w : cworld D) ct w' : GetType id w = (Ok ct, w') ->
  ct ∈ (tables_in w).(connector_types) /\ ct.(CT.ID) = id /\ ct.(CT.Deleted) = false /\ tables_in w' = tables_in w.
Proof.
  unfold GetType. destruct (id =?s ""); [done|]. intros Hr. apply bind_ok in Hr as (t & w1 & Hf & Hr).
  apply wrap_err_ok, first_ok in Hf as (Hin & Ht & _). apply list_elem_of_In, filter_In in Hin as [Hin Hid]. rewrite <- list_elem_of_In in Hin.
  destruct (CT.Deleted t) eqn:Ed; [done|]. injection Hr as <- <-. split_and!; try done. by apply String.eqb_eq.
Qed.

Lemma with_conditions_fst t c r : r ∈ with_conditions t c -> fst r = with_status t c.
Proof.
  unfold with_conditions. rewrite list_elem_of_In. destruct (List.filter _ _) as [|d ds]; [by intros [<-|[]]|].
  by intros (? & <- & _)%in_map_iff.
Qed.

Lemma GetWithConditions_ok ctx id (w : cworld D) found w' : GetWithConditions ctx id w = (Ok found, w') ->
  exists c, c ∈ (tables_in w).(connectors) /\ fst found = with_status (tables_in w) c /\ c.(CO.ID) = id /\ c.(CO.Deleted) = false /\
    visible ctx (tables_in w) c = true /\ tables_in w' = tables_in w.
Proof.
  intros Hr. apply bind_ok in Hr as (u & w1 & [= _ <-] & Hr). apply bind_ok in Hr as (f & w2 & Hf & Hr).
  apply wrap_err_ok, first_ok in Hf as (Hin & Ht & _). apply list_elem_of_In, in_concat in Hin as (l & Hl & Hin).
  apply in_map_iff in Hl as (c & <- & Hc). apply filter_In in Hc as [Hc Hv]. apply andb_true_iff in Hv as [Hid Hv].
  destruct (CO.Deleted (fst f)) eqn:Ed; [done|]. injection Hr as <- <-. exists c. rewrite list_elem_of_In.
  assert (fst f = with_status (tables_in w) c) as Hf by (eapply with_conditions_fst; by rewrite list_elem_of_In).
  split_and!; try done; [by apply String.eqb_eq | by rewrite Hf in Ed].
Qed.

Lemma GetType_run id (w : cworld D) r w' : GetType id w = (r, w') -> tables_in w' = tables_in w.
Proof.
  unfold GetType. destruct (id =?s ""); [by intros [= _ <-]|]. intros [(t & w1 & Hf & Hr)|(e & Hf & _)]%bind_inv.
  - apply wrap_err_ok, first_ok in Hf as (_ & Ht & _). destruct (CT.Deleted t); by injection Hr as _ <-.
  - apply wrap_err_err in Hf as (e0 & Hf & _). by apply first_err in Hf as [Ht _].
Qed.

Lemma strip_account {W} c ct (w : W) c' w' : stripSecretReferences c ct w = (Ok c', w') ->
  c'.(CO.ServiceAccount).(ServiceAccount_ClientSecret) = "" /\ c'.(CO.ConnectorTypeId) = c.(CO.ConnectorTypeId).
Proof.
  unfold stripSecretReferences. destruct (_ =?s ""); [by intros [= <- _]|]. intros (text & w1 & _ & Hs)%bind_ok. by injection Hs as <- _.
Qed.

Lemma strip_keeps {W} c ct (w : W) c' w' : stripSecretReferences c ct w = (Ok c', w') -> w' = w.
Proof.
  unfold stripSecretReferences. destruct (_ =?s ""); [by intros [= _ <-]|]. intros (text & w1 & Hm & Hs)%bind_ok. injection Hs as _ <-.
  by apply wrap_err_ok, modify_keeps in Hm.
Qed.

Lemma present_fields c pc : PresentConnector c = Ok pc ->
  pc.(PC_ClientSecret) = c.(CO.ServiceAccount).(ServiceAccount_ClientSecret) /\ pc.(PC_ConnectorTypeId) = c.(CO.ConnectorTypeId).
Proof. unfold PresentConnector. destruct (json_object _); [|done]. by intros [= <-]. Qed.

(** *** What may be shown *)
Definition plain_types (t : ctables) : Prop := forall ct schema,
  ct ∈ t.(connector_types) -> compile ct.(CT.JsonSchema) = Ok schema -> plain_schema schema = true.
(** The client secret is not a column. *)
Definition rows_bare (t : ctables) : Prop := forall c, c ∈ t.(connectors) -> c.(CO.ServiceAccount).(ServiceAccount_ClientSecret) = "".

(** No configuration at all, or one with nothing in the password fields of the
    schema of the type. *)
Definition hides_secrets (t : ctables) (typeId : string) (pc : PublicConnector) : Prop :=
  pc.(PC_ClientSecret) = "" /\
  (pc.(PC_Connector) = JObject [] \/
   exists ct, ct ∈ t.(connector_types) /\ ct.(CT.ID) = typeId /\ ct.(CT.Deleted) = false /\
     forall schema, compile ct.(CT.JsonSchema) = Ok schema -> forall k, k ∈ password_paths schema -> hidden_at pc.(PC_Connector) k).

Lemma stripped_hides {W} t typeId ct c (w : W) c' w' pc : plain_types t -> ct ∈ t.(connector_types) -> ct.(CT.ID) = typeId -> ct.(CT.Deleted) = false ->
  stripSecretReferences c ct w = (Ok c', w') -> PresentConnector c' = Ok pc -> hides_secrets t typeId pc.
Proof.
  intros Hplain Hin Hid Hdel Hs Hp. destruct (strip_account _ _ _ _ _ Hs) as [Hcs _]. destruct (present_fields _ _ Hp) as [Hpc _].
  split; [by rewrite Hpc|]. right. exists ct. split_and!; try done. intros schema Hc.
  by destruct (stripped_shown _ _ _ _ _ _ _ Hc (Hplain _ _ Hin Hc) Hs Hp) as (_ & _ & Hk).
Qed.

Lemma shown_hides c (w : SW) c' w' pc : plain_types (tables_in w.(services)) -> c.(CO.ServiceAccount).(ServiceAccount_ClientSecret) = "" ->
  shown c w = (Ok c', w') -> PresentConnector c' = Ok pc ->
  hides_secrets (tables_in w.(services)) c.(CO.ConnectorTypeId) pc /\ pc.(PC_ConnectorTypeId) = c.(CO.ConnectorTypeId) /\
  tables_in w'.(services) = tables_in w.(services).
Proof.
  intros Hplain Hcs Hs Hp. destruct (present_fields _ _ Hp) as [Hpc Hty]. unfold shown in Hs. apply bind_ok in Hs as (r & w1 & Ha & Hs).
  apply attempt_inv in Ha as (r0 & Ha & [= ->]). apply on_services_run in Ha as (s & Hg & ->). pose proof (GetType_run _ _ _ _ Hg) as Ht.
  destruct r0 as [ct|e].
  - apply GetType_ok in Hg as (Hin & Hid & Hdel & _). pose proof (stripped_hides _ _ _ _ _ _ _ _ Hplain Hin Hid Hdel Hs Hp) as Hh.
    destruct (strip_account _ _ _ _ _ Hs) as [_ Hty']. split_and!; [done|by rewrite Hty|].
    by apply strip_keeps in Hs as ->.
  - injection Hs as <- <-. split_and!; [|done|done]. split; [by rewrite Hpc|]. left.
    unfold PresentConnector, json_object in Hp. simpl in Hp. rewrite json_empty in Hp. by injection Hp as <-.
Qed.

Lemma with_error_hides t typeId c conditions pc : PresentConnectorWithError c conditions = Ok (Some pc) ->
  (forall pc0, PresentConnector c = Ok pc0 -> hides_secrets t typeId pc0) ->
  hides_secrets t typeId pc /\ pc.(PC_ConnectorTypeId) = c.(CO.ConnectorTypeId).
Proof.
  unfold PresentConnectorWithError. destruct (PresentConnector c) as [pc0|] eqn:Ep; [|done]. simpl.
  destruct (status_error conditions) as [[m|]|]; [|done|done]. intros [= <-] Hh. split; [exact (Hh pc0 eq_refl)|].
  apply (present_fields _ _ Ep).
Qed.

Lemma Get_hides ctx id (w : SW) pc w' : plain_types (tables_in w.(services)) -> rows_bare (tables_in w.(services)) ->
  Get_action ctx id w = (Ok (Some pc), w') -> hides_secrets (tables_in w.(services)) pc.(PC_ConnectorTypeId) pc.
Proof.
  intros Hplain Hbare Hr. apply bind_ok in Hr as (found & w1 & Hf & Hr). apply on_services_ok in Hf as (s & Hf & ->).
  apply GetWithConditions_ok in Hf as (c & Hin & Hfst & _ & _ & _ & Ht). apply bind_ok in Hr as (c' & w2 & Hs & Hr). injection Hr as Hr _.
  rewrite Hfst in Hs. rewrite <- Ht in Hplain |- *.
  apply (with_error_hides (tables_in s) (CO.ConnectorTypeId c)) in Hr as [Hh Hty].
  - assert (CO.ConnectorTypeId c' = CO.ConnectorTypeId c) as Heq; [|by rewrite Hty, Heq].
    unfold shown in Hs. apply bind_ok in Hs as ([ct|e] & w3 & _ & Hs); [by apply strip_account in Hs as [_ ->] | by injection Hs as <- _].
  - intros pc0 Hp. refine (proj1 (shown_hides _ (mkSworld s _ _ _) _ _ _ Hplain _ Hs Hp)). exact (Hbare c Hin).
Qed.

Lemma List_hides rows (w : SW) items w' : plain_types (tables_in w.(services)) ->
  Forall (fun r => (fst r).(CO.ServiceAccount).(ServiceAccount_ClientSecret) = "") rows ->
  presented_connectors rows w = (Ok (Some items), w') ->
  Forall2 (fun r pc => hides_secrets (tables_in w.(services)) (fst r).(CO.ConnectorTypeId) pc) rows items.
Proof.
  intros Hplain Hrows. revert w items Hplain. induction Hrows as [|[c cond] rows Hc Hrows IH]; intros w items Hplain Hr; [by injection Hr as <- _|].
  apply bind_ok in Hr as (c' & w1 & Hs & Hr). apply bind_ok in Hr as (o & w2 & Hp & Hr). apply wrap_err_ok in Hp. injection Hp as Hp <-.
  destruct o as [pc|]; [|done]. apply bind_ok in Hr as ([items'|] & w3 & Hl & Hr); [|done]. injection Hr as <- <-.
  assert (tables_in (services w1) = tables_in (services w)) as Ht.
  { unfold PresentConnectorWithError in Hp. destruct (PresentConnector c') as [pc0|] eqn:Ep; [|done].
    by destruct (shown_hides _ _ _ _ _ Hplain Hc Hs Ep) as (_ & _ & ?). }
  constructor; [|rewrite <- Ht in Hplain |- *; by apply IH].
  apply (with_error_hides (tables_in (services w)) (CO.ConnectorTypeId c)) in Hp as [Hh _]; [done|].
  intros pc0 Ep. by destruct (shown_hides _ _ _ _ _ Hplain Hc Hs Ep) as (? & _).
Qed.

(** The steps of a creation that is answered. *)
Definition owned (ctx : RequestContext) (c : Connector) : Connector :=
  let user := GetValidationUser ctx in c <| CO.Owner := UserId user |> <| CO.OrganisationId := OrgId user |>.
Lemma Create_steps ctx req (w : SW) pc w' : Create_action connectorsConfig ctx req w = (Ok pc, w') ->
  exists ct s1 annotations c0 c1 s2 c2 w3 row s4 c4,
    GetType req.(RQ_ConnectorTypeId) w.(services) = (Ok ct, s1) /\
    ConvertConnectorRequest (NewID w.(ids_used)) (req <| RQ_Annotations := annotations |>) = Ok c0 /\
    ValidateConnectorOperation (owned ctx c0) CreateConnector [] s1 = (Ok c1, s2) /\
    moveSecretsToVault c1 ct true (mkSworld s2 w.(vault) (w.(ids_used) + 1) w.(staleSecrets)) = (Ok c2, w3) /\
    CreateConnectorRow c2 w3.(services) = (Ok row, s4) /\
    stripSecretReferences row ct (mkSworld s4 w3.(vault) w3.(ids_used) w3.(staleSecrets)) = (Ok c4, w') /\
    PresentConnector c4 = Ok pc.
Proof.
  intros Hr. apply bind_ok in Hr as (ct & w1 & Hg & Hr). apply wrap_err_ok, on_services_ok in Hg as (s & Hg & ->).
  apply bind_ok in Hr as (newID & w2 & Hn & Hr). injection Hn as <- <-. apply bind_ok in Hr as (c0 & w3 & Hc & Hr). injection Hc as Hc <-.
  cbv zeta in Hr. destruct (_ && _); [done|]. apply bind_ok in Hr as (c1 & w4 & Ho & Hr). apply on_services_ok in Ho as (s2 & Ho & ->).
  apply bind_ok in Hr as (c2 & w5 & Hm & Hr). apply bind_ok in Hr as (c3 & w6 & Hi & Hr). apply on_services_ok in Hi as (s4 & Hi & ->).
  apply bind_ok in Hr as (c4 & w7 & Hs & Hr). injection Hr as Hr <-. do 11 eexists. split_and!; eassumption.
Qed.

Lemma Create_hides ctx req (w : SW) pc w' : plain_types (tables_in w.(services)) ->
  Create_action connectorsConfig ctx req w = (Ok pc, w') -> hides_secrets (tables_in w.(services)) req.(RQ_ConnectorTypeId) pc.
Proof.
  intros Hplain (ct & s1 & ann & c0 & c1 & s2 & c2 & w3 & row & s4 & c4 & Hg & _ & _ & _ & _ & Hs & Hp)%Create_steps.
  apply GetType_ok in Hg as (Hin & Hid & Hdel & _). by eapply stripped_hides.
Qed.

Lemma save_patch_hides t typeId db ct op st refs resource (w : SW) pc w' :
  plain_types t -> ct ∈ t.(connector_types) -> ct.(CT.ID) = typeId -> ct.(CT.Deleted) = false ->
  save_patch db ct op st refs resource w = (Ok pc, w') -> hides_secrets t typeId pc.
Proof.
  intros Hplain Hin Hid Hdel Hr. apply bind_ok in Hr as (p0 & w1 & _ & Hr). apply bind_ok in Hr as (p1 & w2 & _ & Hr).
  apply bind_ok in Hr as (p2 & w3 & _ & Hr). apply bind_ok in Hr as (p3 & w4 & _ & Hr). apply bind_ok in Hr as (newSecrets & w5 & _ & Hr).
  apply bind_ok in Hr as (u & w6 & _ & Hr). apply bind_ok in Hr as (p4 & w7 & Hs & Hr). injection Hr as Hr _. by eapply stripped_hides.
Qed.

(** The validators of a patch use the services only. *)
Definition beside {E A} (m : M SW E A) : Prop := forall w r w', m w = (r, w') ->
  vault w' = vault w /\ ids_used w' = ids_used w /\ staleSecrets w' = staleSecrets w.
Lemma beside_ret {E A} (a : A) : beside (ret a : M SW E A).
Proof. by intros w r w' [= _ <-]. Qed.
Lemma beside_throw {E A} (e : E) : beside (throw e : M SW E A).
Proof. by intros w r w' [= _ <-]. Qed.
Lemma beside_lift {E A} (r : result E A) : beside (lift r : M SW E A).
Proof. by intros w r' w' [= _ <-]. Qed.
Lemma beside_services {E A} (m : M (cworld D) E A) : beside (on_services m).
Proof. intros w r w' (s & _ & ->)%on_services_run. done. Qed.
Lemma beside_wrap {E E' A} (f : E -> E') (m : M SW E A) : beside m -> beside (wrap_err f m).
Proof. intros Hm w r w'. unfold wrap_err. destruct (m w) as [r0 w0] eqn:E0. intros [= _ <-]. by eapply Hm. Qed.
Lemma beside_bind {E A B} (m : M SW E A) (k : A -> M SW E B) : beside m -> (forall a, beside (k a)) -> beside (bind m k).
Proof.
  intros Hm Hk w r w' [(a & w1 & E1 & E2)|(e & E1 & _)]%bind_inv; [|by eapply Hm].
  apply Hm in E1 as (Hv & Hi & Hs). apply Hk in E2 as (Hv' & Hi' & Hs'). by rewrite Hv', Hi', Hs'.
Qed.
Lemma beside_validation field value options : Forall (fun o => forall f v, beside (o f v)) options -> beside (Validation (W := SW) field value options).
Proof.
  intros Ho. revert value. induction Ho as [|o options Ho _ IH]; intros value; [apply beside_ret|]. by apply beside_bind.
Qed.

Lemma beside_each (l : list (M SW ServiceError unit)) : Forall beside l -> beside (for_each (fun v => v) l).
Proof. induction 1 as [|v l Hv _ IH]; [apply beside_ret|]. by apply beside_bind. Qed.

Lemma beside_length min max field value : beside (Validation (W := SW) field value [MinLen min; MaxLen max]).
Proof.
  apply beside_validation. rewrite !Forall_cons, Forall_nil. split_and!; [| |done];
    intros f v; unfold MinLen, MaxLen; destruct (_ <? _); auto using beside_throw, beside_ret.
Qed.
Lemma revalidate_beside ctx urlPath connectorId patch original resource :
  beside (revalidate ctx urlPath connectorId patch original resource).
Proof.
  assert (forall m : M SW ServiceError string, beside m -> beside (_ <~ m ;; ret tt)) as Hunit
    by (intros m Hm; apply beside_bind; [done | intros; apply beside_ret]).
  assert (forall o : ValidateOption (W := cworld D), forall f v, beside (service_option (V := V) o f v)) as Hservice
    by (intros o f v; apply beside_services).
  unfold revalidate. apply beside_each, Forall_app. split.
  - rewrite !Forall_cons, Forall_nil. split_and!; try apply beside_lift; try apply Hunit, beside_length; [| | |done].
    1-2: apply Hunit, beside_validation, Forall_singleton; intros f v; unfold MinLen, IsOneOf; case_match; auto using beside_throw, beside_ret.
    apply beside_bind; [apply beside_wrap, beside_services|]. intros ct. case_match; [apply beside_throw|].
    apply beside_bind; intros; apply beside_lift.
  - destruct (_ =?s _); [constructor|]. constructor; [|constructor]. apply Hunit, beside_validation. rewrite !Forall_cons, Forall_nil. split_and!; [|apply Hservice|done].
    intros f v. unfold MaxLen. destruct (_ <? _); auto using beside_throw, beside_ret.
Qed.

(** The steps of a patch that is answered: nothing changes, or the row is
    updated. *)
Lemma Patch_steps ctx urlPath connectorId contentType body (w : SW) pc w' :
  Patch_action connectorsConfig ctx urlPath connectorId contentType body w = (Ok pc, w') ->
  exists found s1 ct s2 refs, GetWithConditions ctx connectorId w.(services) = (Ok found, s1) /\
    GetType (fst found).(CO.ConnectorTypeId) s1 = (Ok ct, s2) /\ getSecretRefs (fst found) ct = Ok refs /\
    (PresentConnector (fst found) = Ok pc /\ vault w' = vault w /\ staleSecrets w' = staleSecrets w \/
     exists db op original resource w1, PresentConnector (fst found) = Ok original /\
       PC_Id resource = PC_Id original /\ PC_State resource = PC_State original /\ PC_ResourceVersion resource = PC_ResourceVersion original /\
       save_patch db ct op (PC_State original) refs resource w1 = (Ok pc, w') /\
       staleSecrets w1 = staleSecrets w /\ ids_used w1 = ids_used w /\ vault w1 = vault w).
Proof.
  intros Hr. apply bind_ok in Hr as (found & w1 & Hf & Hr). apply on_services_ok in Hf as (s1 & Hf & ->). cbv zeta in Hr.
  apply bind_ok in Hr as (original & w2 & [= Ho <-] & Hr). apply bind_ok in Hr as (ct & w3 & Hg & Hr).
  apply wrap_err_ok, on_services_ok in Hg as (s2 & Hg & ->). apply bind_ok in Hr as (refs & w4 & [= He <-] & Hr).
  destruct (getSecretRefs (fst found) ct) as [refs'|] eqn:Er; [|done]. injection He as ->.
  apply bind_ok in Hr as (patch & w5 & [= _ <-] & Hr). destruct (_ && _); [done|].
  apply bind_ok in Hr as (db & w6 & Hv & Hr). apply on_services_ok in Hv as (s3 & Hv & ->).
  apply bind_ok in Hr as (u & w7 & Hre & Hr). exists found, s1, ct, s2, refs. split_and!; [done|done|done|].
  destruct (same_connector _ _).
  { left. injection Hr as <- <-. apply revalidate_beside in Hre as (? & ? & ?). by split_and!. }
  right. do 5 eexists. split_and!; [done| | | |exact Hr| | |].
  1-3: unfold patched_resource; by destruct (_ && _).
  all: by apply revalidate_beside in Hre as (? & ? & ?).
Qed.

(** [C27] No answer about a connector shows a secret: the client secret is empty,
    and every password field of the type's schema is null, an object without
    members, or absent, both in the answer to a creation, in one that is read or
    listed, and in the answer to a patch, unless the patch changed nothing; a
    connector whose type is unknown is shown without its configuration.  This holds
    for every order in which the fields are visited, and also when one password
    field lies inside another.  The property names of the schemas start with a
    letter or an underscore and go on with letters, digits, underscores, dashes and
    dots, and none is [length], which the path language takes for the number of
    elements; and no row holds the client secret itself, which is not a column. *)
Theorem answers_hide_secrets (w : SW) : plain_types (tables_in w.(services)) -> rows_bare (tables_in w.(services)) ->
  (forall ctx id pc w', Get_action ctx id w = (Ok (Some pc), w') -> hides_secrets (tables_in w.(services)) pc.(PC_ConnectorTypeId) pc) /\
  (forall rows items w',
     Forall (fun r => exists row, row ∈ (tables_in w.(services)).(connectors) /\ r ∈ with_conditions (tables_in w.(services)) row) rows ->
     presented_connectors rows w = (Ok (Some items), w') ->
     Forall2 (fun r pc => hides_secrets (tables_in w.(services)) (fst r).(CO.ConnectorTypeId) pc) rows items) /\
  (forall ctx req pc w', Create_action connectorsConfig ctx req w = (Ok pc, w') ->
     hides_secrets (tables_in w.(services)) req.(RQ_ConnectorTypeId) pc) /\
  (forall ctx urlPath id contentType body pc w', Patch_action connectorsConfig ctx urlPath id contentType body w = (Ok pc, w') ->
     exists row, row ∈ (tables_in w.(services)).(connectors) /\ row.(CO.ID) = id /\
       (hides_secrets (tables_in w.(services)) row.(CO.ConnectorTypeId) pc \/
        PresentConnector (with_status (tables_in w.(services)) row) = Ok pc)).
Proof.
  intros Hplain Hbare. split_and!.
  - intros ctx id pc w'. by apply Get_hides.
  - intros rows items w' Hrows. apply List_hides; [done|]. eapply Forall_impl; [exact Hrows|]. intros r (row & Hin & Hr).
    rewrite (with_conditions_fst _ _ _ Hr). exact (Hbare _ Hin).
  - intros ctx req pc w'. by apply Create_hides.
  - intros ctx urlPath id contentType body pc w' (found & s1 & ct & s2 & refs & Hf & Hg & _ & Hcase)%Patch_steps.
    apply GetWithConditions_ok in Hf as (row & Hin & Hfst & Hid & _ & _ & Ht). exists row. split_and!; [done|done|].
    rewrite Hfst in Hg, Hcase. apply GetType_ok in Hg as (Hct & Htid & Hdel & _). rewrite Ht in Hct.
    destruct Hcase as [[Hp _]|(db & op & original & resource & w1 & _ & _ & _ & _ & Hs & _)]; [by right|]. left. by eapply save_patch_hides.
Qed.
End Answers.

(** ** Secrets in the vault *)
Section Moving.
Context `{JsonLibrary} `{PatchLibrary} `{KeyIds}.
Context {D V : Type} `{ConnectorDB D} `{StateMachineLibrary} `{ConnectorAccounts} `{LabelSyntax} `{VaultService V}.
Context (connectorsConfig : ConnectorsConfig).
Abbreviation SW := (sworld D V).

(** From [w0] to [w] secrets were stored only, each under a new identifier. *)
Definition only_new (w0 w : SW) : Prop :=
  services w = services w0 /\ staleSecrets w = staleSecrets w0 /\ (ids_used w0 <= ids_used w)%nat /\
  forall name, (forall j, (ids_used w0 <= j)%nat -> name <> NewID j) -> secret_of w.(vault) name = secret_of w0.(vault) name.

Lemma only_new_refl w : only_new w w.
Proof. by split_and!. Qed.
Lemma only_new_trans w0 w1 w2 : only_new w0 w1 -> only_new w1 w2 -> only_new w0 w2.
Proof.
  intros (Hs & Hst & Hi & Hv) (Hs' & Hst' & Hi' & Hv'). split_and!; [congruence|congruence|lia|]. intros name Hn.
  rewrite Hv', Hv; [done|done|]. intros j Hj. apply Hn. lia.
Qed.

(** A secret that was stored under one of the identifiers used so far. *)
Definition stored (w : SW) (ref s : string) : Prop :=
  exists i, (i < ids_used w)%nat /\ ref = NewID i /\ secret_of w.(vault) ref = Some s.

Lemma stored_later w w' ref s : only_new w w' -> stored w ref s -> stored w' ref s.
Proof.
  intros (_ & _ & Hi & Hv) (i & Hlt & -> & Hsec). exists i. split_and!; [lia|done|]. rewrite Hv; [done|].
  intros j Hj Heq%NewID_inj. lia.
Qed.

Lemma store_secret_ok id value (w : SW) ref w' : store_secret id value w = (Ok ref, w') -> only_new w w' /\ stored w' ref value /\ ref <> "".
Proof.
  intros (keyId & w1 & [= <- <-] & Hr)%bind_ok. apply bind_ok in Hr as (u & w2 & Hv & Hr). injection Hr as <- <-.
  unfold on_vault in Hv. simpl in Hv. destruct (SetSecretString _ _ _ (vault w)) as [[[]|e] v] eqn:Es; [|done]. injection Hv as _ <-.
  split_and!; [|exists (ids_used w); split_and!|apply NewID_nonempty]; simpl.
  - split_and!; simpl; [done|done|lia|]. intros name Hn. eapply set_others; [exact Es|]. by apply Hn.
  - lia.
  - done.
  - by eapply set_ok.
Qed.

(** What becomes of a password field. *)
Definition moved (errorOnObject : bool) (a b : Node) (w : SW) : Prop :=
  match a with
  | JString s => exists ref, b = JObject (secret_reference ref) /\ stored w ref s
  | JNull => b = JNull
  | _ => errorOnObject = false /\ b = a
  end.

Lemma move_secret_ok id e n (w : SW) n' w' : move_secret id e n w = (Ok n', w') -> only_new w w' /\ moved e n n' w'.
Proof.
  destruct n as [|b|t|s|l|m]; simpl.
  4: { intros (ref & w1 & Hs & Hn)%bind_ok. apply store_secret_ok in Hs as (Hnew & Hst & _). injection Hn as Hn <-.
       apply SetObject_ok in Hn as ->. eauto. }
  1: { intros [= <- <-]. split; [apply only_new_refl | done]. }
  all: destruct e; [done|]; intros [= <- <-]; split; [apply only_new_refl | done].
Qed.

(** Also when it fails. *)
Lemma store_secret_new id value (w : SW) r w' : store_secret id value w = (r, w') -> only_new w w'.
Proof.
  intros [(keyId & w1 & [= <- <-] & Hr)|(e & Hr & _)]%bind_inv; [|done].
  assert (forall (x : result error unit) w2, on_vault (SetSecretString (NewID (ids_used w)) value (OwningResourcePrefix +:+ id))
    (mkSworld (services w) (vault w) (ids_used w + 1) (staleSecrets w)) = (x, w2) -> only_new w w2) as Hset.
  { intros x w2. unfold on_vault. simpl. destruct (SetSecretString _ _ _ (vault w)) as [r0 v] eqn:Es. intros [= _ <-].
    split_and!; simpl; [done|done|lia|]. intros name Hn. eapply set_others; [exact Es|]. by apply Hn. }
  apply bind_inv in Hr as [(u & w2 & Hv%Hset & Hr)|(e & Hv%Hset & _)]; [by injection Hr as _ <- | done].
Qed.
Lemma move_secret_new id e n (w : SW) r w' : move_secret id e n w = (r, w') -> only_new w w'.
Proof.
  destruct n as [|b|t|s|l|m]; simpl.
  4: { intros [(ref & w1 & Hs & Hn)|(e0 & Hs & _)]%bind_inv; apply store_secret_new in Hs; [by injection Hn as _ <- | done]. }
  all: try destruct e; intros [= _ <-]; apply only_new_refl.
Qed.

Lemma moved_later e a b w w' : only_new w w' -> moved e a b w -> moved e a b w'.
Proof. intros Hn. destruct a; simpl; try done. intros (ref & -> & Hst). eauto using stored_later. Qed.

(** A document and what it becomes when its secrets are moved. *)
Definition documents_moved (e : bool) (paths : list (list string)) (d d' : Node) (w : SW) : Prop :=
  (forall k n, k ∈ paths -> value_at k d = Some n -> exists n', moved e n n' w /\ forall q, head <$> value_at (k ++ q) d' = head <$> value_at q n') /\
  (forall k, k ∈ paths -> value_at k d = None -> head <$> value_at k d' = None) /\
  forall q, (forall k, k ∈ paths -> ~ k `prefix_of` q) -> head <$> value_at q d' = head <$> value_at q d.

Lemma moveSecretsToVault_ok c ct schema e (w : SW) c' w' : compile ct.(CT.JsonSchema) = Ok schema -> plain_schema schema = true ->
  prefix_free (password_paths schema) -> moveSecretsToVault c ct e w = (Ok c', w') ->
  only_new w w' /\
  c'.(CO.ID) = c.(CO.ID) /\ c'.(CO.ServiceAccount).(ServiceAccount_ClientSecret) = "" /\
  (c.(CO.ServiceAccount).(ServiceAccount_ClientSecret) <> "" ->
     stored w' c'.(CO.ServiceAccount).(ClientSecretRef) c.(CO.ServiceAccount).(ServiceAccount_ClientSecret) /\ c'.(CO.ServiceAccount).(ClientSecretRef) <> "") /\
  (c.(CO.ConnectorSpec) <> "" -> exists d d', ajson_Unmarshal c.(CO.ConnectorSpec) = Ok d /\ ajson_Unmarshal c'.(CO.ConnectorSpec) = Ok d' /\
     documents_moved e (password_paths schema) d d' w').
Proof.
  intros Hc Hplain Hpf Hr. apply bind_ok in Hr as (c1 & w1 & Ha & Hr).
  assert (only_new w w1 /\ CO.ID c1 = CO.ID c /\ ServiceAccount_ClientSecret (CO.ServiceAccount c1) = "" /\ CO.ConnectorSpec c1 = CO.ConnectorSpec c /\
    (ServiceAccount_ClientSecret (CO.ServiceAccount c) <> "" ->
       stored w1 (ClientSecretRef (CO.ServiceAccount c1)) (ServiceAccount_ClientSecret (CO.ServiceAccount c)) /\ ClientSecretRef (CO.ServiceAccount c1) <> ""))
    as (Hnew & Hid & Hcs & Hspec & Hst).
  { unfold move_client_secret in Ha. destruct (_ =?s "") eqn:Ee.
    - injection Ha as <- <-. apply String.eqb_eq in Ee. split_and!; [apply only_new_refl|done|done|done|done].
    - apply bind_ok in Ha as (ref & w2 & Hs & Ha). apply wrap_err_ok, store_secret_ok in Hs as (Hnew & Hst & Hne). injection Ha as <- <-.
      by split_and!. }
  destruct (_ =?s "") eqn:Ee.
  - injection Hr as <- <-. apply String.eqb_eq in Ee. split_and!; try done. by rewrite <- Hspec, Ee.
  - apply bind_ok in Hr as (text & w2 & Hm & Hr). injection Hr as <- <-. apply wrap_err_ok in Hm.
    destruct (modify_ok _ _ _ _ _ _ _ Hc Hplain Hm) as (ks & d & root' & Hks & Hnd & Hd & Hv & Ht).
    apply (visit_each _ (only_new w1) (moved e)) in Hv as (Hnew' & Hmono & Heach & Hnone & Happart & Hrest); [| |by intros k k' Hk%Hks Hk'%Hks; apply Hpf|done|apply only_new_refl].
    2: { intros n w3 n' w4 Hw3 Hmv. apply move_secret_ok in Hmv as [Hn4 Hmv]. split_and!; [by eapply only_new_trans|done|].
         intros a b. by apply moved_later. }
    destruct (ajson_text _ _ Ht) as (d' & Hd' & Hsame). split_and!; try done.
    + by eapply only_new_trans.
    + intros Hne. destruct (Hst Hne) as [Hs1 Hs2]. split; [by eapply stored_later | done].
    + intros _. exists d, d'. rewrite <- Hspec. split_and!; [done|done|]. split_and!.
      * intros k n Hk%Hks Hn. destruct (Heach k Hk n Hn) as (n' & Hn' & Hmv). exists n'. split; [done|]. intros q.
        rewrite <- Hsame, value_at_app, Hn'. done.
      * intros k Hk%Hks Hn. by rewrite <- Hsame, (Hnone k Hk Hn).
      * intros q Hq. rewrite <- Hsame. apply Hrest. intros k Hk%Hks. by apply Hq.
Qed.

Lemma CreateConnectorRow_ok c (w : cworld D) row w' : CreateConnectorRow c w = (Ok row, w') -> c.(CO.Deleted) = false ->
  exists v, co_version v (connector_row c) ∈ live_connectors (tables_in w').
Proof.
  intros Hr Hdel. apply bind_ok in Hr as (u & w1 & Hi & Hr). apply wrap_err_ok, change_ok in Hi as [Hi _].
  unfold insert_connector in Hi. destruct (existsb _ _); [done|]. injection Hi as _ Hi.
  apply bind_ok in Hr as (row0 & w2 & Hf & Hr). apply wrap_err_ok, first_ok in Hf as (_ & Ht2 & _).
  apply bind_ok in Hr as (u' & w3 & Hs & Hr). apply wrap_err_ok, change_ok in Hs as [Hs _]. injection Hs as _ Hs.
  injection Hr as _ <-. exists (next_version (cdb w)). unfold live_connectors, tables_in in *. simpl.
  rewrite <- Hs, Ht2, <- Hi. simpl. apply list_elem_of_In, filter_In. split; [|simpl; by rewrite Hdel].
  apply in_or_app. right. by left.
Qed.

(** What the operation leaves alone. *)
Lemma operation_fields c op l (s : cworld D) c' s' : ValidateConnectorOperation c op l s = (Ok c', s') ->
  c'.(CO.ID) = c.(CO.ID) /\ c'.(CO.Deleted) = c.(CO.Deleted) /\ c'.(CO.ServiceAccount) = c.(CO.ServiceAccount) /\
  c'.(CO.ConnectorSpec) = c.(CO.ConnectorSpec) /\ c'.(CO.ConnectorTypeId) = c.(CO.ConnectorTypeId).
Proof.
  unfold ValidateConnectorOperation. destruct (CO.NamespaceId c) as [id|].
  - intros (n & s1 & _ & Hr)%bind_ok. apply bind_ok in Hr as (p & s2 & Hp & Hr). injection Hr as <- _.
    unfold PerformConnectorOperation, perform in Hp. apply bind_ok in Hp as (p' & s3 & [= Hf <-] & Hp).
    apply bind_ok in Hp as (u & s4 & _ & Hp). injection Hp as <- _. unfold ConnectorFSM_Perform in Hf.
    destruct (fsm_Event _ _ _) as [st| |]; [|by injection Hf as <-|done].
    destruct (map_lookup ConnectorStartingPhase op); by injection Hf as <-.
  - destruct (one_of _ _); [|done]. by intros [= <- _].
Qed.

(** Secrets cannot be moved without a schema. *)
Lemma move_compiles c ct e (w : SW) c' w' : c.(CO.ConnectorSpec) <> "" -> moveSecretsToVault c ct e w = (Ok c', w') ->
  exists schema, compile ct.(CT.JsonSchema) = Ok schema.
Proof.
  intros Hne (c1 & w1 & Ha & Hr)%bind_ok. assert (CO.ConnectorSpec c1 = CO.ConnectorSpec c) as Hspec.
  { unfold move_client_secret in Ha. destruct (_ =?s ""); [by injection Ha as <- _|]. apply bind_ok in Ha as (ref & w2 & _ & Ha). by injection Ha as <- _. }
  rewrite Hspec in Hr. destruct (_ =?s "") eqn:Ee; [by apply String.eqb_eq in Ee|]. apply bind_ok in Hr as (text & w2 & Hm & _).
  apply wrap_err_ok, bind_ok in Hm as (fields & w3 & [= Hf _] & _). unfold getPathsToPasswordFields in Hf.
  destruct (compile (CT.JsonSchema ct)) as [schema|]; [eauto | done].
Qed.

Lemma move_fields c ct e (w : SW) c' w' : moveSecretsToVault c ct e w = (Ok c', w') ->
  c'.(CO.Deleted) = c.(CO.Deleted) /\ c'.(CO.Status) = c.(CO.Status) /\ c'.(CO.ID) = c.(CO.ID).
Proof.
  intros (c1 & w1 & Ha & Hr)%bind_ok.
  assert (CO.Deleted c1 = CO.Deleted c /\ CO.Status c1 = CO.Status c /\ CO.ID c1 = CO.ID c) as (<- & <- & <-).
  { unfold move_client_secret in Ha. destruct (_ =?s ""); [by injection Ha as <- _|]. apply bind_ok in Ha as (ref & w2 & _ & Ha). by injection Ha as <- _. }
  destruct (_ =?s ""); [by injection Hr as <- _|]. apply bind_ok in Hr as (text & w2 & _ & Hr). by injection Hr as <- _.
Qed.

Lemma head_string n s : head n = HString s -> n = JString s.
Proof. destruct n; try done. by intros [= ->]. Qed.

(** The document [d] of a row has references where [req] has secrets, and these
    lead to the secrets. *)
Definition references_lead_to (w : SW) (req d : Node) (k : list string) : Prop :=
  (forall s, head <$> value_at k d <> Some (HString s)) /\
  forall n, value_at k req = Some n ->
    (n = JNull /\ head <$> value_at k d = Some HNull) \/
    exists s ref, n = JString s /\ stored w ref s /\ head <$> value_at k d = Some HObject /\
      head <$> value_at (k ++ ["kind"]) d = Some (HString Kind) /\ head <$> value_at (k ++ ["ref"]) d = Some (HString ref).

Lemma moved_references paths req d d' (w : SW) k : same_document req d -> documents_moved true paths d d' w -> k ∈ paths ->
  references_lead_to w req d' k.
Proof.
  intros Hsame (Hm & Hnone & _) Hk. pose proof (Hsame k) as Hhead. destruct (value_at k d) as [n|] eqn:En.
  - destruct (Hm k n Hk En) as (n' & Hmv & Hq). pose proof (Hq []) as Hq0. rewrite app_nil_r in Hq0.
    split.
    + intros s. rewrite Hq0. destruct n; simpl in Hmv; try (by destruct Hmv); [by rewrite Hmv|]. by destruct Hmv as (ref & -> & _).
    + intros m Hmk. rewrite Hmk in Hhead. injection Hhead as Hhead. destruct n as [| | |s| |]; simpl in Hmv; try (by destruct Hmv).
      * left. rewrite Hq0, Hmv. by destruct m.
      * right. destruct Hmv as (ref & -> & Hst). exists s, ref. rewrite !Hq, Hq0. split_and!; try done. by apply head_string.
  - split.
    + intros s. by rewrite (Hnone k Hk En).
    + intros m Hmk. by rewrite Hmk in Hhead.
Qed.

(** [C26] A connector whose creation is answered has its secrets in the vault and
    nowhere in its row: the row refers to the client secret, and in its
    configuration each text that the request had in a password field is replaced by
    a reference under which the vault returns that text; nothing but texts and
    nulls is accepted in these fields, so that no request can name the secret of
    another connector.  The request has a client secret.  In the schemas of the
    types no password field lies inside another, and the property names start with
    a letter or an underscore, go on with letters, digits, underscores, dashes and
    dots, and are not [length], which the path language takes for the number of
    elements. *)
Theorem created_secrets_are_in_the_vault ctx req (w : SW) pc w' :
  (forall ct schema, ct ∈ (tables_in w.(services)).(connector_types) -> compile ct.(CT.JsonSchema) = Ok schema ->
     plain_schema schema = true /\ prefix_free (password_paths schema)) ->
  req.(RQ_ClientSecret) <> "" -> Create_action connectorsConfig ctx req w = (Ok pc, w') ->
  exists ct schema row d, ct ∈ (tables_in w.(services)).(connector_types) /\ ct.(CT.ID) = req.(RQ_ConnectorTypeId) /\
    compile ct.(CT.JsonSchema) = Ok schema /\
    row ∈ live_connectors (tables_in w'.(services)) /\ row.(CO.ID) = NewID w.(ids_used) /\
    row.(CO.ServiceAccount).(ServiceAccount_ClientSecret) = "" /\ stored w' row.(CO.ServiceAccount).(ClientSecretRef) req.(RQ_ClientSecret) /\
    ajson_Unmarshal row.(CO.ConnectorSpec) = Ok d /\
    forall k, k ∈ password_paths schema -> references_lead_to w' req.(RQ_Connector) d k.
Proof.
  intros Hschemas Hsecret (ct & s1 & ann & c0 & c1 & s2 & c2 & w3 & row & s4 & c4 & Hg & Hconv & Hop & Hm & Hi & Hs & Hp)%Create_steps.
  apply GetType_ok in Hg as (Hct & Hid & _ & _). apply strip_keeps in Hs as ->.
  unfold ConvertConnectorRequest in Hconv. destruct (json_Marshal _) as [text|] eqn:Ej; [|done]. injection Hconv as <-.
  apply operation_fields in Hop as (Hi1 & Hd1 & Ha1 & Hsp1 & _). cbn in Hi1, Hd1, Ha1, Hsp1.
  pose proof (json_not_empty _ _ Ej) as Hne. destruct (move_compiles _ _ _ _ _ _ (eq_ind_r (fun x => x <> "") Hne Hsp1) Hm) as [schema Hc].
  destruct (Hschemas ct schema Hct Hc) as [Hplain Hpf].
  destruct (moveSecretsToVault_ok _ _ _ _ _ _ _ Hc Hplain Hpf Hm) as (_ & Hi2 & _ & Hst & Hdoc).
  destruct Hdoc as (d & d' & Hd & Hd' & Hmoved); [by rewrite Hsp1|]. destruct Hst as [Hst _]; [by rewrite Ha1|].
  rewrite Hsp1 in Hd. destruct (json_text _ _ Ej) as (d0 & Hd0 & Hsame). rewrite Hd in Hd0. injection Hd0 as <-.
  apply CreateConnectorRow_ok in Hi as (v & Hrow); [|by rewrite (proj1 (move_fields _ _ _ _ _ _ Hm))].
  exists ct, schema, (co_version v (connector_row c2)), d'. split_and!; try done.
  - cbn. by rewrite Hi2, Hi1.
  - cbn. by rewrite Ha1 in Hst.
  - intros k Hk. by eapply moved_references.
Qed.

(** Whatever the schema, moving stores new secrets only. *)
Lemma move_only_new c ct e (w : SW) c' w' : moveSecretsToVault c ct e w = (Ok c', w') -> only_new w w'.
Proof.
  intros (c1 & w1 & Ha & Hr)%bind_ok. assert (only_new w w1) as Hnew.
  { unfold move_client_secret in Ha. destruct (_ =?s ""); [injection Ha as _ <-; apply only_new_refl|].
    apply bind_ok in Ha as (ref & w2 & Hs & Ha). injection Ha as _ <-. by apply wrap_err_ok, store_secret_ok in Hs as (? & _). }
  destruct (_ =?s ""); [by injection Hr as _ <-|]. apply bind_ok in Hr as (text & w2 & Hm & Hr). injection Hr as _ <-.
  apply wrap_err_ok in Hm. revert Hm. apply (modify_invariant (only_new w)); [|done]. intros n w3 r w4 Hw3 Hmv.
  eapply only_new_trans; [exact Hw3|]. by eapply move_secret_new.
Qed.

(** *** Patches *)
Lemma UpdateConnectorRow_reads c (w : cworld D) c' w' : UpdateConnectorRow c w = (Ok c', w') ->
  c' ∈ map (with_status (tables_in w')) (live_connector c.(CO.ID) (tables_in w')).
Proof.
  unfold UpdateConnectorRow. destruct (_ =? 0); [done|]. intros (u & w1 & _ & Hr)%bind_ok. apply bind_ok in Hr as (u1 & w2 & _ & Hr).
  by apply wrap_err_ok, first_ok in Hr as (Hin & -> & _).
Qed.

(** The phase that a patch gives the connector. *)
Definition patch_phase (op st : string) (resource : PublicConnector) : string :=
  if st =?s ConnectorStatusPhaseAssigning then PC_State resource else default "" (map_lookup ConnectorStartingPhase op).

Lemma save_patch_steps db ct op st refs resource (w : SW) pc w' : save_patch db ct op st refs resource w = (Ok pc, w') ->
  exists p p3 s2 newRefs, UpdateConnectorRow p s2 = (Ok p3, services w') /\ getSecretRefs p3 ct = Ok newRefs /\
    p.(CO.ID) = PC_Id resource /\ p.(CO.Status) = no_status <| CS.Phase := patch_phase op st resource |> /\
    (exists c1 w1, moveSecretsToVault c1 ct false w = (Ok (p <| CO.Status := CO.Status c1 |>), w1) /\ vault w' = vault w1 /\
       staleSecrets w' = staleSecrets w1 ++ match StringListSubtract refs newRefs with [] => [] | stale => [stale] end).
Proof.
  intros Hr. apply bind_ok in Hr as (p0 & w1 & [= Hc <-] & Hr). apply bind_ok in Hr as (p1 & w2 & Hm & Hr).
  apply bind_ok in Hr as (p2 & w3 & Hp & Hr). apply bind_ok in Hr as (p3 & w4 & Hu & Hr). apply on_services_ok in Hu as (s4 & Hu & ->).
  apply bind_ok in Hr as (newRefs & w5 & [= Hg <-] & Hr). destruct (getSecretRefs p3 ct) as [newRefs'|] eqn:Eg; [|done]. injection Hg as ->.
  apply bind_ok in Hr as (u & w6 & Hst & Hr). apply bind_ok in Hr as (p4 & w7 & Hs & Hr). injection Hr as _ <-. apply strip_keeps in Hs as ->.
  unfold ConvertConnector in Hc. destruct (json_Marshal _) as [text|]; [|done]. injection Hc as Hc.
  assert (CO.ID p0 = PC_Id resource /\ CO.Status p0 = no_status <| CS.Phase := PC_State resource |>) as [Hid0 Hst0] by (by rewrite <- Hc).
  destruct (move_fields _ _ _ _ _ _ Hm) as (_ & Hst1 & Hid1).
  assert (CO.ID p2 = CO.ID p1 /\ CO.Status p2 = no_status <| CS.Phase := patch_phase op st resource |> /\
    p1 = p2 <| CO.Status := CO.Status p0 |> /\ vault w3 = vault w2 /\ staleSecrets w3 = staleSecrets w2) as (Hid2 & Hst2 & Hp1 & Hv3 & Hs3).
  { unfold patch_phase. destruct (st =?s _).
    - injection Hp as <- <-. split_and!; [done|congruence| |done|done]. rewrite <- Hst1. by destruct p1.
    - apply bind_ok in Hp as (u' & w8 & Hss & Hp). injection Hp as <- <-. apply on_services_ok in Hss as (s5 & _ & ->).
      split_and!; [done| | |done|done]; [cbn; rewrite Hst1, Hst0; done|]. rewrite <- Hst1. by destruct p1. }
  exists p2, p3, (services w3), newRefs. split_and!.
  - rewrite Hu. f_equal. destruct (StringListSubtract refs newRefs); by injection Hst as _ <-.
  - done.
  - congruence.
  - done.
  - exists p0, w2. rewrite <- Hp1. split_and!; [done| |];
      destruct (StringListSubtract refs newRefs); injection Hst as _ <-; cbn; rewrite ?app_nil_r; congruence.
Qed.

Lemma subtract_elem l items s : s ∈ StringListSubtract l items <-> s ∈ l /\ s ∉ items.
Proof.
  unfold StringListSubtract. rewrite map_range_perm, list_elem_of_In, filter_In, <- list_elem_of_In, elem_of_remove_dups, negb_true_iff.
  enough (one_of items s = false <-> s ∉ items) as -> by done. unfold one_of. rewrite <- not_true_iff_false, existsb_exists, list_elem_of_In.
  split; intros Hn Hs; apply Hn; [exists s; by rewrite String.eqb_refl|]. by destruct Hs as (x & Hx & ->%String.eqb_eq).
Qed.

Lemma delete_secrets_others refs (v : V) s : s ∉ refs -> secret_of (delete_secrets refs v) s = secret_of v s.
Proof.
  revert v. induction refs as [|r refs IH]; intros v; simpl; [done|]. intros [Hne Hs]%not_elem_of_cons. rewrite IH by done.
  destruct (DeleteSecretString r v) as [x v'] eqn:Ed. by eapply delete_others.
Qed.

(** A deletion of [s] fails only when the vault has nothing under that name. *)
Definition deletes (s : string) : Prop := forall (v : V) e v', DeleteSecretString s v = (Err e, v') -> secret_of v' s = None.

Lemma delete_secrets_absent refs (v : V) s : deletes s -> secret_of v s = None -> secret_of (delete_secrets refs v) s = None.
Proof.
  intros Hdel. revert v. induction refs as [|x refs IH]; intros v Hv; [done|]. simpl. apply IH.
  destruct (DeleteSecretString x v) as [[[]|e] v'] eqn:E; simpl; destruct (decide (s = x)) as [<-|Hne].
  - by apply delete_ok in E.
  - by rewrite (delete_others _ _ _ _ _ E Hne).
  - by apply Hdel in E.
  - by rewrite (delete_others _ _ _ _ _ E Hne).
Qed.

Lemma delete_secrets_gone refs (v : V) s : deletes s -> s ∈ refs -> secret_of (delete_secrets refs v) s = None.
Proof.
  intros Hdel. revert v. induction refs as [|x refs IH]; intros v Hin; [by apply elem_of_nil in Hin|]. simpl.
  apply elem_of_cons in Hin as [<-|Hin]; [|by apply IH]. apply delete_secrets_absent; [done|].
  destruct (DeleteSecretString s v) as [[[]|e] v'] eqn:E; [by apply delete_ok in E|by apply Hdel in E].
Qed.

(** [C28] After a patch that is saved and committed, the secrets that the old row
    referred to and the new one does not are gone from the vault, unless the vault
    fails to delete a secret that it holds (the code only logs such a failure); no
    others are removed: every secret that the stored row refers to is kept, and so
    is every secret of other connectors.  A patch that changes nothing changes
    nothing in the vault either. *)
Theorem patch_removes_only_stale_secrets ctx urlPath id contentType body (w : SW) pc w' : staleSecrets w = [] ->
  Patch_action connectorsConfig ctx urlPath id contentType body w = (Ok pc, w') ->
  exists row ct refs, row ∈ (tables_in w.(services)).(connectors) /\ row.(CO.ID) = id /\
    ct ∈ (tables_in w.(services)).(connector_types) /\ ct.(CT.ID) = row.(CO.ConnectorTypeId) /\ getSecretRefs row ct = Ok refs /\
    ((vault (committed w') = vault w /\ PresentConnector (with_status (tables_in w.(services)) row) = Ok pc) \/
     exists p newRefs, p ∈ map (with_status (tables_in w'.(services))) (live_connector id (tables_in w'.(services))) /\
       getSecretRefs p ct = Ok newRefs /\
       (forall s, s ∈ concat (staleSecrets w') <-> s ∈ refs /\ s ∉ newRefs) /\
       (forall s, s ∈ refs -> s ∉ newRefs -> deletes s -> secret_of (vault (committed w')) s = None) /\
       (forall s, s ∈ newRefs -> secret_of (vault (committed w')) s = secret_of (vault w') s) /\
       (forall s, s ∉ refs -> (forall j, (ids_used w <= j)%nat -> s <> NewID j) -> secret_of (vault (committed w')) s = secret_of (vault w) s)).
Proof.
  intros Hnone (found & s1 & ct & s2 & refs & Hf & Hg & Hrefs & Hcase)%Patch_steps.
  apply GetWithConditions_ok in Hf as (row & Hin & Hfst & Hid & _ & _ & Ht). rewrite Hfst in Hg, Hcase, Hrefs.
  apply GetType_ok in Hg as (Hct & Htid & Hdel & _). rewrite Ht in Hct. exists row, ct, refs. split_and!; try done.
  destruct Hcase as [(Hp & Hv & Hs)|(db & op & original & resource & w1 & Ho & Hpid & _ & _ & Hsave & Hst & Hids & Hvault)].
  - left. split; [|done]. unfold committed. simpl. by rewrite Hs, Hnone.
  - right. apply save_patch_steps in Hsave as (p & p3 & s3 & newRefs & Hu & Hnew & Hpid' & _ & c1 & w2 & Hm & Hv & Hstale).
    apply move_only_new in Hm as (_ & Hst2 & _ & Hother). rewrite Hst2, Hst, Hnone in Hstale. simpl in Hstale.
    assert (concat (staleSecrets w') = StringListSubtract refs newRefs) as Hconcat by (rewrite Hstale; destruct (StringListSubtract refs newRefs); simpl; by rewrite ?app_nil_r).
    exists p3, newRefs. split_and!; [|done| | | |].
    + apply UpdateConnectorRow_reads in Hu. rewrite Hpid', Hpid in Hu. unfold PresentConnector in Ho.
      destruct (json_object _) as [spec|]; [|done]. injection Ho as <-. revert Hu. cbn. unfold PresentReference. change (CO.ID (with_status (tables_in (services w)) row)) with (CO.ID row).
      rewrite Hid. destruct (id =?s "") eqn:Ee; [|done]. by apply String.eqb_eq in Ee as ->.
    + intros s. rewrite Hconcat. apply subtract_elem.
    + intros s Hs Hn Hgone. unfold committed. simpl. apply delete_secrets_gone; [done|]. rewrite Hconcat. by apply subtract_elem.
    + intros s Hs. unfold committed. simpl. apply delete_secrets_others. rewrite Hconcat, subtract_elem. by intros [_ ?].
    + intros s Hs Hnew'. unfold committed. simpl. rewrite delete_secrets_others.
      * rewrite Hv, <- Hvault. apply Hother. by rewrite Hids.
      * rewrite Hconcat, subtract_elem. by intros [? _].
Qed.

(** A patch that is saved replaces the status of the connector by one without
    namespace: the status is built from the presentation, which does not carry the
    namespace, and is written in full with the row. *)
Theorem patch_detaches_status db ct op st refs resource (w : SW) pc w' : patch_phase op st resource <> "" ->
  save_patch db ct op st refs resource w = (Ok pc, w') ->
  exists s, s ∈ (tables_in w'.(services)).(connector_statuses) /\ s.(CS.ID) = PC_Id resource /\ s.(CS.NamespaceID) = None /\
    s.(CS.Phase) = patch_phase op st resource /\
    forall s', s' ∈ (tables_in w'.(services)).(connector_statuses) -> s'.(CS.ID) = PC_Id resource -> s' = s.
Proof.
  intros Hph (p & p3 & s2 & newRefs & Hu & _ & Hid & Hst & _)%save_patch_steps.
  apply UpdateConnectorRow_ok in Hu as (v & t1 & _ & _ & v' & k & Hu). injection Hu as _ Hu.
  assert (has_status (CO.Status p) = true) as Hhas.
  { unfold has_status. rewrite Hst. apply String.eqb_neq in Hph. cbn. by rewrite Hph. }
  rewrite Hhas in Hu. rewrite <- Hu. cbn. set (s := (CO.Status p) <| CS.ID := CO.ID p |>).
  exists s. unfold s. rewrite Hst. cbn. split_and!; [apply upsert_has|done|done|done|].
  intros s' Hin Hs'. unfold upsert in Hin. rewrite <- Hid in Hs'. destruct (existsb _ _) eqn:Ex.
  - apply list_elem_of_fmap in Hin as (y & -> & Hy). destruct (_ =?s _) eqn:Ey; [done|]. apply String.eqb_neq in Ey. done.
  - apply elem_of_app in Hin as [Hin|Hin]; [|by apply list_elem_of_singleton in Hin]. exfalso. apply not_true_iff_false in Ex. apply Ex, existsb_exists.
    exists s'. rewrite <- list_elem_of_In. split; [done|]. by apply String.eqb_eq.
Qed.
End Moving.

(** ** Examples *)
Module SecretsExample.
Import MemC JsonExample.

(** Merge patches (RFC 7386). *)
Fixpoint merge (patch target : Node) {struct patch} : Node :=
  match patch with
  | JObject pm =>
      JObject ((fix go pm tm := match pm with
                                | [] => tm
                                | (k, v) :: pm' =>
                                    let rest := List.filter (fun kv => negb (fst kv =?s k)) tm in
                                    go pm' (match v with JNull => rest | _ => rest ++ [(k, merge v (default JNull (map_lookup tm k)))] end)
                                end) pm (match target with JObject tm => tm | _ => [] end))
  | _ => patch
  end.

Definition member (k : string) (n : Node) : Node := default JNull (value_at [k] n).
Definition text_in (k : string) (n : Node) : string := match member k n with JString s => s | _ => "" end.
Definition texts (n : Node) : list (string * string) :=
  match n with JObject m => map (fun kv => (fst kv, match snd kv with JString s => s | _ => "" end)) m | _ => [] end.

Definition public_document (c : PublicConnector) : Node :=
  JObject [("name", JString (PC_Name c)); ("connector_type_id", JString (PC_ConnectorTypeId c)); ("namespace_id", JString (PC_NamespaceId c));
    ("channel", JString (PC_Channel c)); ("desired_state", JString (PC_DesiredState c));
    ("annotations", JObject (map (fun a => (fst a, JString (snd a))) (PC_Annotations c)));
    ("kafka", JObject [("id", JString (KafkaID (PC_Kafka c))); ("url", JString (BootstrapServer (PC_Kafka c)))]);
    ("schema_registry", JObject [("id", JString (SchemaRegistryID (PC_SchemaRegistry c))); ("url", JString (Url (PC_SchemaRegistry c)))]);
    ("service_account", JObject [("client_id", JString (PC_ClientId c)); ("client_secret", JString (PC_ClientSecret c))]);
    ("connector", PC_Connector c)].
Definition request_of (n : Node) : ConnectorRequest :=
  let kafka := member "kafka" n in
  let registry := member "schema_registry" n in
  let account := member "service_account" n in
  mkConnectorRequest (text_in "name" n) (text_in "connector_type_id" n) (text_in "namespace_id" n) (text_in "channel" n) (text_in "desired_state" n)
    (texts (member "annotations" n)) (mkKafkaConnectionSettings (text_in "id" kafka) (text_in "url" kafka))
    (mkSchemaRegistryConnectionSettings (text_in "id" registry) (text_in "url" registry))
    (text_in "client_id" account) (text_in "client_secret" account) (member "connector" n).

#[export] Instance patches : PatchLibrary := {|
  marshal_connector c := write (public_document c);
  unmarshal_request s := match read s with Ok n => Ok (request_of n) | Err e => Err e end;
  unmarshal_spec s := n <-! read s ;; match value_at ["connector"] n with Some c => write c | None => Ok "" end;
  unmarshal_conditions _ := Ok [];
  JsonPatch := unit; DecodePatch _ := Err (EPlain "invalid patch"); ApplyPatch _ s := Ok s; CreateMergePatch _ s := Ok s;
  MergePatch doc patch := d <-! read doc ;; p <-! read patch ;; write (merge p d);
  LoadedSchema := unit; NewSchema _ := Ok tt; schema_Validate _ _ := Ok []
|}.

Definition key (n : nat) : string := "key-" +:+ pretty n.
Lemma key_inj : Inj (=) (=) key.
Proof. intros n m Heq. apply (inj (String.append "key-")) in Heq. by apply (inj pretty) in Heq. Qed.
Lemma key_nonempty n : key n <> "".
Proof. done. Qed.
#[export] Instance keys : KeyIds := {| NewID := key; NewID_inj := key_inj; NewID_nonempty := key_nonempty |}.

Definition text_of (n : Node) : string := match write n with Ok s => s | Err _ => "" end.
Definition source_type : ConnectorType :=
  CT.mkConnectorType "log_sink_0.1" false "0.1" "Source" "" false "{}" ["stable"] "" [] [] [] None 0.
Definition referred (key : string) : Node := JObject [("kind", JString KindTmp); ("ref", JString key)].
Definition configuration : Node := JObject [("user", JString "bob"); ("password", referred "pw-1")].
Definition row : Connector :=
  CO.mkConnector "co-1" false (Some "ns-1") "" "" false "Source" "alice" "org-1" 5 [] "log_sink_0.1" (text_of configuration) ConnectorReady "stable"
    (mkKafkaConnectionSettings "k-1" "k-1.example.org:443") (mkSchemaRegistryConnectionSettings "" "") (mkServiceAccount "sa-1" "" "sa-ref-1") no_status.
Definition tables : ctables :=
  mkCtables [ConnectorExample.cluster] [ConnectorExample.namespace] [row]
    [SystemExample.status "co-1" ConnectorStatusPhaseReady (Some "ns-1")] [SystemExample.deployment "dep-1" "co-1" 5] [] [source_type] [].
Definition kept : Tmp.TmpVaultService :=
  snd ((_ <~ Tmp.tmp_SetSecretString "pw-1" "hunter2" "/v1/connector/co-1" ;;
        _ <~ Tmp.tmp_SetSecretString "sa-ref-1" "s3cret" "/v1/connector/co-1" ;;
        Tmp.tmp_SetSecretString "other" "pa55" "/v1/connector/co-2") Tmp.NewTmpVaultService).
Definition start : sworld mem Tmp.TmpVaultService := mkSworld (world_of tables) kept 0 [].

Definition config : ConnectorsConfig := mkConnectorsConfig 0 [] false.
Definition user : RequestContext := ApiExample.ctx.
Definition wanted : ConnectorRequest :=
  mkConnectorRequest "Second" "log_sink_0.1" "ns-1" "stable" "ready" [] (mkKafkaConnectionSettings "k-1" "k-1.example.org:443")
    (mkSchemaRegistryConnectionSettings "" "") "sa-2" "t0psecret"
    (JObject [("user", JString "carol"); ("password", JString "letmein"); ("proxy", JObject [("token", JString "abc")])]).
Definition new_password : string := text_of (JObject [("connector", JObject [("password", JString "changed")])]).
Definition new_name : string := text_of (JObject [("name", JString "Renamed")]).
Definition no_change : string := text_of (JObject []).
End SecretsExample.
Export (hints) SecretsExample.
#[local] Existing Instance ApiExample.lenient.

Definition example_patch (patch : string) : result ServiceError (Z * PublicConnector) * sworld MemC.mem Tmp.TmpVaultService :=
  connector_Patch SecretsExample.config SecretsExample.user "/api/connector_mgmt/v1/kafka_connectors/co-1" "co-1" MERGE_PATCH (Ok patch) SecretsExample.start.

(** A patch that changes only the name leaves the connector deployed but makes
    its namespace count as empty: the status that is written with the row has no
    namespace, and the workers remove a namespace to which no status refers. *)
Theorem patched_connector_leaves_its_namespace :
  exists pc w', example_patch SecretsExample.new_name = (Ok (StatusAccepted, pc), w') /\ PC_Name pc = "Renamed" /\
    no_status_in SecretsExample.tables ConnectorExample.namespace = false /\
    no_status_in (tables_in w'.(services)) ConnectorExample.namespace = true /\
    map CD.NamespaceID (live_deployments (tables_in w'.(services))) = ["ns-1"].
Proof. do 2 eexists. split_and!; vm_compute; reflexivity. Qed.

(** A patch that changes nothing is answered with the stored configuration, the
    references to the vault included. *)
Theorem unchanged_patch_shows_references :
  exists pc w', example_patch SecretsExample.no_change = (Ok (StatusAccepted, pc), w') /\
    value_at ["password"; "ref"] (PC_Connector pc) = Some (JString "pw-1").
Proof. do 2 eexists. split_and!; vm_compute; reflexivity. Qed.

(** The secrets of a creation whose row cannot be inserted stay in the vault. *)
Theorem failed_creation_leaves_secrets :
  exists e w', Create_action SecretsExample.config SecretsExample.user SecretsExample.wanted
      (mkSworld (MemC.faulty (MemC.world_of SecretsExample.tables) [false; false; false; true]) SecretsExample.kept 0 []) = (Err e, w') /\
    map CO.ID (tables_in w'.(services)).(connectors) = ["co-1"] /\
    map (Tmp.secret_in w'.(vault)) ["key-1"; "key-2"; "key-3"] = [Some "t0psecret"; Some "letmein"; Some "abc"].
Proof. do 2 eexists. split_and!; vm_compute; reflexivity. Qed.

(** The handlers panic on a condition that reports the number of failures before
    the message. *)
Theorem ready_condition_panics : getStatusError [mkCondition "Ready" "Error" "failure.count: 3, error.message: refused" "False" ""] = None.
Proof. vm_compute. reflexivity. Qed.

(** ** Witnesses *)
Lemma example_schemas ct schema : ct ∈ SecretsExample.tables.(connector_types) -> compile ct.(CT.JsonSchema) = Ok schema ->
  plain_schema schema = true /\ prefix_free (password_paths schema).
Proof.
  intros ->%list_elem_of_singleton Hc. vm_compute in Hc. injection Hc as <-. split; [vm_compute; reflexivity|].
  change (prefix_free [["password"]; ["proxy"; "token"]; ["kafka.secret"]]). intros k k' Hk Hk' [r ->].
  assert (forall x : list string, x ∈ [["password"]; ["proxy"; "token"]; ["kafka.secret"]] ->
    x = ["password"] \/ x = ["proxy"; "token"] \/ x = ["kafka.secret"]) as Hcases by set_solver.
  destruct (Hcases _ Hk) as [-> | [-> | ->]], (Hcases _ Hk') as [Heq|[Heq|Heq]]; by destruct r.
Qed.

Lemma answers_hide_secrets_witness :
  exists pc w', Get_action (V := Tmp.TmpVaultService) SecretsExample.user "co-1" SecretsExample.start = (Ok (Some pc), w') /\
    hides_secrets SecretsExample.tables pc.(PC_ConnectorTypeId) pc.
Proof.
  assert (plain_types SecretsExample.tables) as Hplain by (intros ct schema Hin Hc; exact (proj1 (example_schemas ct schema Hin Hc))).
  assert (rows_bare SecretsExample.tables) as Hbare by (intros c ->%list_elem_of_singleton; reflexivity).
  destruct (Get_action SecretsExample.user "co-1" SecretsExample.start) as [[[pc|]|e] w'] eqn:E; [|vm_compute in E; discriminate E..].
  exists pc, w'. split; [reflexivity|].
  exact (proj1 (answers_hide_secrets SecretsExample.config SecretsExample.start Hplain Hbare) SecretsExample.user "co-1" pc w' E).
Defined.

Lemma created_secrets_are_in_the_vault_witness :
  exists row, row ∈ live_connectors (tables_in (services (snd (Create_action SecretsExample.config SecretsExample.user SecretsExample.wanted SecretsExample.start)))) /\
    row.(CO.ID) = "key-0" /\
    stored (snd (Create_action SecretsExample.config SecretsExample.user SecretsExample.wanted SecretsExample.start)) row.(CO.ServiceAccount).(ClientSecretRef) "t0psecret".
Proof.
  destruct (Create_action SecretsExample.config SecretsExample.user SecretsExample.wanted SecretsExample.start) as [[pc|e] w'] eqn:E;
    [|vm_compute in E; discriminate E].
  assert (forall ct schema, ct ∈ (tables_in SecretsExample.start.(services)).(connector_types) -> compile ct.(CT.JsonSchema) = Ok schema ->
    plain_schema schema = true /\ prefix_free (password_paths schema)) as Hschemas by exact example_schemas.
  destruct (created_secrets_are_in_the_vault SecretsExample.config SecretsExample.user SecretsExample.wanted SecretsExample.start pc w'
    Hschemas ltac:(discriminate) E) as (ct & schema & row & d & _ & _ & _ & Hrow & Hid & _ & Hst & _).
  exists row. split; [exact Hrow|]. split; [exact Hid | exact Hst].
Defined.

(** The old password goes, the secrets of other connectors stay. *)
Lemma patch_removes_only_stale_secrets_witness :
  exists pc w', Patch_action SecretsExample.config SecretsExample.user "" "co-1" MERGE_PATCH (Ok SecretsExample.new_password) SecretsExample.start = (Ok pc, w') /\
    secret_of (vault (committed w')) "other" = secret_of SecretsExample.kept "other" /\
    secret_of SecretsExample.kept "pw-1" = Some "hunter2" /\ secret_of (vault (committed w')) "pw-1" = None.
Proof.
  destruct (Patch_action SecretsExample.config SecretsExample.user "" "co-1" MERGE_PATCH (Ok SecretsExample.new_password) SecretsExample.start) as [[pc|e] w'] eqn:E;
    [|vm_compute in E; discriminate E].
  exists pc, w'. split_and!; [reflexivity| |vm_compute; reflexivity|].
  all: destruct (patch_removes_only_stale_secrets SecretsExample.config SecretsExample.user "" "co-1" MERGE_PATCH (Ok SecretsExample.new_password)
    SecretsExample.start pc w' eq_refl E) as (row & ct & refs & Hrow & _ & Hct & _ & Hrefs & [[Hv _]|(p & newRefs & Hp & Hnew & _ & Hgone & _ & Hkeep)]);
    apply list_elem_of_singleton in Hrow as ->; apply list_elem_of_singleton in Hct as ->.
  all: assert (getSecretRefs SecretsExample.row SecretsExample.source_type = Ok ["sa-ref-1"; "pw-1"]) as Hfound by (vm_compute; reflexivity);
    rewrite Hfound in Hrefs; injection Hrefs as <-.
  - exact (f_equal (fun v => secret_of v "other") Hv).
  - apply Hkeep; [|by intros j _]. intros Hin%list_elem_of_In. destruct Hin as [Hin|[Hin|[]]]; discriminate Hin.
  - replace w' with (snd (Patch_action SecretsExample.config SecretsExample.user "" "co-1" MERGE_PATCH (Ok SecretsExample.new_password) SecretsExample.start)) by (by rewrite E).
    vm_compute. reflexivity.
  - apply Hgone; [by right; left| |].
    + assert (List.forallb (fun p => match getSecretRefs p SecretsExample.source_type with Ok l => bool_decide ("pw-1" ∉ l) | Err _ => true end)
        (map (with_status (tables_in w'.(services))) (live_connector "co-1" (tables_in w'.(services)))) = true) as Hall.
      { replace w' with (snd (Patch_action SecretsExample.config SecretsExample.user "" "co-1" MERGE_PATCH (Ok SecretsExample.new_password) SecretsExample.start)) by (by rewrite E).
        vm_compute. reflexivity. }
      rewrite List.forallb_forall in Hall. specialize (Hall p (proj1 (list_elem_of_In _ _) Hp)). simpl in Hall. rewrite Hnew in Hall.
      by apply bool_decide_eq_true in Hall.
    + intros v e v' Hd. cbn in Hd |- *. unfold Tmp.tmp_DeleteSecretString in Hd. unfold Tmp.secret_in.
      destruct (Tmp.secrets v !! "pw-1") eqn:Hs; [discriminate Hd|]. injection Hd as _ <-. by rewrite Hs.
Defined.

Definition example_resource : PublicConnector :=
  mkPublicConnector "co-1" "" "" "alice" "Renamed" 5 "ns-1" "log_sink_0.1" SecretsExample.configuration [] ConnectorStatusPhaseReady "" ConnectorReady
    "stable" (mkKafkaConnectionSettings "k-1" "u") (mkSchemaRegistryConnectionSettings "" "") "sa-1" "".
Lemma patch_detaches_status_witness :
  exists s, s ∈ (tables_in (services (snd (save_patch SecretsExample.row SecretsExample.source_type UpdateConnector ConnectorStatusPhaseReady ["pw-1"]
      example_resource SecretsExample.start)))).(connector_statuses) /\ s.(CS.ID) = "co-1" /\ s.(CS.NamespaceID) = None.
Proof.
  destruct (save_patch SecretsExample.row SecretsExample.source_type UpdateConnector ConnectorStatusPhaseReady ["pw-1"]
      example_resource SecretsExample.start) as [[pc|e] w'] eqn:E; [|vm_compute in E; discriminate E].
  assert (patch_phase UpdateConnector ConnectorStatusPhaseReady example_resource <> "") as Hph by discriminate.
  destruct (patch_detaches_status SecretsExample.row SecretsExample.source_type UpdateConnector ConnectorStatusPhaseReady ["pw-1"]
    example_resource SecretsExample.start pc w' Hph E) as (s & Hin & Hid & Hns & _).
  exists s. split; [exact Hin|]. split; [exact Hid | exact Hns].
Defined.
