(* ===== verification/ConnectorResolution.v ===== *)
(** * Connectors: the secrets that the agents receive

    The references of a connector are replaced by its secrets, in base64, before
    its deployment is handed to the agent of its cluster:
    [getSecretsFromVaultAsBase64] of
    [src/internal/connector/internal/services/connectors.go], the presentation of a
    deployment ([presenters/connector_deployment.go]) and the loop of the listing
    for agents ([handlers/connector_agent.go]).  What [ConnectorSecrets] moved to
    the vault comes back. *)
From S2P Require Import Prelude Arrays Errors Status Config Model Store Validation Vault Secrets.
From S2P Require Import ConnectorModel ConnectorStore ConnectorNamespaces ConnectorClusters Connectors ConnectorTypes ConnectorSystem ConnectorHandlers ConnectorSecrets.

Open Scope Z_scope.

(** ** Base64: [base64.StdEncoding.EncodeToString] *)
Definition alphabet : string := "ABCDEFGHIJKLMNOPQRSTUVWXYZabcdefghijklmnopqrstuvwxyz0123456789+/".
Definition pad : Ascii.ascii := "=".
Definition digit (n : Z) : Ascii.ascii := default pad (String.get (Z.to_nat n) alphabet).
Definition byte (c : Ascii.ascii) : Z := Z.of_nat (Ascii.nat_of_ascii c).

Fixpoint EncodeToString (s : string) : string :=
  match s with
  | EmptyString => ""
  | String a EmptyString => String (digit (byte a / 4)) (String (digit (byte a mod 4 * 16)) (String pad (String pad "")))
  | String a (String b EmptyString) =>
      String (digit (byte a / 4)) (String (digit (byte a mod 4 * 16 + byte b / 16)) (String (digit (byte b mod 16 * 4)) (String pad "")))
  | String a (String b (String c s')) =>
      String (digit (byte a / 4)) (String (digit (byte a mod 4 * 16 + byte b / 16))
        (String (digit (byte b mod 16 * 4 + byte c / 64)) (String (digit (byte c mod 64)) (EncodeToString s'))))
  end.

(** The reader of the other side. *)
Fixpoint position (c : Ascii.ascii) (s : string) (n : Z) : Z :=
  match s with EmptyString => n | String c' s' => if Ascii.eqb c c' then n else position c s' (n + 1) end.
Definition value_of (c : Ascii.ascii) : Z := position c alphabet 0.
Definition char_of (n : Z) : Ascii.ascii := Ascii.ascii_of_nat (Z.to_nat n).
Fixpoint DecodeString (s : string) : string :=
  match s with
  | String d1 (String d2 (String d3 (String d4 s'))) =>
      let a := char_of (value_of d1 * 4 + value_of d2 / 16) in
      if Ascii.eqb d3 pad then String a ""
      else
        let b := char_of (value_of d2 mod 16 * 16 + value_of d3 / 4) in
        if Ascii.eqb d4 pad then String a (String b "")
        else String a (String b (String (char_of (value_of d3 mod 4 * 64 + value_of d4)) (DecodeString s')))
  | _ => ""
  end.

Lemma digits_checked : forallb (fun n => (value_of (digit (Z.of_nat n)) =? Z.of_nat n) && negb (Ascii.eqb (digit (Z.of_nat n)) pad)) (seq 0 64) = true.
Proof. vm_compute. reflexivity. Qed.
Lemma digit_ok n : 0 <= n < 64 -> value_of (digit n) = n /\ Ascii.eqb (digit n) pad = false.
Proof.
  intros Hn. pose proof digits_checked as Hall. rewrite forallb_forall in Hall. specialize (Hall (Z.to_nat n)).
  rewrite Z2Nat.id in Hall by lia. rewrite andb_true_iff, Z.eqb_eq, negb_true_iff in Hall. apply Hall. apply in_seq. lia.
Qed.
Lemma byte_range c : 0 <= byte c < 256.
Proof. unfold byte. pose proof (Ascii.nat_ascii_bounded c). lia. Qed.
Lemma char_byte c n : n = byte c -> char_of n = c.
Proof. intros ->. unfold char_of, byte. by rewrite Nat2Z.id, Ascii.ascii_nat_embedding. Qed.

Lemma string_by_threes (P : string -> Prop) : P "" -> (forall a, P (String a "")) -> (forall a b, P (String a (String b ""))) ->
  (forall a b c s, P s -> P (String a (String b (String c s)))) -> forall s, P s.
Proof.
  intros H0 H1 H2 H3. assert (forall n s, (String.length s <= n)%nat -> P s) as Hall; [|by intros s; apply (Hall (String.length s))].
  induction n as [|n IH]; intros s Hs; [by destruct s; [|simpl in Hs; lia]|].
  destruct s as [|a [|b [|c s]]]; [done|done|done|]. apply H3, IH. simpl in Hs. lia.
Qed.

Lemma string_cons c c' s s' : c = c' -> s = s' -> String c s = String c' s'.
Proof. by intros -> ->. Qed.

(** Decoding undoes encoding. *)
Lemma decode_encode_string s : DecodeString (EncodeToString s) = s.
Proof.
  induction s as [|a|a b|a b c s IH] using string_by_threes; [done|..]; pose proof (byte_range a); try pose proof (byte_range b); try pose proof (byte_range c);
    cbn [EncodeToString DecodeString];
    repeat match goal with |- context [value_of (digit ?n)] => rewrite (proj1 (digit_ok n ltac:(Z.to_euclidean_division_equations; lia))) end;
    repeat match goal with |- context [Ascii.eqb (digit ?n) pad] => rewrite (proj2 (digit_ok n ltac:(Z.to_euclidean_division_equations; lia))) end;
    change (Ascii.eqb pad pad) with true; cbv iota;
    repeat (apply string_cons; [apply char_byte; Z.to_euclidean_division_equations; lia|]); done.
Qed.

(** ** Resolution: [services/connectors.go] *)
Section Resolution.
Context `{JsonLibrary} `{PatchLibrary} `{KeyIds}.
Context {D V : Type} `{ConnectorDB D} `{VaultService V}.
Abbreviation SW := (sworld D V).
Abbreviation S A := (M SW ServiceError A).

Definition base64_secret (v : string) : list (string * Node) := [("kind", JString "base64"); ("value", JString (EncodeToString v))].
Definition resolve_secret (node : Node) : M SW error Node :=
  match node with
  | JObject m =>
      match map_lookup m "ref" with
      | Some (JString r) => v <~ on_vault (GetSecretString r) ;; lift (SetObject (base64_secret v) node)
      | Some _ => throw (EPlain "wrong type")
      | None => throw (EPlain "wrong request: wrong key 'ref'")
      end
  | JNull => ret node
  | _ => throw (EPlain "secret field must be set to an object: ")
  end.

Definition resolve_client_secret (connector : Connector) : S Connector :=
  let account := connector.(CO.ServiceAccount) in
  if account.(ClientSecretRef) =?s "" then ret connector else
  v <~ wrap_err (fun _ => GeneralError "could not get kafka client secrets from the vault: %v") (on_vault (GetSecretString account.(ClientSecretRef))) ;;
  ret (connector <| CO.ServiceAccount := mkServiceAccount account.(ServiceAccount_ClientId) (EncodeToString v) account.(ClientSecretRef) |>).

Definition getSecretsFromVaultAsBase64 (connector : Connector) : S Connector :=
  ct <~ wrap_err (fun _ => BadRequest "invalid connector type id: %s") (on_services (GetType connector.(CO.ConnectorTypeId))) ;;
  connector <~ resolve_client_secret connector ;;
  if connector.(CO.ConnectorSpec) =?s "" then ret connector else
  updated <~ wrap_err (fun _ => GeneralError "could not get connectors secrets from the vault: %v")
               (ModifySecrets ct.(CT.JsonSchema) connector.(CO.ConnectorSpec) resolve_secret) ;;
  ret (connector <| CO.ConnectorSpec := updated |>).

(** The connector is changed in place: what was resolved before an error stays.
    Only the client secret can be, since the configuration is written last. *)
Definition ResolveConnectorRefsWithBase64Secrets (connector : Connector) : M SW (bool * Connector * ServiceError) Connector := fun w =>
  match getSecretsFromVaultAsBase64 connector w with
  | (Ok c, w') => (Ok c, w')
  | (Err err, w') =>
      let partial := match (ct <~ wrap_err (fun _ => BadRequest "") (on_services (GetType connector.(CO.ConnectorTypeId))) ;; resolve_client_secret connector) w with
                     | (Ok c, _) => c
                     | (Err _, _) => connector
                     end in
      (Err (err.(Code) =? ErrorGeneral, partial, err), w')
  end.

(** ** Presentation: [presenters/connector_deployment.go] *)
Record LoadedDeployment := mkLoadedDeployment {
  LD_Deployment : ConnectorDeployment;
  LD_Connector : Connector;
  LD_Status : ConnectorDeploymentStatus;
  LD_ShardMetadata : ConnectorShardMetadata;
  LD_Annotations : list Annotation
}.
Record DeploymentView := mkDeploymentView {
  DV_Reference : ConnectorReference;
  DV_ResourceVersion : Z;
  DV_ResolvedSecrets : bool;
  DV_Annotations : list Annotation;
  DV_ConnectorId : string;
  DV_OperatorId : string;
  DV_NamespaceId : string;
  DV_ConnectorResourceVersion : Z;
  DV_ShardMetadata : Node;
  DV_ConnectorSpec : Node;
  DV_DesiredState : string;
  DV_Kafka : KafkaConnectionSettings;
  DV_SchemaRegistry : SchemaRegistryConnectionSettings;
  DV_ClientId : string;
  DV_ClientSecret : string;
  DV_ConnectorTypeId : string;
  DV_Phase : string;
  DV_StatusVersion : Z;
  DV_Conditions : list Condition;
  DV_Operators : Node
}.
(** [unmarshal_operators]: into the operators of a status. *)
Definition PresentConnectorDeployment (unmarshal_operators : string -> result error Node) (from : LoadedDeployment) (resolvedSecrets : bool) :
    result ServiceError DeploymentView :=
  let status := from.(LD_Status) in
  let d := from.(LD_Deployment) in
  conditions <-! (if status.(CDS.Conditions) =?s "" then Ok []
                  else map_err (fun _ => GeneralError "invalid status conditions: %v") (unmarshal_conditions status.(CDS.Conditions))) ;;
  operators <-! (if status.(CDS.Operators) =?s "" then Ok JNull
                 else map_err (fun _ => GeneralError "invalid status operators: %v") (unmarshal_operators status.(CDS.Operators))) ;;
  let metadata := from.(LD_ShardMetadata).(SM.ShardMetadata) in
  if metadata =?s "" then Err (GeneralError "unable to load connector type shard metadata: %+v with id %d, for connector deployment: %s") else
  shardMetadataJson <-! map_err (fun _ => GeneralError "failed to convert shard metadata to json for: %+v, for connector deployment: %s") (json_Unmarshal metadata) ;;
  presented <-! PresentConnector from.(LD_Connector) ;;
  Ok (mkDeploymentView (PresentReference d.(CD.ID) (ObjDeployment d.(CD.ClusterID))) d.(CD.Version) resolvedSecrets
        (PresentConnectorAnnotations from.(LD_Annotations)) presented.(PC_Id) d.(CD.OperatorID) d.(CD.NamespaceID) d.(CD.ConnectorVersion)
        shardMetadataJson presented.(PC_Connector) presented.(PC_DesiredState) presented.(PC_Kafka) presented.(PC_SchemaRegistry)
        presented.(PC_ClientId) presented.(PC_ClientSecret) presented.(PC_ConnectorTypeId) status.(CDS.Phase) status.(CDS.Version) conditions operators).

(** ** The agents: [handlers/connector_agent.go] *)
Section Agent.
Context (unmarshal_operators : string -> result error Node).

Definition with_connector (c : Connector) (d : LoadedDeployment) : LoadedDeployment :=
  mkLoadedDeployment d.(LD_Deployment) c d.(LD_Status) d.(LD_ShardMetadata) d.(LD_Annotations).
Definition resolveConnectorRefsAndPresentDeployment (d : LoadedDeployment) : S DeploymentView :=
  r <~ attempt (ResolveConnectorRefsWithBase64Secrets d.(LD_Connector)) ;;
  match r with
  | Ok c => lift (PresentConnectorDeployment unmarshal_operators (with_connector c d) true)
  | Err (invalidSecrets, c, err) =>
      if invalidSecrets : bool
      then lift (PresentConnectorDeployment unmarshal_operators (with_connector (c <| CO.ConnectorSpec := "{}" |>) d) false)
      else throw err
  end.

(** A deployment that cannot be presented is left out, and the counts are reduced. *)
Fixpoint deployment_items (resources : list LoadedDeployment) (size total : Z) : S (list DeploymentView * Z * Z) :=
  match resources with
  | [] => ret ([], size, total)
  | d :: resources' =>
      converted <~ attempt (resolveConnectorRefsAndPresentDeployment d) ;;
      match converted with
      | Err _ => deployment_items resources' (int32 (size - 1)) (int32 (total - 1))
      | Ok v => rest <~ deployment_items resources' size total ;; ret (v :: rest.1.1, rest.1.2, rest.2)
      end
  end.
End Agent.

(** ** What comes back *)
Definition same_secrets (v v' : V) : Prop := forall n, secret_of v' n = secret_of v n.

(** What becomes of a reference. *)
Definition resolved (v0 : V) (a b : Node) : Prop :=
  match a with
  | JObject m => exists ref x, map_lookup m "ref" = Some (JString ref) /\ b = JObject (base64_secret x) /\
                   forall y, secret_of v0 ref = Some y -> x = y
  | JNull => b = JNull
  | _ => False
  end.

Lemma get_vault name (w : SW) x w' : on_vault (GetSecretString name) w = (Ok x, w') ->
  same_secrets (vault w) (vault w') /\ forall y, secret_of (vault w) name = Some y -> x = y.
Proof.
  unfold on_vault. destruct (GetSecretString name (vault w)) as [r v] eqn:E. intros [= -> <-]. split.
  - intros n. by eapply get_keeps.
  - intros y Hy. by eapply get_value.
Qed.

Lemma resolve_secret_ok v0 n (w : SW) n' w' : same_secrets v0 (vault w) -> resolve_secret n w = (Ok n', w') ->
  same_secrets v0 (vault w') /\ resolved v0 n n'.
Proof.
  intros Hw. destruct n as [|b|t|s|l|m]; simpl; try done; [by intros [= <- <-]|].
  destruct (map_lookup m "ref") as [[| | |r| |]|] eqn:Em; try done. intros (x & w1 & Hg & Hn)%bind_ok. apply get_vault in Hg as [Hs Hx].
  injection Hn as Hn <-. apply SetObject_ok in Hn as ->. split; [intros n; by rewrite Hs|]. exists r, x. split_and!; [done|done|].
  intros y Hy. apply Hx. by rewrite Hw.
Qed.

(** A resolved connector: base64 of the client secret and of each secret that a
    password field refers to. *)
Lemma getSecrets_ok c ct schema (w : SW) c' w' : (forall ct', ct' ∈ (tables_in w.(services)).(connector_types) -> ct'.(CT.ID) = c.(CO.ConnectorTypeId) ->
    ct'.(CT.JsonSchema) = ct.(CT.JsonSchema)) -> compile ct.(CT.JsonSchema) = Ok schema -> plain_schema schema = true ->
  prefix_free (password_paths schema) -> getSecretsFromVaultAsBase64 c w = (Ok c', w') ->
  (c.(CO.ServiceAccount).(ClientSecretRef) <> "" -> exists x, c'.(CO.ServiceAccount).(ServiceAccount_ClientSecret) = EncodeToString x /\
     forall y, secret_of (vault w) c.(CO.ServiceAccount).(ClientSecretRef) = Some y -> x = y) /\
  (c.(CO.ConnectorSpec) <> "" -> exists d d', ajson_Unmarshal c.(CO.ConnectorSpec) = Ok d /\ ajson_Unmarshal c'.(CO.ConnectorSpec) = Ok d' /\
     (forall k n, k ∈ password_paths schema -> value_at k d = Some n -> exists n', resolved (vault w) n n' /\
        forall q, head <$> value_at (k ++ q) d' = head <$> value_at q n') /\
     forall q, (forall k, k ∈ password_paths schema -> ~ k `prefix_of` q) -> head <$> value_at q d' = head <$> value_at q d).
Proof.
  intros Htypes Hc Hplain Hpf Hr. apply bind_ok in Hr as (ct' & w1 & Hg & Hr). apply wrap_err_ok, on_services_ok in Hg as (s & Hg & ->).
  apply GetType_ok in Hg as (Hin & Hid & _ & _). pose proof (Htypes _ Hin Hid) as Hsch. rewrite Hsch in Hr.
  apply bind_ok in Hr as (c1 & w2 & Ha & Hr).
  assert (CO.ConnectorSpec c1 = CO.ConnectorSpec c /\ same_secrets (vault w) (vault w2) /\
    (ClientSecretRef (CO.ServiceAccount c) <> "" -> exists x, ServiceAccount_ClientSecret (CO.ServiceAccount c1) = EncodeToString x /\
       forall y, secret_of (vault w) (ClientSecretRef (CO.ServiceAccount c)) = Some y -> x = y)) as (Hspec & Hsame & Hacc).
  { unfold resolve_client_secret in Ha. destruct (_ =?s "") eqn:Ee.
    - injection Ha as <- <-. split_and!; [done|done|]. by apply String.eqb_eq in Ee.
    - apply bind_ok in Ha as (x & w3 & Hv & Ha). injection Ha as <- <-. apply wrap_err_ok, get_vault in Hv as [Hs Hx].
      split_and!; [done|done|]. intros _. by exists x. }
  destruct (_ =?s "") eqn:Ee.
  - injection Hr as <- _. apply String.eqb_eq in Ee. split; [done|]. by rewrite <- Hspec, Ee.
  - apply bind_ok in Hr as (text & w3 & Hm & Hr). injection Hr as <- <-. split; [done|]. intros _. apply wrap_err_ok in Hm.
    destruct (modify_ok _ _ _ _ _ _ _ Hc Hplain Hm) as (ks & d & root' & Hks & Hnd & Hd & Hv & Ht).
    apply (visit_each _ (fun w => same_secrets (vault w2) (vault w)) (fun a b _ => resolved (vault w2) a b)) in Hv as (_ & _ & Heach & _ & _ & Hrest);
      [| |by intros k k' Hk%Hks Hk'%Hks; apply Hpf|done|done].
    2: { intros n w4 n' w5 Hw4 Hn. apply (resolve_secret_ok (vault w2)) in Hn as [? ?]; [|done]. by split_and!. }
    destruct (ajson_text _ _ Ht) as (d' & Hd' & Hsd). exists d, d'. rewrite <- Hspec. split_and!; [done|done| |].
    + intros k n Hk%Hks Hn. destruct (Heach k Hk n Hn) as (n' & Hn' & Hres). exists n'. split.
      * destruct n; try done. destruct Hres as (ref & x & Hl & -> & Hx). exists ref, x. split_and!; [done|done|].
        intros y Hy. apply Hx. by rewrite Hsame.
      * intros q. rewrite <- Hsd, value_at_app, Hn'. done.
    + intros q Hq. rewrite <- Hsd. apply Hrest. intros k Hk%Hks. by apply Hq.
Qed.

(** ** The round trip *)

(** At a password field of [d]: the agent's document [d'] has the text in base64. *)
Definition agent_gets (d d' : Node) (k : list string) : Prop :=
  forall s, value_at k d = Some (JString s) ->
    head <$> value_at (k ++ ["kind"]) d' = Some (HString "base64") /\
    exists t, head <$> value_at (k ++ ["value"]) d' = Some (HString t) /\ DecodeString t = s.

(** The vault of [w2] still has what was stored up to [w1]. *)
Definition keeps_secrets (w1 w2 : SW) : Prop := forall ref s, stored w1 ref s -> secret_of w2.(vault) ref = Some s.

Lemma reference_read n ref : (forall q, head <$> value_at q n = head <$> value_at q (JObject (secret_reference ref))) ->
  exists m, n = JObject m /\ map_lookup m "ref" = Some (JString ref).
Proof.
  intros Hq. pose proof (Hq []) as Hroot. pose proof (Hq ["ref"]) as Href. destruct n as [| | | | |m]; try done.
  exists m. split; [done|]. simpl in Href. destruct (map_lookup m "ref") as [x|]; [|done]. injection Href as Href. by rewrite (head_string _ _ Href).
Qed.

Lemma agent_gets_moved e paths d d' d'' (w1 w2 : SW) k : documents_moved e paths d d' w1 -> keeps_secrets w1 w2 -> k ∈ paths ->
  (forall k n, k ∈ paths -> value_at k d' = Some n -> exists n', resolved (vault w2) n n' /\
     forall q, head <$> value_at (k ++ q) d'' = head <$> value_at q n') ->
  agent_gets d d'' k.
Proof.
  intros (Hm & _ & _) Hkeep Hk Hres s Hs. destruct (Hm k _ Hk Hs) as (n' & (ref & -> & Hst) & Hq).
  destruct (value_at k d') as [n|] eqn:En; [|pose proof (Hq []) as Hroot; by rewrite app_nil_r, En in Hroot].
  destruct (reference_read n ref) as (m & -> & Href); [intros q; by rewrite <- Hq, value_at_app, En|].
  destruct (Hres k _ Hk En) as (n' & (ref' & x & Href' & -> & Hx) & Hq'). rewrite Href in Href'. injection Href' as <-.
  rewrite !Hq'. split; [done|]. exists (EncodeToString x). split; [done|]. rewrite decode_encode_string. by apply Hx, Hkeep.
Qed.

(** [C29] The agents get the secrets that the users gave: when the secrets of a
    connector were moved to the vault, by its creation or by a patch, and the vault
    still has them and the type its schema when the deployment is read, then the
    client secret of the resolved connector and the value of each password field
    decode to the texts that were moved, and outside of the password fields the
    configuration is unchanged.  In the schema no password field lies inside
    another, and the property names start with a letter or an underscore, go on
    with letters, digits, underscores, dashes and dots, and are not [length], which
    the path language takes for the number of elements. *)
Theorem secrets_come_back c ct schema e (w w1 w2 w3 : SW) c' c'' :
  compile ct.(CT.JsonSchema) = Ok schema -> plain_schema schema = true -> prefix_free (password_paths schema) ->
  moveSecretsToVault c ct e w = (Ok c', w1) -> keeps_secrets w1 w2 ->
  (forall ct', ct' ∈ (tables_in w2.(services)).(connector_types) -> ct'.(CT.ID) = c'.(CO.ConnectorTypeId) -> ct'.(CT.JsonSchema) = ct.(CT.JsonSchema)) ->
  getSecretsFromVaultAsBase64 c' w2 = (Ok c'', w3) ->
  (c.(CO.ServiceAccount).(ServiceAccount_ClientSecret) <> "" ->
     DecodeString c''.(CO.ServiceAccount).(ServiceAccount_ClientSecret) = c.(CO.ServiceAccount).(ServiceAccount_ClientSecret)) /\
  (c.(CO.ConnectorSpec) <> "" -> exists d d'', ajson_Unmarshal c.(CO.ConnectorSpec) = Ok d /\ ajson_Unmarshal c''.(CO.ConnectorSpec) = Ok d'' /\
     (forall k, k ∈ password_paths schema -> agent_gets d d'' k) /\
     forall q, (forall k, k ∈ password_paths schema -> ~ k `prefix_of` q) -> head <$> value_at q d'' = head <$> value_at q d).
Proof.
  intros Hc Hplain Hpf Hm Hkeep Htypes Hr. destruct (moveSecretsToVault_ok _ _ _ _ _ _ _ Hc Hplain Hpf Hm) as (_ & _ & _ & Hst & Hdoc).
  destruct (getSecrets_ok _ _ _ _ _ _ Htypes Hc Hplain Hpf Hr) as [Hacc Hback]. split.
  - intros Hne. destruct (Hst Hne) as [Hs Href]. destruct (Hacc Href) as (x & -> & Hx). rewrite decode_encode_string. by apply Hx, Hkeep.
  - intros Hne. destruct (Hdoc Hne) as (d & d' & Hd & Hd' & Hmoved).
    destruct Hback as (d1 & d'' & Hd1 & Hd'' & Hres & Hrest); [by eapply read_not_empty|].
    rewrite Hd' in Hd1. injection Hd1 as <-. exists d, d''. split_and!; [done|done| |].
    + intros k Hk. by eapply agent_gets_moved.
    + intros q Hq. destruct Hmoved as (_ & _ & Hm'). by rewrite Hrest, Hm'.
Qed.
End Resolution.

(** ** Example: a new source whose secrets are moved and read again *)
Module ResolutionExample.
Import SecretsExample.

Definition fresh : Connector :=
  row <| CO.ServiceAccount := mkServiceAccount "sa-2" "t0psecret" "" |>
      <| CO.ConnectorSpec := text_of (JObject [("user", JString "carol"); ("password", JString "letmein"); ("proxy", JObject [("token", JString "abc")])]) |>.
Definition bare : Connector := row <| CO.ConnectorSpec := text_of (JObject [("user", JString "bob"); ("password", JObject [])]) |>.
Definition deployed (c : Connector) : LoadedDeployment :=
  mkLoadedDeployment (SystemExample.deployment "dep-1" "co-1" 5) c (CDS.mkConnectorDeploymentStatus "dep-1" false "ready" 1 "" "" false)
    (SM.mkConnectorShardMetadata 1 "log_sink_0.1" "stable" 1 None "{}") [].
End ResolutionExample.

(** A patch may put an empty object into a password field that had no value: it is
    stored as it is, and from then on the agent of the connector gets an empty
    configuration. *)
Theorem empty_secret_reaches_the_agent :
  exists c w w', moveSecretsToVault ResolutionExample.bare SecretsExample.source_type false SecretsExample.start = (Ok c, w) /\
    exists v, resolveConnectorRefsAndPresentDeployment (fun _ => Ok JNull) (ResolutionExample.deployed c) w = (Ok v, w') /\
      v.(DV_ResolvedSecrets) = false /\ v.(DV_ConnectorSpec) = JObject [].
Proof. do 3 eexists. split; [vm_compute; reflexivity|]. eexists. split_and!; vm_compute; reflexivity. Qed.

(** ** Witnesses *)
Lemma example_keeps (w : sworld MemC.mem Tmp.TmpVaultService) : keeps_secrets w w.
Proof. by intros ref s (i & _ & _ & Hs). Qed.

Lemma secrets_come_back_witness :
  exists c' w1 c'' w3, moveSecretsToVault ResolutionExample.fresh SecretsExample.source_type true SecretsExample.start = (Ok c', w1) /\
    getSecretsFromVaultAsBase64 c' w1 = (Ok c'', w3) /\
    DecodeString c''.(CO.ServiceAccount).(ServiceAccount_ClientSecret) = "t0psecret" /\
    exists d d'', ajson_Unmarshal ResolutionExample.fresh.(CO.ConnectorSpec) = Ok d /\ ajson_Unmarshal c''.(CO.ConnectorSpec) = Ok d'' /\ agent_gets d d'' ["password"].
Proof.
  destruct (moveSecretsToVault ResolutionExample.fresh SecretsExample.source_type true SecretsExample.start) as [[c'|e] w1] eqn:E;
    [|vm_compute in E; discriminate E].
  destruct (getSecretsFromVaultAsBase64 c' w1) as [[c''|e] w3] eqn:E'; [|vm_compute in E; injection E as <- <-; vm_compute in E'; discriminate E'].
  assert (compile SecretsExample.source_type.(CT.JsonSchema) = Ok JsonExample.source_schema) as Hc by (vm_compute; reflexivity).
  destruct (example_schemas SecretsExample.source_type JsonExample.source_schema ltac:(by apply list_elem_of_singleton) Hc) as [Hplain Hpf].
  assert (forall ct', ct' ∈ (tables_in w1.(services)).(connector_types) -> ct'.(CT.ID) = c'.(CO.ConnectorTypeId) ->
    ct'.(CT.JsonSchema) = SecretsExample.source_type.(CT.JsonSchema)) as Htypes.
  { rewrite (proj1 (move_only_new _ _ _ _ _ _ E)). by intros ct' ->%list_elem_of_singleton. }
  destruct (secrets_come_back ResolutionExample.fresh SecretsExample.source_type JsonExample.source_schema true SecretsExample.start w1 w1 w3 c' c''
    Hc Hplain Hpf E (example_keeps w1) Htypes E') as [Hsecret Hdoc].
  destruct (Hdoc ltac:(discriminate)) as (d & d'' & Hd & Hd'' & Hk & _).
  exists c', w1, c'', w3. split; [reflexivity|]. split; [exact E'|]. split; [apply Hsecret; discriminate|].
  exists d, d''. split; [exact Hd|]. split; [exact Hd''|]. apply Hk. by apply list_elem_of_In; left.
Defined.
